(* ===== verification/_CoqProject ===== *)
-Q . S2P
Prelude.v
Types.v
World.v
Status.v
Machine.v
PeInfra.v
TestInfra.v
Pgt.v
PgtMap.v
Pcie.v
PcieTable.v
PcieDiscovery.v
PcieCheck.v
PcieEnum.v
Memory.v
Timer.v
Peripherals.v
Gic.v
Its.v
Iovirt.v
GicInt.v
SmmuReg.v
SmmuQueue.v
SmmuTables.v
Smmu.v
Fdt.v
PalPcie.v
PalExerciser.v
PalIovirt.v
PalIort.v
PalIortAdd.v
PalIortTable.v
PalPeripherals.v
PalPe.v
PalTimer.v
PalGic.v
PalAcpi.v
PalMadt.v
PalGtdt.v
PcieDevice.v
TestEntry.v
TestRegs.v
TestPcie.v
TestVerdict.v
TestRules.v
TestIrq.v
TestPe.v
TestSmmu.v
TestTimer.v
TestGic.v
TestMemory.v
TestPeripheral.v
App.v
