(* ===== verification/Prelude.v ===== *)
(** * Verification library for the BSA architecture compliance suite

    The suite runs on the bare machine as a UEFI application. It asks the platform
    layer (src/platform/) for tables that describe the machine, keeps them in the
    validation layer (src/val/), and runs tests (src/test_pool/) that use the
    validation layer to exercise PEs, interrupt controllers, timers, PCIe, memory
    and SMMUs. This library models the validation layer and its drivers, both UEFI
    platform layers, and most of the tests.

    ** The model

    - Everything runs in one monad [M St A] (this file): state passing, the lines
      printed, and two ways not to return: [Fault] for undefined behaviour (a NULL
      pointer, an index outside its array, an uninitialised local, a signed
      overflow) and [OutOfFuel] for a loop that has not ended yet. Integers are [Z]
      with the reductions [u8] to [u64] written where C converts.
    - Globals, heap and memory are one record [World.world]; hardware and firmware
      are the class [World.Platform] over an arbitrary device state, so register
      reads may have side effects and answer anything. [AllocLaws] is what is
      assumed of the allocator. EDK2 and libfdt, which are not in the repository, are
      the classes [Edk2], [SystemTable], [Acpi], [Fdt], [PciIo], [UefiMemory], ...
      Machine has executable instances, on which each theorem with hypotheses is
      applied to a concrete machine.
    - The validation layer sees the platform layer through classes ([PalTables],
      [PalPci], [PalExerciser], [PalSmmu]), and the tests through [TestPool]: its
      theorems are proved against those, for either platform layer.
    - Reasoning is by [wp] (the program returns and the result satisfies ...),
      [eval] (it returns exactly this, in this state, printing nothing that
      matters) and [diverges] (no fuel is enough).

    ** Fuel

    A loop the code bounds (a [for] over a table, a poll with a counter that is
    decremented) is structural in Rocq, or a theorem states the fuel that always
    suffices: one more than the rounds of the counter. A loop the code does not
    bound takes fuel, and the theorems either give the fuel in terms of the data
    (the length of the capability chain, the entries before a terminator) or show
    that none is enough ([find_capability_cycle], [gic_wake_up_unbounded],
    [smmu_poll_unbounded]).

    ** Files

    - Prelude: integers, monad, loops, program logic, hints.
    - Types: macros, enumerators and structures of src/val/include/.
    - World: globals; MMIO, memory, cache and SMC primitives (pal_misc.c, pal_pe.c).
    - Status: acs_status.c, bsa_acs_common.h. Result words and their report.
    - Machine: concrete platforms for the witnesses.
    - PeInfra, TestInfra: acs_pe.c, acs_pe_infra.c, acs_test_infra.c. The PE table;
      starting a test, handing it to other PEs, waiting, the verdict.
    - Pgt, PgtMap: acs_pgt.c. Translation tables; what a walk of them finds.
    - Pcie, PcieTable, PcieDiscovery, PcieCheck, PcieEnum: acs_pcie.c, pcie.c.
      Configuration space, capability chains, the BDF table and its specification,
      register checks, bus numbering.
    - Memory, Timer, Peripherals: acs_memory.c, acs_timer.c, acs_timer_support.c,
      acs_wd.c, acs_wakeup.c, acs_peripherals.c, acs_dma.c, acs_exerciser.c.
    - Gic: acs_gic.c, registers of acs_gic_support.c, sys_arch_src/gic/.
    - Its: the ITS driver of the platform layer (src_gic_its/) and the MSI operations
      of pal_gic.c. Queue and commands, tables, mapping an interrupt.
    - GicInt: bsa_exception.c, acs_gic_support.c, acs_gic_v2m.c. Handlers and their
      dispatch, MSI-X tables, MSIs from request to release, GICv2m frames.
    - Iovirt: acs_iovirt.c. Requester to stream and device identifiers.
    - SmmuReg, SmmuQueue, SmmuTables, Smmu: smmu_reg.h, smmu_v3.c, acs_smmu.c.
      Registers and descriptors; the command queue; stream and context tables;
      probe, reset, map, unmap.
    - Fdt: pal_acpi.c, pal_dt.c. Finding an ACPI table or a node of the device tree.
    - PalPe, PalTimer, PalGic, PalPcie, PalPeripherals: pal_pe.c, pal_timer_wd.c,
      pal_gic.c, pal_pcie.c, pal_pcie_enumeration.c and pal_peripherals.c of
      src/platform/pal_uefi_dt/src/. How the PE, timer, watchdog, interrupt controller,
      PCIe, peripheral and memory tables are built from ACPI, a device tree, PCI headers
      or the UEFI memory map.
    - PalExerciser: pal_exerciser.c. The reference driver of the exerciser card.
    - PalIovirt, PalIort, PalIortAdd, PalIortTable: pal_iovirt.c. The builder of the
      I/O virtualisation table; its invariant; one node of the IORT; all of it.
    - PalAcpi, PalMadt, PalGtdt: src/platform/pal_uefi/src/, where it differs from
      pal_uefi_dt/; what both layers make of the MADT, the GTDT and the MCFG. The files
      pal_misc.c, pal_exerciser.c, pal_pcie_enumeration.c, pal_smmu.c and src_gic_its/ are
      the same in the two layers and are modelled once.
    - PcieDevice, TestEntry, TestRegs, TestPcie: src/test_pool/pcie/. What tests ask of a
      device, the frame of a test, the table-driven tests, the other tests.
    - TestVerdict, TestRules: the verdict of a single-PE test; what the tests over the
      functions enforce.
    - TestIrq, TestPe, TestSmmu, TestTimer: src/test_pool/pe/, smmu/, timer/, watchdog/ and
      power_wakeup/. Waiting for a handler; the tests, and what those that read the
      identification registers enforce.
    - TestGic, TestMemory, TestPeripheral: src/test_pool/gic/, gic_v2m/, memory_map/ and
      peripherals/. The tests, and the printing to the UART (pal_misc.c).
    - App: src/uefi_app/BsaAcsMain.c. The command line, the tables, the groups of tests and
      the totals; what the option -skip does.
    A C function keeps its name and the order of its parameters; output parameters
    are returned, as an option when the function does not always write them. A
    pointer into a table is the index of the entry.

    ** What the theorems show

    - Verdicts: every test of several PEs reaches a verdict within the timeout, and a
      PASS means that every PE reported, none of them a failure or a skip, or that the one
      PE the timeout was charged to reported over the failure recorded for it
      ([test_verdict_sound]; an execution where this hides PEs that never answer is
      [late_report_passes]); passed and failed tests never exceed the started ones
      ([suite_books_balance]); a payload is handed to a PE by the CPU_ON calls that name it
      ([execute_on_pe_post]).
    - Tables: queries by number or address agree with searches over lists
      ([memory_get_info_first], [iovirt_info_nth], [peripheral_get_info_nth], ...),
      and identifier translation with a specification ([device_info_correct]).
    - PCIe: every configuration access is one device access at the right address;
      discovery lists exactly the functions that answer ([create_bdf_table_exact]).
    - Translation: the tables built for a region map its pages and their attributes
      are read back, within limits that are exhibited ([pgt_create_maps]).
    - Drivers: the registers each operation writes, in order; the SMMU's queue is a
      bounded counter; streams abort until they are mapped; the ITS commands of a
      mapping, and which of their fields the ITS reads back as meant; an installed
      handler is the one that runs.
    - Errors: timeouts that are never reached or reported as success, searches
      without end, results that are never written. They are stated as theorems
      about the code as it is.
    - Platform tables: what is built from a device tree or from the ACPI tables is one
      entry per node or structure, in order ([gic_table_from_dt], [pe_table_from_madt],
      [timers_from_gtdt], ...); the table built from an IORT without
      performance monitors has the blocks of its nodes, with their data, mappings and
      references, and satisfies the invariant the queries of Iovirt assume
      ([iovirt_table_from_iort]); a structure of length 0 is a walk without end
      ([madt_zero_length_hangs]).
    - Tests: nine of the tests over the functions fail exactly when a function breaks the
      rule their code checks ([function_rules_verdict]); the check of a register field finds
      out exactly whether the field is as its entry says ([bitfield_check_exact]); 23 of the
      PE tests return what their rule says of the identification registers
      ([register_rules_verdict]).
    - Application: -skip skips exactly the tests it lists, up to the nine that fit
      ([skip_option_exact]).

    ** Not modelled

    - The Linux application: its command line and proc files.
    - The exerciser tests: parameters of the model, since they need a memory the cards and
      the PE share; test_os_u002.c, test_os_p005.c and test_os_p006.c, which are not called here.
    - The debug dumps of the device tree are modelled as the lines they print; EDK2's
      headers and constants are arguments of the model.
    - Concurrency between PEs is modelled where the code relies on it: another PE
      changes its own slot of the shared memory between two looks at it. *)

From stdpp Require Export base tactics numbers list gmap strings.
From Stdlib Require Export ZArith Lia.

Declare Scope c_scope.
Delimit Scope c_scope with c.
#[global] Open Scope Z_scope.

(** ** Machine integers *)

(** The C unsigned conversions: reduction modulo [2^8], [2^16], [2^32], [2^64]. *)
Definition u8 (x : Z) : Z := x mod 2 ^ 8.
Definition u16 (x : Z) : Z := x mod 2 ^ 16.
Definition u32 (x : Z) : Z := x mod 2 ^ 32.
Definition u64 (x : Z) : Z := x mod 2 ^ 64.

(** The signed view of a 32-bit pattern, as [(int)x] reads it. *)
Definition s32 (x : Z) : Z := if u32 x <? 2 ^ 31 then u32 x else u32 x - 2 ^ 32.

(** Bitwise complement at a given width: [~x] for a [uint32_t] and a [uint64_t]. *)
Definition not32 (x : Z) : Z := u32 (Z.lnot x).
Definition not64 (x : Z) : Z := u64 (Z.lnot x).

(** A C value used as a condition. *)
Definition truthy (x : Z) : bool := negb (x =? 0).
Definition of_bool (b : bool) : Z := if b then 1 else 0.

(** ** The effect monad *)

(** One line of console output: the format string and the value printed with it. *)
Record event := Event { ev_fmt : string; ev_data : Z }.

(** What running a piece of C can do: return with a new state and the lines it
    printed; run out of the fuel given to an unbounded loop; or do something
    undefined (dereference NULL, index out of bounds, read an uninitialised
    local, divide by zero). *)
Inductive outcome (St A : Type) : Type :=
| Ret (a : A) (s : St) (out : list event)
| OutOfFuel
| Fault.
Arguments Ret {St A} a s out.
Arguments OutOfFuel {St A}.
Arguments Fault {St A}.

Definition M (St A : Type) : Type := St -> outcome St A.

Section monad.
Context {St : Type}.

Definition ret {A} (a : A) : M St A := fun s => Ret a s [].

Definition bind {A B} (m : M St A) (f : A -> M St B) : M St B := fun s =>
  match m s with
  | Ret a s1 o1 =>
      match f a s1 with
      | Ret b s2 o2 => Ret b s2 (o1 ++ o2)
      | OutOfFuel => OutOfFuel
      | Fault => Fault
      end
  | OutOfFuel => OutOfFuel
  | Fault => Fault
  end.

Definition get : M St St := fun s => Ret s s [].
Definition put (s : St) : M St () := fun _ => Ret () s [].
Definition modify (f : St -> St) : M St () := fun s => Ret () (f s) [].
Definition gets {A} (f : St -> A) : M St A := fun s => Ret (f s) s [].
Definition emit (e : event) : M St () := fun s => Ret () s [e].
Definition fault {A} : M St A := fun _ => Fault.
Definition out_of_fuel {A} : M St A := fun _ => OutOfFuel.

(** Reading a value that may be missing is undefined behaviour when it is. *)
Definition need {A} (o : option A) : M St A :=
  match o with Some a => ret a | None => fault end.

(** The value of an [int] expression: undefined when it does not fit. *)
Definition int_ok (x : Z) : M St Z := if (- 2 ^ 31 <=? x) && (x <? 2 ^ 31) then ret x else fault.
End monad.

Notation "'let*' x := m 'in' k" := (bind m (fun x => k))
  (at level 10, x binder, m at level 100, k at level 200) : c_scope.
Notation "'let*' ' p := m 'in' k" := (bind m (fun x => match x with p => k end))
  (at level 10, p pattern, m at level 100, k at level 200) : c_scope.
Notation "m ;; k" := (bind m (fun _ => k))
  (at level 100, k at level 200, right associativity) : c_scope.
Notation "'when' b 'then' m" := (if b then m else ret tt)
  (at level 99, b at level 99, m at level 99) : c_scope.

(** ** Loops *)

(** What one run of a loop body decides: go round again with new values of the
    loop's variables, or leave the loop ([break], or [return] from inside it). *)
Inductive ctl (A R : Type) : Type :=
| Continue (a : A)
| Break (r : R).
Arguments Continue {A R} a.
Arguments Break {A R} r.

Section loops.
Context {St : Type}.
#[local] Open Scope c_scope.

(** [for (i = i0; i < i0 + n; i++)] with a body that may leave early. *)
Fixpoint for_ {A R} (n : nat) (i : Z) (body : Z -> A -> M St (ctl A R)) (a : A)
  : M St (ctl A R) :=
  match n with
  | O => ret (Continue a)
  | S n' =>
      let* r := body i a in
      match r with
      | Continue a' => for_ n' (i + 1) body a'
      | Break v => ret (Break v)
      end
  end.

(** [while (1)] whose body decides when to leave. *)
Fixpoint while_ {A R} (fuel : nat) (body : A -> M St (ctl A R)) (a : A) : M St R :=
  match fuel with
  | O => out_of_fuel
  | S fuel' =>
      let* r := body a in
      match r with
      | Continue a' => while_ fuel' body a'
      | Break v => ret v
      end
  end.

(** [for] loops that carry a value and never leave early. *)
Definition for_acc {A} (n : nat) (i : Z) (body : Z -> A -> M St A) (a : A) : M St A :=
  let* r := for_ (R := Empty_set) n i (fun i a => let* a' := body i a in ret (Continue a')) a in
  match r with
  | Continue a' => ret a'
  | Break v => match v with end
  end.

(** [for] loops that neither carry a value nor leave early. *)
Definition for_each (n : nat) (i : Z) (body : Z -> M St ()) : M St () :=
  for_ (R := Empty_set) n i (fun i _ => body i ;; ret (Continue tt)) tt ;; ret tt.
End loops.

(** ** Total-correctness reasoning *)

(** [wp m s Q]: run from [s], [m] returns (no fault, enough fuel) and the value
    and state it returns satisfy [Q]. Console output is left free. *)
Definition wp {St A} (m : M St A) (s : St) (Q : A -> St -> Prop) : Prop :=
  match m s with Ret a s' _ => Q a s' | _ => False end.

(** [eval m s a s']: run from [s], [m] returns [a] and leaves [s']. *)
Definition eval {St A} (m : M St A) (s : St) (a : A) (s' : St) : Prop :=
  wp m s (fun b t => b = a /\ t = s').

(** The console output of a run, [None] when it does not return. *)
Definition output {St A} (m : M St A) (s : St) : option (list event) :=
  match m s with Ret _ _ o => Some o | _ => None end.

(** [diverges m s]: the fuel ran out. *)
Definition diverges {St A} (m : M St A) (s : St) : Prop := m s = OutOfFuel.

Section wp.
Context {St : Type}.
#[local] Open Scope c_scope.

Lemma wp_ret_iff {A} (a : A) (s : St) Q : wp (ret a) s Q <-> Q a s.
Proof. reflexivity. Qed.

Lemma wp_bind_iff {A B} (m : M St A) (f : A -> M St B) s Q :
  wp (bind m f) s Q <-> wp m s (fun a s' => wp (f a) s' Q).
Proof.
  unfold wp, bind. destruct (m s) as [a s1 o| |]; [|tauto|tauto].
  destruct (f a s1); tauto.
Qed.

Lemma wp_ret {A} (a : A) (s : St) (Q : A -> St -> Prop) : Q a s -> wp (ret a) s Q.
Proof. exact id. Qed.

Lemma wp_bind {A B} (m : M St A) (f : A -> M St B) s Q :
  wp m s (fun a s' => wp (f a) s' Q) -> wp (bind m f) s Q.
Proof. apply wp_bind_iff. Qed.

Lemma wp_get (s : St) (Q : St -> St -> Prop) : Q s s -> wp get s Q.
Proof. exact id. Qed.
Lemma wp_put (s t : St) (Q : () -> St -> Prop) : Q tt t -> wp (put t) s Q.
Proof. exact id. Qed.
Lemma wp_modify (s : St) g (Q : () -> St -> Prop) : Q tt (g s) -> wp (modify g) s Q.
Proof. exact id. Qed.
Lemma wp_gets {A} (s : St) (g : St -> A) (Q : A -> St -> Prop) :
  Q (g s) s -> wp (gets g) s Q.
Proof. exact id. Qed.
Lemma wp_emit (s : St) e (Q : () -> St -> Prop) : Q tt s -> wp (emit e) s Q.
Proof. exact id. Qed.
Lemma wp_need {A} (o : option A) a s (Q : A -> St -> Prop) :
  o = Some a -> Q a s -> wp (need o) s Q.
Proof. intros ->. exact id. Qed.

Lemma wp_int_ok x (s : St) (Q : Z -> St -> Prop) : - 2 ^ 31 <= x < 2 ^ 31 -> Q x s -> wp (int_ok x) s Q.
Proof.
  intros [H1 H2] HQ. unfold int_ok.
  apply Z.leb_le in H1. apply Z.ltb_lt in H2. rewrite H1, H2. exact HQ.
Qed.

Lemma wp_mono {A} (m : M St A) s (P Q : A -> St -> Prop) :
  wp m s P -> (forall a s', P a s' -> Q a s') -> wp m s Q.
Proof. unfold wp. destruct (m s); eauto. Qed.

(** [wp] is monotone in its postcondition, so weaker ones can be rewritten in it. *)
#[export] Instance wp_proper {A} (m : M St A) (s : St) :
  Proper (pointwise_relation A (pointwise_relation St impl) ==> impl) (wp m s).
Proof. intros P Q HPQ HP. eapply wp_mono; [exact HP|]. intros a t. apply HPQ. Qed.

Lemma wp_conj {A} (m : M St A) s (P Q : A -> St -> Prop) :
  wp m s P -> wp m s Q -> wp m s (fun a s' => P a s' /\ Q a s').
Proof. unfold wp. destruct (m s); tauto. Qed.

Lemma wp_eval {A} (m : M St A) s a s' (Q : A -> St -> Prop) :
  eval m s a s' -> Q a s' -> wp m s Q.
Proof. intros H HQ. eapply wp_mono; [exact H|]. by intros ?? [-> ->]. Qed.

Lemma eval_wp {A} (m : M St A) s a s' (Q : A -> St -> Prop) :
  eval m s a s' -> wp m s Q -> Q a s'.
Proof. unfold eval, wp. by destruct (m s); [intros [-> ->]| |]. Qed.

Lemma eval_bind {A B} (m : M St A) (f : A -> M St B) s a s1 b s2 :
  eval m s a s1 -> eval (f a) s1 b s2 -> eval (bind m f) s b s2.
Proof. intros H1 H2. apply wp_bind. eapply wp_eval; eauto. Qed.

Lemma bind_run {A B} (m : M St A) (f : A -> M St B) s a s1 o1 :
  m s = Ret a s1 o1 ->
  bind m f s = match f a s1 with
               | Ret b s2 o2 => Ret b s2 (o1 ++ o2)
               | OutOfFuel => OutOfFuel
               | Fault => Fault
               end.
Proof. unfold bind. by intros ->. Qed.

Lemma bind_fault {A B} (m : M St A) (f : A -> M St B) s : m s = Fault -> bind m f s = Fault.
Proof. unfold bind. by intros ->. Qed.

Lemma eval_ret {A} (a : A) (s : St) : eval (ret a) s a s.
Proof. by split. Qed.

Lemma eval_gets {A} (f : St -> A) (s : St) a : f s = a -> eval (gets f) s a s.
Proof. by split. Qed.
Lemma eval_need {A} (o : option A) a (s : St) : o = Some a -> eval (need o) s a s.
Proof. by intros ->. Qed.

Lemma eval_det {A} (m : M St A) s a s1 b s2 :
  eval m s a s1 -> eval m s b s2 -> a = b /\ s1 = s2.
Proof.
  unfold eval, wp. destruct (m s); [|done|done]. intros [-> ->] [-> ->]. done.
Qed.

Lemma wp_if {A} (b : bool) (m1 m2 : M St A) s Q :
  (b = true -> wp m1 s Q) -> (b = false -> wp m2 s Q) ->
  wp (if b then m1 else m2) s Q.
Proof. destruct b; auto. Qed.

(** The invariant rule of a counted loop. *)
Lemma wp_for {A R} (I : Z -> A -> St -> Prop) n i0 (body : Z -> A -> M St (ctl A R)) a s Q :
  I i0 a s ->
  (forall i a s, i0 <= i < i0 + Z.of_nat n -> I i a s ->
     wp (body i a) s (fun r s' =>
       match r with Continue a' => I (i + 1) a' s' | Break v => Q (Break v) s' end)) ->
  (forall a s, I (i0 + Z.of_nat n) a s -> Q (Continue a) s) ->
  wp (for_ n i0 body a) s Q.
Proof.
  revert i0 a s. induction n as [|n IH]; intros i0 a s HI Hbody Hend; simpl.
  - apply wp_ret, Hend. by rewrite Z.add_0_r.
  - apply wp_bind. eapply wp_mono; [apply Hbody; [lia|done]|].
    intros [a'|v] s' H; [|done].
    apply IH; [done| |].
    + intros i b t Hi Hb. apply Hbody; [lia|done].
    + intros b t Hb. apply Hend. by replace (i0 + Z.of_nat (S n)) with (i0 + 1 + Z.of_nat n) by lia.
Qed.

(** The rule of an unbounded loop: an invariant and a measure below the fuel. *)
Lemma wp_while {A R} (I : A -> St -> Prop) (mu : A -> St -> nat) fuel
    (body : A -> M St (ctl A R)) a s Q :
  I a s -> (mu a s < fuel)%nat ->
  (forall a s, I a s ->
     wp (body a) s (fun r s' =>
       match r with
       | Continue a' => I a' s' /\ (mu a' s' < mu a s)%nat
       | Break v => Q v s'
       end)) ->
  wp (while_ fuel body a) s Q.
Proof.
  revert a s. induction fuel as [|fuel IH]; intros a s HI Hmu Hbody; [lia|]; simpl.
  apply wp_bind. eapply wp_mono; [by apply Hbody|].
  intros [a'|v] s' H; [|done]. destruct H as [HI' Hlt]. apply IH; auto with lia.
Qed.

Lemma wp_for_each (I : Z -> St -> Prop) n i0 (body : Z -> M St ()) s Q :
  I i0 s ->
  (forall i s, i0 <= i < i0 + Z.of_nat n -> I i s -> wp (body i) s (fun _ s' => I (i + 1) s')) ->
  (forall s, I (i0 + Z.of_nat n) s -> Q tt s) ->
  wp (for_each n i0 body) s Q.
Proof.
  intros H0 Hb He. apply wp_bind.
  apply (wp_for (fun i _ s => I i s)); [done| |].
  - intros i [] t Hi HI. apply wp_bind. eapply wp_mono; [by apply Hb|].
    intros [] t' HI'. by apply wp_ret.
  - intros [] t HI. by apply wp_ret, He.
Qed.

Lemma wp_for_acc {A} (I : Z -> A -> St -> Prop) n i0 (body : Z -> A -> M St A) a s
    (Q : A -> St -> Prop) :
  I i0 a s ->
  (forall i a s, i0 <= i < i0 + Z.of_nat n -> I i a s ->
     wp (body i a) s (fun a' s' => I (i + 1) a' s')) ->
  (forall a s, I (i0 + Z.of_nat n) a s -> Q a s) ->
  wp (for_acc n i0 body a) s Q.
Proof.
  intros H0 Hb He. apply wp_bind.
  apply (wp_for I); [done| |].
  - intros i b t Hi HI. apply wp_bind. eapply wp_mono; [by apply Hb|].
    intros b' t' HI'. by apply wp_ret.
  - intros b t HI. by apply wp_ret, He.
Qed.

(** A body that always goes round again never leaves the loop, whatever the fuel. *)
Lemma while_diverges {A R} (I : A -> St -> Prop) fuel (body : A -> M St (ctl A R)) a s :
  I a s ->
  (forall a s, I a s ->
     wp (body a) s (fun r s' => exists a', r = Continue a' /\ I a' s')) ->
  diverges (while_ fuel body a) s.
Proof.
  unfold diverges. revert a s. induction fuel as [|fuel IH]; intros a s HI Hb; [done|]; simpl.
  pose proof (Hb a s HI) as Hba. unfold wp in Hba. unfold bind.
  destruct (body a s) as [r s1 o| |]; [|done..].
  destruct Hba as (a' & -> & Ha'). by rewrite (IH a' s1 Ha' Hb).
Qed.

Lemma diverges_bind {A B} (m : M St A) (f : A -> M St B) s :
  diverges m s -> diverges (bind m f) s.
Proof. unfold diverges, bind. by intros ->. Qed.

Lemma diverges_bind_eval {A B} (m : M St A) (f : A -> M St B) s a s' :
  eval m s a s' -> diverges (f a) s' -> diverges (bind m f) s.
Proof.
  unfold eval, wp, diverges, bind. destruct (m s); [|done|done].
  intros [-> ->] ->. done.
Qed.

Lemma diverges_bind_wp {A B} (m : M St A) (f : A -> M St B) s (P : A -> St -> Prop) :
  wp m s P -> (forall a s', P a s' -> diverges (f a) s') -> diverges (bind m f) s.
Proof.
  unfold wp, diverges, bind. destruct (m s) as [a s1 o| |]; [|done|done].
  intros HP Hf. by rewrite (Hf a s1 HP).
Qed.

(** A loop that looks for the first entry of a table satisfying [p]. *)
Lemma eval_for_find {X R} (l : list X) (p : X -> bool) (f : X -> R) (n : nat)
    (body : Z -> () -> M St (ctl () R)) s :
  (n <= length l)%nat ->
  (forall k e, l !! k = Some e -> (k < n)%nat ->
     eval (body (Z.of_nat k) tt) s (if p e then Break (f e) else Continue tt) s) ->
  eval (for_ n 0 body tt) s
    (match List.find p (take n l) with Some e => Break (f e) | None => Continue tt end) s.
Proof.
  intros Hn Hb.
  enough (G : forall m i, (i + m <= n)%nat ->
    eval (for_ m (Z.of_nat i) body tt) s
      (match List.find p (take m (drop i l)) with
       | Some e => Break (f e) | None => Continue tt end) s) by exact (G n 0%nat ltac:(lia)).
  induction m as [|m IH]; intros i Hi; [apply eval_ret|].
  destruct (decide (i < length l)%nat) as [Hl|Hl].
  - destruct (lookup_lt_is_Some_2 l i Hl) as [e He].
    rewrite (drop_S l e i He). cbn [for_ firstn take List.find].
    eapply eval_bind; [apply (Hb i e He); lia|].
    destruct (p e); [apply eval_ret|].
    replace (Z.of_nat i + 1) with (Z.of_nat (S i)) by lia. apply IH. lia.
  - exfalso. lia.
Qed.

(** The same with a value carried from round to round. *)
Lemma wp_for_find {X A R} (l : list X) (p : X -> bool) (f : X -> R) (n : nat)
    (body : Z -> A -> M St (ctl A R)) a s (Q : ctl A R -> St -> Prop) :
  (n <= length l)%nat ->
  (forall k e a, l !! k = Some e -> (k < n)%nat ->
     wp (body (Z.of_nat k) a) s (fun r s' => s' = s /\
       match r with Break v => p e = true /\ v = f e | Continue _ => p e = false end)) ->
  (match List.find p (take n l) with
   | Some e => Q (Break (f e)) s
   | None => forall a, Q (Continue a) s
   end) ->
  wp (for_ n 0 body a) s Q.
Proof.
  intros Hn Hb HQ.
  enough (G : forall m i a, (i + m = n)%nat ->
    (match List.find p (take m (drop i l)) with
     | Some e => Q (Break (f e)) s | None => forall a, Q (Continue a) s end) ->
    wp (for_ m (Z.of_nat i) body a) s Q) by (by apply (G n 0%nat)).
  clear HQ. induction m as [|m IH]; intros i b Hi HQ; [by apply wp_ret|].
  destruct (lookup_lt_is_Some_2 l i) as [e He]; [lia|].
  rewrite (drop_S l e i He) in HQ. cbn [firstn take List.find] in HQ.
  cbn [for_]. apply wp_bind. eapply wp_mono; [apply (Hb i e b He); lia|].
  intros [b'|v] s' [-> Hr].
  - rewrite Hr in HQ. replace (Z.of_nat i + 1) with (Z.of_nat (S i)) by lia.
    apply IH; [lia|done].
  - destruct Hr as [Hp ->]. by rewrite Hp in HQ.
Qed.

(** Reading a table entry by entry up to a terminator: what [step] says of each
    entry, and [fin] of the terminator. [None] when there is no terminator. *)
Fixpoint scan {X A R} (stop : X -> bool) (step : X -> Z -> A -> A + R) (fin : A -> R)
    (l : list X) (i : Z) (a : A) : option R :=
  match l with
  | [] => None
  | x :: l =>
      if stop x then Some (fin a)
      else match step x i a with
           | inl a' => scan stop step fin l (i + 1) a'
           | inr r => Some r
           end
  end.

(** The loops that search such a table; [st] packs the index and what is carried
    with it into the loop's variables. *)
Lemma eval_while_scan {X A B R} (l : list X) (st : Z -> A -> B) (stop : X -> bool)
    (step : X -> Z -> A -> A + R) (fin : A -> R) fuel
    (body : B -> M St (ctl B R)) a s r :
  (forall k e a, l !! k = Some e ->
     eval (body (st (Z.of_nat k) a)) s
       (if stop e then Break (fin a)
        else match step e (Z.of_nat k) a with
             | inl a' => Continue (st (Z.of_nat k + 1) a')
             | inr r => Break r
             end) s) ->
  scan stop step fin l 0 a = Some r -> (length l <= fuel)%nat ->
  eval (while_ fuel body (st 0 a)) s r s.
Proof.
  intros Hb.
  enough (G : forall m i a f, (i + m = length l)%nat -> (m <= f)%nat ->
    scan stop step fin (drop i l) (Z.of_nat i) a = Some r ->
    eval (while_ f body (st (Z.of_nat i) a)) s r s).
  { intros Hs Hf. by apply (G (length l) 0%nat). }
  induction m as [|m IH]; intros i b f Hi Hf Hs.
  - rewrite drop_ge in Hs by lia. done.
  - destruct (lookup_lt_is_Some_2 l i) as [e He]; [lia|].
    rewrite (drop_S l e i He) in Hs. cbn [scan] in Hs.
    destruct f as [|f]; [lia|]. cbn [while_].
    eapply eval_bind; [by apply (Hb i e b)|].
    destruct (stop e); [injection Hs as <-; apply eval_ret|].
    destruct (step e (Z.of_nat i) b); [|injection Hs as <-; apply eval_ret].
    cbv beta iota. replace (Z.of_nat i + 1) with (Z.of_nat (S i)) in * by lia.
    apply IH; [lia|lia|done].
Qed.

(** A loop each round of which appends to a list kept in the state: [F] embeds the
    list in the state, [g i] is what round [i] appends, and [cap] bounds the list. *)
Lemma eval_for_collect {X R} (F : list X -> St) (g : Z -> list X) (cap : nat) n i0
    (body : Z -> () -> M St (ctl () R)) l :
  (forall i l, i0 <= i < i0 + Z.of_nat n -> (length (l ++ g i) <= cap)%nat ->
     eval (body i tt) (F l) (Continue tt) (F (l ++ g i))) ->
  (length (l ++ concat (g <$> seqZ i0 (Z.of_nat n))) <= cap)%nat ->
  eval (for_ n i0 body tt) (F l) (Continue tt) (F (l ++ concat (g <$> seqZ i0 (Z.of_nat n)))).
Proof.
  revert i0 l. induction n as [|n IH]; intros i0 l Hb Hc.
  - rewrite app_nil_r. apply eval_ret.
  - rewrite seqZ_cons in Hc |- * by lia. cbn [fmap list_fmap concat] in Hc |- *.
    replace (Z.pred (Z.of_nat (S n))) with (Z.of_nat n) in Hc |- * by lia.
    rewrite app_assoc in Hc |- *.
    cbn [for_]. eapply eval_bind; [apply Hb; [lia|]|].
    + rewrite length_app in Hc. lia.
    + cbv beta iota. replace (i0 + 1) with (Z.succ i0) by lia. apply IH; [|done].
      intros i l' Hi. apply Hb. lia.
Qed.
End wp.

(** ** First answers *)

Lemma elem_of_concat {X} (x : X) (ls : list (list X)) : x ∈ concat ls <-> exists l, l ∈ ls /\ x ∈ l.
Proof.
  induction ls as [|l ls IH]; cbn [concat].
  - split; [by intros ?%elem_of_nil|]. by intros (l & ?%elem_of_nil & _).
  - rewrite elem_of_app, IH. split.
    + intros [Hx|(k & Hk & Hx)]; [exists l|exists k]; (split; [by constructor|done]).
    + intros (k & [->|Hk]%elem_of_cons & Hx); [by left|]. right. by exists k.
Qed.


Lemma omap_cons {X Y} (f : X -> option Y) x l :
  omap f (x :: l) = match f x with Some y => y :: omap f l | None => omap f l end.
Proof. reflexivity. Qed.

Lemma omap_seqZ_lookup {X Y} (g : X -> option Y) (pre l : list X) :
  omap (fun i => (pre ++ l) !! Z.to_nat i ≫= g) (seqZ (Z.of_nat (length pre)) (Z.of_nat (length l))) = omap g l.
Proof.
  revert pre. induction l as [|x l IH]; intros pre; [done|].
  cbn [length]. rewrite seqZ_cons by lia. rewrite !omap_cons.
  rewrite Nat2Z.id, list_lookup_middle by done. cbn [mbind option_bind].
  specialize (IH (pre ++ [x])). rewrite length_app, <- app_assoc in IH. cbn [length app] in IH.
  replace (Z.succ (Z.of_nat (length pre))) with (Z.of_nat (length pre + 1)) by lia.
  replace (Z.pred (Z.of_nat (S (length l)))) with (Z.of_nat (length l)) by lia.
  by rewrite IH.
Qed.

Lemma head_omap_concat {X Y R} (F : X -> list Y) (g : Y -> option R) (l : list X) :
  head (omap (fun x => head (omap g (F x))) l) = head (omap g (concat (F <$> l))).
Proof.
  induction l as [|x l IH]; [done|]. cbn [fmap list_fmap concat]. rewrite omap_app, omap_cons.
  destruct (omap g (F x)) as [|y ys]; cbn [head app]; [exact IH|done].
Qed.

Lemma omap_filter_decide {X R} (P : X -> Prop) `{forall x, Decision (P x)} (f : X -> option R) (l : list X) :
  omap (fun x => if decide (P x) then f x else None) l = omap f (filter P l).
Proof.
  induction l as [|x l IH]; [done|]. rewrite filter_cons, omap_cons.
  destruct (decide (P x)); rewrite ?omap_cons; by rewrite IH.
Qed.

Definition ctl_of {R} (o : option R) : ctl () R :=
  match o with Some v => Break v | None => Continue tt end.

Section first.
Context {St : Type}.
#[local] Open Scope c_scope.

(** A loop that leaves at the first number for which [f] answers. *)
Lemma eval_for_first {R} (f : Z -> option R) n i0 (body : Z -> () -> M St (ctl () R)) w :
  (forall i, i0 <= i < i0 + Z.of_nat n -> eval (body i tt) w (ctl_of (f i)) w) ->
  eval (for_ n i0 body tt) w (ctl_of (head (omap f (seqZ i0 (Z.of_nat n))))) w.
Proof.
  revert i0. induction n as [|n IH]; intros i0 Hb; cbn [for_].
  { by rewrite seqZ_nil by lia. }
  rewrite seqZ_cons by lia. eapply eval_bind; [apply Hb; lia|]. rewrite omap_cons.
  destruct (f i0) as [v|]; cbn [ctl_of head]; [by split|].
  replace (Z.succ i0) with (i0 + 1) by lia. replace (Z.pred (Z.of_nat (S n))) with (Z.of_nat n) by lia.
  apply IH. intros i Hi. apply Hb. lia.
Qed.
End first.

(** ** What a command can return *)

(** [yields P m]: whenever [m] returns, the value satisfies [P]; it may also run out
    of fuel or fault. *)
Definition yields {St A} (P : A -> Prop) (m : M St A) : Prop :=
  forall s, match m s with Ret a _ _ => P a | _ => True end.

Section yields.
Context {St : Type}.
#[local] Open Scope c_scope.

Lemma yields_ret {A} (P : A -> Prop) (a : A) : P a -> yields P (ret a : M St A).
Proof. by intros Ha s. Qed.

Lemma yields_bind {A B} (Q : A -> Prop) (P : B -> Prop) (m : M St A) (f : A -> M St B) :
  yields Q m -> (forall a, Q a -> yields P (f a)) -> yields P (bind m f).
Proof.
  intros Hm Hf s. unfold bind. specialize (Hm s). destruct (m s) as [a s1 o1| |]; [|done..].
  specialize (Hf a Hm s1). by destruct (f a s1).
Qed.

Lemma yields_bind_any {A B} (P : B -> Prop) (m : M St A) (f : A -> M St B) :
  (forall a, yields P (f a)) -> yields P (bind m f).
Proof. intros Hf. apply (yields_bind (fun _ => True)); [|auto]. intros s. by destruct (m s). Qed.

Lemma yields_if {A} (P : A -> Prop) (b : bool) (m1 m2 : M St A) :
  (b = true -> yields P m1) -> (b = false -> yields P m2) -> yields P (if b then m1 else m2).
Proof. destruct b; auto. Qed.

Lemma yields_while {A R} (P : R -> Prop) fuel (body : A -> M St (ctl A R)) a :
  (forall a, yields (fun r => match r with Break v => P v | Continue _ => True end) (body a)) ->
  yields P (while_ fuel body a).
Proof.
  intros Hb. revert a. induction fuel as [|fuel IH]; intros a; [by intros s|]. cbn [while_].
  eapply yields_bind; [apply Hb|]. intros [a'|v] Hr; [apply IH|by apply yields_ret].
Qed.

Lemma yields_eval {A} (P : A -> Prop) (m : M St A) s a s' : yields P m -> eval m s a s' -> P a.
Proof. intros Hm. specialize (Hm s). unfold eval, wp. by destruct (m s); [intros [<- _]| |]. Qed.
End yields.

(** Drops the commands whose value plays no part. *)
Ltac yields_step :=
  cbv beta zeta;
  lazymatch goal with
  | |- yields _ (ret _) => apply yields_ret
  | |- yields _ (bind _ _) => apply yields_bind_any; intros ?
  | |- yields _ (if _ then _ else _) => apply yields_if; intros ?
  end.

(** ** What a command leaves alone *)

(** Whenever [m] returns, the part [f] of the state is as before. *)
Class Keeps {St A B} (f : St -> B) (m : M St A) : Prop :=
  keeps s : match m s with Ret _ s' _ => f s' = f s | _ => True end.

Section keeps.
Context {St B : Type} (f : St -> B).

#[export] Instance keeps_ret {A} (a : A) : Keeps f (ret a).
Proof. by intros s. Qed.
#[export] Instance keeps_gets {A} (g : St -> A) : Keeps f (gets g).
Proof. by intros s. Qed.
#[export] Instance keeps_need {A} (o : option A) : Keeps f (need o).
Proof. by destruct o. Qed.
#[export] Instance keeps_emit e : Keeps f (emit e).
Proof. by intros s. Qed.
#[export] Instance keeps_fault {A} : Keeps f (fault : M St A).
Proof. by intros s. Qed.

#[export] Instance keeps_bind {A C} (m : M St A) (k : A -> M St C) :
  Keeps f m -> (forall a, Keeps f (k a)) -> Keeps f (bind m k).
Proof.
  intros Hm Hk s. unfold bind. specialize (Hm s). destruct (m s) as [a s1 o1| |]; [|done..].
  specialize (Hk a s1). destruct (k a s1); [|done..]. congruence.
Qed.

#[export] Instance keeps_if {A} (b : bool) (m1 m2 : M St A) :
  Keeps f m1 -> Keeps f m2 -> Keeps f (if b then m1 else m2).
Proof. by destruct b. Qed.

Lemma keeps_modify g : (forall s, f (g s) = f s) -> Keeps f (modify g).
Proof. intros H s. apply H. Qed.

#[export] Instance keeps_while {A R} fuel (body : A -> M St (ctl A R)) a :
  (forall a, Keeps f (body a)) -> Keeps f (while_ fuel body a).
Proof.
  intros Hb. revert a. induction fuel as [|fuel IH]; intros a; [by intros s|]. cbn [while_].
  apply keeps_bind; [done|]. intros [a'|v]; [apply IH|apply _].
Qed.

Lemma keeps_eval {A} (m : M St A) s a s' : Keeps f m -> eval m s a s' -> f s' = f s.
Proof. intros Hm. specialize (Hm s). unfold eval, wp. by destruct (m s); [intros [_ ->]| |]. Qed.
End keeps.

(** A [match] is taken apart, a state update checked by computation. *)
#[export] Hint Extern 2 (Keeps _ (match ?x with _ => _ end)) => destruct x : typeclass_instances.
#[export] Hint Extern 1 (Keeps _ (modify _)) => apply keeps_modify; reflexivity : typeclass_instances.

(** The entries satisfying [p], each with its index; [i] is the index of the first
    entry of the list. *)
Fixpoint matches {X} (p : X -> bool) (l : list X) (i : Z) : list (Z * X) :=
  match l with
  | [] => []
  | x :: l => if p x then (i, x) :: matches p l (i + 1) else matches p l (i + 1)
  end.

(** Looking for entry number [n] of those satisfying [p]. *)
Lemma scan_nth {X} (stop p : X -> bool) (none : Z) l x l' i n :
  forallb (fun y => negb (stop y)) l = true -> stop x = true -> 0 <= n ->
  scan stop (fun e i n => if p e then if n =? 0 then inr i else inl (n - 1) else inl n)
    (fun _ => none) (l ++ x :: l') i n =
  Some (match matches p l i !! Z.to_nat n with Some (k, _) => k | None => none end).
Proof.
  intros Hl Hx. revert i n. induction l as [|y l IH]; intros i n Hn; cbn [scan app matches] in *.
  - by rewrite Hx.
  - apply andb_true_iff in Hl as [Hy Hl]. rewrite negb_true_iff in Hy. rewrite Hy.
    destruct (p y); [|by apply IH]. destruct (Z.eqb_spec n 0) as [->|Hnz]; [done|].
    rewrite IH by (done || lia). replace (Z.to_nat n) with (S (Z.to_nat (n - 1))) by lia. done.
Qed.

Lemma matches_lookup {X} (p : X -> bool) l i n k x :
  matches p l i !! n = Some (k, x) -> i <= k /\ l !! Z.to_nat (k - i) = Some x /\ p x = true.
Proof.
  revert i n. induction l as [|y l IH]; intros i n; cbn [matches]; [done|].
  destruct (p y) eqn:Hy.
  - destruct n as [|n]; cbn.
    + intros [= <- <-]. rewrite Z.sub_diag. done.
    + intros Hk. apply IH in Hk as (H1 & H2 & H3). split; [lia|]. split; [|done].
      replace (Z.to_nat (k - i)) with (S (Z.to_nat (k - (i + 1)))) by lia. done.
  - intros Hk. apply IH in Hk as (H1 & H2 & H3). split; [lia|]. split; [|done].
    replace (Z.to_nat (k - i)) with (S (Z.to_nat (k - (i + 1)))) by lia. done.
Qed.

(** One step of symbolic execution, driven by the shape of the command. *)
Ltac wp_step :=
  cbv beta;
  lazymatch goal with
  | |- wp (bind _ _) _ _ => apply wp_bind
  | |- wp (ret _) _ _ => apply wp_ret
  | |- wp (need (Some _)) _ _ => apply wp_ret
  | |- wp get _ _ => apply wp_get
  | |- wp (put _) _ _ => apply wp_put
  | |- wp (modify _) _ _ => apply wp_modify
  | |- wp (gets _) _ _ => apply wp_gets
  | |- wp (emit _) _ _ => apply wp_emit
  end.
Ltac wp_steps := repeat (wp_step; cbn beta iota).

(** Case analysis on the condition of the command at the head of the goal. *)
Ltac wp_case H :=
  lazymatch goal with
  | |- wp (if ?b then _ else _) _ _ => destruct b eqn:H
  | |- wp (bind (if ?b then _ else _) _) _ _ => destruct b eqn:H
  end.

(** ** Bits *)

Create Rewrite HintDb bits.

Lemma testbit_mod2 x n i : 0 <= n -> Z.testbit (x mod 2 ^ n) i = (i <? n) && Z.testbit x i.
Proof.
  intros Hn. destruct (Z.ltb_spec i n) as [H|H]; simpl.
  - destruct (Z_lt_le_dec i 0); [by rewrite !Z.testbit_neg_r|].
    by rewrite Z.mod_pow2_bits_low.
  - destruct (Z_lt_le_dec i 0); [by rewrite Z.testbit_neg_r|].
    by rewrite Z.mod_pow2_bits_high.
Qed.

Lemma testbit_high x n i : 0 <= x < 2 ^ n -> n <= i -> Z.testbit x i = false.
Proof.
  intros [H0 Hn] Hi. destruct (decide (x = 0)) as [->|]; [apply Z.testbit_0_l|].
  apply Z.bits_above_log2; [done|]. assert (Z.log2 x < n); [|lia].
  by apply Z.log2_lt_pow2; lia.
Qed.

Lemma land_ones_mod n x : 0 <= n -> Z.land x (Z.ones n) = x mod 2 ^ n.
Proof. intros. by apply Z.land_ones. Qed.

(** [x] written on [n] bits: what a C object of that width holds. *)
Definition fits (n x : Z) : Prop := 0 <= x < 2 ^ n.

#[global] Instance fits_dec n x : Decision (fits n x).
Proof. unfold fits. apply _. Defined.

Lemma fits_mod n x : 0 <= n -> fits n (x mod 2 ^ n).
Proof. intros. apply Z.mod_pos_bound. by apply Z.pow_pos_nonneg. Qed.

Lemma fits_u8 x : fits 8 (u8 x).
Proof. by apply fits_mod. Qed.
Lemma fits_u16 x : fits 16 (u16 x).
Proof. by apply fits_mod. Qed.
Lemma fits_u32 x : fits 32 (u32 x).
Proof. by apply fits_mod. Qed.
Lemma fits_u64 x : fits 64 (u64 x).
Proof. by apply fits_mod. Qed.

Lemma u32_id x : fits 32 x -> u32 x = x.
Proof. intros. by apply Z.mod_small. Qed.
Lemma u64_id x : fits 64 x -> u64 x = x.
Proof. intros. by apply Z.mod_small. Qed.
Lemma u8_id x : fits 8 x -> u8 x = x.
Proof. intros. by apply Z.mod_small. Qed.
Lemma u16_id x : fits 16 x -> u16 x = x.
Proof. intros. by apply Z.mod_small. Qed.

#[export] Hint Resolve fits_u8 fits_u16 fits_u32 fits_u64 : bits.
#[export] Hint Rewrite Z.land_spec Z.lor_spec Z.lxor_spec Z.ldiff_spec Z.testbit_0_l : bits.
#[export] Hint Rewrite Z.lnot_spec using lia : bits.
#[export] Hint Rewrite Z.shiftl_spec using lia : bits.
#[export] Hint Rewrite Z.shiftr_spec using lia : bits.
#[export] Hint Rewrite testbit_mod2 using lia : bits.
#[export] Hint Rewrite Z.testbit_ones_nonneg using lia : bits.

(** Fields of a word: a disjoint [lor] is an addition, so that extracting a field
    by shift and mask is division and remainder, which [lia] decides. *)
Lemma lor_disjoint_add a b : Z.land a b = 0 -> Z.lor a b = a + b.
Proof. intros H. by rewrite Z.add_nocarry_lxor, Z.lxor_lor. Qed.

Lemma land_shiftl_low a b n : 0 <= n -> fits n b -> Z.land (Z.shiftl a n) b = 0.
Proof.
  intros Hn Hb. apply Z.bits_inj'. intros i Hi. rewrite Z.land_spec, Z.testbit_0_l, Z.shiftl_spec by lia.
  destruct (Z_lt_le_dec i n).
  - by rewrite Z.testbit_neg_r by lia.
  - by rewrite (testbit_high b n i), andb_false_r.
Qed.

Lemma lor_shiftl_add a b n : 0 <= n -> fits n b -> Z.lor (Z.shiftl a n) b = a * 2 ^ n + b.
Proof.
  intros. rewrite lor_disjoint_add, Z.shiftl_mul_pow2; auto using land_shiftl_low.
Qed.

Lemma fits_lor n a b : 0 <= n -> fits n a -> fits n b -> fits n (Z.lor a b).
Proof.
  intros Hn Ha Hb. assert (Hnn : 0 <= Z.lor a b) by (apply Z.lor_nonneg; unfold fits in *; lia).
  split; [done|]. apply Z.nle_gt. intros Hge.
  assert (Z.lor a b <> 0) as Hnz by (pose proof (Z.pow_pos_nonneg 2 n); lia).
  pose proof (Z.bit_log2 (Z.lor a b) ltac:(lia)) as Hbit.
  assert (n <= Z.log2 (Z.lor a b)) by (apply Z.log2_le_pow2; lia).
  by rewrite Z.lor_spec, (testbit_high a n), (testbit_high b n) in Hbit.
Qed.

Lemma fits_land_r n a b : fits n b -> 0 <= n -> fits n (Z.land a b).
Proof.
  intros Hb Hn. assert (Hnn : 0 <= Z.land a b) by (apply Z.land_nonneg; unfold fits in *; lia).
  split; [done|]. apply Z.nle_gt. intros Hge.
  assert (Z.land a b <> 0) as Hnz by (pose proof (Z.pow_pos_nonneg 2 n); lia).
  pose proof (Z.bit_log2 (Z.land a b) ltac:(lia)) as Hbit.
  assert (n <= Z.log2 (Z.land a b)) by (apply Z.log2_le_pow2; lia).
  by rewrite Z.land_spec, (testbit_high b n), andb_false_r in Hbit.
Qed.

Lemma fits_le n m x : fits n x -> n <= m -> fits m x.
Proof. intros [? H] ?. split; [done|]. eapply Z.lt_le_trans; [exact H|]. by apply Z.pow_le_mono_r. Qed.

(** Masks of the form [2^n - 1] written as literals. *)
Lemma land_mask n m x : m = Z.ones n -> 0 <= n -> Z.land x m = x mod 2 ^ n.
Proof. intros -> ?. by apply Z.land_ones. Qed.

(** The bits of [x] from [n] up that a shifted mask keeps. *)
Lemma land_shiftl_r x y n : 0 <= n -> Z.land x (Z.shiftl y n) = Z.shiftl (Z.land (Z.shiftr x n) y) n.
Proof.
  intros Hn. apply Z.bits_inj'. intros i Hi. rewrite Z.land_spec, !Z.shiftl_spec, Z.land_spec by lia.
  destruct (Z_lt_le_dec i n).
  - by rewrite !(Z.testbit_neg_r _ (i - n)), andb_false_r by lia.
  - rewrite Z.shiftr_spec by lia. by replace (i - n + n) with i by lia.
Qed.

(** Testing one bit with a mask. *)
Lemma truthy_land_bit x n : 0 <= n -> truthy (Z.land x (2 ^ n)) = Z.testbit x n.
Proof.
  intros Hn. unfold truthy. apply eq_true_iff_eq. rewrite negb_true_iff, Z.eqb_neq. split.
  - intros Hne. apply not_false_iff_true. intros Hb. apply Hne, Z.bits_inj'. intros i Hi.
    rewrite Z.land_spec, Z.testbit_0_l, Z.pow2_bits_eqb by done.
    destruct (Z.eqb_spec n i) as [<-|]; [by rewrite Hb|apply andb_false_r].
  - intros Hb E. apply (f_equal (fun y => Z.testbit y n)) in E.
    rewrite Z.land_spec, Hb, Z.testbit_0_l, Z.pow2_bits_true in E by done. done.
Qed.

(** Closed powers of two as numerals, so that [lia] sees them. *)
Ltac pow2 := repeat match goal with
  | H : context [2 ^ ?n] |- _ => is_ground n; let v := eval vm_compute in (2 ^ n) in
      progress change (2 ^ n) with v in H
  | |- context [2 ^ ?n] => is_ground n; let v := eval vm_compute in (2 ^ n) in
      progress change (2 ^ n) with v
  end.
Ltac divmod := pow2; Z.to_euclidean_division_equations; lia.
