(* ===== verification/Types.v ===== *)
(** * Constants and data structures

    The macros, enumerators and structures of the headers under
    src/val/include/ (and the component headers under src/val/sys_arch_src/)
    that the other files use, under the names the C code gives them. Enumerators
    are integers, because the code passes them as [uint32_t] and handles values
    outside the enumeration. The configuration is the UEFI one: [TARGET_LINUX]
    is not defined. *)

From S2P Require Import Prelude.

(** ** Test status words and test numbers (bsa_acs_common.h) *)

Definition G_SW_OS : Z := 0.
Definition G_SW_HYP : Z := 1.
Definition G_SW_PS : Z := 2.
Definition ACS_PE_TEST_NUM_BASE : Z := 0.
Definition ACS_PE_HYP_TEST_NUM_BASE : Z := ACS_PE_TEST_NUM_BASE + 50.
Definition ACS_PE_PS_TEST_NUM_BASE : Z := ACS_PE_HYP_TEST_NUM_BASE + 25.
Definition ACS_MEMORY_MAP_TEST_BASE : Z := 100.
Definition ACS_GIC_TEST_NUM_BASE : Z := 200.
Definition ACS_GIC_HYP_TEST_NUM_BASE : Z := ACS_GIC_TEST_NUM_BASE + 50.
Definition ACS_GIC_V2M_TEST_NUM_BASE : Z := ACS_GIC_TEST_NUM_BASE + 80.
Definition ACS_SMMU_TEST_NUM_BASE : Z := 300.
Definition ACS_SMMU_HYP_TEST_NUM_BASE : Z := ACS_SMMU_TEST_NUM_BASE + 50.
Definition ACS_TIMER_TEST_NUM_BASE : Z := 400.
Definition ACS_WAKEUP_TEST_NUM_BASE : Z := 500.
Definition ACS_PER_TEST_NUM_BASE : Z := 600.
Definition ACS_WD_TEST_NUM_BASE : Z := 700.
Definition ACS_PCIE_TEST_NUM_BASE : Z := 800.
Definition ACS_EXERCISER_TEST_NUM_BASE : Z := 900.
Definition STATE_BIT : Z := 28.
Definition STATE_MASK : Z := 0xF.
Definition TEST_START_VAL : Z := 0x1.
Definition TEST_END_VAL : Z := 0x2.
Definition TEST_PASS_VAL : Z := 0x4.
Definition TEST_FAIL_VAL : Z := 0x8.
Definition TEST_SKIP_VAL : Z := 0x9.
Definition TEST_PENDING_VAL : Z := 0xA.
Definition STATUS_MASK : Z := 0xFFF.
Definition TEST_NUM_BIT : Z := 12.
Definition TEST_NUM_MASK : Z := 0xFFF.

(** ** Print levels and status codes (val_interface.h) *)

Definition ACS_PRINT_ERR : Z := 5.
Definition ACS_PRINT_WARN : Z := 4.
Definition ACS_PRINT_TEST : Z := 3.
Definition ACS_PRINT_DEBUG : Z := 2.
Definition ACS_PRINT_INFO : Z := 1.
Definition ACS_STATUS_FAIL : Z := 0x90000000.
Definition ACS_STATUS_ERR : Z := 0xEDCB1234.
Definition ACS_STATUS_SKIP : Z := 0x10000000.
Definition ACS_STATUS_PASS : Z := 0x0.
Definition ACS_INVALID_INDEX : Z := 0xFFFFFFFF.
Definition BSA_TIMER_FLAG_ALWAYS_ON : Z := 0x4.
Definition MEM_ATTR_UNCACHED : Z := 0x2000.
Definition MEM_ATTR_CACHED : Z := 0x1000.

(** [GIC_INFO_e] *)
Definition GIC_INFO_VERSION : Z := 1.
Definition GIC_INFO_SEC_STATES : Z := 2.
Definition GIC_INFO_AFFINITY_NS : Z := 3.
Definition GIC_INFO_ENABLE_GROUP1NS : Z := 4.
Definition GIC_INFO_SGI_NON_SECURE : Z := 5.
Definition GIC_INFO_SGI_NON_SECURE_LEGACY : Z := 6.
Definition GIC_INFO_DIST_BASE : Z := 7.
Definition GIC_INFO_CITF_BASE : Z := 8.
Definition GIC_INFO_NUM_RDIST : Z := 9.
Definition GIC_INFO_RDIST_BASE : Z := 10.
Definition GIC_INFO_NUM_ITS : Z := 11.
Definition GIC_INFO_ITS_BASE : Z := 12.
Definition GIC_INFO_NUM_MSI_FRAME : Z := 13.

(** [V2M_MSI_INFO_e] *)
Definition V2M_MSI_FRAME_ID : Z := 1.
Definition V2M_MSI_SPI_BASE : Z := 2.
Definition V2M_MSI_SPI_NUM : Z := 3.
Definition V2M_MSI_FRAME_BASE : Z := 4.
Definition V2M_MSI_FLAGS : Z := 5.

(** [TIMER_INFO_e] *)
Definition TIMER_INFO_CNTFREQ : Z := 1.
Definition TIMER_INFO_PHY_EL1_INTID : Z := 2.
Definition TIMER_INFO_PHY_EL1_FLAGS : Z := 3.
Definition TIMER_INFO_VIR_EL1_INTID : Z := 4.
Definition TIMER_INFO_VIR_EL1_FLAGS : Z := 5.
Definition TIMER_INFO_PHY_EL2_INTID : Z := 6.
Definition TIMER_INFO_PHY_EL2_FLAGS : Z := 7.
Definition TIMER_INFO_VIR_EL2_INTID : Z := 8.
Definition TIMER_INFO_VIR_EL2_FLAGS : Z := 9.
Definition TIMER_INFO_NUM_PLATFORM_TIMERS : Z := 10.
Definition TIMER_INFO_IS_PLATFORM_TIMER_SECURE : Z := 11.
Definition TIMER_INFO_SYS_CNTL_BASE : Z := 12.
Definition TIMER_INFO_SYS_CNT_BASE_N : Z := 13.
Definition TIMER_INFO_FRAME_NUM : Z := 14.
Definition TIMER_INFO_SYS_INTID : Z := 15.
Definition TIMER_INFO_SYS_TIMER_STATUS : Z := 16.

(** [WD_INFO_TYPE_e] *)
Definition WD_INFO_COUNT : Z := 1.
Definition WD_INFO_CTRL_BASE : Z := 2.
Definition WD_INFO_REFRESH_BASE : Z := 3.
Definition WD_INFO_GSIV : Z := 4.
Definition WD_INFO_ISSECURE : Z := 5.
Definition WD_INFO_IS_EDGE : Z := 6.

(** [SMMU_INFO_e] *)
Definition SMMU_NUM_CTRL : Z := 1.
Definition SMMU_CTRL_BASE : Z := 2.
Definition SMMU_CTRL_ARCH_MAJOR_REV : Z := 3.
Definition SMMU_IOVIRT_BLOCK : Z := 4.
Definition SMMU_SSID_BITS : Z := 5.
Definition SMMU_IN_ADDR_SIZE : Z := 6.
Definition SMMU_OUT_ADDR_SIZE : Z := 7.

(** [SMMU_OPS_e] *)
Definition SMMU_CAPABLE : Z := 1.
Definition SMMU_CHECK_DEVICE_IOVA : Z := 2.
Definition SMMU_START_MONITOR_DEV : Z := 3.
Definition SMMU_STOP_MONITOR_DEV : Z := 4.
Definition SMMU_CREATE_MAP : Z := 5.
Definition SMMU_UNMAP : Z := 6.
Definition SMMU_IOVA_PHYS : Z := 7.
Definition SMMU_DEV_DOMAIN : Z := 8.
Definition SMMU_GET_ATTR : Z := 9.
Definition SMMU_SET_ATTR : Z := 10.

(** [PCIE_RC_INFO_e] *)
Definition NUM_PCIE_RC : Z := 1.
Definition RC_SEGMENT_NUM : Z := 2.
Definition RC_ATS_ATTRIBUTE : Z := 3.
Definition RC_MEM_ATTRIBUTE : Z := 4.
Definition RC_IOVIRT_BLOCK : Z := 5.

(** [DMA_INFO_e] *)
Definition DMA_NUM_CTRL : Z := 1.
Definition DMA_HOST_INFO : Z := 2.
Definition DMA_PORT_INFO : Z := 3.
Definition DMA_TARGET_INFO : Z := 4.
Definition DMA_HOST_COHERENT : Z := 5.
Definition DMA_HOST_IOMMU_ATTACHED : Z := 6.
Definition DMA_HOST_PCI : Z := 7.

(** [PERIPHERAL_INFO_e] *)
Definition NUM_USB : Z := 0.
Definition NUM_SATA : Z := 1.
Definition NUM_UART : Z := 2.
Definition NUM_ALL : Z := 3.
Definition USB_BASE0 : Z := 4.
Definition USB_FLAGS : Z := 5.
Definition USB_GSIV : Z := 6.
Definition USB_BDF : Z := 7.
Definition SATA_BASE0 : Z := 8.
Definition SATA_BASE1 : Z := 9.
Definition SATA_FLAGS : Z := 10.
Definition SATA_GSIV : Z := 11.
Definition SATA_BDF : Z := 12.
Definition UART_BASE0 : Z := 13.
Definition UART_GSIV : Z := 14.
Definition UART_FLAGS : Z := 15.
Definition ANY_FLAGS : Z := 16.
Definition ANY_GSIV : Z := 17.
Definition ANY_BDF : Z := 18.
Definition MAX_PASIDS : Z := 19.

(** [MEMORY_INFO_e] *)
Definition MEM_TYPE_DEVICE : Z := 0x1000.
Definition MEM_TYPE_NORMAL : Z := 0x1001.
Definition MEM_TYPE_RESERVED : Z := 0x1002.
Definition MEM_TYPE_NOT_POPULATED : Z := 0x1003.
Definition MEM_TYPE_LAST_ENTRY : Z := 0x1004.

(** ** Configuration (bsa_acs_cfg.h) *)

Definition MAX_TEST_SKIP_NUM : Z := 9.

(** ** Platform interface (pal_interface.h) *)

Definition TIMEOUT_LARGE : Z := 0x1000000.
Definition TIMEOUT_MEDIUM : Z := 0x100000.
Definition TIMEOUT_SMALL : Z := 0x1000.
Definition PCIE_SUCCESS : Z := 0x00000000.
Definition PCIE_NO_MAPPING : Z := 0x10000001.
Definition PCIE_CAP_NOT_FOUND : Z := 0x10000010.
Definition PCIE_UNKNOWN_RESPONSE : Z := 0xFFFFFFFF.
Definition CLEAN_AND_INVALIDATE : Z := 0x1.
Definition CLEAN : Z := 0x2.
Definition INVALIDATE : Z := 0x3.
Definition EXERCISER_ID : Z := 0xED0113B5.

(** [GIC_INFO_TYPE_e] *)
Definition ENTRY_TYPE_CPUIF : Z := 0x1000.
Definition ENTRY_TYPE_GICD : Z := 0x1001.
Definition ENTRY_TYPE_GICC_GICRD : Z := 0x1002.
Definition ENTRY_TYPE_GICR_GICRD : Z := 0x1003.
Definition ENTRY_TYPE_GICITS : Z := 0x1004.
Definition ENTRY_TYPE_GIC_MSI_FRAME : Z := 0x1005.
Definition ENTRY_TYPE_GICH : Z := 0x1006.

(** [INTR_TRIGGER_INFO_TYPE_e] *)
Definition INTR_TRIGGER_INFO_LEVEL_LOW : Z := 0.
Definition INTR_TRIGGER_INFO_LEVEL_HIGH : Z := 1.
Definition INTR_TRIGGER_INFO_EDGE_FALLING : Z := 2.
Definition INTR_TRIGGER_INFO_EDGE_RISING : Z := 3.

(** [IOVIRT_NODE_TYPE] *)
Definition IOVIRT_NODE_ITS_GROUP : Z := 0x00.
Definition IOVIRT_NODE_NAMED_COMPONENT : Z := 0x01.
Definition IOVIRT_NODE_PCI_ROOT_COMPLEX : Z := 0x02.
Definition IOVIRT_NODE_SMMU : Z := 0x03.
Definition IOVIRT_NODE_SMMU_V3 : Z := 0x04.
Definition IOVIRT_NODE_PMCG : Z := 0x05.

(** [IOVIRT_FLAG_SHIFT] *)
Definition IOVIRT_FLAG_DEVID_OVERLAP_SHIFT : Z := 0.
Definition IOVIRT_FLAG_STRID_OVERLAP_SHIFT : Z := 1.
Definition IOVIRT_FLAG_SMMU_CTX_INT_SHIFT : Z := 2.

(** [PER_INFO_TYPE_e] *)
Definition PERIPHERAL_TYPE_USB : Z := 0x2000.
Definition PERIPHERAL_TYPE_SATA : Z := 0x2001.
Definition PERIPHERAL_TYPE_UART : Z := 0x2002.
Definition PERIPHERAL_TYPE_OTHER : Z := 0x2003.
Definition PERIPHERAL_TYPE_NONE : Z := 0x2004.

(** [MEM_INFO_TYPE_e] *)
Definition MEMORY_TYPE_DEVICE : Z := 0x1000.
Definition MEMORY_TYPE_NORMAL : Z := 0x1001.
Definition MEMORY_TYPE_RESERVED : Z := 0x1002.
Definition MEMORY_TYPE_NOT_POPULATED : Z := 0x1003.
Definition MEMORY_TYPE_LAST_ENTRY : Z := 0x1004.

(** [EXERCISER_STATE] *)
Definition EXERCISER_RESET : Z := 0x1.
Definition EXERCISER_ON : Z := 0x2.
Definition EXERCISER_OFF : Z := 0x3.
Definition EXERCISER_ERROR : Z := 0x4.

(** ** Secure monitor calls (bsa_std_smc.h) *)

Definition ARM_SMC_ID_PSCI_CPU_SUSPEND_AARCH64 : Z := 0xc4000001.
Definition ARM_SMC_ID_PSCI_CPU_OFF : Z := 0x84000002.
Definition ARM_SMC_ID_PSCI_CPU_ON_AARCH64 : Z := 0xc4000003.
Definition ARM_SMC_PSCI_RET_SUCCESS : Z := 0.
Definition ARM_SMC_PSCI_RET_NOT_SUPPORTED : Z := (-1).
Definition ARM_SMC_PSCI_RET_INVALID_PARAMS : Z := (-2).
Definition ARM_SMC_PSCI_RET_DENIED : Z := (-3).
Definition ARM_SMC_PSCI_RET_ALREADY_ON : Z := (-4).
Definition ARM_SMC_PSCI_RET_ON_PENDING : Z := (-5).
Definition ARM_SMC_PSCI_RET_INTERN_FAIL : Z := (-6).
Definition ARM_SMC_PSCI_RET_NOT_PRESENT : Z := (-7).
Definition ARM_SMC_PSCI_RET_DISABLED : Z := (-8).

(** ** Processing elements (bsa_acs_pe.h) *)

Definition MPIDR_AFF_MASK : Z := 0xFF00FFFFFF.
Definition EXCEPT_AARCH64_SYNCHRONOUS_EXCEPTIONS : Z := 0.
Definition EXCEPT_AARCH64_IRQ : Z := 1.
Definition EXCEPT_AARCH64_FIQ : Z := 2.
Definition EXCEPT_AARCH64_SERROR : Z := 3.
Definition AARCH64_EL2 : Z := 0x8.
Definition AARCH64_EL1 : Z := 0x4.
Definition AARCH64_EL_MASK : Z := Z.shiftl 0x3 2.
Definition AARCH64_HCR_E2H_MASK : Z := Z.shiftl 0x1 34.
Definition AARCH64_TTBR_ADDR_MASK : Z := Z.shiftl ((Z.shiftl 0x1 47) - 1) 1.
Definition BSA_TCR_TG1_SHIFT : Z := 30.
Definition BSA_TCR_SH1_SHIFT : Z := 28.
Definition BSA_TCR_ORGN1_SHIFT : Z := 26.
Definition BSA_TCR_IRGN1_SHIFT : Z := 24.
Definition BSA_TCR_T1SZ_SHIFT : Z := 16.
Definition BSA_TCR_TG1_MASK : Z := Z.shiftl 0x3 BSA_TCR_TG1_SHIFT.
Definition BSA_TCR_SH1_MASK : Z := Z.shiftl 0x3 BSA_TCR_SH1_SHIFT.
Definition BSA_TCR_ORGN1_MASK : Z := Z.shiftl 0x3 BSA_TCR_ORGN1_SHIFT.
Definition BSA_TCR_IRGN1_MASK : Z := Z.shiftl 0x3 BSA_TCR_IRGN1_SHIFT.
Definition BSA_TCR_T1SZ_MASK : Z := Z.shiftl 0x3f BSA_TCR_T1SZ_SHIFT.
Definition BSA_TCR_TG0_SHIFT : Z := 14.
Definition BSA_TCR_SH0_SHIFT : Z := 12.
Definition BSA_TCR_ORGN0_SHIFT : Z := 10.
Definition BSA_TCR_IRGN0_SHIFT : Z := 8.
Definition BSA_TCR_T0SZ_SHIFT : Z := 0.
Definition BSA_TCR_TG0_MASK : Z := Z.shiftl 0x3 BSA_TCR_TG0_SHIFT.
Definition BSA_TCR_SH0_MASK : Z := Z.shiftl 0x3 BSA_TCR_SH0_SHIFT.
Definition BSA_TCR_ORGN0_MASK : Z := Z.shiftl 0x3 BSA_TCR_ORGN0_SHIFT.
Definition BSA_TCR_IRGN0_MASK : Z := Z.shiftl 0x3 BSA_TCR_IRGN0_SHIFT.
Definition BSA_TCR_T0SZ_MASK : Z := Z.shiftl 0x3f BSA_TCR_T0SZ_SHIFT.
Definition BSA_TCR_IPS_SHIFT : Z := 32.
Definition BSA_TCR_IPS_MASK : Z := Z.shiftl 0x7 BSA_TCR_IPS_SHIFT.
Definition BSA_TCR_PS_SHIFT : Z := 16.
Definition BSA_TCR_PS_MASK : Z := Z.shiftl 0x7 BSA_TCR_PS_SHIFT.
Definition MPIDR_EL1 : Z := 1.
Definition ID_AA64PFR0_EL1 : Z := 2.
Definition ID_AA64PFR1_EL1 : Z := 3.
Definition ID_AA64MMFR0_EL1 : Z := 4.
Definition ID_AA64MMFR1_EL1 : Z := 5.
Definition ID_AA64MMFR2_EL1 : Z := 6.
Definition ID_AA64DFR0_EL1 : Z := 7.
Definition ID_AA64DFR1_EL1 : Z := 8.
Definition CTR_EL0 : Z := 9.
Definition ID_AA64ISAR0_EL1 : Z := 10.
Definition ID_AA64ISAR1_EL1 : Z := 11.
Definition SCTLR_EL3 : Z := 12.
Definition SCTLR_EL2 : Z := 13.
Definition SCTLR_EL1 : Z := 14.
Definition PMCR_EL0 : Z := 15.
Definition PMOVSSET_EL0 : Z := 16.
Definition PMOVSCLR_EL0 : Z := 17.
Definition PMINTENSET_EL1 : Z := 18.
Definition PMINTENCLR_EL1 : Z := 19.
Definition CurrentEL : Z := 20.
Definition MDCR_EL2 : Z := 21.
Definition VBAR_EL2 : Z := 22.
Definition CCSIDR_EL1 : Z := 23.
Definition CSSELR_EL1 : Z := 24.
Definition CLIDR_EL1 : Z := 25.
Definition ID_DFR0_EL1 : Z := 26.
Definition ID_ISAR0_EL1 : Z := 27.
Definition ID_ISAR1_EL1 : Z := 28.
Definition ID_ISAR2_EL1 : Z := 29.
Definition ID_ISAR3_EL1 : Z := 30.
Definition ID_ISAR4_EL1 : Z := 31.
Definition ID_ISAR5_EL1 : Z := 32.
Definition ID_MMFR0_EL1 : Z := 33.
Definition ID_MMFR1_EL1 : Z := 34.
Definition ID_MMFR2_EL1 : Z := 35.
Definition ID_MMFR3_EL1 : Z := 36.
Definition ID_MMFR4_EL1 : Z := 37.
Definition ID_PFR0_EL1 : Z := 38.
Definition ID_PFR1_EL1 : Z := 39.
Definition MIDR_EL1 : Z := 40.
Definition MVFR0_EL1 : Z := 41.
Definition MVFR1_EL1 : Z := 42.
Definition MVFR2_EL1 : Z := 43.
Definition PMCEID0_EL0 : Z := 44.
Definition PMCEID1_EL0 : Z := 45.
Definition VMPIDR_EL2 : Z := 46.
Definition VPIDR_EL2 : Z := 47.
Definition PMBIDR_EL1 : Z := 48.
Definition PMSIDR_EL1 : Z := 49.
Definition LORID_EL1 : Z := 50.
Definition ERRIDR_EL1 : Z := 51.
Definition ERR0FR_EL1 : Z := 52.
Definition ERR1FR_EL1 : Z := 53.
Definition ERR2FR_EL1 : Z := 54.
Definition ERR3FR_EL1 : Z := 55.
Definition PMSIRR_EL1 : Z := 56.
Definition PMSCR_EL2 : Z := 57.
Definition PMSFCR_EL1 : Z := 58.
Definition PMBPTR_EL1 : Z := 59.
Definition PMBLIMITR_EL1 : Z := 60.
Definition ESR_EL2 : Z := 61.
Definition FAR_EL2 : Z := 62.
Definition RDVL : Z := 63.
Definition MAIR_ELx : Z := 64.
Definition TCR_ELx : Z := 65.
Definition TTBR_ELx : Z := 66.
Definition DBGBCR0_EL1 : Z := 67.
Definition DBGBCR1_EL1 : Z := 68.
Definition DBGBCR2_EL1 : Z := 69.
Definition DBGBCR3_EL1 : Z := 70.
Definition DBGBCR4_EL1 : Z := 71.
Definition DBGBCR5_EL1 : Z := 72.
Definition DBGBCR6_EL1 : Z := 73.
Definition DBGBCR7_EL1 : Z := 74.
Definition DBGBCR8_EL1 : Z := 75.
Definition DBGBCR9_EL1 : Z := 76.
Definition DBGBCR10_EL1 : Z := 77.
Definition DBGBCR11_EL1 : Z := 78.
Definition DBGBCR12_EL1 : Z := 79.
Definition DBGBCR13_EL1 : Z := 80.
Definition DBGBCR14_EL1 : Z := 81.
Definition DBGBCR15_EL1 : Z := 82.

(** ** PCI Express (bsa_acs_pcie.h, bsa_acs_pcie_spec.h, pcie.h) *)

Definition PCIE_MAX_BUS : Z := 256.
Definition PCIE_MAX_DEV : Z := 32.
Definition PCIE_MAX_FUNC : Z := 8.
Definition PCIE_CFG_SIZE : Z := 4096.
Definition WORD_ALIGN_MASK : Z := 0x3.
Definition BITS_IN_BYTE : Z := 0x8.
Definition ERR_STRING_SIZE : Z := 64.
Definition PCIE_DEVICE_BDF_TABLE_SZ : Z := 8192.

(** [BITFIELD_REGISTER_TYPE] *)
Definition HEADER : Z := 0.
Definition PCIE_CAP : Z := 1.
Definition PCIE_ECAP : Z := 2.

(** [BITFIELD_ATTR_TYPE] *)
Definition HW_INIT : Z := 0.
Definition READ_ONLY : Z := 1.
Definition STICKY_RO : Z := 2.
Definition RSVDP_RO : Z := 3.
Definition RSVDZ_RO : Z := 4.
Definition READ_WRITE : Z := 5.
Definition STICKY_RW : Z := 6.

(** [MEM_INDICATOR_TYPE] *)
Definition MMIO : Z := 0.
Definition IO : Z := 1.

(** [MEM_DECODE_TYPE] *)
Definition BITS_32 : Z := 0.
Definition BITS_64 : Z := 2.

(** [PCIE_INFO_e] *)
Definition PCIE_INFO_NUM_ECAM : Z := 1.
Definition PCIE_INFO_ECAM : Z := 2.
Definition PCIE_INFO_MCFG_ECAM : Z := 3.
Definition PCIE_INFO_START_BUS : Z := 4.
Definition PCIE_INFO_END_BUS : Z := 5.
Definition PCIE_INFO_SEGMENT : Z := 6.

Definition TYPE01_VIDR : Z := 0x0.
Definition TYPE01_CR : Z := 0x4.
Definition TYPE01_RIDR : Z := 0x8.
Definition TYPE01_CLSR : Z := 0xc.
Definition TYPE01_BAR : Z := 0x10.
Definition TYPE01_CPR : Z := 0x34.
Definition TYPE01_ILR : Z := 0x3c.
Definition TYPE01_VIDR_SHIFT : Z := 0.
Definition TYPE01_VIDR_MASK : Z := 0xffff.
Definition TYPE01_DIDR_SHIFT : Z := 16.
Definition TYPE01_DIDR_MASK : Z := 0xffff.
Definition TYPE01_CCR_SHIFT : Z := 8.
Definition TYPE01_CCR_MASK : Z := 0xffffff.
Definition TYPE01_CPR_SHIFT : Z := 0.
Definition TYPE01_CPR_MASK : Z := 0xff.
Definition TYPE01_HTR_SHIFT : Z := 16.
Definition TYPE01_HTR_MASK : Z := 0xff.
Definition TYPE01_IPR_SHIFT : Z := 8.
Definition TYPE01_IPR_MASK : Z := 0xFF.
Definition TYPE01_ILR_SHIFT : Z := 0.
Definition TYPE01_ILR_MASK : Z := 0xFF.
Definition TYPE0_HEADER : Z := 0.
Definition TYPE1_HEADER : Z := 1.
Definition CR_MSE_SHIFT : Z := 1.
Definition CR_BME_SHIFT : Z := 2.
Definition CR_SCE_SHIFT : Z := 3.
Definition CR_MWI_SHIFT : Z := 4.
Definition CR_VPS_SHIFT : Z := 5.
Definition CR_IDSEL_SHIFT : Z := 7.
Definition CR_SERRE_SHIFT : Z := 8.
Definition CR_FBTE_SHIFT : Z := 9.
Definition CR_ID_SHIFT : Z := 10.
Definition CR_MSE_MASK : Z := 0x1.
Definition CR_BME_MASK : Z := 0x1.
Definition CR_SCE_MASK : Z := 0x1.
Definition CR_MWI_MASK : Z := 0x1.
Definition CR_VPS_MASK : Z := 0x1.
Definition CR_IDSEL_MASK : Z := 0x1.
Definition CR_SERRE_MASK : Z := 0x1.
Definition CR_FBTE_MASK : Z := 0x1.
Definition CR_ID_MASK : Z := 0x1.
Definition SR_STA_SHIFT : Z := 27.
Definition SR_STA_MASK : Z := 0x1.
Definition SSR_STA_SHIFT : Z := 27.
Definition SSR_STA_MASK : Z := 0x1.
Definition CC_SUB_MASK : Z := 0xFF.
Definition CC_BASE_MASK : Z := 0xFF.
Definition CC_PGM_IF_MASK : Z := 0xFF.
Definition CC_PGM_IF_SHIFT : Z := 8.
Definition CC_SUB_SHIFT : Z := 16.
Definition CC_BASE_SHIFT : Z := 24.
Definition HB_BASE_CLASS : Z := 0x06.
Definition HB_SUB_CLASS : Z := 0x00.
Definition RCEC_BASE_CLASS : Z := 0x08.
Definition RCEC_SUB_CLASS : Z := 0x07.
Definition RCEC_PGMING_IF : Z := 0x00.
Definition BIST_REG_START : Z := 24.
Definition BIST_REG_END : Z := 31.
Definition BIST_BC_MASK : Z := 0x80.
Definition BIST_SB_MASK : Z := 0x40.
Definition BIST_CC_MASK : Z := 0x07.
Definition HTR_HL_SHIFT : Z := 0x0.
Definition HTR_HL_MASK : Z := 0x7f.
Definition HTR_MFD_SHIFT : Z := 7.
Definition HTR_MFD_MASK : Z := 0x1.
Definition BAR_MIT_SHIFT : Z := 0.
Definition BAR_MDT_SHIFT : Z := 1.
Definition BAR_MT_SHIFT : Z := 3.
Definition BAR_BASE_SHIFT : Z := 4.
Definition BAR_MIT_MASK : Z := 0x1.
Definition BAR_MDT_MASK : Z := 0x3.
Definition BAR_MT_MASK : Z := 0x1.
Definition BAR_BASE_MASK : Z := 0xfffffff.
Definition BAR0_OFFSET : Z := 0x10.
Definition BAR_MAX_OFFSET : Z := 0x24.
Definition TYPE1_BAR_MAX_OFFSET : Z := 0x14.
Definition BAR_64_BIT : Z := 1.
Definition BAR_32_BIT : Z := 0.
Definition TYPE0_MAX_BARS : Z := 6.
Definition TYPE1_MAX_BARS : Z := 2.
Definition TYPE1_PBN : Z := 0x18.
Definition TYPE1_SEC_STA : Z := 0x1C.
Definition TYPE1_NP_MEM : Z := 0x20.
Definition TYPE1_P_MEM : Z := 0x24.
Definition TYPE1_P_MEM_BU : Z := 0x28.
Definition TYPE1_P_MEM_LU : Z := 0x2C.
Definition BRIDGE_CTRL_SBR_SET : Z := 0x400000.
Definition MEM_BA_SHIFT : Z := 16.
Definition MEM_BA_MASK : Z := 0xFFF0.
Definition MEM_LIM_LOWER_BITS : Z := (Z.shiftl 1 20) - 1.
Definition MEM_LIM_MASK : Z := 0xFFF00000.
Definition P_MEM_PAC_MASK : Z := 0xF.
Definition P_MEM_BU_SHIFT : Z := 32.
Definition P_MEM_LU_SHIFT : Z := 32.
Definition SECBN_SHIFT : Z := 8.
Definition SUBBN_SHIFT : Z := 16.
Definition SECBN_MASK : Z := 0xff.
Definition SUBBN_MASK : Z := 0xff.
Definition PCIE_CIDR_SHIFT : Z := 0.
Definition PCIE_NCPR_SHIFT : Z := 8.
Definition PCIE_ECAP_CIDR_SHIFT : Z := 0.
Definition PCIE_ECAP_NCPR_SHIFT : Z := 20.
Definition PCIE_CIDR_MASK : Z := 0xff.
Definition PCIE_NCPR_MASK : Z := 0xff.
Definition PCIE_ECAP_CIDR_MASK : Z := 0xffff.
Definition PCIE_ECAP_NCPR_MASK : Z := 0xfff.
Definition PCIE_CAP_START : Z := 0x40.
Definition PCIE_CAP_END : Z := 0xFC.
Definition PCIE_ECAP_START : Z := 0x100.
Definition PCIE_ECAP_END : Z := 0xFFC.
Definition CID_PCIECS : Z := 0x10.
Definition CID_MSI : Z := 0x05.
Definition CID_MSIX : Z := 0x11.
Definition CID_PMC : Z := 0x01.
Definition ECID_AER : Z := 0x0001.
Definition ECID_RCECEA : Z := 0x0007.
Definition ECID_ACS : Z := 0x000D.
Definition ECID_ARICS : Z := 0x000E.
Definition ECID_ATS : Z := 0x000F.
Definition ECID_PRI : Z := 0x0013.
Definition CIDR_OFFSET : Z := 0.
Definition PCIECR_OFFSET : Z := 2.
Definition DCAPR_OFFSET : Z := 4.
Definition ACSCR_OFFSET : Z := 4.
Definition DCTLR_OFFSET : Z := 8.
Definition LCAPR_OFFSET : Z := 0xC.
Definition LCTLR_OFFSET : Z := 0x10.
Definition DCAP2R_OFFSET : Z := 24.
Definition DCTL2R_OFFSET : Z := 28.
Definition LCAP2R_OFFSET : Z := 0x2C.
Definition LCTL2R_OFFSET : Z := 0x30.
Definition ACS_CTRL_SVE_SHIFT : Z := 16.
Definition ACS_CTRL_TBE_SHIFT : Z := 17.
Definition ACS_CTRL_RRE_SHIFT : Z := 18.
Definition ACS_CTRL_UFE_SHIFT : Z := 20.
Definition PCIECR_DPT_SHIFT : Z := 4.
Definition PCIECR_DPT_MASK : Z := 0xf.
Definition DCAPR_MPSS_SHIFT : Z := 0.
Definition DCAPR_FLRC_SHIFT : Z := 28.
Definition DCAPR_MPSS_MASK : Z := 0x07.
Definition DCAPR_FLRC_MASK : Z := 0x1.
Definition DCTLR_SHIFT : Z := 0.
Definition DCTLR_CERE_SHIFT : Z := 0.
Definition DCTLR_NFERE_SHIFT : Z := 1.
Definition DCTLR_FERE_SHIFT : Z := 2.
Definition DCTLR_URRE_SHIFT : Z := 3.
Definition DCTLR_PFE_SHIFT : Z := 9.
Definition DCTLR_APE_SHIFT : Z := 10.
Definition DCTLR_ENS_SHIFT : Z := 11.
Definition DCTLR_IFLR_SHIFT : Z := 15.
Definition DCTLR_DSR_SHIFT : Z := 16.
Definition DCTLR_MASK : Z := 0xffff.
Definition DCTLR_CERE_MASK : Z := 0x1.
Definition DCTLR_NFERE_MASK : Z := 0x1.
Definition DCTLR_FERE_MASK : Z := 0x1.
Definition DCTLR_URRE_MASK : Z := 0x1.
Definition DCTLR_PFE_MASK : Z := 0x1.
Definition DCTLR_APE_MASK : Z := 0x1.
Definition DCTLR_ENS_MASK : Z := 0x1.
Definition DCTLR_IFLR_MASK : Z := 0x1.
Definition DCTLR_DSR_MASK : Z := 0xffff.
Definition DCTLR_FLR_SET : Z := 0x8000.
Definition DSR_CED_SHIFT : Z := 0.
Definition DSR_NFED_SHIFT : Z := 1.
Definition DSR_FED_SHIFT : Z := 2.
Definition DSR_URD_SHIFT : Z := 3.
Definition DSR_TP_SHIFT : Z := 5.
Definition DSR_CED_MASK : Z := 0x1.
Definition DSR_NFED_MASK : Z := 0x1.
Definition DSR_FED_MASK : Z := 0x1.
Definition DSR_URD_MASK : Z := 0x1.
Definition DSR_TP_MASK : Z := 0x1.
Definition DCAP2R_AFS_SHIFT : Z := 5.
Definition DCAP2R_OBFF_SHIFT : Z := 18.
Definition DCAP2R_CTRS_SHIFT : Z := 0.
Definition DCAP2R_CTDS_SHIFT : Z := 4.
Definition DCAP2R_A32C_SHIFT : Z := 7.
Definition DCAP2R_A64C_SHIFT : Z := 8.
Definition DCAP2R_A128C_SHIFT : Z := 9.
Definition DCAP2R_ARS_SHIFT : Z := 6.
Definition DCAP2R_AFS_MASK : Z := 0x1.
Definition DCAP2R_OBFF_MASK : Z := 0x3.
Definition DCAP2R_CTRS_MASK : Z := 0xf.
Definition DCAP2R_CTDS_MASK : Z := 0x1.
Definition DCAP2R_A32C_MASK : Z := 0x1.
Definition DCAP2R_A64C_MASK : Z := 0x1.
Definition DCAP2R_A128C_MASK : Z := 0x1.
Definition DCAP2R_ARS_MASK : Z := 0x01.
Definition DCTL2R_AFE_SHIFT : Z := 5.
Definition DCTL2R_AFE_MASK : Z := 0x1.
Definition RCiEP : Z := Z.shiftl 1 9.
Definition RCEC : Z := Z.shiftl 1 10.
Definition EP : Z := Z.shiftl 1 0.
Definition RP : Z := Z.shiftl 1 4.
Definition UP : Z := Z.shiftl 1 5.
Definition DP : Z := Z.shiftl 1 6.
Definition iEP_EP : Z := Z.shiftl 1 12.
Definition iEP_RP : Z := Z.shiftl 1 11.
Definition MSI_X_ENABLE_SHIFT : Z := 31.
Definition MSI_X_TOR_OFFSET : Z := 0x4.
Definition MSI_X_MSG_TBL_ADDR_OFFSET : Z := 0x0.
Definition MSI_X_MSG_TBL_DATA_OFFSET : Z := 0x8.
Definition MSI_X_MSG_TBL_MVC_OFFSET : Z := 0xC.
Definition MSI_X_TABLE_BIR_MASK : Z := 0x7.
Definition MSI_X_ENTRY_SIZE : Z := 16.
Definition HEADER_OFFSET : Z := 0xC.
Definition PRI_BUS : Z := 0.
Definition SEC_BUS : Z := 1.
Definition BUS_NUM_REG_OFFSET : Z := 0x18.

(** ** Translation tables (bsa_acs_pgt.h) *)

Definition PGT_ENTRY_TABLE_MASK : Z := Z.shiftl 0x1 1.
Definition PGT_ENTRY_VALID_MASK : Z := 0x1.
Definition PGT_ENTRY_PAGE_MASK : Z := Z.shiftl 0x1 1.
Definition PGT_ENTRY_BLOCK_MASK : Z := Z.shiftl 0x0 1.
Definition PGT_DESC_ATTR_UPPER_MASK : Z := Z.shiftl ((Z.shiftl 0x1 12) - 1) 52.
Definition PGT_DESC_ATTR_LOWER_MASK : Z := Z.shiftl ((Z.shiftl 0x1 10) - 1) 2.
Definition PGT_DESC_ATTRIBUTES_MASK : Z := Z.lor PGT_DESC_ATTR_UPPER_MASK PGT_DESC_ATTR_LOWER_MASK.

(** ** Interrupt controller (gic.h, bsa_acs_gic.h, bsa_acs_gic_support.h) *)

Definition GICD_CTRL : Z := 0x0000.
Definition GICD_TYPER : Z := 0x0004.
Definition GICD_IPRIORITYR : Z := 0x0400.
Definition GICD_IROUTERn : Z := 0x6100.
Definition GICR_CTLR : Z := 0x0000.
Definition GICR_TYPER : Z := 0x0008.
Definition GICR_IPRIORITYR : Z := 0x0400.
Definition GICR_ICENABLER : Z := 0x0180.
Definition GICR_WAKER : Z := 0x0014.
Definition GIC_ARE_ENABLE : Z := Z.shiftl 1 4.
Definition GIC_DEFAULT_PRIORITY : Z := 0x80.
Definition GICR_CTLR_FRAME_SIZE : Z := 0x00010000.
Definition GICR_SGI_PPI_FRAME_SIZE : Z := 0x00010000.
Definition GIC_ICDIPTR : Z := 0x800.
Definition GIC_ICCICR : Z := 0x00.
Definition GIC_ICCBPR : Z := 0x08.
Definition GIC_ICCPMR : Z := 0x04.
Definition GIC_ICCIAR : Z := 0x0C.
Definition GIC_ICCEIOR : Z := 0x10.
Definition GICR_TYPER_AFF : Z := Z.shiftl 0xFFFFFFFF 32.
Definition GICD_CTLR : Z := 0x0000.
Definition GICD_ISENABLER : Z := 0x100.
Definition GICD_ICENABLER : Z := 0x180.
Definition GICD_ISPENDR : Z := 0x200.
Definition GICD_ISACTIVER0 : Z := 0x300.
Definition GICD_ICPENDR0 : Z := 0x280.
Definition GICD_ICACTIVER0 : Z := 0x380.
Definition GICD_ICFGR : Z := 0xC00.
Definition GICD_IROUTER : Z := 0x6000.
Definition GICD_PIDR2 : Z := 0xFFE8.
Definition GICR_ISENABLER : Z := 0x100.
Definition RD_FRAME_SIZE : Z := 0x10000.
Definition GICD_ICFGR_INTR_STRIDE : Z := 16.
Definition GICv2m_MSI_TYPER : Z := 0x008.
Definition GICv2m_MSI_SETSPI : Z := 0x040.
Definition GICv2m_MSI_IIDR : Z := 0xFCC.
Definition LPI_MIN_ID : Z := 8192.
Definition ICH_HCR_EL2 : Z := 0.
Definition ICH_MISR_EL2 : Z := 1.
Definition ICC_IGRPEN1_EL1 : Z := 2.
Definition ICC_BPR1_EL1 : Z := 3.
Definition ICC_PMR_EL1 : Z := 4.

(** ** Timers and watchdogs (bsa_acs_timer.h, bsa_acs_timer_support.h, bsa_acs_wd.h) *)

Definition ARM_ARCH_TIMER_ENABLE : Z := Z.shiftl 1 0.
Definition ARM_ARCH_TIMER_IMASK : Z := Z.shiftl 1 1.
Definition ARM_ARCH_TIMER_ISTATUS : Z := Z.shiftl 1 2.
Definition CNTTIDR : Z := 0x8.
Definition CNTACR : Z := 0x40.
Definition CNTPCT : Z := 0.
Definition CNTP_CVAL_LOW : Z := 0x20.
Definition CNTP_CVAL_HIGH : Z := 0x24.
Definition CNTP_TVAL : Z := 0x28.
Definition CNTP_CTL : Z := 0x2C.
Definition CntFrq : Z := 0.
Definition CntPct : Z := 1.
Definition CntkCtl : Z := 2.
Definition CntpTval : Z := 3.
Definition CntpCtl : Z := 4.
Definition CntvTval : Z := 5.
Definition CntvCtl : Z := 6.
Definition CntvCt : Z := 7.
Definition CntpCval : Z := 8.
Definition CntvCval : Z := 9.
Definition CntvOff : Z := 10.
Definition CnthCtl : Z := 11.
Definition CnthpTval : Z := 12.
Definition CnthpCtl : Z := 13.
Definition CnthpCval : Z := 14.
Definition CnthvTval : Z := 15.
Definition CnthvCtl : Z := 16.
Definition CnthvCval : Z := 17.
Definition RegMaximum : Z := 18.
Definition WD_IIDR_OFFSET : Z := 0xFCC.
Definition WD_CS_OFFSET : Z := 0x0.
Definition WD_OR_OFFSET : Z := 0x8.
Definition WD_OR_UPPER_WORD_OFFSET : Z := 0x0C.
Definition WD_CSR_RSRV_SHIFT : Z := 3.
Definition WD_OR_RSRV_SHIFT : Z := 16.

(** ** DMA and exerciser (bsa_acs_dma.h, bsa_acs_exerciser.h) *)

Definition DMA_COHERENT_MASK : Z := 0xF.
Definition IOMMU_ATTACHED_MASK : Z := 0xF0.
Definition PCI_EP_MASK : Z := 0xF00.
Definition MAX_EXERCISER_CARDS : Z := 20.
Definition BUS_MEM_EN_MASK : Z := 0x06.
Definition COMMAND_REG_OFFSET : Z := 0x04.
Definition EXERCISER_NUM_CARDS : Z := 0x1.

(** ** Structures of pal_interface.h *)

(** Each C structure is a record whose fields carry a prefix naming the
    structure; flexible array members are lists. *)

Record PE_INFO_ENTRY := mkPE {
  pe_num : Z; pe_attr : Z; pe_mpidr : Z; pe_pmu_gsiv : Z; pe_gmain_gsiv : Z }.

Record PE_INFO_TABLE := mkPETable { num_of_pe : Z; pe_info : list PE_INFO_ENTRY }.

Record PE_TCR_BF := mkTCR {
  tcr_ps : Z; tcr_tg : Z; tcr_sh : Z; tcr_orgn : Z; tcr_irgn : Z; tcr_tsz : Z;
  tcr_sl : Z; tcr_tg_size_log2 : Z }.

Record ARM_SMC_ARGS := mkSmc {
  Arg0 : Z; Arg1 : Z; Arg2 : Z; Arg3 : Z; Arg4 : Z; Arg5 : Z; Arg6 : Z; Arg7 : Z }.

Record GIC_INFO_HDR := mkGicHdr {
  gic_version : Z; num_gicd : Z; num_gicrd : Z; num_its : Z; num_msi_frame : Z }.

Record GIC_INFO_ENTRY := mkGic {
  gic_type : Z; gic_base : Z; gic_entry_id : Z; gic_length : Z; gic_flags : Z;
  gic_spi_count : Z; gic_spi_base : Z }.

Record GIC_INFO_TABLE := mkGicTable { gic_header : GIC_INFO_HDR; gic_info : list GIC_INFO_ENTRY }.

Record TIMER_INFO_HDR := mkTimerHdr {
  s_el1_timer_flag : Z; ns_el1_timer_flag : Z; el2_timer_flag : Z; el2_virt_timer_flag : Z;
  s_el1_timer_gsiv : Z; ns_el1_timer_gsiv : Z; el2_timer_gsiv : Z; virtual_timer_flag : Z;
  virtual_timer_gsiv : Z; el2_virt_timer_gsiv : Z; num_platform_timer : Z; num_watchdog : Z;
  sys_timer_status : Z }.

Record TIMER_INFO_GTBLOCK := mkGt {
  gt_type : Z; gt_timer_count : Z; gt_block_cntl_base : Z; gt_frame_num : list Z;
  gt_GtCntBase : list Z; gt_GtCntEl0Base : list Z; gt_gsiv : list Z; gt_virt_gsiv : list Z;
  gt_flags : list Z }.

Record TIMER_INFO_TABLE := mkTimerTable {
  timer_header : TIMER_INFO_HDR; gt_info : list TIMER_INFO_GTBLOCK }.

Record WD_INFO_BLOCK := mkWd {
  wd_ctrl_base : Z; wd_refresh_base : Z; wd_gsiv : Z; wd_flags : Z }.

Record WD_INFO_TABLE := mkWdTable { num_wd : Z; wd_info : list WD_INFO_BLOCK }.

Record PCIE_INFO_BLOCK := mkEcam {
  ecam_base : Z; segment_num : Z; start_bus_num : Z; end_bus_num : Z }.

Record PCIE_INFO_TABLE := mkEcamTable { ecam_entries : Z; ecam_block : list PCIE_INFO_BLOCK }.

Record memory_region_descriptor_t := mkRegion {
  physical_address : Z; virtual_address : Z; region_length : Z; attributes : Z }.

Record pgt_descriptor_t := mkPgt {
  pgt_base : Z; pgt_ias : Z; pgt_oas : Z; pgt_mair : Z; pgt_stage : Z; pgt_tcr : PE_TCR_BF }.

Record smmu_master_attributes_t := mkMasterAttr {
  smmu_index : Z; streamid : Z; substreamid : Z; attr_ssid_bits : Z; attr_stage2 : Z }.

Record PERIPHERAL_INFO_HDR := mkPerHdr { num_usb : Z; num_sata : Z; num_uart : Z; num_all : Z }.

Record PERIPHERAL_INFO_BLOCK := mkPer {
  per_type : Z; per_bdf : Z; per_base0 : Z; per_base1 : Z; per_irq : Z; per_flags : Z;
  per_msi : Z; per_msix : Z; per_max_pasids : Z }.

Record PERIPHERAL_INFO_TABLE := mkPerTable {
  per_header : PERIPHERAL_INFO_HDR; per_info : list PERIPHERAL_INFO_BLOCK }.

Record DMA_INFO_BLOCK := mkDma {
  dma_type : Z; dma_target : Z; dma_port : Z; dma_host : Z; dma_flags : Z }.

Record DMA_INFO_TABLE := mkDmaTable { num_dma_ctrls : Z; dma_info : list DMA_INFO_BLOCK }.

Record MEM_INFO_BLOCK := mkMem {
  mem_type : Z; mem_phy_addr : Z; mem_virt_addr : Z; mem_size : Z; mem_flags : Z }.

Record MEMORY_INFO_TABLE := mkMemTable {
  dram_base : Z; dram_size : Z; mem_info : list MEM_INFO_BLOCK }.

(** The I/O virtualisation blocks are variable-sized and are linked by byte
    offsets ([output_ref]) from the start of the table. The two views of
    [NODE_DATA_MAP] (four words, or an [ID_MAP]) share their storage. *)
Record ID_MAP := mkIdMap { input_base : Z; id_count : Z; output_base : Z; output_ref : Z }.

(** The union [NODE_DATA] is its storage, a list of 32-bit words (those not listed
    are 0), and its members are views of it: any of them can be read whatever the
    type of the block. *)
Definition NODE_DATA : Type := list Z.
Definition data_word (i : nat) (d : NODE_DATA) : Z := default 0 (d !! i).
Definition data_dword (i : nat) (d : NODE_DATA) : Z :=
  data_word i d + 2 ^ 32 * data_word (S i) d.

Definition rc_segment : NODE_DATA -> Z := data_word 0.
Definition rc_ats_attr : NODE_DATA -> Z := data_word 1.
Definition rc_cca : NODE_DATA -> Z := data_word 2.
Definition rc_smmu_base : NODE_DATA -> Z := data_dword 4.
Definition smmu_arch_major_rev : NODE_DATA -> Z := data_word 0.
Definition smmu_base : NODE_DATA -> Z := data_dword 2.
Definition its_count : NODE_DATA -> Z := data_word 0.
Definition pmcg_base : NODE_DATA -> Z := data_dword 0.
Definition pmcg_overflow_gsiv : NODE_DATA -> Z := data_word 2.
Definition pmcg_node_ref : NODE_DATA -> Z := data_word 3.

Record IOVIRT_BLOCK := mkIovirt {
  iovirt_type : Z; num_data_map : Z; iovirt_data : NODE_DATA; iovirt_flags : Z;
  data_map : list ID_MAP }.

(** [blocks] by the byte offset of each block from the start of the table. *)
Record IOVIRT_INFO_TABLE := mkIovirtTable {
  num_blocks : Z; num_smmus : Z; num_pci_rcs : Z; num_named_components : Z;
  num_its_groups : Z; num_pmcgs : Z;
  iovirt_blocks : gmap Z IOVIRT_BLOCK }.

(** [offsetof(IOVIRT_INFO_TABLE, blocks)], [offsetof(IOVIRT_BLOCK, data_map)] and
    [sizeof(NODE_DATA_MAP)]. *)
Definition IOVIRT_FIRST_BLOCK : Z := 24.
Definition IOVIRT_BLOCK_HEADER : Z := 268.
Definition NODE_DATA_MAP_SIZE : Z := 16.

(** Byte offset of the block that follows block [b], which is at [off]. *)
Definition IOVIRT_NEXT_BLOCK (off : Z) (b : IOVIRT_BLOCK) : Z :=
  off + IOVIRT_BLOCK_HEADER + num_data_map b * NODE_DATA_MAP_SIZE.

(** ** Structures of the validation layer *)

(** bsa_acs_val.h: the record each PE reports its status in. *)
Record VAL_SHARED_MEM_t := mkShared { sh_data0 : Z; sh_data1 : Z; sh_status : Z }.

(** bsa_acs_pcie.h *)
Record pcie_device_attr := mkDev { d_bdf : Z; d_rp_bdf : Z }.

Record pcie_device_bdf_table := mkBdfTable { bdf_entries : Z; bdf_device : list pcie_device_attr }.

Record pcie_cfgreg_bitfield_entry := mkBf {
  bf_reg_type : Z; bf_cap_id : Z; bf_ecap_id : Z; bf_reg_offset : Z; bf_dev_port_bitmask : Z;
  bf_start : Z; bf_end : Z; bf_cfg_value : Z; bf_attr : Z; bf_err_str1 : string;
  bf_err_str2 : string }.

(** bsa_acs_gic.h *)
Record MSI_FRAME_ENTRY := mkFrame {
  fr_base : Z; fr_entry_id : Z; fr_flags : Z; fr_spi_count : Z; fr_spi_base : Z }.

Record GICv2m_MSI_FRAME_INFO := mkV2m { v2m_num_msi_frame : Z; v2m_msi_info : list MSI_FRAME_ENTRY }.

(** bsa_acs_exerciser.h *)
Record EXERCISER_INFO_BLOCK := mkExerciser { e_bdf : Z; e_initialized : Z }.

Record EXERCISER_INFO_TABLE := mkExerciserTable { num_exerciser : Z; e_info : list EXERCISER_INFO_BLOCK }.

(** ** Structures of the GIC ITS driver (bsa_gic_its.h of the platform layer) *)

(** Fields the code writes after it has counted the block in are [None] until then. *)
Record GIC_ITS_BLOCK := mkIts {
  its_ID : Z; its_Base : Z; its_CommandQBase : option Z; its_IDBits : option Z;
  its_ITTBase : option Z }.

Record GIC_ITS_INFO := mkItsInfo {
  GicDBase : Z; GicRdBase : Z; GicNumIts : Z; GicIts : list GIC_ITS_BLOCK }.

(** The globals of the ITS driver: [g_gic_entry] as an index in the GIC table,
    [g_gic_its_info], the array [g_cwriter_ptr], [g_its_setup_done], [ConfigBase]. *)
Record its_globals := mkItsGlobals {
  g_gic_entry : option Z;
  g_gic_its_info : option GIC_ITS_INFO;
  g_cwriter_ptr : option (list Z);
  g_its_setup_done : Z;
  ConfigBase : Z }.

(** The globals of the platform layer (pal_pe.c); [gSecondaryPeStack] is 0 for NULL. *)
Record pal_globals := mkPalGlobals { g_num_pe : Z; gMpidrMax : Z; gSecondaryPeStack : Z }.

(** ** Structures of the SMMUv3 driver (smmu_v3.h) *)

(** Pointers are addresses (0 is NULL), except those to arrays of structures,
    which carry the array. *)
Record smmu_queue_t := mkQueue { q_prod : Z; q_cons : Z; q_log2nent : Z }.

Record smmu_cmd_queue_t := mkCmdq {
  cq_queue : smmu_queue_t; cq_base_ptr : Z; cq_base : Z; cq_base_phys : Z; cq_queue_base : Z;
  cq_entry_size : Z; cq_prod_reg : Z; cq_cons_reg : Z }.

Record smmu_strtab_l1_desc_t := mkL1 {
  l1_span : Z; l1_l2ptr : Z; l1_l2desc64 : Z; l1_l2desc_phys : Z }.

Record smmu_stage2_config_t := mkS2 { s2_vmid : Z; s2_vttbr : Z; s2_vtcr : Z }.

Record smmu_cdtab_ctx_desc_t := mkCd { cd_asid : Z; cd_ttbr : Z; cd_tcr : Z; cd_mair : Z }.

Record smmu_cdtab_l1_ctx_desc_t := mkCdL1 { cdl1_l2ptr : Z; cdl1_l2desc64 : Z; cdl1_l2desc_phys : Z }.

Record smmu_cdtab_config_t := mkCdtab {
  cdtab_ptr : Z; cdtab64 : Z; cdtab_phys : Z; cd_l1_desc_ptr : Z;
  cd_l1_desc : list smmu_cdtab_l1_ctx_desc_t; cd_l1_ent_count : Z }.

Record smmu_stage1_config_t := mkS1 {
  s1_cdcfg : smmu_cdtab_config_t; s1_cd : smmu_cdtab_ctx_desc_t; s1_fmt : Z; s1_cdmax : Z }.

Record smmu_strtab_config_t := mkStrtab {
  strtab_ptr : Z; strtab64 : Z; strtab_phys : Z; st_l1_desc_ptr : Z;
  st_l1_desc : list smmu_strtab_l1_desc_t; st_l1_ent_count : Z; strtab_base : Z;
  strtab_base_cfg : Z }.

Record smmu_supported_t := mkSupported {
  st_level_2lvl : bool; cd2l : bool; hyp : bool; s1p : bool; s2p : bool }.

Record smmu_dev_t := mkSmmu {
  smmu_dev_base : Z; smmu_ias : Z; smmu_oas : Z; smmu_ssid_bits : Z; smmu_sid_bits : Z;
  smmu_cmdq : smmu_cmd_queue_t; smmu_strtab_cfg : smmu_strtab_config_t;
  smmu_supported : smmu_supported_t }.

Inductive smmu_stage_t := SMMU_STAGE_S1 | SMMU_STAGE_S2 | SMMU_STAGE_BYPASS.

(** [master->smmu] points into the array [g_smmu]: [None] is NULL. *)
Record smmu_master_t := mkMaster {
  m_smmu : option nat; m_stage : smmu_stage_t; m_stage1_config : smmu_stage1_config_t;
  m_stage2_config : smmu_stage2_config_t; m_sid : Z; m_ssid : Z; m_ssid_bits : Z }.

(** Assignments to members. *)
Definition set_smmu_dev_base (v : Z) (s : smmu_dev_t) : smmu_dev_t :=
  mkSmmu v (smmu_ias s) (smmu_oas s) (smmu_ssid_bits s) (smmu_sid_bits s) (smmu_cmdq s)
    (smmu_strtab_cfg s) (smmu_supported s).
Definition set_smmu_ias (v : Z) (s : smmu_dev_t) : smmu_dev_t :=
  mkSmmu (smmu_dev_base s) v (smmu_oas s) (smmu_ssid_bits s) (smmu_sid_bits s) (smmu_cmdq s)
    (smmu_strtab_cfg s) (smmu_supported s).
Definition set_smmu_oas (v : Z) (s : smmu_dev_t) : smmu_dev_t :=
  mkSmmu (smmu_dev_base s) (smmu_ias s) v (smmu_ssid_bits s) (smmu_sid_bits s) (smmu_cmdq s)
    (smmu_strtab_cfg s) (smmu_supported s).
Definition set_smmu_id_bits (ssid sid : Z) (s : smmu_dev_t) : smmu_dev_t :=
  mkSmmu (smmu_dev_base s) (smmu_ias s) (smmu_oas s) ssid sid (smmu_cmdq s)
    (smmu_strtab_cfg s) (smmu_supported s).
Definition set_smmu_cmdq (v : smmu_cmd_queue_t) (s : smmu_dev_t) : smmu_dev_t :=
  mkSmmu (smmu_dev_base s) (smmu_ias s) (smmu_oas s) (smmu_ssid_bits s) (smmu_sid_bits s) v
    (smmu_strtab_cfg s) (smmu_supported s).
Definition set_smmu_strtab_cfg (v : smmu_strtab_config_t) (s : smmu_dev_t) : smmu_dev_t :=
  mkSmmu (smmu_dev_base s) (smmu_ias s) (smmu_oas s) (smmu_ssid_bits s) (smmu_sid_bits s)
    (smmu_cmdq s) v (smmu_supported s).
Definition set_smmu_supported (v : smmu_supported_t) (s : smmu_dev_t) : smmu_dev_t :=
  mkSmmu (smmu_dev_base s) (smmu_ias s) (smmu_oas s) (smmu_ssid_bits s) (smmu_sid_bits s)
    (smmu_cmdq s) (smmu_strtab_cfg s) v.

Definition set_strtab_ptr (v : Z) (c : smmu_strtab_config_t) : smmu_strtab_config_t :=
  mkStrtab v (strtab64 c) (strtab_phys c) (st_l1_desc_ptr c) (st_l1_desc c) (st_l1_ent_count c)
    (strtab_base c) (strtab_base_cfg c).
Definition set_strtab_place (v64 phys : Z) (c : smmu_strtab_config_t) : smmu_strtab_config_t :=
  mkStrtab (strtab_ptr c) v64 phys (st_l1_desc_ptr c) (st_l1_desc c) (st_l1_ent_count c)
    (strtab_base c) (strtab_base_cfg c).
Definition set_st_l1_desc (p : Z) (l : list smmu_strtab_l1_desc_t) (c : smmu_strtab_config_t)
  : smmu_strtab_config_t :=
  mkStrtab (strtab_ptr c) (strtab64 c) (strtab_phys c) p l (st_l1_ent_count c)
    (strtab_base c) (strtab_base_cfg c).
Definition set_st_l1_ent_count (v : Z) (c : smmu_strtab_config_t) : smmu_strtab_config_t :=
  mkStrtab (strtab_ptr c) (strtab64 c) (strtab_phys c) (st_l1_desc_ptr c) (st_l1_desc c) v
    (strtab_base c) (strtab_base_cfg c).
Definition set_strtab_base (v : Z) (c : smmu_strtab_config_t) : smmu_strtab_config_t :=
  mkStrtab (strtab_ptr c) (strtab64 c) (strtab_phys c) (st_l1_desc_ptr c) (st_l1_desc c)
    (st_l1_ent_count c) v (strtab_base_cfg c).
Definition set_strtab_base_cfg (v : Z) (c : smmu_strtab_config_t) : smmu_strtab_config_t :=
  mkStrtab (strtab_ptr c) (strtab64 c) (strtab_phys c) (st_l1_desc_ptr c) (st_l1_desc c)
    (st_l1_ent_count c) (strtab_base c) v.

Definition set_cdtab_ptr (v : Z) (c : smmu_cdtab_config_t) : smmu_cdtab_config_t :=
  mkCdtab v (cdtab64 c) (cdtab_phys c) (cd_l1_desc_ptr c) (cd_l1_desc c) (cd_l1_ent_count c).
Definition set_cdtab_place (v64 phys : Z) (c : smmu_cdtab_config_t) : smmu_cdtab_config_t :=
  mkCdtab (cdtab_ptr c) v64 phys (cd_l1_desc_ptr c) (cd_l1_desc c) (cd_l1_ent_count c).
Definition set_cd_l1_desc (p : Z) (l : list smmu_cdtab_l1_ctx_desc_t) (c : smmu_cdtab_config_t)
  : smmu_cdtab_config_t :=
  mkCdtab (cdtab_ptr c) (cdtab64 c) (cdtab_phys c) p l (cd_l1_ent_count c).
Definition set_cd_l1_ent_count (v : Z) (c : smmu_cdtab_config_t) : smmu_cdtab_config_t :=
  mkCdtab (cdtab_ptr c) (cdtab64 c) (cdtab_phys c) (cd_l1_desc_ptr c) (cd_l1_desc c) v.

Definition set_s1_cdcfg (v : smmu_cdtab_config_t) (c : smmu_stage1_config_t) : smmu_stage1_config_t :=
  mkS1 v (s1_cd c) (s1_fmt c) (s1_cdmax c).
Definition set_s1_cd (v : smmu_cdtab_ctx_desc_t) (c : smmu_stage1_config_t) : smmu_stage1_config_t :=
  mkS1 (s1_cdcfg c) v (s1_fmt c) (s1_cdmax c).
Definition set_s1_fmt (v : Z) (c : smmu_stage1_config_t) : smmu_stage1_config_t :=
  mkS1 (s1_cdcfg c) (s1_cd c) v (s1_cdmax c).
Definition set_s1_cdmax (v : Z) (c : smmu_stage1_config_t) : smmu_stage1_config_t :=
  mkS1 (s1_cdcfg c) (s1_cd c) (s1_fmt c) v.

Definition set_m_ids (smmu : option nat) (sid ssid_bits : Z) (m : smmu_master_t) : smmu_master_t :=
  mkMaster smmu (m_stage m) (m_stage1_config m) (m_stage2_config m) sid (m_ssid m) ssid_bits.
Definition set_m_stage (v : smmu_stage_t) (m : smmu_master_t) : smmu_master_t :=
  mkMaster (m_smmu m) v (m_stage1_config m) (m_stage2_config m) (m_sid m) (m_ssid m) (m_ssid_bits m).
Definition set_m_ssid (v : Z) (m : smmu_master_t) : smmu_master_t :=
  mkMaster (m_smmu m) (m_stage m) (m_stage1_config m) (m_stage2_config m) (m_sid m) v (m_ssid_bits m).
Definition set_m_stage1_config (v : smmu_stage1_config_t) (m : smmu_master_t) : smmu_master_t :=
  mkMaster (m_smmu m) (m_stage m) v (m_stage2_config m) (m_sid m) (m_ssid m) (m_ssid_bits m).
Definition set_m_stage2_config (v : smmu_stage2_config_t) (m : smmu_master_t) : smmu_master_t :=
  mkMaster (m_smmu m) (m_stage m) (m_stage1_config m) v (m_sid m) (m_ssid m) (m_ssid_bits m).

(** What [val_memory_set(p, sizeof( * p), 0)] leaves in each structure. *)
Definition zero_l1_desc : smmu_strtab_l1_desc_t := mkL1 0 0 0 0.
Definition zero_cd_l1_desc : smmu_cdtab_l1_ctx_desc_t := mkCdL1 0 0 0.
Definition zero_smmu : smmu_dev_t :=
  mkSmmu 0 0 0 0 0 (mkCmdq (mkQueue 0 0 0) 0 0 0 0 0 0 0) (mkStrtab 0 0 0 0 [] 0 0 0)
    (mkSupported false false false false false).
Definition zero_master : smmu_master_t :=
  mkMaster None SMMU_STAGE_S1 (mkS1 (mkCdtab 0 0 0 0 [] 0) (mkCd 0 0 0 0) 0 0) (mkS2 0 0 0) 0 0 0.

(** Sizes in bytes, on a 64-bit machine. *)
Definition SIZEOF_smmu_strtab_l1_desc_t : Z := 32.
Definition SIZEOF_smmu_cdtab_l1_ctx_desc_t : Z := 24.
Definition SIZEOF_smmu_dev_t : Z := 168.
Definition SIZEOF_smmu_master_t : Z := 136.
Definition SIZEOF_smmu_master_node : Z := 16.
