(* ===== verification/World.v ===== *)
(** * The state of the program and its platform interface

    The globals of the validation layer as one record, the hardware and firmware
    the program runs on as a type class, and the platform-layer primitives
    (src/platform/pal_uefi_dt/src/pal_misc.c, pal_pe.c, pal_dt.c, and the
    pass-through wrappers of src/val/src/acs_test_infra.c and acs_memory.c). *)

From S2P Require Import Prelude Types.
#[local] Open Scope c_scope.

(** ** Globals *)

(** [dev] is the state of everything outside the program; [heap] the live blocks
    handed out by the firmware allocator, base address to size in bytes; [ram]
    the initialised 64-bit words of those blocks, by byte address. The other
    fields are the C globals of the same name; tables reached through a pointer
    are [None] while the pointer is NULL ([gSharedMemory] and [g_smmu] keep their
    address too). [g_esr_handler] and [g_intr_handler] hold function addresses, 0
    for NULL. [g_smmu_master_list] is the list that starts at
    [g_smmu_master_list_head]; [g_its] the globals of the ITS driver, [g_pal] those of the
    platform layer; [statics] holds the variables of src/test_pool that outlive a call, by
    name and index. *)
Record world (D : Type) := World {
  dev : D;
  heap : gmap Z Z;
  ram : gmap Z Z;
  g_print_level : Z;
  g_skip_test_num : list Z;
  g_bsa_tests_total : Z;
  g_bsa_tests_pass : Z;
  g_bsa_tests_fail : Z;
  g_stack_pointer : Z;
  g_exception_ret_addr : Z;
  g_ret_addr : Z;
  gSharedMemory : option (Z * list VAL_SHARED_MEM_t);
  g_pe_info_table : option PE_INFO_TABLE;
  g_smc_args : ARM_SMC_ARGS;
  g_esr_handler : list Z;
  g_intr_handler : gmap Z Z;
  g_pcie_info_table : option PCIE_INFO_TABLE;
  g_pcie_bdf_table : option pcie_device_bdf_table;
  page_size : Z;
  bits_per_level : Z;
  pgt_addr_mask : Z;
  g_memory_info_table : option MEMORY_INFO_TABLE;
  g_gic_info_table : option GIC_INFO_TABLE;
  g_v2m_msi_info : option GICv2m_MSI_FRAME_INFO;
  g_timer_info_table : option TIMER_INFO_TABLE;
  g_wd_info_table : option WD_INFO_TABLE;
  g_peripheral_info_table : option PERIPHERAL_INFO_TABLE;
  g_iovirt_info_table : option IOVIRT_INFO_TABLE;
  g_dma_info_table : option DMA_INFO_TABLE;
  g_exercier_info_table : EXERCISER_INFO_TABLE;
  g_smmu : option (Z * list smmu_dev_t);
  g_num_smmus : Z;
  g_smmu_master_list : list smmu_master_t;
  g_its : its_globals;
  g_pal : pal_globals;
  g_sw_view : list Z;
  statics : gmap (string * Z) Z }.
Arguments World {D}.
Arguments dev {D}.
Arguments heap {D}.
Arguments ram {D}.
Arguments g_print_level {D}.
Arguments g_skip_test_num {D}.
Arguments g_bsa_tests_total {D}.
Arguments g_bsa_tests_pass {D}.
Arguments g_bsa_tests_fail {D}.
Arguments g_stack_pointer {D}.
Arguments g_exception_ret_addr {D}.
Arguments g_ret_addr {D}.
Arguments gSharedMemory {D}.
Arguments g_pe_info_table {D}.
Arguments g_smc_args {D}.
Arguments g_esr_handler {D}.
Arguments g_intr_handler {D}.
Arguments g_pcie_info_table {D}.
Arguments g_pcie_bdf_table {D}.
Arguments page_size {D}.
Arguments bits_per_level {D}.
Arguments pgt_addr_mask {D}.
Arguments g_memory_info_table {D}.
Arguments g_gic_info_table {D}.
Arguments g_v2m_msi_info {D}.
Arguments g_timer_info_table {D}.
Arguments g_wd_info_table {D}.
Arguments g_peripheral_info_table {D}.
Arguments g_iovirt_info_table {D}.
Arguments g_dma_info_table {D}.
Arguments g_exercier_info_table {D}.
Arguments g_smmu {D}.
Arguments g_num_smmus {D}.
Arguments g_smmu_master_list {D}.
Arguments g_its {D}.
Arguments g_pal {D}.
Arguments g_sw_view {D}.
Arguments statics {D}.

Definition set_dev {D : Type} (v : D) (w : world D) : world D :=
  World v (heap w) (ram w) (g_print_level w) (g_skip_test_num w) (g_bsa_tests_total w)
    (g_bsa_tests_pass w) (g_bsa_tests_fail w) (g_stack_pointer w) (g_exception_ret_addr w)
    (g_ret_addr w) (gSharedMemory w) (g_pe_info_table w) (g_smc_args w) (g_esr_handler w)
    (g_intr_handler w) (g_pcie_info_table w) (g_pcie_bdf_table w) (page_size w) (bits_per_level
    w) (pgt_addr_mask w) (g_memory_info_table w) (g_gic_info_table w) (g_v2m_msi_info w)
    (g_timer_info_table w) (g_wd_info_table w) (g_peripheral_info_table w) (g_iovirt_info_table
    w) (g_dma_info_table w) (g_exercier_info_table w) (g_smmu w) (g_num_smmus w)
    (g_smmu_master_list w) (g_its w) (g_pal w) (g_sw_view w) (statics w).
Definition set_heap {D : Type} (v : gmap Z Z) (w : world D) : world D :=
  World (dev w) v (ram w) (g_print_level w) (g_skip_test_num w) (g_bsa_tests_total w)
    (g_bsa_tests_pass w) (g_bsa_tests_fail w) (g_stack_pointer w) (g_exception_ret_addr w)
    (g_ret_addr w) (gSharedMemory w) (g_pe_info_table w) (g_smc_args w) (g_esr_handler w)
    (g_intr_handler w) (g_pcie_info_table w) (g_pcie_bdf_table w) (page_size w) (bits_per_level
    w) (pgt_addr_mask w) (g_memory_info_table w) (g_gic_info_table w) (g_v2m_msi_info w)
    (g_timer_info_table w) (g_wd_info_table w) (g_peripheral_info_table w) (g_iovirt_info_table
    w) (g_dma_info_table w) (g_exercier_info_table w) (g_smmu w) (g_num_smmus w)
    (g_smmu_master_list w) (g_its w) (g_pal w) (g_sw_view w) (statics w).
Definition set_ram {D : Type} (v : gmap Z Z) (w : world D) : world D :=
  World (dev w) (heap w) v (g_print_level w) (g_skip_test_num w) (g_bsa_tests_total w)
    (g_bsa_tests_pass w) (g_bsa_tests_fail w) (g_stack_pointer w) (g_exception_ret_addr w)
    (g_ret_addr w) (gSharedMemory w) (g_pe_info_table w) (g_smc_args w) (g_esr_handler w)
    (g_intr_handler w) (g_pcie_info_table w) (g_pcie_bdf_table w) (page_size w) (bits_per_level
    w) (pgt_addr_mask w) (g_memory_info_table w) (g_gic_info_table w) (g_v2m_msi_info w)
    (g_timer_info_table w) (g_wd_info_table w) (g_peripheral_info_table w) (g_iovirt_info_table
    w) (g_dma_info_table w) (g_exercier_info_table w) (g_smmu w) (g_num_smmus w)
    (g_smmu_master_list w) (g_its w) (g_pal w) (g_sw_view w) (statics w).
Definition set_g_print_level {D : Type} (v : Z) (w : world D) : world D :=
  World (dev w) (heap w) (ram w) v (g_skip_test_num w) (g_bsa_tests_total w) (g_bsa_tests_pass
    w) (g_bsa_tests_fail w) (g_stack_pointer w) (g_exception_ret_addr w) (g_ret_addr w)
    (gSharedMemory w) (g_pe_info_table w) (g_smc_args w) (g_esr_handler w) (g_intr_handler w)
    (g_pcie_info_table w) (g_pcie_bdf_table w) (page_size w) (bits_per_level w) (pgt_addr_mask
    w) (g_memory_info_table w) (g_gic_info_table w) (g_v2m_msi_info w) (g_timer_info_table w)
    (g_wd_info_table w) (g_peripheral_info_table w) (g_iovirt_info_table w) (g_dma_info_table w)
    (g_exercier_info_table w) (g_smmu w) (g_num_smmus w) (g_smmu_master_list w) (g_its w) (g_pal
    w) (g_sw_view w) (statics w).
Definition set_g_skip_test_num {D : Type} (v : list Z) (w : world D) : world D :=
  World (dev w) (heap w) (ram w) (g_print_level w) v (g_bsa_tests_total w) (g_bsa_tests_pass w)
    (g_bsa_tests_fail w) (g_stack_pointer w) (g_exception_ret_addr w) (g_ret_addr w)
    (gSharedMemory w) (g_pe_info_table w) (g_smc_args w) (g_esr_handler w) (g_intr_handler w)
    (g_pcie_info_table w) (g_pcie_bdf_table w) (page_size w) (bits_per_level w) (pgt_addr_mask
    w) (g_memory_info_table w) (g_gic_info_table w) (g_v2m_msi_info w) (g_timer_info_table w)
    (g_wd_info_table w) (g_peripheral_info_table w) (g_iovirt_info_table w) (g_dma_info_table w)
    (g_exercier_info_table w) (g_smmu w) (g_num_smmus w) (g_smmu_master_list w) (g_its w) (g_pal
    w) (g_sw_view w) (statics w).
Definition set_g_bsa_tests_total {D : Type} (v : Z) (w : world D) : world D :=
  World (dev w) (heap w) (ram w) (g_print_level w) (g_skip_test_num w) v (g_bsa_tests_pass w)
    (g_bsa_tests_fail w) (g_stack_pointer w) (g_exception_ret_addr w) (g_ret_addr w)
    (gSharedMemory w) (g_pe_info_table w) (g_smc_args w) (g_esr_handler w) (g_intr_handler w)
    (g_pcie_info_table w) (g_pcie_bdf_table w) (page_size w) (bits_per_level w) (pgt_addr_mask
    w) (g_memory_info_table w) (g_gic_info_table w) (g_v2m_msi_info w) (g_timer_info_table w)
    (g_wd_info_table w) (g_peripheral_info_table w) (g_iovirt_info_table w) (g_dma_info_table w)
    (g_exercier_info_table w) (g_smmu w) (g_num_smmus w) (g_smmu_master_list w) (g_its w) (g_pal
    w) (g_sw_view w) (statics w).
Definition set_g_bsa_tests_pass {D : Type} (v : Z) (w : world D) : world D :=
  World (dev w) (heap w) (ram w) (g_print_level w) (g_skip_test_num w) (g_bsa_tests_total w) v
    (g_bsa_tests_fail w) (g_stack_pointer w) (g_exception_ret_addr w) (g_ret_addr w)
    (gSharedMemory w) (g_pe_info_table w) (g_smc_args w) (g_esr_handler w) (g_intr_handler w)
    (g_pcie_info_table w) (g_pcie_bdf_table w) (page_size w) (bits_per_level w) (pgt_addr_mask
    w) (g_memory_info_table w) (g_gic_info_table w) (g_v2m_msi_info w) (g_timer_info_table w)
    (g_wd_info_table w) (g_peripheral_info_table w) (g_iovirt_info_table w) (g_dma_info_table w)
    (g_exercier_info_table w) (g_smmu w) (g_num_smmus w) (g_smmu_master_list w) (g_its w) (g_pal
    w) (g_sw_view w) (statics w).
Definition set_g_bsa_tests_fail {D : Type} (v : Z) (w : world D) : world D :=
  World (dev w) (heap w) (ram w) (g_print_level w) (g_skip_test_num w) (g_bsa_tests_total w)
    (g_bsa_tests_pass w) v (g_stack_pointer w) (g_exception_ret_addr w) (g_ret_addr w)
    (gSharedMemory w) (g_pe_info_table w) (g_smc_args w) (g_esr_handler w) (g_intr_handler w)
    (g_pcie_info_table w) (g_pcie_bdf_table w) (page_size w) (bits_per_level w) (pgt_addr_mask
    w) (g_memory_info_table w) (g_gic_info_table w) (g_v2m_msi_info w) (g_timer_info_table w)
    (g_wd_info_table w) (g_peripheral_info_table w) (g_iovirt_info_table w) (g_dma_info_table w)
    (g_exercier_info_table w) (g_smmu w) (g_num_smmus w) (g_smmu_master_list w) (g_its w) (g_pal
    w) (g_sw_view w) (statics w).
Definition set_g_stack_pointer {D : Type} (v : Z) (w : world D) : world D :=
  World (dev w) (heap w) (ram w) (g_print_level w) (g_skip_test_num w) (g_bsa_tests_total w)
    (g_bsa_tests_pass w) (g_bsa_tests_fail w) v (g_exception_ret_addr w) (g_ret_addr w)
    (gSharedMemory w) (g_pe_info_table w) (g_smc_args w) (g_esr_handler w) (g_intr_handler w)
    (g_pcie_info_table w) (g_pcie_bdf_table w) (page_size w) (bits_per_level w) (pgt_addr_mask
    w) (g_memory_info_table w) (g_gic_info_table w) (g_v2m_msi_info w) (g_timer_info_table w)
    (g_wd_info_table w) (g_peripheral_info_table w) (g_iovirt_info_table w) (g_dma_info_table w)
    (g_exercier_info_table w) (g_smmu w) (g_num_smmus w) (g_smmu_master_list w) (g_its w) (g_pal
    w) (g_sw_view w) (statics w).
Definition set_g_exception_ret_addr {D : Type} (v : Z) (w : world D) : world D :=
  World (dev w) (heap w) (ram w) (g_print_level w) (g_skip_test_num w) (g_bsa_tests_total w)
    (g_bsa_tests_pass w) (g_bsa_tests_fail w) (g_stack_pointer w) v (g_ret_addr w)
    (gSharedMemory w) (g_pe_info_table w) (g_smc_args w) (g_esr_handler w) (g_intr_handler w)
    (g_pcie_info_table w) (g_pcie_bdf_table w) (page_size w) (bits_per_level w) (pgt_addr_mask
    w) (g_memory_info_table w) (g_gic_info_table w) (g_v2m_msi_info w) (g_timer_info_table w)
    (g_wd_info_table w) (g_peripheral_info_table w) (g_iovirt_info_table w) (g_dma_info_table w)
    (g_exercier_info_table w) (g_smmu w) (g_num_smmus w) (g_smmu_master_list w) (g_its w) (g_pal
    w) (g_sw_view w) (statics w).
Definition set_g_ret_addr {D : Type} (v : Z) (w : world D) : world D :=
  World (dev w) (heap w) (ram w) (g_print_level w) (g_skip_test_num w) (g_bsa_tests_total w)
    (g_bsa_tests_pass w) (g_bsa_tests_fail w) (g_stack_pointer w) (g_exception_ret_addr w) v
    (gSharedMemory w) (g_pe_info_table w) (g_smc_args w) (g_esr_handler w) (g_intr_handler w)
    (g_pcie_info_table w) (g_pcie_bdf_table w) (page_size w) (bits_per_level w) (pgt_addr_mask
    w) (g_memory_info_table w) (g_gic_info_table w) (g_v2m_msi_info w) (g_timer_info_table w)
    (g_wd_info_table w) (g_peripheral_info_table w) (g_iovirt_info_table w) (g_dma_info_table w)
    (g_exercier_info_table w) (g_smmu w) (g_num_smmus w) (g_smmu_master_list w) (g_its w) (g_pal
    w) (g_sw_view w) (statics w).
Definition set_gSharedMemory {D : Type} (v : option (Z * list VAL_SHARED_MEM_t)) (w : world D) : world D :=
  World (dev w) (heap w) (ram w) (g_print_level w) (g_skip_test_num w) (g_bsa_tests_total w)
    (g_bsa_tests_pass w) (g_bsa_tests_fail w) (g_stack_pointer w) (g_exception_ret_addr w)
    (g_ret_addr w) v (g_pe_info_table w) (g_smc_args w) (g_esr_handler w) (g_intr_handler w)
    (g_pcie_info_table w) (g_pcie_bdf_table w) (page_size w) (bits_per_level w) (pgt_addr_mask
    w) (g_memory_info_table w) (g_gic_info_table w) (g_v2m_msi_info w) (g_timer_info_table w)
    (g_wd_info_table w) (g_peripheral_info_table w) (g_iovirt_info_table w) (g_dma_info_table w)
    (g_exercier_info_table w) (g_smmu w) (g_num_smmus w) (g_smmu_master_list w) (g_its w) (g_pal
    w) (g_sw_view w) (statics w).
Definition set_g_pe_info_table {D : Type} (v : option PE_INFO_TABLE) (w : world D) : world D :=
  World (dev w) (heap w) (ram w) (g_print_level w) (g_skip_test_num w) (g_bsa_tests_total w)
    (g_bsa_tests_pass w) (g_bsa_tests_fail w) (g_stack_pointer w) (g_exception_ret_addr w)
    (g_ret_addr w) (gSharedMemory w) v (g_smc_args w) (g_esr_handler w) (g_intr_handler w)
    (g_pcie_info_table w) (g_pcie_bdf_table w) (page_size w) (bits_per_level w) (pgt_addr_mask
    w) (g_memory_info_table w) (g_gic_info_table w) (g_v2m_msi_info w) (g_timer_info_table w)
    (g_wd_info_table w) (g_peripheral_info_table w) (g_iovirt_info_table w) (g_dma_info_table w)
    (g_exercier_info_table w) (g_smmu w) (g_num_smmus w) (g_smmu_master_list w) (g_its w) (g_pal
    w) (g_sw_view w) (statics w).
Definition set_g_smc_args {D : Type} (v : ARM_SMC_ARGS) (w : world D) : world D :=
  World (dev w) (heap w) (ram w) (g_print_level w) (g_skip_test_num w) (g_bsa_tests_total w)
    (g_bsa_tests_pass w) (g_bsa_tests_fail w) (g_stack_pointer w) (g_exception_ret_addr w)
    (g_ret_addr w) (gSharedMemory w) (g_pe_info_table w) v (g_esr_handler w) (g_intr_handler w)
    (g_pcie_info_table w) (g_pcie_bdf_table w) (page_size w) (bits_per_level w) (pgt_addr_mask
    w) (g_memory_info_table w) (g_gic_info_table w) (g_v2m_msi_info w) (g_timer_info_table w)
    (g_wd_info_table w) (g_peripheral_info_table w) (g_iovirt_info_table w) (g_dma_info_table w)
    (g_exercier_info_table w) (g_smmu w) (g_num_smmus w) (g_smmu_master_list w) (g_its w) (g_pal
    w) (g_sw_view w) (statics w).
Definition set_g_esr_handler {D : Type} (v : list Z) (w : world D) : world D :=
  World (dev w) (heap w) (ram w) (g_print_level w) (g_skip_test_num w) (g_bsa_tests_total w)
    (g_bsa_tests_pass w) (g_bsa_tests_fail w) (g_stack_pointer w) (g_exception_ret_addr w)
    (g_ret_addr w) (gSharedMemory w) (g_pe_info_table w) (g_smc_args w) v (g_intr_handler w)
    (g_pcie_info_table w) (g_pcie_bdf_table w) (page_size w) (bits_per_level w) (pgt_addr_mask
    w) (g_memory_info_table w) (g_gic_info_table w) (g_v2m_msi_info w) (g_timer_info_table w)
    (g_wd_info_table w) (g_peripheral_info_table w) (g_iovirt_info_table w) (g_dma_info_table w)
    (g_exercier_info_table w) (g_smmu w) (g_num_smmus w) (g_smmu_master_list w) (g_its w) (g_pal
    w) (g_sw_view w) (statics w).
Definition set_g_intr_handler {D : Type} (v : gmap Z Z) (w : world D) : world D :=
  World (dev w) (heap w) (ram w) (g_print_level w) (g_skip_test_num w) (g_bsa_tests_total w)
    (g_bsa_tests_pass w) (g_bsa_tests_fail w) (g_stack_pointer w) (g_exception_ret_addr w)
    (g_ret_addr w) (gSharedMemory w) (g_pe_info_table w) (g_smc_args w) (g_esr_handler w) v
    (g_pcie_info_table w) (g_pcie_bdf_table w) (page_size w) (bits_per_level w) (pgt_addr_mask
    w) (g_memory_info_table w) (g_gic_info_table w) (g_v2m_msi_info w) (g_timer_info_table w)
    (g_wd_info_table w) (g_peripheral_info_table w) (g_iovirt_info_table w) (g_dma_info_table w)
    (g_exercier_info_table w) (g_smmu w) (g_num_smmus w) (g_smmu_master_list w) (g_its w) (g_pal
    w) (g_sw_view w) (statics w).
Definition set_g_pcie_info_table {D : Type} (v : option PCIE_INFO_TABLE) (w : world D) : world D :=
  World (dev w) (heap w) (ram w) (g_print_level w) (g_skip_test_num w) (g_bsa_tests_total w)
    (g_bsa_tests_pass w) (g_bsa_tests_fail w) (g_stack_pointer w) (g_exception_ret_addr w)
    (g_ret_addr w) (gSharedMemory w) (g_pe_info_table w) (g_smc_args w) (g_esr_handler w)
    (g_intr_handler w) v (g_pcie_bdf_table w) (page_size w) (bits_per_level w) (pgt_addr_mask w)
    (g_memory_info_table w) (g_gic_info_table w) (g_v2m_msi_info w) (g_timer_info_table w)
    (g_wd_info_table w) (g_peripheral_info_table w) (g_iovirt_info_table w) (g_dma_info_table w)
    (g_exercier_info_table w) (g_smmu w) (g_num_smmus w) (g_smmu_master_list w) (g_its w) (g_pal
    w) (g_sw_view w) (statics w).
Definition set_g_pcie_bdf_table {D : Type} (v : option pcie_device_bdf_table) (w : world D) : world D :=
  World (dev w) (heap w) (ram w) (g_print_level w) (g_skip_test_num w) (g_bsa_tests_total w)
    (g_bsa_tests_pass w) (g_bsa_tests_fail w) (g_stack_pointer w) (g_exception_ret_addr w)
    (g_ret_addr w) (gSharedMemory w) (g_pe_info_table w) (g_smc_args w) (g_esr_handler w)
    (g_intr_handler w) (g_pcie_info_table w) v (page_size w) (bits_per_level w) (pgt_addr_mask
    w) (g_memory_info_table w) (g_gic_info_table w) (g_v2m_msi_info w) (g_timer_info_table w)
    (g_wd_info_table w) (g_peripheral_info_table w) (g_iovirt_info_table w) (g_dma_info_table w)
    (g_exercier_info_table w) (g_smmu w) (g_num_smmus w) (g_smmu_master_list w) (g_its w) (g_pal
    w) (g_sw_view w) (statics w).
Definition set_page_size {D : Type} (v : Z) (w : world D) : world D :=
  World (dev w) (heap w) (ram w) (g_print_level w) (g_skip_test_num w) (g_bsa_tests_total w)
    (g_bsa_tests_pass w) (g_bsa_tests_fail w) (g_stack_pointer w) (g_exception_ret_addr w)
    (g_ret_addr w) (gSharedMemory w) (g_pe_info_table w) (g_smc_args w) (g_esr_handler w)
    (g_intr_handler w) (g_pcie_info_table w) (g_pcie_bdf_table w) v (bits_per_level w)
    (pgt_addr_mask w) (g_memory_info_table w) (g_gic_info_table w) (g_v2m_msi_info w)
    (g_timer_info_table w) (g_wd_info_table w) (g_peripheral_info_table w) (g_iovirt_info_table
    w) (g_dma_info_table w) (g_exercier_info_table w) (g_smmu w) (g_num_smmus w)
    (g_smmu_master_list w) (g_its w) (g_pal w) (g_sw_view w) (statics w).
Definition set_bits_per_level {D : Type} (v : Z) (w : world D) : world D :=
  World (dev w) (heap w) (ram w) (g_print_level w) (g_skip_test_num w) (g_bsa_tests_total w)
    (g_bsa_tests_pass w) (g_bsa_tests_fail w) (g_stack_pointer w) (g_exception_ret_addr w)
    (g_ret_addr w) (gSharedMemory w) (g_pe_info_table w) (g_smc_args w) (g_esr_handler w)
    (g_intr_handler w) (g_pcie_info_table w) (g_pcie_bdf_table w) (page_size w) v (pgt_addr_mask
    w) (g_memory_info_table w) (g_gic_info_table w) (g_v2m_msi_info w) (g_timer_info_table w)
    (g_wd_info_table w) (g_peripheral_info_table w) (g_iovirt_info_table w) (g_dma_info_table w)
    (g_exercier_info_table w) (g_smmu w) (g_num_smmus w) (g_smmu_master_list w) (g_its w) (g_pal
    w) (g_sw_view w) (statics w).
Definition set_pgt_addr_mask {D : Type} (v : Z) (w : world D) : world D :=
  World (dev w) (heap w) (ram w) (g_print_level w) (g_skip_test_num w) (g_bsa_tests_total w)
    (g_bsa_tests_pass w) (g_bsa_tests_fail w) (g_stack_pointer w) (g_exception_ret_addr w)
    (g_ret_addr w) (gSharedMemory w) (g_pe_info_table w) (g_smc_args w) (g_esr_handler w)
    (g_intr_handler w) (g_pcie_info_table w) (g_pcie_bdf_table w) (page_size w) (bits_per_level
    w) v (g_memory_info_table w) (g_gic_info_table w) (g_v2m_msi_info w) (g_timer_info_table w)
    (g_wd_info_table w) (g_peripheral_info_table w) (g_iovirt_info_table w) (g_dma_info_table w)
    (g_exercier_info_table w) (g_smmu w) (g_num_smmus w) (g_smmu_master_list w) (g_its w) (g_pal
    w) (g_sw_view w) (statics w).
Definition set_g_memory_info_table {D : Type} (v : option MEMORY_INFO_TABLE) (w : world D) : world D :=
  World (dev w) (heap w) (ram w) (g_print_level w) (g_skip_test_num w) (g_bsa_tests_total w)
    (g_bsa_tests_pass w) (g_bsa_tests_fail w) (g_stack_pointer w) (g_exception_ret_addr w)
    (g_ret_addr w) (gSharedMemory w) (g_pe_info_table w) (g_smc_args w) (g_esr_handler w)
    (g_intr_handler w) (g_pcie_info_table w) (g_pcie_bdf_table w) (page_size w) (bits_per_level
    w) (pgt_addr_mask w) v (g_gic_info_table w) (g_v2m_msi_info w) (g_timer_info_table w)
    (g_wd_info_table w) (g_peripheral_info_table w) (g_iovirt_info_table w) (g_dma_info_table w)
    (g_exercier_info_table w) (g_smmu w) (g_num_smmus w) (g_smmu_master_list w) (g_its w) (g_pal
    w) (g_sw_view w) (statics w).
Definition set_g_gic_info_table {D : Type} (v : option GIC_INFO_TABLE) (w : world D) : world D :=
  World (dev w) (heap w) (ram w) (g_print_level w) (g_skip_test_num w) (g_bsa_tests_total w)
    (g_bsa_tests_pass w) (g_bsa_tests_fail w) (g_stack_pointer w) (g_exception_ret_addr w)
    (g_ret_addr w) (gSharedMemory w) (g_pe_info_table w) (g_smc_args w) (g_esr_handler w)
    (g_intr_handler w) (g_pcie_info_table w) (g_pcie_bdf_table w) (page_size w) (bits_per_level
    w) (pgt_addr_mask w) (g_memory_info_table w) v (g_v2m_msi_info w) (g_timer_info_table w)
    (g_wd_info_table w) (g_peripheral_info_table w) (g_iovirt_info_table w) (g_dma_info_table w)
    (g_exercier_info_table w) (g_smmu w) (g_num_smmus w) (g_smmu_master_list w) (g_its w) (g_pal
    w) (g_sw_view w) (statics w).
Definition set_g_v2m_msi_info {D : Type} (v : option GICv2m_MSI_FRAME_INFO) (w : world D) : world D :=
  World (dev w) (heap w) (ram w) (g_print_level w) (g_skip_test_num w) (g_bsa_tests_total w)
    (g_bsa_tests_pass w) (g_bsa_tests_fail w) (g_stack_pointer w) (g_exception_ret_addr w)
    (g_ret_addr w) (gSharedMemory w) (g_pe_info_table w) (g_smc_args w) (g_esr_handler w)
    (g_intr_handler w) (g_pcie_info_table w) (g_pcie_bdf_table w) (page_size w) (bits_per_level
    w) (pgt_addr_mask w) (g_memory_info_table w) (g_gic_info_table w) v (g_timer_info_table w)
    (g_wd_info_table w) (g_peripheral_info_table w) (g_iovirt_info_table w) (g_dma_info_table w)
    (g_exercier_info_table w) (g_smmu w) (g_num_smmus w) (g_smmu_master_list w) (g_its w) (g_pal
    w) (g_sw_view w) (statics w).
Definition set_g_timer_info_table {D : Type} (v : option TIMER_INFO_TABLE) (w : world D) : world D :=
  World (dev w) (heap w) (ram w) (g_print_level w) (g_skip_test_num w) (g_bsa_tests_total w)
    (g_bsa_tests_pass w) (g_bsa_tests_fail w) (g_stack_pointer w) (g_exception_ret_addr w)
    (g_ret_addr w) (gSharedMemory w) (g_pe_info_table w) (g_smc_args w) (g_esr_handler w)
    (g_intr_handler w) (g_pcie_info_table w) (g_pcie_bdf_table w) (page_size w) (bits_per_level
    w) (pgt_addr_mask w) (g_memory_info_table w) (g_gic_info_table w) (g_v2m_msi_info w) v
    (g_wd_info_table w) (g_peripheral_info_table w) (g_iovirt_info_table w) (g_dma_info_table w)
    (g_exercier_info_table w) (g_smmu w) (g_num_smmus w) (g_smmu_master_list w) (g_its w) (g_pal
    w) (g_sw_view w) (statics w).
Definition set_g_wd_info_table {D : Type} (v : option WD_INFO_TABLE) (w : world D) : world D :=
  World (dev w) (heap w) (ram w) (g_print_level w) (g_skip_test_num w) (g_bsa_tests_total w)
    (g_bsa_tests_pass w) (g_bsa_tests_fail w) (g_stack_pointer w) (g_exception_ret_addr w)
    (g_ret_addr w) (gSharedMemory w) (g_pe_info_table w) (g_smc_args w) (g_esr_handler w)
    (g_intr_handler w) (g_pcie_info_table w) (g_pcie_bdf_table w) (page_size w) (bits_per_level
    w) (pgt_addr_mask w) (g_memory_info_table w) (g_gic_info_table w) (g_v2m_msi_info w)
    (g_timer_info_table w) v (g_peripheral_info_table w) (g_iovirt_info_table w)
    (g_dma_info_table w) (g_exercier_info_table w) (g_smmu w) (g_num_smmus w)
    (g_smmu_master_list w) (g_its w) (g_pal w) (g_sw_view w) (statics w).
Definition set_g_peripheral_info_table {D : Type} (v : option PERIPHERAL_INFO_TABLE) (w : world D) : world D :=
  World (dev w) (heap w) (ram w) (g_print_level w) (g_skip_test_num w) (g_bsa_tests_total w)
    (g_bsa_tests_pass w) (g_bsa_tests_fail w) (g_stack_pointer w) (g_exception_ret_addr w)
    (g_ret_addr w) (gSharedMemory w) (g_pe_info_table w) (g_smc_args w) (g_esr_handler w)
    (g_intr_handler w) (g_pcie_info_table w) (g_pcie_bdf_table w) (page_size w) (bits_per_level
    w) (pgt_addr_mask w) (g_memory_info_table w) (g_gic_info_table w) (g_v2m_msi_info w)
    (g_timer_info_table w) (g_wd_info_table w) v (g_iovirt_info_table w) (g_dma_info_table w)
    (g_exercier_info_table w) (g_smmu w) (g_num_smmus w) (g_smmu_master_list w) (g_its w) (g_pal
    w) (g_sw_view w) (statics w).
Definition set_g_iovirt_info_table {D : Type} (v : option IOVIRT_INFO_TABLE) (w : world D) : world D :=
  World (dev w) (heap w) (ram w) (g_print_level w) (g_skip_test_num w) (g_bsa_tests_total w)
    (g_bsa_tests_pass w) (g_bsa_tests_fail w) (g_stack_pointer w) (g_exception_ret_addr w)
    (g_ret_addr w) (gSharedMemory w) (g_pe_info_table w) (g_smc_args w) (g_esr_handler w)
    (g_intr_handler w) (g_pcie_info_table w) (g_pcie_bdf_table w) (page_size w) (bits_per_level
    w) (pgt_addr_mask w) (g_memory_info_table w) (g_gic_info_table w) (g_v2m_msi_info w)
    (g_timer_info_table w) (g_wd_info_table w) (g_peripheral_info_table w) v (g_dma_info_table
    w) (g_exercier_info_table w) (g_smmu w) (g_num_smmus w) (g_smmu_master_list w) (g_its w)
    (g_pal w) (g_sw_view w) (statics w).
Definition set_g_dma_info_table {D : Type} (v : option DMA_INFO_TABLE) (w : world D) : world D :=
  World (dev w) (heap w) (ram w) (g_print_level w) (g_skip_test_num w) (g_bsa_tests_total w)
    (g_bsa_tests_pass w) (g_bsa_tests_fail w) (g_stack_pointer w) (g_exception_ret_addr w)
    (g_ret_addr w) (gSharedMemory w) (g_pe_info_table w) (g_smc_args w) (g_esr_handler w)
    (g_intr_handler w) (g_pcie_info_table w) (g_pcie_bdf_table w) (page_size w) (bits_per_level
    w) (pgt_addr_mask w) (g_memory_info_table w) (g_gic_info_table w) (g_v2m_msi_info w)
    (g_timer_info_table w) (g_wd_info_table w) (g_peripheral_info_table w) (g_iovirt_info_table
    w) v (g_exercier_info_table w) (g_smmu w) (g_num_smmus w) (g_smmu_master_list w) (g_its w)
    (g_pal w) (g_sw_view w) (statics w).
Definition set_g_exercier_info_table {D : Type} (v : EXERCISER_INFO_TABLE) (w : world D) : world D :=
  World (dev w) (heap w) (ram w) (g_print_level w) (g_skip_test_num w) (g_bsa_tests_total w)
    (g_bsa_tests_pass w) (g_bsa_tests_fail w) (g_stack_pointer w) (g_exception_ret_addr w)
    (g_ret_addr w) (gSharedMemory w) (g_pe_info_table w) (g_smc_args w) (g_esr_handler w)
    (g_intr_handler w) (g_pcie_info_table w) (g_pcie_bdf_table w) (page_size w) (bits_per_level
    w) (pgt_addr_mask w) (g_memory_info_table w) (g_gic_info_table w) (g_v2m_msi_info w)
    (g_timer_info_table w) (g_wd_info_table w) (g_peripheral_info_table w) (g_iovirt_info_table
    w) (g_dma_info_table w) v (g_smmu w) (g_num_smmus w) (g_smmu_master_list w) (g_its w) (g_pal
    w) (g_sw_view w) (statics w).
Definition set_g_smmu {D : Type} (v : option (Z * list smmu_dev_t)) (w : world D) : world D :=
  World (dev w) (heap w) (ram w) (g_print_level w) (g_skip_test_num w) (g_bsa_tests_total w)
    (g_bsa_tests_pass w) (g_bsa_tests_fail w) (g_stack_pointer w) (g_exception_ret_addr w)
    (g_ret_addr w) (gSharedMemory w) (g_pe_info_table w) (g_smc_args w) (g_esr_handler w)
    (g_intr_handler w) (g_pcie_info_table w) (g_pcie_bdf_table w) (page_size w) (bits_per_level
    w) (pgt_addr_mask w) (g_memory_info_table w) (g_gic_info_table w) (g_v2m_msi_info w)
    (g_timer_info_table w) (g_wd_info_table w) (g_peripheral_info_table w) (g_iovirt_info_table
    w) (g_dma_info_table w) (g_exercier_info_table w) v (g_num_smmus w) (g_smmu_master_list w)
    (g_its w) (g_pal w) (g_sw_view w) (statics w).
Definition set_g_num_smmus {D : Type} (v : Z) (w : world D) : world D :=
  World (dev w) (heap w) (ram w) (g_print_level w) (g_skip_test_num w) (g_bsa_tests_total w)
    (g_bsa_tests_pass w) (g_bsa_tests_fail w) (g_stack_pointer w) (g_exception_ret_addr w)
    (g_ret_addr w) (gSharedMemory w) (g_pe_info_table w) (g_smc_args w) (g_esr_handler w)
    (g_intr_handler w) (g_pcie_info_table w) (g_pcie_bdf_table w) (page_size w) (bits_per_level
    w) (pgt_addr_mask w) (g_memory_info_table w) (g_gic_info_table w) (g_v2m_msi_info w)
    (g_timer_info_table w) (g_wd_info_table w) (g_peripheral_info_table w) (g_iovirt_info_table
    w) (g_dma_info_table w) (g_exercier_info_table w) (g_smmu w) v (g_smmu_master_list w) (g_its
    w) (g_pal w) (g_sw_view w) (statics w).
Definition set_g_smmu_master_list {D : Type} (v : list smmu_master_t) (w : world D) : world D :=
  World (dev w) (heap w) (ram w) (g_print_level w) (g_skip_test_num w) (g_bsa_tests_total w)
    (g_bsa_tests_pass w) (g_bsa_tests_fail w) (g_stack_pointer w) (g_exception_ret_addr w)
    (g_ret_addr w) (gSharedMemory w) (g_pe_info_table w) (g_smc_args w) (g_esr_handler w)
    (g_intr_handler w) (g_pcie_info_table w) (g_pcie_bdf_table w) (page_size w) (bits_per_level
    w) (pgt_addr_mask w) (g_memory_info_table w) (g_gic_info_table w) (g_v2m_msi_info w)
    (g_timer_info_table w) (g_wd_info_table w) (g_peripheral_info_table w) (g_iovirt_info_table
    w) (g_dma_info_table w) (g_exercier_info_table w) (g_smmu w) (g_num_smmus w) v (g_its w)
    (g_pal w) (g_sw_view w) (statics w).
Definition set_g_its {D : Type} (v : its_globals) (w : world D) : world D :=
  World (dev w) (heap w) (ram w) (g_print_level w) (g_skip_test_num w) (g_bsa_tests_total w)
    (g_bsa_tests_pass w) (g_bsa_tests_fail w) (g_stack_pointer w) (g_exception_ret_addr w)
    (g_ret_addr w) (gSharedMemory w) (g_pe_info_table w) (g_smc_args w) (g_esr_handler w)
    (g_intr_handler w) (g_pcie_info_table w) (g_pcie_bdf_table w) (page_size w) (bits_per_level
    w) (pgt_addr_mask w) (g_memory_info_table w) (g_gic_info_table w) (g_v2m_msi_info w)
    (g_timer_info_table w) (g_wd_info_table w) (g_peripheral_info_table w) (g_iovirt_info_table
    w) (g_dma_info_table w) (g_exercier_info_table w) (g_smmu w) (g_num_smmus w)
    (g_smmu_master_list w) v (g_pal w) (g_sw_view w) (statics w).
Definition set_g_pal {D : Type} (v : pal_globals) (w : world D) : world D :=
  World (dev w) (heap w) (ram w) (g_print_level w) (g_skip_test_num w) (g_bsa_tests_total w)
    (g_bsa_tests_pass w) (g_bsa_tests_fail w) (g_stack_pointer w) (g_exception_ret_addr w)
    (g_ret_addr w) (gSharedMemory w) (g_pe_info_table w) (g_smc_args w) (g_esr_handler w)
    (g_intr_handler w) (g_pcie_info_table w) (g_pcie_bdf_table w) (page_size w) (bits_per_level
    w) (pgt_addr_mask w) (g_memory_info_table w) (g_gic_info_table w) (g_v2m_msi_info w)
    (g_timer_info_table w) (g_wd_info_table w) (g_peripheral_info_table w) (g_iovirt_info_table
    w) (g_dma_info_table w) (g_exercier_info_table w) (g_smmu w) (g_num_smmus w)
    (g_smmu_master_list w) (g_its w) v (g_sw_view w) (statics w).
Definition set_g_sw_view {D : Type} (v : list Z) (w : world D) : world D :=
  World (dev w) (heap w) (ram w) (g_print_level w) (g_skip_test_num w) (g_bsa_tests_total w)
    (g_bsa_tests_pass w) (g_bsa_tests_fail w) (g_stack_pointer w) (g_exception_ret_addr w)
    (g_ret_addr w) (gSharedMemory w) (g_pe_info_table w) (g_smc_args w) (g_esr_handler w)
    (g_intr_handler w) (g_pcie_info_table w) (g_pcie_bdf_table w) (page_size w) (bits_per_level
    w) (pgt_addr_mask w) (g_memory_info_table w) (g_gic_info_table w) (g_v2m_msi_info w)
    (g_timer_info_table w) (g_wd_info_table w) (g_peripheral_info_table w) (g_iovirt_info_table
    w) (g_dma_info_table w) (g_exercier_info_table w) (g_smmu w) (g_num_smmus w)
    (g_smmu_master_list w) (g_its w) (g_pal w) v (statics w).
Definition set_statics {D : Type} (v : gmap (string * Z) Z) (w : world D) : world D :=
  World (dev w) (heap w) (ram w) (g_print_level w) (g_skip_test_num w) (g_bsa_tests_total w)
    (g_bsa_tests_pass w) (g_bsa_tests_fail w) (g_stack_pointer w) (g_exception_ret_addr w)
    (g_ret_addr w) (gSharedMemory w) (g_pe_info_table w) (g_smc_args w) (g_esr_handler w)
    (g_intr_handler w) (g_pcie_info_table w) (g_pcie_bdf_table w) (page_size w) (bits_per_level
    w) (pgt_addr_mask w) (g_memory_info_table w) (g_gic_info_table w) (g_v2m_msi_info w)
    (g_timer_info_table w) (g_wd_info_table w) (g_peripheral_info_table w) (g_iovirt_info_table
    w) (g_dma_info_table w) (g_exercier_info_table w) (g_smmu w) (g_num_smmus w)
    (g_smmu_master_list w) (g_its w) (g_pal w) (g_sw_view w) v.

(** Compute the fields of an updated world, keeping the updates themselves folded. *)
Ltac wsimpl :=
  cbn beta iota delta [
    dev heap ram g_print_level g_skip_test_num g_bsa_tests_total g_bsa_tests_pass
    g_bsa_tests_fail g_stack_pointer g_exception_ret_addr g_ret_addr gSharedMemory
    g_pe_info_table g_smc_args g_esr_handler g_intr_handler g_pcie_info_table
    g_pcie_bdf_table page_size bits_per_level pgt_addr_mask g_memory_info_table
    g_gic_info_table g_v2m_msi_info g_timer_info_table g_wd_info_table
    g_peripheral_info_table g_iovirt_info_table g_dma_info_table g_exercier_info_table
    g_smmu g_num_smmus g_smmu_master_list g_its g_pal g_sw_view statics set_dev set_heap
    set_ram set_g_print_level set_g_skip_test_num set_g_bsa_tests_total set_g_bsa_tests_pass
    set_g_bsa_tests_fail set_g_stack_pointer set_g_exception_ret_addr set_g_ret_addr
    set_gSharedMemory set_g_pe_info_table set_g_smc_args set_g_esr_handler
    set_g_intr_handler set_g_pcie_info_table set_g_pcie_bdf_table set_page_size
    set_bits_per_level set_pgt_addr_mask set_g_memory_info_table set_g_gic_info_table
    set_g_v2m_msi_info set_g_timer_info_table set_g_wd_info_table
    set_g_peripheral_info_table set_g_iovirt_info_table set_g_dma_info_table
    set_g_exercier_info_table set_g_smmu set_g_num_smmus set_g_smmu_master_list set_g_its
    set_g_pal set_g_sw_view set_statics ].
Tactic Notation "wsimpl" "in" "*" :=
  cbn beta iota delta [
    dev heap ram g_print_level g_skip_test_num g_bsa_tests_total g_bsa_tests_pass
    g_bsa_tests_fail g_stack_pointer g_exception_ret_addr g_ret_addr gSharedMemory
    g_pe_info_table g_smc_args g_esr_handler g_intr_handler g_pcie_info_table
    g_pcie_bdf_table page_size bits_per_level pgt_addr_mask g_memory_info_table
    g_gic_info_table g_v2m_msi_info g_timer_info_table g_wd_info_table
    g_peripheral_info_table g_iovirt_info_table g_dma_info_table g_exercier_info_table
    g_smmu g_num_smmus g_smmu_master_list g_its g_pal g_sw_view statics set_dev set_heap
    set_ram set_g_print_level set_g_skip_test_num set_g_bsa_tests_total set_g_bsa_tests_pass
    set_g_bsa_tests_fail set_g_stack_pointer set_g_exception_ret_addr set_g_ret_addr
    set_gSharedMemory set_g_pe_info_table set_g_smc_args set_g_esr_handler
    set_g_intr_handler set_g_pcie_info_table set_g_pcie_bdf_table set_page_size
    set_bits_per_level set_pgt_addr_mask set_g_memory_info_table set_g_gic_info_table
    set_g_v2m_msi_info set_g_timer_info_table set_g_wd_info_table
    set_g_peripheral_info_table set_g_iovirt_info_table set_g_dma_info_table
    set_g_exercier_info_table set_g_smmu set_g_num_smmus set_g_smmu_master_list set_g_its
    set_g_pal set_g_sw_view set_statics ] in *.

(** ** Hardware and firmware *)

(** What the code under src/ calls and does not define: volatile accesses to
    device memory (width in bytes, address), system-register access by the
    assembly stubs, cache maintenance, the secure monitor call, and UEFI boot
    services. An allocation request sees the live blocks and answers with an error
    status ([inl]) or an address ([inr]). [symbol] is the link-time address of a
    global or function of the program. [other_pes] is what the other PEs have stored in the
    shared memory by the time the running PE invalidates its cache and looks again. *)
Class Platform (D : Type) := {
  dev_read : Z -> Z -> D -> Z * D;
  dev_write : Z -> Z -> Z -> D -> D;
  read_sysreg : string -> D -> Z * D;
  write_sysreg : string -> Z -> D -> D;
  cache_op : Z -> Z -> D -> D;
  arm_call_smc : ARM_SMC_ARGS -> D -> ARM_SMC_ARGS * D;
  bs_allocate_pool : Z -> gmap Z Z -> D -> (Z + Z) * D;
  bs_free_pool : Z -> D -> D;
  bs_allocate_pages : Z -> gmap Z Z -> D -> (Z + Z) * D;
  bs_free_pages : Z -> Z -> D -> D;
  other_pes : list VAL_SHARED_MEM_t -> D -> list VAL_SHARED_MEM_t * D;
  symbol : string -> Z
}.

(** Documented behaviour of the two allocators (UEFI specification, section 7.2):
    a block is 8-byte aligned, a page block 4 KiB aligned, it lies in the 64-bit
    address space, is not NULL and overlaps no live block. *)
Definition block_free (heap : gmap Z Z) (p n : Z) : Prop :=
  forall q m, heap !! q = Some m -> p + n <= q \/ q + m <= p.

Class AllocLaws (D : Type) `{Platform D} := {
  allocate_pool_law : forall n heap d p d',
    0 <= n -> bs_allocate_pool n heap d = (inr p, d') ->
    0 < p /\ p + n <= 2 ^ 64 /\ p mod 8 = 0 /\ block_free heap p n;
  allocate_pages_law : forall n heap d p d',
    0 <= n -> bs_allocate_pages n heap d = (inr p, d') ->
    0 < p /\ p + n * 4096 <= 2 ^ 64 /\ p mod 4096 = 0 /\ block_free heap p (n * 4096)
}.

(** The platform layer's table builders, and all the validation layer relies on: the
    table each leaves behind. Every platform brings its own; Pal gives those of the
    device-tree UEFI platform. *)
Class PalTables (D : Type) := {
  pal_pe_create_info_table : M (world D) PE_INFO_TABLE;
  pal_gic_create_info_table : M (world D) GIC_INFO_TABLE;
  pal_timer_create_info_table : M (world D) TIMER_INFO_TABLE;
  pal_wd_create_info_table : M (world D) WD_INFO_TABLE;
  pal_pcie_create_info_table : M (world D) PCIE_INFO_TABLE;
  pal_iovirt_create_info_table : M (world D) IOVIRT_INFO_TABLE;
  pal_peripheral_create_info_table : M (world D) PERIPHERAL_INFO_TABLE;
  pal_memory_create_info_table : M (world D) MEMORY_INFO_TABLE;
  pal_dma_create_info_table : M (world D) DMA_INFO_TABLE
}.

(** The tests of src/test_pool, by the C name of their entry point: each takes the
    number of PEs and returns an [ACS_STATUS_*] word. *)
Class TestPool (D : Type) := {
  test_entry : string -> Z -> M (world D) Z
}.

(** [status |= f(num_pe);] for each entry point in turn. *)
Definition run_tests {D} `{TestPool D} (names : list string) (num_pe status : Z) : M (world D) Z :=
  (fix go names status :=
     match names with
     | [] => ret status
     | n :: names => let* r := test_entry n num_pe in go names (Z.lor status r)
     end) names status.

(** [for (i = 0; i < MAX_TEST_SKIP_NUM; i++) if (g_skip_test_num[i] == n) ...]:
    whether the user asked for test (or test group) [n] to be skipped. *)
Definition user_skips {D} (n : Z) : M (world D) bool :=
  let* r := for_ (Z.to_nat MAX_TEST_SKIP_NUM) 0 (fun i _ =>
    let* l := gets g_skip_test_num in
    let* x := need (l !! Z.to_nat i) in
    ret (if x =? n then Break tt else Continue tt)) tt in
  ret (match r with Break _ => true | Continue _ => false end).

Lemma existsb_find {A} (p : A -> bool) l :
  existsb p l = match List.find p l with Some _ => true | None => false end.
Proof. induction l as [|a l IH]; simpl; [done|]. by destruct (p a). Qed.

Lemma eval_user_skips {D} n (w : world D) :
  length (g_skip_test_num w) = Z.to_nat MAX_TEST_SKIP_NUM ->
  eval (user_skips n) w (existsb (fun x => x =? n) (g_skip_test_num w)) w.
Proof.
  intros Hl. unfold user_skips. eapply eval_bind.
  - apply (eval_for_find (g_skip_test_num w) (fun x => x =? n) (fun _ => tt)); [by rewrite Hl|].
    intros k x Hx _. eapply eval_bind; [by apply eval_gets|]. rewrite Nat2Z.id, Hx.
    eapply eval_bind; [by apply eval_need|]. by destruct (x =? n).
  - rewrite <- Hl, firstn_all, existsb_find. by destruct (List.find _ _).
Qed.

Lemma set_dev_id {D} (w : world D) : set_dev (dev w) w = w.
Proof. by destruct w. Qed.

Section platform.
Context {D : Type} `{Platform D}.

#[local] Abbreviation M := (M (world D)).

(** *** Effects on the device state *)

Definition on_dev (f : D -> D) : M () := modify (fun w => set_dev (f (dev w)) w).

Definition from_dev {A} (f : D -> A * D) : M A := fun w =>
  let r := f (dev w) in Ret (fst r) (set_dev (snd r) w) [].

(** *** Console: acs_test_infra.c and the [bsa_print] macro of pal_uefi.h *)

Definition val_print (level : Z) (fmt : string) (data : Z) : M () :=
  let* threshold := gets g_print_level in
  when threshold <=? level then emit (Event fmt data).

Definition bsa_print (verbose : Z) (fmt : string) (data : Z) : M () :=
  let* threshold := gets g_print_level in
  when threshold <=? verbose then emit (Event fmt data).

(** *** Memory-mapped registers: pal_misc.c *)

Definition pal_mmio_read8 (addr : Z) : M Z :=
  let* v := from_dev (dev_read 1 addr) in
  let data := u8 v in
  bsa_print ACS_PRINT_INFO " pal_mmio_read8 Address = %lx  Data = %lx \n" data ;;
  ret data.

Definition pal_mmio_read16 (addr : Z) : M Z :=
  let* v := from_dev (dev_read 2 addr) in
  let data := u16 v in
  bsa_print ACS_PRINT_INFO " pal_mmio_read16 Address = %lx  Data = %lx \n" data ;;
  ret data.

Definition pal_mmio_read64 (addr : Z) : M Z :=
  let* v := from_dev (dev_read 8 addr) in
  let data := u64 v in
  bsa_print ACS_PRINT_INFO " pal_mmio_read64 Address = %lx  Data = %lx \n" data ;;
  ret data.

(** The address is rounded down to a multiple of four. *)
Definition pal_mmio_read (addr : Z) : M Z :=
  let* addr :=
    if truthy (Z.land addr 0x3) then
      bsa_print ACS_PRINT_WARN
        "\n  Error-Input address is not aligned. Masking the last 2 bits \n" 0 ;;
      ret (Z.land addr (Z.lnot 0x3))
    else ret addr in
  let* v := from_dev (dev_read 4 addr) in
  let data := u32 v in
  bsa_print ACS_PRINT_INFO " pal_mmio_read Address = %lx  Data = %x \n" data ;;
  ret data.

Definition pal_mmio_write8 (addr data : Z) : M () :=
  on_dev (dev_write 1 addr data) ;;
  bsa_print ACS_PRINT_INFO " pal_mmio_write8 Address = %lx  Data = %lx \n" data.

Definition pal_mmio_write16 (addr data : Z) : M () :=
  on_dev (dev_write 2 addr data) ;;
  bsa_print ACS_PRINT_INFO " pal_mmio_write16 Address = %lx  Data = %lx \n" data.

Definition pal_mmio_write64 (addr data : Z) : M () :=
  on_dev (dev_write 8 addr data) ;;
  bsa_print ACS_PRINT_INFO " pal_mmio_write64 Address = %lx  Data = %lx \n" data.

Definition pal_mmio_write (addr data : Z) : M () :=
  bsa_print ACS_PRINT_INFO " pal_mmio_write Address = %lx  Data = %x \n" data ;;
  on_dev (dev_write 4 addr data).

(** acs_test_infra.c: the argument types narrow the data written. *)
Definition val_mmio_read8 (addr : Z) : M Z := pal_mmio_read8 addr.
Definition val_mmio_read16 (addr : Z) : M Z := pal_mmio_read16 addr.
Definition val_mmio_read (addr : Z) : M Z := pal_mmio_read addr.
Definition val_mmio_read64 (addr : Z) : M Z := pal_mmio_read64 addr.
Definition val_mmio_write8 (addr data : Z) : M () := pal_mmio_write8 addr (u8 data).
Definition val_mmio_write16 (addr data : Z) : M () := pal_mmio_write16 addr (u16 data).
Definition val_mmio_write (addr data : Z) : M () := pal_mmio_write addr (u32 data).
Definition val_mmio_write64 (addr data : Z) : M () := pal_mmio_write64 addr (u64 data).

(** *** Memory: pal_misc.c *)

Definition pal_mem_alloc (size : Z) : M Z :=
  let* heap0 := gets heap in
  let* r := from_dev (bs_allocate_pool size heap0) in
  match r with
  | inl Status =>
      bsa_print ACS_PRINT_ERR "Allocate Pool failed %x \n" Status ;;
      ret 0
  | inr p => modify (fun w => set_heap (<[p := size]> (heap w)) w) ;; ret p
  end.

Definition pal_mem_free (buffer : Z) : M () :=
  on_dev (bs_free_pool buffer) ;;
  modify (fun w => set_heap (delete buffer (heap w)) w).

Definition pal_mem_page_size : Z := 4096.  (* EFI_PAGE_SIZE *)

Definition pal_mem_alloc_pages (num_pages : Z) : M Z :=
  let* heap0 := gets heap in
  let* r := from_dev (bs_allocate_pages num_pages heap0) in
  match r with
  | inl Status =>
      bsa_print ACS_PRINT_ERR "Allocate Pages failed %x \n" Status ;;
      ret 0
  | inr p =>
      modify (fun w => set_heap (<[p := num_pages * pal_mem_page_size]> (heap w)) w) ;;
      ret p
  end.

Definition pal_mem_free_pages (page_base num_pages : Z) : M () :=
  on_dev (bs_free_pages page_base num_pages) ;;
  modify (fun w => set_heap (delete page_base (heap w)) w).

(** UEFI runs with an identity map. *)
Definition pal_mem_virt_to_phys (va : Z) : Z := va.
Definition pal_mem_phys_to_virt (pa : Z) : Z := pa.

(** *** 64-bit loads and stores through pointers *)

(** Whether the word at [a] lies inside a live block. *)
Definition live (h : gmap Z Z) (a : Z) : bool :=
  existsb (fun '(p, n) => (p <=? a) && (a + 8 <=? p + n)) (map_to_list h).

Definition load64 (a : Z) : M Z :=
  let* w := get in
  if live (heap w) a && (a mod 8 =? 0) then need (ram w !! a) else fault.

Definition store64 (a v : Z) : M () :=
  let* w := get in
  if live (heap w) a && (a mod 8 =? 0) then put (set_ram (<[a := u64 v]> (ram w)) w)
  else fault.

(** [SetMem]: every caller passes a multiple of eight bytes. *)
Definition pal_mem_set (buf size value : Z) : M () :=
  for_each (Z.to_nat (size / 8)) 0
    (fun i => store64 (buf + 8 * i) (u8 value * 0x0101010101010101)).

(** acs_memory.c: pass-through wrappers; the [uint32_t] parameters narrow. *)
Definition val_memory_alloc (size : Z) : M Z := pal_mem_alloc (u32 size).
Definition val_memory_free (addr : Z) : M () := pal_mem_free addr.
Definition val_memory_set (buf size value : Z) : M () := pal_mem_set buf (u32 size) value.
Definition val_memory_virt_to_phys (va : Z) : Z := pal_mem_virt_to_phys va.
Definition val_memory_phys_to_virt (pa : Z) : Z := pal_mem_phys_to_virt pa.
Definition val_memory_page_size : Z := pal_mem_page_size.
Definition val_memory_alloc_pages (num_pages : Z) : M Z := pal_mem_alloc_pages num_pages.
Definition val_memory_free_pages (addr num_pages : Z) : M () :=
  pal_mem_free_pages addr num_pages.

(** *** Processing element: pal_pe.c, pal_dt.c *)

(** Cache maintenance by address. Invalidation is the point at which stores of
    the other PEs to the shared memory become visible. *)
Definition pal_pe_data_cache_ops_by_va (addr type : Z) : M () :=
  on_dev (cache_op addr type) ;;
  when type =? INVALIDATE then
    let* w := get in
    match gSharedMemory w with
    | None => ret tt
    | Some (base, mem) =>
        let r := other_pes mem (dev w) in
        put (set_gSharedMemory (Some (base, fst r)) (set_dev (snd r) w))
    end.

Definition val_data_cache_ops_by_va (addr type : Z) : M () :=
  pal_pe_data_cache_ops_by_va addr type.

(** The platform uses the suite's own interrupt controller driver and its own
    PCIe enumeration. *)
Definition pal_bsa_gic_imp : bool := true.
Definition pal_bsa_pcie_enumerate : bool := true.

Definition pal_pe_call_smc (args : ARM_SMC_ARGS) : M ARM_SMC_ARGS := from_dev (arm_call_smc args).

(** ** What the primitives do *)

Lemma wp_val_print level fmt data (w : world D) (Q : () -> world D -> Prop) :
  Q tt w -> wp (val_print level fmt data) w Q.
Proof. intros HQ. unfold val_print. wp_steps. by apply wp_if; intros _. Qed.

Lemma wp_bsa_print level fmt data (w : world D) (Q : () -> world D -> Prop) :
  Q tt w -> wp (bsa_print level fmt data) w Q.
Proof. exact (wp_val_print level fmt data w Q). Qed.

Lemma wp_on_dev f (w : world D) (Q : () -> world D -> Prop) :
  Q tt (set_dev (f (dev w)) w) -> wp (on_dev f) w Q.
Proof. exact id. Qed.

Lemma wp_from_dev {A} (f : D -> A * D) (w : world D) (Q : A -> world D -> Prop) :
  Q (fst (f (dev w))) (set_dev (snd (f (dev w))) w) -> wp (from_dev f) w Q.
Proof. exact id. Qed.

(** A cache clean reaches the device only. *)
Lemma wp_cache_clean addr type (w : world D) (Q : () -> world D -> Prop) :
  (type =? INVALIDATE) = false ->
  Q tt (set_dev (cache_op addr type (dev w)) w) ->
  wp (val_data_cache_ops_by_va addr type) w Q.
Proof.
  intros Ht HQ. unfold val_data_cache_ops_by_va, pal_pe_data_cache_ops_by_va.
  wp_step. apply wp_on_dev. by rewrite Ht.
Qed.

(** A cache invalidation also lets the stores of the other PEs through. *)
Lemma wp_cache_invalidate addr base mem (w : world D) (Q : () -> world D -> Prop) :
  gSharedMemory w = Some (base, mem) ->
  (let r := other_pes mem (cache_op addr INVALIDATE (dev w)) in
   Q tt (set_gSharedMemory (Some (base, fst r)) (set_dev (snd r) w))) ->
  wp (val_data_cache_ops_by_va addr INVALIDATE) w Q.
Proof.
  intros Hm HQ. unfold val_data_cache_ops_by_va, pal_pe_data_cache_ops_by_va.
  wp_step. apply wp_on_dev. cbn -[set_dev]. wp_step. wp_step. wsimpl. rewrite Hm. by wp_step.
Qed.

(** A word read rounds its address down to a multiple of four. *)
Lemma wp_pal_mmio_read addr (w : world D) (Q : Z -> world D -> Prop) :
  (let r := dev_read 4 (addr - addr mod 4) (dev w) in Q (u32 (fst r)) (set_dev (snd r) w)) ->
  wp (pal_mmio_read addr) w Q.
Proof.
  intros HQ. unfold pal_mmio_read. wp_step.
  assert (E : Z.land addr 3 = addr mod 4) by (by apply (land_mask 2)).
  apply (wp_mono _ _ (fun a s => a = addr - addr mod 4 /\ s = w)).
  - rewrite E. unfold truthy. destruct (Z.eqb_spec (addr mod 4) 0) as [->|Hne]; cbn [negb].
    + wp_step. split; [lia|done].
    + wp_step. apply wp_bsa_print. wp_step. split; [|done].
      rewrite <- E, Z.sub_nocarry_ldiff; apply Z.bits_inj'; intros i Hi; autorewrite with bits;
        by destruct (Z.testbit addr i), (Z.testbit 3 i).
  - intros a s [-> ->]. wp_steps. apply wp_from_dev. wp_steps. apply wp_bsa_print. by wp_step.
Qed.

(** A word access to an aligned register: only the device sees it. *)
Lemma wp_mmio_read addr (w : world D) (Q : Z -> world D -> Prop) :
  Z.land addr 3 = 0 ->
  Q (u32 (fst (dev_read 4 addr (dev w)))) (set_dev (snd (dev_read 4 addr (dev w))) w) ->
  wp (val_mmio_read addr) w Q.
Proof.
  intros Ha HQ. unfold val_mmio_read, pal_mmio_read. rewrite Ha.
  wp_step. change (truthy 0) with false. cbn iota. wp_steps. apply wp_from_dev.
  wp_steps. apply wp_bsa_print. by wp_step.
Qed.

Lemma wp_mmio_read64 addr (w : world D) (Q : Z -> world D -> Prop) :
  Q (u64 (fst (dev_read 8 addr (dev w)))) (set_dev (snd (dev_read 8 addr (dev w))) w) ->
  wp (val_mmio_read64 addr) w Q.
Proof.
  intros HQ. unfold val_mmio_read64, pal_mmio_read64. wp_steps. apply wp_from_dev.
  wp_steps. apply wp_bsa_print. by wp_step.
Qed.

Lemma wp_mmio_write addr data (w : world D) (Q : () -> world D -> Prop) :
  Q tt (set_dev (dev_write 4 addr (u32 data) (dev w)) w) ->
  wp (val_mmio_write addr data) w Q.
Proof.
  intros HQ. unfold val_mmio_write, pal_mmio_write. wp_step. apply wp_bsa_print.
  by apply wp_on_dev.
Qed.

Lemma live_block h q m a : h !! q = Some m -> q <= a -> a + 8 <= q + m -> live h a = true.
Proof.
  intros Hq H0 H1. unfold live. apply List.existsb_exists. exists (q, m).
  split; [by apply list_elem_of_In, elem_of_map_to_list|].
  apply andb_true_iff. split; by apply Z.leb_le.
Qed.

Lemma wp_store64 a v (w : world D) (Q : () -> world D -> Prop) :
  live (heap w) a = true -> a mod 8 = 0 ->
  Q tt (set_ram (<[a := u64 v]> (ram w)) w) -> wp (store64 a v) w Q.
Proof. intros Hl Ha HQ. unfold store64. wp_steps. by rewrite Hl, Ha. Qed.

Lemma wp_load64 a v (w : world D) (Q : Z -> world D -> Prop) :
  live (heap w) a = true -> a mod 8 = 0 -> ram w !! a = Some v ->
  Q v w -> wp (load64 a) w Q.
Proof. intros Hl Ha Hv HQ. unfold load64. wp_steps. by rewrite Hl, Ha, Hv. Qed.

(** Clearing [n] words inside a live block. *)
Lemma wp_memory_zero p n q m (w : world D) (Q : () -> world D -> Prop) :
  heap w !! q = Some m -> q <= p -> p + 8 * n <= q + m -> p mod 8 = 0 -> 0 <= n -> 8 * n < 2 ^ 32 ->
  (forall r, (forall k, 0 <= k < n -> r !! (p + 8 * k) = Some 0) ->
     (forall a, ~ p <= a < p + 8 * n -> r !! a = ram w !! a) -> Q tt (set_ram r w)) ->
  wp (val_memory_set p (8 * n) 0) w Q.
Proof.
  intros Hq Hp0 Hp1 Hal Hn Hsz HQ. unfold val_memory_set, pal_mem_set.
  replace (u32 (8 * n) / 8) with n.
  2: { unfold u32. rewrite Z.mod_small, Z.mul_comm, Z.div_mul by lia. done. }
  change (u8 0 * 0x0101010101010101) with 0.
  apply (wp_for_each (fun i s => exists r, s = set_ram r w /\
    (forall k, 0 <= k < i -> r !! (p + 8 * k) = Some 0) /\
    (forall a, ~ p <= a < p + 8 * n -> r !! a = ram w !! a))).
  - exists (ram w). split; [by destruct w|]. split; [lia|done].
  - intros i s Hi (r & -> & Hz & Hf). rewrite Z.add_0_l, Z2Nat.id in Hi by done.
    apply wp_store64; [apply (live_block _ q m); [exact Hq|lia|lia]| |].
    { by rewrite Z.mul_comm, Z.mod_add. }
    exists (<[p + 8 * i := 0]> r). split; [done|]. split.
    + intros k Hk. destruct (decide (k = i)) as [->|Hne]; [by rewrite lookup_insert_eq|].
      rewrite lookup_insert_ne by lia. apply Hz. lia.
    + intros a Ha. rewrite lookup_insert_ne by lia. by apply Hf.
  - intros s (r & -> & Hz & Hf). rewrite Z.add_0_l, Z2Nat.id in Hz by done. by apply HQ.
Qed.

Lemma wp_memory_alloc n p d' (w : world D) (Q : Z -> world D -> Prop) :
  fits 32 n -> bs_allocate_pool n (heap w) (dev w) = (inr p, d') ->
  Q p (set_heap (<[p := n]> (heap w)) (set_dev d' w)) -> wp (val_memory_alloc n) w Q.
Proof.
  intros Hn Ha HQ. unfold val_memory_alloc, pal_mem_alloc. rewrite (u32_id _ Hn).
  wp_step. wp_step. wp_step. apply wp_from_dev. rewrite Ha. cbn [fst snd]. wp_step. wp_step. by wp_step.
Qed.

Lemma wp_memory_alloc_fails n st d' (w : world D) (Q : Z -> world D -> Prop) :
  fits 32 n -> bs_allocate_pool n (heap w) (dev w) = (inl st, d') ->
  Q 0 (set_dev d' w) -> wp (val_memory_alloc n) w Q.
Proof.
  intros Hn Ha HQ. unfold val_memory_alloc, pal_mem_alloc. rewrite (u32_id _ Hn).
  wp_step. wp_step. wp_step. apply wp_from_dev. rewrite Ha. cbn [fst snd]. wp_step.
  apply wp_bsa_print. by wp_step.
Qed.
End platform.

(** Symbolic execution through the platform primitives. *)
Ltac io_step :=
  cbv beta;
  lazymatch goal with
  | |- wp (val_print _ _ _) _ _ => apply wp_val_print
  | |- wp (bsa_print _ _ _) _ _ => apply wp_bsa_print
  | |- wp (on_dev _) _ _ => apply wp_on_dev
  | |- wp (from_dev _) _ _ => apply wp_from_dev
  | |- wp (val_mmio_write _ _) _ _ => apply wp_mmio_write
  | |- wp (val_data_cache_ops_by_va _ CLEAN_AND_INVALIDATE) _ _ =>
      apply wp_cache_clean; [reflexivity|]
  | |- wp (val_data_cache_ops_by_va _ CLEAN) _ _ => apply wp_cache_clean; [reflexivity|]
  | |- _ => wp_step
  end.
Ltac io_steps := repeat (io_step; cbn beta iota).
Ltac run := repeat (io_step; cbn beta iota; wsimpl).
