(* ===== verification/Status.v ===== *)
(** * Test status words and their reporting

    The status encoding of src/val/include/bsa_acs_common.h and the status
    operations of src/val/src/acs_status.c: every PE reports the state of the test
    it runs as one 32-bit word of the shared memory. *)

From S2P Require Import Prelude Types World.
#[local] Open Scope c_scope.

(** ** Encoding (bsa_acs_common.h) *)

Definition BSA_ACS_START (test_num : Z) : Z :=
  u32 (Z.lor (Z.shiftl TEST_START_VAL STATE_BIT) (Z.shiftl test_num TEST_NUM_BIT)).
Definition BSA_ACS_END (test_num : Z) : Z :=
  u32 (Z.lor (Z.shiftl TEST_END_VAL STATE_BIT) (Z.shiftl test_num TEST_NUM_BIT)).

Definition RESULT_PASS (test_num status : Z) : Z :=
  u32 (Z.lor (Z.lor (Z.shiftl TEST_PASS_VAL STATE_BIT) (Z.shiftl test_num TEST_NUM_BIT)) status).
Definition RESULT_FAIL (test_num status : Z) : Z :=
  u32 (Z.lor (Z.lor (Z.shiftl TEST_FAIL_VAL STATE_BIT) (Z.shiftl test_num TEST_NUM_BIT)) status).
Definition RESULT_SKIP (test_num status : Z) : Z :=
  u32 (Z.lor (Z.lor (Z.shiftl TEST_SKIP_VAL STATE_BIT) (Z.shiftl test_num TEST_NUM_BIT)) status).
Definition RESULT_PENDING (test_num : Z) : Z :=
  u32 (Z.lor (Z.shiftl TEST_PENDING_VAL STATE_BIT) (Z.shiftl test_num TEST_NUM_BIT)).

(** The state field of a status word: what the [IS_*] macros compare. *)
Definition state_of (value : Z) : Z := Z.land (Z.shiftr value STATE_BIT) STATE_MASK.

Definition IS_TEST_START (value : Z) : bool := state_of value =? TEST_START_VAL.
Definition IS_TEST_END (value : Z) : bool := state_of value =? TEST_END_VAL.
Definition IS_RESULT_PENDING (value : Z) : bool := state_of value =? TEST_PENDING_VAL.
Definition IS_TEST_PASS (value : Z) : bool := state_of value =? TEST_PASS_VAL.
Definition IS_TEST_FAIL (value : Z) : bool := state_of value =? TEST_FAIL_VAL.
Definition IS_TEST_SKIP (value : Z) : bool := state_of value =? TEST_SKIP_VAL.
Definition IS_TEST_FAIL_SKIP (value : Z) : bool := IS_TEST_FAIL value || IS_TEST_SKIP value.

(** A status word as arithmetic: state in bits 31-28, test number in bits 27-12,
    status in bits 11-0. *)
Lemma status_word state test_num status :
  fits 4 state -> fits 16 test_num -> fits 12 status ->
  u32 (Z.lor (Z.lor (Z.shiftl state STATE_BIT) (Z.shiftl test_num TEST_NUM_BIT)) status)
  = state * 2 ^ 28 + test_num * 2 ^ 12 + status.
Proof.
  unfold fits, STATE_BIT, TEST_NUM_BIT. intros Hs Hn Hst.
  rewrite <- Z.lor_assoc, (lor_shiftl_add test_num status 12), lor_shiftl_add
    by (unfold fits; pow2; lia).
  rewrite u32_id by (unfold fits; pow2; lia). lia.
Qed.

Lemma state_of_arith v : state_of v = v / 2 ^ 28 mod 2 ^ 4.
Proof. unfold state_of. by rewrite (land_mask 4), Z.shiftr_div_pow2 by done. Qed.

Lemma state_of_word state test_num status :
  fits 4 state -> fits 16 test_num -> fits 12 status ->
  state_of (state * 2 ^ 28 + test_num * 2 ^ 12 + status) = state.
Proof. intros ???. rewrite state_of_arith. unfold fits in *. divmod. Qed.

Lemma fits_test_val v :
  v = TEST_START_VAL \/ v = TEST_END_VAL \/ v = TEST_PASS_VAL \/ v = TEST_FAIL_VAL
  \/ v = TEST_SKIP_VAL \/ v = TEST_PENDING_VAL -> fits 4 v.
Proof. by intros [->|[->|[->|[->|[->| ->]]]]]. Qed.

Lemma state_RESULT_PASS n s : fits 16 n -> fits 12 s -> state_of (RESULT_PASS n s) = TEST_PASS_VAL.
Proof. intros. unfold RESULT_PASS. by rewrite status_word, state_of_word. Qed.
Lemma state_RESULT_FAIL n s : fits 16 n -> fits 12 s -> state_of (RESULT_FAIL n s) = TEST_FAIL_VAL.
Proof. intros. unfold RESULT_FAIL. by rewrite status_word, state_of_word. Qed.
Lemma state_RESULT_SKIP n s : fits 16 n -> fits 12 s -> state_of (RESULT_SKIP n s) = TEST_SKIP_VAL.
Proof. intros. unfold RESULT_SKIP. by rewrite status_word, state_of_word. Qed.

Lemma RESULT_PENDING_word n :
  RESULT_PENDING n =
  u32 (Z.lor (Z.lor (Z.shiftl TEST_PENDING_VAL STATE_BIT) (Z.shiftl n TEST_NUM_BIT)) 0).
Proof. unfold RESULT_PENDING. by rewrite Z.lor_0_r. Qed.
Lemma state_RESULT_PENDING n : fits 16 n -> state_of (RESULT_PENDING n) = TEST_PENDING_VAL.
Proof. intros. by rewrite RESULT_PENDING_word, status_word, state_of_word. Qed.

Lemma status_mask_arith v : Z.land v STATUS_MASK = v mod 2 ^ 12.
Proof. by rewrite (land_mask 12). Qed.

(** ** Operations (acs_status.c) *)

Section status.
Context {D : Type} `{Platform D}.

#[local] Abbreviation M := (M (world D)).

Definition val_report_status (index status : Z) : M () :=
  (when IS_TEST_FAIL status then
     val_print ACS_PRINT_ERR "\n       Failed on PE - %4d                        " index) ;;
  if IS_TEST_PASS status then
    val_print ACS_PRINT_TEST ": Result:  PASS \n" status
  else if IS_TEST_FAIL status then
    val_print ACS_PRINT_ERR ": Result:  --FAIL-- %x \n" (Z.land status STATUS_MASK)
  else if IS_TEST_SKIP status then
    val_print ACS_PRINT_WARN ": Result:  -SKIPPED- %x \n" (Z.land status STATUS_MASK)
  else if IS_TEST_START status then
    val_print ACS_PRINT_INFO "         START  " status
  else if IS_TEST_END status then
    val_print ACS_PRINT_INFO "         END  \n\n" status
  else
    val_print ACS_PRINT_ERR ": Result:  %8x  \n" status.

(** [&gSharedMemory[index]] and the offsets of its fields. *)
Definition sizeof_VAL_SHARED_MEM_t : Z := 24.
Definition shared_field (base index off : Z) : Z := base + sizeof_VAL_SHARED_MEM_t * index + off.

(** A store through the shared-memory pointer: NULL or past the end is undefined. *)
Definition shared_store (index : Z) (f : VAL_SHARED_MEM_t -> VAL_SHARED_MEM_t) : M () :=
  let* m := gets gSharedMemory in
  let* ' (base, mem) := need m in
  let* e := need (mem !! Z.to_nat index) in
  modify (set_gSharedMemory (Some (base, <[Z.to_nat index := f e]> mem))).

Definition shared_base : M Z :=
  let* m := gets gSharedMemory in
  let* ' (base, _) := need m in
  ret base.

Definition shared_load (index : Z) : M VAL_SHARED_MEM_t :=
  let* m := gets gSharedMemory in
  let* ' (_, mem) := need m in
  need (mem !! Z.to_nat index).

Definition val_set_status (index status : Z) : M () :=
  shared_store index (fun m => mkShared (sh_data0 m) (sh_data1 m) status) ;;
  let* base := shared_base in
  val_data_cache_ops_by_va (shared_field base index 16) CLEAN_AND_INVALIDATE.

Definition val_get_status (index : Z) : M Z :=
  let* base := shared_base in
  val_data_cache_ops_by_va (shared_field base index 16) INVALIDATE ;;
  let* m := shared_load index in
  ret (u32 (sh_status m)).

(** ** Correctness *)

Lemma wp_val_report_status index status (w : world D) (Q : () -> world D -> Prop) :
  Q tt w -> wp (val_report_status index status) w Q.
Proof.
  intros HQ. unfold val_report_status. io_step. apply wp_if; intros _; io_step; cbn beta;
    by repeat first [apply wp_if; intros _ | io_step].
Qed.

(** [gSharedMemory] points at a table of [length mem] entries. *)
Lemma wp_val_set_status base mem i m st (w : world D) (Q : () -> world D -> Prop) :
  gSharedMemory w = Some (base, mem) -> mem !! i = Some m ->
  Q tt (set_dev (cache_op (shared_field base (Z.of_nat i) 16) CLEAN_AND_INVALIDATE (dev w))
    (set_gSharedMemory
       (Some (base, <[i := mkShared (sh_data0 m) (sh_data1 m) st]> mem)) w)) ->
  wp (val_set_status (Z.of_nat i) st) w Q.
Proof.
  intros Hm Hi HQ. unfold val_set_status, shared_store, shared_base.
  wp_steps. rewrite Hm. wp_steps. rewrite Nat2Z.id, Hi. wp_steps. wsimpl. wp_steps.
  io_steps. exact HQ.
Qed.

(** Reading a status first lets the other PEs' stores through. *)
Lemma wp_val_get_status base mem i m (w : world D) (Q : Z -> world D -> Prop) :
  gSharedMemory w = Some (base, mem) ->
  (let r := other_pes mem (cache_op (shared_field base (Z.of_nat i) 16) INVALIDATE (dev w)) in
   fst r !! i = Some m /\
   Q (u32 (sh_status m)) (set_gSharedMemory (Some (base, fst r)) (set_dev (snd r) w))) ->
  wp (val_get_status (Z.of_nat i)) w Q.
Proof.
  intros Hm [Hi HQ]. unfold val_get_status, shared_load, shared_base.
  wp_steps. rewrite Hm. wp_steps. eapply wp_cache_invalidate; [done|]. cbn beta zeta.
  wp_steps. wsimpl. wp_steps. rewrite Nat2Z.id, Hi. by wp_steps.
Qed.
End status.

(** C9: the three result macros are injective encodings: state, test number (up to
    16 bits) and status code (up to 12 bits) are read back exactly. *)
Theorem result_encoding_roundtrip mk code test_num status :
  (mk, code) ∈ [(RESULT_PASS, TEST_PASS_VAL); (RESULT_FAIL, TEST_FAIL_VAL);
                (RESULT_SKIP, TEST_SKIP_VAL)] ->
  fits 16 test_num -> fits 12 status ->
  fits 32 (mk test_num status) /\
  state_of (mk test_num status) = code /\
  Z.land (Z.shiftr (mk test_num status) TEST_NUM_BIT) 0xFFFF = test_num /\
  Z.land (mk test_num status) STATUS_MASK = status.
Proof.
  intros Hmk Hn Hs. assert (mk test_num status = code * 2 ^ 28 + test_num * 2 ^ 12 + status /\ fits 4 code)
    as [-> Hc].
  { rewrite !elem_of_cons, elem_of_nil in Hmk.
    destruct Hmk as [[= -> ->]|[[= -> ->]|[[= -> ->]|[]]]]; split; try done; by apply status_word. }
  rewrite state_of_word, status_mask_arith, (land_mask 16), Z.shiftr_div_pow2 by done.
  unfold fits, TEST_NUM_BIT in *. repeat split; divmod.
Qed.

Lemma result_encoding_roundtrip_witness :
  fits 32 (RESULT_FAIL 802 0xF) /\
  state_of (RESULT_FAIL 802 0xF) = TEST_FAIL_VAL /\
  Z.land (Z.shiftr (RESULT_FAIL 802 0xF) TEST_NUM_BIT) 0xFFFF = 802 /\
  Z.land (RESULT_FAIL 802 0xF) STATUS_MASK = 0xF.
Proof.
  apply (result_encoding_roundtrip RESULT_FAIL TEST_FAIL_VAL); [|by vm_compute..].
  apply list_elem_of_further, list_elem_of_here.
Defined.
