(* ===== verification/Machine.v ===== *)
(** * A concrete machine

    An executable instance of the platform interface, on which the theorems are
    applied to concrete inputs: memory-mapped registers and system registers are
    finite maps, the allocator hands out page-aligned blocks above every live one,
    and the other PEs report PASS as soon as they are looked at. *)

From S2P Require Import Prelude Types World Status.

Record machine := Machine {
  mach_mem : gmap Z Z;          (* registers and memory, by address *)
  mach_regs : gmap string Z;    (* system registers, by access stub *)
  mach_smc : Z;                 (* what the firmware answers in Arg0 *)
  mach_cache : list (Z * Z)     (* cache maintenance done: address, kind *)
}.

(** The first byte above every live block. *)
Definition heap_top (heap : gmap Z Z) : Z := map_fold (fun p n top => Z.max top (p + n)) 0 heap.

Definition align_page (a : Z) : Z := (a / 4096 + 1) * 4096.

Definition mach_alloc (n : Z) (heap : gmap Z Z) (d : machine) : (Z + Z) * machine :=
  let p := align_page (Z.max 0 (heap_top heap)) in
  ((if p + n <=? 2 ^ 64 then inr p else inl 9), d).

(** A pending PE finishes with PASS, its other data kept. *)
Definition mach_report (m : VAL_SHARED_MEM_t) : VAL_SHARED_MEM_t :=
  if IS_RESULT_PENDING (u32 (sh_status m)) then
    mkShared (sh_data0 m) (sh_data1 m) (RESULT_PASS 0 0)
  else m.

#[export] Instance machine_platform : Platform machine := {
  dev_read _ a d := (default 0 (mach_mem d !! a), d);
  dev_write _ a v d := Machine (<[a := v]> (mach_mem d)) (mach_regs d) (mach_smc d) (mach_cache d);
  read_sysreg r d := (default 0 (mach_regs d !! r), d);
  write_sysreg r v d := Machine (mach_mem d) (<[r := v]> (mach_regs d)) (mach_smc d) (mach_cache d);
  cache_op a k d := Machine (mach_mem d) (mach_regs d) (mach_smc d) (mach_cache d ++ [(a, k)]);
  arm_call_smc a d :=
    (mkSmc (mach_smc d) (Arg1 a) (Arg2 a) (Arg3 a) (Arg4 a) (Arg5 a) (Arg6 a) (Arg7 a), d);
  bs_allocate_pool n heap d := mach_alloc n heap d;
  bs_free_pool _ d := d;
  bs_allocate_pages n heap d := mach_alloc (n * 4096) heap d;
  bs_free_pages _ _ d := d;
  other_pes mem d := (mach_report <$> mem, d);
  symbol s := Z.of_nat (String.length s)
}.

Lemma heap_top_above heap p n : heap !! p = Some n -> p + n <= heap_top heap.
Proof.
  unfold heap_top. revert p n. induction heap as [|q m heap Hq Hfst IH] using map_first_key_ind.
  - intros p n. by rewrite lookup_empty.
  - intros p n Hp. rewrite map_fold_insert_first_key by done.
    apply lookup_insert_Some in Hp as [[-> ->]|[_ Hp]]; [lia|]. specialize (IH p n Hp). lia.
Qed.

Lemma mach_alloc_law n heap d p d' :
  0 <= n -> mach_alloc n heap d = (inr p, d') ->
  0 < p /\ p + n <= 2 ^ 64 /\ p mod 4096 = 0 /\ block_free heap p n.
Proof.
  unfold mach_alloc. intros Hn. destruct (Z.leb_spec (align_page (Z.max 0 (heap_top heap)) + n) (2 ^ 64));
    [|done]. intros [= <- <-]. unfold align_page in *.
  set (t := Z.max 0 (heap_top heap)) in *.
  assert (t < (t / 4096 + 1) * 4096) by (pose proof (Z.div_mod t 4096); pose proof (Z.mod_pos_bound t 4096); lia).
  split; [lia|]. split; [done|]. split; [by apply Z.mod_mul|].
  intros q m Hq. right. pose proof (heap_top_above heap q m Hq). lia.
Qed.

#[export] Instance machine_alloc_laws : AllocLaws machine.
Proof.
  split; intros n heap d p d' Hn Hp; cbn in Hp; apply mach_alloc_law in Hp as (H1 & H2 & H3 & H4);
    auto; try lia. repeat split; try done.
  apply Z.mod_divide in H3 as [k ->]; [|done]. by rewrite (Z.mul_comm k), <- (Z.mul_assoc 8 512), Z.mul_comm, Z.mod_mul.
Qed.

(** The program before any table is built, on a machine with these registers. *)
Definition boot (mem : gmap Z Z) (regs : gmap string Z) : world machine :=
  World (Machine mem regs 0 []) ∅ ∅ ACS_PRINT_TEST (repeat 10000 9) 0 0 0 0 0 0 None None
    (mkSmc 0 0 0 0 0 0 0 0) [0; 0; 0; 0] ∅ None None 4096 9 0 None None None None None None None
    None (mkExerciserTable 0 []) None 0 [] (mkItsGlobals None None None 0 0)
    (mkPalGlobals 0 0 0) [1; 1; 1] ∅.

(** ** Registers that answer

    The same machine with registers that follow others: a write to [a] is also one to
    [mirrors !! a], as a device acknowledges a command in another register. *)
Record mirrored := Mirrored { mirrors : gmap Z Z; mirror_of : machine }.

Definition mir_do (f : machine -> machine) (d : mirrored) : mirrored :=
  Mirrored (mirrors d) (f (mirror_of d)).
Definition mir_get {A} (f : machine -> A * machine) (d : mirrored) : A * mirrored :=
  let r := f (mirror_of d) in (fst r, Mirrored (mirrors d) (snd r)).

#[export] Instance mirrored_platform : Platform mirrored := {
  dev_read n a := mir_get (dev_read n a);
  dev_write n a v d :=
    let d := mir_do (dev_write n a v) d in
    match mirrors d !! a with Some b => mir_do (dev_write n b v) d | None => d end;
  read_sysreg r := mir_get (read_sysreg r);
  write_sysreg r v := mir_do (write_sysreg r v);
  cache_op a k := mir_do (cache_op a k);
  arm_call_smc a := mir_get (arm_call_smc a);
  bs_allocate_pool n h := mir_get (bs_allocate_pool n h);
  bs_free_pool p := mir_do (bs_free_pool p);
  bs_allocate_pages n h := mir_get (bs_allocate_pages n h);
  bs_free_pages p n := mir_do (bs_free_pages p n);
  other_pes m := mir_get (other_pes m);
  symbol := symbol
}.

(** The program on another device, in the same state. *)
Definition with_dev {D E} (d : E) (w : world D) : world E :=
  World d (heap w) (ram w) (g_print_level w) (g_skip_test_num w) (g_bsa_tests_total w)
    (g_bsa_tests_pass w) (g_bsa_tests_fail w) (g_stack_pointer w) (g_exception_ret_addr w)
    (g_ret_addr w) (gSharedMemory w) (g_pe_info_table w) (g_smc_args w) (g_esr_handler w)
    (g_intr_handler w) (g_pcie_info_table w) (g_pcie_bdf_table w) (page_size w) (bits_per_level w)
    (pgt_addr_mask w) (g_memory_info_table w) (g_gic_info_table w) (g_v2m_msi_info w)
    (g_timer_info_table w) (g_wd_info_table w) (g_peripheral_info_table w) (g_iovirt_info_table w)
    (g_dma_info_table w) (g_exercier_info_table w) (g_smmu w) (g_num_smmus w)
    (g_smmu_master_list w) (g_its w) (g_pal w) (g_sw_view w) (statics w).
