(* ===== verification/PeInfra.v ===== *)
(** * Processing elements: the PE table and its system registers

    src/val/src/acs_pe.c and the table operations of src/val/src/acs_pe_infra.c.
    The operations that start code on another PE are in TestInfra. *)

From S2P Require Import Prelude Types World Status.
#[local] Open Scope c_scope.

Section pe.
Context {D : Type} `{Platform D}.

#[local] Abbreviation M := (M (world D)).

(** ** The table (acs_pe_infra.c) *)

Definition val_pe_get_num : M Z :=
  let* t := gets g_pe_info_table in
  ret (match t with None => 0 | Some t => num_of_pe t end).

(** [MPIDR_EL1] is the first case of [val_pe_reg_read], which itself reports an
    unknown register on the running PE: see [val_pe_get_mpid_reads_mpidr]. *)
Definition val_pe_get_mpid : M Z :=
  let* data := from_dev (read_sysreg "ArmReadMpidr") in
  ret (Z.land data MPIDR_AFF_MASK).

Definition val_pe_get_mpid_index (index : Z) : M Z :=
  let* t := gets g_pe_info_table in
  let* t := need t in
  if num_of_pe t <? index then
    val_report_status index (RESULT_FAIL 0 0xFF) ;;
    ret 0xFFFFFF
  else
    let* e := need (pe_info t !! Z.to_nat index) in
    ret (pe_mpidr e).

Definition val_pe_get_index_mpid (mpid : Z) : M Z :=
  let* t := gets g_pe_info_table in
  let* t := need t in
  let* r := for_ (Z.to_nat (num_of_pe t)) 0 (fun k _ =>
    let* e := need (pe_info t !! Z.to_nat k) in
    ret (if pe_mpidr e =? mpid then Break (pe_num e) else Continue tt)) tt in
  match r with
  | Break n => ret n
  | Continue _ => ret 0x0
  end.

Definition val_pe_create_info_table `{PalTables D} (pe_info_table : bool) : M Z :=
  if negb pe_info_table then
    val_print ACS_PRINT_ERR "Input memory for PE Info table cannot be NULL \n" 0 ;;
    ret ACS_STATUS_ERR
  else
    let* t := pal_pe_create_info_table in
    modify (set_g_pe_info_table (Some t)) ;;
    val_data_cache_ops_by_va (symbol "g_pe_info_table") CLEAN_AND_INVALIDATE ;;
    let* n := val_pe_get_num in
    val_print ACS_PRINT_TEST " PE_INFO: Number of PE detected       : %4d \n" n ;;
    let* n := val_pe_get_num in
    if n =? 0 then
      val_print ACS_PRINT_ERR "\n *** CRITICAL ERROR: Num PE is 0x0 ***\n" 0 ;;
      ret ACS_STATUS_ERR
    else ret ACS_STATUS_PASS.

(** ** System registers (acs_pe.c) *)

Definition val_pe_reg_read (reg_id : Z) : M Z :=
  if reg_id =? MPIDR_EL1 then from_dev (read_sysreg "ArmReadMpidr")
  else if reg_id =? ID_AA64PFR0_EL1 then from_dev (read_sysreg "ArmReadIdPfr0")
  else if reg_id =? ID_AA64PFR1_EL1 then from_dev (read_sysreg "ArmReadIdPfr1")
  else if reg_id =? ID_AA64MMFR0_EL1 then from_dev (read_sysreg "AA64ReadMmfr0")
  else if reg_id =? ID_AA64MMFR1_EL1 then from_dev (read_sysreg "AA64ReadMmfr1")
  else if reg_id =? ID_AA64MMFR2_EL1 then from_dev (read_sysreg "AA64ReadMmfr2")
  else if reg_id =? CTR_EL0 then from_dev (read_sysreg "AA64ReadCtr")
  else if reg_id =? ID_AA64ISAR0_EL1 then from_dev (read_sysreg "AA64ReadIsar0")
  else if reg_id =? ID_AA64ISAR1_EL1 then from_dev (read_sysreg "AA64ReadIsar1")
  else if reg_id =? SCTLR_EL3 then from_dev (read_sysreg "AA64ReadSctlr3")
  else if reg_id =? SCTLR_EL2 then from_dev (read_sysreg "AA64ReadSctlr2")
  else if reg_id =? SCTLR_EL1 then from_dev (read_sysreg "AA64ReadSctlr1")
  else if reg_id =? PMCR_EL0 then from_dev (read_sysreg "AA64ReadPmcr")
  else if reg_id =? ID_AA64DFR0_EL1 then from_dev (read_sysreg "AA64ReadIdDfr0")
  else if reg_id =? ID_AA64DFR1_EL1 then from_dev (read_sysreg "AA64ReadIdDfr1")
  else if reg_id =? CurrentEL then from_dev (read_sysreg "AA64ReadCurrentEL")
  else if reg_id =? MDCR_EL2 then from_dev (read_sysreg "AA64ReadMdcr2")
  else if reg_id =? VBAR_EL2 then from_dev (read_sysreg "AA64ReadVbar2")
  else if reg_id =? CCSIDR_EL1 then from_dev (read_sysreg "AA64ReadCcsidr")
  else if reg_id =? CSSELR_EL1 then from_dev (read_sysreg "AA64ReadCsselr")
  else if reg_id =? CLIDR_EL1 then from_dev (read_sysreg "AA64ReadClidr")
  else if reg_id =? ID_DFR0_EL1 then from_dev (read_sysreg "ArmReadDfr0")
  else if reg_id =? ID_ISAR0_EL1 then from_dev (read_sysreg "ArmReadIsar0")
  else if reg_id =? ID_ISAR1_EL1 then from_dev (read_sysreg "ArmReadIsar1")
  else if reg_id =? ID_ISAR2_EL1 then from_dev (read_sysreg "ArmReadIsar2")
  else if reg_id =? ID_ISAR3_EL1 then from_dev (read_sysreg "ArmReadIsar3")
  else if reg_id =? ID_ISAR4_EL1 then from_dev (read_sysreg "ArmReadIsar4")
  else if reg_id =? ID_ISAR5_EL1 then from_dev (read_sysreg "ArmReadIsar5")
  else if reg_id =? ID_MMFR0_EL1 then from_dev (read_sysreg "ArmReadMmfr0")
  else if reg_id =? ID_MMFR1_EL1 then from_dev (read_sysreg "ArmReadMmfr1")
  else if reg_id =? ID_MMFR2_EL1 then from_dev (read_sysreg "ArmReadMmfr2")
  else if reg_id =? ID_MMFR3_EL1 then from_dev (read_sysreg "ArmReadMmfr3")
  else if reg_id =? ID_MMFR4_EL1 then from_dev (read_sysreg "ArmReadMmfr4")
  else if reg_id =? ID_PFR0_EL1 then from_dev (read_sysreg "ArmReadPfr0")
  else if reg_id =? ID_PFR1_EL1 then from_dev (read_sysreg "ArmReadPfr1")
  else if reg_id =? MIDR_EL1 then from_dev (read_sysreg "ArmReadMidr")
  else if reg_id =? MVFR0_EL1 then from_dev (read_sysreg "ArmReadMvfr0")
  else if reg_id =? MVFR1_EL1 then from_dev (read_sysreg "ArmReadMvfr1")
  else if reg_id =? MVFR2_EL1 then from_dev (read_sysreg "ArmReadMvfr2")
  else if reg_id =? PMCEID0_EL0 then from_dev (read_sysreg "AA64ReadPmceid0")
  else if reg_id =? PMCEID1_EL0 then from_dev (read_sysreg "AA64ReadPmceid1")
  else if reg_id =? VMPIDR_EL2 then from_dev (read_sysreg "AA64ReadVmpidr")
  else if reg_id =? VPIDR_EL2 then from_dev (read_sysreg "AA64ReadVpidr")
  else if reg_id =? PMBIDR_EL1 then from_dev (read_sysreg "AA64ReadPmbidr")
  else if reg_id =? PMSIDR_EL1 then from_dev (read_sysreg "AA64ReadPmsidr")
  else if reg_id =? LORID_EL1 then from_dev (read_sysreg "AA64ReadLorid")
  else if reg_id =? ERRIDR_EL1 then from_dev (read_sysreg "AA64ReadErridr")
  else if reg_id =? ERR0FR_EL1 then from_dev (read_sysreg "AA64ReadErr0fr")
  else if reg_id =? ERR1FR_EL1 then from_dev (read_sysreg "AA64ReadErr1fr")
  else if reg_id =? ERR2FR_EL1 then from_dev (read_sysreg "AA64ReadErr2fr")
  else if reg_id =? ERR3FR_EL1 then from_dev (read_sysreg "AA64ReadErr3fr")
  else if reg_id =? ESR_EL2 then from_dev (read_sysreg "AA64ReadEsr2")
  else if reg_id =? FAR_EL2 then from_dev (read_sysreg "AA64ReadFar2")
  else if reg_id =? RDVL then from_dev (read_sysreg "ArmRdvl")
  else if reg_id =? MAIR_ELx then
    let* el := from_dev (read_sysreg "AA64ReadCurrentEL") in
    if el =? AARCH64_EL1 then from_dev (read_sysreg "AA64ReadMair1") else
    let* el := from_dev (read_sysreg "AA64ReadCurrentEL") in
    if el =? AARCH64_EL2 then from_dev (read_sysreg "AA64ReadMair2") else ret 0x0
  else if reg_id =? TCR_ELx then
    let* el := from_dev (read_sysreg "AA64ReadCurrentEL") in
    if el =? AARCH64_EL1 then from_dev (read_sysreg "AA64ReadTcr1") else
    let* el := from_dev (read_sysreg "AA64ReadCurrentEL") in
    if el =? AARCH64_EL2 then from_dev (read_sysreg "AA64ReadTcr2") else ret 0x0
  else if reg_id =? DBGBCR0_EL1 then from_dev (read_sysreg "AA64ReadDbgbcr0El1")
  else if reg_id =? DBGBCR1_EL1 then from_dev (read_sysreg "AA64ReadDbgbcr1El1")
  else if reg_id =? DBGBCR2_EL1 then from_dev (read_sysreg "AA64ReadDbgbcr2El1")
  else if reg_id =? DBGBCR3_EL1 then from_dev (read_sysreg "AA64ReadDbgbcr3El1")
  else if reg_id =? DBGBCR4_EL1 then from_dev (read_sysreg "AA64ReadDbgbcr4El1")
  else if reg_id =? DBGBCR5_EL1 then from_dev (read_sysreg "AA64ReadDbgbcr5El1")
  else if reg_id =? DBGBCR6_EL1 then from_dev (read_sysreg "AA64ReadDbgbcr6El1")
  else if reg_id =? DBGBCR7_EL1 then from_dev (read_sysreg "AA64ReadDbgbcr7El1")
  else if reg_id =? DBGBCR8_EL1 then from_dev (read_sysreg "AA64ReadDbgbcr8El1")
  else if reg_id =? DBGBCR9_EL1 then from_dev (read_sysreg "AA64ReadDbgbcr9El1")
  else if reg_id =? DBGBCR10_EL1 then from_dev (read_sysreg "AA64ReadDbgbcr10El1")
  else if reg_id =? DBGBCR11_EL1 then from_dev (read_sysreg "AA64ReadDbgbcr11El1")
  else if reg_id =? DBGBCR12_EL1 then from_dev (read_sysreg "AA64ReadDbgbcr12El1")
  else if reg_id =? DBGBCR13_EL1 then from_dev (read_sysreg "AA64ReadDbgbcr13El1")
  else if reg_id =? DBGBCR14_EL1 then from_dev (read_sysreg "AA64ReadDbgbcr14El1")
  else if reg_id =? DBGBCR15_EL1 then from_dev (read_sysreg "AA64ReadDbgbcr15El1")
  else
    let* mpid := val_pe_get_mpid in
    let* index := val_pe_get_index_mpid mpid in
    val_report_status index (RESULT_FAIL 0 0x78) ;;
    ret 0x0.

Definition val_pe_reg_write (reg_id write_data : Z) : M () :=
  if reg_id =? CSSELR_EL1 then on_dev (write_sysreg "AA64WriteCsselr" write_data)
  else if reg_id =? PMCR_EL0 then on_dev (write_sysreg "AA64WritePmcr" write_data)
  else if reg_id =? PMOVSSET_EL0 then on_dev (write_sysreg "AA64WritePmovsset" write_data)
  else if reg_id =? PMOVSCLR_EL0 then on_dev (write_sysreg "AA64WritePmovsclr" write_data)
  else if reg_id =? PMINTENSET_EL1 then on_dev (write_sysreg "AA64WritePmintenset" write_data)
  else if reg_id =? PMINTENCLR_EL1 then on_dev (write_sysreg "AA64WritePmintenclr" write_data)
  else if reg_id =? MDCR_EL2 then on_dev (write_sysreg "AA64WriteMdcr2" write_data)
  else if reg_id =? VBAR_EL2 then on_dev (write_sysreg "AA64WriteVbar2" write_data)
  else if reg_id =? PMSIRR_EL1 then on_dev (write_sysreg "AA64WritePmsirr" write_data)
  else if reg_id =? PMSCR_EL2 then on_dev (write_sysreg "AA64WritePmscr2" write_data)
  else if reg_id =? PMSFCR_EL1 then on_dev (write_sysreg "AA64WritePmsfcr" write_data)
  else if reg_id =? PMBPTR_EL1 then on_dev (write_sysreg "AA64WritePmbptr" write_data)
  else if reg_id =? PMBLIMITR_EL1 then on_dev (write_sysreg "AA64WritePmblimitr" write_data)
  else
    let* mpid := val_pe_get_mpid in
    let* index := val_pe_get_index_mpid mpid in
    val_report_status index (RESULT_FAIL 0 0x78).

Definition val_is_el3_enabled : M Z :=
  let* data := val_pe_reg_read ID_AA64PFR0_EL1 in
  ret (Z.land (Z.shiftr data 12) 0xF).

Definition val_is_el2_enabled : M Z :=
  let* data := val_pe_reg_read ID_AA64PFR0_EL1 in
  ret (Z.land (Z.shiftr data 8) 0xF).

Definition val_pe_get_pmu_gsiv (index : Z) : M Z :=
  let* t := gets g_pe_info_table in
  let* t := need t in
  if num_of_pe t <? index then
    val_report_status index (RESULT_FAIL 0 0xFF) ;;
    ret 0xFFFFFF
  else
    let* e := need (pe_info t !! Z.to_nat index) in
    ret (pe_pmu_gsiv e).

Definition val_pe_get_gmain_gsiv (index : Z) : M Z :=
  let* t := gets g_pe_info_table in
  let* t := need t in
  if num_of_pe t <? index then
    val_report_status index (RESULT_FAIL 0 0xFF) ;;
    ret 0xFFFFFF
  else
    let* e := need (pe_info t !! Z.to_nat index) in
    ret (pe_gmain_gsiv e).

(** The translation control fields of [TTBR0_ELx] or [TTBR1_ELx], written to
    [*tcr] ([None] is NULL) one by one: on an error the fields already written
    stay. The table lookups cannot miss, the fields being two bits wide. *)
Definition val_pe_reg_read_tcr (ttbr1 : Z) (tcr : option PE_TCR_BF)
  : M (Z * option PE_TCR_BF) :=
  let* val := val_pe_reg_read TCR_ELx in
  let* cur := from_dev (read_sysreg "AA64ReadCurrentEL") in
  let el := u32 (Z.land cur AARCH64_EL_MASK) in
  let field mask shift := Z.shiftr (Z.land val mask) shift in
  match tcr with
  | None => ret (ACS_STATUS_ERR, None)
  | Some t =>
      if negb (el =? AARCH64_EL1) && negb (el =? AARCH64_EL2) then
        ret (ACS_STATUS_ERR, Some t)
      else
      let* e2h :=
        if el =? AARCH64_EL2 then
          let* hcr := from_dev (read_sysreg "ArmReadHcr") in
          ret (Z.land hcr AARCH64_HCR_E2H_MASK)
        else ret 0 in
      let lower (t : PE_TCR_BF) : M (Z * option PE_TCR_BF) :=
        let tg := field BSA_TCR_TG0_MASK BSA_TCR_TG0_SHIFT in
        let t := mkTCR (tcr_ps t) tg (tcr_sh t) (tcr_orgn t) (tcr_irgn t) (tcr_tsz t)
                   (tcr_sl t) (tcr_tg_size_log2 t) in
        if 2 <? tg then ret (ACS_STATUS_ERR, Some t)
        else
          let* size := need ([12; 16; 14] !! Z.to_nat tg) in
          ret (0, Some (mkTCR (tcr_ps t) tg
            (field BSA_TCR_SH0_MASK BSA_TCR_SH0_SHIFT)
            (field BSA_TCR_ORGN0_MASK BSA_TCR_ORGN0_SHIFT)
            (field BSA_TCR_IRGN0_MASK BSA_TCR_IRGN0_SHIFT)
            (field BSA_TCR_T0SZ_MASK BSA_TCR_T0SZ_SHIFT) (tcr_sl t) size)) in
      let set_ps ps (t : PE_TCR_BF) :=
        mkTCR ps (tcr_tg t) (tcr_sh t) (tcr_orgn t) (tcr_irgn t) (tcr_tsz t) (tcr_sl t)
          (tcr_tg_size_log2 t) in
      if (el =? AARCH64_EL1) || (el =? AARCH64_EL2) && truthy e2h then
        let t := set_ps (field BSA_TCR_IPS_MASK BSA_TCR_IPS_SHIFT) t in
        if truthy ttbr1 then
          let tg := field BSA_TCR_TG1_MASK BSA_TCR_TG1_SHIFT in
          let t := mkTCR (tcr_ps t) tg (tcr_sh t) (tcr_orgn t) (tcr_irgn t) (tcr_tsz t)
                     (tcr_sl t) (tcr_tg_size_log2 t) in
          if (tg =? 0) || (3 <? tg) then ret (ACS_STATUS_ERR, Some t)
          else
            let* size := need ([0; 14; 12; 16] !! Z.to_nat tg) in
            ret (0, Some (mkTCR (tcr_ps t) tg
              (field BSA_TCR_SH1_MASK BSA_TCR_SH1_SHIFT)
              (field BSA_TCR_ORGN1_MASK BSA_TCR_ORGN1_SHIFT)
              (field BSA_TCR_IRGN1_MASK BSA_TCR_IRGN1_SHIFT)
              (field BSA_TCR_T1SZ_MASK BSA_TCR_T1SZ_SHIFT) (tcr_sl t) size))
        else lower t
      else if negb (truthy ttbr1) then
        lower (set_ps (field BSA_TCR_PS_MASK BSA_TCR_PS_SHIFT) t)
      else ret (ACS_STATUS_ERR, Some t)
  end.

(** [None] in the second component: [*ttbr_ptr] is not written. *)
Definition val_pe_reg_read_ttbr (ttbr1 : Z) (ttbr_ptr : bool) : M (Z * option Z) :=
  let* cur := from_dev (read_sysreg "AA64ReadCurrentEL") in
  let el := u32 (Z.land cur AARCH64_EL_MASK) in
  if negb ttbr_ptr || (negb (el =? AARCH64_EL1) && negb (el =? AARCH64_EL2)) || (1 <? ttbr1)
  then ret (ACS_STATUS_ERR, None)
  else
    let* row := need ([["AA64ReadTtbr0El1"; "AA64ReadTtbr0El2"];
                       ["AA64ReadTtbr1El1"; "AA64ReadTtbr1El2"]] !! Z.to_nat ttbr1) in
    let* f := need (row !! Z.to_nat (Z.shiftr el 2 - 1)) in
    let* v := from_dev (read_sysreg f) in
    ret (0, Some v).

Definition val_pe_execute_tests `{TestPool D} (num_pe : Z) (g_sw_view : list Z) : M Z :=
  let* skip := user_skips ACS_PE_TEST_NUM_BASE in
  if skip then
    val_print ACS_PRINT_TEST "\n      USER Override - Skipping all PE tests \n" 0 ;;
    ret ACS_STATUS_SKIP
  else
  let status := ACS_STATUS_PASS in
  let* os := need (g_sw_view !! Z.to_nat G_SW_OS) in
  let* status :=
    if truthy os then
      val_print ACS_PRINT_ERR "\nOperating System:\n" 0 ;;
      run_tests
        ["os_c001_entry"; "os_c002_entry"; "os_c003_entry"; "os_c004_entry"; "os_c005_entry";
         "os_c006_entry"; "os_c007_entry"; "os_c008_entry"; "os_c009_entry"; "os_c010_entry";
         "os_c011_entry"; "os_c012_entry"; "os_c013_entry"; "os_c014_entry"; "os_c015_entry";
         "os_c016_entry"; "os_c017_entry"; "os_c018_entry"; "os_c019_entry"; "os_c020_entry"]
        num_pe status
    else ret status in
  let* hyp := need (g_sw_view !! Z.to_nat G_SW_HYP) in
  let* status :=
    if truthy hyp then
      val_print ACS_PRINT_ERR "\nHypervisor:\n" 0 ;;
      run_tests
        ["hyp_c001_entry"; "hyp_c002_entry"; "hyp_c003_entry"; "hyp_c004_entry";
         "hyp_c005_entry"] num_pe status
    else ret status in
  let* ps := need (g_sw_view !! Z.to_nat G_SW_PS) in
  let* status :=
    if truthy ps then
      val_print ACS_PRINT_ERR "\nPlatform Security:\n" 0 ;;
      run_tests ["ps_c001_entry"] num_pe status
    else ret status in
  (if negb (status =? ACS_STATUS_PASS) then
     val_print ACS_PRINT_TEST "\n      *** One or more tests have Failed/Skipped.*** \n" 0
   else
     val_print ACS_PRINT_TEST "\n      All PE tests have passed!! \n" 0) ;;
  ret status.

(** ** Correctness *)

(** What the platform promises of the table: it holds the entries it counts, each
    numbered by its place, and no two have the same affinity. *)
Record pe_table_wf (t : PE_INFO_TABLE) : Prop := {
  pe_wf_count : num_of_pe t = Z.of_nat (length (pe_info t));
  pe_wf_num : forall i e, pe_info t !! i = Some e -> pe_num e = Z.of_nat i;
  pe_wf_mpidr : NoDup (pe_mpidr <$> pe_info t)
}.

Lemma val_pe_get_mpid_reads_mpidr :
  val_pe_get_mpid =
  (let* data := val_pe_reg_read MPIDR_EL1 in ret (Z.land data MPIDR_AFF_MASK)).
Proof. reflexivity. Qed.

Lemma eval_val_pe_get_num t (w : world D) :
  g_pe_info_table w = Some t -> eval val_pe_get_num w (num_of_pe t) w.
Proof. intros Ht. unfold eval, val_pe_get_num. wp_steps. by rewrite Ht. Qed.

Lemma eval_val_pe_get_mpid_index t i e (w : world D) :
  g_pe_info_table w = Some t -> pe_info t !! i = Some e -> Z.of_nat i <= num_of_pe t ->
  eval (val_pe_get_mpid_index (Z.of_nat i)) w (pe_mpidr e) w.
Proof.
  intros Ht He Hi. unfold eval, val_pe_get_mpid_index. wp_steps. rewrite Ht. wp_steps.
  apply wp_ret. destruct (Z.ltb_spec (num_of_pe t) (Z.of_nat i)); [lia|].
  rewrite Nat2Z.id, He. by repeat apply wp_ret.
Qed.

(** The search by affinity: the entry number of the first match, else 0. *)
Lemma eval_val_pe_get_index_mpid t mpid (w : world D) :
  g_pe_info_table w = Some t -> (Z.to_nat (num_of_pe t) <= length (pe_info t))%nat ->
  eval (val_pe_get_index_mpid mpid) w
    (match List.find (fun e => pe_mpidr e =? mpid)
             (take (Z.to_nat (num_of_pe t)) (pe_info t)) with
     | Some e => pe_num e | None => 0 end) w.
Proof.
  intros Ht Hn. unfold val_pe_get_index_mpid.
  eapply eval_bind; [by apply eval_gets|]. eapply eval_bind; [by apply eval_need|].
  eapply eval_bind.
  - apply (eval_for_find (pe_info t) (fun e => pe_mpidr e =? mpid) pe_num); [done|].
    intros k e He _. rewrite Nat2Z.id, He. by repeat split.
  - by destruct (List.find _ _).
Qed.

Lemma find_mpidr t i e :
  pe_table_wf t -> pe_info t !! i = Some e ->
  List.find (fun x => pe_mpidr x =? pe_mpidr e) (pe_info t) = Some e.
Proof.
  intros Hwf He. pose proof (pe_wf_mpidr t Hwf) as Hnd. revert i He Hnd.
  generalize (pe_info t) as l. induction l as [|x l IH]; intros [|i] He Hnd; simplify_eq/=.
  - by rewrite Z.eqb_refl.
  - apply NoDup_cons in Hnd as [Hx Hnd]. destruct (Z.eqb_spec (pe_mpidr x) (pe_mpidr e)) as [Heq|].
    + destruct Hx. rewrite Heq. apply list_elem_of_fmap. exists e. split; [done|].
      by eapply list_elem_of_lookup_2.
    + by eapply IH.
Qed.

(** on a well-formed PE table, looking up the affinity of PE [i] and then the
    index of that affinity gives [i] back, without printing or changing state. *)
Theorem pe_index_roundtrip t i e (w : world D) :
  pe_table_wf t -> g_pe_info_table w = Some t -> pe_info t !! i = Some e ->
  eval (let* mpid := val_pe_get_mpid_index (Z.of_nat i) in val_pe_get_index_mpid mpid)
    w (Z.of_nat i) w.
Proof.
  intros Hwf Ht He. pose proof (lookup_lt_Some _ _ _ He) as Hlt.
  pose proof (pe_wf_count t Hwf) as Hc.
  eapply eval_bind; [eapply eval_val_pe_get_mpid_index; [done..|lia]|].
  pose proof (eval_val_pe_get_index_mpid t (pe_mpidr e) w Ht ltac:(lia)) as Hx.
  rewrite take_ge, (find_mpidr t i e) in Hx by (done || lia).
  by rewrite (pe_wf_num t Hwf i e He) in Hx.
Qed.
End pe.
