(* ===== verification/TestInfra.v ===== *)
(** * Running a test on every PE

    src/val/src/acs_test_infra.c (starting a test, handing its payload to the
    other PEs, waiting for them, and turning their reports into a verdict), the
    operations of src/val/src/acs_pe_infra.c that start or stop code on a PE, and
    the synchronous exception handler. *)

From S2P Require Import Prelude Types World Status PeInfra Machine.
#[local] Open Scope c_scope.

(** A function pointer: its address, which is what is stored in memory and handed
    to firmware, and what a call through it does. *)
Record code (D : Type) := Code { code_addr : Z; code_body : M (world D) () }.
Arguments Code {D}.
Arguments code_addr {D}.
Arguments code_body {D}.

Section infra.
Context {D : Type} `{Platform D}.

#[local] Abbreviation M := (M (world D)).

(** ** Test data in the shared memory *)

Definition val_set_test_data (index addr test_data : Z) : M () :=
  let* n := val_pe_get_num in
  if n <? index then val_print ACS_PRINT_ERR "\n Incorrect PE index = %d" index
  else
    shared_store index (fun m => mkShared addr test_data (sh_status m)) ;;
    let* base := shared_base in
    val_data_cache_ops_by_va (shared_field base index 0) CLEAN_AND_INVALIDATE ;;
    val_data_cache_ops_by_va (shared_field base index 8) CLEAN_AND_INVALIDATE.

(** [None]: [*data0] and [*data1] are not written. *)
Definition val_get_test_data (index : Z) : M (option (Z * Z)) :=
  let* n := val_pe_get_num in
  if n <? index then
    val_print ACS_PRINT_ERR "\n Incorrect PE index = %d" index ;;
    ret None
  else
    let* base := shared_base in
    val_data_cache_ops_by_va (shared_field base index 0) INVALIDATE ;;
    val_data_cache_ops_by_va (shared_field base index 8) INVALIDATE ;;
    let* m := shared_load index in
    ret (Some (sh_data0 m, sh_data1 m)).

(** A fresh block holds whatever its memory held. *)
Definition shared_contents (base num_pe : Z) : M (list VAL_SHARED_MEM_t) :=
  for_acc (Z.to_nat num_pe) 0 (fun i mem =>
    let* d0 := from_dev (dev_read 8 (shared_field base i 0)) in
    let* d1 := from_dev (dev_read 8 (shared_field base i 8)) in
    let* st := from_dev (dev_read 4 (shared_field base i 16)) in
    ret (mem ++ [mkShared d0 d1 st])) [].

Definition pal_mem_allocate_shared (num_pe sizeofentry : Z) : M () :=
  modify (set_gSharedMemory None) ;;
  let* heap0 := gets heap in
  let size := num_pe * sizeofentry in
  let* r := from_dev (bs_allocate_pool (u32 size) heap0) in
  (match r with
   | inl Status =>
       bsa_print ACS_PRINT_INFO "Shared memory is %llx \n" 0 ;;
       bsa_print ACS_PRINT_ERR "Allocate Pool shared memory failed %x \n" Status
   | inr p =>
       let* mem := shared_contents p num_pe in
       modify (set_gSharedMemory (Some (p, mem))) ;;
       bsa_print ACS_PRINT_INFO "Shared memory is %llx \n" p
   end) ;;
  val_data_cache_ops_by_va (symbol "gSharedMemory") CLEAN_AND_INVALIDATE.

Definition val_allocate_shared_mem : M () :=
  let* n := val_pe_get_num in
  pal_mem_allocate_shared n sizeof_VAL_SHARED_MEM_t.

(** The pointer itself keeps its value; what it points at is gone. *)
Definition val_free_shared_mem : M () :=
  let* m := gets gSharedMemory in
  let base := match m with Some (p, _) => p | None => 0 end in
  on_dev (bs_free_pool base) ;;
  modify (fun w => set_gSharedMemory (option_map (fun m => (fst m, [])) (gSharedMemory w)) w).

(** ** Exceptions (bsa_exception.c, acs_pe_infra.c) *)

Definition val_gic_bsa_install_esr (exception_type esr : Z) : M () :=
  let* l := gets g_esr_handler in
  let* _ := need (l !! Z.to_nat exception_type) in
  modify (set_g_esr_handler (<[Z.to_nat exception_type := esr]> l)).

Definition val_pe_install_esr (exception_type esr : Z) : M Z :=
  if 3 <? exception_type then
    val_print ACS_PRINT_ERR "Invalid Exception type %x \n" exception_type ;;
    ret ACS_STATUS_ERR
  else
    val_gic_bsa_install_esr exception_type esr ;;
    ret 0.

Definition val_pe_initialize_default_exception_handler (esr : Z) : M () :=
  val_pe_install_esr EXCEPT_AARCH64_SYNCHRONOUS_EXCEPTIONS esr ;;
  ret tt.

Definition val_pe_update_elr (offset : Z) : M () :=
  on_dev (write_sysreg "bsa_gic_update_elr" offset).

Definition val_pe_default_esr : M () :=
  let* mpid := val_pe_get_mpid in
  let* index := val_pe_get_index_mpid mpid in
  val_print ACS_PRINT_WARN "\n        Unexpected exception occured" 0 ;;
  let* far := from_dev (read_sysreg "bsa_gic_get_far") in
  val_print ACS_PRINT_WARN "\n        FAR reported = 0x%llx" far ;;
  let* esr := from_dev (read_sysreg "bsa_gic_get_esr") in
  val_print ACS_PRINT_WARN "\n        ESR reported = 0x%llx" esr ;;
  val_set_status index (RESULT_FAIL 0 0x1) ;;
  let* elr := gets g_exception_ret_addr in
  val_pe_update_elr elr.

(** The stack lies outside the program's own allocations. *)
Definition val_pe_context_save (sp elr : Z) : M () :=
  modify (set_g_stack_pointer sp) ;;
  modify (set_g_exception_ret_addr elr) ;;
  let* sp := gets g_stack_pointer in
  let* v := from_dev (dev_read 8 (u64 (sp + 8))) in
  modify (set_g_ret_addr v).

Definition val_pe_context_restore (sp : Z) : M () :=
  let* sp := gets g_stack_pointer in
  let* v := gets g_ret_addr in
  on_dev (dev_write 8 (u64 (sp + 8)) v).

(** ** Code on another PE (acs_pe_infra.c, pal_pe.c) *)

Definition pal_pe_execute_payload : M () :=
  let* a := gets g_smc_args in
  modify (set_g_smc_args (mkSmc (Arg0 a) (Arg1 a) (symbol "ModuleEntryPoint") (Arg3 a) (Arg4 a)
                            (Arg5 a) (Arg6 a) (Arg7 a))) ;;
  let* a := gets g_smc_args in
  let* a := pal_pe_call_smc a in
  modify (set_g_smc_args a).

(** What a secondary PE runs: the payload left for it, then CPU_OFF. The other
    arguments of the call are uninitialised; the call ignores them. *)
Definition val_test_entry (call : Z -> Z -> M ()) : M () :=
  let* mpid := val_pe_get_mpid in
  let* index := val_pe_get_index_mpid mpid in
  let* r := val_get_test_data index in
  let* ' (vector, test_arg) := need r in
  call vector test_arg ;;
  let* mpid := val_pe_get_mpid in
  pal_pe_call_smc (mkSmc ARM_SMC_ID_PSCI_CPU_OFF mpid 0 0 0 0 0 0) ;;
  ret tt.

Definition val_execute_on_pe (fuel : nat) (index payload test_input : Z) : M () :=
  let* t := gets g_pe_info_table in
  let* t := need t in
  if num_of_pe t <? index then
    val_print ACS_PRINT_ERR "Input Index exceeds Num of PE %x \n" index ;;
    val_report_status index (RESULT_FAIL 0 0xFF)
  else
  while_ fuel (fun timeout =>
    let* a := gets g_smc_args in
    modify (set_g_smc_args (mkSmc ARM_SMC_ID_PSCI_CPU_ON_AARCH64 (Arg1 a) (Arg2 a) (Arg3 a)
                              (Arg4 a) (Arg5 a) (Arg6 a) (Arg7 a))) ;;
    let* mpid := val_pe_get_mpid_index index in
    let* a := gets g_smc_args in
    modify (set_g_smc_args (mkSmc (Arg0 a) mpid (Arg2 a) (Arg3 a) (Arg4 a) (Arg5 a) (Arg6 a)
                              (Arg7 a))) ;;
    val_set_test_data index payload test_input ;;
    pal_pe_execute_payload ;;
    let* a := gets g_smc_args in
    ret (if (Arg0 a =? u64 ARM_SMC_PSCI_RET_ALREADY_ON) && truthy timeout
         then Continue (timeout - 1) else Break tt)) TIMEOUT_LARGE ;;
  let* a := gets g_smc_args in
  let fail :=
    let* code := int_ok (0x120 - s32 (Arg0 a)) in
    val_set_status index (RESULT_FAIL 0 code) in
  if Arg0 a =? u64 ARM_SMC_PSCI_RET_ALREADY_ON then
    val_print ACS_PRINT_ERR "       PSCI_CPU_ON: cpu already on  \n" 0 ;; fail
  else if Arg0 a =? 0 then
    val_print ACS_PRINT_INFO "       PSCI_CPU_ON: success  \n" 0
  else
    val_print ACS_PRINT_ERR "       PSCI_CPU_ON: failure[%d]  \n" (Arg0 a) ;; fail.

(** [line_length = 2 << DminLine]; the sum and the step are 64-bit. *)
Definition val_pe_cache_clean_range (fuel : nat) (start_addr length : Z) : M () :=
  let* ctr := val_pe_reg_read CTR_EL0 in
  let line_length := Z.shiftl 2 (Z.land (Z.shiftr ctr 16) 0xf) in
  let aligned_addr := u64 (start_addr - Z.land start_addr (line_length - 1)) in
  let end_addr := u64 (start_addr + length) in
  while_ fuel (fun aligned_addr =>
    if aligned_addr <? end_addr then
      val_data_cache_ops_by_va aligned_addr CLEAN ;;
      ret (Continue (u64 (aligned_addr + line_length)))
    else ret (Break tt)) aligned_addr.

(** ** A test, from start to verdict (acs_test_infra.c) *)

Definition val_initialize_test (test_num : Z) (desc : string) (num_pe : Z) : M Z :=
  let* mpid := val_pe_get_mpid in
  let* index := val_pe_get_index_mpid mpid in
  val_print ACS_PRINT_ERR "%4d : " test_num ;;
  val_print ACS_PRINT_TEST desc 0 ;;
  val_report_status 0 (BSA_ACS_START test_num) ;;
  val_pe_initialize_default_exception_handler (symbol "val_pe_default_esr") ;;
  modify (fun w => set_g_bsa_tests_total (u32 (g_bsa_tests_total w + 1)) w) ;;
  for_each (Z.to_nat num_pe) 0 (fun i => val_set_status i (RESULT_PENDING test_num)) ;;
  let* skip := user_skips test_num in
  if skip then
    val_print ACS_PRINT_TEST "\n       USER OVERRIDE  - Skip Test        " 0 ;;
    val_set_status index (RESULT_SKIP test_num 0) ;;
    ret ACS_STATUS_SKIP
  else ret ACS_STATUS_PASS.

(** The last PE still pending, plus one; 0 when none is. *)
Definition scan_pending (num_pe : Z) : M Z :=
  for_acc (Z.to_nat num_pe) 0 (fun i j =>
    let* s := val_get_status i in
    ret (if IS_RESULT_PENDING s then i + 1 else j)) 0.

(** The loop leaves with [None] when every PE has reported, with the last [j]
    when the count reaches zero. *)
Definition val_wait_for_test_completion (fuel : nat) (test_num num_pe timeout : Z) : M () :=
  if num_pe =? 1 then ret tt else
  let* r := while_ fuel (fun '(timeout, j) =>
    let timeout := u32 (timeout - 1) in
    if timeout =? 0 then ret (Break (Some j))
    else
      let* j := scan_pending num_pe in
      ret (if j =? 0 then Break None else Continue (timeout, j))) (timeout, 0) in
  match r with
  | None => ret tt
  | Some j => val_set_status (u32 (j - 1)) (RESULT_FAIL test_num 0xF)
  end.

Definition val_run_test_payload (fuel : nat) (test_num num_pe : Z) (payload : code D)
    (test_input : Z) : M () :=
  let* mpid := val_pe_get_mpid in
  let* my_index := val_pe_get_index_mpid mpid in
  code_body payload ;;
  if num_pe =? 1 then ret tt else
  for_each (Z.to_nat num_pe) 0 (fun i =>
    when negb (i =? my_index) then val_execute_on_pe fuel i (code_addr payload) test_input) ;;
  val_wait_for_test_completion fuel test_num num_pe TIMEOUT_LARGE.

(** The common tail of the two paths of [val_check_for_error]. *)
Definition verdict (status : Z) : M Z :=
  if IS_TEST_PASS status then
    modify (fun w => set_g_bsa_tests_pass (u32 (g_bsa_tests_pass w + 1)) w) ;;
    ret ACS_STATUS_PASS
  else if IS_TEST_SKIP status then ret ACS_STATUS_SKIP
  else
    modify (fun w => set_g_bsa_tests_fail (u32 (g_bsa_tests_fail w + 1)) w) ;;
    ret ACS_STATUS_FAIL.

Definition val_check_for_error (test_num num_pe : Z) : M Z :=
  let* mpid := val_pe_get_mpid in
  let* my_index := val_pe_get_index_mpid mpid in
  if num_pe =? 1 then
    let* status := val_get_status my_index in
    val_report_status my_index status ;;
    verdict status
  else
    let* r := for_ (Z.to_nat num_pe) 0 (fun i status =>
      let* status := val_get_status i in
      if IS_TEST_FAIL_SKIP status then
        val_report_status i status ;;
        ret (Break status)
      else ret (Continue status)) 0 in
    match r with
    | Break status => verdict status
    | Continue status => val_report_status my_index status ;; verdict status
    end.

(** ** Small helpers *)

Definition val_debug_brk (data : Z) : M () := on_dev (dev_write 8 0x9000F000 data).

(** ** Correctness *)

(** Only the device and the shared memory, which the other PEs share, differ. *)
Definition only_pes (w w' : world D) : Prop :=
  exists d m, w' = set_gSharedMemory m (set_dev d w).

Lemma only_pes_refl w : only_pes w w.
Proof. by exists (dev w), (gSharedMemory w); destruct w. Qed.
Lemma only_pes_trans w1 w2 w3 : only_pes w1 w2 -> only_pes w2 w3 -> only_pes w1 w3.
Proof. intros (d & m & ->) (d' & m' & ->). by exists d', m'. Qed.
Lemma only_pes_dev w d : only_pes w (set_dev d w).
Proof. by exists d, (gSharedMemory w); destruct w. Qed.
#[local] Hint Resolve only_pes_refl only_pes_dev : core.

Definition status_at (mem : list VAL_SHARED_MEM_t) (i : nat) : Z :=
  match mem !! i with Some m => u32 (sh_status m) | None => 0 end.

Definition reported (mem : list VAL_SHARED_MEM_t) (i : nat) : Prop :=
  IS_RESULT_PENDING (status_at mem i) = false.

Lemma status_at_lookup mem i m : mem !! i = Some m -> status_at mem i = u32 (sh_status m).
Proof. unfold status_at. by intros ->. Qed.

(** *** What the other PEs may do

    Three promises, from the weakest. A PE that has reported does not make its slot pending
    again. *)
Definition onward (mem mem' : list VAL_SHARED_MEM_t) : Prop :=
  length mem' = length mem /\
  forall i, (i < length mem)%nat -> reported mem i -> reported mem' i.

Class KeepReports : Prop := keep_reports : forall mem d, onward mem (fst (other_pes mem d)).

(** A PE stores one report: [ended d i] says that PE [i] has no report to come, because it
    has made it or does not run the test. A slot only changes by the one report of its PE,
    whatever it holds, a failure somebody else stored in it included. *)
Class OneReport : Type := {
  ended : D -> nat -> Prop;
  ended_sysreg : forall r d i, ended d i -> ended (snd (read_sysreg r d)) i;
  ended_cache : forall a k d i, ended d i -> ended (cache_op a k d) i;
  one_report : forall mem d,
    let '(mem', d') := other_pes mem d in
    length mem' = length mem /\
    forall i, (ended d i -> ended d' i) /\
      (status_at mem' i = status_at mem i \/ ~ ended d i /\ ended d' i /\ reported mem' i)
}.

(** For the tests on one PE, where nobody stores in the slot of a PE but that PE itself: a
    slot that is not pending is left alone. *)
Definition later (mem mem' : list VAL_SHARED_MEM_t) : Prop :=
  length mem' = length mem /\
  forall i m m', mem !! i = Some m -> mem' !! i = Some m' ->
    IS_RESULT_PENDING (u32 (sh_status m)) = false -> sh_status m' = sh_status m.

Class ReportOnce : Prop := report_once : forall mem d, later mem (fst (other_pes mem d)).

Lemma later_refl mem : later mem mem.
Proof. split; [done|]. intros. by simplify_eq. Qed.
Lemma later_trans m1 m2 m3 : later m1 m2 -> later m2 m3 -> later m1 m3.
Proof.
  intros [L1 H1] [L2 H2]. split; [congruence|]. intros i a c Ha Hc Hp.
  destruct (lookup_lt_is_Some_2 m2 i) as [b Hb].
  { rewrite L1. by eapply lookup_lt_Some. }
  pose proof (H1 i a b Ha Hb Hp) as Hab. rewrite <- Hab.
  apply (H2 i b c Hb Hc). by rewrite Hab.
Qed.

Lemma later_status mem mem' i :
  later mem mem' -> (i < length mem)%nat -> reported mem i -> status_at mem' i = status_at mem i.
Proof.
  intros [Hl Hs] Hi Hr. destruct (lookup_lt_is_Some_2 mem i Hi) as [m Hm].
  destruct (lookup_lt_is_Some_2 mem' i) as [m' Hm']; [lia|].
  unfold reported in Hr. rewrite (status_at_lookup mem i m Hm) in Hr.
  by rewrite (status_at_lookup mem i m Hm), (status_at_lookup mem' i m' Hm'), (Hs i m m').
Qed.

(** The slots and the device, as the other PEs take them from one look to a later one. *)
Abbreviation pes := (list VAL_SHARED_MEM_t * D)%type.

Class Others (R : relation pes) : Prop := {
  others_preorder :: PreOrder R;
  others_sysreg : forall r mem d, R (mem, d) (mem, snd (read_sysreg r d));
  others_cache : forall a k mem d, R (mem, d) (mem, cache_op a k d);
  others_run : forall mem d, R (mem, d) (other_pes mem d);
  others_onward : forall p q, R p q -> onward (fst p) (fst q)
}.

Lemma onward_refl mem : onward mem mem.
Proof. by split. Qed.

Lemma onward_trans m1 m2 m3 : onward m1 m2 -> onward m2 m3 -> onward m1 m3.
Proof. intros [L1 H1] [L2 H2]. split; [congruence|]. intros i Hi Hr. apply H2; [lia|auto]. Qed.

Definition by_slots (P : relation (list VAL_SHARED_MEM_t)) : relation pes := fun p q => P (fst p) (fst q).

#[export] Instance others_keep `{!KeepReports} : Others (by_slots onward).
Proof.
  unfold by_slots. split; [split|..].
  - intros p. apply onward_refl.
  - intros p q r. apply onward_trans.
  - intros. apply onward_refl.
  - intros. apply onward_refl.
  - apply keep_reports.
  - done.
Qed.

#[export] Instance report_once_keeps `{!ReportOnce} : KeepReports.
Proof.
  intros mem d. pose proof (report_once mem d) as Hl. split; [apply Hl|].
  intros i Hi Hr. unfold reported. by rewrite (later_status mem).
Qed.

#[export] Instance others_once `{!ReportOnce} : Others (by_slots later).
Proof.
  unfold by_slots. split; [split|..].
  - intros p. apply later_refl.
  - intros p q r. apply later_trans.
  - intros. apply later_refl.
  - intros. apply later_refl.
  - apply report_once.
  - intros p q Hl. split; [apply Hl|]. intros i Hi Hr. unfold reported. by rewrite (later_status (fst p)).
Qed.

(** From [p] to [q] the slot of PE [i] is as it was or holds the report of the PE. *)
Definition reporting `{!OneReport} (p q : pes) : Prop :=
  length (fst q) = length (fst p) /\
  forall i, (ended (snd p) i -> ended (snd q) i) /\
    (status_at (fst q) i = status_at (fst p) i \/
     ~ ended (snd p) i /\ ended (snd q) i /\ reported (fst q) i).

#[export] Instance reporting_preorder `{!OneReport} : PreOrder reporting.
Proof.
  split.
  - intros p. split; [done|]. auto.
  - intros p q r [L1 H1] [L2 H2]. split; [congruence|]. intros i.
    destruct (H1 i) as [E1 S1], (H2 i) as [E2 S2]. split; [auto|].
    unfold reported in *. destruct S2 as [->|(N2 & Hr & Hrep)].
    + destruct S1 as [->|(N1 & Hq & Hrep)]; [by left|]. right. auto.
    + right. auto.
Qed.

#[export] Instance others_report `{!OneReport} : Others reporting.
Proof.
  split; [apply _|..].
  - intros r mem d. split; [done|]. intros i. split; [apply ended_sysreg|by left].
  - intros a k mem d. split; [done|]. intros i. split; [apply ended_cache|by left].
  - intros mem d. unfold reporting. pose proof (one_report mem d) as Ho.
    by destruct (other_pes mem d).
  - intros p q [Hl Hs]. split; [done|]. intros i Hi Hr. unfold reported in *.
    destruct (Hs i) as [_ [->|(_ & _ & Hrep)]]; done.
Qed.

(** The view a run has of the world: the shared memory, and the rest unchanged. *)
Record view (w0 : world D) (base : Z) (mem : list VAL_SHARED_MEM_t) (w : world D) : Prop := {
  view_mem : gSharedMemory w = Some (base, mem);
  view_rest : only_pes w0 w
}.

Lemma view_start base mem w : gSharedMemory w = Some (base, mem) -> view w base mem w.
Proof. by split. Qed.

(** *** Waiting and checking, whatever the other PEs promise *)

Section others.
Context (R : relation pes) `{!Others R}.

Lemma others_length mem d mem' d' : R (mem, d) (mem', d') -> length mem' = length mem.
Proof. intros HR. apply (others_onward _ _ HR). Qed.

Lemma others_reported mem d mem' d' i :
  R (mem, d) (mem', d') -> (i < length mem)%nat -> reported mem i -> reported mem' i.
Proof. intros HR. apply (others_onward _ _ HR). Qed.

(** Reading a status under concurrent reporting. *)
Lemma wp_get_status_others w0 base mem i w (Q : Z -> world D -> Prop) :
  view w0 base mem w -> (i < length mem)%nat ->
  (forall mem' w', R (mem, dev w) (mem', dev w') -> view w0 base mem' w' -> Q (status_at mem' i) w') ->
  wp (val_get_status (Z.of_nat i)) w Q.
Proof.
  intros [Hm Hr] Hi HQ. set (d := cache_op (shared_field base (Z.of_nat i) 16) INVALIDATE (dev w)).
  assert (Hl : R (mem, dev w) (other_pes mem d)) by (etransitivity; [apply others_cache|apply others_run]).
  destruct (other_pes mem d) as [mem' d'] eqn:Eo.
  destruct (lookup_lt_is_Some_2 mem' i) as [m Hlk]; [by rewrite (others_length _ _ _ _ Hl)|].
  eapply wp_val_get_status; [done|]. cbn zeta. fold d. rewrite Eo. split; [exact Hlk|].
  rewrite <- (status_at_lookup _ _ _ Hlk). apply HQ; [exact Hl|].
  split; [done|]. eapply only_pes_trans; [exact Hr|]. by eexists _, _.
Qed.

(** One scan: either every PE has reported by its end, or the result names (plus
    one) a PE of the range. *)
Lemma wp_scan_pending w0 base mem num_pe w (Q : Z -> world D -> Prop) :
  view w0 base mem w -> 0 <= num_pe <= Z.of_nat (length mem) ->
  (forall j mem' w', R (mem, dev w) (mem', dev w') -> view w0 base mem' w' ->
     (j = 0 /\ (forall i, (i < Z.to_nat num_pe)%nat -> reported mem' i)) \/ 1 <= j <= num_pe ->
     Q j w') ->
  wp (scan_pending num_pe) w Q.
Proof.
  intros Hv Hn HQ. unfold scan_pending.
  apply (wp_for_acc (fun i j s => exists mem', R (mem, dev w) (mem', dev s) /\ view w0 base mem' s /\
    ((j = 0 /\ (forall k, (k < Z.to_nat i)%nat -> reported mem' k)) \/ 1 <= j <= i))).
  - exists mem. split; [reflexivity|]. split; [done|]. left. split; [done|]. lia.
  - intros i j s Hi (mem' & Hl & Hv' & Hj). pose proof (others_length _ _ _ _ Hl) as Hlen.
    apply wp_bind. replace i with (Z.of_nat (Z.to_nat i)) at 1 by lia.
    apply (wp_get_status_others w0 base mem'); [done|lia|].
    intros mem2 s2 Hl2 Hv2. apply wp_ret. exists mem2.
    split; [by etransitivity|]. split; [done|].
    destruct (IS_RESULT_PENDING (status_at mem2 (Z.to_nat i))) eqn:Hp; [right; lia|].
    destruct Hj as [[-> Hk]|]; [|right; lia]. left. split; [done|]. intros k Hki.
    destruct (decide (k = Z.to_nat i)) as [->|]; [done|].
    eapply others_reported; [done|lia|apply Hk; lia].
  - intros j s (mem' & Hl & Hv' & Hj). eapply HQ; [done..|].
    destruct Hj as [[-> Hk]|]; [left; split; [done|]; intros; apply Hk; lia|right; lia].
Qed.

(** The wait ends with every PE having reported, or at the timeout, when the slot of one PE
    is made a failure with code 0xF. *)
Lemma wp_wait fuel test_num num_pe timeout base mem w (Q : () -> world D -> Prop) :
  gSharedMemory w = Some (base, mem) ->
  1 < num_pe <= Z.of_nat (length mem) -> num_pe < 2 ^ 32 ->
  2 <= timeout < 2 ^ 32 -> (Z.to_nat timeout <= fuel)%nat ->
  (forall mem' w', R (mem, dev w) (mem', dev w') -> view w base mem' w' ->
     (forall i, (i < Z.to_nat num_pe)%nat -> reported mem' i) -> Q tt w') ->
  (forall mem' w' j m, R (mem, dev w) (mem', dev w') -> view w base mem' w' ->
     (j < Z.to_nat num_pe)%nat -> mem' !! j = Some m ->
     forall w2, view w base (<[j := mkShared (sh_data0 m) (sh_data1 m) (RESULT_FAIL test_num 0xF)]> mem') w2 ->
     (forall i, R (i, dev w') (i, dev w2)) -> Q tt w2) ->
  wp (val_wait_for_test_completion fuel test_num num_pe timeout) w Q.
Proof.
  intros Hm Hn Hn32 Ht Hf Hall Hout. unfold val_wait_for_test_completion.
  destruct (Z.eqb_spec num_pe 1); [lia|]. apply wp_bind.
  apply (wp_while (fun '(t, j) s => exists mem', view w base mem' s /\ R (mem, dev w) (mem', dev s) /\
      (1 <= t < 2 ^ 32) /\ 0 <= j <= num_pe /\ (t = timeout \/ 1 <= j))
    (fun '(t, _) _ => Z.to_nat (t - 1))); [|lia|].
  - exists mem. split; [by apply view_start|]. split; [reflexivity|]. lia.
  - intros [t j] s (mem' & Hv & Hl & Htt & Hj & Hjt). pow2. pose proof (others_length _ _ _ _ Hl) as Hlen.
    rewrite (u32_id (t - 1)) by (unfold fits; pow2; lia).
    destruct (Z.eqb_spec (t - 1) 0).
    + wp_step. rewrite (u32_id (j - 1)) by (unfold fits; pow2; lia).
      destruct (lookup_lt_is_Some_2 mem' (Z.to_nat (j - 1))) as [m Hlk]; [lia|].
      replace (j - 1) with (Z.of_nat (Z.to_nat (j - 1))) by lia.
      eapply wp_val_set_status; [apply Hv|exact Hlk|].
      eapply (Hout mem' s (Z.to_nat (j - 1)) m); [done..|lia|done| |].
      * split; [done|]. eapply only_pes_trans; [apply Hv|]. by eexists _, _.
      * intros i. apply others_cache.
    + wp_step. apply (wp_scan_pending w base mem'); [done|lia|].
      intros j' mem2 s2 Hl2 Hv2 Hj'. assert (R (mem, dev w) (mem2, dev s2)) by (by etransitivity).
      apply wp_ret. destruct Hj' as [[-> Hr]|Hj']; [by apply wp_ret, (Hall mem2)|].
      destruct (Z.eqb_spec j' 0); [lia|]. split; [|lia]. exists mem2. split; [done|]. split; [done|]. lia.
Qed.

(** [s] was the status of PE [k] at some look between [p] and [q]. *)
Definition seen (p q : pes) (k : nat) (s : Z) : Prop :=
  exists a, R p a /\ R a q /\ status_at (fst a) k = s.

(** What the scan for failures has seen when it ends. *)
Definition scanned (p q : pes) (n : nat) (r : ctl Z Z) : Prop :=
  match r with
  | Break s => IS_TEST_FAIL_SKIP s = true /\ exists k, (k < n)%nat /\ seen p q k s /\
      forall i, (i < k)%nat -> exists t, seen p q i t /\ IS_TEST_FAIL_SKIP t = false
  | Continue s => (forall i, (i < n)%nat -> exists t, seen p q i t /\ IS_TEST_FAIL_SKIP t = false) /\
      match n with O => s = 0 | S k => seen p q k s end
  end.

Lemma seen_later p q q' k s : seen p q k s -> R q q' -> seen p q' k s.
Proof. intros (a & Hp & Hq & Hs) HR. exists a. split; [done|]. split; [by etransitivity|done]. Qed.

Lemma wp_check_scan w0 base mem n w (Q : ctl Z Z -> world D -> Prop) :
  view w0 base mem w -> (n <= length mem)%nat ->
  (forall r mem' w', R (mem, dev w) (mem', dev w') -> view w0 base mem' w' ->
     scanned (mem, dev w) (mem', dev w') n r -> Q r w') ->
  wp (for_ n 0 (fun i status =>
      let* status := val_get_status i in
      if IS_TEST_FAIL_SKIP status then
        val_report_status i status ;;
        ret (Break status)
      else ret (Continue status)) 0) w Q.
Proof.
  intros Hv Hn HQ.
  apply (wp_for (fun i st s => exists mem', R (mem, dev w) (mem', dev s) /\ view w0 base mem' s /\
    scanned (mem, dev w) (mem', dev s) (Z.to_nat i) (Continue st))).
  - exists mem. split; [reflexivity|]. split; [done|]. split; [lia|done].
  - intros i st s Hi (mem' & Hl & Hv' & Hs & _). pose proof (others_length _ _ _ _ Hl) as Hlen.
    apply wp_bind. replace i with (Z.of_nat (Z.to_nat i)) at 1 by lia.
    apply (wp_get_status_others w0 base mem'); [done|lia|].
    intros mem2 s2 Hl2 Hv2. assert (Hl02 : R (mem, dev w) (mem2, dev s2)) by (by etransitivity).
    assert (Hnow : seen (mem, dev w) (mem2, dev s2) (Z.to_nat i) (status_at mem2 (Z.to_nat i)))
      by (exists (mem2, dev s2); done).
    assert (Hbefore : forall k, (k < Z.to_nat i)%nat -> exists t,
      seen (mem, dev w) (mem2, dev s2) k t /\ IS_TEST_FAIL_SKIP t = false).
    { intros k Hk. destruct (Hs k Hk) as (t & Ht & Hf). exists t. split; [by eapply seen_later|done]. }
    destruct (IS_TEST_FAIL_SKIP (status_at mem2 (Z.to_nat i))) eqn:Hfs.
    + apply wp_bind, wp_val_report_status, wp_ret. eapply HQ; [done..|]. split; [done|].
      exists (Z.to_nat i). split; [lia|done].
    + apply wp_ret. exists mem2. split; [done|]. split; [done|].
      replace (Z.to_nat (i + 1)) with (S (Z.to_nat i)) by lia. split; [|done].
      intros k Hk. destruct (decide (k = Z.to_nat i)) as [->|]; [eauto|]. apply Hbefore. lia.
  - intros st s (mem' & Hl & Hv' & Hs). rewrite Z.add_0_l, Nat2Z.id in Hs. by eapply HQ.
Qed.
End others.

(** When the wait is over: every PE has reported, or one of them has been marked as
    having failed with code 0xF. *)
Definition wait_post (test_num num_pe : Z) (mem : list VAL_SHARED_MEM_t) : Prop :=
  (forall i, (i < Z.to_nat num_pe)%nat -> reported mem i) \/
  (exists i, (i < Z.to_nat num_pe)%nat /\ status_at mem i = RESULT_FAIL test_num 0xF).

Lemma status_at_insert mem i m : (i < length mem)%nat -> status_at (<[i := m]> mem) i = u32 (sh_status m).
Proof. intros Hi. unfold status_at. by rewrite list_lookup_insert_eq. Qed.

(** C6: waiting for completion terminates within [timeout] rounds and leaves the
    shared memory with every PE reported, or the timeout recorded as a failure of
    one of the PEs still pending; nothing but the device and that memory changes. *)
Theorem wait_for_completion_post `{!KeepReports} fuel test_num num_pe timeout base mem w :
  gSharedMemory w = Some (base, mem) ->
  1 < num_pe <= Z.of_nat (length mem) -> num_pe < 2 ^ 32 ->
  2 <= timeout < 2 ^ 32 -> (Z.to_nat timeout <= fuel)%nat ->
  wp (val_wait_for_test_completion fuel test_num num_pe timeout) w (fun _ w' =>
    exists mem', gSharedMemory w' = Some (base, mem') /\ length mem' = length mem /\
      only_pes w w' /\ wait_post test_num num_pe mem').
Proof.
  intros Hm Hn Hn32 Ht Hf. apply (wp_wait (by_slots onward) fuel test_num num_pe timeout base mem); [done..| |].
  - intros mem' w' [Hl _] [Hg Ho] Hall. exists mem'. repeat (split; [done|]). by left.
  - intros mem' w' j m [Hl _] Hv Hj Hlk w2 [Hg Ho] _. eexists. split; [exact Hg|].
    rewrite length_insert. repeat (split; [done|]). right. exists j. split; [done|].
    rewrite status_at_insert by (by eapply lookup_lt_Some). apply u32_id, fits_u32.
Qed.

(** *** Verdicts *)

(** The status word a test is judged by: the first failure or skip in PE order,
    else the word of the last PE. *)
Definition deciding_status (l : list Z) : Z :=
  match List.find IS_TEST_FAIL_SKIP l with Some s => s | None => List.last l 0 end.

Definition verdict_of (status : Z) : Z :=
  if IS_TEST_PASS status then ACS_STATUS_PASS
  else if IS_TEST_SKIP status then ACS_STATUS_SKIP else ACS_STATUS_FAIL.

(** The counter a verdict moves; a skip moves none. *)
Definition count_result (r : Z) (w : world D) : world D :=
  if r =? ACS_STATUS_PASS then set_g_bsa_tests_pass (u32 (g_bsa_tests_pass w + 1)) w
  else if r =? ACS_STATUS_FAIL then set_g_bsa_tests_fail (u32 (g_bsa_tests_fail w + 1)) w
  else w.

(** [w'] is [w] with verdict [r] counted, the other PEs having run meanwhile. *)
Definition counted (r : Z) (w w' : world D) : Prop := only_pes (count_result r w) w'.

(** The running PE's own index: the table bounds are the only requirement. *)
Definition pe_table_ok (w : world D) : Prop :=
  exists t, g_pe_info_table w = Some t /\ (Z.to_nat (num_of_pe t) <= length (pe_info t))%nat.

Lemma only_pes_table w w' : only_pes w w' -> pe_table_ok w -> pe_table_ok w'.
Proof. by intros (d & m & ->). Qed.

Lemma wp_my_index w {A} (k : Z -> M A) (Q : A -> world D -> Prop) :
  pe_table_ok w -> (forall i, wp (k i) (set_dev (snd (read_sysreg "ArmReadMpidr" (dev w))) w) Q) ->
  wp (let* mpid := val_pe_get_mpid in let* i := val_pe_get_index_mpid mpid in k i) w Q.
Proof.
  intros (t & Ht & Hn) Hk. unfold val_pe_get_mpid. wp_steps. apply wp_from_dev. wp_steps.
  eapply wp_eval; [by apply (eval_val_pe_get_index_mpid t)|]. apply Hk.
Qed.

Lemma IS_TEST_FAIL_SKIP_pass s : IS_TEST_FAIL_SKIP s = true -> IS_TEST_PASS s = false.
Proof.
  unfold IS_TEST_FAIL_SKIP, IS_TEST_FAIL, IS_TEST_SKIP, IS_TEST_PASS. intros H1.
  by destruct (Z.eqb_spec (state_of s) TEST_FAIL_VAL) as [->|];
    [|destruct (Z.eqb_spec (state_of s) TEST_SKIP_VAL) as [->|]].
Qed.

Lemma verdict_FAIL_SKIP s : IS_TEST_FAIL_SKIP s = true -> verdict_of s <> ACS_STATUS_PASS.
Proof. intros Hs. unfold verdict_of. rewrite IS_TEST_FAIL_SKIP_pass by done. by destruct (IS_TEST_SKIP s). Qed.

Lemma IS_TEST_FAIL_SKIP_timeout test_num :
  fits 16 test_num -> IS_TEST_FAIL_SKIP (RESULT_FAIL test_num 0xF) = true.
Proof. intros Hn. unfold IS_TEST_FAIL_SKIP, IS_TEST_FAIL. by rewrite state_RESULT_FAIL. Qed.

(** The statuses of the first [n] PEs. *)
Definition statuses (mem : list VAL_SHARED_MEM_t) (n : nat) : list Z :=
  status_at mem <$> seq 0 n.

Lemma statuses_S mem n : statuses mem (S n) = statuses mem n ++ [status_at mem n].
Proof. unfold statuses. by rewrite seq_S, fmap_app. Qed.

Lemma find_none_statuses mem n :
  (forall k, (k < n)%nat -> IS_TEST_FAIL_SKIP (status_at mem k) = false) ->
  List.find IS_TEST_FAIL_SKIP (statuses mem n) = None.
Proof.
  intros Hk. destruct (List.find _ _) as [s|] eqn:Hf; [|done].
  apply List.find_some in Hf as [(k & -> & Hin)%list_elem_of_In%list_elem_of_fmap Hb].
  apply elem_of_seq in Hin. rewrite Hk in Hb; [done|lia].
Qed.

Lemma find_app_cons {A} (p : A -> bool) l x l' :
  List.find p l = None ->
  List.find p (l ++ x :: l') = if p x then Some x else List.find p l'.
Proof. induction l as [|a l IH]; simpl; [done|]. destruct (p a); [done|]. exact IH. Qed.

Lemma verdict_of_cases status :
  verdict_of status = ACS_STATUS_PASS \/ verdict_of status = ACS_STATUS_SKIP \/
  verdict_of status = ACS_STATUS_FAIL.
Proof. unfold verdict_of. destruct (IS_TEST_PASS status), (IS_TEST_SKIP status); auto. Qed.

Lemma wp_verdict status w (Q : Z -> world D -> Prop) :
  Q (verdict_of status) (count_result (verdict_of status) w) -> wp (verdict status) w Q.
Proof.
  unfold verdict, verdict_of.
  destruct (IS_TEST_PASS status); [|destruct (IS_TEST_SKIP status)]; intros HQ; by wp_steps.
Qed.

Lemma counted_from r w0 w w' : only_pes w0 w -> counted r w w' -> counted r w0 w'.
Proof.
  intros (d & m & ->) Hc. eapply only_pes_trans; [|exact Hc]. exists d, m.
  unfold count_result. by repeat case_match.
Qed.

Lemma counted_refl r w : counted r w (count_result r w).
Proof. apply only_pes_refl. Qed.

Lemma count_result_mem r w : gSharedMemory (count_result r w) = gSharedMemory w.
Proof. unfold count_result. by repeat case_match. Qed.

Lemma count_result_dev r w : dev (count_result r w) = dev w.
Proof. unfold count_result. by repeat case_match. Qed.

(** The verdict on several PEs is that of what the scan has seen. *)
Lemma wp_check_for_error (R : relation pes) `{!Others R} test_num num_pe base mem w
    (Q : Z -> world D -> Prop) :
  pe_table_ok w -> gSharedMemory w = Some (base, mem) ->
  1 < num_pe <= Z.of_nat (length mem) ->
  (forall s mem' w', gSharedMemory w' = Some (base, mem') -> R (mem, dev w) (mem', dev w') ->
    scanned R (mem, dev w) (mem', dev w') (Z.to_nat num_pe) s ->
    let st := match s with Break s | Continue s => s end in
    counted (verdict_of st) w w' -> Q (verdict_of st) w') ->
  wp (val_check_for_error test_num num_pe) w Q.
Proof.
  intros Ht Hm Hn HQ. unfold val_check_for_error. apply wp_my_index; [done|]. intros idx.
  destruct (Z.eqb_spec num_pe 1); [lia|]. apply wp_bind.
  set (d := snd (read_sysreg "ArmReadMpidr" (dev w))).
  assert (Hd : R (mem, dev w) (mem, d)) by apply others_sysreg.
  apply (wp_check_scan R w base mem); [by split; [|eauto]|lia|].
  intros r mem' w' Hl [Hm' Hr'] Hs. change (dev (set_dev d w)) with d in *.
  assert (Hs' : scanned R (mem, dev w) (mem', dev w') (Z.to_nat num_pe) r).
  { assert (Hfrom : forall k s, seen R (mem, d) (mem', dev w') k s -> seen R (mem, dev w) (mem', dev w') k s).
    { intros k s (a & Ha & Hb & Hst). exists a. split; [by etransitivity|done]. }
    destruct r as [st|st]; cbn [scanned] in *.
    - destruct Hs as [Hall Hlast]. split; [|by destruct (Z.to_nat num_pe); [|apply Hfrom]].
      intros i Hi. destruct (Hall i Hi) as (t & Hst & Hf). eauto.
    - destruct Hs as (Hf & k & Hk & Hst & Hall). split; [done|]. exists k. split; [done|].
      split; [auto|]. intros i Hi. destruct (Hall i Hi) as (t & Hst' & Hf'). eauto. }
  assert (Hc : forall v, counted v w (count_result v w')).
  { intros v. eapply counted_from; [exact Hr'|apply counted_refl]. }
  assert (Hq : let st := match r with Break s | Continue s => s end in
    Q (verdict_of st) (count_result (verdict_of st) w')).
  { apply (HQ r mem'); rewrite ?count_result_mem, ?count_result_dev; [done| |done|apply Hc].
    by etransitivity. }
  destruct r as [st|st].
  - by apply wp_bind, wp_val_report_status, wp_verdict.
  - by apply wp_verdict.
Qed.

(** A status the result macros can produce. *)
Definition conclusive (s : Z) : Prop :=
  IS_TEST_PASS s = true \/ IS_TEST_FAIL_SKIP s = true.

Lemma deciding_pass l s :
  verdict_of (deciding_status l) = ACS_STATUS_PASS -> s ∈ l -> conclusive s ->
  IS_TEST_PASS s = true.
Proof.
  intros Hv Hs [Hp|Hf]; [done|]. exfalso. unfold deciding_status in Hv.
  destruct (List.find IS_TEST_FAIL_SKIP l) eqn:Hfind.
  - apply List.find_some in Hfind as [_ Hb]. by apply verdict_FAIL_SKIP in Hv.
  - apply List.find_none with (x := s) in Hfind; [congruence|]. by apply list_elem_of_In.
Qed.

Section one_report.
Context `{!OneReport}.

Lemma reporting_frozen p q k :
  reporting p q -> ended (snd p) k -> status_at (fst q) k = status_at (fst p) k.
Proof. intros [_ Hs] He. destruct (Hs k) as [_ [->|(Hn & _)]]; [done|by destruct Hn]. Qed.

Lemma reporting_ended p q k :
  reporting p q -> (reported (fst p) k -> ended (snd p) k) -> reported (fst q) k -> ended (snd q) k.
Proof.
  intros [_ Hs] He Hr. destruct (Hs k) as [Hm [Heq|(_ & Hq & _)]]; [|done].
  apply Hm, He. unfold reported in *. by rewrite <- Heq.
Qed.

(** When no report is to come the scan judges the statuses as they are. *)
Lemma scanned_frozen p q n r :
  (forall k, (k < n)%nat -> ended (snd p) k) -> scanned reporting p q n r ->
  (match r with Break s | Continue s => s end) = deciding_status (statuses (fst p) n).
Proof.
  intros He Hs. assert (Hseen : forall k s, (k < n)%nat -> seen reporting p q k s -> s = status_at (fst p) k).
  { intros k s Hk (a & Ha & _ & <-). by apply reporting_frozen, He. }
  destruct r as [s|s]; cbn [scanned] in Hs; unfold deciding_status.
  - destruct Hs as [Hall Hlast]. rewrite find_none_statuses.
    + destruct n as [|n]; [done|]. rewrite statuses_S, last_last. apply Hseen; [lia|done].
    + intros k Hk. destruct (Hall k Hk) as (t & Ht & Hf). by rewrite <- (Hseen k t).
  - destruct Hs as (Hf & k & Hk & Hst & Hall). pose proof (Hseen k s Hk Hst) as ->.
    unfold statuses. replace n with (k + S (n - S k))%nat by lia.
    rewrite seq_app, fmap_app. cbn [seq fmap list_fmap Nat.add].
    rewrite (find_app_cons _ (status_at (fst p) <$> seq 0 k)); [by rewrite Hf|].
    apply find_none_statuses. intros i Hi. destruct (Hall i Hi) as (t & Ht & Hft).
    rewrite <- (Hseen i t); [done|lia|done].
Qed.

(** C1: the verdict of a test on several PEs, each of which stores one report. The wait ends,
    within the fuel of the timeout, in one of two ways. When every PE has reported, the
    verdict is that of the first failure or skip in the order of the PEs, else that of the
    last PE: a PASS is reported by every PE whose report is one of the result macros'. At the
    timeout the slot of one PE is made a failure, and the verdict is not PASS unless this PE
    stores its report over that failure before the check reads it; then a PASS says nothing
    of the other PEs (see [late_report_passes]). *)
Theorem test_verdict_sound fuel test_num num_pe timeout base mem w :
  pe_table_ok w -> gSharedMemory w = Some (base, mem) ->
  1 < num_pe <= Z.of_nat (length mem) -> num_pe < 2 ^ 32 ->
  2 <= timeout < 2 ^ 32 -> (Z.to_nat timeout <= fuel)%nat -> fits 16 test_num ->
  (forall k, (k < Z.to_nat num_pe)%nat -> reported mem k -> ended (dev w) k) ->
  let n := Z.to_nat num_pe in
  wp (val_wait_for_test_completion fuel test_num num_pe timeout) w (fun _ w1 =>
    exists mem1, gSharedMemory w1 = Some (base, mem1) /\
    wp (val_check_for_error test_num num_pe) w1 (fun r w2 =>
      counted r w w2 /\ exists mem2, gSharedMemory w2 = Some (base, mem2) /\
      ((forall k, (k < n)%nat -> reported mem1 k /\ status_at mem2 k = status_at mem1 k) /\
       r = verdict_of (deciding_status (statuses mem2 n)) /\
       (r = ACS_STATUS_PASS -> forall k, (k < n)%nat ->
          conclusive (status_at mem2 k) -> IS_TEST_PASS (status_at mem2 k) = true) \/
       exists j, (j < n)%nat /\ status_at mem1 j = RESULT_FAIL test_num 0xF /\
         (r = ACS_STATUS_PASS ->
            ~ ended (dev w1) j /\ ended (dev w2) j /\ reported mem2 j /\
            status_at mem2 j <> RESULT_FAIL test_num 0xF)))).
Proof.
  intros Ht Hm Hn Hn32 Hto Hf Hfit Hend n. apply (wp_wait reporting fuel test_num num_pe timeout base mem); [done..| |].
  - intros mem1 w1 Hl [Hg Ho] Hall. exists mem1. split; [done|].
    assert (He : forall k, (k < n)%nat -> ended (dev w1) k).
    { intros k Hk. eapply (reporting_ended _ _ k Hl); [by apply Hend|by apply Hall]. }
    pose proof (others_length _ _ _ _ _ Hl).
    apply (wp_check_for_error reporting test_num num_pe base mem1); [by eapply only_pes_table|done|lia|].
    intros s mem2 w2 Hg2 Hl2 Hs st Hc. split; [by eapply counted_from|]. exists mem2. split; [done|]. left.
    assert (Heq : forall k, (k < n)%nat -> status_at mem2 k = status_at mem1 k).
    { intros k Hk. by apply (reporting_frozen _ _ k Hl2), He. }
    assert (Hst : st = deciding_status (statuses mem2 n)).
    { subst st. rewrite (scanned_frozen (mem1, dev w1) (mem2, dev w2) n s) by done. f_equal.
      apply list_fmap_ext. intros _ k Hk%list_elem_of_lookup_2%elem_of_seq. symmetry. apply Heq. lia. }
    split; [intros k Hk; auto|]. split; [by rewrite Hst|]. rewrite Hst. intros Hr k Hk.
    apply (deciding_pass _ _ Hr). apply list_elem_of_fmap. exists k. split; [done|]. apply elem_of_seq. lia.
  - intros mem' w' j m Hl Hv Hj Hlk w1 [Hg Ho] _. set (mem1 := <[j := _]> mem') in *. exists mem1. split; [done|].
    pose proof (others_length _ _ _ _ _ Hl) as Hlen.
    assert (Hj1 : status_at mem1 j = RESULT_FAIL test_num 0xF).
    { unfold mem1. rewrite status_at_insert by (by eapply lookup_lt_Some). apply u32_id, fits_u32. }
    apply (wp_check_for_error reporting test_num num_pe base mem1); [by eapply only_pes_table|done| |].
    { unfold mem1. rewrite length_insert. lia. }
    intros s mem2 w2 Hg2 Hl2 Hs st Hc. split; [by eapply counted_from|]. exists mem2. split; [done|]. right.
    exists j. split; [done|]. split; [done|]. intros Hr.
    destruct s as [s|s]; [|destruct Hs as [Hs _]; by apply verdict_FAIL_SKIP in Hr].
    destruct (proj1 Hs j Hj) as (t & ([memk dk] & Hk1 & Hk2 & <-) & Hfs). cbn [fst] in Hfs.
    destruct (proj2 Hk1 j) as [_ [Heq|(Hne & Hek & Hrep)]]; cbn [fst snd] in *.
    { rewrite Heq, Hj1, IS_TEST_FAIL_SKIP_timeout in Hfs; done. }
    pose proof (reporting_frozen _ _ j Hk2 Hek) as Hfr. cbn [fst] in Hfr.
    split; [done|]. split; [by apply (proj2 Hk2 j)|]. unfold reported in *. rewrite Hfr. split; [done|].
    intros E. rewrite E, IS_TEST_FAIL_SKIP_timeout in Hfs; done.
Qed.
End one_report.

(** *** Starting code on another PE *)

Definition with_pes (d : D) (a : ARM_SMC_ARGS) (base : Z) (mem : list VAL_SHARED_MEM_t)
    (w : world D) : world D :=
  set_dev d (set_g_smc_args a (set_gSharedMemory (Some (base, mem)) w)).

(** What the firmware may answer to a PSCI call: success or an error number. *)
Definition psci_answer (v : Z) : Prop := v = 0 \/ exists e, 1 <= e <= 9 /\ v = u64 (- e).

(** One PSCI CPU_ON of the PE with affinity [mpidr], whose slot has index [i]: the payload and
    its argument are cleaned to memory, then the call names the PE and the entry point. The
    other arguments are those of the last call. *)
Definition cpu_on (base : Z) (i : nat) (mpidr : Z) (s : ARM_SMC_ARGS * D) : ARM_SMC_ARGS * D :=
  let '(a, d) := s in
  let slot off := shared_field base (Z.of_nat i) off in
  arm_call_smc
    (mkSmc ARM_SMC_ID_PSCI_CPU_ON_AARCH64 mpidr (symbol "ModuleEntryPoint") (Arg3 a) (Arg4 a) (Arg5 a)
       (Arg6 a) (Arg7 a))
    (cache_op (slot 8) CLEAN_AND_INVALIDATE (cache_op (slot 0) CLEAN_AND_INVALIDATE d)).

(** The answer and the device after [n] such calls. *)
Definition cpu_on_calls (base : Z) (i : nat) (mpidr : Z) (w : world D) (n : nat) : ARM_SMC_ARGS * D :=
  Nat.iter n (cpu_on base i mpidr) (g_smc_args w, dev w).

Lemma wp_val_set_test_data t base mem i m addr input w (Q : () -> world D -> Prop) :
  g_pe_info_table w = Some t -> Z.of_nat i <= num_of_pe t ->
  gSharedMemory w = Some (base, mem) -> mem !! i = Some m ->
  Q tt (set_dev (cache_op (shared_field base (Z.of_nat i) 8) CLEAN_AND_INVALIDATE
                  (cache_op (shared_field base (Z.of_nat i) 0) CLEAN_AND_INVALIDATE (dev w)))
     (set_gSharedMemory (Some (base, <[i := mkShared addr input (sh_status m)]> mem)) w)) ->
  wp (val_set_test_data (Z.of_nat i) addr input) w Q.
Proof.
  intros Ht Hi Hs Hm HQ. unfold val_set_test_data, val_pe_get_num, shared_store, shared_base.
  run. rewrite Ht. destruct (Z.ltb_spec (num_of_pe t) (Z.of_nat i)); [lia|].
  run. rewrite Hs. run. rewrite Nat2Z.id, Hm. run. apply HQ.
Qed.

Lemma s32_psci e : 1 <= e <= 9 -> s32 (u64 (- e)) = - e.
Proof.
  intros He. assert (e ∈ [1; 2; 3; 4; 5; 6; 7; 8; 9]) as Hin.
  { rewrite !elem_of_cons. lia. }
  rewrite !elem_of_cons, elem_of_nil in Hin. by repeat destruct Hin as [->|Hin].
Qed.

(** The word a failed CPU_ON leaves. *)
Lemma start_failure_word e :
  1 <= e <= 9 -> IS_TEST_FAIL (RESULT_FAIL 0 (0x120 + e)) = true /\
    Z.land (RESULT_FAIL 0 (0x120 + e)) STATUS_MASK = 0x120 + e.
Proof.
  intros He. assert (fits 12 (0x120 + e)) by (unfold fits; lia). split.
  - unfold IS_TEST_FAIL. by rewrite state_RESULT_FAIL.
  - unfold RESULT_FAIL. rewrite status_word, status_mask_arith by done. unfold fits in *.
    change (0 * 2 ^ 12) with 0. change (TEST_FAIL_VAL * 2 ^ 28) with (TEST_FAIL_VAL * 2 ^ 16 * 2 ^ 12).
    rewrite Z.add_0_r, Z.add_comm, Z_mod_plus_full. by apply Z.mod_small.
Qed.

(** The first answer other than ALREADY_ON, or that of the last call, decides. *)
Definition handed (base : Z) (i : nat) (mpidr payload input : Z) (mem : list VAL_SHARED_MEM_t)
    (m : VAL_SHARED_MEM_t) (w : world D) (k : nat) (w' : world D) : Prop :=
  let '(a, d) := cpu_on_calls base i mpidr w (S k) in
  let after d st := with_pes d a base (<[i := mkShared payload input st]> mem) w in
  (Arg0 a = 0 /\ w' = after d (sh_status m)) \/
  exists n st, 1 <= n <= 9 /\ Arg0 a = u64 (- n) /\
    IS_TEST_FAIL st = true /\ Z.land st STATUS_MASK = 0x120 + n /\
    w' = after (cache_op (shared_field base (Z.of_nat i) 16) CLEAN_AND_INVALIDATE d) st.

(** The report that follows the CPU_ON calls. *)
Lemma wp_report_calls base i mpidr payload input mem m w k :
  mem !! i = Some m -> psci_answer (Arg0 (fst (cpu_on_calls base i mpidr w (S k)))) ->
  wp (let* a := gets g_smc_args in
      let fail :=
        let* code := int_ok (0x120 - s32 (Arg0 a)) in
        val_set_status (Z.of_nat i) (RESULT_FAIL 0 code) in
      if Arg0 a =? u64 ARM_SMC_PSCI_RET_ALREADY_ON then
        val_print ACS_PRINT_ERR "       PSCI_CPU_ON: cpu already on  \n" 0 ;; fail
      else if Arg0 a =? 0 then val_print ACS_PRINT_INFO "       PSCI_CPU_ON: success  \n" 0
      else val_print ACS_PRINT_ERR "       PSCI_CPU_ON: failure[%d]  \n" (Arg0 a) ;; fail)
    (with_pes (snd (cpu_on_calls base i mpidr w (S k))) (fst (cpu_on_calls base i mpidr w (S k))) base
       (<[i := mkShared payload input (sh_status m)]> mem) w)
    (fun _ => handed base i mpidr payload input mem m w k).
Proof.
  intros Hm Hans. pose proof (lookup_lt_Some _ _ _ Hm) as Hlt. unfold handed.
  destruct (cpu_on_calls base i mpidr w (S k)) as [a d]. cbn [fst snd] in *. cbv zeta.
  run. change (g_smc_args _) with a. destruct Hans as [E|(e & He & E)].
  - rewrite E. change (0 =? u64 ARM_SMC_PSCI_RET_ALREADY_ON) with false. change (0 =? 0) with true.
    cbv zeta iota. run. by left.
  - assert (Hset : wp (let* code := int_ok (0x120 - s32 (Arg0 a)) in
      val_set_status (Z.of_nat i) (RESULT_FAIL 0 code))
      (with_pes d a base (<[i := mkShared payload input (sh_status m)]> mem) w)
      (fun _ w' => exists n st, 1 <= n <= 9 /\ Arg0 a = u64 (- n) /\ IS_TEST_FAIL st = true /\
        Z.land st STATUS_MASK = 0x120 + n /\
        w' = with_pes (cache_op (shared_field base (Z.of_nat i) 16) CLEAN_AND_INVALIDATE d) a base
               (<[i := mkShared payload input st]> mem) w)).
    { rewrite E, s32_psci by done. replace (0x120 - - e) with (0x120 + e) by lia.
      unfold int_ok. rewrite (proj2 (andb_true_iff _ _)) by lia. wp_steps.
      eapply wp_val_set_status; [done|by apply list_lookup_insert_eq|]. cbn [sh_data0 sh_data1].
      rewrite list_insert_insert_eq.
      exists e, (RESULT_FAIL 0 (0x120 + e)). by destruct (start_failure_word e He). }
    assert (Arg0 a <> 0) as ->%Z.eqb_neq by (intros E0; rewrite E0 in E; pose proof (s32_psci e He) as Hs;
      rewrite <- E in Hs; change (s32 0) with 0 in Hs; lia).
    cbv zeta iota. destruct (_ =? u64 _); apply wp_bind, wp_val_print;
      (eapply wp_mono; [exact Hset|]); intros [] w' Hw; by right.
Qed.

(** C5: handing a payload to a PE, on a firmware that answers as PSCI says. The payload and its
    argument are stored in the slot of the PE and cleaned to memory before each CPU_ON, which
    names that PE by its affinity and the entry point of the program; the call is repeated
    while the answer is ALREADY_ON, at most [TIMEOUT_LARGE] times, and what is left is what
    the last call left. On success the status of the PE is untouched, and on an error it
    is a failure whose code is 0x120 plus the number of the error. *)
Theorem execute_on_pe_post fuel i payload input t base mem m w e :
  g_pe_info_table w = Some t -> Z.of_nat i <= num_of_pe t -> pe_info t !! i = Some e ->
  gSharedMemory w = Some (base, mem) -> mem !! i = Some m ->
  TIMEOUT_LARGE < Z.of_nat fuel ->
  let calls := cpu_on_calls base i (pe_mpidr e) w in
  let answer n := Arg0 (fst (calls n)) in
  (forall n, psci_answer (answer (S n))) ->
  wp (val_execute_on_pe fuel (Z.of_nat i) payload input) w (fun _ w' =>
    exists k, Z.of_nat k <= TIMEOUT_LARGE /\
      (forall j, (j < k)%nat -> answer (S j) = u64 ARM_SMC_PSCI_RET_ALREADY_ON) /\
      (answer (S k) = u64 ARM_SMC_PSCI_RET_ALREADY_ON -> Z.of_nat k = TIMEOUT_LARGE) /\
      handed base i (pe_mpidr e) payload input mem m w k w').
Proof.
  intros Ht Hi He Hs Hm Hf calls answer Hans. unfold val_execute_on_pe.
  wp_step. wp_step. rewrite Ht. wp_steps.
  destruct (Z.ltb_spec (num_of_pe t) (Z.of_nat i)); [lia|].
  pose (mem1 := <[i := mkShared payload input (sh_status m)]> mem).
  apply wp_bind. apply (wp_while (fun timeout s => exists k mem0,
      timeout = TIMEOUT_LARGE - Z.of_nat k /\ Z.of_nat k <= TIMEOUT_LARGE /\
      (forall j, (j < k)%nat -> answer (S j) = u64 ARM_SMC_PSCI_RET_ALREADY_ON) /\
      s = with_pes (snd (calls k)) (fst (calls k)) base mem0 w /\ (mem0 = mem \/ mem0 = mem1))
    (fun timeout _ => Z.to_nat timeout)).
  - exists 0%nat, mem. split; [lia|]. split; [done|]. split; [lia|]. split; [|by left].
    unfold with_pes. cbn. rewrite <- Hs. by destruct w.
  - unfold TIMEOUT_LARGE in *. lia.
  - intros timeout s (k & mem0 & -> & Hk & Hon & -> & Hmem).
    assert (exists m0, mem0 !! i = Some m0 /\ sh_status m0 = sh_status m) as (m0 & Hm0 & Hst0).
    { destruct Hmem as [->| ->]; [by exists m|]. exists (mkShared payload input (sh_status m)).
      split; [|done]. apply list_lookup_insert_eq. by eapply lookup_lt_Some. }
    assert (Hmem1 : <[i := mkShared payload input (sh_status m0)]> mem0 = mem1).
    { rewrite Hst0. destruct Hmem as [->| ->]; [done|]. by apply list_insert_insert_eq. }
    wp_steps. eapply wp_eval; [by apply (eval_val_pe_get_mpid_index t i e)|]. wp_steps.
    eapply (wp_val_set_test_data t base mem0); [done..|]. rewrite Hmem1.
    unfold pal_pe_execute_payload, pal_pe_call_smc. run.
    change (arm_call_smc _ _) with (cpu_on base i (pe_mpidr e) (fst (calls k), snd (calls k))).
    rewrite <- surjective_pairing. change (cpu_on _ _ _ (calls k)) with (calls (S k)).
    change (Arg0 (fst (calls (S k)))) with (answer (S k)).
    destruct (Z.eqb_spec (answer (S k)) (u64 ARM_SMC_PSCI_RET_ALREADY_ON)) as [Ea|Ea]; cbn [andb].
    + destruct (truthy _) eqn:Htr; unfold truthy in Htr.
      * split; [|lia]. exists (S k), mem1. split; [lia|]. split; [lia|]. split.
        { intros j Hj. destruct (decide (j = k)) as [->|]; [done|apply Hon; lia]. }
        split; [reflexivity|by right].
      * eapply wp_mono; [apply wp_report_calls; [done|apply Hans]|]. intros [] w' Hh. exists k. split; [lia|].
        split; [done|]. split; [lia|done].
    + eapply wp_mono; [apply wp_report_calls; [done|apply Hans]|]. intros [] w' Hh. by exists k.
Qed.

(** *** Cache maintenance over a range *)

(** The device after cleaning [k] consecutive lines from [a]. *)
Fixpoint cleaned (a line : Z) (k : nat) (d : D) : D :=
  match k with
  | O => d
  | S k => cache_op (a + Z.of_nat k * line) CLEAN (cleaned a line k d)
  end.

(** The line size the code takes from [CTR_EL0]. *)
Definition line_of (ctr : Z) : Z := Z.shiftl 2 (Z.land (Z.shiftr ctr 16) 0xf).

Lemma line_of_bounds ctr : exists n, 0 <= n < 16 /\ line_of ctr = 2 ^ (n + 1).
Proof.
  exists (Z.land (Z.shiftr ctr 16) 0xf). rewrite (land_mask 4) by done.
  assert (0 <= Z.shiftr ctr 16 mod 2 ^ 4 < 2 ^ 4) by (apply Z.mod_pos_bound; lia).
  split; [pow2; lia|]. unfold line_of. rewrite (land_mask 4), Z.shiftl_mul_pow2 by (done || lia).
  rewrite Z.pow_add_r by lia. lia.
Qed.

(** cleaning a range terminates, touches nothing but the caches, and cleans a run
    of consecutive lines that contains every byte of the range. *)
Theorem cache_clean_range_covers fuel start len w :
  0 <= start -> 0 <= len -> start + len + 2 ^ 16 <= 2 ^ 64 ->
  len + 2 ^ 16 < Z.of_nat fuel ->
  let ctr := fst (read_sysreg "AA64ReadCtr" (dev w)) in
  let d0 := snd (read_sysreg "AA64ReadCtr" (dev w)) in
  let line := line_of ctr in
  wp (val_pe_cache_clean_range fuel start len) w (fun _ w' => exists a n,
    a mod line = 0 /\ w' = set_dev (cleaned a line n d0) w /\
    forall b, start <= b < start + len ->
      exists k, 0 <= k < Z.of_nat n /\ a + k * line <= b < a + (k + 1) * line).
Proof.
  intros Hs Hlen Hend Hf ctr d0 line. unfold val_pe_cache_clean_range.
  wp_step. change (val_pe_reg_read CTR_EL0) with (from_dev (D := D) (read_sysreg "AA64ReadCtr")).
  apply wp_from_dev. fold ctr d0. cbn zeta. fold (line_of ctr). fold line.
  destruct (line_of_bounds ctr) as (n & Hn & Hline). fold line in Hline.
  assert (Hlb : 2 <= line <= 2 ^ 16).
  { rewrite Hline. split; [change 2 with (2 ^ 1) at 1|]; apply Z.pow_le_mono_r; lia. }
  assert (Hmask : Z.land start (line - 1) = start mod line).
  { rewrite Hline. apply land_mask; [|lia]. rewrite Z.ones_equiv. lia. }
  rewrite Hmask. pose proof (Z.mod_pos_bound start line ltac:(lia)) as Hmod.
  pose proof (Z.mod_le start line ltac:(lia) ltac:(lia)) as Hle.
  set (a := start - start mod line).
  rewrite (u64_id a), (u64_id (start + len)) by (unfold fits; pow2; lia).
  apply (wp_while (fun x s => exists k : nat, x = a + Z.of_nat k * line /\
      x < start + len + line /\ s = set_dev (cleaned a line k d0) w)
    (fun x _ => Z.to_nat (start + len - x))).
  - exists 0%nat. split; [lia|]. split; [lia|done].
  - pow2. lia.
  - intros x s (k & -> & Hx & ->). destruct (Z.ltb_spec (a + Z.of_nat k * line) (start + len)).
    + run. rewrite u64_id by (unfold fits; pow2; nia).
      split; [|lia]. exists (S k). split; [lia|]. split; [lia|done].
    + apply wp_ret. exists a, k. split; [|split; [done|]].
      { unfold a. pose proof (Z.div_mod start line ltac:(lia)).
        replace (start - start mod line) with (start / line * line) by lia.
        apply Z.mod_mul. lia. }
      intros b Hb. exists ((b - a) / line). pose proof (Z.div_mod (b - a) line ltac:(lia)).
      pose proof (Z.mod_pos_bound (b - a) line ltac:(lia)). nia.
Qed.

(** *** Starting a test *)

(** What the suite sets up before the first test. *)
Record suite_ready (base : Z) (mem : list VAL_SHARED_MEM_t) (w : world D) : Prop := {
  ready_table : exists t, g_pe_info_table w = Some t /\ pe_table_wf t /\
    num_of_pe t <= Z.of_nat (length mem) /\ 0 < num_of_pe t;
  ready_mem : gSharedMemory w = Some (base, mem);
  ready_skip : length (g_skip_test_num w) = Z.to_nat MAX_TEST_SKIP_NUM;
  ready_esr : length (g_esr_handler w) = 4%nat
}.

(** The index of the running PE is that of a slot of the shared memory. *)
Lemma wp_my_index_ready base mem w {A} (k : Z -> M A) (Q : A -> world D -> Prop) :
  suite_ready base mem w ->
  (forall i, (i < length mem)%nat ->
     wp (k (Z.of_nat i)) (set_dev (snd (read_sysreg "ArmReadMpidr" (dev w))) w) Q) ->
  wp (let* mpid := val_pe_get_mpid in let* i := val_pe_get_index_mpid mpid in k i) w Q.
Proof.
  intros Hr Hk. destruct (ready_table _ _ _ Hr) as (t & Ht & Hwf & Hn & Hpos).
  pose proof (pe_wf_count t Hwf) as Hc.
  unfold val_pe_get_mpid. wp_steps. apply wp_from_dev. wp_steps.
  eapply wp_eval; [apply (eval_val_pe_get_index_mpid t); [done|lia]|].
  destruct (List.find _ _) as [e|] eqn:Hf; [|apply (Hk 0%nat); lia].
  apply List.find_some in Hf as [Hin _]. rewrite take_ge in Hin by lia.
  apply list_elem_of_In, list_elem_of_lookup_1 in Hin as [i Hi].
  pose proof (lookup_lt_Some _ _ _ Hi) as Hlt.
  rewrite (pe_wf_num t Hwf i e Hi). apply Hk. lia.
Qed.

Definition set_status_of (st : Z) (m : VAL_SHARED_MEM_t) : VAL_SHARED_MEM_t :=
  mkShared (sh_data0 m) (sh_data1 m) st.

(** Setting the status of the first [n] PEs. *)
Lemma wp_set_statuses n st base mem w (Q : () -> world D -> Prop) :
  gSharedMemory w = Some (base, mem) -> (n <= length mem)%nat ->
  (forall d, Q tt (set_dev d (set_gSharedMemory
     (Some (base, (set_status_of st <$> take n mem) ++ drop n mem)) w))) ->
  wp (for_each n 0 (fun i => val_set_status i st)) w Q.
Proof.
  intros Hm Hn HQ.
  apply (wp_for_each (fun i s => exists d, s = set_dev d (set_gSharedMemory (Some (base,
    (set_status_of st <$> take (Z.to_nat i) mem) ++ drop (Z.to_nat i) mem)) w))).
  - exists (dev w). change (Z.to_nat 0) with 0%nat. rewrite take_0, drop_0. cbn [fmap list_fmap app].
    rewrite <- Hm. by destruct w.
  - intros i s Hi (d & ->).
    assert (exists k, i = Z.of_nat k) as [k ->] by (exists (Z.to_nat i); lia).
    rewrite Nat2Z.id. destruct (lookup_lt_is_Some_2 mem k) as [m Hlk]; [lia|].
    pose proof (drop_S mem m k Hlk) as Hdrop.
    assert (Hl : length (set_status_of st <$> take k mem) = k).
    { rewrite length_fmap, length_take. lia. }
    eapply wp_val_set_status; [reflexivity| |].
    { rewrite lookup_app_r by lia. by rewrite Hl, Nat.sub_diag, Hdrop. }
    eexists. rewrite insert_app_r_alt, Hl, Nat.sub_diag, Hdrop by lia. cbn [insert list_insert].
    replace (Z.to_nat (Z.of_nat k + 1)) with (S k) by lia.
    rewrite (take_S_r mem _ m Hlk), fmap_app, <- app_assoc. reflexivity.
  - intros s (d & ->). rewrite Z.add_0_l, Nat2Z.id. apply HQ.
Qed.

Lemma wp_install_esr esr w (Q : () -> world D -> Prop) :
  length (g_esr_handler w) = 4%nat ->
  Q tt (set_g_esr_handler (<[0%nat := esr]> (g_esr_handler w)) w) ->
  wp (val_pe_initialize_default_exception_handler esr) w Q.
Proof.
  intros Hl HQ. unfold val_pe_initialize_default_exception_handler, val_pe_install_esr,
    val_gic_bsa_install_esr. cbn -[gets need]. wp_steps.
  destruct (g_esr_handler w) as [|h l] eqn:E; [done|]. cbn. by wp_steps.
Qed.

Lemma status_at_pending test_num n mem k :
  (k < n <= length mem)%nat ->
  status_at ((set_status_of (RESULT_PENDING test_num) <$> take n mem) ++ drop n mem) k
  = RESULT_PENDING test_num.
Proof.
  intros Hk. destruct (lookup_lt_is_Some_2 mem k) as [m Hm]; [lia|].
  unfold status_at. rewrite lookup_app_l by (rewrite length_fmap, length_take; lia).
  rewrite list_lookup_fmap, lookup_take_lt, Hm by lia. apply u32_id, fits_u32.
Qed.

(** C7: starting a test counts it once, installs the default exception handler and
    leaves every PE of the test pending, so that a PE that never reports is seen as
    such; the test is skipped exactly when its number is on the user's list, and
    then the running PE's status says so. *)
Theorem initialize_test_post test_num desc num_pe base mem w :
  suite_ready base mem w -> 0 <= num_pe <= Z.of_nat (length mem) ->
  let skip := existsb (fun x => x =? test_num) (g_skip_test_num w) in
  wp (val_initialize_test test_num desc num_pe) w (fun r w' => exists me d mem',
    r = (if skip then ACS_STATUS_SKIP else ACS_STATUS_PASS) /\
    w' = set_dev d (set_gSharedMemory (Some (base, mem'))
           (set_g_bsa_tests_total (u32 (g_bsa_tests_total w + 1))
             (set_g_esr_handler (<[0%nat := symbol "val_pe_default_esr"]> (g_esr_handler w)) w))) /\
    length mem' = length mem /\ (me < length mem)%nat /\
    forall k, (k < Z.to_nat num_pe)%nat -> status_at mem' k =
      if skip && (k =? me)%nat then RESULT_SKIP test_num 0 else RESULT_PENDING test_num).
Proof.
  intros Hr Hn skip. pose proof (ready_skip _ _ _ Hr) as Hsk.
  unfold val_initialize_test. eapply wp_my_index_ready; [done|]. intros me Hme.
  run. apply wp_val_report_status. io_step. apply wp_install_esr; [apply Hr|]. run.
  eapply wp_set_statuses; [apply Hr|lia|]. intros d1. wp_step.
  eapply wp_eval; [by apply eval_user_skips|].
  set (mem1 := _ ++ _). wsimpl. fold skip.
  assert (Hl1 : length mem1 = length mem).
  { unfold mem1. rewrite length_app, length_fmap, length_take, length_drop. lia. }
  assert (Hp : forall k, (k < Z.to_nat num_pe)%nat -> status_at mem1 k = RESULT_PENDING test_num)
    by (intros; apply status_at_pending; lia).
  destruct skip; cbn [andb].
  - destruct (lookup_lt_is_Some_2 mem1 me) as [m Hm]; [lia|].
    run. eapply wp_val_set_status; [reflexivity|exact Hm|]. wp_step.
    eexists me, _, _. split; [done|]. split; [reflexivity|].
    rewrite length_insert. split; [done|]. split; [done|]. intros k Hk.
    destruct (Nat.eqb_spec k me) as [->|Hne]; unfold status_at.
    + rewrite list_lookup_insert_eq by lia. apply u32_id, fits_u32.
    + rewrite list_lookup_insert_ne by done. by apply Hp.
  - run. eexists me, _, mem1. split; [done|]. split; [reflexivity|]. auto.
Qed.

(** *** The books of the whole run *)

(** a test on the running PE alone is judged by the status that PE reads back in
    its own slot, and counted like the others. *)
Lemma check_for_error_single (R : relation pes) `{!Others R} test_num base mem w :
  suite_ready base mem w ->
  wp (val_check_for_error test_num 1) w (fun r w' => exists me mem',
    (me < length mem)%nat /\ R (mem, dev w) (mem', dev w') /\ gSharedMemory w' = Some (base, mem') /\
    r = verdict_of (status_at mem' me) /\ counted r w w').
Proof.
  intros Hr. unfold val_check_for_error. eapply wp_my_index_ready; [done|].
  intros me Hme. cbn iota beta delta [Z.eqb Pos.eqb]. apply wp_bind.
  set (d := snd (read_sysreg "ArmReadMpidr" (dev w))).
  assert (Hd : R (mem, dev w) (mem, d)) by apply others_sysreg.
  apply (wp_get_status_others R w base mem); [by split; [apply Hr|]|done|].
  intros mem' w' Hl [Hm' Ho]. apply wp_bind, wp_val_report_status, wp_verdict.
  exists me, mem'. rewrite count_result_mem, count_result_dev. split; [done|].
  split; [by etransitivity|]. repeat (split; [done|]). eapply counted_from; [exact Ho|apply counted_refl].
Qed.

(** The suite as a state machine: between tests ([false]) or inside one ([true]).
    A test body is any code that leaves the counters and the set-up alone. *)
Inductive suite_step : bool * world D -> bool * world D -> Prop :=
| step_start base mem test_num desc num_pe w r w' out :
    suite_ready base mem w -> 0 <= num_pe <= Z.of_nat (length mem) ->
    g_bsa_tests_total w + 1 < 2 ^ 32 ->
    val_initialize_test test_num desc num_pe w = Ret r w' out ->
    suite_step (false, w) (true, w')
| step_body w w' :
    g_bsa_tests_total w' = g_bsa_tests_total w -> g_bsa_tests_pass w' = g_bsa_tests_pass w ->
    g_bsa_tests_fail w' = g_bsa_tests_fail w -> suite_step (true, w) (true, w')
| step_check base mem test_num num_pe w r w' out :
    suite_ready base mem w -> 1 <= num_pe <= Z.of_nat (length mem) ->
    val_check_for_error test_num num_pe w = Ret r w' out ->
    suite_step (true, w) (false, w').

(** Every verdict belongs to a test that was started. *)
Definition books_ok (s : bool * world D) : Prop :=
  let w := snd s in
  0 <= g_bsa_tests_pass w /\ 0 <= g_bsa_tests_fail w /\ g_bsa_tests_total w < 2 ^ 32 /\
  g_bsa_tests_pass w + g_bsa_tests_fail w + (if fst s then 1 else 0) <= g_bsa_tests_total w.

Lemma wp_ret_inv {A} (m : M A) w Q r w' out : wp m w Q -> m w = Ret r w' out -> Q r w'.
Proof. unfold wp. intros Hw Hm; by rewrite Hm in Hw. Qed.

Lemma counted_books r w w' :
  counted r w w' -> books_ok (true, w) -> books_ok (false, w').
Proof.
  intros (d & m & ->) (Hp & Hf & Ht & Hle). unfold books_ok, count_result in *. cbn [fst snd] in *.
  repeat case_match; wsimpl; rewrite ?u32_id by (unfold fits; lia); lia.
Qed.

Lemma suite_step_books `{!KeepReports} s s' : suite_step s s' -> books_ok s -> books_ok s'.
Proof.
  intros Hst Hb. destruct Hst as [base mem n desc num_pe w r w' out Hr Hn Ht Hrun
    |w w' H1 H2 H3|base mem n num_pe w r w' out Hr Hn Hrun].
  - pose proof (wp_ret_inv _ _ _ _ _ _ (initialize_test_post n desc num_pe base mem w Hr Hn) Hrun)
      as (me & d & mem' & _ & -> & _).
    destruct Hb as (Hp & Hf & Htt & Hle). unfold books_ok in *. cbn [fst snd] in *. wsimpl.
    rewrite u32_id by (unfold fits; lia). lia.
  - unfold books_ok in *. cbn [fst snd] in *. by rewrite H1, H2, H3.
  - eapply counted_books; [|exact Hb]. destruct (decide (num_pe = 1)) as [->|Hne].
    + by pose proof (wp_ret_inv _ _ _ _ _ _ (check_for_error_single (by_slots onward) n base mem w Hr) Hrun)
        as (me & mem' & _ & _ & _ & _ & Hc).
    + refine (wp_ret_inv _ _ (fun r w' => counted r w w') _ _ _ _ Hrun).
      destruct (ready_table _ _ _ Hr) as (t & Ht & Hwf & _).
      eapply (wp_check_for_error (by_slots onward)); [|apply Hr|lia|auto].
      exists t. split; [done|]. pose proof (pe_wf_count t Hwf). lia.
Qed.

(** C4: over any run of the suite, of any length and mix of tests, the numbers of
    passed and failed tests never add up to more than the number started (a test in
    progress not yet counted in either). *)
Theorem suite_books_balance `{!KeepReports} w0 running w :
  g_bsa_tests_total w0 = 0 -> g_bsa_tests_pass w0 = 0 -> g_bsa_tests_fail w0 = 0 ->
  rtc suite_step (false, w0) (running, w) ->
  g_bsa_tests_pass w + g_bsa_tests_fail w + (if running then 1 else 0) <= g_bsa_tests_total w.
Proof.
  intros H1 H2 H3 Hrtc. enough (books_ok (running, w)) as (_ & _ & _ & Hle) by exact Hle.
  remember (false, w0) as s0. remember (running, w) as s1. clear Heqs1.
  assert (Hb : books_ok s0) by (subst; unfold books_ok; cbn; rewrite H1, H2, H3; lia).
  clear Heqs0. induction Hrtc as [|s0 s1 s2 Hst _ IH]; [done|].
  by apply IH, (suite_step_books s0).
Qed.
End infra.

(** ** Concrete runs *)

#[export] Instance machine_report_once : ReportOnce (D := machine).
Proof.
  intros mem d. cbn. split; [by rewrite length_fmap|]. intros i m m' Hm Hm' Hp.
  rewrite list_lookup_fmap, Hm in Hm'. injection Hm' as <-. unfold mach_report. by rewrite Hp.
Qed.

(** *** A late report

    A machine on which one PE reports PASS, once, after its slots have been looked at [looks]
    times, and the others never do. *)
Record late := Late { looks : nat; late_pe : nat; told : bool; late_mach : machine }.

Definition late_do (f : machine -> machine) (d : late) : late :=
  Late (looks d) (late_pe d) (told d) (f (late_mach d)).
Definition late_get {A} (f : machine -> A * machine) (d : late) : A * late :=
  let r := f (late_mach d) in (fst r, Late (looks d) (late_pe d) (told d) (snd r)).

Definition late_run (mem : list VAL_SHARED_MEM_t) (d : late) : list VAL_SHARED_MEM_t * late :=
  match looks d with
  | S k => (mem, Late k (late_pe d) (told d) (late_mach d))
  | O =>
      if told d then (mem, d)
      else (alter (set_status_of (RESULT_PASS 0 0)) (late_pe d) mem, Late 0 (late_pe d) true (late_mach d))
  end.

#[export] Instance late_platform : Platform late := {
  dev_read n a := late_get (dev_read n a);
  dev_write n a v := late_do (dev_write n a v);
  read_sysreg r := late_get (read_sysreg r);
  write_sysreg r v := late_do (write_sysreg r v);
  cache_op a k := late_do (cache_op a k);
  arm_call_smc a := late_get (arm_call_smc a);
  bs_allocate_pool n h := late_get (bs_allocate_pool n h);
  bs_free_pool p := late_do (bs_free_pool p);
  bs_allocate_pages n h := late_get (bs_allocate_pages n h);
  bs_free_pages p n := late_do (bs_free_pages p n);
  other_pes := late_run;
  symbol := symbol
}.

Lemma alter_at {A} (f : A -> A) (l : list A) (i : nat) x : l !! i = Some x -> alter f i l = <[i := f x]> l.
Proof.
  intros Hx. apply list_eq. intros k. pose proof (lookup_lt_Some _ _ _ Hx).
  destruct (decide (i = k)) as [<-|Hne].
  - by rewrite list_lookup_alter_eq, list_lookup_insert_eq, Hx.
  - by rewrite list_lookup_alter_ne, list_lookup_insert_ne.
Qed.

Lemma status_at_alter st i mem k :
  status_at (alter (set_status_of st) i mem) k =
    if decide (k = i /\ (i < length mem)%nat) then u32 st else status_at mem k.
Proof.
  unfold status_at. destruct (decide (k = i)) as [->|Hne].
  - destruct (decide (i < length mem)%nat) as [Hl|Hl].
    + rewrite decide_True by done. destruct (lookup_lt_is_Some_2 mem i Hl) as [m Hm].
      by rewrite list_lookup_alter_eq, Hm.
    + rewrite decide_False by lia. by rewrite list_lookup_alter_eq, lookup_ge_None_2 by lia.
  - rewrite decide_False by (by intros []). by rewrite list_lookup_alter_ne.
Qed.

#[export] Instance late_one_report : OneReport (D := late).
Proof.
  refine {| ended (d : late) i := i = late_pe d -> told d = true |}; [done..|].
  intros mem [[|k] p t m]; cbn; [destruct t|]; cbn; [by auto| |by auto].
  split; [by rewrite length_alter|]. intros i. split; [auto|].
  unfold reported. rewrite status_at_alter. destruct (decide _) as [[-> Hl]|]; [|by left].
  right. split; [|done]. intros Hx. by specialize (Hx eq_refl).
Defined.

(** A look at a slot of this machine. *)
Lemma wp_late_look base mem i (w : world late) (Q : Z -> world late -> Prop) :
  gSharedMemory w = Some (base, mem) -> (i < length mem)%nat ->
  (forall m, let '(mem', d') := late_run mem (Late (looks (dev w)) (late_pe (dev w)) (told (dev w)) m) in
     Q (status_at mem' i) (set_gSharedMemory (Some (base, mem')) (set_dev d' w))) ->
  wp (val_get_status (Z.of_nat i)) w Q.
Proof.
  intros Hm Hi HQ. set (d := cache_op (shared_field base (Z.of_nat i) 16) INVALIDATE (dev w)).
  specialize (HQ (late_mach d)). change (Late _ _ _ _) with d in HQ.
  destruct (late_run mem d) as [mem' d'] eqn:E.
  assert (Hl : length mem' = length mem).
  { revert E. unfold late_run. destruct (looks d); [destruct (told d)|]; intros [= <- <-]; by rewrite ?length_alter. }
  destruct (lookup_lt_is_Some_2 mem' i) as [m Hlk]; [lia|].
  eapply wp_val_get_status; [done|]. cbn zeta. fold d. change (other_pes mem d) with (late_run mem d).
  rewrite E. split; [exact Hlk|]. by rewrite <- (status_at_lookup _ _ _ Hlk).
Qed.

(** The world at a look: only the device and the slots differ. *)
Definition at_look (w : world late) (base : Z) (k p : nat) (b : bool) (mem : list VAL_SHARED_MEM_t)
    (s : world late) : Prop :=
  exists m, s = set_gSharedMemory (Some (base, mem)) (set_dev (Late k p b m) w).

(** Before its time the PE is not heard of. *)
Lemma wp_early_look base mem i k p b w s (Q : Z -> world late -> Prop) :
  at_look w base (S k) p b mem s -> (i < length mem)%nat ->
  (forall s', at_look w base k p b mem s' -> Q (status_at mem i) s') ->
  wp (val_get_status (Z.of_nat i)) s Q.
Proof.
  intros [m ->] Hi HQ. apply (wp_late_look base mem); [done..|]. intros m'. cbn. apply HQ. by exists m'.
Qed.

Lemma wp_report_look base mem i p w s (Q : Z -> world late -> Prop) :
  let mem' := alter (set_status_of (RESULT_PASS 0 0)) p mem in
  at_look w base 0 p false mem s -> (i < length mem)%nat ->
  (forall s', at_look w base 0 p true mem' s' -> Q (status_at mem' i) s') ->
  wp (val_get_status (Z.of_nat i)) s Q.
Proof.
  intros mem' [m ->] Hi HQ. apply (wp_late_look base mem); [done..|]. intros m'. cbn. apply HQ. by exists m'.
Qed.

Lemma wp_told_look base mem i p w s (Q : Z -> world late -> Prop) :
  at_look w base 0 p true mem s -> (i < length mem)%nat ->
  (forall s', at_look w base 0 p true mem s' -> Q (status_at mem i) s') ->
  wp (val_get_status (Z.of_nat i)) s Q.
Proof.
  intros [m ->] Hi HQ. apply (wp_late_look base mem); [done..|]. intros m'. cbn. apply HQ. by exists m'.
Qed.

Lemma wp_early_scan num_pe base mem k p b w s (Q : Z -> world late -> Prop) :
  0 < num_pe <= Z.of_nat (length mem) ->
  (forall i, (i < Z.to_nat num_pe)%nat -> IS_RESULT_PENDING (status_at mem i) = true) ->
  at_look w base (Z.to_nat num_pe + k) p b mem s ->
  (forall s', at_look w base k p b mem s' -> Q num_pe s') ->
  wp (scan_pending num_pe) s Q.
Proof.
  intros Hn Hp Hs HQ. unfold scan_pending.
  apply (wp_for_acc (fun i j s => j = i /\ at_look w base (Z.to_nat (num_pe - i) + k) p b mem s)).
  - split; [done|]. by rewrite Z.sub_0_r.
  - intros i j s1 Hi [-> Hs1]. apply wp_bind. replace i with (Z.of_nat (Z.to_nat i)) at 1 by lia.
    replace (Z.to_nat (num_pe - i) + k)%nat with (S (Z.to_nat (num_pe - (i + 1)) + k)) in Hs1 by lia.
    eapply wp_early_look; [exact Hs1|lia|]. intros s2 Hs2. apply wp_ret.
    by rewrite Hp by lia.
  - intros j s1 [-> Hs1]. replace (0 + Z.of_nat (Z.to_nat num_pe)) with num_pe in * by lia.
    apply HQ. by rewrite Z.sub_diag in Hs1.
Qed.

(** A wait without a report: every round looks at every slot, and the last PE is given up. *)
Lemma wp_vain_wait fuel test_num num_pe timeout base mem k p b w s (Q : () -> world late -> Prop) :
  1 < num_pe <= Z.of_nat (length mem) -> num_pe < 2 ^ 32 -> 2 <= timeout < 2 ^ 32 ->
  (Z.to_nat timeout <= fuel)%nat ->
  (forall i, (i < Z.to_nat num_pe)%nat -> IS_RESULT_PENDING (status_at mem i) = true) ->
  at_look w base (Z.to_nat (timeout - 1) * Z.to_nat num_pe + k) p b mem s ->
  (forall s', at_look w base k p b
     (alter (set_status_of (RESULT_FAIL test_num 0xF)) (Z.to_nat num_pe - 1)%nat mem) s' -> Q tt s') ->
  wp (val_wait_for_test_completion fuel test_num num_pe timeout) s Q.
Proof.
  intros Hn Hn32 Ht Hf Hp Hs HQ. unfold val_wait_for_test_completion.
  destruct (Z.eqb_spec num_pe 1); [lia|]. apply wp_bind.
  apply (wp_while (fun '(t, j) s => 1 <= t <= timeout /\ (t = timeout \/ j = num_pe) /\
      at_look w base (Z.to_nat (t - 1) * Z.to_nat num_pe + k) p b mem s)
    (fun '(t, _) _ => Z.to_nat (t - 1))); [|lia|].
  - split; [lia|]. split; [by left|done].
  - intros [t j] s1 (Htt & Hj & Hs1). pow2. rewrite (u32_id (t - 1)) by (unfold fits; pow2; lia).
    destruct (Z.eqb_spec (t - 1) 0) as [Et|Et].
    + wp_step. rewrite Et in Hs1. assert (j = num_pe) as -> by lia.
      rewrite (u32_id (num_pe - 1)) by (unfold fits; pow2; lia).
      destruct Hs1 as [m ->]. destruct (lookup_lt_is_Some_2 mem (Z.to_nat num_pe - 1)) as [e He]; [lia|].
      replace (num_pe - 1) with (Z.of_nat (Z.to_nat num_pe - 1)) by lia.
      eapply wp_val_set_status; [done|exact He|]. apply HQ. eexists. wsimpl. f_equal.
      by rewrite (alter_at (set_status_of _) mem _ e He).
    + wp_step. destruct (Z.to_nat (t - 1)) as [|q] eqn:Eq; [lia|].
      eapply (wp_early_scan num_pe base mem (q * Z.to_nat num_pe + k)); [lia|done| |].
      { by replace (Z.to_nat num_pe + (q * Z.to_nat num_pe + k))%nat with (S q * Z.to_nat num_pe + k)%nat by lia. }
      intros s2 Hs2. apply wp_ret. destruct (Z.eqb_spec num_pe 0); [lia|]. split; [|lia].
      split; [lia|]. split; [by right|]. by replace (Z.to_nat (t - 1 - 1)) with q by lia.
Qed.

(** A check by which time the late report is made: the verdict is that of the late PE. *)
Lemma wp_late_check test_num num_pe base mem k w s (Q : Z -> world late -> Prop) :
  let last := (Z.to_nat num_pe - 1)%nat in
  pe_table_ok w -> 1 < num_pe <= Z.of_nat (length mem) -> (k <= last)%nat ->
  (forall i, (i < last)%nat -> IS_TEST_FAIL_SKIP (status_at mem i) = false) ->
  at_look w base k last false mem s ->
  (forall s', at_look (set_g_bsa_tests_pass (u32 (g_bsa_tests_pass w + 1)) w) base 0 last true
     (alter (set_status_of (RESULT_PASS 0 0)) last mem) s' -> Q ACS_STATUS_PASS s') ->
  wp (val_check_for_error test_num num_pe) s Q.
Proof.
  intros last Ht Hn Hk Hp [m0 ->] HQ. set (mem2 := alter _ last mem) in *.
  assert (Hlast : status_at mem2 last = RESULT_PASS 0 0).
  { unfold mem2. rewrite status_at_alter, decide_True; [done|]. split; [done|]. lia. }
  assert (Hsame : forall i, (i < last)%nat -> status_at mem2 i = status_at mem i).
  { intros i Hi. unfold mem2. rewrite status_at_alter, decide_False; [done|]. intros []. lia. }
  unfold val_check_for_error. apply wp_my_index; [done|]. intros idx.
  destruct (Z.eqb_spec num_pe 1); [lia|]. apply wp_bind.
  apply (wp_for (fun i st s => if decide (Z.to_nat i <= k)%nat
    then at_look w base (k - Z.to_nat i) last false mem s
    else at_look w base 0 last true mem2 s /\ (Z.to_nat i = S last -> st = RESULT_PASS 0 0))).
  - rewrite decide_True by lia. eexists. rewrite Nat.sub_0_r. reflexivity.
  - intros i st s Hi Hs. apply wp_bind. replace i with (Z.of_nat (Z.to_nat i)) at 1 by lia.
    assert (Hnext : forall s2 v, at_look w base 0 last true mem2 s2 ->
      v = status_at mem2 (Z.to_nat i) -> (k <= Z.to_nat i)%nat ->
      wp (if IS_TEST_FAIL_SKIP v then (val_report_status i v ;; ret (Break v))%c else ret (Continue v)) s2
        (fun r s' => match r with
           | Continue st => if decide (Z.to_nat (i + 1) <= k)%nat
               then at_look w base (k - Z.to_nat (i + 1)) last false mem s'
               else at_look w base 0 last true mem2 s' /\ (Z.to_nat (i + 1) = S last -> st = RESULT_PASS 0 0)
           | Break st => False end)).
    { intros s2 v Hs2 -> Hki. destruct (decide (Z.to_nat i = last)) as [E|E].
      - rewrite E, Hlast. cbn iota. change (IS_TEST_FAIL_SKIP (RESULT_PASS 0 0)) with false.
        apply wp_ret. rewrite decide_False by lia. done.
      - rewrite Hsame, Hp by lia. apply wp_ret. rewrite decide_False by lia. split; [done|]. lia. }
    destruct (decide (Z.to_nat i <= k)%nat) as [Hik|Hik].
    + destruct (decide (Z.to_nat i = k)) as [E|E].
      * rewrite E, Nat.sub_diag in Hs.
        eapply wp_report_look; [exact Hs|lia|]. intros s2 Hs2.
        eapply wp_mono; [apply Hnext; [done|by rewrite E|lia]|]. intros [st1|st1] s3 Hr; [exact Hr|destruct Hr].
      * replace (k - Z.to_nat i)%nat with (S (k - Z.to_nat (i + 1))) in Hs by lia.
        eapply wp_early_look; [exact Hs|lia|]. intros s2 Hs2. rewrite Hp by lia. apply wp_ret.
        by rewrite decide_True by lia.
    + destruct Hs as [Hs _]. eapply wp_told_look; [exact Hs|unfold mem2; rewrite length_alter; lia|].
      intros s2 Hs2. eapply wp_mono; [apply Hnext; [done|done|lia]|]. intros [st1|st1] s3 Hr; [exact Hr|destruct Hr].
  - intros st s Hs. rewrite Z.add_0_l, Nat2Z.id, decide_False in Hs by lia. destruct Hs as [Hs Hst].
    rewrite Hst by lia. apply wp_bind, wp_val_report_status.
    apply wp_verdict. change (verdict_of (RESULT_PASS 0 0)) with ACS_STATUS_PASS. apply HQ.
    destruct Hs as [m ->]. by exists m.
Qed.

(** C8: a timeout can be lost. On a machine where no PE of a test reports before the wait has
    timed out, the last PE is marked as having failed; when it reports PASS after all before
    the check reads its slot, the check answers PASS and counts it, while all the other PEs
    are still pending. *)
Theorem late_report_passes fuel test_num num_pe timeout base mem (w : world late) :
  let n := Z.to_nat num_pe in
  pe_table_ok w -> gSharedMemory w = Some (base, mem) ->
  1 < num_pe <= Z.of_nat (length mem) -> num_pe < 2 ^ 32 ->
  2 <= timeout < 2 ^ 32 -> (Z.to_nat timeout <= fuel)%nat ->
  (forall i, (i < n)%nat -> IS_RESULT_PENDING (status_at mem i) = true) ->
  late_pe (dev w) = (n - 1)%nat -> told (dev w) = false ->
  (Z.to_nat (timeout - 1) * n <= looks (dev w) < Z.to_nat (timeout - 1) * n + n)%nat ->
  wp (val_wait_for_test_completion fuel test_num num_pe timeout ;;
      val_check_for_error test_num num_pe) w (fun r w' =>
    r = ACS_STATUS_PASS /\ counted r w w' /\ exists mem', gSharedMemory w' = Some (base, mem') /\
    forall i, (i < n - 1)%nat -> status_at mem' i = status_at mem i).
Proof.
  intros n Ht Hm Hn Hn32 Hto Hf Hp Hpe Htold Hlk. apply wp_bind.
  set (k := (looks (dev w) - Z.to_nat (timeout - 1) * n)%nat).
  assert (Hst : forall st i, (i < n - 1)%nat ->
    status_at (alter (set_status_of st) (n - 1)%nat mem) i = status_at mem i).
  { intros st i Hi. rewrite status_at_alter, decide_False; [done|]. intros []. lia. }
  eapply (wp_vain_wait fuel test_num num_pe timeout base mem k (n - 1) false w); [done..| |].
  - exists (late_mach (dev w)). replace (_ * _ + k)%nat with (looks (dev w)) by (unfold k, n in *; lia).
    rewrite <- Hpe, <- Htold, <- Hm. by destruct w as [[]].
  - intros s Hs. eapply (wp_late_check test_num num_pe base _ k w); [done| | | |exact Hs|].
    + rewrite length_alter. lia.
    + unfold k, n in *. lia.
    + intros i Hi. rewrite Hst by done. pose proof (Hp i ltac:(unfold n in *; lia)) as Hpi.
      unfold IS_RESULT_PENDING, IS_TEST_FAIL_SKIP, IS_TEST_FAIL, IS_TEST_SKIP in *.
      apply Z.eqb_eq in Hpi. by rewrite Hpi.
    + intros s' [m ->]. split; [done|]. split; [by eexists _, _|]. eexists. split; [done|].
      intros i Hi. rewrite status_at_alter, decide_False; [by apply Hst|]. intros []. unfold n in *. lia.
Qed.

(** Two PEs, the second of them (affinity 0x100) running, both slots pending. *)
Definition two_pes : PE_INFO_TABLE :=
  mkPETable 2 [mkPE 0 0 0x0 23 25; mkPE 1 0 0x100 23 25].

Definition two_slots : list VAL_SHARED_MEM_t :=
  [mkShared 0 0 (RESULT_PENDING 7); mkShared 0 0 (RESULT_PENDING 7)].

Definition on_two_pes : world machine :=
  set_gSharedMemory (Some (0x1000, two_slots)) (set_g_pe_info_table (Some two_pes)
    (boot ∅ {["ArmReadMpidr" := 0x80000100]})).

Lemma two_pes_wf : pe_table_wf two_pes.
Proof.
  split; [done| |].
  - intros [|[|[|i]]] e He; by simplify_eq/=.
  - by apply (bool_decide_unpack (NoDup (pe_mpidr <$> pe_info two_pes))).
Qed.

Lemma on_two_pes_ready : suite_ready 0x1000 two_slots on_two_pes.
Proof. split; [exists two_pes; split; [done|split; [apply two_pes_wf|done]]|done..]. Qed.

Lemma on_two_pes_table : pe_table_ok on_two_pes.
Proof. by exists two_pes. Qed.

Example run_two_pes :
  (val_wait_for_test_completion 4 7 2 4 ;; val_check_for_error 7 2)%c on_two_pes
  = Ret ACS_STATUS_PASS
      (set_g_bsa_tests_pass 1 (set_dev (Machine ∅ {["ArmReadMpidr" := 0x80000100]} 0
         [(0x1010, INVALIDATE); (0x1028, INVALIDATE); (0x1010, INVALIDATE); (0x1028, INVALIDATE)])
      (set_gSharedMemory (Some (0x1000, mach_report <$> two_slots)) on_two_pes)))
      [Event ": Result:  PASS \n" (RESULT_PASS 0 0)].
Proof. vm_compute. reflexivity. Qed.

Lemma pe_index_roundtrip_witness :
  eval (let* mpid := val_pe_get_mpid_index (Z.of_nat 1) in val_pe_get_index_mpid mpid)%c
    on_two_pes (Z.of_nat 1) on_two_pes.
Proof. by apply (pe_index_roundtrip two_pes 1 (mkPE 1 0 0x100 23 25)); [apply two_pes_wf|..]. Defined.

Lemma wait_for_completion_post_witness :
  wp (val_wait_for_test_completion 4 7 2 4) on_two_pes (fun _ w' =>
    exists mem', gSharedMemory w' = Some (0x1000, mem') /\ length mem' = length two_slots /\
      only_pes on_two_pes w' /\ wait_post 7 2 mem').
Proof.
  apply (wait_for_completion_post 4 7 2 4 0x1000 two_slots on_two_pes); [done|cbn; lia..|cbn; lia].
Defined.

(** The same PEs on the machine with a late report, which comes after [k] looks. *)
Definition late_two_pes (k : nat) : world late :=
  with_dev (Late k 1 false (Machine ∅ {["ArmReadMpidr" := 0x80000100]} 0 [])) on_two_pes.

Lemma test_verdict_sound_witness :
  wp (val_wait_for_test_completion 4 7 2 4) (late_two_pes 8) (fun _ w1 =>
    exists mem1, gSharedMemory w1 = Some (0x1000, mem1) /\
    wp (val_check_for_error 7 2) w1 (fun r w2 =>
      counted r (late_two_pes 8) w2 /\ exists mem2, gSharedMemory w2 = Some (0x1000, mem2) /\
      ((forall k, (k < 2)%nat -> reported mem1 k /\ status_at mem2 k = status_at mem1 k) /\
       r = verdict_of (deciding_status (statuses mem2 2)) /\
       (r = ACS_STATUS_PASS -> forall k, (k < 2)%nat ->
          conclusive (status_at mem2 k) -> IS_TEST_PASS (status_at mem2 k) = true) \/
       exists j, (j < 2)%nat /\ status_at mem1 j = RESULT_FAIL 7 0xF /\
         (r = ACS_STATUS_PASS ->
            ~ ended (dev w1) j /\ ended (dev w2) j /\ reported mem2 j /\
            status_at mem2 j <> RESULT_FAIL 7 0xF)))).
Proof.
  apply (test_verdict_sound 4 7 2 4 0x1000 two_slots (late_two_pes 8));
    [by exists two_pes|done|cbn; lia..|cbn; lia|done|].
  intros [|[|k]] Hk Hr; [done..|cbn in Hk; lia].
Defined.

Lemma late_report_passes_witness :
  wp (val_wait_for_test_completion 4 7 2 4 ;; val_check_for_error 7 2)%c (late_two_pes 7) (fun r w' =>
    r = ACS_STATUS_PASS /\ counted r (late_two_pes 7) w' /\ exists mem', gSharedMemory w' = Some (0x1000, mem') /\
    forall i, (i < 2 - 1)%nat -> status_at mem' i = status_at two_slots i).
Proof.
  apply (late_report_passes 4 7 2 4 0x1000 two_slots (late_two_pes 7));
    [by exists two_pes|done|cbn; lia..|cbn; lia| |done|done|cbn; lia].
  intros [|[|k]] Hk; [done..|cbn in Hk; lia].
Defined.

Lemma calls_answer n :
  let s := cpu_on_calls 0x1000 0 0 on_two_pes n in Arg0 (fst s) = 0 /\ mach_smc (snd s) = 0.
Proof.
  induction n as [|n IH]; [done|]. unfold cpu_on_calls in *. rewrite Nat.iter_succ.
  destruct (Nat.iter _ _ _) as [a d]. cbn in *. split; apply IH.
Qed.

Lemma execute_on_pe_post_witness :
  wp (val_execute_on_pe (Z.to_nat 0x1000001) (Z.of_nat 0) 0x4000 5) on_two_pes (fun _ w' =>
    exists k, Z.of_nat k <= TIMEOUT_LARGE /\
      (forall j, (j < k)%nat ->
        Arg0 (fst (cpu_on_calls 0x1000 0 0 on_two_pes (S j))) = u64 ARM_SMC_PSCI_RET_ALREADY_ON) /\
      (Arg0 (fst (cpu_on_calls 0x1000 0 0 on_two_pes (S k))) = u64 ARM_SMC_PSCI_RET_ALREADY_ON ->
        Z.of_nat k = TIMEOUT_LARGE) /\
      handed 0x1000 0 0 0x4000 5 two_slots (mkShared 0 0 (RESULT_PENDING 7)) on_two_pes k w').
Proof.
  apply (execute_on_pe_post (Z.to_nat 0x1000001) 0 0x4000 5 two_pes 0x1000 two_slots
    (mkShared 0 0 (RESULT_PENDING 7)) on_two_pes (mkPE 0 0 0x0 23 25));
    [reflexivity|cbn; lia|reflexivity|reflexivity|reflexivity| |].
  - rewrite Z2Nat.id; [|done]. unfold TIMEOUT_LARGE. lia.
  - intros n. left. apply calls_answer.
Defined.

Lemma cache_clean_range_covers_witness :
  let ctr := fst (read_sysreg "AA64ReadCtr" (dev on_two_pes)) in
  let d0 := snd (read_sysreg "AA64ReadCtr" (dev on_two_pes)) in
  let line := line_of ctr in
  wp (val_pe_cache_clean_range (Z.to_nat 70000) 0x1001 64) on_two_pes (fun _ w' => exists a n,
    a mod line = 0 /\ w' = set_dev (cleaned a line n d0) on_two_pes /\
    forall b, 0x1001 <= b < 0x1001 + 64 ->
      exists k, 0 <= k < Z.of_nat n /\ a + k * line <= b < a + (k + 1) * line).
Proof. apply (cache_clean_range_covers (Z.to_nat 70000) 0x1001 64 on_two_pes); lia. Defined.

Lemma initialize_test_post_witness :
  wp (val_initialize_test 7 "demo" 2) on_two_pes (fun r w' => exists me d mem',
    r = ACS_STATUS_PASS /\
    w' = set_dev d (set_gSharedMemory (Some (0x1000, mem'))
           (set_g_bsa_tests_total (u32 1)
             (set_g_esr_handler (<[0%nat := symbol "val_pe_default_esr"]> [0; 0; 0; 0]) on_two_pes))) /\
    length mem' = length two_slots /\ (me < length two_slots)%nat /\
    forall k, (k < Z.to_nat 2)%nat -> status_at mem' k = RESULT_PENDING 7).
Proof.
  apply (initialize_test_post 7 "demo" 2 0x1000 two_slots on_two_pes); [apply on_two_pes_ready|cbn; lia].
Defined.

(** One test started and checked. *)
Definition world_after {A} (o : outcome (world machine) A) : world machine :=
  match o with Ret _ w _ => w | _ => on_two_pes end.
Definition lines_of {A} (o : outcome (world machine) A) : list event :=
  match o with Ret _ _ l => l | _ => [] end.
Definition test_started : world machine :=
  world_after (val_initialize_test 7 "demo" 2 on_two_pes).
Definition test_checked : world machine := world_after (val_check_for_error 7 2 test_started).

Lemma test_started_run : val_initialize_test 7 "demo" 2 on_two_pes
  = Ret ACS_STATUS_PASS test_started (lines_of (val_initialize_test 7 "demo" 2 on_two_pes)).
Proof. vm_compute. reflexivity. Qed.

Lemma test_checked_run : val_check_for_error 7 2 test_started
  = Ret ACS_STATUS_PASS test_checked (lines_of (val_check_for_error 7 2 test_started)).
Proof. vm_compute. reflexivity. Qed.

Lemma test_started_ready : suite_ready 0x1000 two_slots test_started.
Proof.
  split; [exists two_pes; split; [vm_compute; reflexivity|split; [apply two_pes_wf|done]]|..];
    vm_compute; reflexivity.
Qed.

Lemma suite_books_balance_witness :
  rtc suite_step (false, on_two_pes) (false, test_checked) /\
  g_bsa_tests_total test_checked = 1 /\
  g_bsa_tests_pass test_checked + g_bsa_tests_fail test_checked + 0
    <= g_bsa_tests_total test_checked.
Proof.
  assert (Hrun : rtc suite_step (false, on_two_pes) (false, test_checked)).
  { apply (rtc_l _ _ (true, test_started)).
    - by apply (step_start 0x1000 two_slots 7 "demo" 2 _ _ _ _ on_two_pes_ready ltac:(cbn; lia)
        ltac:(cbn; lia) test_started_run).
    - apply rtc_once. apply (step_check 0x1000 two_slots 7 2 _ _ _ _ test_started_ready
        ltac:(cbn; lia) test_checked_run). }
  split; [exact Hrun|]. split; [vm_compute; reflexivity|].
  exact (suite_books_balance on_two_pes false test_checked eq_refl eq_refl eq_refl Hrun).
Defined.
