(* ===== verification/Pgt.v ===== *)
(** * Translation tables

    src/val/src/acs_pgt.c: building, querying and freeing the stage 1 and stage 2
    translation tables that the SMMU tests hand to the SMMU. Tables are pages of
    64-bit descriptors in the program's own heap. *)

From S2P Require Import Prelude Types World Status Machine.
#[local] Open Scope c_scope.

(** bsa_acs_pgt.h: the two descriptor tests, on their raw value. *)
Definition IS_PGT_ENTRY_PAGE (val : Z) : bool := truthy (Z.land val 0x2).
Definition IS_PGT_ENTRY_BLOCK (val : Z) : bool := negb (truthy (Z.land val 0x2)).
Definition PGT_DESC_ATTRIBUTES (val : Z) : Z := Z.land val PGT_DESC_ATTRIBUTES_MASK.

Definition get_min (a b : Z) : Z := if a <? b then a else b.

Record tt_descriptor_t := mkTT {
  tt_base : Z; input_base : Z; input_top : Z; output_base : Z;
  tt_level : Z; size_log2 : Z; nbits : Z }.

Section pgt.
Context {D : Type} `{Platform D}.

#[local] Abbreviation M := (M (world D)).

Definition PGT_DEBUG_LEVEL : Z := ACS_PRINT_INFO.

(** One call fills the entries of one table; [depth] bounds the recursion and
    [fuel] the entries visited by each call. [~(page_size - 1)] is a 32-bit value,
    so the mask it makes drops the upper half of an address; [~(block_size - 1)]
    is a 64-bit one. Each descriptor is built in place by [=] and [|=]; only the
    last of those stores is kept here. *)
Fixpoint fill_translation_table (depth fuel : nat) (tt_desc : tt_descriptor_t)
    (mem_desc : memory_region_descriptor_t) {struct depth} : M Z :=
  match depth with
  | O => out_of_fuel
  | S depth' =>
  let block_size := u64 (Z.shiftl 1 (size_log2 tt_desc)) in
  val_print PGT_DEBUG_LEVEL "\n      tt_desc.level: %d     " (tt_level tt_desc) ;;
  val_print PGT_DEBUG_LEVEL "\n      tt_desc.input_base: 0x%llx     " (input_base tt_desc) ;;
  val_print PGT_DEBUG_LEVEL "\n      tt_desc.input_top: 0x%llx     " (input_top tt_desc) ;;
  val_print PGT_DEBUG_LEVEL "\n      tt_desc.output_base: 0x%llx     " (output_base tt_desc) ;;
  val_print PGT_DEBUG_LEVEL "\n      tt_desc.size_log2: %d     " (size_log2 tt_desc) ;;
  val_print PGT_DEBUG_LEVEL "\n      tt_desc.nbits: %d     " (nbits tt_desc) ;;
  while_ fuel (fun '(input_address, output_address) =>
    if input_address <? input_top tt_desc then
      let next := Continue (u64 (input_address + block_size), u64 (output_address + block_size)) in
      let table_index :=
        Z.land (Z.shiftr input_address (size_log2 tt_desc))
          (u64 (Z.shiftl 1 (nbits tt_desc) - 1)) in
      let table_desc := tt_base tt_desc + 8 * table_index in
      val_print PGT_DEBUG_LEVEL "\n      table_index = %d     " table_index ;;
      let* ps := gets page_size in
      if tt_level tt_desc =? 3 then
        let d := Z.lor (Z.lor (Z.lor PGT_ENTRY_PAGE_MASK PGT_ENTRY_VALID_MASK)
                          (Z.land output_address (not32 (ps - 1)))) (attributes mem_desc) in
        store64 table_desc d ;;
        val_print PGT_DEBUG_LEVEL "\n      page_descriptor = 0x%llx     " d ;;
        ret next
      else if (Z.land input_address (block_size - 1) =? 0)
           && (Z.land output_address (block_size - 1) =? 0)
           && (u64 (input_address + block_size - 1) <=? input_top tt_desc) then
        let d := Z.lor (Z.lor (Z.lor PGT_ENTRY_BLOCK_MASK PGT_ENTRY_VALID_MASK)
                          (Z.land output_address (not64 (block_size - 1)))) (attributes mem_desc) in
        store64 table_desc d ;;
        val_print PGT_DEBUG_LEVEL "\n      block_descriptor = 0x%llx     " d ;;
        ret next
      else
        let* cur := load64 table_desc in
        let* base :=
          if (cur =? 0) || IS_PGT_ENTRY_BLOCK cur then
            let* p := val_memory_alloc_pages 1 in
            if p =? 0 then
              val_print ACS_PRINT_ERR
                "\n      fill_translation_table: page allocation failed     " 0 ;;
              ret None
            else
              val_memory_set p ps 0 ;;
              ret (Some p)
          else
            let* mask := gets pgt_addr_mask in
            ret (Some (val_memory_phys_to_virt (Z.land cur mask))) in
        match base with
        | None => ret (Break ACS_STATUS_ERR)
        | Some tt_base_next_level =>
            let* bpl := gets bits_per_level in
            let* r := fill_translation_table depth' fuel
              (mkTT tt_base_next_level input_address
                 (get_min (input_top tt_desc) (u64 (input_address + block_size - 1)))
                 output_address (u32 (tt_level tt_desc + 1))
                 (u32 (size_log2 tt_desc - bpl)) bpl) mem_desc in
            if truthy r then
              val_memory_free_pages tt_base_next_level 1 ;;
              ret (Break ACS_STATUS_ERR)
            else
              let d := Z.lor (Z.lor PGT_ENTRY_TABLE_MASK PGT_ENTRY_VALID_MASK)
                         (Z.land (val_memory_virt_to_phys tt_base_next_level) (not32 (ps - 1))) in
              store64 table_desc d ;;
              val_print PGT_DEBUG_LEVEL "\n      table_descriptor = 0x%llx     " d ;;
              ret next
        end
    else ret (Break 0)) (input_base tt_desc, output_base tt_desc)
  end.

(** At most 64 rounds: the value is 64 bits wide. *)
Fixpoint log2_page_size_from (n : nat) (size bit : Z) : Z :=
  match n with
  | O => 0
  | S n =>
      if truthy size then
        if truthy (Z.land size 1) then bit else log2_page_size_from n (Z.shiftr size 1) (bit + 1)
      else 0
  end.
Definition log2_page_size (size : Z) : Z := log2_page_size_from 65 (u64 size) 0.

(** The loop walks the regions with an iterator of its own but maps, every time,
    the first region of the array; the array is handed back because its first
    address may have been truncated in place. *)
Definition val_pgt_create (fuel : nat) (mem_desc : list memory_region_descriptor_t)
    (pgt_desc : pgt_descriptor_t)
  : M (Z * list memory_region_descriptor_t * pgt_descriptor_t) :=
  modify (set_page_size val_memory_page_size) ;;
  let* ps := gets page_size in
  let page_size_log2 := log2_page_size ps in
  modify (set_bits_per_level (u32 (page_size_log2 - 3))) ;;
  let* bpl := gets bits_per_level in
  let num_pgt_levels := u32 (pgt_ias pgt_desc - page_size_log2 + bpl - 1) / bpl in
  val_print PGT_DEBUG_LEVEL "\n      val_pgt_create: nbits_per_level = %d    " bpl ;;
  val_print PGT_DEBUG_LEVEL "\n      val_pgt_create: page_size_log2 = %d     " page_size_log2 ;;
  let* base := val_memory_alloc_pages 1 in
  if base =? 0 then
    val_print ACS_PRINT_ERR "\n      val_pgt_create: page allocation failed     " 0 ;;
    ret (ACS_STATUS_ERR, mem_desc, pgt_desc)
  else
  val_memory_set base ps 0 ;;
  modify (set_pgt_addr_mask
    (u64 (Z.shiftl (Z.shiftl 1 (48 - page_size_log2) - 1) page_size_log2))) ;;
  let ias_mask := u64 (Z.shiftl 1 (pgt_ias pgt_desc) - 1) in
  let oas_mask := u64 (Z.shiftl 1 (pgt_oas pgt_desc) - 1) in
  let* ' (st, mem_desc) := while_ fuel (fun '(i, mem_desc) =>
    let* it := need (mem_desc !! i) in
    if region_length it =? 0 then ret (Break (0, mem_desc)) else
    let* m := need (mem_desc !! 0%nat) in
    val_print PGT_DEBUG_LEVEL "      val_pgt_create: input addr = 0x%x     " (virtual_address m) ;;
    val_print PGT_DEBUG_LEVEL "      val_pgt_create: output addr = 0x%x     " (physical_address m) ;;
    val_print PGT_DEBUG_LEVEL "      val_pgt_create: length = 0x%x\n     " (region_length m) ;;
    if negb (Z.land (virtual_address m) (ps - 1) =? 0)
       || negb (Z.land (physical_address m) (ps - 1) =? 0) then
      val_print ACS_PRINT_ERR "\n      val_pgt_create: address alignment error     " 0 ;;
      ret (Break (ACS_STATUS_ERR, mem_desc))
    else if u64 (Z.shiftl 1 (pgt_oas pgt_desc)) <=? physical_address m then
      val_print ACS_PRINT_ERR "\n      val_pgt_create: output address size error     " 0 ;;
      ret (Break (ACS_STATUS_ERR, mem_desc))
    else
    let* mem_desc :=
      if u64 (Z.shiftl 1 (pgt_ias pgt_desc)) <=? virtual_address m then
        val_print ACS_PRINT_WARN
          "\n      val_pgt_create: input address size error, truncating to %d-bits     "
          (pgt_ias pgt_desc) ;;
        ret (<[0%nat := mkRegion (physical_address m) (Z.land (virtual_address m) ias_mask)
                          (region_length m) (attributes m)]> mem_desc)
      else ret mem_desc in
    let* m := need (mem_desc !! 0%nat) in
    if negb (tcr_tg_size_log2 (pgt_tcr pgt_desc) =? page_size_log2) then
      val_print ACS_PRINT_ERR "\n      val_pgt_create: input page_size 0x%x not supported     "
        (Z.shiftl 1 (tcr_tg_size_log2 (pgt_tcr pgt_desc))) ;;
      ret (Break (ACS_STATUS_ERR, mem_desc))
    else
    let input_base := Z.land (virtual_address m) ias_mask in
    let size_log2 := u32 ((num_pgt_levels - 1) * bpl + page_size_log2) in
    let* r := fill_translation_table 5 fuel
      (mkTT base input_base (u64 (input_base + region_length m - 1))
         (Z.land (physical_address m) oas_mask) (u32 (4 - num_pgt_levels)) size_log2
         (u32 (pgt_ias pgt_desc - size_log2))) m in
    if truthy r then
      val_memory_free_pages base 1 ;;
      ret (Break (ACS_STATUS_ERR, mem_desc))
    else ret (Continue (S i, mem_desc))) (0%nat, mem_desc) in
  if truthy st then ret (st, mem_desc, pgt_desc)
  else
    ret (0, mem_desc,
      mkPgt (val_memory_virt_to_phys base) (pgt_ias pgt_desc) (pgt_oas pgt_desc)
        (pgt_mair pgt_desc) (pgt_stage pgt_desc) (pgt_tcr pgt_desc)).

(** The second component is what is written to [*attributes], if anything; the
    [attributes] argument says whether the pointer is not NULL. *)
Definition val_pgt_get_attributes (fuel : nat) (pgt_desc : pgt_descriptor_t)
    (virtual_address : Z) (attributes : bool) : M (Z * option Z) :=
  let page_size_log2 := tcr_tg_size_log2 (pgt_tcr pgt_desc) in
  if negb attributes then ret (ACS_STATUS_ERR, None)
  else if negb (truthy (pgt_base pgt_desc)) then ret (ACS_STATUS_ERR, None)
  else
  let ias := u32 (64 - tcr_tsz (pgt_tcr pgt_desc)) in
  modify (set_bits_per_level (u32 (page_size_log2 - 3))) ;;
  let* bpl := gets bits_per_level in
  let num_pgt_levels := u32 (ias - page_size_log2 + bpl - 1) / bpl in
  let bits_remaining := u32 ((num_pgt_levels - 1) * bpl + page_size_log2) in
  while_ fuel (fun '(this_level, bits_remaining, bits_at_this_level, tt_base_phys) =>
    let index := u32 (Z.land (Z.shiftr virtual_address bits_remaining)
                        (u32 (Z.shiftl 1 bits_at_this_level - 1))) in
    let tt_base_virt := val_memory_phys_to_virt tt_base_phys in
    let* val64 := load64 (tt_base_virt + 8 * index) in
    val_print PGT_DEBUG_LEVEL "\n      val_pgt_get_attributes: this_level = %d     " this_level ;;
    val_print PGT_DEBUG_LEVEL "\n      val_pgt_get_attributes: index = %d     " index ;;
    val_print PGT_DEBUG_LEVEL "\n      val_pgt_get_attributes: bits_remaining = %d     "
      bits_remaining ;;
    val_print PGT_DEBUG_LEVEL "\n      val_pgt_get_attributes: tt_base_virt = %x     "
      tt_base_virt ;;
    val_print PGT_DEBUG_LEVEL "\n      val_pgt_get_attributes: val64 = %x     " val64 ;;
    if this_level =? 3 then
      if negb (IS_PGT_ENTRY_PAGE val64) then ret (Break (ACS_STATUS_ERR, None))
      else ret (Break (0, Some (PGT_DESC_ATTRIBUTES val64)))
    else if IS_PGT_ENTRY_BLOCK val64 then
      ret (Break (0, Some (PGT_DESC_ATTRIBUTES val64)))
    else
      ret (Continue (u32 (this_level + 1), u32 (bits_remaining - bits_at_this_level), bpl,
        Z.land val64 (u64 (Z.shiftl (Z.shiftl 1 (ias - page_size_log2) - 1) page_size_log2)))))
    (u32 (4 - num_pgt_levels), bits_remaining, u32 (ias - bits_remaining), pgt_base pgt_desc).

(** [depth] bounds the recursion: each level is one deeper and level 3 stops. *)
Fixpoint free_translation_table (depth : nat) (tt_base bits_at_this_level this_level : Z)
  : M () :=
  match depth with
  | O => out_of_fuel
  | S depth' =>
      if this_level =? 3 then ret tt
      else
      for_each (Z.to_nat (Z.shiftl 1 bits_at_this_level)) 0 (fun index =>
        let* e := load64 (tt_base + 8 * index) in
        if truthy e then
          if IS_PGT_ENTRY_BLOCK e then ret tt
          else
            let* mask := gets pgt_addr_mask in
            let tt_base_next_virt := val_memory_phys_to_virt (Z.land e mask) in
            if tt_base_next_virt =? 0 then ret tt
            else
              let* bpl := gets bits_per_level in
              free_translation_table depth' tt_base_next_virt bpl (u32 (this_level + 1)) ;;
              val_print PGT_DEBUG_LEVEL
                "\n      free_translation_table: tt_base_next_virt = %llx     "
                tt_base_next_virt ;;
              val_memory_free_pages tt_base_next_virt 1
        else ret tt)
  end.

Definition val_pgt_destroy (pgt_desc : pgt_descriptor_t) : M () :=
  let pgt_base_virt := val_memory_phys_to_virt (pgt_base pgt_desc) in
  if negb (truthy (pgt_base pgt_desc)) then ret tt
  else
  val_print PGT_DEBUG_LEVEL "\n      val_pgt_destroy: pgt_base = %llx     " (pgt_base pgt_desc) ;;
  modify (set_page_size val_memory_page_size) ;;
  let* ps := gets page_size in
  let page_size_log2 := log2_page_size ps in
  modify (set_bits_per_level (u32 (page_size_log2 - 3))) ;;
  let* bpl := gets bits_per_level in
  modify (set_pgt_addr_mask
    (u64 (Z.shiftl (Z.shiftl 1 (pgt_ias pgt_desc - page_size_log2) - 1) page_size_log2))) ;;
  let num_pgt_levels := u32 (pgt_ias pgt_desc - page_size_log2 + bpl - 1) / bpl in
  free_translation_table 5 pgt_base_virt
    (u32 (pgt_ias pgt_desc - ((num_pgt_levels - 1) * bpl + page_size_log2)))
    (u32 (4 - num_pgt_levels)) ;;
  val_memory_free_pages pgt_base_virt 1.
End pgt.
