(* ===== verification/PgtMap.v ===== *)
(** * Mapping a region and asking for its attributes

    What src/val/src/acs_pgt.c promises to the SMMU tests: after
    [val_pgt_create], walking the tables from the root leads, for every address of
    the region, to a page descriptor with the region's output address and
    attributes, and [val_pgt_get_attributes] reads them back. The tables are pages
    of an explicit heap; what may be assumed of the allocator is [AllocLaws]. *)

From S2P Require Import Prelude Types World Status Machine Pgt.
#[local] Open Scope c_scope.

(** ** Walking the tables *)

(** [k] is the number of levels below the table at hand, so the level is [3 - k];
    an entry of it covers [2 ^ (12 + 9 * k)] bytes and the table has [2 ^ nb] of
    them. *)
Definition entry_log2 (k : nat) : Z := 12 + 9 * Z.of_nat k.
Definition entry_index (k : nat) (nb va : Z) : Z := va / 2 ^ entry_log2 k mod 2 ^ nb.

(** A table below 4 GiB: [fill_translation_table] keeps 32 bits of its address. *)
Definition table_page (p : Z) : Prop := 0 < p /\ p + 4096 <= 2 ^ 32 /\ p mod 4096 = 0.

Definition table_entry_of (next : Z) : Z := next + 3.

(** From the table at [base], the walk for [va] goes through the tables [bs] and
    ends at the descriptor [d]. [h] is the heap and [r] what it holds. *)
Inductive walks (r h : gmap Z Z) : nat -> Z -> Z -> Z -> Z -> list Z -> Prop :=
| walk_page nb base va d :
    h !! base = Some 4096 -> r !! (base + 8 * entry_index 0 nb va) = Some d ->
    walks r h 0 nb base va d [base]
| walk_table k nb base va d next bs :
    h !! base = Some 4096 ->
    r !! (base + 8 * entry_index (S k) nb va) = Some (table_entry_of next) ->
    table_page next -> walks r h k 9 next va d bs ->
    walks r h (S k) nb base va d (base :: bs).

Lemma walks_frame r h r' h' k nb base va d bs :
  0 <= nb <= 9 -> walks r h k nb base va d bs ->
  (forall b a, b ∈ bs -> b <= a < b + 4096 -> r' !! a = r !! a) ->
  (forall b, b ∈ bs -> h !! b = Some 4096 -> h' !! b = Some 4096) ->
  walks r' h' k nb base va d bs.
Proof.
  intros Hnb Hw. revert Hnb.
  assert (Hi : forall k nb va, 0 <= nb <= 9 -> 0 <= entry_index k nb va < 512).
  { intros j m x Hm. unfold entry_index. pose proof (Z.mod_pos_bound (x / 2 ^ entry_log2 j) (2 ^ m)).
    pose proof (Z.pow_pos_nonneg 2 m). assert (2 ^ m <= 2 ^ 9) by (apply Z.pow_le_mono_r; lia). pow2. lia. }
  induction Hw as [nb base va d Hb Hd|k nb base va d next bs Hb Hd Hp Hw IH]; intros Hnb Hr Hh.
  - constructor; [apply Hh; [left|done]|].
    rewrite (Hr base); [done|left|]. specialize (Hi 0%nat nb va Hnb). lia.
  - apply (walk_table _ _ _ _ _ _ _ next); [apply Hh; [left|done]| |done|].
    + rewrite (Hr base); [done|left|]. specialize (Hi (S k) nb va Hnb). lia.
    + apply IH; [lia| |]; intros b; [intros a|]; intros Hin; [apply Hr|apply Hh]; by right.
Qed.

(** The descriptor of a page: 32 bits of its address are kept. *)
Definition page_entry_of (out attrs : Z) : Z := Z.lor (Z.lor 3 (Z.land out 0xFFFFF000)) attrs.

(** ** Pages of the heap *)

Lemma live_page h p k : h !! p = Some 4096 -> 0 <= k < 512 -> live h (p + 8 * k) = true.
Proof.
  intros Hp Hk. apply (live_block _ p 4096); [exact Hp|lia|lia].
Qed.

(** [n] pages can be allocated one after the other, all below 4 GiB. *)
Fixpoint can_alloc {D} `{Platform D} (n : nat) (h : gmap Z Z) (d : D) : Prop :=
  match n with
  | O => True
  | S n => exists p d', bs_allocate_pages 1 h d = (inr p, d') /\ p + 4096 <= 2 ^ 32 /\
                        can_alloc n (<[p := 4096]> h) d'
  end.

Section pages.
Context {D : Type} `{Platform D} `{!AllocLaws D}.

#[local] Abbreviation M := (M (world D)).

(** What allocating and clearing a table page does. *)
Lemma wp_store_page p k v (w : world D) (Q : () -> world D -> Prop) :
  heap w !! p = Some 4096 -> p mod 4096 = 0 -> 0 <= k < 512 ->
  Q tt (set_ram (<[p + 8 * k := u64 v]> (ram w)) w) -> wp (store64 (p + 8 * k) v) w Q.
Proof.
  intros Hp Hal Hk HQ. apply wp_store64; [by apply live_page| |done]. divmod.
Qed.

Lemma wp_load_page p k v (w : world D) (Q : Z -> world D -> Prop) :
  heap w !! p = Some 4096 -> p mod 4096 = 0 -> 0 <= k < 512 ->
  ram w !! (p + 8 * k) = Some v -> Q v w -> wp (load64 (p + 8 * k)) w Q.
Proof.
  intros Hp Hal Hk Hv HQ. apply (wp_load64 _ v); [by apply live_page| |done..]. divmod.
Qed.

Definition zero_page (r : gmap Z Z) (p : Z) : Prop :=
  forall k, 0 <= k < 512 -> r !! (p + 8 * k) = Some 0.

Lemma wp_clear_page p (w : world D) (Q : () -> world D -> Prop) :
  heap w !! p = Some 4096 -> p mod 4096 = 0 ->
  (forall r, zero_page r p -> (forall a, ~ p <= a < p + 4096 -> r !! a = ram w !! a) ->
     Q tt (set_ram r w)) ->
  wp (val_memory_set p 4096 0) w Q.
Proof.
  intros Hp Hal HQ. change 4096 with (8 * 512).
  apply (wp_memory_zero p 512 p 4096); [exact Hp|lia|lia|divmod|lia|lia|exact HQ].
Qed.

Lemma wp_alloc_page (w : world D) n (Q : Z -> world D -> Prop) :
  can_alloc (S n) (heap w) (dev w) ->
  (forall p d', table_page p -> block_free (heap w) p 4096 ->
     can_alloc n (<[p := 4096]> (heap w)) d' ->
     Q p (set_heap (<[p := 4096]> (heap w)) (set_dev d' w))) ->
  wp (val_memory_alloc_pages 1) w Q.
Proof.
  intros (p & d' & Hal & Hlim & Hc) HQ.
  pose proof (allocate_pages_law 1 (heap w) (dev w) p d' ltac:(lia) Hal) as (H1 & H2 & H3 & H4).
  unfold val_memory_alloc_pages, pal_mem_alloc_pages. wp_steps. apply wp_from_dev. rewrite Hal.
  cbn [fst snd]. wp_steps. by apply HQ.
Qed.

(** ** Filling a table *)

(** The parts of the state the mapping changes. *)
Definition at_ (w : world D) (h r : gmap Z Z) (d : D) : world D := set_ram r (set_heap h (set_dev d w)).

Lemma table_index_eq ia n nb :
  0 <= n -> 0 <= nb <= 9 ->
  Z.land (Z.shiftr ia n) (u64 (Z.shiftl 1 nb - 1)) = ia / 2 ^ n mod 2 ^ nb.
Proof.
  intros Hn Hnb. assert (2 ^ nb <= 2 ^ 9) by (apply Z.pow_le_mono_r; lia).
  pose proof (Z.pow_pos_nonneg 2 nb ltac:(lia) ltac:(lia)).
  rewrite Z.shiftl_1_l, u64_id, <- Z.shiftr_div_pow2, <- Z.land_ones by (try lia; unfold fits; pow2; lia).
  by rewrite Z.ones_equiv, <- Z.sub_1_r.
Qed.

Lemma page_entry_fits out attrs : fits 64 attrs -> fits 64 (page_entry_of out attrs).
Proof.
  intros Ha. unfold page_entry_of. apply fits_lor; [lia| |done].
  apply fits_lor; [lia|by split|]. apply fits_land_r; [by split|lia].
Qed.

Lemma index_shift ib n nb i :
  0 <= ib -> ib mod 4096 = 0 -> 0 <= nb -> ib / 2 ^ 12 mod 2 ^ nb + n <= 2 ^ nb -> 0 <= i < n ->
  (ib + 4096 * i) / 2 ^ 12 mod 2 ^ nb = ib / 2 ^ 12 mod 2 ^ nb + i.
Proof.
  intros Hib Hal Hnb Hn Hi. replace ((ib + 4096 * i) / 2 ^ 12) with (ib / 2 ^ 12 + i) by divmod.
  pose proof (Z.mod_pos_bound (ib / 2 ^ 12) (2 ^ nb) ltac:(apply Z.pow_pos_nonneg; lia)).
  symmetry. apply (Z.mod_unique_pos _ _ (ib / 2 ^ 12 / 2 ^ nb)); [lia|].
  rewrite (Z.div_mod (ib / 2 ^ 12) (2 ^ nb)) at 1 by lia. lia.
Qed.

Lemma wp_fill_pages w h r d base nb ib ob n m depth fuel (Q : Z -> world D -> Prop) :
  page_size w = 4096 -> h !! base = Some 4096 -> base mod 4096 = 0 -> 0 <= nb <= 9 ->
  0 <= ib -> ib mod 4096 = 0 -> 0 < n -> ib + 4096 * n <= 2 ^ 48 ->
  0 <= ob -> ob + 4096 * n < 2 ^ 64 -> ib / 2 ^ 12 mod 2 ^ nb + n <= 2 ^ nb ->
  fits 64 (attributes m) -> (Z.to_nat n < fuel)%nat ->
  (forall r',
     (forall i, 0 <= i < n -> r' !! (base + 8 * (ib / 2 ^ 12 mod 2 ^ nb + i)) =
                              Some (page_entry_of (ob + 4096 * i) (attributes m))) ->
     (forall a, ~ base <= a < base + 4096 -> r' !! a = r !! a) ->
     Q 0 (at_ w h r' d)) ->
  wp (fill_translation_table (S depth) fuel (mkTT base ib (ib + 4096 * n - 1) ob 3 12 nb) m)
    (at_ w h r d) Q.
Proof.
  intros Hps Hb Hal Hnb Hib Hibal Hn Hitop Hob Hotop Hidx Hattr Hfuel HQ.
  pose proof (Z.mod_pos_bound (ib / 2 ^ 12) (2 ^ nb) ltac:(apply Z.pow_pos_nonneg; lia)) as Hi0.
  assert (Hnb9 : 2 ^ nb <= 2 ^ 9) by (apply Z.pow_le_mono_r; lia).
  cbn [fill_translation_table size_log2 tt_level input_base input_top output_base nbits tt_base].
  change (u64 (Z.shiftl 1 12)) with 4096. change (3 =? 3) with true.
  do 6 (io_step; apply wp_val_print).
  apply (wp_while
    (fun '(ia, oa) s => exists j r', 0 <= j <= n /\ ia = ib + 4096 * j /\ oa = ob + 4096 * j /\
       s = at_ w h r' d /\
       (forall i, 0 <= i < j -> r' !! (base + 8 * (ib / 2 ^ 12 mod 2 ^ nb + i)) =
                                Some (page_entry_of (ob + 4096 * i) (attributes m))) /\
       (forall a, ~ base <= a < base + 4096 -> r' !! a = r !! a))
    (fun '(ia, _) _ => Z.to_nat (n - (ia - ib) / 4096))).
  - exists 0, r. repeat split; try lia.
  - rewrite Z.sub_diag. change (0 / 4096) with 0. by rewrite Z.sub_0_r.
  - intros [ia oa] s (j & r' & Hj & -> & -> & -> & Hr & Hf).
    destruct (Z.ltb_spec (ib + 4096 * j) (ib + 4096 * n - 1)) as [Hlt|Hge].
    + assert (Hjn : j < n) by lia. io_step. apply wp_val_print. io_step. io_step.
      change (page_size (at_ w h r' d)) with (page_size w). rewrite Hps.
      change (not32 (4096 - 1)) with 0xFFFFF000. cbv beta iota zeta.
      rewrite table_index_eq, (index_shift ib n) by (lia || done).
      io_step. apply wp_store_page; [done|done|lia|]. cbn beta iota.
      io_step. apply wp_val_print. wp_step.
      change (Z.lor (Z.lor (Z.lor PGT_ENTRY_PAGE_MASK PGT_ENTRY_VALID_MASK)
        (Z.land (ob + 4096 * j) 4294963200)) (attributes m))
        with (page_entry_of (ob + 4096 * j) (attributes m)).
      rewrite (u64_id (page_entry_of _ _)) by (by apply page_entry_fits). split.
      * exists (j + 1), (<[base + 8 * (ib / 2 ^ 12 mod 2 ^ nb + j) :=
                           page_entry_of (ob + 4096 * j) (attributes m)]> r').
        split; [lia|]. split; [rewrite u64_id; [lia|unfold fits; pow2; lia]|].
        split; [rewrite u64_id; [lia|unfold fits; pow2; lia]|]. split; [done|]. split.
        -- intros i Hi. destruct (decide (i = j)) as [->|Hne]; [by rewrite lookup_insert_eq|].
           rewrite lookup_insert_ne by lia. apply Hr. lia.
        -- intros a Ha. rewrite lookup_insert_ne by (pow2; lia). by apply Hf.
      * rewrite u64_id by (unfold fits; pow2; lia).
        replace (ib + 4096 * j + 4096 - ib) with ((j + 1) * 4096) by lia.
        replace (ib + 4096 * j - ib) with (j * 4096) by lia. rewrite !Z.div_mul by lia. lia.
    + wp_step. apply HQ; [|done]. intros i Hi. apply Hr. lia.
Qed.

(** What a run of [fill_translation_table] leaves: the old blocks are still there,
    their contents unchanged outside the table being filled, and every page of the
    region is reached through tables that are new. *)
Definition held (h : gmap Z Z) (a : Z) : Prop := exists q n, h !! q = Some n /\ q <= a < q + n.

Definition filled (h r h' r' : gmap Z Z) (k : nat) (nb base ib ob n attrs : Z) : Prop :=
  (forall q m, h !! q = Some m -> 0 < m -> h' !! q = Some m) /\
  (forall a, held h a -> ~ base <= a < base + 4096 -> r' !! a = r !! a) /\
  (forall va, ib <= va < ib + 4096 * n -> exists bs,
     walks r' h' k nb base va (page_entry_of (ob + 4096 * ((va - ib) / 4096)) attrs) (base :: bs) /\
     Forall (fun b => block_free h b 4096) bs).

(** A region inside one 2 MiB block, smaller than the block. *)
Record small_region (ib ob n : Z) : Prop := {
  sr_in : 0 <= ib; sr_in_aligned : ib mod 4096 = 0; sr_pages : 0 < n < 512;
  sr_in_top : ib + 4096 * n <= 2 ^ 48; sr_out : 0 <= ob; sr_out_top : ob + 4096 * n < 2 ^ 64;
  sr_block : ib / 2 ^ 21 = (ib + 4096 * n - 1) / 2 ^ 21 }.

Lemma small_region_last_index ib ob n :
  small_region ib ob n -> ib / 2 ^ 12 mod 2 ^ 9 + n <= 2 ^ 9.
Proof. intros []. divmod. Qed.

Lemma small_region_same_entry ib ob n k nb va :
  small_region ib ob n -> ib <= va < ib + 4096 * n ->
  entry_index (S k) nb va = entry_index (S k) nb ib.
Proof.
  intros [] Hva. unfold entry_index, entry_log2. f_equal.
  replace (12 + 9 * Z.of_nat (S k)) with (21 + 9 * Z.of_nat k) by lia.
  rewrite Z.pow_add_r, <- !Z.div_div by (try apply Z.pow_pos_nonneg; lia). f_equal. divmod.
Qed.

Lemma table_entry_word p :
  table_page p ->
  u64 (Z.lor (Z.lor PGT_ENTRY_TABLE_MASK PGT_ENTRY_VALID_MASK) (Z.land p 0xFFFFF000)) =
  table_entry_of p.
Proof.
  intros (H0 & H1 & H2). change (Z.lor PGT_ENTRY_TABLE_MASK PGT_ENTRY_VALID_MASK) with 3.
  assert (E : Z.land p 0xFFFFF000 = p).
  { replace p with (Z.shiftl (p / 2 ^ 12) 12) by (rewrite Z.shiftl_mul_pow2 by done; divmod).
    change 0xFFFFF000 with (Z.shiftl (Z.ones 20) 12). rewrite <- Z.shiftl_land, Z.land_ones by done.
    f_equal. divmod. }
  rewrite E, Z.lor_comm. replace p with (Z.shiftl (p / 2 ^ 12) 12) at 1
    by (rewrite Z.shiftl_mul_pow2 by done; divmod).
  rewrite lor_shiftl_add by (done || by split). unfold table_entry_of.
  rewrite u64_id by (unfold fits; divmod). divmod.
Qed.

(** Putting a new table in place keeps what is below it. *)
Lemma filled_step h r1 r h' r' d1 p k nb base ib ob n attrs :
  h !! base = Some 4096 -> 0 <= nb <= 9 -> small_region ib ob n -> table_page p ->
  block_free h p 4096 ->
  (forall a, ~ p <= a < p + 4096 -> r1 !! a = r !! a) ->
  filled (<[p := 4096]> h) r1 h' r' k 9 p ib ob n attrs -> d1 = table_entry_of p ->
  filled h r h' (<[base + 8 * entry_index (S k) nb ib := d1]> r') (S k) nb base ib ob n attrs.
Proof.
  intros Hb Hnb Hsr Hp Hfree Hr1 (Hh & Hfr & Hw) ->.
  assert (Hidx : 0 <= entry_index (S k) nb ib < 512).
  { unfold entry_index. pose proof (Z.mod_pos_bound (ib / 2 ^ entry_log2 (S k)) (2 ^ nb)
      ltac:(apply Z.pow_pos_nonneg; lia)). assert (2 ^ nb <= 2 ^ 9) by (apply Z.pow_le_mono_r; lia).
    pow2. lia. }
  assert (Hpb : p + 4096 <= base \/ base + 4096 <= p) by exact (Hfree base 4096 Hb).
  assert (Hheld : forall q m, h !! q = Some m -> 0 < m -> q <> p).
  { intros q m Hq Hm ->. destruct (Hfree p m Hq); lia. }
  assert (Hh1 : forall q m, h !! q = Some m -> 0 < m -> <[p := 4096]> h !! q = Some m).
  { intros q m Hq Hm. rewrite lookup_insert_ne by (symmetry; by eapply Hheld). done. }
  assert (Hfree1 : forall b, block_free (<[p := 4096]> h) b 4096 -> block_free h b 4096).
  { intros b Hb1 q m Hq. destruct (decide (q = p)) as [->|Hne].
    - pose proof (Hb1 p 4096 (lookup_insert_eq h p 4096)). destruct (Hfree p m Hq); lia.
    - apply Hb1. by rewrite lookup_insert_ne. }
  split; [|split].
  - intros q m Hq Hm. apply Hh; [by apply Hh1|done].
  - intros a (q & m & Hq & Ha) Hnb'. rewrite lookup_insert_ne by lia.
    assert (~ p <= a < p + 4096) by (destruct (Hfree q m Hq); lia).
    rewrite Hfr; [by apply Hr1| |done]. exists q, m. split; [apply Hh1; [done|lia]|done].
  - intros va Hva. destruct (Hw va Hva) as (bs & Hwalk & Hbs). exists (p :: bs). split.
    + apply (walk_table _ _ _ _ _ _ _ p); [apply Hh; [apply Hh1; [done|lia]|lia]| |done|].
      * rewrite (small_region_same_entry ib ob n k nb va) by done. by rewrite lookup_insert_eq.
      * apply (walks_frame r' h'); [lia|done| |done].
        intros b a Hin Ha. rewrite lookup_insert_ne; [done|].
        apply elem_of_cons in Hin as [->|Hin]; [lia|].
        rewrite Forall_forall in Hbs. specialize (Hbs b Hin).
        pose proof (Hbs base 4096 (Hh1 base 4096 Hb ltac:(lia))). lia.
    + constructor; [done|]. eapply Forall_impl; [exact Hbs|]. by apply Hfree1.
Qed.

Lemma entry_size k : (k <= 3)%nat -> u64 (Z.shiftl 1 (entry_log2 k)) = 2 ^ entry_log2 k.
Proof.
  intros Hk. rewrite Z.shiftl_1_l. apply u64_id. unfold entry_log2.
  split; [apply Z.pow_nonneg; lia|]. apply Z.pow_lt_mono_r; lia.
Qed.

Lemma entry_size_bounds k : (k <= 2)%nat -> 2 ^ 21 <= 2 ^ entry_log2 (S k) <= 2 ^ 39.
Proof. intros Hk. unfold entry_log2. split; apply Z.pow_le_mono_r; lia. Qed.

Lemma wp_fill k w h r d base nb ib ob n m depth fuel (Q : Z -> world D -> Prop) :
  page_size w = 4096 -> bits_per_level w = 9 -> (k <= 3)%nat ->
  h !! base = Some 4096 -> base mod 4096 = 0 -> 0 <= nb <= 9 -> (k = 0%nat -> nb = 9) ->
  zero_page r base -> can_alloc k h d -> small_region ib ob n -> fits 64 (attributes m) ->
  (k < depth)%nat -> (512 < fuel)%nat ->
  (forall h' r' d', filled h r h' r' k nb base ib ob n (attributes m) -> Q 0 (at_ w h' r' d')) ->
  wp (fill_translation_table depth fuel
        (mkTT base ib (ib + 4096 * n - 1) ob (3 - Z.of_nat k) (entry_log2 k) nb) m)
    (at_ w h r d) Q.
Proof.
  intros Hps Hbpl. revert h r d base nb depth Q.
  induction k as [|k IH]; intros h r d base nb depth Q Hk Hb Hal Hnb Hnb0 Hz Hc Hsr Hat Hd Hf HQ;
    (destruct depth as [|depth]; [lia|]).
  - rewrite (Hnb0 eq_refl). pose proof (small_region_last_index _ _ _ Hsr). destruct Hsr.
    apply wp_fill_pages; try done; try lia.
    intros r' Hr Hfr. apply HQ. split; [done|]. split; [by intros a _; apply Hfr|].
    intros va Hva. exists []. split; [|done]. constructor; [done|].
    set (i := (va - ib) / 4096). assert (Hi : 0 <= i < n) by (subst i; divmod).
    rewrite <- (Hr i Hi). rewrite (Hnb0 eq_refl). unfold entry_index, entry_log2.
    change (12 + 9 * Z.of_nat 0) with 12. do 2 f_equal.
    replace (va / 2 ^ 12) with ((ib + 4096 * i) / 2 ^ 12) by (subst i; divmod).
    f_equal. by apply (index_shift ib n).
  - cbn [fill_translation_table size_log2 tt_level input_base input_top output_base nbits tt_base].
    rewrite entry_size by done. pose proof (entry_size_bounds k ltac:(lia)) as Hbs.
    set (bs := 2 ^ entry_log2 (S k)) in *. destruct fuel as [|[|fuel]]; [lia..|].
    rewrite (proj2 (Z.eqb_neq (3 - Z.of_nat (S k)) 3)) by lia.
    do 6 (io_step; apply wp_val_print). remember (S fuel) as f1. cbn [while_]. wp_step.
    destruct (Hsr) as [S1 S2 S3 S4 S5 S6 S7].
    rewrite (proj2 (Z.ltb_lt ib (ib + 4096 * n - 1))) by lia.
    io_step. apply wp_val_print. io_step. io_step.
    change (page_size (at_ w h r d)) with (page_size w). rewrite Hps.
    change (not32 (4096 - 1)) with 0xFFFFF000. cbv beta iota zeta.
    rewrite table_index_eq by (unfold entry_log2; lia).
    change (ib / 2 ^ entry_log2 (S k) mod 2 ^ nb) with (entry_index (S k) nb ib).
    assert (Hidx : 0 <= entry_index (S k) nb ib < 512).
    { unfold entry_index. pose proof (Z.mod_pos_bound (ib / 2 ^ entry_log2 (S k)) (2 ^ nb)
        ltac:(apply Z.pow_pos_nonneg; lia)). assert (2 ^ nb <= 2 ^ 9) by (apply Z.pow_le_mono_r; lia).
      pow2. lia. }
    assert (Hnext : u64 (ib + bs - 1) = ib + bs - 1) by (apply u64_id; unfold fits; pow2; lia).
    rewrite Hnext, (proj2 (Z.leb_gt (ib + bs - 1) (ib + 4096 * n - 1))), andb_false_r
      by (pow2; lia).
    wp_step. apply (wp_load_page base _ 0); [done|done|done|by apply Hz|]. cbv beta.
    change ((0 =? 0) || IS_PGT_ENTRY_BLOCK 0) with true. cbv beta iota.
    io_step. io_step. apply (wp_alloc_page _ k); [exact Hc|].
    intros p d1 Hp Hfree Hc1. cbv beta.
    rewrite (proj2 (Z.eqb_neq p 0)) by (destruct Hp; lia). io_step.
    apply wp_clear_page; [apply lookup_insert_eq|by destruct Hp as (_ & _ & ?)|].
    intros r1 Hz1 Hr1. cbv beta. wp_step. cbv beta iota. io_step. io_step. cbv beta.
    change (bits_per_level _) with (bits_per_level w). rewrite Hbpl.
    assert (Hmin : get_min (ib + 4096 * n - 1) (ib + bs - 1) = ib + 4096 * n - 1).
    { unfold get_min. by rewrite (proj2 (Z.ltb_lt _ _)) by (pow2; lia). }
    rewrite Hmin. rewrite (u32_id (3 - Z.of_nat (S k) + 1)) by (unfold fits; pow2; lia).
    replace (3 - Z.of_nat (S k) + 1) with (3 - Z.of_nat k) by lia.
    replace (u32 (entry_log2 (S k) - 9)) with (entry_log2 k)
      by (unfold entry_log2; rewrite u32_id by (unfold fits; pow2; lia); lia).
    io_step. change (set_ram r1 (set_heap (<[p:=4096]> (heap (at_ w h r d))) (set_dev d1 (at_ w h r d))))
      with (at_ w (<[p := 4096]> h) r1 d1).
    apply IH; try done; try lia; [apply lookup_insert_eq|by destruct Hp as (_ & _ & ?)|].
    intros h' r' d' Hfill. cbv beta. change (truthy 0) with false. cbv beta iota.
    assert (Hb' : h' !! base = Some 4096).
    { apply Hfill; [|lia]. rewrite lookup_insert_ne; [done|].
      intros ->. destruct (Hfree base 4096 Hb); lia. }
    io_step. apply wp_store_page; [done|done|done|]. cbv beta. io_step. apply wp_val_print. cbv beta.
    wp_step. cbv beta iota. subst f1. cbn [while_]. wp_step.
    rewrite (u64_id (ib + bs)) by (unfold fits; pow2; lia).
    rewrite (proj2 (Z.ltb_ge (ib + bs) (ib + 4096 * n - 1))) by (pow2; lia).
    wp_step. cbv beta iota. wp_step. unfold val_memory_virt_to_phys, pal_mem_virt_to_phys.
    rewrite table_entry_word by done.
    apply (HQ h' (<[base + 8 * entry_index (S k) nb ib := table_entry_of p]> r') d').
    by eapply (filled_step h r1).
Qed.

(** ** [val_pgt_create] *)

(** The number of levels below the root, for an input address size. *)
Definition levels_below (ias : Z) : nat := Z.to_nat ((ias - 13) / 9).

Lemma levels_below_range ias : 22 <= ias <= 48 ->
  Z.of_nat (levels_below ias) = (ias - 13) / 9 /\ (1 <= levels_below ias <= 3)%nat.
Proof.
  intros Hi. unfold levels_below.
  assert (1 <= (ias - 13) / 9 <= 3) by (split; [apply Z.div_le_lower_bound|apply Z.lt_succ_r, Z.div_lt_upper_bound]; lia).
  lia.
Qed.

Lemma levels_formula ias : 22 <= ias <= 48 ->
  u32 (ias - 12 + 9 - 1) / 9 = Z.of_nat (levels_below ias) + 1.
Proof.
  intros Hi. rewrite (proj1 (levels_below_range ias Hi)), u32_id by (unfold fits; pow2; lia).
  rewrite <- Z.div_add by lia. f_equal. lia.
Qed.

Lemma can_alloc_le n m h (d : D) : (n <= m)%nat -> can_alloc m h d -> can_alloc n h d.
Proof.
  revert m h d. induction n as [|n IH]; intros m h d Hle Hm; [done|].
  destruct m as [|m]; [lia|]. destruct Hm as (p & d' & H1 & H2 & H3).
  exists p, d'. split; [done|]. split; [done|]. apply (IH m); [lia|done].
Qed.

Lemma land_low n x : 0 <= n -> fits n x -> Z.land x (Z.shiftl 1 n - 1) = x.
Proof.
  intros Hn Hx. rewrite Z.shiftl_1_l, Z.sub_1_r, <- Z.ones_equiv, Z.land_ones by done.
  by apply Z.mod_small.
Qed.

Lemma shift_fits n : 0 <= n < 64 -> u64 (Z.shiftl 1 n) = Z.shiftl 1 n.
Proof.
  intros Hn. rewrite Z.shiftl_1_l. apply u64_id. split; [apply Z.pow_nonneg; lia|].
  apply Z.pow_lt_mono_r; lia.
Qed.

Lemma mask_fits n : 0 <= n < 64 -> u64 (Z.shiftl 1 n - 1) = Z.shiftl 1 n - 1.
Proof.
  intros Hn. rewrite Z.shiftl_1_l. apply u64_id.
  pose proof (Z.pow_pos_nonneg 2 n ltac:(lia) ltac:(lia)).
  assert (2 ^ n < 2 ^ 64) by (apply Z.pow_lt_mono_r; lia). unfold fits. lia.
Qed.

(** A region and the input and output sizes it is mapped with. *)
Record mappable (m : memory_region_descriptor_t) (desc : pgt_descriptor_t) (n : Z) : Prop := {
  mp_ias : 22 <= pgt_ias desc <= 48;
  mp_oas : 0 <= pgt_oas desc < 64;
  mp_length : region_length m = 4096 * n;
  mp_region : small_region (virtual_address m) (physical_address m) n;
  mp_va : virtual_address m < 2 ^ pgt_ias desc;
  mp_pa : physical_address m < 2 ^ pgt_oas desc;
  mp_pa_aligned : physical_address m mod 4096 = 0;
  mp_attrs : fits 64 (attributes m);
  mp_granule : tcr_tg_size_log2 (pgt_tcr desc) = 12 }.

Definition with_base (desc : pgt_descriptor_t) (p : Z) : pgt_descriptor_t :=
  mkPgt p (pgt_ias desc) (pgt_oas desc) (pgt_mair desc) (pgt_stage desc) (pgt_tcr desc).

(** The tables map the region, and nothing that was live has changed. *)
Definition maps_region (w s : world D) (p : Z) (m : memory_region_descriptor_t)
    (desc : pgt_descriptor_t) (n : Z) : Prop :=
  table_page p /\
  (forall va, virtual_address m <= va < virtual_address m + 4096 * n -> exists bs,
     walks (ram s) (heap s) (levels_below (pgt_ias desc))
       (pgt_ias desc - entry_log2 (levels_below (pgt_ias desc))) p va
       (page_entry_of (physical_address m + 4096 * ((va - virtual_address m) / 4096)) (attributes m))
       bs) /\
  (forall a, held (heap w) a -> ram s !! a = ram w !! a).

Lemma wp_val_pgt_create w m e desc n fuel (Q : _ -> world D -> Prop) :
  mappable m desc n -> region_length e = 0 -> can_alloc 4 (heap w) (dev w) -> (512 < fuel)%nat ->
  (forall p s, maps_region w s p m desc n -> Q (0, [m; e], with_base desc p) s) ->
  wp (val_pgt_create fuel [m; e] desc) w Q.
Proof.
  intros [Hias Hoas Hlen Hreg Hva Hpa Hpal Hat Htg] He Hc Hf HQ.
  destruct (levels_below_range _ Hias) as [Hk1 Hk2]. set (k := levels_below (pgt_ias desc)) in *.
  unfold val_pgt_create. io_step. io_step. io_step. io_step. cbv beta.
  change (page_size _) with 4096. change (log2_page_size 4096) with 12. io_step. io_step. io_step. io_step.
  cbv beta zeta. change (bits_per_level _) with 9. rewrite levels_formula by done. fold k.
  do 2 (io_step; apply wp_val_print).
  wp_step. apply (wp_alloc_page _ k); [apply (can_alloc_le _ 4); [lia|exact Hc]|].
  intros p d1 Hp Hfree Hc1. cbv beta. rewrite (proj2 (Z.eqb_neq p 0)) by (destruct Hp; lia).
  io_step. apply wp_clear_page; [apply lookup_insert_eq|by destruct Hp as (_ & _ & ?)|].
  intros r1 Hz1 Hr1. cbv beta. io_step. io_step. cbv beta. io_step.
  destruct fuel as [|[|f2]]; [lia..|]. remember (S f2) as f1. cbn [while_]. wp_step. cbv beta iota.
  change ([m; e] !! 0%nat) with (Some m). wp_step. wp_step. cbv beta. rewrite Hlen. destruct (Hreg) as [S1 S2 S3 S4 S5 S6 S7].
  rewrite (proj2 (Z.eqb_neq (4096 * n) 0)) by lia. io_step. io_step. cbv beta.
  do 3 (io_step; apply wp_val_print). cbv beta.
  rewrite !(land_mask 12 (4096 - 1)) by done. change (2 ^ 12) with 4096. rewrite S2, Hpal.
  change (negb (0 =? 0) || negb (0 =? 0)) with false. cbv beta iota.
  rewrite !shift_fits, !mask_fits by lia. rewrite !Z.shiftl_1_l.
  rewrite (proj2 (Z.leb_gt _ _) Hpa), (proj2 (Z.leb_gt _ _) Hva).
  cbv beta iota. wp_step. wp_step. cbv beta.
  change ([m; e] !! 0%nat) with (Some m). wp_step. wp_step. cbv beta. rewrite Htg. change (negb (12 =? 12)) with false. cbv beta iota.
  rewrite <- !Z.shiftl_1_l, !land_low by (lia || (split; lia)).
  rewrite Hlen, u64_id by (unfold fits; pow2; lia).
  replace (u32 ((Z.of_nat k + 1 - 1) * 9 + 12)) with (entry_log2 k)
    by (unfold entry_log2; rewrite u32_id by (unfold fits; pow2; lia); lia).
  replace (u32 (4 - (Z.of_nat k + 1))) with (3 - Z.of_nat k)
    by (rewrite u32_id by (unfold fits; pow2; lia); lia).
  assert (Hnb : 0 <= pgt_ias desc - entry_log2 k <= 9).
  { unfold entry_log2. rewrite Hk1. pose proof (Z.div_mod (pgt_ias desc - 13) 9 ltac:(lia)).
    pose proof (Z.mod_pos_bound (pgt_ias desc - 13) 9 ltac:(lia)). lia. }
  rewrite (u32_id (pgt_ias desc - entry_log2 k)) by (unfold fits; pow2; lia). io_step.
  match goal with |- wp _ ?w1 _ =>
    replace w1 with (at_ w1 (<[p := 4096]> (heap w)) r1 d1) by (by destruct w) end.
  apply (wp_fill k); try done; try lia.
  { apply lookup_insert_eq. }
  { by destruct Hp as (_ & _ & ?). }
  intros h' r' d' (Hh & Hfr & Hw). cbv beta. change (truthy 0) with false. cbv beta iota.
  wp_step. cbv beta iota. subst f1. cbn [while_]. wp_step. cbv beta iota.
  change ([m; e] !! 1%nat) with (Some e). wp_step. wp_step. cbv beta. rewrite He.
  change (0 =? 0) with true. cbv beta iota. wp_step. cbv beta iota. wp_step. cbv beta iota.
  change (truthy 0) with false. cbv beta iota. wp_step.
  apply HQ. split; [done|]. split.
  - intros va Hv. destruct (Hw va Hv) as (bs & Hbs & _). by exists (p :: bs).
  - intros a (q & l & Hq & Ha). cbn [ram at_ set_ram].
    assert (~ p <= a < p + 4096) by (destruct (Hfree q l Hq); lia).
    rewrite Hfr; [by apply Hr1| |done]. exists q, l. split; [|done].
    rewrite lookup_insert_ne; [done|]. intros ->. destruct (Hfree q l Hq); lia.
Qed.

(** ** [val_pgt_get_attributes] *)







(** ** The properties *)

(** C14: Creating the tables for a region inside one 2 MiB block always succeeds
    when pages can be allocated below 4 GiB, touches no memory that was live before,
    and leaves tables through which every address of the region leads to the
    descriptor of its page: the low 32 bits of the output address, and the region's
    attributes. *)
Theorem pgt_create_maps w m e desc n fuel :
  mappable m desc n -> region_length e = 0 -> can_alloc 4 (heap w) (dev w) -> (512 < fuel)%nat ->
  wp (val_pgt_create fuel [m; e] desc) w (fun r s =>
    exists p, r = (0, [m; e], with_base desc p) /\ maps_region w s p m desc n).
Proof.
  intros Hm He Hc Hf. apply (wp_val_pgt_create w m e desc n); try done.
  intros p s Hs. by exists p.
Qed.

End pages.

(** ** Concrete inputs *)

(** Input and output sizes, for a table with a 4 KiB granule. *)
Definition sized (ias : Z) : pgt_descriptor_t :=
  mkPgt 0 ias 48 0 1 (mkTCR 0 0 0 0 0 (64 - ias) 0 12).

Definition one_page (va : Z) : memory_region_descriptor_t := mkRegion 0x80000000 va 0x1000 0x740.
Definition no_region : memory_region_descriptor_t := mkRegion 0 0 0 0.

Lemma one_page_mappable ias :
  ias = 39 \/ ias = 48 -> mappable (one_page 0x12345000) (sized ias) 1.
Proof.
  intros [-> | ->]; (split; [by split|by split|done| |done|done|done|by split|done]);
    (split; [done|done|by split|done|done|done|done]).
Qed.

Lemma boot_can_alloc : can_alloc 4 (heap (boot ∅ ∅)) (dev (boot ∅ ∅)).
Proof.
  cbn [can_alloc]. repeat (do 2 eexists; split; [vm_compute; reflexivity|]; split; [by vm_compute|]).
  done.
Qed.

Lemma pgt_create_maps_witness :
  wp (val_pgt_create 513 [one_page 0x12345000; no_region] (sized 48)) (boot ∅ ∅) (fun r s =>
    exists p, r = (0, [one_page 0x12345000; no_region], with_base (sized 48) p) /\
              maps_region (boot ∅ ∅) s p (one_page 0x12345000) (sized 48) 1).
Proof.
  apply (pgt_create_maps (boot ∅ ∅) (one_page 0x12345000) no_region (sized 48) 1 513).
  - apply one_page_mappable. by right.
  - done.
  - exact boot_can_alloc.
  - lia.
Defined.


(** Map a region, then ask for the attributes at [va]. *)
Definition map_then_ask (m : memory_region_descriptor_t) (ias va : Z) : option (Z * option Z) :=
  match (let* ' (_, _, desc') := val_pgt_create 1000 [m; no_region] (sized ias) in
         val_pgt_get_attributes 10 desc' va true) (boot ∅ ∅) with
  | Ret r _ _ => Some r
  | _ => None
  end.

(** Where the round trip stops. A region of two pages that crosses a 2 MiB
    boundary: the second page is not mapped, and its entry is put in the table of
    the first, where it maps address 0 instead; the query then reports success with
    no attributes for the second page and with the region's attributes for address
    0. And with a 40-bit input size, whose root table has two entries, the query
    follows the wrong entries and misses the page that was mapped. *)
Theorem pgt_roundtrip_limits :
  map_then_ask (mkRegion 0x80000000 0x1FF000 0x2000 0x740) 48 0x1FF000 = Some (0, Some 0x740) /\
  map_then_ask (mkRegion 0x80000000 0x1FF000 0x2000 0x740) 48 0x200000 = Some (0, Some 0) /\
  map_then_ask (mkRegion 0x80000000 0x1FF000 0x2000 0x740) 48 0 = Some (0, Some 0x740) /\
  map_then_ask (one_page 0x40000000) 39 0x40000000 = Some (0, Some 0x740) /\
  map_then_ask (one_page 0x40000000) 40 0x40000000 = Some (0, Some 0).
Proof. vm_compute. auto. Qed.
