(* ===== verification/Pcie.v ===== *)
(** * PCIe configuration space

    Access to configuration space and what is read from it: the addressing and
    capability part of src/val/src/acs_pcie.c and the BDF macros of
    src/val/include/bsa_acs_pcie.h. *)

From S2P Require Import Prelude Types World Status Machine.
#[local] Open Scope c_scope.

(** ** Segment/bus/device/function words (bsa_acs_pcie.h) *)

Definition PCIE_EXTRACT_BDF_SEG (bdf : Z) : Z := Z.land (Z.shiftr bdf 24) 0xFF.
Definition PCIE_EXTRACT_BDF_BUS (bdf : Z) : Z := Z.land (Z.shiftr bdf 16) 0xFF.
Definition PCIE_EXTRACT_BDF_DEV (bdf : Z) : Z := Z.land (Z.shiftr bdf 8) 0xFF.
Definition PCIE_EXTRACT_BDF_FUNC (bdf : Z) : Z := Z.land bdf 0xFF.

Definition PCIE_CREATE_BDF_PACKED (bdf : Z) : Z :=
  Z.lor (Z.lor (PCIE_EXTRACT_BDF_FUNC bdf) (u32 (Z.shiftl (PCIE_EXTRACT_BDF_DEV bdf) 3)))
    (u32 (Z.shiftl (PCIE_EXTRACT_BDF_BUS bdf) 8)).

(** The segment is shifted up and the function ored in as they are. *)
Definition PCIE_CREATE_BDF (seg bus dev func : Z) : Z :=
  Z.lor (Z.lor (Z.lor (u32 (Z.shiftl seg 24)) (Z.shiftl (Z.land bus 0xFF) 16))
           (Z.shiftl (Z.land dev 0xFF) 8)) func.

Definition GET_DEVICE_ID (bus dev func : Z) : Z :=
  Z.lor (Z.lor (u32 (Z.shiftl bus 8)) (u32 (Z.shiftl dev 3))) func.

(** A segment/bus/device/function word is four bytes side by side. *)
Lemma create_bdf_sum seg bus dev func :
  fits 8 seg -> fits 8 bus -> fits 8 dev -> fits 8 func ->
  PCIE_CREATE_BDF seg bus dev func = seg * 2 ^ 24 + bus * 2 ^ 16 + dev * 2 ^ 8 + func.
Proof.
  intros Hs Hb Hd Hf. unfold PCIE_CREATE_BDF.
  rewrite !(land_mask 8) by done. rewrite (Z.mod_small bus), (Z.mod_small dev) by done.
  rewrite u32_id by (rewrite Z.shiftl_mul_pow2 by done; unfold fits in *; pow2; lia).
  rewrite <- !Z.lor_assoc, (lor_shiftl_add dev func), (lor_shiftl_add bus), lor_shiftl_add;
    try done; unfold fits in *; pow2; lia.
Qed.

Lemma extract_bdf_div bdf :
  PCIE_EXTRACT_BDF_SEG bdf = bdf / 2 ^ 24 mod 2 ^ 8 /\
  PCIE_EXTRACT_BDF_BUS bdf = bdf / 2 ^ 16 mod 2 ^ 8 /\
  PCIE_EXTRACT_BDF_DEV bdf = bdf / 2 ^ 8 mod 2 ^ 8 /\
  PCIE_EXTRACT_BDF_FUNC bdf = bdf mod 2 ^ 8.
Proof.
  unfold PCIE_EXTRACT_BDF_SEG, PCIE_EXTRACT_BDF_BUS, PCIE_EXTRACT_BDF_DEV, PCIE_EXTRACT_BDF_FUNC.
  rewrite !(land_mask 8) by done. by rewrite !Z.shiftr_div_pow2 by done.
Qed.

Lemma extract_create seg bus dev func :
  fits 8 seg -> fits 8 bus -> fits 8 dev -> fits 8 func ->
  let bdf := PCIE_CREATE_BDF seg bus dev func in
  PCIE_EXTRACT_BDF_SEG bdf = seg /\ PCIE_EXTRACT_BDF_BUS bdf = bus /\
  PCIE_EXTRACT_BDF_DEV bdf = dev /\ PCIE_EXTRACT_BDF_FUNC bdf = func.
Proof.
  intros Hs Hb Hd Hf. cbv zeta. rewrite create_bdf_sum by done.
  destruct (extract_bdf_div (seg * 2 ^ 24 + bus * 2 ^ 16 + dev * 2 ^ 8 + func)) as (-> & -> & -> & ->).
  unfold fits in *. repeat split; divmod.
Qed.

(** Packing and unpacking a segment/bus/device/function word are inverse to
    each other: the word built by [PCIE_CREATE_BDF] from four bytes gives back
    each of them, and the word rebuilt from the four fields of any 32-bit word is
    that word, so no two functions share a BDF. *)
Theorem bdf_roundtrip seg bus dev func bdf :
  fits 8 seg -> fits 8 bus -> fits 8 dev -> fits 8 func -> fits 32 bdf ->
  (let b := PCIE_CREATE_BDF seg bus dev func in
   fits 32 b /\
   PCIE_EXTRACT_BDF_SEG b = seg /\ PCIE_EXTRACT_BDF_BUS b = bus /\
   PCIE_EXTRACT_BDF_DEV b = dev /\ PCIE_EXTRACT_BDF_FUNC b = func) /\
  PCIE_CREATE_BDF (PCIE_EXTRACT_BDF_SEG bdf) (PCIE_EXTRACT_BDF_BUS bdf)
    (PCIE_EXTRACT_BDF_DEV bdf) (PCIE_EXTRACT_BDF_FUNC bdf) = bdf.
Proof.
  intros Hs Hb Hd Hf Hbdf. split.
  - split; [|by apply extract_create].
    rewrite create_bdf_sum by done. unfold fits in *. pow2. lia.
  - destruct (extract_bdf_div bdf) as (-> & -> & -> & ->).
    rewrite create_bdf_sum by (apply Z.mod_pos_bound; done).
    unfold fits in Hbdf. divmod.
Qed.

Section pcie.
Context {D : Type} `{Platform D}.

#[local] Abbreviation M := (M (world D)).

(** The platform layer keeps a pointer of its own to the table it filled, which is the one
    of the validation layer. *)
Definition pal_pcie_get_mcfg_ecam : M Z :=
  let* t := gets g_pcie_info_table in
  match t with
  | Some t => let* b := need (ecam_block t !! 0%nat) in ret (ecam_base b)
  | None => ret 0
  end.

Definition val_pcie_get_info (type index : Z) : M Z :=
  let* t := gets g_pcie_info_table in
  match t with
  | None =>
      val_print ACS_PRINT_ERR "GET_PCIe_INFO: PCIE info table is not created \n" 0 ;;
      ret 0
  | Some t =>
      if ecam_entries t <=? index then
        (when negb (ecam_entries t =? 0) then
           val_print ACS_PRINT_ERR "Invalid index %d > num of entries \n" index) ;;
        ret 0
      else if type =? PCIE_INFO_NUM_ECAM then ret (ecam_entries t)
      else if type =? PCIE_INFO_MCFG_ECAM then pal_pcie_get_mcfg_ecam
      else
      let block (f : PCIE_INFO_BLOCK -> Z) : M Z :=
        let* b := need (ecam_block t !! Z.to_nat index) in ret (f b) in
      if type =? PCIE_INFO_ECAM then block ecam_base
      else if type =? PCIE_INFO_START_BUS then block start_bus_num
      else if type =? PCIE_INFO_END_BUS then block end_bus_num
      else if type =? PCIE_INFO_SEGMENT then block segment_num
      else
        val_print ACS_PRINT_ERR "This PCIE info option not supported %d \n" type ;;
        ret 0
  end.

(** ** Configuration accesses *)

(** The search shared by the three accessors: the base of the first ECAM region
    that covers the bus of the segment, 0 when none does. *)
Definition find_ecam_base (segment bus : Z) : M Z :=
  let* n := val_pcie_get_info PCIE_INFO_NUM_ECAM 0 in
  let* r := for_ (Z.to_nat n) 0 (fun i _ =>
    let* first := val_pcie_get_info PCIE_INFO_START_BUS i in
    let* last := val_pcie_get_info PCIE_INFO_END_BUS i in
    let* seg := val_pcie_get_info PCIE_INFO_SEGMENT i in
    if (first <=? bus) && (bus <=? last) && (segment =? seg) then
      let* base := val_pcie_get_info PCIE_INFO_ECAM i in ret (Break base)
    else ret (Continue tt)) tt in
  ret (match r with Break base => base | Continue _ => 0 end).

(** The offset of a function's 4 KiB page inside its ECAM region. *)
Definition cfg_addr (bus dev func : Z) : Z :=
  u32 (bus * PCIE_MAX_DEV * PCIE_MAX_FUNC * 4096 + dev * PCIE_MAX_FUNC * 4096 + func * 4096).

(** Status, and what is written to [*data] if anything. *)
Definition val_pcie_read_cfg (bdf offset : Z) : M (Z * option Z) :=
  let bus := PCIE_EXTRACT_BDF_BUS bdf in
  let dev := PCIE_EXTRACT_BDF_DEV bdf in
  let func := PCIE_EXTRACT_BDF_FUNC bdf in
  let segment := PCIE_EXTRACT_BDF_SEG bdf in
  if (PCIE_MAX_BUS <=? bus) || (PCIE_MAX_DEV <=? dev) || (PCIE_MAX_FUNC <=? func) then
    val_print ACS_PRINT_ERR "Invalid Bus/Dev/Func  %x \n" bdf ;;
    ret (PCIE_NO_MAPPING, None)
  else
  let* t := gets g_pcie_info_table in
  match t with
  | None =>
      val_print ACS_PRINT_ERR "\n       Read_PCIe_CFG: PCIE info table is not created" 0 ;;
      ret (PCIE_NO_MAPPING, None)
  | Some _ =>
      let* base := find_ecam_base segment bus in
      if base =? 0 then
        val_print ACS_PRINT_ERR "\n       Read PCIe_CFG: ECAM Base is zero " 0 ;;
        ret (PCIE_NO_MAPPING, None)
      else
        let addr := u64 (base + cfg_addr bus dev func + offset) in
        val_print ACS_PRINT_INFO "\n       Calculated config address is %lx" addr ;;
        let* data := pal_mmio_read addr in
        ret (0, Some data)
  end.

Definition val_pcie_write_cfg (bdf offset data : Z) : M () :=
  let bus := PCIE_EXTRACT_BDF_BUS bdf in
  let dev := PCIE_EXTRACT_BDF_DEV bdf in
  let func := PCIE_EXTRACT_BDF_FUNC bdf in
  let segment := PCIE_EXTRACT_BDF_SEG bdf in
  if (PCIE_MAX_BUS <=? bus) || (PCIE_MAX_DEV <=? dev) || (PCIE_MAX_FUNC <=? func) then
    val_print ACS_PRINT_ERR "Invalid Bus/Dev/Func  %x \n" bdf
  else
  let* t := gets g_pcie_info_table in
  match t with
  | None => val_print ACS_PRINT_ERR "\n       Write PCIe_CFG: PCIE info table is not created" 0
  | Some _ =>
      let* base := find_ecam_base segment bus in
      if base =? 0 then val_print ACS_PRINT_ERR "\n       Read PCIe_CFG: ECAM Base is zero " 0
      else pal_mmio_write (u64 (base + cfg_addr bus dev func + offset)) data
  end.

Definition val_pcie_get_bdf_config_addr (bdf : Z) : M Z :=
  let bus := PCIE_EXTRACT_BDF_BUS bdf in
  let dev := PCIE_EXTRACT_BDF_DEV bdf in
  let func := PCIE_EXTRACT_BDF_FUNC bdf in
  let segment := PCIE_EXTRACT_BDF_SEG bdf in
  if (PCIE_MAX_BUS <=? bus) || (PCIE_MAX_DEV <=? dev) || (PCIE_MAX_FUNC <=? func) then
    val_print ACS_PRINT_ERR "Invalid Bus/Dev/Func  %x \n" bdf ;;
    ret 0
  else
  let* t := gets g_pcie_info_table in
  match t with
  | None =>
      val_print ACS_PRINT_ERR "\n       PCIe_CFG: PCIE info table is not created" 0 ;;
      ret 0
  | Some _ =>
      let* base := find_ecam_base segment bus in
      if base =? 0 then
        val_print ACS_PRINT_ERR "\n       Read PCIe_CFG: ECAM Base is zero " 0 ;;
        ret 0
      else ret (u64 (base + cfg_addr bus dev func))
  end.

(** [val_pcie_read_cfg(bdf, offset, &x);] with the status ignored: [x] keeps its
    old value, which may be none, when nothing was read. *)
Definition read_cfg_into (x : option Z) (bdf offset : Z) : M (option Z) :=
  let* ' (_, data) := val_pcie_read_cfg bdf offset in
  ret (match data with Some v => Some v | None => x end).

(** The same into a fresh local whose value is then used. *)
Definition read_cfg_fresh (bdf offset : Z) : M Z :=
  let* x := read_cfg_into None bdf offset in need x.

(** ** Capabilities *)

(** The two chains; [fuel] bounds the entries followed. The value read is carried
    round because a failed access leaves the previous one in place. *)
Definition walk_capabilities (fuel : nat) (bdf cid cidr_mask ncpr_shift ncpr_mask start : Z)
    (reg_value : option Z) : M (Z * option Z) :=
  while_ fuel (fun '(next_cap_offset, reg_value) =>
    if truthy next_cap_offset then
      let* reg_value := read_cfg_into reg_value bdf next_cap_offset in
      let* v := need reg_value in
      ret (if Z.land v cidr_mask =? cid then Break (PCIE_SUCCESS, Some next_cap_offset)
           else Continue (Z.land (Z.shiftr v ncpr_shift) ncpr_mask, reg_value))
    else ret (Break (PCIE_CAP_NOT_FOUND, None))) (start, reg_value).

Definition val_pcie_find_capability (fuel : nat) (bdf cid_type cid : Z) : M (Z * option Z) :=
  if cid_type =? PCIE_CAP then
    let* ' (r, data) := val_pcie_read_cfg bdf TYPE01_CPR in
    if r =? PCIE_NO_MAPPING then ret (r, None) else
    let* reg_value := need data in
    if reg_value =? PCIE_UNKNOWN_RESPONSE then ret (r, None)
    else
      walk_capabilities fuel bdf cid PCIE_CIDR_MASK PCIE_NCPR_SHIFT PCIE_NCPR_MASK
        (Z.land reg_value TYPE01_CPR_MASK) (Some reg_value)
  else if cid_type =? PCIE_ECAP then
    walk_capabilities fuel bdf cid PCIE_ECAP_CIDR_MASK PCIE_ECAP_NCPR_SHIFT PCIE_ECAP_NCPR_MASK
      PCIE_ECAP_START None
  else ret (PCIE_CAP_NOT_FOUND, None).

(** [val_pcie_find_capability(..., &pciecs_base);] with the status ignored, and
    the offset then used: uninitialised when the capability is missing. *)
Definition pciecs_base_of (fuel : nat) (bdf : Z) : M Z :=
  let* ' (_, base) := val_pcie_find_capability fuel bdf PCIE_CAP CID_PCIECS in
  need base.

Definition val_pcie_is_onchip_peripheral (bdf : Z) : bool := false.
Definition val_pcie_get_atomicop_requester_capable (bdf : Z) : Z := 0.

Definition val_pcie_device_port_type (fuel : nat) (bdf : Z) : M Z :=
  let* pciecs_base := pciecs_base_of fuel bdf in
  let* ' (status, data) := val_pcie_read_cfg bdf (u32 (pciecs_base + CIDR_OFFSET)) in
  if truthy status then ret PCIE_UNKNOWN_RESPONSE
  else
    let* reg_value := need data in
    let dp_type :=
      Z.land (Z.shiftr reg_value ((PCIECR_OFFSET - CIDR_OFFSET) * 8 + PCIECR_DPT_SHIFT))
        PCIECR_DPT_MASK in
    let dp_type := Z.shiftl 1 dp_type in
    ret (if val_pcie_is_onchip_peripheral bdf then
           if dp_type =? EP then iEP_EP else if dp_type =? RP then iEP_RP else dp_type
         else dp_type).

(** ** Register fields *)

Definition val_pcie_function_header_type (bdf : Z) : M Z :=
  let* reg_value := read_cfg_fresh bdf TYPE01_CLSR in
  let reg_value := Z.land (Z.shiftr reg_value TYPE01_HTR_SHIFT) TYPE01_HTR_MASK in
  ret (Z.land (Z.shiftr reg_value HTR_HL_SHIFT) HTR_HL_MASK).

Definition val_pcie_multifunction_support (bdf : Z) : M Z :=
  let* reg_data := read_cfg_fresh bdf TYPE01_CLSR in
  let reg_data := Z.land (Z.shiftr reg_data TYPE01_HTR_SHIFT) TYPE01_HTR_MASK in
  ret (of_bool (negb (truthy (Z.land (Z.shiftr reg_data HTR_MFD_SHIFT) HTR_MFD_MASK)))).

Definition val_pcie_is_host_bridge (bdf : Z) : M bool :=
  let* reg_value := read_cfg_fresh bdf TYPE01_RIDR in
  ret ((HB_BASE_CLASS =? Z.land (Z.shiftr reg_value CC_BASE_SHIFT) CC_BASE_MASK)
       && (HB_SUB_CLASS =? Z.land (Z.shiftr reg_value CC_SUB_SHIFT) CC_SUB_MASK)).

Definition val_pcie_disable_bme (bdf : Z) : M () :=
  let* reg_value := read_cfg_fresh bdf TYPE01_CR in
  val_pcie_write_cfg bdf TYPE01_CR (Z.land reg_value (not32 (Z.shiftl 1 CR_BME_SHIFT))).

Definition val_pcie_enable_bme (bdf : Z) : M () :=
  let* reg_value := read_cfg_fresh bdf TYPE01_CR in
  val_pcie_write_cfg bdf TYPE01_CR (Z.lor reg_value (Z.shiftl 1 CR_BME_SHIFT)).

Definition val_pcie_disable_msa (bdf : Z) : M () :=
  let* reg_value := read_cfg_fresh bdf TYPE01_CR in
  val_pcie_write_cfg bdf TYPE01_CR (Z.land reg_value (not32 (Z.shiftl 1 CR_MSE_SHIFT))).

Definition val_pcie_enable_msa (bdf : Z) : M () :=
  let* reg_value := read_cfg_fresh bdf TYPE01_CR in
  val_pcie_write_cfg bdf TYPE01_CR (Z.lor reg_value (Z.shiftl 1 CR_MSE_SHIFT)).

Definition val_pcie_clear_urd (fuel : nat) (bdf : Z) : M () :=
  let reg_value := Z.shiftl 1 (DCTLR_DSR_SHIFT + DSR_URD_SHIFT) in
  let* pciecs_base := pciecs_base_of fuel bdf in
  val_pcie_write_cfg bdf (u32 (pciecs_base + DCTLR_OFFSET)) reg_value.

Definition val_pcie_is_urd (fuel : nat) (bdf : Z) : M Z :=
  let* pciecs_base := pciecs_base_of fuel bdf in
  let* reg_value := read_cfg_fresh bdf (u32 (pciecs_base + DCTLR_OFFSET)) in
  let reg_value := Z.land (Z.shiftr reg_value DCTLR_DSR_SHIFT) DCTLR_DSR_MASK in
  ret (if truthy (Z.land (Z.shiftr reg_value DSR_URD_SHIFT) DSR_URD_MASK) then 1 else 0).

Definition val_pcie_clear_device_status_error (fuel : nat) (bdf : Z) : M () :=
  let* pciecs_base := pciecs_base_of fuel bdf in
  let* reg_value := read_cfg_fresh bdf (u32 (pciecs_base + DCTLR_OFFSET)) in
  val_pcie_write_cfg bdf (u32 (pciecs_base + DCTLR_OFFSET))
    (Z.lor reg_value (Z.shiftl 0xF DCTLR_DSR_SHIFT)).

Definition val_pcie_is_device_status_error (fuel : nat) (bdf : Z) : M Z :=
  let* pciecs_base := pciecs_base_of fuel bdf in
  let* reg_value := read_cfg_fresh bdf (u32 (pciecs_base + DCTLR_OFFSET)) in
  ret (if truthy (Z.land reg_value (Z.shiftl 0xF DCTLR_DSR_SHIFT)) then 1 else 0).

Definition val_pcie_clear_sig_target_abort (bdf : Z) : M () :=
  let* status_val := read_cfg_fresh bdf TYPE01_CR in
  val_pcie_write_cfg bdf TYPE01_CR (Z.lor status_val (Z.shiftl 1 SR_STA_SHIFT)) ;;
  let* sec_status_val := read_cfg_fresh bdf TYPE1_SEC_STA in
  val_pcie_write_cfg bdf TYPE1_SEC_STA (Z.lor sec_status_val (Z.shiftl 1 SSR_STA_SHIFT)).

Definition val_pcie_is_sig_target_abort (bdf : Z) : M Z :=
  let* status_val := read_cfg_into None bdf TYPE01_CR in
  let* sec_status_val := read_cfg_into None bdf TYPE1_SEC_STA in
  let* status_val := need status_val in
  if truthy (Z.land (Z.shiftr status_val SR_STA_SHIFT) SR_STA_MASK) then ret 1 else
  let* sec_status_val := need sec_status_val in
  ret (if truthy (Z.land (Z.shiftr sec_status_val SSR_STA_SHIFT) SSR_STA_MASK) then 1 else 0).

Definition val_pcie_disable_eru (fuel : nat) (bdf : Z) : M () :=
  let* reg_value := read_cfg_into None bdf TYPE01_CR in
  let dis_mask := not32 (Z.shiftl 1 CR_SERRE_SHIFT) in
  let* v := need reg_value in
  val_pcie_write_cfg bdf TYPE01_CR (Z.land v dis_mask) ;;
  let* pciecs_base := pciecs_base_of fuel bdf in
  let* reg_value := read_cfg_into reg_value bdf (u32 (pciecs_base + DCTLR_OFFSET)) in
  let dis_mask := not32
    (Z.lor (Z.lor (Z.lor (Z.shiftl 1 DCTLR_CERE_SHIFT) (Z.shiftl 1 DCTLR_NFERE_SHIFT))
              (Z.shiftl 1 DCTLR_FERE_SHIFT)) (Z.shiftl 1 DCTLR_URRE_SHIFT)) in
  let* v := need reg_value in
  val_pcie_write_cfg bdf (u32 (pciecs_base + DCTLR_OFFSET)) (Z.land v dis_mask).

Definition val_pcie_link_cap_support (fuel : nat) (bdf : Z) : M Z :=
  let* pciecs_base := pciecs_base_of fuel bdf in
  let nonzero (off : Z) : M bool :=
    let* reg_value := read_cfg_into (Some 0xFFFFFFFF) bdf (u32 (pciecs_base + off)) in
    let* reg_value := need reg_value in
    ret (negb (reg_value =? 0)) in
  let* bad := nonzero LCAPR_OFFSET in
  if bad then
    val_print ACS_PRINT_ERR "\n       Link Capabilities reg check failed" 0 ;;
    ret 1
  else
  let* bad := nonzero LCTLR_OFFSET in
  if bad then
    val_print ACS_PRINT_ERR "\n       Link Capabilities control and status check failed" 0 ;;
    ret 1
  else
  let* bad := nonzero LCAP2R_OFFSET in
  if bad then
    val_print ACS_PRINT_ERR "\n       Link Capabilities 2 reg check failed" 0 ;;
    ret 1
  else
  let* bad := nonzero LCTL2R_OFFSET in
  if bad then
    val_print ACS_PRINT_ERR "\n       Link Capabilities 2 control and status check failed" 0 ;;
    ret 1
  else ret 0.

(** ** Addressing *)

(** The first region of the table that covers a bus of a segment: the abstract
    view of the search shared by the accessors. *)
Definition covers (seg bus : Z) (b : PCIE_INFO_BLOCK) : bool :=
  (start_bus_num b <=? bus) && (bus <=? end_bus_num b) && (seg =? segment_num b).

Definition ecam_of (t : PCIE_INFO_TABLE) (seg bus : Z) : option PCIE_INFO_BLOCK :=
  List.find (covers seg bus) (take (Z.to_nat (ecam_entries t)) (ecam_block t)).

Definition ecam_base_of (t : PCIE_INFO_TABLE) (seg bus : Z) : Z :=
  match ecam_of t seg bus with Some b => ecam_base b | None => 0 end.

Definition ecam_table_ok (t : PCIE_INFO_TABLE) : Prop :=
  0 <= ecam_entries t <= Z.of_nat (length (ecam_block t)).

(** The columns of the table. *)
Definition ecam_field (type : Z) : option (PCIE_INFO_BLOCK -> Z) :=
  if type =? PCIE_INFO_ECAM then Some ecam_base
  else if type =? PCIE_INFO_START_BUS then Some start_bus_num
  else if type =? PCIE_INFO_END_BUS then Some end_bus_num
  else if type =? PCIE_INFO_SEGMENT then Some segment_num
  else None.

Lemma ecam_field_type type f : ecam_field type = Some f ->
  (type =? PCIE_INFO_NUM_ECAM) = false /\ (type =? PCIE_INFO_MCFG_ECAM) = false.
Proof.
  unfold ecam_field. repeat case_match; try done; intros _;
    rewrite ?Z.eqb_eq in *; by subst type.
Qed.

Lemma eval_ecam_info type f t b i w :
  ecam_field type = Some f -> g_pcie_info_table w = Some t -> 0 <= i < ecam_entries t ->
  ecam_block t !! Z.to_nat i = Some b ->
  eval (val_pcie_get_info type i) w (f b) w.
Proof.
  intros Hf Ht Hi Hb. pose proof (ecam_field_type type f Hf) as [H1 H2].
  eapply eval_bind; [by apply eval_gets|]. cbv beta iota.
  destruct (Z.leb_spec (ecam_entries t) i); [lia|]. rewrite H1, H2.
  unfold ecam_field in Hf. repeat case_match; try done; injection Hf as <-;
    (eapply eval_bind; [by apply eval_need|apply eval_ret]).
Qed.

Lemma eval_num_ecam t w :
  g_pcie_info_table w = Some t -> ecam_table_ok t ->
  eval (val_pcie_get_info PCIE_INFO_NUM_ECAM 0) w (ecam_entries t) w.
Proof.
  intros Ht [Hok _]. eapply eval_bind; [by apply eval_gets|]. cbv beta iota.
  destruct (Z.leb_spec (ecam_entries t) 0) as [H0|H0]; [|apply eval_ret].
  assert (ecam_entries t = 0) as -> by lia. apply eval_ret.
Qed.

Lemma eval_find_ecam_base t seg bus w :
  g_pcie_info_table w = Some t -> ecam_table_ok t ->
  eval (find_ecam_base seg bus) w (ecam_base_of t seg bus) w.
Proof.
  intros Ht Hok. unfold find_ecam_base. eapply eval_bind; [by apply eval_num_ecam|]. cbv beta.
  eapply eval_bind.
  - apply (eval_for_find (ecam_block t) (covers seg bus) ecam_base); [unfold ecam_table_ok in Hok; lia|].
    intros k b Hb Hk.
    assert (0 <= Z.of_nat k < ecam_entries t) by (unfold ecam_table_ok in Hok; lia).
    do 3 (eapply eval_bind; [eapply (eval_ecam_info _ _ t b); [reflexivity|done..|by rewrite Nat2Z.id]|]).
    fold (covers seg bus b). destruct (covers seg bus b); [|apply eval_ret].
    eapply eval_bind; [eapply (eval_ecam_info _ _ t b); [reflexivity|done..|by rewrite Nat2Z.id]|].
    apply eval_ret.
  - unfold ecam_base_of, ecam_of. by destruct (List.find _ _).
Qed.

(** The functions that exist have a bus, device and function number in range. *)
Definition bdf_ok (bus dev func : Z) : Prop :=
  0 <= bus < PCIE_MAX_BUS /\ 0 <= dev < PCIE_MAX_DEV /\ 0 <= func < PCIE_MAX_FUNC.

Lemma cfg_addr_sum bus dev func :
  bdf_ok bus dev func -> cfg_addr bus dev func = bus * 2 ^ 20 + dev * 2 ^ 15 + func * 2 ^ 12.
Proof.
  unfold bdf_ok, PCIE_MAX_BUS, PCIE_MAX_DEV, PCIE_MAX_FUNC. intros Hok. unfold cfg_addr.
  rewrite u32_id; unfold fits, PCIE_MAX_DEV, PCIE_MAX_FUNC; pow2; lia.
Qed.

(** The pages of two functions never overlap: over all functions of a segment
    and the 4096 bytes of each, the offset in the ECAM region is one to one, and
    stays inside the 256 MiB of the region. *)
Theorem cfg_addr_injective bus dev func off bus' dev' func' off' :
  bdf_ok bus dev func -> bdf_ok bus' dev' func' -> 0 <= off < 4096 -> 0 <= off' < 4096 ->
  0 <= cfg_addr bus dev func + off < 2 ^ 28 /\
  (cfg_addr bus dev func + off = cfg_addr bus' dev' func' + off' ->
   bus = bus' /\ dev = dev' /\ func = func' /\ off = off').
Proof.
  intros Hb Hb' Ho Ho'. rewrite !cfg_addr_sum by done.
  unfold bdf_ok, PCIE_MAX_BUS, PCIE_MAX_DEV, PCIE_MAX_FUNC in *. pow2. lia.
Qed.

Lemma eval_bind_wp {A B} (m : M A) (f : A -> M B) w a w1 Q :
  eval m w a w1 -> wp (f a) w1 Q -> wp (bind m f) w Q.
Proof. intros H1 H2. apply wp_bind. by eapply wp_eval. Qed.

(** The range checks of the accessors. *)
Lemma range_check bus dev func :
  bdf_ok bus dev func ->
  ((PCIE_MAX_BUS <=? bus) || (PCIE_MAX_DEV <=? dev) || (PCIE_MAX_FUNC <=? func)) = false.
Proof.
  intros (Hb & Hd & Hf). rewrite !orb_false_iff, !Z.leb_gt. lia.
Qed.

Lemma addr_fits base bus dv func off :
  bdf_ok bus dv func -> 0 <= base -> base + 2 ^ 28 <= 2 ^ 64 -> 0 <= off < 4096 ->
  fits 64 (base + cfg_addr bus dv func + off).
Proof.
  intros Hbdf Hb0 Hb64 Ho. rewrite (cfg_addr_sum _ _ _ Hbdf).
  unfold bdf_ok, PCIE_MAX_BUS, PCIE_MAX_DEV, PCIE_MAX_FUNC in Hbdf. unfold fits. pow2. lia.
Qed.

Lemma extract_create_ok seg bus dv func :
  fits 8 seg -> bdf_ok bus dv func ->
  let bdf := PCIE_CREATE_BDF seg bus dv func in
  PCIE_EXTRACT_BDF_SEG bdf = seg /\ PCIE_EXTRACT_BDF_BUS bdf = bus /\
  PCIE_EXTRACT_BDF_DEV bdf = dv /\ PCIE_EXTRACT_BDF_FUNC bdf = func.
Proof.
  intros Hs Hb. unfold bdf_ok, PCIE_MAX_BUS, PCIE_MAX_DEV, PCIE_MAX_FUNC in Hb.
  apply extract_create; unfold fits in *; pow2; lia.
Qed.

Lemma eval_read_cfg t seg bus dv func off w :
  g_pcie_info_table w = Some t -> ecam_table_ok t ->
  fits 8 seg -> bdf_ok bus dv func -> 0 <= off < 4096 ->
  let base := ecam_base_of t seg bus in
  0 < base -> base + 2 ^ 28 <= 2 ^ 64 ->
  let addr := base + cfg_addr bus dv func + off in
  let r := dev_read 4 (addr - addr mod 4) (dev w) in
  eval (val_pcie_read_cfg (PCIE_CREATE_BDF seg bus dv func) off) w
    (0, Some (u32 (fst r))) (set_dev (snd r) w).
Proof.
  intros Ht Hok Hseg Hbdf Hoff base Hb0 Hb64 addr r. unfold val_pcie_read_cfg.
  destruct (extract_create_ok seg bus dv func Hseg Hbdf) as (-> & -> & -> & ->).
  rewrite range_check by done. unfold eval.
  eapply eval_bind_wp; [by apply eval_gets|]; cbv beta iota.
  eapply eval_bind_wp; [by apply eval_find_ecam_base|]; cbv beta; fold base.
  rewrite (proj2 (Z.eqb_neq base 0) ltac:(lia)). io_step. apply wp_val_print. cbv zeta.
  rewrite u64_id by (apply addr_fits; [done|lia..]). fold addr.
  apply wp_bind. apply wp_pal_mmio_read. by apply wp_ret.
Qed.

Lemma eval_write_cfg t seg bus dv func off data w :
  g_pcie_info_table w = Some t -> ecam_table_ok t ->
  fits 8 seg -> bdf_ok bus dv func -> 0 <= off < 4096 ->
  let base := ecam_base_of t seg bus in
  0 < base -> base + 2 ^ 28 <= 2 ^ 64 ->
  eval (val_pcie_write_cfg (PCIE_CREATE_BDF seg bus dv func) off data) w tt
    (set_dev (dev_write 4 (base + cfg_addr bus dv func + off) data (dev w)) w).
Proof.
  intros Ht Hok Hseg Hbdf Hoff base Hb0 Hb64. unfold val_pcie_write_cfg.
  destruct (extract_create_ok seg bus dv func Hseg Hbdf) as (-> & -> & -> & ->).
  rewrite range_check by done. unfold eval.
  eapply eval_bind_wp; [by apply eval_gets|]; cbv beta iota.
  eapply eval_bind_wp; [by apply eval_find_ecam_base|]; cbv beta; fold base.
  rewrite (proj2 (Z.eqb_neq base 0) ltac:(lia)). unfold pal_mmio_write.
  rewrite u64_id by (apply addr_fits; [done|lia..]).
  io_step. apply wp_bsa_print. by apply wp_on_dev.
Qed.

(** C16: A read of a register of a function makes exactly one 32-bit access, at the
    base of the first region that covers its bus plus the function's page plus the
    offset, rounded down to a multiple of four, and returns its value with status
    0; when no region covers the bus nothing is accessed and the status is
    [PCIE_NO_MAPPING]. A write stores its data at the same place, or nowhere. *)
Theorem cfg_accesses_ecam t seg bus dv func off data w :
  g_pcie_info_table w = Some t -> ecam_table_ok t ->
  fits 8 seg -> bdf_ok bus dv func -> 0 <= off < 4096 ->
  let base := ecam_base_of t seg bus in
  0 <= base -> base + 2 ^ 28 <= 2 ^ 64 ->
  let addr := base + cfg_addr bus dv func + off in
  let r := dev_read 4 (addr - addr mod 4) (dev w) in
  let bdf := PCIE_CREATE_BDF seg bus dv func in
  if base =? 0 then
    eval (val_pcie_read_cfg bdf off) w (PCIE_NO_MAPPING, None) w /\
    eval (val_pcie_write_cfg bdf off data) w tt w
  else
    eval (val_pcie_read_cfg bdf off) w (0, Some (u32 (fst r))) (set_dev (snd r) w) /\
    eval (val_pcie_write_cfg bdf off data) w tt (set_dev (dev_write 4 addr data (dev w)) w).
Proof.
  intros Ht Hok Hseg Hbdf Hoff base Hb0 Hb64 addr r bdf.
  destruct (Z.eqb_spec base 0) as [Hz|Hz].
  2: { assert (0 < base) as Hp by lia. split.
       - exact (eval_read_cfg t seg bus dv func off w Ht Hok Hseg Hbdf Hoff Hp Hb64).
       - exact (eval_write_cfg t seg bus dv func off data w Ht Hok Hseg Hbdf Hoff Hp Hb64). }
  destruct (extract_create_ok seg bus dv func Hseg Hbdf) as (Es & Eb & Ed & Ef).
  split; [unfold val_pcie_read_cfg|unfold val_pcie_write_cfg].
  all: subst bdf; rewrite Es, Eb, Ed, Ef, range_check by done; unfold eval.
  all: eapply eval_bind_wp; [by apply eval_gets|]; cbv beta iota.
  all: eapply eval_bind_wp; [by apply eval_find_ecam_base|]; cbv beta; fold base.
  all: rewrite (proj2 (Z.eqb_eq base 0) Hz).
  - io_step. apply wp_val_print. by wp_step.
  - by apply wp_val_print.
Qed.

(** ** Capabilities *)

(** Function [bdf] is mapped and its 4 KiB of configuration space hold [space]
    and do not change when they are read. *)
Definition cfg_space (w : world D) (bdf : Z) (space : Z -> Z) : Prop :=
  forall off, 0 <= off < 4096 -> eval (val_pcie_read_cfg bdf off) w (0, Some (space off)) w.

(** The linked list of a function: the offsets reached from [start], up to the
    null pointer, where [nxt] gives the offset an entry points to. *)
Inductive cap_chain (nxt : Z -> Z) : Z -> list Z -> Prop :=
| chain_end : cap_chain nxt 0 []
| chain_link off l : off <> 0 -> cap_chain nxt (nxt off) l -> cap_chain nxt off (off :: l).

(** Where the chain of each kind starts, what an entry points to and what
    identifies it: PCI capabilities, and PCIe extended capabilities. *)
Definition cap_start (cid_type : Z) (space : Z -> Z) : Z :=
  if cid_type =? PCIE_CAP then space TYPE01_CPR mod 2 ^ 8 else 2 ^ 8.
Definition cap_next (cid_type : Z) (space : Z -> Z) (off : Z) : Z :=
  if cid_type =? PCIE_CAP then space off / 2 ^ 8 mod 2 ^ 8 else space off / 2 ^ 20 mod 2 ^ 12.
Definition cap_id (cid_type : Z) (space : Z -> Z) (off : Z) : Z :=
  if cid_type =? PCIE_CAP then space off mod 2 ^ 8 else space off mod 2 ^ 16.

Lemma cap_next_range cid_type space off : 0 <= cap_next cid_type space off < 4096.
Proof. unfold cap_next. case_match; divmod. Qed.
Lemma cap_start_range cid_type space : 0 <= cap_start cid_type space < 4096.
Proof. unfold cap_start. case_match; divmod. Qed.

Lemma cpr_range : 0 <= TYPE01_CPR < 4096.
Proof. by split. Qed.

Lemma eval_read_cfg_into space bdf off x w :
  cfg_space w bdf space -> 0 <= off < 4096 ->
  eval (read_cfg_into x bdf off) w (Some (space off)) w.
Proof. intros Hs Ho. eapply eval_bind; [exact (Hs _ Ho)|]. apply eval_ret. Qed.

Lemma eval_read_cfg_fresh space bdf off w :
  cfg_space w bdf space -> 0 <= off < 4096 ->
  eval (read_cfg_fresh bdf off) w (space off) w.
Proof.
  intros Hs Ho. eapply eval_bind; [by apply (eval_read_cfg_into space)|]. by apply eval_need.
Qed.

(** One round of the walk, in terms of the chain. *)
Definition walk_result (cid_type cid : Z) (space : Z -> Z) (l : list Z) : Z * option Z :=
  match List.find (fun off => cap_id cid_type space off =? cid) l with
  | Some off => (PCIE_SUCCESS, Some off)
  | None => (PCIE_CAP_NOT_FOUND, None)
  end.

Definition is_kind (cid_type cidr_mask ncpr_shift ncpr_mask : Z) : Prop :=
  (cid_type = PCIE_CAP /\ cidr_mask = PCIE_CIDR_MASK /\ ncpr_shift = PCIE_NCPR_SHIFT /\
   ncpr_mask = PCIE_NCPR_MASK) \/
  (cid_type = PCIE_ECAP /\ cidr_mask = PCIE_ECAP_CIDR_MASK /\
   ncpr_shift = PCIE_ECAP_NCPR_SHIFT /\ ncpr_mask = PCIE_ECAP_NCPR_MASK).

Lemma kind_fields cid_type m sh nm space off :
  is_kind cid_type m sh nm ->
  Z.land (space off) m = cap_id cid_type space off /\
  Z.land (Z.shiftr (space off) sh) nm = cap_next cid_type space off.
Proof.
  intros [(-> & -> & -> & ->)|(-> & -> & -> & ->)]; unfold cap_id, cap_next; cbn [Z.eqb Pos.eqb PCIE_CAP PCIE_ECAP].
  - unfold PCIE_CIDR_MASK, PCIE_NCPR_MASK, PCIE_NCPR_SHIFT.
    by rewrite !(land_mask 8), Z.shiftr_div_pow2 by done.
  - unfold PCIE_ECAP_CIDR_MASK, PCIE_ECAP_NCPR_MASK, PCIE_ECAP_NCPR_SHIFT.
    by rewrite (land_mask 16), (land_mask 12), Z.shiftr_div_pow2 by done.
Qed.

Lemma eval_walk fuel bdf cid_type cid m sh nm start l v0 space w :
  is_kind cid_type m sh nm -> cfg_space w bdf space -> 0 <= start < 4096 ->
  cap_chain (cap_next cid_type space) start l -> (length l < fuel)%nat ->
  eval (walk_capabilities fuel bdf cid m sh nm start v0) w (walk_result cid_type cid space l) w.
Proof.
  intros Hk Hs Hr Hc. revert fuel v0 Hr. unfold walk_capabilities.
  induction Hc as [|off l Hnz Hc IH]; intros fuel v0 Hr Hf; (destruct fuel as [|fuel]; [simpl in Hf; lia|]).
  - eapply eval_bind; [apply eval_ret|]. apply eval_ret.
  - destruct (kind_fields cid_type m sh nm space off Hk) as [Hid Hn]. simpl in Hf.
    eapply eval_bind.
    + cbv beta iota. unfold truthy. rewrite (proj2 (Z.eqb_neq off 0) Hnz). cbn [negb].
      eapply eval_bind; [by apply (eval_read_cfg_into space)|]. cbv beta.
      eapply eval_bind; [by apply eval_need|]. cbv beta. rewrite Hid, Hn. apply eval_ret.
    + unfold walk_result. cbn [List.find]. destruct (cap_id cid_type space off =? cid); [apply eval_ret|].
      apply IH; [apply cap_next_range|lia].
Qed.

Lemma eval_find_capability fuel bdf cid_type cid space l w :
  cid_type = PCIE_CAP \/ cid_type = PCIE_ECAP ->
  cfg_space w bdf space -> space TYPE01_CPR <> PCIE_UNKNOWN_RESPONSE ->
  cap_chain (cap_next cid_type space) (cap_start cid_type space) l -> (length l < fuel)%nat ->
  eval (val_pcie_find_capability fuel bdf cid_type cid) w
    (match List.find (fun off => cap_id cid_type space off =? cid) l with
     | Some off => (PCIE_SUCCESS, Some off)
     | None => (PCIE_CAP_NOT_FOUND, None)
     end) w.
Proof.
  intros Ht Hs Hu Hc Hf. fold (walk_result cid_type cid space l).
  pose proof (cap_start_range cid_type space) as Hr. unfold val_pcie_find_capability.
  destruct Ht as [-> | ->]; cbn [Z.eqb Pos.eqb PCIE_CAP PCIE_ECAP].
  - eapply eval_bind; [exact (Hs _ cpr_range)|]. cbn iota beta. cbn [Z.eqb PCIE_NO_MAPPING].
    eapply eval_bind; [by apply eval_need|]. cbv beta.
    rewrite (proj2 (Z.eqb_neq _ _) Hu). unfold TYPE01_CPR_MASK. rewrite (land_mask 8) by done.
    apply eval_walk; auto. left. auto.
  - apply eval_walk; auto. right. auto.
Qed.

(** C17: Looking for a capability in a well-formed chain ends after at most one
    round per entry and gives the first entry with the wanted identifier, or
    [PCIE_CAP_NOT_FOUND] when there is none; for PCI capabilities and for PCIe
    extended capabilities alike. *)
Theorem find_capability_first fuel bdf cid_type cid space l w :
  cid_type = PCIE_CAP \/ cid_type = PCIE_ECAP ->
  cfg_space w bdf space -> space TYPE01_CPR <> PCIE_UNKNOWN_RESPONSE ->
  cap_chain (cap_next cid_type space) (cap_start cid_type space) l -> (length l < fuel)%nat ->
  eval (val_pcie_find_capability fuel bdf cid_type cid) w
    (match List.find (fun off => cap_id cid_type space off =? cid) l with
     | Some off => (PCIE_SUCCESS, Some off)
     | None => (PCIE_CAP_NOT_FOUND, None)
     end) w.
Proof. exact (eval_find_capability fuel bdf cid_type cid space l w). Qed.

Lemma walk_cycle fuel bdf cid_type cid m sh nm start v0 space (S : Z -> Prop) w :
  is_kind cid_type m sh nm -> cfg_space w bdf space -> S start ->
  (forall off, S off ->
     off <> 0 /\ 0 <= off < 4096 /\ cap_id cid_type space off <> cid /\
     S (cap_next cid_type space off)) ->
  diverges (walk_capabilities fuel bdf cid m sh nm start v0) w.
Proof.
  intros Hk Hs H0 Hcl. apply (while_diverges (fun x s => S (fst x) /\ s = w));
    [split; [exact H0|reflexivity]|].
  intros [off v] s [Hoff ->]. simpl in Hoff.
  destruct (Hcl off Hoff) as (Hnz & Hr & Hid & Hn).
  destruct (kind_fields cid_type m sh nm space off Hk) as [Ei En].
  unfold truthy. rewrite (proj2 (Z.eqb_neq off 0) Hnz). cbn [negb].
  eapply eval_bind_wp; [by apply (eval_read_cfg_into space)|]. cbv beta.
  eapply eval_bind_wp; [by apply eval_need|]. apply wp_ret.
  rewrite Ei, En, (proj2 (Z.eqb_neq _ _) Hid). eexists. split; [reflexivity|]. split; [exact Hn|reflexivity].
Qed.

(** C18: On a chain that goes round without the wanted identifier the search does
    not terminate: no amount of fuel makes it return. [S] is the set of offsets of
    the cycle and of the path to it. *)
Theorem find_capability_cycle fuel bdf cid_type cid space (S : Z -> Prop) w :
  cid_type = PCIE_CAP \/ cid_type = PCIE_ECAP ->
  cfg_space w bdf space -> space TYPE01_CPR <> PCIE_UNKNOWN_RESPONSE ->
  S (cap_start cid_type space) ->
  (forall off, S off ->
     off <> 0 /\ 0 <= off < 4096 /\ cap_id cid_type space off <> cid /\
     S (cap_next cid_type space off)) ->
  diverges (val_pcie_find_capability fuel bdf cid_type cid) w.
Proof.
  intros Ht Hs Hu H0 Hcl. unfold val_pcie_find_capability.
  destruct Ht as [-> | ->]; cbn [Z.eqb Pos.eqb PCIE_CAP PCIE_ECAP].
  - eapply diverges_bind_eval; [exact (Hs _ cpr_range)|]. cbn iota beta. cbn [Z.eqb PCIE_NO_MAPPING].
    eapply diverges_bind_eval; [by apply eval_need|]. cbv beta.
    rewrite (proj2 (Z.eqb_neq _ _) Hu). unfold TYPE01_CPR_MASK. rewrite (land_mask 8) by done.
    eapply walk_cycle; [left|..]; eauto.
  - eapply walk_cycle; [right|..]; eauto.
Qed.

(** A function that answers all ones is reported to have every PCI capability,
    at no offset: the search returns the status of the read, which is success, and
    writes no offset; the operations that go on to use the offset, such as clearing
    the unsupported-request bit, then read an uninitialised variable. *)
Theorem find_capability_all_ones fuel bdf cid space w :
  cfg_space w bdf space -> space TYPE01_CPR = PCIE_UNKNOWN_RESPONSE ->
  eval (val_pcie_find_capability fuel bdf PCIE_CAP cid) w (PCIE_SUCCESS, None) w /\
  val_pcie_clear_urd fuel bdf w = Fault.
Proof.
  intros Hs Hu.
  assert (E : forall c, eval (val_pcie_find_capability fuel bdf PCIE_CAP c) w (PCIE_SUCCESS, None) w).
  { intros c. unfold val_pcie_find_capability. cbn [Z.eqb Pos.eqb PCIE_CAP].
    eapply eval_bind; [exact (Hs _ cpr_range)|]. cbn iota beta. cbn [Z.eqb PCIE_NO_MAPPING].
    eapply eval_bind; [by apply eval_need|]. cbv beta. rewrite Hu. apply eval_ret. }
  split; [done|]. specialize (E CID_PCIECS). unfold val_pcie_clear_urd, pciecs_base_of.
  unfold eval, wp in E. unfold bind.
  destruct (val_pcie_find_capability fuel bdf PCIE_CAP CID_PCIECS w) as [r s1 o| |]; [|contradiction..].
  destruct E as [-> ->]. reflexivity.
Qed.
End pcie.

(** ** Concrete inputs *)

(** One region, for buses 0 to 3 of segment 0, at 1 GiB. *)
Definition one_ecam : PCIE_INFO_TABLE := mkEcamTable 1 [mkEcam 0x40000000 0 0 3].

Definition on_pcie (mem : gmap Z Z) : world machine :=
  set_g_pcie_info_table (Some one_ecam) (boot mem ∅).

Lemma one_ecam_ok : ecam_table_ok one_ecam.
Proof. by split. Qed.

(** What a function of such a machine holds. *)
Definition function_space (mem : gmap Z Z) (bus dv func off : Z) : Z :=
  let addr := 0x40000000 + cfg_addr bus dv func + off in u32 (default 0 (mem !! (addr - addr mod 4))).

Lemma on_pcie_cfg_space mem (w : world machine) bus dv func :
  g_pcie_info_table w = Some one_ecam -> mach_mem (dev w) = mem ->
  0 <= bus <= 3 -> 0 <= dv < PCIE_MAX_DEV -> 0 <= func < PCIE_MAX_FUNC ->
  cfg_space w (PCIE_CREATE_BDF 0 bus dv func) (function_space mem bus dv func).
Proof.
  intros Ht Hm Hb Hd Hf off Hoff.
  assert (E : ecam_base_of one_ecam 0 bus = 0x40000000).
  { unfold ecam_base_of, ecam_of. change (take _ _) with [mkEcam 0x40000000 0 0 3].
    cbn [List.find]. assert (covers 0 bus (mkEcam 0x40000000 0 0 3) = true) as ->; [|done].
    unfold covers. cbn [start_bus_num end_bus_num segment_num].
    rewrite !andb_true_iff, !Z.leb_le. lia. }
  assert (Hbdf : bdf_ok bus dv func) by (unfold bdf_ok, PCIE_MAX_BUS; lia).
  pose proof (eval_read_cfg one_ecam 0 bus dv func off w Ht one_ecam_ok ltac:(done) Hbdf Hoff) as He.
  rewrite E in He. specialize (He ltac:(done) ltac:(done)). cbn [dev_read machine_platform fst snd] in He.
  rewrite Hm, set_dev_id in He. exact He.
Qed.

(** The function 1:2.3. *)
Definition space_of (mem : gmap Z Z) : Z -> Z := function_space mem 1 2 3.

Lemma on_pcie_space mem : cfg_space (on_pcie mem) (PCIE_CREATE_BDF 0 1 2 3) (space_of mem).
Proof. by apply (on_pcie_cfg_space mem _ 1 2 3). Qed.

(** A message-signalled-interrupt capability at 0x40, then the PCIe capability at
    0x50, whose next pointer is [next]. *)
Definition two_caps (next : Z) : gmap Z Z :=
  list_to_map [(0x40113034, 0x40); (0x40113040, 0x5005); (0x40113050, next * 256 + 0x10)].

Lemma bdf_roundtrip_witness :
  (let b := PCIE_CREATE_BDF 1 2 3 4 in
   fits 32 b /\ PCIE_EXTRACT_BDF_SEG b = 1 /\ PCIE_EXTRACT_BDF_BUS b = 2 /\
   PCIE_EXTRACT_BDF_DEV b = 3 /\ PCIE_EXTRACT_BDF_FUNC b = 4) /\
  PCIE_CREATE_BDF (PCIE_EXTRACT_BDF_SEG 0x12345678) (PCIE_EXTRACT_BDF_BUS 0x12345678)
    (PCIE_EXTRACT_BDF_DEV 0x12345678) (PCIE_EXTRACT_BDF_FUNC 0x12345678) = 0x12345678.
Proof. apply (bdf_roundtrip 1 2 3 4 0x12345678); by split. Defined.

Lemma cfg_addr_injective_witness :
  0 <= cfg_addr 1 2 3 + 16 < 2 ^ 28 /\
  (cfg_addr 1 2 3 + 16 = cfg_addr 1 2 4 + 16 -> 1 = 1 /\ 2 = 2 /\ 3 = 4 /\ 16 = 16).
Proof. apply (cfg_addr_injective 1 2 3 16 1 2 4 16); repeat split; done. Defined.

Lemma cfg_accesses_ecam_witness :
  let w := on_pcie (two_caps 0) in
  eval (val_pcie_read_cfg (PCIE_CREATE_BDF 0 1 2 3) 0x34) w (0, Some 0x40) w /\
  eval (val_pcie_write_cfg (PCIE_CREATE_BDF 0 1 2 3) 0x34 7) w tt
    (set_dev (dev_write 4 0x40113034 7 (dev w)) w).
Proof.
  exact (cfg_accesses_ecam one_ecam 0 1 2 3 0x34 7 (on_pcie (two_caps 0)) eq_refl one_ecam_ok
    ltac:(by split) ltac:(repeat split; done) ltac:(by split) ltac:(done) ltac:(done)).
Defined.

Lemma find_capability_first_witness :
  eval (val_pcie_find_capability 3 (PCIE_CREATE_BDF 0 1 2 3) PCIE_CAP 0x10)
    (on_pcie (two_caps 0)) (PCIE_SUCCESS, Some 0x50) (on_pcie (two_caps 0)).
Proof.
  apply (find_capability_first 3 _ PCIE_CAP 0x10 (space_of (two_caps 0)) [0x40; 0x50]).
  - by left.
  - apply on_pcie_space.
  - by vm_compute.
  - repeat first [apply chain_end | apply chain_link; [by vm_compute|]].
  - simpl. lia.
Defined.

Lemma find_capability_cycle_witness :
  diverges (val_pcie_find_capability 1000 (PCIE_CREATE_BDF 0 1 2 3) PCIE_CAP 0x11)
    (on_pcie (two_caps 0x40)).
Proof.
  apply (find_capability_cycle _ _ PCIE_CAP 0x11 (space_of (two_caps 0x40))
           (fun off => off = 0x40 \/ off = 0x50)).
  - by left.
  - apply on_pcie_space.
  - by vm_compute.
  - by left.
  - intros off [-> | ->]; (repeat split; try done); [by right|by left].
Defined.

Lemma find_capability_all_ones_witness :
  let w := on_pcie {[0x40113034 := 0xFFFFFFFF]} in
  eval (val_pcie_find_capability 3 (PCIE_CREATE_BDF 0 1 2 3) PCIE_CAP 0x10) w (PCIE_SUCCESS, None) w /\
  val_pcie_clear_urd 3 (PCIE_CREATE_BDF 0 1 2 3) w = Fault.
Proof.
  apply (find_capability_all_ones 3 _ 0x10 (space_of {[0x40113034 := 0xFFFFFFFF]})).
  - apply on_pcie_space.
  - by vm_compute.
Defined.
