(* ===== verification/PcieTable.v ===== *)
(** * The table of PCIe functions

    Discovery and hierarchy, from src/val/src/acs_pcie.c: the BDF table, the ECAM
    region and root port of a function, and stepping through bus numbers. *)

From S2P Require Import Prelude Types World Status Machine Pcie.
#[local] Open Scope c_scope.

Section table.
Context {D : Type} `{Platform D}.

#[local] Abbreviation M := (M (world D)).

(** The table's block holds [PCIE_DEVICE_BDF_TABLE_SZ] bytes: a count, then
    eight bytes for each function. *)
Definition bdf_table_capacity : Z := (PCIE_DEVICE_BDF_TABLE_SZ - 4) / 8.

Definition bdf_table : M pcie_device_bdf_table :=
  let* t := gets g_pcie_bdf_table in need t.

Definition table_entry (t : pcie_device_bdf_table) (i : Z) : M pcie_device_attr :=
  need (bdf_device t !! Z.to_nat i).

(** [device[num_entries++].bdf = bdf;] — past the end of the block the store is
    undefined. The root port of the entry is filled in later. *)
Definition bdf_table_add (bdf : Z) : M () :=
  let* t := bdf_table in
  if bdf_entries t <? bdf_table_capacity then
    modify (set_g_pcie_bdf_table (Some (mkBdfTable (u32 (bdf_entries t + 1))
      (take (Z.to_nat (bdf_entries t)) (bdf_device t) ++ [mkDev bdf 0]))))
  else fault.

Definition val_pcie_bdf_table_ptr : M pcie_device_bdf_table := bdf_table.

Definition val_pcie_get_rootport (fuel : nat) (bdf : Z) : M (Z * Z) :=
  let* dp_type := val_pcie_device_port_type fuel bdf in
  val_print ACS_PRINT_DEBUG "\n       DP type  0x%x " dp_type ;;
  if dp_type =? RP then ret (0, bdf)
  else if (dp_type =? RCiEP) || (dp_type =? RCEC) then ret (1, 0xffffffff)
  else
  let* t := bdf_table in
  let* r := for_ (Z.to_nat (bdf_entries t)) 0 (fun index reg_value =>
    let* e := table_entry t index in
    let rp_bdf := d_bdf e in
    let* reg_value := read_cfg_into reg_value rp_bdf TYPE1_PBN in
    let* v := need reg_value in
    let sec_bus := Z.land (Z.shiftr v SECBN_SHIFT) SECBN_MASK in
    let sub_bus := Z.land (Z.shiftr v SUBBN_SHIFT) SUBBN_MASK in
    let* dp_type := val_pcie_device_port_type fuel rp_bdf in
    (* [dp_type = iEP_RP] is an assignment, whose value is not zero *)
    let is_port := (dp_type =? RP) || truthy iEP_RP in
    ret (if is_port && (sec_bus <=? PCIE_EXTRACT_BDF_BUS bdf)
                    && (PCIE_EXTRACT_BDF_BUS bdf <=? sub_bus)
         then Break rp_bdf else Continue reg_value)) None in
  match r with
  | Break rp_bdf => ret (0, rp_bdf)
  | Continue _ =>
      val_print ACS_PRINT_ERR "\n       PCIe Hierarchy fail: RP of bdf 0x%x not found" bdf ;;
      ret (1, 0)
  end.

Definition val_pcie_populate_device_rootport (fuel : nat) : M Z :=
  let* t := bdf_table in
  let* r := for_ (Z.to_nat (bdf_entries t)) 0 (fun tbl_index _ =>
    let* t := bdf_table in
    let* e := table_entry t tbl_index in
    let bdf := d_bdf e in
    val_print ACS_PRINT_DEBUG "\n       Device bdf 0x%x" bdf ;;
    let* ' (status, rp_bdf) := val_pcie_get_rootport fuel bdf in
    if truthy status && (rp_bdf =? 0) then ret (Break tt)
    else
      modify (set_g_pcie_bdf_table (Some (mkBdfTable (bdf_entries t)
        (<[Z.to_nat tbl_index := mkDev bdf rp_bdf]> (bdf_device t))))) ;;
      val_print ACS_PRINT_DEBUG " RP bdf 0x%x" rp_bdf ;;
      ret (Continue tt)) tt in
  ret (match r with Break _ => 1 | Continue _ => 0 end).

(** One device's functions; [None] is a mapping error. A function 0 that does not
    answer ends the device. *)
Definition scan_functions (fuel : nat) (seg_num bus_index dev_index : Z) : M (option ()) :=
  let* r := for_ (Z.to_nat PCIE_MAX_FUNC) 0 (fun func_index _ =>
    let bdf := PCIE_CREATE_BDF seg_num bus_index dev_index func_index in
    let* ' (st, data) := val_pcie_read_cfg bdf TYPE01_VIDR in
    if st =? PCIE_NO_MAPPING then
      val_print ACS_PRINT_ERR "\n       BDF 0x%x mapping issue" bdf ;;
      ret (Break None)
    else
    let* reg_value := need data in
    if negb (reg_value =? PCIE_UNKNOWN_RESPONSE) then
      let* hb := val_pcie_is_host_bridge bdf in
      if hb then ret (Continue tt)
      else
        let* ' (p_cap, _) := val_pcie_find_capability fuel bdf PCIE_CAP CID_PCIECS in
        if negb (p_cap =? PCIE_SUCCESS) then ret (Continue tt)
        else bdf_table_add bdf ;; ret (Continue tt)
    else if func_index =? 0 then ret (Break (Some tt))
    else ret (Continue tt)) tt in
  ret (match r with Break r => r | Continue _ => Some tt end).

Definition scan_bus (fuel : nat) (seg_num bus_index : Z) : M (option ()) :=
  let* r := for_ (Z.to_nat PCIE_MAX_DEV) 0 (fun dev_index _ =>
    let* r := scan_functions fuel seg_num bus_index dev_index in
    ret (match r with Some _ => Continue tt | None => Break tt end)) tt in
  ret (match r with Break _ => None | Continue _ => Some tt end).

Definition scan_ecam (fuel : nat) (ecam_index : Z) : M (option ()) :=
  let* seg_num := val_pcie_get_info PCIE_INFO_SEGMENT ecam_index in
  let* start_bus := val_pcie_get_info PCIE_INFO_START_BUS ecam_index in
  let* end_bus := val_pcie_get_info PCIE_INFO_END_BUS ecam_index in
  let* r := for_ (Z.to_nat (end_bus - start_bus + 1)) start_bus (fun bus_index _ =>
    let* r := scan_bus fuel seg_num bus_index in
    ret (match r with Some _ => Continue tt | None => Break tt end)) tt in
  ret (match r with Break _ => None | Continue _ => Some tt end).

Definition val_pcie_create_device_bdf_table (fuel : nat) : M Z :=
  let* t := gets g_pcie_bdf_table in
  match t with
  | Some _ => ret PCIE_SUCCESS
  | None =>
      let* p := pal_mem_alloc PCIE_DEVICE_BDF_TABLE_SZ in
      if p =? 0 then
        val_print ACS_PRINT_ERR
          "\n       PCIe BDF table memory allocation failed          " 0 ;;
        ret 1
      else
      modify (set_g_pcie_bdf_table (Some (mkBdfTable 0 []))) ;;
      let* num_ecam := val_pcie_get_info PCIE_INFO_NUM_ECAM 0 in
      if num_ecam =? 0 then
        val_print ACS_PRINT_ERR "\n       No ECAMs discovered              " 0 ;;
        ret 1
      else
      let* r := for_ (Z.to_nat num_ecam) 0 (fun ecam_index _ =>
        let* r := scan_ecam fuel ecam_index in
        ret (match r with Some _ => Continue tt | None => Break tt end)) tt in
      match r with
      | Break _ => ret 1
      | Continue _ =>
          let* t := bdf_table in
          val_print ACS_PRINT_INFO "\n       Number of valid BDFs is %x\n" (bdf_entries t) ;;
          let* r := val_pcie_populate_device_rootport fuel in
          if truthy r then
            let* t := bdf_table in
            modify (set_g_pcie_bdf_table (Some (mkBdfTable 0 (bdf_device t)))) ;;
            ret 1
          else ret 0
      end
  end.

(** [ecam_index] is a [uint8_t]. *)
Definition val_pcie_get_ecam_base (fuel : nat) (bdf : Z) : M Z :=
  let seg_num := PCIE_EXTRACT_BDF_SEG bdf in
  while_ fuel (fun ecam_index =>
    let* n := val_pcie_get_info PCIE_INFO_NUM_ECAM 0 in
    if ecam_index <? n then
      let next := Continue (u8 (ecam_index + 1)) in
      let* seg := val_pcie_get_info PCIE_INFO_SEGMENT ecam_index in
      if seg_num =? seg then
        let* ht := val_pcie_function_header_type bdf in
        if ht =? TYPE0_HEADER then
          let* base := val_pcie_get_info PCIE_INFO_ECAM ecam_index in ret (Break base)
        else
          let* reg_value := read_cfg_fresh bdf TYPE1_PBN in
          let sec_bus := Z.land (Z.shiftr reg_value SECBN_SHIFT) SECBN_MASK in
          let sub_bus := Z.land (Z.shiftr reg_value SUBBN_SHIFT) SUBBN_MASK in
          let* first := val_pcie_get_info PCIE_INFO_START_BUS ecam_index in
          if first <=? sec_bus then
            let* last := val_pcie_get_info PCIE_INFO_END_BUS ecam_index in
            if sub_bus <=? last then
              let* base := val_pcie_get_info PCIE_INFO_ECAM ecam_index in ret (Break base)
            else ret next
          else ret next
      else ret next
    else ret (Break 0)) 0.

Record port_counts := mkCounts {
  num_rciep : Z; num_rcec : Z; num_ep : Z; num_rp : Z; num_iep : Z; num_irp : Z }.

Definition count_port (c : port_counts) (dp_type : Z) : port_counts :=
  let '(mkCounts a b e r i j) := c in
  if dp_type =? RCiEP then mkCounts (a + 1) b e r i j
  else if dp_type =? RCEC then mkCounts a (b + 1) e r i j
  else if dp_type =? EP then mkCounts a b (e + 1) r i j
  else if dp_type =? RP then mkCounts a b e (r + 1) i j
  else if dp_type =? iEP_EP then mkCounts a b e r (i + 1) j
  else if dp_type =? iEP_RP then mkCounts a b e r i (j + 1)
  else c.

(** Both bases compared are cut to 32 bits. *)
Definition val_pcie_print_device_info (fuel : nat) : M () :=
  let* t := bdf_table in
  if bdf_entries t =? 0 then val_print ACS_PRINT_ERR " PCIE_INFO: BDF Table : No Devices Found\n" 0
  else
  let* c := for_acc (Z.to_nat (bdf_entries t)) 0 (fun tbl_index c =>
    let* e := table_entry t tbl_index in
    let* dp_type := val_pcie_device_port_type fuel (d_bdf e) in
    ret (count_port c dp_type)) (mkCounts 0 0 0 0 0 0) in
  val_print ACS_PRINT_TEST " PCIE_INFO: Number of RCiEP           : %4d \n" (num_rciep c) ;;
  val_print ACS_PRINT_TEST " PCIE_INFO: Number of RCEC            : %4d \n" (num_rcec c) ;;
  val_print ACS_PRINT_TEST " PCIE_INFO: Number of EP              : %4d \n" (num_ep c) ;;
  val_print ACS_PRINT_TEST " PCIE_INFO: Number of RP              : %4d \n" (num_rp c) ;;
  val_print ACS_PRINT_TEST " PCIE_INFO: Number of iEP_EP          : %4d \n" (num_iep c) ;;
  val_print ACS_PRINT_TEST " PCIE_INFO: Number of iEP_RP          : %4d \n" (num_irp c) ;;
  let* n := val_pcie_get_info PCIE_INFO_NUM_ECAM 0 in
  for_each (Z.to_nat n) 0 (fun ecam_index =>
    let* base := val_pcie_get_info PCIE_INFO_ECAM ecam_index in
    let ecam_base := u32 base in
    val_print ACS_PRINT_INFO "PCIE_INFO: ECAM Regions \n" ecam_index ;;
    val_print ACS_PRINT_INFO "        ECAM %d:\n" ecam_index ;;
    for_each (Z.to_nat (bdf_entries t)) 0 (fun tbl_index =>
      let* e := table_entry t tbl_index in
      let bdf := d_bdf e in
      let bus_id := PCIE_EXTRACT_BDF_BUS bdf in
      let* reg_value := read_cfg_fresh bdf TYPE01_VIDR in
      let device_id := Z.land (Z.shiftr reg_value TYPE01_DIDR_SHIFT) TYPE01_DIDR_MASK in
      let vendor_id := Z.land (Z.shiftr reg_value TYPE01_VIDR_SHIFT) TYPE01_VIDR_MASK in
      let* base := val_pcie_get_ecam_base fuel bdf in
      let dev_ecam_base := u32 base in
      when ecam_base =? dev_ecam_base then
        (val_print ACS_PRINT_INFO "              Bus ID: 0x%x, " bus_id ;;
         val_print ACS_PRINT_INFO "Dev ID: 0x%x, " device_id ;;
         val_print ACS_PRINT_INFO "Vendor ID: 0x%x\n" vendor_id))).

(** The address of a BAR: [base_ptr[0]] and [base_ptr[1]], [None] where it is left
    as it was. *)
Definition val_pcie_get_mmio_bar (fuel : nat) (bdf : Z) : M (option Z * option Z) :=
  let* r := while_ fuel (fun '(index, low, high, hi_out) =>
    if index <? TYPE0_MAX_BARS then
      let* low := read_cfg_into low bdf (u32 (TYPE01_BAR + index * 4)) in
      let* v := need low in
      if Z.land (Z.shiftr v BAR_MIT_SHIFT) BAR_MIT_MASK =? MMIO then
        let mdt := Z.land (Z.shiftr v BAR_MDT_SHIFT) BAR_MDT_MASK in
        let* hi_out :=
          if mdt =? BITS_64 then
            let* high := read_cfg_into high bdf (u32 (TYPE01_BAR + (index + 1) * 4)) in
            let* h := need high in ret (Some h)
          else if mdt =? BITS_32 then ret (Some 0) else ret hi_out in
        let base := u32 (Z.shiftl (Z.land (Z.shiftr v BAR_BASE_SHIFT) BAR_BASE_MASK)
                           BAR_BASE_SHIFT) in
        ret (Break (Some base, hi_out))
      else
        let index := index + 1 in
        let* ht := val_pcie_function_header_type bdf in
        if (ht =? TYPE1_HEADER) && (index =? TYPE1_MAX_BARS) then ret (Break (Some 0, Some 0))
        else ret (Continue (index, low, high, hi_out))
    else ret (Break (Some 0, Some 0))) (0, None, None, None) in
  ret r.

(** The first function with a type 0 header behind the bridge, else the first
    with a type 1 header. *)
Definition val_pcie_get_downstream_function (bdf : Z) : M (Z * Z) :=
  let* reg_value := read_cfg_fresh bdf TYPE1_PBN in
  let sec_bus := Z.land (Z.shiftr reg_value SECBN_SHIFT) SECBN_MASK in
  let sub_bus := Z.land (Z.shiftr reg_value SUBBN_SHIFT) SUBBN_MASK in
  let seg := PCIE_EXTRACT_BDF_SEG bdf in
  let* t := bdf_table in
  let* r := for_ (Z.to_nat (bdf_entries t)) 0 (fun index '(dsf_bdf, type1) =>
    let* e := table_entry t index in
    if (sec_bus <=? PCIE_EXTRACT_BDF_BUS (d_bdf e))
       && (PCIE_EXTRACT_BDF_BUS (d_bdf e) <=? sub_bus)
       && (PCIE_EXTRACT_BDF_SEG (d_bdf e) =? seg) then
      let* ht := val_pcie_function_header_type (d_bdf e) in
      if ht =? TYPE0_HEADER then ret (Break (d_bdf e))
      else
        ret (Continue (d_bdf e, match type1 with None => Some (d_bdf e) | Some b => Some b end))
    else ret (Continue (dsf_bdf, type1))) (0, None) in
  match r with
  | Break b => ret (0, b)
  | Continue (_, Some b) => ret (0, b)
  | Continue (dsf_bdf, None) => ret (1, dsf_bdf)
  end.

(** [None]: [*rp_bdf] is not written. *)
Definition val_pcie_parent_is_rootport (fuel : nat) (dsf_bdf : Z) : M (Z * option Z) :=
  let dsf_bus := PCIE_EXTRACT_BDF_BUS dsf_bdf in
  let* t := val_pcie_bdf_table_ptr in
  let* r := for_ (Z.to_nat (bdf_entries t)) 0 (fun tbl_index reg_value =>
    let* e := table_entry t tbl_index in
    let* dp_type := val_pcie_device_port_type fuel (d_bdf e) in
    if dp_type =? RP then
      let* reg_value := read_cfg_into reg_value (d_bdf e) TYPE1_PBN in
      let* v := need reg_value in
      ret (if (dsf_bus =? Z.land (Z.shiftr v SECBN_SHIFT) SECBN_MASK)
              && (dsf_bus <=? Z.land (Z.shiftr v SUBBN_SHIFT) SUBBN_MASK)
           then Break (d_bdf e) else Continue reg_value)
    else ret (Continue reg_value)) None in
  ret (match r with Break b => (0, Some b) | Continue _ => (1, None) end).

(** ** Stepping *)

Definition val_pcie_increment_busdev (start_bdf : Z) : Z :=
  let seg := PCIE_EXTRACT_BDF_SEG start_bdf in
  let bus := PCIE_EXTRACT_BDF_BUS start_bdf in
  let dev := PCIE_EXTRACT_BDF_DEV start_bdf in
  let '(bus, dev) := if negb (dev =? PCIE_MAX_DEV) then (bus, dev + 1) else (bus + 1, 0) in
  PCIE_CREATE_BDF seg bus dev 0.

(** The last ECAM region of a segment, searched downwards; [None] is -1. *)
Fixpoint find_segment_down (n : nat) (seg : Z) : M (option Z) :=
  match n with
  | O => ret None
  | S k =>
      let* s := val_pcie_get_info PCIE_INFO_SEGMENT (Z.of_nat k) in
      if seg =? s then ret (Some (Z.of_nat k)) else find_segment_down k seg
  end.

Definition val_pcie_increment_bdf (bdf : Z) : M Z :=
  let seg := PCIE_EXTRACT_BDF_SEG bdf in
  let bus := PCIE_EXTRACT_BDF_BUS bdf in
  let dev := PCIE_EXTRACT_BDF_DEV bdf in
  let func := PCIE_EXTRACT_BDF_FUNC bdf in
  let* ecam_cnt := val_pcie_get_info PCIE_INFO_NUM_ECAM 0 in
  let* i := find_segment_down (Z.to_nat ecam_cnt) seg in
  match i with
  | None => ret 0
  | Some ecam_index =>
      if func <? PCIE_MAX_FUNC - 1 then ret (PCIE_CREATE_BDF seg bus dev (func + 1))
      else if dev <? PCIE_MAX_DEV - 1 then ret (PCIE_CREATE_BDF seg bus (dev + 1) 0)
      else
      let* end_bus := val_pcie_get_info PCIE_INFO_END_BUS ecam_index in
      if bus <? end_bus then ret (PCIE_CREATE_BDF seg (bus + 1) 0 0)
      else
      let* n := val_pcie_get_info PCIE_INFO_NUM_ECAM 0 in
      if ecam_index + 1 <? n then
        let* bus := val_pcie_get_info PCIE_INFO_START_BUS (ecam_index + 1) in
        let* seg := val_pcie_get_info PCIE_INFO_SEGMENT (ecam_index + 1) in
        ret (PCIE_CREATE_BDF seg bus 0 0)
      else ret 0
  end.

(** ** Stepping visits every function of a region in order *)

(** Function number [k] of a segment, counting 8 to a device and 32 devices to a bus. *)
Definition bdf_at (seg k : Z) : Z :=
  PCIE_CREATE_BDF seg (k / 2 ^ 8) (k / 2 ^ 3 mod 2 ^ 5) (k mod 2 ^ 3).

(** [i] is the last region of the table for segment [seg], and [b] that region. *)
Definition last_region (t : PCIE_INFO_TABLE) (seg : Z) (i : nat) (b : PCIE_INFO_BLOCK) : Prop :=
  Z.of_nat i < ecam_entries t /\ ecam_block t !! i = Some b /\ segment_num b = seg /\
  forall j c, (i < j)%nat -> Z.of_nat j < ecam_entries t -> ecam_block t !! j = Some c ->
    segment_num c <> seg.

Lemma eval_find_segment_down t seg i b w n :
  g_pcie_info_table w = Some t -> ecam_table_ok t -> last_region t seg i b ->
  (i < n)%nat -> Z.of_nat n <= ecam_entries t ->
  eval (find_segment_down n seg) w (Some (Z.of_nat i)) w.
Proof.
  intros Ht Hok (Hi & Hb & Hseg & Hlast) Hin. unfold ecam_table_ok in Hok.
  induction n as [|n IH]; intros Hn; [lia|]. cbn [find_segment_down].
  destruct (lookup_lt_is_Some_2 (ecam_block t) n) as [c Hc]; [lia|].
  eapply eval_bind.
  { eapply (eval_ecam_info _ _ t c); [reflexivity|exact Ht|lia|by rewrite Nat2Z.id]. }
  cbv beta. destruct (decide (n = i)) as [->|Hne].
  - simplify_eq. rewrite Z.eqb_refl. apply eval_ret.
  - assert (Hsc : segment_num c <> seg) by (apply (Hlast n c); [lia|lia|done]).
    rewrite (proj2 (Z.eqb_neq seg (segment_num c))) by congruence. apply IH; lia.
Qed.

Lemma extract_bdf_at seg k :
  fits 8 seg -> 0 <= k < 2 ^ 16 ->
  PCIE_EXTRACT_BDF_SEG (bdf_at seg k) = seg /\ PCIE_EXTRACT_BDF_BUS (bdf_at seg k) = k / 2 ^ 8 /\
  PCIE_EXTRACT_BDF_DEV (bdf_at seg k) = k / 2 ^ 3 mod 2 ^ 5 /\
  PCIE_EXTRACT_BDF_FUNC (bdf_at seg k) = k mod 2 ^ 3.
Proof.
  intros Hs Hk.
  assert (H1 : fits 8 (k / 2 ^ 8)) by (unfold fits; divmod).
  assert (H2 : fits 8 (k / 2 ^ 3 mod 2 ^ 5)) by (unfold fits; divmod).
  assert (H3 : fits 8 (k mod 2 ^ 3)) by (unfold fits; divmod).
  exact (extract_create seg _ _ _ Hs H1 H2 H3).
Qed.

(** [val_pcie_increment_bdf] steps through the functions in order: from
    function [k] of a region it goes to function [k + 1] as long as the region has
    one, then to the first function of the next region of the table, and after the
    last region to 0. *)
Theorem increment_bdf_next t seg i b k w :
  g_pcie_info_table w = Some t -> ecam_table_ok t -> last_region t seg i b ->
  fits 8 seg -> fits 8 (end_bus_num b) -> 0 <= k < (end_bus_num b + 1) * 2 ^ 8 ->
  eval (val_pcie_increment_bdf (bdf_at seg k)) w
    (if k + 1 <? (end_bus_num b + 1) * 2 ^ 8 then bdf_at seg (k + 1)
     else if Z.of_nat i + 1 <? ecam_entries t then
       match ecam_block t !! S i with
       | Some c => PCIE_CREATE_BDF (segment_num c) (start_bus_num c) 0 0
       | None => 0
       end
     else 0) w.
Proof.
  intros Ht Hok Hlast Hseg Hend Hk. destruct (Hlast) as (Hi & Hb & Hsb & _).
  unfold val_pcie_increment_bdf.
  destruct (extract_bdf_at seg k) as (-> & -> & -> & ->); [exact Hseg|unfold fits in Hend; pow2; lia|].
  eapply eval_bind; [by apply (eval_num_ecam t)|]. cbv beta.
  eapply eval_bind.
  { apply (eval_find_segment_down t seg i b); auto; unfold ecam_table_ok in Hok; lia. }
  cbv beta iota. unfold PCIE_MAX_FUNC, PCIE_MAX_DEV, bdf_at.
  destruct (Z.ltb_spec (k mod 2 ^ 3) (8 - 1)) as [Hf|Hf].
  { rewrite (proj2 (Z.ltb_lt (k + 1) _)) by divmod.
    replace ((k + 1) / 2 ^ 8) with (k / 2 ^ 8) by divmod.
    replace ((k + 1) / 2 ^ 3) with (k / 2 ^ 3) by divmod.
    replace ((k + 1) mod 2 ^ 3) with (k mod 2 ^ 3 + 1) by divmod. apply eval_ret. }
  destruct (Z.ltb_spec (k / 2 ^ 3 mod 2 ^ 5) (32 - 1)) as [Hd|Hd].
  { rewrite (proj2 (Z.ltb_lt (k + 1) _)) by divmod.
    replace ((k + 1) / 2 ^ 8) with (k / 2 ^ 8) by divmod.
    replace ((k + 1) / 2 ^ 3 mod 2 ^ 5) with (k / 2 ^ 3 mod 2 ^ 5 + 1) by divmod.
    replace ((k + 1) mod 2 ^ 3) with 0 by divmod. apply eval_ret. }
  eapply eval_bind.
  { eapply (eval_ecam_info _ _ t b); [reflexivity|exact Ht|lia|by rewrite Nat2Z.id]. }
  cbv beta. destruct (Z.ltb_spec (k / 2 ^ 8) (end_bus_num b)) as [Hbus|Hbus].
  { rewrite (proj2 (Z.ltb_lt (k + 1) _)) by divmod.
    replace ((k + 1) / 2 ^ 8) with (k / 2 ^ 8 + 1) by divmod.
    replace ((k + 1) / 2 ^ 3 mod 2 ^ 5) with 0 by divmod.
    replace ((k + 1) mod 2 ^ 3) with 0 by divmod. apply eval_ret. }
  rewrite (proj2 (Z.ltb_ge (k + 1) _)) by divmod.
  eapply eval_bind; [by apply (eval_num_ecam t)|]. cbv beta.
  destruct (Z.ltb_spec (Z.of_nat i + 1) (ecam_entries t)) as [Hn|Hn]; [|apply eval_ret].
  unfold ecam_table_ok in Hok.
  destruct (lookup_lt_is_Some_2 (ecam_block t) (S i)) as [c Hc]; [lia|]. rewrite Hc.
  do 2 (eapply eval_bind;
    [eapply (eval_ecam_info _ _ t c); [reflexivity|exact Ht|lia|by replace (Z.to_nat (Z.of_nat i + 1)) with (S i) by lia]|]).
  apply eval_ret.
Qed.
End table.

(** From the last function of bus 3 to the end, and from 0:31.7 to 1:0.0. *)
Lemma increment_bdf_next_witness :
  eval (val_pcie_increment_bdf (bdf_at 0 (4 * 256 - 1))) (on_pcie ∅) 0 (on_pcie ∅) /\
  eval (val_pcie_increment_bdf (bdf_at 0 255)) (on_pcie ∅) 0x010000 (on_pcie ∅).
Proof.
  assert (Hl : last_region one_ecam 0 0 (mkEcam 0x40000000 0 0 3)).
  { split; [done|]. split; [done|]. split; [done|]. intros j c Hj Hn. cbn in Hn. lia. }
  split.
  - apply (increment_bdf_next one_ecam 0 0 _ (4 * 256 - 1) (on_pcie ∅) eq_refl one_ecam_ok Hl);
      by vm_compute.
  - apply (increment_bdf_next one_ecam 0 0 _ 255 (on_pcie ∅) eq_refl one_ecam_ok Hl); by vm_compute.
Defined.
