(* ===== verification/PcieDiscovery.v ===== *)
(** * Discovery of the PCIe functions, specified

    What src/val/src/acs_pcie.c promises about the BDF table, stated on an abstract
    view of the hierarchy - the contents of every function's configuration space -
    and the proof that the scanning loops of [val_pcie_create_device_bdf_table]
    build exactly that table. *)

From S2P Require Import Prelude Types World Status Machine Pcie PcieTable.
#[local] Open Scope c_scope.

Section discovery.
Context {D : Type} `{Platform D}.

#[local] Abbreviation M := (M (world D)).

(** ** The abstract view *)

(** [cfg bdf off] is the register at [off] of function [bdf]; [caps bdf] the
    offsets of its PCI capabilities, in order. *)
Context (cfg : Z -> Z -> Z) (caps : Z -> list Z).

Definition answers (bdf : Z) : bool := negb (cfg bdf TYPE01_VIDR =? PCIE_UNKNOWN_RESPONSE).

Definition host_bridge (bdf : Z) : bool :=
  (HB_BASE_CLASS =? cfg bdf TYPE01_RIDR / 2 ^ 24 mod 2 ^ 8) &&
  (HB_SUB_CLASS =? cfg bdf TYPE01_RIDR / 2 ^ 16 mod 2 ^ 8).

(** The offset of the PCI Express capability. *)
Definition express (bdf : Z) : option Z :=
  List.find (fun off => cfg bdf off mod 2 ^ 8 =? CID_PCIECS) (caps bdf).

Definition listed (bdf : Z) : bool :=
  answers bdf && negb (host_bridge bdf) && (if express bdf is Some _ then true else false).

(** The functions of a device are looked at only when function 0 answers. *)
Definition device_functions (seg bus dv : Z) : list Z :=
  if answers (PCIE_CREATE_BDF seg bus dv 0) then
    concat ((fun func => let bdf := PCIE_CREATE_BDF seg bus dv func in
                         if listed bdf then [bdf] else []) <$> seqZ 0 PCIE_MAX_FUNC)
  else [].

Definition bus_functions (seg bus : Z) : list Z :=
  concat (device_functions seg bus <$> seqZ 0 PCIE_MAX_DEV).

Definition region_functions (b : PCIE_INFO_BLOCK) : list Z :=
  concat (bus_functions (segment_num b) <$>
          seqZ (start_bus_num b) (Z.max 0 (end_bus_num b - start_bus_num b + 1))).

Definition all_functions (t : PCIE_INFO_TABLE) : list Z :=
  concat (region_functions <$> take (Z.to_nat (ecam_entries t)) (ecam_block t)).

(** ** The state while the table is being built *)

Definition with_functions (w : world D) (l : list Z) : world D :=
  set_g_pcie_bdf_table
    (Some (mkBdfTable (Z.of_nat (length l)) ((fun bdf => mkDev bdf 0) <$> l))) w.

(** What the theorems assume of function [bdf]: reading its configuration space
    gives [cfg bdf] whatever is in the BDF table, and, when it answers, its
    capability list is [caps bdf] and [fuel] is enough to walk it. *)
Definition function_ok (fuel : nat) (w : world D) (bdf : Z) : Prop :=
  (forall tbl, cfg_space (set_g_pcie_bdf_table tbl w) bdf (cfg bdf)) /\
  (answers bdf = true ->
   cfg bdf TYPE01_CPR <> PCIE_UNKNOWN_RESPONSE /\
   cap_chain (cap_next PCIE_CAP (cfg bdf)) (cap_start PCIE_CAP (cfg bdf)) (caps bdf) /\
   (length (caps bdf) < fuel)%nat).

Lemma eval_express fuel w bdf tbl :
  function_ok fuel w bdf -> answers bdf = true ->
  eval (val_pcie_find_capability fuel bdf PCIE_CAP CID_PCIECS) (set_g_pcie_bdf_table tbl w)
    (match express bdf with
     | Some off => (PCIE_SUCCESS, Some off) | None => (PCIE_CAP_NOT_FOUND, None) end)
    (set_g_pcie_bdf_table tbl w).
Proof.
  intros [Hs Hc] Ha. destruct (Hc Ha) as (Hu & Hl & Hf).
  apply (eval_find_capability fuel bdf PCIE_CAP CID_PCIECS (cfg bdf) (caps bdf)); auto.
Qed.

Lemma eval_host_bridge fuel w bdf tbl :
  function_ok fuel w bdf ->
  eval (val_pcie_is_host_bridge bdf) (set_g_pcie_bdf_table tbl w) (host_bridge bdf)
    (set_g_pcie_bdf_table tbl w).
Proof.
  intros [Hs _]. eapply eval_bind; [apply (eval_read_cfg_fresh (cfg bdf)); [apply Hs|by split]|].
  unfold host_bridge, CC_BASE_MASK, CC_SUB_MASK, CC_BASE_SHIFT, CC_SUB_SHIFT.
  rewrite <- !(land_mask 8 0xFF), <- !Z.shiftr_div_pow2 by done. apply eval_ret.
Qed.

Lemma eval_bdf_table_add w l bdf :
  (length (l ++ [bdf]) <= Z.to_nat bdf_table_capacity)%nat ->
  eval (bdf_table_add bdf) (with_functions w l) tt (with_functions w (l ++ [bdf])).
Proof.
  change (Z.to_nat bdf_table_capacity) with 1023%nat. rewrite length_app. cbn [length]. intros Hl.
  unfold bdf_table_add, bdf_table. eapply eval_bind.
  { eapply eval_bind; [by apply eval_gets|]. by apply eval_need. }
  cbn beta iota delta [bdf_entries bdf_device].
  destruct (Z.ltb_spec (Z.of_nat (length l)) bdf_table_capacity) as [_|Hge];
    [|change bdf_table_capacity with 1023 in Hge; lia].
  unfold with_functions. rewrite Nat2Z.id, u32_id by (unfold fits; pow2; lia).
  rewrite take_ge by (by rewrite length_fmap). rewrite fmap_app, length_app.
  cbn [length fmap list_fmap]. rewrite Nat2Z.inj_add. split; [done|]. by destruct w.
Qed.

(** ** The scanning loops *)

Lemma eval_probe fuel w l bdf :
  function_ok fuel w bdf ->
  eval (val_pcie_read_cfg bdf TYPE01_VIDR) (with_functions w l)
    (0, Some (cfg bdf TYPE01_VIDR)) (with_functions w l).
Proof. intros [Hs _]. apply Hs. by split. Qed.

Lemma eval_scan_functions fuel w l seg bus dv :
  (forall func, 0 <= func < PCIE_MAX_FUNC -> function_ok fuel w (PCIE_CREATE_BDF seg bus dv func)) ->
  (length (l ++ device_functions seg bus dv) <= Z.to_nat bdf_table_capacity)%nat ->
  eval (scan_functions fuel seg bus dv) (with_functions w l) (Some tt)
    (with_functions w (l ++ device_functions seg bus dv)).
Proof.
  intros Hok Hcap. unfold scan_functions, device_functions in *.
  destruct (answers (PCIE_CREATE_BDF seg bus dv 0)) eqn:Ha0.
  - eapply (eval_bind _ _ _ (Continue tt)); [|apply eval_ret].
    apply (eval_for_collect (with_functions w)
             (fun func => let bdf := PCIE_CREATE_BDF seg bus dv func in
                          if listed bdf then [bdf] else [])
             (Z.to_nat bdf_table_capacity)); [|done].
    intros i k Hi Hk. change (0 + Z.of_nat (Z.to_nat PCIE_MAX_FUNC)) with PCIE_MAX_FUNC in Hi.
    pose proof (Hok i Hi) as Hf. set (bdf := PCIE_CREATE_BDF seg bus dv i) in *.
    eapply eval_bind; [by apply (eval_probe fuel)|].
    change (0 =? PCIE_NO_MAPPING) with false. cbv beta iota zeta.
    eapply eval_bind; [by apply eval_need|]. cbv beta. fold (answers bdf).
    unfold listed in *. destruct (answers bdf) eqn:Ha; cbn [andb] in *.
    + eapply eval_bind; [by apply (eval_host_bridge fuel)|]. cbv beta.
      destruct (host_bridge bdf); cbn [negb andb] in *; [rewrite app_nil_r; apply eval_ret|].
      eapply eval_bind; [by apply eval_express|]. cbv beta.
      destruct (express bdf) eqn:He; cbn iota in *.
      * change (PCIE_SUCCESS =? PCIE_SUCCESS) with true. cbn [negb].
        eapply eval_bind; [by apply eval_bdf_table_add|]. apply eval_ret.
      * change (PCIE_CAP_NOT_FOUND =? PCIE_SUCCESS) with false. cbn [negb].
        rewrite app_nil_r. apply eval_ret.
    + rewrite app_nil_r. destruct (Z.eqb_spec i 0) as [->|_]; [subst bdf; congruence|apply eval_ret].
  - rewrite app_nil_r. change (Z.to_nat PCIE_MAX_FUNC) with 8%nat. cbn [for_].
    pose proof (Hok 0 ltac:(by split)) as Hf. set (bdf := PCIE_CREATE_BDF seg bus dv 0) in *.
    do 2 (apply (eval_bind _ _ _ (Break (Some tt)) (with_functions w l)); [|apply eval_ret]).
    eapply eval_bind; [by apply (eval_probe fuel)|].
    change (0 =? PCIE_NO_MAPPING) with false. cbv beta iota zeta.
    eapply eval_bind; [by apply eval_need|]. cbv beta. fold (answers bdf). rewrite Ha0. apply eval_ret.
Qed.

(** The functions a region covers. *)
Definition region_ok (fuel : nat) (w : world D) (b : PCIE_INFO_BLOCK) : Prop :=
  forall bus dv func, start_bus_num b <= bus <= end_bus_num b ->
    0 <= dv < PCIE_MAX_DEV -> 0 <= func < PCIE_MAX_FUNC ->
    function_ok fuel w (PCIE_CREATE_BDF (segment_num b) bus dv func).

Lemma eval_scan_bus fuel w l seg bus :
  (forall dv func, 0 <= dv < PCIE_MAX_DEV -> 0 <= func < PCIE_MAX_FUNC ->
     function_ok fuel w (PCIE_CREATE_BDF seg bus dv func)) ->
  (length (l ++ bus_functions seg bus) <= Z.to_nat bdf_table_capacity)%nat ->
  eval (scan_bus fuel seg bus) (with_functions w l) (Some tt)
    (with_functions w (l ++ bus_functions seg bus)).
Proof.
  intros Hok Hcap. eapply (eval_bind _ _ _ (Continue tt)); [|apply eval_ret].
  apply (eval_for_collect (with_functions w) (device_functions seg bus)
           (Z.to_nat bdf_table_capacity)); [|done].
  intros dv k Hd Hk. change (0 + Z.of_nat (Z.to_nat PCIE_MAX_DEV)) with PCIE_MAX_DEV in Hd.
  eapply eval_bind; [apply eval_scan_functions; auto|]. apply eval_ret.
Qed.

Lemma eval_scan_ecam fuel w l t b i :
  g_pcie_info_table w = Some t -> 0 <= i < ecam_entries t -> ecam_block t !! Z.to_nat i = Some b ->
  region_ok fuel w b ->
  (length (l ++ region_functions b) <= Z.to_nat bdf_table_capacity)%nat ->
  eval (scan_ecam fuel i) (with_functions w l) (Some tt)
    (with_functions w (l ++ region_functions b)).
Proof.
  intros Ht Hi Hb Hok Hcap. unfold scan_ecam.
  do 3 (eapply eval_bind;
    [eapply (eval_ecam_info _ _ t b i (with_functions w l)); [reflexivity|exact Ht|exact Hi|exact Hb]|]).
  eapply (eval_bind _ _ _ (Continue tt)); [|apply eval_ret]. cbv beta. unfold region_functions in *.
  replace (Z.max 0 (end_bus_num b - start_bus_num b + 1))
    with (Z.of_nat (Z.to_nat (end_bus_num b - start_bus_num b + 1))) in * by lia.
  apply (eval_for_collect (with_functions w) (bus_functions (segment_num b))
           (Z.to_nat bdf_table_capacity)); [|done].
  intros bus k Hbus Hk. eapply eval_bind; [apply eval_scan_bus; [|done]|apply eval_ret].
  intros dv func Hd Hf. apply Hok; [lia|done..].
Qed.

Lemma fmap_seqZ_take {X Y} (f : X -> list Y) (l : list X) (n : nat) :
  (n <= length l)%nat ->
  (fun i => match l !! Z.to_nat i with Some x => f x | None => [] end) <$> seqZ 0 (Z.of_nat n) =
  f <$> take n l.
Proof.
  intros Hn. apply list_eq. intros k. rewrite !list_lookup_fmap.
  destruct (decide (k < n)%nat) as [Hk|Hk].
  - rewrite lookup_seqZ_lt by lia. rewrite lookup_take_lt by done. cbn [fmap option_fmap option_map].
    replace (Z.to_nat (0 + Z.of_nat k)) with k by lia.
    destruct (lookup_lt_is_Some_2 l k) as [x ->]; [lia|]. done.
  - rewrite lookup_seqZ_ge by lia. by rewrite lookup_take_ge by lia.
Qed.

(** ** Port types and root ports *)

Definition port_type (bdf : Z) : Z :=
  match express bdf with
  | Some off => Z.shiftl 1 (cfg bdf off / 2 ^ 20 mod 2 ^ 4)
  | None => 0
  end.

(** The bus range held at the place where a bridge keeps it. *)
Definition leads_to (bus bdf : Z) : bool :=
  (cfg bdf TYPE1_PBN / 2 ^ 8 mod 2 ^ 8 <=? bus) && (bus <=? cfg bdf TYPE1_PBN / 2 ^ 16 mod 2 ^ 8).

(** The root port recorded for a function. Neither the port type nor the header
    type of the function found is looked at. *)
Definition rootport (l : list Z) (bdf : Z) : option Z :=
  if port_type bdf =? RP then Some bdf
  else if (port_type bdf =? RCiEP) || (port_type bdf =? RCEC) then Some 0xffffffff
  else List.find (leads_to (PCIE_EXTRACT_BDF_BUS bdf)) l.

Lemma chain_in_range nxt start l :
  cap_chain nxt start l -> (forall off, 0 <= nxt off < 4096) -> 0 <= start < 4096 ->
  Forall (fun off => 0 <= off < 4096) l.
Proof. intros Hc Hn. induction Hc; intros Hs; constructor; auto. Qed.

Lemma express_in_range fuel w bdf off :
  function_ok fuel w bdf -> answers bdf = true -> express bdf = Some off -> 0 <= off < 4096.
Proof.
  intros [_ Hc] Ha He. destruct (Hc Ha) as (_ & Hl & _).
  apply List.find_some in He as [Hin _]. apply list_elem_of_In in Hin.
  pose proof (chain_in_range _ _ _ Hl (cap_next_range _ _) (cap_start_range _ _)) as Hr.
  rewrite Forall_forall in Hr. by apply Hr.
Qed.

Lemma eval_port_type fuel w bdf tbl :
  function_ok fuel w bdf -> listed bdf = true ->
  eval (val_pcie_device_port_type fuel bdf) (set_g_pcie_bdf_table tbl w) (port_type bdf)
    (set_g_pcie_bdf_table tbl w).
Proof.
  intros Hf Hl. unfold listed in Hl. rewrite !andb_true_iff in Hl. destruct Hl as [[Ha _] He].
  unfold port_type. destruct (express bdf) as [off|] eqn:Ho; [|discriminate He].
  pose proof (express_in_range fuel w bdf off Hf Ha Ho) as Hr.
  unfold val_pcie_device_port_type, pciecs_base_of. eapply eval_bind.
  { eapply eval_bind; [by apply (eval_express fuel)|]. rewrite Ho. by apply eval_need. }
  cbv beta. unfold CIDR_OFFSET at 1.
  rewrite Z.add_0_r, u32_id by (unfold fits; pow2; lia).
  eapply eval_bind; [by apply Hf|]. cbn iota beta. unfold truthy at 1. cbn [Z.eqb negb].
  eapply eval_bind; [by apply eval_need|]. cbv beta zeta.
  unfold PCIECR_DPT_MASK. rewrite (land_mask 4), Z.shiftr_div_pow2 by done. apply eval_ret.
Qed.

(** The table with these entries. *)
Definition with_entries (w : world D) (devs : list pcie_device_attr) : world D :=
  set_g_pcie_bdf_table (Some (mkBdfTable (Z.of_nat (length devs)) devs)) w.

Lemma eval_bdf_table w devs :
  eval bdf_table (with_entries w devs) (mkBdfTable (Z.of_nat (length devs)) devs)
    (with_entries w devs).
Proof. eapply eval_bind; [by apply eval_gets|]. by apply eval_need. Qed.

Lemma eval_get_rootport fuel w devs bdf :
  let l := d_bdf <$> devs in
  (forall b, b ∈ bdf :: l -> function_ok fuel w b /\ listed b = true) ->
  eval (val_pcie_get_rootport fuel bdf) (with_entries w devs)
    (match rootport l bdf with
     | Some rp => (if (port_type bdf =? RP) || negb ((port_type bdf =? RCiEP) || (port_type bdf =? RCEC))
                   then 0 else 1, rp)
     | None => (1, 0)
     end) (with_entries w devs).
Proof.
  intros l Hl. destruct (Hl bdf ltac:(left)) as [Hf Hlist]. unfold val_pcie_get_rootport.
  unfold eval. eapply eval_bind_wp; [by apply eval_port_type|]. cbv beta.
  io_step. apply wp_val_print. cbv beta. unfold rootport.
  destruct (port_type bdf =? RP); [by wp_step|]. cbn [orb].
  destruct ((port_type bdf =? RCiEP) || (port_type bdf =? RCEC)); [by wp_step|]. cbn [negb].
  eapply eval_bind_wp; [apply eval_bdf_table|]. cbn beta iota delta [bdf_entries bdf_device].
  rewrite Nat2Z.id. wp_step.
  apply (wp_for_find l (leads_to (PCIE_EXTRACT_BDF_BUS bdf)) id); [subst l; by rewrite length_fmap|..].
  - intros k e v He Hk. subst l. rewrite list_lookup_fmap in He.
    destruct (devs !! k) as [x|] eqn:Hx; [|done]. cbn in He. injection He as <-.
    destruct (Hl (d_bdf x)) as [Hfx Hlx].
    { right. apply list_elem_of_fmap. exists x. split; [done|]. by eapply list_elem_of_lookup_2. }
    unfold table_entry. cbn [bdf_device]. rewrite Nat2Z.id, Hx. wp_step. wp_step. cbv beta zeta.
    eapply eval_bind_wp; [apply (eval_read_cfg_into (cfg (d_bdf x))); [apply Hfx|by split]|]. cbv beta.
    wp_step. wp_step. cbv beta. eapply eval_bind_wp; [by apply eval_port_type|]. wp_step. cbv beta.
    unfold leads_to, SECBN_MASK, SUBBN_MASK, SECBN_SHIFT, SUBBN_SHIFT.
    rewrite <- !(land_mask 8 0xFF), <- !Z.shiftr_div_pow2 by done.
    change (truthy iEP_RP) with true. rewrite orb_true_r. cbn [andb].
    destruct ((_ <=? _) && (_ <=? _)); done.
  - subst l. rewrite take_ge by (by rewrite length_fmap).
    destruct (List.find _ _) as [e|]; [by wp_step|]. intros a. io_step. apply wp_val_print. by wp_step.
Qed.

(** ** Filling in the root ports *)

Definition root_of (l : list Z) (bdf : Z) : Z := default 0 (rootport l bdf).

(** The entries after the first [n] have got their root port. *)
Definition rooted (l : list Z) (n : nat) : list pcie_device_attr :=
  ((fun b => mkDev b (root_of l b)) <$> take n l) ++ ((fun b => mkDev b 0) <$> drop n l).

Lemma rooted_bdfs l n : d_bdf <$> rooted l n = l.
Proof.
  assert (E : forall (f : Z -> pcie_device_attr) (k : list Z), (forall x, d_bdf (f x) = x) -> d_bdf <$> (f <$> k) = k).
  { intros f k Hf; induction k as [|x k IH]; [done|]. cbn. by rewrite Hf, IH. }
  unfold rooted. rewrite fmap_app, !E by done. apply take_drop.
Qed.

Lemma length_rooted l n : length (rooted l n) = length l.
Proof. by rewrite <- (length_fmap d_bdf), rooted_bdfs. Qed.

Lemma rooted_lookup l n b : l !! n = Some b -> rooted l n !! n = Some (mkDev b 0).
Proof.
  intros Hb. pose proof (lookup_lt_Some l n b Hb) as Hn. unfold rooted.
  rewrite lookup_app_r; rewrite length_fmap, length_take; [|lia].
  rewrite list_lookup_fmap, lookup_drop.
  replace (n + (n - n `min` length l))%nat with n by lia. by rewrite Hb.
Qed.

Lemma rooted_insert l n b :
  l !! n = Some b -> <[n := mkDev b (root_of l b)]> (rooted l n) = rooted l (S n).
Proof.
  intros Hb. pose proof (lookup_lt_Some l n b Hb) as Hn. unfold rooted.
  rewrite insert_app_r_alt by (rewrite length_fmap, length_take; lia).
  rewrite length_fmap, length_take, (drop_S l b n Hb), (take_S_r l n b Hb).
  replace (n - n `min` length l)%nat with 0%nat by lia.
  rewrite fmap_app, <- app_assoc. done.
Qed.

Lemma eval_table_entry devs n i e (w : world D) :
  devs !! Z.to_nat i = Some e -> eval (table_entry (mkBdfTable n devs) i) w e w.
Proof. intros He. unfold table_entry. cbn [bdf_device]. rewrite He. by apply eval_need. Qed.

Lemma wp_populate fuel w l :
  (forall b, b ∈ l -> function_ok fuel w b /\ listed b = true) ->
  wp (val_pcie_populate_device_rootport fuel) (with_functions w l) (fun r s =>
    if forallb (fun b => if rootport l b is Some _ then true else false) l
    then r = 0 /\ s = with_entries w (rooted l (length l))
    else r = 1 /\ exists n, s = with_entries w (rooted l n)).
Proof.
  intros Hl. unfold val_pcie_populate_device_rootport.
  assert (E0 : with_functions w l = with_entries w (rooted l 0)).
  { unfold with_functions, with_entries. by rewrite length_rooted. }
  rewrite E0. eapply eval_bind_wp; [apply eval_bdf_table|]. cbn beta iota delta [bdf_entries].
  rewrite length_rooted, Nat2Z.id. wp_step.
  set (has b := if rootport l b is Some _ then true else false).
  apply (wp_for (fun i _ s => s = with_entries w (rooted l (Z.to_nat i)) /\
                              forallb has (take (Z.to_nat i) l) = true)); [done| |].
  - intros i [] s Hi [-> Hh].
    destruct (lookup_lt_is_Some_2 l (Z.to_nat i)) as [b Hb]; [lia|].
    eapply eval_bind_wp; [apply eval_bdf_table|]. cbv beta.
    eapply eval_bind_wp; [by apply eval_table_entry, rooted_lookup|]. cbv beta zeta. cbn [d_bdf].
    io_step. apply wp_val_print. cbv beta.
    assert (Hin : b ∈ l) by (by eapply list_elem_of_lookup_2).
    eapply eval_bind_wp.
    { apply eval_get_rootport. rewrite rooted_bdfs. intros c [->|Hc]%elem_of_cons; by apply Hl. }
    cbv beta. rewrite rooted_bdfs.
    destruct (rootport l b) as [rp|] eqn:Hrp; cbn iota beta.
    + match goal with |- wp (if ?c then _ else _) _ _ => assert (Ec : c = false) end.
      { destruct ((port_type b =? RP) || _) eqn:Hp; [done|].
        apply orb_false_iff in Hp as [Hp1 Hp2]. apply negb_false_iff in Hp2.
        unfold rootport in Hrp. rewrite Hp1, Hp2 in Hrp. by injection Hrp as <-. }
      rewrite Ec. wp_steps. apply wp_val_print. wp_step. cbn beta iota.
      replace (Z.to_nat (i + 1)) with (S (Z.to_nat i)) by lia. split.
      * cbn [bdf_entries bdf_device]. unfold with_entries. rewrite length_rooted.
        rewrite length_rooted. rewrite <- (rooted_insert l _ b Hb).
        unfold root_of. by rewrite Hrp.
      * rewrite (take_S_r l _ b Hb), forallb_app, Hh. cbn. unfold has. by rewrite Hrp.
    + change (truthy 1 && (0 =? 0)) with true. cbn iota. wp_steps.
      assert (forallb has l = false) as ->.
      { apply not_true_iff_false. rewrite forallb_forall. intros Hall.
        specialize (Hall b ltac:(by apply list_elem_of_In)). unfold has in Hall. by rewrite Hrp in Hall. }
      split; [done|]. by exists (Z.to_nat i).
  - intros [] s [-> Hh]. rewrite Z.add_0_l, Nat2Z.id in *.
    rewrite firstn_all in Hh. rewrite Hh. wp_steps. done.
Qed.

(** ** The whole scan *)

Lemma region_functions_ok fuel w b bdf :
  region_ok fuel w b -> bdf ∈ region_functions b -> function_ok fuel w bdf /\ listed bdf = true.
Proof.
  intros Hok. unfold region_functions. intros (l & (bus & -> & Hbus)%list_elem_of_fmap & Hl)%elem_of_concat.
  apply elem_of_seqZ in Hbus. unfold bus_functions in Hl.
  apply elem_of_concat in Hl as (l' & (dv & -> & Hdv)%list_elem_of_fmap & Hl).
  apply elem_of_seqZ in Hdv. unfold device_functions in Hl.
  destruct (answers _); [|by apply elem_of_nil in Hl].
  apply elem_of_concat in Hl as (l'' & (func & -> & Hfn)%list_elem_of_fmap & Hl).
  apply elem_of_seqZ in Hfn. cbv zeta in Hl.
  destruct (listed _) eqn:E; [|by apply elem_of_nil in Hl].
  apply list_elem_of_singleton in Hl as ->. split; [|done]. apply Hok; lia.
Qed.

Lemma eval_scan_ecams fuel w t :
  g_pcie_info_table w = Some t -> ecam_table_ok t ->
  (forall b, b ∈ take (Z.to_nat (ecam_entries t)) (ecam_block t) -> region_ok fuel w b) ->
  (length (all_functions t) <= Z.to_nat bdf_table_capacity)%nat ->
  eval (for_ (Z.to_nat (ecam_entries t)) 0 (fun ecam_index _ =>
          let* r := scan_ecam fuel ecam_index in
          ret (match r with Some _ => Continue tt | None => Break tt end)) tt)
    (with_functions w []) (Continue tt) (with_functions w (all_functions t)).
Proof.
  intros Ht Hok Hr Hcap. unfold ecam_table_ok in Hok.
  set (g i := match ecam_block t !! Z.to_nat i with Some b => region_functions b | None => [] end).
  assert (Eg : concat (g <$> seqZ 0 (Z.of_nat (Z.to_nat (ecam_entries t)))) = all_functions t).
  { unfold all_functions, g. by rewrite fmap_seqZ_take by lia. }
  rewrite <- Eg in Hcap |- *.
  apply (eval_for_collect (with_functions w) g (Z.to_nat bdf_table_capacity)); [|exact Hcap].
  intros i k Hi Hk. destruct (lookup_lt_is_Some_2 (ecam_block t) (Z.to_nat i)) as [b Hb]; [lia|].
  unfold g in *. rewrite Hb in *.
  eapply eval_bind; [apply (eval_scan_ecam fuel w k t b i);
                      [exact Ht|lia|exact Hb| |exact Hk]|apply eval_ret].
  apply Hr. apply list_elem_of_lookup. exists (Z.to_nat i). by rewrite lookup_take_lt by lia.
Qed.

(** C10: Discovery is exact. When the functions of the regions of the ECAM table
    have stable configuration spaces, whose capability lists are well formed, the
    BDF table becomes the list, in ECAM, bus, device and function order, of the
    functions that answer, are not host bridges and have the PCI Express
    capability, function 0 of their device answering too; each with its root port.
    When some function has none the table is emptied and 1 is returned. The block
    allocated for the table is large enough as long as there are no more functions
    than [bdf_table_capacity]. *)
Theorem create_bdf_table_exact fuel w t p d' :
  g_pcie_bdf_table w = None -> g_pcie_info_table w = Some t ->
  ecam_table_ok t -> 0 < ecam_entries t ->
  bs_allocate_pool PCIE_DEVICE_BDF_TABLE_SZ (heap w) (dev w) = (inr p, d') -> p <> 0 ->
  let w1 := set_heap (<[p := PCIE_DEVICE_BDF_TABLE_SZ]> (heap w)) (set_dev d' w) in
  (forall b, b ∈ take (Z.to_nat (ecam_entries t)) (ecam_block t) -> region_ok fuel w1 b) ->
  let l := all_functions t in
  (length l <= Z.to_nat bdf_table_capacity)%nat ->
  wp (val_pcie_create_device_bdf_table fuel) w (fun r s =>
    if forallb (fun b => if rootport l b is Some _ then true else false) l
    then r = 0 /\ s = with_entries w1 ((fun b => mkDev b (root_of l b)) <$> l)
    else r = 1 /\ exists devs, s = set_g_pcie_bdf_table (Some (mkBdfTable 0 devs)) w1).
Proof.
  intros Hnone Ht Hok Hpos Halloc Hp w1 Hr l Hcap. unfold val_pcie_create_device_bdf_table.
  eapply eval_bind_wp; [by apply eval_gets|]. cbv beta iota. wp_step.
  unfold pal_mem_alloc. wp_step. wp_step. wp_step. apply wp_from_dev. cbv beta.
  rewrite Halloc. cbn [fst snd]. wp_step. wp_step. wp_step. cbv beta.
  rewrite (proj2 (Z.eqb_neq p 0) Hp). wp_step. wp_step. cbv beta.
  match goal with |- wp _ ?s _ => assert (E : s = with_functions w1 []) by (by destruct w) end.
  rewrite E. clear E.
  eapply eval_bind_wp; [by apply (eval_num_ecam t)|]. cbv beta.
  rewrite (proj2 (Z.eqb_neq (ecam_entries t) 0) ltac:(lia)).
  eapply eval_bind_wp; [by apply eval_scan_ecams|]. cbn iota. fold l.
  eapply eval_bind_wp.
  { eapply eval_bind; [by apply eval_gets|]. by apply eval_need. }
  cbv beta. io_step. apply wp_val_print. cbv beta. wp_step.
  eapply wp_mono; [apply wp_populate|].
  { intros bdf (k & (b & -> & Hb)%list_elem_of_fmap & Hk)%elem_of_concat.
    by apply (region_functions_ok fuel w1 b); [apply Hr|]. }
  cbv beta. intros r s. destruct (forallb _ l).
  - intros [-> ->]. change (truthy 0) with false. cbn iota. wp_step. split; [done|].
    unfold rooted. by rewrite take_ge, drop_ge, app_nil_r by lia.
  - intros [-> [n ->]]. change (truthy 1) with true. cbn iota.
    eapply eval_bind_wp; [apply eval_bdf_table|]. wp_step. wp_step. wp_step. cbn [bdf_device].
    split; [done|]. eexists. done.
Qed.

(** The root port of an endpoint is the first function of the table whose
    register at 0x18, read as bus numbers, covers the endpoint's bus. The type of
    that function plays no part, because the test for an integrated root port is an
    assignment: an endpoint whose base address register looks like such a range is
    taken for the root port. *)
Theorem get_rootport_first_range fuel w devs bdf :
  let l := d_bdf <$> devs in
  (forall b, b ∈ bdf :: l -> function_ok fuel w b /\ listed b = true) ->
  port_type bdf = EP ->
  eval (val_pcie_get_rootport fuel bdf) (with_entries w devs)
    (match List.find (leads_to (PCIE_EXTRACT_BDF_BUS bdf)) l with
     | Some rp => (0, rp) | None => (1, 0) end) (with_entries w devs).
Proof.
  intros l Hl Hep. pose proof (eval_get_rootport fuel w devs bdf Hl) as He.
  unfold rootport in He. rewrite Hep in He.
  change (EP =? RP) with false in He. change ((EP =? RCiEP) || (EP =? RCEC)) with false in He.
  exact He.
Qed.
End discovery.

(** ** Concrete inputs *)

(** Buses 0 to 3 with the functions of [on_pcie]. The root port 0:1.0 leads to bus
    1, where the endpoint 1:0.0 is; [bar] is what the register at 0x18 of a third
    function, the endpoint 0:0.0, holds, when it is there at all. *)
Definition small_tree (bar : option Z) : gmap Z Z :=
  list_to_map (
    [(0x40008034, 0x40); (0x40008040, 0x400010); (0x40008018, 0x10100);
     (0x40100034, 0x40); (0x40100040, 0x10)] ++
    match bar with
    | Some v => [(0x40000034, 0x40); (0x40000040, 0x10); (0x40000018, v)]
    | None => []
    end).

Definition tree_cfg (mem : gmap Z Z) (bdf off : Z) : Z :=
  function_space mem (PCIE_EXTRACT_BDF_BUS bdf) (PCIE_EXTRACT_BDF_DEV bdf)
    (PCIE_EXTRACT_BDF_FUNC bdf) off.

Definition tree_caps (mem : gmap Z Z) (bdf : Z) : list Z :=
  if tree_cfg mem bdf TYPE01_CPR =? 0x40 then [0x40] else [].

Lemma tree_cfg_create mem bus dv func :
  0 <= bus <= 3 -> 0 <= dv < PCIE_MAX_DEV -> 0 <= func < PCIE_MAX_FUNC ->
  tree_cfg mem (PCIE_CREATE_BDF 0 bus dv func) = function_space mem bus dv func.
Proof.
  intros Hb Hd Hf. destruct (extract_create_ok 0 bus dv func) as (_ & E1 & E2 & E3);
    [by split|unfold bdf_ok, PCIE_MAX_BUS; lia|].
  unfold tree_cfg. by rewrite E1, E2, E3.
Qed.

(** Away from the functions put there, everything reads 0. *)
Lemma small_tree_elsewhere bar bus dv func :
  0 <= bus <= 3 -> 0 <= dv < PCIE_MAX_DEV -> 0 <= func < PCIE_MAX_FUNC ->
  (bus, dv, func) <> (0, 1, 0) -> (bus, dv, func) <> (1, 0, 0) -> (bus, dv, func) <> (0, 0, 0) ->
  function_space (small_tree bar) bus dv func TYPE01_CPR = 0.
Proof.
  intros Hb Hd Hf N1 N2 N3. unfold function_space.
  rewrite cfg_addr_sum by (unfold bdf_ok, PCIE_MAX_BUS; lia).
  unfold PCIE_MAX_DEV, PCIE_MAX_FUNC, TYPE01_CPR in *.
  assert (Ha : (0x40000000 + (bus * 2 ^ 20 + dv * 2 ^ 15 + func * 2 ^ 12) + 0x34) mod 4 = 0).
  { pow2. replace (_ + 0x34) with ((268435469 + bus * 262144 + dv * 8192 + func * 1024) * 4) by lia.
    apply Z.mod_mul. lia. }
  rewrite Ha, Z.sub_0_r.
  assert (E : small_tree bar !! (0x40000000 + (bus * 2 ^ 20 + dv * 2 ^ 15 + func * 2 ^ 12) + 0x34) = None).
  { apply not_elem_of_list_to_map_1. pow2.
    assert (bus <> 0 \/ dv <> 1 \/ func <> 0) by (destruct (decide (bus = 0)), (decide (dv = 1)), (decide (func = 0)); subst; auto).
    assert (bus <> 1 \/ dv <> 0 \/ func <> 0) by (destruct (decide (bus = 1)), (decide (dv = 0)), (decide (func = 0)); subst; auto).
    assert (bus <> 0 \/ dv <> 0 \/ func <> 0) by (destruct (decide (bus = 0)), (decide (dv = 0)), (decide (func = 0)); subst; auto).
    destruct bar; cbn [app fmap list_fmap fst]; rewrite !not_elem_of_cons;
      repeat split; try apply not_elem_of_nil; lia. }
  by rewrite E.
Qed.

Lemma tree_function_ok bar bus dv func (w : world machine) :
  g_pcie_info_table w = Some one_ecam -> mach_mem (dev w) = small_tree bar ->
  0 <= bus <= 3 -> 0 <= dv < PCIE_MAX_DEV -> 0 <= func < PCIE_MAX_FUNC ->
  function_ok (tree_cfg (small_tree bar)) (tree_caps (small_tree bar)) 2 w
    (PCIE_CREATE_BDF 0 bus dv func).
Proof.
  intros Ht Hm Hb Hd Hf. split.
  - intros tbl. rewrite tree_cfg_create by done. by apply on_pcie_cfg_space.
  - intros _. unfold tree_caps. rewrite tree_cfg_create by done.
    assert (E : function_space (small_tree bar) bus dv func TYPE01_CPR = 0 \/
                function_space (small_tree bar) bus dv func TYPE01_CPR = 0x40 /\
                cap_next PCIE_CAP (function_space (small_tree bar) bus dv func) 0x40 = 0).
    { destruct (decide ((bus, dv, func) = (0, 1, 0))) as [[= -> -> ->]|N1]; [right; destruct bar; by vm_compute|].
      destruct (decide ((bus, dv, func) = (1, 0, 0))) as [[= -> -> ->]|N2]; [right; destruct bar; by vm_compute|].
      destruct (decide ((bus, dv, func) = (0, 0, 0))) as [[= -> -> ->]|N3];
        [destruct bar; [right|left]; by vm_compute|].
      left. by apply small_tree_elsewhere. }
    unfold cap_start. destruct E as [E|[E En]]; rewrite E; (split; [done|]); cbn [Z.eqb Pos.eqb PCIE_CAP].
    + split; [apply chain_end|]. simpl. lia.
    + split; [|simpl; lia]. apply chain_link; [done|]. rewrite En. apply chain_end.
Qed.

(** The machine just before its table is allocated, and just after. *)
Definition tree_world : world machine := on_pcie (small_tree None).

Lemma create_bdf_table_exact_witness :
  let cfg := tree_cfg (small_tree None) in
  let caps := tree_caps (small_tree None) in
  all_functions cfg caps one_ecam = [0x000100; 0x010000] /\
  wp (val_pcie_create_device_bdf_table 2) tree_world (fun r s =>
    r = 0 /\ g_pcie_bdf_table s =
      Some (mkBdfTable 2 [mkDev 0x000100 0x000100; mkDev 0x010000 0x000100])).
Proof.
  cbv zeta. assert (E : all_functions (tree_cfg (small_tree None)) (tree_caps (small_tree None))
    one_ecam = [0x000100; 0x010000]) by (vm_compute; reflexivity).
  split; [exact E|].
  eapply wp_mono.
  { apply (create_bdf_table_exact (tree_cfg (small_tree None)) (tree_caps (small_tree None)) 2
      tree_world one_ecam 4096 (dev tree_world)).
    - reflexivity.
    - reflexivity.
    - exact one_ecam_ok.
    - reflexivity.
    - vm_compute. reflexivity.
    - discriminate.
    - intros b Hb. apply list_elem_of_singleton in Hb as ->. intros bus dv func Hbus Hd Hf.
      by apply (tree_function_ok None).
    - rewrite E. vm_compute. lia. }
  rewrite E. intros r s Hs.
  replace (forallb _ _) with true in Hs by (vm_compute; reflexivity).
  destruct Hs as [-> ->]. split; [reflexivity|]. vm_compute. reflexivity.
Defined.

(** With 0xFF0000 in the base address register at 0x18 of the endpoint 0:0.0, that
    endpoint is taken for the root port of the endpoint 1:0.0. *)
Lemma get_rootport_first_range_witness :
  let devs := [mkDev 0 0; mkDev 0x000100 0; mkDev 0x010000 0] in
  let w := with_entries (on_pcie (small_tree (Some 0xFF0000))) devs in
  eval (val_pcie_get_rootport 2 0x010000) w (0, 0) w.
Proof.
  set (mem := small_tree (Some 0xFF0000)).
  apply (get_rootport_first_range (tree_cfg mem) (tree_caps mem) 2 (on_pcie mem)
           [mkDev 0 0; mkDev 0x000100 0; mkDev 0x010000 0] 0x010000).
  - assert (Hok : forall bus dv func, 0 <= bus <= 3 -> 0 <= dv < PCIE_MAX_DEV ->
      0 <= func < PCIE_MAX_FUNC -> function_ok (tree_cfg mem) (tree_caps mem) 2 (on_pcie mem)
        (PCIE_CREATE_BDF 0 bus dv func)) by (intros; by apply (tree_function_ok (Some 0xFF0000))).
    intros b Hb. repeat apply elem_of_cons in Hb as [->|Hb]; [| | | |by apply elem_of_nil in Hb];
      (split; [|by vm_compute]).
    1, 4: by apply (Hok 1 0 0).
    1: by apply (Hok 0 0 0).
    by apply (Hok 0 1 0).
  - by vm_compute.
Defined.
