(* ===== verification/PcieCheck.v ===== *)
(** * Checking PCIe configuration registers

    The table-driven register checks of src/val/src/acs_pcie.c: each entry names a
    bit field, the value it must hold and how it must answer a write. *)

From S2P Require Import Prelude Types World Status Machine Pcie PcieTable.
#[local] Open Scope c_scope.

(** [REG_MASK(end, start)]: the mask of a field moved down to bit 0. The shift by
    [end + 1] is undefined in C when the field reaches bit 31. *)
Definition REG_MASK (end_ start : Z) : option Z :=
  if end_ <? 31 then
    Some (Z.shiftr (Z.land (u32 (Z.shiftl 0xFFFFFFFF start)) (Z.shiftl 1 (end_ + 1) - 1)) start)
  else None.

Definition REG_SHIFT (alignment_byte_cnt start : Z) : Z :=
  alignment_byte_cnt * BITS_IN_BYTE + start.

(** A shift count of a 32-bit operand. *)
Definition shift_count (n : Z) : option Z := if (0 <=? n) && (n <? 32) then Some n else None.

(** [!val_strncmp(s, "WARNING", WARN_STR_LEN)] *)
Definition is_warning (s : string) : bool := String.prefix "WARNING" s.

Section check.
Context {D : Type} `{Platform D}.

#[local] Abbreviation M := (M (world D)).

(** How the field answers writes, its mask and place known. *)
Definition field_answers (bdf : Z) (bf_entry : pcie_cfgreg_bitfield_entry)
    (addr reg_value shft_cnt mask : Z) : M Z :=
  let rewrite_ (v : Z) : M Z :=
    val_pcie_write_cfg bdf addr v ;;
    let* v := read_cfg_into (Some v) bdf addr in need v in
  let field := u32 (Z.shiftl mask shft_cnt) in
  let compare (reg_overwrite_value reg_value : Z) : M Z :=
    if negb (reg_overwrite_value =? reg_value) then
      val_print ACS_PRINT_ERR "\n       BDF 0x%x : " bdf ;;
      val_print ACS_PRINT_ERR (bf_err_str2 bf_entry) 0 ;;
      ret (if is_warning (bf_err_str2 bf_entry) then 0 else 1)
    else
      val_print ACS_PRINT_INFO "\n       BDF 0x%x : PASS" bdf ;;
      ret 0 in
  let attr := bf_attr bf_entry in
  if (attr =? HW_INIT) || (attr =? READ_ONLY) || (attr =? STICKY_RO) then
    let* over := rewrite_ (Z.lxor reg_value field) in
    compare over reg_value
  else if attr =? RSVDP_RO then
    let* over := rewrite_ reg_value in
    compare (Z.land (Z.shiftr over shft_cnt) mask) 0
  else if attr =? RSVDZ_RO then
    let* over := rewrite_ (Z.land reg_value (not32 field)) in
    compare over reg_value
  else if (attr =? READ_WRITE) || (attr =? STICKY_RW) then
    let over := Z.lxor reg_value field in
    val_pcie_write_cfg bdf addr over ;;
    let* back := read_cfg_into (Some reg_value) bdf addr in
    let* back := need back in
    val_pcie_write_cfg bdf addr reg_value ;;
    compare over back
  else
    val_print ACS_PRINT_ERR "\n       Invalid Attribute : 0x%x  " attr ;;
    ret 1.

(** The check, from the point where the base of the field is known or its capability
    was not found. *)
Definition bitfield_check_at (bdf : Z) (bf_entry : pcie_cfgreg_bitfield_entry) (status : Z)
    (cap_base : option Z) : M Z :=
  let alignment_byte_cnt := Z.land (bf_reg_offset bf_entry) WORD_ALIGN_MASK in
  let reg_offset := bf_reg_offset bf_entry - alignment_byte_cnt in
  if negb (status =? PCIE_SUCCESS) then
    val_print ACS_PRINT_ERR "\n       PCIe Capability not found for BDF 0x%x" bdf ;;
    ret status
  else
  let* cap_base := need cap_base in
  let addr := u32 (cap_base + reg_offset) in
  let* reg_value := read_cfg_fresh bdf addr in
  val_pcie_write_cfg bdf addr reg_value ;;
  let* reg_value := read_cfg_into (Some reg_value) bdf addr in
  let* reg_value := need reg_value in
  let* shft_cnt := need (shift_count (REG_SHIFT alignment_byte_cnt (bf_start bf_entry))) in
  let* mask := need (REG_MASK (bf_end bf_entry) (bf_start bf_entry)) in
  let bf_value := Z.land (Z.shiftr reg_value shft_cnt) mask in
  if negb (bf_value =? bf_cfg_value bf_entry) then
    val_print ACS_PRINT_ERR "\n       BDF 0x%x : " bdf ;;
    val_print ACS_PRINT_ERR (bf_err_str1 bf_entry) 0 ;;
    ret (if is_warning (bf_err_str1 bf_entry) then 0 else 1)
  else
  field_answers bdf bf_entry addr reg_value shft_cnt mask.

Definition val_pcie_bitfield_check (fuel : nat) (bdf : Z) (bf_entry : pcie_cfgreg_bitfield_entry)
  : M Z :=
  let go := bitfield_check_at bdf bf_entry in
  if bf_reg_type bf_entry =? HEADER then go PCIE_SUCCESS (Some 0)
  else if bf_reg_type bf_entry =? PCIE_CAP then
    let* ' (status, cap_base) := val_pcie_find_capability fuel bdf PCIE_CAP (bf_cap_id bf_entry) in
    go status cap_base
  else if bf_reg_type bf_entry =? PCIE_ECAP then
    let* ' (status, cap_base) :=
      val_pcie_find_capability fuel bdf PCIE_ECAP (bf_ecap_id bf_entry) in
    go status cap_base
  else
    val_print ACS_PRINT_ERR "\n       Invalid reg_type : 0x%x  " (bf_reg_type bf_entry) ;;
    ret 1.

(** The number of failing fields, or SKIP when no field applied to any function. *)
Definition val_pcie_register_bitfields_check (fuel : nat)
    (bf_info_table : list pcie_cfgreg_bitfield_entry) (num_bitfield_entries : Z) : M Z :=
  val_print ACS_PRINT_INFO "\n       Number of bit-field entries to check %d"
    num_bitfield_entries ;;
  let* t := bdf_table in
  let* ' (num_fails, num_pass) := for_acc (Z.to_nat (bdf_entries t)) 0 (fun tbl_index counts =>
    let* e := table_entry t tbl_index in
    let bdf := d_bdf e in
    val_pcie_disable_eru fuel bdf ;;
    let* dp_type := val_pcie_device_port_type fuel bdf in
    let dp_type := u16 dp_type in
    for_acc (Z.to_nat num_bitfield_entries) 0 (fun index '(num_fails, num_pass) =>
      let* bf_entry := need (bf_info_table !! Z.to_nat index) in
      if negb (truthy (Z.land dp_type (bf_dev_port_bitmask bf_entry))) then
        ret (num_fails, num_pass)
      else
        let* r := val_pcie_bitfield_check fuel bdf bf_entry in
        ret (if truthy r then (u32 (num_fails + 1), num_pass)
             else (num_fails, u32 (num_pass + 1)))) counts) (0, 0) in
  ret (if (0 <? num_pass) || (0 <? num_fails) then num_fails else ACS_STATUS_SKIP).
End check.

(** ** What a check finds out *)

(** Where the field of an entry is in the word that holds it. *)
Definition field_shift (bf : pcie_cfgreg_bitfield_entry) : Z :=
  REG_SHIFT (bf_reg_offset bf mod 4) (bf_start bf).
Definition field_width (bf : pcie_cfgreg_bitfield_entry) : Z := bf_end bf - bf_start bf + 1.
Definition field_mask (bf : pcie_cfgreg_bitfield_entry) : Z :=
  Z.shiftl (Z.ones (field_width bf)) (field_shift bf).
Definition field_of (bf : pcie_cfgreg_bitfield_entry) (v : Z) : Z :=
  v / 2 ^ field_shift bf mod 2 ^ field_width bf.

(** The shifts the check makes for it are defined, and the field ends within the word. *)
Definition placed (bf : pcie_cfgreg_bitfield_entry) : bool :=
  (0 <=? bf_reg_offset bf) && (0 <=? bf_start bf) && (bf_start bf <=? bf_end bf)
  && (bf_end bf <? 31) && (field_shift bf + field_width bf <=? 32).

(** A register of which a write changes the bits of [rw] only. *)
Definition store (rw v x : Z) : Z := Z.lor (Z.ldiff v rw) (Z.land x rw).

(** Whether the register answers writes to the field as its attribute says. What is
    asked of the reserved attributes is only that a field that must read 0 does, and
    that writing 0 to the bits that are set and writable changes nothing. *)
Definition honours (bf : pcie_cfgreg_bitfield_entry) (rw v : Z) : bool :=
  let attr := bf_attr bf in
  if (attr =? HW_INIT) || (attr =? READ_ONLY) || (attr =? STICKY_RO) then
    Z.land rw (field_mask bf) =? 0
  else if attr =? RSVDP_RO then bf_cfg_value bf =? 0
  else if attr =? RSVDZ_RO then Z.land v (Z.land rw (field_mask bf)) =? 0
  else Z.land rw (field_mask bf) =? field_mask bf.

Definition known_attr (bf : pcie_cfgreg_bitfield_entry) : bool :=
  existsb (Z.eqb (bf_attr bf))
    [HW_INIT; READ_ONLY; STICKY_RO; RSVDP_RO; RSVDZ_RO; READ_WRITE; STICKY_RW].

Definition unless_warning (msg : string) : Z := if is_warning msg then 0 else 1.

Definition check_result (bf : pcie_cfgreg_bitfield_entry) (rw v : Z) : Z :=
  if negb (field_of bf v =? bf_cfg_value bf) then unless_warning (bf_err_str1 bf)
  else if honours bf rw v then 0 else unless_warning (bf_err_str2 bf).

Lemma REG_MASK_ones s e : 0 <= s <= e -> e < 31 -> REG_MASK e s = Some (Z.ones (e - s + 1)).
Proof.
  intros Hs He. unfold REG_MASK. destruct (Z.ltb_spec e 31); [|lia]. f_equal.
  apply Z.bits_inj'. intros i Hi. rewrite Z.shiftr_spec, Z.land_spec by done.
  replace (Z.shiftl 1 (e + 1) - 1) with (Z.ones (e + 1)) by (rewrite Z.ones_equiv, Z.shiftl_1_l; lia).
  change 0xFFFFFFFF with (Z.ones 32).
  unfold u32. rewrite testbit_mod2, Z.shiftl_spec, !Z.testbit_ones_nonneg by lia.
  destruct (Z.ltb_spec (i + s) 32), (Z.ltb_spec (i + s - s) 32), (Z.ltb_spec (i + s) (e + 1)),
    (Z.ltb_spec i (e - s + 1)); try done; lia.
Qed.

Lemma placed_spec bf : placed bf = true ->
  0 <= bf_start bf <= bf_end bf /\ bf_end bf < 31 /\ 0 <= field_shift bf < 32 /\
  0 < field_width bf /\ field_shift bf + field_width bf <= 32.
Proof.
  unfold placed. rewrite !andb_true_iff, !Z.leb_le, Z.ltb_lt. unfold field_width, field_shift, REG_SHIFT.
  pose proof (Z.mod_pos_bound (bf_reg_offset bf) 4). unfold BITS_IN_BYTE. lia.
Qed.

(** The fields of the masks, bit by bit. *)
Lemma field_mask_bit bf i : placed bf = true -> 0 <= i ->
  Z.testbit (field_mask bf) i = (field_shift bf <=? i) && (i <? field_shift bf + field_width bf).
Proof.
  intros Hp Hi. destruct (placed_spec bf Hp) as (_ & _ & Hs & Hw & _).
  unfold field_mask. rewrite Z.shiftl_spec by done.
  destruct (Z.leb_spec (field_shift bf) i).
  - rewrite Z.testbit_ones_nonneg by lia. apply eq_true_iff_eq. rewrite !andb_true_iff, !Z.ltb_lt. lia.
  - by rewrite Z.testbit_neg_r by lia.
Qed.

Lemma field_mask_fits bf : placed bf = true -> fits 32 (field_mask bf).
Proof.
  intros Hp. destruct (placed_spec bf Hp) as (_ & _ & Hs & Hw & Hl).
  unfold field_mask, fits. rewrite Z.shiftl_mul_pow2, Z.ones_equiv by lia.
  assert (2 ^ field_width bf * 2 ^ field_shift bf <= 2 ^ 32).
  { rewrite <- Z.pow_add_r by lia. apply Z.pow_le_mono_r; lia. }
  pose proof (Z.pow_pos_nonneg 2 (field_width bf)). pose proof (Z.pow_pos_nonneg 2 (field_shift bf)). nia.
Qed.

Lemma fits_testbit x i : fits 32 x -> 32 <= i -> Z.testbit x i = false.
Proof. intros Hx. by apply testbit_high. Qed.

Lemma store_fits rw v x : fits 32 v -> fits 32 rw -> fits 32 (store rw v x).
Proof.
  intros Hv Hr. unfold store. apply fits_lor; [done| |by apply fits_land_r].
  rewrite <- (u32_id v) at 1 by done.
  assert (Z.ldiff (u32 v) rw = u32 (Z.ldiff v rw)) as ->; [|apply fits_u32].
  apply Z.bits_inj'. intros i Hi. unfold u32.
  rewrite Z.ldiff_spec, !testbit_mod2, Z.ldiff_spec by lia. by rewrite andb_assoc.
Qed.

Lemma store_bit rw v x i :
  Z.testbit (store rw v x) i = if Z.testbit rw i then Z.testbit x i else Z.testbit v i.
Proof.
  unfold store. rewrite Z.lor_spec, Z.ldiff_spec, Z.land_spec.
  destruct (Z.testbit rw i), (Z.testbit v i), (Z.testbit x i); done.
Qed.

Lemma store_same rw v : store rw v v = v.
Proof. apply Z.bits_inj'. intros i _. rewrite store_bit. by case_match. Qed.

(** Writing the field inverted, then reading: unchanged when no bit of it is writable,
    and as written when all are. *)
Lemma store_inverted rw v m : store rw v (Z.lxor v m) = Z.lxor v (Z.land rw m).
Proof.
  apply Z.bits_inj'. intros i _. rewrite store_bit, !Z.lxor_spec, Z.land_spec.
  destruct (Z.testbit rw i), (Z.testbit v i), (Z.testbit m i); done.
Qed.

(** Then the old value written back. *)
Lemma store_restored rw v m : store rw (Z.lxor v (Z.land rw m)) v = v.
Proof.
  apply Z.bits_inj'. intros i _. rewrite store_bit, Z.lxor_spec, Z.land_spec.
  destruct (Z.testbit rw i); [done|]. by rewrite xorb_false_r.
Qed.

Lemma lxor_eqb v a b : (Z.lxor v a =? Z.lxor v b) = (a =? b).
Proof.
  apply eq_true_iff_eq. rewrite !Z.eqb_eq. split; [|congruence]. intros E.
  apply (f_equal (Z.lxor v)) in E.
  by rewrite <- !Z.lxor_assoc, !Z.lxor_nilpotent, !Z.lxor_0_l in E.
Qed.

Lemma lxor_eqb_0 v a : (Z.lxor v a =? v) = (a =? 0).
Proof. rewrite <- (Z.lxor_0_r v) at 2. apply lxor_eqb. Qed.

(** Writing the field cleared. *)
Lemma store_cleared rw v m : fits 32 v ->
  store rw v (Z.land v (not32 m)) = Z.lxor v (Z.land v (Z.land rw m)).
Proof.
  intros Hv. apply Z.bits_inj'. intros i Hi. rewrite store_bit, Z.lxor_spec, !Z.land_spec.
  unfold not32, u32. rewrite testbit_mod2, Z.lnot_spec by lia.
  destruct (Z.ltb_spec i 32); [|rewrite (fits_testbit v i) by (done || lia)];
    destruct (Z.testbit rw i); try destruct (Z.testbit v i); try destruct (Z.testbit m i); done.
Qed.

Section register.
Context {D : Type} `{Platform D} (fuel : nat).

#[local] Abbreviation M := (M (world D)).

(** The register at [addr] of function [bdf]: in the world [W v] it holds [v], reading
    it changes nothing, and a write changes the bits of [rw]. *)
Record register (W : Z -> world D) (bdf addr rw : Z) : Prop := {
  reg_writable : fits 32 rw;
  reg_read : forall v, fits 32 v -> eval (val_pcie_read_cfg bdf addr) (W v) (0, Some v) (W v);
  reg_write : forall v x, fits 32 v -> fits 32 x ->
    eval (val_pcie_write_cfg bdf addr x) (W v) tt (W (store rw v x))
}.

(** The place an entry points to: an offset from the header or a capability. *)
Definition base_of (W : Z -> world D) (bdf : Z) (bf : pcie_cfgreg_bitfield_entry) (base : Z) : Prop :=
  bf_reg_type bf = HEADER /\ base = 0 \/
  bf_reg_type bf = PCIE_CAP /\ (forall v, fits 32 v ->
    eval (val_pcie_find_capability fuel bdf PCIE_CAP (bf_cap_id bf)) (W v) (PCIE_SUCCESS, Some base) (W v)) \/
  bf_reg_type bf = PCIE_ECAP /\ (forall v, fits 32 v ->
    eval (val_pcie_find_capability fuel bdf PCIE_ECAP (bf_ecap_id bf)) (W v) (PCIE_SUCCESS, Some base) (W v)).

Lemma eval_read_register W bdf addr rw v x :
  register W bdf addr rw -> fits 32 v -> eval (read_cfg_into x bdf addr) (W v) (Some v) (W v).
Proof. intros Hr Hv. eapply eval_bind; [by apply (reg_read _ _ _ _ Hr)|]. apply eval_ret. Qed.


(** The field inverted or cleared. *)
Lemma lxor_field_fits bf v : placed bf = true -> fits 32 v -> fits 32 (Z.lxor v (field_mask bf)).
Proof.
  intros Hp Hv. replace (Z.lxor v (field_mask bf)) with (u32 (Z.lxor v (field_mask bf))); [apply fits_u32|].
  apply Z.bits_inj'. intros i Hi. unfold u32. rewrite testbit_mod2 by lia.
  destruct (Z.ltb_spec i 32); [done|]. rewrite Z.lxor_spec.
  by rewrite (fits_testbit v), (fits_testbit (field_mask bf)) by (try apply field_mask_fits; done).
Qed.

Lemma land_fits_l v m : fits 32 v -> fits 32 (Z.land v m).
Proof. intros Hv. rewrite Z.land_comm. by apply fits_land_r. Qed.

(** The writes of the check: the register goes from [v] to [v'], which differs from it
    in writable bits of the field at most. *)
Definition within (bf : pcie_cfgreg_bitfield_entry) (rw v v' : Z) : Prop :=
  forall i, Z.testbit (Z.land rw (field_mask bf)) i = false -> Z.testbit v' i = Z.testbit v i.

Lemma within_refl bf rw v : within bf rw v v.
Proof. done. Qed.
Lemma within_lxor bf rw v x : within bf rw v (Z.lxor v (Z.land x (Z.land rw (field_mask bf)))).
Proof. intros i Hi. by rewrite Z.lxor_spec, (Z.land_spec x), Hi, andb_false_r, xorb_false_r. Qed.
Lemma within_inverted bf rw v : within bf rw v (Z.lxor v (Z.land rw (field_mask bf))).
Proof. intros i Hi. by rewrite Z.lxor_spec, Hi, xorb_false_r. Qed.

(** A write and the value read back. *)
Lemma eval_rewrite W bdf addr rw v x o :
  register W bdf addr rw -> fits 32 v -> fits 32 x ->
  eval (val_pcie_write_cfg bdf addr x ;; let* y := read_cfg_into o bdf addr in need y)
    (W v) (store rw v x) (W (store rw v x)).
Proof.
  intros Hr Hv Hx. eapply eval_bind; [by apply (reg_write _ _ _ _ Hr)|].
  eapply eval_bind; [|by apply eval_need]. eapply eval_read_register; [done|].
  apply store_fits; [done|apply Hr].
Qed.

(** The end of the check. *)
Lemma wp_compared (a b : Z) m bdf msg w (R : Z -> world D -> Prop) :
  R (if a =? b then 0 else unless_warning msg) w ->
  wp (if negb (a =? b) then
        val_print ACS_PRINT_ERR "\n       BDF 0x%x : " bdf ;;
        val_print ACS_PRINT_ERR msg 0 ;;
        ret (if is_warning msg then 0 else 1)
      else val_print ACS_PRINT_INFO m bdf ;; ret 0) w R.
Proof. destruct (a =? b); cbn [negb]; intros HR; run; exact HR. Qed.

Definition checked (W : Z -> world D) (bf : pcie_cfgreg_bitfield_entry) (rw v : Z)
    (r : Z) (w' : world D) : Prop :=
  r = check_result bf rw v /\
  exists v', w' = W v' /\ within bf rw v v' /\
    (bf_attr bf = READ_WRITE \/ bf_attr bf = STICKY_RW -> v' = v).

(** What the check does once the field has its value. *)
Lemma wp_answers W bdf addr bf rw v :
  register W bdf addr rw -> placed bf = true -> known_attr bf = true -> fits 32 v ->
  (field_of bf v =? bf_cfg_value bf) = true ->
  wp (field_answers bdf bf addr v (field_shift bf) (Z.ones (field_width bf))) (W v) (fun r w' =>
    r = (if honours bf rw v then 0 else unless_warning (bf_err_str2 bf)) /\
    exists v', w' = W v' /\ within bf rw v v' /\
      (bf_attr bf = READ_WRITE \/ bf_attr bf = STICKY_RW -> v' = v)).
Proof.
  intros Hr Hp Hk Hv Ef. pose proof (placed_spec bf Hp) as (Hs & He & Hsh & Hw & Hl).
  pose proof (field_mask_fits bf Hp) as Hm.
  unfold field_answers. fold (field_mask bf). rewrite (u32_id (field_mask bf)) by done.
  pose proof (lxor_field_fits bf v Hp Hv) as Hx.
  unfold known_attr in Hk. cbn [existsb] in Hk. unfold honours.
  destruct ((bf_attr bf =? HW_INIT) || (bf_attr bf =? READ_ONLY) || (bf_attr bf =? STICKY_RO)) eqn:E1.
  { wp_step. eapply wp_eval; [by eapply eval_rewrite|]. cbv beta. rewrite store_inverted.
    apply wp_compared. rewrite lxor_eqb_0. split; [done|]. eexists. split; [done|].
    split; [apply within_inverted|]. unfold READ_WRITE, STICKY_RW, HW_INIT, READ_ONLY, STICKY_RO in *. lia. }
  destruct (Z.eqb_spec (bf_attr bf) RSVDP_RO) as [E2|N2].
  { wp_step. eapply wp_eval; [by eapply eval_rewrite|]. cbv beta. rewrite store_same.
    apply wp_compared. rewrite Z.land_ones, Z.shiftr_div_pow2 by lia. fold (field_of bf v).
    apply Z.eqb_eq in Ef. rewrite Ef. split; [done|]. exists v. by split. }
  destruct (Z.eqb_spec (bf_attr bf) RSVDZ_RO) as [E3|N3].
  { wp_step. eapply wp_eval; [by eapply eval_rewrite, land_fits_l|]. cbv beta.
    rewrite store_cleared by done. apply wp_compared. rewrite lxor_eqb_0. split; [done|].
    eexists. split; [done|]. split; [apply within_lxor|]. by rewrite E3; intros []. }
  destruct ((bf_attr bf =? READ_WRITE) || (bf_attr bf =? STICKY_RW)) eqn:E4; [|lia].
  wp_step. eapply wp_eval; [by apply (reg_write _ _ _ _ Hr)|]. rewrite store_inverted.
  assert (Hy : fits 32 (Z.lxor v (Z.land rw (field_mask bf)))).
  { rewrite <- store_inverted. apply store_fits; [done|apply Hr]. }
  wp_step. eapply wp_eval; [by eapply eval_read_register|]. wp_step. eapply wp_need; [done|].
  wp_step. eapply wp_eval; [by apply (reg_write _ _ _ _ Hr)|]. rewrite store_restored.
  apply wp_compared. rewrite lxor_eqb, Z.eqb_sym. split; [done|]. by exists v.
Qed.

Lemma wp_check_at W bdf bf rw v base :
  register W bdf (u32 (base + (bf_reg_offset bf - bf_reg_offset bf mod 4))) rw ->
  placed bf = true -> known_attr bf = true -> fits 32 v ->
  wp (bitfield_check_at bdf bf PCIE_SUCCESS (Some base)) (W v) (checked W bf rw v).
Proof.
  intros Hr Hp Hk Hv. pose proof (placed_spec bf Hp) as (Hs & He & Hsh & Hw & Hl).
  pose proof (field_mask_fits bf Hp) as Hm.
  unfold bitfield_check_at. rewrite (land_mask 2) by done. change (2 ^ 2) with 4.
  cbv zeta. change (negb (PCIE_SUCCESS =? PCIE_SUCCESS)) with false. cbv iota.
  set (addr := u32 (base + _)) in *.
  wp_step. apply (wp_need _ base); [done|]. wp_step. unfold read_cfg_fresh. wp_step.
  eapply wp_eval; [by eapply eval_read_register|]. apply (wp_need _ v); [done|]. wp_step.
  eapply wp_eval; [by apply (reg_write _ _ _ _ Hr)|]. rewrite store_same. wp_step.
  eapply wp_eval; [by eapply eval_read_register|]. wp_step. apply (wp_need _ v); [done|].
  wp_step. apply (wp_need _ (field_shift bf)).
  { unfold field_shift in *. unfold shift_count. by rewrite (proj2 (Z.leb_le 0 _)), (proj2 (Z.ltb_lt _ 32)) by lia. }
  wp_step. apply (wp_need _ (Z.ones (field_width bf))); [by apply REG_MASK_ones|].
  rewrite Z.land_ones, Z.shiftr_div_pow2 by lia. fold (field_of bf v).
  unfold checked, check_result.
  destruct (field_of bf v =? bf_cfg_value bf) eqn:Ef; cbn [negb].
  2:{ run. split; [done|]. exists v. split; [done|]. by split. }
  by apply wp_answers.
Qed.

(** C11: A table-driven register check finds out exactly whether the register is as its entry
    says. On a register of which a write changes the bits [rw] only, holding [v], and for
    an entry whose field is inside a word: the check returns 0 iff the field holds the
    expected value and answers writes as the attribute says (or the message is only a
    warning); what it leaves behind differs from [v] in writable bits of the field at
    most, and not at all when the field is meant to be writable. *)
Theorem bitfield_check_exact W bdf bf rw v base :
  register W bdf (u32 (base + (bf_reg_offset bf - bf_reg_offset bf mod 4))) rw ->
  base_of W bdf bf base -> placed bf = true -> known_attr bf = true -> fits 32 v ->
  wp (val_pcie_bitfield_check fuel bdf bf) (W v) (fun r w' =>
    r = check_result bf rw v /\
    exists v', w' = W v' /\ within bf rw v v' /\
      (bf_attr bf = READ_WRITE \/ bf_attr bf = STICKY_RW -> v' = v)).
Proof.
  intros Hr Hb Hp Hk Hv. pose proof (wp_check_at W bdf bf rw v base Hr Hp Hk Hv) as Hgo.
  unfold val_pcie_bitfield_check. cbv zeta.
  destruct Hb as [[-> ->]|[[-> He]|[-> He]]]; cbn [Z.eqb Pos.eqb HEADER PCIE_CAP PCIE_ECAP];
    [exact Hgo|..]; wp_step; (eapply wp_eval; [by apply He|]); exact Hgo.
Qed.
End register.

(** ** Concrete inputs *)

(** A register of plain memory: the header word at 4 of function 1:2.3. *)
Definition word_world (v : Z) : world machine := on_pcie {[0x40113004 := v]}.

Lemma word_register : register word_world (PCIE_CREATE_BDF 0 1 2 3) 4 (Z.ones 32).
Proof.
  split; [done|..].
  - intros v Hv.
    pose proof (eval_read_cfg one_ecam 0 1 2 3 4 (word_world v) eq_refl one_ecam_ok ltac:(by split)
      ltac:(repeat split; done) ltac:(by split) ltac:(done) ltac:(done)) as He.
    cbv zeta in He. change (ecam_base_of one_ecam 0 1) with 0x40000000 in He.
    change (0x40000000 + cfg_addr 1 2 3 + 4) with 0x40113004 in He.
    cbn [dev_read machine_platform fst snd dev word_world on_pcie boot mach_mem set_g_pcie_info_table] in He.
    change (0x40113004 - 0x40113004 mod 4) with 0x40113004 in He.
    rewrite lookup_singleton_eq in He. cbn [default from_option] in He.
    change (id v) with v in He. by rewrite (u32_id v Hv) in He.
  - intros v x Hv Hx.
    pose proof (eval_write_cfg one_ecam 0 1 2 3 4 x (word_world v) eq_refl one_ecam_ok ltac:(by split)
      ltac:(repeat split; done) ltac:(by split) ltac:(done) ltac:(done)) as He.
    change (ecam_base_of one_ecam 0 1) with 0x40000000 in He.
    change (0x40000000 + cfg_addr 1 2 3 + 4) with 0x40113004 in He.
    assert (store (Z.ones 32) v x = x) as ->.
    { unfold store. rewrite Z.land_ones, Z.mod_small by done.
      rewrite Z.ldiff_ones_r, Z.shiftr_div_pow2, Z.div_small by done. apply Z.lor_0_l. }
    unfold word_world. replace {[0x40113004 := x]} with (<[0x40113004 := x]> ({[0x40113004 := v]} : gmap Z Z)); [exact He|].
    apply insert_singleton_eq.
Qed.

(** It passes for a writable command bit and fails for one that should be read only. *)
Lemma bitfield_check_exact_witness :
  let bf attr := mkBf HEADER 0 0 4 1 2 2 0 attr "BME value mismatch" "BME attribute mismatch" in
  wp (val_pcie_bitfield_check 1 (PCIE_CREATE_BDF 0 1 2 3) (bf READ_WRITE)) (word_world 3)
    (fun r w' => r = 0 /\ w' = word_world 3) /\
  wp (val_pcie_bitfield_check 1 (PCIE_CREATE_BDF 0 1 2 3) (bf READ_ONLY)) (word_world 3)
    (fun r w' => r = 1).
Proof.
  cbv zeta. split.
  - eapply wp_mono; [apply (bitfield_check_exact 1 word_world _ _ (Z.ones 32) 3 0)|];
      [exact word_register|by left|done|done|done|].
    intros r w' (-> & v' & -> & _ & Hv). by rewrite Hv by (by left).
  - eapply wp_mono; [apply (bitfield_check_exact 1 word_world _ _ (Z.ones 32) 3 0)|];
      [exact word_register|by left|done|done|done|].
    by intros r w' (-> & _).
Defined.
