(* ===== verification/PcieEnum.v ===== *)
(** * PCIe enumeration and the PCIe test group

    The bus numbering of src/val/sys_arch_src/pcie/pcie.c, and the operations of
    src/val/src/acs_pcie.c that put the PCIe component together. *)

From S2P Require Import Prelude Types World Status Machine Pcie PcieTable.
#[local] Open Scope c_scope.

Definition PCIE_HEADER_TYPE (header_value : Z) : Z := Z.land (Z.shiftr header_value 16) 0x3.

(** [bus] is the caller's variable: the macro ignores its [pri_bus] argument. *)
Definition BUS_NUM_REG_CFG (sub_bus sec_bus bus : Z) : Z :=
  Z.lor (Z.lor (u32 (Z.shiftl sub_bus 16)) (u32 (Z.shiftl sec_bus 8))) bus.

Section enum.
Context {D : Type} `{Platform D}.

#[local] Abbreviation M := (M (world D)).

(** The two locals read from configuration space keep their values from one
    function to the next, and [sec_bus] and [sub_bus] run on. *)
Record enum_locals := mkEnum {
  en_vendor_id : option Z; en_header_value : option Z; en_sec_bus : Z; en_sub_bus : Z }.

(** [fuel] bounds the depth: the bridges between the root and a function. *)
Fixpoint pcie_enumerate_device (fuel : nat) (bus sec_bus : Z) {struct fuel} : M Z :=
  match fuel with
  | O => out_of_fuel
  | S fuel' =>
  if bus =? PCIE_MAX_BUS - 1 then ret bus
  else
  let* l := for_acc (Z.to_nat PCIE_MAX_DEV) 0 (fun dev =>
    for_acc (Z.to_nat PCIE_MAX_FUNC) 0 (fun func l =>
      let bdf := PCIE_CREATE_BDF 0 bus dev func in
      let* vendor_id := read_cfg_into (en_vendor_id l) bdf 0 in
      let* v := need vendor_id in
      if (v =? 0x0) || (v =? 0xFFFFFFFF) then
        ret (mkEnum vendor_id (en_header_value l) (en_sec_bus l) (en_sub_bus l))
      else
      let* header_value := read_cfg_into (en_header_value l) bdf HEADER_OFFSET in
      let* h := need header_value in
      let* ' (sec_bus, sub_bus) :=
        if PCIE_HEADER_TYPE h =? TYPE1_HEADER then
          val_print ACS_PRINT_INFO " TYPE1 HEADER found\n" 0 ;;
          val_pcie_write_cfg bdf BUS_NUM_REG_OFFSET (BUS_NUM_REG_CFG 0xFF (en_sec_bus l) bus) ;;
          let* sub_bus := pcie_enumerate_device fuel' (en_sec_bus l) (u32 (en_sec_bus l + 1)) in
          val_pcie_write_cfg bdf BUS_NUM_REG_OFFSET (BUS_NUM_REG_CFG sub_bus (en_sec_bus l) bus) ;;
          ret (u32 (sub_bus + 1), sub_bus)
        else ret (en_sec_bus l, en_sub_bus l) in
      let* sub_bus :=
        if PCIE_HEADER_TYPE h =? TYPE0_HEADER then
          val_print ACS_PRINT_INFO " END POINT found\n" 0 ;;
          ret (u32 (sec_bus - 1))
        else ret sub_bus in
      ret (mkEnum vendor_id header_value sec_bus sub_bus)))
    (mkEnum None None sec_bus bus) in
  ret (en_sub_bus l)
  end.

Definition val_bsa_pcie_enumerate (fuel : nat) : M () :=
  val_print ACS_PRINT_INFO " \n Starting Enumeration \n" 0 ;;
  pcie_enumerate_device fuel PRI_BUS SEC_BUS ;;
  ret tt.

(** Under UEFI the buses were enumerated at boot: nothing to do. *)
Definition pal_pcie_enumerate : M () := ret tt.

Definition val_pcie_enumerate (fuel : nat) : M () :=
  (when pal_bsa_pcie_enumerate then val_bsa_pcie_enumerate fuel) ;;
  pal_pcie_enumerate.

Definition val_pcie_create_info_table `{PalTables D} (fuel : nat)
    (pcie_info_table : bool) : M () :=
  if negb pcie_info_table then
    val_print ACS_PRINT_ERR "Input for Create Info table cannot be NULL \n" 0
  else
  let* t := pal_pcie_create_info_table in
  modify (set_g_pcie_info_table (Some t)) ;;
  let* num_ecam := val_pcie_get_info PCIE_INFO_NUM_ECAM 0 in
  let num_ecam := u32 num_ecam in
  val_print ACS_PRINT_TEST " PCIE_INFO: Number of ECAM regions    :    %lx \n" num_ecam ;;
  if num_ecam =? 0 then ret tt
  else
  val_pcie_enumerate fuel ;;
  let* r := val_pcie_create_device_bdf_table fuel in
  if truthy r then val_print ACS_PRINT_ERR " Create Bdf table failed.\n" 0
  else val_pcie_print_device_info fuel.

Definition val_pcie_execute_tests `{TestPool D} (num_pe : Z) (g_sw_view : list Z) : M Z :=
  let* skip := user_skips ACS_PCIE_TEST_NUM_BASE in
  if skip then
    val_print ACS_PRINT_TEST "\n      USER Override - Skipping all PCIe tests \n" 0 ;;
    ret ACS_STATUS_SKIP
  else
  let* num_ecam := val_pcie_get_info PCIE_INFO_NUM_ECAM 0 in
  if u32 num_ecam =? 0 then
    val_print ACS_PRINT_WARN "\n     *** No ECAM region found, Skipping PCIE tests *** \n" 0 ;;
    ret ACS_STATUS_SKIP
  else
  let* os := need (g_sw_view !! Z.to_nat G_SW_OS) in
  let* status :=
    if truthy os then
      val_print ACS_PRINT_ERR "\n       PCI_IN_06: PCIe HB must recognise tranx from PE     " 0 ;;
      val_print ACS_PRINT_ERR "    : Result:  PASS" 0 ;;
      val_print ACS_PRINT_ERR "\n       PCI_iEP_1: PCIe spec follow SW visible spec         " 0 ;;
      val_print ACS_PRINT_ERR "    : Result:  PASS" 0 ;;
      val_print ACS_PRINT_ERR "\n       RE_CFG_1: Recognise RW request in ECAM reg          " 0 ;;
      val_print ACS_PRINT_ERR "    : Result:  PASS" 0 ;;
      val_print ACS_PRINT_ERR "\nOperating System:\n" 0 ;;
      run_tests ["os_p001_entry"] num_pe ACS_STATUS_PASS
    else ret ACS_STATUS_PASS in
  if truthy os && negb (status =? ACS_STATUS_PASS) then
    val_print ACS_PRINT_WARN "\n     *** Skipping remaining PCIE tests *** \n" 0 ;;
    ret status
  else
  let* t := bdf_table in
  if bdf_entries t =? 0 then
    val_print ACS_PRINT_WARN "\n     *** No Valid Devices Found, Skipping PCIE tests *** \n" 0 ;;
    ret ACS_STATUS_SKIP
  else
  let* status :=
    if truthy os then
      run_tests
        ["os_p002_entry"; "os_p020_entry"; "os_p021_entry"; "os_p022_entry"; "os_p023_entry";
         "os_p024_entry"; "os_p025_entry"; "os_p026_entry"; "os_p027_entry"; "os_p028_entry";
         "os_p029_entry"; "os_p030_entry"; "os_p031_entry"; "os_p032_entry"; "os_p033_entry";
         "os_p034_entry"; "os_p035_entry"; "os_p036_entry"; "os_p037_entry"; "os_p038_entry";
         "os_p039_entry"; "os_p041_entry"; "os_p042_entry"; "os_p044_entry"; "os_p048_entry";
         "os_p050_entry"; "os_p051_entry"; "os_p052_entry"; "os_p053_entry"; "os_p054_entry";
         "os_p055_entry"; "os_p056_entry"; "os_p057_entry"; "os_p058_entry"; "os_p059_entry";
         "os_p060_entry"; "os_p061_entry"; "os_p062_entry"] num_pe status
    else ret status in
  (if negb (status =? ACS_STATUS_PASS) then
     val_print ACS_PRINT_TEST "\n      *** One or more tests have Failed/Skipped.*** \n" 0
   else val_print ACS_PRINT_TEST "\n      All PCIe tests passed!! \n" 0) ;;
  ret status.
End enum.
