(* ===== verification/Memory.v ===== *)
(** * The memory map table

    src/val/src/acs_memory.c: the table of memory regions, which ends with an entry
    of type [MEMORY_TYPE_LAST_ENTRY], and the queries on it. The allocation
    wrappers of the same file are in World. *)

From S2P Require Import Prelude Types World Status Machine.
#[local] Open Scope c_scope.

Section memory.
Context {D : Type} `{Platform D}.

#[local] Abbreviation M := (M (world D)).

Definition mem_entry (i : Z) : M MEM_INFO_BLOCK :=
  let* t := gets g_memory_info_table in
  let* t := need t in
  need (mem_info t !! Z.to_nat i).

Definition val_memory_create_info_table `{PalTables D} : M () :=
  let* t := pal_memory_create_info_table in
  modify (set_g_memory_info_table (Some t)).

(** The index of the entry number [instance] of a type, 0xFF when there is none. *)
Definition val_memory_get_entry_index (fuel : nat) (type instance : Z) : M Z :=
  while_ fuel (fun '(i, instance) =>
    let* e := mem_entry i in
    if negb (mem_type e =? MEMORY_TYPE_LAST_ENTRY) then
      if mem_type e =? type then
        if instance =? 0 then ret (Break i)
        else ret (Continue (i + 1, instance - 1))
      else ret (Continue (i + 1, instance))
    else ret (Break 0xFF)) (0, instance).

(** Address, and what is written to [*attr] if anything. *)
Definition val_memory_get_addr (fuel : nat) (type instance : Z) : M (Z * option Z) :=
  let* t := gets g_memory_info_table in
  match t with
  | None => ret (0, None)
  | Some _ =>
      let* i :=
        if type =? MEM_TYPE_DEVICE then
          val_memory_get_entry_index fuel MEMORY_TYPE_DEVICE instance
        else if type =? MEM_TYPE_NORMAL then
          val_memory_get_entry_index fuel MEMORY_TYPE_NORMAL instance
        else ret 0xFF in
      if negb (i =? 0xFF) then
        let* e := mem_entry i in
        ret (mem_phy_addr e, Some (mem_flags e))
      else
        val_print ACS_PRINT_INFO "Instance 0x%x not found " instance ;;
        val_print ACS_PRINT_INFO "for memory type 0x%x\n" type ;;
        ret (0, None)
  end.

Definition val_memory_get_info (fuel : nat) (addr : Z) : M (Z * option Z) :=
  while_ fuel (fun index =>
    let* e := mem_entry index in
    if negb (mem_type e =? MEMORY_TYPE_LAST_ENTRY) then
      if (mem_phy_addr e <=? addr) && (addr <? u64 (mem_phy_addr e + mem_size e)) then
        ret (Break (mem_type e, Some (mem_flags e)))
      else ret (Continue (index + 1))
    else ret (Break (MEM_TYPE_NOT_POPULATED, None))) 0.

Definition val_get_max_memory (fuel : nat) : M Z :=
  while_ fuel (fun '(index, addr) =>
    let* e := mem_entry index in
    if negb (mem_type e =? MEMORY_TYPE_LAST_ENTRY) then
      ret (Continue (index + 1,
        if addr <? mem_phy_addr e then u64 (mem_phy_addr e + mem_size e) else addr))
    else ret (Break addr)) (0, 0).

Definition val_memory_execute_tests `{TestPool D} (num_pe : Z) (g_sw_view : list Z) : M Z :=
  let* skip := user_skips ACS_MEMORY_MAP_TEST_BASE in
  if skip then
    val_print ACS_PRINT_TEST "\n      USER Override - Skipping all Memory tests \n" 0 ;;
    ret ACS_STATUS_SKIP
  else
  let* os := need (g_sw_view !! Z.to_nat G_SW_OS) in
  let* status :=
    if truthy os then
      val_print ACS_PRINT_ERR "\nOperating System:\n" 0 ;;
      run_tests ["os_m001_entry"; "os_m002_entry"; "os_m003_entry"] num_pe ACS_STATUS_PASS
    else ret ACS_STATUS_PASS in
  (if negb (status =? ACS_STATUS_PASS) then
     val_print ACS_PRINT_TEST "\n      *** One or more tests have Failed/Skipped.*** \n" 0
   else val_print ACS_PRINT_TEST "\n      All Memory tests have passed!! \n" 0) ;;
  ret status.

(** ** What the queries find *)

Definition is_last (e : MEM_INFO_BLOCK) : bool := mem_type e =? MEMORY_TYPE_LAST_ENTRY.

(** The table is the entries [es], the terminator [x], and whatever follows. *)
Definition memory_table (w : world D) (es : list MEM_INFO_BLOCK) (x : MEM_INFO_BLOCK) : Prop :=
  exists t rest, g_memory_info_table w = Some t /\ mem_info t = (es ++ [x]) ++ rest /\
    forallb (fun e => negb (is_last e)) es = true /\ is_last x = true.

Lemma eval_mem_entry w es x k e :
  memory_table w es x -> (es ++ [x]) !! k = Some e -> eval (mem_entry (Z.of_nat k)) w e w.
Proof.
  intros (t & rest & Ht & Hl & _) He.
  eapply eval_bind; [by apply eval_gets|]. eapply eval_bind; [by apply eval_need|].
  apply eval_need. rewrite Nat2Z.id, Hl. by apply lookup_app_l_Some.
Qed.

Lemma memory_table_stop w es x : memory_table w es x ->
  forallb (fun e => negb (is_last e)) es = true /\ is_last x = true.
Proof. by intros (t & rest & _ & _ & H1 & H2). Qed.

(** A search of the table: what it does with an entry, and with the terminator. *)
Lemma eval_memory_scan {A B R} (st : Z -> A -> B) (step : MEM_INFO_BLOCK -> Z -> A -> A + R)
    (fin : A -> R) w es x fuel a r (body : B -> M (ctl B R)) :
  memory_table w es x -> (length es < fuel)%nat ->
  scan is_last step fin (es ++ [x]) 0 a = Some r ->
  (forall k e a, (es ++ [x]) !! k = Some e ->
     eval (body (st (Z.of_nat k) a)) w
       (if is_last e then Break (fin a)
        else match step e (Z.of_nat k) a with
             | inl a' => Continue (st (Z.of_nat k + 1) a') | inr r => Break r end) w) ->
  eval (while_ fuel body (st 0 a)) w r w.
Proof.
  intros Ht Hf Hs Hb. apply (eval_while_scan (es ++ [x]) st is_last step fin); [exact Hb|exact Hs|].
  rewrite length_app. simpl. lia.
Qed.

Lemma eval_memory_entry_index w es x fuel type instance :
  memory_table w es x -> 0 <= instance -> (length es < fuel)%nat ->
  eval (val_memory_get_entry_index fuel type instance) w
    (match matches (fun e => mem_type e =? type) es 0 !! Z.to_nat instance with
     | Some (k, _) => k | None => 0xFF end) w.
Proof.
  intros Ht Hi Hf. destruct (memory_table_stop w es x Ht) as [Hes Hx].
  apply (eval_memory_scan (fun i n => (i, n))
    (fun e i n => if mem_type e =? type then if n =? 0 then inr i else inl (n - 1) else inl n)
    (fun _ => 0xFF) w es x); [done|done|by apply scan_nth|].
  intros k e n He. eapply eval_bind; [by eapply eval_mem_entry|]. cbv beta. fold (is_last e).
  destruct (is_last e); cbn [negb]; [apply eval_ret|].
  destruct (mem_type e =? type); [|apply eval_ret]. destruct (n =? 0); apply eval_ret.
Qed.

(** [val_memory_get_addr] gives the address and flags of region number
    [instance] of the requested kind, counting from 0, and 0 when there are not
    that many - or when the region is at index 255 of the table, the value that
    also means none. *)
Theorem memory_get_addr_nth w es x fuel instance :
  memory_table w es x -> 0 <= instance -> (length es < fuel)%nat ->
  forall kind type, (kind, type) = (MEM_TYPE_DEVICE, MEMORY_TYPE_DEVICE) \/
                    (kind, type) = (MEM_TYPE_NORMAL, MEMORY_TYPE_NORMAL) ->
  eval (val_memory_get_addr fuel kind instance) w
    (match matches (fun e => mem_type e =? type) es 0 !! Z.to_nat instance with
     | Some (k, e) => if k =? 0xFF then (0, None) else (mem_phy_addr e, Some (mem_flags e))
     | None => (0, None)
     end) w.
Proof.
  intros Ht Hi Hf kind type Hk. destruct (Ht) as (t & rest & Hg & _).
  pose proof (eval_memory_entry_index w es x fuel type instance Ht Hi Hf) as He.
  assert (Ei : eval (if kind =? MEM_TYPE_DEVICE then
                       val_memory_get_entry_index fuel MEMORY_TYPE_DEVICE instance
                     else if kind =? MEM_TYPE_NORMAL then
                       val_memory_get_entry_index fuel MEMORY_TYPE_NORMAL instance
                     else ret 0xFF) w
                 (match matches (fun e => mem_type e =? type) es 0 !! Z.to_nat instance with
                  | Some (k, _) => k | None => 0xFF end) w)
    by (destruct Hk as [Hk|Hk]; injection Hk as -> ->; exact He).
  unfold eval, val_memory_get_addr. eapply wp_bind, wp_eval; [by apply eval_gets|]. cbv beta iota.
  eapply wp_bind, wp_eval; [exact Ei|]. clear Ei He.
  cbv beta. destruct (matches _ es 0 !! _) as [[k e]|] eqn:Hm.
  - destruct (matches_lookup _ _ _ _ _ _ Hm) as (Hk0 & He & _). rewrite Z.sub_0_r in He.
    destruct (Z.eqb_spec k 0xFF) as [->|Hne]; cbn [negb].
    + io_step. apply wp_val_print. io_step. apply wp_val_print.
      by wp_step.
    + eapply wp_bind, wp_eval; [|by wp_step].
      rewrite <- (Z2Nat.id k) by done. eapply (eval_mem_entry w es x); [done|]. by apply lookup_app_l_Some.
  - change (negb (255 =? 255)) with false. cbv iota. io_step. apply wp_val_print.
    io_step. apply wp_val_print. by wp_step.
Qed.

(** [val_memory_get_info] gives the kind and flags of the first region of the
    table that holds the address, and [MEM_TYPE_NOT_POPULATED] when none does; the
    search ends within the table. *)
Theorem memory_get_info_first w es x fuel addr :
  memory_table w es x -> (length es < fuel)%nat ->
  eval (val_memory_get_info fuel addr) w
    (match List.find (fun e => (mem_phy_addr e <=? addr) &&
                               (addr <? u64 (mem_phy_addr e + mem_size e))) es with
     | Some e => (mem_type e, Some (mem_flags e))
     | None => (MEM_TYPE_NOT_POPULATED, None)
     end) w.
Proof.
  intros Ht Hf. destruct (memory_table_stop w es x Ht) as [Hes Hx].
  set (p e := (mem_phy_addr e <=? addr) && (addr <? u64 (mem_phy_addr e + mem_size e))).
  apply (eval_memory_scan (fun i (_ : ()) => i)
    (fun e i _ => if p e then inr (mem_type e, Some (mem_flags e)) else inl tt)
    (fun _ => (MEM_TYPE_NOT_POPULATED, None)) w es x _ tt); [done|done| |].
  - clear Ht Hf. generalize 0 at 1 as i. induction es as [|e es IH]; intros i; cbn [app scan List.find].
    + by rewrite Hx.
    + cbn in Hes. apply andb_true_iff in Hes as [He Hes]. rewrite negb_true_iff in He. rewrite He.
      destruct (p e); [done|]. by apply IH.
  - intros k e [] He. eapply eval_bind; [by eapply eval_mem_entry|]. cbv beta. fold (is_last e).
    destruct (is_last e); cbn [negb]; [apply eval_ret|]. fold (p e).
    destruct (p e); apply eval_ret.
Qed.

(** ** The highest address *)

Definition top_of (addr : Z) (e : MEM_INFO_BLOCK) : Z :=
  if addr <? mem_phy_addr e then u64 (mem_phy_addr e + mem_size e) else addr.

Lemma eval_get_max_memory w es x fuel :
  memory_table w es x -> (length es < fuel)%nat ->
  eval (val_get_max_memory fuel) w (fold_left top_of es 0) w.
Proof.
  intros Ht Hf. destruct (memory_table_stop w es x Ht) as [Hes Hx].
  apply (eval_memory_scan (fun i a => (i, a)) (fun e _ a => inl (top_of a e)) id w es x _ 0);
    [done|done| |].
  - clear Ht Hf. generalize 0 at 1 as i. generalize 0 as a.
    induction es as [|e es IH]; intros a i; cbn [app scan fold_left].
    + by rewrite Hx.
    + cbn in Hes. apply andb_true_iff in Hes as [He Hes]. rewrite negb_true_iff in He. rewrite He.
      by apply IH.
  - intros k e a He. eapply eval_bind; [by eapply eval_mem_entry|]. cbv beta. fold (is_last e).
    destruct (is_last e); cbn [negb]; apply eval_ret.
Qed.

(** Regions in ascending order, each starting at least [gap] after the one before,
    the first at least [gap] after [a]. *)
Fixpoint ascending (gap a : Z) (es : list MEM_INFO_BLOCK) : Prop :=
  match es with
  | [] => True
  | e :: es => a + gap <= mem_phy_addr e /\ 0 < mem_size e /\
               mem_phy_addr e + mem_size e < 2 ^ 64 /\
               ascending gap (mem_phy_addr e + mem_size e) es
  end.

Definition end_of (e : MEM_INFO_BLOCK) : Z := mem_phy_addr e + mem_size e.

Lemma top_ascending a es :
  0 <= a -> ascending 1 a es -> fold_left top_of es a = default a (end_of <$> last es).
Proof.
  revert a. induction es as [|e es IH]; intros a Ha; cbn [ascending fold_left]; [done|].
  intros (H1 & H2 & H3 & H4). unfold top_of at 2.
  rewrite (proj2 (Z.ltb_lt a (mem_phy_addr e))), u64_id by (unfold fits; lia).
  rewrite IH by (done || lia). destruct es as [|e' es]; [done|]. rewrite last_cons_cons.
  destruct (last (e' :: es)) eqn:E; [done|]. by apply last_None in E.
Qed.

(** [val_get_max_memory] gives the end of the last region when the regions
    ascend with gaps between them; but a last region that starts exactly where the
    one before ended is not counted. *)
Theorem get_max_memory_adjacent w es x fuel :
  memory_table w es x -> (length es < fuel)%nat ->
  (ascending 1 0 es ->
   eval (val_get_max_memory fuel) w (default 0 (end_of <$> last es)) w) /\
  (forall es' l e, es = (es' ++ [l]) ++ [e] -> ascending 1 0 (es' ++ [l]) ->
   mem_phy_addr e = end_of l -> eval (val_get_max_memory fuel) w (end_of l) w).
Proof.
  intros Ht Hf. pose proof (eval_get_max_memory w es x fuel Ht Hf) as He. split.
  - intros Ha. by rewrite top_ascending in He.
  - intros es' l e -> Ha Hadj. rewrite fold_left_app, (top_ascending 0) in He by done.
    rewrite last_snoc in He. cbn in He. unfold top_of in He. rewrite Hadj, Z.ltb_irrefl in He. exact He.
Qed.
End memory.

(** ** Concrete inputs *)

(** Two adjacent gigabytes of memory and a device further up. *)
Definition dram (base : Z) : MEM_INFO_BLOCK := mkMem MEMORY_TYPE_NORMAL base base 0x40000000 7.
Definition uart : MEM_INFO_BLOCK := mkMem MEMORY_TYPE_DEVICE 0x9000000 0x9000000 0x1000 1.
Definition end_of_table : MEM_INFO_BLOCK := mkMem MEMORY_TYPE_LAST_ENTRY 0 0 0 0.

Definition on_memory (es : list MEM_INFO_BLOCK) : world machine :=
  set_g_memory_info_table (Some (mkMemTable 0 0 (es ++ [end_of_table]))) (boot ∅ ∅).

Lemma on_memory_table es :
  forallb (fun e => negb (is_last e)) es = true -> memory_table (on_memory es) es end_of_table.
Proof. intros Hes. do 2 eexists. split; [done|]. split; [by rewrite app_nil_r|done]. Qed.

Definition small_map : list MEM_INFO_BLOCK := [uart; dram 0x40000000; dram 0x80000000].

Lemma memory_get_addr_nth_witness :
  eval (val_memory_get_addr 4 MEM_TYPE_NORMAL 1) (on_memory small_map)
    (0x80000000, Some 7) (on_memory small_map).
Proof.
  apply (memory_get_addr_nth (on_memory small_map) small_map end_of_table 4 1) with
    (kind := MEM_TYPE_NORMAL) (type := MEMORY_TYPE_NORMAL).
  - by apply on_memory_table.
  - done.
  - simpl. lia.
  - by right.
Defined.

Lemma memory_get_info_first_witness :
  eval (val_memory_get_info 4 0x90000000) (on_memory small_map)
    (MEMORY_TYPE_NORMAL, Some 7) (on_memory small_map).
Proof.
  apply (memory_get_info_first (on_memory small_map) small_map end_of_table 4 0x90000000).
  - by apply on_memory_table.
  - simpl. lia.
Defined.

(** The second gigabyte of [small_map] is missed. *)
Lemma get_max_memory_adjacent_witness :
  eval (val_get_max_memory 4) (on_memory small_map) 0x80000000 (on_memory small_map).
Proof.
  apply (get_max_memory_adjacent (on_memory small_map) small_map end_of_table 4)
    with (es' := [uart]) (l := dram 0x40000000) (e := dram 0x80000000).
  - by apply on_memory_table.
  - simpl. lia.
  - done.
  - cbn. lia.
  - done.
Defined.
