(* ===== verification/Timer.v ===== *)
(** * Timers, watchdogs and power states

    src/val/src/acs_timer.c, acs_timer_support.c, acs_wd.c and acs_wakeup.c: the
    timer and watchdog tables, the generic timer registers of the running PE, the
    memory-mapped system timers, and arming a watchdog. *)

From S2P Require Import Prelude Types World Status Machine.
#[local] Open Scope c_scope.

(** The [VAL_EXTRACT_BITS] macro, on 64-bit operands. *)
Definition VAL_EXTRACT_BITS (data start end_ : Z) : Z :=
  Z.land (Z.shiftr data start) (Z.shiftl 1 (end_ - start + 1) - 1).

Section timer.
Context {D : Type} `{Platform D}.

#[local] Abbreviation M := (M (world D)).

Definition pal_print (fmt : string) (data : Z) : M () := emit (Event fmt data).

(** ** Generic timer registers (acs_timer_support.c) *)

Definition ArmArchTimerReadReg (Reg : Z) : M Z :=
  let rd (stub : string) : M Z := from_dev (read_sysreg stub) in
  if Reg =? CntFrq then rd "ArmReadCntFrq"
  else if Reg =? CntPct then rd "ArmReadCntPct"
  else if Reg =? CntkCtl then rd "ArmReadCntkCtl"
  else if Reg =? CntpTval then rd "ArmReadCntpTval"
  else if Reg =? CntpCtl then rd "ArmReadCntpCtl"
  else if Reg =? CntvTval then rd "ArmReadCntvTval"
  else if Reg =? CntvCtl then rd "ArmReadCntvCtl"
  else if Reg =? CntvCt then rd "ArmReadCntvCt"
  else if Reg =? CntpCval then rd "ArmReadCntpCval"
  else if Reg =? CntvCval then rd "ArmReadCntvCval"
  else if Reg =? CntvOff then rd "ArmReadCntvOff"
  else if Reg =? CnthpCtl then rd "ArmReadCnthpCtl"
  else if Reg =? CnthpTval then rd "ArmReadCnthpTval"
  else if Reg =? CnthvCtl then rd "ArmReadCnthvCtl"
  else if Reg =? CnthvTval then rd "ArmReadCnthvTval"
  else if (Reg =? CnthCtl) || (Reg =? CnthpCval) then
    pal_print "The register is related to Hypervisor Mode. Can't perform requested operation\n " 0 ;;
    ret 0xFFFFFFFF
  else
    pal_print "Unknown ARM Generic Timer register %x. \n " Reg ;;
    ret 0xFFFFFFFF.

Definition ArmArchTimerWriteReg (Reg data : Z) : M () :=
  let wr (stub : string) : M () := on_dev (write_sysreg stub data) in
  if Reg =? CntPct then pal_print "Can't write to Read Only Register: CNTPCT \n" 0
  else if Reg =? CntkCtl then wr "ArmWriteCntkCtl"
  else if Reg =? CntpTval then wr "ArmWriteCntpTval"
  else if Reg =? CntpCtl then wr "ArmWriteCntpCtl"
  else if Reg =? CntvTval then wr "ArmWriteCntvTval"
  else if Reg =? CntvCtl then wr "ArmWriteCntvCtl"
  else if Reg =? CntvCt then pal_print "Can't write to Read Only Register: CNTVCT \n" 0
  else if Reg =? CntpCval then wr "ArmWriteCntpCval"
  else if Reg =? CntvCval then wr "ArmWriteCntvCval"
  else if Reg =? CntvOff then wr "ArmWriteCntvOff"
  else if Reg =? CnthpTval then wr "ArmWriteCnthpTval"
  else if Reg =? CnthpCtl then wr "ArmWriteCnthpCtl"
  else if Reg =? CnthvTval then wr "ArmWriteCnthvTval"
  else if Reg =? CnthvCtl then wr "ArmWriteCnthvCtl"
  else if (Reg =? CnthCtl) || (Reg =? CnthpCval) then
    pal_print "The register is related to Hypervisor Mode. Can't perform requested operation\n " 0
  else pal_print "Unknown ARM Generic Timer register %x. \n " Reg.

(** ** The running PE's timers (acs_timer.c) *)

Definition ArmGenericTimerEnableTimer (reg : Z) : M () :=
  let* timer_ctrl_reg := ArmArchTimerReadReg reg in
  ArmArchTimerWriteReg reg
    (Z.lor (Z.land timer_ctrl_reg (not64 ARM_ARCH_TIMER_IMASK)) ARM_ARCH_TIMER_ENABLE).

Definition ArmGenericTimerDisableTimer (reg : Z) : M () :=
  let* timer_ctrl_reg := ArmArchTimerReadReg reg in
  ArmArchTimerWriteReg reg
    (Z.land (Z.lor timer_ctrl_reg ARM_ARCH_TIMER_IMASK) (not64 ARM_ARCH_TIMER_ENABLE)).

Definition val_get_phy_el2_timer_count : M Z := ArmArchTimerReadReg CnthpTval.

Definition val_timer_set_phy_el1 (timeout : Z) : M () :=
  if negb (timeout =? 0) then
    ArmGenericTimerDisableTimer CntpCtl ;;
    ArmArchTimerWriteReg CntpTval timeout ;;
    ArmGenericTimerEnableTimer CntpCtl
  else ArmGenericTimerDisableTimer CntpCtl.

Definition val_timer_set_vir_el1 (timeout : Z) : M () :=
  if negb (timeout =? 0) then
    ArmGenericTimerDisableTimer CntvCtl ;;
    ArmArchTimerWriteReg CntvTval timeout ;;
    ArmGenericTimerEnableTimer CntvCtl
  else ArmGenericTimerDisableTimer CntvCtl.

Definition val_timer_set_phy_el2 (timeout : Z) : M () :=
  if negb (timeout =? 0) then
    ArmGenericTimerDisableTimer CnthpCtl ;;
    ArmArchTimerWriteReg CnthpTval timeout ;;
    ArmGenericTimerEnableTimer CnthpCtl
  else ArmGenericTimerDisableTimer CnthpCtl.

Definition val_timer_set_vir_el2 (timeout : Z) : M () :=
  if negb (timeout =? 0) then
    ArmGenericTimerDisableTimer CnthvCtl ;;
    ArmArchTimerWriteReg CnthvTval timeout ;;
    ArmGenericTimerEnableTimer CnthvCtl
  else ArmGenericTimerDisableTimer CnthvCtl.

(** ** The timer table *)

Definition timer_table : M TIMER_INFO_TABLE :=
  let* t := gets g_timer_info_table in need t.

Definition gt_block (b : Z) : M TIMER_INFO_GTBLOCK :=
  let* t := timer_table in need (gt_info t !! Z.to_nat b).

(** Block and index of a system timer; the index is not written on an error. *)
Definition val_platform_timer_get_entry_index (fuel : nat) (instance : Z) : M (Z * option Z) :=
  let* t := timer_table in
  if num_platform_timer (timer_header t) <? instance then ret (0xFFFF, None)
  else
    while_ fuel (fun '(instance, block, index) =>
      let* b := gt_block block in
      if gt_timer_count b <? instance then
        let instance := instance - gt_timer_count b in
        ret (Continue (instance, u32 (block + 1), u32 instance))
      else ret (Break (block, Some index))) (instance, 0, u32 instance).

(** A field of a system timer. A block number of 0xFFFF falls through to the next
    case of the switch: [next]. *)
Definition timer_field (fuel : nat) (instance : Z) (f : TIMER_INFO_GTBLOCK -> Z -> M Z)
    (next : M Z) : M Z :=
  let* ' (block_num, block_index) := val_platform_timer_get_entry_index fuel instance in
  if negb (block_num =? 0xFFFF) then
    let* b := gt_block block_num in
    let* i := need block_index in
    f b i
  else next.

Definition val_timer_get_info (fuel : nat) (info_type instance : Z) : M Z :=
  let* t := gets g_timer_info_table in
  match t with
  | None => ret 0
  | Some t =>
      let h := timer_header t in
      let at_ (l : TIMER_INFO_GTBLOCK -> list Z) (b : TIMER_INFO_GTBLOCK) (i : Z) : M Z :=
        need (l b !! Z.to_nat i) in
      let phy_el1_flags := ret (ns_el1_timer_flag h) in
      let sys_intid := timer_field fuel instance (at_ gt_gsiv) phy_el1_flags in
      let frame_num := timer_field fuel instance (at_ gt_frame_num) sys_intid in
      let cnt_base_n := timer_field fuel instance (at_ gt_GtCntBase) frame_num in
      let cntl_base :=
        timer_field fuel instance (fun b _ => ret (gt_block_cntl_base b)) cnt_base_n in
      let is_secure :=
        timer_field fuel instance (fun b i =>
          let* f := at_ gt_flags b i in ret (Z.land (Z.shiftr f 16) 1)) cntl_base in
      if info_type =? TIMER_INFO_CNTFREQ then ArmArchTimerReadReg CntFrq
      else if info_type =? TIMER_INFO_PHY_EL1_INTID then ret (ns_el1_timer_gsiv h)
      else if info_type =? TIMER_INFO_VIR_EL1_INTID then ret (virtual_timer_gsiv h)
      else if info_type =? TIMER_INFO_PHY_EL2_INTID then ret (el2_timer_gsiv h)
      else if info_type =? TIMER_INFO_VIR_EL2_INTID then ret (el2_virt_timer_gsiv h)
      else if info_type =? TIMER_INFO_NUM_PLATFORM_TIMERS then ret (num_platform_timer h)
      else if info_type =? TIMER_INFO_IS_PLATFORM_TIMER_SECURE then is_secure
      else if info_type =? TIMER_INFO_SYS_CNTL_BASE then cntl_base
      else if info_type =? TIMER_INFO_SYS_CNT_BASE_N then cnt_base_n
      else if info_type =? TIMER_INFO_FRAME_NUM then frame_num
      else if info_type =? TIMER_INFO_SYS_INTID then sys_intid
      else if info_type =? TIMER_INFO_PHY_EL1_FLAGS then phy_el1_flags
      else if info_type =? TIMER_INFO_VIR_EL1_FLAGS then ret (virtual_timer_flag h)
      else if info_type =? TIMER_INFO_PHY_EL2_FLAGS then ret (el2_timer_flag h)
      else if info_type =? TIMER_INFO_SYS_TIMER_STATUS then ret (sys_timer_status h)
      else ret 0
  end.

Definition val_timer_create_info_table `{PalTables D} (timer_info_table : bool) : M () :=
  if negb timer_info_table then
    val_print ACS_PRINT_ERR "Input for Create Info table cannot be NULL \n" 0
  else
    let* t := pal_timer_create_info_table in
    modify (set_g_timer_info_table (Some t)) ;;
    val_timer_set_phy_el1 0 ;;
    let* t := timer_table in
    val_print ACS_PRINT_TEST " TIMER_INFO: Number of system timers  : %4d \n"
      (num_platform_timer (timer_header t)).

(** ** System timers *)

Definition val_timer_set_system_timer (cnt_base_n timeout : Z) : M () :=
  val_mmio_write (u64 (cnt_base_n + CNTP_TVAL)) timeout ;;
  val_mmio_write (u64 (cnt_base_n + CNTP_CTL)) 1.

Definition val_timer_disable_system_timer (cnt_base_n : Z) : M () :=
  val_mmio_write (u64 (cnt_base_n + CNTP_CTL)) 0.

Definition val_timer_skip_if_cntbase_access_not_allowed (fuel : nat) (index : Z) : M Z :=
  let* cnt_ctl_base := val_timer_get_info fuel TIMER_INFO_SYS_CNTL_BASE index in
  let* frame_num := val_timer_get_info fuel TIMER_INFO_FRAME_NUM index in
  let frame_num := u32 frame_num in
  let addr := u64 (cnt_ctl_base + CNTACR + u32 (frame_num * 4)) in
  if truthy cnt_ctl_base then
    let* data := val_mmio_read addr in
    if Z.land data 0x1 =? 0x1 then ret 0
    else
      val_mmio_write addr (Z.lor data 0x1) ;;
      let* data := val_mmio_read addr in
      if Z.land data 0x1 =? 1 then ret 0 else ret ACS_STATUS_SKIP
  else ret ACS_STATUS_SKIP.

Definition val_timer_execute_tests `{TestPool D} (num_pe : Z) (g_sw_view : list Z) : M Z :=
  let* skip := user_skips ACS_TIMER_TEST_NUM_BASE in
  if skip then
    val_print ACS_PRINT_TEST "\n      USER Override - Skipping all Timer tests \n" 0 ;;
    ret ACS_STATUS_SKIP
  else
  let* os := need (g_sw_view !! Z.to_nat G_SW_OS) in
  let* status :=
    if truthy os then
      val_print ACS_PRINT_ERR "\nOperating System:\n" 0 ;;
      run_tests ["os_t001_entry"; "os_t002_entry"; "os_t003_entry"; "os_t004_entry";
                 "os_t005_entry"] num_pe ACS_STATUS_PASS
    else ret ACS_STATUS_PASS in
  (if negb (status =? ACS_STATUS_PASS) then
     val_print ACS_PRINT_TEST "\n      *** One or more tests have Failed/Skipped.*** \n" 0
   else val_print ACS_PRINT_TEST "\n      All Timer tests passed!! \n" 0) ;;
  ret status.

(** ** Watchdogs (acs_wd.c) *)

Definition wd_entry (index : Z) : M WD_INFO_BLOCK :=
  let* t := gets g_wd_info_table in
  let* t := need t in
  need (wd_info t !! Z.to_nat index).

Definition val_wd_get_info (index info_type : Z) : M Z :=
  let* t := gets g_wd_info_table in
  match t with
  | None => ret 0
  | Some t =>
      if info_type =? WD_INFO_COUNT then ret (num_wd t)
      else if info_type =? WD_INFO_CTRL_BASE then
        let* e := wd_entry index in ret (wd_ctrl_base e)
      else if info_type =? WD_INFO_REFRESH_BASE then
        let* e := wd_entry index in ret (wd_refresh_base e)
      else if info_type =? WD_INFO_GSIV then
        let* e := wd_entry index in ret (wd_gsiv e)
      else if info_type =? WD_INFO_ISSECURE then
        let* e := wd_entry index in ret (Z.land (Z.shiftr (wd_flags e) 2) 1)
      else if info_type =? WD_INFO_IS_EDGE then
        let* e := wd_entry index in ret (Z.land (wd_flags e) 1)
      else ret 0
  end.

Definition val_wd_create_info_table `{PalTables D} (wd_info_table : bool) : M () :=
  if negb wd_info_table then
    val_print ACS_PRINT_ERR "Input for Create Info table cannot be NULL \n" 0
  else
    let* t := pal_wd_create_info_table in
    modify (set_g_wd_info_table (Some t)) ;;
    let* n := val_wd_get_info 0 WD_INFO_COUNT in
    val_print ACS_PRINT_TEST " WATCHDOG_INFO: Number of Watchdogs   : %4d \n" n.

Definition val_wd_enable (index : Z) : M () :=
  let* e := wd_entry index in
  val_mmio_write (u64 (wd_ctrl_base e + WD_CS_OFFSET)) 1.

Definition val_wd_disable (index : Z) : M () :=
  let* e := wd_entry index in
  val_mmio_write (u64 (wd_ctrl_base e + WD_CS_OFFSET)) 0.

(** The control base is read into a 32-bit variable for the identification
    register, and taken whole from the table for the others. *)
Definition val_wd_set_ws0 (fuel : nat) (index timeout : Z) : M Z :=
  if timeout =? 0 then
    val_wd_disable index ;;
    ret 0
  else
  let* ctrl_base := val_wd_get_info index WD_INFO_CTRL_BASE in
  let ctrl_base := u32 ctrl_base in
  let* iidr := val_mmio_read (u32 (ctrl_base + WD_IIDR_OFFSET)) in
  let data := VAL_EXTRACT_BITS iidr 16 19 in
  let* counter_freq := val_timer_get_info fuel TIMER_INFO_CNTFREQ 0 in
  let ticks := u64 (counter_freq * timeout) in
  if (data =? 0) && truthy (Z.shiftr ticks 32) then
    val_print ACS_PRINT_ERR "\nCounter frequency value exceeded" 0 ;;
    ret 1
  else
  let wor_l := u32 ticks in
  let wor_h := u32 (Z.shiftr ticks 32) in
  let* e := wd_entry index in
  val_mmio_write (u64 (wd_ctrl_base e + 8)) wor_l ;;
  (when data =? 1 then val_mmio_write (u64 (wd_ctrl_base e + 12)) wor_h) ;;
  val_wd_enable index ;;
  ret 0.

Definition val_wd_execute_tests `{TestPool D} (num_pe : Z) (g_sw_view : list Z) : M Z :=
  let* skip := user_skips ACS_WD_TEST_NUM_BASE in
  if skip then
    val_print ACS_PRINT_TEST "\n      USER Override - Skipping all Watchdog tests \n" 0 ;;
    ret ACS_STATUS_SKIP
  else
  let* os := need (g_sw_view !! Z.to_nat G_SW_OS) in
  let* status :=
    if truthy os then
      val_print ACS_PRINT_ERR "\nOperating System:\n" 0 ;;
      run_tests ["os_w001_entry"; "os_w002_entry"] num_pe ACS_STATUS_PASS
    else ret ACS_STATUS_PASS in
  (if negb (status =? ACS_STATUS_PASS) then
     val_print ACS_PRINT_TEST "\n      *** One or more tests have Failed/Skipped.*** \n" 0
   else val_print ACS_PRINT_TEST "\n      All Watchdog tests passed!! \n" 0) ;;
  ret status.

(** ** Power states (acs_wakeup.c) *)

(** Arguments 4 to 7 are uninitialised; the call takes four. *)
Definition val_suspend_pe (power_state entry context_id : Z) : M () :=
  pal_pe_call_smc (mkSmc ARM_SMC_ID_PSCI_CPU_SUSPEND_AARCH64 power_state entry context_id
                     0 0 0 0) ;;
  ret tt.

Definition val_wakeup_execute_tests `{TestPool D} (num_pe : Z) (g_sw_view : list Z) : M Z :=
  let* skip := user_skips ACS_WAKEUP_TEST_NUM_BASE in
  if skip then
    val_print ACS_PRINT_TEST "\n      USER Override - Skipping all Wakeup tests \n" 0 ;;
    ret ACS_STATUS_SKIP
  else
  let* os := need (g_sw_view !! Z.to_nat G_SW_OS) in
  let* status :=
    if truthy os then
      val_print ACS_PRINT_ERR "\nOperating System:\n" 0 ;;
      run_tests ["os_u001_entry"] num_pe ACS_STATUS_PASS
    else ret ACS_STATUS_PASS in
  (if negb (status =? ACS_STATUS_PASS) then
     val_print ACS_PRINT_TEST "\n      *** One or more tests have Failed/Skipped.*** \n" 0
   else val_print ACS_PRINT_TEST "\n      All Wakeup tests passed!! \n" 0) ;;
  ret status.

(** ** Finding a system timer *)

(** The timers of the blocks before number [b]. *)
Fixpoint timers_before (bs : list TIMER_INFO_GTBLOCK) (b : nat) {struct b} : Z :=
  match b with
  | O => 0
  | S b => match bs with [] => 0 | x :: bs => gt_timer_count x + timers_before bs b end
  end.

Lemma timers_before_S bs b x :
  bs !! b = Some x -> timers_before bs (S b) = timers_before bs b + gt_timer_count x.
Proof.
  revert bs. induction b as [|b IH]; intros [|y bs] Hx; try done; cbn in Hx.
  - injection Hx as ->. cbn. lia.
  - cbn [timers_before]. rewrite <- Z.add_assoc. f_equal. by apply (IH bs).
Qed.

(** Locating system timer number [instance], counting from 0, when the blocks
    hold at least that many timers: the search ends, in block [b] at index [i] with
    [instance = i + ] the number of timers of the blocks before [b] - but [i] may be
    the number of timers of block [b], one past its last timer: the search stops at
    a block as soon as [instance] does not exceed its count. *)
Theorem platform_timer_index_found w t fuel instance :
  g_timer_info_table w = Some t ->
  Forall (fun b => 0 <= gt_timer_count b) (gt_info t) ->
  0 <= instance <= num_platform_timer (timer_header t) ->
  instance <= timers_before (gt_info t) (length (gt_info t)) ->
  fits 32 instance -> Z.of_nat (length (gt_info t)) < 2 ^ 32 ->
  (0 < length (gt_info t) <= fuel)%nat ->
  exists b i x, gt_info t !! b = Some x /\
    eval (val_platform_timer_get_entry_index fuel instance) w (Z.of_nat b, Some i) w /\
    instance = timers_before (gt_info t) b + i /\ 0 <= i <= gt_timer_count x /\
    (b = 0%nat \/ 0 < i).
Proof.
  intros Ht Hc Hn Htot Hfit Hlen Hf. set (bs := gt_info t) in *.
  enough (G : wp (val_platform_timer_get_entry_index fuel instance) w (fun r s => s = w /\
    exists b i x, bs !! b = Some x /\ r = (Z.of_nat b, Some i) /\
      instance = timers_before bs b + i /\ 0 <= i <= gt_timer_count x /\ (b = 0%nat \/ 0 < i))).
  { unfold wp in G. unfold eval, wp.
    destruct (val_platform_timer_get_entry_index fuel instance w) as [r s o| |]; [|done..].
    destruct G as (-> & b & i & x & H1 & -> & H2). by exists b, i, x. }
  unfold val_platform_timer_get_entry_index. eapply wp_bind, wp_eval.
  { eapply eval_bind; [by apply eval_gets|]. by apply eval_need. }
  rewrite (proj2 (Z.ltb_ge _ _)) by lia.
  apply (wp_while
    (fun '(rest, block, index) s => s = w /\ exists b : nat, block = Z.of_nat b /\ index = rest /\
       (b < length bs)%nat /\ instance = timers_before bs b + rest /\ 0 <= rest <= instance /\
       (b = 0%nat \/ 0 < rest))
    (fun '(_, block, _) _ => (length bs - 1 - Z.to_nat block)%nat)).
  - split; [done|]. exists 0%nat. rewrite u32_id by done. cbn [timers_before].
    repeat split; lia.
  - change (Z.to_nat 0) with 0%nat. lia.
  - intros [[rest block] index] s (-> & b & -> & -> & Hb & Hi & Hr & Hpos).
    destruct (lookup_lt_is_Some_2 bs b Hb) as [x Hx].
    pose proof (timers_before_S bs b x Hx) as HS.
    assert (Hcx : 0 <= gt_timer_count x) by (rewrite Forall_lookup in Hc; by apply (Hc b)).
    eapply wp_bind, wp_eval.
    { eapply eval_bind.
      - eapply eval_bind; [by apply eval_gets|]. by apply eval_need.
      - apply eval_need. by rewrite Nat2Z.id. }
    cbv beta. destruct (Z.ltb_spec (gt_timer_count x) rest) as [Hlt|Hge]; wp_step.
    + assert (Hnext : (S b < length bs)%nat).
      { apply Nat.le_neq. split; [lia|]. intros E. rewrite <- E in Htot. lia. }
      rewrite !u32_id by (unfold fits in *; pow2; lia). split.
      * split; [done|]. exists (S b). repeat split; try lia.
      * lia.
    + split; [done|]. exists b, rest, x. repeat split; (done || lia).
Qed.

(** The queries on a system timer that does not exist fall through to the next
    case of the switch, down to the flags of the physical timer: asked for the
    security, the control base, the frame base, the frame number or the interrupt
    of a timer beyond the last one, [val_timer_get_info] gives those flags. *)
Theorem timer_info_falls_through w t fuel instance info_type :
  g_timer_info_table w = Some t -> num_platform_timer (timer_header t) < instance ->
  info_type ∈ [TIMER_INFO_IS_PLATFORM_TIMER_SECURE; TIMER_INFO_SYS_CNTL_BASE;
               TIMER_INFO_SYS_CNT_BASE_N; TIMER_INFO_FRAME_NUM; TIMER_INFO_SYS_INTID] ->
  eval (val_timer_get_info fuel info_type instance) w (ns_el1_timer_flag (timer_header t)) w.
Proof.
  intros Ht Hn Hty. unfold val_timer_get_info. eapply eval_bind; [by apply eval_gets|]. cbv beta iota zeta.
  assert (Hfall : forall f next r, eval next w r w -> eval (timer_field fuel instance f next) w r w).
  { intros f next r Hr. unfold timer_field.
    apply (eval_bind _ _ w (0xFFFF, None) w); [|exact Hr].
    unfold val_platform_timer_get_entry_index. eapply eval_bind.
    - eapply eval_bind; [by apply eval_gets|]. by apply eval_need.
    - rewrite (proj2 (Z.ltb_lt _ _) Hn). apply eval_ret. }
  assert (Hflag : eval (ret (ns_el1_timer_flag (timer_header t))) w
                    (ns_el1_timer_flag (timer_header t)) w) by apply eval_ret.
  repeat (apply elem_of_cons in Hty as [->|Hty];
    [cbn [Z.eqb Pos.eqb]; repeat apply Hfall; exact Hflag|]).
  by apply elem_of_nil in Hty.
Qed.

(** ** Arming a watchdog *)

Lemma eval_wd_entry w t index e :
  g_wd_info_table w = Some t -> wd_info t !! Z.to_nat index = Some e -> eval (wd_entry index) w e w.
Proof.
  intros Ht He. eapply eval_bind; [by apply eval_gets|]. eapply eval_bind; [by apply eval_need|].
  by apply eval_need.
Qed.

Lemma wp_entry_then w t index e {A} (k : WD_INFO_BLOCK -> M A) (Q : A -> world D -> Prop) :
  g_wd_info_table w = Some t -> wd_info t !! Z.to_nat index = Some e ->
  wp (k e) w Q -> wp (let* e := wd_entry index in k e) w Q.
Proof. intros Ht He Hk. eapply wp_bind, wp_eval; [by eapply eval_wd_entry|done]. Qed.

(** The test of the high half of the ticks. *)
Lemma high_half ticks : fits 64 ticks ->
  truthy (Z.shiftr ticks 32) = (2 ^ 32 <=? ticks) /\ u32 (Z.shiftr ticks 32) = ticks / 2 ^ 32.
Proof.
  intros Hfit. rewrite Z.shiftr_div_pow2 by done. split.
  - unfold truthy. destruct (Z.leb_spec (2 ^ 32) ticks) as [Hge|Hlt].
    + apply negb_true_iff, Z.eqb_neq. unfold fits in Hfit. divmod.
    + apply negb_false_iff, Z.eqb_eq. unfold fits in Hfit. divmod.
  - apply u32_id. unfold fits in *. divmod.
Qed.

Lemma u32_add_l a b : u32 (u32 a + b) = u32 (a + b).
Proof. unfold u32. by rewrite Zplus_mod_idemp_l. Qed.

(** C20: arming a watchdog, for any address of its control frame. [timeout] is a number of
    seconds: the ticks are the counter frequency times [timeout], on 64 bits. The revision is
    read from the identification register at the address of the frame cut to 32 bits, which
    is not that of the watchdog when the frame lies above 4 GiB. On revision 0, a number of
    ticks that needs more than 32 bits writes nothing and returns 1; otherwise the low half is
    written to the offset register, on revision 1 the high half to the one above it, then the
    watchdog is enabled, in this order, at the whole address. *)
Theorem wd_set_ws0_programs w t tw e fuel index timeout :
  g_timer_info_table w = Some t -> g_wd_info_table w = Some tw ->
  wd_info tw !! Z.to_nat index = Some e -> timeout <> 0 ->
  let base := wd_ctrl_base e in
  0 <= base -> base + 0x1000 <= 2 ^ 64 -> base mod 4 = 0 ->
  let iidr := dev_read 4 (u32 (base + WD_IIDR_OFFSET)) (dev w) in
  let freq := read_sysreg "ArmReadCntFrq" (snd iidr) in
  let rev := u32 (fst iidr) / 2 ^ 16 mod 2 ^ 4 in
  let ticks := u64 (fst freq * timeout) in
  let d := snd freq in
  if (rev =? 0) && (2 ^ 32 <=? ticks) then
    eval (val_wd_set_ws0 fuel index timeout) w 1 (set_dev d w)
  else
    let d1 := dev_write 4 (base + 8) (ticks mod 2 ^ 32) d in
    let d2 := if rev =? 1 then dev_write 4 (base + 12) (ticks / 2 ^ 32) d1 else d1 in
    eval (val_wd_set_ws0 fuel index timeout) w 0 (set_dev (dev_write 4 base 1 d2) w).
Proof.
  intros Ht Hw He Hnz base Hb0 Hb1 Hal iidr freq rev ticks d.
  enough (G : wp (val_wd_set_ws0 fuel index timeout) w (fun r s =>
    if (rev =? 0) && (2 ^ 32 <=? ticks) then r = 1 /\ s = set_dev d w
    else r = 0 /\ s = set_dev (dev_write 4 base 1 (if rev =? 1
      then dev_write 4 (base + 12) (ticks / 2 ^ 32) (dev_write 4 (base + 8) (ticks mod 2 ^ 32) d)
      else dev_write 4 (base + 8) (ticks mod 2 ^ 32) d)) w)) by (by case_match).
  unfold val_wd_set_ws0. rewrite (proj2 (Z.eqb_neq timeout 0) Hnz).
  wp_step. unfold val_wd_get_info at 1. wp_step. wp_step. rewrite Hw. cbv beta iota.
  change (WD_INFO_CTRL_BASE =? WD_INFO_COUNT) with false.
  change (WD_INFO_CTRL_BASE =? WD_INFO_CTRL_BASE) with true. cbv iota.
  eapply wp_entry_then; [exact Hw|exact He|]. wp_step. cbv beta zeta. fold base.
  rewrite u32_add_l. wp_step. apply wp_mmio_read.
  { change 3 with (Z.ones 2). rewrite Z.land_ones by done. unfold u32, WD_IIDR_OFFSET. divmod. }
  fold iidr. wp_step. unfold val_timer_get_info. wp_step. wp_step. cbv beta.
  change (g_timer_info_table (set_dev (snd iidr) w)) with (g_timer_info_table w). rewrite Ht.
  cbv beta iota zeta. change (TIMER_INFO_CNTFREQ =? TIMER_INFO_CNTFREQ) with true. cbv iota.
  unfold ArmArchTimerReadReg. change (CntFrq =? CntFrq) with true. cbv beta iota zeta.
  apply wp_from_dev. change (dev (set_dev (snd iidr) w)) with (snd iidr). fold freq. fold d. fold ticks.
  assert (Erev : VAL_EXTRACT_BITS (u32 (fst iidr)) 16 19 = rev).
  { unfold VAL_EXTRACT_BITS. change (Z.shiftl 1 (19 - 16 + 1) - 1) with (Z.ones 4).
    by rewrite Z.land_ones, Z.shiftr_div_pow2 by done. }
  rewrite Erev. destruct (high_half ticks) as [Ehi Hhi]; [apply fits_u64|].
  rewrite Ehi. destruct ((rev =? 0) && (2 ^ 32 <=? ticks)).
  - wp_step. apply wp_val_print. by wp_step.
  - rewrite Hhi. eapply wp_entry_then; [exact Hw|exact He|]. fold base.
    rewrite !(u64_id (base + _)) by (unfold fits; pow2; lia).
    wp_step. apply wp_mmio_write. rewrite (u32_id (u32 ticks)) by apply fits_u32.
    wp_step. unfold val_wd_enable, WD_CS_OFFSET.
    destruct (rev =? 1).
    + apply wp_mmio_write. wp_step.
      eapply wp_entry_then; [exact Hw|exact He|]. fold base. rewrite Z.add_0_r, (u64_id base) by (unfold fits; pow2; lia).
      apply wp_mmio_write. wp_step. rewrite <- Hhi, (u32_id (u32 _)) by apply fits_u32. by rewrite Hhi.
    + wp_step. wp_step. eapply wp_entry_then; [exact Hw|exact He|]. fold base.
      rewrite Z.add_0_r, (u64_id base) by (unfold fits; pow2; lia).
      apply wp_mmio_write. wp_step. done.
Qed.
End timer.

(** ** Concrete inputs *)

(** Two blocks of two timers, and a watchdog of revision 1. *)
Definition two_timers : TIMER_INFO_GTBLOCK :=
  mkGt 0 2 0x2a810000 [0; 1] [0x2a820000; 0x2a830000] [0; 0] [60; 61] [0; 0] [0; 0].
Definition four_timers : TIMER_INFO_TABLE :=
  mkTimerTable (mkTimerHdr 0 2 2 2 29 30 26 2 27 28 4 1 1) [two_timers; two_timers].
Definition one_wd : WD_INFO_TABLE := mkWdTable 1 [mkWd 0x2a440000 0x2a450000 59 0].
Definition on_timers : world machine :=
  set_g_wd_info_table (Some one_wd) (set_g_timer_info_table (Some four_timers)
    (boot {[0x2a440fcc := 0x10000]} {["ArmReadCntFrq"%string := 0x3b9aca00]})).

(** Timer 2 is the first of the second block, but is located one past the end of
    the first. *)
Lemma platform_timer_index_found_witness :
  exists b i x, gt_info four_timers !! b = Some x /\
    eval (val_platform_timer_get_entry_index 2 2) on_timers (Z.of_nat b, Some i) on_timers /\
    2 = timers_before (gt_info four_timers) b + i /\ 0 <= i <= gt_timer_count x /\
    (b = 0%nat \/ 0 < i).
Proof.
  apply (platform_timer_index_found on_timers four_timers 2 2); try done; try (simpl; lia).
  by repeat constructor.
Defined.

Lemma timer_info_falls_through_witness :
  eval (val_timer_get_info 2 TIMER_INFO_SYS_INTID 5) on_timers
    (ns_el1_timer_flag (timer_header four_timers)) on_timers.
Proof.
  apply (timer_info_falls_through on_timers four_timers 2 5 TIMER_INFO_SYS_INTID); try done.
  do 4 right. left.
Defined.

(** Ten seconds at 1 GHz need more than 32 bits. *)
Lemma wd_set_ws0_programs_witness :
  eval (val_wd_set_ws0 2 0 10) on_timers 0
    (set_dev (dev_write 4 0x2a440000 1 (dev_write 4 0x2a44000c 2
      (dev_write 4 0x2a440008 0x540be400 (dev on_timers)))) on_timers).
Proof.
  pose proof (wd_set_ws0_programs on_timers four_timers one_wd (mkWd 0x2a440000 0x2a450000 59 0)
    2 0 10 eq_refl eq_refl eq_refl ltac:(done) ltac:(done) ltac:(done) eq_refl) as P.
  vm_compute in P |- *. exact P.
Defined.
