(* ===== verification/Peripherals.v ===== *)
(** * Peripherals, DMA controllers and exerciser cards

    src/val/src/acs_peripherals.c, acs_dma.c and acs_exerciser.c: three tables and
    the queries on them, and bringing an exerciser card up. *)

From S2P Require Import Prelude Types World Status Machine Pcie PcieTable.
#[local] Open Scope c_scope.

(** Register [offset] of a function, as an exerciser card is asked for it. *)
Record ecam_reg_data := mkEcamReg { reg_offset : Z; reg_attribute : Z; reg_value : Z }.

(** [exerciser_data_t] *)
Inductive exerciser_data_t :=
  | cfg_space_data (reg : list ecam_reg_data)
  | bar_space_data (base_addr type : Z).

(** The platform layer's operations on exerciser cards; a value written through a pointer
    is returned next to the status, [None] when it is left alone. *)
Class PalExerciser (D : Type) := {
  pal_is_bdf_exerciser : Z -> M (world D) bool;
  pal_exerciser_get_state : Z -> M (world D) (Z * Z);
  pal_exerciser_set_param : Z -> Z -> Z -> Z -> M (world D) Z;
  pal_exerciser_get_param : Z -> Z -> M (world D) (Z * option Z * option Z);
  pal_exerciser_set_state : Z -> Z -> Z -> M (world D) Z;
  pal_exerciser_ops : Z -> Z -> Z -> M (world D) Z;
  pal_exerciser_get_data : Z -> Z -> Z -> M (world D) (Z * option exerciser_data_t)
}.

(** Its operations on DMA ports. *)
Class PalDma (D : Type) := {
  pal_dma_start_from_device : Z -> Z -> Z -> Z -> D -> D;
  pal_dma_start_to_device : Z -> Z -> Z -> Z -> Z -> D -> D
}.

Section peripherals.
Context {D : Type} `{Platform D}.

#[local] Abbreviation M := (M (world D)).

(** ** Peripherals (acs_peripherals.c): the table ends with an entry of type 0xFF *)

Definition per_entry (i : Z) : M PERIPHERAL_INFO_BLOCK :=
  let* t := gets g_peripheral_info_table in
  let* t := need t in
  need (per_info t !! Z.to_nat i).

Definition val_peripheral_get_entry_index (fuel : nat) (type instance : Z) : M Z :=
  while_ fuel (fun '(i, instance) =>
    let* e := per_entry i in
    if negb (per_type e =? 0xFF) then
      if (type =? PERIPHERAL_TYPE_NONE) || (per_type e =? type) then
        if instance =? 0 then ret (Break i)
        else ret (Continue (i + 1, instance - 1))
      else ret (Continue (i + 1, instance))
    else ret (Break 0xFFFF)) (0, instance).

Definition val_peripheral_get_info (fuel : nat) (info_type instance : Z) : M Z :=
  let* t := gets g_peripheral_info_table in
  match t with
  | None => ret 0
  | Some t =>
      let h := per_header t in
      let field (type : Z) (f : PERIPHERAL_INFO_BLOCK -> Z) : M Z :=
        let* i := val_peripheral_get_entry_index fuel type instance in
        if negb (i =? 0xFFFF) then let* e := per_entry i in ret (f e) else ret 0 in
      if info_type =? NUM_USB then ret (num_usb h)
      else if info_type =? NUM_SATA then ret (num_sata h)
      else if info_type =? NUM_UART then ret (num_uart h)
      else if info_type =? NUM_ALL then ret (num_all h)
      else if info_type =? USB_BASE0 then field PERIPHERAL_TYPE_USB per_base0
      else if info_type =? USB_FLAGS then field PERIPHERAL_TYPE_USB per_flags
      else if info_type =? USB_GSIV then field PERIPHERAL_TYPE_USB per_irq
      else if info_type =? USB_BDF then field PERIPHERAL_TYPE_USB per_bdf
      else if info_type =? SATA_BASE0 then field PERIPHERAL_TYPE_SATA per_base0
      else if info_type =? SATA_BASE1 then field PERIPHERAL_TYPE_SATA per_base1
      else if info_type =? SATA_FLAGS then field PERIPHERAL_TYPE_SATA per_flags
      else if info_type =? SATA_BDF then field PERIPHERAL_TYPE_SATA per_bdf
      else if info_type =? SATA_GSIV then field PERIPHERAL_TYPE_SATA per_irq
      else if info_type =? UART_BASE0 then field PERIPHERAL_TYPE_UART per_base0
      else if info_type =? UART_GSIV then field PERIPHERAL_TYPE_UART per_irq
      else if info_type =? UART_FLAGS then field PERIPHERAL_TYPE_UART per_flags
      else if info_type =? ANY_FLAGS then field PERIPHERAL_TYPE_NONE per_flags
      else if info_type =? ANY_GSIV then field PERIPHERAL_TYPE_NONE per_irq
      else if info_type =? ANY_BDF then field PERIPHERAL_TYPE_NONE per_bdf
      else if info_type =? MAX_PASIDS then field PERIPHERAL_TYPE_NONE per_max_pasids
      else ret 0
  end.

Definition val_peripheral_create_info_table `{PalTables D} (fuel : nat) : M () :=
  let* t := pal_peripheral_create_info_table in
  modify (set_g_peripheral_info_table (Some t)) ;;
  let* n := val_peripheral_get_info fuel NUM_USB 0 in
  val_print ACS_PRINT_TEST " Peripheral: Num of USB controllers   :    %d \n" n ;;
  let* n := val_peripheral_get_info fuel NUM_SATA 0 in
  val_print ACS_PRINT_TEST " Peripheral: Num of SATA controllers  :    %d \n" n ;;
  let* n := val_peripheral_get_info fuel NUM_UART 0 in
  val_print ACS_PRINT_TEST " Peripheral: Num of UART controllers  :    %d \n" n.

Definition val_peripheral_execute_tests `{TestPool D} (num_pe : Z) (g_sw_view : list Z) : M Z :=
  let* skip := user_skips ACS_PER_TEST_NUM_BASE in
  if skip then
    val_print ACS_PRINT_TEST "\n      USER Override - Skipping all Peripheral tests \n" 0 ;;
    ret ACS_STATUS_SKIP
  else
  let* os := need (g_sw_view !! Z.to_nat G_SW_OS) in
  let* status :=
    if truthy os then
      val_print ACS_PRINT_ERR "\nOperating System:\n" 0 ;;
      run_tests ["os_d001_entry"; "os_d002_entry"; "os_d003_entry"] num_pe ACS_STATUS_PASS
    else ret ACS_STATUS_PASS in
  (if negb (status =? ACS_STATUS_PASS) then
     val_print ACS_PRINT_TEST "\n      *** One or more tests have Failed/Skipped.*** \n" 0
   else val_print ACS_PRINT_TEST "\n      All Peripheral tests passed!! \n" 0) ;;
  ret status.

(** ** DMA controllers (acs_dma.c) *)

Definition val_dma_get_info (type index : Z) : M Z :=
  let* t := gets g_dma_info_table in
  match t with
  | None =>
      val_print ACS_PRINT_ERR "GET_DMA_INFO: DMA info table is not created \n" 0 ;;
      ret 0
  | Some t =>
      if num_dma_ctrls t <? index then
        val_print ACS_PRINT_ERR "GET_DMA_INFO: Index (%d) is greater than num of DMA \n" index ;;
        ret 0
      else
      let field (f : DMA_INFO_BLOCK -> Z) : M Z :=
        let* e := need (dma_info t !! Z.to_nat index) in ret (f e) in
      if type =? DMA_NUM_CTRL then ret (num_dma_ctrls t)
      else if type =? DMA_HOST_INFO then field dma_host
      else if type =? DMA_PORT_INFO then field dma_port
      else if type =? DMA_TARGET_INFO then field dma_target
      else if type =? DMA_HOST_COHERENT then field (fun e => Z.land (dma_flags e) DMA_COHERENT_MASK)
      else if type =? DMA_HOST_IOMMU_ATTACHED then
        field (fun e => Z.land (dma_flags e) IOMMU_ATTACHED_MASK)
      else if type =? DMA_HOST_PCI then field (fun e => Z.land (dma_flags e) PCI_EP_MASK)
      else
        val_print ACS_PRINT_ERR "This DMA info option not supported %d \n" type ;;
        ret 0
  end.

Definition val_dma_create_info_table `{PalTables D} : M () :=
  let* t := pal_dma_create_info_table in
  modify (set_g_dma_info_table (Some t)) ;;
  let* n := val_dma_get_info DMA_NUM_CTRL 0 in
  val_print ACS_PRINT_TEST " DMA_INFO: Number of DMA CTRL in PCIe :    %x \n" n.

Definition val_dma_start_from_device `{PalDma D} (buffer length ctrl_index : Z) : M Z :=
  let* host := val_dma_get_info DMA_HOST_INFO ctrl_index in
  let* target := val_dma_get_info DMA_TARGET_INFO ctrl_index in
  on_dev (pal_dma_start_from_device buffer length host target) ;;
  ret 0.

Definition val_dma_start_to_device `{PalDma D} (buffer length ctrl_index : Z) : M Z :=
  let* host := val_dma_get_info DMA_HOST_INFO ctrl_index in
  let* target := val_dma_get_info DMA_TARGET_INFO ctrl_index in
  on_dev (pal_dma_start_to_device buffer length host target 10000) ;;
  ret 0.

(** ** Exerciser cards (acs_exerciser.c) *)

(** The array has room for [MAX_EXERCISER_CARDS] cards. *)
Definition exerciser_add (bdf : Z) : M () :=
  let* t := gets g_exercier_info_table in
  if num_exerciser t <? MAX_EXERCISER_CARDS then
    modify (set_g_exercier_info_table (mkExerciserTable (num_exerciser t + 1)
      (take (Z.to_nat (num_exerciser t)) (e_info t) ++ [mkExerciser bdf 0])))
  else fault.

(** From the last function of the table down to the first. *)
Fixpoint collect_exercisers `{PalExerciser D} (t : pcie_device_bdf_table) (num_bdf : nat) : M bool :=
  match num_bdf with
  | O => ret true
  | S n =>
      let* e := table_entry t (Z.of_nat n) in
      let* ' (st, _) := val_pcie_read_cfg (d_bdf e) TYPE01_VIDR in
      if st =? PCIE_NO_MAPPING then
        val_print ACS_PRINT_ERR "\n      BDF 0x%x mapping issue" (d_bdf e) ;;
        ret false
      else
        let* found := pal_is_bdf_exerciser (d_bdf e) in
        (when found then
           (exerciser_add (d_bdf e) ;;
            val_print ACS_PRINT_DEBUG "    exerciser Bdf %x\n" (d_bdf e))) ;;
        collect_exercisers t n
  end.

Definition val_exerciser_create_info_table `{PalExerciser D} : M () :=
  let* t := val_pcie_bdf_table_ptr in
  if bdf_entries t =? 0 then
    val_print ACS_PRINT_DEBUG "\n       No BDFs discovered            " 0
  else
    let* ok := collect_exercisers t (Z.to_nat (bdf_entries t)) in
    when ok then
      let* t := gets g_exercier_info_table in
      val_print ACS_PRINT_DEBUG "    exerciser cards in the system %x \n" (num_exerciser t).

Definition val_exerciser_get_info (type instance : Z) : M Z :=
  let* t := gets g_exercier_info_table in
  ret (if type =? EXERCISER_NUM_CARDS then num_exerciser t else 0).

Definition exerciser_entry (instance : Z) : M EXERCISER_INFO_BLOCK :=
  let* t := gets g_exercier_info_table in
  need (e_info t !! Z.to_nat instance).

Definition val_exerciser_get_bdf (instance : Z) : M Z :=
  let* e := exerciser_entry instance in ret (e_bdf e).

Definition val_exerciser_set_param `{PalExerciser D} (type value1 value2 instance : Z) : M Z :=
  let* e := exerciser_entry instance in
  pal_exerciser_set_param type value1 value2 (e_bdf e).

Definition val_exerciser_get_param `{PalExerciser D} (type instance : Z) : M (Z * option Z * option Z) :=
  let* e := exerciser_entry instance in
  pal_exerciser_get_param type (e_bdf e).

Definition val_exerciser_set_state `{PalExerciser D} (state value instance : Z) : M Z :=
  let* e := exerciser_entry instance in
  pal_exerciser_set_state state value (e_bdf e).

Definition val_exerciser_get_state `{PalExerciser D} (instance : Z) : M (Z * Z) :=
  let* e := exerciser_entry instance in
  pal_exerciser_get_state (e_bdf e).

Definition val_exerciser_ops `{PalExerciser D} (ops param instance : Z) : M Z :=
  let* e := exerciser_entry instance in
  pal_exerciser_ops ops param (e_bdf e).

Definition val_exerciser_get_data `{PalExerciser D} (fuel : nat) (type instance : Z)
  : M (Z * option exerciser_data_t) :=
  let* e := exerciser_entry instance in
  let* ecam := val_pcie_get_ecam_base fuel (e_bdf e) in
  pal_exerciser_get_data type (e_bdf e) ecam.

(** [Ecam] is a [uint32_t]: the base of the region is cut to 32 bits. *)
Definition val_exerciser_init `{PalExerciser D} (fuel : nat) (instance : Z) : M Z :=
  let* e := exerciser_entry instance in
  if negb (truthy (e_initialized e)) then
    let Bdf := e_bdf e in
    let* ' (st, state) := pal_exerciser_get_state Bdf in
    if truthy st || negb (state =? EXERCISER_ON) then
      val_print ACS_PRINT_ERR "\n   Exerciser Bdf %lx not ready" Bdf ;;
      ret 1
    else
    let* base := val_pcie_get_ecam_base fuel Bdf in
    let Ecam := u32 base in
    let cfg := cfg_addr (PCIE_EXTRACT_BDF_BUS Bdf) (PCIE_EXTRACT_BDF_DEV Bdf)
                 (PCIE_EXTRACT_BDF_FUNC Bdf) in
    let addr := u64 (Ecam + cfg + COMMAND_REG_OFFSET) in
    let* v := pal_mmio_read addr in
    pal_mmio_write addr (Z.lor v BUS_MEM_EN_MASK) ;;
    let* t := gets g_exercier_info_table in
    modify (set_g_exercier_info_table (mkExerciserTable (num_exerciser t)
      (<[Z.to_nat instance := mkExerciser Bdf 1]> (e_info t)))) ;;
    ret 0
  else
    val_print ACS_PRINT_DEBUG "\n  Already initialized %d" instance ;;
    ret 0.

Definition val_exerciser_execute_tests `{TestPool D} `{PalExerciser D} (fuel : nat)
    (g_sw_view : list Z) : M Z :=
  let* skip := user_skips ACS_EXERCISER_TEST_NUM_BASE in
  if skip then
    val_print ACS_PRINT_TEST "\n      USER Override - Skipping all Exerciser tests \n" 0 ;;
    ret ACS_STATUS_SKIP
  else
  let* r := val_pcie_create_device_bdf_table fuel in
  if truthy r then
    val_print ACS_PRINT_WARN "\n     Create BDF Table Failed, Skipping Exerciser tests...\n" 0 ;;
    ret ACS_STATUS_SKIP
  else
  val_exerciser_create_info_table ;;
  let* num_instances := val_exerciser_get_info EXERCISER_NUM_CARDS 0 in
  if num_instances =? 0 then
    val_print ACS_PRINT_WARN "\n     No Exerciser Devices Found, Skipping tests...\n" 0 ;;
    ret ACS_STATUS_SKIP
  else
  let* os := need (g_sw_view !! Z.to_nat G_SW_OS) in
  let* status :=
    if truthy os then
      val_print ACS_PRINT_ERR "\nOperating System:\n" 0 ;;
      (* these entry points take no argument *)
      run_tests ["os_e001_entry"; "os_e004_entry"; "os_e005_entry"; "os_e006_entry";
                 "os_e012_entry"; "os_e013_entry"; "os_e015_entry"] 0 ACS_STATUS_PASS
    else ret ACS_STATUS_PASS in
  (if negb (status =? ACS_STATUS_PASS) then
     val_print ACS_PRINT_TEST "\n      *** One or more tests have Failed/Skipped.*** \n" 0
   else val_print ACS_PRINT_TEST "\n      All Exerciser tests passed!! \n" 0) ;;
  ret status.

(** ** What the peripheral table answers *)

(** The queries that look at an entry: the type of entry they want, and the column. *)
Definition per_column (info_type : Z) : option (Z * (PERIPHERAL_INFO_BLOCK -> Z)) :=
  if info_type =? USB_BASE0 then Some (PERIPHERAL_TYPE_USB, per_base0)
  else if info_type =? USB_FLAGS then Some (PERIPHERAL_TYPE_USB, per_flags)
  else if info_type =? USB_GSIV then Some (PERIPHERAL_TYPE_USB, per_irq)
  else if info_type =? USB_BDF then Some (PERIPHERAL_TYPE_USB, per_bdf)
  else if info_type =? SATA_BASE0 then Some (PERIPHERAL_TYPE_SATA, per_base0)
  else if info_type =? SATA_BASE1 then Some (PERIPHERAL_TYPE_SATA, per_base1)
  else if info_type =? SATA_FLAGS then Some (PERIPHERAL_TYPE_SATA, per_flags)
  else if info_type =? SATA_BDF then Some (PERIPHERAL_TYPE_SATA, per_bdf)
  else if info_type =? SATA_GSIV then Some (PERIPHERAL_TYPE_SATA, per_irq)
  else if info_type =? UART_BASE0 then Some (PERIPHERAL_TYPE_UART, per_base0)
  else if info_type =? UART_GSIV then Some (PERIPHERAL_TYPE_UART, per_irq)
  else if info_type =? UART_FLAGS then Some (PERIPHERAL_TYPE_UART, per_flags)
  else if info_type =? ANY_FLAGS then Some (PERIPHERAL_TYPE_NONE, per_flags)
  else if info_type =? ANY_GSIV then Some (PERIPHERAL_TYPE_NONE, per_irq)
  else if info_type =? ANY_BDF then Some (PERIPHERAL_TYPE_NONE, per_bdf)
  else if info_type =? MAX_PASIDS then Some (PERIPHERAL_TYPE_NONE, per_max_pasids)
  else None.

Definition per_last (e : PERIPHERAL_INFO_BLOCK) : bool := per_type e =? 0xFF.

Definition of_type (type : Z) (e : PERIPHERAL_INFO_BLOCK) : bool :=
  (type =? PERIPHERAL_TYPE_NONE) || (per_type e =? type).

(** The table is the entries [es], the terminator [x], and whatever follows. *)
Definition peripheral_table (w : world D) (es : list PERIPHERAL_INFO_BLOCK)
    (x : PERIPHERAL_INFO_BLOCK) : Prop :=
  exists t rest, g_peripheral_info_table w = Some t /\ per_info t = (es ++ [x]) ++ rest /\
    forallb (fun e => negb (per_last e)) es = true /\ per_last x = true.

Lemma eval_per_entry w es x k e :
  peripheral_table w es x -> (es ++ [x]) !! k = Some e -> eval (per_entry (Z.of_nat k)) w e w.
Proof.
  intros (t & rest & Ht & Hl & _) He.
  eapply eval_bind; [by apply eval_gets|]. eapply eval_bind; [by apply eval_need|].
  apply eval_need. rewrite Nat2Z.id, Hl. by apply lookup_app_l_Some.
Qed.

Lemma eval_peripheral_index w es x fuel type instance :
  peripheral_table w es x -> 0 <= instance -> (length es < fuel)%nat ->
  eval (val_peripheral_get_entry_index fuel type instance) w
    (match matches (of_type type) es 0 !! Z.to_nat instance with
     | Some (k, _) => k | None => 0xFFFF end) w.
Proof.
  intros Ht Hi Hf. destruct (Ht) as (t & rest & _ & _ & Hes & Hx).
  apply (eval_while_scan (es ++ [x]) (fun i n => (i, n)) per_last
    (fun e i n => if of_type type e then if n =? 0 then inr i else inl (n - 1) else inl n)
    (fun _ => 0xFFFF)); [|by apply scan_nth|rewrite length_app; simpl; lia].
  intros k e n He. eapply eval_bind; [by eapply eval_per_entry|]. cbv beta. fold (per_last e).
  destruct (per_last e); cbn [negb]; [apply eval_ret|]. fold (of_type type e).
  destruct (of_type type e); [|apply eval_ret]. destruct (n =? 0); apply eval_ret.
Qed.

(** Every query on the peripherals of a kind gives the wanted column of entry
    number [instance] of that kind, counting from 0 - of any kind for the [ANY_*]
    queries - and 0 when there are not that many; the search ends within the table,
    which has fewer entries than the index that means none. *)
Theorem peripheral_get_info_nth w es x fuel info_type instance type f :
  peripheral_table w es x -> 0 <= instance -> (length es < fuel)%nat ->
  Z.of_nat (length es) <= 0xFFFF -> per_column info_type = Some (type, f) ->
  eval (val_peripheral_get_info fuel info_type instance) w
    (match matches (of_type type) es 0 !! Z.to_nat instance with
     | Some (_, e) => f e | None => 0 end) w.
Proof.
  intros Ht Hi Hf Hlen Hcol. destruct (Ht) as (t & rest & Hg & _).
  pose proof (eval_peripheral_index w es x fuel type instance Ht Hi Hf) as Hidx.
  assert (Hfield : eval (let* i := val_peripheral_get_entry_index fuel type instance in
      if negb (i =? 0xFFFF) then let* e := per_entry i in ret (f e) else ret 0) w
    (match matches (of_type type) es 0 !! Z.to_nat instance with
     | Some (_, e) => f e | None => 0 end) w).
  { eapply eval_bind; [exact Hidx|]. cbv beta.
    destruct (matches (of_type type) es 0 !! Z.to_nat instance) as [[k e]|] eqn:Hm; [|apply eval_ret].
    destruct (matches_lookup _ _ _ _ _ _ Hm) as (Hk & He & _). rewrite Z.sub_0_r in He.
    pose proof (lookup_lt_Some _ _ _ He). rewrite (proj2 (Z.eqb_neq k 0xFFFF)) by lia. cbn [negb].
    eapply eval_bind; [|apply eval_ret]. rewrite <- (Z2Nat.id k) by done.
    eapply (eval_per_entry w es x); [done|]. by apply lookup_app_l_Some. }
  unfold val_peripheral_get_info. eapply eval_bind; [by apply eval_gets|]. cbv beta iota zeta.
  unfold per_column in Hcol. repeat case_match; try discriminate Hcol;
    (injection Hcol as <- <-; exact Hfield) || (rewrite Z.eqb_eq in *; subst; discriminate).
Qed.
End peripherals.

(** ** Concrete inputs *)

Definition per_of (type base : Z) : PERIPHERAL_INFO_BLOCK := mkPer type 0 base 0 33 0 0 0 0.
Definition three_peripherals : list PERIPHERAL_INFO_BLOCK :=
  [per_of PERIPHERAL_TYPE_UART 0x9000000; per_of PERIPHERAL_TYPE_USB 0xa000000;
   per_of PERIPHERAL_TYPE_UART 0x9001000].
Definition on_peripherals : world machine :=
  set_g_peripheral_info_table
    (Some (mkPerTable (mkPerHdr 1 0 2 3) (three_peripherals ++ [per_of 0xFF 0]))) (boot ∅ ∅).

Lemma peripheral_get_info_nth_witness :
  eval (val_peripheral_get_info 4 UART_BASE0 1) on_peripherals 0x9001000 on_peripherals.
Proof.
  apply (peripheral_get_info_nth on_peripherals three_peripherals (per_of 0xFF 0) 4 UART_BASE0 1
           PERIPHERAL_TYPE_UART per_base0).
  - do 2 eexists. split; [reflexivity|]. split; [by rewrite app_nil_r|]. by split.
  - done.
  - simpl. lia.
  - done.
  - done.
Defined.
