(* ===== verification/Gic.v ===== *)
(** * The interrupt controller

    src/val/src/acs_gic.c, acs_gic_v2m.c and acs_gic_support.c, and the driver of
    src/val/sys_arch_src/gic (gic.c, v2/gic_v2.c, v3/gic_v3.c, bsa_exception.c):
    the GIC table, per-interrupt registers, initialisation, acknowledgement and
    interrupt handlers. *)

From S2P Require Import Prelude Types World Status Machine PeInfra TestInfra Pcie Timer.
#[local] Open Scope c_scope.

(** gic.h. The last three are comparisons where shifts were meant. *)
Definition PE_AFF0 : Z := 0xFF.
Definition PE_AFF1 : Z := of_bool (0xFF <? 8).
Definition PE_AFF2 : Z := of_bool (0xFF <? 16).
Definition PE_AFF3 : Z := of_bool (0xFF <? 32).

(** The macro ignores its argument and reads the caller's [int_id]. *)
Definition GICD_ICFGR_INTR_CONFIG1 (int_id : Z) : Z := u32 (1 + int_id * 2) mod 32.

Section gic.
Context {D : Type} `{Platform D}.

#[local] Abbreviation M := (M (world D)).

(** ** The table: it ends with an entry of type 0xFF *)

Definition gic_entry (i : Z) : M GIC_INFO_ENTRY :=
  let* t := gets g_gic_info_table in
  let* t := need t in
  need (gic_info t !! Z.to_nat i).

(** The first entry of one of the types tested by [p]. *)
Definition find_gic_entry (fuel : nat) (p : GIC_INFO_ENTRY -> bool) : M (option GIC_INFO_ENTRY) :=
  while_ fuel (fun i =>
    let* e := gic_entry i in
    ret (if gic_type e =? 0xFF then Break None
         else if p e then Break (Some e) else Continue (i + 1))) 0.

Definition base_of_type (fuel : nat) (type : Z) : M Z :=
  let* t := gets g_gic_info_table in
  match t with
  | None => val_print ACS_PRINT_ERR "GIC INFO table not available \n" 0 ;; ret 0
  | Some _ =>
      let* e := find_gic_entry fuel (fun e => gic_type e =? type) in
      ret (match e with Some e => gic_base e | None => 0 end)
  end.

Definition val_get_gicd_base (fuel : nat) : M Z := base_of_type fuel ENTRY_TYPE_GICD.
Definition val_get_gich_base (fuel : nat) : M Z := base_of_type fuel ENTRY_TYPE_GICH.
Definition val_get_cpuif_base (fuel : nat) : M Z := base_of_type fuel ENTRY_TYPE_CPUIF.

(** Base, and what is written to [*rdbase_len] if anything. *)
Definition val_get_gicr_base (fuel : nat) : M (Z * option Z) :=
  let* t := gets g_gic_info_table in
  match t with
  | None => val_print ACS_PRINT_ERR "GIC INFO table not available \n" 0 ;; ret (0, None)
  | Some _ =>
      let* e := find_gic_entry fuel (fun e =>
        (gic_type e =? ENTRY_TYPE_GICR_GICRD) || (gic_type e =? ENTRY_TYPE_GICC_GICRD)) in
      ret (match e with
           | Some e =>
               (gic_base e,
                Some (if gic_type e =? ENTRY_TYPE_GICR_GICRD then gic_length e else 0))
           | None => (0, Some 0)
           end)
  end.

(** A distributor register read: the base is looked up every time. *)
Definition gicd_read (fuel : nat) (off : Z) : M Z :=
  let* base := val_get_gicd_base fuel in val_mmio_read (u64 (base + off)).
Definition gicd_write (fuel : nat) (off data : Z) : M () :=
  let* base := val_get_gicd_base fuel in val_mmio_write (u64 (base + off)) data.

Definition val_gic_get_info (fuel : nat) (type : Z) : M Z :=
  let* t := gets g_gic_info_table in
  match t with
  | None =>
      val_print ACS_PRINT_ERR "\n   Get GIC info called before gic info table is filled " 0 ;;
      ret 0
  | Some t =>
      let h := gic_header t in
      if type =? GIC_INFO_VERSION then
        if negb (gic_version h =? 0) then
          val_print ACS_PRINT_INFO "\n       gic version from info table = %d " (gic_version h) ;;
          ret (gic_version h)
        else let* v := gicd_read fuel GICD_PIDR2 in ret (VAL_EXTRACT_BITS v 4 7)
      else if type =? GIC_INFO_SEC_STATES then
        let* v := gicd_read fuel GICD_CTLR in ret (VAL_EXTRACT_BITS v 6 6)
      else if type =? GIC_INFO_AFFINITY_NS then
        let* v := gicd_read fuel GICD_CTLR in ret (VAL_EXTRACT_BITS v 4 4)
      else if type =? GIC_INFO_ENABLE_GROUP1NS then
        let* v := gicd_read fuel GICD_CTLR in ret (VAL_EXTRACT_BITS v 0 1)
      else if type =? GIC_INFO_SGI_NON_SECURE then
        let* ' (base, _) := val_get_gicr_base fuel in
        val_mmio_read (u64 (base + RD_FRAME_SIZE + GICR_ISENABLER))
      else if type =? GIC_INFO_SGI_NON_SECURE_LEGACY then gicd_read fuel GICD_ISENABLER
      else if type =? GIC_INFO_NUM_ITS then ret (num_its h)
      else if type =? GIC_INFO_NUM_MSI_FRAME then ret (num_msi_frame h)
      else
        val_print ACS_PRINT_ERR "\n    GIC Info - TYPE not recognized %d  " type ;;
        ret ACS_STATUS_ERR
  end.

(** ** Per-interrupt registers (acs_gic.c) *)

Definition val_get_max_intid (fuel : nat) : M Z :=
  let* v := gicd_read fuel 0x004 in
  ret (32 * (Z.land v 0x1F + 1)).

Definition val_gic_route_interrupt_to_pe (fuel : nat) (int_id mpidr : Z) : M Z :=
  (if 31 <? int_id then
     let mpidr := Z.land mpidr 0xF80FFFFFF in
     let* base := val_get_gicd_base fuel in
     val_mmio_write64 (u64 (base + GICD_IROUTER + u32 (8 * int_id))) mpidr
   else
     val_print ACS_PRINT_ERR
       "\n    Only SPIs can be routed, interrupt with INTID = %d cannot be routed" int_id) ;;
  ret 0.

Definition val_gic_get_interrupt_state (fuel : nat) (int_id : Z) : M Z :=
  let reg_offset := int_id / 32 in
  let reg_shift := int_id mod 32 in
  let mask := Z.shiftl 1 reg_shift in
  let* pending := gicd_read fuel (GICD_ISPENDR + u32 (4 * reg_offset)) in
  let* active := gicd_read fuel (GICD_ISACTIVER0 + u32 (4 * reg_offset)) in
  ret (of_bool (truthy (Z.land mask active) || truthy (Z.land mask pending))).

Definition val_gic_clear_interrupt (fuel : nat) (int_id : Z) : M () :=
  let reg_offset := int_id / 32 in
  let reg_shift := int_id mod 32 in
  if (31 <? int_id) && (int_id <? 1020) then
    gicd_write fuel (GICD_ICPENDR0 + 4 * reg_offset) (Z.shiftl 1 reg_shift) ;;
    gicd_write fuel (GICD_ICACTIVER0 + 4 * reg_offset) (Z.shiftl 1 reg_shift)
  else val_print ACS_PRINT_ERR "\n    Invalid SPI interrupt ID number %d" int_id.

(** [None]: [*trigger_type] is not written. *)
Definition val_gic_get_intr_trigger_type (fuel : nat) (int_id : Z) : M (Z * option Z) :=
  let* max := val_get_max_intid fuel in
  if max <? int_id then
    val_print ACS_PRINT_ERR "\n       Invalid Interrupt ID number 0x%x " int_id ;;
    ret (ACS_STATUS_ERR, None)
  else
  let reg_offset := int_id / GICD_ICFGR_INTR_STRIDE in
  let config_bit_shift := GICD_ICFGR_INTR_CONFIG1 int_id in
  let* reg_value := gicd_read fuel (GICD_ICFGR + 4 * reg_offset) in
  ret (0, Some (if Z.land reg_value (Z.shiftl 1 config_bit_shift) =? 0
                then INTR_TRIGGER_INFO_LEVEL_HIGH else INTR_TRIGGER_INFO_EDGE_RISING)).

(** ** System registers (acs_gic_support.c) *)

Definition report_bad_register : M () :=
  let* mpid := val_pe_get_mpid in
  let* index := val_pe_get_index_mpid mpid in
  val_report_status index (RESULT_FAIL 0 0x78).

Definition val_gic_reg_read (fuel : nat) (reg_id : Z) : M Z :=
  if reg_id =? ICH_HCR_EL2 then
    let* v := val_gic_get_info fuel GIC_INFO_VERSION in
    if 3 <=? v then from_dev (read_sysreg "GicReadIchHcr")
    else let* base := val_get_gich_base fuel in val_mmio_read (u64 (base + 0))
  else if reg_id =? ICH_MISR_EL2 then from_dev (read_sysreg "GicReadIchMisr")
  else report_bad_register ;; ret 0x0.

Definition val_gic_reg_write (fuel : nat) (reg_id write_data : Z) : M () :=
  if reg_id =? ICH_HCR_EL2 then
    let* v := val_gic_get_info fuel GIC_INFO_VERSION in
    if 3 <=? v then on_dev (write_sysreg "GicWriteIchHcr" write_data)
    else let* base := val_get_gich_base fuel in val_mmio_write (u64 (base + 0)) write_data
  else if reg_id =? ICC_IGRPEN1_EL1 then on_dev (write_sysreg "GicWriteIccIgrpen1" write_data)
  else if reg_id =? ICC_BPR1_EL1 then on_dev (write_sysreg "GicWriteIccBpr1" write_data)
  else if reg_id =? ICC_PMR_EL1 then on_dev (write_sysreg "GicWriteIccPmr" write_data)
  else report_bad_register.

Definition val_gic_cpuif_init (fuel : nat) : M () :=
  val_gic_reg_write fuel ICC_BPR1_EL1 0x7 ;;
  val_gic_reg_write fuel ICC_PMR_EL1 0xff ;;
  val_gic_reg_write fuel ICC_IGRPEN1_EL1 0x1.

(** ** GICv2 (v2/gic_v2.c) *)

Definition v2_AcknowledgeInterrupt (fuel : nat) : M Z :=
  let* base := val_get_cpuif_base fuel in val_mmio_read (u64 (base + GIC_ICCIAR)).

Definition v2_EndofInterrupt (fuel : nat) (int_id : Z) : M () :=
  let* base := val_get_cpuif_base fuel in val_mmio_write (u64 (base + GIC_ICCEIOR)) int_id.

Definition v2_DisableInterruptSource (fuel : nat) (int_id : Z) : M () :=
  let regOffset := int_id / 32 in
  let regShift := int_id mod 32 in
  gicd_write fuel (GICD_ICENABLER + u32 (4 * regOffset)) (Z.shiftl 1 regShift).

Definition v2_EnableInterruptSource (fuel : nat) (int_id : Z) : M () :=
  let regOffset := int_id / 32 in
  let regShift := int_id mod 32 in
  gicd_write fuel (GICD_ISENABLER + u32 (4 * regOffset)) (Z.shiftl 1 regShift).

Definition default_irq_handler_addr : Z := symbol "default_irq_handler".

Definition bsa_gic_vector_table_init : M () :=
  val_print ACS_PRINT_DEBUG " GIC_INIT: Setting Up Vector Table...\n" 0 ;;
  on_dev (write_sysreg "bsa_gic_set_el2_vector_table" 0) ;;
  val_gic_bsa_install_esr EXCEPT_AARCH64_IRQ default_irq_handler_addr.

(** The two lines that route interrupts to EL2 and unmask them. *)
Definition gic_unmask : M () :=
  let* el := val_pe_reg_read CurrentEL in
  (when el =? AARCH64_EL2 then on_dev (write_sysreg "GicWriteHcr" (Z.shiftl 1 27))) ;;
  on_dev (write_sysreg "GicClearDaif" 0).

(** [cpuif_base] is a [uint32_t]. *)
Definition v2_Init (fuel : nat) : M () :=
  let* gicd_base := val_get_gicd_base fuel in
  let* cpuif := val_get_cpuif_base fuel in
  let cpuif_base := u32 cpuif in
  let* max_num_interrupts := val_get_max_intid fuel in
  val_print ACS_PRINT_DEBUG " \nGIC_INIT: D base %x\n" gicd_base ;;
  val_print ACS_PRINT_DEBUG " \nGIC_INIT: CPU IF base %x\n" cpuif_base ;;
  val_print ACS_PRINT_DEBUG " \nGIC_INIT: Interrupts %d\n" max_num_interrupts ;;
  for_each (Z.to_nat max_num_interrupts) 0 (v2_DisableInterruptSource fuel) ;;
  bsa_gic_vector_table_init ;;
  gic_unmask ;;
  for_each (Z.to_nat max_num_interrupts) 0 (fun index =>
    let regOffset := index / 4 in
    let regShift := (index mod 4) * 8 in
    let* base := val_get_gicd_base fuel in
    let* v := gicd_read fuel (GICD_IPRIORITYR + 4 * regOffset) in
    val_mmio_write (u64 (base + GICD_IPRIORITYR + 4 * regOffset))
      (Z.lor (Z.land v (not32 (Z.shiftl 0xff regShift)))
         (Z.shiftl GIC_DEFAULT_PRIORITY regShift))) ;;
  let* cpuTarget := gicd_read fuel GIC_ICDIPTR in
  (when negb (cpuTarget =? 0) then
     for_each (Z.to_nat (max_num_interrupts / 4 - 8)) 8 (fun index =>
       val_mmio_write (u64 (gicd_base + GIC_ICDIPTR + index * 4)) cpuTarget)) ;;
  val_mmio_write (u32 (cpuif_base + GIC_ICCBPR)) 0x7 ;;
  val_mmio_write (u32 (cpuif_base + GIC_ICCPMR)) 0xff ;;
  val_mmio_write (u32 (cpuif_base + GIC_ICCICR)) 0x1 ;;
  gicd_write fuel GICD_CTRL 0x1.

(** ** GICv3 (v3/gic_v3.c) *)

Definition IsSpi (int_id : Z) : bool := (32 <=? int_id) && (int_id <? 1020).

(** The affinity of the redistributor frame at [base], from bits 63-32 of its
    [GICR_TYPER]. *)
Definition frame_affinity (base : Z) : M Z :=
  let* v := val_mmio_read64 (u64 (base + GICR_TYPER)) in
  ret (Z.shiftr (Z.land v GICR_TYPER_AFF) 32).

Definition CurrentCpuRDBase (fuel : nat) (mGicRedistributorBase length : Z) : M Z :=
  let* Mpidr := from_dev (read_sysreg "ArmReadMpidr") in
  let CpuAffinity :=
    Z.lor (Z.land Mpidr (Z.lor (Z.lor PE_AFF0 PE_AFF1) PE_AFF2))
      (Z.shiftr (Z.land Mpidr PE_AFF3) 8) in
  let granularity := GICR_CTLR_FRAME_SIZE + GICR_SGI_PPI_FRAME_SIZE in
  if length =? 0 then
    let* a := frame_affinity mGicRedistributorBase in
    ret (if a =? CpuAffinity then mGicRedistributorBase else 0)
  else
  while_ fuel (fun base =>
    if base <? u64 (mGicRedistributorBase + length) then
      let* a := frame_affinity base in
      ret (if a =? CpuAffinity then Break base else Continue (u64 (base + granularity)))
    else ret (Break 0)) mGicRedistributorBase.

(** The running PE's redistributor, 0 when none matches. *)
Definition my_redistributor (fuel : nat) : M Z :=
  let* ' (rd_base, rdbase_len) := val_get_gicr_base fuel in
  let* rdbase_len := need rdbase_len in
  CurrentCpuRDBase fuel rd_base rdbase_len.

Definition WakeUpRD (fuel : nat) : M () :=
  let* cpuRd_base := my_redistributor fuel in
  if cpuRd_base =? 0 then ret tt
  else
  let* tmp := val_mmio_read (u64 (cpuRd_base + GICR_WAKER)) in
  (when truthy (Z.land (Z.shiftr tmp 1) 0x01) then
     val_mmio_write (u64 (cpuRd_base + GICR_WAKER)) (Z.land tmp (not32 0x02))) ;;
  while_ fuel (fun _ =>
    let* v := val_mmio_read (u64 (cpuRd_base + GICR_WAKER)) in
    let tmp := Z.land (Z.shiftr v 2) 0x01 in
    ret (if truthy tmp then Continue tt else Break tt)) tt.

Definition v3_AcknowledgeInterrupt : M Z := from_dev (read_sysreg "bsa_gic_ack_intr").
Definition v3_EndofInterrupt (int_id : Z) : M () :=
  on_dev (write_sysreg "bsa_gic_end_intr" int_id).

Definition v3_DisableInterruptSource (fuel : nat) (int_id : Z) : M () :=
  let regOffset := int_id / 32 in
  let regShift := int_id mod 32 in
  if IsSpi int_id then
    gicd_write fuel (GICD_ICENABLER + 4 * regOffset) (Z.shiftl 1 regShift)
  else
    let* cpuRd_base := my_redistributor fuel in
    if cpuRd_base =? 0 then ret tt
    else
      val_mmio_write
        (u64 (cpuRd_base + GICR_CTLR_FRAME_SIZE + GICR_ICENABLER + u32 (4 * regOffset)))
        (Z.shiftl 1 regShift).

(** [1 << regShift] for bit 31 is the sign bit of an int; as the compilers the suite is built
    with define it, it is bit 31 of the word written. *)
Definition v3_EnableInterruptSource (fuel : nat) (int_id : Z) : M () :=
  let regOffset := int_id / 32 in
  let regShift := int_id mod 32 in
  if IsSpi int_id then
    gicd_write fuel (GICD_ISENABLER + 4 * regOffset) (Z.shiftl 1 regShift)
  else
    let* cpuRd_base := my_redistributor fuel in
    if cpuRd_base =? 0 then ret tt
    else
      val_mmio_write
        (u64 (cpuRd_base + GICR_CTLR_FRAME_SIZE + GICR_ISENABLER + u32 (4 * regOffset)))
        (Z.shiftl 1 regShift).

(** The banked priorities are written in the frame at [cpuRd_base] itself, not in
    the SGI frame that follows it. *)
Definition v3_SetInterruptPriority (fuel : nat) (int_id priority : Z) : M () :=
  let regOffset := int_id / 4 in
  let regShift := (int_id mod 4) * 8 in
  let update (v : Z) : Z :=
    Z.lor (Z.land v (not32 (Z.shiftl 0xff regShift))) (u32 (Z.shiftl priority regShift)) in
  if IsSpi int_id then
    let* base := val_get_gicd_base fuel in
    let* v := gicd_read fuel (GICD_IPRIORITYR + 4 * regOffset) in
    val_mmio_write (u64 (base + GICD_IPRIORITYR + 4 * regOffset)) (update v)
  else
    let* cpuRd_base := my_redistributor fuel in
    if cpuRd_base =? 0 then ret tt
    else
      let addr := u64 (cpuRd_base + GICR_IPRIORITYR + u32 (4 * regOffset)) in
      let* v := val_mmio_read addr in
      val_mmio_write addr (update v).

Definition v3_Init (fuel : nat) : M () :=
  let* gicd_base := val_get_gicd_base fuel in
  let* max_num_interrupts := val_get_max_intid fuel in
  val_print ACS_PRINT_DEBUG " \nGIC_INIT: D base %x\n" gicd_base ;;
  val_print ACS_PRINT_DEBUG " \nGIC_INIT: Interrupts %d\n" max_num_interrupts ;;
  for_each (Z.to_nat max_num_interrupts) 0 (v3_DisableInterruptSource fuel) ;;
  bsa_gic_vector_table_init ;;
  gic_unmask ;;
  for_each (Z.to_nat max_num_interrupts) 0 (fun index =>
    v3_SetInterruptPriority fuel index GIC_DEFAULT_PRIORITY) ;;
  let ctlr := u64 (gicd_base + GICD_CTLR) in
  let* v := val_mmio_read ctlr in
  val_mmio_write ctlr (Z.lor v GIC_ARE_ENABLE) ;;
  let* v := val_mmio_read ctlr in
  val_mmio_write ctlr (Z.lor v 0x2) ;;
  let* v := val_mmio_read ctlr in
  val_print ACS_PRINT_DEBUG " \nGIC_INIT: GICD_CTLR value 0x%08x\n" v ;;
  WakeUpRD fuel ;;
  for_each (Z.to_nat max_num_interrupts) 0 (fun index =>
    v3_SetInterruptPriority fuel index GIC_DEFAULT_PRIORITY) ;;
  let* Mpidr := from_dev (read_sysreg "ArmReadMpidr") in
  let cpuTarget := Z.land Mpidr (Z.lor (Z.lor (Z.lor PE_AFF0 PE_AFF1) PE_AFF2) PE_AFF3) in
  for_each (Z.to_nat (max_num_interrupts - 32)) 0 (fun index =>
    val_mmio_write64 (u64 (gicd_base + GICD_IROUTERn + index * 8)) cpuTarget) ;;
  val_gic_cpuif_init fuel.

(** ** Dispatch on the version (gic.c) *)

Definition is_v3 (fuel : nat) : M bool :=
  let* v := val_gic_get_info fuel GIC_INFO_VERSION in
  ret ((v =? 3) || (v =? 4)).

Definition val_bsa_gic_init (fuel : nat) : M () :=
  let* v3 := is_v3 fuel in if v3 then v3_Init fuel else v2_Init fuel.

Definition val_bsa_gic_enableInterruptSource (fuel : nat) (int_id : Z) : M () :=
  let* v3 := is_v3 fuel in
  if v3 then v3_EnableInterruptSource fuel int_id else v2_EnableInterruptSource fuel int_id.

Definition val_bsa_gic_disableInterruptSource (fuel : nat) (int_id : Z) : M () :=
  let* v3 := is_v3 fuel in
  if v3 then v3_DisableInterruptSource fuel int_id else v2_DisableInterruptSource fuel int_id.

Definition val_bsa_gic_acknowledgeInterrupt (fuel : nat) : M Z :=
  let* v3 := is_v3 fuel in
  if v3 then v3_AcknowledgeInterrupt else v2_AcknowledgeInterrupt fuel.

Definition val_bsa_gic_endofInterrupt (fuel : nat) (int_id : Z) : M () :=
  let* v3 := is_v3 fuel in
  if v3 then v3_EndofInterrupt int_id else v2_EndofInterrupt fuel int_id.

Definition val_gic_create_info_table `{PalTables D} (fuel : nat) (gic_info_table : bool) : M Z :=
  if negb gic_info_table then
    val_print ACS_PRINT_ERR "Input for Create Info table cannot be NULL \n" 0 ;;
    ret ACS_STATUS_ERR
  else
  let* t := pal_gic_create_info_table in
  modify (set_g_gic_info_table (Some t)) ;;
  let h := gic_header t in
  val_print ACS_PRINT_TEST " GIC_INFO: Number of GICD             : %4d \n" (num_gicd h) ;;
  val_print ACS_PRINT_TEST " GIC_INFO: Number of ITS              : %4d \n" (num_its h) ;;
  if num_gicd h =? 0 then
    val_print ACS_PRINT_ERR "\n ** CRITICAL ERROR: GIC Distributor count is 0 **\n" 0 ;;
    ret ACS_STATUS_ERR
  else
    (when pal_bsa_gic_imp then val_bsa_gic_init fuel) ;;
    ret ACS_STATUS_PASS.

(** ** The table *)

Definition gic_last (e : GIC_INFO_ENTRY) : bool := gic_type e =? 0xFF.

(** The table is the entries [es], the terminator [x], and whatever follows; [v] is
    the version in its header. *)
Definition gic_table (w : world D) (v : Z) (es : list GIC_INFO_ENTRY) (x : GIC_INFO_ENTRY) : Prop :=
  exists t rest, g_gic_info_table w = Some t /\ gic_version (gic_header t) = v /\
    gic_info t = (es ++ [x]) ++ rest /\
    forallb (fun e => negb (gic_last e)) es = true /\ gic_last x = true.

Lemma gic_table_dev w v es x d : gic_table w v es x -> gic_table (set_dev d w) v es x.
Proof. exact id. Qed.

Lemma eval_find_gic_entry w v es x fuel p :
  gic_table w v es x -> (length es < fuel)%nat ->
  eval (find_gic_entry fuel p) w (List.find p es) w.
Proof.
  intros (t & rest & Ht & _ & Hl & Hes & Hx) Hf.
  apply (eval_while_scan (es ++ [x]) (fun i (_ : ()) => i) gic_last
    (fun e _ _ => if p e then inr (Some e) else inl tt) (fun _ => None) _ _ tt).
  - intros k e [] He. eapply eval_bind.
    + eapply eval_bind; [by apply eval_gets|]. eapply eval_bind; [by apply eval_need|].
      apply eval_need. rewrite Nat2Z.id, Hl. by apply lookup_app_l_Some.
    + cbv beta. fold (gic_last e). destruct (gic_last e); [apply eval_ret|].
      destruct (p e); apply eval_ret.
  - clear Hl Hf. generalize 0 at 1 as i. induction es as [|e es IH]; intros i; cbn [app scan List.find].
    + by rewrite Hx.
    + cbn in Hes. apply andb_true_iff in Hes as [He Hes]. rewrite negb_true_iff in He. rewrite He.
      destruct (p e); [done|]. by apply IH.
  - rewrite length_app. simpl. lia.
Qed.

Definition base_of (es : list GIC_INFO_ENTRY) (type : Z) : Z :=
  match List.find (fun e => gic_type e =? type) es with Some e => gic_base e | None => 0 end.

Lemma eval_base_of_type w v es x fuel type :
  gic_table w v es x -> (length es < fuel)%nat ->
  eval (base_of_type fuel type) w (base_of es type) w.
Proof.
  intros Ht Hf. destruct (Ht) as (t & rest & Hg & _).
  eapply eval_bind; [by apply eval_gets|]. cbv beta iota.
  eapply eval_bind; [by eapply eval_find_gic_entry|]. apply eval_ret.
Qed.

(** The redistributor entry: base, and length of the region it starts. *)
Definition gicr_of (es : list GIC_INFO_ENTRY) : Z * Z :=
  match List.find (fun e => (gic_type e =? ENTRY_TYPE_GICR_GICRD) ||
                            (gic_type e =? ENTRY_TYPE_GICC_GICRD)) es with
  | Some e => (gic_base e, if gic_type e =? ENTRY_TYPE_GICR_GICRD then gic_length e else 0)
  | None => (0, 0)
  end.

Lemma eval_gicr_base w v es x fuel :
  gic_table w v es x -> (length es < fuel)%nat ->
  eval (val_get_gicr_base fuel) w (fst (gicr_of es), Some (snd (gicr_of es))) w.
Proof.
  intros Ht Hf. destruct (Ht) as (t & rest & Hg & _).
  eapply eval_bind; [by apply eval_gets|]. cbv beta iota.
  eapply eval_bind; [by eapply eval_find_gic_entry|]. unfold gicr_of.
  destruct (List.find _ es); apply eval_ret.
Qed.

Lemma wp_is_v3 w v es x fuel {A} (k : bool -> M A) (Q : A -> world D -> Prop) :
  gic_table w v es x -> v <> 0 -> wp (k ((v =? 3) || (v =? 4))) w Q ->
  wp (let* b := is_v3 fuel in k b) w Q.
Proof.
  intros (t & rest & Hg & <- & _) Hv Hk. wp_step. unfold is_v3, val_gic_get_info. wp_step. wp_step. wp_step.
  rewrite Hg. cbv beta iota zeta. change (GIC_INFO_VERSION =? GIC_INFO_VERSION) with true. cbv iota.
  rewrite (proj2 (Z.eqb_neq _ 0) Hv). cbn [negb]. io_step. apply wp_val_print. wp_step. wp_step. exact Hk.
Qed.

(** ** Enabling and disabling interrupts *)

Lemma bit_word int_id : 0 <= int_id -> u32 (Z.shiftl 1 (int_id mod 32)) = 2 ^ (int_id mod 32).
Proof.
  intros Hi. rewrite Z.shiftl_1_l. apply u32_id.
  pose proof (Z.mod_pos_bound int_id 32 ltac:(lia)). split; [apply Z.pow_nonneg; lia|].
  apply Z.pow_lt_mono_r; lia.
Qed.

Lemma wp_gicd_write w v es x fuel off data (Q : () -> world D -> Prop) :
  gic_table w v es x -> (length es < fuel)%nat ->
  0 <= base_of es ENTRY_TYPE_GICD -> base_of es ENTRY_TYPE_GICD + 0x10000 <= 2 ^ 64 -> 0 <= off < 0x10000 ->
  Q tt (set_dev (dev_write 4 (base_of es ENTRY_TYPE_GICD + off) (u32 data) (dev w)) w) ->
  wp (gicd_write fuel off data) w Q.
Proof.
  intros Ht Hf H0 H1 Ho HQ. eapply wp_bind, wp_eval; [by eapply eval_base_of_type|]. cbv beta.
  rewrite u64_id by (unfold fits; lia). by apply wp_mmio_write.
Qed.

(** C19: Enabling or disabling a shared interrupt, on GICv2 and on GICv3, makes
    exactly one write: the bit of that interrupt, and no other, in the word of the
    distributor's set-enable or clear-enable registers that holds it. *)
Theorem gic_spi_enable_bit w v es x fuel int_id :
  gic_table w v es x -> 1 <= v <= 4 -> (length es < fuel)%nat -> 32 <= int_id < 1020 ->
  let base := base_of es ENTRY_TYPE_GICD in
  0 <= base -> base + 0x10000 <= 2 ^ 64 ->
  let written off := set_dev (dev_write 4 (base + off + 4 * (int_id / 32)) (2 ^ (int_id mod 32)) (dev w)) w in
  eval (val_bsa_gic_enableInterruptSource fuel int_id) w tt (written GICD_ISENABLER) /\
  eval (val_bsa_gic_disableInterruptSource fuel int_id) w tt (written GICD_ICENABLER).
Proof.
  intros Ht Hv Hf Hi base H0 H1 written.
  assert (Hq : 0 <= int_id / 32 < 32) by (split; [apply Z.div_pos|apply Z.div_lt_upper_bound]; lia).
  assert (Hspi : IsSpi int_id = true).
  { unfold IsSpi. apply andb_true_iff. rewrite Z.leb_le, Z.ltb_lt. lia. }
  split; unfold eval.
  - eapply wp_is_v3; [exact Ht|lia|]. destruct ((v =? 3) || (v =? 4)).
    + unfold v3_EnableInterruptSource. rewrite Hspi. cbv zeta. unfold GICD_ISENABLER in *.
      eapply wp_gicd_write; [exact Ht|exact Hf|exact H0|exact H1|lia|].
      rewrite bit_word by lia. split; [done|]. subst written. cbv beta. by rewrite Z.add_assoc.
    + unfold v2_EnableInterruptSource. cbv zeta. rewrite u32_id by (unfold fits; pow2; lia).
      unfold GICD_ISENABLER in *.
      eapply wp_gicd_write; [exact Ht|exact Hf|exact H0|exact H1|lia|].
      rewrite bit_word by lia. split; [done|]. subst written. cbv beta. by rewrite Z.add_assoc.
  - eapply wp_is_v3; [exact Ht|lia|]. destruct ((v =? 3) || (v =? 4)).
    + unfold v3_DisableInterruptSource. rewrite Hspi. cbv zeta. unfold GICD_ICENABLER in *.
      eapply wp_gicd_write; [exact Ht|exact Hf|exact H0|exact H1|lia|].
      rewrite bit_word by lia. split; [done|]. subst written. cbv beta. by rewrite Z.add_assoc.
    + unfold v2_DisableInterruptSource. cbv zeta. rewrite u32_id by (unfold fits; pow2; lia).
      unfold GICD_ICENABLER in *.
      eapply wp_gicd_write; [exact Ht|exact Hf|exact H0|exact H1|lia|].
      rewrite bit_word by lia. split; [done|]. subst written. cbv beta. by rewrite Z.add_assoc.
Qed.

(** ** The running PE's redistributor *)

(** The frame of the only redistributor entry is the running PE's when its affinity
    is the low byte of MPIDR. *)
Lemma wp_my_redistributor w v es x fuel (Q : Z -> world D -> Prop) :
  gic_table w v es x -> (length es < fuel)%nat ->
  let rd := fst (gicr_of es) in
  snd (gicr_of es) = 0 -> 0 < rd -> rd + 0x20000 <= 2 ^ 64 ->
  let mpidr := read_sysreg "ArmReadMpidr" (dev w) in
  let typer := dev_read 8 (rd + GICR_TYPER) (snd mpidr) in
  Q (if u64 (fst typer) / 2 ^ 32 =? fst mpidr mod 2 ^ 8 then rd else 0) (set_dev (snd typer) w) ->
  wp (my_redistributor fuel) w Q.
Proof.
  intros Ht Hf rd Hlen Hr0 Hr1 mpidr typer HQ. unfold my_redistributor.
  eapply wp_bind, wp_eval; [by eapply eval_gicr_base|].
  cbv beta iota. wp_step. wp_step. cbv beta. rewrite Hlen. unfold CurrentCpuRDBase. fold rd.
  wp_step. apply wp_from_dev. fold mpidr. cbv beta zeta. change (0 =? 0) with true. cbv iota.
  wp_step. unfold frame_affinity. wp_step. rewrite u64_id by (unfold fits, GICR_TYPER; lia).
  apply wp_mmio_read64. change (dev (set_dev (snd mpidr) w)) with (snd mpidr). fold typer. wp_step. wp_step.
  assert (Ea : Z.shiftr (Z.land (u64 (fst typer)) GICR_TYPER_AFF) 32 = u64 (fst typer) / 2 ^ 32).
  { unfold GICR_TYPER_AFF. rewrite land_shiftl_r by done. change 0xFFFFFFFF with (Z.ones 32).
    rewrite Z.land_ones, Z.shiftr_shiftl_l, Z.sub_diag, Z.shiftl_0_r, Z.shiftr_div_pow2 by done.
    apply Z.mod_small. pose proof (fits_u64 (fst typer)) as Hfit. unfold fits in Hfit.
    split; [apply Z.div_pos|apply Z.div_lt_upper_bound]; pow2; lia. }
  assert (Em : Z.lor (Z.land (fst mpidr) (Z.lor (Z.lor PE_AFF0 PE_AFF1) PE_AFF2))
                 (Z.shiftr (Z.land (fst mpidr) PE_AFF3) 8) = fst mpidr mod 2 ^ 8).
  { change (Z.lor (Z.lor PE_AFF0 PE_AFF1) PE_AFF2) with (Z.ones 8). change PE_AFF3 with 0.
    by rewrite Z.land_0_r, Z.shiftr_0_l, Z.lor_0_r, Z.land_ones. }
  rewrite Ea, Em. exact HQ.
Qed.

(** On GICv3, with one redistributor frame per PE in the table, a private
    interrupt is enabled only if the affinity in the frame is the low byte of the
    running PE's MPIDR: the masks of the other affinity levels are comparisons, and
    are 0. On a PE whose affinity has more than its low byte the frame is never
    recognised, nothing is written, and no error is reported. *)
Theorem gic_private_enable_affinity w v es x fuel int_id :
  gic_table w v es x -> v = 3 \/ v = 4 -> (length es < fuel)%nat -> 0 <= int_id < 32 ->
  let rd := fst (gicr_of es) in
  snd (gicr_of es) = 0 -> 0 < rd -> rd + 0x20000 <= 2 ^ 64 ->
  let mpidr := read_sysreg "ArmReadMpidr" (dev w) in
  let typer := dev_read 8 (rd + GICR_TYPER) (snd mpidr) in
  let aff := u64 (fst typer) / 2 ^ 32 in
  let d := snd typer in
  eval (val_bsa_gic_enableInterruptSource fuel int_id) w tt
    (set_dev (if aff =? fst mpidr mod 2 ^ 8
              then dev_write 4 (rd + GICR_CTLR_FRAME_SIZE + GICR_ISENABLER) (2 ^ int_id) d
              else d) w).
Proof.
  intros Ht Hv Hf Hi rd Hlen Hr0 Hr1 mpidr typer aff d. unfold eval.
  eapply wp_is_v3; [exact Ht|lia|].
  replace ((v =? 3) || (v =? 4)) with true by (destruct Hv as [-> | ->]; done).
  unfold v3_EnableInterruptSource.
  replace (IsSpi int_id) with false by (unfold IsSpi; by rewrite (proj2 (Z.leb_gt 32 int_id)) by lia).
  cbv zeta. wp_step. eapply (wp_my_redistributor w v es x); [done..|].
  fold rd. fold mpidr. fold typer. fold aff. fold d. cbv beta.
  destruct (aff =? fst mpidr mod 2 ^ 8).
  - rewrite (proj2 (Z.eqb_neq rd 0)) by lia.
    rewrite (Z.div_small int_id 32), (Z.mod_small int_id 32) by lia.
    change (u32 (4 * 0)) with 0. rewrite Z.add_0_r.
    rewrite u64_id by (unfold fits, GICR_CTLR_FRAME_SIZE, GICR_ISENABLER; lia).
    apply wp_mmio_write. split; [done|].
    rewrite <- (Z.mod_small int_id 32) at 1 by lia. rewrite bit_word, (Z.mod_small int_id 32) by lia. done.
  - change (0 =? 0) with true. cbv iota. by wp_step.
Qed.

(** Waking the redistributor waits for its children-asleep bit to clear without
    a bound: if the device keeps the bit set, over every read of the waker register
    and every write that leaves the bit set, as the driver's does, the wait never
    ends. [Asleep] is a property of the device that says so. *)
Theorem gic_wake_up_unbounded w v es x fuel (Asleep : D -> Prop) :
  gic_table w v es x -> (length es < fuel)%nat ->
  let rd := fst (gicr_of es) in
  snd (gicr_of es) = 0 -> 0 < rd -> rd + 0x20000 <= 2 ^ 64 -> rd mod 4 = 0 ->
  let mpidr := read_sysreg "ArmReadMpidr" (dev w) in
  let typer := dev_read 8 (rd + GICR_TYPER) (snd mpidr) in
  u64 (fst typer) / 2 ^ 32 = fst mpidr mod 2 ^ 8 ->
  Asleep (snd typer) ->
  (forall d, Asleep d -> let r := dev_read 4 (rd + GICR_WAKER) d in
     Z.testbit (u32 (fst r)) 2 = true /\ Asleep (snd r)) ->
  (forall d data, Asleep d -> Z.testbit data 2 = true ->
     Asleep (dev_write 4 (rd + GICR_WAKER) data d)) ->
  diverges (WakeUpRD fuel) w.
Proof.
  intros Ht Hf0 rd Hlen Hr0 Hr1 Hal mpidr typer Haff Hs Hread Hwrite. unfold WakeUpRD.
  assert (Hal4 : Z.land (rd + GICR_WAKER) 3 = 0).
  { change 3 with (Z.ones 2). rewrite Z.land_ones by done. unfold GICR_WAKER. divmod. }
  eapply diverges_bind_wp.
  { eapply (wp_my_redistributor w v es x); [done..|].
    exact (conj eq_refl eq_refl : (fun a s => a = _ /\ s = _) _ _). }
  cbv beta. fold rd. fold mpidr. fold typer. rewrite Haff, Z.eqb_refl. intros a s [-> ->].
  rewrite (proj2 (Z.eqb_neq rd 0)) by lia.
  rewrite u64_id by (unfold fits, GICR_WAKER; lia).
  assert (Hread_wp : forall s, Asleep (dev s) ->
    wp (val_mmio_read (rd + GICR_WAKER)) s (fun v s' => Z.testbit v 2 = true /\ Asleep (dev s'))).
  { intros s Has. apply wp_mmio_read; [done|]. by apply Hread. }
  eapply diverges_bind_wp; [by apply Hread_wp|]. cbv beta. intros tmp s [Hb Has].
  eapply (diverges_bind_wp _ _ _ (fun _ s => Asleep (dev s))).
  { apply wp_if; intros _; [apply wp_mmio_write|by wp_step].
    apply Hwrite; [done|]. unfold u32. rewrite Z.mod_pow2_bits_low by done. by rewrite Z.land_spec, Hb. }
  intros [] s' Has'. apply (while_diverges (fun _ s => Asleep (dev s))); [done|].
  intros [] s2 Has2. wp_step. eapply wp_mono; [by apply Hread_wp|]. cbv beta. intros u s3 [Hbit Has3].
  wp_step. exists tt. split; [|done].
  replace (truthy (Z.land (Z.shiftr u 2) 1)) with true; [done|].
  change 1 with (2 ^ 0). rewrite truthy_land_bit, Z.shiftr_spec by done.
  change (0 + 2) with 2. by rewrite Hbit.
Qed.
End gic.

(** ** Concrete inputs *)

Definition gic_of (type base : Z) : GIC_INFO_ENTRY := mkGic type base 0 0 0 0 0.
Definition gic_entries : list GIC_INFO_ENTRY :=
  [gic_of ENTRY_TYPE_GICC_GICRD 0x80A0000; gic_of ENTRY_TYPE_GICD 0x8000000].

(** GICv3 with one redistributor, on the PE with this MPIDR and this frame affinity. *)
Definition on_gic (mpidr aff : Z) : world machine :=
  set_g_gic_info_table (Some (mkGicTable (mkGicHdr 3 1 1 0 0) (gic_entries ++ [gic_of 0xFF 0])))
    (boot {[0x80A0008 := aff * 2 ^ 32; 0x80A0014 := 4]} {["ArmReadMpidr"%string := mpidr]}).

Lemma on_gic_table mpidr aff : gic_table (on_gic mpidr aff) 3 gic_entries (gic_of 0xFF 0).
Proof. do 2 eexists. split; [reflexivity|]. split; [done|]. split; [by rewrite app_nil_r|done]. Qed.

Lemma gic_spi_enable_bit_witness :
  let written off := set_dev (dev_write 4 (0x8000000 + off + 4) (2 ^ 10) (dev (on_gic 0 0))) (on_gic 0 0) in
  eval (val_bsa_gic_enableInterruptSource 3 42) (on_gic 0 0) tt (written GICD_ISENABLER) /\
  eval (val_bsa_gic_disableInterruptSource 3 42) (on_gic 0 0) tt (written GICD_ICENABLER).
Proof.
  exact (gic_spi_enable_bit (on_gic 0 0) 3 gic_entries (gic_of 0xFF 0) 3 42 (on_gic_table 0 0)
    ltac:(lia) ltac:(simpl; lia) ltac:(lia) ltac:(done) ltac:(done)).
Defined.

(** The PE 1.0 (affinity 0x100) is not recognised: nothing is written. *)
Lemma gic_private_enable_affinity_witness :
  eval (val_bsa_gic_enableInterruptSource 3 30) (on_gic 0x80000100 0x100) tt (on_gic 0x80000100 0x100).
Proof.
  pose proof (gic_private_enable_affinity (on_gic 0x80000100 0x100) 3 gic_entries (gic_of 0xFF 0) 3 30
    (on_gic_table _ _) ltac:(by left) ltac:(simpl; lia) ltac:(lia) eq_refl ltac:(done) ltac:(done)) as P.
  vm_compute in P |- *. exact P.
Defined.

(** The waker register of this machine is memory: it holds the bit until something
    clears it, and nothing does. *)
Lemma gic_wake_up_unbounded_witness : diverges (WakeUpRD 1000) (on_gic 0 0).
Proof.
  apply (gic_wake_up_unbounded (on_gic 0 0) 3 gic_entries (gic_of 0xFF 0) 1000
    (fun d => exists u, mach_mem d !! 0x80A0014 = Some u /\ Z.testbit (u32 u) 2 = true)
    (on_gic_table 0 0)).
  - simpl; lia.
  - reflexivity.
  - reflexivity.
  - vm_compute. discriminate.
  - reflexivity.
  - reflexivity.
  - exists 4. split; reflexivity.
  - intros d (u & Hu & Hb). split; [|by exists u].
    change (Z.testbit (u32 (default 0 (mach_mem d !! 0x80A0014))) 2 = true). by rewrite Hu.
  - intros d data _ Hb. exists data. split; [apply (lookup_insert_eq (mach_mem d))|].
    unfold u32. by rewrite Z.mod_pow2_bits_low.
Defined.
