(* ===== verification/Its.v ===== *)
(** * The ITS driver of the platform layer

    src/platform/pal_uefi_dt/src_gic_its (bsa_gic_its.c, bsa_gic_redistributor.c,
    bsa_gic_its.h) and the MSI operations of src/platform/pal_uefi_dt/src/pal_gic.c:
    finding the ITS blocks, giving them their tables, and queueing the commands that
    route a message-signalled interrupt. What EDK2 provides is the class [Edk2];
    its DEBUG messages, which the release build leaves out, are not modelled. *)

From S2P Require Import Prelude Types World Status Machine.
#[local] Open Scope c_scope.

(** ** Registers and commands (bsa_gic_its.h) *)

Definition ARM_LPI_MINID : Z := 8192.
Definition ARM_LPI_MIN_IDBITS : Z := 14.
Definition ARM_LPI_MAX_IDBITS : Z := 31.
Definition WAIT_ITS_COMMAND_DONE : Z := 10000.
Definition ARM_GICD_TYPER : Z := 0x0004.
Definition ARM_GICD_TYPER_LPIS : Z := Z.shiftl 1 17.
Definition ARM_GICD_TYPER_IDbits (typer : Z) : Z := Z.land (Z.shiftr typer 19) 0x1F.
Definition ARM_GICR_CTLR : Z := 0x0000.
Definition ARM_GICR_PROPBASER : Z := 0x0070.
Definition ARM_GICR_PENDBASER : Z := 0x0078.
Definition ARM_GICR_CTLR_ENABLE_LPIS : Z := Z.shiftl 1 0.
Definition NEXT_DW_OFFSET : Z := 0x4.
Definition ARM_GICR_TYPER_PLPIS : Z := Z.shiftl 1 0.
Definition ARM_GICR_TYPER_PN_MASK : Z := 0xFFFF00.
Definition ARM_GICR_PROPBASER_IDbits (propbaser : Z) : Z := Z.land propbaser 0x1F.
Definition ARM_GICR_PROPBASER_PA_MASK : Z := Z.shiftl (Z.shiftl 1 40 - 1) 12.
Definition ARM_GICR_PENDBASER_PA_MASK : Z := Z.shiftl (Z.shiftl 1 36 - 1) 16.
Definition ARM_GITS_CTLR : Z := 0x0000.
Definition ARM_GITS_TYPER : Z := 0x0008.
Definition ARM_GITS_CBASER : Z := 0x0080.
Definition ARM_GITS_CWRITER : Z := 0x0088.
Definition ARM_GITS_CREADR : Z := 0x0090.
Definition ARM_GITS_BASER (n : Z) : Z := 0x0100 + 8 * n.
Definition ARM_GITS_TRANSLATER : Z := 0x10040.
Definition ARM_GITS_CTLR_ENABLE : Z := Z.shiftl 1 0.
Definition ARM_NUM_GITS_BASER : Z := 8.
Definition ARM_GITS_BASER_GET_TYPE (baser : Z) : Z := Z.land (Z.shiftr baser 56) 0x7.
Definition ARM_GITS_BASER_GET_ENTRY_SIZE (baser : Z) : Z := Z.land (Z.shiftr baser 48) 0x1F.
Definition ARM_GITS_BASER_PA_MASK : Z := Z.shiftl (Z.shiftl 1 36 - 1) 12.
Definition ARM_GITS_BASER_VALID : Z := Z.shiftl 1 63.
Definition ARM_GITS_TBL_TYPE_DEVICE : Z := 0x1.
Definition ARM_GITS_TBL_TYPE_CLCN : Z := 0x4.
Definition ARM_GITS_TYPER_DevBits (typer : Z) : Z := Z.land (Z.shiftr typer 13) 0x1F.
Definition ARM_GITS_TYPER_CIDBits (typer : Z) : Z := Z.land (Z.shiftr typer 32) 0xF.
Definition ARM_GITS_TYPER_IDbits (typer : Z) : Z := Z.land (Z.shiftr typer 8) 0x1F.
Definition ARM_GITS_TYPER_PTA : Z := Z.shiftl 1 19.
Definition ARM_GITS_CREADR_STALL : Z := Z.shiftl 1 0.
Definition ARM_GITS_CWRITER_RETRY : Z := Z.shiftl 1 0.
Definition ARM_GITS_CBASER_VALID : Z := Z.shiftl 1 63.
Definition ARM_GITS_CBASER_PA_MASK : Z := Z.shiftl (Z.shiftl 1 40 - 1) 12.
Definition ITT_PAR_MASK : Z := Z.shiftl (Z.shiftl 1 44 - 1) 8.
Definition GET_MIN (a b : Z) : Z := if a <? b then a else b.
Definition LPI_PRIORITY1 : Z := 0x50.
Definition LPI_PRIORITY_MASK : Z := 0xFC.
Definition LPI_ENABLE : Z := Z.shiftl 1 0.
Definition LPI_DISABLE : Z := 0x0.
Definition ARM_ITS_CMD_MAPD : Z := 0x8.
Definition ARM_ITS_CMD_MAPC : Z := 0x9.
Definition ARM_ITS_CMD_MAPI : Z := 0xB.
Definition ARM_ITS_CMD_INV : Z := 0xC.
Definition ARM_ITS_CMD_DISCARD : Z := 0xF.
Definition ARM_ITS_CMD_SYNC : Z := 0x5.
Definition NUM_PAGES_8 : Z := 8.
Definition ITS_CMD_SHIFT_DEVID : Z := 32.
Definition ITS_CMD_SHIFT_VALID : Z := 63.
Definition ITS_NEXT_CMD_PTR : Z := 4.
Definition NUM_BYTES_IN_DW : Z := 8.

(** ** What EDK2 provides *)

(** Register offsets, masks and sizes of ArmGicLib.h and ArmLib.h, status codes, the
    two page-size macros, and the library calls: [AllocateAlignedPages pages
    alignment] sees the live blocks and answers 0 on failure; [ZeroMem address
    length]. *)
Class Edk2 (D : Type) := {
  ARM_GICR_TYPER : Z;
  ARM_GICR_CTLR_FRAME_SIZE : Z;
  ARM_GICR_SGI_PPI_FRAME_SIZE : Z;
  ARM_CORE_AFF0 : Z;
  ARM_CORE_AFF1 : Z;
  ARM_CORE_AFF2 : Z;
  ARM_CORE_AFF3 : Z;
  SIZE_4KB : Z;
  SIZE_64KB : Z;
  EFI_OUT_OF_RESOURCES : Z;
  EFI_UNSUPPORTED : Z;
  EFI_ERROR : Z -> bool;
  EFI_SIZE_TO_PAGES : Z -> Z;
  EFI_PAGES_TO_SIZE : Z -> Z;
  AllocateAlignedPages : Z -> Z -> gmap Z Z -> D -> Z * D;
  ZeroMem : Z -> Z -> D -> D
}.

Definition EFI_SUCCESS : Z := 0.

Section its.
Context {D : Type} `{Platform D} `{Edk2 D}.

#[local] Abbreviation M := (M (world D)).

(** ** Access to devices and to the driver's globals *)

Definition MmioRead32 (a : Z) : M Z := let* v := from_dev (dev_read 4 a) in ret (u32 v).
Definition MmioRead64 (a : Z) : M Z := let* v := from_dev (dev_read 8 a) in ret (u64 v).
Definition MmioWrite8 (a v : Z) : M () := on_dev (dev_write 1 a (u8 v)).
Definition MmioWrite32 (a v : Z) : M () := on_dev (dev_write 4 a (u32 v)).
Definition MmioWrite64 (a v : Z) : M () := on_dev (dev_write 8 a (u64 v)).

Definition its_modify (f : its_globals -> its_globals) : M () :=
  modify (fun w => set_g_its (f (g_its w)) w).

Definition its_info : M GIC_ITS_INFO :=
  let* g := gets g_its in need (g_gic_its_info g).

Definition its_set_info (t : option GIC_ITS_INFO) : M () :=
  its_modify (fun g => mkItsGlobals (g_gic_entry g) t (g_cwriter_ptr g) (g_its_setup_done g) (ConfigBase g)).

Definition its_set_cwriter (l : option (list Z)) : M () :=
  its_modify (fun g => mkItsGlobals (g_gic_entry g) (g_gic_its_info g) l (g_its_setup_done g) (ConfigBase g)).

(** [g_gic_its_info->GicIts[ItsIndex]] *)
Definition its_at (ItsIndex : Z) : M GIC_ITS_BLOCK :=
  let* t := its_info in need (GicIts t !! Z.to_nat ItsIndex).

Definition its_put (ItsIndex : Z) (b : GIC_ITS_BLOCK) : M () :=
  let* t := its_info in
  its_set_info (Some (mkItsInfo (GicDBase t) (GicRdBase t) (GicNumIts t)
    (<[Z.to_nat ItsIndex := b]> (GicIts t)))).

(** [g_cwriter_ptr[ItsIndex]] *)
Definition cwriter_at (ItsIndex : Z) : M Z :=
  let* g := gets g_its in
  let* l := need (g_cwriter_ptr g) in
  need (l !! Z.to_nat ItsIndex).

Definition cwriter_put (ItsIndex n : Z) : M () :=
  let* g := gets g_its in
  let* l := need (g_cwriter_ptr g) in
  its_set_cwriter (Some (<[Z.to_nat ItsIndex := n]> l)).

(** A page allocation: the new block becomes live; 0 when there is no memory. *)
Definition alloc_aligned (pages alignment : Z) : M Z :=
  let* h := gets heap in
  let* a := from_dev (AllocateAlignedPages pages alignment h) in
  (when truthy a then modify (fun w => set_heap (<[a := pages * 4096]> (heap w)) w)) ;;
  ret a.

Definition zero_mem (a n : Z) : M () := on_dev (ZeroMem a n).

(** ** The redistributor (bsa_gic_redistributor.c) *)

Definition ArmGicSetItsConfigTableBase (GicDistributorBase GicRedistributorBase : Z) : M Z :=
  let* v := MmioRead64 (u64 (GicRedistributorBase + ARM_GICR_PROPBASER)) in
  let* n := int_ok (2 ^ (ARM_GICR_PROPBASER_IDbits v + 1)) in
  let ConfigTableSize := u32 (n - ARM_LPI_MINID) in
  let Pages := u32 (EFI_SIZE_TO_PAGES ConfigTableSize + 1) in
  let* h := gets heap in
  let* r := from_dev (bs_allocate_pages Pages h) in
  match r with
  | inl Status => ret Status
  | inr Address =>
      modify (fun w => set_heap (<[Address := Pages * 4096]> (heap w)) w) ;;
      zero_mem Address (EFI_PAGES_TO_SIZE Pages) ;;
      let* v := MmioRead64 (u64 (GicRedistributorBase + ARM_GICR_PROPBASER)) in
      let write_value := Z.land v (not64 ARM_GICR_PROPBASER_PA_MASK) in
      let write_value := Z.lor write_value (Z.land Address ARM_GICR_PROPBASER_PA_MASK) in
      MmioWrite64 (u64 (GicRedistributorBase + ARM_GICR_PROPBASER)) write_value ;;
      its_modify (fun g => mkItsGlobals (g_gic_entry g) (g_gic_its_info g) (g_cwriter_ptr g)
        (g_its_setup_done g) Address) ;;
      ret EFI_SUCCESS
  end.

Definition ArmGicSetItsPendingTableBase (GicDistributorBase GicRedistributorBase : Z) : M Z :=
  let* v := MmioRead64 (u64 (GicRedistributorBase + ARM_GICR_PROPBASER)) in
  let* n := int_ok (2 ^ (ARM_GICR_PROPBASER_IDbits v + 1)) in
  let PendingTableSize := n / 8 in
  let Pages := u32 (EFI_SIZE_TO_PAGES PendingTableSize + 1) in
  let* Address := alloc_aligned Pages SIZE_64KB in
  if negb (truthy Address) then ret EFI_OUT_OF_RESOURCES
  else
  zero_mem Address (EFI_PAGES_TO_SIZE Pages) ;;
  let* v := MmioRead64 (u64 (GicRedistributorBase + ARM_GICR_PENDBASER)) in
  let write_value := Z.land v (not64 ARM_GICR_PENDBASER_PA_MASK) in
  let write_value := Z.lor write_value (Z.land Address ARM_GICR_PENDBASER_PA_MASK) in
  MmioWrite64 (u64 (GicRedistributorBase + ARM_GICR_PENDBASER)) write_value ;;
  ret EFI_SUCCESS.

(** The byte of the configuration table for [IntID]; the C difference is unsigned. *)
Definition config_byte (base IntID : Z) : Z := u64 (base + u32 (IntID - ARM_LPI_MINID)).

Definition ClearConfigTable (IntID : Z) : M () :=
  let* g := gets g_its in MmioWrite8 (config_byte (ConfigBase g) IntID) LPI_DISABLE.

Definition SetConfigTable (IntID Priority : Z) : M () :=
  let value := u8 (Z.lor (Z.land Priority LPI_PRIORITY_MASK) LPI_ENABLE) in
  let* g := gets g_its in MmioWrite8 (config_byte (ConfigBase g) IntID) value.

Definition EnableLPIsRD (GicRedistributorBase : Z) : M () :=
  let* value := MmioRead32 (u64 (GicRedistributorBase + ARM_GICR_CTLR)) in
  MmioWrite32 (u64 (GicRedistributorBase + ARM_GICR_CTLR)) (Z.lor value ARM_GICR_CTLR_ENABLE_LPIS).

Definition ArmGicRedistributorConfigurationForLPI (GicDistributorBase GicRedistributorBase : Z) : M Z :=
  let* Status := ArmGicSetItsConfigTableBase GicDistributorBase GicRedistributorBase in
  if EFI_ERROR Status then ret Status
  else
  let* Status := ArmGicSetItsPendingTableBase GicDistributorBase GicRedistributorBase in
  if EFI_ERROR Status then ret Status
  else ret Status.

(** ** The ITS (bsa_gic_its.c) *)

Definition GetCurrentCpuRDBase (fuel : nat) (mGicRedistributorBase length : Z) : M Z :=
  let* Mpidr := from_dev (read_sysreg "ArmReadMpidr") in
  let CpuAffinity :=
    u32 (Z.lor (Z.land Mpidr (Z.lor (Z.lor ARM_CORE_AFF0 ARM_CORE_AFF1) ARM_CORE_AFF2))
           (Z.shiftr (Z.land Mpidr ARM_CORE_AFF3) 8)) in
  let GicRedistributorGranularity := u32 (ARM_GICR_CTLR_FRAME_SIZE + ARM_GICR_SGI_PPI_FRAME_SIZE) in
  let affinity base := MmioRead32 (u64 (base + ARM_GICR_TYPER + NEXT_DW_OFFSET)) in
  if length =? 0 then
    let* Affinity := affinity mGicRedistributorBase in
    ret (if Affinity =? CpuAffinity then mGicRedistributorBase else 0)
  else
    while_ fuel (fun GicCpuRedistributorBase =>
      if GicCpuRedistributorBase <? u64 (mGicRedistributorBase + length) then
        let* Affinity := affinity GicCpuRedistributorBase in
        ret (if Affinity =? CpuAffinity then Break GicCpuRedistributorBase
             else Continue (u64 (GicCpuRedistributorBase + GicRedistributorGranularity)))
      else ret (Break 0)) mGicRedistributorBase.

Definition ArmGICDSupportsLPIs (GicDistributorBase : Z) : M Z :=
  let* v := MmioRead32 (u64 (GicDistributorBase + ARM_GICD_TYPER)) in
  ret (Z.land v ARM_GICD_TYPER_LPIS).

Definition ArmGICRSupportsLPIs (GicRedistributorBase : Z) : M Z :=
  let* v := MmioRead32 (u64 (GicRedistributorBase + ARM_GICR_TYPER)) in
  ret (Z.land v ARM_GICR_TYPER_PLPIS).

Definition ArmGicSetItsCommandQueueBase (ItsIndex : Z) : M Z :=
  let* b := its_at ItsIndex in
  let ItsBase := its_Base b in
  let* Address := alloc_aligned (EFI_SIZE_TO_PAGES (NUM_PAGES_8 * SIZE_4KB)) SIZE_64KB in
  if negb (truthy Address) then ret EFI_OUT_OF_RESOURCES
  else
  zero_mem Address (NUM_PAGES_8 * SIZE_4KB) ;;
  its_put ItsIndex (mkIts (its_ID b) (its_Base b) (Some Address) (its_IDBits b) (its_ITTBase b)) ;;
  let* v := MmioRead64 (u64 (ItsBase + ARM_GITS_CBASER)) in
  let write_value := Z.land v (not64 ARM_GITS_CBASER_PA_MASK) in
  let write_value := Z.lor write_value (Z.land Address ARM_GITS_CBASER_PA_MASK) in
  let write_value := Z.lor write_value ARM_GITS_CBASER_VALID in
  MmioWrite64 (u64 (ItsBase + ARM_GITS_CBASER)) write_value ;;
  ret EFI_SUCCESS.

(** The body of the loop over [GITS_BASER]: [Some status] to return from it. *)
Definition its_set_table (ItsBase it : Z) : M (option Z) :=
  let* its_baser := MmioRead64 (u64 (ItsBase + ARM_GITS_BASER it)) in
  let table_type := ARM_GITS_BASER_GET_TYPE its_baser in
  let entry_size := ARM_GITS_BASER_GET_ENTRY_SIZE its_baser in
  let* its_typer := MmioRead64 (u64 (ItsBase + ARM_GITS_TYPER)) in
  let fill (bits : Z) : M (option Z) :=
    let* n := int_ok (2 ^ (bits + 1)) in
    let TableSize := u32 (n * (entry_size + 1)) in
    let Pages := u32 (EFI_SIZE_TO_PAGES TableSize) in
    let* Address := alloc_aligned Pages SIZE_64KB in
    if negb (truthy Address) then ret (Some EFI_OUT_OF_RESOURCES)
    else
    zero_mem Address (EFI_PAGES_TO_SIZE Pages) ;;
    let* v := MmioRead64 (u64 (ItsBase + ARM_GITS_BASER it)) in
    let write_value := Z.land v (not64 ARM_GITS_BASER_PA_MASK) in
    let write_value := Z.lor write_value (Z.land Address ARM_GITS_BASER_PA_MASK) in
    let write_value := Z.lor write_value ARM_GITS_BASER_VALID in
    let write_value := Z.lor write_value (u32 (Pages - 1)) in
    MmioWrite64 (u64 (ItsBase + ARM_GITS_BASER it)) write_value ;;
    ret None in
  if table_type =? ARM_GITS_TBL_TYPE_DEVICE then fill (ARM_GITS_TYPER_DevBits its_typer)
  else if table_type =? ARM_GITS_TBL_TYPE_CLCN then fill (ARM_GITS_TYPER_CIDBits its_typer)
  else ret None.

Definition ArmGicSetItsTables (ItsIndex : Z) : M Z :=
  let* b := its_at ItsIndex in
  let* r := for_ (Z.to_nat ARM_NUM_GITS_BASER) 0 (fun it _ =>
    let* r := its_set_table (its_Base b) it in
    ret (match r with Some status => Break status | None => Continue tt end)) tt in
  match r with
  | Break status => ret status
  | Continue _ =>
      let* Address := alloc_aligned (EFI_SIZE_TO_PAGES (NUM_PAGES_8 * SIZE_4KB)) SIZE_64KB in
      if negb (truthy Address) then ret EFI_OUT_OF_RESOURCES
      else
      zero_mem Address (NUM_PAGES_8 * SIZE_4KB) ;;
      let* b := its_at ItsIndex in
      its_put ItsIndex (mkIts (its_ID b) (its_Base b) (its_CommandQBase b) (its_IDBits b) (Some Address)) ;;
      ret EFI_SUCCESS
  end.

Definition EnableITS (GicItsBase : Z) : M () :=
  let* value := MmioRead32 (u64 (GicItsBase + ARM_GITS_CTLR)) in
  MmioWrite32 (u64 (GicItsBase + ARM_GITS_CTLR)) (Z.lor value ARM_GITS_CTLR_ENABLE).

(** *** Commands: four doublewords each, at the write pointer *)

Definition write_cmd (ItsIndex CMDQ_BASE dw0 dw1 dw2 dw3 : Z) : M () :=
  let* n := cwriter_at ItsIndex in
  MmioWrite64 (u64 (CMDQ_BASE + 8 * n)) dw0 ;;
  MmioWrite64 (u64 (CMDQ_BASE + 8 * n + 8)) dw1 ;;
  MmioWrite64 (u64 (CMDQ_BASE + 8 * n + 16)) dw2 ;;
  MmioWrite64 (u64 (CMDQ_BASE + 8 * n + 24)) dw3 ;;
  cwriter_put ItsIndex (u32 (n + ITS_NEXT_CMD_PTR)).

Definition WriteCmdQMAPD (ItsIndex CMDQ_BASE DevID ITT_BASE Size Valid : Z) : M () :=
  write_cmd ItsIndex CMDQ_BASE (Z.lor (Z.shiftl DevID ITS_CMD_SHIFT_DEVID) ARM_ITS_CMD_MAPD) Size
    (Z.lor (Z.shiftl Valid ITS_CMD_SHIFT_VALID) (Z.land ITT_BASE ITT_PAR_MASK)) 0.

(** [RDBase] is a [UINT32] parameter. *)
Definition WriteCmdQMAPC (ItsIndex CMDQ_BASE DevID Clctn_ID RDBase Valid : Z) : M () :=
  write_cmd ItsIndex CMDQ_BASE ARM_ITS_CMD_MAPC 0
    (Z.lor (Z.lor (Z.shiftl Valid ITS_CMD_SHIFT_VALID) (u32 RDBase)) Clctn_ID) 0.

Definition WriteCmdQMAPI (ItsIndex CMDQ_BASE DevID IntID Clctn_ID : Z) : M () :=
  write_cmd ItsIndex CMDQ_BASE (Z.lor (Z.shiftl DevID ITS_CMD_SHIFT_DEVID) ARM_ITS_CMD_MAPI) IntID
    Clctn_ID 0.

Definition WriteCmdQINV (ItsIndex CMDQ_BASE DevID IntID : Z) : M () :=
  write_cmd ItsIndex CMDQ_BASE (Z.lor (Z.shiftl DevID ITS_CMD_SHIFT_DEVID) ARM_ITS_CMD_INV) IntID 0 0.

Definition WriteCmdQDISCARD (ItsIndex CMDQ_BASE DevID IntID : Z) : M () :=
  write_cmd ItsIndex CMDQ_BASE (Z.lor (Z.shiftl DevID ITS_CMD_SHIFT_DEVID) ARM_ITS_CMD_DISCARD) IntID 0 0.

Definition WriteCmdQSYNC (ItsIndex CMDQ_BASE RDBase : Z) : M () :=
  write_cmd ItsIndex CMDQ_BASE ARM_ITS_CMD_SYNC 0 (u32 RDBase) 0.

Definition PollTillCommandQueueDone (fuel : nat) (ItsIndex : Z) : M () :=
  let* b := its_at ItsIndex in
  let ItsBase := its_Base b in
  let* cwriter_value := MmioRead64 (u64 (ItsBase + ARM_GITS_CWRITER)) in
  let* creadr_value := MmioRead64 (u64 (ItsBase + ARM_GITS_CREADR)) in
  while_ fuel (fun '(count, creadr_value) =>
    if creadr_value =? cwriter_value then ret (Break tt)
    else
    (when truthy (Z.land creadr_value ARM_GITS_CREADR_STALL) then
       MmioWrite64 (u64 (ItsBase + ARM_GITS_CWRITER)) (Z.lor cwriter_value ARM_GITS_CWRITER_RETRY)) ;;
    let count := count + 1 in
    if WAIT_ITS_COMMAND_DONE <? count then ret (Break tt)
    else
    let* creadr_value := MmioRead64 (u64 (ItsBase + ARM_GITS_CREADR)) in
    ret (Continue (count, creadr_value))) (0, creadr_value).

(** The value read is kept in a [UINT32]. *)
Definition GetRDBaseFormat (ItsIndex : Z) : M Z :=
  let* b := its_at ItsIndex in
  let* v := MmioRead64 (u64 (its_Base b + ARM_GITS_TYPER)) in
  let* t := its_info in
  if truthy (Z.land (u32 v) ARM_GITS_TYPER_PTA) then ret (GicRdBase t)
  else
    let* v := MmioRead64 (u64 (GicRdBase t + ARM_GICR_TYPER)) in
    ret (Z.land (u32 v) ARM_GICR_TYPER_PN_MASK).

(** [CWRITER] gets the offset of the write pointer in bytes. *)
Definition its_publish (ItsIndex ItsBase : Z) : M () :=
  let* n := cwriter_at ItsIndex in
  MmioWrite64 (u64 (ItsBase + ARM_GITS_CWRITER)) (u32 (n * NUM_BYTES_IN_DW)).

Definition ArmGicItsClearLpiMappings (fuel : nat) (ItsIndex DevID IntID : Z) : M () :=
  let* g := gets g_its in
  if negb (truthy (g_its_setup_done g)) then ret tt
  else
  let* b := its_at ItsIndex in
  let ItsBase := its_Base b in
  let* ItsCommandBase := need (its_CommandQBase b) in
  ClearConfigTable IntID ;;
  let* RDBase := GetRDBaseFormat ItsIndex in
  WriteCmdQDISCARD ItsIndex ItsCommandBase DevID IntID ;;
  WriteCmdQSYNC ItsIndex ItsCommandBase RDBase ;;
  its_publish ItsIndex ItsBase ;;
  PollTillCommandQueueDone fuel ItsIndex.

Definition ArmGicItsCreateLpiMap (fuel : nat) (ItsIndex DevID IntID Priority : Z) : M () :=
  let* g := gets g_its in
  if negb (truthy (g_its_setup_done g)) then ret tt
  else
  let* b := its_at ItsIndex in
  let ItsBase := its_Base b in
  let* ItsCommandBase := need (its_CommandQBase b) in
  SetConfigTable IntID Priority ;;
  let* t := its_info in
  EnableLPIsRD (GicRdBase t) ;;
  EnableITS ItsBase ;;
  let* RDBase := GetRDBaseFormat ItsIndex in
  let* b := its_at ItsIndex in
  let* ITTBase := need (its_ITTBase b) in
  let* IDBits := need (its_IDBits b) in
  WriteCmdQMAPD ItsIndex ItsCommandBase DevID ITTBase IDBits 0x1 ;;
  WriteCmdQMAPC ItsIndex ItsCommandBase DevID 0x1 RDBase 0x1 ;;
  WriteCmdQMAPI ItsIndex ItsCommandBase DevID IntID 0x1 ;;
  WriteCmdQINV ItsIndex ItsCommandBase DevID IntID ;;
  WriteCmdQSYNC ItsIndex ItsCommandBase RDBase ;;
  its_publish ItsIndex ItsBase ;;
  PollTillCommandQueueDone fuel ItsIndex.

Definition ArmGicItsGetMaxLpiID : M Z :=
  let* g := gets g_its in
  match g_gic_its_info g with
  | None => ret 0
  | Some t =>
      if GicNumIts t =? 0 then ret 0
      else if negb (truthy (g_its_setup_done g)) then ret 0
      else
      let* min_idbits := for_acc (Z.to_nat (GicNumIts t)) 0 (fun index min_idbits =>
        let* b := its_at index in
        let* IDBits := need (its_IDBits b) in
        ret (if min_idbits <? IDBits then min_idbits else IDBits)) ARM_LPI_MAX_IDBITS in
      let* n := int_ok (2 ^ (min_idbits + 1)) in
      ret (n - 1)
  end.

Definition ArmGicItsGetGITSTranslatorAddress (ItsIndex : Z) : M Z :=
  let* b := its_at ItsIndex in ret (u64 (its_Base b + ARM_GITS_TRANSLATER)).

Definition SetInitialConfiguration (ItsIndex : Z) : M Z :=
  let* b := its_at ItsIndex in
  let* t := its_info in
  let* v := MmioRead32 (u64 (GicDBase t + ARM_GICD_TYPER)) in
  let gicd_typer_idbits := ARM_GICD_TYPER_IDbits v in
  let* v := MmioRead64 (u64 (its_Base b + ARM_GITS_TYPER)) in
  let gits_typer_bits := ARM_GITS_TYPER_IDbits v in
  let idbits := GET_MIN gicd_typer_idbits gits_typer_bits in
  if idbits <? ARM_LPI_MIN_IDBITS then ret EFI_UNSUPPORTED
  else
  let* v := MmioRead64 (u64 (GicRdBase t + ARM_GICR_PROPBASER)) in
  let write_value := Z.lor v idbits in
  its_put ItsIndex (mkIts (its_ID b) (its_Base b) (its_CommandQBase b) (Some idbits) (its_ITTBase b)) ;;
  MmioWrite64 (u64 (GicRdBase t + ARM_GICR_PROPBASER)) write_value ;;
  ret EFI_SUCCESS.

(** [for (index = 0; index < GicNumIts; index++) { Status = f(index); if
    (EFI_ERROR(Status)) return Status; }] *)
Definition for_its (f : Z -> M Z) : M (option Z) :=
  let* t := its_info in
  let* r := for_ (Z.to_nat (GicNumIts t)) 0 (fun index _ =>
    let* Status := f index in
    ret (if EFI_ERROR Status then Break Status else Continue tt)) tt in
  ret (match r with Break Status => Some Status | Continue _ => None end).

Definition ArmGicItsConfiguration : M Z :=
  let* t := its_info in
  let* h := gets heap in
  let size := u64 (4 * GicNumIts t) in
  let* r := from_dev (bs_allocate_pool size h) in
  match r with
  | inl _ => its_set_cwriter None ;; ret EFI_OUT_OF_RESOURCES
  | inr p =>
      modify (fun w => set_heap (<[p := size]> (heap w)) w) ;;
      its_set_cwriter (Some (repeat 0 (Z.to_nat (GicNumIts t)))) ;;
      let* r := for_its SetInitialConfiguration in
      match r with
      | Some Status => ret Status
      | None =>
          let* t := its_info in
          let* Status := ArmGicRedistributorConfigurationForLPI (GicDBase t) (GicRdBase t) in
          if EFI_ERROR Status then ret Status
          else
          let* r := for_its (fun index =>
            let* Status := ArmGicSetItsCommandQueueBase index in
            if EFI_ERROR Status then ret Status else ArmGicSetItsTables index) in
          match r with
          | Some Status => ret Status
          | None =>
              its_modify (fun g => mkItsGlobals (g_gic_entry g) (g_gic_its_info g) (g_cwriter_ptr g)
                1 (ConfigBase g)) ;;
              ret EFI_SUCCESS
          end
      end
  end.

(** ** MSI operations (pal_gic.c) *)

(** [pal_mem_alloc(1024)] holds a header of 24 bytes and 25 blocks of 40. *)
Definition ITS_CAPACITY : nat := 25.

(** What the pointer [g_gic_entry] points to. *)
Definition gic_entry_ptr : M GIC_INFO_ENTRY :=
  let* g := gets g_its in
  let* i := need (g_gic_entry g) in
  let* t := gets g_gic_info_table in
  let* t := need t in
  need (gic_info t !! Z.to_nat i).

(** The body of the loop over the GIC table. *)
Definition its_note_entry (fuel : nat) (e : GIC_INFO_ENTRY) (t : GIC_ITS_INFO) : M GIC_ITS_INFO :=
  if gic_type e =? ENTRY_TYPE_GICD then
    ret (mkItsInfo (gic_base e) (GicRdBase t) (GicNumIts t) (GicIts t))
  else if (gic_type e =? ENTRY_TYPE_GICR_GICRD) || (gic_type e =? ENTRY_TYPE_GICC_GICRD) then
    if GicRdBase t =? 0 then
      let* rd :=
        GetCurrentCpuRDBase fuel (gic_base e)
          (if gic_type e =? ENTRY_TYPE_GICR_GICRD then u32 (gic_length e) else 0) in
      ret (mkItsInfo (GicDBase t) rd (GicNumIts t) (GicIts t))
    else ret t
  else if gic_type e =? ENTRY_TYPE_GICITS then
    if decide (length (GicIts t) < ITS_CAPACITY)%nat then
      ret (mkItsInfo (GicDBase t) (GicRdBase t) (GicNumIts t + 1)
        (GicIts t ++ [mkIts (gic_entry_id e) (gic_base e) None None None]))
    else fault
  else ret t.

Definition its_fail : M Z :=
  bsa_print ACS_PRINT_DEBUG "GIC ITS Initialization Failed.\n" 0 ;;
  bsa_print ACS_PRINT_DEBUG "LPI Interrupt related test may not pass.\n" 0 ;;
  ret 0xFFFFFFFF.

(** The walk advances [g_gic_entry] itself. *)
Definition its_scan (fuel : nat) : M () :=
  while_ fuel (fun _ =>
    let* e := gic_entry_ptr in
    if gic_type e =? 0xFF then ret (Break tt)
    else
    let* t := its_info in
    let* t := its_note_entry fuel e t in
    its_set_info (Some t) ;;
    its_modify (fun g => mkItsGlobals (Z.succ <$> g_gic_entry g) (g_gic_its_info g)
      (g_cwriter_ptr g) (g_its_setup_done g) (ConfigBase g)) ;;
    ret (Continue tt)) tt.

(** The configuration, given the walk that fills the description of the ITSs. *)
Definition its_configure (scan : M ()) : M Z :=
  let* p := pal_mem_alloc 1024 in
  if p =? 0 then
    its_set_info None ;;
    bsa_print ACS_PRINT_DEBUG "GIC : ITS table memory allocation failed\n" 0 ;;
    its_fail
  else
  its_set_info (Some (mkItsInfo 0 0 0 [])) ;;
  scan ;;
  let* t := its_info in
  if GicNumIts t =? 0 then
    bsa_print ACS_PRINT_DEBUG "No ITS Found in the MADT.\n" 0 ;; its_fail
  else if (GicRdBase t =? 0) || (GicDBase t =? 0) then
    bsa_print ACS_PRINT_DEBUG "Could not get GICD/GICRD Base.\n" 0 ;; its_fail
  else
  let* d := ArmGICDSupportsLPIs (GicDBase t) in
  let* lpis :=
    if truthy d then let* r := ArmGICRSupportsLPIs (GicRdBase t) in ret (truthy r)
    else ret false in
  if lpis then
    let* Status := ArmGicItsConfiguration in
    if EFI_ERROR Status then
      bsa_print ACS_PRINT_DEBUG "Could Not Configure ITS.\n" 0 ;; its_fail
    else ret 0
  else
    bsa_print ACS_PRINT_DEBUG "LPIs not supported in the system.\n" 0 ;; its_fail.

Definition pal_gic_its_configure (fuel : nat) : M Z := its_configure (its_scan fuel).

Definition pal_gic_get_max_lpi_id : M Z := ArmGicItsGetMaxLpiID.

(** The first block with the identifier; 0xFFFFFFFF when there is none. *)
Definition getItsIndex (ItsID : Z) : M Z :=
  let* t := its_info in
  let* r := for_ (Z.to_nat (GicNumIts t)) 0 (fun index _ =>
    let* b := its_at index in
    ret (if ItsID =? its_ID b then Break index else Continue tt)) tt in
  ret (match r with Break index => index | Continue _ => 0xFFFFFFFF end).

(** The checks shared by the two operations on MSIs: the index of the ITS. *)
Definition msi_its (ItsID : Z) : M (option Z) :=
  let* g := gets g_its in
  match g_gic_its_info g with
  | None => ret None
  | Some t =>
      if GicNumIts t =? 0 then ret None
      else
      let* ItsIndex := getItsIndex ItsID in
      if GicNumIts t <? ItsIndex then
        bsa_print ACS_PRINT_ERR "\n       Could not find ITS block in MADT" 0 ;; ret None
      else if (GicRdBase t =? 0) || (GicDBase t =? 0) then
        bsa_print ACS_PRINT_DEBUG "GICD/GICRD Base Invalid value.\n" 0 ;; ret None
      else ret (Some ItsIndex)
  end.

(** Status, and what is written to [*msi_addr] and [*msi_data]: 32 bits each. *)
Definition pal_gic_request_msi (fuel : nat) (ItsID DevID IntID msi_index : Z)
  : M (Z * option (Z * Z)) :=
  let* i := msi_its ItsID in
  match i with
  | None => ret (0xFFFFFFFF, None)
  | Some ItsIndex =>
      ArmGicItsCreateLpiMap fuel ItsIndex DevID IntID LPI_PRIORITY1 ;;
      let* a := ArmGicItsGetGITSTranslatorAddress ItsIndex in
      ret (0, Some (u32 a, IntID))
  end.

Definition pal_gic_free_msi (fuel : nat) (ItsID DevID IntID msi_index : Z) : M () :=
  let* i := msi_its ItsID in
  match i with
  | None => ret tt
  | Some ItsIndex => ArmGicItsClearLpiMappings fuel ItsIndex DevID IntID
  end.

End its.

(** ** Commands, specified

    The commands of the ITS as the GIC architecture lays them out, and the
    doublewords that carry them. *)
Inductive its_command :=
| MAPD (dev itt size : Z)
| MAPC (icid rdbase : Z)
| MAPI (dev event icid : Z)
| INV (dev event : Z)
| DISCARD (dev event : Z)
| SYNC (rdbase : Z).

(** The fields: device identifier in bits 63-32 of the first doubleword, event in
    the second, collection in bits 15-0 and redistributor in bits 50-16 of the third,
    translation table in its bits 51-8, the valid bit in its bit 63. *)
Definition cmd_opcode (dw0 : Z) : Z := dw0 mod 2 ^ 8.
Definition cmd_device (dw0 : Z) : Z := dw0 / 2 ^ 32.
Definition cmd_icid (dw2 : Z) : Z := dw2 mod 2 ^ 16.
Definition cmd_rdbase (dw2 : Z) : Z := dw2 / 2 ^ 16 mod 2 ^ 35.
Definition cmd_itt (dw2 : Z) : Z := dw2 mod 2 ^ 52 / 2 ^ 8.
Definition cmd_valid (dw2 : Z) : bool := Z.testbit dw2 63.

(** What the driver stores for each of them: the code passes the value it calls
    [RDBase] for the redistributor. *)
Definition its_words (c : its_command) : Z * Z * Z :=
  match c with
  | MAPD dev itt size =>
      (u64 (Z.lor (Z.shiftl dev 32) 0x8), u64 size, u64 (Z.lor (Z.shiftl 1 63) (Z.land itt ITT_PAR_MASK)))
  | MAPC icid rd => (0x9, 0, u64 (Z.lor (Z.lor (Z.shiftl 1 63) (u32 rd)) icid))
  | MAPI dev event icid => (u64 (Z.lor (Z.shiftl dev 32) 0xB), u64 event, u64 icid)
  | INV dev event => (u64 (Z.lor (Z.shiftl dev 32) 0xC), u64 event, 0)
  | DISCARD dev event => (u64 (Z.lor (Z.shiftl dev 32) 0xF), u64 event, 0)
  | SYNC rd => (0x5, 0, u32 rd)
  end.

Section commands.
Context {D : Type} `{Platform D} `{Edk2 D}.

(** Storing a command, or several, at an address of the queue. *)
Definition put_command (a : Z) (c : its_command) (d : D) : D :=
  let '(dw0, dw1, dw2) := its_words c in
  dev_write 8 (u64 (a + 24)) 0 (dev_write 8 (u64 (a + 16)) dw2
    (dev_write 8 (u64 (a + 8)) dw1 (dev_write 8 (u64 a) dw0 d))).

Fixpoint put_commands (a : Z) (cs : list its_command) (d : D) : D :=
  match cs with
  | [] => d
  | c :: cs => put_commands (a + 32) cs (put_command a c d)
  end.

(** Setting a bit of a 32-bit register. *)
Definition set_bit (a bit : Z) (d : D) : D :=
  let r := dev_read 4 a d in dev_write 4 a (u32 (Z.lor (u32 (fst r)) bit)) (snd r).

(** The value for the redistributor: its address, or bits of its type register. *)
Definition rdbase_of (base rd : Z) (d : D) : Z * D :=
  let r := dev_read 8 (u64 (base + ARM_GITS_TYPER)) d in
  if truthy (Z.land (u32 (u64 (fst r))) ARM_GITS_TYPER_PTA) then (rd, snd r)
  else
  let r := dev_read 8 (u64 (rd + ARM_GICR_TYPER)) (snd r) in
  (Z.land (u32 (u64 (fst r))) ARM_GICR_TYPER_PN_MASK, snd r).

(** At most [n] more looks at the read pointer until it meets [goal]; a stalled queue
    is told to retry at every look. *)
Definition retry_stalled (base goal creadr : Z) (d : D) : D :=
  if truthy (Z.land creadr ARM_GITS_CREADR_STALL)
  then dev_write 8 (u64 (base + ARM_GITS_CWRITER)) (u64 (Z.lor goal ARM_GITS_CWRITER_RETRY)) d
  else d.

Fixpoint poll_creadr (n : nat) (base goal creadr : Z) (d : D) : D :=
  if creadr =? goal then d
  else
  let d := retry_stalled base goal creadr d in
  match n with
  | O => d
  | S n => let r := dev_read 8 (u64 (base + ARM_GITS_CREADR)) d in
           poll_creadr n base goal (u64 (fst r)) (snd r)
  end.

Definition poll_queue (base : Z) (d : D) : D :=
  let w := dev_read 8 (u64 (base + ARM_GITS_CWRITER)) d in
  let r := dev_read 8 (u64 (base + ARM_GITS_CREADR)) (snd w) in
  poll_creadr (Z.to_nat WAIT_ITS_COMMAND_DONE) base (u64 (fst w)) (u64 (fst r)) (snd r).

(** ** The driver's state around a batch of commands *)

(** ITS [i] is set up, its block is [b], with queue [q], and the rest is [t]. *)
Definition its_is (g : its_globals) (t : GIC_ITS_INFO) (i : Z) (b : GIC_ITS_BLOCK) (q : Z) : Prop :=
  g_its_setup_done g <> 0 /\ g_gic_its_info g = Some t /\ GicIts t !! Z.to_nat i = Some b /\
  its_CommandQBase b = Some q /\
  exists l n, g_cwriter_ptr g = Some l /\ l !! Z.to_nat i = Some n.

(** The write pointer of ITS [i] set to [n]. *)
Definition with_cwriter (i n : Z) (g : its_globals) : its_globals :=
  mkItsGlobals (g_gic_entry g) (g_gic_its_info g) (<[Z.to_nat i := n]> <$> g_cwriter_ptr g)
    (g_its_setup_done g) (ConfigBase g).

(** The program [w], the device and the write pointer changed. *)
Definition its_state (w : world D) (i : Z) (d : D) (n : Z) : world D :=
  set_g_its (with_cwriter i n (g_its w)) (set_dev d w).

Context (w : world D) (t : GIC_ITS_INFO) (i : Z) (b : GIC_ITS_BLOCK) (q : Z)
  (Hw : its_is (g_its w) t i b q).

Lemma with_cwriter_twice n m g : with_cwriter i n (with_cwriter i m g) = with_cwriter i n g.
Proof.
  unfold with_cwriter. cbn. f_equal. destruct (g_cwriter_ptr g) as [l|]; [|done].
  cbn. by rewrite list_insert_insert_eq.
Qed.

Lemma its_state_set d n m : set_g_its (with_cwriter i m (g_its (its_state w i d n))) (its_state w i d n) = its_state w i d m.
Proof. unfold its_state. cbn [g_its set_g_its]. by rewrite with_cwriter_twice. Qed.

Lemma its_state_start n l :
  g_cwriter_ptr (g_its w) = Some l -> l !! Z.to_nat i = Some n -> w = its_state w i (dev w) n.
Proof.
  intros Hl Hn. unfold its_state, with_cwriter. rewrite Hl. cbn. rewrite list_insert_id by done.
  rewrite <- Hl. destruct w as [? ? ? ? ? ? ? ? ? ? ? ? ? ? ? ? ? ? ? ? ? ? ? ? ? ? ? ? ? ? ? ? ? g]. by destruct g.
Qed.

Lemma eval_MmioRead32 a d n :
  eval (MmioRead32 a) (its_state w i d n) (u32 (fst (dev_read 4 a d))) (its_state w i (snd (dev_read 4 a d)) n).
Proof. by split. Qed.
Lemma eval_MmioRead64 a d n :
  eval (MmioRead64 a) (its_state w i d n) (u64 (fst (dev_read 8 a d))) (its_state w i (snd (dev_read 8 a d)) n).
Proof. by split. Qed.
Lemma eval_MmioWrite8 a v d n :
  eval (MmioWrite8 a v) (its_state w i d n) tt (its_state w i (dev_write 1 a (u8 v) d) n).
Proof. by split. Qed.
Lemma eval_MmioWrite32 a v d n :
  eval (MmioWrite32 a v) (its_state w i d n) tt (its_state w i (dev_write 4 a (u32 v) d) n).
Proof. by split. Qed.
Lemma eval_MmioWrite64 a v d n :
  eval (MmioWrite64 a v) (its_state w i d n) tt (its_state w i (dev_write 8 a (u64 v) d) n).
Proof. by split. Qed.

Lemma eval_its_info d n : eval its_info (its_state w i d n) t (its_state w i d n).
Proof. destruct Hw as (_ & Ht & _). unfold its_info. eapply eval_bind; [by apply eval_gets|]. by apply eval_need. Qed.

Lemma eval_its_at d n : eval (its_at i) (its_state w i d n) b (its_state w i d n).
Proof.
  unfold its_at. eapply eval_bind; [apply eval_its_info|]. destruct Hw as (_ & _ & Hb & _). by apply eval_need.
Qed.

Lemma eval_cwriter_at d n : eval (cwriter_at i) (its_state w i d n) n (its_state w i d n).
Proof.
  destruct Hw as (_ & _ & _ & _ & l & m & Hl & Hm).
  unfold cwriter_at. eapply eval_bind; [by apply eval_gets|].
  eapply eval_bind; [apply eval_need; cbn; by rewrite Hl|].
  apply eval_need, list_lookup_insert_eq. by eapply lookup_lt_Some.
Qed.

Lemma eval_cwriter_put d n m : eval (cwriter_put i m) (its_state w i d n) tt (its_state w i d m).
Proof.
  destruct Hw as (_ & _ & _ & _ & l & k & Hl & Hk).
  unfold cwriter_put. eapply eval_bind; [by apply eval_gets|].
  eapply eval_bind; [apply eval_need; cbn; by rewrite Hl|].
  unfold its_set_cwriter, its_modify. apply wp_modify. split; [done|].
  rewrite <- (its_state_set d n m). unfold its_state, with_cwriter. cbn. by rewrite Hl.
Qed.

Lemma eval_its_write_cmd q0 dw0 dw1 dw2 d n :
  eval (write_cmd i q0 dw0 dw1 dw2 0) (its_state w i d n) tt
    (its_state w i (dev_write 8 (u64 (q0 + 8 * n + 24)) 0 (dev_write 8 (u64 (q0 + 8 * n + 16)) (u64 dw2)
      (dev_write 8 (u64 (q0 + 8 * n + 8)) (u64 dw1) (dev_write 8 (u64 (q0 + 8 * n)) (u64 dw0) d))))
      (u32 (n + 4))).
Proof.
  unfold write_cmd. eapply eval_bind; [apply eval_cwriter_at|].
  do 4 (eapply eval_bind; [apply eval_MmioWrite64|]). apply eval_cwriter_put.
Qed.

(** Each command goes to the write pointer. *)
Lemma eval_mapd dev itt size d n :
  eval (WriteCmdQMAPD i q dev itt size 1) (its_state w i d n) tt
    (its_state w i (put_command (q + 8 * n) (MAPD dev itt size) d) (u32 (n + 4))).
Proof. apply eval_its_write_cmd. Qed.

Lemma eval_mapc dev icid rd d n :
  eval (WriteCmdQMAPC i q dev icid rd 1) (its_state w i d n) tt
    (its_state w i (put_command (q + 8 * n) (MAPC icid rd) d) (u32 (n + 4))).
Proof. apply (eval_its_write_cmd q). Qed.

Lemma eval_mapi dev event icid d n :
  eval (WriteCmdQMAPI i q dev event icid) (its_state w i d n) tt
    (its_state w i (put_command (q + 8 * n) (MAPI dev event icid) d) (u32 (n + 4))).
Proof. apply eval_its_write_cmd. Qed.

Lemma eval_inv dev event d n :
  eval (WriteCmdQINV i q dev event) (its_state w i d n) tt
    (its_state w i (put_command (q + 8 * n) (INV dev event) d) (u32 (n + 4))).
Proof. apply eval_its_write_cmd. Qed.

Lemma eval_discard dev event d n :
  eval (WriteCmdQDISCARD i q dev event) (its_state w i d n) tt
    (its_state w i (put_command (q + 8 * n) (DISCARD dev event) d) (u32 (n + 4))).
Proof. apply eval_its_write_cmd. Qed.

Lemma u64_u32 x : u64 (u32 x) = u32 x.
Proof. apply u64_id. unfold fits, u32. pose proof (Z.mod_pos_bound x (2 ^ 32)). lia. Qed.

Lemma eval_sync rd d n :
  eval (WriteCmdQSYNC i q rd) (its_state w i d n) tt
    (its_state w i (put_command (q + 8 * n) (SYNC rd) d) (u32 (n + 4))).
Proof.
  pose proof (eval_its_write_cmd q ARM_ITS_CMD_SYNC 0 (u32 rd) d n) as P. rewrite u64_u32 in P. exact P.
Qed.

Lemma eval_set_bit a bit d n :
  eval (let* value := MmioRead32 a in MmioWrite32 a (Z.lor value bit)) (its_state w i d n) tt
    (its_state w i (set_bit a bit d) n).
Proof. by split. Qed.

Lemma eval_GetRDBaseFormat d n :
  let r := rdbase_of (its_Base b) (GicRdBase t) d in
  eval (GetRDBaseFormat i) (its_state w i d n) (fst r) (its_state w i (snd r) n).
Proof.
  unfold GetRDBaseFormat, rdbase_of. eapply eval_bind; [apply eval_its_at|].
  eapply eval_bind; [apply eval_MmioRead64|]. eapply eval_bind; [apply eval_its_info|].
  destruct (truthy _); [by split|]. by eapply eval_bind; [apply eval_MmioRead64|].
Qed.

Lemma eval_publish d n :
  eval (its_publish i (its_Base b)) (its_state w i d n) tt
    (its_state w i (dev_write 8 (u64 (its_Base b + ARM_GITS_CWRITER)) (u32 (n * 8)) d) n).
Proof.
  unfold its_publish. eapply eval_bind; [apply eval_cwriter_at|]. change NUM_BYTES_IN_DW with 8.
  pose proof (eval_MmioWrite64 (u64 (its_Base b + ARM_GITS_CWRITER)) (u32 (n * 8)) d n) as P.
  rewrite u64_u32 in P. exact P.
Qed.

Lemma eval_retry_stalled base goal c d n :
  eval (when truthy (Z.land c ARM_GITS_CREADR_STALL) then
          MmioWrite64 (u64 (base + ARM_GITS_CWRITER)) (Z.lor goal ARM_GITS_CWRITER_RETRY))
    (its_state w i d n) tt (its_state w i (retry_stalled base goal c d) n).
Proof. unfold retry_stalled. by destruct (truthy _); [apply eval_MmioWrite64|apply eval_ret]. Qed.

(** The wait looks at the read pointer at most [WAIT_ITS_COMMAND_DONE] times more. *)
Lemma eval_poll_creadr k base goal fuel c d n :
  (k < fuel)%nat ->
  eval (while_ fuel (fun '(count, creadr_value) =>
      if creadr_value =? goal then ret (Break tt)
      else
      (when truthy (Z.land creadr_value ARM_GITS_CREADR_STALL) then
         MmioWrite64 (u64 (base + ARM_GITS_CWRITER)) (Z.lor goal ARM_GITS_CWRITER_RETRY)) ;;
      let count := count + 1 in
      if WAIT_ITS_COMMAND_DONE <? count then ret (Break tt)
      else
      let* creadr_value := MmioRead64 (u64 (base + ARM_GITS_CREADR)) in
      ret (Continue (count, creadr_value))) (WAIT_ITS_COMMAND_DONE - Z.of_nat k, c))
    (its_state w i d n) tt (its_state w i (poll_creadr k base goal c d) n).
Proof.
  revert fuel c d. induction k as [|k IH]; intros [|fuel] c d Hf; try lia; cbn [while_ poll_creadr];
    (destruct (c =? goal) eqn:Hc; [by eapply eval_bind; [by apply eval_ret|]|]).
  all: eapply wp_bind, wp_bind, wp_eval; [apply eval_retry_stalled|]; cbv zeta beta.
  - replace (WAIT_ITS_COMMAND_DONE <? _) with true by (symmetry; apply Z.ltb_lt; lia). wp_step. by split.
  - replace (WAIT_ITS_COMMAND_DONE <? _) with false by (symmetry; apply Z.ltb_ge; lia).
    eapply wp_bind, wp_eval; [apply eval_MmioRead64|]. wp_step.
    replace (WAIT_ITS_COMMAND_DONE - Z.of_nat (S k) + 1) with (WAIT_ITS_COMMAND_DONE - Z.of_nat k) by lia.
    apply IH. lia.
Qed.

Lemma eval_poll fuel d n :
  WAIT_ITS_COMMAND_DONE < Z.of_nat fuel ->
  eval (PollTillCommandQueueDone fuel i) (its_state w i d n) tt (its_state w i (poll_queue (its_Base b) d) n).
Proof.
  intros Hf. unfold PollTillCommandQueueDone, poll_queue. eapply eval_bind; [apply eval_its_at|].
  do 2 (eapply eval_bind; [apply eval_MmioRead64|]).
  pose proof (eval_poll_creadr (Z.to_nat WAIT_ITS_COMMAND_DONE)) as P.
  rewrite Z2Nat.id, Z.sub_diag in P by done. apply P. apply Nat2Z.inj_lt. by rewrite Z2Nat.id.
Qed.

(** *** Mapping and unmapping an interrupt *)

(** C28: Routing an interrupt to a device writes its byte of the configuration table,
    enables LPIs in the redistributor and the ITS, and stores at the write pointer the
    commands that map the device, a collection and the event, then invalidate and
    synchronise; only then does it publish the new write pointer and wait. The wait
    ends whatever the ITS answers, after at most [WAIT_ITS_COMMAND_DONE] looks. The
    write pointer grows by twenty doublewords and is not wrapped at the end of the
    queue, whatever its size. *)
Theorem its_create_lpi_map_commands itt size fuel devid intid prio l n :
  its_ITTBase b = Some itt -> its_IDBits b = Some size ->
  g_cwriter_ptr (g_its w) = Some l -> l !! Z.to_nat i = Some n ->
  0 <= n -> n + 20 < 2 ^ 32 -> WAIT_ITS_COMMAND_DONE < Z.of_nat fuel ->
  let rd := GicRdBase t in
  let d0 := dev_write 1 (config_byte (ConfigBase (g_its w)) intid)
              (u8 (Z.lor (Z.land prio 0xFC) 1)) (dev w) in
  let d1 := set_bit (u64 (its_Base b + ARM_GITS_CTLR)) 1 (set_bit (u64 (rd + ARM_GICR_CTLR)) 1 d0) in
  let r := rdbase_of (its_Base b) rd d1 in
  let d2 := put_commands (q + 8 * n)
              [MAPD devid itt size; MAPC 1 (fst r); MAPI devid intid 1; INV devid intid; SYNC (fst r)]
              (snd r) in
  let d3 := dev_write 8 (u64 (its_Base b + ARM_GITS_CWRITER)) (u32 (8 * (n + 20))) d2 in
  eval (ArmGicItsCreateLpiMap fuel i devid intid prio) w tt
    (its_state w i (poll_queue (its_Base b) d3) (n + 20)).
Proof.
  intros Hitt Hsize Hl Hn H0n Hmax Hf. cbv zeta.
  destruct Hw as (Hd & Ht & Hb & Hq & _).
  pose proof (its_state_start n l Hl Hn) as Hst. unfold ArmGicItsCreateLpiMap.
  eapply eval_bind; [by apply eval_gets|].
  replace (negb (truthy (g_its_setup_done (g_its w)))) with false
    by (unfold truthy; by rewrite (proj2 (Z.eqb_neq _ _) Hd)).
  rewrite Hst at 1.
  eapply eval_bind; [apply eval_its_at|]. eapply eval_bind; [by apply eval_need|].
  eapply eval_bind; [unfold SetConfigTable; eapply eval_bind; [by apply eval_gets|]; apply eval_MmioWrite8|].
  eapply eval_bind; [apply eval_its_info|]. do 2 (eapply eval_bind; [apply eval_set_bit|]).
  eapply eval_bind; [apply eval_GetRDBaseFormat|]. eapply eval_bind; [apply eval_its_at|].
  do 2 (eapply eval_bind; [by apply eval_need|]).
  eapply eval_bind; [apply eval_mapd|]. eapply eval_bind; [apply eval_mapc|].
  eapply eval_bind; [apply eval_mapi|]. eapply eval_bind; [apply eval_inv|].
  eapply eval_bind; [apply eval_sync|]. eapply eval_bind; [apply eval_publish|].
  rewrite u8_id by apply fits_u8.
  rewrite (u32_id (n + 4)), (u32_id (n + 4 + 4)), (u32_id (n + 4 + 4 + 4)), (u32_id (n + 4 + 4 + 4 + 4)),
    (u32_id (n + 4 + 4 + 4 + 4 + 4)) by (unfold fits; lia).
  cbn [put_commands]. replace (8 * (n + 20)) with ((n + 4 + 4 + 4 + 4 + 4) * 8) by lia.
  replace (q + 8 * n + 32) with (q + 8 * (n + 4)) by lia.
  replace (q + 8 * (n + 4) + 32) with (q + 8 * (n + 4 + 4)) by lia.
  replace (q + 8 * (n + 4 + 4) + 32) with (q + 8 * (n + 4 + 4 + 4)) by lia.
  replace (q + 8 * (n + 4 + 4 + 4) + 32) with (q + 8 * (n + 4 + 4 + 4 + 4)) by lia.
  replace (n + 20) with (n + 4 + 4 + 4 + 4 + 4) by lia. by apply eval_poll.
Qed.

(** Unmapping an interrupt clears its byte of the configuration table, stores a
    discard and a synchronise command, publishes and waits, in the same way. *)
Theorem its_clear_lpi_commands fuel devid intid l n :
  g_cwriter_ptr (g_its w) = Some l -> l !! Z.to_nat i = Some n ->
  0 <= n -> n + 8 < 2 ^ 32 -> WAIT_ITS_COMMAND_DONE < Z.of_nat fuel ->
  let d0 := dev_write 1 (config_byte (ConfigBase (g_its w)) intid) 0 (dev w) in
  let r := rdbase_of (its_Base b) (GicRdBase t) d0 in
  let d1 := put_commands (q + 8 * n) [DISCARD devid intid; SYNC (fst r)] (snd r) in
  let d2 := dev_write 8 (u64 (its_Base b + ARM_GITS_CWRITER)) (u32 (8 * (n + 8))) d1 in
  eval (ArmGicItsClearLpiMappings fuel i devid intid) w tt
    (its_state w i (poll_queue (its_Base b) d2) (n + 8)).
Proof.
  intros Hl Hn H0n Hmax Hf. cbv zeta. destruct Hw as (Hd & Ht & Hb & Hq & _).
  pose proof (its_state_start n l Hl Hn) as Hst. unfold ArmGicItsClearLpiMappings.
  eapply eval_bind; [by apply eval_gets|].
  replace (negb (truthy (g_its_setup_done (g_its w)))) with false
    by (unfold truthy; by rewrite (proj2 (Z.eqb_neq _ _) Hd)).
  rewrite Hst at 1.
  eapply eval_bind; [apply eval_its_at|]. eapply eval_bind; [by apply eval_need|].
  eapply eval_bind; [unfold ClearConfigTable; eapply eval_bind; [by apply eval_gets|]; apply eval_MmioWrite8|].
  eapply eval_bind; [apply eval_GetRDBaseFormat|].
  eapply eval_bind; [apply eval_discard|]. eapply eval_bind; [apply eval_sync|].
  eapply eval_bind; [apply eval_publish|].
  rewrite (u32_id (n + 4)), (u32_id (n + 4 + 4)) by (unfold fits; lia).
  cbn [put_commands]. replace (8 * (n + 8)) with ((n + 4 + 4) * 8) by lia.
  replace (q + 8 * n + 32) with (q + 8 * (n + 4)) by lia.
  replace (n + 8) with (n + 4 + 4) by lia. by apply eval_poll.
Qed.
End commands.

(** ** Reading the commands back *)

Lemma valid_word x : fits 52 x ->
  let dw2 := u64 (Z.lor (Z.shiftl 1 63) x) in
  dw2 = 2 ^ 63 + x /\ cmd_valid dw2 = true /\ cmd_icid dw2 = x mod 2 ^ 16 /\
  cmd_itt dw2 = x / 2 ^ 8 /\ cmd_rdbase dw2 = x / 2 ^ 16 mod 2 ^ 35.
Proof.
  intros Hx. unfold fits in Hx. cbv zeta.
  rewrite lor_shiftl_add by (try apply (fits_le 52); unfold fits; lia). rewrite Z.mul_1_l.
  rewrite u64_id by (unfold fits; lia). split; [done|]. split.
  - unfold cmd_valid. apply Z.testbit_true; [lia|]. divmod.
  - unfold cmd_icid, cmd_itt, cmd_rdbase. rewrite (Z.add_comm _ x). split_and!.
    + change (2 ^ 63) with (2 ^ 47 * 2 ^ 16). by rewrite Z.mod_add.
    + change (2 ^ 63) with (2 ^ 11 * 2 ^ 52). by rewrite Z.mod_add, Z.mod_small.
    + change (2 ^ 63) with (2 ^ 47 * 2 ^ 16). rewrite Z.div_add by done.
      change (2 ^ 47) with (2 ^ 12 * 2 ^ 35). by rewrite Z.mod_add.
Qed.

Lemma device_word dev op : fits 32 dev -> fits 8 op ->
  let dw0 := u64 (Z.lor (Z.shiftl dev 32) op) in cmd_device dw0 = dev /\ cmd_opcode dw0 = op.
Proof.
  intros Hd Ho. cbv zeta. rewrite lor_shiftl_add by (try apply (fits_le 8); unfold fits in *; lia).
  unfold fits in *. rewrite u64_id by (unfold fits; lia). unfold cmd_device, cmd_opcode. split; divmod.
Qed.

Lemma lor_mod a b n : 0 <= n -> Z.lor a b mod 2 ^ n = Z.lor (a mod 2 ^ n) (b mod 2 ^ n).
Proof. intros Hn. by rewrite <- !Z.land_ones, Z.land_lor_distr_l. Qed.

Lemma lor_div a b n : 0 <= n -> Z.lor a b / 2 ^ n = Z.lor (a / 2 ^ n) (b / 2 ^ n).
Proof. intros Hn. by rewrite <- !Z.shiftr_div_pow2, Z.shiftr_lor. Qed.

(** The third doubleword of MAPC. *)
Lemma mapc_word rd icid : fits 16 icid ->
  let dw2 := u64 (Z.lor (Z.lor (Z.shiftl 1 63) (u32 rd)) icid) in
  cmd_valid dw2 = true /\ cmd_icid dw2 = Z.lor (rd mod 2 ^ 16) icid /\
  cmd_rdbase dw2 = rd mod 2 ^ 32 / 2 ^ 16.
Proof.
  intros Hc. cbv zeta. rewrite <- Z.lor_assoc.
  destruct (valid_word (Z.lor (u32 rd) icid)) as (_ & Hv & Hi & _ & Hr).
  { apply fits_lor; [done| |]; (eapply fits_le; [auto with bits; exact Hc|done]). }
  rewrite Hv, Hi, Hr, lor_mod, lor_div by done. unfold fits in Hc.
  rewrite (Z.mod_small icid), (Z.div_small icid), Z.lor_0_r by lia. split; [done|].
  rewrite (Z.mod_small (u32 rd / 2 ^ 16)); [|pose proof (fits_u32 rd); unfold fits in *; divmod].
  split; [|done]. f_equal. unfold u32. divmod.
Qed.

Lemma itt_masked itt : fits 44 itt -> Z.land (itt * 2 ^ 8) ITT_PAR_MASK = itt * 2 ^ 8.
Proof.
  intros Hitt. unfold ITT_PAR_MASK. rewrite land_shiftl_r, Z.shiftr_div_pow2, Z.div_mul by done.
  rewrite (land_mask 44) by done. rewrite Z.mod_small by exact Hitt. by rewrite Z.shiftl_mul_pow2.
Qed.

(** The ITS reads from the commands what the driver put in them, except the
    collection and the redistributor of MAPC: the value of 32 bits meant for the
    redistributor is or-ed in from bit 0, so its low 16 bits end up in the collection.
    When the ITS counts redistributors by number - [k], which the driver takes from
    the type register in place - MAPC therefore maps collection [1 + 256 * (k mod 256)]
    to redistributor [k / 256], while MAPI sends the interrupt to collection 1: it
    arrives only when [k] is 0. *)
Theorem its_commands_roundtrip {D} `{Platform D} (w : world D) t i b q dev itt size event icid rd k :
  its_is (g_its w) t i b q ->
  fits 32 dev -> fits 44 itt -> fits 5 size -> fits 32 event -> fits 16 icid -> fits 16 k ->
  (forall d n,
     let stores m c := eval m (its_state w i d n) tt (its_state w i (put_command (q + 8 * n) c d) (u32 (n + 4))) in
     stores (WriteCmdQMAPD i q dev (itt * 2 ^ 8) size 1) (MAPD dev (itt * 2 ^ 8) size) /\
     stores (WriteCmdQMAPC i q dev icid rd 1) (MAPC icid rd) /\
     stores (WriteCmdQMAPI i q dev event icid) (MAPI dev event icid) /\
     stores (WriteCmdQINV i q dev event) (INV dev event) /\
     stores (WriteCmdQDISCARD i q dev event) (DISCARD dev event)) /\
  let words c := let '(dw0, dw1, dw2) := its_words c in (cmd_opcode dw0, cmd_device dw0, dw1) in
  let dw2 c := snd (its_words c) in
  words (MAPD dev (itt * 2 ^ 8) size) = (ARM_ITS_CMD_MAPD, dev, size) /\
  cmd_itt (dw2 (MAPD dev (itt * 2 ^ 8) size)) = itt /\ cmd_valid (dw2 (MAPD dev (itt * 2 ^ 8) size)) = true /\
  words (MAPI dev event icid) = (ARM_ITS_CMD_MAPI, dev, event) /\ cmd_icid (dw2 (MAPI dev event icid)) = icid /\
  words (INV dev event) = (ARM_ITS_CMD_INV, dev, event) /\
  words (DISCARD dev event) = (ARM_ITS_CMD_DISCARD, dev, event) /\
  cmd_valid (dw2 (MAPC icid rd)) = true /\
  cmd_icid (dw2 (MAPC icid rd)) = Z.lor (rd mod 2 ^ 16) icid /\
  cmd_rdbase (dw2 (MAPC icid rd)) = rd mod 2 ^ 32 / 2 ^ 16 /\
  cmd_icid (dw2 (MAPC 1 (k * 2 ^ 8))) = 1 + 256 * (k mod 2 ^ 8) /\
  cmd_rdbase (dw2 (MAPC 1 (k * 2 ^ 8))) = k / 2 ^ 8.
Proof.
  intros Hw Hdev Hitt Hsize Hev Hicid Hk. split.
  { intros d n. cbv zeta. split_and!; eauto using eval_mapd, eval_mapc, eval_mapi, eval_inv, eval_discard. }
  cbv zeta. cbn [its_words snd].
  assert (Hop : forall op (e : Z), fits 8 op ->
    (cmd_opcode (u64 (Z.lor (Z.shiftl dev 32) op)), cmd_device (u64 (Z.lor (Z.shiftl dev 32) op)), e) = (op, dev, e)).
  { intros op e Ho. by destruct (device_word dev op Hdev Ho) as [-> ->]. }
  rewrite itt_masked by done.
  destruct (valid_word (itt * 2 ^ 8)) as (_ & Hv & _ & Hi & _); [unfold fits in *; lia|].
  destruct (mapc_word rd icid Hicid) as (Hc1 & Hc2 & Hc3).
  destruct (mapc_word (k * 2 ^ 8) 1) as (_ & Hk2 & Hk3); [unfold fits; lia|].
  rewrite (u64_id size), (u64_id event), (u64_id icid) by (unfold fits in *; lia).
  split_and!; try assumption;
    try (first [apply (Hop ARM_ITS_CMD_MAPD)|apply (Hop ARM_ITS_CMD_MAPI)|apply (Hop ARM_ITS_CMD_INV)
               |apply (Hop ARM_ITS_CMD_DISCARD)]; by split).
  - rewrite Hi. by apply Z.div_mul.
  - by apply Z.mod_small.
  - rewrite Hk2. replace (k * 2 ^ 8 mod 2 ^ 16) with (Z.shiftl (k mod 2 ^ 8) 8)
      by (rewrite Z.shiftl_mul_pow2 by done; change (2 ^ 16) with (2 ^ 8 * 2 ^ 8); by rewrite Z.mul_mod_distr_r).
    rewrite lor_shiftl_add by (unfold fits; lia). lia.
  - rewrite Hk3, (Z.mod_small (k * 2 ^ 8)) by (unfold fits in *; lia).
    change (2 ^ 16) with (2 ^ 8 * 2 ^ 8). by rewrite Z.div_mul_cancel_r.
Qed.

(** ** Requests before the ITS is set up *)

Section requests.
Context {D : Type} `{Platform D} `{Edk2 D} (w : world D) (t : GIC_ITS_INFO)
  (Ht : g_gic_its_info (g_its w) = Some t) (Hlen : GicNumIts t = Z.of_nat (length (GicIts t))).

(** [b] is the first block with identifier [id], at index [k]. *)
Definition first_its (id : Z) (k : nat) (b : GIC_ITS_BLOCK) : Prop :=
  GicIts t !! k = Some b /\ its_ID b = id /\
  forall j c, (j < k)%nat -> GicIts t !! j = Some c -> its_ID c <> id.

Lemma eval_info : eval its_info w t w.
Proof. unfold its_info. eapply eval_bind; [by apply eval_gets|]. by apply eval_need. Qed.

Lemma eval_block k b : GicIts t !! k = Some b -> eval (its_at (Z.of_nat k)) w b w.
Proof.
  intros Hb. unfold its_at. eapply eval_bind; [apply eval_info|]. rewrite Nat2Z.id. by apply eval_need.
Qed.

Lemma eval_getItsIndex id k b : first_its id k b -> eval (getItsIndex id) w (Z.of_nat k) w.
Proof.
  intros (Hk & Hid & Hfirst). unfold getItsIndex. eapply eval_bind; [apply eval_info|]. apply wp_bind.
  apply (wp_for (fun i _ s => s = w /\ 0 <= i <= Z.of_nat k)).
  - split; [done|lia].
  - intros i [] s Hi [-> Hik]. rewrite <- (Z2Nat.id i) by lia. set (j := Z.to_nat i) in *.
    destruct (lookup_lt_is_Some_2 (GicIts t) j) as [c Hc]; [lia|].
    eapply wp_bind, wp_eval; [by apply eval_block|]. destruct (Z.eqb_spec id (its_ID c)) as [He|He].
    + wp_step. wp_step. assert (j = k) as ->; [|by split].
      destruct (decide (j < k)%nat) as [Hj|]; [|lia]. by destruct (Hfirst j c).
    + wp_step. split; [done|]. destruct (decide (j = k)) as [->|]; [congruence|lia].
  - intros [] s [-> Hik]. apply lookup_lt_Some in Hk. lia.
Qed.

Lemma eval_msi_its id k b :
  first_its id k b -> GicDBase t <> 0 -> GicRdBase t <> 0 -> eval (msi_its id) w (Some (Z.of_nat k)) w.
Proof.
  intros Hf Hd Hr. pose proof (lookup_lt_Some _ _ _ (proj1 Hf)) as Hk.
  unfold msi_its. eapply eval_bind; [by apply eval_gets|]. rewrite Ht.
  rewrite (proj2 (Z.eqb_neq (GicNumIts t) 0)) by lia.
  eapply eval_bind; [by apply (eval_getItsIndex id k b)|].
  rewrite (proj2 (Z.ltb_ge _ _)), (proj2 (Z.eqb_neq _ _) Hr), (proj2 (Z.eqb_neq _ _) Hd) by lia. apply eval_ret.
Qed.

(** A request for a message-signalled interrupt finds the first ITS with the
    identifier. When the ITS is known but its set-up failed - LPIs not supported, no
    memory for the tables - the request still reports success and gives out the
    address of the translation register, having touched no device: the message that
    the function is then told to send is never mapped to an interrupt. The address is
    cut to 32 bits. *)
Theorem its_request_msi_unconfigured fuel id devid intid msi_index k b :
  first_its id k b -> GicDBase t <> 0 -> GicRdBase t <> 0 -> g_its_setup_done (g_its w) = 0 ->
  eval (pal_gic_request_msi fuel id devid intid msi_index) w
    (0, Some ((its_Base b + ARM_GITS_TRANSLATER) mod 2 ^ 32, intid)) w.
Proof.
  intros Hf Hd Hr Hs. unfold pal_gic_request_msi. eapply eval_bind; [by apply (eval_msi_its id k b)|].
  eapply eval_bind.
  { unfold ArmGicItsCreateLpiMap. eapply eval_bind; [by apply eval_gets|]. rewrite Hs. apply eval_ret. }
  eapply eval_bind.
  { unfold ArmGicItsGetGITSTranslatorAddress. eapply eval_bind; [apply eval_block, Hf|]. apply eval_ret. }
  replace ((its_Base b + ARM_GITS_TRANSLATER) mod 2 ^ 32) with (u32 (u64 (its_Base b + ARM_GITS_TRANSLATER)))
    by (unfold u32, u64; divmod). apply eval_ret.
Qed.
End requests.

(** ** A concrete ITS *)

(** EDK2 on the concrete machine: constants as documented, pages above every live
    block, cleared memory reads as zero. *)
#[export] Instance machine_edk2 : Edk2 machine := {
  ARM_GICR_TYPER := 0x8;
  ARM_GICR_CTLR_FRAME_SIZE := 0x10000;
  ARM_GICR_SGI_PPI_FRAME_SIZE := 0x10000;
  ARM_CORE_AFF0 := 0xFF;
  ARM_CORE_AFF1 := 0xFF00;
  ARM_CORE_AFF2 := 0xFF0000;
  ARM_CORE_AFF3 := 0xFF00000000;
  SIZE_4KB := 0x1000;
  SIZE_64KB := 0x10000;
  EFI_OUT_OF_RESOURCES := 2 ^ 63 + 9;
  EFI_UNSUPPORTED := 2 ^ 63 + 3;
  EFI_ERROR s := 2 ^ 63 <=? s;
  EFI_SIZE_TO_PAGES n := (n + 4095) / 4096;
  EFI_PAGES_TO_SIZE n := n * 4096;
  AllocateAlignedPages _ alignment heap d := ((heap_top heap / alignment + 1) * alignment, d);
  ZeroMem a n d := Machine (filter (fun '(k, _) => ~ (a <= k < a + n)) (mach_mem d)) (mach_regs d)
                     (mach_smc d) (mach_cache d)
}.

(** A distributor, the redistributor of processor number 1, and one ITS with
    identifier 7; [lpis] is the bit of the distributor that says LPIs are there. *)
Definition before_its (lpis : Z) : world machine :=
  let mem : gmap Z Z :=
    list_to_map [(0x1000004, Z.lor (Z.shiftl lpis 17) (Z.shiftl 15 19)); (0x2000008, 0x101);
                 (0x3000008, Z.lor (Z.shiftl 15 8) (Z.shiftl 4 13));
                 (0x3000100, Z.lor (Z.shiftl 1 56) (Z.shiftl 7 48))] in
  let entry type base id := mkGic type base id 0x20000 0 0 0 in
  set_g_its (mkItsGlobals (Some 0) None None 0 0)
    (set_g_gic_info_table (Some (mkGicTable (mkGicHdr 3 1 1 1 0)
      [entry ENTRY_TYPE_GICD 0x1000000 0; entry ENTRY_TYPE_GICR_GICRD 0x2000000 0;
       entry ENTRY_TYPE_GICITS 0x3000000 7; entry 0xFF 0 0])) (boot mem ∅)).

(** The status of [pal_gic_its_configure] and the program after it. *)
Definition after_its (lpis : Z) : option (Z * world machine) :=
  match pal_gic_its_configure 10 (before_its lpis) with Ret r w _ => Some (r, w) | _ => None end.

Definition its_ready (lpis : Z) : world machine :=
  match after_its lpis with Some (_, w) => w | None => before_its lpis end.

Definition one_its : GIC_ITS_BLOCK := mkIts 7 0x3000000 (Some 0x30000) (Some 15) (Some 0x50000).
Definition one_its_info : GIC_ITS_INFO := mkItsInfo 0x1000000 0x2000000 1 [one_its].
Definition POLLS : nat := Z.to_nat 10001.

Lemma its_ready_is : its_is (g_its (its_ready 1)) one_its_info 0 one_its 0x30000.
Proof. unfold its_is. split; [vm_compute; discriminate|]. split_and!; try (vm_compute; reflexivity). by exists [0], 0. Qed.

(** The write pointer and the CWRITER register after an operation on ITS 0. *)
Definition published (w : world machine) : option (list Z) * Z :=
  (g_cwriter_ptr (g_its w), default 0 (mach_mem (dev w) !! (0x3000000 + ARM_GITS_CWRITER))).

Lemma its_create_lpi_map_commands_witness :
  exists w', eval (ArmGicItsCreateLpiMap POLLS 0 0x10 8192 LPI_PRIORITY1) (its_ready 1) tt w' /\ published w' = (Some [20], 160).
Proof.
  eexists. split.
  - apply (its_create_lpi_map_commands (its_ready 1) one_its_info 0 one_its 0x30000 its_ready_is
      0x50000 15 POLLS 0x10 8192 LPI_PRIORITY1 [0] 0); vm_compute; reflexivity || (intro; discriminate).
  - vm_compute. reflexivity.
Defined.

Lemma its_clear_lpi_commands_witness :
  exists w', eval (ArmGicItsClearLpiMappings POLLS 0 0x10 8192) (its_ready 1) tt w' /\ published w' = (Some [8], 64).
Proof.
  eexists. split.
  - apply (its_clear_lpi_commands (its_ready 1) one_its_info 0 one_its 0x30000 its_ready_is
      POLLS 0x10 8192 [0] 0); vm_compute; reflexivity || (intro; discriminate).
  - vm_compute. reflexivity.
Defined.

(** Processor number 300 is mapped as collection 11265 of redistributor 1. *)
Lemma its_commands_roundtrip_witness :
  cmd_icid (snd (its_words (MAPC 1 (300 * 2 ^ 8)))) = 11265 /\ cmd_rdbase (snd (its_words (MAPC 1 (300 * 2 ^ 8)))) = 1.
Proof.
  pose proof (its_commands_roundtrip (its_ready 1) one_its_info 0 one_its 0x30000 0x10 0x500 15 8192 1
    0x2000000 300 its_ready_is) as P.
  cbv zeta in P. split; apply P; split; vm_compute; done.
Defined.

(** LPIs not supported: the set-up fails, the request does not. *)
Lemma its_request_msi_unconfigured_witness :
  fst <$> after_its 0 = Some 0xFFFFFFFF /\
  eval (pal_gic_request_msi 10 7 0x10 8192 0) (its_ready 0) (0, Some (0x3010040, 8192)) (its_ready 0).
Proof.
  split; [vm_compute; reflexivity|].
  apply (its_request_msi_unconfigured (its_ready 0)
    (mkItsInfo 0x1000000 0x2000000 1 [mkIts 7 0x3000000 None None None]) ltac:(vm_compute; reflexivity)
    eq_refl 10 7 0x10 8192 0 0 (mkIts 7 0x3000000 None None None)); [|discriminate|discriminate|].
  - split; [done|]. split; [done|]. intros j c Hj. lia.
  - vm_compute. reflexivity.
Defined.
