(* ===== verification/Iovirt.v ===== *)
(** * The I/O virtualisation table

    src/val/src/acs_iovirt.c (the queries; creating and freeing the table, which
    also start and stop the SMMUs, are in Smmu) and the queries of
    src/platform/pal_uefi_dt/src/pal_iovirt.c on a finished table. The table is a
    chain of variable-sized blocks; a block refers to another by byte offset. *)

From S2P Require Import Prelude Types World Status Machine.
#[local] Open Scope c_scope.

Section iovirt.
Context {D : Type} `{Platform D}.

#[local] Abbreviation M := (M (world D)).

(** [block = &blocks[0]; for (i = 0; i < num_blocks; i++, block = IOVIRT_NEXT_BLOCK(block))]:
    the body sees the offset of the block, the block, and what the loop carries. *)
Definition for_blocks {A R} (t : IOVIRT_INFO_TABLE)
    (body : Z -> IOVIRT_BLOCK -> A -> M (ctl A R)) (a : A) : M (ctl A R) :=
  let* r := for_ (Z.to_nat (num_blocks t)) 0 (fun _ '(block, a) =>
    let* b := need (iovirt_blocks t !! block) in
    let* r := body block b a in
    ret (match r with
         | Continue a => Continue (IOVIRT_NEXT_BLOCK block b, a)
         | Break v => Break v
         end)) (IOVIRT_FIRST_BLOCK, a) in
  ret (match r with Continue (_, a) => Continue a | Break v => Break v end).

Definition is_smmu (b : IOVIRT_BLOCK) : bool :=
  (iovirt_type b =? IOVIRT_NODE_SMMU) || (iovirt_type b =? IOVIRT_NODE_SMMU_V3).

(** The address of a block is represented by its offset in the table. *)
Definition val_iovirt_get_smmu_info (type index : Z) : M Z :=
  let* t := gets g_iovirt_info_table in
  match t with
  | None =>
      val_print ACS_PRINT_ERR "GET_SMMU_INFO: iovirt info table is not created \n" 0 ;;
      ret 0
  | Some t =>
      if type =? SMMU_NUM_CTRL then ret (num_smmus t)
      else
      let* r := for_blocks t (fun block b j =>
        if is_smmu b then
          if j =? index then
            if type =? SMMU_CTRL_ARCH_MAJOR_REV then
              ret (Break (smmu_arch_major_rev (iovirt_data b)))
            else if type =? SMMU_CTRL_BASE then ret (Break (smmu_base (iovirt_data b)))
            else if type =? SMMU_IOVIRT_BLOCK then ret (Break block)
            else
              val_print ACS_PRINT_ERR "This SMMU info option not supported %d \n" type ;;
              ret (Break 0)
          else ret (Continue (u32 (j + 1)))
        else ret (Continue j)) 0 in
      match r with
      | Break v => ret v
      | Continue j =>
          if u32 (j - 1) <? index then
            val_print ACS_PRINT_ERR
              "GET_SMMU_INFO: Index (%d) is greater than num of SMMU \n" index ;;
            ret 0
          else ret j
      end
  end.

Definition val_iovirt_get_pcie_rc_info (type index : Z) : M Z :=
  let* t := gets g_iovirt_info_table in
  match t with
  | None =>
      val_print ACS_PRINT_ERR "GET_PCIe_RC_INFO: iovirt info table is not created \n" 0 ;;
      ret 0
  | Some t =>
      if type =? NUM_PCIE_RC then ret (num_pci_rcs t)
      else
      let* r := for_blocks t (fun block b j =>
        if iovirt_type b =? IOVIRT_NODE_PCI_ROOT_COMPLEX then
          if j =? index then
            if type =? RC_SEGMENT_NUM then ret (Break (rc_segment (iovirt_data b)))
            else if type =? RC_MEM_ATTRIBUTE then ret (Break (rc_cca (iovirt_data b)))
            else if type =? RC_ATS_ATTRIBUTE then ret (Break (rc_ats_attr (iovirt_data b)))
            else if type =? RC_IOVIRT_BLOCK then ret (Break block)
            else
              val_print ACS_PRINT_ERR "This PCIe RC info option not supported %d \n" type ;;
              ret (Break 0)
          else ret (Continue (u32 (j + 1)))
        else ret (Continue j)) 0 in
      match r with
      | Break v => ret v
      | Continue j =>
          if u32 (j - 1) <? index then
            val_print ACS_PRINT_ERR
              "GET_PCIe_RC_INFO: Index (%d) is greater than num of PCIe-RC \n" index ;;
            ret 0
          else ret j
      end
  end.

(** *** Queries of the platform layer *)

(** Dereferences a block: its offset stands for its address; NULL has no block. *)
Definition iovirt_block_at (block : Z) : M IOVIRT_BLOCK :=
  let* t := gets g_iovirt_info_table in
  let* t := need t in
  need (iovirt_blocks t !! block).

Definition pal_iovirt_check_unique_ctx_intid (smmu_block : Z) : M Z :=
  let* b := iovirt_block_at smmu_block in
  ret (if truthy (Z.land (iovirt_flags b) (Z.shiftl 1 IOVIRT_FLAG_SMMU_CTX_INT_SHIFT)) then 0 else 1).

Definition pal_iovirt_unique_rid_strid_map (rc_block : Z) : M Z :=
  let* b := iovirt_block_at rc_block in
  ret (if truthy (Z.land (iovirt_flags b) (Z.shiftl 1 IOVIRT_FLAG_STRID_OVERLAP_SHIFT)) then 0 else 1).

(** The type of the block plays no part. *)
Definition pal_iovirt_get_rc_smmu_base (t : IOVIRT_INFO_TABLE) (RcSegmentNum : Z) : M Z :=
  let* r := for_blocks t (fun _ b _ =>
    ret (if rc_segment (iovirt_data b) =? RcSegmentNum then Break (rc_smmu_base (iovirt_data b))
         else Continue tt)) tt in
  ret (match r with Break v => v | Continue _ => 0 end).

Definition val_iovirt_unique_rid_strid_map (rc_index : Z) : M Z :=
  let* block := val_iovirt_get_pcie_rc_info RC_IOVIRT_BLOCK rc_index in
  pal_iovirt_unique_rid_strid_map block.

Definition val_iovirt_check_unique_ctx_intid (smmu_index : Z) : M Z :=
  let* smmu_block := val_iovirt_get_smmu_info SMMU_IOVIRT_BLOCK smmu_index in
  pal_iovirt_check_unique_ctx_intid smmu_block.

(** *** Requester ID to stream ID and device ID *)

(** Whether a mapping covers an identifier; the C sum wraps on 32 bits. *)
Definition map_covers (m : ID_MAP) (id : Z) : bool :=
  (input_base m <=? id) && (id <=? u32 (input_base m + id_count m)).

Definition map_output (m : ID_MAP) (id : Z) : Z := u32 (u32 (id - input_base m) + output_base m).

(** Status, and what is written to [*device_id], [*stream_id] and [*its_id] (the
    last two when the caller asks for them). [device_id] is whether the pointer
    passed is not NULL. In a root complex the last mapping that covers the
    identifier counts, in an SMMU the first. *)
Definition val_iovirt_get_device_info (rid segment : Z) (device_id : bool)
  : M (Z * option (Z * Z * Z)) :=
  let* t := gets g_iovirt_info_table in
  match t with
  | None =>
      val_print ACS_PRINT_ERR "GET_DEVICE_ID: iovirt info table is not created \n" 0 ;;
      ret (ACS_STATUS_ERR, None)
  | Some t =>
      if negb device_id then
        val_print ACS_PRINT_ERR "GET_DEVICE_ID: Invalid parameters\n" 0 ;;
        ret (ACS_STATUS_ERR, None)
      else
      let* r := for_blocks t (fun _ b (_ : ()) =>
        if (iovirt_type b =? IOVIRT_NODE_PCI_ROOT_COMPLEX)
           && (rc_segment (iovirt_data b) =? segment) then
          let* found := for_acc (Z.to_nat (num_data_map b)) 0 (fun j found =>
            let* m := need (data_map b !! Z.to_nat j) in
            ret (if map_covers m rid then Some (map_output m rid, output_ref m) else found)) None in
          ret (Break found)
        else ret (Continue tt)) tt in
      match r with
      | Continue _ | Break None =>
          val_print ACS_PRINT_ERR
            "GET_DEVICE_ID: Requestor ID to Stream ID/Device ID mapping not found\n" 0 ;;
          ret (ACS_STATUS_ERR, None)
      | Break (Some (id, oref)) =>
          let* block := need (iovirt_blocks t !! oref) in
          if iovirt_type block =? IOVIRT_NODE_ITS_GROUP then
            let* m := need (data_map block !! 0%nat) in
            ret (0, Some (id, u32 (Z.lnot 0), input_base m))
          else if is_smmu block then
            let sid := id in
            let* r := for_ (Z.to_nat (num_data_map block)) 0 (fun i _ =>
              let* m := need (data_map block !! Z.to_nat i) in
              ret (if map_covers m sid then Break (map_output m sid, output_ref m)
                   else Continue tt)) tt in
            let oref := match r with Break (_, oref) => oref | Continue _ => oref end in
            let* block := need (iovirt_blocks t !! oref) in
            let* itsid :=
              if iovirt_type block =? IOVIRT_NODE_ITS_GROUP then
                let* m := need (data_map block !! 0%nat) in ret (input_base m)
              else ret 0 in
            match r with
            | Continue _ =>
                val_print ACS_PRINT_ERR
                  "GET_DEVICE_ID: Stream ID to Device ID mapping not found\n" 0 ;;
                ret (ACS_STATUS_ERR, None)
            | Break (did, _) => ret (0, Some (did, sid, itsid))
            end
          else
            val_print ACS_PRINT_ERR "GET_DEVICE_ID: Invalid mapping for RC in IORT\n" 0 ;;
            ret (ACS_STATUS_ERR, None)
      end
  end.

(** ** Well-formed tables *)

(** [l] is the chain of blocks of the table, each with its offset. *)
Fixpoint block_chain (bs : gmap Z IOVIRT_BLOCK) (off : Z) (l : list (Z * IOVIRT_BLOCK)) : Prop :=
  match l with
  | [] => True
  | (o, b) :: l => o = off /\ bs !! off = Some b /\ block_chain bs (IOVIRT_NEXT_BLOCK off b) l
  end.

(** The mappings of a block are as many as it says; those of a block that is not an
    ITS group refer to blocks; an ITS group has at least one identifier. *)
Definition block_ok (t : IOVIRT_INFO_TABLE) (b : IOVIRT_BLOCK) : Prop :=
  num_data_map b = Z.of_nat (length (data_map b)) /\
  (if iovirt_type b =? IOVIRT_NODE_ITS_GROUP then data_map b <> []
   else Forall (fun m => is_Some (iovirt_blocks t !! output_ref m)) (data_map b)).

Definition iovirt_table (w : world D) (t : IOVIRT_INFO_TABLE) (l : list (Z * IOVIRT_BLOCK)) : Prop :=
  g_iovirt_info_table w = Some t /\
  num_blocks t = Z.of_nat (length l) /\ Z.of_nat (length l) < 2 ^ 32 /\
  block_chain (iovirt_blocks t) IOVIRT_FIRST_BLOCK l /\
  forall off b, iovirt_blocks t !! off = Some b -> block_ok t b.

(** What a loop over the blocks whose body only looks at them computes. *)
Fixpoint walk {A R} (f : Z -> IOVIRT_BLOCK -> A -> ctl A R) (l : list (Z * IOVIRT_BLOCK)) (a : A)
  : ctl A R :=
  match l with
  | [] => Continue a
  | (o, b) :: l => match f o b a with Continue a => walk f l a | Break v => Break v end
  end.

Lemma eval_for_blocks {A R} (f : Z -> IOVIRT_BLOCK -> A -> ctl A R) t l body a w :
  num_blocks t = Z.of_nat (length l) -> block_chain (iovirt_blocks t) IOVIRT_FIRST_BLOCK l ->
  (forall o b a, (o, b) ∈ l -> eval (body o b a) w (f o b a) w) ->
  eval (for_blocks t body a) w (walk f l a) w.
Proof.
  intros Hn Hc Hb. unfold for_blocks. rewrite Hn, Nat2Z.id. clear Hn.
  enough (G : forall i off a, block_chain (iovirt_blocks t) off l ->
    wp (for_ (length l) i (fun _ '(block, a) =>
          let* b := need (iovirt_blocks t !! block) in
          let* r := body block b a in
          ret (match r with
               | Continue a => Continue (IOVIRT_NEXT_BLOCK block b, a)
               | Break v => Break v end)) (off, a)) w
      (fun r s => s = w /\ match r with Continue (_, a) => Continue a | Break v => Break v end = walk f l a)).
  { apply wp_bind. eapply wp_mono; [by apply G|]. cbv beta. intros r s [-> Hr]. by split. }
  clear Hc a. induction l as [|[o b] l IH]; intros i off a Hc; cbn [length for_ walk].
  - by split.
  - destruct Hc as (-> & Hbs & Hc). apply wp_bind, wp_bind. rewrite Hbs. wp_step. wp_step.
    eapply wp_eval; [apply Hb; by constructor|]. wp_step.
    destruct (f off b a) as [a'|v]; [|by wp_step].
    apply IH; [|done]. intros o b' a2 Hin. apply Hb. by constructor.
Qed.

(** The blocks that satisfy [p]. *)
Definition blocks_of (p : IOVIRT_BLOCK -> bool) (l : list (Z * IOVIRT_BLOCK)) :=
  List.filter (fun ob => p (snd ob)) l.

(** Looking for block number [index] of those that satisfy [p]: [col] is what is
    read from it. The loop otherwise ends with their count. *)
Lemma walk_nth {R} (p : IOVIRT_BLOCK -> bool) (col : Z -> IOVIRT_BLOCK -> R) l j index :
  0 <= j -> j <= index -> fits 32 index ->
  walk (fun o b j => if p b then if j =? index then Break (col o b) else Continue (u32 (j + 1))
                     else Continue j) l j =
  match blocks_of p l !! Z.to_nat (index - j) with
  | Some (o, b) => Break (col o b)
  | None => Continue (j + Z.of_nat (length (blocks_of p l)))
  end.
Proof.
  intros Hj0 Hj Hi. unfold blocks_of. revert j Hj0 Hj.
  induction l as [|[o b] l IH]; intros j Hj0 Hj; cbn [walk List.filter snd].
  - by rewrite Z.add_0_r.
  - destruct (p b) eqn:Hp; [|by apply IH].
    destruct (Z.eqb_spec j index) as [->|Hne]; [by rewrite Z.sub_diag|].
    rewrite u32_id by (unfold fits in *; lia). rewrite IH by lia.
    replace (Z.to_nat (index - j)) with (S (Z.to_nat (index - (j + 1)))) by lia.
    cbn. destruct (_ !! _) as [[]|]; [done|]. f_equal. lia.
Qed.

(** The column of an SMMU or root complex block that a query selects, 0 for the
    selectors it does not know. *)
Definition smmu_column (type o : Z) (b : IOVIRT_BLOCK) : Z :=
  if type =? SMMU_CTRL_ARCH_MAJOR_REV then smmu_arch_major_rev (iovirt_data b)
  else if type =? SMMU_CTRL_BASE then smmu_base (iovirt_data b)
  else if type =? SMMU_IOVIRT_BLOCK then o else 0.

Definition rc_column (type o : Z) (b : IOVIRT_BLOCK) : Z :=
  if type =? RC_SEGMENT_NUM then rc_segment (iovirt_data b)
  else if type =? RC_MEM_ATTRIBUTE then rc_cca (iovirt_data b)
  else if type =? RC_ATS_ATTRIBUTE then rc_ats_attr (iovirt_data b)
  else if type =? RC_IOVIRT_BLOCK then o else 0.

Definition is_rc (b : IOVIRT_BLOCK) : bool := iovirt_type b =? IOVIRT_NODE_PCI_ROOT_COMPLEX.

(** Block number [index] of those that satisfy [p]. *)
Definition nth_block (p : IOVIRT_BLOCK -> bool) (l : list (Z * IOVIRT_BLOCK)) (index : Z) :=
  blocks_of p l !! Z.to_nat index.

(** What follows the loop of both queries when it found no block: the count is
    returned only when it is 0. *)
Lemma eval_no_block p l index msg (w : world D) :
  fits 32 index -> Z.of_nat (length l) < 2 ^ 32 -> nth_block p l index = None ->
  let j := 0 + Z.of_nat (length (blocks_of p l)) in
  eval (if u32 (j - 1) <? index then val_print ACS_PRINT_ERR msg index ;; ret 0 else ret j) w 0 w.
Proof.
  intros Hi Hl Hn%lookup_ge_None_1 j.
  assert (Hlen : (length (blocks_of p l) <= length l)%nat).
  { unfold blocks_of. clear. induction l as [|x l IH]; simpl; [done|]. destruct (p _); simpl; lia. }
  apply wp_if; intros Hlt; [wp_step; apply wp_val_print; by wp_step|]. wp_step. split; [|done].
  apply Z.ltb_ge in Hlt. unfold u32, fits, j in *. destruct (blocks_of p l); [done|].
  cbn [length] in *. rewrite Z.mod_small in Hlt by lia. lia.
Qed.

Lemma eval_smmu_info w t l type index :
  iovirt_table w t l -> fits 32 index -> type <> SMMU_NUM_CTRL ->
  eval (val_iovirt_get_smmu_info type index) w
    (match nth_block is_smmu l index with Some (o, b) => smmu_column type o b | None => 0 end) w.
Proof.
  intros (Hg & Hn & Hl & Hc & _) Hi Ht. unfold val_iovirt_get_smmu_info, eval.
  eapply wp_bind, wp_eval; [by apply eval_gets|]. cbv beta iota. rewrite (proj2 (Z.eqb_neq _ _) Ht).
  apply wp_bind. eapply wp_eval.
  - eapply (eval_for_blocks (fun o b j => if is_smmu b then
      if j =? index then Break (smmu_column type o b) else Continue (u32 (j + 1)) else Continue j));
      [done..|]. intros o b j _. unfold eval. destruct (is_smmu b); [|by wp_step].
    destruct (j =? index); [|by wp_step]. unfold smmu_column.
    repeat (destruct (_ =? _); [by wp_step|]). wp_step. apply wp_val_print. by wp_step.
  - rewrite walk_nth by (done || lia || apply Hi). rewrite Z.sub_0_r. fold (nth_block is_smmu l index).
    destruct (nth_block is_smmu l index) as [[o b]|] eqn:E; [by wp_step|].
    cbv beta iota. by apply eval_no_block.
Qed.

Lemma eval_rc_info w t l type index :
  iovirt_table w t l -> fits 32 index -> type <> NUM_PCIE_RC ->
  eval (val_iovirt_get_pcie_rc_info type index) w
    (match nth_block is_rc l index with Some (o, b) => rc_column type o b | None => 0 end) w.
Proof.
  intros (Hg & Hn & Hl & Hc & _) Hi Ht. unfold val_iovirt_get_pcie_rc_info, eval.
  eapply wp_bind, wp_eval; [by apply eval_gets|]. cbv beta iota. rewrite (proj2 (Z.eqb_neq _ _) Ht).
  apply wp_bind. eapply wp_eval.
  - eapply (eval_for_blocks (fun o b j => if is_rc b then
      if j =? index then Break (rc_column type o b) else Continue (u32 (j + 1)) else Continue j));
      [done..|]. intros o b j _. unfold eval, is_rc. destruct (iovirt_type b =? _); [|by wp_step].
    destruct (j =? index); [|by wp_step]. unfold rc_column.
    repeat (destruct (_ =? _); [by wp_step|]). wp_step. apply wp_val_print. by wp_step.
  - rewrite walk_nth by (done || lia || apply Hi). rewrite Z.sub_0_r. fold (nth_block is_rc l index).
    destruct (nth_block is_rc l index) as [[o b]|] eqn:E; [by wp_step|].
    cbv beta iota. by apply eval_no_block.
Qed.

(** Every query on the SMMUs or on the root complexes gives the wanted field of
    block number [index] of that kind, in table order and counting from 0, and 0
    when there are not that many or the field is not one it knows; the walk along
    the chain of blocks stays inside the table. *)
Theorem iovirt_info_nth w t l type index :
  iovirt_table w t l -> fits 32 index ->
  (type <> SMMU_NUM_CTRL ->
   eval (val_iovirt_get_smmu_info type index) w
     (match nth_block is_smmu l index with Some (o, b) => smmu_column type o b | None => 0 end) w) /\
  (type <> NUM_PCIE_RC ->
   eval (val_iovirt_get_pcie_rc_info type index) w
     (match nth_block is_rc l index with Some (o, b) => rc_column type o b | None => 0 end) w).
Proof. intros. split; intros; [by eapply eval_smmu_info|by eapply eval_rc_info]. Qed.

(** ** Device identifiers *)

(** The identifiers of requester [rid] of a segment: through the last mapping of the
    segment's root complex that covers it, either straight to an ITS group, or to an
    SMMU and through the first mapping of it that covers the stream identifier. *)
Definition its_identifier (b : IOVIRT_BLOCK) : Z :=
  if iovirt_type b =? IOVIRT_NODE_ITS_GROUP then default 0 (input_base <$> head (data_map b)) else 0.

Definition device_ids (t : IOVIRT_INFO_TABLE) (l : list (Z * IOVIRT_BLOCK)) (rid segment : Z)
  : option (Z * Z * Z) :=
  '(_, rc) ← List.find (fun ob => is_rc (snd ob) && (rc_segment (iovirt_data (snd ob)) =? segment)) l;
  m ← List.find (fun m => map_covers m rid) (rev (data_map rc));
  b ← iovirt_blocks t !! output_ref m;
  let id := map_output m rid in
  if iovirt_type b =? IOVIRT_NODE_ITS_GROUP then Some (id, 2 ^ 32 - 1, its_identifier b)
  else if is_smmu b then
    m' ← List.find (fun m => map_covers m id) (data_map b);
    its ← iovirt_blocks t !! output_ref m';
    Some (map_output m' id, id, its_identifier its)
  else None.

Lemma find_rev_last {X} (p : X -> bool) l (x : X) :
  List.find p (rev (l ++ [x])) = if p x then Some x else List.find p (rev l).
Proof. by rewrite rev_app_distr. Qed.

(** The last mapping of a block that covers an identifier. *)
Lemma eval_last_cover (b : IOVIRT_BLOCK) rid (w : world D) :
  num_data_map b = Z.of_nat (length (data_map b)) ->
  eval (for_acc (Z.to_nat (num_data_map b)) 0 (fun j found =>
          let* m := need (data_map b !! Z.to_nat j) in
          ret (if map_covers m rid then Some (map_output m rid, output_ref m) else found)) None) w
    ((fun m => (map_output m rid, output_ref m)) <$> List.find (fun m => map_covers m rid) (rev (data_map b))) w.
Proof.
  intros ->. rewrite Nat2Z.id. set (f m := (map_output m rid, output_ref m)).
  apply (wp_for_acc (fun i found s => s = w /\ 0 <= i <= Z.of_nat (length (data_map b)) /\
    found = f <$> List.find (fun m => map_covers m rid) (rev (take (Z.to_nat i) (data_map b))))).
  - split; [done|]. split; [lia|done].
  - intros i found s Hi (-> & _ & ->). destruct (lookup_lt_is_Some_2 (data_map b) (Z.to_nat i)) as [m Hm]; [lia|].
    wp_step. rewrite Hm. wp_step. wp_step. split; [done|]. split; [lia|].
    replace (Z.to_nat (i + 1)) with (S (Z.to_nat i)) by lia.
    rewrite (take_S_r _ _ _ Hm), find_rev_last. by destruct (map_covers m rid).
  - intros found s (-> & _ & ->). by rewrite Z.add_0_l, Nat2Z.id, firstn_all.
Qed.

Lemma walk_find {R} (p : IOVIRT_BLOCK -> bool) (f : IOVIRT_BLOCK -> R) l :
  walk (fun _ b (_ : ()) => if p b then Break (f b) else Continue tt) l tt =
  match List.find (fun ob => p (snd ob)) l with Some (_, b) => Break (f b) | None => Continue tt end.
Proof. induction l as [|[o b] l IH]; cbn [walk List.find snd]; [done|]. by destruct (p b). Qed.

Lemma chain_lookup bs off l o b : block_chain bs off l -> (o, b) ∈ l -> bs !! o = Some b.
Proof.
  revert off. induction l as [|[o' b'] l IH]; intros off Hc Hin; [by apply not_elem_of_nil in Hin|].
  destruct Hc as (-> & Hb & Hc). apply elem_of_cons in Hin as [[= -> ->]|Hin]; [done|]. by eapply IH.
Qed.

Lemma eval_its_identifier t b (w : world D) :
  block_ok t b ->
  eval (if iovirt_type b =? IOVIRT_NODE_ITS_GROUP then
          let* m := need (data_map b !! 0%nat) in ret (input_base m)
        else ret 0) w (its_identifier b) w.
Proof.
  intros [_ Hb]. unfold its_identifier. destruct (iovirt_type b =? _); [|by apply eval_ret].
  destruct (data_map b) as [|m ms]; [done|]. by eapply eval_bind; [by apply eval_need|].
Qed.

(** The first mapping of an SMMU that covers a stream identifier. *)
Lemma eval_first_cover (b : IOVIRT_BLOCK) sid (w : world D) :
  num_data_map b = Z.of_nat (length (data_map b)) ->
  eval (for_ (Z.to_nat (num_data_map b)) 0 (fun i _ =>
          let* m := need (data_map b !! Z.to_nat i) in
          ret (if map_covers m sid then Break (map_output m sid, output_ref m) else Continue tt)) tt) w
    (match List.find (fun m => map_covers m sid) (data_map b) with
     | Some m => Break (map_output m sid, output_ref m) | None => Continue tt end) w.
Proof.
  intros ->. rewrite Nat2Z.id.
  pose proof (eval_for_find (St := world D) (data_map b) (fun m => map_covers m sid)
    (fun m => (map_output m sid, output_ref m)) (length (data_map b))) as P.
  rewrite firstn_all in P. apply P; [done|]. intros k m Hm _. eapply eval_bind; [apply eval_need; by rewrite Nat2Z.id|].
  apply eval_ret.
Qed.

(** What happens once the block that the root complex's mapping refers to is known. *)
Lemma eval_through_block t b id oref (w : world D) :
  (forall off b, iovirt_blocks t !! off = Some b -> block_ok t b) ->
  iovirt_blocks t !! oref = Some b ->
  eval (if iovirt_type b =? IOVIRT_NODE_ITS_GROUP then
          let* m := need (data_map b !! 0%nat) in
          ret (0, Some (id, u32 (Z.lnot 0), input_base m))
        else if is_smmu b then
          let* r := for_ (Z.to_nat (num_data_map b)) 0 (fun i _ =>
            let* m := need (data_map b !! Z.to_nat i) in
            ret (if map_covers m id then Break (map_output m id, output_ref m) else Continue tt)) tt in
          let oref := match r with Break (_, oref) => oref | Continue _ => oref end in
          let* block := need (iovirt_blocks t !! oref) in
          let* itsid :=
            if iovirt_type block =? IOVIRT_NODE_ITS_GROUP then
              let* m := need (data_map block !! 0%nat) in ret (input_base m)
            else ret 0 in
          match r with
          | Continue _ =>
              val_print ACS_PRINT_ERR "GET_DEVICE_ID: Stream ID to Device ID mapping not found\n" 0 ;;
              ret (ACS_STATUS_ERR, None)
          | Break (did, _) => ret (0, Some (did, id, itsid))
          end
        else
          val_print ACS_PRINT_ERR "GET_DEVICE_ID: Invalid mapping for RC in IORT\n" 0 ;;
          ret (ACS_STATUS_ERR, None)) w
    (match (if iovirt_type b =? IOVIRT_NODE_ITS_GROUP then Some (id, 2 ^ 32 - 1, its_identifier b)
            else if is_smmu b then
              m' ← List.find (fun m => map_covers m id) (data_map b);
              its ← iovirt_blocks t !! output_ref m';
              Some (map_output m' id, id, its_identifier its)
            else None) with
     | Some ids => (0, Some ids) | None => (ACS_STATUS_ERR, None) end) w.
Proof.
  intros Hok Hb. destruct (Hok _ _ Hb) as [Hlen Hmaps].
  destruct (iovirt_type b =? IOVIRT_NODE_ITS_GROUP) eqn:Hits.
  { pose proof (eval_its_identifier t b w (Hok _ _ Hb)) as P. rewrite Hits in P.
    destruct (data_map b) as [|m ms] eqn:Hm; [done|]. eapply eval_bind; [by apply eval_need|].
    unfold its_identifier. rewrite Hits, Hm. apply eval_ret. }
  destruct (is_smmu b); [|by apply wp_bind, wp_val_print, wp_ret].
  eapply eval_bind; [by apply eval_first_cover|]. cbv zeta.
  destruct (List.find _ (data_map b)) as [m|] eqn:Hf; cbn [mbind option_bind].
  - apply find_some in Hf as [Hin _]. apply list_elem_of_In in Hin.
    destruct (proj1 (Forall_forall _ _) Hmaps m Hin) as [its Hi]. rewrite Hi. cbn [option_bind].
    eapply eval_bind; [by apply eval_need|]. eapply eval_bind; [apply (eval_its_identifier t), (Hok _ _ Hi)|].
    apply eval_ret.
  - rewrite Hb. eapply eval_bind; [by apply eval_need|].
    eapply eval_bind; [apply (eval_its_identifier t), (Hok _ _ Hb)|].
    by apply wp_bind, wp_val_print, wp_ret.
Qed.

(** C22: The identifiers found for a requester are those of the reference search
    [device_ids]; without one the status is [ACS_STATUS_ERR] and nothing is
    written. Every reference from block to block is followed inside the table. *)
Theorem device_info_correct w t l rid segment :
  iovirt_table w t l ->
  eval (val_iovirt_get_device_info rid segment true) w
    (match device_ids t l rid segment with
     | Some ids => (0, Some ids) | None => (ACS_STATUS_ERR, None) end) w.
Proof.
  intros (Hg & Hn & _ & Hc & Hok). unfold val_iovirt_get_device_info.
  eapply eval_bind; [by apply eval_gets|]. cbv iota. cbn [negb].
  set (cover b := List.find (fun m => map_covers m rid) (rev (data_map b))).
  set (p b := is_rc b && (rc_segment (iovirt_data b) =? segment)).
  eapply eval_bind.
  { apply (eval_for_blocks (fun _ b _ => if p b then
      Break ((fun m => (map_output m rid, output_ref m)) <$> cover b) else Continue tt) t l); [done..|].
    intros o b [] Hin. fold (is_rc b). fold (p b). destruct (p b); [|apply eval_ret].
    eapply eval_bind; [apply eval_last_cover|apply eval_ret].
    eapply Hok. by eapply chain_lookup. }
  rewrite (walk_find p). unfold device_ids. fold p.
  destruct (List.find _ l) as [[o rc]|] eqn:Hf; cbn [mbind option_bind];
    [|by apply wp_bind, wp_val_print, wp_ret].
  fold (cover rc). destruct (cover rc) as [m|] eqn:Hm; cbn [fmap option_fmap option_map mbind option_bind];
    [|by apply wp_bind, wp_val_print, wp_ret].
  apply find_some in Hf as [Hin%list_elem_of_In Hp]. apply find_some in Hm as [Hm _].
  apply in_rev, list_elem_of_In in Hm. destruct (Hok o rc) as [_ Hmaps]; [by eapply chain_lookup|].
  cbn [snd] in Hp. unfold p, is_rc in Hp. apply andb_true_iff in Hp as [Hrc%Z.eqb_eq _].
  rewrite Hrc in Hmaps. cbn in Hmaps.
  destruct (proj1 (Forall_forall _ _) Hmaps m Hm) as [b Hb]. rewrite Hb. cbn [option_bind].
  eapply eval_bind; [by apply eval_need|]. by apply eval_through_block.
Qed.
End iovirt.

(** ** Concrete inputs *)

(** Segment 0 behind one SMMUv3, which sends its devices to an ITS group. *)
Definition rc_block : IOVIRT_BLOCK :=
  mkIovirt IOVIRT_NODE_PCI_ROOT_COMPLEX 1 [0; 1; 1; 0; 0x9050000; 0] 0 [mkIdMap 0 0xFFFF 0x10000 308].
Definition smmu_block : IOVIRT_BLOCK :=
  mkIovirt IOVIRT_NODE_SMMU_V3 1 [3; 0; 0x9050000] 0 [mkIdMap 0x10000 0xFFFF 0 592].
Definition its_block : IOVIRT_BLOCK := mkIovirt IOVIRT_NODE_ITS_GROUP 1 [1] 0 [mkIdMap 7 0 0 0].

Definition iort_chain : list (Z * IOVIRT_BLOCK) := [(24, rc_block); (308, smmu_block); (592, its_block)].
Definition small_iort : IOVIRT_INFO_TABLE := mkIovirtTable 3 1 1 0 1 0 (list_to_map iort_chain).
Definition on_iort : world machine := set_g_iovirt_info_table (Some small_iort) (boot ∅ ∅).

Lemma on_iort_table : iovirt_table on_iort small_iort iort_chain.
Proof.
  split; [reflexivity|]. split; [reflexivity|]. split; [reflexivity|].
  split; [repeat split; reflexivity|]. intros off b Hb.
  apply elem_of_list_to_map_2 in Hb.
  repeat (apply elem_of_cons in Hb as [[= -> ->]|Hb]); [..|by apply not_elem_of_nil in Hb];
    (split; [reflexivity|]); cbn; [| |done]; (constructor; [by eexists|constructor]).
Qed.

Lemma iovirt_info_nth_witness :
  eval (val_iovirt_get_smmu_info SMMU_CTRL_BASE 0) on_iort 0x9050000 on_iort /\
  eval (val_iovirt_get_pcie_rc_info RC_SEGMENT_NUM 1) on_iort 0 on_iort.
Proof.
  split.
  - apply (iovirt_info_nth on_iort small_iort iort_chain SMMU_CTRL_BASE 0 on_iort_table);
      unfold fits; [lia|discriminate].
  - apply (iovirt_info_nth on_iort small_iort iort_chain RC_SEGMENT_NUM 1 on_iort_table);
      unfold fits; [lia|discriminate].
Defined.

Lemma device_info_correct_witness :
  eval (val_iovirt_get_device_info 0x0108 0 true) on_iort (0, Some (0x108, 0x10108, 7)) on_iort.
Proof. exact (device_info_correct on_iort small_iort iort_chain 0x0108 0 on_iort_table). Defined.
