(* ===== verification/GicInt.v ===== *)
(** * Interrupts taken and message-signalled interrupts

    src/val/sys_arch_src/gic/bsa_exception.c (dispatch of exceptions and interrupts),
    the rest of src/val/src/acs_gic_support.c (installing handlers, the MSI-X table of
    a PCIe function, requesting and freeing an MSI), src/val/src/acs_gic_v2m.c (MSI
    frames of GICv2m), the interrupt operations of
    src/platform/pal_uefi_dt/src/pal_gic.c, and the test group of acs_gic.c. *)

From S2P Require Import Prelude Types World Status Machine TestInfra Pcie Timer Gic Iovirt Its.
#[local] Open Scope c_scope.

Definition NUM_ARM_MAX_INTERRUPT : Z := 16384.

(** The handlers of the program, by address: what calling one does. *)
Class Handlers (D : Type) := {
  call_isr : Z -> M (world D) ();
  call_esr : Z -> Z -> M (world D) ()
}.

(** The interrupt protocols of UEFI: looking one up gives a status. *)
Class EfiInterrupts (D : Type) := {
  locate_protocol : string -> D -> Z * D;
  disable_interrupt_source : Z -> D -> D;
  register_interrupt_source : Z -> Z -> D -> Z * D;
  end_of_interrupt : Z -> D -> D;
  set_trigger_type : Z -> Z -> D -> Z * D
}.

Section dispatch.
Context {D : Type} `{Platform D}.

#[local] Abbreviation M := (M (world D)).

(** ** Exceptions (bsa_exception.c) *)

(** The array [g_intr_handler]: an index past its end is undefined. *)
Definition intr_handler (id : Z) : M Z :=
  if id <? NUM_ARM_MAX_INTERRUPT then
    let* l := gets g_intr_handler in ret (default 0 (l !! id))
  else fault.

Definition default_irq_handler `{Handlers D} (fuel : nat) : M () :=
  let* iar_ack_val := val_bsa_gic_acknowledgeInterrupt fuel in
  let ack_interrupt := Z.land (u32 iar_ack_val) 0xFFFFFF in
  let* handler := intr_handler ack_interrupt in
  (if truthy handler then call_isr handler
   else
     val_print ACS_PRINT_ERR
       "\n       GIC_INIT: Unregistered Handler for the interrupt_id : 0x%x" ack_interrupt) ;;
  val_bsa_gic_endofInterrupt fuel ack_interrupt.

Definition val_gic_bsa_install_isr (fuel : nat) (interrupt_id isr : Z) : M Z :=
  val_bsa_gic_disableInterruptSource fuel interrupt_id ;;
  let* _ := intr_handler interrupt_id in
  modify (fun w => set_g_intr_handler (<[interrupt_id := isr]> (g_intr_handler w)) w) ;;
  val_bsa_gic_enableInterruptSource fuel interrupt_id ;;
  ret 0.

(** A handler of exceptions, NULL being undefined. *)
Definition run_esr `{Handlers D} (fuel : nat) (esr exception_type : Z) : M () :=
  if esr =? 0 then fault
  else if esr =? default_irq_handler_addr then default_irq_handler fuel
  else call_esr esr exception_type.

Definition common_exception_handler `{Handlers D} (fuel : nat) (exception_type : Z) : M Z :=
  val_print ACS_PRINT_DEBUG "\n       GIC_INIT: In Exception Handler Type : %x" exception_type ;;
  let* l := gets g_esr_handler in
  let* esr := need (l !! Z.to_nat exception_type) in
  run_esr fuel esr exception_type ;;
  let* far := from_dev (read_sysreg "bsa_gic_get_far") in
  val_print ACS_PRINT_INFO "\n       GIC_INIT: Common Handler, FAR = %x" far ;;
  let* esr := from_dev (read_sysreg "bsa_gic_get_esr") in
  val_print ACS_PRINT_INFO "\n       GIC_INIT: Common Handler, ESR = %x" esr ;;
  ret (if exception_type =? EXCEPT_AARCH64_SYNCHRONOUS_EXCEPTIONS then 1 else 0).

(** ** Interrupts of the firmware (pal_gic.c) *)

Definition pal_gic_install_isr `{Edk2 D} `{EfiInterrupts D} (int_id isr : Z) : M Z :=
  let* Status := from_dev (locate_protocol "gHardwareInterruptProtocolGuid") in
  if EFI_ERROR Status then ret 0xFFFFFFFF
  else
  on_dev (disable_interrupt_source int_id) ;;
  let* Status := from_dev (register_interrupt_source int_id isr) in
  (when EFI_ERROR Status then
     let* _ := from_dev (register_interrupt_source int_id 0) in
     let* _ := from_dev (register_interrupt_source int_id isr) in
     ret tt) ;;
  ret 0.

Definition pal_gic_end_of_interrupt `{Edk2 D} `{EfiInterrupts D} (int_id : Z) : M Z :=
  let* Status := from_dev (locate_protocol "gHardwareInterruptProtocolGuid") in
  if EFI_ERROR Status then ret 0xFFFFFFFF
  else on_dev (end_of_interrupt int_id) ;; ret 0.

Definition pal_gic_set_intr_trigger `{Edk2 D} `{EfiInterrupts D} (int_id trigger_type : Z) : M Z :=
  let* Status := from_dev (locate_protocol "gHardwareInterrupt2ProtocolGuid") in
  if EFI_ERROR Status then ret 0xFFFFFFFF
  else
  let* Status := from_dev (set_trigger_type int_id trigger_type) in
  ret (if EFI_ERROR Status then 0xFFFFFFFF else 0).

Definition val_gic_set_intr_trigger `{Edk2 D} `{EfiInterrupts D} (int_id trigger_type : Z) : M () :=
  val_print ACS_PRINT_DEBUG "\n    Setting Trigger type as %d  " trigger_type ;;
  let* status := pal_gic_set_intr_trigger int_id trigger_type in
  when truthy status then
    val_print ACS_PRINT_ERR "\n    Error Could Not Configure Trigger Type" 0.

Definition pal_gic_request_irq (IrqNum MappedIrqNum Isr : Z) : M Z := ret 0.
Definition pal_gic_free_irq (IrqNum MappedIrqNum : Z) : M () := ret tt.

(** ** Installing a handler (acs_gic_support.c) *)

Definition val_gic_is_valid_lpi (int_id : Z) : M Z :=
  let* max_lpi_id := pal_gic_get_max_lpi_id in
  ret (if (int_id <? LPI_MIN_ID) || (u32 max_lpi_id <? int_id) then 0 else 1).

Definition val_gic_install_isr `{Edk2 D} `{EfiInterrupts D} (fuel : nat) (int_id isr : Z) : M Z :=
  let* max := val_get_max_intid fuel in
  let* bad :=
    if u32 max <? int_id then let* v := val_gic_is_valid_lpi int_id in ret (negb (truthy v))
    else ret false in
  if bad || (int_id =? 0) then
    val_print ACS_PRINT_ERR "\n       Invalid Interrupt ID number 0x%x " int_id ;;
    ret ACS_STATUS_ERR
  else if pal_bsa_gic_imp then val_gic_bsa_install_isr fuel int_id isr
  else
  let* ret_val := pal_gic_install_isr int_id isr in
  (when (31 <? int_id) && (int_id <? 1024) then
     gicd_write fuel (GICD_ISENABLER + u32 (4 * (int_id / 32))) (Z.shiftl 1 (int_id mod 32))) ;;
  ret ret_val.

Definition val_gic_request_irq (irq_num mapped_irq_num isr : Z) : M Z :=
  pal_gic_request_irq irq_num mapped_irq_num isr.
Definition val_gic_free_irq (irq_num mapped_irq_num : Z) : M () := pal_gic_free_irq irq_num mapped_irq_num.

Definition val_gic_end_of_interrupt `{Edk2 D} `{EfiInterrupts D} (int_id : Z) : M Z :=
  pal_gic_end_of_interrupt int_id ;; ret 0.

Definition val_gic_its_configure `{Edk2 D} (fuel : nat) : M Z := pal_gic_its_configure fuel.

(** ** The MSI-X table of a function *)

(** Where the code takes the table to be: the address register the capability points
    to, as it stands; the offset in the table register is not used. *)
Definition msi_x_table (bdf msi_cap_offset : Z) : M Z :=
  let* table_offset_reg := read_cfg_fresh bdf (u32 (msi_cap_offset + MSI_X_TOR_OFFSET)) in
  let msi_table_bar_index := Z.land table_offset_reg MSI_X_TABLE_BIR_MASK in
  read_cfg_fresh bdf (u32 (TYPE01_BAR + msi_table_bar_index * 4)).

(** A field of entry [msi_index]: all of it is 32-bit arithmetic. *)
Definition msi_x_entry (table_address msi_index off : Z) : Z :=
  u32 (table_address + u32 (msi_index * MSI_X_ENTRY_SIZE) + off).

Definition msi_x_write (table_address msi_index addr data mvc : Z) : M () :=
  val_mmio_write (msi_x_entry table_address msi_index MSI_X_MSG_TBL_ADDR_OFFSET) addr ;;
  val_mmio_write (msi_x_entry table_address msi_index MSI_X_MSG_TBL_DATA_OFFSET) data ;;
  val_mmio_write (msi_x_entry table_address msi_index MSI_X_MSG_TBL_MVC_OFFSET) mvc.

(** The offset of the capability; its absence leaves the variable unwritten. *)
Definition msi_x_capability (fuel : nat) (bdf : Z) : M Z :=
  let* ' (_, msi_cap_offset) := val_pcie_find_capability fuel bdf PCIE_CAP CID_MSIX in
  need msi_cap_offset.

Definition clear_msi_x_table (fuel : nat) (bdf msi_index : Z) : M () :=
  let* msi_cap_offset := msi_x_capability fuel bdf in
  let* read_value := read_cfg_fresh bdf msi_cap_offset in
  val_pcie_write_cfg bdf msi_cap_offset (Z.land read_value (Z.shiftl 1 MSI_X_ENABLE_SHIFT - 1)) ;;
  let* table_address := msi_x_table bdf msi_cap_offset in
  msi_x_write table_address msi_index 0 0 0x1.

Definition fill_msi_x_table (fuel : nat) (bdf msi_index msi_addr msi_data : Z) : M () :=
  let* command_data := read_cfg_fresh bdf TYPE01_CR in
  val_pcie_write_cfg bdf TYPE01_CR
    (Z.lor (Z.lor command_data (Z.shiftl 1 CR_MSE_SHIFT)) (Z.shiftl 1 CR_BME_SHIFT)) ;;
  let* msi_cap_offset := msi_x_capability fuel bdf in
  let* read_value := read_cfg_fresh bdf msi_cap_offset in
  val_pcie_write_cfg bdf msi_cap_offset (Z.lor read_value (Z.shiftl 1 MSI_X_ENABLE_SHIFT)) ;;
  let* table_address := msi_x_table bdf msi_cap_offset in
  msi_x_write table_address msi_index msi_addr msi_data 0x0.

(** The identifiers of a function: its device identifier, its requester identifier
    when the table has none, and the identifier of its ITS, which is then not
    written. *)
Definition msi_identifiers (bdf : Z) : M (Z * option Z) :=
  let req_id := GET_DEVICE_ID (PCIE_EXTRACT_BDF_BUS bdf) (PCIE_EXTRACT_BDF_DEV bdf)
                  (PCIE_EXTRACT_BDF_FUNC bdf) in
  let* ' (status, ids) := val_iovirt_get_device_info req_id (PCIE_EXTRACT_BDF_SEG bdf) true in
  let its_id := snd <$> ids in
  if truthy status then ret (req_id, its_id)
  else let* ' (device_id, _, _) := need ids in ret (device_id, its_id).

Definition val_gic_free_msi `{Edk2 D} (fuel : nat) (bdf IntID msi_index : Z) : M () :=
  let* ' (device_id, its_id) := msi_identifiers bdf in
  let* its_id := need its_id in
  pal_gic_free_msi fuel its_id device_id IntID msi_index ;;
  clear_msi_x_table fuel bdf msi_index.

Definition val_gic_request_msi `{Edk2 D} (fuel : nat) (bdf IntID msi_index : Z) : M Z :=
  let* ' (device_id, its_id) := msi_identifiers bdf in
  let* its_id := need its_id in
  let* ' (status, msi) := pal_gic_request_msi fuel its_id device_id IntID msi_index in
  if truthy status then ret status
  else
  let* ' (msi_addr, msi_data) := need msi in
  fill_msi_x_table fuel bdf msi_index msi_addr msi_data ;;
  ret status.

(** ** MSI frames of GICv2m (acs_gic_v2m.c) *)

(** [val_memory_alloc(1024)] holds 8 bytes of header and 42 frames of 24. *)
Definition V2M_CAPACITY : nat := 42.

Definition v2m_frame_of (e : GIC_INFO_ENTRY) : MSI_FRAME_ENTRY :=
  mkFrame (gic_base e) (gic_entry_id e) (gic_flags e) (gic_spi_count e) (gic_spi_base e).

(** [msi_info[i++] = ...]: past the end of the block the store is undefined. *)
Definition v2m_add (e : GIC_INFO_ENTRY) (l : list MSI_FRAME_ENTRY) : M (list MSI_FRAME_ENTRY) :=
  if decide (length l < V2M_CAPACITY)%nat then ret (l ++ [v2m_frame_of e]) else fault.

Definition val_gic_v2m_parse_info (fuel : nat) : M Z :=
  let* t := gets g_gic_info_table in
  match t with
  | None => val_print ACS_PRINT_DEBUG "GIC INFO table not available \n" 0 ;; ret ACS_STATUS_SKIP
  | Some t =>
      let* p := val_memory_alloc 1024 in
      if p =? 0 then
        modify (set_g_v2m_msi_info None) ;;
        val_print ACS_PRINT_DEBUG "\n      GICv2m : MSI Frame Info Failed." 0 ;;
        ret ACS_STATUS_SKIP
      else
      let* l := while_ fuel (fun '(gic_entry_, l) =>
        let* e := gic_entry gic_entry_ in
        if negb (gic_type e =? 0xFF) then
          let* l := if gic_type e =? ENTRY_TYPE_GIC_MSI_FRAME then v2m_add e l else ret l in
          ret (Continue (gic_entry_ + 1, l))
        else ret (Break l)) (0, []) in
      modify (set_g_v2m_msi_info (Some (mkV2m (num_msi_frame (gic_header t)) l))) ;;
      ret 0
  end.

(** A zero in the table means that the frame itself is asked. *)
Definition val_gic_v2m_get_info (type instance : Z) : M Z :=
  let* t := gets g_v2m_msi_info in
  match t with
  | None =>
      val_print ACS_PRINT_ERR "\n   Get GICv2m info called before table is filled " 0 ;;
      ret 0
  | Some t =>
      let frame := need (v2m_msi_info t !! Z.to_nat instance) in
      let typer (f : MSI_FRAME_ENTRY) := val_mmio_read (u64 (fr_base f + GICv2m_MSI_TYPER)) in
      if type =? V2M_MSI_FRAME_ID then let* f := frame in ret (fr_entry_id f)
      else if type =? V2M_MSI_FRAME_BASE then let* f := frame in ret (fr_base f)
      else if type =? V2M_MSI_SPI_BASE then
        let* f := frame in
        if fr_spi_base f =? 0 then let* v := typer f in ret (u32 (VAL_EXTRACT_BITS v 16 25))
        else ret (fr_spi_base f)
      else if type =? V2M_MSI_SPI_NUM then
        let* f := frame in
        if fr_spi_count f =? 0 then let* v := typer f in ret (u32 (VAL_EXTRACT_BITS v 0 9))
        else ret (fr_spi_count f)
      else if type =? V2M_MSI_FLAGS then let* f := frame in ret (fr_flags f)
      else
        val_print ACS_PRINT_ERR "\n    V2M_MSI_INFO - TYPE not recognized %d  " type ;;
        ret ACS_STATUS_ERR
  end.

(** ** The test group (acs_gic.c) *)

Definition val_gic_v2m_tests `{TestPool D} (fuel : nat) (num_pe status : Z) (os : bool) : M Z :=
  let* gic_version := val_gic_get_info fuel GIC_INFO_VERSION in
  let* frames := val_gic_get_info fuel GIC_INFO_NUM_MSI_FRAME in
  if negb (gic_version =? 2) || (frames =? 0) then
    val_print ACS_PRINT_TEST "\n      No GICv2m, Skipping all GICv2m tests \n" 0 ;;
    ret status
  else
  let* r := val_gic_v2m_parse_info fuel in
  if truthy r then
    val_print ACS_PRINT_TEST "\n     GICv2m info mismatch, Skipping all GICv2m tests \n" 0 ;;
    ret status
  else
  val_print ACS_PRINT_ERR "\n      *** Starting GICv2m tests ***\n" 0 ;;
  if os then
    val_print ACS_PRINT_ERR "\nOperating System:\n" 0 ;;
    run_tests ["os_v001_entry"; "os_v002_entry"; "os_v003_entry"; "os_v004_entry"] num_pe status
  else ret status.

Definition val_gic_execute_tests `{TestPool D} (fuel : nat) (num_pe : Z) (g_sw_view : list Z) : M Z :=
  let* skip := user_skips ACS_GIC_TEST_NUM_BASE in
  if skip then
    val_print ACS_PRINT_TEST "\n      USER Override - Skipping all GIC tests \n" 0 ;;
    ret ACS_STATUS_SKIP
  else
  let* os := need (g_sw_view !! Z.to_nat G_SW_OS) in
  let* status :=
    if truthy os then
      val_print ACS_PRINT_ERR "\nOperating System:\n" 0 ;;
      run_tests ["os_g001_entry"; "os_g002_entry"; "os_g003_entry"; "os_g004_entry";
                 "os_g005_entry"; "os_g006_entry"] num_pe ACS_STATUS_PASS
    else ret ACS_STATUS_PASS in
  let* hyp := need (g_sw_view !! Z.to_nat G_SW_HYP) in
  let* status :=
    if truthy hyp then
      val_print ACS_PRINT_ERR "\nHypervisor:\n" 0 ;; run_tests ["hyp_g001_entry"] num_pe status
    else ret status in
  let* status := val_gic_v2m_tests fuel num_pe status (truthy os) in
  (if negb (status =? ACS_STATUS_PASS) then
     val_print ACS_PRINT_TEST "\n      *** One or more tests have Failed/Skipped.*** \n" 0
   else val_print ACS_PRINT_TEST "\n     All GIC tests Passed!! \n" 0) ;;
  ret status.

(** [table] is the address of the table. *)
Definition val_gic_free_info_table (table : Z) : M () := pal_mem_free table.

End dispatch.

(** ** Handlers survive the work on registers *)

Section handlers.
Context {D : Type} `{Platform D}.

#[local] Abbreviation handlers := (g_intr_handler (D := D)).

#[local] Instance keeps_from_dev {A} (g : D -> A * D) : Keeps handlers (from_dev g).
Proof. by intros w. Qed.
#[local] Instance keeps_print l s x : Keeps handlers (val_print l s x).
Proof. unfold val_print. apply _. Qed.
#[local] Instance keeps_pal_print l s x : Keeps handlers (bsa_print l s x).
Proof. unfold bsa_print. apply _. Qed.
#[local] Instance keeps_mmio_read a : Keeps handlers (val_mmio_read a).
Proof. unfold val_mmio_read, pal_mmio_read. apply _. Qed.
#[local] Instance keeps_mmio_read64 a : Keeps handlers (val_mmio_read64 a).
Proof. unfold val_mmio_read64, pal_mmio_read64. apply _. Qed.
#[local] Instance keeps_mmio_write a v : Keeps handlers (val_mmio_write a v).
Proof. unfold val_mmio_write, pal_mmio_write, on_dev. apply _. Qed.

#[local] Instance keeps_base fuel type : Keeps handlers (base_of_type fuel type).
Proof. unfold base_of_type, find_gic_entry, gic_entry. apply _. Qed.
#[local] Instance keeps_gicd_read fuel off : Keeps handlers (gicd_read fuel off).
Proof. unfold gicd_read, val_get_gicd_base. apply _. Qed.
#[local] Instance keeps_gicd_write fuel off v : Keeps handlers (gicd_write fuel off v).
Proof. unfold gicd_write, val_get_gicd_base. apply _. Qed.
#[local] Instance keeps_is_v3 fuel : Keeps handlers (is_v3 fuel).
Proof. unfold is_v3, val_gic_get_info. apply _. Qed.
#[local] Instance keeps_redistributor fuel : Keeps handlers (my_redistributor fuel).
Proof.
  unfold my_redistributor, val_get_gicr_base, find_gic_entry, gic_entry, CurrentCpuRDBase, frame_affinity.
  apply _.
Qed.

Lemma keeps_enable fuel id : Keeps handlers (val_bsa_gic_enableInterruptSource fuel id).
Proof.
  unfold val_bsa_gic_enableInterruptSource, v3_EnableInterruptSource, v2_EnableInterruptSource. apply _.
Qed.

Lemma keeps_disable fuel id : Keeps handlers (val_bsa_gic_disableInterruptSource fuel id).
Proof.
  unfold val_bsa_gic_disableInterruptSource, v3_DisableInterruptSource, v2_DisableInterruptSource. apply _.
Qed.

Lemma keeps_acknowledge fuel : Keeps handlers (val_bsa_gic_acknowledgeInterrupt fuel).
Proof.
  unfold val_bsa_gic_acknowledgeInterrupt, v3_AcknowledgeInterrupt, v2_AcknowledgeInterrupt,
    val_get_cpuif_base. apply _.
Qed.

(** Installing succeeds only for an index inside the array, and sets that entry. *)
Lemma install_sets fuel id isr w w1 :
  eval (val_gic_bsa_install_isr fuel id isr) w 0 w1 ->
  id < NUM_ARM_MAX_INTERRUPT /\ g_intr_handler w1 = <[id := isr]> (g_intr_handler w).
Proof.
  unfold val_gic_bsa_install_isr, eval, wp, bind, intr_handler.
  pose proof (keeps_disable fuel id w) as Hd.
  destruct (val_bsa_gic_disableInterruptSource fuel id w) as [[] w0 o| |]; [|done..].
  destruct (Z.ltb_spec id NUM_ARM_MAX_INTERRUPT) as [Hid|]; cbn; [|tauto].
  pose proof (keeps_enable fuel id (set_g_intr_handler (<[id := isr]> (g_intr_handler w0)) w0)) as He.
  destruct (val_bsa_gic_enableInterruptSource fuel id _) as [[] w2 o2| |]; [|done..].
  intros [_ ->]. split; [done|]. rewrite He, <- Hd. reflexivity.
Qed.

(** What the handler of IRQ exceptions does after the acknowledgement. *)
Lemma irq_after_ack `{Handlers D} fuel w iar w1 h Q :
  eval (val_bsa_gic_acknowledgeInterrupt fuel) w iar w1 ->
  iar mod 2 ^ 24 < NUM_ARM_MAX_INTERRUPT -> g_intr_handler w !! (iar mod 2 ^ 24) = Some h -> h <> 0 ->
  wp (default_irq_handler fuel) w Q <->
  wp (call_isr h) w1 (fun _ w2 => wp (val_bsa_gic_endofInterrupt fuel (iar mod 2 ^ 24)) w2 Q).
Proof.
  intros Ha Hlt Hh Hnz. pose proof (keeps_eval _ _ _ _ _ (keeps_acknowledge fuel) Ha) as Hk.
  assert (Hack : Z.land (u32 iar) 0xFFFFFF = iar mod 2 ^ 24).
  { rewrite (land_mask 24) by done. unfold u32. divmod. }
  unfold default_irq_handler, eval, wp, bind, intr_handler in *.
  destruct (val_bsa_gic_acknowledgeInterrupt fuel w) as [iar' w1' o| |]; [|done..].
  destruct Ha as [<- <-]. rewrite Hack. apply Z.ltb_lt in Hlt. rewrite Hlt.
  cbn [gets ret bind]. rewrite Hk, Hh. change (default 0 (Some h)) with h.
  replace (truthy h) with true by (unfold truthy; by rewrite (proj2 (Z.eqb_neq _ _) Hnz)).
  destruct (call_isr h w1') as [[] w2 o2| |]; [|reflexivity..].
  destruct (val_bsa_gic_endofInterrupt fuel (iar' mod 2 ^ 24) w2); reflexivity.
Qed.

(** C31: Once a handler has been installed for an interrupt, and as long as the table of
    handlers is not touched, taking that interrupt acknowledges it, calls the handler
    and then ends it, in this order; the handlers of the other interrupts are as they
    were. An interrupt whose number is past the end of the table - every LPI from
    16384 on - makes the dispatch read outside the array. *)
Theorem installed_isr_runs `{Handlers D} fuel id isr w w1 :
  eval (val_gic_bsa_install_isr fuel id isr) w 0 w1 -> isr <> 0 ->
  (forall other, other <> id -> g_intr_handler w1 !! other = g_intr_handler w !! other) /\
  forall w2 fuel' iar w3, g_intr_handler w2 = g_intr_handler w1 ->
    eval (val_bsa_gic_acknowledgeInterrupt fuel') w2 iar w3 ->
    (iar mod 2 ^ 24 = id -> forall Q,
       wp (default_irq_handler fuel') w2 Q <->
       wp (call_isr isr) w3 (fun _ w4 => wp (val_bsa_gic_endofInterrupt fuel' id) w4 Q)) /\
    (NUM_ARM_MAX_INTERRUPT <= iar mod 2 ^ 24 -> default_irq_handler fuel' w2 = Fault).
Proof.
  intros Hi Hisr. destruct (install_sets _ _ _ _ _ Hi) as [Hid Hset]. split.
  - intros other Ho. rewrite Hset. by apply lookup_insert_ne.
  - intros w2 fuel' iar w3 Hw2 Ha. split.
    + intros <- Q. apply irq_after_ack; try done. rewrite Hw2, Hset. apply lookup_insert_eq.
    + intros Hge. unfold default_irq_handler, bind. unfold eval, wp in Ha.
      destruct (val_bsa_gic_acknowledgeInterrupt fuel' w2) as [iar' w3' o| |]; [|done..].
      destruct Ha as [<- _]. unfold intr_handler. rewrite (land_mask 24) by done.
      replace (u32 iar' mod 2 ^ 24) with (iar' mod 2 ^ 24) by (unfold u32; divmod).
      by rewrite (proj2 (Z.ltb_ge _ _) Hge).
Qed.
End handlers.

(** ** The frames found *)

Section frames.
Context {D : Type} `{Platform D}.

Definition is_frame (e : GIC_INFO_ENTRY) : bool := gic_type e =? ENTRY_TYPE_GIC_MSI_FRAME.

(** The frames of the entries of a table, in its order. *)
Definition frames_of (es : list GIC_INFO_ENTRY) : list MSI_FRAME_ENTRY :=
  v2m_frame_of <$> List.filter is_frame es.

Lemma v2m_loop (w : world D) t es x rest pre fuel l :
  g_gic_info_table w = Some t -> gic_info t = pre ++ es ++ x :: rest ->
  forallb (fun e => negb (gic_last e)) es = true -> gic_last x = true ->
  (length es < fuel)%nat -> (length l <= V2M_CAPACITY)%nat ->
  while_ fuel (fun '(gic_entry_, l) =>
    let* e := gic_entry gic_entry_ in
    if negb (gic_type e =? 0xFF) then
      let* l := if gic_type e =? ENTRY_TYPE_GIC_MSI_FRAME then v2m_add e l else ret l in
      ret (Continue (gic_entry_ + 1, l))
    else ret (Break l)) (Z.of_nat (length pre), l) w =
  if decide (length (l ++ frames_of es) <= V2M_CAPACITY)%nat then Ret (l ++ frames_of es) w [] else Fault.
Proof.
  intros Hg. revert pre fuel l. induction es as [|e es IH]; intros pre [|fuel] l Ht Hes Hx Hf Hl; try (cbn in Hf; lia).
  - cbn [while_]. unfold bind, gic_entry. cbn [gets ret bind]. rewrite Hg. cbn [need ret bind].
    rewrite Nat2Z.id, Ht. cbn [app]. rewrite list_lookup_middle by done. cbn [need ret].
    unfold gic_last in Hx. rewrite Hx. cbn. rewrite app_nil_r. by rewrite decide_True.
  - cbn [forallb] in Hes. apply andb_true_iff in Hes as [He Hes].
    cbn [while_]. unfold bind, gic_entry. cbn [gets ret bind]. rewrite Hg. cbn [need ret bind].
    rewrite Nat2Z.id, Ht. cbn [app]. rewrite list_lookup_middle by done. cbn [need ret].
    unfold gic_last in He. rewrite He.
    assert (Hnext : Z.of_nat (length pre) + 1 = Z.of_nat (length (pre ++ [e]))) by (rewrite length_app; cbn; lia).
    assert (Ht' : gic_info t = (pre ++ [e]) ++ es ++ x :: rest) by (by rewrite Ht, <- app_assoc).
    unfold frames_of. cbn [List.filter]. fold (is_frame e).
    destruct (is_frame e).
    + unfold v2m_add. destruct (decide (length l < V2M_CAPACITY)%nat) as [Hlt|Hge]; cbn [ret].
      * rewrite Hnext, (IH _ _ _ Ht') by (try done; try (rewrite length_app; cbn); cbn in Hf; lia).
        cbn [fmap list_fmap]. rewrite <- app_assoc. cbn [app]. by destruct (decide _).
      * cbn [fmap list_fmap fault]. rewrite decide_False; [done|]. rewrite length_app. cbn. lia.
    + cbn [ret]. rewrite Hnext, (IH _ _ _ Ht') by (try done; cbn in Hf; lia). unfold frames_of. by destruct (decide _).
Qed.

(** Reading the MSI frames copies exactly the frame entries of the GIC table, in
    its order, when there are at most 42 of them; the block allocated for them holds
    no more, and with more the copy runs past its end. *)
Theorem v2m_parse_frames w t es x rest fuel p d :
  g_gic_info_table w = Some t -> gic_info t = es ++ x :: rest ->
  forallb (fun e => negb (gic_last e)) es = true -> gic_last x = true -> (length es < fuel)%nat ->
  bs_allocate_pool 1024 (heap w) (dev w) = (inr p, d) -> p <> 0 ->
  if decide (length (frames_of es) <= 42)%nat then
    eval (val_gic_v2m_parse_info fuel) w 0
      (set_g_v2m_msi_info (Some (mkV2m (num_msi_frame (gic_header t)) (frames_of es)))
        (set_heap (<[p := 1024]> (heap w)) (set_dev d w)))
  else val_gic_v2m_parse_info fuel w = Fault.
Proof.
  intros Hg Ht Hes Hx Hf Ha Hp. unfold val_gic_v2m_parse_info.
  assert (Hal : exists o, val_memory_alloc 1024 w = Ret p (set_heap (<[p := 1024]> (heap w)) (set_dev d w)) o).
  { pose proof (wp_memory_alloc 1024 p d w (fun q s => q = p /\ s = set_heap (<[p := 1024]> (heap w)) (set_dev d w))) as P.
    unfold wp in P. destruct (val_memory_alloc 1024 w) as [q s o| |]; [|exfalso; apply P; auto; by split..].
    exists o. destruct P as [-> ->]; auto. by split. }
  destruct Hal as [o Hal].
  pose proof (v2m_loop (set_heap (<[p := 1024]> (heap w)) (set_dev d w)) t es x rest [] fuel [] Hg Ht Hes Hx Hf) as P.
  cbn [app length] in P. specialize (P ltac:(unfold V2M_CAPACITY; lia)). change V2M_CAPACITY with 42%nat in P.
  change (Z.of_nat 0) with 0 in P. destruct (decide _) as [Hle|Hgt].
  - eapply eval_bind; [by apply eval_gets|]. cbv beta iota. eapply eval_bind; [unfold eval, wp; by rewrite Hal|].
    rewrite (proj2 (Z.eqb_neq _ _) Hp). eapply eval_bind; [unfold eval, wp; by rewrite P|].
    by eapply eval_bind; [|apply eval_ret].
  - erewrite bind_run by reflexivity. rewrite Hg. erewrite bind_run by exact Hal.
    rewrite (proj2 (Z.eqb_neq _ _) Hp). by rewrite (bind_fault _ _ _ P).
Qed.
End frames.

(** ** MSIs of a function the table does not know *)

Section unknown.
Context {D : Type} `{Platform D} `{Edk2 D}.

(** When the I/O virtualisation table has no mapping for a function - or is not
    there - requesting or freeing an MSI for it uses the identifier of an ITS that
    nothing has written, although the code means to go on with the requester
    identifier. *)
Theorem msi_without_mapping_undefined w w1 fuel bdf intid msi_index status :
  let rid := GET_DEVICE_ID (PCIE_EXTRACT_BDF_BUS bdf) (PCIE_EXTRACT_BDF_DEV bdf) (PCIE_EXTRACT_BDF_FUNC bdf) in
  eval (val_iovirt_get_device_info rid (PCIE_EXTRACT_BDF_SEG bdf) true) w (status, None) w1 -> status <> 0 ->
  val_gic_request_msi fuel bdf intid msi_index w = Fault /\
  val_gic_free_msi fuel bdf intid msi_index w = Fault.
Proof.
  cbv zeta. intros Hi Hs. unfold eval, wp in Hi.
  assert (Hids : exists rid o, msi_identifiers bdf w = Ret (rid, None) w1 o).
  { unfold msi_identifiers. destruct (val_iovirt_get_device_info _ _ _ w) as [r s o| |] eqn:E; [|done..].
    destruct Hi as [-> ->]. erewrite bind_run by exact E. unfold truthy.
    rewrite (proj2 (Z.eqb_neq _ _) Hs). by eexists _, _. }
  destruct Hids as (rid & o & Hids). unfold val_gic_request_msi, val_gic_free_msi.
  split; by erewrite bind_run by exact Hids.
Qed.
End unknown.

(** ** Concrete inputs *)

(** Handlers that leave their address and what they were called for in memory. *)
#[export] Instance machine_handlers : Handlers machine := {
  call_isr h := on_dev (dev_write 8 0xF00000 h);
  call_esr h t := on_dev (dev_write 8 0xF00008 t)
}.

(** The interrupt controller of [on_gic], acknowledging this interrupt. *)
Definition acknowledging (iar : Z) : world machine :=
  set_dev (Machine (mach_mem (dev (on_gic 0 0))) {["bsa_gic_ack_intr"%string := iar]} 0 []) (on_gic 0 0).

Definition with_isr (iar : Z) : world machine :=
  match val_gic_bsa_install_isr 3 42 0x1234 (acknowledging iar) with Ret _ w _ => w | _ => acknowledging iar end.

Lemma with_isr_installed iar : eval (val_gic_bsa_install_isr 3 42 0x1234) (acknowledging iar) 0 (with_isr iar).
Proof. vm_compute. split; reflexivity. Qed.

(** Interrupt 42 runs the handler; interrupt 20000 is undefined. *)
Lemma installed_isr_runs_witness :
  wp (default_irq_handler 3) (with_isr 42) (fun _ w => mach_mem (dev w) !! 0xF00000 = Some 0x1234) /\
  default_irq_handler 3 (with_isr 20000) = Fault.
Proof.
  split.
  - destruct (installed_isr_runs 3 42 0x1234 _ _ (with_isr_installed 42) ltac:(discriminate)) as [_ P].
    destruct (P (with_isr 42) 3%nat 42 (with_isr 42) eq_refl) as [Q _]; [vm_compute; split; reflexivity|].
    apply Q; [reflexivity|]. vm_compute. reflexivity.
  - destruct (installed_isr_runs 3 42 0x1234 _ _ (with_isr_installed 20000) ltac:(discriminate)) as [_ P].
    destruct (P (with_isr 20000) 3%nat 20000 (with_isr 20000) eq_refl) as [_ Q]; [vm_compute; split; reflexivity|].
    apply Q. vm_compute. intro; discriminate.
Defined.

Lemma msi_without_mapping_undefined_witness :
  val_gic_request_msi 5 (PCIE_CREATE_BDF 0 1 1 0) 8192 0 (its_ready 1) = Fault.
Proof.
  apply (msi_without_mapping_undefined (its_ready 1) (its_ready 1) 5 (PCIE_CREATE_BDF 0 1 1 0) 8192 0
    ACS_STATUS_ERR); [|discriminate]. vm_compute. split; reflexivity.
Defined.

(** A table of 43 MSI frames, and one of two. *)
Definition on_frames (n : nat) : world machine :=
  set_g_gic_info_table (Some (mkGicTable (mkGicHdr 2 1 0 0 (Z.of_nat n))
    (repeat (mkGic ENTRY_TYPE_GIC_MSI_FRAME 0x9000000 3 0 0 16 64) n ++ [gic_of 0xFF 0]))) (boot ∅ ∅).

Lemma v2m_parse_frames_witness :
  val_gic_v2m_parse_info 50 (on_frames 43) = Fault /\
  wp (val_gic_v2m_parse_info 50) (on_frames 2) (fun r w =>
    r = 0 /\ g_v2m_msi_info w = Some (mkV2m 2 (repeat (mkFrame 0x9000000 3 0 16 64) 2))).
Proof.
  split.
  - refine (v2m_parse_frames (on_frames 43) _ (repeat _ 43) (gic_of 0xFF 0) [] 50 4096 _ eq_refl
      eq_refl eq_refl eq_refl _ eq_refl _); [cbn; lia|discriminate].
  - pose proof (v2m_parse_frames (on_frames 2) _ (repeat _ 2) (gic_of 0xFF 0) [] 50 4096 _ eq_refl
      eq_refl eq_refl eq_refl ltac:(cbn; lia) eq_refl ltac:(discriminate)) as P.
    rewrite decide_True in P by (cbn; lia). by apply (wp_eval _ _ _ _ _ P).
Defined.

(** ** An MSI from request to release *)

(** The machine of [its_ready], with the function 0:1:1.0 of the I/O virtualisation
    table of Iovirt: an MSI-X capability at 0x40 whose table is at offset 0x2000 of the
    first address register, which holds 0x50000000. *)
Definition msix_bdf : Z := PCIE_CREATE_BDF 0 1 1 0.

Definition on_msi : world machine :=
  let cfg : gmap Z Z := list_to_map [(0x40108034, 0x40); (0x40108040, 0x11); (0x40108044, 0x2000);
                                     (0x40108010, 0x50000000)] in
  set_g_iovirt_info_table (Some small_iort) (set_g_pcie_info_table (Some one_ecam)
    (set_dev (Machine (cfg ∪ mach_mem (dev (its_ready 1))) ∅ 0 []) (its_ready 1))).

Definition after_request : option (Z * world machine) :=
  match val_gic_request_msi POLLS msix_bdf 8192 1 on_msi with Ret r w _ => Some (r, w) | _ => None end.

Definition free_it (w : world machine) : option (Z * world machine) :=
  match val_gic_free_msi POLLS msix_bdf 8192 1 w with Ret _ w _ => Some (0, w) | _ => None end.

Definition after_free : option (Z * world machine) := r ← after_request; free_it (snd r).

(** Status; address, data and mask of entry 1 at the start of the address register;
    the address of entry 1 where the capability says; the capability and the command
    register; the write pointer of the ITS. *)
Definition msi_view (r : Z * world machine) : Z * list (option Z) * option (list Z) :=
  let at_ a := mach_mem (dev (snd r)) !! a in
  (fst r, [at_ 0x50000010; at_ 0x50000018; at_ 0x5000001C; at_ 0x50002010; at_ 0x40108040; at_ 0x40108004],
   g_cwriter_ptr (g_its (snd r))).

(** On this machine a request maps the interrupt in the ITS, enables MSI-X and
    bus mastering, and unmasks an entry with the address of the translation register
    and the interrupt number; freeing it discards the mapping, disables MSI-X and
    clears and masks the entry. The entry is the one at the start of the region, not
    the one at the offset that the capability gives. *)
Theorem msi_request_then_free :
  msi_view <$> after_request =
    Some (0, [Some 0x3010040; Some 8192; Some 0; None; Some 0x80000011; Some 6], Some [20]) /\
  msi_view <$> after_free =
    Some (0, [Some 0; Some 0; Some 1; None; Some 0x11; Some 6], Some [28]).
Proof. split; vm_compute; reflexivity. Qed.
