(* ===== verification/SmmuReg.v ===== *)
(** * Registers and structures of the SMMUv3

    src/val/sys_arch_src/smmu_v3/smmu_reg.h: the register map, the bit fields of the
    registers, of the command queue entries, of the stream table entries (STE) and
    of the context descriptors (CD), and the opcodes of smmu_v3.h. *)

From S2P Require Import Prelude Types.

(** [BITFIELD_DECL(type, name, msb, lsb)]: the mask is [msb - lsb + 1] ones, not
    shifted, of the type the field is declared with; a field never reaches past the
    last bit of its type. *)
Record bitfield := Bitfield { f_msb : Z; f_lsb : Z }.

Definition f_mask (f : bitfield) : Z := Z.shiftl 1 (f_msb f - f_lsb f + 1) - 1.
Definition BITFIELD_GET (f : bitfield) (val : Z) : Z := Z.land (Z.shiftr val (f_lsb f)) (f_mask f).
Definition BITFIELD_SET (f : bitfield) (val : Z) : Z := Z.shiftl (Z.land val (f_mask f)) (f_lsb f).

(** ** smmu_v3.h *)

Definition CMDQ_OP_CFGI_STE : Z := 0x3.
Definition CMDQ_OP_CFGI_ALL : Z := 0x4.
Definition CMDQ_OP_TLBI_EL2_ALL : Z := 0x20.
Definition CMDQ_OP_TLBI_NSNH_ALL : Z := 0x30.
Definition CMDQ_OP_CMD_SYNC : Z := 0x46.

Definition get_max (x y : Z) : Z := if y <? x then x else y.

(** ** smmu_reg.h *)

Definition BYTES_PER_DWORD : Z := 8.
Definition IDR0_ST_LEVEL : bitfield := Bitfield 28 27.
Definition SMMU_IDR0_OFFSET : Z := 0x0.
Definition IDR0_ST_LEVEL_2LVL : Z := 1.
Definition IDR0_CD2L : Z := Z.shiftl 1 19.
Definition IDR0_HYP : Z := Z.shiftl 1 9.
Definition IDR0_COHACC : Z := Z.shiftl 1 4.
Definition IDR0_TTF : bitfield := Bitfield 3 2.
Definition IDR0_TTF_AARCH64 : Z := 2.
Definition IDR0_TTF_AARCH32_64 : Z := 3.
Definition IDR0_S1P : Z := Z.shiftl 1 1.
Definition IDR0_S2P : Z := Z.shiftl 1 0.
Definition SMMU_IDR1_OFFSET : Z := 0x4.
Definition IDR1_TABLES_PRESET : Z := Z.shiftl 1 30.
Definition IDR1_QUEUES_PRESET : Z := Z.shiftl 1 29.
Definition IDR1_REL : Z := Z.shiftl 1 28.
Definition IDR1_CMDQS : bitfield := Bitfield 25 21.
Definition IDR1_SSIDSIZE : bitfield := Bitfield 10 6.
Definition IDR1_SIDSIZE : bitfield := Bitfield 5 0.
Definition SMMU_IDR5_OFFSET : Z := 0x14.
Definition IDR5_OAS : bitfield := Bitfield 2 0.
Definition SMMU_OAS_MAX_IDX : Z := 7.
(** The array [smmu_oas]. *)
Definition smmu_oas_table : list Z := [32; 36; 40; 42; 44; 48; 52].
Definition SMMU_CR0_OFFSET : Z := 0x20.
Definition CR0_CMDQEN : Z := Z.shiftl 1 3.
Definition CR0_SMMUEN : Z := Z.shiftl 1 0.
Definition SMMU_CR0ACK_OFFSET : Z := 0x24.
Definition SMMU_CR1_OFFSET : Z := 0x28.
Definition CR1_TABLE_SH : bitfield := Bitfield 11 10.
Definition CR1_TABLE_OC : bitfield := Bitfield 9 8.
Definition CR1_TABLE_IC : bitfield := Bitfield 7 6.
Definition CR1_QUEUE_SH : bitfield := Bitfield 5 4.
Definition CR1_QUEUE_OC : bitfield := Bitfield 3 2.
Definition CR1_QUEUE_IC : bitfield := Bitfield 1 0.
Definition CR1_CACHE_NC : Z := 0.
Definition CR1_CACHE_WB : Z := 1.
Definition CR1_CACHE_WT : Z := 2.
Definition SMMU_CR2_OFFSET : Z := 0x2c.
Definition SMMU_GERROR_OFFSET : Z := 0x60.
Definition SMMU_STRTAB_BASE_OFFSET : Z := 0x80.
Definition STRTAB_BASE_RA : Z := Z.shiftl 1 62.
Definition STRTAB_BASE_ADDR : bitfield := Bitfield 51 6.
Definition SMMU_STRTAB_BASE_CFG_OFFSET : Z := 0x88.
Definition STRTAB_BASE_CFG_FMT : bitfield := Bitfield 17 16.
Definition STRTAB_BASE_CFG_FMT_LINEAR : Z := 0.
Definition STRTAB_BASE_CFG_FMT_2LVL : Z := 1.
Definition STRTAB_BASE_CFG_SPLIT : bitfield := Bitfield 10 6.
Definition STRTAB_BASE_CFG_LOG2SIZE : bitfield := Bitfield 5 0.
Definition SMMU_CMDQ_BASE_OFFSET : Z := 0x90.
Definition SMMU_CMDQ_PROD_OFFSET : Z := 0x98.
Definition SMMU_CMDQ_CONS_OFFSET : Z := 0x9c.
Definition SMMU_SH_NSH : Z := 0.
Definition SMMU_SH_OSH : Z := 2.
Definition SMMU_SH_ISH : Z := 3.
Definition SMMU_MEMATTR_DEVICE_nGnRE : Z := 0x1.
Definition SMMU_MEMATTR_OIWB : Z := 0xf.
Definition QUEUE_BASE_RWA : Z := Z.shiftl 1 62.
Definition QUEUE_BASE_ADDR : bitfield := Bitfield 51 5.
Definition QUEUE_BASE_LOG2SIZE : bitfield := Bitfield 4 0.
Definition STRTAB_L1_SZ_SHIFT : Z := 20.
Definition STRTAB_SPLIT : Z := 8.
Definition STRTAB_L1_DESC_DWORDS : Z := 1.
Definition STRTAB_L1_DESC_SIZE : Z := 8.
Definition STRTAB_L1_DESC_SPAN : bitfield := Bitfield 4 0.
Definition STRTAB_L1_DESC_L2PTR : bitfield := Bitfield 51 6.
Definition STRTAB_STE_DWORDS : Z := 8.
Definition STRTAB_STE_0_V : Z := Z.shiftl 1 0.
Definition STRTAB_STE_0_CONFIG : bitfield := Bitfield 3 1.
Definition STRTAB_STE_0_CONFIG_ABORT : Z := 0.
Definition STRTAB_STE_0_CONFIG_BYPASS : Z := 4.
Definition STRTAB_STE_0_CONFIG_S1_TRANS : Z := 5.
Definition STRTAB_STE_0_CONFIG_S2_TRANS : Z := 6.
Definition STRTAB_STE_0_S1FMT : bitfield := Bitfield 5 4.
Definition STRTAB_STE_0_S1FMT_LINEAR : Z := 0.
Definition STRTAB_STE_0_S1FMT_64K_L2 : Z := 2.
Definition STRTAB_STE_0_S1CONTEXTPTR : bitfield := Bitfield 51 6.
Definition STRTAB_STE_0_S1CDMAX : bitfield := Bitfield 63 59.
Definition STRTAB_STE_1_S1DSS_SSID0 : Z := 0x2.
Definition STRTAB_STE_1_S1C_CACHE_NC : Z := 0.
Definition STRTAB_STE_1_S1C_CACHE_WBRA : Z := 1.
Definition STRTAB_STE_1_S1DSS : bitfield := Bitfield 1 0.
Definition STRTAB_STE_1_S1CIR : bitfield := Bitfield 3 2.
Definition STRTAB_STE_1_S1COR : bitfield := Bitfield 5 4.
Definition STRTAB_STE_1_S1CSH : bitfield := Bitfield 7 6.
Definition STRTAB_STE_1_EATS : bitfield := Bitfield 29 28.
Definition STRTAB_STE_1_STRW : bitfield := Bitfield 31 30.
Definition STRTAB_STE_1_STRW_NSEL1 : Z := 0.
Definition STRTAB_STE_1_STRW_EL2 : Z := 2.
Definition STRTAB_STE_1_SHCFG : bitfield := Bitfield 45 44.
Definition STRTAB_STE_1_SHCFG_INCOMING : Z := 1.
Definition STRTAB_STE_2_S2VMID : bitfield := Bitfield 15 0.
Definition STRTAB_STE_2_VTCR : bitfield := Bitfield 50 32.
Definition STRTAB_STE_2_VTCR_S2T0SZ : bitfield := Bitfield 5 0.
Definition STRTAB_STE_2_VTCR_S2SL0 : bitfield := Bitfield 7 6.
Definition STRTAB_STE_2_VTCR_S2IR0 : bitfield := Bitfield 9 8.
Definition STRTAB_STE_2_VTCR_S2OR0 : bitfield := Bitfield 11 10.
Definition STRTAB_STE_2_VTCR_S2SH0 : bitfield := Bitfield 13 12.
Definition STRTAB_STE_2_VTCR_S2TG : bitfield := Bitfield 15 14.
Definition STRTAB_STE_2_VTCR_S2PS : bitfield := Bitfield 18 16.
Definition STRTAB_STE_2_S2AA64 : Z := Z.shiftl 1 51.
Definition STRTAB_STE_2_S2PTW : Z := Z.shiftl 1 54.
Definition STRTAB_STE_2_S2R : Z := Z.shiftl 1 58.
Definition STRTAB_STE_3_S2TTB : bitfield := Bitfield 51 4.
Definition CMDQ_DWORDS_PER_ENT : Z := 2.
Definition CMDQ_0_OP : bitfield := Bitfield 7 0.
Definition CMDQ_CFGI_1_RANGE : bitfield := Bitfield 4 0.
Definition CMDQ_CFGI_1_ALL_STES : Z := 31.
Definition SMMU_CMDQ_POLL_TIMEOUT : Z := 0x100000.
Definition CDTAB_SPLIT : Z := 10.
Definition CDTAB_L2_ENTRY_COUNT : Z := Z.shiftl 1 CDTAB_SPLIT.
Definition CDTAB_L1_DESC_DWORDS : Z := 1.
Definition CDTAB_L1_DESC_V : Z := Z.shiftl 1 0.
Definition CDTAB_L1_DESC_L2PTR : bitfield := Bitfield 51 12.
Definition CDTAB_CD_DWORDS : Z := 8.
Definition CDTAB_CD_0_TCR_T0SZ : bitfield := Bitfield 5 0.
Definition CDTAB_CD_0_TCR_TG0 : bitfield := Bitfield 7 6.
Definition CDTAB_CD_0_TCR_IRGN0 : bitfield := Bitfield 9 8.
Definition CDTAB_CD_0_TCR_ORGN0 : bitfield := Bitfield 11 10.
Definition CDTAB_CD_0_TCR_SH0 : bitfield := Bitfield 13 12.
Definition CDTAB_CD_0_TCR_EPD0 : Z := Z.shiftl 1 14.
Definition CDTAB_CD_0_TCR_EPD1 : Z := Z.shiftl 1 30.
Definition CDTAB_CD_0_ENDI : Z := Z.shiftl 1 15.
Definition CDTAB_CD_0_V : Z := Z.shiftl 1 31.
Definition CDTAB_CD_0_TCR_IPS : bitfield := Bitfield 34 32.
Definition CDTAB_CD_0_AA64 : Z := Z.shiftl 1 41.
Definition CDTAB_CD_0_R : Z := Z.shiftl 1 45.
Definition CDTAB_CD_0_A : Z := Z.shiftl 1 46.
Definition CDTAB_CD_0_ASET : Z := Z.shiftl 1 47.
Definition CDTAB_CD_0_ASID : bitfield := Bitfield 63 48.
Definition CDTAB_CD_1_TTB0 : bitfield := Bitfield 51 4.

(** ** Reading fields back *)

Lemma f_mask_ones f : f_mask f = Z.ones (f_msb f - f_lsb f + 1).
Proof. unfold f_mask. rewrite Z.ones_equiv, Z.shiftl_1_l. lia. Qed.

Lemma get_testbit f v i : 0 <= f_lsb f <= f_msb f -> 0 <= i ->
  Z.testbit (BITFIELD_GET f v) i = (i <=? f_msb f - f_lsb f) && Z.testbit v (i + f_lsb f).
Proof.
  intros Hf Hi. unfold BITFIELD_GET. rewrite f_mask_ones, Z.land_spec, Z.shiftr_spec by lia.
  rewrite Z.testbit_ones_nonneg by lia. rewrite andb_comm. f_equal.
  apply eq_true_iff_eq. rewrite Z.ltb_lt, Z.leb_le. lia.
Qed.

Lemma get_lor f a b : BITFIELD_GET f (Z.lor a b) = Z.lor (BITFIELD_GET f a) (BITFIELD_GET f b).
Proof. unfold BITFIELD_GET. by rewrite Z.shiftr_lor, Z.land_lor_distr_l. Qed.

(** What is put in a field of [n] bits is read back modulo [2 ^ n]. *)
Lemma get_set f v : 0 <= f_lsb f <= f_msb f ->
  BITFIELD_GET f (BITFIELD_SET f v) = v mod 2 ^ (f_msb f - f_lsb f + 1).
Proof.
  intros Hf. unfold BITFIELD_GET, BITFIELD_SET. rewrite Z.shiftr_shiftl_l, Z.sub_diag, Z.shiftl_0_r by lia.
  rewrite f_mask_ones, !Z.land_ones by lia. rewrite Zmod_mod. done.
Qed.

(** Reading a field that does not meet the one written. *)
Lemma get_set_other f g v : 0 <= f_lsb f <= f_msb f -> 0 <= f_lsb g <= f_msb g ->
  (f_msb f <? f_lsb g) || (f_msb g <? f_lsb f) = true -> BITFIELD_GET f (BITFIELD_SET g v) = 0.
Proof.
  intros Hf Hg Hd. apply Z.bits_inj'. intros i Hi. rewrite get_testbit, Z.testbit_0_l by done.
  destruct (Z.leb_spec i (f_msb f - f_lsb f)); [|done]. cbn [andb].
  unfold BITFIELD_SET. rewrite f_mask_ones. apply orb_true_iff in Hd as [Hd|Hd]; apply Z.ltb_lt in Hd.
  - rewrite Z.shiftl_spec by lia. apply Z.testbit_neg_r. lia.
  - rewrite Z.shiftl_spec, Z.land_spec by lia. rewrite Z.testbit_ones_nonneg by lia.
    rewrite (proj2 (Z.ltb_ge _ _)) by lia. apply andb_false_r.
Qed.

Lemma get_bit_other f n : 0 <= f_lsb f <= f_msb f -> 0 <= n ->
  (f_msb f <? n) || (n <? f_lsb f) = true -> BITFIELD_GET f (Z.shiftl 1 n) = 0.
Proof.
  intros Hf Hn Hd.
  replace (Z.shiftl 1 n) with (BITFIELD_SET (Bitfield n n) 1).
  - apply get_set_other; [done|cbn; lia|done].
  - unfold BITFIELD_SET, f_mask. cbn [f_msb f_lsb]. by rewrite Z.sub_diag.
Qed.

(** The bits of an aligned address kept by an unshifted mask of [n] bits: the low
    [k] bits are free for other fields, and the address is there from bit [k] up. *)
Lemma get_addr_low f a n : 0 <= f_lsb f <= f_msb f -> 0 <= n ->
  a mod 2 ^ (f_msb f + 1) = 0 -> BITFIELD_GET f (Z.land a (Z.ones n)) = 0.
Proof.
  intros Hf Hn Ha. apply Z.bits_inj'. intros i Hi. rewrite get_testbit, Z.testbit_0_l by done.
  destruct (Z.leb_spec i (f_msb f - f_lsb f)); [|done]. cbn [andb].
  rewrite Z.land_spec. rewrite <- (Z.mod_pow2_bits_low a (f_msb f + 1)) by lia.
  by rewrite Ha, Z.testbit_0_l.
Qed.

Lemma get_addr_high f a n : 0 <= f_lsb f <= f_msb f -> 0 <= n <= f_lsb f ->
  BITFIELD_GET f (Z.land a (Z.ones n)) = 0.
Proof.
  intros Hf Hn. apply Z.bits_inj'. intros i Hi. rewrite get_testbit, Z.testbit_0_l by done.
  rewrite Z.land_spec, Z.testbit_ones_nonneg by lia. rewrite (proj2 (Z.ltb_ge _ _)) by lia.
  by rewrite andb_false_r, andb_false_r.
Qed.

Lemma set_fits n f v : 0 <= f_lsb f <= f_msb f -> f_msb f < n -> fits n (BITFIELD_SET f v).
Proof.
  intros Hf Hn. unfold BITFIELD_SET. rewrite f_mask_ones, Z.land_ones, Z.shiftl_mul_pow2 by lia.
  pose proof (Z.mod_pos_bound v (2 ^ (f_msb f - f_lsb f + 1)) ltac:(apply Z.pow_pos_nonneg; lia)).
  pose proof (Z.pow_pos_nonneg 2 (f_lsb f) ltac:(lia) ltac:(lia)).
  split; [nia|]. apply Z.lt_le_trans with (2 ^ (f_msb f - f_lsb f + 1) * 2 ^ f_lsb f); [nia|].
  rewrite <- Z.pow_add_r by lia. apply Z.pow_le_mono_r; lia.
Qed.

(** The address itself, in a field that starts at its alignment. *)
Lemma get_addr f a n : 0 <= f_lsb f <= f_msb f -> f_lsb f <= n <= f_msb f + 1 ->
  a mod 2 ^ f_lsb f = 0 ->
  Z.shiftl (BITFIELD_GET f (Z.land a (Z.ones n))) (f_lsb f) = a mod 2 ^ n.
Proof.
  intros Hf Hn Ha. apply Z.bits_inj'. intros i Hi. rewrite Z.shiftl_spec, testbit_mod2 by lia.
  destruct (Z.ltb_spec i (f_lsb f)) as [Hl|Hl].
  - rewrite Z.testbit_neg_r by lia. rewrite <- (Z.mod_pow2_bits_low a (f_lsb f)) by lia.
    by rewrite Ha, Z.testbit_0_l, andb_false_r.
  - rewrite get_testbit, Z.land_spec, Z.testbit_ones_nonneg by lia.
    replace (i - f_lsb f + f_lsb f) with i by lia. rewrite (andb_comm (Z.testbit a i)), andb_assoc. f_equal.
    destruct (Z.ltb_spec i n), (Z.leb_spec (i - f_lsb f) (f_msb f - f_lsb f)); simpl; lia.
Qed.

(** Reading a field of a word put together from disjoint parts. *)
Ltac field_side := first [reflexivity | vm_compute; split; discriminate | vm_compute; discriminate].
Ltac read_fields :=
  rewrite ?get_lor;
  repeat match goal with
  | |- context [BITFIELD_GET ?f (BITFIELD_SET ?f ?v)] => rewrite (get_set f v) by field_side
  | |- context [BITFIELD_GET ?f (BITFIELD_SET ?g ?v)] => rewrite (get_set_other f g v) by field_side
  | |- context [BITFIELD_GET ?f (Z.shiftl 1 ?n)] => rewrite (get_bit_other f n) by field_side
  end;
  rewrite ?Z.lor_0_l, ?Z.lor_0_r.
