(* ===== verification/SmmuQueue.v ===== *)
(** * The SMMUv3 command queue

    src/val/sys_arch_src/smmu_v3/smmu_v3.c, first part: the ring of commands, how a
    command is built and put in it, and the wait for the SMMU to consume them; and
    the access to the array [g_smmu] the whole driver works on. *)

From S2P Require Import Prelude Types World Status Machine SmmuReg.
#[local] Open Scope c_scope.

(** ** Arithmetic *)

(** [align_to_size]: the next multiple of [size] above [addr], on 64 bits. *)
Definition align_to_size (addr size : Z) : Z :=
  Z.land (u64 (size - Z.land addr (size - 1) + addr)) (not64 (size - 1)).

(** ** The ring *)

Definition smmu_cmdq_inc_prod (q : smmu_queue_t) : Z :=
  u32 (Z.land (u32 (q_prod q + 1)) (Z.shiftl 1 (q_log2nent q + 1) - 1)).

Definition smmu_queue_full (q : smmu_queue_t) : bool :=
  let index_mask := u32 (Z.shiftl 1 (q_log2nent q) - 1) in
  let wrap_mask := u32 (Z.shiftl 1 (q_log2nent q)) in
  (Z.land (q_prod q) index_mask =? Z.land (q_cons q) index_mask) &&
  negb (Z.land (q_prod q) wrap_mask =? Z.land (q_cons q) wrap_mask).

Definition smmu_queue_empty (q : smmu_queue_t) : bool :=
  let index_mask := u32 (Z.shiftl 1 (q_log2nent q) - 1) in
  let wrap_mask := u32 (Z.shiftl 1 (q_log2nent q)) in
  (Z.land (q_prod q) index_mask =? Z.land (q_cons q) index_mask) &&
  (Z.land (q_prod q) wrap_mask =? Z.land (q_cons q) wrap_mask).

Section queue.
Context {D : Type} `{Platform D}.

#[local] Abbreviation M := (M (world D)).

(** ** The array of SMMUs *)

(** A pointer [&g_smmu[i]] is the index [i]; going through it reads the array,
    which must still be allocated. *)
Definition smmu_array : M (Z * list smmu_dev_t) :=
  let* w := get in
  let* a := need (g_smmu w) in
  if heap w !! fst a is Some _ then ret a else fault.

Definition smmu_at (i : nat) : M smmu_dev_t :=
  let* a := smmu_array in need (snd a !! i).

(** [smmu->field = ...] *)
Definition smmu_update (i : nat) (f : smmu_dev_t -> smmu_dev_t) : M () :=
  let* a := smmu_array in
  let* s := need (snd a !! i) in
  modify (set_g_smmu (Some (fst a, <[i := f s]> (snd a)))).

(** ** Commands *)

(** The two words of the command, [None] for the status -1. *)
Definition smmu_cmdq_build_cmd (opcode : Z) : M (option (Z * Z)) :=
  let cmd0 := BITFIELD_SET CMDQ_0_OP opcode in
  if (opcode =? CMDQ_OP_TLBI_EL2_ALL) || (opcode =? CMDQ_OP_TLBI_NSNH_ALL)
     || (opcode =? CMDQ_OP_CMD_SYNC) then ret (Some (cmd0, 0))
  else if opcode =? CMDQ_OP_CFGI_ALL then
    ret (Some (cmd0, BITFIELD_SET CMDQ_CFGI_1_RANGE CMDQ_CFGI_1_ALL_STES))
  else
    val_print ACS_PRINT_ERR "\n      Unsupported SMMU command 0x%x    " opcode ;;
    ret None.

(** The wait for room looks at [cmdq->queue], the copy in memory. *)
Definition smmu_cmdq_write_cmd (fuel : nat) (smmu : nat) (cmd : Z * Z) : M Z :=
  let* s := smmu_at smmu in
  let cmdq := smmu_cmdq s in
  let log2nent := q_log2nent (cq_queue cmdq) in
  let* timeout := while_ fuel (fun timeout =>
    if smmu_queue_full (cq_queue cmdq) && truthy timeout then ret (Continue (timeout - 1))
    else ret (Break timeout)) SMMU_CMDQ_POLL_TIMEOUT in
  if negb (truthy timeout) then
    val_print ACS_PRINT_ERR "\n      SMMU CMD queue is full     " 0 ;;
    ret (-1)
  else
  let* prod := val_mmio_read (cq_prod_reg cmdq) in
  let cmd_dst :=
    u64 (cq_base cmdq + Z.land prod (Z.shiftl 1 log2nent - 1) * cq_entry_size cmdq) in
  store64 cmd_dst (fst cmd) ;;
  store64 (cmd_dst + 8) (snd cmd) ;;
  let prod := smmu_cmdq_inc_prod (mkQueue prod 0 log2nent) in
  val_mmio_write (cq_prod_reg cmdq) prod ;;
  ret 0.

Definition smmu_cmdq_issue_cmd (fuel : nat) (smmu : nat) (opcode : Z) : M Z :=
  let* cmd := smmu_cmdq_build_cmd opcode in
  match cmd with
  | None => ret (-1)
  | Some cmd => smmu_cmdq_write_cmd fuel smmu cmd
  end.

(** [timeout] is not counted down in the loop. *)
Definition smmu_cmdq_poll_until_consumed (fuel : nat) (smmu : nat) : M () :=
  let timeout := SMMU_CMDQ_POLL_TIMEOUT in
  let* s := smmu_at smmu in
  let cmdq := smmu_cmdq s in
  let log2nent := q_log2nent (cq_queue cmdq) in
  let* prod := val_mmio_read (cq_prod_reg cmdq) in
  let* consumed := val_mmio_read (cq_cons_reg cmdq) in
  while_ fuel (fun consumed =>
    if 0 <? timeout then
      if smmu_queue_empty (mkQueue prod consumed log2nent) then ret (Break tt)
      else let* consumed := val_mmio_read (cq_cons_reg cmdq) in ret (Continue consumed)
    else ret (Break tt)) consumed ;;
  when negb (truthy timeout) then
    (val_print ACS_PRINT_ERR "\n      CMDQ poll timeout at 0x%08x" prod ;;
    let* v := val_mmio_read (cq_prod_reg cmdq) in
    val_print ACS_PRINT_ERR "\n      prod_reg = 0x%08x," v ;;
    let* v := val_mmio_read (cq_cons_reg cmdq) in
    val_print ACS_PRINT_ERR "\n      cons_reg = 0x%08x" v ;;
    let* v := val_mmio_read (u64 (smmu_dev_base s + SMMU_GERROR_OFFSET)) in
    val_print ACS_PRINT_ERR "\n      gerror   = 0x%08x     " v).

(** [cmdq_size = ((1 << log2nent) * CMDQ_DWORDS_PER_ENT) << 3], at least 32. *)
Definition smmu_cmd_queue_init (smmu : nat) : M Z :=
  let* s := smmu_at smmu in
  let cmdq := smmu_cmdq s in
  let log2nent := q_log2nent (cq_queue cmdq) in
  let* n := int_ok (2 ^ log2nent) in
  let* cmdq_size := int_ok (n * CMDQ_DWORDS_PER_ENT * 8) in
  let cmdq_size := if cmdq_size <? 32 then 32 else cmdq_size in
  let* base_ptr := val_memory_alloc (2 * cmdq_size) in
  let cmdq := mkCmdq (cq_queue cmdq) base_ptr (cq_base cmdq) (cq_base_phys cmdq)
                (cq_queue_base cmdq) (cq_entry_size cmdq) (cq_prod_reg cmdq) (cq_cons_reg cmdq) in
  smmu_update smmu (set_smmu_cmdq cmdq) ;;
  if base_ptr =? 0 then
    val_print ACS_PRINT_ERR "\n      Failed to allocate queue struct.     " 0 ;;
    ret 0
  else
  val_memory_set base_ptr (2 * cmdq_size) 0 ;;
  let base_phys := align_to_size (val_memory_virt_to_phys base_ptr) cmdq_size in
  let base := align_to_size base_ptr cmdq_size in
  let prod_reg := u64 (smmu_dev_base s + SMMU_CMDQ_PROD_OFFSET) in
  let cons_reg := u64 (smmu_dev_base s + SMMU_CMDQ_CONS_OFFSET) in
  let queue_base :=
    Z.lor (Z.lor QUEUE_BASE_RWA (Z.land base_phys (f_mask QUEUE_BASE_ADDR)))
      (BITFIELD_SET QUEUE_BASE_LOG2SIZE log2nent) in
  smmu_update smmu (set_smmu_cmdq
    (mkCmdq (mkQueue 0 0 log2nent) base_ptr base base_phys queue_base (CMDQ_DWORDS_PER_ENT * 8)
       prod_reg cons_reg)) ;;
  ret 1.

(** Invalidate the cached configuration and translations, in this order. *)
Definition smmu_tlbi_cfgi (fuel : nat) (smmu : nat) : M () :=
  let* _ := smmu_cmdq_issue_cmd fuel smmu CMDQ_OP_CFGI_ALL in
  let* s := smmu_at smmu in
  (when hyp (smmu_supported s) then
     let* _ := smmu_cmdq_issue_cmd fuel smmu CMDQ_OP_TLBI_EL2_ALL in ret tt) ;;
  let* _ := smmu_cmdq_issue_cmd fuel smmu CMDQ_OP_TLBI_NSNH_ALL in
  let* _ := smmu_cmdq_issue_cmd fuel smmu CMDQ_OP_CMD_SYNC in
  smmu_cmdq_poll_until_consumed fuel smmu.
End queue.

(** ** The ring as a bounded queue *)

(** Both indices carry a wrap bit above the [log2nent] bits of the slot. The number
    of commands in the ring is their distance on [log2nent + 1] bits. *)
Definition queue_ok (q : smmu_queue_t) : Prop :=
  0 <= q_log2nent q <= 30 /\
  fits (q_log2nent q + 1) (q_prod q) /\ fits (q_log2nent q + 1) (q_cons q).

Definition queue_used (q : smmu_queue_t) : Z :=
  (q_prod q - q_cons q) mod 2 ^ (q_log2nent q + 1).

Lemma mask_mod x n : 0 <= n <= 30 -> Z.land x (u32 (Z.shiftl 1 n - 1)) = x mod 2 ^ n.
Proof.
  intros Hn. rewrite Z.shiftl_1_l. rewrite u32_id.
  - replace (2 ^ n - 1) with (Z.ones n) by (rewrite Z.ones_equiv; lia). apply Z.land_ones; lia.
  - pose proof (Z.pow_le_mono_r 2 n 30). pose proof (Z.pow_pos_nonneg 2 n). unfold fits. pow2. lia.
Qed.

(** The wrap bits agree or differ as the quotients do. *)
Lemma land_bit_eq x y n : 0 <= n <= 30 -> fits (n + 1) x -> fits (n + 1) y ->
  (Z.land x (u32 (Z.shiftl 1 n)) =? Z.land y (u32 (Z.shiftl 1 n))) = (x / 2 ^ n =? y / 2 ^ n).
Proof.
  intros Hn Hx Hy. rewrite Z.shiftl_1_l. rewrite u32_id
    by (pose proof (Z.pow_le_mono_r 2 n 30); pose proof (Z.pow_pos_nonneg 2 n); unfold fits; pow2; lia).
  assert (E : forall z, fits (n + 1) z -> Z.land z (2 ^ n) = z / 2 ^ n * 2 ^ n).
  { intros z Hz. replace (Z.land z (2 ^ n)) with (Z.land z (Z.shiftl 1 n)) by (by rewrite Z.shiftl_1_l).
    rewrite land_shiftl_r, Z.shiftl_mul_pow2, Z.shiftr_div_pow2 by lia.
    f_equal. pose proof (Z.land_ones (z / 2 ^ n) 1 ltac:(done)) as Q. change (Z.ones 1) with 1 in Q.
    rewrite Q. apply Z.mod_small.
    unfold fits in Hz. rewrite Z.pow_add_r in Hz by lia. change (2 ^ 1) with 2 in *.
    pose proof (Z.pow_pos_nonneg 2 n). split; [apply Z.div_pos; lia|apply Z.div_lt_upper_bound; lia]. }
  rewrite (E x Hx), (E y Hy). pose proof (Z.pow_pos_nonneg 2 n ltac:(lia) ltac:(lia)).
  destruct (Z.eqb_spec (x / 2 ^ n) (y / 2 ^ n)) as [->|Hne]; [apply Z.eqb_refl|].
  apply Z.eqb_neq. nia.
Qed.

(** Two indices split into wrap bit and slot. *)
Lemma split_index x n : 0 <= n -> fits (n + 1) x ->
  x = 2 ^ n * (x / 2 ^ n) + x mod 2 ^ n /\ 0 <= x mod 2 ^ n < 2 ^ n /\ (x / 2 ^ n = 0 \/ x / 2 ^ n = 1).
Proof.
  intros Hn [H0 H1]. pose proof (Z.pow_pos_nonneg 2 n ltac:(lia) Hn) as Hp.
  rewrite Z.pow_add_r in H1 by lia. change (2 ^ 1) with 2 in H1.
  split; [apply Z.div_mod; lia|]. split; [by apply Z.mod_pos_bound|].
  assert (0 <= x / 2 ^ n < 2); [|lia]. split; [by apply Z.div_pos|apply Z.div_lt_upper_bound; lia].
Qed.

Lemma used_split q :
  queue_ok q ->
  let n := q_log2nent q in
  let used := queue_used q in
  0 <= used < 2 ^ (n + 1) /\
  (used = 0 <-> q_prod q mod 2 ^ n = q_cons q mod 2 ^ n /\ q_prod q / 2 ^ n = q_cons q / 2 ^ n) /\
  (used = 2 ^ n <-> q_prod q mod 2 ^ n = q_cons q mod 2 ^ n /\ q_prod q / 2 ^ n <> q_cons q / 2 ^ n).
Proof.
  intros (Hn & Hp & Hc) n used. fold n in Hn, Hp, Hc.
  destruct (split_index _ n ltac:(lia) Hp) as (Ep & Bp & Wp).
  destruct (split_index _ n ltac:(lia) Hc) as (Ec & Bc & Wc).
  assert (H2 : 2 ^ (n + 1) = 2 * 2 ^ n) by (rewrite Z.pow_add_r by lia; change (2 ^ 1) with 2; lia).
  assert (Hu : exists k, used = q_prod q - q_cons q - 2 * 2 ^ n * k /\ 0 <= used < 2 * 2 ^ n).
  { exists ((q_prod q - q_cons q) / 2 ^ (n + 1)). unfold used, queue_used. fold n. rewrite H2.
    pose proof (Z.div_mod (q_prod q - q_cons q) (2 * 2 ^ n) ltac:(lia)).
    split; [lia|]. apply Z.mod_pos_bound. lia. }
  destruct Hu as (k & Hk & Hb). rewrite H2. split; [done|].
  set (P := q_prod q mod 2 ^ n) in *. set (C := q_cons q mod 2 ^ n) in *.
  set (a := q_prod q / 2 ^ n) in *. set (b := q_cons q / 2 ^ n) in *. set (T := 2 ^ n) in *.
  clearbody P C a b T used. rewrite Ep, Ec in Hk. clear Ep Ec Hp Hc H2.
  assert (- 1 <= k <= 0) by (destruct Wp as [-> | ->], Wc as [-> | ->]; nia).
  assert (k = 0 \/ k = -1) as [-> | ->] by lia; destruct Wp as [-> | ->], Wc as [-> | ->];
    split; split; intros; lia.
Qed.

(** C23: The ring refines a bounded queue: on indices of [log2nent + 1] bits,
    [smmu_queue_empty] says that it holds no command, [smmu_queue_full] that it
    holds [2 ^ log2nent], and putting a command in a ring that is not full advances
    the producer to an index of the same width with one command more. *)
Theorem smmu_queue_counts q :
  queue_ok q ->
  smmu_queue_empty q = (queue_used q =? 0) /\
  smmu_queue_full q = (queue_used q =? 2 ^ q_log2nent q) /\
  (smmu_queue_full q = false -> queue_used q < 2 ^ q_log2nent q ->
   let q' := mkQueue (smmu_cmdq_inc_prod q) (q_cons q) (q_log2nent q) in
   queue_ok q' /\ queue_used q' = queue_used q + 1).
Proof.
  intros Hq. destruct (used_split q Hq) as (Hb & H0 & Hf). destruct Hq as (Hn & Hp & Hc).
  set (n := q_log2nent q) in *.
  assert (E : (Z.land (q_prod q) (u32 (Z.shiftl 1 n - 1)) =? Z.land (q_cons q) (u32 (Z.shiftl 1 n - 1)))
              = (q_prod q mod 2 ^ n =? q_cons q mod 2 ^ n)) by (by rewrite !mask_mod).
  unfold smmu_queue_empty, smmu_queue_full. fold n. cbv zeta. rewrite E, !land_bit_eq by done.
  split; [|split].
  - apply eq_true_iff_eq. rewrite andb_true_iff, !Z.eqb_eq. tauto.
  - apply eq_true_iff_eq. rewrite andb_true_iff, negb_true_iff, Z.eqb_neq, !Z.eqb_eq. tauto.
  - intros _ Hlt. unfold smmu_cmdq_inc_prod. fold n.
    assert (Hpow : 0 < 2 ^ n <= 2 ^ 30)
      by (split; [apply Z.pow_pos_nonneg|apply Z.pow_le_mono_r]; lia).
    assert (H2 : 2 ^ (n + 1) = 2 * 2 ^ n) by (rewrite Z.pow_add_r by lia; change (2 ^ 1) with 2; lia).
    assert (Ei : u32 (Z.land (u32 (q_prod q + 1)) (Z.shiftl 1 (n + 1) - 1)) = (q_prod q + 1) mod 2 ^ (n + 1)).
    { rewrite Z.shiftl_1_l. unfold fits in *. rewrite (u32_id (q_prod q + 1)) by (unfold fits; pow2; lia).
      replace (2 ^ (n + 1) - 1) with (Z.ones (n + 1)) by (rewrite Z.ones_equiv; lia).
      rewrite Z.land_ones by lia. apply u32_id. unfold fits.
      pose proof (Z.mod_pos_bound (q_prod q + 1) (2 ^ (n + 1))). pow2. lia. }
    rewrite Ei. split.
    + split; [done|]. split; [|done]. apply fits_mod. cbn. lia.
    + unfold queue_used. cbn [q_prod q_cons q_log2nent]. fold n.
      rewrite <- (Zminus_mod_idemp_l (_ mod _)), Zmod_mod, Zminus_mod_idemp_l.
      replace (q_prod q + 1 - q_cons q) with (q_prod q - q_cons q + 1) by lia.
      rewrite <- Zplus_mod_idemp_l. fold (queue_used q). unfold queue_used in *. fold n in Hlt, Hb |- *.
      apply Z.mod_small. lia.
Qed.

(** ** Putting a command in the ring *)

Section commands.
Context {D : Type} `{Platform D}.

(** The array is allocated at [p], holds [l], and its entry [i] is [s]. *)
Definition smmu_array_at (w : world D) (p : Z) (l : list smmu_dev_t) : Prop :=
  g_smmu w = Some (p, l) /\ is_Some (heap w !! p).

Definition smmu_is (w : world D) (i : nat) (s : smmu_dev_t) : Prop :=
  exists p l, smmu_array_at w p l /\ l !! i = Some s.

Lemma eval_smmu_at w i s : smmu_is w i s -> eval (smmu_at i) w s w.
Proof.
  intros (p & l & [Hg [n Hn]] & Hi). unfold smmu_at, smmu_array.
  apply (eval_bind _ _ _ (p, l) w); [|by apply eval_need].
  eapply wp_bind, wp_get, wp_bind. rewrite Hg. wp_step. cbn [fst]. rewrite Hn. by wp_step.
Qed.

Lemma wp_smmu_at w i s (Q : smmu_dev_t -> world D -> Prop) :
  smmu_is w i s -> Q s w -> wp (smmu_at i) w Q.
Proof. intros Hs HQ. eapply wp_eval; [by apply eval_smmu_at|done]. Qed.

Lemma wp_smmu_update w i s p l f (Q : () -> world D -> Prop) :
  smmu_array_at w p l -> l !! i = Some s -> Q tt (set_g_smmu (Some (p, <[i := f s]> l)) w) ->
  wp (smmu_update i f) w Q.
Proof.
  intros [Hg [n Hn]] Hi HQ. unfold smmu_update, smmu_array. wp_step. wp_step. wp_step. wp_step.
  rewrite Hg. wp_step. cbn [fst]. rewrite Hn. wp_step. cbn [snd]. rewrite Hi. wp_step. wp_step.
  by wp_step.
Qed.

(** A ring in the memory of the program: [2 ^ n] slots of 16 bytes, inside one
    block, and the registers of its indices. The copy of the indices kept in the
    structure is never updated after the start. *)
Definition cmdq_ok (w : world D) (c : smmu_cmd_queue_t) : Prop :=
  let n := q_log2nent (cq_queue c) in
  0 <= n <= 30 /\ smmu_queue_full (cq_queue c) = false /\ cq_entry_size c = 16 /\
  cq_base c mod 8 = 0 /\ 0 <= cq_base c /\ cq_base c + 16 * 2 ^ n <= 2 ^ 64 /\
  (exists q m, heap w !! q = Some m /\ q <= cq_base c /\ cq_base c + 16 * 2 ^ n <= q + m) /\
  Z.land (cq_prod_reg c) 3 = 0.

(** The words of the commands the driver uses. *)
Definition cmd_words (opcode : Z) : option (Z * Z) :=
  if opcode =? CMDQ_OP_CFGI_ALL then Some (opcode, 31)
  else if existsb (Z.eqb opcode) [CMDQ_OP_TLBI_EL2_ALL; CMDQ_OP_TLBI_NSNH_ALL; CMDQ_OP_CMD_SYNC]
  then Some (opcode, 0) else None.

Lemma cmd_words_fit opcode c0 c1 : cmd_words opcode = Some (c0, c1) -> fits 64 c0 /\ fits 64 c1.
Proof.
  unfold cmd_words. cbn [existsb].
  destruct (Z.eqb_spec opcode CMDQ_OP_CFGI_ALL) as [->|]; [by intros [= <- <-]|].
  destruct (Z.eqb_spec opcode CMDQ_OP_TLBI_EL2_ALL) as [->|]; [by intros [= <- <-]|].
  destruct (Z.eqb_spec opcode CMDQ_OP_TLBI_NSNH_ALL) as [->|]; [by intros [= <- <-]|].
  destruct (Z.eqb_spec opcode CMDQ_OP_CMD_SYNC) as [->|]; [by intros [= <- <-]|done].
Qed.

Lemma eval_build_cmd opcode (w : world D) :
  eval (smmu_cmdq_build_cmd opcode) w (cmd_words opcode) w.
Proof.
  unfold smmu_cmdq_build_cmd, cmd_words. cbn [existsb].
  destruct (Z.eqb_spec opcode CMDQ_OP_TLBI_EL2_ALL) as [->|]; [by apply eval_ret|].
  destruct (Z.eqb_spec opcode CMDQ_OP_TLBI_NSNH_ALL) as [->|]; [by apply eval_ret|].
  destruct (Z.eqb_spec opcode CMDQ_OP_CMD_SYNC) as [->|]; [by apply eval_ret|].
  destruct (Z.eqb_spec opcode CMDQ_OP_CFGI_ALL) as [->|]; [by apply eval_ret|].
  cbn [orb]. by apply wp_bind, wp_val_print, wp_ret.
Qed.

(** Where the next command goes, what reading the producer index leaves of the
    device, and the state with command [c] in that slot and the index advanced. *)
Definition cmdq_prod (w : world D) (c : smmu_cmd_queue_t) : Z * D :=
  let r := dev_read 4 (cq_prod_reg c) (dev w) in (u32 (fst r), snd r).

Definition cmdq_slot (c : smmu_cmd_queue_t) (prod : Z) : Z :=
  cq_base c + 16 * (prod mod 2 ^ q_log2nent (cq_queue c)).

Definition cmd_put (w : world D) (c : smmu_cmd_queue_t) (cmd : Z * Z) : world D :=
  let '(prod, d) := cmdq_prod w c in
  let dst := cmdq_slot c prod in
  set_dev (dev_write 4 (cq_prod_reg c) ((prod + 1) mod 2 ^ (q_log2nent (cq_queue c) + 1)) d)
    (set_ram (<[dst + 8 := snd cmd]> (<[dst := fst cmd]> (ram w))) (set_dev d w)).

Lemma inc_prod_mod n prod : 0 <= n <= 30 -> fits 32 prod ->
  smmu_cmdq_inc_prod (mkQueue prod 0 n) = (prod + 1) mod 2 ^ (n + 1).
Proof.
  intros Hn Hp. unfold smmu_cmdq_inc_prod. cbn [q_prod q_log2nent]. rewrite Z.shiftl_1_l.
  replace (2 ^ (n + 1) - 1) with (Z.ones (n + 1)) by (rewrite Z.ones_equiv; lia).
  rewrite Z.land_ones by lia. unfold u32 at 2.
  pose proof (Z.pow_pos_nonneg 2 (n + 1) ltac:(lia) ltac:(lia)).
  assert (Hd : (2 ^ (n + 1) | 2 ^ 32)).
  { exists (2 ^ (31 - n)). rewrite <- Z.pow_add_r by lia. by replace (31 - n + (n + 1)) with 32 by lia. }
  rewrite Z.mod_mod_divide by done. apply u32_id. unfold fits.
  pose proof (Z.pow_le_mono_r 2 (n + 1) 31 ltac:(lia) ltac:(lia)).
  pose proof (Z.mod_pos_bound (prod + 1) (2 ^ (n + 1)) ltac:(lia)). pow2. lia.
Qed.

Lemma eval_write_cmd w i s fuel c0 c1 :
  smmu_is w i s -> cmdq_ok w (smmu_cmdq s) -> (0 < fuel)%nat -> fits 64 c0 -> fits 64 c1 ->
  eval (smmu_cmdq_write_cmd fuel i (c0, c1)) w 0 (cmd_put w (smmu_cmdq s) (c0, c1)).
Proof.
  intros Hs (Hn & Hfull & Hsz & Hal & Hb0 & Hb1 & (q & m & Hq & Hq0 & Hq1) & Hreg) Hf H0 H1.
  set (c := smmu_cmdq s) in *. set (n := q_log2nent (cq_queue c)) in *.
  unfold smmu_cmdq_write_cmd, eval. wp_step. eapply wp_smmu_at; [exact Hs|]. fold c. fold n. cbv zeta.
  wp_step. destruct fuel as [|fuel]; [lia|]. cbn [while_]. rewrite Hfull. cbn [andb]. wp_step. wp_step. wp_step.
  change (negb (truthy SMMU_CMDQ_POLL_TIMEOUT)) with false. cbv iota.
  wp_step. apply wp_mmio_read; [done|].
  pose proof (fits_u32 (fst (dev_read 4 (cq_prod_reg c) (dev w)))) as Hprod.
  set (prod := u32 (fst (dev_read 4 (cq_prod_reg c) (dev w)))) in *.
  set (d := snd (dev_read 4 (cq_prod_reg c) (dev w))) in *.
  assert (Hpow : 0 < 2 ^ n <= 2 ^ 30) by (split; [apply Z.pow_pos_nonneg|apply Z.pow_le_mono_r]; lia).
  assert (Ed : u64 (cq_base c + Z.land prod (Z.shiftl 1 n - 1) * cq_entry_size c) = cmdq_slot c prod).
  { rewrite Hsz, Z.shiftl_1_l. replace (2 ^ n - 1) with (Z.ones n) by (rewrite Z.ones_equiv; lia).
    rewrite Z.land_ones by lia. pose proof (Z.mod_pos_bound prod (2 ^ n) ltac:(lia)).
    unfold cmdq_slot. fold n. rewrite u64_id by (unfold fits; lia). lia. }
  rewrite Ed. pose proof (Z.mod_pos_bound prod (2 ^ n) ltac:(lia)) as Hslot.
  assert (Hlive : forall k, k = 0 \/ k = 8 -> live (heap w) (cmdq_slot c prod + k) = true).
  { intros k Hk. unfold cmdq_slot. fold n. apply (live_block _ q m); [done|lia|lia]. }
  assert (Hmod : forall k, k = 0 \/ k = 8 -> (cmdq_slot c prod + k) mod 8 = 0).
  { intros k Hk. unfold cmdq_slot. fold n. destruct Hk as [-> | ->]; divmod. }
  wp_step. rewrite <- (Z.add_0_r (cmdq_slot c prod)) at 1.
  apply wp_store64; [by apply Hlive; left|by apply Hmod; left|]. rewrite Z.add_0_r.
  wp_step. apply wp_store64; [by apply Hlive; right|by apply Hmod; right|].
  wp_step. apply wp_mmio_write. wp_step. split; [done|].
  unfold cmd_put, cmdq_prod. fold prod. fold d. fold n.
  rewrite inc_prod_mod by done. unfold fst, snd. rewrite !(u64_id _ H0), !(u64_id _ H1).
  rewrite u32_id; [done|]. unfold fits.
  pose proof (Z.mod_pos_bound (prod + 1) (2 ^ (n + 1)) ltac:(apply Z.pow_pos_nonneg; lia)).
  pose proof (Z.pow_le_mono_r 2 (n + 1) 32 ltac:(lia) ltac:(lia)). lia.
Qed.

(** C24: Issuing a command the driver knows puts its two words in the slot the
    producer index selects, inside the ring, and advances the index on
    [log2nent + 1] bits; nothing else changes. The ring is never found full,
    because the indices looked at are not those of the device. Another command is
    refused with -1 and nothing is written. *)
Theorem smmu_issue_cmd_effect w i s fuel opcode :
  smmu_is w i s -> cmdq_ok w (smmu_cmdq s) -> (0 < fuel)%nat ->
  match cmd_words opcode with
  | Some cmd => eval (smmu_cmdq_issue_cmd fuel i opcode) w 0 (cmd_put w (smmu_cmdq s) cmd)
  | None => eval (smmu_cmdq_issue_cmd fuel i opcode) w (-1) w
  end.
Proof.
  intros Hs Hc Hf. unfold smmu_cmdq_issue_cmd.
  destruct (cmd_words opcode) as [[c0 c1]|] eqn:E;
    (eapply eval_bind; [apply eval_build_cmd|rewrite E]); [|by apply eval_ret].
  apply cmd_words_fit in E as [H0 H1]. by apply eval_write_cmd.
Qed.

(** The wait for the commands to be consumed is not bounded: its time-out is
    never counted down. On a device whose consumer index keeps a value other than
    the producer's, it does not end. [Stuck] is a property of the device that says
    so. *)
Theorem smmu_poll_unbounded w i s fuel (Stuck : D -> Prop) :
  smmu_is w i s -> Z.land (cq_prod_reg (smmu_cmdq s)) 3 = 0 -> Z.land (cq_cons_reg (smmu_cmdq s)) 3 = 0 ->
  let c := smmu_cmdq s in
  let '(prod, d) := cmdq_prod w c in
  Stuck d ->
  (forall d, Stuck d -> let r := dev_read 4 (cq_cons_reg c) d in
     smmu_queue_empty (mkQueue prod (u32 (fst r)) (q_log2nent (cq_queue c))) = false /\ Stuck (snd r)) ->
  diverges (smmu_cmdq_poll_until_consumed fuel i) w.
Proof.
  intros Hs Hp Hc c. unfold cmdq_prod. intros Hd Hstep. unfold smmu_cmdq_poll_until_consumed.
  eapply diverges_bind_eval; [by apply eval_smmu_at|]. fold c. fold c in Hp, Hc. cbv zeta.
  set (prod := u32 (fst (dev_read 4 (cq_prod_reg c) (dev w)))) in *.
  set (behind v (w' : world D) := smmu_queue_empty (mkQueue prod v (q_log2nent (cq_queue c))) = false /\ Stuck (dev w')).
  assert (Hread : forall w', Stuck (dev w') -> wp (val_mmio_read (cq_cons_reg c)) w' behind).
  { intros w' Hw'. apply wp_mmio_read; [done|]. by apply Hstep. }
  eapply (diverges_bind_wp _ _ _ (fun v w' => v = prod /\ Stuck (dev w')));
    [by apply wp_mmio_read|]. intros v w1 [-> Hw1].
  eapply diverges_bind_wp; [by apply Hread|]. cbv beta. intros v w2 Hw2.
  apply diverges_bind, (while_diverges behind); [done|]. intros v' w3 [He Hw3].
  change (0 <? SMMU_CMDQ_POLL_TIMEOUT) with true. cbv iota. rewrite He. wp_step.
  eapply wp_mono; [by apply Hread|]. cbv beta. intros v4 w4 H4. wp_step. by exists v4.
Qed.
End commands.

(** ** Concrete inputs *)

Definition ring_smmu : smmu_dev_t :=
  set_smmu_cmdq (mkCmdq (mkQueue 0 0 3) 8192 8320 8320 0 16 0x9050098 0x905009C) zero_smmu.

(** One SMMU with a ring of eight slots, and these indices in its registers. *)
Definition on_ring (prod cons_ : Z) : world machine :=
  set_g_smmu (Some (4096, [ring_smmu]))
    (set_heap {[4096 := 168; 8192 := 256]} (boot {[0x9050098 := prod; 0x905009C := cons_]} ∅)).

Lemma on_ring_smmu prod cons_ : smmu_is (on_ring prod cons_) 0 ring_smmu.
Proof. exists 4096, [ring_smmu]. repeat split. by eexists. Qed.

Lemma on_ring_ok prod cons_ : cmdq_ok (on_ring prod cons_) (smmu_cmdq ring_smmu).
Proof.
  split; [cbn; lia|]. do 3 (split; [reflexivity|]). split; [discriminate|]. split; [discriminate|].
  split; [|reflexivity]. exists 8192, 256. repeat split; discriminate.
Qed.

Lemma smmu_queue_counts_witness :
  let q := mkQueue 15 9 3 in
  queue_used q = 6 /\ queue_used (mkQueue (smmu_cmdq_inc_prod q) 9 3) = 7.
Proof.
  destruct (smmu_queue_counts (mkQueue 15 9 3)) as (_ & _ & P); [by vm_compute|].
  split; [reflexivity|]. apply P; reflexivity.
Defined.

Lemma smmu_issue_cmd_effect_witness :
  let w := on_ring 7 0 in
  eval (smmu_cmdq_issue_cmd 1 0 CMDQ_OP_CFGI_ALL) w 0
    (set_dev (dev_write 4 0x9050098 8 (dev w)) (set_ram {[8432 := 4; 8440 := 31]} w)).
Proof.
  pose proof (smmu_issue_cmd_effect (on_ring 7 0) 0 ring_smmu 1 CMDQ_OP_CFGI_ALL
    (on_ring_smmu 7 0) (on_ring_ok 7 0) ltac:(lia)) as P.
  vm_compute in P |- *. exact P.
Defined.

Lemma smmu_poll_unbounded_witness : diverges (smmu_cmdq_poll_until_consumed 1000 0) (on_ring 1 0).
Proof.
  apply (smmu_poll_unbounded (on_ring 1 0) 0 ring_smmu 1000
    (fun d => mach_mem d !! 0x905009C = Some 0) (on_ring_smmu 1 0) eq_refl eq_refl); [reflexivity|].
  intros d Hd. split; [|exact Hd].
  change (smmu_queue_empty (mkQueue 1 (u32 (default 0 (mach_mem d !! 0x905009C))) 3) = false).
  by rewrite Hd.
Defined.
