(* ===== verification/SmmuTables.v ===== *)
(** * Stream tables and context descriptor tables of the SMMUv3

    src/val/sys_arch_src/smmu_v3/smmu_v3.c, middle part: stream table entries, the
    linear and two-level stream tables, context descriptors, the linear and
    two-level context descriptor tables, and the list of masters. The tables the
    SMMU reads are words of memory; the arrays of structures that describe them to
    the driver are kept in the records, with the address of their block. *)

From S2P Require Import Prelude Types World Status Machine SmmuReg SmmuQueue.
#[local] Open Scope c_scope.

Section tables.
Context {D : Type} `{Platform D}.

#[local] Abbreviation M := (M (world D)).

Definition strtab_update (smmu : nat) (f : smmu_strtab_config_t -> smmu_strtab_config_t) : M () :=
  smmu_update smmu (fun s => set_smmu_strtab_cfg (f (smmu_strtab_cfg s)) s).

(** ** Stream table entries *)

Definition ste_1_s1 : Z :=
  Z.lor (Z.lor (Z.lor (Z.lor
    (BITFIELD_SET STRTAB_STE_1_S1DSS STRTAB_STE_1_S1DSS_SSID0)
    (BITFIELD_SET STRTAB_STE_1_S1CIR STRTAB_STE_1_S1C_CACHE_WBRA))
    (BITFIELD_SET STRTAB_STE_1_S1COR STRTAB_STE_1_S1C_CACHE_WBRA))
    (BITFIELD_SET STRTAB_STE_1_S1CSH SMMU_SH_ISH))
    (BITFIELD_SET STRTAB_STE_1_EATS 0x1).

Definition ste_0_s1 (cfg : smmu_stage1_config_t) : Z :=
  Z.lor STRTAB_STE_0_V
    (Z.lor (Z.lor (Z.lor
       (Z.land (cdtab_phys (s1_cdcfg cfg)) (f_mask STRTAB_STE_0_S1CONTEXTPTR))
       (BITFIELD_SET STRTAB_STE_0_CONFIG STRTAB_STE_0_CONFIG_S1_TRANS))
       (BITFIELD_SET STRTAB_STE_0_S1CDMAX (s1_cdmax cfg)))
       (BITFIELD_SET STRTAB_STE_0_S1FMT (s1_fmt cfg))).

Definition ste_2_s2 (cfg : smmu_stage2_config_t) : Z :=
  Z.lor (Z.lor (Z.lor (Z.lor
    (BITFIELD_SET STRTAB_STE_2_S2VMID (s2_vmid cfg))
    (BITFIELD_SET STRTAB_STE_2_VTCR (s2_vtcr cfg)))
    STRTAB_STE_2_S2PTW) STRTAB_STE_2_S2AA64) STRTAB_STE_2_S2R.

Definition ste_0_abort : Z :=
  Z.lor STRTAB_STE_0_V (BITFIELD_SET STRTAB_STE_0_CONFIG STRTAB_STE_0_CONFIG_ABORT).

(** Without a master the entry aborts the stream. *)
Definition smmu_strtab_write_ste (master : option smmu_master_t) (ste : Z) : M () :=
  match master with
  | None =>
      store64 ste ste_0_abort ;;
      store64 (ste + 8) (BITFIELD_SET STRTAB_STE_1_SHCFG STRTAB_STE_1_SHCFG_INCOMING) ;;
      store64 (ste + 16) 0
  | Some m =>
      match m_stage m with
      | SMMU_STAGE_S1 =>
          store64 (ste + 8) ste_1_s1 ;;
          store64 ste (ste_0_s1 (m_stage1_config m))
      | SMMU_STAGE_S2 =>
          let cfg := m_stage2_config m in
          let* ste1 := load64 (ste + 8) in
          store64 (ste + 8) (Z.lor ste1 (Z.lor (BITFIELD_SET STRTAB_STE_1_STRW 0x2)
                                               (BITFIELD_SET STRTAB_STE_1_EATS 0x1))) ;;
          store64 (ste + 16) (ste_2_s2 cfg) ;;
          store64 (ste + 24) (Z.land (s2_vttbr cfg) (f_mask STRTAB_STE_3_S2TTB)) ;;
          store64 ste (Z.lor STRTAB_STE_0_V
                         (BITFIELD_SET STRTAB_STE_0_CONFIG STRTAB_STE_0_CONFIG_S2_TRANS))
      | SMMU_STAGE_BYPASS => ret tt
      end
  end.

(** [for (ste = base, i = 0; i < n; ++i, ste += STRTAB_STE_DWORDS) write_ste(NULL, ste)] *)
Definition abort_stes (base n : Z) : M () :=
  for_each (Z.to_nat n) 0 (fun i => smmu_strtab_write_ste None (base + 64 * i)).

(** ** The linear stream table *)

Definition smmu_strtab_init_linear (smmu : nat) : M Z :=
  let* s := smmu_at smmu in
  let sid_bits := smmu_sid_bits s in
  let* n := int_ok (2 ^ sid_bits) in
  let* size := int_ok (n * (STRTAB_STE_DWORDS * 8)) in
  let* strtab_ptr := val_memory_alloc (u32 (2 * size)) in
  strtab_update smmu (set_strtab_ptr strtab_ptr) ;;
  if strtab_ptr =? 0 then
    val_print ACS_PRINT_ERR "\n      Failed to allocate linear stream table.     " 0 ;;
    ret 0
  else
  val_memory_set strtab_ptr (u32 (2 * size)) 0 ;;
  let phys := align_to_size (val_memory_virt_to_phys strtab_ptr) size in
  let strtab64 := align_to_size strtab_ptr size in
  let base_cfg :=
    Z.lor (BITFIELD_SET STRTAB_BASE_CFG_FMT STRTAB_BASE_CFG_FMT_LINEAR)
      (BITFIELD_SET STRTAB_BASE_CFG_LOG2SIZE sid_bits) in
  strtab_update smmu (fun c =>
    set_strtab_base_cfg base_cfg (set_st_l1_ent_count n (set_strtab_place strtab64 phys c))) ;;
  abort_stes strtab64 n ;;
  ret 1.

(** ** The two-level stream table *)

Definition l1_desc_word (desc : smmu_strtab_l1_desc_t) : Z :=
  Z.lor (BITFIELD_SET STRTAB_L1_DESC_SPAN (l1_span desc))
    (Z.land (l1_l2desc_phys desc) (f_mask STRTAB_L1_DESC_L2PTR)).

Definition smmu_strtab_write_level1_desc (dst : Z) (desc : smmu_strtab_l1_desc_t) : M () :=
  store64 dst (l1_desc_word desc).

Definition smmu_strtab_init_level2 (smmu : nat) (sid : Z) : M Z :=
  let* s := smmu_at smmu in
  let cfg := smmu_strtab_cfg s in
  let idx := Z.shiftr sid STRTAB_SPLIT in
  let* desc := need (st_l1_desc cfg !! Z.to_nat idx) in
  if truthy (l1_l2ptr desc) then ret 1
  else
  let size := Z.shiftl 1 STRTAB_SPLIT * STRTAB_STE_DWORDS * BYTES_PER_DWORD in
  let strtab := strtab64 cfg + 8 * (idx * STRTAB_L1_DESC_DWORDS) in
  let update desc := strtab_update smmu (fun c =>
    set_st_l1_desc (st_l1_desc_ptr c) (<[Z.to_nat idx := desc]> (st_l1_desc c)) c) in
  let* l2ptr := val_memory_alloc (size * 2) in
  let desc := mkL1 (STRTAB_SPLIT + 1) l2ptr (l1_l2desc64 desc) (l1_l2desc_phys desc) in
  update desc ;;
  if l2ptr =? 0 then
    val_print ACS_PRINT_ERR "\n      failed to allocate l2 stream table for SID %u     " sid ;;
    ret 0
  else
  let phys := align_to_size (val_memory_virt_to_phys l2ptr) size in
  let l2desc64 := align_to_size l2ptr size in
  let desc := mkL1 (STRTAB_SPLIT + 1) l2ptr l2desc64 phys in
  update desc ;;
  val_memory_set l2desc64 size 0 ;;
  abort_stes l2desc64 (Z.shiftl 1 STRTAB_SPLIT) ;;
  smmu_strtab_write_level1_desc strtab desc ;;
  ret 1.

Definition smmu_strtab_init_level1 (smmu : nat) : M Z :=
  let* s := smmu_at smmu in
  let cfg := smmu_strtab_cfg s in
  let n := st_l1_ent_count cfg in
  let* l1_desc := val_memory_alloc (SIZEOF_smmu_strtab_l1_desc_t * n) in
  if l1_desc =? 0 then
    strtab_update smmu (set_st_l1_desc 0 []) ;;
    val_print ACS_PRINT_ERR "\n      failed to allocate l1 stream table desc     " 0 ;;
    ret 0
  else
  let descs := repeat zero_l1_desc (Z.to_nat n) in
  strtab_update smmu (set_st_l1_desc l1_desc descs) ;;
  for_each (Z.to_nat n) 0 (fun i =>
    let* desc := need (descs !! Z.to_nat i) in
    smmu_strtab_write_level1_desc (strtab64 cfg + STRTAB_L1_DESC_SIZE * i) desc) ;;
  ret 1.

Definition smmu_strtab_init_2level (smmu : nat) : M Z :=
  let* s := smmu_at smmu in
  let log2size := u32 (smmu_sid_bits s - STRTAB_SPLIT) in
  let* n := int_ok (2 ^ log2size) in
  let log2size := u32 (log2size + STRTAB_SPLIT) in
  let l1_tbl_size := u32 (n * STRTAB_L1_DESC_SIZE) in
  let* strtab_ptr := val_memory_alloc (u32 (2 * l1_tbl_size)) in
  strtab_update smmu (fun c => set_strtab_ptr strtab_ptr (set_st_l1_ent_count n c)) ;;
  if strtab_ptr =? 0 then
    val_print ACS_PRINT_ERR "\n      failed to allocate l1 stream table     " 0 ;;
    ret 0
  else
  let phys := align_to_size (val_memory_virt_to_phys strtab_ptr) l1_tbl_size in
  let strtab64 := align_to_size strtab_ptr l1_tbl_size in
  let base_cfg :=
    Z.lor (Z.lor (BITFIELD_SET STRTAB_BASE_CFG_FMT STRTAB_BASE_CFG_FMT_2LVL)
             (BITFIELD_SET STRTAB_BASE_CFG_LOG2SIZE log2size))
      (BITFIELD_SET STRTAB_BASE_CFG_SPLIT STRTAB_SPLIT) in
  strtab_update smmu (fun c => set_strtab_base_cfg base_cfg (set_strtab_place strtab64 phys c)) ;;
  let* ret_ := smmu_strtab_init_level1 smmu in
  if ret_ =? 0 then val_memory_free strtab_ptr ;; ret 0
  else ret 1.

Definition smmu_strtab_init (smmu : nat) : M Z :=
  let* s := smmu_at smmu in
  let* ret_ :=
    if st_level_2lvl (smmu_supported s) then smmu_strtab_init_2level smmu
    else smmu_strtab_init_linear smmu in
  if ret_ =? 0 then
    val_print ACS_PRINT_ERR "\n      Stream table init failed     " 0 ;;
    ret ret_
  else
  let* s := smmu_at smmu in
  let data := Z.land (strtab_phys (smmu_strtab_cfg s)) (f_mask STRTAB_BASE_ADDR) in
  strtab_update smmu (set_strtab_base (Z.lor data STRTAB_BASE_RA)) ;;
  ret 1.

Definition smmu_free_strtab (smmu : nat) : M () :=
  let* s := smmu_at smmu in
  let cfg := smmu_strtab_cfg s in
  if strtab_ptr cfg =? 0 then ret tt
  else
  (when st_level_2lvl (smmu_supported s) && truthy (st_l1_desc_ptr cfg) then
     for_each (Z.to_nat (st_l1_ent_count cfg)) 0 (fun i =>
       let* desc := need (st_l1_desc cfg !! Z.to_nat i) in
       when truthy (l1_l2ptr desc) then val_memory_free (l1_l2ptr desc)) ;;
     val_memory_free (st_l1_desc_ptr cfg)) ;;
  val_memory_free (strtab_ptr cfg).

(** The address of the entry of a stream. *)
Definition smmu_strtab_get_ste_for_sid (smmu : nat) (sid : Z) : M Z :=
  let* s := smmu_at smmu in
  let cfg := smmu_strtab_cfg s in
  if negb (st_level_2lvl (smmu_supported s)) then
    ret (strtab64 cfg + 8 * u32 (sid * STRTAB_STE_DWORDS))
  else
  let* l1_desc := need (st_l1_desc cfg !! Z.to_nat (Z.shiftr sid STRTAB_SPLIT * STRTAB_L1_DESC_DWORDS)) in
  ret (l1_l2desc64 l1_desc
       + 8 * (Z.land sid (Z.shiftl 1 STRTAB_SPLIT - 1) * STRTAB_STE_DWORDS)).

Definition dump_words (fmt : string) (p : Z) : M () :=
  for_each 8 0 (fun i =>
    val_print ACS_PRINT_INFO fmt i ;;
    let* v := load64 (p + 8 * i) in
    val_print ACS_PRINT_INFO "%llx\n" v).

Definition dump_strtab (ste : Z) : M () := dump_words "ste[%d] = " ste.
Definition dump_cdtab (ctx_desc : Z) : M () := dump_words "ctx_desc[%d] = " ctx_desc.

(** ** Masters *)

(** The masters are list nodes and are never freed; a pointer to one is its place
    in the list. *)
Definition master_at (i : nat) : M smmu_master_t :=
  let* l := gets g_smmu_master_list in need (l !! i).

Definition master_update (i : nat) (f : smmu_master_t -> smmu_master_t) : M () :=
  let* m := master_at i in
  modify (fun w => set_g_smmu_master_list (<[i := f m]> (g_smmu_master_list w)) w).

Definition stage1_update (i : nat) (f : smmu_stage1_config_t -> smmu_stage1_config_t) : M () :=
  master_update i (fun m => set_m_stage1_config (f (m_stage1_config m)) m).
Definition cdcfg_update (i : nat) (f : smmu_cdtab_config_t -> smmu_cdtab_config_t) : M () :=
  stage1_update i (fun c => set_s1_cdcfg (f (s1_cdcfg c)) c).

Fixpoint find_master (sid : Z) (i : nat) (l : list smmu_master_t) : option nat :=
  match l with
  | [] => None
  | m :: l => if m_sid m =? sid then Some i else find_master sid (S i) l
  end.

(** The master of a stream, created at the head of the list when there is none;
    [None] for NULL. *)
Definition smmu_master_at (sid : Z) : M (option nat) :=
  let* l := gets g_smmu_master_list in
  match find_master sid 0 l with
  | Some i => ret (Some i)
  | None =>
      let* node := val_memory_alloc SIZEOF_smmu_master_node in
      if node =? 0 then ret None
      else
      let* master := val_memory_alloc SIZEOF_smmu_master_t in
      if master =? 0 then val_memory_free node ;; ret None
      else
      modify (fun w => set_g_smmu_master_list (zero_master :: g_smmu_master_list w) w) ;;
      ret (Some 0%nat)
  end.

(** ** Context descriptors *)

Definition smmu_cdtab_write_l1_desc (dst : Z) (l1_desc : smmu_cdtab_l1_ctx_desc_t) : M () :=
  store64 dst (Z.lor (Z.land (cdl1_l2desc_phys l1_desc) (f_mask CDTAB_L1_DESC_L2PTR)) CDTAB_L1_DESC_V).

(** The new descriptor and the status. The memory allocated is not cleared. *)
Definition smmu_cdtab_alloc_leaf_table (l1_desc : smmu_cdtab_l1_ctx_desc_t)
  : M (smmu_cdtab_l1_ctx_desc_t * Z) :=
  let size := CDTAB_L2_ENTRY_COUNT * (CDTAB_CD_DWORDS * 8) in
  let* l2ptr := val_memory_alloc (size * 2) in
  if l2ptr =? 0 then
    val_print ACS_PRINT_ERR "\n      failed to allocate context descriptor table     " 0 ;;
    ret (mkCdL1 l2ptr (cdl1_l2desc64 l1_desc) (cdl1_l2desc_phys l1_desc), 1)
  else
    ret (mkCdL1 l2ptr (align_to_size l2ptr size)
           (align_to_size (val_memory_virt_to_phys l2ptr) size), 0).

Definition smmu_cdtab_get_ctx_desc (master : nat) : M Z :=
  let* m := master_at master in
  let cdcfg := s1_cdcfg (m_stage1_config m) in
  if s1_fmt (m_stage1_config m) =? STRTAB_STE_0_S1FMT_LINEAR then
    ret (cdtab64 cdcfg + 8 * u32 (m_ssid m * CDTAB_CD_DWORDS))
  else
  let idx := Z.shiftr (m_ssid m) CDTAB_SPLIT in
  let leaf l1_desc :=
    cdl1_l2desc64 l1_desc
      + 8 * (Z.land (m_ssid m) (CDTAB_L2_ENTRY_COUNT - 1) * CDTAB_CD_DWORDS) in
  let* l1_desc := need (cd_l1_desc cdcfg !! Z.to_nat idx) in
  if cdl1_l2ptr l1_desc =? 0 then
    let* ' (l1_desc, st) := smmu_cdtab_alloc_leaf_table l1_desc in
    cdcfg_update master (fun c =>
      set_cd_l1_desc (cd_l1_desc_ptr c) (<[Z.to_nat idx := l1_desc]> (cd_l1_desc c)) c) ;;
    if truthy st then ret 0
    else
      smmu_cdtab_write_l1_desc (cdtab64 cdcfg + 8 * (idx * CDTAB_L1_DESC_DWORDS)) l1_desc ;;
      ret (leaf l1_desc)
  else ret (leaf l1_desc).

Definition cd_word_0 (cd : smmu_cdtab_ctx_desc_t) : Z :=
  Z.lor (Z.lor (Z.lor (Z.lor (Z.lor (Z.lor (cd_tcr cd) CDTAB_CD_0_R) CDTAB_CD_0_A)
    CDTAB_CD_0_ASET) CDTAB_CD_0_AA64) (BITFIELD_SET CDTAB_CD_0_ASID (cd_asid cd))) CDTAB_CD_0_V.

Definition smmu_cdtab_write_ctx_desc (master : nat) (ssid : Z) (cd : smmu_cdtab_ctx_desc_t) : M Z :=
  let* m := master_at master in
  let* n := int_ok (2 ^ s1_cdmax (m_stage1_config m)) in
  if n <=? ssid then
    val_print ACS_PRINT_ERR "\n      smmu_cdtab_write_ctx_desc: ssid out of range     " 0 ;;
    ret 0
  else
  let* cdptr := smmu_cdtab_get_ctx_desc master in
  if cdptr =? 0 then
    val_print ACS_PRINT_ERR "\n      smmu_cdtab_write_ctx_desc: cdptr is NULL     " 0 ;;
    ret 0
  else
  store64 (cdptr + 8) (Z.land (cd_ttbr cd) (f_mask CDTAB_CD_1_TTB0)) ;;
  store64 (cdptr + 16) 0 ;;
  store64 (cdptr + 24) (cd_mair cd) ;;
  store64 cdptr (cd_word_0 cd) ;;
  dump_cdtab cdptr ;;
  ret 1.

(** Number of first-level entries for [n] contexts. *)
Definition cdtab_l1_entries (n : Z) : Z := (n + CDTAB_L2_ENTRY_COUNT - 1) / CDTAB_L2_ENTRY_COUNT.

Definition smmu_cdtab_free (master : nat) : M () :=
  let* m := master_at master in
  let cfg := m_stage1_config m in
  let cdcfg := s1_cdcfg cfg in
  let* max_contexts := int_ok (2 ^ s1_cdmax cfg) in
  let* smmu := need (m_smmu m) in
  let* s := smmu_at smmu in
  (when cd2l (smmu_supported s) && (CDTAB_L2_ENTRY_COUNT <? max_contexts) then
     for_each (Z.to_nat (cdtab_l1_entries max_contexts)) 0 (fun i =>
       let* desc := need (cd_l1_desc cdcfg !! Z.to_nat i) in
       when truthy (cdl1_l2ptr desc) then val_memory_free (cdl1_l2ptr desc)) ;;
     val_memory_free (cd_l1_desc_ptr cdcfg)) ;;
  val_memory_free (cdtab_ptr cdcfg) ;;
  cdcfg_update master (set_cdtab_ptr 0).

Definition smmu_cdtab_alloc (master : nat) : M Z :=
  let* m := master_at master in
  let cfg := m_stage1_config m in
  let* cdmax := int_ok (2 ^ s1_cdmax cfg) in
  let* smmu := need (m_smmu m) in
  let* s := smmu_at smmu in
  let* l1_tbl_size :=
    if cd2l (smmu_supported s) && (CDTAB_L2_ENTRY_COUNT <? cdmax) then
      let n := cdtab_l1_entries cdmax in
      let* l1_desc := val_memory_alloc (n * SIZEOF_smmu_cdtab_l1_ctx_desc_t) in
      stage1_update master (set_s1_fmt STRTAB_STE_0_S1FMT_64K_L2) ;;
      cdcfg_update master (fun c =>
        set_cd_l1_desc l1_desc (if l1_desc =? 0 then [] else repeat zero_cd_l1_desc (Z.to_nat n))
          (set_cd_l1_ent_count n c)) ;;
      if l1_desc =? 0 then ret None
      else ret (Some (n * (CDTAB_L1_DESC_DWORDS * 8)))
    else
      stage1_update master (set_s1_fmt STRTAB_STE_0_S1FMT_LINEAR) ;;
      cdcfg_update master (set_cd_l1_ent_count cdmax) ;;
      ret (Some (cdmax * (CDTAB_CD_DWORDS * 8))) in
  match l1_tbl_size with
  | None => ret 0
  | Some l1_tbl_size =>
      let* cdtab_ptr := val_memory_alloc (l1_tbl_size * 2) in
      cdcfg_update master (set_cdtab_ptr cdtab_ptr) ;;
      if cdtab_ptr =? 0 then
        val_print ACS_PRINT_ERR "\n      smmu_cdtab_alloc: alloc failed     " 0 ;;
        ret 0
      else
      let cdtab64 := align_to_size cdtab_ptr l1_tbl_size in
      cdcfg_update master
        (set_cdtab_place cdtab64 (align_to_size (val_memory_virt_to_phys cdtab_ptr) l1_tbl_size)) ;;
      val_memory_set cdtab64 l1_tbl_size 0 ;;
      ret 1
  end.
End tables.

(** ** Alignment *)

(** The block allocated is twice the size of the table, and the table starts at the
    next multiple of its size: after the start of the block, never at it. *)
Lemma align_to_size_next k p :
  0 <= k <= 60 -> 0 <= p -> p + 2 ^ k < 2 ^ 64 ->
  align_to_size p (2 ^ k) = (p / 2 ^ k + 1) * 2 ^ k.
Proof.
  intros Hk Hp Hp1. pose proof (Z.pow_pos_nonneg 2 k ltac:(lia) ltac:(lia)) as H2.
  pose proof (Z.mod_pos_bound p (2 ^ k) H2). pose proof (Z.div_mod p (2 ^ k) ltac:(lia)).
  unfold align_to_size. replace (2 ^ k - 1) with (Z.ones k) by (rewrite Z.ones_equiv; lia).
  rewrite Z.land_ones by lia.
  replace (2 ^ k - p mod 2 ^ k + p) with (Z.shiftl (p / 2 ^ k + 1) k)
    by (rewrite Z.shiftl_mul_pow2 by lia; lia).
  rewrite u64_id by (rewrite Z.shiftl_mul_pow2 by lia; split; nia).
  rewrite <- Z.shiftl_mul_pow2 by lia. apply Z.bits_inj'. intros i Hi.
  rewrite Z.land_spec. unfold not64, u64. rewrite testbit_mod2, Z.lnot_spec, Z.testbit_ones_nonneg by lia.
  destruct (Z.ltb_spec i 64) as [|Hge].
  - rewrite Z.shiftl_spec by done. destruct (Z.ltb_spec i k); cbn [negb andb]; [|by rewrite andb_true_r].
    by rewrite Z.testbit_neg_r by lia.
  - rewrite andb_false_l, andb_false_r. symmetry. apply (testbit_high _ 64); [|lia].
    rewrite Z.shiftl_mul_pow2 by lia. split; nia.
Qed.

Lemma align_to_size_range k p :
  0 <= k <= 60 -> 0 <= p -> p + 2 ^ k < 2 ^ 64 ->
  let b := align_to_size p (2 ^ k) in p < b <= p + 2 ^ k /\ b mod 2 ^ k = 0.
Proof.
  intros Hk Hp Hp1. cbv zeta. rewrite align_to_size_next by done.
  pose proof (Z.pow_pos_nonneg 2 k ltac:(lia) ltac:(lia)) as H2.
  pose proof (Z.mod_pos_bound p (2 ^ k) H2). pose proof (Z.div_mod p (2 ^ k) ltac:(lia)).
  split; [nia|]. by apply Z.mod_mul, Z.neq_sym, Z.lt_neq.
Qed.

(** ** Tables that abort every stream *)

Definition ste_1_incoming : Z := BITFIELD_SET STRTAB_STE_1_SHCFG STRTAB_STE_1_SHCFG_INCOMING.

(** The entry at [ste] is valid and aborts the stream. *)
Definition aborts (r : gmap Z Z) (ste : Z) : Prop :=
  r !! ste = Some ste_0_abort /\ r !! (ste + 8) = Some ste_1_incoming /\ r !! (ste + 16) = Some 0.

Section linear.
Context {D : Type} `{Platform D}.

Lemma wp_write_ste_abort ste q m (w : world D) (Q : () -> world D -> Prop) :
  heap w !! q = Some m -> q <= ste -> ste + 24 <= q + m -> ste mod 8 = 0 ->
  Q tt (set_ram (<[ste + 16 := 0]> (<[ste + 8 := ste_1_incoming]> (<[ste := ste_0_abort]> (ram w)))) w) ->
  wp (smmu_strtab_write_ste None ste) w Q.
Proof.
  intros Hq H0 H1 Hal HQ. cbn [smmu_strtab_write_ste].
  assert (Hm : forall k, (ste + 8 * k) mod 8 = 0) by (intros k; by rewrite Z.mul_comm, Z.mod_add).
  wp_step. apply wp_store64; [apply (live_block _ q m); [exact Hq|lia|lia]|done|].
  wp_step. apply wp_store64; [apply (live_block _ q m); [exact Hq|lia|lia]|exact (Hm 1)|].
  apply wp_store64; [apply (live_block _ q m); [exact Hq|lia|lia]|exact (Hm 2)|].
  exact HQ.
Qed.

Lemma wp_abort_stes base n q m (w : world D) (Q : () -> world D -> Prop) :
  heap w !! q = Some m -> q <= base -> base + 64 * n <= q + m -> base mod 8 = 0 -> 0 <= n ->
  (forall r, (forall i, 0 <= i < n -> aborts r (base + 64 * i)) ->
     (forall a, (forall i j, 0 <= i < n -> 0 <= j < 3 -> a <> base + 64 * i + 8 * j) -> r !! a = ram w !! a) ->
     Q tt (set_ram r w)) ->
  wp (abort_stes base n) w Q.
Proof.
  intros Hq Hb0 Hb1 Hal Hn HQ. unfold abort_stes.
  apply (wp_for_each (fun k s => exists r, s = set_ram r w /\
    (forall i, 0 <= i < k -> aborts r (base + 64 * i)) /\
    (forall a, (forall i j, 0 <= i < n -> 0 <= j < 3 -> a <> base + 64 * i + 8 * j) -> r !! a = ram w !! a))).
  - exists (ram w). split; [by destruct w|]. split; [lia|done].
  - intros k s Hk (r & -> & Hr & Hf). rewrite Z.add_0_l, Z2Nat.id in Hk by done.
    apply (wp_write_ste_abort _ q m); [exact Hq|lia|lia| |].
    { replace (64 * k) with (8 * k * 8) by lia. by rewrite Z.mod_add. }
    eexists. split; [reflexivity|]. change (ram (set_ram r w)) with r. split.
    + intros i Hi. destruct (decide (i = k)) as [->|Hne]; unfold aborts.
      * rewrite !lookup_insert_eq, !lookup_insert_ne by lia. rewrite !lookup_insert_eq.
        rewrite lookup_insert_ne by lia. rewrite lookup_insert_eq. done.
      * rewrite !lookup_insert_ne by lia. apply Hr. lia.
    + intros a Ha. pose proof (Ha k 0 ltac:(lia) ltac:(lia)). pose proof (Ha k 1 ltac:(lia) ltac:(lia)).
      pose proof (Ha k 2 ltac:(lia) ltac:(lia)). rewrite !lookup_insert_ne by lia. by apply Hf.
  - intros s (r & -> & Hr & Hf). rewrite Z.add_0_l, Z2Nat.id in Hr by done. by apply HQ.
Qed.

(** C25: Setting up the linear stream table of an SMMU with [sid_bits] stream
    identifier bits, when the allocator gives a block: the table starts at a
    multiple of its size inside that block, every stream of the SMMU aborts, and no
    word outside the block changes. When the allocator does not, the status is 0
    and no word changes. *)
Theorem smmu_linear_table_aborts `{!AllocLaws D} w i p l s :
  smmu_array_at w p l -> l !! i = Some s -> 0 <= smmu_sid_bits s <= 24 ->
  let n := 2 ^ smmu_sid_bits s in
  wp (smmu_strtab_init_linear i) w (fun r w' =>
    match bs_allocate_pool (128 * n) (heap w) (dev w) with
    | (inl _, d') => r = 0 /\ ram w' = ram w
    | (inr q, d') => r = 1 /\ exists s',
        smmu_is w' i s' /\
        let base := strtab64 (smmu_strtab_cfg s') in
        strtab_phys (smmu_strtab_cfg s') = base /\ st_l1_ent_count (smmu_strtab_cfg s') = n /\
        base mod (64 * n) = 0 /\ q < base /\ base + 64 * n <= q + 128 * n /\
        (forall sid, 0 <= sid < n -> aborts (ram w') (base + 64 * sid)) /\
        (forall a, ~ q <= a < q + 128 * n -> ram w' !! a = ram w !! a)
    end).
Proof.
  intros Ha Hl Hb n. set (b := smmu_sid_bits s) in *.
  assert (Hn : 0 < n <= 2 ^ 24) by (split; [apply Z.pow_pos_nonneg|apply Z.pow_le_mono_r]; lia).
  assert (H64 : 64 * n = 2 ^ (b + 6)) by (unfold n; rewrite Z.pow_add_r by lia; change (2 ^ 6) with 64; lia).
  unfold smmu_strtab_init_linear. wp_step. apply (wp_smmu_at _ _ s); [by exists p, l|]. fold b.
  wp_step. fold n. apply wp_int_ok; [pow2; lia|]. wp_step. change (STRTAB_STE_DWORDS * 8) with 64.
  apply wp_int_ok; [pow2; lia|]. wp_step.
  replace (u32 (2 * (n * 64))) with (128 * n) by (rewrite u32_id by (unfold fits; pow2; lia); lia).
  destruct (bs_allocate_pool (128 * n) (heap w) (dev w)) as [[st|q] d'] eqn:Hal.
  - eapply wp_memory_alloc_fails; [unfold fits; pow2; lia|exact Hal|].
    wp_step. eapply wp_smmu_update; [exact Ha|exact Hl|].
    change (0 =? 0) with true. cbv iota. wp_step. apply wp_val_print. wp_step. done.
  - eapply wp_memory_alloc; [unfold fits; pow2; lia|exact Hal|].
    apply allocate_pool_law in Hal as (Hq0 & Hq1 & Hq8 & _); [|lia].
    set (w1 := set_heap _ _). destruct Ha as [Hg Hp].
    assert (Ha1 : smmu_array_at w1 p l).
    { split; [exact Hg|]. apply lookup_insert_is_Some'. by right. }
    wp_step. eapply wp_smmu_update; [exact Ha1|exact Hl|].
    rewrite (proj2 (Z.eqb_neq q 0)) by lia.
    set (s1 := set_smmu_strtab_cfg _ s). set (w2 := set_g_smmu _ w1).
    assert (Hh2 : heap w2 !! q = Some (128 * n)) by (apply (lookup_insert_eq (heap w))).
    wp_step. replace (128 * n) with (8 * (16 * n)) by lia.
    apply (wp_memory_zero q (16 * n) q (128 * n)); [exact Hh2|lia|lia|done|lia|pow2; lia|].
    intros r1 Hz1 Hf1. set (w3 := set_ram r1 w2). cbv zeta.
    change (val_memory_virt_to_phys q) with q. replace (n * 64) with (2 ^ (b + 6)) by lia.
    destruct (align_to_size_range (b + 6) q) as [Hr Hm]; [lia|lia|rewrite <- H64; lia|].
    set (base := align_to_size q (2 ^ (b + 6))) in *. rewrite <- H64 in Hr, Hm.
    wp_step. eapply (wp_smmu_update w3 i s1 p (<[i := s1]> l)).
    { split; [reflexivity|]. apply lookup_insert_is_Some'. by right. }
    { apply list_lookup_insert_eq. by eapply lookup_lt_Some. }
    set (s2 := set_smmu_strtab_cfg _ s1). set (w4 := set_g_smmu _ w3).
    assert (Hbase8 : base mod 8 = 0).
    { replace (64 * n) with (8 * (8 * n)) in Hm by lia. 
      rewrite <- (Z.mod_mod_divide base (8 * (8 * n))) by (exists (8 * n); lia). by rewrite Hm. }
    wp_step. apply (wp_abort_stes base n q (128 * n)); [exact Hh2|lia|lia|exact Hbase8|lia|].
    intros r2 Hab Hf2. wp_step. split; [done|]. exists s2. split.
    { exists p, (<[i := s2]> (<[i := s1]> l)). split; [split; [reflexivity|]|].
      - apply lookup_insert_is_Some'. by right.
      - apply list_lookup_insert_eq. rewrite length_insert. by eapply lookup_lt_Some. }
    change (strtab64 (smmu_strtab_cfg s2)) with base. change (ram (set_ram r2 w4)) with r2. cbv zeta.
    split; [reflexivity|]. split; [reflexivity|]. split; [exact Hm|]. split; [lia|]. split; [lia|].
    split; [exact Hab|]. intros a Hna. rewrite Hf2; [|intros i0 j0 Hi0 Hj0 ->; lia].
    change (ram w4) with r1. rewrite Hf1 by lia. reflexivity.
Qed.
End linear.

(** ** Concrete inputs *)

(** One SMMU with four stream identifier bits, not set up yet. *)
Definition on_smmu : world machine :=
  set_g_smmu (Some (4096, [set_smmu_id_bits 0 4 zero_smmu])) (set_heap {[4096 := 168]} (boot ∅ ∅)).

Lemma smmu_linear_table_aborts_witness :
  wp (smmu_strtab_init_linear 0) on_smmu (fun r w' =>
    r = 1 /\ exists base, 8192 < base /\ base mod 1024 = 0 /\ aborts (ram w') (base + 64 * 15)).
Proof.
  assert (Ha : smmu_array_at on_smmu 4096 [set_smmu_id_bits 0 4 zero_smmu])
    by (split; [reflexivity|by eexists]).
  assert (Hb : 0 <= smmu_sid_bits (set_smmu_id_bits 0 4 zero_smmu) <= 24) by (cbn; lia).
  pose proof (smmu_linear_table_aborts on_smmu 0 4096 _ (set_smmu_id_bits 0 4 zero_smmu) Ha eq_refl Hb) as P.
  cbv zeta in P. eapply wp_mono; [exact P|]. clear P. cbv beta. intros r w'.
  change (bs_allocate_pool _ (heap on_smmu) (dev on_smmu)) with ((inr 8192 : Z + Z), dev on_smmu).
  intros (-> & s' & _ & _ & _ & Hal & Hlo & _ & Hab & _). split; [reflexivity|].
  exists (strtab64 (smmu_strtab_cfg s')). split; [exact Hlo|]. split; [exact Hal|].
  apply Hab. cbn. lia.
Defined.
