(* ===== verification/Smmu.v ===== *)
(** * The SMMUv3 driver

    src/val/sys_arch_src/smmu_v3/smmu_v3.c, last part: bringing the SMMUs up,
    mapping and unmapping the streams of a master, enabling and disabling
    translation; src/val/src/acs_smmu.c; and the operations of
    src/val/src/acs_iovirt.c that start and stop the SMMUs. *)

From S2P Require Import Prelude Types World Status Machine Iovirt Peripherals SmmuReg SmmuQueue SmmuTables.
#[local] Open Scope c_scope.

(** The platform layer's monitors of the addresses a DMA port uses: declared in
    pal_interface.h, brought by the platforms that have them. *)
Class PalSmmu (D : Type) := {
  pal_smmu_device_start_monitor_iova : Z -> D -> D;
  pal_smmu_device_stop_monitor_iova : Z -> D -> D;
  pal_smmu_check_device_iova : Z -> Z -> D -> Z * D;
  pal_smmu_max_pasids : Z -> D -> Z * D
}.

Section smmu.
Context {D : Type} `{Platform D}.

#[local] Abbreviation M := (M (world D)).

(** Address of a register of an SMMU. *)
Definition smmu_reg (s : smmu_dev_t) (off : Z) : Z := u64 (smmu_dev_base s + off).

(** ** Control registers *)

(** [while (timeout--)]: 0 when the acknowledge register shows the value. *)
Definition smmu_reg_write_sync (fuel : nat) (smmu : nat) (val reg_off ack_off : Z) : M Z :=
  let* s := smmu_at smmu in
  val_mmio_write (smmu_reg s reg_off) val ;;
  while_ fuel (fun timeout =>
    if truthy timeout then
      let* reg := val_mmio_read (smmu_reg s ack_off) in
      ret (if reg =? val then Break 0 else Continue (timeout - 1))
    else ret (Break 1)) 0x1000000.

Definition smmu_dev_disable (fuel : nat) (smmu : nat) : M Z :=
  let* r := smmu_reg_write_sync fuel smmu 0 SMMU_CR0_OFFSET SMMU_CR0ACK_OFFSET in
  (when truthy r then val_print ACS_PRINT_ERR "\n    failed to clear cr0     " 0) ;;
  ret r.

Definition smmu_cr1 : Z :=
  Z.lor (Z.lor (Z.lor (Z.lor (Z.lor
    (BITFIELD_SET CR1_TABLE_SH SMMU_SH_ISH) (BITFIELD_SET CR1_QUEUE_SH SMMU_SH_ISH))
    (BITFIELD_SET CR1_TABLE_IC CR1_CACHE_WB)) (BITFIELD_SET CR1_QUEUE_IC CR1_CACHE_WB))
    (BITFIELD_SET CR1_TABLE_OC CR1_CACHE_WB)) (BITFIELD_SET CR1_QUEUE_OC CR1_CACHE_WB).

(** The statuses of the three register writes are returned as they are. *)
Definition smmu_reset (fuel : nat) (smmu : nat) : M Z :=
  let* r := smmu_reg_write_sync fuel smmu 0 SMMU_CR0_OFFSET SMMU_CR0ACK_OFFSET in
  if truthy r then
    val_print ACS_PRINT_ERR "\n      failed to clear SMMU_CR0     " 0 ;;
    ret r
  else
  let* s := smmu_at smmu in
  let cfg := smmu_strtab_cfg s in
  let cmdq := smmu_cmdq s in
  val_mmio_write (smmu_reg s SMMU_CR1_OFFSET) smmu_cr1 ;;
  val_mmio_write (smmu_reg s SMMU_CR2_OFFSET) 0 ;;
  val_mmio_write64 (smmu_reg s SMMU_STRTAB_BASE_OFFSET) (strtab_base cfg) ;;
  val_mmio_write (smmu_reg s SMMU_STRTAB_BASE_CFG_OFFSET) (strtab_base_cfg cfg) ;;
  val_mmio_write64 (smmu_reg s SMMU_CMDQ_BASE_OFFSET) (cq_queue_base cmdq) ;;
  val_mmio_write (smmu_reg s SMMU_CMDQ_PROD_OFFSET) (q_prod (cq_queue cmdq)) ;;
  val_mmio_write (smmu_reg s SMMU_CMDQ_CONS_OFFSET) (q_cons (cq_queue cmdq)) ;;
  let en := CR0_CMDQEN in
  let* r := smmu_reg_write_sync fuel smmu en SMMU_CR0_OFFSET SMMU_CR0ACK_OFFSET in
  if truthy r then
    val_print ACS_PRINT_ERR "\n      failed to enable command queue     " 0 ;;
    ret r
  else
  smmu_tlbi_cfgi fuel smmu ;;
  let en := Z.lor en CR0_SMMUEN in
  let* r := smmu_reg_write_sync fuel smmu en SMMU_CR0_OFFSET SMMU_CR0ACK_OFFSET in
  if truthy r then
    val_print ACS_PRINT_ERR "\n      failed to enable SMMU     " 0 ;;
    ret r
  else ret 1.

Definition smmu_set_state (fuel : nat) (smmu_index en : Z) : M Z :=
  let* n := gets g_num_smmus in
  if n <=? smmu_index then
    val_print ACS_PRINT_ERR "\n      smmu_set_state: invalid smmu index    " 0 ;;
    ret 1
  else
  let smmu := Z.to_nat smmu_index in
  let* s := smmu_at smmu in
  if smmu_dev_base s =? 0 then
    val_print ACS_PRINT_ERR "\n      smmu_set_state: smmu unsupported     " 0 ;;
    ret 1
  else
  let* cr0_val := val_mmio_read (smmu_reg s SMMU_CR0_OFFSET) in
  let cr0_val := if truthy en then Z.lor cr0_val CR0_SMMUEN else Z.land cr0_val (not32 CR0_SMMUEN) in
  let* r := smmu_reg_write_sync fuel smmu cr0_val SMMU_CR0_OFFSET SMMU_CR0ACK_OFFSET in
  if truthy r then
    val_print ACS_PRINT_ERR "\n      smmu_set_state: failed to set SMMU state     " 0 ;;
    ret r
  else ret 0.

Definition val_smmu_disable (fuel : nat) (smmu_index : Z) : M Z := smmu_set_state fuel smmu_index 0.
Definition val_smmu_enable (fuel : nat) (smmu_index : Z) : M Z := smmu_set_state fuel smmu_index 1.

(** ** Identification *)

(** What the bits of IDR0 add to the features already recorded. *)
Definition idr0_features (data : Z) (f : smmu_supported_t) : smmu_supported_t :=
  mkSupported
    (st_level_2lvl f || (BITFIELD_GET IDR0_ST_LEVEL data =? IDR0_ST_LEVEL_2LVL))
    (cd2l f || truthy (Z.land data IDR0_CD2L))
    (hyp f || truthy (Z.land data IDR0_HYP))
    (s1p f || truthy (Z.land data IDR0_S1P))
    (s2p f || truthy (Z.land data IDR0_S2P)).

Definition clear_2lvl (f : smmu_supported_t) : smmu_supported_t :=
  mkSupported false (cd2l f) (hyp f) (s1p f) (s2p f).

Definition set_q_log2nent (n : Z) (c : smmu_cmd_queue_t) : smmu_cmd_queue_t :=
  let q := cq_queue c in
  mkCmdq (mkQueue (q_prod q) (q_cons q) n) (cq_base_ptr c) (cq_base c) (cq_base_phys c)
    (cq_queue_base c) (cq_entry_size c) (cq_prod_reg c) (cq_cons_reg c).

Definition smmu_probe (smmu : nat) : M Z :=
  let* s := smmu_at smmu in
  let* data := val_mmio_read (smmu_reg s SMMU_IDR0_OFFSET) in
  smmu_update smmu (fun s => set_smmu_supported (idr0_features data (smmu_supported s)) s) ;;
  if negb (truthy (Z.land data (Z.lor IDR0_S1P IDR0_S2P))) then
    val_print ACS_PRINT_ERR "\n      no translation support!     " 0 ;;
    ret 0
  else
  let ttf := BITFIELD_GET IDR0_TTF data in
  (when ttf =? IDR0_TTF_AARCH32_64 then smmu_update smmu (set_smmu_ias 40)) ;;
  if negb ((ttf =? IDR0_TTF_AARCH32_64) || (ttf =? IDR0_TTF_AARCH64)) then
    val_print ACS_PRINT_ERR "\n      AArch64 table format not supported!     " 0 ;;
    ret 0
  else
  let* data := val_mmio_read (smmu_reg s SMMU_IDR1_OFFSET) in
  if truthy (Z.land data (Z.lor IDR1_TABLES_PRESET IDR1_QUEUES_PRESET)) then
    val_print ACS_PRINT_ERR "\n      fixed table base address not supported     " 0 ;;
    ret 0
  else
  let ssid := BITFIELD_GET IDR1_SSIDSIZE data in
  let sid := BITFIELD_GET IDR1_SIDSIZE data in
  smmu_update smmu (fun s =>
    set_smmu_id_bits ssid sid
      (set_smmu_cmdq (set_q_log2nent (BITFIELD_GET IDR1_CMDQS data) (smmu_cmdq s)) s)) ;;
  val_print ACS_PRINT_INFO "ssid_bits = %d\n" ssid ;;
  val_print ACS_PRINT_INFO "sid_bits = %d\n" sid ;;
  (when sid <=? STRTAB_SPLIT then
     smmu_update smmu (fun s => set_smmu_supported (clear_2lvl (smmu_supported s)) s)) ;;
  let* data := val_mmio_read (smmu_reg s SMMU_IDR5_OFFSET) in
  let oas := BITFIELD_GET IDR5_OAS data in
  if SMMU_OAS_MAX_IDX <=? oas then
    val_print ACS_PRINT_ERR "\n      Unknown output address size     " 0 ;;
    ret 0
  else
  let* oas := need (smmu_oas_table !! Z.to_nat oas) in
  smmu_update smmu (fun s => set_smmu_ias (get_max (smmu_ias s) oas) (set_smmu_oas oas s)) ;;
  let* s := smmu_at smmu in
  val_print ACS_PRINT_INFO "ias %d-bit " (smmu_ias s) ;;
  val_print ACS_PRINT_INFO "oas %d-bit " (smmu_oas s) ;;
  ret 1.

Definition smmu_init (fuel : nat) (smmu : nat) : M Z :=
  let* s := smmu_at smmu in
  if smmu_dev_base s =? 0 then ret ACS_STATUS_ERR
  else
  let* r := smmu_probe smmu in
  if r =? 0 then ret ACS_STATUS_ERR
  else
  let* r := smmu_cmd_queue_init smmu in
  if r =? 0 then ret ACS_STATUS_ERR
  else
  let* r := smmu_strtab_init smmu in
  if r =? 0 then ret ACS_STATUS_ERR
  else
  let* r := smmu_reset fuel smmu in
  if r =? 0 then ret ACS_STATUS_ERR
  else ret 0.

(** ** Mapping *)

(** [cfg->vtcr] and [cfg->cd.tcr] *)
Definition s2_vtcr_of (tcr : PE_TCR_BF) : Z :=
  Z.lor (Z.lor (Z.lor (Z.lor (Z.lor (Z.lor
    (BITFIELD_SET STRTAB_STE_2_VTCR_S2T0SZ (tcr_tsz tcr))
    (BITFIELD_SET STRTAB_STE_2_VTCR_S2SL0 (tcr_sl tcr)))
    (BITFIELD_SET STRTAB_STE_2_VTCR_S2IR0 (tcr_irgn tcr)))
    (BITFIELD_SET STRTAB_STE_2_VTCR_S2OR0 (tcr_orgn tcr)))
    (BITFIELD_SET STRTAB_STE_2_VTCR_S2SH0 (tcr_sh tcr)))
    (BITFIELD_SET STRTAB_STE_2_VTCR_S2TG (tcr_tg tcr)))
    (BITFIELD_SET STRTAB_STE_2_VTCR_S2PS (tcr_ps tcr)).

Definition cd_tcr_of (tcr : PE_TCR_BF) : Z :=
  Z.lor (Z.lor (Z.lor (Z.lor (Z.lor (Z.lor (Z.lor
    (BITFIELD_SET CDTAB_CD_0_TCR_T0SZ (tcr_tsz tcr))
    (BITFIELD_SET CDTAB_CD_0_TCR_TG0 (tcr_tg tcr)))
    (BITFIELD_SET CDTAB_CD_0_TCR_IRGN0 (tcr_irgn tcr)))
    (BITFIELD_SET CDTAB_CD_0_TCR_ORGN0 (tcr_orgn tcr)))
    (BITFIELD_SET CDTAB_CD_0_TCR_SH0 (tcr_sh tcr)))
    (BITFIELD_SET CDTAB_CD_0_TCR_IPS (tcr_ps tcr)))
    CDTAB_CD_0_TCR_EPD1) CDTAB_CD_0_AA64.

(** Point the master at the page table; [false] when the map must give up. *)
Definition smmu_map_stage (master : nat) (pgt_desc : pgt_descriptor_t) : M bool :=
  let tcr := pgt_tcr pgt_desc in
  let* m := master_at master in
  match m_stage m with
  | SMMU_STAGE_S2 =>
      master_update master (set_m_stage2_config (mkS2 0 (pgt_base pgt_desc) (s2_vtcr_of tcr))) ;;
      ret true
  | _ =>
      stage1_update master (set_s1_cdmax (u8 (m_ssid_bits m))) ;;
      let* alloc :=
        if cdtab_ptr (s1_cdcfg (m_stage1_config m)) =? 0 then smmu_cdtab_alloc master else ret 1 in
      if alloc =? 0 then ret false
      else
      let cd := mkCd 0 (pgt_base pgt_desc) (cd_tcr_of tcr) (pgt_mair pgt_desc) in
      stage1_update master (set_s1_cd cd) ;;
      let* r := smmu_cdtab_write_ctx_desc master (s32 (m_ssid m)) cd in
      ret (truthy r)
  end.

Definition val_smmu_map (fuel : nat) (master_attr : smmu_master_attributes_t)
    (pgt_desc : pgt_descriptor_t) : M Z :=
  let* a := gets g_smmu in
  match a with
  | None => ret 1
  | Some _ =>
  let* n := gets g_num_smmus in
  if n <=? smmu_index master_attr then
    val_print ACS_PRINT_ERR "\n      val_smmu_map: invalid smmu index     " 0 ;;
    ret 1
  else
  let smmu := Z.to_nat (smmu_index master_attr) in
  let* s := smmu_at smmu in
  if smmu_dev_base s =? 0 then
    val_print ACS_PRINT_ERR "\n      val_smmu_map: smmu unsupported     " 0 ;;
    ret 1
  else
  let* r := smmu_master_at (streamid master_attr) in
  match r with
  | None => ret 1
  | Some master =>
  let* m := master_at master in
  (match m_smmu m with
   | None => master_update master
               (set_m_ids (Some smmu) (streamid master_attr) (attr_ssid_bits master_attr))
   | Some _ => ret tt
   end) ;;
  let* ok :=
    if truthy (attr_stage2 master_attr) then
      if negb (s2p (smmu_supported s)) then ret false
      else master_update master (set_m_stage SMMU_STAGE_S2) ;; ret true
    else if negb (s1p (smmu_supported s)) then ret false
    else
      master_update master (fun m => set_m_ssid (substreamid master_attr) (set_m_stage SMMU_STAGE_S1 m)) ;;
      ret true in
  if negb ok then ret 1
  else if 2 ^ smmu_sid_bits s <=? streamid master_attr then
    val_print ACS_PRINT_ERR "\n      val_smmu_map: sid %d out of range     " (streamid master_attr) ;;
    ret 1
  else
  let* m := master_at master in
  let* ok :=
    if st_level_2lvl (smmu_supported s) then
      let* r := smmu_strtab_init_level2 smmu (m_sid m) in ret (truthy r)
    else ret true in
  if negb ok then
    val_print ACS_PRINT_ERR "\n      val_smmu_map: l2 stream table init failed     " 0 ;;
    ret 1
  else
  let* ok := smmu_map_stage master pgt_desc in
  if negb ok then ret 1
  else
  let* m := master_at master in
  let* ste := smmu_strtab_get_ste_for_sid smmu (m_sid m) in
  smmu_strtab_write_ste (Some m) ste ;;
  dump_strtab ste ;;
  smmu_tlbi_cfgi fuel smmu ;;
  ret 0
  end
  end.

(** The entry is looked for in [strtab64] whatever the format of the stream table. *)
Definition val_smmu_unmap (fuel : nat) (master_attr : smmu_master_attributes_t) : M () :=
  let* r := smmu_master_at (streamid master_attr) in
  match r with
  | None => ret tt
  | Some master =>
      let* m := master_at master in
      match m_smmu m with
      | None => ret tt
      | Some smmu =>
          let* s := smmu_at smmu in
          if 2 ^ smmu_sid_bits s <=? streamid master_attr then ret tt
          else
          let strtab := strtab64 (smmu_strtab_cfg s) + 8 * u32 (streamid master_attr * STRTAB_STE_DWORDS) in
          smmu_strtab_write_ste None strtab ;;
          smmu_cdtab_free master ;;
          smmu_tlbi_cfgi fuel smmu ;;
          master_update master (fun _ => zero_master)
      end
  end.

(** ** Starting and stopping *)

(** The array is freed; [g_smmu] keeps pointing to it. *)
Definition val_smmu_stop (fuel : nat) : M () :=
  let* n := gets g_num_smmus in
  for_each (Z.to_nat n) 0 (fun i =>
    let smmu := Z.to_nat i in
    let* s := smmu_at smmu in
    if smmu_dev_base s =? 0 then ret tt
    else
    let* _ := smmu_dev_disable fuel smmu in
    (when truthy (cq_base_ptr (smmu_cmdq s)) then val_memory_free (cq_base_ptr (smmu_cmdq s))) ;;
    smmu_free_strtab smmu) ;;
  let* a := gets g_smmu in
  val_memory_free (match a with Some (p, _) => p | None => 0 end).

Definition val_smmu_init (fuel : nat) : M Z :=
  let* n := val_iovirt_get_smmu_info SMMU_NUM_CTRL 0 in
  modify (set_g_num_smmus n) ;;
  if n =? 0 then ret ACS_STATUS_ERR
  else
  let* p := val_memory_alloc (SIZEOF_smmu_dev_t * n) in
  if p =? 0 then
    modify (set_g_smmu None) ;;
    val_print ACS_PRINT_ERR "\n      val_smmu_init: memory allocation failure     " 0 ;;
    ret ACS_STATUS_ERR
  else
  modify (set_g_smmu (Some (p, repeat zero_smmu (Z.to_nat n)))) ;;
  let* r := for_ (Z.to_nat n) 0 (fun i _ =>
    let smmu := Z.to_nat i in
    let* rev := val_iovirt_get_smmu_info SMMU_CTRL_ARCH_MAJOR_REV i in
    if negb (rev =? 3) then
      val_print ACS_PRINT_ERR
        "\n      val_smmu_init: only SMMUv3.x supported, skipping smmu %d    " i ;;
      ret (Continue tt)
    else
    let* base := val_iovirt_get_smmu_info SMMU_CTRL_BASE i in
    smmu_update smmu (set_smmu_dev_base base) ;;
    let* r := smmu_init fuel smmu in
    if truthy r then
      val_print ACS_PRINT_ERR "\n      val_smmu_init: smmu %d init failed     " i ;;
      smmu_update smmu (set_smmu_dev_base 0) ;;
      ret (Break ACS_STATUS_ERR)
    else ret (Continue tt)) tt in
  ret (match r with Break st => st | Continue _ => 0 end).

Definition val_smmu_get_info (type smmu_index : Z) : M Z :=
  let* n := gets g_num_smmus in
  if n <=? smmu_index then
    val_print ACS_PRINT_ERR "\n      val_smmu_get_info: invalid smmu index(%d)     " smmu_index ;;
    ret 0
  else
  let smmu := Z.to_nat smmu_index in
  if type =? SMMU_SSID_BITS then let* s := smmu_at smmu in ret (smmu_ssid_bits s)
  else if type =? SMMU_IN_ADDR_SIZE then let* s := smmu_at smmu in ret (smmu_ias s)
  else if type =? SMMU_OUT_ADDR_SIZE then let* s := smmu_at smmu in ret (smmu_oas s)
  else val_iovirt_get_smmu_info type smmu_index.

(** ** acs_smmu.c *)

Definition val_smmu_read_cfg (offset index : Z) : M Z :=
  let* ctrl_base := val_smmu_get_info SMMU_CTRL_BASE index in
  if ctrl_base =? 0 then ret 0 else val_mmio_read (u64 (ctrl_base + offset)).

Definition val_smmu_execute_tests `{TestPool D} (num_pe : Z) (g_sw_view : list Z) : M Z :=
  let* skip := user_skips ACS_SMMU_TEST_NUM_BASE in
  if skip then
    val_print ACS_PRINT_TEST "\n      USER Override - Skipping all SMMU tests \n" 0 ;;
    ret ACS_STATUS_SKIP
  else
  let* num_smmu := val_iovirt_get_smmu_info SMMU_NUM_CTRL 0 in
  if u32 num_smmu =? 0 then
    val_print ACS_PRINT_WARN "\n     No SMMU Controller Found, Skipping SMMU tests...\n" 0 ;;
    ret ACS_STATUS_SKIP
  else
  let* os := need (g_sw_view !! Z.to_nat G_SW_OS) in
  let* hypervisor := need (g_sw_view !! Z.to_nat G_SW_HYP) in
  let* status :=
    if truthy os then
      val_print ACS_PRINT_ERR "\nOperating System:\n" 0 ;;
      run_tests ["os_i001_entry"; "os_i002_entry"; "os_i003_entry"; "os_i004_entry";
                 "os_i005_entry"; "os_i006_entry"; "os_i007_entry"; "os_i008_entry"]
        num_pe ACS_STATUS_PASS
    else ret ACS_STATUS_PASS in
  let* status :=
    if truthy os || truthy hypervisor then run_tests ["os_i009_entry"] num_pe status
    else ret status in
  let* status :=
    if truthy hypervisor then
      val_print ACS_PRINT_ERR "\nHypervisor:\n" 0 ;;
      run_tests ["hyp_i001_entry"; "hyp_i002_entry"; "hyp_i003_entry"; "hyp_i004_entry";
                 "hyp_i005_entry"] num_pe status
    else ret status in
  (if negb (status =? ACS_STATUS_PASS) then
     val_print ACS_PRINT_TEST "\n      *** One or more tests have Failed/Skipped.*** \n" 0
   else val_print ACS_PRINT_TEST "\n     All SMMU tests Passed!! \n" 0) ;;
  ret status.

(** The DMA port of a controller; [None] once the error has been printed. *)
Definition dma_port (ctrl_index : Z) : M (option Z) :=
  let* ap := val_dma_get_info DMA_PORT_INFO ctrl_index in
  if ap =? 0 then
    val_print ACS_PRINT_ERR "Invalid Controller index %d \n" ctrl_index ;; ret None
  else ret (Some ap).

Definition val_smmu_start_monitor_dev `{PalSmmu D} (ctrl_index : Z) : M Z :=
  let* ap := dma_port ctrl_index in
  match ap with
  | None => ret ACS_STATUS_ERR
  | Some ap => on_dev (pal_smmu_device_start_monitor_iova ap) ;; ret 0
  end.

Definition val_smmu_stop_monitor_dev `{PalSmmu D} (ctrl_index : Z) : M Z :=
  let* ap := dma_port ctrl_index in
  match ap with
  | None => ret ACS_STATUS_ERR
  | Some ap => on_dev (pal_smmu_device_stop_monitor_iova ap) ;; ret 0
  end.

Definition val_smmu_check_device_iova `{PalSmmu D} (ctrl_index dma_addr : Z) : M Z :=
  let* ap := dma_port ctrl_index in
  match ap with
  | None => ret ACS_STATUS_ERR
  | Some ap =>
      val_print ACS_PRINT_DEBUG "Input dma addr = %lx \n" dma_addr ;;
      from_dev (pal_smmu_check_device_iova ap dma_addr)
  end.

(** [param1] and [param2] are what the pointers passed point to, [None] for NULL. *)
Definition val_smmu_ops `{PalSmmu D} (ops smmu_index : Z) (param1 param2 : option Z) : M Z :=
  if ops =? SMMU_START_MONITOR_DEV then
    let* p := need param1 in val_smmu_start_monitor_dev p
  else if ops =? SMMU_STOP_MONITOR_DEV then
    let* p := need param1 in val_smmu_stop_monitor_dev p
  else if ops =? SMMU_CHECK_DEVICE_IOVA then
    let* p := need param1 in
    let* q := need param2 in
    val_smmu_check_device_iova p q
  else ret 0.

(** pal_smmu.c of the device-tree platform: not supported there. *)
Definition pal_smmu_create_pasid_entry (SmmuBase PasId : Z) : Z := 1.
Definition pal_smmu_disable (SmmuBase : Z) : Z := 0.
Definition pal_smmu_pa2iova (SmmuBase Pa : Z) : Z := 0.

Definition val_smmu_max_pasids `{PalSmmu D} (smmu_index : Z) : M Z :=
  let* smmu_base := val_smmu_get_info SMMU_CTRL_BASE smmu_index in
  from_dev (pal_smmu_max_pasids smmu_base).

Definition val_smmu_create_pasid_entry (smmu_index pasid : Z) : M Z :=
  let* smmu_base := val_smmu_get_info SMMU_CTRL_BASE smmu_index in
  ret (pal_smmu_create_pasid_entry smmu_base pasid).

Definition val_smmu_pa2iova (smmu_index pa : Z) : M Z :=
  let* smmu_base := val_smmu_get_info SMMU_CTRL_BASE smmu_index in
  ret (pal_smmu_pa2iova smmu_base pa).

(** ** The table and the SMMUs (acs_iovirt.c) *)

(** [iovirt_info_table] is whether the pointer passed is not NULL. *)
Definition val_iovirt_create_info_table `{PalTables D} (fuel : nat) (iovirt_info_table : bool) : M () :=
  if negb iovirt_info_table then
    val_print ACS_PRINT_ERR "\n   Input for Create Info table cannot be NULL \n" 0
  else
  let* t := pal_iovirt_create_info_table in
  modify (set_g_iovirt_info_table (Some t)) ;;
  let* num_smmu := val_iovirt_get_smmu_info SMMU_NUM_CTRL 0 in
  let num_smmu := u32 num_smmu in
  val_print ACS_PRINT_TEST " SMMU_INFO: Number of SMMU CTRL       :    %x \n" num_smmu ;;
  let* _ := val_smmu_init fuel in
  for_each (Z.to_nat num_smmu) 0 (fun instance =>
    let* _ := val_smmu_disable fuel instance in ret tt).

(** [table] is the address of the table: the block the caller passed. *)
Definition val_iovirt_free_info_table (fuel : nat) (table : Z) : M () :=
  val_smmu_stop fuel ;;
  pal_mem_free table.

(** [while (num_smmu--)]: the last SMMU with that base. *)
Fixpoint find_smmu_down (smmu_base : Z) (num_smmu : nat) : M (option Z) :=
  match num_smmu with
  | O => ret None
  | S n =>
      let* base := val_smmu_get_info SMMU_CTRL_BASE (Z.of_nat n) in
      if smmu_base =? base then ret (Some (Z.of_nat n)) else find_smmu_down smmu_base n
  end.

Definition val_iovirt_get_rc_smmu_index (rc_seg_num : Z) : M Z :=
  let* t := gets g_iovirt_info_table in
  let* t := need t in
  let* smmu_base := pal_iovirt_get_rc_smmu_base t rc_seg_num in
  let* found :=
    if truthy smmu_base then
      let* num_smmu := val_smmu_get_info SMMU_NUM_CTRL 0 in
      find_smmu_down smmu_base (Z.to_nat (u32 num_smmu))
    else ret None in
  match found with
  | Some i => ret i
  | None =>
      val_print ACS_PRINT_INFO "RC with segment number %d is not behind any SMMU" rc_seg_num ;;
      ret ACS_INVALID_INDEX
  end.
End smmu.

(** ** Descriptors *)

Definition tcr_ok (tcr : PE_TCR_BF) : Prop :=
  fits 3 (tcr_ps tcr) /\ fits 2 (tcr_tg tcr) /\ fits 2 (tcr_sh tcr) /\ fits 2 (tcr_orgn tcr) /\
  fits 2 (tcr_irgn tcr) /\ fits 6 (tcr_tsz tcr) /\ fits 2 (tcr_sl tcr).

Lemma s2_vtcr_fits tcr : fits 19 (s2_vtcr_of tcr).
Proof.
  unfold s2_vtcr_of. repeat first [apply set_fits; [field_side|reflexivity] | apply fits_lor; [discriminate| |]].
Qed.

Lemma s2_vtcr_fields tcr : tcr_ok tcr ->
  let v := s2_vtcr_of tcr in
  BITFIELD_GET STRTAB_STE_2_VTCR_S2T0SZ v = tcr_tsz tcr /\
  BITFIELD_GET STRTAB_STE_2_VTCR_S2SL0 v = tcr_sl tcr /\
  BITFIELD_GET STRTAB_STE_2_VTCR_S2IR0 v = tcr_irgn tcr /\
  BITFIELD_GET STRTAB_STE_2_VTCR_S2OR0 v = tcr_orgn tcr /\
  BITFIELD_GET STRTAB_STE_2_VTCR_S2SH0 v = tcr_sh tcr /\
  BITFIELD_GET STRTAB_STE_2_VTCR_S2TG v = tcr_tg tcr /\
  BITFIELD_GET STRTAB_STE_2_VTCR_S2PS v = tcr_ps tcr.
Proof.
  intros (Hps & Htg & Hsh & Hor & Hir & Htsz & Hsl) v. unfold v, s2_vtcr_of.
  split_and!; read_fields; by apply Z.mod_small.
Qed.

Lemma ste_s1_fields cfg :
  cdtab_phys (s1_cdcfg cfg) mod 2 ^ 6 = 0 -> fits 5 (s1_cdmax cfg) -> fits 2 (s1_fmt cfg) ->
  let w := ste_0_s1 cfg in
  BITFIELD_GET (Bitfield 0 0) w = 1 /\
  BITFIELD_GET STRTAB_STE_0_CONFIG w = STRTAB_STE_0_CONFIG_S1_TRANS /\
  BITFIELD_GET STRTAB_STE_0_S1FMT w = s1_fmt cfg /\
  BITFIELD_GET STRTAB_STE_0_S1CDMAX w = s1_cdmax cfg /\
  Z.shiftl (BITFIELD_GET STRTAB_STE_0_S1CONTEXTPTR w) 6 = cdtab_phys (s1_cdcfg cfg) mod 2 ^ 46.
Proof.
  intros Hp Hm Hf w. unfold w, ste_0_s1. rewrite (f_mask_ones STRTAB_STE_0_S1CONTEXTPTR).
  change (f_msb STRTAB_STE_0_S1CONTEXTPTR - f_lsb STRTAB_STE_0_S1CONTEXTPTR + 1) with 46.
  set (p := cdtab_phys _) in *.
  assert (Hlow : forall k, 0 <= k <= 6 -> p mod 2 ^ k = 0).
  { intros k Hk. rewrite <- (Z.mod_mod_divide p (2 ^ 6)) by
      (exists (2 ^ (6 - k)); rewrite <- Z.pow_add_r by lia; f_equal; lia). by rewrite Hp, Z.mod_0_l by (apply Z.pow_nonzero; lia). }
  unfold STRTAB_STE_0_V. split_and!; read_fields.
  - rewrite (get_addr_low (Bitfield 0 0) p 46); [reflexivity|field_side|field_side|by apply (Hlow 1)].
  - rewrite (get_addr_low STRTAB_STE_0_CONFIG p 46); [reflexivity|field_side|field_side|by apply (Hlow 4)].
  - rewrite (get_addr_low STRTAB_STE_0_S1FMT p 46); [|field_side|field_side|by apply (Hlow 6)].
    rewrite Z.lor_0_l. by apply Z.mod_small.
  - rewrite (get_addr_high STRTAB_STE_0_S1CDMAX p 46) by field_side.
    rewrite Z.lor_0_l. by apply Z.mod_small.
  - apply (get_addr STRTAB_STE_0_S1CONTEXTPTR); [field_side|field_side|by apply (Hlow 6)].
Qed.

Lemma ste_s2_fields cfg : fits 16 (s2_vmid cfg) -> fits 19 (s2_vtcr cfg) ->
  let w := ste_2_s2 cfg in
  BITFIELD_GET STRTAB_STE_2_S2VMID w = s2_vmid cfg /\ BITFIELD_GET STRTAB_STE_2_VTCR w = s2_vtcr cfg.
Proof.
  intros Hv Ht w. unfold w, ste_2_s2, STRTAB_STE_2_S2PTW, STRTAB_STE_2_S2AA64, STRTAB_STE_2_S2R.
  split; read_fields; by apply Z.mod_small.
Qed.

Lemma cd_fields asid ttbr tcr mair : tcr_ok tcr -> fits 16 asid ->
  let w := cd_word_0 (mkCd asid ttbr (cd_tcr_of tcr) mair) in
  BITFIELD_GET (Bitfield 31 31) w = 1 /\ BITFIELD_GET CDTAB_CD_0_ASID w = asid /\
  BITFIELD_GET CDTAB_CD_0_TCR_T0SZ w = tcr_tsz tcr /\ BITFIELD_GET CDTAB_CD_0_TCR_TG0 w = tcr_tg tcr /\
  BITFIELD_GET CDTAB_CD_0_TCR_IRGN0 w = tcr_irgn tcr /\
  BITFIELD_GET CDTAB_CD_0_TCR_ORGN0 w = tcr_orgn tcr /\
  BITFIELD_GET CDTAB_CD_0_TCR_SH0 w = tcr_sh tcr /\ BITFIELD_GET CDTAB_CD_0_TCR_IPS w = tcr_ps tcr.
Proof.
  intros (Hps & Htg & Hsh & Hor & Hir & Htsz & Hsl) Ha w. unfold w, cd_word_0, cd_tcr_of.
  cbn [cd_tcr cd_asid]. unfold CDTAB_CD_0_TCR_EPD1, CDTAB_CD_0_AA64, CDTAB_CD_0_R, CDTAB_CD_0_A,
    CDTAB_CD_0_ASET, CDTAB_CD_0_V.
  split_and!; read_fields; try (by apply Z.mod_small). reflexivity.
Qed.

(** C26: The descriptors the SMMU reads say what was asked for. From a stage-1 stream
    table entry the SMMU reads back that it is valid, the format, the number of
    contexts and the address of the context descriptor table, the latter modulo
    [2 ^ 46] - the mask of the field is not shifted, so that addresses above 64 TiB
    lose their high bits; from a stage-2 entry the VMID and every translation
    parameter; from a context descriptor the ASID and every translation parameter. *)
Theorem smmu_descriptors_roundtrip s1 vmid vttbr asid ttbr tcr mair :
  cdtab_phys (s1_cdcfg s1) mod 2 ^ 6 = 0 -> fits 5 (s1_cdmax s1) -> fits 2 (s1_fmt s1) ->
  fits 16 vmid -> fits 16 asid -> tcr_ok tcr ->
  (let w := ste_0_s1 s1 in
   BITFIELD_GET (Bitfield 0 0) w = 1 /\
   BITFIELD_GET STRTAB_STE_0_CONFIG w = STRTAB_STE_0_CONFIG_S1_TRANS /\
   BITFIELD_GET STRTAB_STE_0_S1FMT w = s1_fmt s1 /\
   BITFIELD_GET STRTAB_STE_0_S1CDMAX w = s1_cdmax s1 /\
   Z.shiftl (BITFIELD_GET STRTAB_STE_0_S1CONTEXTPTR w) 6 = cdtab_phys (s1_cdcfg s1) mod 2 ^ 46) /\
  (let w := ste_2_s2 (mkS2 vmid vttbr (s2_vtcr_of tcr)) in
   let v := BITFIELD_GET STRTAB_STE_2_VTCR w in
   BITFIELD_GET STRTAB_STE_2_S2VMID w = vmid /\
   BITFIELD_GET STRTAB_STE_2_VTCR_S2T0SZ v = tcr_tsz tcr /\
   BITFIELD_GET STRTAB_STE_2_VTCR_S2SL0 v = tcr_sl tcr /\
   BITFIELD_GET STRTAB_STE_2_VTCR_S2IR0 v = tcr_irgn tcr /\
   BITFIELD_GET STRTAB_STE_2_VTCR_S2OR0 v = tcr_orgn tcr /\
   BITFIELD_GET STRTAB_STE_2_VTCR_S2SH0 v = tcr_sh tcr /\
   BITFIELD_GET STRTAB_STE_2_VTCR_S2TG v = tcr_tg tcr /\
   BITFIELD_GET STRTAB_STE_2_VTCR_S2PS v = tcr_ps tcr) /\
  (let w := cd_word_0 (mkCd asid ttbr (cd_tcr_of tcr) mair) in
   BITFIELD_GET (Bitfield 31 31) w = 1 /\ BITFIELD_GET CDTAB_CD_0_ASID w = asid /\
   BITFIELD_GET CDTAB_CD_0_TCR_T0SZ w = tcr_tsz tcr /\ BITFIELD_GET CDTAB_CD_0_TCR_TG0 w = tcr_tg tcr /\
   BITFIELD_GET CDTAB_CD_0_TCR_IRGN0 w = tcr_irgn tcr /\
   BITFIELD_GET CDTAB_CD_0_TCR_ORGN0 w = tcr_orgn tcr /\
   BITFIELD_GET CDTAB_CD_0_TCR_SH0 w = tcr_sh tcr /\ BITFIELD_GET CDTAB_CD_0_TCR_IPS w = tcr_ps tcr).
Proof.
  intros Hp Hm Hf Hv Ha Ht. split; [exact (ste_s1_fields s1 Hp Hm Hf)|]. split.
  - cbv zeta. pose proof (ste_s2_fields (mkS2 vmid vttbr (s2_vtcr_of tcr)) Hv (s2_vtcr_fits tcr)) as [E1 E2].
    rewrite E1, E2. split; [reflexivity|]. exact (s2_vtcr_fields tcr Ht).
  - exact (cd_fields asid ttbr tcr mair Ht Ha).
Qed.

(** ** Register writes that wait for an acknowledgement *)

Section sync.
Context {D : Type} `{Platform D}.

(** At most [n] reads of a register, up to the first that gives [val]: whether there
    was one, and the device afterwards. *)
Fixpoint await (n : nat) (reg val : Z) (d : D) : bool * D :=
  match n with
  | O => (false, d)
  | S n => let r := dev_read 4 reg d in
           if u32 (fst r) =? val then (true, snd r) else await n reg val (snd r)
  end.

Lemma eval_await n fuel reg val d (w : world D) :
  Z.land reg 3 = 0 -> (n < fuel)%nat ->
  let r := await n reg val d in
  eval (while_ fuel (fun timeout =>
          if truthy timeout then
            let* v := val_mmio_read reg in
            ret (if v =? val then Break 0 else Continue (timeout - 1))
          else ret (Break 1)) (Z.of_nat n)) (set_dev d w)
    (of_bool (negb (fst r))) (set_dev (snd r) w).
Proof.
  intros Hal. unfold eval. revert fuel d.
  induction n as [|n IH]; intros fuel d Hf; (destruct fuel as [|fuel]; [lia|]); cbn [while_ await].
  - wp_step. change (truthy (Z.of_nat 0)) with false. cbv iota. wp_step. by wp_step.
  - wp_step. replace (truthy (Z.of_nat (S n))) with true by done. cbv iota. wp_step.
    apply wp_mmio_read; [done|]. wsimpl. change (dev (set_dev d w)) with d. wp_step.
    destruct (u32 (fst (dev_read 4 reg d)) =? val); [by wp_step|].
    replace (Z.of_nat (S n) - 1) with (Z.of_nat n) by lia.
    apply (IH fuel (snd (dev_read 4 reg d))). lia.
Qed.

(** The time-out of the driver, which bounds the number of reads. *)
Definition SYNC_READS : nat := Z.to_nat 0x1000000.

Lemma eval_reg_write_sync w i s fuel val reg_off ack_off :
  smmu_is w i s -> Z.land (smmu_reg s ack_off) 3 = 0 -> 0x1000000 < Z.of_nat fuel -> fits 32 val ->
  let r := await SYNC_READS (smmu_reg s ack_off) val (dev_write 4 (smmu_reg s reg_off) val (dev w)) in
  eval (smmu_reg_write_sync fuel i val reg_off ack_off) w (of_bool (negb (fst r))) (set_dev (snd r) w).
Proof.
  intros Hs Hal Hf Hv. cbv zeta. unfold smmu_reg_write_sync.
  eapply eval_bind; [by apply eval_smmu_at|].
  eapply wp_bind, wp_mmio_write. rewrite (u32_id _ Hv).
  assert (Hn : Z.of_nat SYNC_READS = 0x1000000) by (apply Z2Nat.id; discriminate).
  rewrite <- Hn. apply eval_await; [done|]. lia.
Qed.

(** A device that never acknowledges. *)
Lemma await_never (P : D -> Prop) n reg val d :
  P d -> (forall d, P d -> let r := dev_read 4 reg d in u32 (fst r) <> val /\ P (snd r)) ->
  exists d', await n reg val d = (false, d') /\ P d'.
Proof.
  intros Hd Hstep. revert d Hd. induction n as [|n IH]; intros d Hd; cbn [await]; [by exists d|].
  destruct (Hstep d Hd) as [Hne HP]. cbv zeta in *. rewrite (proj2 (Z.eqb_neq _ _) Hne). by apply IH.
Qed.

Lemma sync_status fuel i val reg_off ack_off :
  yields (fun r => r = 0 \/ r = 1) (smmu_reg_write_sync (D := D) fuel i val reg_off ack_off).
Proof.
  unfold smmu_reg_write_sync. do 2 yields_step. apply yields_while. intros t. repeat yields_step; [|by right].
  destruct (_ =? val); [by left|done].
Qed.

(** The status of a reset is 1 whether it fails or not. *)
Lemma reset_status fuel i : yields (fun r => r = 1) (smmu_reset (D := D) fuel i).
Proof.
  assert (Hone : forall r, r = 0 \/ r = 1 -> truthy r = true -> r = 1) by (by intros r [-> | ->]).
  unfold smmu_reset.
  eapply yields_bind; [apply sync_status|]. intros r0 Hr0. yields_step; [by repeat yields_step; auto|].
  do 8 yields_step. eapply yields_bind; [apply sync_status|]. intros r1 Hr1.
  yields_step; [by repeat yields_step; auto|]. yields_step.
  eapply yields_bind; [apply sync_status|]. intros r2 Hr2. repeat yields_step; auto.
Qed.

(** C27: A reset never reports a failure: it returns the status 1 of a register write
    that was not acknowledged as it is, and 1 is also what it returns when all went
    well, which is what [smmu_init] looks for. On an SMMU that never acknowledges the
    first write - the one that disables it - it returns 1 having written no other
    register. [Dead] is a property of the device that says so. *)
Theorem smmu_reset_hides_timeout w i s fuel (Dead : D -> Prop) :
  smmu_is w i s -> Z.land (smmu_reg s SMMU_CR0ACK_OFFSET) 3 = 0 -> 0x1000000 < Z.of_nat fuel ->
  yields (fun r => r = 1) (smmu_reset (D := D) fuel i) /\
  (Dead (dev_write 4 (smmu_reg s SMMU_CR0_OFFSET) 0 (dev w)) ->
   (forall d, Dead d -> let r := dev_read 4 (smmu_reg s SMMU_CR0ACK_OFFSET) d in
      u32 (fst r) <> 0 /\ Dead (snd r)) ->
   exists d', eval (smmu_reset fuel i) w 1 (set_dev d' w) /\ Dead d').
Proof.
  intros Hs Hal Hf. split; [apply reset_status|]. intros Hd Hstep.
  destruct (await_never Dead SYNC_READS _ 0 _ Hd Hstep) as (d' & Ha & Hd'). exists d'. split; [|done].
  pose proof (eval_reg_write_sync w i s fuel 0 SMMU_CR0_OFFSET SMMU_CR0ACK_OFFSET Hs Hal Hf) as P.
  cbv zeta in P. rewrite Ha in P. unfold smmu_reset.
  eapply eval_bind; [apply P; unfold fits; lia|]. change (truthy (of_bool (negb (fst (false, d'))))) with true.
  cbv iota. by apply wp_bind, wp_val_print, wp_ret.
Qed.

(** A register write that waits for its acknowledgement ends after at most 2^24
    reads, with status 0 if and only if one of them gave the value written; between
    the write and the end the device sees those reads and nothing else. *)
Theorem smmu_reg_write_sync_bounded w i s fuel val reg_off ack_off :
  smmu_is w i s -> Z.land (smmu_reg s ack_off) 3 = 0 -> 0x1000000 < Z.of_nat fuel -> fits 32 val ->
  let r := await SYNC_READS (smmu_reg s ack_off) val (dev_write 4 (smmu_reg s reg_off) val (dev w)) in
  eval (smmu_reg_write_sync fuel i val reg_off ack_off) w (if fst r then 0 else 1) (set_dev (snd r) w).
Proof.
  intros Hs Hal Hf Hv. pose proof (eval_reg_write_sync w i s fuel val reg_off ack_off Hs Hal Hf Hv) as P.
  cbv zeta in P |- *. by destruct (fst (await _ _ _ _)).
Qed.
End sync.

(** ** Concrete inputs *)

(** An SMMUv3 at the address of [small_iort], with these identification registers,
    that acknowledges CR0 and consumes a command as soon as it is there. *)
Definition SMMU_BASE : Z := 0x9050000.

Definition on_smmuv3 (idr0 idr1 : Z) : world mirrored :=
  with_dev
    (Mirrored {[SMMU_BASE + SMMU_CR0_OFFSET := SMMU_BASE + SMMU_CR0ACK_OFFSET;
                SMMU_BASE + SMMU_CMDQ_PROD_OFFSET := SMMU_BASE + SMMU_CMDQ_CONS_OFFSET]}
       (Machine {[SMMU_BASE := idr0; SMMU_BASE + SMMU_IDR1_OFFSET := idr1;
                  SMMU_BASE + SMMU_IDR5_OFFSET := 4]} ∅ 0 [])) on_iort.

(** Both translation stages, AArch64 tables; with two-level stream tables. *)
Definition IDR0_LINEAR : Z := 11.
Definition IDR0_TWO_LEVEL : Z := 11 + 2 ^ 27.

(** Eight commands, this many stream identifier bits. *)
Definition idr1_of (sid_bits : Z) : Z := 3 * 2 ^ 21 + sid_bits.

(** Stage 2 of this stream, through the page table at 0x80000000. *)
Definition stage2_of (sid : Z) : smmu_master_attributes_t := mkMasterAttr 0 sid 0 0 1.
Definition some_pgt : pgt_descriptor_t := mkPgt 0x80000000 48 48 0xff 1 (mkTCR 5 0 3 1 1 16 2 12).

(** Words 0 and 3 of the entry the SMMU finds for a stream, through the first-level
    descriptor [first] when there is one. *)
Definition ste_found (w : world mirrored) (sid : Z) : option (Z * Z) :=
  match smmu_strtab_get_ste_for_sid 0 sid w with
  | Ret ste _ _ => v0 ← ram w !! ste; v3 ← ram w !! (ste + 24); Some (v0, v3)
  | _ => None
  end.

(** First word of the stream table. *)
Definition strtab_word0 (w : world mirrored) : option Z :=
  a ← g_smmu w; s ← snd a !! 0%nat; ram w !! strtab64 (smmu_strtab_cfg s).

(** Bring the SMMU up and map a stream; then unmap it. [None] for a fault. *)
Definition after_map (idr0 sid_bits sid : Z) : option (world mirrored) :=
  match (let* r := val_smmu_init 10 in
         let* r' := val_smmu_map 10 (stage2_of sid) some_pgt in
         ret (r, r')) (on_smmuv3 idr0 (idr1_of sid_bits)) with
  | Ret (0, 0) w _ => Some w
  | _ => None
  end.

Definition after_unmap (idr0 sid_bits sid : Z) : option (world mirrored) :=
  w ← after_map idr0 sid_bits sid;
  match val_smmu_unmap 10 (stage2_of sid) w with Ret _ w _ => Some w | _ => None end.

(** The first word of a stage-2 entry, and of one that aborts. *)
Definition S2_ENTRY : Z := 13.
Definition ABORT_ENTRY : Z := 1.

(** Mapping a stream makes the entry the SMMU finds for it a stage-2 translation
    through the page table given, and on a linear stream table unmapping it makes the
    entry abort. On a two-level table unmapping goes to where the entry would be in a
    linear one: with twelve stream identifier bits the entry of stream 0 still
    translates, and the first-level descriptor that leads to it has been overwritten
    with an entry; with nine the write leaves the memory of the table. *)
Theorem smmu_map_then_unmap :
  (w ← after_map IDR0_LINEAR 4 3; ste_found w 3) = Some (S2_ENTRY, 0x80000000) /\
  (w ← after_unmap IDR0_LINEAR 4 3; ste_found w 3) = Some (ABORT_ENTRY, 0x80000000) /\
  (w ← after_map IDR0_TWO_LEVEL 12 0; ste_found w 0) = Some (S2_ENTRY, 0x80000000) /\
  (w ← after_unmap IDR0_TWO_LEVEL 12 0; ste_found w 0) = Some (S2_ENTRY, 0x80000000) /\
  (w ← after_unmap IDR0_TWO_LEVEL 12 0; strtab_word0 w) = Some ABORT_ENTRY /\
  is_Some (after_map IDR0_TWO_LEVEL 9 3) /\ after_unmap IDR0_TWO_LEVEL 9 3 = None.
Proof.
  split; [vm_compute; reflexivity|]. split; [vm_compute; reflexivity|].
  split; [vm_compute; reflexivity|]. split; [vm_compute; reflexivity|].
  split; [vm_compute; reflexivity|]. split; [|vm_compute; reflexivity].
  vm_compute. by eexists.
Qed.

Lemma smmu_descriptors_roundtrip_witness :
  BITFIELD_GET STRTAB_STE_2_VTCR_S2PS
    (BITFIELD_GET STRTAB_STE_2_VTCR (ste_2_s2 (mkS2 7 0x80000000 (s2_vtcr_of (pgt_tcr some_pgt))))) = 5.
Proof.
  refine (proj2 (proj2 (proj2 (proj2 (proj2 (proj2 (proj2 (proj1 (proj2
    (smmu_descriptors_roundtrip (mkS1 (mkCdtab 0 0 0x40000000 0 [] 0) (mkCd 0 0 0 0) 0 4)
       7 0x80000000 1 0x80000000 (pgt_tcr some_pgt) 0xff _ _ _ _ _ _)))))))))); vm_compute; auto.
  - split; [discriminate|reflexivity].
  - split; [discriminate|reflexivity].
  - split; [discriminate|reflexivity].
  - split; [discriminate|reflexivity].
  - split_and!; first [discriminate | reflexivity].
Defined.

(** An SMMU whose acknowledge register stays at 5. *)
Definition on_dead_smmu : world machine :=
  set_g_smmu (Some (4096, [set_smmu_dev_base SMMU_BASE zero_smmu]))
    (set_heap {[4096 := 168]} (boot {[SMMU_BASE + SMMU_CR0ACK_OFFSET := 5]} ∅)).

Definition stays_at_5 (d : machine) : Prop := mach_mem d !! (SMMU_BASE + SMMU_CR0ACK_OFFSET) = Some 5.

Lemma on_dead_smmu_is : smmu_is on_dead_smmu 0 (set_smmu_dev_base SMMU_BASE zero_smmu).
Proof. exists 4096, [set_smmu_dev_base SMMU_BASE zero_smmu]. repeat split. by eexists. Qed.

Lemma smmu_reset_hides_timeout_witness :
  exists d', eval (smmu_reset (S SYNC_READS) 0) on_dead_smmu 1 (set_dev d' on_dead_smmu) /\ stays_at_5 d'.
Proof.
  apply (smmu_reset_hides_timeout on_dead_smmu 0 (set_smmu_dev_base SMMU_BASE zero_smmu)
    (S SYNC_READS) stays_at_5 on_dead_smmu_is).
  - reflexivity.
  - unfold SYNC_READS. rewrite Nat2Z.inj_succ, Z2Nat.id; [lia|discriminate].
  - reflexivity.
  - intros d Hd. split; [|exact Hd].
    change (u32 (default 0 (mach_mem d !! (SMMU_BASE + SMMU_CR0ACK_OFFSET))) <> 0).
    rewrite Hd. discriminate.
Defined.
