(* ===== verification/Fdt.v ===== *)
(** * The device tree

    What the table builders of the device-tree platform layer share: filling a table
    in memory, libfdt (the class [Fdt]) and the queries of
    src/platform/pal_uefi_dt/src/pal_dt.c. *)

From S2P Require Import Prelude Types World Machine.
#[local] Open Scope c_scope.

(** ** Filling a table *)

(** A builder is given a block of memory for its table and writes it field by field.
    The state of a builder is the table, which starts as whatever the block holds,
    and the rest of the program. The arrays of the initial table are as long as the
    block has room for; writing past them is a fault. *)
Section build.
Context {D T : Type}.

#[local] Abbreviation B := (M (T * world D)).

Definition io {A} (m : M (world D) A) : B A := fun s =>
  match m (snd s) with
  | Ret a w o => Ret a (fst s, w) o
  | OutOfFuel => OutOfFuel
  | Fault => Fault
  end.

Definition table : B T := gets fst.
Definition edit (f : T -> T) : B () := modify (fun s => (f (fst s), snd s)).

(** An update that may be out of bounds. *)
Definition edit_at (f : T -> option T) : B () :=
  let* t := table in
  let* t := need (f t) in
  edit (fun _ => t).

(** Runs a builder on a block that holds [t]. *)
Definition build (t : T) (m : B ()) : M (world D) T := fun w =>
  match m (t, w) with
  | Ret _ (t, w) o => Ret t w o
  | OutOfFuel => OutOfFuel
  | Fault => Fault
  end.

Lemma wp_io {A} (m : M (world D) A) t w (Q : A -> T * world D -> Prop) :
  wp m w (fun a w' => Q a (t, w')) -> wp (io m) (t, w) Q.
Proof. unfold wp, io. cbn. by destruct (m w). Qed.

Lemma wp_table t w (Q : T -> T * world D -> Prop) : Q t (t, w) -> wp table (t, w) Q.
Proof. exact id. Qed.

Lemma wp_edit f t w (Q : () -> T * world D -> Prop) : Q tt (f t, w) -> wp (edit f) (t, w) Q.
Proof. exact id. Qed.

Lemma wp_edit_at f t t' w (Q : () -> T * world D -> Prop) :
  f t = Some t' -> Q tt (t', w) -> wp (edit_at f) (t, w) Q.
Proof.
  intros Hf HQ. unfold edit_at, table, edit. wp_step. wp_step. cbn [fst]. rewrite Hf. by wp_steps.
Qed.

Lemma wp_build t m w (Q : T -> world D -> Prop) :
  wp m (t, w) (fun _ s => Q (fst s) (snd s)) -> wp (build t m) w Q.
Proof. unfold wp, build. by destruct (m (t, w)) as [[] []| |]. Qed.
End build.

(** Entry [k] of an array, updated. *)
Definition at_entry {X} (k : Z) (f : X -> X) (l : list X) : option (list X) :=
  match l !! Z.to_nat k with
  | Some x => Some (<[Z.to_nat k := f x]> l)
  | None => None
  end.

(** ** The system table, ACPI tables and libfdt *)

(** [gST_ConfigurationTable] lists the identifier and the address of each table of the
    firmware. *)
Class SystemTable (D : Type) := {
  gST_ConfigurationTable : list (Z * Z);
  gFdtTableGuid : Z;
  gEfiAcpiTableGuid : Z;
  gEfiAcpi20TableGuid : Z;
  CompareGuid : Z -> Z -> bool
}.

(** EDK2 declares the structures of the ACPI tables: [acpi_field "S.f" a] is field [f] of
    the structure [S] at address [a], [acpi_sizeof] the size of a structure, [acpi_const]
    a constant of the ACPI headers, and [acpi_load n a] the [n] bytes at [a]. *)
Class Acpi (D : Type) := {
  acpi_load : Z -> Z -> Z;
  acpi_field : string -> Z -> Z;
  acpi_sizeof : string -> Z;
  acpi_const : string -> Z
}.

(** [fdt_getprop] and its kin return the bytes of the property and its length (or an
    error) in [*lenp]; [fdt32_to_cpu] turns a big-endian cell into a number. *)
Class Fdt (D : Type) := {
  FDT_ERR_NOTFOUND : Z;
  FDT_ERR_BADNCELLS : Z;
  fdt_check_header : Z -> Z;
  fdt32_to_cpu : Z -> Z;
  fdt_node_offset_by_compatible : Z -> Z -> string -> Z;
  fdt_node_offset_by_prop_value : Z -> Z -> string -> string -> Z -> Z;
  fdt_node_offset_by_phandle : Z -> Z -> Z;
  fdt_next_node : Z -> Z -> Z;
  fdt_subnode_offset : Z -> Z -> string -> Z;
  fdt_next_subnode : Z -> Z -> Z;
  fdt_parent_offset : Z -> Z -> Z;
  fdt_size_cells : Z -> Z -> Z;
  fdt_address_cells : Z -> Z -> Z;
  fdt_getprop : Z -> Z -> string -> option (list Z) * Z;
  fdt_getprop_namelen : Z -> Z -> string -> Z -> option (list Z) * Z;
  fdt_get_property_namelen : Z -> Z -> string -> Z -> option (list Z) * Z
}.

(** The little-endian word number [k] of a property. Looking past its end is a fault. *)
Definition word_of (v : list Z) (k : Z) : option Z :=
  match take 4 (drop (Z.to_nat (4 * k)) v) with
  | [a; b; c; d] => Some (a + 2 ^ 8 * b + 2 ^ 16 * c + 2 ^ 24 * d)
  | _ => None
  end.

(** pal_dt_spec.h *)
Definition PPI_OFFSET : Z := 16.
Definition SPI_OFFSET : Z := 32.
Definition PROPERTY_MASK_PE_AFF3 : Z := 0xFF.
Definition PROPERTY_MASK_PE_AFF0_AFF2 : Z := 0xFFFFFF.
Definition INTERRUPT_IS_LEVEL_TRIGGERED : Z := 0x0.
Definition INTERRUPT_IS_EDGE_TRIGGERED : Z := 0x1.
Definition INTERRUPT_IS_ACTIVE_HIGH : Z := 0x0.
Definition INTERRUPT_IS_ACTIVE_LOW : Z := 0x1.
Definition IRQ_TYPE_NONE : Z := 0x00000000.
Definition IRQ_TYPE_EDGE_RISING : Z := 0x00000001.
Definition IRQ_TYPE_EDGE_FALLING : Z := 0x00000002.
Definition IRQ_TYPE_LEVEL_HIGH : Z := 0x00000004.
Definition IRQ_TYPE_LEVEL_LOW : Z := 0x00000008.
Definition GIC_SPI : Z := 0.
Definition GIC_PPI : Z := 1.

(** ** pal_acpi.c *)

Section acpi.
Context {D : Type} `{Platform D} `{SystemTable D} `{Acpi D}.

#[local] Abbreviation M := (M (world D)).

(** The address of the XSDT, 0 when the system table has no root pointer. *)
Definition pal_get_xsdt_ptr : Z :=
  let is_acpi t := CompareGuid (fst t) gEfiAcpiTableGuid || CompareGuid (fst t) gEfiAcpi20TableGuid in
  match List.find is_acpi gST_ConfigurationTable with
  | Some (_, Rsdp) =>
      if Rsdp =? 0 then 0
      else acpi_field "EFI_ACPI_6_1_ROOT_SYSTEM_DESCRIPTION_POINTER.XsdtAddress" Rsdp
  | None => 0
  end.

(** The first table the XSDT refers to that has this signature, 0 for none; a
    missing XSDT is reported at [level]. *)
Definition acpi_lookup (level : Z) (signature : string) : M Z :=
  let Xsdt := pal_get_xsdt_ptr in
  if Xsdt =? 0 then bsa_print level "XSDT not found 
" 0 ;; ret 0
  else
    let header := acpi_sizeof "EFI_ACPI_DESCRIPTION_HEADER" in
    let Entry64 := Xsdt + header in
    let Entry64Num := u32 (Z.shiftr (u64 (acpi_field "EFI_ACPI_DESCRIPTION_HEADER.Length" Xsdt - header)) 3) in
    let* r := for_ (Z.to_nat Entry64Num) 0 (fun Idx _ =>
      let entry := acpi_load 8 (Entry64 + 8 * Idx) in
      ret (if acpi_load 4 entry =? acpi_const signature then Break entry else Continue tt)) tt in
    ret (match r with Break entry => entry | Continue _ => 0 end).

Definition acpi_table : string -> M Z := acpi_lookup ACS_PRINT_DEBUG.

Definition pal_get_madt_ptr : M Z :=
  acpi_table "EFI_ACPI_6_1_MULTIPLE_APIC_DESCRIPTION_TABLE_SIGNATURE".
Definition pal_get_gtdt_ptr : M Z :=
  acpi_table "EFI_ACPI_6_1_GENERIC_TIMER_DESCRIPTION_TABLE_SIGNATURE".
Definition pal_get_mcfg_ptr : M Z :=
  acpi_table "EFI_ACPI_6_1_PCI_EXPRESS_MEMORY_MAPPED_CONFIGURATION_SPACE_BASE_ADDRESS_DESCRIPTION_TABLE_SIGNATURE".
Definition pal_get_spcr_ptr : M Z :=
  acpi_table "EFI_ACPI_2_0_SERIAL_PORT_CONSOLE_REDIRECTION_TABLE_SIGNATURE".
(** EDK2 releases name the signature differently. *)
Definition pal_get_iort_ptr : M Z := acpi_table "EFI_ACPI_6_1_IO_REMAPPING_TABLE_SIGNATURE".

(** *** Finding a table: reasoning *)

Definition xsdt_entries : list Z :=
  let header := acpi_sizeof "EFI_ACPI_DESCRIPTION_HEADER" in
  (fun i => acpi_load 8 (pal_get_xsdt_ptr + header + 8 * Z.of_nat i)) <$>
    seq 0 (Z.to_nat (u32 (Z.shiftr (u64 (acpi_field "EFI_ACPI_DESCRIPTION_HEADER.Length" pal_get_xsdt_ptr - header)) 3))).

(** The first table with a signature, 0 for none. *)
Definition acpi_found (signature : string) : Z :=
  if pal_get_xsdt_ptr =? 0 then 0
  else default 0 (List.find (fun e => acpi_load 4 e =? acpi_const signature) xsdt_entries).

Lemma eval_acpi_lookup level signature (w : world D) :
  eval (acpi_lookup level signature) w (acpi_found signature) w.
Proof.
  unfold acpi_lookup, acpi_found. destruct (pal_get_xsdt_ptr =? 0).
  - unfold eval. wp_step. apply wp_bsa_print. by wp_step.
  - eapply eval_bind.
    + apply (eval_for_find xsdt_entries (fun e => acpi_load 4 e =? acpi_const signature) id).
      * unfold xsdt_entries. by rewrite length_fmap, length_seq.
      * intros k e Hk _. unfold xsdt_entries in Hk. rewrite list_lookup_fmap in Hk.
        destruct (seq _ _ !! k) as [j|] eqn:Hj; [|done]. apply lookup_seq in Hj as [-> _].
        injection Hk as <-. apply eval_ret.
    + rewrite take_ge by (unfold xsdt_entries; rewrite length_fmap, length_seq; lia).
      destruct (List.find _ _); apply eval_ret.
Qed.

(** ** Walks over the structures of a table *)

(** The loops over the MADT: [do { visit; Length += Entry->Length; ... } while (Length <
    TableLength)]. *)
Definition madt_length (Entry : Z) : Z := acpi_field "EFI_ACPI_6_1_GIC_STRUCTURE.Length" Entry.
Definition madt_header : Z := acpi_sizeof "EFI_ACPI_6_1_MULTIPLE_APIC_DESCRIPTION_TABLE_HEADER".
Definition madt_table_length (gMadtHdr : Z) : Z := acpi_field "EFI_ACPI_DESCRIPTION_HEADER.Length" gMadtHdr.
Definition madt_walk {T A} (fuel : nat) (gMadtHdr : Z)
    (visit : Z -> A -> Prelude.M (T * world D) A) (a : A) : Prelude.M (T * world D) A :=
  while_ fuel (fun '(Entry, Length, a) =>
    let* a := visit Entry a in
    let Length := u32 (Length + madt_length Entry) in
    ret (if Length <? madt_table_length gMadtHdr then Continue (Entry + madt_length Entry, Length, a)
         else Break a)) (gMadtHdr + madt_header, madt_header, a).

(** The loops over the platform timer structures of the GTDT; [len] is the length of a
    structure. *)
Definition gtdt_field (f : string) : Z -> Z :=
  acpi_field ("EFI_ACPI_6_1_GENERIC_TIMER_DESCRIPTION_TABLE." ++ f)%string.
Definition gtdt_walk {T A} (len : Z -> Z) (gGtdtHdr : Z)
    (visit : Z -> A -> Prelude.M (T * world D) A) (a : A) : Prelude.M (T * world D) () :=
  for_acc (Z.to_nat (gtdt_field "PlatformTimerCount" gGtdtHdr)) 0 (fun _ '(Entry, a) =>
    let* a := visit Entry a in
    ret (Entry + len Entry, a)) (gGtdtHdr + gtdt_field "PlatformTimerOffset" gGtdtHdr, a) ;;
  ret tt.

(** *** Reasoning *)

(** The structures [l] from address [a] on, at offset [n] of a table of length [T], are
    those that are visited: the last one ends at the end of the table or after it. *)
Fixpoint madt_covers (T a n : Z) (l : list Z) : Prop :=
  match l with
  | [] => False
  | x :: l => x = a /\ 0 <= n + madt_length x < 2 ^ 32 /\
      if n + madt_length x <? T then madt_covers T (a + madt_length x) (n + madt_length x) l else l = []
  end.

Definition madt_structures (gMadtHdr : Z) (l : list Z) : Prop :=
  madt_covers (madt_table_length gMadtHdr) (gMadtHdr + madt_header) madt_header l.

Lemma wp_madt_walk {T A} (l : list Z) (I : nat -> A -> T * world D -> Prop) fuel gMadtHdr
    (visit : Z -> A -> Prelude.M (T * world D) A) a s Q :
  madt_structures gMadtHdr l -> (length l <= fuel)%nat -> I 0%nat a s ->
  (forall i x a s, l !! i = Some x -> I i a s -> wp (visit x a) s (I (S i))) ->
  (forall a s, I (length l) a s -> Q a s) ->
  wp (madt_walk fuel gMadtHdr visit a) s Q.
Proof.
  unfold madt_structures, madt_walk. generalize (gMadtHdr + madt_header) as Entry. generalize madt_header as n.
  intros n Entry. revert Entry n; revert a s I fuel. induction l as [|x l IH]; intros a s I fuel Entry n Hc Hf HI Hv HQ; [done|].
  cbn [madt_covers length] in *. destruct Hc as (-> & Hn & Hc), fuel as [|fuel]; [lia|]. cbn [while_].
  wp_step. wp_step. eapply wp_mono; [by apply (Hv 0%nat)|]. intros a1 s1 HI1. wp_step.
  rewrite u32_id by done. destruct (_ <? _).
  - apply (IH a1 s1 (fun i => I (S i)) fuel _ _ Hc); [lia|done| |done].
    intros i y b t Hy. by apply (Hv (S i)).
  - subst l. wp_step. by apply HQ.
Qed.

(** Structures before the end of the table, and where the next one is. *)
Fixpoint madt_prefix (T a n : Z) (l : list Z) (next : Z) : Prop :=
  0 <= n < 2 ^ 32 /\ n < T /\
  match l with
  | [] => next = a
  | x :: l => x = a /\ madt_prefix T (a + madt_length x) (n + madt_length x) l next
  end.

(** A structure of length 0 is visited for ever. *)
Lemma madt_walk_diverges {T A} (l : list Z) (I : nat -> A -> T * world D -> Prop) next fuel gMadtHdr
    (visit : Z -> A -> Prelude.M (T * world D) A) a s :
  madt_prefix (madt_table_length gMadtHdr) (gMadtHdr + madt_header) madt_header l next ->
  madt_length next = 0 -> I 0%nat a s ->
  (forall i x a s, l !! i = Some x -> I i a s -> wp (visit x a) s (I (S i))) ->
  (forall a s, I (length l) a s -> wp (visit next a) s (I (length l))) ->
  diverges (madt_walk fuel gMadtHdr visit a) s.
Proof.
  unfold madt_walk. generalize (gMadtHdr + madt_header) as Entry. generalize madt_header as n.
  intros n Entry. revert Entry n; revert a s I fuel. induction l as [|x l IH]; intros a s I fuel Entry n Hp Hz HI Hv Hn;
    cbn [madt_prefix length] in *.
  - destruct Hp as (Hr & Hlt & ->).
    apply (while_diverges (fun x s => exists b, x = (Entry, n, b) /\ I 0%nat b s)); [by exists a|].
    intros y t (b & -> & Hb). wp_step. eapply wp_mono; [by apply Hn|]. intros b1 t1 Hb1. wp_step.
    rewrite Hz, !Z.add_0_r, u32_id, (proj2 (Z.ltb_lt _ _) Hlt) by done.
    eexists. split; [done|]. by exists b1.
  - destruct Hp as (Hr & Hlt & -> & Hp), fuel as [|fuel]; [done|]. cbn [while_].
    eapply diverges_bind_wp with (P := fun r s' => exists b,
      r = Continue (Entry + madt_length Entry, n + madt_length Entry, b) /\ I 1%nat b s').
    + wp_step. eapply wp_mono; [by apply (Hv 0%nat)|]. intros b t Hb. wp_step.
      assert (Hp' : 0 <= n + madt_length Entry < 2 ^ 32 /\ n + madt_length Entry < madt_table_length gMadtHdr)
        by (destruct l; cbn [madt_prefix] in Hp; tauto).
      rewrite u32_id, (proj2 (Z.ltb_lt _ _)) by apply Hp'. by exists b.
    + intros r t (b & -> & Hb). apply (IH b t (fun i => I (S i)) fuel _ _ Hp Hz Hb); [|done].
      intros i y c u Hy. by apply (Hv (S i)).
Qed.

(** The structures that are one after the other from an address. *)
Fixpoint gtdt_chain (len : Z -> Z) (a : Z) (l : list Z) : Prop :=
  match l with
  | [] => True
  | x :: l => x = a /\ gtdt_chain len (a + len x) l
  end.

Definition gtdt_structures (len : Z -> Z) (gGtdtHdr : Z) (l : list Z) : Prop :=
  gtdt_chain len (gGtdtHdr + gtdt_field "PlatformTimerOffset" gGtdtHdr) l /\
  gtdt_field "PlatformTimerCount" gGtdtHdr = Z.of_nat (length l).

Lemma wp_gtdt_walk {T A} (l : list Z) (I : nat -> A -> T * world D -> Prop) len gGtdtHdr
    (visit : Z -> A -> Prelude.M (T * world D) A) a s Q :
  gtdt_structures len gGtdtHdr l -> I 0%nat a s ->
  (forall i x a s, l !! i = Some x -> I i a s -> wp (visit x a) s (I (S i))) ->
  (forall a s, I (length l) a s -> Q tt s) ->
  wp (gtdt_walk len gGtdtHdr visit a) s Q.
Proof.
  intros [Hc Hn] HI Hv HQ. unfold gtdt_walk. rewrite Hn, Nat2Z.id.
  set (first := gGtdtHdr + _) in *. apply wp_bind.
  apply (wp_for_acc (fun i x s => I (Z.to_nat i) (snd x) s /\ gtdt_chain len (fst x) (drop (Z.to_nat i) l))).
  - by rewrite drop_0.
  - intros i [Entry b] t Hi [Hb Hd]. cbn [fst snd] in *.
    destruct (lookup_lt_is_Some_2 l (Z.to_nat i)) as [x Hx]; [lia|].
    rewrite (drop_S _ _ _ Hx) in Hd. destruct Hd as [-> Hd]. wp_step. eapply wp_mono; [by apply (Hv (Z.to_nat i))|].
    intros b1 t1 Hb1. wp_step. cbn [fst snd]. by replace (Z.to_nat (i + 1)) with (S (Z.to_nat i)) by lia.
  - intros [Entry b] t [Hb _]. rewrite Z.add_0_l, Nat2Z.id in Hb. wp_step. by eapply HQ.
Qed.
Lemma eval_io {T A} (m : Prelude.M (world D) A) (t : T) (w w' : world D) a :
  eval m w a w' -> eval (io m) (t, w) a (t, w').
Proof. intros Hm. apply wp_io. eapply wp_mono; [exact Hm|]. by intros b u [-> ->]. Qed.

Lemma diverges_build {T} (t : T) (m : Prelude.M (T * world D) ()) (w : world D) :
  diverges m (t, w) -> diverges (build t m) w.
Proof. unfold diverges, build. by intros ->. Qed.

End acpi.

Section fdt.
Context {D : Type} `{Platform D} `{SystemTable D} `{Fdt D}.

#[local] Abbreviation M := (M (world D)).

(** ** pal_dt.c *)

(** The first table of the system table that is a device tree. *)
Definition dtb_of_system_table : option Z :=
  snd <$> List.find (fun t => CompareGuid gFdtTableGuid (fst t)) gST_ConfigurationTable.

Definition pal_get_dt_ptr : M Z :=
  let DTB := default 0 dtb_of_system_table in
  match dtb_of_system_table with
  | Some DTB => bsa_print ACS_PRINT_DEBUG " Platform DTB PTR %x \n" DTB
  | None => ret tt
  end ;;
  if DTB =? 0 then
    bsa_print ACS_PRINT_ERR " DTB not present in platform \n" 0 ;; ret 0
  else if truthy (fdt_check_header DTB) then
    bsa_print ACS_PRINT_ERR "fdt hdr check failed \n" 0 ;; ret 0
  else ret DTB.

(** The value of cell [k] of a property. *)
Definition cell (v : list Z) (k : Z) : option Z := fdt32_to_cpu <$> word_of v k.

(** The number of a timer frame; 2 when the node does not say. *)
Definition fdt_frame_number (fdt nodeoffset : Z) : option Z :=
  let '(ic, len) := fdt_getprop fdt nodeoffset "frame-number" in
  match ic with
  | None => Some 2
  | Some ic =>
      if negb (len =? 4) then Some (- FDT_ERR_BADNCELLS)
      else v ← cell ic 0;
           Some (if s32 v <? 0 then - FDT_ERR_BADNCELLS else s32 v)
  end.

(** The number of cells of an interrupt specifier: that of the node or of the nearest
    interrupt parent that says, 3 by default. *)
Definition fdt_interrupt_cells (fuel : nat) (fdt nodeoffset : Z) : M Z :=
  let* r := while_ fuel (fun nodeoffset =>
    match fst (fdt_getprop fdt nodeoffset "#interrupt-cells") with
    | Some ic => ret (Break (Some (nodeoffset, ic)))
    | None =>
        let* nodeoffset :=
          match fst (fdt_getprop fdt nodeoffset "interrupt-parent") with
          | Some ic => let* p := need (cell ic 0) in ret (fdt_node_offset_by_phandle fdt p)
          | None => ret (fdt_parent_offset fdt nodeoffset)
          end in
        ret (if 0 <=? nodeoffset then Continue nodeoffset else Break None)
    end) nodeoffset in
  match r with
  | Some (nodeoffset, ic) =>
      if nodeoffset <? 0 then
        bsa_print ACS_PRINT_DEBUG "No interrupt cell found \n" 0 ;; ret 3
      else let* v := need (cell ic 0) in ret (s32 v)
  | None => bsa_print ACS_PRINT_DEBUG "No interrupt cell found \n" 0 ;; ret 3
  end.

(** The first node after [startoffset] that has a property, or the error that ends the
    search. *)
Definition fdt_node_offset_by_prop_name (fuel : nat) (fdt startoffset : Z) (propname : string)
    (proplen : Z) : M Z :=
  while_ fuel (fun offset =>
    ret (if offset <? 0 then Break offset
         else match fst (fdt_getprop_namelen fdt offset propname proplen) with
              | Some _ => Break offset
              | None => Continue (fdt_next_node fdt offset)
              end)) (fdt_next_node fdt startoffset).

(** [while (offset != -FDT_ERR_NOTFOUND)]: the body sees the node and what the loop
    carries; [Break] is a [return] from the function. *)
Definition while_node {T A} (fuel : nat)
    (body : Z -> A -> Prelude.M (T * world D) (ctl (Z * A) ())) (offset : Z) (a : A)
  : Prelude.M (T * world D) (ctl A ()) :=
  while_ fuel (fun '(offset, a) =>
    if offset =? - FDT_ERR_NOTFOUND then ret (Break (Continue a))
    else let* r := body offset a in
         ret (match r with Continue x => Continue x | Break v => Break (Break v) end)) (offset, a).

(** A property that must be there: NULL or a negative length ends the caller. *)
Definition prop_value (p : option (list Z) * Z) : option (list Z) :=
  if snd p <? 0 then None else fst p.

(** The "interrupts" property of a node and the size of its specifiers; [None] after a
    message when either is unusable. *)
Definition node_interrupts (fuel : nat) (dt_ptr offset : Z) : M (option (list Z * Z * Z)) :=
  let '(p, prop_len) := fdt_getprop_namelen dt_ptr offset "interrupts" 10 in
  match prop_value (p, prop_len) with
  | None =>
      bsa_print ACS_PRINT_ERR " PROPERTY interrupts offset %x, Error %d\n" prop_len ;;
      ret None
  | Some Pintr =>
      let* interrupt_cell := fdt_interrupt_cells fuel dt_ptr offset in
      bsa_print ACS_PRINT_DEBUG " interrupt_cell  %d\n" interrupt_cell ;;
      if (interrupt_cell <? 1) || (interrupt_cell >? 3) then
        bsa_print ACS_PRINT_ERR " Invalid interrupt cell : %d \n" interrupt_cell ;;
        ret None
      else ret (Some (Pintr, prop_len, interrupt_cell))
  end.

(** [x = fdt32_to_cpu(P[k]); x = (x << 32) | fdt32_to_cpu(P[k + 1]);] when there are two
    cells, [x = fdt32_to_cpu(P[k]);] otherwise. *)
Definition cells_value (n : Z) (v : list Z) (k : Z) : option Z :=
  if n =? 2 then
    hi ← cell v k; lo ← cell v (k + 1);
    Some (Z.lor (u64 (Z.shiftl hi 32)) lo)
  else cell v k.

(** The index after the cells of such a value. *)
Definition cells_next (n k : Z) : Z := if n =? 2 then k + 2 else k + 1.

(** ** Searching the nodes of a list of compatible strings *)

(** What such a search prints on its way. *)
Record dt_messages := mkDtMessages {
  m_not_found : string; m_node : string;
  m_size_cell : string; m_bad_size : string; m_addr_cell : string; m_bad_addr : string }.

(** For each string, [node] is run on every node compatible with it. The sizes of the
    cells are those of the parent of the first one. [show] is the number printed when there
    is none. *)
Definition compatible_nodes {T A} (fuel : nat) (msg : dt_messages) (show : Z -> Z -> Z) (dt_ptr : Z)
    (arr : list string) (node : Z -> Z -> string -> Z -> A -> Prelude.M (T * world D) (ctl (Z * A) ())) (a : A)
  : Prelude.M (T * world D) (ctl A ()) :=
  for_ (length arr) 0 (fun i a =>
    let* compatible := need (arr !! Z.to_nat i) in
    let offset := fdt_node_offset_by_compatible dt_ptr (-1) compatible in
    if offset <? 0 then
      io (bsa_print ACS_PRINT_DEBUG (m_not_found msg) (show i offset)) ;;
      ret (Continue a)
    else
      let parent_offset := fdt_parent_offset dt_ptr offset in
      io (bsa_print ACS_PRINT_DEBUG (m_node msg) offset) ;;
      let size_cell := fdt_size_cells dt_ptr parent_offset in
      io (bsa_print ACS_PRINT_DEBUG (m_size_cell msg) size_cell) ;;
      if size_cell <? 0 then
        io (bsa_print ACS_PRINT_ERR (m_bad_size msg) size_cell) ;; ret (Break tt)
      else
      let addr_cell := fdt_address_cells dt_ptr parent_offset in
      io (bsa_print ACS_PRINT_DEBUG (m_addr_cell msg) addr_cell) ;;
      if (addr_cell <? 1) || (addr_cell >? 2) then
        io (bsa_print ACS_PRINT_ERR (m_bad_addr msg) addr_cell) ;; ret (Break tt)
      else while_node fuel (node addr_cell size_cell compatible) offset a) a.

(** ** Reasoning about builders *)

Lemma eval_get_dt_ptr p (w : world D) :
  dtb_of_system_table = Some p -> p <> 0 -> fdt_check_header p = 0 -> eval pal_get_dt_ptr w p w.
Proof.
  intros Hp Hnz Hc. unfold eval, pal_get_dt_ptr. rewrite Hp. cbn [default from_option id].
  wp_step. cbn iota. apply wp_bsa_print. rewrite (proj2 (Z.eqb_neq _ _) Hnz), Hc.
  change (truthy 0) with false. cbn iota. by wp_step.
Qed.

(** A node with an interrupt property and a known size of specifiers. *)
Definition has_interrupts (fuel : nat) (dt_ptr offset : Z) (v : list Z) (len c : Z) : Prop :=
  fdt_getprop_namelen dt_ptr offset "interrupts" 10 = (Some v, len) /\ 0 <= len /\
  (forall w : world D, eval (fdt_interrupt_cells fuel dt_ptr offset) w c w) /\ 1 <= c <= 3.

Lemma eval_node_interrupts fuel dt_ptr offset v len c (w : world D) :
  has_interrupts fuel dt_ptr offset v len c ->
  eval (node_interrupts fuel dt_ptr offset) w (Some (v, len, c)) w.
Proof.
  intros (Hp & Hl & Hc & Hr). unfold eval, node_interrupts, prop_value. rewrite Hp. cbn [fst snd].
  rewrite (proj2 (Z.ltb_ge _ _) Hl). cbn iota. wp_step. eapply wp_eval; [apply Hc|].
  wp_step. apply wp_bsa_print.
  rewrite (proj2 (Z.ltb_ge c 1)), Z.gtb_ltb, (proj2 (Z.ltb_ge 3 c)) by lia.
  cbn [orb]. by wp_step.
Qed.

(** A search that starts at [first] visits the nodes [l] in turn. *)
Fixpoint visits (next : Z -> Z) (first : Z) (l : list Z) : Prop :=
  match l with
  | [] => first = - FDT_ERR_NOTFOUND
  | x :: l => first = x /\ x <> - FDT_ERR_NOTFOUND /\ visits next (next x) l
  end.

(** The same for the nodes after [from]. *)
Definition walks (next : Z -> Z) (from : Z) (l : list Z) : Prop := visits next (next from) l.

(** The rule of a loop over the nodes that a search visits; [I] sees how many are done. *)
Lemma wp_while_node {T A} (next : Z -> Z) (l : list Z) (I : nat -> A -> T * world D -> Prop) fuel
    (body : Z -> A -> Prelude.M (T * world D) (ctl (Z * A) ())) first a s Q :
  visits next first l -> (length l < fuel)%nat -> I 0%nat a s ->
  (forall i x a s, l !! i = Some x -> I i a s ->
     wp (body x a) s (fun r s' => exists a', r = Continue (next x, a') /\ I (S i) a' s')) ->
  (forall a s, I (length l) a s -> Q (Continue a) s) ->
  wp (while_node fuel body first a) s Q.
Proof.
  unfold while_node. revert first a s I fuel.
  induction l as [|x l IH]; intros first a s I fuel Hw Hf HI Hb HQ; cbn [visits length] in *;
    (destruct fuel as [|fuel]; [lia|]); cbn [while_].
  - rewrite Hw, Z.eqb_refl. wp_step. wp_step. wp_step. by apply HQ.
  - destruct Hw as (-> & Hx & Hw). rewrite (proj2 (Z.eqb_neq _ _) Hx).
    wp_step. wp_step. eapply wp_mono; [by apply (Hb 0%nat)|].
    intros r s' (a' & -> & HI'). wp_step.
    apply (IH (next x) a' s' (fun i => I (S i)) fuel Hw); [lia|done| |done].
    intros i y b t Hy. by apply (Hb (S i)).
Qed.

Lemma visits_first next first x l : visits next first (x :: l) -> first = x /\ first <> - FDT_ERR_NOTFOUND.
Proof. by intros (-> & H2 & _). Qed.
End fdt.

(** An array whose first entries are made from [vs], entry by entry, and whose others are
    left as they were. *)
Fixpoint filled {V X} (f : Z -> V -> X -> X) (k : Z) (vs : list V) (l : list X) : list X :=
  match vs, l with
  | v :: vs, x :: l => f k v x :: filled f (k + 1) vs l
  | _, _ => l
  end.

Lemma length_filled {V X} (f : Z -> V -> X -> X) k vs l : length (filled f k vs l) = length l.
Proof. revert k l. induction vs as [|v vs IH]; intros k [|x l]; cbn; auto. Qed.

Lemma filled_lookup {V X} (f : Z -> V -> X -> X) k vs l i v x :
  vs !! i = Some v -> l !! i = Some x -> filled f k vs l !! i = Some (f (k + Z.of_nat i) v x).
Proof.
  revert k l i. induction vs as [|u vs IH]; intros k [|y l] [|i]; try done; cbn.
  - intros [= ->] [= ->]. by rewrite Z.add_0_r.
  - intros Hv Hx. rewrite (IH _ _ _ Hv Hx). do 2 f_equal. lia.
Qed.

Lemma filled_beyond {V X} (f : Z -> V -> X -> X) k vs l i :
  (length vs <= i)%nat -> filled f k vs l !! i = l !! i.
Proof.
  revert k l i. induction vs as [|u vs IH]; intros k [|y l] [|i] Hi; cbn in *; try lia; try done.
  apply IH. lia.
Qed.

(** Writing the next entry. *)
Lemma at_entry_filled {V X} (f : Z -> V -> X -> X) g vs v l k :
  k = Z.of_nat (length vs) -> (length vs < length l)%nat -> (forall x, g x = f k v x) ->
  at_entry k g (filled f 0 vs l) = Some (filled f 0 (vs ++ [v]) l).
Proof.
  intros -> Hl Hg. unfold at_entry. rewrite Nat2Z.id.
  destruct (lookup_lt_is_Some_2 l (length vs) Hl) as [x Hx].
  rewrite filled_beyond, Hx by done. f_equal. apply list_eq. intros i.
  destruct (decide (i = length vs)) as [->|Hne].
  - rewrite list_lookup_insert_eq by (by rewrite length_filled).
    rewrite (filled_lookup f 0 _ l (length vs) v x); [by rewrite Hg| |done].
    by rewrite lookup_app_r, Nat.sub_diag.
  - rewrite list_lookup_insert_ne by done.
    destruct (decide (i < length vs)%nat) as [Hi|Hi].
    + destruct (lookup_lt_is_Some_2 vs i Hi) as [u Hu].
      destruct (lookup_lt_is_Some_2 l i) as [y Hy]; [lia|].
      rewrite (filled_lookup f 0 vs l i u y) by done.
      symmetry. apply filled_lookup; [|done]. by rewrite lookup_app_l.
    + rewrite !filled_beyond; [done| |lia]. rewrite length_app. cbn. lia.
Qed.

(** The two updates of an entry are one. *)
Lemma at_entry_twice {X} k (f g : X -> X) l l1 :
  at_entry k f l = Some l1 -> at_entry k g l1 = at_entry k (fun x => g (f x)) l.
Proof.
  unfold at_entry. destruct (l !! Z.to_nat k) as [x|] eqn:Hx; [|done]. intros [= <-].
  rewrite list_lookup_insert_eq by (by eapply lookup_lt_Some). by rewrite list_insert_insert_eq.
Qed.

(** An entry of the array can be updated. *)
Lemma at_entry_in {X} k (f : X -> X) l : (Z.to_nat k < length l)%nat -> exists l', at_entry k f l = Some l'.
Proof. intros Hk. unfold at_entry. destruct (lookup_lt_is_Some_2 l _ Hk) as [x ->]. by eexists. Qed.

(** Filling again what has been filled: both writes, entry by entry. *)
Lemma filled_filled {V W X} (f : Z -> V -> X -> X) (g : Z -> W -> X -> X) k vs ws l :
  length vs = length ws ->
  filled g k ws (filled f k vs l) =
  filled (fun k vw x => g k (snd vw) (f k (fst vw) x)) k (zip vs ws) l.
Proof.
  revert k ws l. induction vs as [|v vs IH]; intros k [|w ws] [|x l]; cbn; try done.
  intros [= Hl]. by rewrite IH.
Qed.

(** Symbolic execution of a builder. *)
Ltac dt_step :=
  cbv beta;
  lazymatch goal with
  | |- wp (io _) (_, _) _ => apply wp_io
  | |- wp table (_, _) _ => apply wp_table
  | |- wp (edit _) (_, _) _ => apply wp_edit
  | |- wp (for_each 0 _ _) _ _ => apply wp_ret
  | |- _ => io_step
  end.
Ltac dt_steps := cbn beta iota; repeat (dt_step; cbn beta iota).

(** ** Searches over compatible strings *)

Section fdt_nodes.
Context {D : Type} `{Platform D} `{Fdt D}.

(** The nodes such a search visits, each with its string. *)
Definition next_compatible (dt_ptr : Z) (c : string) (offset : Z) : Z :=
  fdt_node_offset_by_compatible dt_ptr offset c.

Definition compatible_group (dt_ptr : Z) (c : string) (l : list Z) : Prop :=
  walks (next_compatible dt_ptr c) (-1) l /\ (next_compatible dt_ptr c (-1) < 0 <-> l = []).

Definition found_nodes (arr : list string) (groups : list (list Z)) : list (string * Z) :=
  concat (zip_with (fun c l => pair c <$> l) arr groups).

(** The first node of each group has cells of these sizes. *)
Definition group_cells (dt_ptr addr_cell size_cell : Z) (l : list Z) : Prop :=
  forall x, head l = Some x -> let parent := fdt_parent_offset dt_ptr x in
    fdt_size_cells dt_ptr parent = size_cell /\ fdt_address_cells dt_ptr parent = addr_cell.

(** The nodes of the first [k] groups, the [k]-th group and the others. *)
Lemma found_nodes_split arr groups k c l :
  arr !! k = Some c -> groups !! k = Some l ->
  found_nodes arr groups = found_nodes (take k arr) (take k groups) ++ (pair c <$> l) ++
                           found_nodes (drop (S k) arr) (drop (S k) groups) /\
  found_nodes (take (S k) arr) (take (S k) groups) = found_nodes (take k arr) (take k groups) ++ (pair c <$> l).
Proof.
  intros Hc Hl. unfold found_nodes. rewrite <- !zip_with_take, <- zip_with_drop.
  assert (Hk : zip_with (fun c l => pair c <$> l) arr groups !! k = Some (pair c <$> l)).
  { apply lookup_zip_with_Some. eauto. }
  split.
  - rewrite <- (take_drop_middle _ _ _ Hk) at 1. by rewrite concat_app.
  - rewrite (take_S_r _ _ _ Hk), concat_app. cbn [concat]. by rewrite app_nil_r.
Qed.

Lemma wp_compatible_nodes {T A} (I : nat -> A -> T * world D -> Prop) fuel msg show dt_ptr arr groups node
    addr_cell size_cell a s Q :
  Forall2 (compatible_group dt_ptr) arr groups -> Forall (group_cells dt_ptr addr_cell size_cell) groups ->
  Forall (fun l => (length l < fuel)%nat) groups -> 0 <= size_cell -> 1 <= addr_cell <= 2 ->
  I 0%nat a s ->
  (forall i c x a s, found_nodes arr groups !! i = Some (c, x) -> I i a s ->
     wp (node addr_cell size_cell c x a) s (fun r s' =>
       exists a', r = Continue (next_compatible dt_ptr c x, a') /\ I (S i) a' s')) ->
  (forall a s, I (length (found_nodes arr groups)) a s -> Q (Continue a) s) ->
  wp (compatible_nodes fuel msg show dt_ptr arr node a) s Q.
Proof.
  intros Hg Hc Hf Hs Ha HI Hstep HQ. unfold compatible_nodes.
  apply (wp_for (fun i => I (length (found_nodes (take (Z.to_nat i) arr) (take (Z.to_nat i) groups))))); [done| |].
  2:{ intros b t. rewrite Z.add_0_l, Nat2Z.id, firstn_all, (Forall2_length _ _ _ Hg), firstn_all. apply HQ. }
  intros i b [t w] Hi HIi. set (k := Z.to_nat i) in *.
  destruct (lookup_lt_is_Some_2 arr k) as [c Hk]; [lia|].
  destruct (Forall2_lookup_l _ _ _ _ _ Hg Hk) as (l & Hl & Hw & Hn).
  destruct (found_nodes_split arr groups k c l Hk Hl) as [Hall Hnext].
  replace (Z.to_nat (i + 1)) with (S k) by (subst k; lia). rewrite Hnext, length_app, length_fmap.
  rewrite Hk. dt_step. dt_step. fold (next_compatible dt_ptr c (-1)). destruct l as [|x l].
  - rewrite (proj2 (Z.ltb_lt _ _) (proj2 Hn eq_refl)). dt_steps.
    cbn [length]. by rewrite Nat.add_0_r.
  - destruct (Z.ltb_spec (next_compatible dt_ptr c (-1)) 0) as [Hlt|Hge]; [by discriminate (proj1 Hn Hlt)|].
    destruct (visits_first _ _ _ _ Hw) as [Hx _]. rewrite Hx.
    destruct (Forall_lookup_1 _ _ _ _ Hc Hl x eq_refl) as [-> ->].
    dt_steps. rewrite (proj2 (Z.ltb_ge size_cell 0) Hs). dt_steps.
    rewrite (proj2 (Z.ltb_ge addr_cell 1)), Z.gtb_ltb, (proj2 (Z.ltb_ge 2 addr_cell)) by lia. cbn [orb]. dt_steps.
    unfold walks in Hw. rewrite Hx in Hw.
    apply (wp_while_node (next_compatible dt_ptr c) (x :: l)
      (fun j => I (length (found_nodes (take k arr) (take k groups)) + j)%nat)); [done| | | |done].
    + apply (Forall_lookup_1 _ _ _ _ Hf Hl).
    + by rewrite Nat.add_0_r.
    + intros j y b' t' Hy HIj. rewrite <- plus_n_Sm. apply Hstep; [|done].
      rewrite Hall, lookup_app_r, Nat.add_comm, Nat.add_sub by lia.
      rewrite lookup_app_l by (rewrite length_fmap; by eapply lookup_lt_Some). by rewrite list_lookup_fmap, Hy.
Qed.
End fdt_nodes.

(** ** A concrete device tree

    An executable instance of libfdt on a tree given as the list of its nodes, in the
    order of their offsets, on which the theorems are applied to concrete inputs. *)

Record dt_node := mkDtNode {
  n_offset : Z; n_parent : Z; n_name : string; n_props : list (string * list Z) }.

Definition byte_of (x i : Z) : Z := Z.land (Z.shiftr x (8 * i)) 0xFF.

(** A cell as it is stored, and the swap that reads it on a little-endian machine. *)
Definition be32 (x : Z) : list Z := byte_of x <$> [3; 2; 1; 0].
Definition bswap32 (x : Z) : Z :=
  foldr Z.lor 0 ((fun i => Z.shiftl (byte_of x i) (8 * (3 - i))) <$> [0; 1; 2; 3]).
Definition cells (xs : list Z) : list Z := concat (be32 <$> xs).

Fixpoint bytes_of (s : string) : list Z :=
  match s with
  | EmptyString => [0]
  | String c s => Z.of_nat (Ascii.nat_of_ascii c) :: bytes_of s
  end.

(** The strings of a property that is a list of strings. *)
Fixpoint strings_of (v acc : list Z) : list (list Z) :=
  match v with
  | [] => []
  | 0 :: v => (acc ++ [0]) :: strings_of v []
  | c :: v => strings_of v (acc ++ [c])
  end.

Definition prop_of (n : dt_node) (name : string) : option (list Z) :=
  snd <$> List.find (fun p => String.eqb (fst p) name) (n_props n).

Definition node_at (tree : list dt_node) (offset : Z) : option dt_node :=
  List.find (fun n => n_offset n =? offset) tree.

(** The first node after [offset] that satisfies [p]. *)
Definition node_after (tree : list dt_node) (p : dt_node -> bool) (offset : Z) : Z :=
  match List.find (fun n => (offset <? n_offset n) && p n) tree with
  | Some n => n_offset n
  | None => -1
  end.

Definition tree_prop (tree : list dt_node) (offset : Z) (name : string) : option (list Z) * Z :=
  match n ← node_at tree offset; prop_of n name with
  | Some v => (Some v, Z.of_nat (length v))
  | None => (None, -1)
  end.

Definition tree_cells (tree : list dt_node) (name : string) (dflt offset : Z) : Z :=
  match n ← node_at tree offset; v ← prop_of n name; word_of v 0 with
  | Some x => bswap32 x
  | None => dflt
  end.

Definition has_string (name : string) (v : list Z) (n : dt_node) : bool :=
  match prop_of n name with
  | Some l => existsb (fun s => bool_decide (s = v)) (strings_of l [])
  | None => false
  end.

Definition tree_fdt (tree : list dt_node) : Fdt machine := {|
  FDT_ERR_NOTFOUND := 1;
  FDT_ERR_BADNCELLS := 14;
  fdt_check_header _ := 0;
  fdt32_to_cpu := bswap32;
  fdt_node_offset_by_compatible _ start s := node_after tree (has_string "compatible" (bytes_of s)) start;
  fdt_node_offset_by_prop_value _ start name v _ := node_after tree (has_string name (bytes_of v)) start;
  fdt_node_offset_by_phandle _ p :=
    node_after tree (fun n => bool_decide (prop_of n "phandle" = Some (be32 p))) (-1);
  fdt_next_node _ start := node_after tree (fun _ => true) start;
  fdt_subnode_offset _ offset name :=
    node_after tree (fun n => (n_parent n =? offset) && String.eqb (n_name n) name) offset;
  fdt_next_subnode _ offset :=
    match node_at tree offset with
    | Some m => node_after tree (fun n => n_parent n =? n_parent m) offset
    | None => -1
    end;
  fdt_parent_offset _ offset := match node_at tree offset with Some n => n_parent n | None => -1 end;
  fdt_size_cells _ := tree_cells tree "#size-cells" 1;
  fdt_address_cells _ := tree_cells tree "#address-cells" 2;
  fdt_getprop _ := tree_prop tree;
  fdt_getprop_namelen _ offset name _ := tree_prop tree offset name;
  fdt_get_property_namelen _ offset name _ := tree_prop tree offset name
|}.

(** The firmware hands over a device tree and no ACPI tables. *)
#[export] Instance machine_tables : SystemTable machine := {
  gST_ConfigurationTable := [(7, 0x5000); (1, 0x48000000)];
  gFdtTableGuid := 1;
  gEfiAcpiTableGuid := 2;
  gEfiAcpi20TableGuid := 3;
  CompareGuid := Z.eqb
}.

#[export] Instance machine_acpi : Acpi machine := {
  acpi_load _ _ := 0; acpi_field _ _ := 0; acpi_sizeof _ := 0; acpi_const _ := 0 }.

(** The closed hypotheses of a theorem about a concrete tree, by computation. *)
Ltac on_tree := lazymatch goal with
  | |- _ = _ => vm_compute; reflexivity
  | |- _ <> _ => vm_compute; congruence
  | |- (_ < _)%nat => cbn; lia
  | |- (_ <= _)%nat => cbn; lia
  | |- _ < _ => vm_compute; reflexivity
  | |- _ <= _ <= _ => vm_compute; split; congruence
  | |- _ <= _ => vm_compute; congruence
  | |- visits _ _ _ => vm_compute; repeat split; congruence
  | |- walks _ _ _ => vm_compute; repeat split; congruence
  end.
