(* ===== verification/PalPcie.v ===== *)
(** * The platform layer: PCIe

    The ECAM regions from the ACPI MCFG or from the device tree, configuration accesses
    through the UEFI PciIo protocol, and the answers the platform layer gives for every
    function (src/platform/pal_uefi_dt/src/pal_pcie.c); the search for a PCI controller
    by class code (pal_pcie_enumeration.c). *)

From S2P Require Import Prelude Types World Machine Pcie Fdt.
#[local] Open Scope c_scope.

Definition pci_dt_arr : list string := ["pci-host-ecam-generic"].

Definition PLATFORM_OVERRIDE_PCIE_ECAM_BASE : Z := 0x0.
Definition PLATFORM_OVERRIDE_PCIE_START_BUS_NUM : Z := 0x0.

Definition PCI_MAX_BUS : Z := 255.
Definition PCI_MAX_DEVICE : Z := 31.

(** Every handle with the protocol ([None] is an error), the protocol of a handle, where
    its function is (segment, bus, device, function), and [n] words read from, or a word
    written to, an offset of its configuration space; [None] and [false] are errors. *)
Class PciIo (D : Type) := {
  LocateHandleBuffer : D -> option (list Z) * D;
  HandleProtocol : Z -> D -> option Z * D;
  GetLocation : Z -> Z * Z * Z * Z;
  Pci_Read : Z -> Z -> Z -> D -> option (list Z) * D;
  Pci_Write : Z -> Z -> Z -> D -> bool * D
}.

(** The words of the platform layer: each field has eight bits, and a bus number of 256
    runs into the segment. *)
Definition PAL_CREATE_BDF (Seg Bus Dev Func : Z) : Z :=
  u32 (Z.lor (Z.lor (Z.lor (Z.shiftl Seg 24) (Z.shiftl Bus 16)) (Z.shiftl Dev 8)) Func).

Definition incrementBusDev (StartBdf : Z) : Z :=
  let Seg := PCIE_EXTRACT_BDF_SEG StartBdf in
  let Bus := PCIE_EXTRACT_BDF_BUS StartBdf in
  let Dev := PCIE_EXTRACT_BDF_DEV StartBdf in
  if negb (Dev =? PCI_MAX_DEVICE) then PAL_CREATE_BDF Seg Bus (Dev + 1) 0
  else PAL_CREATE_BDF Seg (Bus + 1) 0 0.

Definition location_bdf (l : Z * Z * Z * Z) : Z :=
  let '(Seg, Bus, Dev, Func) := l in PAL_CREATE_BDF Seg Bus Dev Func.

(** [Bdf] names this location. *)
Definition at_location (Bdf : Z) (l : Z * Z * Z * Z) : bool :=
  let '(Seg, Bus, Dev, Func) := l in
  (PCIE_EXTRACT_BDF_SEG Bdf =? Seg) && (PCIE_EXTRACT_BDF_BUS Bdf =? Bus) &&
  (PCIE_EXTRACT_BDF_DEV Bdf =? Dev) && (PCIE_EXTRACT_BDF_FUNC Bdf =? Func).

(** The class and subclass bytes of a configuration header, and a base address register. *)
Definition header_class (words : list Z) : option (Z * Z) :=
  w ← words !! 2%nat;
  Some (Z.land (Z.shiftr w 24) 0xFF, Z.land (Z.shiftr w 16) 0xFF).
Definition header_bar (words : list Z) (bar_index : Z) : option Z := words !! Z.to_nat (4 + bar_index).

(** sizeof(PCI_TYPE_GENERIC) / sizeof(UINT32) *)
Definition PCI_HEADER_WORDS : Z := 16.

Section pal_pcie.
Context {D : Type} `{Platform D} `{SystemTable D} `{Acpi D} `{Fdt D} `{PciIo D}.

#[local] Abbreviation M := (Prelude.M (world D)).
#[local] Abbreviation B := (Prelude.M (PCIE_INFO_TABLE * world D)).

(** ** Configuration accesses (pal_pcie.c) *)

(** The loop over the handles: [visit] gets the protocol of each one that has it. *)
Definition for_handles {R} (HandleBuffer : list Z) (visit : Z -> M (option R)) : M (option R) :=
  let* r := for_ (length HandleBuffer) 0 (fun Index _ =>
    let* handle := need (HandleBuffer !! Z.to_nat Index) in
    let* p := from_dev (HandleProtocol handle) in
    match p with
    | None => ret (Continue tt)
    | Some Pci =>
        let* r := visit Pci in
        ret (match r with Some v => Break v | None => Continue tt end)
    end) tt in
  ret (match r with Break v => Some v | Continue _ => None end).

(** The status, and the word when one was read. *)
Definition pal_pcie_io_read_cfg (Bdf offset : Z) : M (Z * option Z) :=
  let* hs := from_dev LocateHandleBuffer in
  match hs with
  | None =>
      bsa_print ACS_PRINT_INFO "No PCI devices found in the system\n" 0 ;;
      ret (PCIE_NO_MAPPING, None)
  | Some HandleBuffer =>
      let* r := for_handles HandleBuffer (fun Pci =>
        if at_location Bdf (GetLocation Pci) then
          let* w := from_dev (Pci_Read Pci offset 1) in
          match w with
          | Some words => let* data := need (words !! 0%nat) in ret (Some (0, Some data))
          | None => ret (Some (PCIE_NO_MAPPING, None))
          end
        else ret None) in
      ret (default (PCIE_NO_MAPPING, None) r)
  end.

(** Every handle at the location is written. *)
Definition pal_pcie_io_write_cfg (Bdf offset data : Z) : M () :=
  let* hs := from_dev LocateHandleBuffer in
  match hs with
  | None => bsa_print ACS_PRINT_INFO "No PCI devices found in the system\n" 0
  | Some HandleBuffer =>
      for_handles (R := ()) HandleBuffer (fun Pci =>
        (if at_location Bdf (GetLocation Pci) then
           let* _ := from_dev (Pci_Write Pci offset data) in ret tt
         else ret tt) ;;
        ret None) ;;
      ret tt
  end.

Definition pal_pcie_p2p_support : M Z := ret 1.
Definition pal_pcie_dev_p2p_support (Seg Bus Dev Fn : Z) : M Z := ret 1.
Definition pal_get_msi_vectors (Seg Bus Dev Fn : Z) : M Z := ret 0.
Definition pal_pcie_get_legacy_irq_map (Seg Bus Dev Fn : Z) : M Z := ret 1.
Definition pal_pcie_get_root_port_bdf (Seg Bus Dev Func : Z) : M Z := ret 0.
Definition pal_pcie_is_cache_present (Seg Bus Dev Fn : Z) : M Z := ret 0.
Definition pal_pcie_is_device_behind_smmu (seg bus dev_ fn : Z) : M Z := ret 0.
Definition pal_pcie_is_devicedma_64bit (seg bus dev_ fn : Z) : M Z := ret 0.
Definition pal_pcie_get_device_type (seg bus dev_ fn : Z) : M Z := ret 4.
Definition pal_bsa_pcie_enumerate : M Z := ret 1.
Definition pal_pcie_get_rp_transaction_frwd_support (seg bus dev_ fn : Z) : M Z := ret 1.

(** ** Controllers by class code (pal_pcie_enumeration.c) *)

(** One look at the handle of a function, on behalf of bus [ThisBus] and device [ThisDev]. *)
Definition class_visit (ClassCode ThisBus ThisDev Pci : Z) : M (option Z) :=
  let '(Seg, Bus, Dev, Func) := GetLocation Pci in
  if negb (ThisBus =? Bus) || negb (ThisDev =? Dev) then ret None
  else
    let* r := from_dev (Pci_Read Pci 0 PCI_HEADER_WORDS) in
    match r with
    | None => ret None
    | Some words =>
        let* '(class, subclass) := need (header_class words) in
        bsa_print ACS_PRINT_INFO "\n%03d.%02d.%02d class_code = %d %d" Bus ;;
        ret (if (class =? Z.land (Z.shiftr ClassCode 16) 0xFF) &&
                (subclass =? Z.land (Z.shiftr ClassCode 8) 0xFF)
             then Some (PAL_CREATE_BDF Seg Bus Dev Func) else None)
    end.

(** 0 when there is none. On every bus the search starts at the device given. *)
Definition palPcieGetBdf (ClassCode StartBdf : Z) : M Z :=
  let* hs := from_dev LocateHandleBuffer in
  match hs with
  | None =>
      bsa_print ACS_PRINT_INFO "No PCI devices found in the system\n" 0 ;; ret 0
  | Some HandleBuffer =>
      let InputBus := PCIE_EXTRACT_BDF_BUS StartBdf in
      let InputDev := PCIE_EXTRACT_BDF_DEV StartBdf in
      let* r := for_ (Z.to_nat (PCI_MAX_BUS + 1 - InputBus)) InputBus (fun ThisBus _ =>
        for_ (Z.to_nat (PCI_MAX_DEVICE + 1 - InputDev)) InputDev (fun ThisDev _ =>
          let* r := for_handles HandleBuffer (class_visit ClassCode ThisBus ThisDev) in
          ret (match r with Some bdf => Break bdf | None => Continue tt end)) tt) tt in
      ret (match r with Break bdf => bdf | Continue _ => 0 end)
  end.

Definition pal_pcie_get_bdf_wrapper (ClassCode StartBdf : Z) : M Z := palPcieGetBdf ClassCode StartBdf.

Definition palPcieGetBase (bdf bar_index : Z) : M Z :=
  let* hs := from_dev LocateHandleBuffer in
  match hs with
  | None =>
      bsa_print ACS_PRINT_INFO "No PCI devices found in the system\n" 0 ;; ret 0
  | Some HandleBuffer =>
      let* r := for_handles HandleBuffer (fun Pci =>
        if at_location bdf (GetLocation Pci) then
          let* r := from_dev (Pci_Read Pci 0 PCI_HEADER_WORDS) in
          match r with
          | Some words => let* bar := need (header_bar words bar_index) in ret (Some bar)
          | None => ret None
          end
        else ret None) in
      ret (default 0 r)
  end.

Definition pal_pci_bdf_to_dev (Bdf : Z) : M Z := ret 0.
Definition pal_pci_read_config_byte (Bdf Offset : Z) : M () := ret tt.
Definition pal_pcie_enumerate : M () := ret tt.

(** ** The table of ECAM regions (pal_pcie.c) *)

Definition ecam_edit (k : Z) (f : PCIE_INFO_BLOCK -> PCIE_INFO_BLOCK) : B () :=
  edit_at (fun t => mkEcamTable (ecam_entries t) <$> at_entry k f (ecam_block t)).
Definition ecam_set_num (n : Z) : B () := edit (fun t => mkEcamTable n (ecam_block t)).

Definition dt_dump_pcie_table : B () :=
  let* t := table in
  io (bsa_print ACS_PRINT_DEBUG "************PCIE TABLE************ \n" 0 ;;
      bsa_print ACS_PRINT_DEBUG " NUM ECAM %d \n" (ecam_entries t) ;;
      for_each (Z.to_nat (ecam_entries t)) 0 (fun Index =>
        let* b := need (ecam_block t !! Z.to_nat Index) in
        bsa_print ACS_PRINT_DEBUG " ECAM BASE          :%x\n" (ecam_base b) ;;
        bsa_print ACS_PRINT_DEBUG "      START BUS     :%x\n" (start_bus_num b) ;;
        bsa_print ACS_PRINT_DEBUG "      END BUS       :%x\n" (end_bus_num b)) ;;
      bsa_print ACS_PRINT_DEBUG "************************************* \n\n" 0).

Definition pcie_messages : dt_messages :=
  mkDtMessages " PCI node offset not found %d \n" " NODE pcie offset %d\n" " NODE pcie size cell %d\n"
    " Invalid size cell \n" " NODE pcie addr cell %d\n" " Invalid address cell \n".

(** The 32-bit fields of a region keep 32 bits of the property. *)
Definition pcie_node (dt_ptr addr_cell size_cell : Z) (compatible : string) (offset : Z) (_ : ())
  : B (ctl (Z * ()) ()) :=
  let '(p, prop_len) := fdt_getprop_namelen dt_ptr offset "reg" 3 in
  match prop_value (p, prop_len) with
  | None => io (bsa_print ACS_PRINT_ERR " PROPERTY reg offset %x, Error %d\n" prop_len) ;; ret (Break tt)
  | Some Preg_val =>
      let* t := table in
      let* base := need (cells_value addr_cell Preg_val 0) in
      ecam_edit (ecam_entries t) (fun b => mkEcam base (segment_num b) (start_bus_num b) (end_bus_num b)) ;;
      let '(p, prop_len) := fdt_getprop_namelen dt_ptr offset "bus-range" 9 in
      match prop_value (p, prop_len) with
      | None => io (bsa_print ACS_PRINT_ERR " PROPERTY reg offset %x, Error %d\n" prop_len) ;; ret (Break tt)
      | Some Pbus_val =>
          let* start := need (cell Pbus_val 0) in
          let* end_ := need (cell Pbus_val 1) in
          ecam_edit (ecam_entries t) (fun b => mkEcam (ecam_base b) 0 start end_) ;;
          ecam_set_num (u32 (ecam_entries t + 1)) ;;
          ret (Continue (fdt_node_offset_by_compatible dt_ptr offset compatible, tt))
      end
  end.

Definition pal_pcie_create_info_table_dt (fuel : nat) : B () :=
  let* dt_ptr := io pal_get_dt_ptr in
  if dt_ptr =? 0 then io (bsa_print ACS_PRINT_ERR " dt_ptr is NULL\n" 0)
  else
    ecam_set_num 0 ;;
    let* r := compatible_nodes fuel pcie_messages (fun _ offset => offset) dt_ptr pci_dt_arr (pcie_node dt_ptr) tt in
    match r with
    | Break _ => ret tt
    | Continue _ => dt_dump_pcie_table
    end.

(** The allocation structures of the MCFG, one after the other; the first is copied even when
    the table ends before it. *)
Definition mcfg_structure : string :=
  "EFI_ACPI_MEMORY_MAPPED_ENHANCED_CONFIGURATION_SPACE_BASE_ADDRESS_ALLOCATION_STRUCTURE".
Definition mcfg_field (f : string) : Z -> Z := acpi_field (mcfg_structure ++ "." ++ f)%string.
Definition mcfg_header : Z := acpi_sizeof "EFI_ACPI_MEMORY_MAPPED_CONFIGURATION_BASE_ADDRESS_TABLE_HEADER".
Definition mcfg_first (gMcfgHdr : Z) : Z := u64 (gMcfgHdr + mcfg_header).
Definition mcfg_length (gMcfgHdr : Z) : Z :=
  acpi_field "EFI_ACPI_MEMORY_MAPPED_CONFIGURATION_BASE_ADDRESS_TABLE_HEADER.Header.Length" gMcfgHdr.

(** What is copied of one. *)
Definition ecam_of_mcfg (Entry : Z) : PCIE_INFO_BLOCK :=
  mkEcam (mcfg_field "BaseAddress" Entry) (mcfg_field "PciSegmentGroupNumber" Entry)
    (mcfg_field "StartBusNumber" Entry) (mcfg_field "EndBusNumber" Entry).

Definition mcfg_entries (fuel : nat) (gMcfgHdr : Z) : B () :=
  while_ fuel (fun '(Entry, length, i) =>
    if Entry =? 0 then ret (Break tt)
    else
      ecam_edit i (fun _ => ecam_of_mcfg Entry) ;;
      let length := u32 (length + acpi_sizeof mcfg_structure) in
      let Entry := u64 (Entry + acpi_sizeof mcfg_structure) in
      let* t := table in
      ecam_set_num (u32 (ecam_entries t + 1)) ;;
      ret (if (length <? mcfg_length gMcfgHdr) && negb (Entry =? 0) then Continue (Entry, length, u32 (i + 1))
           else Break tt))
    (mcfg_first gMcfgHdr, mcfg_header, 0).

Definition ecam_from_mcfg (fuel : nat) (gMcfgHdr : Z) : B () :=
  if truthy PLATFORM_OVERRIDE_PCIE_ECAM_BASE then
    ecam_edit 0 (fun b => mkEcam PLATFORM_OVERRIDE_PCIE_ECAM_BASE 0 PLATFORM_OVERRIDE_PCIE_START_BUS_NUM
                            (end_bus_num b)) ;;
    ecam_set_num 1
  else mcfg_entries fuel gMcfgHdr.

Definition pal_pcie_create_info_table (fuel : nat) : B () :=
  ecam_set_num 0 ;;
  let* gMcfgHdr := io pal_get_mcfg_ptr in
  if gMcfgHdr =? 0 then
    io (bsa_print ACS_PRINT_DEBUG "ACPI - MCFG Table not found. Check DT \n" 0) ;;
    pal_pcie_create_info_table_dt fuel
  else ecam_from_mcfg fuel gMcfgHdr.

(** ** Proofs *)

(** The functions of a machine that reading does not change: the handles, the protocol
    of each and the words of its header. *)
Record pci_static (d : D) (hs : list Z) (proto : Z -> option Z) (words : Z -> option (list Z)) : Prop := {
  st_handles : LocateHandleBuffer d = (Some hs, d);
  st_proto : forall h, h ∈ hs -> HandleProtocol h d = (proto h, d);
  st_read : forall h p, h ∈ hs -> proto h = Some p -> Pci_Read p 0 PCI_HEADER_WORDS d = (words p, d);
  st_words : forall p l, words p = Some l -> length l = Z.to_nat PCI_HEADER_WORDS
}.

Lemma wp_from_dev_same {A} (f : D -> A * D) a (w : world D) (Q : A -> world D -> Prop) :
  f (dev w) = (a, dev w) -> Q a w -> wp (from_dev f) w Q.
Proof. intros Hf HQ. apply wp_from_dev. rewrite Hf. cbn [fst snd]. by rewrite set_dev_id. Qed.

Lemma eval_for_handles {R} hs proto words (visit : Z -> M (option R)) (f : Z -> option R) w :
  pci_static (dev w) hs proto words ->
  (forall h p, h ∈ hs -> proto h = Some p -> eval (visit p) w (f p) w) ->
  eval (for_handles hs visit) w (head (omap f (omap proto hs))) w.
Proof.
  intros Hs Hv. unfold for_handles. eapply eval_bind.
  - apply (eval_for_first (fun i => hs !! Z.to_nat i ≫= fun h => proto h ≫= f)). intros i Hi.
    destruct (lookup_lt_is_Some_2 hs (Z.to_nat i)) as [h Hh]; [lia|]. rewrite Hh.
    pose proof (list_elem_of_lookup_2 _ _ _ Hh) as Hin. unfold eval. wp_step. wp_step. wp_step.
    eapply wp_from_dev_same; [by apply (st_proto _ _ _ _ Hs)|]. cbn [mbind option_bind].
    destruct (proto h) as [p|] eqn:Hp; cbn [mbind option_bind]; [|by wp_step]. wp_step.
    eapply wp_eval; [by apply (Hv h)|]. wp_step. by destruct (f p).
  - rewrite (omap_seqZ_lookup (fun h => proto h ≫= f) [] hs). unfold eval.
    replace (omap (fun h => proto h ≫= f) hs) with (omap f (omap proto hs)); [by destruct (head _)|].
    clear. induction hs as [|h hs IH]; [done|]. rewrite !omap_cons. destruct (proto h) as [p|]; cbn [mbind option_bind]; [|done].
    rewrite omap_cons. destruct (f p); by rewrite IH.
Qed.

(** The functions the search looks at, in its order: by bus, then by device, then by
    handle, from the device given on every bus. *)
Definition on_bus_dev (bus dev_ p : Z) : Prop :=
  let '(_, b, d, _) := GetLocation p in b = bus /\ d = dev_.

#[local] Instance on_bus_dev_dec bus dev_ p : Decision (on_bus_dev bus dev_ p).
Proof. unfold on_bus_dev. destruct (GetLocation p) as [[[? ?] ?] ?]. apply _. Defined.

Definition class_candidates (ps : list Z) (InputBus InputDev : Z) : list Z :=
  concat ((fun b => concat ((fun d => filter (on_bus_dev b d) ps) <$> seqZ InputDev (PCI_MAX_DEVICE + 1 - InputDev)))
          <$> seqZ InputBus (PCI_MAX_BUS + 1 - InputBus)).

(** A header of the class asked for. *)
Definition class_found (words : Z -> option (list Z)) (ClassCode p : Z) : option Z :=
  match words p ≫= header_class with
  | Some (class, subclass) =>
      if (class =? Z.land (Z.shiftr ClassCode 16) 0xFF) && (subclass =? Z.land (Z.shiftr ClassCode 8) 0xFF)
      then Some (location_bdf (GetLocation p)) else None
  | None => None
  end.

Lemma eval_class_visit hs proto words c b d h p w :
  pci_static (dev w) hs proto words -> h ∈ hs -> proto h = Some p ->
  eval (class_visit c b d p) w (if decide (on_bus_dev b d p) then class_found words c p else None) w.
Proof.
  intros Hs Hh Hp. unfold class_visit, class_found, location_bdf. 
  case_decide as Hon; unfold on_bus_dev in Hon; destruct (GetLocation p) as [[[sg b'] d'] fn].
  - destruct Hon as [-> ->]. rewrite !Z.eqb_refl. cbn [negb orb]. unfold eval. wp_step.
    eapply wp_from_dev_same; [by eapply (st_read _ _ _ _ Hs)|].
    destruct (words p) as [l|] eqn:Hl; cbn [mbind option_bind]; [|by wp_step].
    pose proof (st_words _ _ _ _ Hs p l Hl) as Hlen. unfold header_class.
    destruct (lookup_lt_is_Some_2 l 2) as [x ->]; [rewrite Hlen; change (Z.to_nat PCI_HEADER_WORDS) with 16%nat; lia|]. cbn [mbind option_bind].
    wp_step. wp_step. wp_step. apply wp_bsa_print. wp_step. by destruct (_ && _).
  - destruct (Z.eqb_spec b b') as [->|]; [|by split].
    destruct (Z.eqb_spec d d') as [->|]; [|by split]. by destruct Hon.
Qed.

Lemma elem_of_class_candidates ps ib id p :
  p ∈ class_candidates ps ib id <->
  p ∈ ps /\ let '(_, b, d, _) := GetLocation p in ib <= b <= PCI_MAX_BUS /\ id <= d <= PCI_MAX_DEVICE.
Proof.
  unfold class_candidates, PCI_MAX_BUS, PCI_MAX_DEVICE. split.
  - intros (l & (b & -> & Hb)%list_elem_of_fmap & Hp)%elem_of_concat.
    apply elem_of_concat in Hp as (l & (d & -> & Hd)%list_elem_of_fmap & Hp).
    apply list_elem_of_filter in Hp as [Hon Hp]. apply elem_of_seqZ in Hb, Hd. split; [done|].
    unfold on_bus_dev in Hon. destruct (GetLocation p) as [[[sg b'] d'] fn]. lia.
  - destruct (GetLocation p) as [[[sg b] d] fn] eqn:Hl. intros [Hp [Hb Hd]].
    apply elem_of_concat. eexists. split.
    { apply list_elem_of_fmap. exists b. split; [done|]. apply elem_of_seqZ. lia. }
    apply elem_of_concat. eexists. split.
    { apply list_elem_of_fmap. exists d. split; [done|]. apply elem_of_seqZ. lia. }
    apply list_elem_of_filter. split; [|done]. unfold on_bus_dev. by rewrite Hl.
Qed.

(** On a machine whose configuration headers do not change when read, the search by
    class code returns the first function of the class, in the order of bus, device and
    handle, among those from the bus and the device of [StartBdf] on; 0 when there is
    none. The bound on the device holds on every bus, so that a function of a later bus
    with a smaller device number is never found. *)
Theorem get_bdf_first ClassCode StartBdf hs proto words (w : world D) :
  pci_static (dev w) hs proto words ->
  let ps := omap proto hs in
  let InputBus := PCIE_EXTRACT_BDF_BUS StartBdf in
  let InputDev := PCIE_EXTRACT_BDF_DEV StartBdf in
  InputDev <= PCI_MAX_DEVICE ->
  eval (palPcieGetBdf ClassCode StartBdf) w
    (default 0 (head (omap (class_found words ClassCode) (class_candidates ps InputBus InputDev)))) w /\
  forall p, p ∈ class_candidates ps InputBus InputDev <-> p ∈ ps /\
    let '(_, bus, dev_, _) := GetLocation p in
    InputBus <= bus <= PCI_MAX_BUS /\ InputDev <= dev_ <= PCI_MAX_DEVICE.
Proof.
  intros Hs ps ib id Hid. split; [|intros p; apply elem_of_class_candidates].
  assert (Hb : 0 <= ib <= PCI_MAX_BUS).
  { unfold ib, PCIE_EXTRACT_BDF_BUS. change 0xFF with (Z.ones 8). rewrite Z.land_ones by lia. change (2 ^ 8) with 256.
    pose proof (Z.mod_pos_bound (StartBdf ≫ 16) 256 ltac:(done)). unfold PCI_MAX_BUS. lia. }
  unfold palPcieGetBdf. unfold eval. wp_step. eapply wp_from_dev_same; [apply (st_handles _ _ _ _ Hs)|].
  cbn beta iota. fold ib id. wp_step.
  set (dev_answer b d := head (omap (class_found words ClassCode) (filter (on_bus_dev b d) ps))).
  set (bus_answer b := head (omap (dev_answer b) (seqZ id (PCI_MAX_DEVICE + 1 - id)))).
  eapply wp_eval.
  { apply (eval_for_first bus_answer). intros b _. unfold bus_answer.
    replace (PCI_MAX_DEVICE + 1 - id) with (Z.of_nat (Z.to_nat (PCI_MAX_DEVICE + 1 - id))) at 2 by lia.
    apply (eval_for_first (dev_answer b)). intros d _. unfold eval. wp_step.
    eapply wp_eval; [eapply (eval_for_handles _ _ _ _ _ _ Hs); intros h p Hh Hp; by eapply eval_class_visit|].
    rewrite (omap_filter_decide (on_bus_dev b d)). fold ps. fold (dev_answer b d).
    wp_step. by destruct (dev_answer b d). }
  rewrite Z2Nat.id by lia.
  replace (head (omap bus_answer _)) with (head (omap (class_found words ClassCode) (class_candidates ps ib id))).
  - wp_step. by destruct (head _).
  - unfold class_candidates. rewrite <- head_omap_concat. f_equal. apply list_omap_ext, Forall2_same_length_lookup_2; [done|].
    intros k b b' Hb1 Hb2. assert (b = b') as <- by congruence. unfold bus_answer. by rewrite <- head_omap_concat.
Qed.

(** ** The table of ECAM regions *)

(** The region a node describes: its address and its range of buses. *)
Definition ecam_node (dt_ptr addr_cell x : Z) (r : Z * (Z * Z)) : Prop :=
  let '(base, (start, end_)) := r in
  (exists v len, fdt_getprop_namelen dt_ptr x "reg" 3 = (Some v, len) /\ 0 <= len /\
     cells_value addr_cell v 0 = Some base) /\
  (exists v len, fdt_getprop_namelen dt_ptr x "bus-range" 9 = (Some v, len) /\ 0 <= len /\
     cell v 0 = Some start /\ cell v 1 = Some end_).

Definition ecam_made (_ : Z) (r : Z * (Z * Z)) (_ : PCIE_INFO_BLOCK) : PCIE_INFO_BLOCK :=
  mkEcam (fst r) 0 (fst (snd r)) (snd (snd r)).

Lemma wp_ecam_edit k f n l w (Q : () -> PCIE_INFO_TABLE * world D -> Prop) l' :
  at_entry k f l = Some l' -> Q tt (mkEcamTable n l', w) -> wp (ecam_edit k f) (mkEcamTable n l, w) Q.
Proof. intros Hk HQ. unfold ecam_edit. eapply wp_edit_at; [|exact HQ]. cbn. by rewrite Hk. Qed.

Lemma wp_pcie_node dt_ptr a sc c x r rs L w (Q : ctl (Z * ()) () -> PCIE_INFO_TABLE * world D -> Prop) :
  ecam_node dt_ptr a x r -> (length rs < length L)%nat -> Z.of_nat (length L) < 2 ^ 32 ->
  Q (Continue (next_compatible dt_ptr c x, tt))
    (mkEcamTable (Z.of_nat (length (rs ++ [r]))) (filled ecam_made 0 (rs ++ [r]) L), w) ->
  wp (pcie_node dt_ptr a sc c x tt) (mkEcamTable (Z.of_nat (length rs)) (filled ecam_made 0 rs L), w) Q.
Proof.
  destruct r as [base [start end_]].
  intros ((v & len & Hp & Hl & Hb) & (u & ulen & Hu & Hul & Hst & Hen)) Hroom Hsz HQ.
  unfold pcie_node, prop_value. rewrite Hp, Hu. cbn [fst snd].
  rewrite (proj2 (Z.ltb_ge _ _) Hl), (proj2 (Z.ltb_ge _ _) Hul). dt_steps. rewrite Hb. dt_steps. cbn [ecam_entries].
  destruct (at_entry_in (Z.of_nat (length rs)) (fun b => mkEcam base (segment_num b) (start_bus_num b) (end_bus_num b))
    (filled ecam_made 0 rs L)) as [l1 Hl1]; [rewrite length_filled; lia|].
  eapply wp_ecam_edit; [exact Hl1|]. dt_steps. rewrite Hst, Hen. dt_steps.
  eapply wp_ecam_edit.
  { rewrite (at_entry_twice _ _ _ _ _ Hl1). cbn [ecam_base].
    apply (at_entry_filled ecam_made _ rs (base, (start, end_))); [done|done|done]. }
  dt_steps. unfold ecam_set_num. dt_steps. cbn [ecam_entries ecam_block].
  rewrite u32_id by (unfold fits; lia). rewrite length_app, Nat2Z.inj_add in HQ. exact HQ.
Qed.

Lemma wp_dump_pcie_table t w (Q : () -> PCIE_INFO_TABLE * world D -> Prop) :
  (Z.to_nat (ecam_entries t) <= length (ecam_block t))%nat -> Q tt (t, w) -> wp dt_dump_pcie_table (t, w) Q.
Proof.
  intros Hn HQ. unfold dt_dump_pcie_table. dt_steps.
  apply (wp_for_each (fun _ s => s = w)); [done| |by intros s ->; dt_steps].
  intros i s Hi ->. destruct (lookup_lt_is_Some_2 (ecam_block t) (Z.to_nat i)) as [e He]; [lia|].
  rewrite He. by dt_steps.
Qed.

(** the ECAM table built from a device tree has one region per host bridge node, in
    the order of the nodes, with the address and the bus range the node gives and segment 0
    whatever the node says about its domain; the other entries are left alone. *)
Theorem pcie_table_from_dt fuel dt_ptr nodes rs addr_cell size_cell n0 L (w : world D) :
  dtb_of_system_table = Some dt_ptr -> dt_ptr <> 0 -> fdt_check_header dt_ptr = 0 ->
  compatible_group dt_ptr "pci-host-ecam-generic" nodes -> group_cells dt_ptr addr_cell size_cell nodes ->
  0 <= size_cell -> 1 <= addr_cell <= 2 ->
  Forall2 (ecam_node dt_ptr addr_cell) nodes rs ->
  (length nodes < fuel)%nat -> (length rs <= length L)%nat -> Z.of_nat (length L) < 2 ^ 32 ->
  wp (build (mkEcamTable n0 L) (pal_pcie_create_info_table_dt fuel)) w (fun t w' =>
    w' = w /\ t = mkEcamTable (Z.of_nat (length rs)) (filled ecam_made 0 rs L)).
Proof.
  intros Hdt Hnz Hhdr Hg Hc Hs Ha Hrs Hf Hroom Hsz.
  apply wp_build. unfold pal_pcie_create_info_table_dt. dt_step. dt_step.
  eapply wp_eval; [by apply eval_get_dt_ptr|]. rewrite (proj2 (Z.eqb_neq _ _) Hnz).
  dt_step. unfold ecam_set_num. dt_steps. cbn [ecam_block].
  assert (Hfound : found_nodes pci_dt_arr [nodes] = pair "pci-host-ecam-generic" <$> nodes).
  { unfold found_nodes, pci_dt_arr. cbn [zip_with concat]. by rewrite app_nil_r. }
  eapply (wp_compatible_nodes (fun i (_ : ()) s =>
    s = (mkEcamTable (Z.of_nat (length (take i rs))) (filled ecam_made 0 (take i rs) L), w))
    _ _ _ _ _ [nodes]); [by constructor; [|constructor]|by constructor; [|constructor]|by constructor; [|constructor]|exact Hs|exact Ha|done| |].
  - rewrite Hfound. intros i c x [] s (x' & [= -> ->] & Hx)%list_lookup_fmap_Some ->.
    destruct (Forall2_lookup_l _ _ _ _ _ Hrs Hx) as (r & Hr & Hok).
    assert (Hlen : length (take i rs) = i) by (rewrite length_take; apply lookup_lt_Some in Hr; lia).
    eapply wp_pcie_node; [exact Hok|apply lookup_lt_Some in Hr; lia|exact Hsz|].
    eexists. split; [done|]. by rewrite (take_S_r _ _ _ Hr).
  - rewrite Hfound, length_fmap, (Forall2_length _ _ _ Hrs), firstn_all. intros [] s ->. dt_steps.
    apply wp_dump_pcie_table; [|by split]. cbn [ecam_entries ecam_block]. rewrite Nat2Z.id, length_filled. lia.
Qed.
End pal_pcie.

(** ** A concrete PCI bus

    The functions in the order of their handles: where each is, its class word (at offset
    8) and its first base address register. *)
Definition pci_fn : Type := (Z * Z * Z * Z) * (Z * Z).

Definition fn_header (f : pci_fn) : list Z := <[4%nat := snd (snd f)]> (<[2%nat := fst (snd f)]> (replicate 16 0)).

Definition functions_pci (fs : list pci_fn) : PciIo machine := {|
  LocateHandleBuffer d := (Some (seqZ 0 (Z.of_nat (length fs))), d);
  HandleProtocol h d := (Some h, d);
  GetLocation p := default (0, 0, 0, 0) (fst <$> fs !! Z.to_nat p);
  Pci_Read p off n d := (fn_header <$> fs !! Z.to_nat p, d);
  Pci_Write p off v d := (true, d)
|}.

(** Two USB controllers, the second one on a later bus and with a smaller device number. *)
Definition two_usb : list pci_fn :=
  [((0, 0, 5, 0), (0x0C033000, 0x80000000)); ((0, 1, 2, 0), (0x0C033000, 0x90000000))].

#[local] Instance two_usb_pci : PciIo machine := functions_pci two_usb.

Lemma two_usb_static (d : machine) : pci_static d [0; 1] Some (fun p => fn_header <$> two_usb !! Z.to_nat p).
Proof.
  split; [done..|]. intros p l Hl. apply fmap_Some in Hl as (f & Hf & ->).
  by destruct (Z.to_nat p) as [|[|k]]; [injection Hf as <-..|discriminate].
Qed.

(** The first is found; going on after it, the second is not. *)
Lemma get_bdf_first_witness :
  eval (palPcieGetBdf 0x0C0300 0) (boot ∅ ∅) 0x00000500 (boot ∅ ∅) /\
  eval (palPcieGetBdf 0x0C0300 (incrementBusDev 0x00000500)) (boot ∅ ∅) 0 (boot ∅ ∅).
Proof.
  split.
  - destruct (get_bdf_first 0x0C0300 0 [0; 1] Some _ (boot ∅ ∅) (two_usb_static _)) as [H1 _]; [by vm_compute|].
    apply (wp_eval _ _ _ _ _ H1). split; [by vm_compute|done].
  - destruct (get_bdf_first 0x0C0300 (incrementBusDev 0x00000500) [0; 1] Some _ (boot ∅ ∅) (two_usb_static _))
      as [H2 _]; [by vm_compute|].
    apply (wp_eval _ _ _ _ _ H2). split; [by vm_compute|done].
Defined.

(** Two host bridges on a bus of 64-bit addresses. *)
Definition pcie_tree : list dt_node :=
  [mkDtNode 0 (-1) "" [("#address-cells", cells [2]); ("#size-cells", cells [2])];
   mkDtNode 10 0 "pcie" [("compatible", bytes_of "pci-host-ecam-generic"); ("linux,pci-domain", cells [0]);
     ("reg", cells [0x40; 0x10000000; 0; 0x10000000]); ("bus-range", cells [0; 0xff])];
   mkDtNode 20 0 "pcie" [("compatible", bytes_of "pci-host-ecam-generic"); ("linux,pci-domain", cells [1]);
     ("reg", cells [0x50; 0; 0; 0x1000000]); ("bus-range", cells [0; 0xf])]].

#[local] Instance pcie_tree_fdt : Fdt machine := tree_fdt pcie_tree.

Lemma pcie_table_from_dt_witness :
  wp (build (mkEcamTable 9 (replicate 3 (mkEcam 7 7 7 7))) (pal_pcie_create_info_table_dt 8)) (boot ∅ ∅)
    (fun t _ => t = mkEcamTable 2 [mkEcam 0x4010000000 0 0 0xff; mkEcam 0x5000000000 0 0 0xf; mkEcam 7 7 7 7]).
Proof.
  eapply wp_mono; [eapply (pcie_table_from_dt 8 0x48000000 [10; 20]
    [(0x4010000000, (0, 0xff)); (0x5000000000, (0, 0xf))] 2 2)|].
  all: try on_tree.
  - split; [on_tree|]. split; [vm_compute|]; congruence.
  - intros x [= <-]. split; reflexivity.
  - do 2 (constructor; [split; eexists _, _; (split; [reflexivity|]); (split; [vm_compute; congruence|]); repeat split|]).
    constructor.
  - intros t w' [_ ->]. by vm_compute.
Defined.
