(* ===== verification/PalExerciser.v ===== *)
(** * The platform layer: exerciser cards

    The reference driver of the PCIe stimulus generator
    (src/platform/pal_uefi_dt/src/pal_exerciser.c): its registers behind the first base
    address register of the card, and the capability of its configuration space that has to
    be enabled with them. It implements the interface that Peripherals states. *)

From S2P Require Import Prelude Types World Machine Pcie Peripherals PalPcie.
#[local] Open Scope c_scope.

(** ** pal_exerciser.h *)

Definition TEST_REG_COUNT : Z := 10.
Definition CAP_PTR_OFFSET : Z := 0x34.
Definition PCIE_CAP_OFFSET : Z := 0x100.
Definition PCIE_CAP_CTRL_OFFSET : Z := 0x4.

Definition INTXCTL : Z := 0x004.
Definition MSICTL : Z := 0x000.
Definition DMACTL1 : Z := 0x08.
Definition DMA_BUS_ADDR : Z := 0x010.
Definition DMA_LEN : Z := 0x018.
Definition DMASTATUS : Z := 0x01C.

Definition PASID : Z := 0x1B.
Definition PCIE : Z := 0x1.
Definition PCI : Z := 0x0.

Definition PCIE_NXT_CAP_PTR_MASK : Z := 0x0FFF.
Definition PCIE_CAP_ID_MASK : Z := 0xFFFF.
Definition PCI_CAP_ID_MASK : Z := 0x00FF.
Definition PCI_NXT_CAP_PTR_MASK : Z := 0x00FF.
Definition CAP_PTR_MASK : Z := 0x00FF.

Definition CLR_INTR_MASK : Z := 0xFFFFFFFE.
Definition PASID_TLP_STOP_MASK : Z := 0xFFFFFFBF.
Definition PASID_VAL_MASK : Z := Z.shiftl 1 20 - 1.
Definition PASID_VAL_SHIFT : Z := 12.
Definition PASID_LEN_SHIFT : Z := 7.
Definition PASID_LEN_MASK : Z := 0x7.
Definition DMA_TO_DEVICE_MASK : Z := 0xFFFFFFEF.

Definition SHIFT_4BIT : Z := 4.
Definition MASK_BIT : Z := 1.
Definition PREFETCHABLE_BIT_SHIFT : Z := 3.

Definition PCI_CAP_PTR_OFFSET : Z := 8.
Definition PCIE_CAP_PTR_OFFSET : Z := 20.

Definition MSI_GENERATION_MASK : Z := Z.shiftl 1 31.

Definition NO_SNOOP_START_MASK : Z := 0x20.
Definition NO_SNOOP_STOP_MASK : Z := 0xFFFFFFDF.
Definition PCIE_CAP_DIS_MASK : Z := 0xFFFEFFFF.
Definition PCIE_CAP_EN_MASK : Z := Z.shiftl 1 16.

(** [EXERCISER_DMA_ATTR] *)
Definition EDMA_NO_SUPPORT : Z := 0x0.
Definition EDMA_COHERENT : Z := 0x1.
Definition EDMA_NOT_COHERENT : Z := 0x2.
Definition EDMA_FROM_DEVICE : Z := 0x3.
Definition EDMA_TO_DEVICE : Z := 0x4.

(** [EXERCISER_PARAM_TYPE] *)
Definition SNOOP_ATTRIBUTES : Z := 0x1.
Definition LEGACY_IRQ : Z := 0x2.
Definition MSIX_ATTRIBUTES : Z := 0x3.
Definition DMA_ATTRIBUTES : Z := 0x4.
Definition P2P_ATTRIBUTES : Z := 0x5.
Definition PASID_ATTRIBUTES : Z := 0x6.
Definition CFG_TXN_ATTRIBUTES : Z := 0x7.

(** [EXERCISER_TXN_ATTR] *)
Definition TXN_REQ_ID : Z := 0x0.
Definition TXN_ADDR_TYPE : Z := 0x1.

(** [EXERCISER_OPS] *)
Definition START_DMA : Z := 0x1.
Definition GENERATE_MSI : Z := 0x2.
Definition GENERATE_L_INTR : Z := 0x3.
Definition MEM_READ : Z := 0x4.
Definition MEM_WRITE : Z := 0x5.
Definition CLEAR_INTR : Z := 0x6.
Definition PASID_TLP_START : Z := 0x7.
Definition PASID_TLP_STOP : Z := 0x8.
Definition TXN_NO_SNOOP_ENABLE : Z := 0x9.
Definition TXN_NO_SNOOP_DISABLE : Z := 0xa.

Definition ACCESS_TYPE_RD : Z := 0x0.
Definition MMIO_PREFETCHABLE : Z := 0x0.
Definition MMIO_NON_PREFETCHABLE : Z := 0x1.
Definition EXERCISER_DATA_CFG_SPACE : Z := 0x1.
Definition EXERCISER_DATA_BAR0_SPACE : Z := 0x2.

Section pal_exerciser.
Context {D : Type} `{Platform D} `{PciIo D}.

#[local] Abbreviation M := (Prelude.M (world D)).

Definition pal_increment_bus_dev (Bdf : Z) : Z :=
  let Seg := PCIE_EXTRACT_BDF_SEG Bdf in
  let Bus := PCIE_EXTRACT_BDF_BUS Bdf in
  let Dev := PCIE_EXTRACT_BDF_DEV Bdf in
  if negb (Dev =? PCI_MAX_DEVICE) then PAL_CREATE_BDF Seg Bus (Dev + 1) 0
  else PAL_CREATE_BDF Seg (Bus + 1) 0 0.

Definition pal_exerciser_get_ecsr_base (Bdf BarIndex : Z) : M Z := palPcieGetBase Bdf BarIndex.

Definition pal_exerciser_get_pcie_config_offset (Bdf : Z) : Z :=
  let bus := PCIE_EXTRACT_BDF_BUS Bdf in
  let dev_ := PCIE_EXTRACT_BDF_DEV Bdf in
  let func := PCIE_EXTRACT_BDF_FUNC Bdf in
  u32 (bus * PCIE_MAX_DEV * PCIE_MAX_FUNC * 4096 + dev_ * PCIE_MAX_FUNC * 4096 + func * 4096).

(** [Ecam] is a [UINT32]. *)
Definition ecam_32 : M Z := let* e := pal_pcie_get_mcfg_ecam in ret (u32 e).

Definition pal_is_bdf_exerciser (bdf : Z) : M bool :=
  let* Ecam := ecam_32 in
  let* vendor_dev_id := pal_mmio_read (u64 (Ecam + pal_exerciser_get_pcie_config_offset bdf)) in
  ret (vendor_dev_id =? EXERCISER_ID).

(** [pal_mmio_write(reg, f(pal_mmio_read(reg)))] *)
Definition update_reg (reg : Z) (f : Z -> Z) : M () :=
  let* v := pal_mmio_read reg in
  pal_mmio_write reg (u32 (f v)).

Definition pal_exerciser_start_dma_direction (Base Direction : Z) : M Z :=
  let dmactl1 := u64 (Base + DMACTL1) in
  (when Direction =? EDMA_TO_DEVICE then
     update_reg dmactl1 (fun v => Z.land v DMA_TO_DEVICE_MASK)) ;;
  (when Direction =? EDMA_FROM_DEVICE then
     update_reg dmactl1 (fun v => Z.lor v (Z.shiftl MASK_BIT SHIFT_4BIT))) ;;
  update_reg dmactl1 (fun v => Z.lor v MASK_BIT) ;;
  let* v := pal_mmio_read (u64 (Base + DMASTATUS)) in
  ret (Z.land v (Z.lor (Z.shiftl MASK_BIT 1) MASK_BIT)).

(** The status, and the offset when the capability was found. *)
Definition pal_exerciser_find_pcie_capability (fuel : nat) (ID Bdf Value : Z) : M (Z * option Z) :=
  let* Ecam := ecam_32 in
  let cfg := pal_exerciser_get_pcie_config_offset Bdf in
  let* ' (IdMask, PtrMask, PtrOffset, NxtPtr) :=
    if Value =? 1 then
      ret (PCIE_CAP_ID_MASK, PCIE_NXT_CAP_PTR_MASK, PCIE_CAP_PTR_OFFSET, PCIE_CAP_OFFSET)
    else
      let* v := pal_mmio_read (u64 (u32 (Ecam + CAP_PTR_OFFSET) + cfg)) in
      ret (PCI_CAP_ID_MASK, PCI_NXT_CAP_PTR_MASK, PCI_CAP_PTR_OFFSET, Z.land v CAP_PTR_MASK) in
  let* r := while_ fuel (fun NxtPtr =>
    if truthy NxtPtr then
      let* Data := pal_mmio_read (u64 (Ecam + cfg + NxtPtr)) in
      ret (if Z.land Data IdMask =? ID then Break (Some NxtPtr)
           else Continue (Z.land (Z.shiftr Data PtrOffset) PtrMask))
    else ret (Break None)) NxtPtr in
  match r with
  | Some Offset => ret (0, Some Offset)
  | None => bsa_print ACS_PRINT_ERR "\n       No capabilities found" 0 ;; ret (1, None)
  end.

(** What is written to a register keeps 32 bits. *)
Definition pal_exerciser_set_param (Type_ Value1 Value2 Bdf : Z) : M Z :=
  let* Base := pal_exerciser_get_ecsr_base Bdf 0 in
  if Type_ =? SNOOP_ATTRIBUTES then ret 0
  else if Type_ =? LEGACY_IRQ then ret 0
  else if Type_ =? DMA_ATTRIBUTES then
    pal_mmio_write (u64 (Base + DMA_BUS_ADDR)) (u32 Value1) ;;
    pal_mmio_write (u64 (Base + DMA_LEN)) (u32 Value2) ;;
    let* Data := pal_mmio_read (u64 (Base + DMASTATUS)) in
    ret (Z.land Data (Z.lor (Z.shiftl MASK_BIT 1) MASK_BIT))
  else if Type_ =? P2P_ATTRIBUTES then ret 0
  else if Type_ =? PASID_ATTRIBUTES then
    let* Data := pal_mmio_read (u64 (Base + DMACTL1)) in
    let Data := u32 (Z.land Data (not64 (Z.shiftl PASID_LEN_MASK PASID_LEN_SHIFT))) in
    let Data := u32 (Z.lor Data (Z.shiftl (Z.land (u64 (Value1 - 16)) PASID_LEN_MASK) PASID_LEN_SHIFT)) in
    pal_mmio_write (u64 (Base + DMACTL1)) Data ;;
    ret 0
  else if Type_ =? MSIX_ATTRIBUTES then ret 0
  else if Type_ =? CFG_TXN_ATTRIBUTES then
    ret (if (Value1 =? TXN_REQ_ID) || (Value1 =? TXN_ADDR_TYPE) then 0 else 1)
  else ret 1.

(** The status and what is written to [*Value1] and [*Value2]. *)
Definition pal_exerciser_get_param (Type_ Bdf : Z) : M (Z * option Z * option Z) :=
  let* Base := pal_exerciser_get_ecsr_base Bdf 0 in
  let twice reg :=
    let* v := pal_mmio_read reg in
    let* v' := pal_mmio_read reg in
    ret (Z.lor v' MASK_BIT, Some v, None) in
  if Type_ =? SNOOP_ATTRIBUTES then ret (0, None, None)
  else if Type_ =? LEGACY_IRQ then twice (u64 (Base + INTXCTL))
  else if Type_ =? DMA_ATTRIBUTES then
    let* v1 := pal_mmio_read (u64 (Base + DMA_BUS_ADDR)) in
    let* v2 := pal_mmio_read (u64 (Base + DMA_LEN)) in
    let* Temp := pal_mmio_read (u64 (Base + DMASTATUS)) in
    ret (Z.land Temp MASK_BIT, Some v1, Some v2)
  else if Type_ =? P2P_ATTRIBUTES then ret (0, None, None)
  else if Type_ =? PASID_ATTRIBUTES then
    let* v := pal_mmio_read (u64 (Base + DMACTL1)) in
    ret (0, Some (Z.land (Z.shiftr v PASID_LEN_SHIFT) PASID_LEN_MASK + 16), None)
  else if Type_ =? MSIX_ATTRIBUTES then twice (u64 (Base + MSICTL))
  else ret (1, None, None).

Definition pal_exerciser_set_state (State Value Instance : Z) : M Z := ret 0.

Definition pal_exerciser_get_state (Bdf : Z) : M (Z * Z) := ret (0, EXERCISER_ON).

(** The control register of the PASID capability; the status of the search. *)
Definition pasid_control (fuel : nat) (Ecam Bdf : Z) (f : Z -> Z) : M Z :=
  let* ' (status, CapabilityOffset) := pal_exerciser_find_pcie_capability fuel PASID Bdf PCIE in
  if status =? 0 then
    let* off := need CapabilityOffset in
    update_reg (u64 (Ecam + pal_exerciser_get_pcie_config_offset Bdf + off + PCIE_CAP_CTRL_OFFSET)) f ;;
    ret 0
  else ret 1.

Definition pal_exerciser_ops (fuel : nat) (Ops Param Bdf : Z) : M Z :=
  let* Base := pal_exerciser_get_ecsr_base Bdf 0 in
  let* Ecam := ecam_32 in
  let reg offset := u64 (Base + offset) in
  if Ops =? START_DMA then
    if Param =? EDMA_NO_SUPPORT then ret 0
    else if Param =? EDMA_COHERENT then ret 0
    else if Param =? EDMA_NOT_COHERENT then ret 0
    else if Param =? EDMA_FROM_DEVICE then pal_exerciser_start_dma_direction Base EDMA_FROM_DEVICE
    else if Param =? EDMA_TO_DEVICE then pal_exerciser_start_dma_direction Base EDMA_TO_DEVICE
    else ret 1
  else if Ops =? GENERATE_MSI then
    update_reg (reg MSICTL) (fun v => Z.lor (Z.lor v MSI_GENERATION_MASK) Param) ;; ret 0
  else if Ops =? GENERATE_L_INTR then
    update_reg (reg INTXCTL) (fun v => Z.lor v MASK_BIT) ;; ret 0
  else if Ops =? MEM_READ then ret 0
  else if Ops =? MEM_WRITE then ret 0
  else if Ops =? CLEAR_INTR then
    update_reg (reg INTXCTL) (fun v => Z.land v CLR_INTR_MASK) ;; ret 0
  else if Ops =? PASID_TLP_START then
    let* data := pal_mmio_read (reg DMACTL1) in
    let data := u32 (Z.land data (not64 (Z.shiftl PASID_VAL_MASK PASID_VAL_SHIFT))) in
    let data := u32 (Z.lor data (Z.lor (Z.shiftl MASK_BIT 6)
                  (Z.shiftl (Z.land Param PASID_VAL_MASK) PASID_VAL_SHIFT))) in
    pal_mmio_write (reg DMACTL1) data ;;
    pasid_control fuel Ecam Bdf (fun v => Z.lor v PCIE_CAP_EN_MASK)
  else if Ops =? PASID_TLP_STOP then
    update_reg (reg DMACTL1) (fun v => Z.land v PASID_TLP_STOP_MASK) ;;
    pasid_control fuel Ecam Bdf (fun v => Z.land v PCIE_CAP_DIS_MASK)
  else if Ops =? TXN_NO_SNOOP_ENABLE then
    update_reg (reg DMACTL1) (fun v => Z.lor v NO_SNOOP_START_MASK) ;; ret 0
  else if Ops =? TXN_NO_SNOOP_DISABLE then
    update_reg (reg DMACTL1) (fun v => Z.land v NO_SNOOP_STOP_MASK) ;; ret 0
  else ret 1.

Definition offset_table : list Z := [0x00; 0x08; 0x00; 0x08; 0x00; 0x08; 0x00; 0x08; 0x00; 0x08].
Definition attr_table : list Z := replicate 10 ACCESS_TYPE_RD.

(** The registers read so far, in order. *)
Definition pal_exerciser_get_data (Type_ Bdf Ecam : Z) : M (Z * option exerciser_data_t) :=
  let cfg := pal_exerciser_get_pcie_config_offset Bdf in
  let EcamBase := u64 (Ecam + cfg) in
  if Type_ =? EXERCISER_DATA_CFG_SPACE then
    let* regs := for_acc (Z.to_nat TEST_REG_COUNT) 0 (fun Index regs =>
      let* offset := need (offset_table !! Z.to_nat Index) in
      let* attribute := need (attr_table !! Z.to_nat Index) in
      let* value := pal_mmio_read (u64 (EcamBase + offset)) in
      ret (regs ++ [mkEcamReg (u32 (offset + cfg)) attribute value])) [] in
    ret (0, Some (cfg_space_data regs))
  else if Type_ =? EXERCISER_DATA_BAR0_SPACE then
    let* EcamBAR0 := pal_exerciser_get_ecsr_base Bdf 0 in
    let* base := pal_exerciser_get_ecsr_base Bdf 0 in
    ret (0, Some (bar_space_data EcamBAR0
      (if Z.land (Z.shiftr base PREFETCHABLE_BIT_SHIFT) MASK_BIT =? 0x1 then MMIO_PREFETCHABLE
       else MMIO_NON_PREFETCHABLE)))
  else ret (1, None).

(** The reference driver implements the interface of the exerciser cards. *)
Definition reference_exerciser (fuel : nat) : PalExerciser D := {|
  Peripherals.pal_is_bdf_exerciser := pal_is_bdf_exerciser;
  Peripherals.pal_exerciser_get_state := pal_exerciser_get_state;
  Peripherals.pal_exerciser_set_param := pal_exerciser_set_param;
  Peripherals.pal_exerciser_get_param := pal_exerciser_get_param;
  Peripherals.pal_exerciser_set_state := pal_exerciser_set_state;
  Peripherals.pal_exerciser_ops := pal_exerciser_ops fuel;
  Peripherals.pal_exerciser_get_data := pal_exerciser_get_data
|}.
End pal_exerciser.

(** ** A card whose registers hold what is written to them *)

Definition reg_at (m : gmap Z Z) (a : Z) : Z := u32 (default 0 (m !! a)).

Lemma reg_at_insert m a v b : fits 32 v -> reg_at (<[a := v]> m) b = if a =? b then v else reg_at m b.
Proof.
  intros Hv. unfold reg_at. destruct (Z.eqb_spec a b) as [->|N]; [by rewrite lookup_insert_eq, u32_id|].
  by rewrite lookup_insert_ne.
Qed.

(** A field of [n] bits from bit [k] replaced, as the driver does it. *)
Definition field_put (v k n x : Z) : Z :=
  u32 (Z.lor (u32 (Z.land v (not64 (Z.shiftl (Z.ones n) k)))) (Z.shiftl (Z.land x (Z.ones n)) k)).

Lemma field_put_bit v k n x i : 0 <= k -> 0 <= n -> k + n <= 32 -> 0 <= i < 32 ->
  Z.testbit (field_put v k n x) i =
  if (k <=? i) && (i <? k + n) then Z.testbit x (i - k) else Z.testbit v i.
Proof.
  intros Hk Hn Hs Hi. unfold field_put, not64, u32, u64. autorewrite with bits.
  destruct (Z.leb_spec k i) as [H1|H1]; cbn [andb].
  - rewrite !Z.testbit_ones_nonneg by lia. destruct (Z.ltb_spec i (k + n)) as [H2|H2].
    + rewrite !(proj2 (Z.ltb_lt _ _)) by lia. cbn. by rewrite !andb_false_r, andb_true_r.
    + rewrite (proj2 (Z.ltb_ge (i - k) n)), !(proj2 (Z.ltb_lt i _)) by lia. cbn.
      by rewrite !andb_false_r, !andb_true_r, orb_false_r.
  - rewrite !(Z.testbit_neg_r _ (i - k)), !(proj2 (Z.ltb_lt i _)) by lia. cbn.
    by rewrite !andb_true_r, orb_false_r.
Qed.

Lemma field_put_get v k n x : 0 <= k -> 0 <= n -> k + n <= 32 ->
  Z.land (Z.shiftr (field_put v k n x) k) (Z.ones n) = x mod 2 ^ n.
Proof.
  intros Hk Hn Hs. apply Z.bits_inj'. intros i Hi. autorewrite with bits.
  destruct (Z.ltb_spec i n); [|by rewrite andb_false_r].
  rewrite andb_true_r, field_put_bit by lia.
  rewrite (proj2 (Z.leb_le _ _)), (proj2 (Z.ltb_lt _ _)) by lia. by replace (i + k - k) with i by lia.
Qed.

Lemma field_put_fits v k n x : fits 32 (field_put v k n x).
Proof. apply fits_u32. Qed.

(** The control register while PASID [p] is sent, and after. *)
Definition pasid_sent (v p : Z) : Z :=
  u32 (Z.lor (u32 (Z.land v (not64 (Z.shiftl PASID_VAL_MASK PASID_VAL_SHIFT))))
         (Z.lor (Z.shiftl MASK_BIT 6) (Z.shiftl (Z.land p PASID_VAL_MASK) PASID_VAL_SHIFT))).

Lemma pasid_sent_put v p : pasid_sent v p = Z.lor (field_put v 12 20 p) (2 ^ 6).
Proof.
  apply Z.bits_inj'. intros i Hi. unfold pasid_sent, field_put. rewrite Z.lor_spec.
  destruct (Z_lt_le_dec i 32).
  - unfold u32 at 1 3. rewrite !testbit_mod2 by lia. rewrite (proj2 (Z.ltb_lt i 32)) by lia. cbn [andb].
    rewrite !Z.lor_spec. change (Z.shiftl MASK_BIT 6) with (2 ^ 6).
    by destruct (Z.testbit (u32 _) i), (Z.testbit (2 ^ 6) i), (Z.testbit (Z.shiftl _ _) i).
  - rewrite !(testbit_high (u32 _) 32) by (apply fits_u32 || lia).
    by rewrite Z.pow2_bits_false by lia.
Qed.

Lemma pasid_sent_fields v p :
  Z.testbit (pasid_sent v p) 6 = true /\ Z.shiftr (pasid_sent v p) 12 = p mod 2 ^ 20 /\
  forall i, 0 <= i < 12 -> i <> 6 -> Z.testbit (pasid_sent v p) i = Z.testbit v i.
Proof.
  rewrite pasid_sent_put. split; [|split].
  - rewrite Z.lor_spec, Z.pow2_bits_true by lia. apply orb_true_r.
  - apply Z.bits_inj'. intros i Hi. rewrite Z.shiftr_spec, Z.lor_spec, Z.pow2_bits_false, orb_false_r, testbit_mod2 by lia.
    destruct (Z.ltb_spec i 20).
    + rewrite field_put_bit by lia. rewrite (proj2 (Z.leb_le _ _)), (proj2 (Z.ltb_lt _ _)) by lia.
      cbn. by replace (i + 12 - 12) with i by lia.
    + by rewrite (testbit_high (field_put _ _ _ _) 32) by (apply field_put_fits || lia).
  - intros i Hi N. rewrite Z.lor_spec, Z.pow2_bits_false, orb_false_r, field_put_bit by lia.
    by rewrite (proj2 (Z.leb_gt _ _)) by lia.
Qed.

Lemma pasid_stopped d p : fits 32 d -> Z.shiftr d 12 = p ->
  let d' := u32 (Z.land d PASID_TLP_STOP_MASK) in
  Z.testbit d' 6 = false /\ Z.shiftr d' 12 = p /\
  forall i, 0 <= i < 12 -> i <> 6 -> Z.testbit d' i = Z.testbit d i.
Proof.
  intros Hd <- d'. assert (Hb : forall i, 0 <= i -> Z.testbit d' i = Z.testbit d i && negb (i =? 6)).
  { intros i Hi. unfold d', u32. rewrite testbit_mod2, Z.land_spec by lia.
    destruct (Z_lt_le_dec i 32) as [Hlt|Hge].
    - rewrite (proj2 (Z.ltb_lt _ _)) by lia. cbn [andb]. f_equal.
      change PASID_TLP_STOP_MASK with (Z.lxor (Z.ones 32) (2 ^ 6)).
      rewrite Z.lxor_spec, Z.testbit_ones_nonneg, (proj2 (Z.ltb_lt _ _)), Z.pow2_bits_eqb, Z.eqb_sym by lia.
      by destruct (i =? 6).
    - rewrite (proj2 (Z.ltb_ge _ _)) by lia. by rewrite (testbit_high d 32) by (apply Hd || lia). }
  split; [by rewrite Hb, andb_false_r by lia|]. split.
  - apply Z.bits_inj'. intros i Hi. rewrite !Z.shiftr_spec, Hb by lia.
    rewrite (proj2 (Z.eqb_neq _ _)) by lia. apply andb_true_r.
  - intros i Hi N. rewrite Hb, (proj2 (Z.eqb_neq _ _)) by lia. apply andb_true_r.
Qed.

(** The enable bit of the capability. *)
Lemma enable_bit v : Z.testbit (u32 (Z.lor v PCIE_CAP_EN_MASK)) 16 = true.
Proof. unfold u32. rewrite testbit_mod2, Z.lor_spec by lia. by rewrite orb_true_r. Qed.
Lemma disable_bit v : Z.testbit (u32 (Z.land v PCIE_CAP_DIS_MASK)) 16 = false.
Proof. unfold u32. rewrite testbit_mod2, Z.land_spec by lia. by rewrite andb_false_r. Qed.

Section card.
Context {D : Type} `{Platform D} `{PciIo D}.

(** The worlds [W m], where the registers hold [m]: card number [instance] is the function
    [bdf], whose registers are at [base]; what is written to a register of [A] is read back. *)
Record card_at (W : gmap Z Z -> world D) (A : Z -> Prop) (instance bdf base ecam : Z) : Prop := {
  card_listed : forall m, exists e,
    e_info (g_exercier_info_table (W m)) !! Z.to_nat instance = Some e /\ e_bdf e = bdf;
  card_base : forall m, eval (palPcieGetBase bdf 0) (W m) base (W m);
  card_ecam : forall m, eval ecam_32 (W m) ecam (W m);
  card_read : forall m a, A a -> eval (pal_mmio_read a) (W m) (reg_at m a) (W m);
  card_write : forall m a v, A a -> eval (pal_mmio_write a v) (W m) tt (W (<[a := v]> m))
}.

Context (fuel : nat) (W : gmap Z Z -> world D) (A : Z -> Prop) (instance bdf base ecam : Z).
Context (Hcard : card_at W A instance bdf base ecam).

(** The validation layer on the reference driver. *)
#[local] Instance card_driver : PalExerciser D := reference_exerciser fuel.

Definition ecsr (offset : Z) : Z := u64 (base + offset).
Definition cfg_reg (offset : Z) : Z := u64 (ecam + pal_exerciser_get_pcie_config_offset bdf + offset).

Lemma eval_on_card {X} (k : Z -> Prelude.M (world D) X) m x w' :
  eval (k bdf) (W m) x w' -> eval (let* e := exerciser_entry instance in k (e_bdf e)) (W m) x w'.
Proof.
  intros Hk. destruct (card_listed _ _ _ _ _ _ Hcard m) as (e & He & <-). eapply eval_bind; [|exact Hk].
  unfold exerciser_entry. eapply eval_bind; [by apply eval_gets|]. by apply eval_need.
Qed.

Lemma eval_update_reg m a f : A a ->
  eval (update_reg a f) (W m) tt (W (<[a := u32 (f (reg_at m a))]> m)).
Proof.
  intros Ha. unfold update_reg. eapply eval_bind; [by apply (card_read _ _ _ _ _ _ Hcard)|].
  by apply (card_write _ _ _ _ _ _ Hcard).
Qed.

(** ** Parameters *)

(** C30: What is set of a card is what is read of it: the length of a PASID, if it is from 16
    to 23 bits, in its field of the control register, whose other bits are kept; and the
    address and the length of a DMA transfer, of which only the low 32 bits are. *)
Theorem exerciser_params_roundtrip m L v a len :
  (forall off, off ∈ [DMACTL1; DMA_BUS_ADDR; DMA_LEN; DMASTATUS] -> A (ecsr off)) ->
  ecsr DMA_BUS_ADDR <> ecsr DMA_LEN -> 16 <= L < 24 ->
  let d := field_put (reg_at m (ecsr DMACTL1)) 7 3 (L - 16) in
  let m1 := <[ecsr DMACTL1 := d]> m in
  let m2 := <[ecsr DMA_LEN := u32 len]> (<[ecsr DMA_BUS_ADDR := u32 a]> m) in
  let status := reg_at m2 (ecsr DMASTATUS) in
  eval (val_exerciser_set_param PASID_ATTRIBUTES L v instance) (W m) 0 (W m1) /\
  eval (val_exerciser_get_param PASID_ATTRIBUTES instance) (W m1) (0, Some L, None) (W m1) /\
  (forall i, 0 <= i < 32 -> i < 7 \/ 10 <= i -> Z.testbit d i = Z.testbit (reg_at m (ecsr DMACTL1)) i) /\
  eval (val_exerciser_set_param DMA_ATTRIBUTES a len instance) (W m) (Z.land status 3) (W m2) /\
  eval (val_exerciser_get_param DMA_ATTRIBUTES instance) (W m2)
    (Z.land status 1, Some (a mod 2 ^ 32), Some (len mod 2 ^ 32)) (W m2).
Proof.
  intros HA Hne HL d m1 m2 status.
  assert (Hr : forall m off, off ∈ [DMACTL1; DMA_BUS_ADDR; DMA_LEN; DMASTATUS] ->
    eval (pal_mmio_read (ecsr off)) (W m) (reg_at m (ecsr off)) (W m)) by
    (intros; by apply (card_read _ _ _ _ _ _ Hcard), HA).
  assert (Hw : forall m off x, off ∈ [DMACTL1; DMA_BUS_ADDR; DMA_LEN; DMASTATUS] ->
    eval (pal_mmio_write (ecsr off) x) (W m) tt (W (<[ecsr off := x]> m))) by
    (intros; by apply (card_write _ _ _ _ _ _ Hcard), HA).
  pose proof (card_base _ _ _ _ _ _ Hcard) as Hbase.
  assert (Hin : DMACTL1 ∈ [DMACTL1; DMA_BUS_ADDR; DMA_LEN; DMASTATUS] /\
    DMA_BUS_ADDR ∈ [DMACTL1; DMA_BUS_ADDR; DMA_LEN; DMASTATUS] /\
    DMA_LEN ∈ [DMACTL1; DMA_BUS_ADDR; DMA_LEN; DMASTATUS] /\
    DMASTATUS ∈ [DMACTL1; DMA_BUS_ADDR; DMA_LEN; DMASTATUS]) by (rewrite !elem_of_cons; tauto).
  destruct Hin as (I1 & I2 & I3 & I4).
  split; [|split; [|split; [|split]]].
  - apply (eval_on_card (pal_exerciser_set_param PASID_ATTRIBUTES L v)).
    eapply eval_bind; [apply Hbase|]. cbv beta.
    eapply eval_bind; [by apply Hr|]. cbv beta zeta.
    eapply eval_bind; [|apply eval_ret]. rewrite (u64_id (L - 16)) by (unfold fits; lia). by apply Hw.
  - apply (eval_on_card (pal_exerciser_get_param PASID_ATTRIBUTES)).
    eapply eval_bind; [apply Hbase|]. cbv beta zeta.
    eapply eval_bind; [by apply Hr|]. cbv beta.
    replace L with (Z.land (Z.shiftr (reg_at m1 (ecsr DMACTL1)) PASID_LEN_SHIFT) PASID_LEN_MASK + 16) at 1;
      [apply eval_ret|].
    unfold m1. rewrite reg_at_insert, Z.eqb_refl by apply field_put_fits. unfold d.
    change PASID_LEN_MASK with (Z.ones 3). change PASID_LEN_SHIFT with 7.
    rewrite field_put_get by lia. rewrite Z.mod_small; lia.
  - intros i Hi Ho. unfold d. rewrite field_put_bit by lia.
    destruct (Z.leb_spec 7 i), (Z.ltb_spec i (7 + 3)); cbn; done || lia.
  - apply (eval_on_card (pal_exerciser_set_param DMA_ATTRIBUTES a len)).
    eapply eval_bind; [apply Hbase|]. cbv beta.
    eapply eval_bind; [by apply Hw|]. eapply eval_bind; [by apply Hw|].
    eapply eval_bind; [by apply Hr|]. apply eval_ret.
  - apply (eval_on_card (pal_exerciser_get_param DMA_ATTRIBUTES)).
    eapply eval_bind; [apply Hbase|]. cbv beta zeta.
    eapply eval_bind; [by apply Hr|]. eapply eval_bind; [by apply Hr|]. eapply eval_bind; [by apply Hr|].
    replace (reg_at m2 (ecsr DMA_BUS_ADDR)) with (u32 a).
    2: { unfold m2. rewrite !reg_at_insert by apply fits_u32. by rewrite Z.eqb_refl, (proj2 (Z.eqb_neq _ _)) by (by apply not_eq_sym). }
    replace (reg_at m2 (ecsr DMA_LEN)) with (u32 len); [apply eval_ret|].
    unfold m2. by rewrite reg_at_insert, Z.eqb_refl by apply fits_u32.
Qed.

(** ** PASIDs *)

(** The capability of the PASIDs in the configuration space. *)
Definition pasid_capability (m : gmap Z Z) (l : list Z) : option Z :=
  List.find (fun off => cap_id PCIE_ECAP (fun off => reg_at m (cfg_reg off)) off =? PASID) l.

Definition cap_list (m : gmap Z Z) (l : list Z) : Prop :=
  cap_chain (cap_next PCIE_ECAP (fun off => reg_at m (cfg_reg off))) PCIE_CAP_OFFSET l.

Definition cap_offset (off : Z) : Prop := 0 <= off < 4096 /\ off mod 4 = 0.
Context (Hcfg : forall off, 0 <= off < 4096 + PCIE_CAP_CTRL_OFFSET -> off mod 4 = 0 -> A (cfg_reg off)).

Lemma eval_find_pasid m l : cap_list m l -> (length l < fuel)%nat -> Forall cap_offset l ->
  eval (pal_exerciser_find_pcie_capability fuel PASID bdf PCIE) (W m)
    (match pasid_capability m l with Some off => (0, Some off) | None => (1, None) end) (W m).
Proof.
  intros Hc Hf Hl. unfold pal_exerciser_find_pcie_capability.
  eapply eval_bind; [apply (card_ecam _ _ _ _ _ _ Hcard)|]. cbv beta zeta.
  eapply eval_bind; [apply eval_ret|]. cbv beta iota.
  eapply eval_bind with (a := pasid_capability m l).
  2: { destruct (pasid_capability m l); [apply eval_ret|]. apply wp_bind, wp_bsa_print. by wp_step. }
  unfold cap_list in Hc. revert fuel Hf Hl.
  set (space := fun off => reg_at m (cfg_reg off)) in *. unfold pasid_capability. fold space.
  induction Hc as [|off l Hnz Hc IH]; intros fu Hf Hl; (destruct fu as [|fu]; [cbn in Hf; lia|]).
  - eapply eval_bind; apply eval_ret.
  - apply Forall_cons in Hl as [[Hr Ha] Hl].
    destruct (kind_fields PCIE_ECAP PCIE_CAP_ID_MASK PCIE_CAP_PTR_OFFSET PCIE_NXT_CAP_PTR_MASK space off)
      as [Hid Hn]; [by right|].
    eapply eval_bind.
    + cbv beta. unfold truthy. rewrite (proj2 (Z.eqb_neq off 0) Hnz). cbn [negb].
      eapply eval_bind; [apply (card_read _ _ _ _ _ _ Hcard), Hcfg; [unfold PCIE_CAP_CTRL_OFFSET; lia|done]|]. cbv beta.
      change (reg_at m (u64 (ecam + pal_exerciser_get_pcie_config_offset bdf + off))) with (space off).
      rewrite Hid, Hn. apply eval_ret.
    + cbn [List.find]. destruct (cap_id PCIE_ECAP space off =? PASID); [apply eval_ret|].
      apply IH; [cbn in Hf; lia|done].
Qed.

(** What follows the search: the control register of the capability. *)
Lemma eval_pasid_control m l f : cap_list m l -> (length l < fuel)%nat -> Forall cap_offset l ->
  eval (pasid_control fuel ecam bdf f) (W m)
    (match pasid_capability m l with Some _ => 0 | None => 1 end)
    (W (match pasid_capability m l with
        | Some off => let a := cfg_reg (off + PCIE_CAP_CTRL_OFFSET) in <[a := u32 (f (reg_at m a))]> m
        | None => m end)).
Proof.
  intros Hc Hf Hl. unfold pasid_control. eapply eval_bind; [by eapply eval_find_pasid|]. cbv beta.
  destruct (pasid_capability m l) as [off|] eqn:E; cbn iota; [|apply eval_ret].
  apply find_some in E as [Hin%list_elem_of_In _]. rewrite Forall_forall in Hl. destruct (Hl off Hin) as [Hr Ha].
  change (0 =? 0) with true. cbv iota. eapply eval_bind; [by apply eval_need|]. cbv beta.
  eapply eval_bind; [|apply eval_ret]. rewrite <- Z.add_assoc. fold (cfg_reg (off + PCIE_CAP_CTRL_OFFSET)).
  apply eval_update_reg, Hcfg; unfold PCIE_CAP_CTRL_OFFSET; [lia|]. by rewrite Z.add_mod, Ha.
Qed.

(** Starting and stopping the PASIDs, exactly. *)
Definition pasid_switched (m : gmap Z Z) (l : list Z) (f : Z -> Z) : gmap Z Z :=
  match pasid_capability m l with
  | Some off => let a := cfg_reg (off + PCIE_CAP_CTRL_OFFSET) in <[a := u32 (f (reg_at m a))]> m
  | None => m
  end.

Definition pasid_status (m : gmap Z Z) (l : list Z) : Z :=
  match pasid_capability m l with Some _ => 0 | None => 1 end.

Definition on_dmactl1 (m : gmap Z Z) (v : Z) : gmap Z Z := <[ecsr DMACTL1 := v]> m.

Context (l : list Z) (Hlen : (length l < fuel)%nat) (Hin : Forall cap_offset l).
Context (Hctl : A (ecsr DMACTL1)).
Context (Hapart : forall off, 0 <= off < 4096 + PCIE_CAP_CTRL_OFFSET -> cfg_reg off <> ecsr DMACTL1).

Lemma eval_pasid_start m p : cap_list (on_dmactl1 m (pasid_sent (reg_at m (ecsr DMACTL1)) p)) l ->
  let m' := on_dmactl1 m (pasid_sent (reg_at m (ecsr DMACTL1)) p) in
  eval (val_exerciser_ops PASID_TLP_START p instance) (W m) (pasid_status m' l)
    (W (pasid_switched m' l (fun v => Z.lor v PCIE_CAP_EN_MASK))).
Proof.
  intros Hc m'. apply (eval_on_card (pal_exerciser_ops fuel PASID_TLP_START p)).
  eapply eval_bind; [apply (card_base _ _ _ _ _ _ Hcard)|]. cbv beta.
  eapply eval_bind; [apply (card_ecam _ _ _ _ _ _ Hcard)|]. cbv beta zeta.
  eapply eval_bind; [by apply (card_read _ _ _ _ _ _ Hcard)|]. cbv beta.
  eapply eval_bind; [by apply (card_write _ _ _ _ _ _ Hcard)|].
  by apply (eval_pasid_control m' l).
Qed.

Lemma eval_pasid_stop m q : let m' := on_dmactl1 m (u32 (Z.land (reg_at m (ecsr DMACTL1)) PASID_TLP_STOP_MASK)) in
  cap_list m' l ->
  eval (val_exerciser_ops PASID_TLP_STOP q instance) (W m) (pasid_status m' l)
    (W (pasid_switched m' l (fun v => Z.land v PCIE_CAP_DIS_MASK))).
Proof.
  intros m' Hc. apply (eval_on_card (pal_exerciser_ops fuel PASID_TLP_STOP q)).
  eapply eval_bind; [apply (card_base _ _ _ _ _ _ Hcard)|]. cbv beta.
  eapply eval_bind; [apply (card_ecam _ _ _ _ _ _ Hcard)|]. cbv beta zeta.
  eapply eval_bind; [by apply eval_update_reg|].
  by apply (eval_pasid_control m' l).
Qed.

(** Registers outside of the list do not change it. *)
Lemma cap_list_same m m' : (forall off, off ∈ l -> reg_at m' (cfg_reg off) = reg_at m (cfg_reg off)) ->
  cap_list m l -> cap_list m' l /\ pasid_capability m' l = pasid_capability m l.
Proof.
  unfold cap_list, pasid_capability. generalize PCIE_CAP_OFFSET. clear Hlen Hin.
  induction l as [|x k IH]; intros start Hs Hc.
  - inversion Hc; subst. split; [constructor|done].
  - inversion Hc as [|off k' Hnz Hk E1 E2]; subst.
    assert (Hx : reg_at m' (cfg_reg x) = reg_at m (cfg_reg x)) by (apply Hs; left).
    assert (Hk' : forall y, y ∈ k -> reg_at m' (cfg_reg y) = reg_at m (cfg_reg y)) by (intros; apply Hs; by right).
    destruct (IH _ Hk' Hk) as [IH1 IH2]. cbn [List.find].
    assert (E1 : cap_next PCIE_ECAP (fun off => reg_at m' (cfg_reg off)) x =
      cap_next PCIE_ECAP (fun off => reg_at m (cfg_reg off)) x) by (unfold cap_next; by rewrite Hx).
    split; [constructor; [done|by rewrite E1]|]. rewrite IH2. unfold cap_id. by rewrite Hx.
Qed.

(** The registers after the switch. *)
Definition control_reg (m : gmap Z Z) : Z :=
  match pasid_capability m l with
  | Some off => cfg_reg (off + PCIE_CAP_CTRL_OFFSET)
  | None => ecsr DMACTL1
  end.

Lemma control_reg_apart m off : pasid_capability m l = Some off ->
  off ∈ l /\ 0 <= off < 4096 /\ control_reg m = cfg_reg (off + PCIE_CAP_CTRL_OFFSET) /\
  control_reg m <> ecsr DMACTL1.
Proof.
  intros E. unfold control_reg. rewrite E. unfold pasid_capability in E.
  apply find_some in E as [Ho%list_elem_of_In _]. rewrite Forall_forall in Hin. destruct (Hin off Ho) as [Hr _].
  repeat (split; [done|]). apply Hapart. unfold PCIE_CAP_CTRL_OFFSET. lia.
Qed.

Lemma switched_reads m f a :
  reg_at (pasid_switched m l f) a =
  if bool_decide (pasid_status m l = 0 /\ a = control_reg m) then u32 (f (reg_at m a)) else reg_at m a.
Proof.
  unfold pasid_switched, pasid_status, control_reg. destruct (pasid_capability m l) as [off|]; cbv zeta.
  - rewrite reg_at_insert by apply fits_u32. case_bool_decide as E; [destruct E as [_ ->]; by rewrite Z.eqb_refl|].
    rewrite (proj2 (Z.eqb_neq _ _)); [done|]. intros <-. by apply E.
  - rewrite bool_decide_eq_false_2; [done|]. by intros [? _].
Qed.

(** The list is where it was after any of these changes. *)
Lemma switch_keeps m v f : fits 32 v -> fits 32 ecam -> cap_list m l ->
  (forall off, pasid_capability m l = Some off -> off + PCIE_CAP_CTRL_OFFSET ∉ l) ->
  let m' := pasid_switched (on_dmactl1 m v) l f in
  cap_list (on_dmactl1 m v) l /\ pasid_capability (on_dmactl1 m v) l = pasid_capability m l /\
  cap_list m' l /\ pasid_capability m' l = pasid_capability m l.
Proof.
  intros Hv He Hc Hout m'.
  assert (Hcfg1 : forall off, off ∈ l -> reg_at (on_dmactl1 m v) (cfg_reg off) = reg_at m (cfg_reg off)).
  { intros off Ho. rewrite Forall_forall in Hin. destruct (Hin off Ho) as [Hr _].
    unfold on_dmactl1. rewrite reg_at_insert by done. rewrite (proj2 (Z.eqb_neq _ _)); [done|].
    apply not_eq_sym, Hapart. unfold PCIE_CAP_CTRL_OFFSET. lia. }
  destruct (cap_list_same m _ Hcfg1 Hc) as [Hc' E'].
  assert (Hcfg2 : forall off, off ∈ l -> reg_at m' (cfg_reg off) = reg_at (on_dmactl1 m v) (cfg_reg off)).
  { intros off Ho. unfold m'. rewrite switched_reads, bool_decide_eq_false_2; [done|]. intros [Hst Ha].
    unfold pasid_status in Hst. destruct (pasid_capability (on_dmactl1 m v) l) as [x|] eqn:Ex; [|done].
    destruct (control_reg_apart _ x Ex) as (_ & Hx & Ectl & _). rewrite Ectl in Ha.
    rewrite Forall_forall in Hin. destruct (Hin off Ho) as [Hr _].
    apply (Hout x); [by rewrite <- E'|]. replace (x + PCIE_CAP_CTRL_OFFSET) with off; [done|].
    unfold cfg_reg, PCIE_CAP_CTRL_OFFSET in *.
    assert (Hf : fits 32 (pal_exerciser_get_pcie_config_offset bdf)) by apply fits_u32.
    unfold fits in *. rewrite !u64_id in Ha by (unfold fits; lia). lia. }
  destruct (cap_list_same _ _ Hcfg2 Hc') as [Hc2 E2]. rewrite E2, E'. done.
Qed.

Lemma switched_control m f : reg_at (pasid_switched m l f) (ecsr DMACTL1) = reg_at m (ecsr DMACTL1).
Proof.
  rewrite switched_reads, bool_decide_eq_false_2; [done|]. intros [Hst Ha].
  unfold pasid_status in Hst. destruct (pasid_capability m l) as [x|] eqn:Ex; [|done].
  by destruct (control_reg_apart _ x Ex) as (_ & _ & _ & N).
Qed.

Lemma other_kept m m' f v a : fits 32 v -> m' = on_dmactl1 m v -> a <> ecsr DMACTL1 -> a <> control_reg m' ->
  reg_at (pasid_switched m' l f) a = reg_at m a.
Proof.
  intros Hv -> Hne Hnc. rewrite switched_reads, bool_decide_eq_false_2 by (by intros [_ ?]).
  unfold on_dmactl1. rewrite reg_at_insert by done. by rewrite (proj2 (Z.eqb_neq _ _)) by (by apply not_eq_sym).
Qed.

(** C29: With a list of capabilities that has the one of the PASIDs, sending PASID [p] and
    stopping it both succeed. In between the card sends [p], kept in the upper bits of its
    control register, and the capability is enabled; after, neither; no other register is
    changed, and no other low bit of the control register. Without the capability both
    report a failure, but the card sends the PASID all the same. *)
Theorem exerciser_pasid_switch m p q :
  fits 32 ecam -> cap_list m l ->
  (forall off, pasid_capability m l = Some off -> off + PCIE_CAP_CTRL_OFFSET ∉ l) ->
  let dmactl1 := ecsr DMACTL1 in
  exists m1 m2,
    eval (val_exerciser_ops PASID_TLP_START p instance) (W m) (pasid_status m l) (W m1) /\
    eval (val_exerciser_ops PASID_TLP_STOP q instance) (W m1) (pasid_status m l) (W m2) /\
    Z.testbit (reg_at m1 dmactl1) 6 = true /\ Z.testbit (reg_at m2 dmactl1) 6 = false /\
    Z.shiftr (reg_at m1 dmactl1) 12 = p mod 2 ^ 20 /\ Z.shiftr (reg_at m2 dmactl1) 12 = p mod 2 ^ 20 /\
    (forall i, 0 <= i < 12 -> i <> 6 -> Z.testbit (reg_at m2 dmactl1) i = Z.testbit (reg_at m dmactl1) i) /\
    (pasid_status m l = 0 ->
       Z.testbit (reg_at m1 (control_reg m)) 16 = true /\ Z.testbit (reg_at m2 (control_reg m)) 16 = false) /\
    (forall a, a <> dmactl1 -> a <> control_reg m -> reg_at m1 a = reg_at m a /\ reg_at m2 a = reg_at m a).
Proof.
  intros He Hc Hout dmactl1.
  destruct (pasid_sent_fields (reg_at m dmactl1) p) as (P1 & P2 & P3).
  set (d := pasid_sent (reg_at m dmactl1) p) in *. set (m' := on_dmactl1 m d).
  set (m1 := pasid_switched m' l (fun v => Z.lor v PCIE_CAP_EN_MASK)).
  destruct (switch_keeps m d (fun v => Z.lor v PCIE_CAP_EN_MASK) (fits_u32 _) He Hc Hout) as (Hc' & E' & Hc1 & E1).
  fold m' m1 in Hc', E', Hc1, E1. set (d2 := u32 (Z.land (reg_at m1 dmactl1) PASID_TLP_STOP_MASK)).
  set (m2' := on_dmactl1 m1 d2). set (m2 := pasid_switched m2' l (fun v => Z.land v PCIE_CAP_DIS_MASK)).
  destruct (switch_keeps m1 d2 (fun v => Z.land v PCIE_CAP_DIS_MASK) (fits_u32 _) He Hc1) as (Hc2 & E2 & _).
  { intros off Ho. apply Hout. by rewrite <- E1. }
  fold m2' in Hc2, E2. rewrite E1 in E2.
  assert (Est : pasid_status m' l = pasid_status m l /\ pasid_status m1 l = pasid_status m l /\
    pasid_status m2' l = pasid_status m l) by (unfold pasid_status; by rewrite E', E1, E2).
  destruct Est as (S' & S1 & S2).
  assert (Ereg : control_reg m' = control_reg m /\ control_reg m2' = control_reg m) by
    (unfold control_reg; by rewrite E', E2).
  destruct Ereg as [R' R2].
  assert (Hd : reg_at m1 dmactl1 = d).
  { unfold m1. rewrite switched_control by done. unfold m', on_dmactl1. by rewrite reg_at_insert, Z.eqb_refl by apply fits_u32. }
  assert (Hd2 : reg_at m2 dmactl1 = d2).
  { unfold m2. rewrite switched_control by done. unfold m2', on_dmactl1. by rewrite reg_at_insert, Z.eqb_refl by apply fits_u32. }
  destruct (pasid_stopped d (p mod 2 ^ 20)) as (Q1 & Q2 & Q3); [apply fits_u32|done|].
  assert (Ed2 : d2 = u32 (Z.land d PASID_TLP_STOP_MASK)) by (unfold d2; by rewrite Hd).
  rewrite <- Ed2 in Q1, Q2, Q3.
  exists m1, m2. rewrite Hd, Hd2.
  split; [rewrite <- S'; by apply eval_pasid_start|]. split; [rewrite <- S2; by apply (eval_pasid_stop m1 q)|].
  do 4 (split; [done|]). split; [intros i Hi N; by rewrite Q3, P3 by done|]. split; [intros Hst; split|intros a Ha Hn; split].
  - unfold m1. rewrite switched_reads, bool_decide_eq_true_2 by (rewrite S'; done). apply enable_bit.
  - unfold m2. rewrite switched_reads, bool_decide_eq_true_2 by (rewrite S2; done). apply disable_bit.
  - apply (other_kept m m' (fun v => Z.lor v PCIE_CAP_EN_MASK) d a); [apply fits_u32|done|done|by rewrite R'].
  - transitivity (reg_at m1 a);
      [apply (other_kept m1 m2' (fun v => Z.land v PCIE_CAP_DIS_MASK) d2 a); [apply fits_u32|done|done|by rewrite R2]|].
    apply (other_kept m m' (fun v => Z.lor v PCIE_CAP_EN_MASK) d a); [apply fits_u32|done|done|by rewrite R'].
Qed.
End card.

(** ** A card on the concrete machine

    Bus 1, device 0, its registers at 0x80000000; one configuration space at 0x40000000. *)
#[local] Instance one_card_pci : PciIo machine := functions_pci [((0, 1, 0, 0), (0, 0x80000000))].

Definition card_world (m : gmap Z Z) : world machine :=
  set_g_exercier_info_table (mkExerciserTable 1 [mkExerciser 0x10000 0])
    (set_g_pcie_info_table (Some (mkEcamTable 1 [mkEcam 0x40000000 0 0 0xff])) (boot m ∅)).

Lemma one_card : card_at card_world (fun a => a mod 4 = 0) 0 0x10000 0x80000000 0x40000000.
Proof.
  split.
  - intros m. by eexists.
  - intros m. by vm_compute.
  - intros m. by vm_compute.
  - intros m a Ha. apply wp_pal_mmio_read. rewrite Ha, Z.sub_0_r. done.
  - intros m a v Ha. by split.
Qed.

(** Two capabilities, of which the second is the one of the PASIDs, enabled by hand before;
    the control register starts with bits that are not about PASIDs set. *)
Definition card_regs : gmap Z Z :=
  {[ 0x80000008 := 0x12345083; 0x8000001C := 5; 0x40100100 := 0x14010001; 0x40100140 := 0x1001B; 0x40100144 := 0x6 ]}.

Lemma aligned_at (b off : Z) : b mod 4 = 0 -> off mod 4 = 0 -> 0 <= b + off < 2 ^ 64 -> u64 (b + off) mod 4 = 0.
Proof. intros Hb Ho Hf. rewrite u64_id by done. by rewrite Z.add_mod, Hb, Ho. Qed.

(** PASIDs of 20 bits; an address that does not fit the 32 bits of the register. *)
Lemma exerciser_params_roundtrip_witness :
  let m1 := <[0x80000008 := 0x12345203]> card_regs in
  let m2 := <[0x80000018 := 0x100]> (<[0x80000010 := 0x23456000]> card_regs) in
  eval (val_exerciser_set_param (H0 := card_driver 3) PASID_ATTRIBUTES 20 0 0) (card_world card_regs) 0 (card_world m1) /\
  eval (val_exerciser_get_param (H0 := card_driver 3) PASID_ATTRIBUTES 0) (card_world m1) (0, Some 20, None) (card_world m1) /\
  eval (val_exerciser_get_param (H0 := card_driver 3) DMA_ATTRIBUTES 0) (card_world m2)
    (1, Some 0x23456000, Some 0x100) (card_world m2).
Proof.
  destruct (exerciser_params_roundtrip 3 card_world _ 0 0x10000 0x80000000 0x40000000 one_card card_regs
    20 0 0x123456000 0x100) as (W1 & W2 & _ & _ & W3).
  - intros off. rewrite !elem_of_cons, elem_of_nil. intros [->|[->|[->|[->|[]]]]]; by apply aligned_at.
  - by vm_compute.
  - lia.
  - split; [exact W1|]. split; [exact W2|exact W3].
Defined.

(** PASID 0x1BEEF, sent with the bits of another one in the register before. *)
Lemma exerciser_pasid_switch_witness :
  exists m1 m2,
    eval (val_exerciser_ops (H0 := card_driver 3) PASID_TLP_START 0x1BEEF 0) (card_world card_regs) 0 (card_world m1) /\
    eval (val_exerciser_ops (H0 := card_driver 3) PASID_TLP_STOP 0 0) (card_world m1) 0 (card_world m2) /\
    Z.testbit (reg_at m1 0x40100144) 16 = true /\ Z.testbit (reg_at m2 0x40100144) 16 = false.
Proof.
  destruct (exerciser_pasid_switch 3 card_world _ 0 0x10000 0x80000000 0x40000000 one_card)
    with (l := [0x100; 0x140]) (m := card_regs) (p := 0x1BEEF) (q := 0)
    as (m1 & m2 & W1 & W2 & _ & _ & _ & _ & _ & W3 & _).
  - intros off Hr Ha. apply (aligned_at 0x40100000); [done|done|].
    unfold PCIE_CAP_CTRL_OFFSET in Hr. lia.
  - cbn. lia.
  - by repeat constructor.
  - by apply aligned_at.
  - intros off Hr. unfold PCIE_CAP_CTRL_OFFSET in Hr. change (u64 (0x40100000 + off) <> 0x80000008).
    rewrite u64_id; [|split]; lia.
  - by vm_compute.
  - repeat (constructor; [done|]). constructor.
  - intros off E Ho. assert (off = 0x140) as -> by (vm_compute in E; by injection E).
    rewrite !elem_of_cons, elem_of_nil in Ho. unfold PCIE_CAP_CTRL_OFFSET in Ho. lia.
  - exists m1, m2. destruct W3 as [W3 W4]; [by vm_compute|].
    exact (conj W1 (conj W2 (conj W3 W4))).
Defined.
