(* ===== verification/PalIovirt.v ===== *)
(** * The platform layer: the I/O virtualisation table

    The table built from the ACPI IORT or from the device tree
    (src/platform/pal_uefi_dt/src/pal_iovirt.c). Its blocks have variable size and are
    written in place, several of them at once, so the table is its memory: 32-bit words by
    byte offset, and a pointer into it is an offset. *)

From S2P Require Import Prelude Types World Machine Fdt.
#[local] Open Scope c_scope.

(** pal_iovirt.c *)
Definition smmu_dt_arr : list string := ["arm,smmu-v1"].
Definition smmu3_dt_arr : list string := ["arm,smmu-v3"].

(** platform_override.h *)
Definition PLATFORM_OVERRIDE_SMMU_BASE : Z := 0.
Definition PLATFORM_OVERRIDE_SMMU_ARCH_MAJOR : Z := 3.

Definition IOVIRT_CCA_MASK : Z := 0xFFFFFFFF.

(** ** The layout *)

(** The counters of [IOVIRT_INFO_TABLE]; the blocks start at [IOVIRT_FIRST_BLOCK]. *)
Definition at_num_blocks : Z := 0.
Definition at_num_smmus : Z := 4.
Definition at_num_pci_rcs : Z := 8.
Definition at_num_named_components : Z := 12.
Definition at_num_its_groups : Z := 16.
Definition at_num_pmcgs : Z := 20.

(** The fields of an [IOVIRT_BLOCK]; those of the union [NODE_DATA] from its data. *)
Definition at_type : Z := 0.
Definition at_num_data_map : Z := 4.
Definition at_data : Z := 8.
Definition at_flags : Z := 264.
Definition at_data_map : Z := 268.
Definition NODE_DATA_WORDS : Z := 64.

Definition at_rc_segment : Z := 0.
Definition at_rc_ats_attr : Z := 4.
Definition at_rc_cca : Z := 8.
Definition at_rc_smmu_base : Z := 16.
Definition at_smmu_arch_major_rev : Z := 0.
Definition at_smmu_base : Z := 8.
Definition at_pmcg_base : Z := 0.
Definition at_pmcg_overflow_gsiv : Z := 8.
Definition at_pmcg_node_ref : Z := 12.

(** An [ID_MAP]. *)
Definition at_input_base : Z := 0.
Definition at_id_count : Z := 4.
Definition at_output_base : Z := 8.
Definition at_output_ref : Z := 12.

(** [AsciiStrnCpyS(name, 256, source, 255)] of EDK2 on a cleared name: the words it
    leaves, up to the last that is not 0. *)
Class AsciiCopy (D : Type) := { AsciiStrnCpyS : Z -> list Z }.

(** ** The IORT (pal_iovirt.h; packed) *)

Section iort.
Context {D : Type} `{Acpi D}.

Definition node_type (node : Z) : Z := acpi_load 1 node.
Definition node_length (node : Z) : Z := acpi_load 2 (node + 1).
Definition mapping_count (node : Z) : Z := acpi_load 4 (node + 8).
Definition mapping_offset (node : Z) : Z := acpi_load 4 (node + 12).
Definition node_data (node : Z) : Z := node + 16.

(** The mapping at an address. *)
Definition map_input_base (map : Z) : Z := acpi_load 4 map.
Definition map_id_count (map : Z) : Z := acpi_load 4 (map + 4).
Definition map_output_base (map : Z) : Z := acpi_load 4 (map + 8).
Definition map_output_reference (map : Z) : Z := acpi_load 4 (map + 12).
Definition sizeof_IORT_ID_MAPPING : Z := 20.

Definition iort_its_count (node_data : Z) : Z := acpi_load 4 node_data.
Definition iort_identifier (node_data i : Z) : Z := acpi_load 4 (node_data + 4 + 4 * i).
Definition iort_device_name (node_data : Z) : Z := node_data + 13.
Definition iort_memory_properties (node_data : Z) : Z := acpi_load 8 node_data.
Definition iort_ats_attribute (node_data : Z) : Z := acpi_load 4 (node_data + 8).
Definition iort_pci_segment_number (node_data : Z) : Z := acpi_load 4 (node_data + 12).
Definition iort_base_address (node_data : Z) : Z := acpi_load 8 node_data.
Definition iort_context_interrupt_count (node_data : Z) : Z := acpi_load 4 (node_data + 28).
Definition iort_context_interrupt_offset (node_data : Z) : Z := acpi_load 4 (node_data + 32).
Definition iort_overflow_interrupt_gsiv (node_data : Z) : Z := acpi_load 4 (node_data + 8).
Definition iort_node_reference (node_data : Z) : Z := acpi_load 4 (node_data + 12).
End iort.

Section pal_iovirt.
Context {D : Type} `{Platform D} `{SystemTable D} `{Acpi D} `{AsciiCopy D} `{Fdt D}.

#[local] Abbreviation B := (Prelude.M (gmap Z Z * world D)).

(** ** The memory of the table *)

(** Outside of the memory of the table there is nothing to read or write. *)
Definition ld (off : Z) : B Z := let* t := table in need (t !! off).
Definition st (off v : Z) : B () :=
  edit_at (fun t => match t !! off with Some _ => Some (<[off := v]> t) | None => None end).

Definition ld64 (off : Z) : B Z :=
  let* lo := ld off in let* hi := ld (off + 4) in ret (lo + 2 ^ 32 * hi).
Definition st64 (off v : Z) : B () := st off (v mod 2 ^ 32) ;; st (off + 4) (v / 2 ^ 32).

(** [x = x + 1] on a counter. *)
Definition count_one (off : Z) : B () := let* v := ld off in st off (u32 (v + 1)).

(** [SetMem(data, sizeof(NODE_DATA), 0)] *)
Definition clear_data (data : Z) : B () :=
  for_each (Z.to_nat NODE_DATA_WORDS) 0 (fun i => st (data + 4 * i) 0).

(** The block after the one at [block]. *)
Definition next_of (block : Z) : B Z :=
  let* n := ld (block + at_num_data_map) in ret (block + at_data_map + n * NODE_DATA_MAP_SIZE).

(** ** Parsing the IORT *)

Definition iovirt_create_override_table : B () :=
  st at_num_blocks 1 ;; st at_num_smmus 1 ;;
  let data := IOVIRT_FIRST_BLOCK + at_data in
  st64 (data + at_smmu_base) PLATFORM_OVERRIDE_SMMU_BASE ;;
  st (data + at_smmu_arch_major_rev) PLATFORM_OVERRIDE_SMMU_ARCH_MAJOR.

(** Of each 64-bit entry the low half is the interrupt. *)
Definition smmu_ctx_int_distinct (ctx_int ctx_int_cnt : Z) : B Z :=
  let* r := for_ (Z.to_nat (ctx_int_cnt - 1)) 0 (fun i _ =>
    let* r := for_ (Z.to_nat (ctx_int_cnt - (i + 1))) (i + 1) (fun j _ =>
      ret (if acpi_load 4 (ctx_int + 8 * i) =? acpi_load 4 (ctx_int + 8 * j) then Break tt
           else Continue tt)) tt in
    ret (match r with Break _ => Break tt | Continue _ => Continue tt end)) tt in
  ret (match r with Break _ => 0 | Continue _ => 1 end).

(** [!CompareMem(a, b, 4 * n)] *)
Definition same_words (a b n : Z) : B bool :=
  let* r := for_ (Z.to_nat n) 0 (fun i _ =>
    let* x := ld (a + 4 * i) in
    let* y := ld (b + 4 * i) in
    ret (if x =? y then Continue tt else Break tt)) tt in
  ret (match r with Continue _ => true | Break _ => false end).

(** The offset of the first block equal to the one at [key], up to its flags; for an ITS
    group the identifiers after them count too. 0 for none. *)
Definition find_block (key : Z) : B Z :=
  let* n := ld at_num_blocks in
  let* r := for_ (Z.to_nat n) 0 (fun _ block =>
    let* key_type := ld (key + at_type) in
    let* type := ld (block + at_type) in
    let* same :=
      if key_type =? type then
        let* cmp_size :=
          if type =? IOVIRT_NODE_ITS_GROUP then
            let* its_count := ld (block + at_data) in
            ret (u32 (at_flags + (its_count * 4 + 4)))
          else ret at_flags in
        same_words key block (cmp_size / 4)
      else ret false in
    if same : bool then ret (Break block)
    else let* block := next_of block in ret (Continue block)) IOVIRT_FIRST_BLOCK in
  ret (match r with Break block => block | Continue _ => 0 end).

(** The words of [AsciiStrnCpyS] and of [CopyMem], stored from [dst] on. *)
Definition store_words (dst : Z) (ws : list Z) : B () :=
  for_each (length ws) 0 (fun i => let* v := need (ws !! Z.to_nat i) in st (dst + 4 * i) v).

(** [switch(iort_node->type)]: the fields that depend on the type, and the counter of the
    type, [None] for an invalid one. [add] adds the block of a node at a place. *)
Definition add_node_data (add : Z -> Z -> B (Z * Z)) (iort node block : Z) : B (option Z) :=
  let type := node_type node in
  let data := block + at_data in
  let data_map := block + at_data_map in
  let nd := node_data node in
  if type =? IOVIRT_NODE_ITS_GROUP then
    let its_count := iort_its_count nd in
    st data its_count ;;
    for_each (Z.to_nat its_count) 0 (fun i => st (data_map + 4 * i) (iort_identifier nd i)) ;;
    st (block + at_num_data_map) (u32 (its_count + 3) / 4) ;;
    ret (Some at_num_its_groups)
  else if type =? IOVIRT_NODE_NAMED_COMPONENT then
    store_words data (AsciiStrnCpyS (iort_device_name nd)) ;;
    ret (Some at_num_named_components)
  else if type =? IOVIRT_NODE_PCI_ROOT_COMPLEX then
    st (data + at_rc_segment) (iort_pci_segment_number nd) ;;
    st (data + at_rc_cca) (Z.land (iort_memory_properties nd) IOVIRT_CCA_MASK) ;;
    st (data + at_rc_ats_attr) (iort_ats_attribute nd) ;;
    ret (Some at_num_pci_rcs)
  else if type =? IOVIRT_NODE_SMMU then
    st64 (data + at_smmu_base) (iort_base_address nd) ;;
    st (data + at_smmu_arch_major_rev) 2 ;;
    ret (Some at_num_smmus)
  else if type =? IOVIRT_NODE_SMMU_V3 then
    st64 (data + at_smmu_base) (iort_base_address nd) ;;
    st (data + at_smmu_arch_major_rev) 3 ;;
    ret (Some at_num_smmus)
  else if type =? IOVIRT_NODE_PMCG then
    st64 (data + at_pmcg_base) (iort_base_address nd) ;;
    st (data + at_pmcg_overflow_gsiv) (iort_overflow_interrupt_gsiv nd) ;;
    st (data + at_pmcg_node_ref) (iort_node_reference nd) ;;
    let* next_block := next_of block in
    let* node_ref := ld (data + at_pmcg_node_ref) in
    let* ' (offset, _) := add (iort + node_ref) next_block in
    st (data + at_pmcg_node_ref) offset ;;
    ret (Some at_num_pmcgs)
  else io (bsa_print ACS_PRINT_ERR "Invalid IORT node type\n" 0) ;; ret None.

(** Whether a block in the table is an SMMU. *)
Definition is_smmu_at (block : Z) : B bool :=
  let* type := ld (block + at_type) in
  ret ((type =? IOVIRT_NODE_SMMU) || (type =? IOVIRT_NODE_SMMU_V3)).

(** The end of a mapping: the offset of the block it refers to, and the SMMU base of a root
    complex, which is written in the data of a block of any type. *)
Definition map_refer (block data_map offset : Z) : B () :=
  let data := block + at_data in
  st (data_map + at_output_ref) offset ;;
  st64 (data + at_rc_smmu_base) 0 ;;
  let* type := ld (block + at_type) in
  let* behind :=
    if type =? IOVIRT_NODE_PCI_ROOT_COMPLEX then is_smmu_at offset else ret false in
  when (behind : bool) then
    (let* base := ld64 (offset + at_data + at_smmu_base) in
     st64 (data + at_rc_smmu_base) base).

(** One identifier mapping: its fields, then the block it refers to. *)
Definition add_mapping (add : Z -> Z -> B (Z * Z)) (iort block data_map map next_block : Z) : B Z :=
  st (data_map + at_input_base) (map_input_base map) ;;
  st (data_map + at_id_count) (map_id_count map) ;;
  st (data_map + at_output_base) (map_output_base map) ;;
  let* ' (offset, next_block) := add (iort + map_output_reference map) next_block in
  map_refer block data_map offset ;;
  ret next_block.

(** All of them, from [map] on. *)
Definition add_mappings (add : Z -> Z -> B (Z * Z)) (iort block map next_block : Z) : B Z :=
  let* num_data_map := ld (block + at_num_data_map) in
  for_acc (Z.to_nat num_data_map) 0 (fun i next_block =>
    add_mapping add iort block (block + at_data_map + i * NODE_DATA_MAP_SIZE)
      (map + i * sizeof_IORT_ID_MAPPING) next_block) next_block.

(** Adds the block of a node at [block], unless it is there already. The offset of its
    block, and the place of the next one. [fuel] bounds the depth of the references. *)
Fixpoint iort_add_block (fuel : nat) (iort iort_node block : Z) : B (Z * Z) :=
  match fuel with
  | O => out_of_fuel
  | S fuel =>
      let add := iort_add_block fuel iort in
      let data_map := block + at_data_map in
      let data := block + at_data in
      let nd := node_data iort_node in
      io (bsa_print ACS_PRINT_INFO "IORT node offset:%x, type: %d\n" (iort_node - iort)) ;;
      clear_data data ;;
      st (block + at_type) (node_type iort_node) ;;
      st (block + at_num_data_map) (mapping_count iort_node) ;;
      let* count := add_node_data add iort iort_node block in
      match count with
      | None => ret (u32 (-1), block)
      | Some count =>
      st (block + at_flags) 0 ;;
      let* offset := find_block block in
      if truthy offset then ret (offset, block)
      else
      let* next_block := next_of block in
      (when node_type iort_node =? IOVIRT_NODE_SMMU then
         (let* distinct := smmu_ctx_int_distinct (iort_node + iort_context_interrupt_offset nd)
                             (iort_context_interrupt_count nd) in
          when distinct =? 0 then
            (let* flags := ld (block + at_flags) in
             st (block + at_flags) (Z.lor flags (Z.shiftl 1 IOVIRT_FLAG_SMMU_CTX_INT_SHIFT))))) ;;
      let* type := ld (block + at_type) in
      let* next_block :=
        if negb (type =? IOVIRT_NODE_ITS_GROUP) then
          add_mappings add iort block (iort_node + mapping_offset iort_node) next_block
        else ret next_block in
      count_one at_num_blocks ;;
      count_one count ;;
      ret (block, next_block)
      end
  end.

(** ** Overlaps *)

Definition mapping_overlap (key_start key_end start end_ : Z) : bool :=
  ((start <=? key_start) && (key_start <=? end_)) || ((start <=? key_end) && (key_end <=? end_))
  || ((key_start <? start) && (end_ <? key_end)).

(** [block->flags |= (1 << shift)] *)
Definition raise_flag (block shift : Z) : B () :=
  let* flags := ld (block + at_flags) in st (block + at_flags) (Z.lor flags (Z.shiftl 1 shift)).

Definition map_range (map : Z) : B (Z * Z) :=
  let* start := ld (map + at_output_base) in
  let* id_count := ld (map + at_id_count) in
  ret (start, u32 (u32 (start + id_count) - 1)).

(** The mapping at [key_map] against one that follows it. *)
Definition compare_mappings (key_block key_map key_start key_end block map : Z) : B () :=
  let* ref := ld (map + at_output_ref) in
  let* key_ref := ld (key_map + at_output_ref) in
  if negb (ref =? key_ref) then ret tt
  else
    let* ' (start, end_) := map_range map in
    if mapping_overlap key_start key_end start end_ then
      let* type := ld (ref + at_type) in
      let shift := if type =? IOVIRT_NODE_ITS_GROUP then IOVIRT_FLAG_DEVID_OVERLAP_SHIFT
                   else IOVIRT_FLAG_STRID_OVERLAP_SHIFT in
      raise_flag key_block shift ;;
      raise_flag block shift ;;
      io (bsa_print ACS_PRINT_INFO
            (if type =? IOVIRT_NODE_ITS_GROUP then "Overlapping device ids %x-%x and %x-%x \n"
             else "Overlapping stream ids %x-%x and %x-%x \n") key_start)
    else ret tt.

(** [n] blocks from [block] on. *)
Definition over_blocks (n block : Z) (body : Z -> Z -> B ()) : B () :=
  for_acc (Z.to_nat n) 0 (fun i block => body (n - i) block ;; next_of block) block ;; ret tt.

(** Its maps against the key map; in the block of the key they start after it, as many as
    the block has but one. *)
Definition compare_block (key_block key_map key_start key_end block : Z) : B () :=
  let* type := ld (block + at_type) in
  if type =? IOVIRT_NODE_ITS_GROUP then ret tt
  else
    let* n_maps := ld (block + at_num_data_map) in
    let '(map, n_maps) :=
      if block =? key_block then (key_map + NODE_DATA_MAP_SIZE, u32 (n_maps - 1))
      else (block + at_data_map, n_maps) in
    for_each (Z.to_nat n_maps) 0 (fun i =>
      compare_mappings key_block key_map key_start key_end block (map + i * NODE_DATA_MAP_SIZE)).

Definition check_mapping_overlap : B () :=
  let* num_blocks := ld at_num_blocks in
  over_blocks num_blocks IOVIRT_FIRST_BLOCK (fun n_key_blocks key_block =>
    let* type := ld (key_block + at_type) in
    if type =? IOVIRT_NODE_ITS_GROUP then ret tt
    else
      let* n_key_maps := ld (key_block + at_num_data_map) in
      for_each (Z.to_nat n_key_maps) 0 (fun i =>
        let key_map := key_block + at_data_map + i * NODE_DATA_MAP_SIZE in
        let* ' (key_start, key_end) := map_range key_map in
        over_blocks n_key_blocks key_block (fun _ block =>
          compare_block key_block key_map key_start key_end block))).

(** ** What is printed of the table *)

Definition dump_maps (block : Z) : B () :=
  let p fmt v := io (bsa_print ACS_PRINT_INFO fmt v) in
  let* n := ld (block + at_num_data_map) in
  p "Number of ID Mappings:%d\n" n ;;
  for_each (Z.to_nat n) 0 (fun i =>
    let map := block + at_data_map + i * NODE_DATA_MAP_SIZE in
    let* v := ld (map + at_input_base) in
    p "\n input_base:0x%x\n id_count:0x%x\n output_base:0x%x\n" v ;;
    let* v := ld (map + at_output_ref) in
    p "\n output ref:0x%x\n" v) ;;
  p "\n" 0.

Definition dump_block (block : Z) : B () :=
  let p fmt v := io (bsa_print ACS_PRINT_INFO fmt v) in
  let map := block + at_data_map in
  let data := block + at_data in
  let maps := dump_maps block in
  let* type := ld (block + at_type) in
  if type =? IOVIRT_NODE_ITS_GROUP then
    let* id := ld map in
    p "\nITS Group:\n Num ITS:%d\n" id ;;
    let* n := ld data in
    for_each (Z.to_nat n) 0 (fun i => let* id := ld (map + 4 * i) in p "%d " id) ;;
    p "\n" 0
  else if type =? IOVIRT_NODE_NAMED_COMPONENT then
    p "\nNamed Component:\n Device Name:%a\n" data ;; maps
  else if type =? IOVIRT_NODE_PCI_ROOT_COMPLEX then
    let* v := ld (data + at_rc_segment) in
    p "\nRoot Complex:\n PCI segment number:%d\n" v ;; maps
  else if (type =? IOVIRT_NODE_SMMU) || (type =? IOVIRT_NODE_SMMU_V3) then
    let* v := ld (data + at_smmu_arch_major_rev) in
    p "\nSMMU:\n Major Rev:%d\n Base Address:0x%x\n" v ;; maps
  else if type =? IOVIRT_NODE_PMCG then
    let* v := ld64 (data + at_pmcg_base) in
    p "\nPMCG:\n Base:0x%x\n Overflow GSIV:0x%x\n Node Reference:0x%x\n" v ;; maps
  else maps.

Definition dump_iort_table : B () :=
  let* n := ld at_num_blocks in
  io (bsa_print ACS_PRINT_INFO "Number of IOVIRT blocks = %d\n" n) ;;
  over_blocks n IOVIRT_FIRST_BLOCK (fun _ => dump_block).

Definition clear_counters : B () :=
  for_each 6 0 (fun i => st (4 * i) 0).

(** ** From the device tree *)

(** The address in "reg": one cell, or two. *)
Definition smmu_reg_base (addr_cell : Z) (Preg_val : list Z) : B Z :=
  let* hi := need (cell Preg_val 0) in
  if addr_cell =? 1 then ret hi
  else
    let* lo := need (cell Preg_val 1) in
    ret (Z.lor (u64 (Z.shiftl hi 32)) lo).

(** A block with no mapping, its data cleared, and the place of the next one. *)
Definition dt_block (type next_block : Z) : B () :=
  st (next_block + at_type) type ;;
  st (next_block + at_flags) 0 ;;
  st (next_block + at_num_data_map) 0 ;;
  clear_data (next_block + at_data).

(** One SMMU node. *)
Definition smmu_node (msg : string) (type rev dt_ptr addr_cell offset next_block : Z)
  : B (option Z) :=
  let* n := ld at_num_smmus in
  io (bsa_print ACS_PRINT_DEBUG msg n) ;;
  let '(p, prop_len) := fdt_getprop_namelen dt_ptr offset "reg" 3 in
  match prop_value (p, prop_len) with
  | None =>
      io (bsa_print ACS_PRINT_ERR " PROPERTY reg offset %x, Error %d\n" offset) ;; ret None
  | Some Preg_val =>
      count_one at_num_smmus ;;
      count_one at_num_blocks ;;
      dt_block type next_block ;;
      let data := next_block + at_data in
      st (data + at_smmu_arch_major_rev) rev ;;
      let* base := smmu_reg_base addr_cell Preg_val in
      st64 (data + at_smmu_base) base ;;
      ret (Some (next_block + at_data_map))
  end.

(** The nodes of one kind of SMMU; [Break] is a return from the builder. The offset of the
    last search is kept from one string to the next. *)
Definition smmu_nodes (fuel : nat) (arr : list string) (msg : string) (type rev dt_ptr next_block : Z)
  : B (ctl (Z * Z) ()) :=
  for_ (length arr) 0 (fun i '(offset, next_block) =>
    let* compatible := need (arr !! Z.to_nat i) in
    let offset := fdt_node_offset_by_compatible dt_ptr offset compatible in
    if offset <? 0 then ret (Continue (offset, next_block))
    else
    let parent_offset := fdt_parent_offset dt_ptr offset in
    io (bsa_print ACS_PRINT_DEBUG " Parent Node offset %d\n" offset) ;;
    let size_cell := fdt_size_cells dt_ptr parent_offset in
    io (bsa_print ACS_PRINT_DEBUG " size cell %d\n" size_cell) ;;
    if size_cell <? 1 then
      io (bsa_print ACS_PRINT_ERR " Invalid size cell :%d\n" size_cell) ;; ret (Break tt)
    else
    let addr_cell := fdt_address_cells dt_ptr parent_offset in
    io (bsa_print ACS_PRINT_DEBUG " addr cell %d\n" addr_cell) ;;
    if addr_cell <? 1 then
      io (bsa_print ACS_PRINT_ERR " Invalid address cell : %d \n" addr_cell) ;; ret (Break tt)
    else
      let* r := while_node fuel (fun offset next_block =>
        let* r := smmu_node msg type rev dt_ptr addr_cell offset next_block in
        ret (match r with
             | Some next_block =>
                 Continue (fdt_node_offset_by_compatible dt_ptr offset compatible, next_block)
             | None => Break tt
             end)) offset next_block in
      ret (match r with
           | Continue next_block => Continue (- FDT_ERR_NOTFOUND, next_block)
           | Break v => Break v
           end)) (-1, next_block).

(** A root complex with an "iommu-map"; the phandle in its second cell is used as the offset
    of the SMMU node. *)
Definition rc_node (dt_ptr offset next_block : Z) (Preg_val : list Z) : B Z :=
  count_one at_num_pci_rcs ;;
  count_one at_num_blocks ;;
  dt_block IOVIRT_NODE_PCI_ROOT_COMPLEX next_block ;;
  let data := next_block + at_data in
  st (data + at_rc_segment) 0 ;;
  let* iommu_node := need (cell Preg_val 1) in
  let* Preg_val := need (fst (fdt_getprop_namelen dt_ptr iommu_node "reg" 3)) in
  let* hi := need (cell Preg_val 0) in
  let* lo := need (cell Preg_val 1) in
  st64 (data + at_rc_smmu_base) (Z.lor (u64 (Z.shiftl hi 32)) lo) ;;
  let absent name len :=
    if prop_value (fdt_get_property_namelen dt_ptr offset name len) is Some _ then 0 else 1 in
  st (data + at_rc_cca) (absent "dma-coherent" 12) ;;
  st (data + at_rc_ats_attr) (absent "ats-supported" 13) ;;
  ret (next_block + at_data_map).

Definition pal_iovirt_create_info_table_dt (fuel : nat) : B () :=
  let* dt_ptr := io pal_get_dt_ptr in
  if dt_ptr =? 0 then io (bsa_print ACS_PRINT_ERR " dt_ptr is NULL\n" 0)
  else
  clear_counters ;;
  let* r := smmu_nodes fuel smmu3_dt_arr " SMMUv3 node:%d offset:%d \n" IOVIRT_NODE_SMMU_V3 3 dt_ptr
              IOVIRT_FIRST_BLOCK in
  match r with
  | Break _ => ret tt
  | Continue (_, next_block) =>
  let* r := smmu_nodes fuel smmu_dt_arr " SMMUv2 node:%d offset:%d \n" IOVIRT_NODE_SMMU 2 dt_ptr
              next_block in
  match r with
  | Break _ => ret tt
  | Continue (_, next_block) =>
  let pci from := fdt_node_offset_by_prop_value dt_ptr from "device_type" "pci" 4 in
  let offset := pci (-1) in
  if offset <? 0 then io (bsa_print ACS_PRINT_DEBUG " PCIE node not found %d\n" offset)
  else
  let parent_offset := fdt_parent_offset dt_ptr offset in
  io (bsa_print ACS_PRINT_DEBUG " NODE pcie offset %d\n" offset) ;;
  let size_cell := fdt_size_cells dt_ptr parent_offset in
  io (bsa_print ACS_PRINT_DEBUG " NODE pcie size cell %d\n" size_cell) ;;
  if size_cell <? 0 then io (bsa_print ACS_PRINT_ERR " Invalid size cell \n" 0)
  else
  let addr_cell := fdt_address_cells dt_ptr parent_offset in
  io (bsa_print ACS_PRINT_DEBUG " NODE pcie addr cell %d\n" addr_cell) ;;
  if (addr_cell <=? 0) || (2 <? addr_cell) then
    io (bsa_print ACS_PRINT_ERR " Invalid address cell \n" 0)
  else
  while_node fuel (fun offset next_block =>
    io (bsa_print ACS_PRINT_DEBUG " SUBNODE  offset %x\n" offset) ;;
    let* next_block :=
      match prop_value (fdt_getprop_namelen dt_ptr offset "iommu-map" 9) with
      | Some Preg_val => rc_node dt_ptr offset next_block Preg_val
      | None => ret next_block
      end in
    ret (Continue (pci offset, next_block))) offset next_block ;;
  dump_iort_table ;;
  check_mapping_overlap
  end
  end.

(** ** From the IORT *)

Definition iovirt_from_iort (fuel : nat) (iort : Z) : B () :=
  let header := acpi_sizeof "EFI_ACPI_DESCRIPTION_HEADER" in
  let node_count := acpi_load 4 (iort + header) in
  let node_offset := acpi_load 4 (iort + header + 4) in
  let iort_end := iort + acpi_field "EFI_ACPI_DESCRIPTION_HEADER.Length" iort in
  let* r := for_ (Z.to_nat node_count) 0 (fun _ '(iort_node, next_block) =>
    if iort_end <=? iort_node then
      io (bsa_print ACS_PRINT_ERR "Bad IORT table \n" 0) ;; ret (Break tt)
    else
      let* ' (_, next_block) := iort_add_block fuel iort iort_node next_block in
      ret (Continue (iort_node + node_length iort_node, next_block)))
    (iort + node_offset, IOVIRT_FIRST_BLOCK) in
  match r with
  | Break _ => ret tt
  | Continue _ => dump_iort_table ;; check_mapping_overlap
  end.

Definition pal_iovirt_create_info_table (fuel : nat) : B () :=
  clear_counters ;;
  if truthy PLATFORM_OVERRIDE_SMMU_BASE then iovirt_create_override_table
  else
  let* iort := io pal_get_iort_ptr in
  if iort =? 0 then
    io (bsa_print ACS_PRINT_DEBUG "No IORT table found. Check DT table \n" 0) ;;
    pal_iovirt_create_info_table_dt fuel
  else iovirt_from_iort fuel iort.

(** ** The table the queries use *)

Definition block_of (t : gmap Z Z) (off : Z) : option IOVIRT_BLOCK :=
  type ← t !! (off + at_type);
  n ← t !! (off + at_num_data_map);
  data ← mapM (fun i => t !! (off + at_data + 4 * i)) (seqZ 0 NODE_DATA_WORDS);
  flags ← t !! (off + at_flags);
  maps ← mapM (fun i =>
    let m := off + at_data_map + i * NODE_DATA_MAP_SIZE in
    a ← t !! (m + at_input_base); b ← t !! (m + at_id_count);
    c ← t !! (m + at_output_base); d ← t !! (m + at_output_ref);
    Some (mkIdMap a b c d)) (seqZ 0 n);
  Some (mkIovirt type n data flags maps).

(** [n] blocks from [off] on, each with its offset. *)
Fixpoint blocks_from (n : nat) (t : gmap Z Z) (off : Z) : option (list (Z * IOVIRT_BLOCK)) :=
  match n with
  | O => Some []
  | S n =>
      b ← block_of t off;
      l ← blocks_from n t (IOVIRT_NEXT_BLOCK off b);
      Some ((off, b) :: l)
  end.

Definition iovirt_of (t : gmap Z Z) : option IOVIRT_INFO_TABLE :=
  blocks ← t !! at_num_blocks;
  smmus ← t !! at_num_smmus;
  rcs ← t !! at_num_pci_rcs;
  components ← t !! at_num_named_components;
  groups ← t !! at_num_its_groups;
  pmcgs ← t !! at_num_pmcgs;
  l ← blocks_from (Z.to_nat blocks) t IOVIRT_FIRST_BLOCK;
  Some (mkIovirtTable blocks smmus rcs components groups pmcgs (list_to_map l)).
End pal_iovirt.
