(* ===== verification/PalIort.v ===== *)
(** * The table built from an IORT is well formed

    The builder of PalIovirt lays out several blocks at once: while the mappings of a node
    are added, the blocks of the nodes they refer to are written after it. The theorems
    follow the chain of blocks, the open ones and the finished ones, through the
    recursion, for an IORT whose references have no cycle. *)

From S2P Require Import Prelude Types World Machine Fdt PalIovirt.
#[local] Open Scope c_scope.

(** ** Memory *)

Definition rd (t : gmap Z Z) (a : Z) : Z := default 0 (t !! a).

(** Every word below [size] is there. *)
Definition room (size : Z) (t : gmap Z Z) : Prop :=
  forall a, 0 <= a < size -> a mod 4 = 0 -> is_Some (t !! a).

(** [t'] is [t] but for the words from [lo] up to [hi]. *)
Definition only (lo hi : Z) (t t' : gmap Z Z) : Prop := forall a, a < lo \/ hi <= a -> t' !! a = t !! a.

Lemma rd_insert (t : gmap Z Z) a v b : rd (<[a := v]> t) b = if a =? b then v else rd t b.
Proof.
  unfold rd. destruct (Z.eqb_spec a b) as [->|N]; [by rewrite lookup_insert_eq|].
  by rewrite lookup_insert_ne.
Qed.

Lemma rd_only lo hi t t' a : only lo hi t t' -> a < lo \/ hi <= a -> rd t' a = rd t a.
Proof. intros Ho Ha. unfold rd. by rewrite Ho. Qed.

Lemma only_refl lo hi t : only lo hi t t.
Proof. done. Qed.
Lemma only_trans lo hi t1 t2 t3 : only lo hi t1 t2 -> only lo hi t2 t3 -> only lo hi t1 t3.
Proof. intros H1 H2 a Ha. by rewrite H2, H1. Qed.
Lemma only_insert lo hi t a v : lo <= a < hi -> only lo hi t (<[a := v]> t).
Proof. intros Ha b Hb. rewrite lookup_insert_ne by lia. done. Qed.
Lemma only_wider lo hi lo' hi' t t' : lo' <= lo -> hi <= hi' -> only lo hi t t' -> only lo' hi' t t'.
Proof. intros H1 H2 Ho a Ha. apply Ho. lia. Qed.

Lemma room_insert size t a v : room size t -> room size (<[a := v]> t).
Proof.
  intros Hr b Hb Hm. destruct (decide (a = b)) as [->|N]; [rewrite lookup_insert_eq; eauto|].
  rewrite lookup_insert_ne by done. by apply Hr.
Qed.

#[export] Hint Resolve only_refl room_insert : core.

Section memory.
Context {D : Type} `{Platform D}.

Lemma wp_ld size t (w : world D) a (Q : Z -> gmap Z Z * world D -> Prop) :
  room size t -> 0 <= a < size -> a mod 4 = 0 -> Q (rd t a) (t, w) -> wp (ld a) (t, w) Q.
Proof.
  intros Hr Ha Hm HQ. destruct (Hr a Ha Hm) as [v Hv]. unfold ld. apply wp_bind, wp_table.
  apply (wp_need _ v); [done|]. unfold rd in HQ. by rewrite Hv in HQ.
Qed.

Lemma wp_st size t (w : world D) a v (Q : () -> gmap Z Z * world D -> Prop) :
  room size t -> 0 <= a < size -> a mod 4 = 0 -> Q tt (<[a := v]> t, w) -> wp (st a v) (t, w) Q.
Proof.
  intros Hr Ha Hm HQ. destruct (Hr a Ha Hm) as [x Hx]. unfold st.
  eapply wp_edit_at; [|exact HQ]. by rewrite Hx.
Qed.

Lemma wp_ld64 size t (w : world D) a (Q : Z -> gmap Z Z * world D -> Prop) :
  room size t -> 0 <= a -> a + 4 < size -> a mod 4 = 0 ->
  Q (rd t a + 2 ^ 32 * rd t (a + 4)) (t, w) -> wp (ld64 a) (t, w) Q.
Proof.
  intros Hr Ha Hs Hm HQ. unfold ld64. wp_step. apply (wp_ld size); [done|lia|done|]. wp_step.
  apply (wp_ld size); [done|lia|divmod|]. by wp_step.
Qed.

Lemma wp_st64 size t (w : world D) a v (Q : () -> gmap Z Z * world D -> Prop) :
  room size t -> 0 <= a -> a + 4 < size -> a mod 4 = 0 ->
  Q tt (<[a + 4 := v / 2 ^ 32]> (<[a := v mod 2 ^ 32]> t), w) -> wp (st64 a v) (t, w) Q.
Proof.
  intros Hr Ha Hs Hm HQ. unfold st64. wp_step. apply (wp_st size); [done|lia|done|].
  apply (wp_st size); [auto|lia|divmod|done].
Qed.

Lemma wp_io_print {T} lvl fmt v (t : T) (w : world D) (Q : () -> T * world D -> Prop) :
  Q tt (t, w) -> wp (io (bsa_print lvl fmt v)) (t, w) Q.
Proof. intros HQ. apply wp_io. by apply wp_bsa_print. Qed.
End memory.

(** One word read or written, its bounds by arithmetic. *)
Ltac in_room := first [assumption | by auto | unfold at_type, at_num_data_map, at_data, at_flags,
  at_data_map, at_input_base, at_id_count, at_output_base, at_output_ref, NODE_DATA_WORDS,
  NODE_DATA_MAP_SIZE, at_rc_segment, at_rc_ats_attr, at_rc_cca, at_rc_smmu_base,
  at_smmu_arch_major_rev, at_smmu_base, IOVIRT_FIRST_BLOCK, at_num_blocks, at_num_smmus,
  at_num_pci_rcs, at_num_named_components, at_num_its_groups, at_num_pmcgs in *; pow2;
  first [lia | Z.to_euclidean_division_equations; lia]].
Ltac mem_step size :=
  cbv beta;
  lazymatch goal with
  | |- wp (ld _) (_, _) _ => apply (wp_ld size); [in_room|in_room|in_room|]
  | |- wp (st _ _) (_, _) _ => apply (wp_st size); [in_room|in_room|in_room|]
  | |- wp (ld64 _) (_, _) _ => apply (wp_ld64 size); [in_room|in_room|in_room|in_room|]
  | |- wp (st64 _ _) (_, _) _ => apply (wp_st64 size); [in_room|in_room|in_room|in_room|]
  | |- wp (io (bsa_print _ _ _)) (_, _) _ => apply wp_io_print
  | |- _ => wp_step
  end.

(** ** What a block says of a node *)

Section node.
Context {D : Type} `{Acpi D} `{AsciiCopy D}.

Definition is_its (node : Z) : bool := node_type node =? IOVIRT_NODE_ITS_GROUP.

(** The words of the data of its block. Those at 4 and 5 hold the SMMU base of a root
    complex, which is known only after its mappings; they are cleared with the first mapping of
    any node. *)
Definition node_word (node i : Z) : Z :=
  let nd := node_data node in
  let type := node_type node in
  if type =? IOVIRT_NODE_ITS_GROUP then if i =? 0 then iort_its_count nd else 0
  else if type =? IOVIRT_NODE_NAMED_COMPONENT then
    default 0 (AsciiStrnCpyS (iort_device_name nd) !! Z.to_nat i)
  else if type =? IOVIRT_NODE_PCI_ROOT_COMPLEX then
    if i =? 0 then iort_pci_segment_number nd
    else if i =? 1 then iort_ats_attribute nd
    else if i =? 2 then Z.land (iort_memory_properties nd) IOVIRT_CCA_MASK else 0
  else
    if i =? 0 then if type =? IOVIRT_NODE_SMMU then 2 else 3
    else if i =? 2 then iort_base_address nd mod 2 ^ 32
    else if i =? 3 then iort_base_address nd / 2 ^ 32 else 0.

(** The mappings of its block; the identifiers of an ITS group take four to a mapping. *)
Definition node_maps (node : Z) : Z :=
  if is_its node then (iort_its_count (node_data node) + 3) / 4 else mapping_count node.

Definition block_size (node : Z) : Z := at_data_map + node_maps node * NODE_DATA_MAP_SIZE.

Definition mapping_at (node i : Z) : Z :=
  node + mapping_offset node + i * sizeof_IORT_ID_MAPPING.
(** The node mapping [i] refers to. *)
Definition child (iort node i : Z) : Z := iort + map_output_reference (mapping_at node i).

(** The nodes that are listed, one after the other, and those they refer to. *)
Definition iort_node_count (iort : Z) : Z := acpi_load 4 (iort + acpi_sizeof "EFI_ACPI_DESCRIPTION_HEADER").
Definition iort_first_node (iort : Z) : Z :=
  iort + acpi_load 4 (iort + acpi_sizeof "EFI_ACPI_DESCRIPTION_HEADER" + 4).
Fixpoint listed_node (iort : Z) (k : nat) : Z :=
  match k with
  | O => iort_first_node iort
  | S k => let node := listed_node iort k in node + node_length node
  end.

Inductive in_iort (iort : Z) : Z -> Prop :=
  | in_list k : Z.of_nat k < iort_node_count iort -> in_iort iort (listed_node iort k)
  | in_reference node i : in_iort iort node -> is_its node = false -> 0 <= i < mapping_count node ->
      in_iort iort (child iort node i).

(** The interrupts of the context banks of an SMMU. *)
Definition context_interrupts (node : Z) : list Z :=
  let nd := node_data node in
  (fun i => acpi_load 4 (node + iort_context_interrupt_offset nd + 8 * i)) <$>
    seqZ 0 (iort_context_interrupt_count nd).

(** An SMMU two of whose context banks share an interrupt. *)
Definition shared_context (node : Z) : bool :=
  (node_type node =? IOVIRT_NODE_SMMU) && negb (bool_decide (NoDup (context_interrupts node))).

(** A node that the builder lays out as it should. It is not of an unknown type, which makes
    no block, nor a performance monitor: the block such a node refers to is written over. The
    number of identifiers of an ITS group is not near the 32-bit limit, and the copy of the
    name of a component stays within the data of its block, as that of the firmware library
    does. *)
Definition node_ok (node : Z) : Prop :=
  node_type node ∈ [IOVIRT_NODE_ITS_GROUP; IOVIRT_NODE_NAMED_COMPONENT;
    IOVIRT_NODE_PCI_ROOT_COMPLEX; IOVIRT_NODE_SMMU; IOVIRT_NODE_SMMU_V3] /\
  (if is_its node then 0 <= iort_its_count (node_data node) < 2 ^ 32 - 3
   else 0 <= mapping_count node) /\
  (Z.of_nat (length (AsciiStrnCpyS (iort_device_name (node_data node)))) <= NODE_DATA_WORDS).

(** Its references, and theirs, end after [n] steps. *)
Fixpoint grounded (n : nat) (iort node : Z) : Prop :=
  match n with
  | O => False
  | S n => node_ok node /\
      (is_its node = false -> forall i, 0 <= i < mapping_count node -> grounded n iort (child iort node i))
  end.

(** The room its block and those of its references take at most. *)
Fixpoint span (n : nat) (iort node : Z) : Z :=
  match n with
  | O => 0
  | S n => block_size node +
      (if is_its node then 0
       else foldr (fun i s => span n iort (child iort node i) + s) 0 (seqZ 0 (mapping_count node)))
  end.

(** The block at [o] is one of [node], its mappings aside. *)
Record identified (t : gmap Z Z) (o node : Z) : Prop := {
  id_type : rd t (o + at_type) = node_type node;
  id_maps : rd t (o + at_num_data_map) = node_maps node;
  id_data : forall i, 0 <= i < NODE_DATA_WORDS -> i <> 4 -> i <> 5 ->
    rd t (o + at_data + 4 * i) = node_word node i;
  id_its : is_its node = true -> forall i, 0 <= i < iort_its_count (node_data node) ->
    rd t (o + at_data_map + 4 * i) = iort_identifier (node_data node) i
}.

(** Mapping [i] of [node] at [m], referring to a block of the list. *)
Definition mapped_as (t : gmap Z Z) (offs : list Z) (iort node i m : Z) : Prop :=
  rd t (m + at_input_base) = map_input_base (mapping_at node i) /\
  rd t (m + at_id_count) = map_id_count (mapping_at node i) /\
  rd t (m + at_output_base) = map_output_base (mapping_at node i) /\
  rd t (m + at_output_ref) ∈ offs /\
  node_ok (child iort node i) /\ identified t (rd t (m + at_output_ref)) (child iort node i).

(** The SMMU base of the block at [o]. *)
Definition base_is (t : gmap Z Z) (o v : Z) : Prop :=
  rd t (o + at_data + at_rc_smmu_base) = v mod 2 ^ 32 /\ rd t (o + at_data + at_rc_smmu_base + 4) = v / 2 ^ 32.

(** That of a root complex after its first [n] mappings: the address of the SMMU that the last
    of them refers to, or 0. *)
Definition rc_base (iort node n : Z) : Z :=
  let last := child iort node (n - 1) in
  if (0 <? n) && ((node_type last =? IOVIRT_NODE_SMMU) || (node_type last =? IOVIRT_NODE_SMMU_V3))
  then iort_base_address (node_data last) else 0.

Definition is_root (node : Z) : bool := node_type node =? IOVIRT_NODE_PCI_ROOT_COMPLEX.

(** A finished block: it is one of a node, with its mappings and its flags. *)
Record complete (iort : Z) (t : gmap Z Z) (offs : list Z) (o node : Z) : Prop := {
  com_ok : node_ok node;
  com_in : in_iort iort node;
  com_node : identified t o node;
  com_maps : is_its node = false -> forall i, 0 <= i < mapping_count node ->
    mapped_as t offs iort node i (o + at_data_map + i * NODE_DATA_MAP_SIZE);
  com_flag : Z.testbit (rd t (o + at_flags)) IOVIRT_FLAG_SMMU_CTX_INT_SHIFT = shared_context node;
  com_base : is_root node = true -> base_is t o (rc_base iort node (mapping_count node))
}.

Lemma node_maps_nonneg node : node_ok node -> 0 <= node_maps node.
Proof. intros (_ & Hn & _). unfold node_maps. destruct (is_its node); [apply Z.div_pos; lia|lia]. Qed.

Lemma its_fits node : node_ok node -> is_its node = true ->
  4 * iort_its_count (node_data node) <= 16 * node_maps node.
Proof. intros (_ & Hn & _) Hi. unfold node_maps. rewrite Hi in *. divmod. Qed.

Lemma block_size_pos node : node_ok node -> at_data_map <= block_size node.
Proof. intros Hok%node_maps_nonneg. unfold block_size, NODE_DATA_MAP_SIZE. lia. Qed.

(** The words [identified] looks at. *)
Definition identity_word (node o a : Z) : Prop :=
  o <= a < o + block_size node /\ (is_its node = true \/ a < o + at_data_map) /\
  (a < o + at_data + at_rc_smmu_base \/ o + at_data + at_rc_smmu_base + 8 <= a).

Lemma identified_same t t' o node : node_ok node ->
  (forall a, identity_word node o a -> rd t' a = rd t a) -> identified t o node -> identified t' o node.
Proof.
  intros Hok Hs [Ht Hm Hd Hi]. pose proof (block_size_pos node Hok) as Hb.
  unfold identity_word, NODE_DATA_WORDS, at_type, at_num_data_map, at_data, at_data_map, at_rc_smmu_base in *.
  split; unfold NODE_DATA_WORDS, at_type, at_num_data_map, at_data, at_data_map.
  - rewrite Hs by lia. done.
  - rewrite Hs by lia. done.
  - intros i Hi0 H4 H5. rewrite Hs by lia. by apply Hd.
  - intros Hits i Hi0. pose proof (its_fits node Hok Hits).
    unfold block_size, at_data_map, NODE_DATA_MAP_SIZE in *. rewrite Hs by (split; [lia|]; split; [by left|lia]).
    by apply Hi.
Qed.
End node.

(** ** The chain of blocks *)

(** The blocks from [o] to [e]. *)
Fixpoint chain (t : gmap Z Z) (o : Z) (l : list Z) (e : Z) : Prop :=
  match l with
  | [] => o = e
  | x :: l => x = o /\ 0 <= rd t (o + at_num_data_map) /\
      chain t (o + at_data_map + rd t (o + at_num_data_map) * NODE_DATA_MAP_SIZE) l e
  end.

Definition block_end (t : gmap Z Z) (o : Z) : Z :=
  o + at_data_map + rd t (o + at_num_data_map) * NODE_DATA_MAP_SIZE.

Lemma chain_bounds t o l e x : chain t o l e -> x ∈ l ->
  o <= x /\ (x - o) mod 4 = 0 /\ 0 <= rd t (x + at_num_data_map) /\ block_end t x <= e.
Proof.
  revert o. induction l as [|y l IH]; intros o Hc Hx; [by apply not_elem_of_nil in Hx|].
  destruct Hc as (-> & Hn & Hc).
  assert (Hle : block_end t o <= e).
  { unfold block_end. clear IH Hx. revert Hc. generalize (o + at_data_map + rd t (o + at_num_data_map) * NODE_DATA_MAP_SIZE).
    induction l as [|z l IH]; intros s; [intros ->; lia|]. intros (-> & Hz & Hc). specialize (IH _ Hc).
    unfold at_data_map, NODE_DATA_MAP_SIZE in *. lia. }
  apply elem_of_cons in Hx as [->|Hx].
  - rewrite Z.sub_diag. done.
  - destruct (IH _ Hc Hx) as (H1 & H2 & H3 & H4). unfold at_data_map, NODE_DATA_MAP_SIZE in *.
    split; [lia|]. split; [|done]. Z.to_euclidean_division_equations. lia.
Qed.

Lemma chain_disjoint t o l e x y : chain t o l e -> x ∈ l -> y ∈ l -> x <> y ->
  block_end t x <= y \/ block_end t y <= x.
Proof.
  revert o. induction l as [|z l IH]; intros o Hc Hx Hy N; [by apply not_elem_of_nil in Hx|].
  destruct Hc as (-> & Hn & Hc). fold (block_end t o) in Hc.
  apply elem_of_cons in Hx as [->|Hx]; apply elem_of_cons in Hy as [->|Hy]; [done|..].
  - left. by apply (chain_bounds t (block_end t o) l e).
  - right. by apply (chain_bounds t (block_end t o) l e).
  - by apply (IH _ Hc).
Qed.

Lemma chain_nodup t o l e : chain t o l e -> NoDup l.
Proof.
  revert o. induction l as [|z l IH]; intros o Hc; [constructor|]. destruct Hc as (-> & Hn & Hc).
  constructor; [|by eapply IH]. intros Hin. apply (chain_bounds _ _ _ _ _ Hc) in Hin as (H1 & _).
  unfold at_data_map, NODE_DATA_MAP_SIZE in *. lia.
Qed.

Lemma chain_length t o l e : chain t o l e -> Z.of_nat (length l) * at_data_map <= e - o.
Proof.
  revert o. induction l as [|z l IH]; intros o Hc; cbn [length]; [cbn in Hc; lia|].
  destruct Hc as (-> & Hn & Hc%IH). unfold at_data_map, NODE_DATA_MAP_SIZE in *. lia.
Qed.

Lemma chain_app t o l1 l2 e : chain t o (l1 ++ l2) e <-> exists m, chain t o l1 m /\ chain t m l2 e.
Proof.
  revert o. induction l1 as [|x l IH]; intros o; cbn [app chain].
  - split; [by exists o|by intros (m & -> & Hc)].
  - rewrite IH. split; [intros (-> & Hn & m & H1 & H2)|intros (m & (-> & Hn & H1) & H2)]; eauto 6.
Qed.

Lemma chain_same t t' o l e : (forall x, x ∈ l -> rd t' (x + at_num_data_map) = rd t (x + at_num_data_map)) ->
  chain t o l e -> chain t' o l e.
Proof.
  revert o. induction l as [|x l IH]; intros o Hs Hc; [done|]. destruct Hc as (-> & Hn & Hc).
  cbn [chain]. rewrite Hs by left. split; [done|]. split; [done|]. apply IH; [|done].
  intros y Hy. apply Hs. by right.
Qed.

(** ** The table in the making *)

Section layout.
Context {D : Type} `{Acpi D} `{AsciiCopy D} (size iort : Z).

(** The counter of a type of block. *)
Definition counter_of (type : Z) : Z :=
  if type =? IOVIRT_NODE_ITS_GROUP then at_num_its_groups
  else if type =? IOVIRT_NODE_NAMED_COMPONENT then at_num_named_components
  else if type =? IOVIRT_NODE_PCI_ROOT_COMPLEX then at_num_pci_rcs
  else at_num_smmus.

(** The number of blocks that a counter counts. *)
Definition counted_by (c : Z) (l : list (Z * Z)) : Z :=
  Z.of_nat (length (List.filter (fun on => counter_of (node_type (snd on)) =? c) l)).

Definition type_counters : list Z :=
  [at_num_smmus; at_num_pci_rcs; at_num_named_components; at_num_its_groups].

(** The blocks [offs] take the memory up to [next]. Those in [open] are being filled; those
    in [done_], each with its node, are finished. *)
Record layout (t : gmap Z Z) (offs : list Z) (next : Z) (open : list Z) (done_ : list (Z * Z)) : Prop := {
  l_room : room size t;
  l_size : next <= size < 2 ^ 32;
  l_chain : chain t IOVIRT_FIRST_BLOCK offs next;
  l_perm : offs ≡ₚ open ++ done_.*1;
  l_ident : forall o, o ∈ offs -> exists node, node_ok node /\ identified t o node;
  l_done : forall o node, (o, node) ∈ done_ -> complete iort t offs o node
}.

(** The counters say how many blocks are finished. *)
Record counters (t : gmap Z Z) (done_ : list (Z * Z)) : Prop := {
  c_blocks : rd t at_num_blocks = Z.of_nat (length done_);
  c_types : forall c, c ∈ type_counters -> rd t c = counted_by c done_
}.

Lemma layout_bounds t offs next open done_ o : layout t offs next open done_ -> o ∈ offs ->
  24 <= o /\ o mod 4 = 0 /\ o + at_data_map <= block_end t o /\ block_end t o <= next.
Proof.
  intros Hl Ho. destruct (chain_bounds _ _ _ _ _ (l_chain _ _ _ _ _ Hl) Ho) as (H1 & H2 & H3 & H4).
  unfold block_end, IOVIRT_FIRST_BLOCK, NODE_DATA_MAP_SIZE in *.
  split; [lia|]. split; [Z.to_euclidean_division_equations; lia|]. lia.
Qed.

Lemma layout_next t offs next open done_ : layout t offs next open done_ -> 24 <= next /\ next mod 4 = 0.
Proof.
  intros Hl. pose proof (l_chain _ _ _ _ _ Hl) as Hc.
  destruct offs as [|x offs] using rev_ind; [by cbn in Hc; subst|clear IHoffs].
  apply chain_app in Hc as (m & Hc1 & (<- & Hn & He)). cbn [chain] in He.
  assert (Hx : x ∈ offs ++ [x]) by (apply elem_of_app; right; left).
  destruct (layout_bounds _ _ _ _ _ x Hl Hx) as (H1 & H2 & _).
  unfold at_data_map, NODE_DATA_MAP_SIZE in *. split; [lia|]. Z.to_euclidean_division_equations. lia.
Qed.

Lemma identified_size t o node : node_ok node -> identified t o node ->
  block_end t o = o + block_size node /\ o + at_data_map <= block_end t o.
Proof.
  intros Hok%block_size_pos Hid. unfold block_end. rewrite (id_maps _ _ _ Hid). unfold block_size in *. lia.
Qed.

(** A word whose value does not matter to the blocks: it identifies none, and is in no
    finished one. *)
Definition harmless (t : gmap Z Z) (offs open : list Z) (a : Z) : Prop :=
  forall o node, o ∈ offs -> node_ok node -> identified t o node ->
    ~ identity_word node o a /\ (o ∉ open -> a < o \/ o + block_size node <= a).

Section write.
Context (t t' : gmap Z Z) (offs : list Z) (next : Z) (open : list Z) (done_ : list (Z * Z)).
Context (Hl : layout t offs next open done_).
Context (Hh : forall a, rd t' a = rd t a \/ harmless t offs open a).

Lemma write_identified o node : o ∈ offs -> node_ok node -> identified t o node -> identified t' o node.
Proof.
  intros Ho Hok Hi. apply (identified_same t); [done| |done]. intros a Ha.
  destruct (Hh a) as [E|E]; [done|]. by destruct (E o node Ho Hok Hi).
Qed.

Lemma write_complete o node : (o, node) ∈ done_ -> complete iort t' offs o node.
Proof.
  intros Hin. destruct (l_done _ _ _ _ _ Hl o node Hin) as [Hok Hino Hnode Hm Hf Hbase].
  pose proof (chain_nodup _ _ _ _ (l_chain _ _ _ _ _ Hl)) as Hnd.
  rewrite (l_perm _ _ _ _ _ Hl), NoDup_app in Hnd. destruct Hnd as (_ & Hnd & _).
  assert (Ho : o ∈ done_.*1) by (by apply (list_elem_of_fmap_2 fst) in Hin).
  assert (Hoff : o ∈ offs) by (rewrite (l_perm _ _ _ _ _ Hl); apply elem_of_app; by right).
  assert (Hno : o ∉ open) by (intros Ho'; by apply (Hnd o)).
  assert (Hown : forall a, o <= a < o + block_size node -> rd t' a = rd t a).
  { intros a Ha. destruct (Hh a) as [E|E]; [done|].
    destruct (E o node Hoff Hok Hnode) as [_ E']. destruct (E' Hno); lia. }
  pose proof (block_size_pos node Hok) as Hb.
  split; [done|done|by apply write_identified| | |].
  - intros Hits i Hi0. specialize (Hm Hits i Hi0). unfold mapped_as in *.
    assert (Hsame : forall k, 0 <= k < 16 -> rd t' (o + at_data_map + i * NODE_DATA_MAP_SIZE + k) =
      rd t (o + at_data_map + i * NODE_DATA_MAP_SIZE + k)).
    { intros k Hk. apply Hown. unfold block_size, node_maps. rewrite Hits.
      unfold at_data_map, NODE_DATA_MAP_SIZE. nia. }
    unfold at_input_base, at_id_count, at_output_base, at_output_ref in *. rewrite !Hsame by lia.
    destruct Hm as (E1 & E2 & E3 & E4 & E5 & E6). repeat (split; [done|]). by apply write_identified.
  - rewrite Hown; [done|]. unfold at_flags, at_data_map in *. lia.
  - intros Hrc. specialize (Hbase Hrc). unfold base_is, at_data, at_rc_smmu_base, at_data_map in *.
    by rewrite !Hown by lia.
Qed.

Lemma layout_write : room size t' -> layout t' offs next open done_.
Proof.
  intros Hr. split; try apply Hl; [done| | |apply write_complete].
  - apply (chain_same t); [|apply Hl]. intros o Ho.
    destruct (l_ident _ _ _ _ _ Hl o Ho) as (node & Hok & Hi).
    by rewrite (id_maps _ _ _ Hi), (id_maps _ _ _ (write_identified o node Ho Hok Hi)).
  - intros o Ho. destruct (l_ident _ _ _ _ _ Hl o Ho) as (node & Hok & Hi). exists node.
    split; [done|by apply write_identified].
Qed.
End write.

(** The words before and after the blocks. *)
Lemma harmless_outside t offs next open done_ a : layout t offs next open done_ -> a < 24 \/ next <= a ->
  harmless t offs open a.
Proof.
  intros Hl Ha o node Ho Hok Hi.
  destruct (layout_bounds _ _ _ _ _ o Hl Ho) as (B1 & _ & _ & B4).
  destruct (identified_size t o node Hok Hi) as [E _]. unfold identity_word. rewrite E in B4.
  split; [lia|intros _; lia].
Qed.

(** The mappings of an open block that is not an ITS group, and its SMMU base. *)
Definition free_word (o node a : Z) : Prop :=
  o + at_data_map <= a < o + block_size node \/
  o + at_data + at_rc_smmu_base <= a < o + at_data + at_rc_smmu_base + 8.

Lemma harmless_free t offs next open done_ o node a :
  layout t offs next open done_ -> o ∈ offs -> o ∈ open -> node_ok node -> identified t o node ->
  is_its node = false -> free_word o node a -> harmless t offs open a.
Proof.
  intros Hl Ho Hop Hok Hi Hits Ha. pose proof (block_size_pos node Hok) as Hb.
  destruct (identified_size t o node Hok Hi) as [Es _].
  unfold free_word, at_data, at_rc_smmu_base, at_data_map in *.
  intros x nx Hx Hokx Hix.
  destruct (identified_size t x nx Hokx Hix) as [Ex _]. pose proof (block_size_pos nx Hokx) as Hbx.
  destruct (decide (x = o)) as [->|N].
  - split; [|done]. unfold identity_word, at_data_map, at_data, at_rc_smmu_base.
    assert (is_its nx = false) as ->.
    { unfold is_its in *. by rewrite <- (id_type _ _ _ Hix), (id_type _ _ _ Hi). }
    rewrite Ex in Es. intros (_ & [?|Hlt] & Hw); [done|lia].
  - destruct (chain_disjoint _ _ _ _ x o (l_chain _ _ _ _ _ Hl) Hx Ho N) as [Hd|Hd];
      unfold identity_word, at_data_map in *; rewrite ?Ex, ?Es in Hd; (split; [lia|intros _; lia]).
Qed.

(** A block started after the others. *)
Lemma complete_more t offs offs' o node : (forall x, x ∈ offs -> x ∈ offs') ->
  complete iort t offs o node -> complete iort t offs' o node.
Proof.
  intros Hs [E1 E2 E3 E4 E5 E6]. split; [done|done|done| |done|done]. intros Hits i Hi.
  destruct (E4 Hits i Hi) as (F1 & F2 & F3 & F4 & F5). repeat (split; [done|]). auto.
Qed.

Lemma layout_extend t offs next open done_ node :
  layout t offs next open done_ -> node_ok node -> identified t next node ->
  next + block_size node <= size ->
  layout t (offs ++ [next]) (next + block_size node) (next :: open) done_.
Proof.
  intros [Hr Hs Hc Hp Hid Hd] Hok Hi Hsz. destruct (identified_size t next node Hok Hi) as [Es _].
  split; try done.
  - lia.
  - apply chain_app. exists next. split; [done|]. cbn [chain]. split; [done|].
    rewrite (id_maps _ _ _ Hi). split; [by apply node_maps_nonneg|].
    unfold block_size, at_data_map. lia.
  - rewrite Hp, (Permutation_app_comm _ [next]). done.
  - intros o [Ho|Ho]%elem_of_app; [by apply Hid|]. apply list_elem_of_singleton in Ho as ->. by exists node.
  - intros o nd Hin. apply (complete_more t offs); [|by apply Hd]. intros x Hx. apply elem_of_app. by left.
Qed.

Lemma type_counter_cases c : c ∈ type_counters -> c = 4 \/ c = 8 \/ c = 12 \/ c = 16.
Proof.
  unfold type_counters. rewrite !elem_of_cons.
  intros [->|[->|[->|[->|Hin]]]]; [auto..|by apply not_elem_of_nil in Hin].
Qed.
Lemma counter_of_in type : counter_of type ∈ type_counters.
Proof. unfold counter_of, type_counters. repeat case_match; rewrite !elem_of_cons; auto. Qed.

Lemma counted_by_le c l : 0 <= counted_by c l <= Z.of_nat (length l).
Proof.
  unfold counted_by. split; [lia|]. apply inj_le. induction l as [|x l IH]; cbn; [done|].
  case_match; cbn; lia.
Qed.

(** A finished block is counted. *)
Lemma layout_finish t offs next o open done_ node :
  layout t offs next (o :: open) done_ -> complete iort t offs o node -> counters t done_ ->
  let c := counter_of (node_type node) in
  let t1 := <[at_num_blocks := u32 (rd t at_num_blocks + 1)]> t in
  let t' := <[c := u32 (rd t1 c + 1)]> t1 in
  layout t' offs next open ((o, node) :: done_) /\ counters t' ((o, node) :: done_).
Proof.
  intros Hl Hcom [Hcb Hct] c t1 t'. pose proof (type_counter_cases c (counter_of_in _)) as Hcc.
  assert (Hl1 : layout t offs next open ((o, node) :: done_)).
  { split; try apply Hl.
    - rewrite (l_perm _ _ _ _ _ Hl). cbn. by rewrite <- Permutation_middle.
    - intros x nx [[= -> ->]|Hin]%elem_of_cons; [done|by apply (l_done _ _ _ _ _ Hl)]. }
  assert (Hd32 : Z.of_nat (length done_) + 1 < 2 ^ 32).
  { pose proof (chain_length _ _ _ _ (l_chain _ _ _ _ _ Hl)) as Hlen.
    pose proof (l_size _ _ _ _ _ Hl). pose proof (Permutation_length (l_perm _ _ _ _ _ Hl)) as E.
    rewrite length_app, length_fmap in E. cbn [length] in E. unfold at_data_map, IOVIRT_FIRST_BLOCK in Hlen. lia. }
  split; [|split].
  - apply (layout_write t); [done| |]. 2: { unfold t', t1. do 2 apply room_insert. apply Hl. }
    intros a. destruct (Z_lt_le_dec a 24); [right; by eapply harmless_outside; eauto|left].
    unfold t', t1. rewrite !rd_insert, !(proj2 (Z.eqb_neq _ _)); [done|unfold at_num_blocks; lia..].
  - unfold t', t1. rewrite !rd_insert, Z.eqb_refl, (proj2 (Z.eqb_neq c _)) by (unfold at_num_blocks; lia).
    rewrite Hcb. cbn [length]. rewrite u32_id by (unfold fits; lia). lia.
  - intros x Hx. pose proof (type_counter_cases x Hx) as Hxc. unfold counted_by. cbn [List.filter snd].
    fold c. unfold t', t1. rewrite !rd_insert.
    rewrite !(proj2 (Z.eqb_neq at_num_blocks _)) by (unfold at_num_blocks; lia).
    pose proof (counted_by_le x done_). destruct (Z.eqb_spec c x) as [->|N]; [|by apply Hct].
    rewrite Hct by done. unfold counted_by in *. cbn [length]. rewrite u32_id by (unfold fits; lia). lia.
Qed.
End layout.

(** ** The steps of the builder *)

Section build.
Context {D : Type} `{Platform D} `{Acpi D} `{AsciiCopy D} (size iort : Z).

(** A run of words written. *)
Lemma wp_fill_words (f : Z -> Z) n dst (body : Z -> Prelude.M (gmap Z Z * world D) ()) t w
    (Q : () -> gmap Z Z * world D -> Prop) :
  room size t -> 0 <= dst -> dst mod 4 = 0 -> 0 <= n -> dst + 4 * n <= size ->
  (forall i t Q, 0 <= i < n -> wp (st (dst + 4 * i) (f i)) (t, w) Q -> wp (body i) (t, w) Q) ->
  (forall t', room size t' -> only dst (dst + 4 * n) t t' ->
     (forall i, 0 <= i < n -> rd t' (dst + 4 * i) = f i) -> Q tt (t', w)) ->
  wp (for_each (Z.to_nat n) 0 body) (t, w) Q.
Proof.
  intros Hr Hd Hm Hn Hs Hb HQ.
  apply (wp_for_each (fun k s => exists t', s = (t', w) /\ room size t' /\ only dst (dst + 4 * n) t t' /\
    forall i, 0 <= i < k -> rd t' (dst + 4 * i) = f i)).
  - exists t. split; [done|]. split; [done|]. split; [done|]. intros i Hi. lia.
  - intros k s Hk (t' & -> & Hr' & Ho & Hf). apply Hb; [lia|]. mem_step size.
    eexists. split; [done|]. split; [auto|]. split.
    + eapply only_trans; [exact Ho|]. apply only_insert. lia.
    + intros i Hi. rewrite rd_insert. destruct (Z.eqb_spec (dst + 4 * k) (dst + 4 * i)) as [E|E].
      * by replace k with i by lia.
      * apply Hf. lia.
  - intros s (t' & -> & Hr' & Ho & Hf). apply HQ; [done|done|]. intros i Hi. apply Hf. lia.
Qed.

Lemma wp_clear_data data t w (Q : () -> gmap Z Z * world D -> Prop) :
  room size t -> 0 <= data -> data mod 4 = 0 -> data + 256 <= size ->
  (forall t', room size t' -> only data (data + 256) t t' ->
     (forall i, 0 <= i < NODE_DATA_WORDS -> rd t' (data + 4 * i) = 0) -> Q tt (t', w)) ->
  wp (clear_data data) (t, w) Q.
Proof.
  intros Hr Hd Hm Hs HQ. unfold clear_data.
  unfold NODE_DATA_WORDS in *. apply (wp_fill_words (fun _ => 0) 64 data); [done..|lia|lia|auto|done].
Qed.

Lemma wp_store_words dst ws t w (Q : () -> gmap Z Z * world D -> Prop) :
  room size t -> 0 <= dst -> dst mod 4 = 0 -> dst + 4 * Z.of_nat (length ws) <= size ->
  (forall t', room size t' -> only dst (dst + 4 * Z.of_nat (length ws)) t t' ->
     (forall i, 0 <= i < Z.of_nat (length ws) -> rd t' (dst + 4 * i) = default 0 (ws !! Z.to_nat i)) ->
     Q tt (t', w)) ->
  wp (store_words dst ws) (t, w) Q.
Proof.
  intros Hr Hd Hm Hs HQ. unfold store_words. rewrite <- (Nat2Z.id (length ws)).
  apply (wp_fill_words (fun i => default 0 (ws !! Z.to_nat i)) (Z.of_nat (length ws)) dst); [done..|lia|done| |done].
  intros i t1 Q1 Hi Hst. destruct (lookup_lt_is_Some_2 ws (Z.to_nat i)) as [v Hv]; [lia|].
  wp_step. apply (wp_need _ v); [done|]. by rewrite Hv in Hst.
Qed.

(** The data of a block as a function of the word number. *)
Definition data_is (t : gmap Z Z) (block : Z) (f : Z -> Z) : Prop :=
  forall i, 0 <= i < NODE_DATA_WORDS -> rd t (block + at_data + 4 * i) = f i.

Lemma data_is_set t block f k v : data_is t block f ->
  data_is (<[block + at_data + 4 * k := v]> t) block (fun i => if i =? k then v else f i).
Proof.
  intros Hf i Hi. rewrite rd_insert. destruct (Z.eqb_spec i k) as [->|N]; [by rewrite Z.eqb_refl|].
  rewrite (proj2 (Z.eqb_neq _ _)) by lia. by apply Hf.
Qed.

(** A word outside of the data written. *)
Lemma data_is_other t block f a v : data_is t block f -> a < block + at_data \/ block + at_flags <= a ->
  data_is (<[a := v]> t) block f.
Proof.
  intros Hf Ha i Hi. unfold NODE_DATA_WORDS, at_data, at_flags in *. rewrite rd_insert.
  rewrite (proj2 (Z.eqb_neq _ _)) by lia. by apply Hf.
Qed.

(** ** Comparing and finding blocks *)

Lemma wp_same_words a b n t w (Q : bool -> gmap Z Z * world D -> Prop) :
  room size t -> 0 <= a -> 0 <= b -> a mod 4 = 0 -> b mod 4 = 0 -> 0 <= n ->
  (forall i, 0 <= i < n -> (forall j, 0 <= j < i -> rd t (a + 4 * j) = rd t (b + 4 * j)) ->
     a + 4 * i < size /\ b + 4 * i < size) ->
  ((forall i, 0 <= i < n -> rd t (a + 4 * i) = rd t (b + 4 * i)) -> Q true (t, w)) ->
  Q false (t, w) ->
  wp (same_words a b n) (t, w) Q.
Proof.
  intros Hr Ha Hb Hma Hmb Hn Hin Ht Hf. unfold same_words. wp_step.
  apply (wp_for (fun k _ s => s = (t, w) /\ forall i, 0 <= i < k -> rd t (a + 4 * i) = rd t (b + 4 * i))).
  - split; [done|]. intros i Hi. lia.
  - intros k [] s Hk (-> & He). destruct (Hin k) as [H3 H4]; [lia|done|].
    wp_step. mem_step size. wp_step. mem_step size. wp_step.
    destruct (Z.eqb_spec (rd t (a + 4 * k)) (rd t (b + 4 * k))) as [E|E].
    + split; [done|]. intros i Hi. destruct (decide (i = k)) as [->|N]; [done|]. apply He. lia.
    + wp_step. exact Hf.
  - intros [] s (-> & He). wp_step. apply Ht. intros i Hi. apply He. lia.
Qed.

Lemma wp_next_of t w block node (Q : Z -> gmap Z Z * world D -> Prop) :
  room size t -> 0 <= block -> block mod 4 = 0 -> block + at_data_map <= size -> identified t block node ->
  Q (block + block_size node) (t, w) -> wp (next_of block) (t, w) Q.
Proof.
  intros Hr Hb Hm Hs Hi HQ. unfold next_of. wp_step. unfold at_data_map in Hs. mem_step size. wp_step.
  rewrite (id_maps _ _ _ Hi). unfold block_size in HQ. by rewrite Z.add_assoc in HQ.
Qed.

(** What the comparison of two blocks covers. *)
Lemma identified_equal t o next node n :
  identified t next node -> node_ok node -> 66 <= n ->
  (is_its node = true -> n = 67 + iort_its_count (node_data node)) ->
  (forall i, 0 <= i < n -> rd t (next + 4 * i) = rd t (o + 4 * i)) -> identified t o node.
Proof.
  intros [E1 E2 E3 E4] Hok Hn Hits He.
  unfold at_type, at_num_data_map, at_data, at_data_map, NODE_DATA_WORDS in *.
  split; unfold at_type, at_num_data_map, at_data, at_data_map, NODE_DATA_WORDS.
  - rewrite <- E1. specialize (He 0). rewrite !Z.mul_0_r in He. symmetry. apply He. lia.
  - rewrite <- E2. symmetry. apply (He 1). lia.
  - intros i Hi N4 N5. rewrite <- (E3 i) by done. specialize (He (2 + i)).
    replace (o + 8 + 4 * i) with (o + 4 * (2 + i)) by lia.
    replace (next + 8 + 4 * i) with (next + 4 * (2 + i)) by lia. symmetry. apply He. lia.
  - intros Hi i Hr. rewrite <- (E4 Hi i Hr). specialize (He (67 + i)).
    replace (o + 268 + 4 * i) with (o + 4 * (67 + i)) by lia.
    replace (next + 268 + 4 * i) with (next + 4 * (67 + i)) by lia. symmetry. apply He.
    rewrite (Hits Hi). lia.
Qed.

(** Where the search is after [k] blocks. *)
Definition search_at (t : gmap Z Z) (offs : list Z) (next k block : Z) : Prop :=
  exists l1 l2, offs = l1 ++ l2 /\ Z.of_nat (length l1) = k /\ chain t block l2 next.

Lemma search_block t offs next open done_ k block :
  layout size iort t offs next open done_ -> search_at t offs next k block ->
  k < Z.of_nat (length offs) -> block ∈ offs /\ search_at t offs next (k + 1) (block_end t block).
Proof.
  intros Hl (l1 & l2 & -> & Hk & Hc) Hlt. rewrite length_app in Hlt.
  destruct l2 as [|x l2]; [cbn in Hlt; lia|]. destruct Hc as (-> & Hn & Hc).
  split; [apply elem_of_app; right; left|]. exists (l1 ++ [block]), l2. rewrite <- app_assoc.
  split; [done|]. split; [rewrite length_app; cbn; lia|done].
Qed.

Lemma layout_done_le t offs next open done_ : layout size iort t offs next open done_ ->
  (length done_ <= length offs)%nat.
Proof.
  intros Hl. pose proof (Permutation_length (l_perm _ _ _ _ _ _ _ Hl)) as E.
  rewrite length_app, length_fmap in E. lia.
Qed.

(** One block against the key after the last one. *)
Lemma wp_compare t w offs next open done_ node o (Q : bool -> gmap Z Z * world D -> Prop) :
  layout size iort t offs next open done_ -> node_ok node -> identified t next node ->
  next + block_size node <= size -> o ∈ offs -> rd t (next + at_type) = rd t (o + at_type) ->
  (identified t o node -> Q true (t, w)) -> Q false (t, w) ->
  wp (let* cmp_size :=
        if rd t (o + at_type) =? IOVIRT_NODE_ITS_GROUP then
          let* its_count := ld (o + at_data) in ret (u32 (at_flags + (its_count * 4 + 4)))
        else ret at_flags in
      same_words next o (cmp_size / 4)) (t, w) Q.
Proof.
  intros Hl Hok Hi Hsz Ho Htype Ht Hf.
  destruct (layout_bounds _ _ _ _ _ _ _ o Hl Ho) as (B1 & B2 & B3 & B4).
  destruct (layout_next _ _ _ _ _ _ _ Hl) as [N1 N2]. pose proof (l_size _ _ _ _ _ _ _ Hl) as Hsize.
  pose proof (l_room _ _ _ _ _ _ _ Hl) as Hr.
  destruct (l_ident _ _ _ _ _ _ _ Hl o Ho) as (nb & Hokb & Hib).
  destruct (identified_size t o nb Hokb Hib) as [Es _]. pose proof (block_size_pos node Hok) as Hp.
  rewrite (id_type _ _ _ Hi), (id_type _ _ _ Hib) in Htype. rewrite (id_type _ _ _ Hib).
  change (node_type nb =? IOVIRT_NODE_ITS_GROUP) with (is_its nb).
  assert (E : is_its nb = is_its node) by (unfold is_its; by rewrite Htype).
  unfold at_data_map, at_flags, at_data in *. rewrite E. destruct (is_its node) eqn:Hits.
  - pose proof (its_fits nb Hokb E) as Hfb. pose proof (its_fits node Hok Hits) as Hfn.
    assert (Hcount : rd t (o + 8) = iort_its_count (node_data nb)).
    { pose proof (id_data _ _ _ Hib 0) as P. unfold at_data, node_word in P. rewrite Z.mul_0_r, Z.add_0_r in P.
      unfold is_its in E. rewrite E in P. apply P; unfold NODE_DATA_WORDS; lia. }
    assert (Hkey : rd t (next + 8) = iort_its_count (node_data node)).
    { pose proof (id_data _ _ _ Hi 0) as P. unfold at_data, node_word in P. rewrite Z.mul_0_r, Z.add_0_r in P.
      unfold is_its in Hits. rewrite Hits in P. apply P; unfold NODE_DATA_WORDS; lia. }
    destruct Hokb as (_ & Hc & _). rewrite E in Hc. destruct Hok as (Hty & Hcn & Hnm). rewrite Hits in Hcn.
    unfold block_size, NODE_DATA_MAP_SIZE, at_data_map in *. wp_step.
    wp_step. mem_step size. wp_step. rewrite Hcount, u32_id by (unfold fits; lia).
    replace ((264 + (iort_its_count (node_data nb) * 4 + 4)) / 4)
      with (67 + iort_its_count (node_data nb)) by divmod.
    apply wp_same_words; [done|lia..| | |done].
    + intros i Hi0 Heq. split; [|lia]. destruct (Z_lt_le_dec i 67); [lia|].
      specialize (Heq 2 ltac:(lia)). change (4 * 2) with 8 in Heq. rewrite Hkey, Hcount in Heq. lia.
    + intros Heq. apply Ht. apply (identified_equal t o next node (67 + iort_its_count (node_data nb)));
        [done|by split; [|rewrite Hits]|lia| |done].
      intros _. specialize (Heq 2 ltac:(lia)). change (4 * 2) with 8 in Heq. lia.
  - wp_step. wp_step. change (264 / 4) with 66.
    apply wp_same_words; [done|lia..| | |done].
    + intros i Hi0 _. lia.
    + intros Heq. apply Ht. apply (identified_equal t o next node 66); [done|done|lia| |done]. by rewrite Hits.
Qed.

(** A block found is one of the node looked for. *)
Lemma wp_find_block t w offs next open done_ node (Q : Z -> gmap Z Z * world D -> Prop) :
  layout size iort t offs next open done_ -> counters t done_ -> node_ok node ->
  identified t next node -> next + block_size node <= size ->
  Q 0 (t, w) -> (forall o, o ∈ offs -> identified t o node -> Q o (t, w)) ->
  wp (find_block next) (t, w) Q.
Proof.
  intros Hl Hcnt Hok Hi Hsz Hnone Hf. pose proof (l_room _ _ _ _ _ _ _ Hl) as Hr.
  destruct (layout_next _ _ _ _ _ _ _ Hl) as [N1 N2]. pose proof (l_size _ _ _ _ _ _ _ Hl) as Hsize.
  pose proof (block_size_pos node Hok) as Hp. unfold at_data_map in Hp.
  unfold find_block. wp_step. mem_step size. rewrite (c_blocks _ _ Hcnt), Nat2Z.id. wp_step.
  pose proof (layout_done_le _ _ _ _ _ Hl) as Hle.
  apply (wp_for (fun k block s => s = (t, w) /\ search_at t offs next k block)).
  - split; [done|]. exists [], offs. split; [done|]. split; [done|]. apply Hl.
  - intros k o s Hk (-> & Hat).
    destruct (search_block t offs next open done_ k o Hl Hat) as [Ho Hnext]; [lia|].
    destruct (layout_bounds _ _ _ _ _ _ _ o Hl Ho) as (B1 & B2 & B3 & B4). unfold at_data_map in B3.
    wp_step. mem_step size. wp_step. mem_step size. wp_step.
    assert (Hgo : wp (let* block := next_of o in ret (Continue block)) (t, w)
      (fun r s' => match r with
                   | Continue a' => s' = (t, w) /\ search_at t offs next (k + 1) a'
                   | Break v => wp (ret v) s' Q end)).
    { wp_step. unfold next_of. wp_step. mem_step size. wp_step. wp_step. split; [done|].
      unfold block_end in Hnext. exact Hnext. }
    destruct (Z.eqb_spec (rd t (next + at_type)) (rd t (o + at_type))) as [E|E].
    + eapply wp_compare; [exact Hl|exact Hok|exact Hi|exact Hsz|exact Ho|exact E| |exact Hgo].
      intros Hfo. wp_step. wp_step. by apply Hf.
    + wp_step. exact Hgo.
  - intros o s (-> & _). by wp_step.
Qed.
End build.

(** ** Writing the block of a node *)

Section key.
Context {D : Type} `{Platform D} `{Acpi D} `{AsciiCopy D} (size iort : Z).

Lemma identified_intro t o node f :
  rd t (o + at_type) = node_type node -> rd t (o + at_num_data_map) = node_maps node ->
  data_is t o f -> (forall i, f i = node_word node i) ->
  (is_its node = true -> forall i, 0 <= i < iort_its_count (node_data node) ->
     rd t (o + at_data_map + 4 * i) = iort_identifier (node_data node) i) ->
  identified t o node /\ (is_root node = true -> base_is t o 0).
Proof.
  intros Ht Hm Hd Hf Hi. split; [split; [done..| |done]; intros i Hr _ _; by rewrite Hd, Hf|].
  intros Hrc. apply Z.eqb_eq in Hrc.
  assert (Hw : forall i, i = 4 \/ i = 5 -> rd t (o + at_data + 4 * i) = 0).
  { intros i Hc. rewrite Hd, Hf by (unfold NODE_DATA_WORDS; lia). unfold node_word. rewrite Hrc.
    by destruct Hc as [-> | ->]. }
  pose proof (Hw 4 (or_introl eq_refl)) as H4. pose proof (Hw 5 (or_intror eq_refl)) as H5.
  unfold base_is, at_rc_smmu_base. split; [etransitivity; [|exact H4]|etransitivity; [|exact H5]]; f_equal; lia.
Qed.

(** Reading a word of the block that was not the last one written. *)
Lemma rd_other (t : gmap Z Z) a v b : a <> b -> rd (<[a := v]> t) b = rd t b.
Proof. intros N. rewrite rd_insert. by rewrite (proj2 (Z.eqb_neq _ _)). Qed.

(** A block ready for its data: type and number of mappings written, data cleared. *)
Record prepared (t : gmap Z Z) (o node : Z) : Prop := {
  pr_room : room size t;
  pr_bounds : 0 <= o /\ o mod 4 = 0 /\ o + block_size node <= size < 2 ^ 32;
  pr_type : rd t (o + at_type) = node_type node;
  pr_maps : rd t (o + at_num_data_map) = mapping_count node;
  pr_data : data_is t o (fun _ => 0)
}.

(** What is known after the data are written. *)
Definition keyed (t : gmap Z Z) (o node : Z) (t' : gmap Z Z) : Prop :=
  room size t' /\ only o (o + block_size node) t t' /\ identified t' o node /\
  (is_root node = true -> base_is t' o 0).

Lemma wp_its_data add t w o node (Q : option Z -> gmap Z Z * world D -> Prop) :
  prepared t o node -> node_ok node -> node_type node = IOVIRT_NODE_ITS_GROUP ->
  (forall t', keyed t o node t' -> Q (Some at_num_its_groups) (t', w)) ->
  wp (add_node_data add iort node o) (t, w) Q.
Proof.
  intros [Hr (B1 & B2 & B3 & B4) Ht Hm Hd] Hok Hty HQ. pose proof (block_size_pos node Hok) as Hp.
  assert (Hits : is_its node = true) by (unfold is_its; by rewrite Hty).
  pose proof (its_fits node Hok Hits) as Hfit. destruct Hok as (_ & Hc & _). rewrite Hits in Hc.
  unfold block_size, NODE_DATA_MAP_SIZE, at_data_map in *.
  unfold add_node_data. rewrite Hty. cbn [Z.eqb IOVIRT_NODE_ITS_GROUP].
  change (IOVIRT_NODE_ITS_GROUP =? IOVIRT_NODE_ITS_GROUP) with true. cbv iota zeta.
  wp_step. mem_step size. wp_step.
  set (n := iort_its_count (node_data node)) in *. set (t1 := <[o + at_data := n]> t).
  apply (wp_fill_words size (fun i => iort_identifier (node_data node) i) n (o + 268)); try done; try in_room.
  { unfold t1; auto. }
  intros t2 Hr2 Ho2 Hf2. wp_step. mem_step size. wp_step. apply HQ.
  set (t3 := <[o + at_num_data_map := u32 (n + 3) / 4]> t2).
  assert (Hlow : forall a, a < o + 268 -> rd t2 a = rd t1 a) by (intros a Ha; eapply rd_only; [exact Ho2|by left]).
  unfold at_type, at_num_data_map, at_data in *.
  split; [unfold t3; auto|]. split.
  - unfold block_size, NODE_DATA_MAP_SIZE, at_data_map. apply (only_trans _ _ _ t1); [apply only_insert; lia|].
    apply (only_trans _ _ _ t2); [eapply only_wider; [..|exact Ho2]; lia|]. apply only_insert. lia.
  - apply (identified_intro _ _ _ (fun i => if i =? 0 then n else 0)).
    + unfold t3, t1, at_type in *. rewrite rd_other, Hlow by lia. unfold t1. rewrite rd_other by lia. done.
    + unfold t3, at_num_data_map, node_maps. rewrite rd_insert, Z.eqb_refl, Hits. fold n. rewrite u32_id by (unfold fits; pow2; lia). done.
    + pose proof (data_is_set t o (fun _ => 0) 0 n Hd) as P. rewrite Z.mul_0_r, Z.add_0_r in P.
      intros i Hi. specialize (P i Hi). unfold NODE_DATA_WORDS, at_data in *. unfold t3.
      rewrite rd_other, Hlow by lia. exact P.
    + intros i. unfold node_word. rewrite Hty. done.
    + intros _ i Hi. unfold t3, at_data_map. rewrite rd_other by lia. by apply Hf2.
Qed.

Lemma wp_name_data add t w o node (Q : option Z -> gmap Z Z * world D -> Prop) :
  prepared t o node -> node_ok node -> node_type node = IOVIRT_NODE_NAMED_COMPONENT ->
  (forall t', keyed t o node t' -> Q (Some at_num_named_components) (t', w)) ->
  wp (add_node_data add iort node o) (t, w) Q.
Proof.
  intros [Hr (B1 & B2 & B3 & B4) Ht Hm Hd] Hok Hty HQ. pose proof (block_size_pos node Hok) as Hp.
  destruct Hok as (_ & _ & Hlen). set (ws := AsciiStrnCpyS (iort_device_name (node_data node))) in *.
  unfold at_data_map, NODE_DATA_WORDS in *.
  unfold add_node_data. rewrite Hty. change (IOVIRT_NODE_NAMED_COMPONENT =? IOVIRT_NODE_ITS_GROUP) with false.
  change (IOVIRT_NODE_NAMED_COMPONENT =? IOVIRT_NODE_NAMED_COMPONENT) with true. cbv iota zeta. fold ws.
  assert (Hin : 8 + 4 * Z.of_nat (length ws) <= 264) by lia.
  assert (Hend : o + 268 <= size) by lia. unfold at_data in *.
  wp_step. apply (wp_store_words size); [done|lia|in_room|clear - Hin Hend; lia|].
  intros t1 Hr1 Ho1 Hf1. wp_step. apply HQ.
  unfold at_data in *. split; [done|]. split; [eapply only_wider; [..|exact Ho1]; lia|].
  apply (identified_intro _ _ _ (fun i => default 0 (ws !! Z.to_nat i))).
  - unfold at_type in *. rewrite (rd_only _ _ _ _ _ Ho1) by lia. done.
  - unfold at_num_data_map in *. rewrite (rd_only _ _ _ _ _ Ho1) by lia. unfold node_maps, is_its. by rewrite Hty.
  - intros i Hi. unfold NODE_DATA_WORDS, at_data in *.
    destruct (Z_lt_le_dec i (Z.of_nat (length ws))); [apply Hf1; lia|].
    rewrite (rd_only _ _ _ _ _ Ho1) by lia. rewrite lookup_ge_None_2 by lia. by apply Hd.
  - intros i. unfold node_word. by rewrite Hty.
  - unfold is_its. by rewrite Hty.
Qed.

(** Data written so far. *)
Definition stage (t : gmap Z Z) (o : Z) (f : Z -> Z) (t' : gmap Z Z) : Prop :=
  room size t' /\ only (o + at_data) (o + at_flags) t t' /\ data_is t' o f.

Lemma stage_set t o f t' k v : 0 <= k < NODE_DATA_WORDS -> stage t o f t' ->
  stage t o (fun i => if i =? k then v else f i) (<[o + at_data + 4 * k := v]> t').
Proof.
  intros Hk (Hr & Ho & Hd). unfold stage, NODE_DATA_WORDS, at_data, at_flags in *. split; [auto|]. split.
  - apply (only_trans _ _ _ t'); [exact Ho|]. apply only_insert. lia.
  - by apply data_is_set.
Qed.

Lemma stage_keyed t o node f t' : prepared t o node -> node_ok node -> is_its node = false ->
  stage t o f t' -> (forall i, f i = node_word node i) -> keyed t o node t'.
Proof.
  intros [Hr (B1 & B2 & B3 & B4) Ht Hm Hd] Hok Hits (Hr' & Ho & Hf) Hn.
  pose proof (block_size_pos node Hok) as Hp. unfold at_data, at_flags, at_data_map in *.
  split; [done|]. split; [eapply only_wider; [..|exact Ho]; lia|].
  apply (identified_intro _ _ _ f); [..|done|done|by rewrite Hits].
  - unfold at_type in *. rewrite (rd_only _ _ _ _ _ Ho) by lia. done.
  - unfold at_num_data_map in *. rewrite (rd_only _ _ _ _ _ Ho) by lia. unfold node_maps. by rewrite Hits.
Qed.

Lemma prepared_stage t o node : prepared t o node -> stage t o (fun _ => 0) t.
Proof. intros [Hr _ _ _ Hd]. done. Qed.

(** One word of the data, by its number. *)
Lemma wp_st_data t o f t' k off v w (Q : () -> gmap Z Z * world D -> Prop) :
  stage t o f t' -> 0 <= k < NODE_DATA_WORDS -> off = o + at_data + 4 * k -> 0 <= o -> o mod 4 = 0 ->
  o + at_data_map <= size ->
  (forall t'', stage t o (fun i => if i =? k then v else f i) t'' -> Q tt (t'', w)) ->
  wp (st off v) (t', w) Q.
Proof.
  intros Hst Hk -> Ho Hm Hs HQ. unfold NODE_DATA_WORDS in Hk.
  apply (wp_st size); [apply Hst|in_room..|]. apply HQ. by apply stage_set.
Qed.

Lemma wp_st64_data t o f t' k off v w (Q : () -> gmap Z Z * world D -> Prop) :
  stage t o f t' -> 0 <= k < NODE_DATA_WORDS - 1 -> off = o + at_data + 4 * k -> 0 <= o -> o mod 4 = 0 ->
  o + at_data_map <= size ->
  (forall t'', stage t o (fun i => if i =? k + 1 then v / 2 ^ 32 else if i =? k then v mod 2 ^ 32 else f i) t'' ->
     Q tt (t'', w)) ->
  wp (st64 off v) (t', w) Q.
Proof.
  intros Hst Hk -> Ho Hm Hs HQ. unfold st64. wp_step.
  eapply (wp_st_data t o f t' k); [done|lia|done..|]. intros t1 Hst1.
  eapply (fun f => wp_st_data t o f t1 (k + 1)); [exact Hst1|lia|lia|done..|]. exact HQ.
Qed.

(** The comparisons of known types. *)
Ltac decide_types := repeat match goal with
  |- context [?a =? ?b] =>
    let v := eval vm_compute in (a =? b) in
    first [constr_eq v true | constr_eq v false]; change (a =? b) with v
  end.

(** A word of the data written, and what the data then are. *)
Ltac data_word Hst n :=
  let t := fresh "t" in
  eapply wp_st_data with (k := n); [exact Hst|unfold NODE_DATA_WORDS; lia|
    unfold at_rc_segment, at_rc_cca, at_rc_ats_attr, at_smmu_arch_major_rev; lia|assumption..|];
  clear Hst; intros t Hst.

Lemma wp_rc_data add t w o node (Q : option Z -> gmap Z Z * world D -> Prop) :
  prepared t o node -> node_ok node -> node_type node = IOVIRT_NODE_PCI_ROOT_COMPLEX ->
  (forall t', keyed t o node t' -> Q (Some at_num_pci_rcs) (t', w)) ->
  wp (add_node_data add iort node o) (t, w) Q.
Proof.
  intros Hpr Hok E HQ. pose proof (pr_bounds _ _ _ Hpr) as (B1 & B2 & B3 & B4).
  pose proof (block_size_pos node Hok) as Hp. pose proof (prepared_stage _ _ _ Hpr) as Hst.
  assert (Hs : o + at_data_map <= size) by lia.
  assert (Hits : is_its node = false) by (unfold is_its; by rewrite E).
  unfold add_node_data. rewrite E.
  decide_types. cbv iota zeta.
  wp_step. data_word Hst 0. wp_step. data_word Hst 2. wp_step. data_word Hst 1. wp_step.
  apply HQ, (stage_keyed _ _ _ _ _ Hpr Hok Hits Hst).
  intros i. unfold node_word. rewrite E.
  decide_types. cbv iota.
  destruct (Z.eqb_spec i 0), (Z.eqb_spec i 1), (Z.eqb_spec i 2); try done; lia.
Qed.

Lemma wp_smmu_data add t w o node (Q : option Z -> gmap Z Z * world D -> Prop) :
  prepared t o node -> node_ok node ->
  node_type node = IOVIRT_NODE_SMMU \/ node_type node = IOVIRT_NODE_SMMU_V3 ->
  (forall t', keyed t o node t' -> Q (Some at_num_smmus) (t', w)) ->
  wp (add_node_data add iort node o) (t, w) Q.
Proof.
  intros Hpr Hok E HQ. pose proof (pr_bounds _ _ _ Hpr) as (B1 & B2 & B3 & B4).
  pose proof (block_size_pos node Hok) as Hp. pose proof (prepared_stage _ _ _ Hpr) as Hst.
  assert (Hs : o + at_data_map <= size) by lia.
  assert (Hits : is_its node = false) by (unfold is_its; by destruct E as [-> | ->]).
  assert (Hw : forall i, node_word node i =
    if i =? 0 then if node_type node =? IOVIRT_NODE_SMMU then 2 else 3
    else if i =? 2 then iort_base_address (node_data node) mod 2 ^ 32
    else if i =? 3 then iort_base_address (node_data node) / 2 ^ 32 else 0).
  { intros i. unfold node_word. by destruct E as [-> | ->]. }
  unfold add_node_data. cbv zeta.
  destruct E as [E|E]; rewrite E in *; decide_types; cbv iota; wp_step; (eapply wp_st64_data with (k := 2); [exact Hst|unfold NODE_DATA_WORDS; lia|
      unfold at_smmu_base; lia|assumption..|]); clear Hst; intros t1 Hst; wp_step;
    data_word Hst 0; wp_step; apply HQ, (stage_keyed _ _ _ _ _ Hpr Hok Hits Hst);
    intros i; rewrite Hw; decide_types; cbv iota;
    destruct (Z.eqb_spec i 0), (Z.eqb_spec i (2 + 1)), (Z.eqb_spec i 2), (Z.eqb_spec i 3);
    try done; lia.
Qed.

(** The data of the block of a node. *)
Lemma wp_node_data add t w o node (Q : option Z -> gmap Z Z * world D -> Prop) :
  prepared t o node -> node_ok node ->
  (forall t', keyed t o node t' -> Q (Some (counter_of (node_type node))) (t', w)) ->
  wp (add_node_data add iort node o) (t, w) Q.
Proof.
  intros Hpr Hok HQ. pose proof (pr_bounds _ _ _ Hpr) as (B1 & B2 & B3 & B4).
  pose proof (block_size_pos node Hok) as Hp. pose proof (prepared_stage _ _ _ Hpr) as Hst.
  assert (Hs : o + at_data_map <= size) by lia.
  pose proof (proj1 Hok) as Hty. rewrite !elem_of_cons in Hty.
  destruct Hty as [E|[E|[E|[E|[E|Hin]]]]]; [..|by apply not_elem_of_nil in Hin]; rewrite E in HQ.
  - by apply (wp_its_data add t w o node).
  - by apply (wp_name_data add t w o node).
  - eapply wp_rc_data; eauto.
  - eapply wp_smmu_data; eauto.
  - eapply wp_smmu_data; eauto.
Qed.
End key.
