(* ===== verification/PalIortAdd.v ===== *)
(** * Adding a node of the IORT

    The recursion of the builder of PalIovirt: the mappings of a node, then the node. *)

From S2P Require Import Prelude Types World Machine Fdt PalIovirt PalIort.
#[local] Open Scope c_scope.

(** ** Adding the mappings of a node *)

Section add.
Context {D : Type} `{Platform D} `{Acpi D} `{AsciiCopy D} (size iort : Z).

#[local] Abbreviation B := (Prelude.M (gmap Z Z * world D)).

(** The interrupts of the context banks are compared in pairs. *)
Lemma nodup_seq (f : Z -> Z) n :
  NoDup (f <$> seqZ 0 n) <-> forall i j, 0 <= i < j -> j < n -> f i <> f j.
Proof.
  rewrite NoDup_alt. split.
  - intros Hn i j Hi Hj E. specialize (Hn (Z.to_nat i) (Z.to_nat j) (f i)).
    rewrite !list_lookup_fmap, !lookup_seqZ_lt in Hn by lia. cbn [fmap option_fmap option_map] in Hn.
    rewrite !Z.add_0_l, !Z2Nat.id, <- E in Hn by lia. specialize (Hn eq_refl eq_refl). lia.
  - intros Hd i j x Hi Hj. rewrite list_lookup_fmap in Hi, Hj.
    apply fmap_Some in Hi as (a & Ha & ->). apply fmap_Some in Hj as (b & Hb & Hx).
    apply lookup_seqZ in Ha as [-> Ha]. apply lookup_seqZ in Hb as [-> Hb].
    destruct (lt_eq_lt_dec i j) as [[Hlt|E]|Hlt]; [|done|].
    + destruct (Hd (0 + Z.of_nat i) (0 + Z.of_nat j)); [lia|lia|done].
    + destruct (Hd (0 + Z.of_nat j) (0 + Z.of_nat i)); [lia|lia|done].
Qed.

Lemma wp_ctx_int_distinct a n t w (Q : Z -> gmap Z Z * world D -> Prop) :
  Q (if bool_decide (NoDup ((fun i => acpi_load 4 (a + 8 * i)) <$> seqZ 0 n)) then 1 else 0) (t, w) ->
  wp (smmu_ctx_int_distinct a n) (t, w) Q.
Proof.
  intros HQ. set (f := fun i => acpi_load 4 (a + 8 * i)) in *. pose proof (nodup_seq f n) as Hnd.
  unfold smmu_ctx_int_distinct. wp_step.
  apply (wp_for (fun k _ s => s = (t, w) /\ forall i j, 0 <= i < k -> i < j < n -> f i <> f j)).
  - split; [done|]. intros i j Hi. lia.
  - intros k [] s Hk (-> & Hd). wp_step.
    apply (wp_for (fun m _ s => s = (t, w) /\ forall j, k < j < m -> f k <> f j)).
    + split; [done|]. intros j Hj. lia.
    + intros m [] s Hm (-> & Hdm). wp_step. fold (f k). fold (f m). destruct (Z.eqb_spec (f k) (f m)) as [E|E].
      * wp_step. wp_step. rewrite bool_decide_eq_false_2 in HQ; [exact HQ|].
        rewrite Hnd. intros Hall. apply (Hall k m); [lia|lia|done].
      * split; [done|]. intros j Hj. destruct (decide (j = m)) as [->|N]; [done|]. apply Hdm. lia.
    + intros [] s (-> & Hdm). wp_step. split; [done|]. intros i j Hi Hj.
      destruct (decide (i = k)) as [->|N]; [apply Hdm; lia|apply Hd; lia].
  - intros [] s (-> & Hd). wp_step. rewrite bool_decide_eq_true_2 in HQ; [exact HQ|].
    rewrite Hnd. intros i j Hi Hj. apply Hd; lia.
Qed.

(** The table while the block at [block], of [node], is open. *)
Record opened (t : gmap Z Z) (offs : list Z) (next block : Z) (open : list Z) (done_ : list (Z * Z))
    (node : Z) : Prop := {
  op_layout : layout size iort t offs next (block :: open) done_;
  op_counters : counters t done_;
  op_in : block ∈ offs;
  op_ok : node_ok node;
  op_node : identified t block node;
  op_map : is_its node = false;
  op_known : in_iort iort node
}.

(** What is identified stays so. *)
Definition keeps_identity (t t' : gmap Z Z) (offs : list Z) : Prop :=
  forall o nd, o ∈ offs -> node_ok nd -> identified t o nd -> identified t' o nd.

Lemma keeps_identity_trans t1 t2 t3 offs :
  keeps_identity t1 t2 offs -> keeps_identity t2 t3 offs -> keeps_identity t1 t3 offs.
Proof. intros K1 K2 o nd Ho Hok Hi. by apply K2, K1. Qed.

Lemma opened_write t offs next block open done_ node a v :
  opened t offs next block open done_ node -> free_word block node a ->
  opened (<[a := v]> t) offs next block open done_ node /\ keeps_identity t (<[a := v]> t) offs.
Proof.
  intros [Hl [Hc1 Hc2] Hb Hok Hi Hits Hkn] Ha.
  assert (Hfree : forall x, rd (<[a := v]> t) x = rd t x \/ harmless t offs (block :: open) x).
  { intros x. rewrite rd_insert. destruct (Z.eqb_spec a x) as [<-|N]; [right|by left].
    eapply harmless_free; eauto; by left. }
  assert (Hk : keeps_identity t (<[a := v]> t) offs).
  { intros o nd Ho Hoknd Hid. by eapply write_identified. }
  destruct (layout_bounds _ _ _ _ _ _ _ block Hl Hb) as (B1 & _).
  assert (Hlow : forall x, x < 24 -> rd (<[a := v]> t) x = rd t x).
  { intros x Hx. apply rd_other. unfold free_word, at_data_map, at_data, at_rc_smmu_base in Ha. lia. }
  split; [split; try done|done].
  - eapply layout_write; [exact Hl|done|]. apply room_insert, Hl.
  - split; [by rewrite Hlow|]. intros c Hc. rewrite Hlow; [by apply Hc2|].
    pose proof (type_counter_cases c Hc). lia.
  - by apply Hk.
Qed.

(** Where the blocks end, other words may change. *)
Lemma identified_below t t' offs next open done_ o nd :
  layout size iort t offs next open done_ -> (forall a, 24 <= a < next -> rd t' a = rd t a) ->
  o ∈ offs -> node_ok nd -> identified t o nd -> identified t' o nd.
Proof.
  intros Hl Hs Ho Hok Hi. destruct (layout_bounds _ _ _ _ _ _ _ o Hl Ho) as (B1 & _ & _ & B4).
  destruct (identified_size t o nd Hok Hi) as [E _]. rewrite E in B4.
  apply (identified_same t); [done| |done]. intros a (Ha & _). apply Hs. lia.
Qed.

(** The mappings recorded so far. *)
Definition mapped_to (t : gmap Z Z) (offs : list Z) (block node n : Z) : Prop :=
  forall j, 0 <= j < n -> mapped_as t offs iort node j (block + at_data_map + j * NODE_DATA_MAP_SIZE).

Lemma mapped_to_same t t' offs offs' block node n :
  mapped_to t offs block node n -> keeps_identity t t' offs -> (forall x, x ∈ offs -> x ∈ offs') ->
  (forall a, block + at_data_map <= a < block + at_data_map + n * NODE_DATA_MAP_SIZE -> rd t' a = rd t a) ->
  mapped_to t' offs' block node n.
Proof.
  intros Hm Hk Hs Ha j Hj. specialize (Hm j Hj). unfold mapped_as in *.
  set (m := block + at_data_map + j * NODE_DATA_MAP_SIZE) in *.
  assert (Hw : forall k, 0 <= k < 16 -> rd t' (m + k) = rd t (m + k)).
  { intros k Hk'. apply Ha. unfold m, NODE_DATA_MAP_SIZE. nia. }
  unfold at_input_base, at_id_count, at_output_base, at_output_ref in *. rewrite !Hw by lia.
  destruct Hm as (E1 & E2 & E3 & E4 & E5 & E6). repeat (split; [by auto|]). auto.
Qed.

(** What adding the block of a node achieves. *)
Definition added (t : gmap Z Z) (w : world D) (offs : list Z) (next : Z) (open : list Z) (node bound : Z)
    (r : Z * Z) (s : gmap Z Z * world D) : Prop :=
  exists t' new done_', s = (t', w) /\ layout size iort t' (offs ++ new) (snd r) open done_' /\
    counters t' done_' /\ fst r ∈ offs ++ new /\ identified t' (fst r) node /\
    next <= snd r <= next + bound /\ forall a, 24 <= a < next -> rd t' a = rd t a.

(** The recursive call adds blocks of the nodes it is called on. *)
Definition adds (n : nat) (add : Z -> Z -> B (Z * Z)) : Prop :=
  forall node next offs open done_ t w,
    grounded n iort node -> in_iort iort node ->
    layout size iort t offs next open done_ -> counters t done_ ->
    next + span n iort node <= size ->
    wp (add node next) (t, w) (added t w offs next open node (span n iort node)).
End add.

(** ** The mappings of a node *)

Section mappings.
Context {D : Type} `{Platform D} `{Acpi D} `{AsciiCopy D} (size iort : Z).
Context (n : nat) (add : Z -> Z -> Prelude.M (gmap Z Z * world D) (Z * Z)).
Context (Hadd : adds size iort n add).

(** The room taken by the references of the mappings from [i] on. *)
Definition spans (node i : Z) : Z :=
  foldr (fun j s => span n iort (child iort node j) + s) 0 (seqZ i (mapping_count node - i)).

Lemma span_nonneg k node : grounded k iort node -> at_data_map <= span k iort node.
Proof.
  revert node. induction k as [|k IH]; intros node; [by intros []|]. intros [Hok Hg]. cbn [span].
  pose proof (block_size_pos node Hok) as Hb. destruct (is_its node); [lia|].
  assert (Hf : Forall (fun i => 0 <= span k iort (child iort node i)) (seqZ 0 (mapping_count node))).
  { apply Forall_forall. intros i Hi%elem_of_seqZ. unfold at_data_map in IH.
    specialize (IH _ (Hg eq_refl i ltac:(lia))). lia. }
  assert (0 <= foldr (fun i s => span k iort (child iort node i) + s) 0 (seqZ 0 (mapping_count node))); [|lia].
  induction Hf; cbn; lia.
Qed.

Lemma spans_step node i : 0 <= i < mapping_count node ->
  spans node i = span n iort (child iort node i) + spans node (i + 1).
Proof.
  intros Hi. unfold spans. rewrite seqZ_cons by lia. cbn [foldr].
  by replace (Z.pred (mapping_count node - i)) with (mapping_count node - (i + 1)) by lia.
Qed.

Lemma grounded_ok k node : grounded k iort node -> node_ok node.
Proof. destruct k; [done|by intros []]. Qed.

(** The state after the first [i] mappings of the node of [block]. *)
Definition mapping_done (t : gmap Z Z) (w : world D) (offs : list Z) (next block : Z) (open : list Z)
    (node i next' : Z) (s : gmap Z Z * world D) : Prop :=
  exists t' new done_', s = (t', w) /\ opened size iort t' (offs ++ new) next' block open done_' node /\
    mapped_to iort t' (offs ++ new) block node i /\
    (is_root node = true -> base_is t' block (rc_base iort node i)) /\
    next <= next' /\ next' + spans node i <= next + spans node 0 /\
    forall a, 24 <= a < next -> ~ free_word block node a -> rd t' a = rd t a.

Lemma opened_bounds t offs next block open done_ node :
  opened size iort t offs next block open done_ node ->
  24 <= block /\ block mod 4 = 0 /\ block + block_size node <= next /\ next <= size < 2 ^ 32 /\
  block_size node = at_data_map + mapping_count node * NODE_DATA_MAP_SIZE /\ room size t.
Proof.
  intros Ho. destruct (layout_bounds _ _ _ _ _ _ _ block (op_layout _ _ _ _ _ _ _ _ _ Ho) (op_in _ _ _ _ _ _ _ _ _ Ho))
    as (B1 & B2 & B3 & B4).
  destruct (identified_size t block node (op_ok _ _ _ _ _ _ _ _ _ Ho) (op_node _ _ _ _ _ _ _ _ _ Ho)) as [Es _].
  rewrite Es in B4. repeat (split; [done|]). split; [apply (op_layout _ _ _ _ _ _ _ _ _ Ho)|].
  split; [|apply (op_layout _ _ _ _ _ _ _ _ _ Ho)].
  unfold block_size, node_maps. by rewrite (op_map _ _ _ _ _ _ _ _ _ Ho).
Qed.

Lemma spans_nonneg node k : 0 <= k ->
  (forall i, k <= i < mapping_count node -> grounded n iort (child iort node i)) -> 0 <= spans node k.
Proof.
  intros Hk Hg. unfold spans.
  assert (Hf : Forall (fun i => 0 <= span n iort (child iort node i)) (seqZ k (mapping_count node - k))).
  { apply Forall_forall. intros i Hi%elem_of_seqZ. pose proof (span_nonneg n _ (Hg i ltac:(lia))) as Hs.
    unfold at_data_map in Hs. lia. }
  induction Hf; cbn; lia.
Qed.

(** A poke in the open block. *)
Lemma wp_st_free t w offs next block open done_ node a v (Q : () -> gmap Z Z * world D -> Prop) :
  opened size iort t offs next block open done_ node -> free_word block node a -> a mod 4 = 0 ->
  (forall t', t' = <[a := v]> t -> opened size iort t' offs next block open done_ node ->
     keeps_identity t t' offs -> Q tt (t', w)) ->
  wp (st a v) (t, w) Q.
Proof.
  intros Ho Hf Hm HQ. destruct (opened_bounds _ _ _ _ _ _ _ Ho) as (B1 & B2 & B3 & B4 & B5 & B6).
  unfold free_word, at_data_map, at_data, at_rc_smmu_base in Hf.
  pose proof (block_size_pos node (op_ok _ _ _ _ _ _ _ _ _ Ho)) as Hp. unfold at_data_map in Hp.
  apply (wp_st size); [done|lia|done|].
  destruct (opened_write size iort t offs next block open done_ node a v Ho Hf) as [Ho' Hk]. by apply HQ.
Qed.

(** The SMMU base in the open block. *)
Lemma wp_st64_base t w offs next block open done_ node v (Q : () -> gmap Z Z * world D -> Prop) :
  opened size iort t offs next block open done_ node ->
  (forall t', opened size iort t' offs next block open done_ node -> keeps_identity t t' offs ->
     (forall a, a < block + 24 \/ block + 32 <= a -> rd t' a = rd t a) -> base_is t' block v -> Q tt (t', w)) ->
  wp (st64 (block + at_data + at_rc_smmu_base) v) (t, w) Q.
Proof.
  intros Ho HQ. destruct (opened_bounds _ _ _ _ _ _ _ Ho) as (B1 & B2 & _).
  unfold st64, at_data, at_rc_smmu_base. wp_step.
  eapply wp_st_free; [exact Ho|unfold free_word, at_data, at_rc_smmu_base; right; lia|divmod|].
  intros t1 -> Ho1 K1.
  eapply wp_st_free; [exact Ho1|unfold free_word, at_data, at_rc_smmu_base; right; lia|divmod|].
  intros t2 -> Ho2 K2. apply HQ; [done|by eapply keeps_identity_trans| |].
  - intros a Ha. by rewrite !rd_other by lia.
  - unfold base_is, at_data, at_rc_smmu_base. split; [rewrite rd_other by lia|]; by rewrite rd_insert, Z.eqb_refl.
Qed.

(** The address in the block of an SMMU. *)
Lemma smmu_base_word t o nd : identified t o nd ->
  (node_type nd =? IOVIRT_NODE_SMMU) || (node_type nd =? IOVIRT_NODE_SMMU_V3) = true ->
  rd t (o + at_data + at_smmu_base) + 2 ^ 32 * rd t (o + at_data + at_smmu_base + 4) =
    iort_base_address (node_data nd).
Proof.
  intros Hid Hty.
  assert (Hw : node_word nd 2 = iort_base_address (node_data nd) mod 2 ^ 32 /\
    node_word nd 3 = iort_base_address (node_data nd) / 2 ^ 32).
  { unfold node_word. apply orb_true_iff in Hty as [Hty|Hty]; apply Z.eqb_eq in Hty; by rewrite Hty. }
  destruct Hw as [W2 W3]. rewrite <- (id_data _ _ _ Hid 2) in W2 by (unfold NODE_DATA_WORDS; lia).
  rewrite <- (id_data _ _ _ Hid 3) in W3 by (unfold NODE_DATA_WORDS; lia). unfold at_smmu_base.
  replace (o + at_data + 8 + 4) with (o + at_data + 4 * 3) by lia. change 8 with (4 * 2).
  rewrite W2, W3. divmod.
Qed.

Lemma wp_map_refer t w offs next block open done_ node i offset (Q : () -> gmap Z Z * world D -> Prop) :
  let m := block + at_data_map + i * NODE_DATA_MAP_SIZE in
  opened size iort t offs next block open done_ node -> 0 <= i < mapping_count node -> offset ∈ offs ->
  node_ok (child iort node i) -> identified t offset (child iort node i) ->
  (forall t', opened size iort t' offs next block open done_ node -> keeps_identity t t' offs ->
     rd t' (m + at_output_ref) = offset ->
     (is_root node = true -> base_is t' block (rc_base iort node (i + 1))) ->
     (forall a, a < block + 24 \/ block + 32 <= a -> a <> m + at_output_ref -> rd t' a = rd t a) -> Q tt (t', w)) ->
  wp (map_refer block m offset) (t, w) Q.
Proof.
  intros m Ho Hi Hin Hokc Hidc HQ. destruct (opened_bounds _ _ _ _ _ _ _ Ho) as (B1 & B2 & B3 & B4 & B5 & B6).
  destruct (layout_bounds _ _ _ _ _ _ _ offset (op_layout _ _ _ _ _ _ _ _ _ Ho) Hin) as (C1 & C2 & C3 & C4).
  rewrite B5 in B3. unfold at_data_map, NODE_DATA_MAP_SIZE in *.
  assert (Hm : block + 268 <= m /\ m + 16 <= next /\ m mod 4 = 0) by (unfold m; split; [lia|]; split; [lia|divmod]).
  unfold map_refer. wp_step. eapply wp_st_free; [exact Ho| |unfold at_output_ref; divmod|].
  { left. rewrite B5. unfold at_output_ref, at_data_map, NODE_DATA_MAP_SIZE in *. lia. }
  intros t1 -> Ho1 K1. wp_step. eapply wp_st64_base; [exact Ho1|]. intros t2 Ho2 K2 S2 Z2.
  destruct (opened_bounds _ _ _ _ _ _ _ Ho2) as (_ & _ & _ & _ & _ & R2).
  assert (Hid2 : identified t2 offset (child iort node i)) by (by apply K2, K1).
  assert (Hdone : forall t', opened size iort t' offs next block open done_ node -> keeps_identity t2 t' offs ->
    (forall a, a < block + 24 \/ block + 32 <= a -> rd t' a = rd t2 a) ->
    (is_root node = true -> base_is t' block (rc_base iort node (i + 1))) -> Q tt (t', w)).
  { intros t' Ho' K' S' Hb. apply HQ; [done| | |done|].
    - eapply keeps_identity_trans; [exact K1|]. by eapply keeps_identity_trans.
    - unfold at_output_ref in *. rewrite S', S2, rd_insert, Z.eqb_refl by lia. done.
    - intros a Ha Hne. rewrite S', S2, rd_other by done. done. }
  assert (Hrb : rc_base iort node (i + 1) = let last := child iort node i in
    if (node_type last =? IOVIRT_NODE_SMMU) || (node_type last =? IOVIRT_NODE_SMMU_V3)
    then iort_base_address (node_data last) else 0).
  { unfold rc_base. rewrite (proj2 (Z.ltb_lt 0 (i + 1))) by lia. by replace (i + 1 - 1) with i by lia. }
  cbv zeta in Hrb. set (b := _ || _) in Hrb.
  assert (Hlast : forall c : bool, (is_root node = true -> c = b) -> (c = true -> b = true) -> wp (when c then
    (let* base := ld64 (offset + at_data + at_smmu_base) in
     st64 (block + at_data + at_rc_smmu_base) base)) (t2, w) Q).
  { intros [] Hr Hc.
    - cbv iota. wp_step. mem_step size. rewrite (smmu_base_word t2 offset _ Hid2 (Hc eq_refl)).
      eapply wp_st64_base; [exact Ho2|]. intros t' Ho' K' S' Hb. apply Hdone; [done..|]. intros Hroot.
      by rewrite Hrb, <- (Hr Hroot).
    - wp_step. apply Hdone; [exact Ho2|by intros o|exact (fun _ _ => eq_refl)|]. intros Hroot.
      by rewrite Hrb, <- (Hr Hroot). }
  wp_step. mem_step size. wp_step.
  rewrite (id_type _ _ _ (op_node _ _ _ _ _ _ _ _ _ Ho2)). fold (is_root node).
  destruct (is_root node) eqn:Hroot; [|wp_step; exact (Hlast false ltac:(done) ltac:(done))].
  unfold is_smmu_at. wp_step. mem_step size. wp_step. rewrite (id_type _ _ _ Hid2). by apply Hlast.
Qed.

Lemma wp_add_mapping t w offs next block open done_ node i (Q : Z -> gmap Z Z * world D -> Prop) :
  opened size iort t offs next block open done_ node -> 0 <= i < mapping_count node ->
  mapped_to iort t offs block node i -> grounded n iort (child iort node i) ->
  next + span n iort (child iort node i) <= size ->
  (forall t' new done_' next', opened size iort t' (offs ++ new) next' block open done_' node ->
     mapped_to iort t' (offs ++ new) block node (i + 1) ->
     (is_root node = true -> base_is t' block (rc_base iort node (i + 1))) ->
     next <= next' <= next + span n iort (child iort node i) ->
     (forall a, 24 <= a < next -> ~ free_word block node a -> rd t' a = rd t a) -> Q next' (t', w)) ->
  wp (add_mapping add iort block (block + at_data_map + i * NODE_DATA_MAP_SIZE) (mapping_at node i) next) (t, w) Q.
Proof.
  intros Ho Hi Hmt Hg Hsp HQ. set (m := block + at_data_map + i * NODE_DATA_MAP_SIZE).
  destruct (opened_bounds _ _ _ _ _ _ _ Ho) as (B1 & B2 & B3 & B4 & B5 & B6).
  assert (Hfree : forall k, 0 <= k < 16 -> free_word block node (m + k)).
  { intros k Hk. left. rewrite B5. unfold m, NODE_DATA_MAP_SIZE. nia. }
  assert (Hm : m mod 4 = 0) by (unfold m, at_data_map, NODE_DATA_MAP_SIZE; divmod).
  unfold add_mapping. fold m. unfold at_input_base, at_id_count, at_output_base.
  wp_step. eapply wp_st_free; [exact Ho|apply Hfree; lia|divmod|]. intros t1 E1 Ho1 K1.
  wp_step. eapply wp_st_free; [exact Ho1|apply Hfree; lia|divmod|]. intros t2 E2 Ho2 K2.
  wp_step. eapply wp_st_free; [exact Ho2|apply Hfree; lia|divmod|]. intros t3 E3 Ho3 K3.
  assert (S3 : forall a, a < m \/ m + 12 <= a -> rd t3 a = rd t a).
  { intros a Ha. subst t3 t2 t1. by rewrite !rd_other by lia. }
  assert (M0 : rd t3 m = map_input_base (mapping_at node i)).
  { subst t3 t2 t1. rewrite !rd_other, rd_insert by lia. by rewrite Z.add_0_r, Z.eqb_refl. }
  assert (M4 : rd t3 (m + 4) = map_id_count (mapping_at node i)).
  { subst t3 t2. rewrite rd_other, rd_insert by lia. by rewrite Z.eqb_refl. }
  assert (M8 : rd t3 (m + 8) = map_output_base (mapping_at node i)).
  { subst t3. by rewrite rd_insert, Z.eqb_refl. }
  clear E1 E2 E3 Ho1 Ho2.
  wp_step. eapply wp_mono.
  { apply Hadd with (offs := offs) (open := block :: open) (done_ := done_);
      [exact Hg|apply in_reference; [apply Ho3..|exact Hi]|apply Ho3|apply Ho3|exact Hsp]. }
  intros [offset next'] s (t4 & new & done_' & -> & Hl4 & Hc4 & Hin4 & Hid4 & Hn4 & S4). cbn [fst snd] in *.
  wp_step. pose proof Ho3 as [L3 _ I3 Ok3 N3 Its3 Kn3].
  assert (K4 : keeps_identity t3 t4 offs).
  { intros o nd Hoff Hok Hid. by apply (identified_below size iort t3 t4 offs next (block :: open) done_). }
  assert (Ho4 : opened size iort t4 (offs ++ new) next' block open done_' node).
  { split; [done|done|apply elem_of_app; by left|done|by apply K4|done|done]. }
  eapply wp_map_refer with (i := i); [exact Ho4|exact Hi|exact Hin4|by eapply grounded_ok|exact Hid4|].
  intros t5 Ho5 K5 M12 Hbase5 S5. wp_step.
  fold m in M12, S5.
  assert (S : forall a, 24 <= a < next -> a < m \/ m + 16 <= a -> a < block + 24 \/ block + 32 <= a -> rd t5 a = rd t a).
  { intros a Ha Hm' Hb. rewrite S5, S4, S3; [done|lia|done|done|unfold at_output_ref; lia]. }
  assert (Km : keeps_identity t t5 offs).
  { intros o nd Hoff Hok Hid. apply K5; [apply elem_of_app; by left|done|]. by apply K4, K3, K2, K1. }
  assert (Hmm : block + 268 <= m /\ m + 16 <= next) by
    (rewrite B5 in B3; unfold m, at_data_map, NODE_DATA_MAP_SIZE in *; nia).
  apply (HQ t5 new done_' next'); [done| |done|done|].
  - intros j Hj. destruct (decide (j = i)) as [->|N].
    + fold m. unfold mapped_as, at_input_base, at_id_count, at_output_base in *. rewrite M12, Z.add_0_r.
      rewrite !S5, !S4 by (unfold at_output_ref; lia).
      repeat (split; [done|]). split; [by eapply grounded_ok|].
      apply K5; [done|by eapply grounded_ok|done].
    + apply (mapped_to_same iort t t5 offs (offs ++ new) block node i); [done..| | |lia].
      * intros x Hx. apply elem_of_app. by left.
      * intros a Ha. fold m in Ha. unfold at_data_map in Ha. apply S; lia.
  - intros a Ha Hnf. unfold free_word in Hnf. rewrite B5 in Hnf.
    assert (m + 16 <= block + (at_data_map + mapping_count node * NODE_DATA_MAP_SIZE)) by
      (unfold m, NODE_DATA_MAP_SIZE; nia).
    unfold at_data_map, at_data, at_rc_smmu_base in *. apply S; lia.
Qed.

Lemma wp_add_mappings t w offs next block open done_ node (Q : Z -> gmap Z Z * world D -> Prop) :
  opened size iort t offs next block open done_ node ->
  (is_root node = true -> base_is t block 0) ->
  (forall i, 0 <= i < mapping_count node -> grounded n iort (child iort node i)) ->
  next + spans node 0 <= size ->
  (forall next' s, mapping_done t w offs next block open node (mapping_count node) next' s -> Q next' s) ->
  wp (add_mappings add iort block (node + mapping_offset node) next) (t, w) Q.
Proof.
  intros Ho Hb0 Hg Hsp HQ. destruct (opened_bounds _ _ _ _ _ _ _ Ho) as (B1 & B2 & B3 & B4 & B5 & B6).
  pose proof Ho as [_ _ _ Hok Hid Hits _]. pose proof (block_size_pos node Hok) as Hp.
  pose proof (node_maps_nonneg node Hok) as Hn0.
  assert (Hn : node_maps node = mapping_count node) by (unfold node_maps; by rewrite Hits).
  unfold at_data_map in Hp. unfold add_mappings. wp_step. mem_step size. rewrite (id_maps _ _ _ Hid), Hn.
  apply (wp_for_acc (fun i next' s => mapping_done t w offs next block open node i next' s)).
  - exists t, [], done_. rewrite app_nil_r. split; [done|]. split; [done|]. split; [intros j Hj; lia|].
    split; [exact Hb0|]. split; [lia|]. split; [lia|done].
  - intros i next' s Hi (t' & new & done_' & -> & Ho' & Hm' & _ & Hle & Hsum & S). rewrite Z.add_0_l in Hi.
    assert (Hi' : 0 <= i < mapping_count node) by lia. pose proof (spans_step node i Hi') as E.
    pose proof (span_nonneg n _ (Hg i Hi')) as Hs. unfold at_data_map in Hs.
    assert (Hrest : 0 <= spans node (i + 1)) by (apply spans_nonneg; [lia|]; intros; apply Hg; lia).
    eapply wp_add_mapping; [exact Ho'|exact Hi'|exact Hm'|by apply Hg|lia|].
    intros t2 new2 done2 next2 Ho2 Hm2 Hb2 Hle2 S2. rewrite <- app_assoc in Ho2, Hm2.
    exists t2, (new ++ new2), done2. split; [done|]. split; [done|]. split; [done|]. split; [done|]. split; [lia|]. split; [lia|].
    intros a Ha Hnf. rewrite S2, S; [done|lia|done|lia|done].
  - intros next' s Hd. apply HQ. rewrite Z2Nat.id in Hd by lia. exact Hd.
Qed.
End mappings.


(** ** Adding a node *)

Section node_block.
Context {D : Type} `{Platform D} `{Acpi D} `{AsciiCopy D} (size iort : Z).

#[local] Abbreviation B := (Prelude.M (gmap Z Z * world D)).

(** The block of a node written after the others. *)
Record written (t : gmap Z Z) (next node : Z) (t' : gmap Z Z) : Prop := {
  wr_room : room size t';
  wr_below : forall a, a < next -> rd t' a = rd t a;
  wr_node : identified t' next node;
  wr_base : is_root node = true -> base_is t' next 0
}.

Lemma written_layout t offs next open done_ node t' :
  layout size iort t offs next open done_ -> written t next node t' -> layout size iort t' offs next open done_.
Proof.
  intros Hl [Hr Hb _ _]. apply (layout_write size iort t); [done| |done]. intros a.
  destruct (Z_lt_le_dec a next); [left; by apply Hb|right]. eapply harmless_outside; [exact Hl|by right].
Qed.

Lemma written_counters t offs next open done_ node t' :
  layout size iort t offs next open done_ -> written t next node t' -> counters t done_ -> counters t' done_.
Proof.
  intros Hl [_ Hb _ _] [C1 C2]. destruct (layout_next _ _ _ _ _ _ _ Hl) as [N _].
  split; [rewrite Hb; [done|unfold at_num_blocks; lia]|]. intros c Hc. pose proof (type_counter_cases c Hc).
  rewrite Hb by lia. by apply C2.
Qed.

Lemma identified_flags t o node v : node_ok node -> identified t o node ->
  identified (<[o + at_flags := v]> t) o node.
Proof.
  intros Hok [Ht Hm Hd Hi]. unfold NODE_DATA_WORDS, at_type, at_num_data_map, at_data, at_data_map, at_flags in *.
  split; unfold NODE_DATA_WORDS, at_type, at_num_data_map, at_data, at_data_map; intros;
    rewrite rd_other by lia; auto.
Qed.

Lemma written_flags t next node t' v : node_ok node ->
  written t next node t' -> written t next node (<[next + at_flags := v]> t').
Proof.
  intros Hok [Hr Hb Hi Hz]. split; [auto| |by apply identified_flags|].
  - intros a Ha. rewrite rd_other by (unfold at_flags; lia). by apply Hb.
  - intros Hroot. specialize (Hz Hroot). unfold base_is, at_flags, at_data, at_rc_smmu_base in *.
    by rewrite !rd_other by lia.
Qed.

(** The key of the search. *)
Lemma wp_write_key add t offs next open done_ node w (rest : option Z -> B (Z * Z))
    (Q : Z * Z -> gmap Z Z * world D -> Prop) :
  layout size iort t offs next open done_ -> node_ok node -> next + block_size node <= size ->
  (forall t', written t next node t' -> wp (rest (Some (counter_of (node_type node)))) (t', w) Q) ->
  wp (clear_data (next + at_data) ;; st (next + at_type) (node_type node) ;;
      st (next + at_num_data_map) (mapping_count node) ;;
      bind (add_node_data add iort node next) rest) (t, w) Q.
Proof.
  intros Hl Hok Hsz HQ. pose proof (l_room _ _ _ _ _ _ _ Hl) as Hr. pose proof (l_size _ _ _ _ _ _ _ Hl) as Hs.
  destruct (layout_next _ _ _ _ _ _ _ Hl) as [N1 N2]. pose proof (block_size_pos node Hok) as Hp.
  unfold at_data_map, at_data, at_type, at_num_data_map in *. rewrite Z.add_0_r.
  wp_step. apply (wp_clear_data size); [done|lia|divmod|lia|]. intros t1 Hr1 Ho1 Hf1.
  wp_step. mem_step size. wp_step. mem_step size. wp_step.
  apply (wp_node_data size) with (node := node); [|done|].
  - split; [auto|split; [lia|split; [done|lia]]| | |].
    + unfold at_type. by rewrite rd_other, Z.add_0_r, rd_insert, Z.eqb_refl by lia.
    + unfold at_num_data_map. by rewrite rd_insert, Z.eqb_refl.
    + intros i Hi. unfold at_data, NODE_DATA_WORDS in *. rewrite !rd_other by lia. by apply Hf1.
  - intros t2 (Hr2 & Ho2 & Hi2 & Hz2). apply HQ. split; [done| |done|done].
    intros a Ha. rewrite (rd_only _ _ _ _ _ Ho2), !rd_other by lia. eapply rd_only; [exact Ho1|lia].
Qed.

(** The flag of an SMMU whose context banks share interrupts. *)
Lemma wp_flag t next node t' w (Q : () -> gmap Z Z * world D -> Prop) :
  node_ok node -> 0 <= next -> next mod 4 = 0 -> next + at_data_map <= size ->
  written t next node t' -> rd t' (next + at_flags) = 0 ->
  (forall t'', written t next node t'' ->
     Z.testbit (rd t'' (next + at_flags)) IOVIRT_FLAG_SMMU_CTX_INT_SHIFT = shared_context node -> Q tt (t'', w)) ->
  wp (when node_type node =? IOVIRT_NODE_SMMU then
        (let* distinct := smmu_ctx_int_distinct (node + iort_context_interrupt_offset (node_data node))
                            (iort_context_interrupt_count (node_data node)) in
         when distinct =? 0 then
           (let* flags := ld (next + at_flags) in
            st (next + at_flags) (Z.lor flags (Z.shiftl 1 IOVIRT_FLAG_SMMU_CTX_INT_SHIFT))))) (t', w) Q.
Proof.
  intros Hok Hn Hm Hs Hw H0' HQ. unfold at_data_map in Hs. pose proof (wr_room _ _ _ _ Hw) as Hr.
  assert (Hno : shared_context node = false -> Q tt (t', w)).
  { intros E. apply HQ; [done|]. by rewrite H0', E. }
  unfold shared_context in *. destruct (node_type node =? IOVIRT_NODE_SMMU); [|cbv iota; wp_step; by apply Hno].
  wp_step. apply wp_ctx_int_distinct.
  change ((fun i => acpi_load 4 (node + iort_context_interrupt_offset (node_data node) + 8 * i)) <$>
    seqZ 0 (iort_context_interrupt_count (node_data node))) with (context_interrupts node).
  destruct (bool_decide (NoDup (context_interrupts node))); cbv iota.
  { change (1 =? 0) with false. cbv iota. wp_step. by apply Hno. }
  change (0 =? 0) with true. cbv iota.
  wp_step. mem_step size. mem_step size. apply HQ; [by apply written_flags|].
  rewrite rd_insert, Z.eqb_refl, H0'. done.
Qed.
End node_block.

(** ** The recursion *)

Section recursion.
Context {D : Type} `{Platform D} `{Acpi D} `{AsciiCopy D} (size iort : Z).

Lemma wp_count_one c t w (Q : () -> gmap Z Z * world D -> Prop) :
  room size t -> 0 <= c < size -> c mod 4 = 0 -> Q tt (<[c := u32 (rd t c + 1)]> t, w) ->
  wp (count_one c) (t, w) Q.
Proof.
  intros Hr Hc Hm HQ. unfold count_one. wp_step. apply (wp_ld size); [done..|].
  by apply (wp_st size).
Qed.

Lemma span_block n node : grounded (S n) iort node -> block_size node <= span (S n) iort node.
Proof.
  intros [Hok Hg]. cbn [span]. destruct (is_its node) eqn:Hits; [lia|].
  pose proof (spans_nonneg iort n node 0 ltac:(lia) (fun i => Hg eq_refl i)) as Hs.
  unfold spans in Hs. rewrite Z.sub_0_r in Hs. lia.
Qed.

(** The end of a new block: it is counted. *)
Lemma wp_finish t w offs next open done_ block node (Q : Z * Z -> gmap Z Z * world D -> Prop) :
  layout size iort t offs next (block :: open) done_ -> complete iort t offs block node -> counters t done_ ->
  block + at_data_map <= size -> 24 <= block ->
  (forall t', layout size iort t' offs next open ((block, node) :: done_) -> counters t' ((block, node) :: done_) ->
     (forall a, 24 <= a -> rd t' a = rd t a) -> Q (block, next) (t', w)) ->
  wp (count_one at_num_blocks ;; count_one (counter_of (node_type node)) ;; ret (block, next)) (t, w) Q.
Proof.
  intros Hl Hcom Hcnt Hs Hb HQ. pose proof (l_room _ _ _ _ _ _ _ Hl) as Hr.
  pose proof (type_counter_cases _ (counter_of_in (node_type node))) as Hc. unfold at_data_map in Hs.
  destruct (layout_finish size iort t offs next block open done_ node Hl Hcom Hcnt) as [Hl' Hc'].
  wp_step. apply wp_count_one; [done|in_room|done|]. wp_step.
  apply wp_count_one; [auto|lia|destruct Hc as [-> | [-> | [-> | ->]]]; done|]. wp_step.
  apply HQ; [done|done|]. intros a Ha. rewrite !rd_other; [done|unfold at_num_blocks; lia|lia].
Qed.

(** The mappings of a new block, and the blocks they refer to. *)
Lemma wp_node_maps n t w offs next open done_ node
    (Q : Z -> gmap Z Z * world D -> Prop) :
  adds size iort n (iort_add_block n iort) -> grounded (S n) iort node -> in_iort iort node ->
  layout size iort t offs next open done_ -> counters t done_ -> identified t next node ->
  (is_root node = true -> base_is t next 0) ->
  Z.testbit (rd t (next + at_flags)) IOVIRT_FLAG_SMMU_CTX_INT_SHIFT = shared_context node ->
  next + span (S n) iort node <= size ->
  (forall t' new done_' next', layout size iort t' (offs ++ next :: new) next' (next :: open) done_' ->
     counters t' done_' -> complete iort t' (offs ++ next :: new) next node ->
     next + block_size node <= next' <= next + span (S n) iort node ->
     (forall a, 24 <= a < next -> rd t' a = rd t a) -> Q next' (t', w)) ->
  wp (if negb (rd t (next + at_type) =? IOVIRT_NODE_ITS_GROUP)
      then add_mappings (iort_add_block n iort) iort next (node + mapping_offset node) (next + block_size node)
      else ret (next + block_size node)) (t, w) Q.
Proof.
  intros Hadd [Hok Hg] Hino Hl Hcnt Hid Hbase Hflag Hsz HQ. cbn [span] in *. pose proof (block_size_pos node Hok) as Hp.
  assert (Hl' : layout size iort t (offs ++ [next]) (next + block_size node) (next :: open) done_).
  { apply layout_extend; [done..|]. pose proof (span_block n node (conj Hok Hg)) as Hb. cbn [span] in Hb. lia. }
  rewrite (id_type _ _ _ Hid). fold (is_its node). destruct (is_its node) eqn:Hits; cbn [negb].
  - wp_step. apply (HQ t [] done_); [done|done| |lia|done].
    split; [done|done|done|by rewrite Hits|done|]. intros Hroot. unfold is_root, is_its in *. apply Z.eqb_eq in Hroot.
    by rewrite Hroot in Hits.
  - assert (Hs : spans iort n node 0 = foldr (fun i s => span n iort (child iort node i) + s) 0 (seqZ 0 (mapping_count node)))
      by (unfold spans; by rewrite Z.sub_0_r).
    rewrite <- Hs in *.
    eapply (wp_add_mappings size iort n _ Hadd) with (open := open) (done_ := done_) (offs := offs ++ [next]);
      [split; try done; apply elem_of_app; right; left|done|by apply Hg|lia|].
    intros next' s (t' & new & done_' & -> & Ho & Hm & Hb & Hle & Hsum & S).
    assert (E0 : spans iort n node (mapping_count node) = 0) by (unfold spans; by rewrite Z.sub_diag).
    rewrite <- app_assoc in Ho, Hm. cbn [app] in *.
    destruct Ho as [Ho1 Ho2 _ _ Ho3 _ _].
    apply (HQ t' new done_' next'); [done|done| |lia|].
    + split; [done|done|done|intros _; exact Hm| |exact Hb].
      destruct (layout_next _ _ _ _ _ _ _ Hl) as [N1 N2]. unfold free_word, at_flags, at_data_map, at_data, at_rc_smmu_base in *.
      rewrite S; [done|lia|lia].
    + intros a Ha. unfold free_word, at_flags, at_data_map, at_data, at_rc_smmu_base in *. apply S; lia.
Qed.

Theorem iort_add_block_adds n : adds size iort n (iort_add_block n iort).
Proof.
  induction n as [|n IH]; intros node next offs open done_ t w Hg Hino Hl Hcnt Hsz; [done|].
  pose proof (proj1 Hg) as Hok. destruct (layout_next _ _ _ _ _ _ _ Hl) as [N1 N2].
  pose proof (span_block n node Hg) as Hsp. pose proof (block_size_pos node Hok) as Hp.
  pose proof (l_size _ _ _ _ _ _ _ Hl) as Hs.
  cbn [iort_add_block]. cbv zeta. wp_step. apply wp_io_print.
  apply (wp_write_key size iort _ t offs next open done_ node); [done|done|lia|]. intros t1 Hw1. cbv iota.
  wp_step. apply (wp_st size); [apply Hw1|unfold at_flags, at_data_map in *; lia|unfold at_flags; divmod|].
  pose proof (written_flags size t next node t1 0 Hok Hw1) as Hw2.
  assert (Hf2 : rd (<[next + at_flags := 0]> t1) (next + at_flags) = 0) by (by rewrite rd_insert, Z.eqb_refl).
  set (t2 := <[next + at_flags := 0]> t1) in *. clearbody t2. clear Hw1.
  wp_step. eapply (wp_find_block size iort t2); [by eapply written_layout|by eapply written_counters|exact Hok|apply Hw2|lia| |].
  2: { intros o Ho Hid. destruct (layout_bounds _ _ _ _ _ _ _ o Hl Ho) as (B1 & _).
    assert (truthy o = true) as -> by (unfold truthy; destruct (Z.eqb_spec o 0); [lia|done]). wp_step.
    exists t2, [], done_. rewrite app_nil_r. cbn [fst snd].
    split; [done|]. split; [by eapply written_layout|]. split; [by eapply written_counters|].
    split; [done|]. split; [done|]. split; [unfold at_data_map in *; lia|].
    intros a Ha. apply Hw2. lia. }
  change (truthy 0) with false. cbv iota. wp_step.
  apply (wp_next_of size t2 w next node); [apply Hw2|lia|done|lia|apply Hw2|].
  wp_step. apply (wp_flag size t next node t2 w); [done|lia|done|lia|done|done|]. clear t2 Hw2 Hf2.
  intros t3 Hw3 Hf3. wp_step.
  apply (wp_ld size); [apply Hw3|unfold at_type, at_data_map in *; lia|unfold at_type; divmod|]. wp_step.
  eapply (wp_node_maps n t3 w offs next open done_ node);
    [exact IH|done|done|by eapply written_layout|by eapply written_counters|apply Hw3|apply Hw3|done|done|].
  intros t4 new done_' next' Hl4 Hc4 Hcom Hle S4.
  eapply wp_finish; [exact Hl4|exact Hcom|exact Hc4|lia|lia|].
  intros t5 Hl5 Hc5 S5. exists t5, (next :: new), ((next, node) :: done_'). cbn [fst snd].
  split; [done|]. split; [done|]. split; [done|]. split; [apply elem_of_app; right; left|].
  split; [|split; [unfold at_data_map in *; lia|]].
  - apply (identified_same t4); [done| |apply Hcom]. intros a (Ha & _). apply S5. lia.
  - intros a Ha. rewrite S5, S4 by lia. apply Hw3. lia.
Qed.
End recursion.
