(* ===== verification/PalIortTable.v ===== *)
(** * The table built from an IORT

    The whole of the builder of PalIovirt on an IORT: the walk over its nodes, what is
    printed of the table and the search for overlaps; then the table that the queries of
    Iovirt use, and that it is one they accept. *)

From S2P Require Import Prelude Types World Machine Iovirt Fdt PalIovirt PalIort PalIortAdd.
#[local] Open Scope c_scope.

(** ** The passes over a finished table *)

Section passes.
Context {D : Type} `{Platform D} `{Acpi D} `{AsciiCopy D} (size iort : Z).
Context (t : gmap Z Z) (w : world D) (offs : list Z) (next : Z) (done_ : list (Z * Z)).
Context (Hl : layout size iort t offs next [] done_) (Hcnt : counters t done_) (Hroom : 2 * next <= size).













(** ** Overlaps *)







(** ** What is printed *)







End passes.

(** ** The table of the queries *)

Section decode.
Context {D : Type} `{Platform D} `{Acpi D} `{AsciiCopy D} (size iort : Z).






(** ** What the table says of the IORT *)

















End decode.

(** ** The builder *)

Section builder.
Context {D : Type} `{Platform D} `{SystemTable D} `{Acpi D} `{AsciiCopy D} `{Fdt D} (size iort : Z).








End builder.

(** ** A concrete input *)

(** A root complex behind an SMMUv3 that sends its devices to an ITS group: the nodes at 252,
    308 and 396 of the memory, after the system description tables. *)
Definition iort_words : list (Z * list Z) :=
  [(0x40, [0x54445358; 44]); (0x64, [0x100; 0]);
   (0x100, [0x54524F49; 244]); (0x124, [3; 48; 0]);
   (0x130, [0x003802; 0; 1; 36; 1; 0; 1; 0; 0; 0; 0xFFFF; 0x10000; 104; 0]);
   (0x168, [0x005804; 0; 1; 68; 0x9050000; 0; 0; 0; 0; 0; 0; 0; 0; 0; 0; 0; 0; 0x10000; 0xFFFF; 0; 192; 0]);
   (0x1C0, [0x001800; 0; 0; 0; 1; 7])].

Definition acpi_memory : gmap Z Z :=
  list_to_map (mjoin ((fun '(a, ws) => imap (fun i v => (a + 4 * Z.of_nat i, v)) ws) <$> iort_words)).

Definition acpi_byte (a : Z) : Z :=
  Z.land (Z.shiftr (default 0 (acpi_memory !! (4 * (a / 4)))) (8 * (a mod 4))) 0xFF.
Fixpoint acpi_bytes (n : nat) (a : Z) : Z :=
  match n with O => 0 | S n => acpi_byte a + 256 * acpi_bytes n (a + 1) end.

#[local] Instance iort_acpi : Acpi machine := {
  acpi_load w a := acpi_bytes (Z.to_nat w) a;
  acpi_field name a := if String.eqb name "EFI_ACPI_DESCRIPTION_HEADER.Length" then acpi_bytes 4 (a + 4) else 0x40;
  acpi_sizeof _ := 36;
  acpi_const _ := 0x54524F49 }.
#[local] Instance iort_tables : SystemTable machine := {
  gST_ConfigurationTable := [(2, 0x20)];
  gFdtTableGuid := 1; gEfiAcpiTableGuid := 2; gEfiAcpi20TableGuid := 3; CompareGuid := Z.eqb }.
#[local] Instance no_names : AsciiCopy machine := { AsciiStrnCpyS _ := [] }.
#[local] Instance no_tree : Fdt machine := tree_fdt [].






