(* ===== verification/PalPeripherals.v ===== *)
(** * The platform layer: peripherals and memory

    The peripheral table, from the PCI configuration headers, the ACPI SPCR and the device
    tree, and the memory table, from the UEFI memory map
    (src/platform/pal_uefi_dt/src/pal_peripherals.c). *)

From S2P Require Import Prelude Types World Machine Pcie Fdt PalPcie Memory.
#[local] Open Scope c_scope.

Definition USB_CLASSCODE : Z := 0x0C0300.
Definition SATA_CLASSCODE : Z := 0x010600.
Definition BAR0 : Z := 0.

Definition PLATFORM_GENERIC_UART_BASE : Z := 0.
Definition PLATFORM_GENERIC_UART_INTID : Z := 0.

Definition usb_dt_compatible : list string := ["generic-ohci"; "generic-ehci"].
Definition sata_dt_compatible : list string := ["generic-ahci"].
Definition uart_dt_compatible : list string := ["arm,sbsa-uart"; "arm,pl011"].

(** ** Field updates *)

Definition per_with_type (type : Z) (e : PERIPHERAL_INFO_BLOCK) : PERIPHERAL_INFO_BLOCK :=
  mkPer type (per_bdf e) (per_base0 e) (per_base1 e) (per_irq e) (per_flags e) (per_msi e) (per_msix e) (per_max_pasids e).
Definition per_with_bdf (bdf : Z) (e : PERIPHERAL_INFO_BLOCK) : PERIPHERAL_INFO_BLOCK :=
  mkPer (per_type e) bdf (per_base0 e) (per_base1 e) (per_irq e) (per_flags e) (per_msi e) (per_msix e) (per_max_pasids e).
Definition per_with_base0 (base : Z) (e : PERIPHERAL_INFO_BLOCK) : PERIPHERAL_INFO_BLOCK :=
  mkPer (per_type e) (per_bdf e) base (per_base1 e) (per_irq e) (per_flags e) (per_msi e) (per_msix e) (per_max_pasids e).
Definition per_with_base1 (base : Z) (e : PERIPHERAL_INFO_BLOCK) : PERIPHERAL_INFO_BLOCK :=
  mkPer (per_type e) (per_bdf e) (per_base0 e) base (per_irq e) (per_flags e) (per_msi e) (per_msix e) (per_max_pasids e).
Definition per_with_irq (irq : Z) (e : PERIPHERAL_INFO_BLOCK) : PERIPHERAL_INFO_BLOCK :=
  mkPer (per_type e) (per_bdf e) (per_base0 e) (per_base1 e) irq (per_flags e) (per_msi e) (per_msix e) (per_max_pasids e).
Definition per_with_flags (flags : Z) (e : PERIPHERAL_INFO_BLOCK) : PERIPHERAL_INFO_BLOCK :=
  mkPer (per_type e) (per_bdf e) (per_base0 e) (per_base1 e) (per_irq e) flags (per_msi e) (per_msix e) (per_max_pasids e).

Definition with_num_usb (n : Z) (h : PERIPHERAL_INFO_HDR) : PERIPHERAL_INFO_HDR :=
  mkPerHdr n (num_sata h) (num_uart h) (num_all h).
Definition with_num_sata (n : Z) (h : PERIPHERAL_INFO_HDR) : PERIPHERAL_INFO_HDR :=
  mkPerHdr (num_usb h) n (num_uart h) (num_all h).
Definition with_num_uart (n : Z) (h : PERIPHERAL_INFO_HDR) : PERIPHERAL_INFO_HDR :=
  mkPerHdr (num_usb h) (num_sata h) n (num_all h).

(** A count of the header, and how to set it. *)
Record per_count := mkPerCount { pc_get : PERIPHERAL_INFO_HDR -> Z; pc_set : Z -> PERIPHERAL_INFO_HDR -> PERIPHERAL_INFO_HDR }.
Definition usb_count : per_count := mkPerCount num_usb with_num_usb.
Definition sata_count : per_count := mkPerCount num_sata with_num_sata.
Definition uart_count : per_count := mkPerCount num_uart with_num_uart.

(** AsciiStrnCmp of EDK2, on bytes up to the NUL. *)
Class AsciiLib (D : Type) := { AsciiStrnCmp : list Z -> list Z -> Z -> Z }.

Record EFI_MEMORY_DESCRIPTOR := mkEfiMem {
  md_Type : Z; md_PhysicalStart : Z; md_VirtualStart : Z; md_NumberOfPages : Z }.

(** The memory map of the boot services: the status, the size of the map, the size of a
    descriptor and the descriptors written to a buffer of the size given. *)
Class UefiMemory (D : Type) := {
  GetMemoryMap : Z -> D -> (Z * Z * Z * list EFI_MEMORY_DESCRIPTOR) * D;
  EFI_BUFFER_TOO_SMALL : Z;
  EFI_ERROR : Z -> bool;
  efi_memory_type : string -> Z
}.

Section pal_peripherals.
Context {D : Type} `{Platform D} `{SystemTable D} `{Acpi D} `{Fdt D} `{PciIo D} `{AsciiLib D} `{UefiMemory D}.

#[local] Abbreviation M := (Prelude.M (world D)).
#[local] Abbreviation B := (Prelude.M (PERIPHERAL_INFO_TABLE * world D)).

Definition per_edit (k : Z) (f : PERIPHERAL_INFO_BLOCK -> PERIPHERAL_INFO_BLOCK) : B () :=
  edit_at (fun t => mkPerTable (per_header t) <$> at_entry k f (per_info t)).
Definition per_set (c : per_count) (n : Z) : B () :=
  edit (fun t => mkPerTable (pc_set c n (per_header t)) (per_info t)).
Definition per_increment (c : per_count) : B () :=
  edit (fun t => mkPerTable (pc_set c (u32 (pc_get c (per_header t) + 1)) (per_header t)) (per_info t)).

Definition pal_strncmp (FirstString SecondString : list Z) (Length : Z) : Z :=
  u32 (AsciiStrnCmp FirstString SecondString Length).

(** ** Device tree *)

Definition per_messages (not_found : string) : dt_messages :=
  mkDtMessages not_found " Parent Node offset %d\n" " size cell %d\n" " Invalid size cell :%d\n" " addr cell %d\n"
    " Invalid address cell : %d \n".

(** The interrupt of a peripheral: a shared one or 0 when the specifier has three cells. *)
Definition per_irq_of (spi_offset interrupt_cell : Z) (Pintr : list Z) : option Z :=
  if interrupt_cell =? 3 then
    type ← cell Pintr 0;
    if type =? GIC_SPI then v ← cell Pintr 1; Some (u32 (v + spi_offset)) else Some 0
  else v ← cell Pintr 0; Some (u32 (v + spi_offset)).

(** One USB or SATA node; [set_base] is the base that is written. *)
Definition per_node (fuel : nat) (type : Z) (set_base : Z -> PERIPHERAL_INFO_BLOCK -> PERIPHERAL_INFO_BLOCK)
    (count : per_count) (dt_ptr addr_cell size_cell : Z) (compatible : string) (offset per_info : Z)
  : B (ctl (Z * Z) ()) :=
  per_edit per_info (per_with_type type) ;;
  let '(p, prop_len) := fdt_getprop_namelen dt_ptr offset "reg" 3 in
  match prop_value (p, prop_len) with
  | None => io (bsa_print ACS_PRINT_ERR " PROPERTY REG offset %x, Error %d\n" prop_len) ;; ret (Break tt)
  | Some Preg =>
      let* r := io (node_interrupts fuel dt_ptr offset) in
      match r with
      | None => ret (Break tt)
      | Some (Pintr, _, interrupt_cell) =>
          let* base := need (cells_value addr_cell Preg 0) in
          per_edit per_info (set_base base) ;;
          let* irq := need (per_irq_of 0 interrupt_cell Pintr) in
          per_edit per_info (fun e => per_with_flags 0 (per_with_bdf 0 (per_with_irq irq e))) ;;
          per_increment count ;;
          ret (Continue (fdt_node_offset_by_compatible dt_ptr offset compatible, per_info + 1))
      end
  end.

(** The nodes of a kind of peripheral, recorded from entry [start] on. *)
Definition per_from_dt (fuel : nat) (not_found : string) (count : per_count) (arr : list string)
    (node : Z -> Z -> Z -> string -> Z -> Z -> B (ctl (Z * Z) ())) (start : PERIPHERAL_INFO_HDR -> Z) : B () :=
  let* dt_ptr := io pal_get_dt_ptr in
  if dt_ptr =? 0 then io (bsa_print ACS_PRINT_ERR "dt_ptr is NULL \n" 0)
  else
    let* t := table in
    per_set count 0 ;;
    compatible_nodes fuel (per_messages not_found) (fun i _ => i) dt_ptr arr (node dt_ptr) (start (per_header t)) ;;
    ret tt.

Definition pal_peripheral_usb_create_info_table_dt (fuel : nat) : B () :=
  per_from_dt fuel "USB compatible value not found for index:%d\n" usb_count usb_dt_compatible
    (per_node fuel PERIPHERAL_TYPE_USB per_with_base0 usb_count) (fun _ => 0).

(** The entries of the SATA controllers come after those of the USB controllers. *)
Definition pal_peripheral_sata_create_info_table_dt (fuel : nat) : B () :=
  per_from_dt fuel "SATA compatible value not found for index:%d\n" sata_count sata_dt_compatible
    (per_node fuel PERIPHERAL_TYPE_SATA per_with_base1 sata_count) num_usb.

(** The tuples of a "ranges" property of [words] cells (child address, parent address,
    size): the parent address of the first tuple whose child address is [addr], 0 when
    there is none. *)
Definition ranges_search (Pranges : list Z) (child_addr_cell parent_addr_cell child_size_cell words addr : Z) : M Z :=
  while_ (S (Z.to_nat words)) (fun range_index =>
    if range_index <? words then
      bsa_print ACS_PRINT_DEBUG " range_index %d\n" range_index ;;
      let* temp_child_addr := need (cells_value child_addr_cell Pranges range_index) in
      let range_index := cells_next child_addr_cell range_index in
      bsa_print ACS_PRINT_DEBUG " temp node addr %lx\n" temp_child_addr ;;
      if temp_child_addr =? addr then
        let* parent_offset_addr := need (cells_value parent_addr_cell Pranges range_index) in
        bsa_print ACS_PRINT_DEBUG " parent offset addr %lx\n" parent_offset_addr ;;
        ret (Break parent_offset_addr)
      else ret (Continue (range_index + (parent_addr_cell + child_size_cell)))
    else ret (Break 0)) 0.

Definition bad_cells (child_addr_cell parent_addr_cell child_size_cell : Z) : bool :=
  (child_addr_cell <? 1) || (child_addr_cell >? 2) || (parent_addr_cell <? 1) || (parent_addr_cell >? 2) ||
  (child_size_cell <? 0).

(** The address a UART's own address is relative to, looked for in at most three
    ancestors: [None] ends the caller. A range of one tuple replaces the address that is
    looked for, whether or not the address lies in it. *)
Definition uart_parent_offset (dt_ptr offset base0 : Z) : M (option Z) :=
  let* r := for_ 3 0 (fun _ '(range_node_addr, range_parent_offset) =>
    let '(p, prop_len) := fdt_getprop_namelen dt_ptr range_parent_offset "ranges" 6 in
    bsa_print ACS_PRINT_DEBUG " Parent ranges length %d \n" prop_len ;;
    match prop_value (p, prop_len) with
    | None => bsa_print ACS_PRINT_DEBUG " No ranges is present \n" 0 ;; ret (Break (Some 0))
    | Some Pranges =>
        if prop_len =? 0 then
          bsa_print ACS_PRINT_DEBUG " Empty ranges is present \n" 0 ;;
          ret (Continue (range_node_addr, fdt_parent_offset dt_ptr range_parent_offset))
        else
          let range_node_offset := range_parent_offset in
          let range_parent_offset := fdt_parent_offset dt_ptr range_node_offset in
          let child_addr_cell := fdt_address_cells dt_ptr range_node_offset in
          let parent_addr_cell := fdt_address_cells dt_ptr range_parent_offset in
          let child_size_cell := fdt_size_cells dt_ptr range_node_offset in
          bsa_print ACS_PRINT_DEBUG " child addr cell %d\n" child_addr_cell ;;
          bsa_print ACS_PRINT_DEBUG " parent addr cell %d\n" parent_addr_cell ;;
          bsa_print ACS_PRINT_DEBUG " child size cell %d\n" child_size_cell ;;
          if bad_cells child_addr_cell parent_addr_cell child_size_cell then ret (Break None)
          else if prop_len =? 4 * (child_addr_cell + parent_addr_cell + child_size_cell) then
            let* range_node_addr := need (cells_value parent_addr_cell Pranges child_addr_cell) in
            bsa_print ACS_PRINT_DEBUG " range node addr %lx\n" range_node_addr ;;
            ret (Continue (range_node_addr, range_parent_offset))
          else
            let* p := ranges_search Pranges child_addr_cell parent_addr_cell child_size_cell (prop_len / 4)
                        range_node_addr in
            ret (Break (Some p))
    end) (base0, fdt_parent_offset dt_ptr offset) in
  ret (match r with Break v => v | Continue _ => Some 0 end).

(** A UART of the secure world. *)
Definition uart_disabled (dt_ptr offset : Z) : bool :=
  match fdt_getprop_namelen dt_ptr offset "status" 6 with
  | (Some Pstatus, prop_len) => (prop_len >? 0) && (pal_strncmp Pstatus (bytes_of "disabled") 9 =? 0)
  | (None, _) => false
  end.

Definition uart_node (fuel : nat) (dt_ptr addr_cell size_cell : Z) (compatible : string) (offset per_info : Z)
  : B (ctl (Z * Z) ()) :=
  let next := fdt_node_offset_by_compatible dt_ptr offset compatible in
  if uart_disabled dt_ptr offset then
    io (bsa_print ACS_PRINT_DEBUG " UART access is secure \n" 0) ;;
    ret (Continue (next, per_info))
  else
  let '(p, prop_len) := fdt_getprop_namelen dt_ptr offset "reg" 3 in
  match prop_value (p, prop_len) with
  | None => io (bsa_print ACS_PRINT_ERR " PROPERTY REG offset %x, Error %d\n" prop_len) ;; ret (Break tt)
  | Some Preg =>
      let* base := need (cells_value addr_cell Preg 0) in
      per_edit per_info (per_with_base0 base) ;;
      let* r := io (uart_parent_offset dt_ptr offset base) in
      match r with
      | None => ret (Break tt)
      | Some parent_offset_addr =>
          io (bsa_print ACS_PRINT_DEBUG " parent offset addr  %lx\n" parent_offset_addr) ;;
          per_edit per_info (per_with_base0 (u64 (base + parent_offset_addr))) ;;
          let* r := io (node_interrupts fuel dt_ptr offset) in
          match r with
          | None => ret (Break tt)
          | Some (Pintr, _, interrupt_cell) =>
              per_edit per_info (per_with_type PERIPHERAL_TYPE_UART) ;;
              let* irq := need (per_irq_of SPI_OFFSET interrupt_cell Pintr) in
              per_edit per_info (fun e => per_with_flags 0 (per_with_bdf 0 (per_with_irq irq e))) ;;
              per_increment uart_count ;;
              ret (Continue (next, per_info + 1))
          end
      end
  end.

Definition pal_peripheral_uart_create_info_table_dt (fuel : nat) : B () :=
  per_from_dt fuel "UART compatible value not found for index:%d\n" uart_count uart_dt_compatible
    (uart_node fuel) (fun h => num_usb h + num_sata h).

(** ** The peripheral table *)

(** What is printed of the entries of one kind; [bdf] is printed for PCI controllers. *)
Definition dump_peripherals (first n : Z) (bdf : bool) (t : PERIPHERAL_INFO_TABLE) : M () :=
  for_each (Z.to_nat n) first (fun Index =>
    let* e := need (per_info t !! Z.to_nat Index) in
    bsa_print ACS_PRINT_DEBUG "    TYPE          :%x\n" (per_type e) ;;
    bsa_print ACS_PRINT_DEBUG "    CONTROL BASE  :%x\n" (per_base0 e) ;;
    bsa_print ACS_PRINT_DEBUG "    GSIV          :%d\n" (per_irq e) ;;
    bsa_print ACS_PRINT_DEBUG "    FLAGS         :%x\n" (per_flags e) ;;
    (if bdf then bsa_print ACS_PRINT_DEBUG "    BDF           :%x\n" (per_bdf e) else ret tt)).

Definition dt_dump_peripheral_table : B () :=
  let* t := table in
  let h := per_header t in
  io (bsa_print ACS_PRINT_DEBUG "************USB TABLE************ \n" 0 ;;
      bsa_print ACS_PRINT_DEBUG " NUM USB %d \n" (num_usb h) ;;
      dump_peripherals 0 (num_usb h) true t ;;
      bsa_print ACS_PRINT_DEBUG "************SATA TABLE************ \n" 0 ;;
      bsa_print ACS_PRINT_DEBUG " NUM SATA %d \n" (num_sata h) ;;
      dump_peripherals (num_usb h) (num_sata h) true t ;;
      bsa_print ACS_PRINT_DEBUG "************UART TABLE************ \n" 0 ;;
      bsa_print ACS_PRINT_DEBUG " NUM UART %d \n" (num_uart h) ;;
      dump_peripherals (num_usb h + num_sata h) (num_uart h) false t ;;
      bsa_print ACS_PRINT_DEBUG "************************************* \n\n" 0).

(** The PCI controllers of a class, one entry each from [per_info] on; the entry after
    them. *)
Definition pci_controllers (fuel : nat) (ClassCode type : Z) (count : per_count) (found : string) (per_info : Z) : B Z :=
  while_ fuel (fun '(StartBdf, per_info) =>
    let* DeviceBdf := io (palPcieGetBdf ClassCode StartBdf) in
    if DeviceBdf =? 0 then ret (Break per_info)
    else
      let* base := io (palPcieGetBase DeviceBdf BAR0) in
      per_edit per_info (fun e => per_with_bdf DeviceBdf (per_with_base0 base (per_with_type type e))) ;;
      io (bsa_print ACS_PRINT_INFO found base) ;;
      per_increment count ;;
      ret (Continue (incrementBusDev DeviceBdf, per_info + 1))) (0, per_info).

(** The entries a builder from the device tree adds move the entry that is written next. *)
Definition or_from_dt (count : per_count) (from_dt : B ()) (per_info : Z) : B Z :=
  let* t := table in
  if pc_get count (per_header t) =? 0 then
    from_dt ;;
    let* t := table in
    ret (per_info + pc_get count (per_header t))
  else ret per_info.

(** The serial port of the SPCR table. *)
Definition spcr_field (f : string) : Z -> Z :=
  acpi_field ("EFI_ACPI_SERIAL_PORT_CONSOLE_REDIRECTION_TABLE." ++ f)%string.

Definition per_from_spcr (spcr per_info : Z) : B Z :=
  if spcr =? 0 then ret per_info
  else
    per_increment uart_count ;;
    per_edit per_info (fun e => per_with_type PERIPHERAL_TYPE_UART
      (per_with_irq (spcr_field "GlobalSystemInterrupt" spcr)
        (per_with_base0 (spcr_field "BaseAddress.Address" spcr) e))) ;;
    ret (per_info + 1).

(** The one of the platform's overrides. *)
Definition per_generic_uart (per_info : Z) : B Z :=
  if truthy PLATFORM_GENERIC_UART_BASE then
    per_increment uart_count ;;
    per_edit per_info (fun e => per_with_type PERIPHERAL_TYPE_UART
      (per_with_irq PLATFORM_GENERIC_UART_INTID (per_with_base0 PLATFORM_GENERIC_UART_BASE e))) ;;
    ret (per_info + 1)
  else ret per_info.

Definition pal_peripheral_create_info_table (fuel : nat) : B () :=
  per_set usb_count 0 ;; per_set sata_count 0 ;; per_set uart_count 0 ;;
  let* per_info := pci_controllers fuel USB_CLASSCODE PERIPHERAL_TYPE_USB usb_count "Found a USB controller %4x \n" 0 in
  let* per_info := or_from_dt usb_count (pal_peripheral_usb_create_info_table_dt fuel) per_info in
  let* per_info :=
    pci_controllers fuel SATA_CLASSCODE PERIPHERAL_TYPE_SATA sata_count "Found a SATA controller %4x \n" per_info in
  let* per_info := or_from_dt sata_count (pal_peripheral_sata_create_info_table_dt fuel) per_info in
  let* spcr := io pal_get_spcr_ptr in
  let* per_info := per_from_spcr spcr per_info in
  let* per_info := or_from_dt uart_count (pal_peripheral_uart_create_info_table_dt fuel) per_info in
  let* per_info := per_generic_uart per_info in
  per_edit per_info (per_with_type 0xFF) ;;
  dt_dump_peripheral_table.

(** ** The memory table *)

Definition is_efi_type (names : list string) (type : Z) : bool :=
  existsb (fun n => type =? efi_memory_type n) names.

Definition IsUefiMemory : Z -> bool :=
  is_efi_type ["EfiReservedMemoryType"; "EfiLoaderCode"; "EfiLoaderData"; "EfiBootServicesCode"; "EfiBootServicesData";
               "EfiRuntimeServicesCode"; "EfiRuntimeServicesData"; "EfiACPIReclaimMemory"; "EfiACPIMemoryNVS"].
Definition IsNormalMemory : Z -> bool := is_efi_type ["EfiConventionalMemory"].
Definition IsDeviceMemory : Z -> bool :=
  is_efi_type ["EfiMemoryMappedIO"; "EfiMemoryMappedIOPortSpace"; "EfiPersistentMemory"].

Definition memory_type_of (type : Z) : Z :=
  if IsUefiMemory type then MEMORY_TYPE_RESERVED
  else if IsNormalMemory type then MEMORY_TYPE_NORMAL
  else if IsDeviceMemory type then MEMORY_TYPE_DEVICE
  else MEMORY_TYPE_NOT_POPULATED.

Definition EFI_PAGE_SIZE : Z := 4096.

(** The entry a descriptor makes; the flags are not written. *)
Definition memory_entry (d : EFI_MEMORY_DESCRIPTOR) (e : MEM_INFO_BLOCK) : MEM_INFO_BLOCK :=
  mkMem (memory_type_of (md_Type d)) (md_PhysicalStart d) (md_VirtualStart d)
    (u64 (md_NumberOfPages d * EFI_PAGE_SIZE)) (mem_flags e).
Definition mem_with_type (type : Z) (e : MEM_INFO_BLOCK) : MEM_INFO_BLOCK :=
  mkMem type (mem_phy_addr e) (mem_virt_addr e) (mem_size e) (mem_flags e).

#[local] Abbreviation BM := (Prelude.M (MEMORY_INFO_TABLE * world D)).

Definition mem_edit (k : Z) (f : MEM_INFO_BLOCK -> MEM_INFO_BLOCK) : BM () :=
  edit_at (fun t => mkMemTable (dram_base t) (dram_size t) <$> at_entry k f (mem_info t)).

(** The status, the size of the map and of a descriptor, and the map. A page more than the
    size asked for is allocated and the second call is told the size the first one
    returned; when the allocation fails the buffer is an uninitialised pointer. *)
Definition get_memory_map : M (option (Z * Z * Z * list EFI_MEMORY_DESCRIPTOR)) :=
  let* r := from_dev (GetMemoryMap 0) in
  let '(Status, MemoryMapSize, DescriptorSize, _) := r in
  if Status =? EFI_BUFFER_TOO_SMALL then
    let Pages := Z.shiftr (MemoryMapSize + (EFI_PAGE_SIZE - 1)) 12 + 1 in
    let* heap0 := gets heap in
    let* a := from_dev (bs_allocate_pages Pages heap0) in
    match a with
    | inl _ => fault
    | inr Address =>
        modify (fun w => set_heap (<[Address := Pages * EFI_PAGE_SIZE]> (heap w)) w) ;;
        if Address =? 0 then ret None
        else let* r := from_dev (GetMemoryMap MemoryMapSize) in ret (Some r)
    end
  else ret (Some (Status, MemoryMapSize, DescriptorSize, [])).

Definition pal_memory_create_info_table : BM () :=
  let* r := io get_memory_map in
  match r with
  | None => ret tt
  | Some (Status, MemoryMapSize, DescriptorSize, MemoryMap) =>
      if EFI_ERROR Status then ret tt
      else if DescriptorSize =? 0 then fault
      else
        let n := MemoryMapSize / DescriptorSize in
        for_each (Z.to_nat n) 0 (fun Index =>
          let* d := need (MemoryMap !! Z.to_nat Index) in
          io (bsa_print ACS_PRINT_INFO "Reserved region of type %d [0x%lX, 0x%lX]\n" (md_Type d)) ;;
          mem_edit Index (memory_entry d)) ;;
        mem_edit n (mem_with_type MEMORY_TYPE_LAST_ENTRY)
  end.

Definition dt_dump_memory_table : BM () :=
  let* t := table in
  io (bsa_print ACS_PRINT_DEBUG "************MEMORY TABLE************ \n" 0 ;;
      bsa_print ACS_PRINT_DEBUG " MEMORY dram base  :%x\n" (dram_base t) ;;
      bsa_print ACS_PRINT_DEBUG "        dram size  :%x\n" (dram_size t) ;;
      while_ (S (length (mem_info t))) (fun Index =>
        let* e := need (mem_info t !! Z.to_nat Index) in
        if mem_type e <? 0x1004 then
          bsa_print ACS_PRINT_DEBUG " MEMORY Type      :%x\n" (mem_type e) ;;
          bsa_print ACS_PRINT_DEBUG "        PHY addr  :%x\n" (mem_phy_addr e) ;;
          bsa_print ACS_PRINT_DEBUG "        VIRT addr :%x\n" (mem_virt_addr e) ;;
          bsa_print ACS_PRINT_DEBUG "        size      :%x\n" (mem_size e) ;;
          bsa_print ACS_PRINT_DEBUG "        flags     :%x\n" (mem_flags e) ;;
          ret (Continue (Index + 1))
        else ret (Break tt)) 0 ;;
      bsa_print ACS_PRINT_DEBUG "************************************* \n\n" 0).

Definition pal_memory_ioremap (ptr size attr : Z) : M Z := ret ptr.
Definition pal_memory_unmap (ptr : Z) : M () := ret tt.
(** Returns before the search. *)
Definition pal_memory_get_unpopulated_addr (instance : Z) : M Z := ret 0.

(** ** Proofs: the memory table *)

Lemma wp_mem_edit k f b s l w (Q : () -> MEMORY_INFO_TABLE * world D -> Prop) l' :
  at_entry k f l = Some l' -> Q tt (mkMemTable b s l', w) -> wp (mem_edit k f) (mkMemTable b s l, w) Q.
Proof. intros Hk HQ. unfold mem_edit. eapply wp_edit_at; [|exact HQ]. cbn. by rewrite Hk. Qed.

(** The boot services give the map [ds]: the first call says how big it is, the buffer is
    allocated and the second call fills it. *)
Record uefi_map (w : world D) (ds : list EFI_MEMORY_DESCRIPTOR) (w' : world D) : Prop := {
  um_first : exists size dsize l d1, GetMemoryMap 0 (dev w) = ((EFI_BUFFER_TOO_SMALL, size, dsize, l), d1) /\
    exists p d2, let Pages := Z.shiftr (size + (EFI_PAGE_SIZE - 1)) 12 + 1 in
      bs_allocate_pages Pages (heap w) d1 = (inr p, d2) /\ p <> 0 /\
    exists st size' dsize' d3, GetMemoryMap size d2 = ((st, size', dsize', ds), d3) /\
      EFI_ERROR st = false /\ 0 < dsize' /\ size' = dsize' * Z.of_nat (length ds) /\
      w' = set_dev d3 (set_heap (<[p := Pages * EFI_PAGE_SIZE]> (heap w)) (set_dev d2 (set_dev d1 w)))
}.

Lemma wp_get_memory_map w ds w' Q :
  uefi_map w ds w' ->
  (forall st size' dsize', EFI_ERROR st = false -> 0 < dsize' -> size' = dsize' * Z.of_nat (length ds) ->
     Q (Some (st, size', dsize', ds)) w') ->
  wp get_memory_map w Q.
Proof.
  intros [(size & dsize & l & d1 & H1' & p & d2 & Ha & Hp & st & size' & dsize' & d3 & H2' & Hst & Hd & Hs & ->)] HQ.
  unfold get_memory_map. wp_step. apply wp_from_dev. rewrite H1'. cbn [fst snd]. rewrite Z.eqb_refl.
  wp_step. wp_step. cbn [heap set_dev]. wp_step. apply wp_from_dev. cbn [dev set_dev]. rewrite Ha. cbn [fst snd].
  wp_step. wp_step. cbn [heap set_dev]. rewrite (proj2 (Z.eqb_neq _ _) Hp). wp_step. apply wp_from_dev.
  cbn [dev set_heap set_dev]. rewrite H2'. cbn [fst snd]. wp_step. by apply HQ.
Qed.

Definition mem_made (_ : Z) (d : EFI_MEMORY_DESCRIPTOR) (e : MEM_INFO_BLOCK) : MEM_INFO_BLOCK := memory_entry d e.

Lemma wp_memory_create_info_table b s L w ds w' :
  uefi_map w ds w' -> (length ds < length L)%nat ->
  wp (build (mkMemTable b s L) pal_memory_create_info_table) w (fun t u => u = w' /\
    dram_base t = b /\ dram_size t = s /\
    Some (mem_info t) = at_entry (Z.of_nat (length ds)) (mem_with_type MEMORY_TYPE_LAST_ENTRY) (filled mem_made 0 ds L)).
Proof.
  intros Hm Hroom. apply wp_build. unfold pal_memory_create_info_table. dt_step. dt_step.
  eapply wp_get_memory_map; [exact Hm|]. intros st size' dsize' Hst Hd ->. rewrite Hst.
  rewrite (proj2 (Z.eqb_neq dsize' 0)) by lia. rewrite Z.mul_comm, Z.div_mul, Nat2Z.id by lia. dt_step.
  apply (wp_for_each (fun i t => t = (mkMemTable b s (filled mem_made 0 (take (Z.to_nat i) ds) L), w'))); [done| |].
  - intros i t Hi ->. destruct (lookup_lt_is_Some_2 ds (Z.to_nat i)) as [d Hd']; [lia|]. rewrite Hd'. dt_steps.
    replace (Z.to_nat (i + 1)) with (S (Z.to_nat i)) by lia. rewrite (take_S_r _ _ _ Hd').
    eapply wp_mem_edit; [|done]. apply at_entry_filled; [rewrite length_take; lia|rewrite length_take; lia|done].
  - intros t ->. rewrite Z.add_0_l, Nat2Z.id, firstn_all.
    destruct (at_entry_in (Z.of_nat (length ds)) (mem_with_type MEMORY_TYPE_LAST_ENTRY) (filled mem_made 0 ds L)) as [l' Hl'].
    { rewrite Nat2Z.id, length_filled. lia. }
    rewrite Hl'. by eapply wp_mem_edit.
Qed.

(** The entries made from the descriptors. *)
Lemma filled_zip ds L : (length ds <= length L)%nat -> forall k,
  filled mem_made k ds L = zip_with memory_entry ds L ++ drop (length ds) L.
Proof.
  revert L. induction ds as [|d ds IH]; intros [|e L] Hl k; cbn [length filled zip_with drop app] in *; [done..|lia|].
  rewrite IH by lia. done.
Qed.

Lemma zip_first {X} (ds : list X) (L : list MEM_INFO_BLOCK) g (p : MEM_INFO_BLOCK -> bool) (q : X -> bool)
    (h : MEM_INFO_BLOCK -> Z * option Z) (r : X -> option Z -> Z * option Z) dflt :
  (length ds <= length L)%nat -> (forall d e, p (g d e) = q d) ->
  (forall d e, h (g d e) = r d (Some (mem_flags e))) ->
  match List.find p (zip_with g ds L) with Some e => h e | None => dflt end =
  match list_find q ds with Some (k, d) => r d (mem_flags <$> L !! k) | None => dflt end.
Proof.
  intros Hl Hp Hh. revert L Hl. induction ds as [|d ds IH]; intros [|e L] Hl; cbn [length zip_with List.find list_find] in *;
    [done..|lia|].
  rewrite Hp. destruct (q d) eqn:Hq.
  - rewrite decide_True by done. cbn. by rewrite Hh.
  - rewrite decide_False by (by intros []). rewrite IH by lia. by destruct (list_find q ds) as [[k d']|].
Qed.

(** C39: From the memory map of the firmware to the answers of the validation layer. The
    platform layer asks for the size of the map, allocates a buffer and copies the
    descriptors in order, then a terminator; a query for an address on the table answers
    the type made of the first descriptor that holds the address. The attributes it answers
    are what the memory of the entry held before the table was built: nothing writes them. *)
Theorem memory_map_queries b s L w ds w' :
  uefi_map w ds w' -> (length ds < length L)%nat ->
  wp (build (mkMemTable b s L) pal_memory_create_info_table) w (fun t u => u = w' /\
    forall v fuel addr, g_memory_info_table v = Some t -> (length ds < fuel)%nat ->
      eval (val_memory_get_info (D := D) fuel addr) v
        (match list_find (fun d => (md_PhysicalStart d <=? addr) &&
                   (addr <? u64 (md_PhysicalStart d + u64 (md_NumberOfPages d * EFI_PAGE_SIZE)))) ds with
         | Some (k, d) => (memory_type_of (md_Type d), mem_flags <$> L !! k)
         | None => (MEM_TYPE_NOT_POPULATED, None)
         end) v).
Proof.
  intros Hm Hroom. eapply wp_mono; [by apply wp_memory_create_info_table|].
  intros [b' s' l] u (-> & _ & _ & Hl). split; [done|]. intros v fuel addr Hv Hf. cbn [mem_info] in Hl.
  destruct (lookup_lt_is_Some_2 L (length ds) Hroom) as [x Hx].
  rewrite filled_zip in Hl by lia. unfold at_entry in Hl. rewrite Nat2Z.id in Hl.
  assert (Hz : length (zip_with memory_entry ds L) = length ds) by (rewrite length_zip_with; lia).
  rewrite (drop_S _ _ _ Hx) in Hl.
  rewrite list_lookup_middle in Hl by done. injection Hl as Hl.
  replace (length ds) with (length (zip_with memory_entry ds L) + 0)%nat in Hl at 1 by lia.
  rewrite insert_app_r in Hl. cbn [insert list_insert] in Hl.
  assert (Ht : memory_table v (zip_with memory_entry ds L) (mem_with_type MEMORY_TYPE_LAST_ENTRY x)).
  { eexists _, (drop (S (length ds)) L). split; [exact Hv|]. split; [by rewrite Hl, <- app_assoc|]. split; [|done].
    apply forallb_forall. intros e (i & He)%list_elem_of_In%list_elem_of_lookup_1.
    apply lookup_zip_with_Some in He as (d & e' & -> & _). unfold is_last. cbn [mem_type memory_entry].
    unfold memory_type_of. by repeat case_match. }
  rewrite <- Hz in Hf. pose proof (memory_get_info_first v _ _ fuel addr Ht Hf) as He.
  erewrite (zip_first ds L memory_entry _ _ _ (fun d fl => (memory_type_of (md_Type d), fl))) in He;
    [exact He|lia|done|done].
Qed.


(** ** Proofs: the peripheral table *)

Lemma wp_per_edit k f h l w (Q : () -> PERIPHERAL_INFO_TABLE * world D -> Prop) l' :
  at_entry k f l = Some l' -> Q tt (mkPerTable h l', w) -> wp (per_edit k f) (mkPerTable h l, w) Q.
Proof. intros Hk HQ. unfold per_edit. eapply wp_edit_at; [|exact HQ]. cbn. by rewrite Hk. Qed.

(** A peripheral of a device tree: its kind, its base and its interrupt. *)
Inductive per_kind := KUsb | KSata | KUart.
#[local] Abbreviation per_desc := (prod per_kind (prod Z Z)).

Definition kind_type (k : per_kind) : Z :=
  match k with KUsb => PERIPHERAL_TYPE_USB | KSata => PERIPHERAL_TYPE_SATA | KUart => PERIPHERAL_TYPE_UART end.
Definition kind_base (k : per_kind) : Z -> PERIPHERAL_INFO_BLOCK -> PERIPHERAL_INFO_BLOCK :=
  match k with KSata => per_with_base1 | _ => per_with_base0 end.
Definition kind_count (k : per_kind) : per_count :=
  match k with KUsb => usb_count | KSata => sata_count | KUart => uart_count end.

Definition per_made (_ : Z) (d : per_desc) (e : PERIPHERAL_INFO_BLOCK) : PERIPHERAL_INFO_BLOCK :=
  let '(k, (base, irq)) := d in
  per_with_flags 0 (per_with_bdf 0 (per_with_irq irq (kind_base k base (per_with_type (kind_type k) e)))).

(** The address and the interrupt of a node, before any translation. *)
Definition node_reg (dt_ptr addr_cell x base : Z) : Prop :=
  exists v len, fdt_getprop_namelen dt_ptr x "reg" 3 = (Some v, len) /\ 0 <= len /\ cells_value addr_cell v 0 = Some base.
Definition node_irq (fuel : nat) (dt_ptr spi_offset x irq : Z) : Prop :=
  exists v len c, has_interrupts fuel dt_ptr x v len c /\ per_irq_of spi_offset c v = Some irq.

Definition controller_ok (fuel : nat) (dt_ptr addr_cell x : Z) (d : Z * Z) : Prop :=
  node_reg dt_ptr addr_cell x (fst d) /\ node_irq fuel dt_ptr 0 x (snd d).

(** The search through the ranges without its messages. *)
Fixpoint ranges_first (fuel : nat) (v : list Z) (child parent size words addr i : Z) : option Z :=
  match fuel with
  | O => None
  | S fuel =>
      if i <? words then
        a ← cells_value child v i;
        if a =? addr then cells_value parent v (cells_next child i)
        else ranges_first fuel v child parent size words addr (cells_next child i + (parent + size))
      else Some 0
  end.

Lemma eval_ranges_search v child parent size words addr r (u : world D) :
  ranges_first (S (Z.to_nat words)) v child parent size words addr 0 = Some r ->
  eval (ranges_search v child parent size words addr) u r u.
Proof.
  unfold ranges_search. generalize (S (Z.to_nat words)) as fuel. generalize 0 at 1 3 as i. intros i fuel.
  revert i. induction fuel as [|fuel IH]; intros i; cbn [ranges_first while_]; [done|]. unfold eval.
  destruct (i <? words); [|intros [= <-]; by io_steps].
  destruct (cells_value child v i) as [a|]; cbn [mbind option_bind]; [|done]. intros Hr. io_steps.
  destruct (a =? addr).
  - rewrite Hr. by io_steps.
  - io_steps. by apply IH.
Qed.

(** The address found from node [parent] on, with [n] ancestors left. *)
Fixpoint uart_offset (n : nat) (dt_ptr addr parent : Z) : option (option Z) :=
  match n with
  | O => Some (Some 0)
  | S n =>
      let '(p, prop_len) := fdt_getprop_namelen dt_ptr parent "ranges" 6 in
      match prop_value (p, prop_len) with
      | None => Some (Some 0)
      | Some v =>
          let above := fdt_parent_offset dt_ptr parent in
          if prop_len =? 0 then uart_offset n dt_ptr addr above
          else
            let child := fdt_address_cells dt_ptr parent in
            let up := fdt_address_cells dt_ptr above in
            let size := fdt_size_cells dt_ptr parent in
            if bad_cells child up size then Some None
            else if prop_len =? 4 * (child + up + size) then
              a ← cells_value up v child; uart_offset n dt_ptr a above
            else
              r ← ranges_first (S (Z.to_nat (prop_len / 4))) v child up size (prop_len / 4) addr 0; Some (Some r)
      end
  end.

Lemma eval_uart_parent_offset dt_ptr x base r (u : world D) :
  uart_offset 3 dt_ptr base (fdt_parent_offset dt_ptr x) = Some r -> eval (uart_parent_offset dt_ptr x base) u r u.
Proof.
  unfold uart_parent_offset, eval. intros Hr. io_step. revert Hr.
  generalize (fdt_parent_offset dt_ptr x) as parent. generalize 0 at 1 as k. revert base. generalize 3%nat as n.
  induction n as [|n IH]; intros addr k parent; cbn [uart_offset for_].
  { intros [= <-]. by io_steps. }
  destruct (fdt_getprop_namelen dt_ptr parent "ranges" 6) as [p len]. io_steps.
  destruct (prop_value (p, len)) as [v|]; [|intros [= <-]; by io_steps].
  destruct (len =? 0); [intros Hr; io_steps; by apply IH|]. io_steps.
  destruct (bad_cells _ _ _); [intros [= <-]; by io_steps|].
  destruct (len =? _).
  - destruct (cells_value _ v _) as [a|]; cbn [mbind option_bind]; [|done]. intros Hr. io_steps. by apply IH.
  - destruct (ranges_first _ v _ _ _ _ _ _) as [a|] eqn:Ha; cbn [mbind option_bind]; [|done]. intros [= <-]. io_steps.
    eapply wp_eval; [by apply eval_ranges_search|]. by io_steps.
Qed.

(** An enabled UART: its address is moved by that of the range it is in. *)
Definition uart_ok (fuel : nat) (dt_ptr addr_cell x : Z) (d : option (Z * Z)) : Prop :=
  match d with
  | None => uart_disabled dt_ptr x = true
  | Some (base, irq) => uart_disabled dt_ptr x = false /\
      exists own offset, node_reg dt_ptr addr_cell x own /\
        uart_offset 3 dt_ptr own (fdt_parent_offset dt_ptr x) = Some (Some offset) /\
        base = u64 (own + offset) /\ node_irq fuel dt_ptr SPI_OFFSET x irq
  end.

(** The updates of an entry so far, and one more. *)
Lemma wp_per_again k f acc h l0 l w (Q : () -> PERIPHERAL_INFO_TABLE * world D -> Prop) :
  at_entry k acc l0 = Some l ->
  (forall l', at_entry k (fun x => f (acc x)) l0 = Some l' -> Q tt (mkPerTable h l', w)) ->
  wp (per_edit k f) (mkPerTable h l, w) Q.
Proof.
  intros Hl HQ. assert (Hk : (Z.to_nat k < length l)%nat).
  { revert Hl. unfold at_entry. destruct (l0 !! Z.to_nat k) eqn:He; [|done]. intros [= <-].
    rewrite length_insert. by eapply lookup_lt_Some. }
  destruct (at_entry_in k f l Hk) as [l' Hl']. eapply wp_per_edit; [exact Hl'|]. apply HQ.
  by rewrite <- (at_entry_twice _ _ _ _ _ Hl).
Qed.

Lemma wp_per_increment c h l w (Q : () -> PERIPHERAL_INFO_TABLE * world D -> Prop) :
  Q tt (mkPerTable (pc_set c (u32 (pc_get c h + 1)) h) l, w) -> wp (per_increment c) (mkPerTable h l, w) Q.
Proof. exact id. Qed.

(** What a builder has done after writing [ds] on a table. *)
Definition per_state (h : PERIPHERAL_INFO_HDR) (ds : list per_desc) (L : list PERIPHERAL_INFO_BLOCK) : PERIPHERAL_INFO_TABLE :=
  mkPerTable h (filled per_made 0 ds L).

Definition is_controller (k : per_kind) : Prop := k = KUsb \/ k = KSata.

Lemma wp_controller_node fuel k dt_ptr a sc c x d ds h L w (Q : ctl (Z * Z) () -> PERIPHERAL_INFO_TABLE * world D -> Prop) :
  is_controller k -> controller_ok fuel dt_ptr a x d -> (length ds < length L)%nat ->
  let count := kind_count k in
  Q (Continue (next_compatible dt_ptr c x, Z.of_nat (length ds) + 1))
    (per_state (pc_set count (u32 (pc_get count h + 1)) h) (ds ++ [(k, d)]) L, w) ->
  wp (per_node fuel (kind_type k) (kind_base k) count dt_ptr a sc c x (Z.of_nat (length ds))) (per_state h ds L, w) Q.
Proof.
  destruct d as [base irq]. intros Hk ((v & len & Hp & Hl & Hb) & (pv & plen & cc & Hi & Hirq)) Hroom count HQ.
  cbn [fst snd] in *. unfold per_node, per_state. dt_step.
  destruct (at_entry_in (Z.of_nat (length ds)) (per_with_type (kind_type k)) (filled per_made 0 ds L)) as [l1 Hl1].
  { rewrite Nat2Z.id, length_filled. lia. }
  eapply wp_per_edit; [exact Hl1|]. unfold prop_value. rewrite Hp. cbn [fst snd].
  rewrite (proj2 (Z.ltb_ge _ _) Hl). dt_step. dt_step. eapply wp_eval; [by apply eval_node_interrupts|].
  cbn beta iota. rewrite Hb. dt_steps. eapply wp_per_again; [exact Hl1|]. intros l2 Hl2. dt_steps. rewrite Hirq. dt_steps.
  eapply wp_per_again; [exact Hl2|]. intros l3 Hl3. dt_steps. apply wp_per_increment. dt_steps.
  rewrite (at_entry_filled per_made _ ds (k, (base, irq))) in Hl3; [by injection Hl3 as <-|done|done|done].
Qed.

Lemma wp_uart_node fuel dt_ptr a sc c x d ds h L w (Q : ctl (Z * Z) () -> PERIPHERAL_INFO_TABLE * world D -> Prop) :
  uart_ok fuel dt_ptr a x d -> (length ds < length L)%nat ->
  let made := match d with Some d => [(KUart, d)] | None => [] end in
  Q (Continue (next_compatible dt_ptr c x, Z.of_nat (length (ds ++ made))))
    (per_state (if d is Some _ then with_num_uart (u32 (num_uart h + 1)) h else h) (ds ++ made) L, w) ->
  wp (uart_node fuel dt_ptr a sc c x (Z.of_nat (length ds))) (per_state h ds L, w) Q.
Proof.
  destruct d as [[base irq]|]; cbn [uart_ok].
  2:{ intros Hd Hroom HQ. rewrite app_nil_r in HQ. unfold uart_node. rewrite Hd. by dt_steps. }
  intros (Hd & own & off & (v & len & Hp & Hl & Hb) & Hoff & -> & (pv & plen & cc & Hi & Hirq)) Hroom HQ.
  unfold uart_node, per_state. rewrite Hd. unfold prop_value. rewrite Hp. cbn [fst snd].
  rewrite (proj2 (Z.ltb_ge _ _) Hl), Hb. dt_steps.
  destruct (at_entry_in (Z.of_nat (length ds)) (per_with_base0 own) (filled per_made 0 ds L)) as [l1 Hl1].
  { rewrite Nat2Z.id, length_filled. lia. }
  eapply wp_per_edit; [exact Hl1|]. dt_step. dt_step. eapply wp_eval; [by apply eval_uart_parent_offset|]. dt_steps.
  eapply wp_per_again; [exact Hl1|]. intros l2 Hl2. dt_step. dt_step. eapply wp_eval; [by apply eval_node_interrupts|].
  cbn beta iota. dt_steps. eapply wp_per_again; [exact Hl2|]. intros l3 Hl3. dt_steps. rewrite Hirq. dt_steps.
  eapply wp_per_again; [exact Hl3|]. intros l4 Hl4. dt_steps. apply wp_per_increment. dt_steps.
  rewrite (at_entry_filled per_made _ ds (KUart, (u64 (own + off), irq))) in Hl4; [|done|done|done].
  injection Hl4 as <-. rewrite length_app, Nat2Z.inj_add in HQ. exact HQ.
Qed.

(** Peripherals of one kind. *)
Definition of_kind (k : per_kind) (ds : list (Z * Z)) : list per_desc := pair k <$> ds.

Lemma length_of_kind k ds : length (of_kind k ds) = length ds.
Proof. apply length_fmap. Qed.
Lemma of_kind_snoc k ds d : of_kind k (ds ++ [d]) = of_kind k ds ++ [(k, d)].
Proof. unfold of_kind. by rewrite fmap_app. Qed.

(** The nodes of a kind of controller add their entries in order. *)
Lemma wp_controllers fuel k msg dt_ptr arr groups nodes ds0 ds a sc h L w
    (Q : ctl Z () -> PERIPHERAL_INFO_TABLE * world D -> Prop) :
  is_controller k -> Forall2 (compatible_group dt_ptr) arr groups -> Forall (group_cells dt_ptr a sc) groups ->
  Forall (fun l => (length l < fuel)%nat) groups -> 0 <= sc -> 1 <= a <= 2 ->
  found_nodes arr groups = nodes -> Forall2 (controller_ok fuel dt_ptr a) nodes.*2 ds ->
  let count := kind_count k in
  pc_get count h = 0 -> (length ds0 + length ds <= length L)%nat -> Z.of_nat (length L) < 2 ^ 32 ->
  Q (Continue (Z.of_nat (length (ds0 ++ of_kind k ds))))
    (per_state (pc_set count (Z.of_nat (length ds)) h) (ds0 ++ of_kind k ds) L, w) ->
  wp (compatible_nodes fuel msg (fun i _ => i) dt_ptr arr
        (per_node fuel (kind_type k) (kind_base k) count dt_ptr) (Z.of_nat (length ds0)))
     (per_state h ds0 L, w) Q.
Proof.
  intros Hk Hg Hc Hf Hs Ha Hn Hds count Hz Hroom Hsz HQ.
  assert (Hget : forall n g, pc_get count (pc_set count n g) = n) by (by destruct k).
  assert (Hset : forall n m g, pc_set count n (pc_set count m g) = pc_set count n g) by (by destruct k).
  assert (Hsame : pc_set count 0 h = h) by (rewrite <- Hz; destruct h, k; reflexivity).
  assert (Hlen : length nodes = length ds) by (rewrite <- (Forall2_length _ _ _ Hds); by rewrite length_fmap).
  eapply (wp_compatible_nodes (fun i e s => (i <= length ds)%nat /\
    e = Z.of_nat (length (ds0 ++ of_kind k (take i ds))) /\
    s = (per_state (pc_set count (Z.of_nat i) h) (ds0 ++ of_kind k (take i ds)) L, w)) _ _ _ _ _ groups);
    [done|exact Hc|exact Hf|exact Hs|exact Ha| | |].
  - split; [lia|]. cbn [take of_kind fmap list_fmap]. rewrite app_nil_r. change (Z.of_nat 0) with 0. by rewrite Hsame.
  - rewrite Hn. intros i c x e s Hx (Hi & -> & ->).
    assert (Hx2 : nodes.*2 !! i = Some x) by (by rewrite list_lookup_fmap, Hx).
    destruct (Forall2_lookup_l _ _ _ _ _ Hds Hx2) as (d & Hd & Hok).
    pose proof (lookup_lt_Some _ _ _ Hd) as Hlt.
    assert (Hli : length (ds0 ++ of_kind k (take i ds)) = (length ds0 + i)%nat).
    { rewrite length_app, length_of_kind, length_take. lia. }
    apply (wp_controller_node fuel k dt_ptr a sc c x d (ds0 ++ of_kind k (take i ds))); [exact Hk|exact Hok|rewrite Hli; lia|].
    fold count. rewrite Hget, Hset, u32_id by (unfold fits; lia).
    rewrite (take_S_r _ _ _ Hd), of_kind_snoc, app_assoc. eexists. split; [done|]. split; [lia|]. split.
    + rewrite (length_app (_ ++ _)), Nat2Z.inj_add. done.
    + replace (Z.of_nat i + 1) with (Z.of_nat (S i)) by lia. done.
  - rewrite Hn, Hlen, firstn_all. intros e s (_ & -> & ->). exact HQ.
Qed.

Lemma length_omap_le {X Y} (f : X -> option Y) l : (length (omap f l) <= length l)%nat.
Proof. induction l as [|x l IH]; [done|]. rewrite omap_cons. destruct (f x); cbn [length]; lia. Qed.

(** The enabled UARTs add theirs after them. *)
Lemma wp_uarts fuel msg dt_ptr arr groups nodes ds0 (ds : list (option (Z * Z))) a sc h L w
    (Q : ctl Z () -> PERIPHERAL_INFO_TABLE * world D -> Prop) :
  Forall2 (compatible_group dt_ptr) arr groups -> Forall (group_cells dt_ptr a sc) groups ->
  Forall (fun l => (length l < fuel)%nat) groups -> 0 <= sc -> 1 <= a <= 2 ->
  found_nodes arr groups = nodes -> Forall2 (uart_ok fuel dt_ptr a) nodes.*2 ds ->
  num_uart h = 0 -> (length ds0 + length ds <= length L)%nat -> Z.of_nat (length L) < 2 ^ 32 ->
  let made := of_kind KUart (omap id ds) in
  Q (Continue (Z.of_nat (length (ds0 ++ made))))
    (per_state (with_num_uart (Z.of_nat (length made)) h) (ds0 ++ made) L, w) ->
  wp (compatible_nodes fuel msg (fun i _ => i) dt_ptr arr (uart_node fuel dt_ptr) (Z.of_nat (length ds0)))
     (per_state h ds0 L, w) Q.
Proof.
  intros Hg Hc Hf Hs Ha Hn Hds Hz Hroom Hsz made HQ. subst made.
  assert (Hsame : with_num_uart 0 h = h) by (rewrite <- Hz; by destruct h).
  assert (Hlen : length nodes = length ds) by (rewrite <- (Forall2_length _ _ _ Hds); by rewrite length_fmap).
  set (upto i := of_kind KUart (omap id (take i ds))).
  assert (Hle : forall i, (length (upto i) <= i)%nat).
  { intros i. unfold upto. rewrite length_of_kind. etransitivity; [apply length_omap_le|]. rewrite length_take. lia. }
  eapply (wp_compatible_nodes (fun i e s => (i <= length ds)%nat /\ e = Z.of_nat (length (ds0 ++ upto i)) /\
    s = (per_state (with_num_uart (Z.of_nat (length (upto i))) h) (ds0 ++ upto i) L, w)) _ _ _ _ _ groups);
    [done|exact Hc|exact Hf|exact Hs|exact Ha| | |].
  - split; [lia|]. change (Z.of_nat (length (upto 0%nat))) with 0. change (upto 0%nat) with (@nil per_desc).
    by rewrite Hsame, app_nil_r.
  - rewrite Hn. intros i c x e s Hx (Hi & -> & ->).
    assert (Hx2 : nodes.*2 !! i = Some x) by (by rewrite list_lookup_fmap, Hx).
    destruct (Forall2_lookup_l _ _ _ _ _ Hds Hx2) as (d & Hd & Hok).
    pose proof (lookup_lt_Some _ _ _ Hd) as Hlt. specialize (Hle i).
    assert (Hli : (length (ds0 ++ upto i) < length L)%nat) by (rewrite length_app; lia).
    assert (Hup : upto (S i) = upto i ++ match d with Some d => [(KUart, d)] | None => [] end).
    { unfold upto. rewrite (take_S_r _ _ _ Hd), omap_app. unfold of_kind. rewrite fmap_app. by destruct d. }
    apply (wp_uart_node fuel dt_ptr a sc c x d (ds0 ++ upto i)); [exact Hok|exact Hli|].
    rewrite <- app_assoc, <- Hup. eexists. split; [done|]. split; [lia|]. split; [done|].
    rewrite Hup, (length_app (upto i)). destruct d; cbn [length]; [|by rewrite Nat.add_0_r].
    cbn [num_uart with_num_uart]. rewrite u32_id by (unfold fits; lia). by rewrite Nat2Z.inj_add.
  - rewrite Hn, Hlen. unfold upto. rewrite firstn_all. intros e s (_ & -> & ->). exact HQ.
Qed.

(** The nodes of a kind of peripheral: those of its compatible strings, in order, under
    parents with cells of these sizes. *)
Definition kind_nodes (fuel : nat) (dt_ptr : Z) (arr : list string) (a : Z) (nodes : list Z) : Prop :=
  exists groups sc, Forall2 (compatible_group dt_ptr) arr groups /\ Forall (group_cells dt_ptr a sc) groups /\
    Forall (fun l => (length l < fuel)%nat) groups /\ 0 <= sc /\ 1 <= a <= 2 /\ (found_nodes arr groups).*2 = nodes.

(** Without PCI devices the search for controllers finds none. *)
Lemma wp_no_controllers fuel c type count msg e t w (Q : Z -> PERIPHERAL_INFO_TABLE * world D -> Prop) :
  LocateHandleBuffer (dev w) = (None, dev w) -> (0 < fuel)%nat -> Q e (t, w) ->
  wp (pci_controllers fuel c type count msg e) (t, w) Q.
Proof.
  intros Hn Hf HQ. unfold pci_controllers. destruct fuel as [|fuel]; [lia|]. cbn [while_]. dt_step. dt_step.
  unfold palPcieGetBdf. dt_step. dt_step. eapply wp_from_dev_same; [exact Hn|]. by dt_steps.
Qed.

(** Printing the table changes nothing. *)
Lemma wp_dump_peripherals first n bdf t w (Q : () -> world D -> Prop) :
  0 <= first -> (Z.to_nat first + Z.to_nat n <= length (per_info t))%nat -> Q tt w ->
  wp (dump_peripherals first n bdf t) w Q.
Proof.
  intros Hf Hn HQ. unfold dump_peripherals.
  apply (wp_for_each (fun _ s => s = w)); [done| |by intros s ->].
  intros i s Hi ->. destruct (lookup_lt_is_Some_2 (per_info t) (Z.to_nat i)) as [e He]; [lia|].
  rewrite He. destruct bdf; by io_steps.
Qed.

Lemma wp_dump_peripheral_table t w (Q : () -> PERIPHERAL_INFO_TABLE * world D -> Prop) :
  let h := per_header t in
  0 <= num_usb h -> 0 <= num_sata h -> 0 <= num_uart h ->
  num_usb h + num_sata h + num_uart h <= Z.of_nat (length (per_info t)) -> Q tt (t, w) ->
  wp dt_dump_peripheral_table (t, w) Q.
Proof.
  intros h Hu Hs Ht Hn HQ. unfold dt_dump_peripheral_table. dt_step. dt_step. dt_step. fold h.
  repeat (io_step; try (apply wp_dump_peripherals; [lia..|])). exact HQ.
Qed.

(** The header counts what was added. *)
Definition counts (u s t : list per_desc) (h : PERIPHERAL_INFO_HDR) : PERIPHERAL_INFO_HDR :=
  mkPerHdr (Z.of_nat (length u)) (Z.of_nat (length s)) (Z.of_nat (length t)) (num_all h).

(** What a builder from the device tree does, once the tree is found. *)
Lemma wp_from_dt fuel msg count arr node start dt_ptr h ds0 L w (Q : Z -> PERIPHERAL_INFO_TABLE * world D -> Prop) :
  dtb_of_system_table = Some dt_ptr -> dt_ptr <> 0 -> fdt_check_header dt_ptr = 0 ->
  pc_get count h = 0 -> pc_set count 0 h = h -> start h = Z.of_nat (length ds0) ->
  wp (compatible_nodes fuel (per_messages msg) (fun i _ => i) dt_ptr arr (node dt_ptr) (Z.of_nat (length ds0)))
    (per_state h ds0 L, w) (fun _ s => Q (Z.of_nat (length ds0) + pc_get count (per_header (fst s))) s) ->
  wp (or_from_dt count (per_from_dt fuel msg count arr node start) (Z.of_nat (length ds0))) (per_state h ds0 L, w) Q.
Proof.
  intros Hdt Hnz Hhdr Hz Hsame Hstart HQ. unfold or_from_dt, per_state. dt_steps. cbn [per_header]. rewrite Hz.
  change (0 =? 0) with true. cbn iota. dt_step. unfold per_from_dt. dt_step. dt_step.
  eapply wp_eval; [by apply eval_get_dt_ptr|]. rewrite (proj2 (Z.eqb_neq _ _) Hnz). dt_step. dt_step. dt_step.
  unfold per_set. dt_step. cbn [per_header per_info]. rewrite Hsame, Hstart. dt_step.
  eapply wp_mono; [exact HQ|]. intros r [t u] Ht. by dt_steps.
Qed.

Lemma wp_controllers_from_dt fuel k msg dt_ptr arr a nodes start ds0 ds h L w
    (Q : Z -> PERIPHERAL_INFO_TABLE * world D -> Prop) :
  dtb_of_system_table = Some dt_ptr -> dt_ptr <> 0 -> fdt_check_header dt_ptr = 0 -> is_controller k ->
  kind_nodes fuel dt_ptr arr a nodes -> Forall2 (controller_ok fuel dt_ptr a) nodes ds ->
  let count := kind_count k in
  pc_get count h = 0 -> start h = Z.of_nat (length ds0) ->
  (length ds0 + length ds <= length L)%nat -> Z.of_nat (length L) < 2 ^ 32 ->
  Q (Z.of_nat (length (ds0 ++ of_kind k ds)))
    (per_state (pc_set count (Z.of_nat (length (of_kind k ds))) h) (ds0 ++ of_kind k ds) L, w) ->
  wp (or_from_dt count (per_from_dt fuel msg count arr (per_node fuel (kind_type k) (kind_base k) count) start)
       (Z.of_nat (length ds0))) (per_state h ds0 L, w) Q.
Proof.
  intros Hdt Hnz Hhdr Hk (groups & sc & Hg & Hc & Hf & Hs & Ha & Hn) Hds count Hz Hstart Hroom Hsz HQ.
  eapply wp_from_dt; [exact Hdt|exact Hnz|exact Hhdr|exact Hz| |exact Hstart|].
  { rewrite <- Hz. by destruct h, k. }
  eapply (wp_controllers fuel k _ dt_ptr arr groups _ ds0 ds a sc h L); try done; [by rewrite Hn|].
  unfold per_state. cbn [fst per_header]. rewrite length_app, Nat2Z.inj_add in HQ. rewrite length_of_kind in *.
  by destruct k.
Qed.

Lemma wp_uarts_from_dt fuel msg dt_ptr arr a nodes start ds0 ds h L w
    (Q : Z -> PERIPHERAL_INFO_TABLE * world D -> Prop) :
  dtb_of_system_table = Some dt_ptr -> dt_ptr <> 0 -> fdt_check_header dt_ptr = 0 ->
  kind_nodes fuel dt_ptr arr a nodes -> Forall2 (uart_ok fuel dt_ptr a) nodes ds ->
  num_uart h = 0 -> start h = Z.of_nat (length ds0) ->
  (length ds0 + length ds <= length L)%nat -> Z.of_nat (length L) < 2 ^ 32 ->
  let made := of_kind KUart (omap id ds) in
  Q (Z.of_nat (length (ds0 ++ made))) (per_state (with_num_uart (Z.of_nat (length made)) h) (ds0 ++ made) L, w) ->
  wp (or_from_dt uart_count (per_from_dt fuel msg uart_count arr (uart_node fuel) start)
       (Z.of_nat (length ds0))) (per_state h ds0 L, w) Q.
Proof.
  intros Hdt Hnz Hhdr (groups & sc & Hg & Hc & Hf & Hs & Ha & Hn) Hds Hz Hstart Hroom Hsz made HQ.
  eapply wp_from_dt; [exact Hdt|exact Hnz|exact Hhdr|exact Hz| |exact Hstart|].
  { rewrite <- Hz. by destruct h. }
  eapply (wp_uarts fuel _ dt_ptr arr groups _ ds0 ds a sc h L); try done; [by rewrite Hn|].
  unfold per_state. cbn [fst per_header]. rewrite length_app, Nat2Z.inj_add in HQ. exact HQ.
Qed.

(** The peripheral table on a machine without PCI devices and without an SPCR: the USB
    controllers of the device tree, then the SATA controllers, then the enabled UARTs,
    each with the interrupt its node gives, then the terminator. The base of a SATA
    controller is in the second base, and the interrupt of a UART alone has the offset of
    the shared interrupts added. *)
Theorem peripheral_table_from_dt fuel dt_ptr ua sa ta usb_nodes sata_nodes uart_nodes usbs satas uarts h L (w : world D) :
  dtb_of_system_table = Some dt_ptr -> dt_ptr <> 0 -> fdt_check_header dt_ptr = 0 ->
  LocateHandleBuffer (dev w) = (None, dev w) -> eval pal_get_spcr_ptr w 0 w -> (0 < fuel)%nat ->
  kind_nodes fuel dt_ptr usb_dt_compatible ua usb_nodes -> Forall2 (controller_ok fuel dt_ptr ua) usb_nodes usbs ->
  kind_nodes fuel dt_ptr sata_dt_compatible sa sata_nodes -> Forall2 (controller_ok fuel dt_ptr sa) sata_nodes satas ->
  kind_nodes fuel dt_ptr uart_dt_compatible ta uart_nodes -> Forall2 (uart_ok fuel dt_ptr ta) uart_nodes uarts ->
  (length usbs + length satas + length uarts < length L)%nat -> Z.of_nat (length L) < 2 ^ 32 ->
  let u := of_kind KUsb usbs in
  let s := of_kind KSata satas in
  let t := of_kind KUart (omap id uarts) in
  wp (build (mkPerTable h L) (pal_peripheral_create_info_table fuel)) w (fun tb w' => w' = w /\
    per_header tb = counts u s t h /\
    Some (per_info tb) =
      at_entry (Z.of_nat (length (u ++ s ++ t))) (per_with_type 0xFF) (filled per_made 0 (u ++ s ++ t) L)).
Proof.
  intros Hdt Hnz Hhdr Hpci Hspcr Hf Hun Hu Hsn Hs Htn Ht Hroom Hsz u s t.
  apply wp_build. unfold pal_peripheral_create_info_table, per_set. dt_steps. cbn [per_header per_info].
  eapply wp_no_controllers; [exact Hpci|exact Hf|]. dt_step.
  change L with (filled per_made 0 [] L) at 1. change 0 with (Z.of_nat (length (@nil per_desc))) at 1.
  change (mkPerTable ?h (filled per_made 0 ?ds ?L)) with (per_state h ds L).
  set (h0 := pc_set uart_count 0 (pc_set sata_count 0 (pc_set usb_count 0 h))).
  assert (Hlu : length u = length usbs) by apply length_of_kind.
  assert (Hls : length s = length satas) by apply length_of_kind.
  assert (Hlt : (length t <= length uarts)%nat) by (unfold t; rewrite length_of_kind; apply length_omap_le).
  eapply (wp_controllers_from_dt fuel KUsb _ dt_ptr usb_dt_compatible ua usb_nodes (fun _ => 0) []);
    [exact Hdt|exact Hnz|exact Hhdr|by left|exact Hun|exact Hu|done|done|cbn [length]; lia|exact Hsz|].
  fold u. cbn [app]. dt_steps. eapply wp_no_controllers; [exact Hpci|exact Hf|]. dt_steps.
  eapply (wp_controllers_from_dt fuel KSata _ dt_ptr sata_dt_compatible sa sata_nodes num_usb u satas);
    [exact Hdt|exact Hnz|exact Hhdr|by right|exact Hsn|exact Hs|done|done|lia|exact Hsz|].
  fold s. dt_step. dt_step. eapply wp_eval; [exact Hspcr|]. unfold per_from_spcr. change (0 =? 0) with true. dt_steps.
  eapply (wp_uarts_from_dt fuel _ dt_ptr uart_dt_compatible ta uart_nodes (fun h => num_usb h + num_sata h) (u ++ s) uarts);
    [exact Hdt|exact Hnz|exact Hhdr|exact Htn|exact Ht|done| |rewrite length_app; lia|exact Hsz|].
  { cbn. rewrite length_app. lia. }
  fold t. rewrite <- app_assoc. unfold per_generic_uart. change (truthy PLATFORM_GENERIC_UART_BASE) with false. dt_steps.
  unfold per_state. destruct (at_entry_in (Z.of_nat (length (u ++ s ++ t))) (per_with_type 0xFF)
    (filled per_made 0 (u ++ s ++ t) L)) as [l' Hl'].
  { rewrite Nat2Z.id, length_filled, !length_app. lia. }
  eapply wp_per_edit; [exact Hl'|].
  apply wp_dump_peripheral_table; [cbn; lia..| |done].
  assert (Hll : length l' = length L).
  { revert Hl'. unfold at_entry. case_match; [|done]. intros [= <-]. by rewrite length_insert, length_filled. }
  cbn [per_header per_info]. rewrite Hll. cbn. lia.
Qed.


End pal_peripherals.

(** ** A concrete memory map: RAM, a reserved region and a device *)

Definition small_efi_map : list EFI_MEMORY_DESCRIPTOR :=
  [mkEfiMem 7 0x80000000 0x80000000 0x10000; mkEfiMem 0 0x90000000 0x90000000 0x10; mkEfiMem 11 0x9000000 0x9000000 1].

#[local] Instance small_uefi_memory : UefiMemory machine := {
  GetMemoryMap size d :=
    if size =? 0 then ((5, 144, 48, []), d) else ((0, 144, 48, small_efi_map), d);
  EFI_BUFFER_TOO_SMALL := 5;
  EFI_ERROR st := negb (st =? 0);
  efi_memory_type s :=
    if String.eqb s "EfiConventionalMemory" then 7 else if String.eqb s "EfiMemoryMappedIO" then 11 else 0
}.

Definition junk_mem : MEM_INFO_BLOCK := mkMem 1 2 3 4 0xdead.

Lemma memory_map_queries_witness :
  wp (build (mkMemTable 0 0 (replicate 5 junk_mem)) pal_memory_create_info_table) (boot ∅ ∅) (fun t _ =>
    eval (val_memory_get_info 4 0x8fffffff) (set_g_memory_info_table (Some t) (boot ∅ ∅)) (MEMORY_TYPE_NORMAL, Some 0xdead)
      (set_g_memory_info_table (Some t) (boot ∅ ∅)) /\
    eval (val_memory_get_info 4 0x9000800) (set_g_memory_info_table (Some t) (boot ∅ ∅)) (MEMORY_TYPE_DEVICE, Some 0xdead)
      (set_g_memory_info_table (Some t) (boot ∅ ∅))).
Proof.
  eapply wp_mono.
  - eapply (memory_map_queries 0 0 (replicate 5 junk_mem) (boot ∅ ∅) small_efi_map).
    + constructor. eexists _, _, _, _. split; [reflexivity|]. eexists _, _. split; [vm_compute; reflexivity|].
      split; [vm_compute; congruence|]. eexists _, _, _, _. split; [reflexivity|]. repeat split.
    + cbn. lia.
  - intros t u [_ Hq]. split.
    + exact (Hq (set_g_memory_info_table (Some t) (boot ∅ ∅)) 4%nat 0x8fffffff eq_refl ltac:(cbn; lia)).
    + exact (Hq (set_g_memory_info_table (Some t) (boot ∅ ∅)) 4%nat 0x9000800 eq_refl ltac:(cbn; lia)).
Defined.

(** ** A concrete board

    A USB controller, a SATA controller, a UART of the secure world and a UART behind two
    levels of address ranges, with no PCI devices. *)

#[local] Instance no_pci : PciIo machine := {
  LocateHandleBuffer d := (None, d);
  HandleProtocol h d := (None, d);
  GetLocation _ := (0, 0, 0, 0);
  Pci_Read _ _ _ d := (None, d);
  Pci_Write _ _ _ d := (false, d)
}.

Fixpoint strncmp (a b : list Z) (n : nat) : Z :=
  match n, a, b with
  | S n, x :: a, y :: b => if x =? y then if x =? 0 then 0 else strncmp a b n else x - y
  | _, _, _ => 0
  end.

#[local] Instance bytes_lib : AsciiLib machine := { AsciiStrnCmp a b n := strncmp a b (Z.to_nat n) }.

Definition board_tree : list dt_node :=
  [mkDtNode 0 (-1) "" [("#address-cells", cells [2]); ("#size-cells", cells [2]); ("interrupt-parent", cells [1])];
   mkDtNode 10 0 "intc" [("compatible", bytes_of "arm,gic-v3"); ("#interrupt-cells", cells [3]); ("phandle", cells [1])];
   mkDtNode 20 0 "usb" [("compatible", bytes_of "generic-ohci"); ("reg", cells [0; 0x7ffb0000; 0; 0x10000]);
     ("interrupts", cells [0; 116; 4])];
   mkDtNode 30 0 "sata" [("compatible", bytes_of "generic-ahci"); ("reg", cells [0; 0x7ffc0000; 0; 0x10000]);
     ("interrupts", cells [0; 117; 4])];
   mkDtNode 40 0 "bus" [("#address-cells", cells [2]); ("#size-cells", cells [1]);
     ("ranges", cells [0; 0; 0; 0x08000000; 0x04000000; 3; 0; 0; 0x1c000000; 0x04000000])];
   mkDtNode 50 40 "fpga" [("#address-cells", cells [1]); ("#size-cells", cells [1]); ("ranges", cells [0; 3; 0; 0x200000])];
   mkDtNode 60 50 "uart" [("compatible", bytes_of "arm,pl011"); ("reg", cells [0x090000; 0x1000]);
     ("interrupts", cells [0; 5; 4])];
   mkDtNode 70 50 "uart" [("compatible", bytes_of "arm,pl011"); ("reg", cells [0x0a0000; 0x1000]);
     ("interrupts", cells [0; 6; 4]); ("status", bytes_of "disabled")]].

#[local] Instance board_tree_fdt : Fdt machine := tree_fdt board_tree.

Definition blank_per : PERIPHERAL_INFO_BLOCK := mkPer 0 0 0 0 0 0 0 0 0.

Ltac on_board_irq :=
  eexists _, _, _; split;
    [split; [reflexivity|]; split; [vm_compute; congruence|]; split; [intros u; by split|vm_compute; split; congruence]|reflexivity].
Ltac on_board_reg := eexists _, _; split; [reflexivity|]; split; [vm_compute; congruence|reflexivity].
Ltac on_board_groups :=
  repeat (constructor; [split; [on_tree|split; [vm_compute; congruence|first [discriminate|by intros _; vm_compute]]]|]);
  constructor.
Ltac on_board_cells :=
  repeat (constructor; [intros x Hx; first [discriminate Hx|injection Hx as <-; split; reflexivity]|]); constructor.
Ltac on_board_nodes groups sc :=
  exists groups, sc; split; [on_board_groups|]; split; [on_board_cells|]; split; [repeat constructor; cbn; lia|];
  split; [lia|]; split; [lia|reflexivity].

Lemma peripheral_table_from_dt_witness :
  wp (build (mkPerTable (mkPerHdr 9 9 9 9) (replicate 5 blank_per)) (pal_peripheral_create_info_table 8)) (boot ∅ ∅)
    (fun t _ => t = mkPerTable (mkPerHdr 1 1 1 9)
      [mkPer PERIPHERAL_TYPE_USB 0 0x7ffb0000 0 116 0 0 0 0; mkPer PERIPHERAL_TYPE_SATA 0 0 0x7ffc0000 117 0 0 0 0;
       mkPer PERIPHERAL_TYPE_UART 0 0x1c090000 0 37 0 0 0 0; mkPer 0xFF 0 0 0 0 0 0 0 0; blank_per]).
Proof.
  eapply wp_mono; [eapply (peripheral_table_from_dt 8 0x48000000 2 2 1 [20] [30] [60; 70]
    [(0x7ffb0000, 116)] [(0x7ffc0000, 117)] [Some (0x1c090000, 37); None])|].
  all: try on_tree.
  - by split.
  - on_board_nodes [[20]; @nil Z] 2.
  - constructor; [split; [on_board_reg|on_board_irq]|constructor].
  - on_board_nodes [[30]] 2.
  - constructor; [split; [on_board_reg|on_board_irq]|constructor].
  - on_board_nodes [@nil Z; [60; 70]] 1.
  - constructor; [split; [reflexivity|]|constructor; [reflexivity|constructor]].
    exists 0x090000, 0x1c000000. split; [on_board_reg|]. do 2 (split; [reflexivity|]). on_board_irq.
  - intros [hd l] w' (_ & Hh & Hl). cbn [per_header per_info] in *. subst hd. f_equal. apply (inj Some). by rewrite Hl.
Defined.
