(* ===== verification/PalPe.v ===== *)
(** * The platform layer: processing elements

    The PE table built from the ACPI MADT or from the device tree
    (src/platform/pal_uefi_dt/src/pal_pe.c, and the maintenance interrupts read by
    pal_gic.c). *)

From S2P Require Import Prelude Types World Machine Fdt.
#[local] Open Scope c_scope.

Definition pmu_dt_arr : list string :=
  ["arm,armv8-pmuv3"; "arm,cortex-a17-pmu"; "arm,cortex-a15-pmu"; "arm,cortex-a12-pmu";
   "arm,cortex-a9-pmu"; "arm,cortex-a8-pmu"; "arm,cortex-a7-pmu"; "arm,cortex-a5-pmu";
   "arm,arm11mpcore-pmu"; "arm,arm1176-pmu"; "arm,arm1136-pmu"].

(** pal_gic.c *)
Definition gicv3_dt_arr : list string := ["arm,gic-v3"].
Definition gicv2_dt_arr : list string :=
  ["arm,cortex-a15-gic"; "arm,cortex-a9-gic"; "arm,cortex-a7-gic"; "arm,cortex-a5-gic";
   "arm,eb11mp-gic"; "arm,arm11mp-gic"; "arm,gic-400"; "arm,pl390"; "qcom,msm-8660-qgic";
   "qcom,msm-qgic2"].

Definition SIZE_STACK_SECONDARY_PE : Z := 0x100.

Definition UPDATE_AFF_MAX (src dest mask : Z) : Z :=
  if Z.land dest mask >? Z.land src mask then Z.land dest mask else Z.land src mask.

(** [MpidrAff0Max] to [MpidrAff3Max], updated with one more processor. *)
Definition aff_masks : list Z := [0x000000ff; 0x0000ff00; 0x00ff0000; 0xff00000000].
Definition aff_max_update (aff : list Z) (mpidr : Z) : list Z :=
  zip_with (fun m mask => UPDATE_AFF_MAX m mpidr mask) aff aff_masks.
Definition aff_max_word (aff : list Z) : Z := foldr Z.lor 0 aff.

(** Field updates of a table entry. *)
Definition pe_with_mpidr (mpidr num : Z) (e : PE_INFO_ENTRY) : PE_INFO_ENTRY :=
  mkPE num (pe_attr e) mpidr (pe_pmu_gsiv e) (pe_gmain_gsiv e).
Definition pe_with_pmu (gsiv : Z) (e : PE_INFO_ENTRY) : PE_INFO_ENTRY :=
  mkPE (pe_num e) (pe_attr e) (pe_mpidr e) gsiv (pe_gmain_gsiv e).
Definition pe_with_gmain (gsiv : Z) (e : PE_INFO_ENTRY) : PE_INFO_ENTRY :=
  mkPE (pe_num e) (pe_attr e) (pe_mpidr e) (pe_pmu_gsiv e) gsiv.

(** [sizeof(PE_INFO_HDR)] as laid out before [pe_info], and [sizeof(PE_INFO_ENTRY)]. *)
Definition sizeof_PE_INFO_HDR : Z := 8.
Definition sizeof_PE_INFO_ENTRY : Z := 24.

Section pal_pe.
Context {D : Type} `{Platform D} `{SystemTable D} `{Acpi D} `{Fdt D}.

#[local] Abbreviation M := (M (world D)).
#[local] Abbreviation B := (Prelude.M (PE_INFO_TABLE * world D)).

Definition pal_modify (f : pal_globals -> pal_globals) : M () :=
  modify (fun w => set_g_pal (f (g_pal w)) w).

Definition PalGetSecondaryStackBase : M Z := gets (fun w => gSecondaryPeStack (g_pal w)).
Definition pal_pe_get_num : M Z := gets (fun w => g_num_pe (g_pal w)).
Definition PalGetMaxMpidr : M Z := gets (fun w => gMpidrMax (g_pal w)).

(** The product of the affinity ranges bounds the number of PEs; its C value, and the
    size asked for, wrap on 32 bits. *)
Definition PalAllocateSecondaryStack (mpidr : Z) : M () :=
  let Aff0 := Z.land mpidr 0x00000000ff in
  let Aff1 := Z.shiftr (Z.land mpidr 0x000000ff00) 8 in
  let Aff2 := Z.shiftr (Z.land mpidr 0x0000ff0000) 16 in
  let Aff3 := Z.shiftr (Z.land mpidr 0xff00000000) 32 in
  let NumPe := u32 ((Aff3 + 1) * (Aff2 + 1) * (Aff1 + 1) * (Aff0 + 1)) in
  let* stack := PalGetSecondaryStackBase in
  when stack =? 0 then
    let* heap0 := gets heap in
    let* r := from_dev (bs_allocate_pool (u32 (NumPe * SIZE_STACK_SECONDARY_PE)) heap0) in
    match r with
    | inl Status =>
        bsa_print ACS_PRINT_ERR "\n FATAL - Allocation for Seconday stack failed %x \n" Status
    | inr p =>
        modify (fun w => set_heap (<[p := u32 (NumPe * SIZE_STACK_SECONDARY_PE)]> (heap w)) w) ;;
        pal_modify (fun g => mkPalGlobals (g_num_pe g) (gMpidrMax g) p)
    end ;;
    pal_pe_data_cache_ops_by_va (symbol "gSecondaryPeStack") CLEAN_AND_INVALIDATE.

(** Entry number [k] of the table, updated. *)
Definition pe_entry (k : Z) (f : PE_INFO_ENTRY -> PE_INFO_ENTRY) : B () :=
  edit_at (fun t => mkPETable (num_of_pe t) <$> at_entry k f (pe_info t)).

Definition pe_set_num (n : Z) : B () := edit (fun t => mkPETable n (pe_info t)).

(** [Ptr->mpidr = ...; Ptr->pe_num = ...; ...; PeTable->header.num_of_pe++], with the
    write [f] to the entry. *)
Definition pe_add (Ptr : Z) (f : PE_INFO_ENTRY -> PE_INFO_ENTRY) : B () :=
  pe_entry Ptr f ;;
  io (pal_pe_data_cache_ops_by_va
        (symbol "PeTable" + sizeof_PE_INFO_HDR + sizeof_PE_INFO_ENTRY * Ptr) CLEAN_AND_INVALIDATE) ;;
  let* t := table in
  pe_set_num (u32 (num_of_pe t + 1)).

Definition dt_dump_pe_table : B () :=
  let* t := table in
  io (bsa_print ACS_PRINT_DEBUG "************PE TABLE DUMP************ \n" 0 ;;
      bsa_print ACS_PRINT_DEBUG " NUM PE %d \n" (num_of_pe t) ;;
      for_each (Z.to_nat (num_of_pe t)) 0 (fun Index =>
        let* e := need (pe_info t !! Z.to_nat Index) in
        bsa_print ACS_PRINT_DEBUG " PE NUM      :%x\n" (pe_num e) ;;
        bsa_print ACS_PRINT_DEBUG "    MPIDR    :%x\n" (pe_mpidr e) ;;
        bsa_print ACS_PRINT_DEBUG "    PMU GSIV :%x\n" (pe_pmu_gsiv e)) ;;
      bsa_print ACS_PRINT_DEBUG "************************************* \n\n" 0).

(** One round of the loops that look for the first compatible node: the node found so
    far, if any. *)
Definition first_compatible (dt_ptr : Z) (arr : list string) : option Z :=
  List.find (fun offset => 0 <=? offset)
    ((fun s => fdt_node_offset_by_compatible dt_ptr (-1) s) <$> arr).

(** The interrupt controller: a GICv3 node, otherwise a GICv2 node. *)
Definition gic_node (dt_ptr : Z) : option Z :=
  match first_compatible dt_ptr gicv3_dt_arr with
  | Some offset => Some offset
  | None => first_compatible dt_ptr gicv2_dt_arr
  end.

(** pal_gic.c: every PE gets the interrupt of the GIC node; the type of the interrupt is
    looked at only in three-cell specifiers. *)
Definition pal_pe_info_table_gmaint_gsiv_dt (fuel : nat) : B () :=
  let* dt_ptr := io pal_get_dt_ptr in
  if dt_ptr =? 0 then io (bsa_print ACS_PRINT_ERR " dt_ptr is NULL \n" 0)
  else
    match gic_node dt_ptr with
    | None => io (bsa_print ACS_PRINT_DEBUG "GIC compatible node not found\n" 0)
    | Some offset =>
        let* r := io (node_interrupts fuel dt_ptr offset) in
        match r with
        | None => ret tt
        | Some (Pintr, _, interrupt_cell) =>
            let* t := table in
            for_each (Z.to_nat (num_of_pe t)) 0 (fun i =>
              if interrupt_cell =? 3 then
                let* type := need (word_of Pintr 0) in
                if truthy type then
                  let* v := need (cell Pintr 1) in
                  pe_entry i (pe_with_gmain (u32 (v + PPI_OFFSET)))
                else io (bsa_print ACS_PRINT_WARN " Int is not PPI \n" 0)
              else
                let* v := need (cell Pintr 0) in
                pe_entry i (pe_with_gmain (u32 (v + PPI_OFFSET))))
        end
    end.

(** The number of a performance interrupt whose specifier starts at cell [k]; in a
    three-cell specifier the first cell is the type. *)
Definition pmu_gsiv_at (Pintr : list Z) (interrupt_cell k : Z) : M Z :=
  if interrupt_cell =? 3 then
    let* type := need (word_of Pintr k) in
    let* v := need (cell Pintr (k + 1)) in
    ret (u32 (v + if truthy type then PPI_OFFSET else SPI_OFFSET))
  else need (cell Pintr k).

(** The loop variable [i] of the outer loop over [pmu_dt_arr] is also that of the inner
    loops: both are carried, with [Ptr] and [index]. *)
Definition pal_pe_info_table_pmu_gsiv_dt (fuel : nat) : B () :=
  let* dt_ptr := io pal_get_dt_ptr in
  if dt_ptr =? 0 then io (bsa_print ACS_PRINT_ERR "dt_ptr is NULL \n" 0)
  else
    while_ fuel (fun '(i, Ptr, index) =>
      if Z.of_nat (length pmu_dt_arr) <=? i then ret (Break tt)
      else
        let* compatible := need (pmu_dt_arr !! Z.to_nat i) in
        let offset := fdt_node_offset_by_compatible dt_ptr (-1) compatible in
        if offset <? 0 then
          io (bsa_print ACS_PRINT_DEBUG "PMU compatible value not found for index:%d\n" i) ;;
          ret (Continue (i + 1, Ptr, index))
        else
          let* r := while_node fuel (fun offset '(i, Ptr, index) =>
            let* r := io (node_interrupts fuel dt_ptr offset) in
            match r with
            | None => ret (Break tt)
            | Some (Pintr, prop_len, interrupt_cell) =>
                let interrupt_frame_count := prop_len / 4 / interrupt_cell in
                io (bsa_print ACS_PRINT_DEBUG " interrupt frame count : %d \n" interrupt_frame_count) ;;
                if interrupt_frame_count =? 0 then
                  io (bsa_print ACS_PRINT_ERR " interrupt_frame_count is invalid\n" 0) ;;
                  ret (Break tt)
                else if interrupt_frame_count =? 1 then
                  let* t := table in
                  for_each (Z.to_nat (num_of_pe t)) 0 (fun i =>
                    let* gsiv := io (pmu_gsiv_at Pintr interrupt_cell 0) in
                    pe_entry (Ptr + i) (pe_with_pmu gsiv)) ;;
                  ret (Break tt)
                else
                  for_each (Z.to_nat interrupt_frame_count) 0 (fun i =>
                    let* gsiv := io (pmu_gsiv_at Pintr interrupt_cell (index + interrupt_cell * i)) in
                    pe_entry (Ptr + i) (pe_with_pmu gsiv)) ;;
                  let i := interrupt_frame_count in
                  let* compatible := need (pmu_dt_arr !! Z.to_nat i) in
                  ret (Continue (fdt_node_offset_by_compatible dt_ptr offset compatible,
                         (i, Ptr + interrupt_frame_count, index + interrupt_cell * interrupt_frame_count)))
            end) offset (i, Ptr, index) in
          ret (match r with
               | Continue (i, Ptr, index) => Continue (i + 1, Ptr, index)
               | Break _ => Break tt
               end)) (0, 0, 0).

(** The affinity fields of a "reg" property of one or two cells. *)
Definition mpidr_of_reg (addr_cell : Z) (prop_val : list Z) : option Z :=
  if addr_cell =? 2 then
    hi ← cell prop_val 0; lo ← cell prop_val 1;
    Some (Z.lor (Z.shiftl (Z.land hi PROPERTY_MASK_PE_AFF3) 32) (Z.land lo PROPERTY_MASK_PE_AFF0_AFF2))
  else v ← cell prop_val 0; Some (Z.land v PROPERTY_MASK_PE_AFF0_AFF2).

Definition next_cpu (dt_ptr offset : Z) : Z :=
  fdt_node_offset_by_prop_value dt_ptr offset "device_type" "cpu" 4.

(** One cpu node; [Ptr] and the affinity maxima are carried on. *)
Definition pe_cpu_node (dt_ptr addr_cell offset : Z) (carried : Z * list Z)
  : B (ctl (Z * (Z * list Z)) ()) :=
  let '(Ptr, aff) := carried in
  let* t := table in
  io (bsa_print ACS_PRINT_DEBUG " SUBNODE cpu%d offset %x\n" (num_of_pe t)) ;;
  let '(p, prop_len) := fdt_getprop_namelen dt_ptr offset "reg" 3 in
  match prop_value (p, prop_len) with
  | None =>
      io (bsa_print ACS_PRINT_ERR " PROPERTY reg offset %x, Error %d\n" prop_len) ;;
      ret (Break tt)
  | Some prop_val =>
      let* r0 := need (cell prop_val 0) in
      io (bsa_print ACS_PRINT_DEBUG " reg_val<0> = %x\n" r0) ;;
      (if addr_cell =? 2 then
         let* r1 := need (cell prop_val 1) in
         io (bsa_print ACS_PRINT_DEBUG " reg_val<1> = %x\n" r1)
       else ret tt) ;;
      let* mpidr := need (mpidr_of_reg addr_cell prop_val) in
      pe_add Ptr (pe_with_mpidr mpidr (num_of_pe t)) ;;
      ret (Continue (next_cpu dt_ptr offset, (Ptr + 1, aff_max_update aff mpidr)))
  end.

(** The traversal of the cpu nodes. *)
Definition pe_cpu_nodes (fuel : nat) (dt_ptr addr_cell offset : Z) : B (ctl (Z * list Z) ()) :=
  while_node fuel (pe_cpu_node dt_ptr addr_cell) offset (0, [0; 0; 0; 0]).

(** What both builders do with the maxima at the end. *)
Definition pe_set_globals (aff : list Z) : B () :=
  let* t := table in
  io (pal_modify (fun g => mkPalGlobals (num_of_pe t) (aff_max_word aff) (gSecondaryPeStack g))).

Definition pe_publish (aff : list Z) : B () :=
  io (pal_pe_data_cache_ops_by_va (symbol "PeTable") CLEAN_AND_INVALIDATE ;;
      pal_pe_data_cache_ops_by_va (symbol "gMpidrMax") CLEAN_AND_INVALIDATE ;;
      PalAllocateSecondaryStack (aff_max_word aff)).

Definition pal_pe_create_info_table_dt (fuel : nat) : B () :=
  let* dt_ptr := io pal_get_dt_ptr in
  if dt_ptr =? 0 then io (bsa_print ACS_PRINT_ERR " dt_ptr is NULL\n" 0)
  else
    pe_set_num 0 ;;
    let offset := next_cpu dt_ptr (-1) in
    if offset =? - FDT_ERR_NOTFOUND then io (bsa_print ACS_PRINT_ERR " No CPU node found \n" 0)
    else
      let parent_offset := fdt_parent_offset dt_ptr offset in
      io (bsa_print ACS_PRINT_DEBUG " NODE cpu offset %d\n" offset) ;;
      let size_cell := fdt_size_cells dt_ptr parent_offset in
      io (bsa_print ACS_PRINT_DEBUG " NODE cpu size cell %d\n" size_cell) ;;
      if negb (size_cell =? 0) then
        io (bsa_print ACS_PRINT_ERR " Invalid size cell for node cpu\n" 0)
      else
        let addr_cell := fdt_address_cells dt_ptr parent_offset in
        io (bsa_print ACS_PRINT_DEBUG " NODE cpu  addr cell %d\n" addr_cell) ;;
        if (addr_cell <=? 0) || (addr_cell >? 2) then
          io (bsa_print ACS_PRINT_ERR " Invalid address cell for node cpu\n" 0)
        else
          let* r := pe_cpu_nodes fuel dt_ptr addr_cell offset in
          match r with
          | Break _ => ret tt
          | Continue (_, aff) =>
              pe_set_globals aff ;;
              pal_pe_info_table_pmu_gsiv_dt fuel ;;
              pal_pe_info_table_gmaint_gsiv_dt fuel ;;
              pe_publish aff ;;
              dt_dump_pe_table
          end.

(** [EFI_ACPI_6_1_GIC_STRUCTURE] entries are the PEs; [fill] is what is copied to entry
    [num]. *)
Definition gicc_field (f : string) : Z -> Z := acpi_field ("EFI_ACPI_6_1_GIC_STRUCTURE." ++ f)%string.

Definition pe_of_gicc (Entry num : Z) (e : PE_INFO_ENTRY) : PE_INFO_ENTRY :=
  pe_with_pmu (gicc_field "PerformanceInterruptGsiv" Entry) (pe_with_mpidr (gicc_field "MPIDR" Entry) num e).

Definition pe_madt_entry (fill : Z -> Z -> PE_INFO_ENTRY -> PE_INFO_ENTRY) (Entry : Z) (a : Z * list Z)
  : B (Z * list Z) :=
  let '(Ptr, aff) := a in
  if gicc_field "Type" Entry =? acpi_const "EFI_ACPI_6_1_GIC" then
    let* t := table in
    io (bsa_print ACS_PRINT_DEBUG "MPIDR %x PE num %x \n" (gicc_field "MPIDR" Entry)) ;;
    pe_add Ptr (fill Entry (num_of_pe t)) ;;
    ret (Ptr + 1, aff_max_update aff (gicc_field "MPIDR" Entry))
  else ret (Ptr, aff).

Definition pal_pe_create_info_table (fuel : nat) : B () :=
  let* gMadtHdr := io pal_get_madt_ptr in
  if gMadtHdr =? 0 then
    io (bsa_print ACS_PRINT_DEBUG "MADT not found..Checking DT \n" 0) ;;
    pal_pe_create_info_table_dt fuel
  else
    io (bsa_print ACS_PRINT_INFO " MADT is at %x and length is %x \n" (madt_table_length gMadtHdr)) ;;
    pe_set_num 0 ;;
    let* '(_, aff) := madt_walk fuel gMadtHdr (pe_madt_entry pe_of_gicc) (0, [0; 0; 0; 0]) in
    pe_set_globals aff ;;
    pe_publish aff.

(** ** Proofs *)

Lemma wp_clean addr (w : world D) (Q : () -> world D -> Prop) :
  (forall d, Q tt (set_dev d w)) -> wp (pal_pe_data_cache_ops_by_va addr CLEAN_AND_INVALIDATE) w Q.
Proof. intros HQ. by apply (wp_cache_clean addr CLEAN_AND_INVALIDATE w Q). Qed.

Lemma wp_pe_entry k f l n w (Q : () -> PE_INFO_TABLE * world D -> Prop) l' :
  at_entry k f l = Some l' -> Q tt (mkPETable n l', w) -> wp (pe_entry k f) (mkPETable n l, w) Q.
Proof. intros Hk HQ. unfold pe_entry. eapply wp_edit_at; [|exact HQ]. cbn. by rewrite Hk. Qed.

(** The entry of processor [k] once the cpu nodes have been read. *)
Definition pe_cpu (k mpidr : Z) (e : PE_INFO_ENTRY) : PE_INFO_ENTRY := pe_with_mpidr mpidr k e.

Definition cpu_reg (dt_ptr addr_cell offset mpidr : Z) : Prop :=
  exists v len, fdt_getprop_namelen dt_ptr offset "reg" 3 = (Some v, len) /\ 0 <= len /\
                mpidr_of_reg addr_cell v = Some mpidr.

(** The commands of one cpu node. *)
Lemma wp_cpu_node dt_ptr a x m ms L w Ptr aff (Q : ctl (Z * (Z * list Z)) () -> PE_INFO_TABLE * world D -> Prop) :
  cpu_reg dt_ptr a x m -> Ptr = Z.of_nat (length ms) -> (length ms < length L)%nat ->
  Z.of_nat (length L) < 2 ^ 32 ->
  (forall d, Q (Continue (next_cpu dt_ptr x, (Ptr + 1, aff_max_update aff m)))
      (mkPETable (Ptr + 1) (filled pe_cpu 0 (ms ++ [m]) L), set_dev d w)) ->
  wp (pe_cpu_node dt_ptr a x (Ptr, aff)) (mkPETable Ptr (filled pe_cpu 0 ms L), w) Q.
Proof.
  intros (v & len & Hp & Hl & Hm) HPtr Hroom Hsz HQ. unfold pe_cpu_node, prop_value. rewrite Hp.
  cbn [fst snd]. rewrite (proj2 (Z.ltb_ge _ _) Hl). dt_steps. cbn [num_of_pe].
  assert (Hc0 : exists r0, cell v 0 = Some r0).
  { unfold mpidr_of_reg in Hm. destruct (a =? 2), (cell v 0); eauto; done. }
  destruct Hc0 as [r0 Hr0]. rewrite Hr0. dt_steps.
  apply (wp_mono _ _ (fun _ s => s = (mkPETable Ptr (filled pe_cpu 0 ms L), w))).
  { unfold mpidr_of_reg in Hm. destruct (a =? 2); [|by wp_step]. rewrite Hr0 in Hm. cbn in Hm.
    destruct (cell v 1); [|done]. dt_steps. done. }
  intros _ s ->. rewrite Hm. dt_steps. unfold pe_add. dt_steps.
  eapply wp_pe_entry; [by apply (at_entry_filled pe_cpu _ ms m)|].
  dt_steps. apply wp_clean. intros d. dt_steps. cbn [num_of_pe pe_info].
  replace (u32 (Ptr + 1)) with (Ptr + 1) by (symmetry; apply u32_id; unfold fits; lia). apply HQ.
Qed.

Lemma wp_cpu_nodes fuel dt_ptr a from nodes ms L n0 w
    (Q : ctl (Z * list Z) () -> PE_INFO_TABLE * world D -> Prop) :
  walks (next_cpu dt_ptr) from nodes -> Forall2 (cpu_reg dt_ptr a) nodes ms ->
  (length nodes < fuel)%nat -> (length nodes <= length L)%nat -> Z.of_nat (length L) < 2 ^ 32 ->
  (forall d, Q (Continue (Z.of_nat (length ms), foldl aff_max_update [0; 0; 0; 0] ms))
      (mkPETable (Z.of_nat (length ms)) (filled pe_cpu 0 ms L), set_dev d w)) ->
  n0 = 0 -> wp (pe_cpu_nodes fuel dt_ptr a (next_cpu dt_ptr from)) (mkPETable n0 L, w) Q.
Proof.
  intros Hw Hr Hf Hroom Hsz HQ ->. unfold pe_cpu_nodes.
  pose proof (Forall2_length _ _ _ Hr) as Hlen.
  apply (wp_while_node (next_cpu dt_ptr) nodes (fun i a s => exists d,
    s = (mkPETable (Z.of_nat i) (filled pe_cpu 0 (take i ms) L), set_dev d w) /\
    a = (Z.of_nat i, foldl aff_max_update [0; 0; 0; 0] (take i ms)))); [done|done| | |].
  - exists (dev w). rewrite set_dev_id. by destruct L.
  - intros i x aa s Hx (d & -> & ->).
    destruct (Forall2_lookup_l _ _ _ _ _ Hr Hx) as (m & Hm & Hreg).
    pose proof (lookup_lt_Some _ _ _ Hm) as Hi.
    eapply wp_cpu_node; [exact Hreg| | |done|]; [rewrite length_take; lia..|].
    intros d'. eexists. split; [done|]. exists d'.
    rewrite <- (take_S_r _ _ _ Hm), (take_S_r ms i m Hm), foldl_snoc, Nat2Z.inj_succ.
    by rewrite <- (take_S_r ms i m Hm).
  - intros aa s (d & -> & ->). rewrite Hlen, take_ge by lia. apply HQ.
Qed.

(** [for (i = 0; i < num; i++) { ...; Ptr++; }] writing every entry. *)
Lemma wp_each_entry (f : PE_INFO_ENTRY -> PE_INFO_ENTRY) (n : nat) (body : Z -> B ()) L w
    (Q : () -> PE_INFO_TABLE * world D -> Prop) :
  (n <= length L)%nat ->
  (forall i t (P : () -> PE_INFO_TABLE * world D -> Prop),
     wp (pe_entry i f) (t, w) P -> wp (body i) (t, w) P) ->
  Q tt (mkPETable (Z.of_nat n) (filled (fun _ (_ : ()) => f) 0 (replicate n tt) L), w) ->
  wp (for_each n 0 body) (mkPETable (Z.of_nat n) L, w) Q.
Proof.
  intros Hn Hb HQ.
  apply (wp_for_each (fun i s => s = (mkPETable (Z.of_nat n)
    (filled (fun _ (_ : ()) => f) 0 (replicate (Z.to_nat i) tt) L), w))).
  - by destruct L.
  - intros i s Hi ->. apply Hb. eapply wp_pe_entry; [|done].
    rewrite (at_entry_filled _ f (replicate (Z.to_nat i) tt) tt);
      [|by rewrite length_replicate; lia|rewrite length_replicate; lia|done].
    replace (Z.to_nat (i + 1)) with (S (Z.to_nat i)) by lia. by rewrite replicate_S_end.
  - intros s ->. by rewrite Z.add_0_l, Nat2Z.id.
Qed.

(** The interrupt controller's interrupt is a PPI, in a three-cell specifier. *)
Lemma wp_gmaint fuel dt_ptr gic v len g n L w (Q : () -> PE_INFO_TABLE * world D -> Prop) :
  (forall u : world D, eval pal_get_dt_ptr u dt_ptr u) -> dt_ptr <> 0 -> gic_node dt_ptr = Some gic ->
  has_interrupts fuel dt_ptr gic v len 3 ->
  (exists type, word_of v 0 = Some type /\ type <> 0) -> cell v 1 = Some g ->
  (n <= length L)%nat ->
  Q tt (mkPETable (Z.of_nat n) (filled (fun _ (_ : ()) => pe_with_gmain (u32 (g + PPI_OFFSET)))
          0 (replicate n tt) L), w) ->
  wp (pal_pe_info_table_gmaint_gsiv_dt fuel) (mkPETable (Z.of_nat n) L, w) Q.
Proof.
  intros Hdt Hnz Hg Hi (type & Ht & Htnz) Hc Hn HQ. unfold pal_pe_info_table_gmaint_gsiv_dt.
  dt_step. dt_step. eapply wp_eval; [apply Hdt|]. rewrite (proj2 (Z.eqb_neq _ _) Hnz), Hg.
  dt_step. dt_step. eapply wp_eval; [by apply eval_node_interrupts|]. dt_steps. cbn [num_of_pe].
  rewrite Nat2Z.id. apply wp_each_entry with (f := pe_with_gmain (u32 (g + PPI_OFFSET))); [done| |done].
  intros i t P HP. change (3 =? 3) with true. cbn iota. rewrite Ht. dt_steps.
  unfold truthy. rewrite (proj2 (Z.eqb_neq _ _) Htnz), Hc. cbn [negb].
  by dt_steps.
Qed.

(** There is one node of performance interrupts, for the first [i] compatible strings
    that have none, and it has one three-cell specifier. *)
Lemma wp_pmu_single fuel dt_ptr i compatible pmu v type g n L w
    (Q : () -> PE_INFO_TABLE * world D -> Prop) :
  (forall u : world D, eval pal_get_dt_ptr u dt_ptr u) -> dt_ptr <> 0 ->
  pmu_dt_arr !! i = Some compatible ->
  (forall k s, (k < i)%nat -> pmu_dt_arr !! k = Some s ->
     fdt_node_offset_by_compatible dt_ptr (-1) s < 0) ->
  fdt_node_offset_by_compatible dt_ptr (-1) compatible = pmu -> 0 <= pmu ->
  0 < FDT_ERR_NOTFOUND ->
  has_interrupts fuel dt_ptr pmu v 12 3 -> word_of v 0 = Some type -> cell v 1 = Some g ->
  (i < fuel)%nat -> (n <= length L)%nat ->
  Q tt (mkPETable (Z.of_nat n)
         (filled (fun _ (_ : ()) => pe_with_pmu (u32 (g + if truthy type then PPI_OFFSET else SPI_OFFSET)))
          0 (replicate n tt) L), w) ->
  wp (pal_pe_info_table_pmu_gsiv_dt fuel) (mkPETable (Z.of_nat n) L, w) Q.
Proof.
  intros Hdt Hnz Hi Hbefore Hpmu Hpos Herr Hint Ht Hc Hf Hn HQ. unfold pal_pe_info_table_pmu_gsiv_dt.
  dt_step. dt_step. eapply wp_eval; [apply Hdt|]. rewrite (proj2 (Z.eqb_neq _ _) Hnz).
  pose proof (lookup_lt_Some _ _ _ Hi) as Hlt. cbn [length pmu_dt_arr] in Hlt.
  apply (wp_while (fun a s => exists k, (k <= i)%nat /\ a = (Z.of_nat k, 0, 0) /\
           s = (mkPETable (Z.of_nat n) L, w))
    (fun a _ => i - Z.to_nat (fst (fst a)))%nat).
  - exists 0%nat. split; [lia|]. done.
  - cbn. lia.
  - intros a s (k & Hk & -> & ->). cbn [fst].
    replace (Z.of_nat (length pmu_dt_arr) <=? Z.of_nat k) with false
      by (symmetry; apply Z.leb_gt; cbn [length pmu_dt_arr]; lia).
    rewrite Nat2Z.id. destruct (lookup_lt_is_Some_2 pmu_dt_arr k) as [s Hs];
      [cbn [length pmu_dt_arr]; lia|]. rewrite Hs. dt_step. dt_step.
    destruct (decide (k = i)) as [->|Hne].
    + assert (s = compatible) as -> by congruence. rewrite Hpmu, (proj2 (Z.ltb_ge _ _) Hpos).
      dt_step. unfold while_node. destruct fuel as [|fuel']; [lia|]. cbn [while_].
      replace (pmu =? - FDT_ERR_NOTFOUND) with false by (symmetry; apply Z.eqb_neq; lia).
      dt_step. dt_step. dt_step. dt_step.
      eapply wp_eval; [by apply eval_node_interrupts|]. cbn iota.
      change (12 / 4 / 3) with 1. dt_step. dt_step. dt_step. cbn. cbn iota.
      dt_step. dt_step. dt_step. cbn [num_of_pe]. rewrite Nat2Z.id.
      apply wp_each_entry with (f := pe_with_pmu (u32 (g + if truthy type then PPI_OFFSET else SPI_OFFSET)));
        [done| |by dt_steps].
      intros j t P HP. unfold pmu_gsiv_at. change (3 =? 3) with true. cbn iota. rewrite Ht. dt_steps.
      rewrite !Z.add_0_l, Hc. by dt_steps.
    + rewrite (proj2 (Z.ltb_lt _ _) (Hbefore k s ltac:(lia) Hs)). dt_steps. split; [|cbn; lia].
      exists (S k). split; [lia|]. split; [|done]. do 2 f_equal. lia.
Qed.

(** The greatest value of one affinity field. *)
Definition greatest (mask : Z) (ms : list Z) : Z := foldl Z.max 0 ((fun m => Z.land m mask) <$> ms).

Lemma UPDATE_AFF_MAX_spec src dest mask :
  UPDATE_AFF_MAX src dest mask = Z.max (Z.land src mask) (Z.land dest mask).
Proof. unfold UPDATE_AFF_MAX. rewrite Z.gtb_ltb. destruct (Z.ltb_spec (Z.land src mask) (Z.land dest mask)); lia. Qed.

Lemma land_greatest mask ms : Z.land (greatest mask ms) mask = greatest mask ms.
Proof.
  unfold greatest. induction ms as [|m ms IH] using rev_ind; [done|].
  rewrite fmap_app, foldl_app. change (foldl Z.max ?a ((fun m => Z.land m mask) <$> [m])) with (Z.max a (Z.land m mask)).
  destruct (Z.max_spec (foldl Z.max 0 ((fun m => Z.land m mask) <$> ms)) (Z.land m mask))
    as [[_ ->]|[_ ->]]; [|done]. by rewrite <- Z.land_assoc, Z.land_diag.
Qed.

Lemma aff_maxima ms :
  foldl aff_max_update [0; 0; 0; 0] ms = (fun mask => greatest mask ms) <$> aff_masks.
Proof.
  induction ms as [|m ms IH] using rev_ind; [done|]. rewrite foldl_snoc, IH. cbn [fmap list_fmap aff_masks].
  unfold aff_max_update. cbn [zip_with aff_masks]. rewrite !UPDATE_AFF_MAX_spec, !land_greatest.
  unfold greatest. by rewrite !fmap_app, !foldl_app.
Qed.

(** Each affinity field of the word is the greatest of the processors'. *)
Lemma aff_max_fields ms :
  Forall (fun mask => Z.land (aff_max_word (foldl aff_max_update [0; 0; 0; 0] ms)) mask = greatest mask ms)
    aff_masks.
Proof.
  rewrite aff_maxima. unfold aff_max_word. cbn [fmap list_fmap aff_masks foldr].
  repeat constructor; rewrite !Z.land_lor_distr_l;
    rewrite <- (land_greatest 0xff), <- (land_greatest 0xff00), <- (land_greatest 0xff0000),
      <- (land_greatest 0xff00000000), <- !Z.land_assoc; cbn [Z.land Pos.land Pos.Ndouble Pos.Nsucc_double Z.of_N];
    rewrite ?Z.land_0_r, ?Z.land_0_l, ?Z.lor_0_r, ?Z.lor_0_l; done.
Qed.

(** The table a device tree describes: the cpu nodes in the order of the tree, all with
    the one performance interrupt and the one maintenance interrupt. *)
Definition pe_of_dt (pmu gmain k mpidr : Z) (e : PE_INFO_ENTRY) : PE_INFO_ENTRY :=
  mkPE k (pe_attr e) mpidr pmu gmain.

Lemma filled_pe_of_dt pmu gmain ms L :
  filled (fun _ (_ : ()) => pe_with_gmain gmain) 0 (replicate (length ms) tt)
    (filled (fun _ (_ : ()) => pe_with_pmu pmu) 0 (replicate (length ms) tt) (filled pe_cpu 0 ms L)) =
  filled (pe_of_dt pmu gmain) 0 ms L.
Proof.
  generalize 0. revert L. induction ms as [|m ms IH]; intros [|e L] k; cbn; try done. by rewrite IH.
Qed.

Lemma wp_publish aff t w (Q : () -> PE_INFO_TABLE * world D -> Prop) :
  (forall w', (g_num_pe (g_pal w') = g_num_pe (g_pal w)) -> (gMpidrMax (g_pal w') = gMpidrMax (g_pal w)) ->
     Q tt (t, w')) ->
  wp (pe_publish aff) (t, w) Q.
Proof.
  intros HQ. unfold pe_publish. apply wp_io. dt_step. apply wp_clean. intros d1.
  dt_step. apply wp_clean. intros d2. unfold PalAllocateSecondaryStack, PalGetSecondaryStackBase.
  dt_step. dt_step. wsimpl. apply wp_if; intros _; [|dt_step; by apply HQ].
  dt_step. dt_step. dt_step. apply wp_from_dev. destruct (bs_allocate_pool _ _ _) as [[st|p] d3]; cbn [fst snd].
  - dt_step. apply wp_bsa_print. apply wp_clean. intros d4. by apply HQ.
  - unfold pal_modify. dt_steps. apply wp_clean. intros d4. by apply HQ.
Qed.

Lemma wp_dump_pe_table t w (Q : () -> PE_INFO_TABLE * world D -> Prop) :
  (Z.to_nat (num_of_pe t) <= length (pe_info t))%nat -> Q tt (t, w) -> wp dt_dump_pe_table (t, w) Q.
Proof.
  intros Hn HQ. unfold dt_dump_pe_table. dt_steps.
  apply (wp_for_each (fun _ s => s = w)); [done| |by intros s ->; dt_steps].
  intros i s Hi ->. destruct (lookup_lt_is_Some_2 (pe_info t) (Z.to_nat i)) as [e He]; [lia|].
  rewrite He. by dt_steps.
Qed.

(** C33: On a system described by a device tree whose cpu nodes have a usable "reg", with one
    node of performance interrupts (one three-cell specifier) and an interrupt controller
    whose maintenance interrupt is a PPI, the platform layer returns a table with one entry
    per cpu node, in the order of the tree: the index, the affinity of the "reg", and the
    two interrupt numbers, a PPI counted from 16 and an SPI from 32. The entries beyond are not touched,
    and the number of PEs and the affinity maxima are kept in the globals. *)
Theorem pe_table_from_dt fuel dt_ptr nodes ms a i pmu v type g gic v' len' g' L n0 (w : world D) :
  dtb_of_system_table = Some dt_ptr -> dt_ptr <> 0 -> fdt_check_header dt_ptr = 0 ->
  walks (next_cpu dt_ptr) (-1) nodes -> nodes <> [] -> Forall2 (cpu_reg dt_ptr a) nodes ms ->
  (let parent := fdt_parent_offset dt_ptr (next_cpu dt_ptr (-1)) in
   fdt_size_cells dt_ptr parent = 0 /\ fdt_address_cells dt_ptr parent = a) -> 1 <= a <= 2 ->
  (length nodes < fuel)%nat -> (length nodes <= length L)%nat -> Z.of_nat (length L) < 2 ^ 32 ->
  (exists s, pmu_dt_arr !! i = Some s /\ fdt_node_offset_by_compatible dt_ptr (-1) s = pmu) -> 0 <= pmu ->
  (forall k s, (k < i)%nat -> pmu_dt_arr !! k = Some s ->
     fdt_node_offset_by_compatible dt_ptr (-1) s < 0) -> 0 < FDT_ERR_NOTFOUND -> (i < fuel)%nat ->
  has_interrupts fuel dt_ptr pmu v 12 3 -> word_of v 0 = Some type -> cell v 1 = Some g ->
  gic_node dt_ptr = Some gic -> has_interrupts fuel dt_ptr gic v' len' 3 ->
  (exists type', word_of v' 0 = Some type' /\ type' <> 0) -> cell v' 1 = Some g' ->
  wp (build (mkPETable n0 L) (pal_pe_create_info_table_dt fuel)) w (fun t w' =>
    t = mkPETable (Z.of_nat (length ms))
          (filled (pe_of_dt (u32 (g + if truthy type then PPI_OFFSET else SPI_OFFSET))
                            (u32 (g' + PPI_OFFSET))) 0 ms L) /\
    g_num_pe (g_pal w') = Z.of_nat (length ms) /\
    Forall (fun mask => Z.land (gMpidrMax (g_pal w')) mask = greatest mask ms) aff_masks).
Proof.
  intros Hdt Hnz Hhdr Hw Hne Hr (Hsz & Ha) Ha12 Hf Hroom Hbig (s & Hs & Hpmu) Hpos Hbefore Herr Hi Hint
    Ht Hg Hgic Hint' Ht' Hg'.
  assert (Hget : forall u : world D, eval pal_get_dt_ptr u dt_ptr u) by (intros u; by apply eval_get_dt_ptr).
  pose proof (Forall2_length _ _ _ Hr) as Hlen.
  apply wp_build. unfold pal_pe_create_info_table_dt. dt_step. dt_step. eapply wp_eval; [apply Hget|].
  rewrite (proj2 (Z.eqb_neq _ _) Hnz). dt_step. unfold pe_set_num. dt_step. cbn [pe_info].
  replace (next_cpu dt_ptr (-1) =? - FDT_ERR_NOTFOUND) with false.
  2: { symmetry. apply Z.eqb_neq. destruct nodes as [|x nodes]; [done|]. by apply visits_first in Hw as [_ ?]. }
  rewrite Hsz, Ha. dt_steps. change (negb (0 =? 0)) with false. dt_steps.
  rewrite (proj2 (Z.leb_gt a 0)), Z.gtb_ltb, (proj2 (Z.ltb_ge 2 a)) by lia. cbn [orb]. dt_step.
  eapply wp_cpu_nodes; [exact Hw|exact Hr|done..| |done]. intros d. unfold pe_set_globals, pal_modify. dt_steps.
  eapply wp_pmu_single; [done..|rewrite length_filled, <- Hlen; done|]. dt_step.
  eapply wp_gmaint; [done..|rewrite !length_filled, <- Hlen; done|].
  rewrite filled_pe_of_dt. dt_step. apply wp_publish. intros w' Hn Hm.
  apply wp_dump_pe_table; [cbn [num_of_pe pe_info]; rewrite length_filled, <- Hlen; lia|].
  cbn [snd]. rewrite Hn, Hm. split; [done|]. split; [done|]. apply aff_max_fields.
Qed.
End pal_pe.

(** Three processors in two clusters, their PMU interrupt PPI 7 and a GICv3. *)
Definition cpu_node (offset : Z) (reg : list Z) : dt_node :=
  mkDtNode offset 10 "cpu" [("device_type", bytes_of "cpu"); ("reg", cells reg)].

Definition pe_tree : list dt_node :=
  [mkDtNode 0 (-1) "" [("#address-cells", cells [2]); ("#size-cells", cells [2]); ("interrupt-parent", cells [1])];
   mkDtNode 10 0 "cpus" [("#address-cells", cells [2]); ("#size-cells", cells [0])];
   cpu_node 20 [0; 0]; cpu_node 30 [0; 1]; cpu_node 40 [1; 0x100];
   mkDtNode 50 0 "pmu" [("compatible", bytes_of "arm,armv8-pmuv3"); ("interrupts", cells [1; 7; 4])];
   mkDtNode 60 0 "intc" [("compatible", bytes_of "arm,gic-v3"); ("#interrupt-cells", cells [3]);
                         ("phandle", cells [1]); ("interrupts", cells [1; 9; 4])]].

#[local] Instance pe_tree_fdt : Fdt machine := tree_fdt pe_tree.

Definition blank_pe : PE_INFO_ENTRY := mkPE 0 0 0 0 0.

Lemma eval_cells_3 (offset : Z) (u : world machine) :
  offset = 50 \/ offset = 60 -> eval (fdt_interrupt_cells 8 0x48000000 offset) u 3 u.
Proof. intros [-> | ->]; by split. Qed.

Lemma pe_table_from_dt_witness :
  wp (build (mkPETable 0 (replicate 4 blank_pe)) (pal_pe_create_info_table_dt 8)) (boot ∅ ∅) (fun t _ =>
    t = mkPETable 3 [mkPE 0 0 0 23 25; mkPE 1 0 1 23 25; mkPE 2 0 0x100000100 23 25; blank_pe]).
Proof.
  eapply wp_mono; [eapply (pe_table_from_dt 8 0x48000000 [20; 30; 40] [0; 1; 0x100000100] 2 0 50
    (cells [1; 7; 4]) 0x01000000 7 60 (cells [1; 9; 4]) 12 9 (replicate 4 blank_pe) 0)|].
  all: try on_tree.
  - repeat constructor; eexists _, _; (split; [reflexivity|]; split; [lia|reflexivity]).
  - by split.
  - by eexists.
  - intros k s Hk. lia.
  - split; [done|]. split; [done|]. split; [|lia]. intros u. apply eval_cells_3. by left.
  - split; [done|]. split; [done|]. split; [|lia]. intros u. apply eval_cells_3. by right.
  - by eexists.
  - intros t w' (-> & _). by vm_compute.
Defined.
