(* ===== verification/PalTimer.v ===== *)
(** * The platform layer: timers and watchdogs

    The tables built from the ACPI GTDT or from the device tree
    (src/platform/pal_uefi_dt/src/pal_timer_wd.c). *)

From S2P Require Import Prelude Types World Machine Fdt.
#[local] Open Scope c_scope.

Definition systimer_dt_arr : list string := ["arm,armv8-timer"; "arm,armv7-timer"].
Definition memtimer_dt_arr : list string := ["arm,armv7-timer-mem"].
Definition wd_dt_arr : list string := ["arm,sbsa-gwdt"].

(** pal_uefi.h *)
Definition TIMER_TYPE_SYS_TIMER : Z := 0x2001.

(** platform_override.h *)
Definition PLATFORM_OVERRIDE_PLATFORM_TIMER : Z := 0.
Definition PLATFORM_OVERRIDE_CNTCTL_BASE : Z := 0x2a810000.
Definition PLATFORM_OVERRIDE_CNTBASE_N : Z := 0x2a830000.
Definition PLATFORM_OVERRIDE_PLATFORM_TIMER_GSIV : Z := 58.
Definition PLATFORM_OVERRIDE_EL2_VIR_TIMER_GSIV : Z := 28.
Definition PLATFORM_OVERRIDE_WD : Z := 0.
Definition PLATFORM_OVERRIDE_WD_REFRESH_BASE : Z := 0x2A450000.
Definition PLATFORM_OVERRIDE_WD_CTRL_BASE : Z := 0x2A440000.
Definition PLATFORM_OVERRIDE_WD_GSIV : Z := 93.

(** ** Field updates *)

(** The gsivs of the EL1 timers, the virtual timer and the EL2 timer. *)
Definition hdr_with_gsivs (s ns virt el2 : Z) (h : TIMER_INFO_HDR) : TIMER_INFO_HDR :=
  mkTimerHdr (s_el1_timer_flag h) (ns_el1_timer_flag h) (el2_timer_flag h) (el2_virt_timer_flag h)
    s ns el2 (virtual_timer_flag h) virt (el2_virt_timer_gsiv h) (num_platform_timer h)
    (num_watchdog h) (sys_timer_status h).
Definition hdr_with_flags (s ns virt el2 : Z) (h : TIMER_INFO_HDR) : TIMER_INFO_HDR :=
  mkTimerHdr s ns el2 (el2_virt_timer_flag h) (s_el1_timer_gsiv h) (ns_el1_timer_gsiv h)
    (el2_timer_gsiv h) virt (virtual_timer_gsiv h) (el2_virt_timer_gsiv h) (num_platform_timer h)
    (num_watchdog h) (sys_timer_status h).
Definition hdr_with_num (n : Z) (h : TIMER_INFO_HDR) : TIMER_INFO_HDR :=
  mkTimerHdr (s_el1_timer_flag h) (ns_el1_timer_flag h) (el2_timer_flag h) (el2_virt_timer_flag h)
    (s_el1_timer_gsiv h) (ns_el1_timer_gsiv h) (el2_timer_gsiv h) (virtual_timer_flag h)
    (virtual_timer_gsiv h) (el2_virt_timer_gsiv h) n (num_watchdog h) (sys_timer_status h).
Definition hdr_with_el2_virt (gsiv flag : Z) (h : TIMER_INFO_HDR) : TIMER_INFO_HDR :=
  mkTimerHdr (s_el1_timer_flag h) (ns_el1_timer_flag h) (el2_timer_flag h) flag
    (s_el1_timer_gsiv h) (ns_el1_timer_gsiv h) (el2_timer_gsiv h) (virtual_timer_flag h)
    (virtual_timer_gsiv h) gsiv (num_platform_timer h) (num_watchdog h) (sys_timer_status h).

Definition gt_with_count (n : Z) (g : TIMER_INFO_GTBLOCK) : TIMER_INFO_GTBLOCK :=
  mkGt (gt_type g) n (gt_block_cntl_base g) (gt_frame_num g) (gt_GtCntBase g) (gt_GtCntEl0Base g)
    (gt_gsiv g) (gt_virt_gsiv g) (gt_flags g).
Definition gt_with_base (base : Z) (g : TIMER_INFO_GTBLOCK) : TIMER_INFO_GTBLOCK :=
  mkGt (gt_type g) (gt_timer_count g) base (gt_frame_num g) (gt_GtCntBase g) (gt_GtCntEl0Base g)
    (gt_gsiv g) (gt_virt_gsiv g) (gt_flags g).
Definition gt_with_type (type : Z) (g : TIMER_INFO_GTBLOCK) : TIMER_INFO_GTBLOCK :=
  mkGt type (gt_timer_count g) (gt_block_cntl_base g) (gt_frame_num g) (gt_GtCntBase g)
    (gt_GtCntEl0Base g) (gt_gsiv g) (gt_virt_gsiv g) (gt_flags g).

(** What is recorded of one frame of a block: the arrays have one element per frame. *)
Record gt_frame := mkFrame {
  f_num : Z; f_base : Z; f_el0 : Z; f_gsiv : Z; f_virt : Z; f_flags : Z }.

(** Frame [k] of a block, written in every array. *)
Definition gt_with_frame (k : Z) (f : gt_frame) (g : TIMER_INFO_GTBLOCK) : option TIMER_INFO_GTBLOCK :=
  n ← at_entry k (fun _ => f_num f) (gt_frame_num g);
  b ← at_entry k (fun _ => f_base f) (gt_GtCntBase g);
  e ← at_entry k (fun _ => f_el0 f) (gt_GtCntEl0Base g);
  s ← at_entry k (fun _ => f_gsiv f) (gt_gsiv g);
  v ← at_entry k (fun _ => f_virt f) (gt_virt_gsiv g);
  l ← at_entry k (fun _ => f_flags f) (gt_flags g);
  Some (mkGt (gt_type g) (gt_timer_count g) (gt_block_cntl_base g) n b e s v l).

Section pal_timer.
Context {D : Type} `{Platform D} `{SystemTable D} `{Acpi D} `{Fdt D}.

#[local] Abbreviation B := (Prelude.M (TIMER_INFO_TABLE * world D)).

Definition timer_hdr (f : TIMER_INFO_HDR -> TIMER_INFO_HDR) : B () :=
  edit (fun t => mkTimerTable (f (timer_header t)) (gt_info t)).

(** Block [k] of the table, updated; an update may be out of the arrays of the block. *)
Definition gt_entry_opt (k : Z) (f : TIMER_INFO_GTBLOCK -> option TIMER_INFO_GTBLOCK) : B () :=
  edit_at (fun t => g ← gt_info t !! Z.to_nat k;
                    g' ← f g;
                    Some (mkTimerTable (timer_header t) (<[Z.to_nat k := g']> (gt_info t)))).
Definition gt_entry (k : Z) (f : TIMER_INFO_GTBLOCK -> TIMER_INFO_GTBLOCK) : B () :=
  gt_entry_opt k (fun g => Some (f g)).

Definition gt_at (k : Z) : B TIMER_INFO_GTBLOCK :=
  let* t := table in need (gt_info t !! Z.to_nat k).

Definition pal_timer_platform_override : B () :=
  (when truthy PLATFORM_OVERRIDE_PLATFORM_TIMER then
    (timer_hdr (hdr_with_num 1) ;;
     gt_entry 0 (gt_with_base PLATFORM_OVERRIDE_CNTCTL_BASE) ;;
     gt_entry 0 (gt_with_count 1) ;;
     gt_entry_opt 0 (fun g =>
       b ← at_entry 0 (fun _ => PLATFORM_OVERRIDE_CNTBASE_N) (gt_GtCntBase g);
       s ← at_entry 0 (fun _ => PLATFORM_OVERRIDE_PLATFORM_TIMER_GSIV) (gt_gsiv g);
       Some (mkGt (gt_type g) (gt_timer_count g) (gt_block_cntl_base g) (gt_frame_num g) b
               (gt_GtCntEl0Base g) s (gt_virt_gsiv g) (gt_flags g))))) ;;
  (when truthy PLATFORM_OVERRIDE_EL2_VIR_TIMER_GSIV then
     timer_hdr (fun h => hdr_with_el2_virt PLATFORM_OVERRIDE_EL2_VIR_TIMER_GSIV (el2_virt_timer_flag h) h)).

Definition dt_dump_timer_table : B () :=
  let* t := table in
  let h := timer_header t in
  let p fmt v := bsa_print ACS_PRINT_DEBUG fmt v in
  io (p "************TIMER TABLE************ \n" 0 ;;
      p " Num of system timers %d \n" (num_platform_timer h) ;;
      p " s_el1_timer_flag %x \n" (s_el1_timer_flag h) ;;
      p " ns_el1_timer_flag %x \n" (ns_el1_timer_flag h) ;;
      p " el2_timer_flag %x \n" (el2_timer_flag h) ;;
      p " el2_virt_timer_flag %x \n" (el2_virt_timer_flag h) ;;
      p " s_el1_timer_gsiv %x \n" (s_el1_timer_gsiv h) ;;
      p " ns_el1_timer_gsiv %x \n" (ns_el1_timer_gsiv h) ;;
      p " el2_timer_gsiv %x \n" (el2_timer_gsiv h) ;;
      p " virtual_timer_flag %x \n" (virtual_timer_flag h) ;;
      p " virtual_timer_gsiv %x \n" (virtual_timer_gsiv h) ;;
      p " el2_virt_timer_gsiv %x \n" (el2_virt_timer_gsiv h) ;;
      let* g := need (gt_info t !! 0%nat) in
      p " CNTBase             %x\n" (gt_block_cntl_base g) ;;
      for_each (Z.to_nat (gt_timer_count g)) 0 (fun Index =>
        let col l := need (l !! Z.to_nat Index) in
        let* n := col (gt_frame_num g) in p " TIMER Frame num :%x\n" n ;;
        let* b := col (gt_GtCntBase g) in p "     GtCntBase   :%x\n" b ;;
        let* e := col (gt_GtCntEl0Base g) in p "     GtCntEl0Base:%x\n" e ;;
        let* s := col (gt_gsiv g) in p "       gsiv      :%x\n" s ;;
        let* v := col (gt_virt_gsiv g) in p "       virt_gsiv :%x\n" v ;;
        let* l := col (gt_flags g) in p "       flags     :%x\n" l) ;;
      p "************************************* \n\n" 0).

(** [for (...) { offset = ...; if (offset >= 0) break; }] *)
Definition find_timer (dt_ptr : Z) (arr : list string) : option Z :=
  List.find (fun offset => 0 <=? offset)
    ((fun s => fdt_node_offset_by_compatible dt_ptr (-1) s) <$> arr).

(** One of the four specifiers of three cells: [index] moves past the type, past the
    number only when the type is PPI, and past the flag. *)
Definition timer_ppi (Pintr : list Z) (index dflt : Z) : option (Z * Z) :=
  type ← cell Pintr index;
  if type =? GIC_PPI then
    v ← cell Pintr (index + 1); Some (u32 (v + PPI_OFFSET), index + 3)
  else Some (dflt, index + 2).

(** The four interrupts of the system timer, in the order of the specifiers. *)
Definition timer_gsivs (Pintr : list Z) (interrupt_cell : Z) (h : TIMER_INFO_HDR)
  : option (TIMER_INFO_HDR) :=
  if interrupt_cell =? 3 then
    '(s, i) ← timer_ppi Pintr 0 (s_el1_timer_gsiv h);
    '(ns, i) ← timer_ppi Pintr i (ns_el1_timer_gsiv h);
    '(virt, i) ← timer_ppi Pintr i (virtual_timer_gsiv h);
    '(el2, _) ← timer_ppi Pintr i (el2_timer_gsiv h);
    Some (hdr_with_gsivs s ns virt el2 h)
  else
    s ← cell Pintr 0;
    ns ← cell Pintr interrupt_cell;
    virt ← cell Pintr (2 * interrupt_cell);
    el2 ← cell Pintr (3 * interrupt_cell);
    Some (hdr_with_gsivs s ns virt el2 h).

(** The interrupts of a timer frame: the physical one and, when the property is longer
    than one specifier, the virtual one. *)
Definition frame_spi (Pintr : list Z) (k : Z) : option Z :=
  type ← cell Pintr k;
  if type =? GIC_SPI then v ← cell Pintr (k + 1); Some (u32 (v + SPI_OFFSET)) else Some 0.

(** In a three-cell specifier that is not an SPI the number is not skipped. *)
Definition frame_gsivs (Pintr : list Z) (prop_len interrupt_cell : Z) : option (Z * Z) :=
  if interrupt_cell =? 3 then
    type ← cell Pintr 0;
    gsiv ← frame_spi Pintr 0;
    let index := if type =? GIC_SPI then 3 else 2 in
    virt ← (if prop_len / 4 >? interrupt_cell then frame_spi Pintr index else Some 0);
    Some (gsiv, virt)
  else
    gsiv ← cell Pintr 0;
    virt ← (if prop_len / 4 >? interrupt_cell then cell Pintr interrupt_cell else Some 0);
    Some (gsiv, virt).

(** One "frame" subnode of the memory-mapped timer. *)
Definition timer_frame_node (fuel : nat) (dt_ptr addr_cell subnode_offset : Z) (_ : ())
  : B (ctl (Z * ()) ()) :=
  let* frame_number := need (fdt_frame_number dt_ptr subnode_offset) in
  io (bsa_print ACS_PRINT_DEBUG "Frame number is  %d \n" frame_number) ;;
  let '(p, prop_len) := fdt_getprop_namelen dt_ptr subnode_offset "reg" 3 in
  match prop_value (p, prop_len) with
  | None =>
      io (bsa_print ACS_PRINT_ERR " PROPERTY REG offset %x, Error %d\n" prop_len) ;;
      ret (Break tt)
  | Some Preg =>
      let '(p, prop_len) := fdt_getprop_namelen dt_ptr subnode_offset "interrupts" 10 in
      match prop_value (p, prop_len) with
      | None =>
          io (bsa_print ACS_PRINT_ERR " PROPERTY interrupts offset %x, Error %d\n" prop_len) ;;
          ret (Break tt)
      | Some Pintr =>
          let* interrupt_cell := io (fdt_interrupt_cells fuel dt_ptr subnode_offset) in
          io (bsa_print ACS_PRINT_DEBUG " interrupt_cell for subnode  %d\n" interrupt_cell) ;;
          if (interrupt_cell <? 1) || (interrupt_cell >? 3) then
            io (bsa_print ACS_PRINT_ERR " Invalid interrupt cell subnode: %d \n" interrupt_cell) ;;
            ret (Break tt)
          else
            let* base := need (cells_value addr_cell Preg 0) in
            let* '(gsiv, virt) := need (frame_gsivs Pintr prop_len interrupt_cell) in
            let* g := gt_at 0 in
            let k := gt_timer_count g in
            gt_entry_opt 0 (gt_with_frame k (mkFrame (u8 frame_number) base 0 gsiv virt 0)) ;;
            gt_entry 0 (gt_with_count (u32 (k + 1))) ;;
            let subnode_offset := fdt_next_subnode dt_ptr subnode_offset in
            io (bsa_print ACS_PRINT_DEBUG " timer-mem-fram next node offset %d \n" subnode_offset) ;;
            ret (Continue (subnode_offset, tt))
      end
  end.

(** The memory-mapped timer [offset]: its control base and its frames. *)
Definition timer_mem_node (fuel : nat) (dt_ptr offset : Z) : B () :=
  let parent_offset := fdt_parent_offset dt_ptr offset in
  io (bsa_print ACS_PRINT_DEBUG " Parent Node offset %d\n" offset) ;;
  let size_cell := fdt_size_cells dt_ptr parent_offset in
  io (bsa_print ACS_PRINT_DEBUG " size cell %d\n" size_cell) ;;
  if size_cell <? 0 then io (bsa_print ACS_PRINT_ERR " Invalid size cell :%d\n" size_cell)
  else
  let addr_cell := fdt_address_cells dt_ptr parent_offset in
  io (bsa_print ACS_PRINT_DEBUG " addr cell %d\n" addr_cell) ;;
  if (addr_cell <? 1) || (addr_cell >? 2) then
    io (bsa_print ACS_PRINT_ERR " Invalid address cell : %d \n" addr_cell)
  else
  let '(p, prop_len) := fdt_getprop_namelen dt_ptr offset "reg" 3 in
  match prop_value (p, prop_len) with
  | None => io (bsa_print ACS_PRINT_ERR " PROPERTY REG offset %x, Error %d\n" prop_len)
  | Some Preg =>
      gt_entry 0 (gt_with_type TIMER_TYPE_SYS_TIMER) ;;
      let* base := need (cells_value addr_cell Preg 0) in
      gt_entry 0 (gt_with_base base) ;;
      let size_cell := fdt_size_cells dt_ptr offset in
      io (bsa_print ACS_PRINT_DEBUG " size cell %d\n" size_cell) ;;
      if size_cell <? 0 then
        io (bsa_print ACS_PRINT_ERR " Invalid size cell for timer node :%d\n" size_cell)
      else
      let addr_cell := fdt_address_cells dt_ptr offset in
      io (bsa_print ACS_PRINT_DEBUG " addr cell %d\n" addr_cell) ;;
      if (addr_cell <? 1) || (addr_cell >? 2) then
        io (bsa_print ACS_PRINT_ERR " Invalid address cell for timer node: %d \n" addr_cell)
      else
      let subnode_offset := fdt_subnode_offset dt_ptr offset "frame" in
      if subnode_offset <? 0 then
        io (bsa_print ACS_PRINT_DEBUG "frame node offset not found %d \n" subnode_offset)
      else
        let* r := while_node fuel (timer_frame_node fuel dt_ptr addr_cell) subnode_offset tt in
        match r with
        | Break _ => ret tt
        | Continue _ =>
            let* g := gt_at 0 in
            io (bsa_print ACS_PRINT_DEBUG " GT block timer count %d \n" (gt_timer_count g)) ;;
            timer_hdr (hdr_with_num (gt_timer_count g)) ;;
            dt_dump_timer_table
        end
  end.

Definition pal_timer_create_info_table_dt (fuel : nat) : B () :=
  let* dt_ptr := io pal_get_dt_ptr in
  if dt_ptr =? 0 then io (bsa_print ACS_PRINT_ERR "dt_ptr is NULL \n" 0)
  else
    timer_hdr (hdr_with_num 0) ;;
    gt_entry 0 (gt_with_count 0) ;;
    timer_hdr (fun h => hdr_with_el2_virt 0 0 (hdr_with_flags 0 0 0 0 (hdr_with_gsivs 0 0 0 0 h))) ;;
    match find_timer dt_ptr systimer_dt_arr with
    | None => io (bsa_print ACS_PRINT_ERR " timer node offset not found \n" 0)
    | Some offset =>
        let* interrupt_cell := io (fdt_interrupt_cells fuel dt_ptr offset) in
        io (bsa_print ACS_PRINT_DEBUG " interrupt_cell  %d\n" interrupt_cell) ;;
        if (interrupt_cell <? 1) || (interrupt_cell >? 3) then
          io (bsa_print ACS_PRINT_ERR " Invalid interrupt cell : %d \n" interrupt_cell)
        else
        let '(p, prop_len) := fdt_getprop_namelen dt_ptr offset "interrupts" 10 in
        match prop_value (p, prop_len) with
        | None => io (bsa_print ACS_PRINT_ERR " PROPERTY interrupts offset %x, Error %d\n" prop_len)
        | Some Pintr =>
            let* t := table in
            let* h := need (timer_gsivs Pintr interrupt_cell (timer_header t)) in
            timer_hdr (fun _ => h) ;;
            match fst (fdt_getprop_namelen dt_ptr offset "always-on" 9) with
            | Some _ =>
                timer_hdr (hdr_with_flags BSA_TIMER_FLAG_ALWAYS_ON BSA_TIMER_FLAG_ALWAYS_ON
                             BSA_TIMER_FLAG_ALWAYS_ON BSA_TIMER_FLAG_ALWAYS_ON)
            | None => io (bsa_print ACS_PRINT_DEBUG " PROPERTY always-on not found\n" 0)
            end ;;
            match find_timer dt_ptr memtimer_dt_arr with
            | None => io (bsa_print ACS_PRINT_ERR " MEM timer node offset not found \n" 0)
            | Some offset => timer_mem_node fuel dt_ptr offset
            end
        end
    end.

(** *** ACPI *)

(** Timer [i] of a block structure whose timers are at [GtBlockTimer]. *)
Definition gtdt_frame (GtBlockTimer i : Z) : gt_frame :=
  let ts f := acpi_field ("EFI_ACPI_6_1_GTDT_GT_BLOCK_TIMER_STRUCTURE." ++ f)%string
                (GtBlockTimer + i * acpi_sizeof "EFI_ACPI_6_1_GTDT_GT_BLOCK_TIMER_STRUCTURE") in
  mkFrame (u8 (ts "GTFrameNumber")) (ts "CntBaseX") (ts "CntEL0BaseX")
    (ts "GTxPhysicalTimerGSIV") (ts "GTxVirtualTimerGSIV")
    (u32 (Z.lor (Z.lor (ts "GTxPhysicalTimerFlags") (Z.shiftl (ts "GTxVirtualTimerFlags") 8))
            (Z.shiftl (ts "GTxCommonFlags") 16))).

(** They are copied to block [k] of the table. *)
Definition gtdt_block_timers (k GtBlockTimer : Z) : B () :=
  let* g := gt_at k in
  for_each (Z.to_nat (gt_timer_count g)) 0 (fun i =>
    io (bsa_print ACS_PRINT_INFO "Found timer entry \n" 0) ;;
    gt_entry_opt k (gt_with_frame i (gtdt_frame GtBlockTimer i)) ;;
    io (bsa_print ACS_PRINT_DEBUG "CNTBaseN = %x for sys counter = %d\n" (f_base (gtdt_frame GtBlockTimer i))) ;;
    let* t := table in
    timer_hdr (hdr_with_num (u32 (num_platform_timer (timer_header t) + 1)))).

Definition gt_block_field (f : string) : Z -> Z := acpi_field ("EFI_ACPI_6_1_GTDT_GT_BLOCK_STRUCTURE." ++ f)%string.

(** A platform timer structure: a block is copied to entry [GtEntry]. *)
Definition gtdt_block (Entry GtEntry : Z) : B Z :=
  if gt_block_field "Type" Entry =? acpi_const "EFI_ACPI_6_1_GTDT_GT_BLOCK" then
    io (bsa_print ACS_PRINT_INFO "Found block entry \n" 0) ;;
    gt_entry GtEntry (fun g => gt_with_count (gt_block_field "GTBlockTimerCount" Entry)
      (gt_with_base (gt_block_field "CntCtlBase" Entry) (gt_with_type TIMER_TYPE_SYS_TIMER g))) ;;
    io (bsa_print ACS_PRINT_DEBUG "CNTCTLBase = %x \n" (gt_block_field "CntCtlBase" Entry)) ;;
    gtdt_block_timers GtEntry (Entry + gt_block_field "GTBlockTimerOffset" Entry) ;;
    ret (GtEntry + 1)
  else ret GtEntry.

(** The interrupts and flags of the processor timers. *)
Definition gtdt_header (gGtdtHdr : Z) (h : TIMER_INFO_HDR) : TIMER_INFO_HDR :=
  let gtdt f := gtdt_field f gGtdtHdr in
  hdr_with_gsivs (gtdt "SecurePL1TimerGSIV") (gtdt "NonSecurePL1TimerGSIV")
    (gtdt "VirtualTimerGSIV") (gtdt "NonSecurePL2TimerGSIV")
    (hdr_with_flags (gtdt "SecurePL1TimerFlags") (gtdt "NonSecurePL1TimerFlags")
       (gtdt "VirtualTimerFlags") (gtdt "NonSecurePL2TimerFlags") h).

Definition pal_timer_from_gtdt (gGtdtHdr : Z) : B () :=
  io (bsa_print ACS_PRINT_INFO " GTDT is at %x and length is %x \n" gGtdtHdr) ;;
  timer_hdr (gtdt_header gGtdtHdr) ;;
  gtdt_walk (gt_block_field "Length") gGtdtHdr gtdt_block 0 ;;
  pal_timer_platform_override.

(** The platform timer structures of the GTDT: each is visited, the block structures are
    copied. The fuel is for the device tree. *)
Definition pal_timer_create_info_table (fuel : nat) : B () :=
  timer_hdr (hdr_with_num 0) ;;
  let* gGtdtHdr := io pal_get_gtdt_ptr in
  if gGtdtHdr =? 0 then
    io (bsa_print ACS_PRINT_DEBUG "GTDT not found & Searching for DT\n" 0) ;;
    pal_timer_create_info_table_dt fuel
  else pal_timer_from_gtdt gGtdtHdr.

(** ** Proofs *)

Lemma wp_gt_entry_opt k f g g' h gs w (Q : () -> TIMER_INFO_TABLE * world D -> Prop) :
  gs !! Z.to_nat k = Some g -> f g = Some g' ->
  Q tt (mkTimerTable h (<[Z.to_nat k := g']> gs), w) ->
  wp (gt_entry_opt k f) (mkTimerTable h gs, w) Q.
Proof.
  intros Hg Hf HQ. unfold gt_entry_opt. eapply wp_edit_at; [|exact HQ]. cbn. rewrite Hg. cbn. by rewrite Hf.
Qed.

Lemma wp_gt_0 f g g' h gs w (Q : () -> TIMER_INFO_TABLE * world D -> Prop) :
  f g = Some g' -> Q tt (mkTimerTable h (g' :: gs), w) ->
  wp (gt_entry_opt 0 f) (mkTimerTable h (g :: gs), w) Q.
Proof. intros Hf HQ. by apply (wp_gt_entry_opt 0 f g g'). Qed.

(** What the tree says of a frame of the memory-mapped timer; [frame_gsivs] are its
    interrupts. *)
Definition frame_node_ok (fuel : nat) (dt_ptr addr_cell x : Z) (f : gt_frame) : Prop :=
  exists n v len v' len' c base gsiv virt,
    fdt_frame_number dt_ptr x = Some n /\
    fdt_getprop_namelen dt_ptr x "reg" 3 = (Some v, len) /\ 0 <= len /\
    cells_value addr_cell v 0 = Some base /\ has_interrupts fuel dt_ptr x v' len' c /\
    frame_gsivs v' len' c = Some (gsiv, virt) /\ f = mkFrame (u8 n) base 0 gsiv virt 0.

(** Block [g] with the frames [fs] in its arrays. *)
Definition gt_filled (fs : list gt_frame) (g : TIMER_INFO_GTBLOCK) : TIMER_INFO_GTBLOCK :=
  let col p := filled (fun _ f (_ : Z) => p f) 0 fs in
  mkGt (gt_type g) (Z.of_nat (length fs)) (gt_block_cntl_base g) (col f_num (gt_frame_num g))
    (col f_base (gt_GtCntBase g)) (col f_el0 (gt_GtCntEl0Base g)) (col f_gsiv (gt_gsiv g))
    (col f_virt (gt_virt_gsiv g)) (col f_flags (gt_flags g)).

(** The arrays of a block have room for [n] frames. *)
Definition gt_room (n : nat) (g : TIMER_INFO_GTBLOCK) : Prop :=
  Forall (fun l : list Z => (n <= length l)%nat)
    [gt_frame_num g; gt_GtCntBase g; gt_GtCntEl0Base g; gt_gsiv g; gt_virt_gsiv g; gt_flags g].

Lemma gt_with_frame_filled fs f g :
  gt_room (S (length fs)) g ->
  gt_with_frame (Z.of_nat (length fs)) f (gt_filled fs g) =
  Some (gt_with_count (Z.of_nat (length fs)) (gt_filled (fs ++ [f]) g)).
Proof.
  intros Hr. unfold gt_room in Hr. rewrite !Forall_cons in Hr.
  destruct Hr as (R1 & R2 & R3 & R4 & R5 & R6 & _).
  unfold gt_with_frame, gt_filled. cbn [gt_frame_num gt_GtCntBase gt_GtCntEl0Base gt_gsiv gt_virt_gsiv gt_flags].
  repeat (rewrite (at_entry_filled _ _ fs f); [|done|lia|done]; cbn [mbind option_bind]). done.
Qed.

Lemma wp_frame_node fuel dt_ptr a x f fs g h gs w
    (Q : ctl (Z * ()) () -> TIMER_INFO_TABLE * world D -> Prop) :
  frame_node_ok fuel dt_ptr a x f -> gt_room (S (length fs)) g -> Z.of_nat (S (length fs)) < 2 ^ 32 ->
  Q (Continue (fdt_next_subnode dt_ptr x, tt)) (mkTimerTable h (gt_filled (fs ++ [f]) g :: gs), w) ->
  wp (timer_frame_node fuel dt_ptr a x tt) (mkTimerTable h (gt_filled fs g :: gs), w) Q.
Proof.
  intros (n & v & len & v' & len' & c & base & gsiv & virt & Hn & Hp & Hl & Hb & Hint & Hg & ->) Hr Hsz HQ.
  unfold timer_frame_node, prop_value. rewrite Hn, Hp. destruct Hint as (Hp' & Hl' & Hc & Hc3).
  dt_steps. cbn [fst snd]. rewrite (proj2 (Z.ltb_ge _ _) Hl). dt_steps. rewrite Hp'. cbn [fst snd].
  rewrite (proj2 (Z.ltb_ge _ _) Hl'). dt_steps. eapply wp_eval; [apply Hc|]. dt_steps.
  rewrite (proj2 (Z.ltb_ge c 1)), Z.gtb_ltb, (proj2 (Z.ltb_ge 3 c)) by lia. cbn [orb].
  rewrite Hb. dt_steps. rewrite Hg. dt_steps. unfold gt_at. dt_steps.
  change (gt_info (mkTimerTable h (gt_filled fs g :: gs)) !! Z.to_nat 0) with (Some (gt_filled fs g)).
  dt_steps. eapply wp_gt_0; [by apply gt_with_frame_filled|]. dt_steps.
  eapply wp_gt_0; [reflexivity|]. dt_steps.
  replace (u32 (gt_timer_count (gt_filled fs g) + 1)) with (Z.of_nat (length (fs ++ [mkFrame (u8 n) base 0 gsiv virt 0]))).
  2: { cbn [gt_timer_count gt_filled]. rewrite length_app. cbn [length]. rewrite u32_id; unfold fits; lia. }
  exact HQ.
Qed.

Lemma wp_dump_timer_table h g gs w (Q : () -> TIMER_INFO_TABLE * world D -> Prop) :
  gt_room (Z.to_nat (gt_timer_count g)) g -> Q tt (mkTimerTable h (g :: gs), w) ->
  wp dt_dump_timer_table (mkTimerTable h (g :: gs), w) Q.
Proof.
  intros Hr HQ. unfold gt_room in Hr. rewrite !Forall_cons in Hr.
  destruct Hr as (R1 & R2 & R3 & R4 & R5 & R6 & _). unfold dt_dump_timer_table. dt_steps.
  change (gt_info (mkTimerTable h (g :: gs)) !! 0%nat) with (Some g). dt_steps.
  apply (wp_for_each (fun _ s => s = w)); [done| |by intros s ->; dt_steps].
  intros i s Hi ->.
  repeat match goal with
  | R : (_ <= length ?l)%nat |- context [need (?l !! Z.to_nat i)] =>
      destruct (lookup_lt_is_Some_2 l (Z.to_nat i)) as [? ->]; [lia|]; dt_steps
  end. done.
Qed.

Lemma timer_ppi_ppi v k x dflt :
  cell v k = Some GIC_PPI -> cell v (k + 1) = Some x -> timer_ppi v k dflt = Some (u32 (x + 16), k + 3).
Proof. intros Ht Hx. unfold timer_ppi. rewrite Ht. cbn [mbind option_bind]. by rewrite Hx. Qed.

(** Four three-cell specifiers, all of them PPIs. *)
Lemma timer_gsivs_ppi v s ns virt el2 h :
  cell v <$> [0; 3; 6; 9] = replicate 4 (Some GIC_PPI) ->
  cell v <$> [1; 4; 7; 10] = Some <$> [s; ns; virt; el2] ->
  timer_gsivs v 3 h =
  Some (hdr_with_gsivs (u32 (s + 16)) (u32 (ns + 16)) (u32 (virt + 16)) (u32 (el2 + 16)) h).
Proof.
  cbn [fmap list_fmap replicate]. intros Htypes Hnums.
  injection Htypes as T0 T3 T6 T9. injection Hnums as N1 N4 N7 N10.
  unfold timer_gsivs. change (3 =? 3) with true. cbn iota.
  rewrite (timer_ppi_ppi v 0 s) by done. cbn [mbind option_bind].
  rewrite (timer_ppi_ppi v (0 + 3) ns) by done. cbn [mbind option_bind].
  rewrite (timer_ppi_ppi v (0 + 3 + 3) virt) by done. cbn [mbind option_bind].
  by rewrite (timer_ppi_ppi v (0 + 3 + 3 + 3) el2).
Qed.

(** The timer table built from a device tree whose system timer has four three-cell PPI
    specifiers and whose memory-mapped timer has frames: the interrupts of the header are
    those of the specifiers, in the order secure EL1, non-secure EL1, virtual, EL2, and block
    0 holds the control base and one element per frame in each of its arrays, in the order
    of the tree; the platform timers counted are the frames. *)
Theorem timer_table_from_dt fuel dt_ptr timer v len s ns virt el2 mem vm lenm base ac nodes fs h g gs
    (w : world D) :
  dtb_of_system_table = Some dt_ptr -> dt_ptr <> 0 -> fdt_check_header dt_ptr = 0 ->
  find_timer dt_ptr systimer_dt_arr = Some timer -> has_interrupts fuel dt_ptr timer v len 3 ->
  cell v <$> [0; 3; 6; 9] = replicate 4 (Some GIC_PPI) ->
  cell v <$> [1; 4; 7; 10] = Some <$> [s; ns; virt; el2] ->
  find_timer dt_ptr memtimer_dt_arr = Some mem ->
  (let parent := fdt_parent_offset dt_ptr mem in
   0 <= fdt_size_cells dt_ptr parent /\ fdt_address_cells dt_ptr parent = ac) -> 1 <= ac <= 2 ->
  fdt_getprop_namelen dt_ptr mem "reg" 3 = (Some vm, lenm) -> 0 <= lenm -> cells_value ac vm 0 = Some base ->
  0 <= fdt_size_cells dt_ptr mem -> 1 <= fdt_address_cells dt_ptr mem <= 2 ->
  visits (fdt_next_subnode dt_ptr) (fdt_subnode_offset dt_ptr mem "frame") nodes ->
  0 <= fdt_subnode_offset dt_ptr mem "frame" ->
  Forall2 (frame_node_ok fuel dt_ptr (fdt_address_cells dt_ptr mem)) nodes fs ->
  (length nodes < fuel)%nat -> gt_room (length nodes) g -> Z.of_nat (length nodes) < 2 ^ 32 ->
  let always := match fst (fdt_getprop_namelen dt_ptr timer "always-on" 9) with
                | Some _ => BSA_TIMER_FLAG_ALWAYS_ON | None => 0 end in
  wp (build (mkTimerTable h (g :: gs)) (pal_timer_create_info_table_dt fuel)) w (fun t w' => w' = w /\
    t = mkTimerTable
      (hdr_with_num (Z.of_nat (length fs)) (hdr_with_el2_virt 0 0 (hdr_with_flags always always always always
        (hdr_with_gsivs (u32 (s + 16)) (u32 (ns + 16)) (u32 (virt + 16)) (u32 (el2 + 16)) h))))
      (gt_filled fs (gt_with_base base (gt_with_type TIMER_TYPE_SYS_TIMER g)) :: gs)).
Proof.
  intros Hdt Hnz Hhdr Ht Hint Htypes Hnums Hm (Hsz & Hac) Hac12 Hp Hl Hbase Hsz' Hac' Hw Hpos Hfs Hf Hr Hbig always.
  pose proof (Forall2_length _ _ _ Hfs) as Hlen. destruct Hint as (Hpi & Hli & Hc & _).
  apply wp_build. unfold pal_timer_create_info_table_dt, timer_hdr. dt_step. dt_step.
  eapply wp_eval; [by apply eval_get_dt_ptr|]. rewrite (proj2 (Z.eqb_neq _ _) Hnz). dt_steps.
  eapply wp_gt_0; [reflexivity|]. dt_steps. rewrite Ht. dt_steps. eapply wp_eval; [apply Hc|]. dt_steps.
  change (3 <? 1) with false. change (3 >? 3) with false. cbn [orb]. unfold prop_value. rewrite Hpi. cbn [fst snd].
  rewrite (proj2 (Z.ltb_ge _ _) Hli). dt_steps.
  rewrite (timer_gsivs_ppi v s ns virt el2) by done. dt_steps.
  match goal with |- wp _ (?t0, _) _ => apply (wp_mono _ _ (fun _ st => st =
    (mkTimerTable (hdr_with_flags always always always always (timer_header t0)) (gt_info t0), w))) end.
  { unfold always. destruct (fst (fdt_getprop_namelen dt_ptr timer "always-on" 9)); by dt_steps. }
  intros _ st ->. cbn [timer_header gt_info]. rewrite Hm. unfold timer_mem_node. dt_steps.
  rewrite (proj2 (Z.ltb_ge _ _) Hsz). dt_steps. rewrite Hac.
  rewrite (proj2 (Z.ltb_ge ac 1)), Z.gtb_ltb, (proj2 (Z.ltb_ge 2 ac)) by lia. cbn [orb].
  unfold prop_value. rewrite Hp. cbn [fst snd]. rewrite (proj2 (Z.ltb_ge _ _) Hl). dt_steps.
  eapply wp_gt_0; [reflexivity|]. rewrite Hbase. dt_steps. eapply wp_gt_0; [reflexivity|]. dt_steps.
  rewrite (proj2 (Z.ltb_ge _ _) Hsz'). dt_steps.
  rewrite (proj2 (Z.ltb_ge (fdt_address_cells dt_ptr mem) 1)), Z.gtb_ltb,
    (proj2 (Z.ltb_ge 2 (fdt_address_cells dt_ptr mem))) by lia. cbn [orb].
  rewrite (proj2 (Z.ltb_ge _ _) Hpos). dt_step.
  set (g1 := gt_with_base base (gt_with_type TIMER_TYPE_SYS_TIMER g)).
  match goal with |- wp _ (mkTimerTable ?h0 _, _) _ => set (h1 := h0) end.
  apply (wp_while_node (fdt_next_subnode dt_ptr) nodes (fun i a st =>
    st = (mkTimerTable h1 (gt_filled (take i fs) g1 :: gs), w)) fuel); [exact Hw|done| | |].
  - by destruct g.
  - intros i x [] st Hx ->. destruct (Forall2_lookup_l _ _ _ _ _ Hfs Hx) as (f & Hfi & Hok).
    pose proof (lookup_lt_Some _ _ _ Hfi) as Hi.
    assert (Hti : length (take i fs) = i) by (rewrite length_take; lia).
    eapply wp_frame_node; [exact Hok| | |]; rewrite ?Hti; [|lia|].
    + unfold gt_room in *. eapply Forall_impl; [exact Hr|]. cbv beta. intros l Hle. lia.
    + eexists. split; [done|]. by rewrite (take_S_r fs i f Hfi).
  - intros [] st ->. rewrite take_ge by lia. unfold gt_at. dt_steps.
    change (gt_info (mkTimerTable h1 (gt_filled fs g1 :: gs)) !! Z.to_nat 0) with (Some (gt_filled fs g1)). dt_steps.
    cbn [timer_header gt_info]. apply wp_dump_timer_table; [|done].
    cbn [gt_timer_count gt_filled]. rewrite Nat2Z.id, <- Hlen. unfold gt_room in *.
    rewrite !Forall_cons in Hr |- *. cbn [gt_filled gt_frame_num gt_GtCntBase gt_GtCntEl0Base gt_gsiv gt_virt_gsiv gt_flags g1
      gt_with_base gt_with_type]. by rewrite !length_filled.
Qed.
End pal_timer.

(** ** Watchdogs *)

Section pal_wd.
Context {D : Type} `{Platform D} `{SystemTable D} `{Acpi D} `{Fdt D}.

#[local] Abbreviation B := (Prelude.M (WD_INFO_TABLE * world D)).

Definition wd_edit (k : Z) (f : WD_INFO_BLOCK -> WD_INFO_BLOCK) : B () :=
  edit_at (fun t => mkWdTable (num_wd t) <$> at_entry k f (wd_info t)).
Definition wd_set_num (n : Z) : B () := edit (fun t => mkWdTable n (wd_info t)).

Definition pal_wd_platform_override : B () :=
  when PLATFORM_OVERRIDE_WD =? 1 then
    (wd_set_num 1 ;;
     wd_edit 0 (fun _ => mkWd PLATFORM_OVERRIDE_WD_CTRL_BASE PLATFORM_OVERRIDE_WD_REFRESH_BASE
                            PLATFORM_OVERRIDE_WD_GSIV 0)).

Definition dt_dump_wd_table : B () :=
  let* t := table in
  io (bsa_print ACS_PRINT_DEBUG "************WD TABLE************ \n" 0 ;;
      bsa_print ACS_PRINT_DEBUG " NUM WD %d \n" (num_wd t) ;;
      for_each (Z.to_nat (num_wd t)) 0 (fun Index =>
        let* e := need (wd_info t !! Z.to_nat Index) in
        bsa_print ACS_PRINT_DEBUG " WD REFRESH BASE  :%x\n" (wd_refresh_base e) ;;
        bsa_print ACS_PRINT_DEBUG "    CONTROL BASE  :%x\n" (wd_ctrl_base e) ;;
        bsa_print ACS_PRINT_DEBUG "    GSIV          :%x\n" (wd_gsiv e) ;;
        bsa_print ACS_PRINT_DEBUG "    FLAGS         :%x\n" (wd_flags e)) ;;
      bsa_print ACS_PRINT_DEBUG "************************************* \n\n" 0).

(** The watchdog structures of the GTDT. *)
Definition gtdt_wd_field (f : string) : Z -> Z :=
  acpi_field ("EFI_ACPI_6_1_GTDT_SBSA_GENERIC_WATCHDOG_STRUCTURE." ++ f)%string.

Definition gtdt_watchdog (Entry WdEntry : Z) : B Z :=
  if gtdt_wd_field "Type" Entry =? acpi_const "EFI_ACPI_6_1_GTDT_SBSA_GENERIC_WATCHDOG" then
    wd_edit WdEntry (fun _ => mkWd (gtdt_wd_field "WatchdogControlFramePhysicalAddress" Entry)
      (gtdt_wd_field "RefreshFramePhysicalAddress" Entry) (gtdt_wd_field "WatchdogTimerGSIV" Entry)
      (gtdt_wd_field "WatchdogTimerFlags" Entry)) ;;
    let* t := table in
    wd_set_num (u32 (num_wd t + 1)) ;;
    io (bsa_print ACS_PRINT_DEBUG "Watchdog base = 0x%x INTID = 0x%x \n" (gtdt_wd_field "WatchdogTimerGSIV" Entry)) ;;
    ret (WdEntry + 1)
  else ret WdEntry.

Definition pal_wd_create_info_table_acpi (gGtdtHdr : Z) : B () :=
  gtdt_walk (gtdt_wd_field "Length") gGtdtHdr gtdt_watchdog 0 ;;
  pal_wd_platform_override.

(** The mode and polarity of an interrupt flag: [wd_polarity << 1 | wd_mode]. *)
Definition wd_flags_of (intr_flg : Z) : option Z :=
  let flags polarity mode := Z.lor (Z.shiftl polarity 1) (Z.shiftl mode 0) in
  if intr_flg =? IRQ_TYPE_NONE then Some (flags INTERRUPT_IS_ACTIVE_HIGH INTERRUPT_IS_LEVEL_TRIGGERED)
  else if intr_flg =? IRQ_TYPE_EDGE_RISING then
    Some (flags INTERRUPT_IS_ACTIVE_HIGH INTERRUPT_IS_EDGE_TRIGGERED)
  else if intr_flg =? IRQ_TYPE_EDGE_FALLING then
    Some (flags INTERRUPT_IS_ACTIVE_LOW INTERRUPT_IS_EDGE_TRIGGERED)
  else if intr_flg =? IRQ_TYPE_LEVEL_HIGH then
    Some (flags INTERRUPT_IS_ACTIVE_HIGH INTERRUPT_IS_LEVEL_TRIGGERED)
  else if intr_flg =? IRQ_TYPE_LEVEL_LOW then
    Some (flags INTERRUPT_IS_ACTIVE_LOW INTERRUPT_IS_LEVEL_TRIGGERED)
  else None.

(** The interrupt of a watchdog: its number and its flag; a three-cell specifier starts
    with the type, which is compared as it is stored. *)
Definition wd_interrupt (Pintr_val : list Z) (interrupt_cell : Z) : option (Z * Z) :=
  if interrupt_cell =? 3 then
    type ← word_of Pintr_val 0;
    v ← cell Pintr_val 1;
    flg ← cell Pintr_val 2;
    Some (u32 (v + if truthy type then PPI_OFFSET else SPI_OFFSET), s32 flg)
  else if interrupt_cell =? 2 then
    v ← cell Pintr_val 0; flg ← cell Pintr_val 1; Some (v, s32 flg)
  else v ← cell Pintr_val 0; Some (v, IRQ_TYPE_NONE).

(** The two frames of a "reg" property, the control frame and the refresh frame, starting
    at cell [index]. *)
Definition wd_frames (addr_cell size_cell : Z) (Preg_val : list Z) (index : Z) : option (Z * Z) :=
  ctrl ← cells_value addr_cell Preg_val index;
  refresh ← cells_value addr_cell Preg_val (cells_next addr_cell index + size_cell);
  Some (ctrl, refresh).

(** The value [index] is left with: the cell of the interrupt flag, or 0. *)
Definition wd_index_after (interrupt_cell : Z) : Z := interrupt_cell - 1.

(** One watchdog node; [WdEntry] and [index] are carried from node to node. *)
Definition wd_node (fuel : nat) (dt_ptr addr_cell size_cell : Z) (compatible : string) (offset : Z)
    (carried : Z * Z) : B (ctl (Z * (Z * Z)) ()) :=
  let '(WdEntry, index) := carried in
  let* t := table in
  io (bsa_print ACS_PRINT_DEBUG " WD node:%d offset:%d \n" (num_wd t)) ;;
  let '(p, prop_len) := fdt_getprop_namelen dt_ptr offset "reg" 3 in
  match prop_value (p, prop_len) with
  | None =>
      io (bsa_print ACS_PRINT_ERR " PROPERTY reg offset %x, Error %d\n" prop_len) ;;
      ret (Break tt)
  | Some Preg_val =>
      let* r := io (node_interrupts fuel dt_ptr offset) in
      match r with
      | None => ret (Break tt)
      | Some (Pintr_val, _, interrupt_cell) =>
          wd_set_num (u32 (num_wd t + 1)) ;;
          let* '(ctrl, refresh) := need (wd_frames addr_cell size_cell Preg_val index) in
          let* '(gsiv, intr_flg) := need (wd_interrupt Pintr_val interrupt_cell) in
          wd_edit WdEntry (fun e => mkWd ctrl refresh gsiv (wd_flags e)) ;;
          match wd_flags_of intr_flg with
          | None =>
              let* v := need (cell Pintr_val 2) in
              io (bsa_print ACS_PRINT_ERR "interrupt type invalid :%X \n" v) ;;
              ret (Break tt)
          | Some flags =>
              (if intr_flg =? IRQ_TYPE_NONE
               then io (bsa_print ACS_PRINT_DEBUG "interrupt type none\n" 0) else ret tt) ;;
              wd_edit WdEntry (fun e => mkWd (wd_ctrl_base e) (wd_refresh_base e) (wd_gsiv e) flags) ;;
              ret (Continue (fdt_node_offset_by_compatible dt_ptr offset compatible,
                             (WdEntry + 1, wd_index_after interrupt_cell)))
          end
      end
  end.

Definition pal_wd_create_info_table_dt (fuel : nat) : B () :=
  wd_set_num 0 ;;
  let* dt_ptr := io pal_get_dt_ptr in
  if dt_ptr =? 0 then io (bsa_print ACS_PRINT_ERR "dt_ptr is NULL \n" 0)
  else
    let* r := for_ (length wd_dt_arr) 0 (fun i carried =>
      let* compatible := need (wd_dt_arr !! Z.to_nat i) in
      let offset := fdt_node_offset_by_compatible dt_ptr (-1) compatible in
      if offset <? 0 then
        io (bsa_print ACS_PRINT_DEBUG " WD node offset not found %d \n" offset) ;;
        ret (Continue carried)
      else
        let parent_offset := fdt_parent_offset dt_ptr offset in
        io (bsa_print ACS_PRINT_DEBUG " Parent Node offset %d\n" offset) ;;
        let size_cell := fdt_size_cells dt_ptr parent_offset in
        io (bsa_print ACS_PRINT_DEBUG " size cell %d\n" size_cell) ;;
        if (size_cell <? 1) || (size_cell >? 2) then
          io (bsa_print ACS_PRINT_ERR " Invalid size cell :%d\n" size_cell) ;; ret (Break tt)
        else
        let addr_cell := fdt_address_cells dt_ptr parent_offset in
        io (bsa_print ACS_PRINT_DEBUG " addr cell %d\n" addr_cell) ;;
        if (addr_cell <? 1) || (addr_cell >? 2) then
          io (bsa_print ACS_PRINT_ERR " Invalid address cell : %d \n" addr_cell) ;; ret (Break tt)
        else while_node fuel (wd_node fuel dt_ptr addr_cell size_cell compatible) offset carried) (0, 0) in
    match r with
    | Break _ => ret tt
    | Continue _ => pal_wd_platform_override ;; dt_dump_wd_table
    end.

Definition pal_wd_create_info_table (fuel : nat) : B () :=
  wd_set_num 0 ;;
  let* gGtdtHdr := io pal_get_gtdt_ptr in
  if gGtdtHdr =? 0 then
    io (bsa_print ACS_PRINT_DEBUG "GTDT not found & Searching for DT\n" 0) ;;
    pal_wd_create_info_table_dt fuel
  else pal_wd_create_info_table_acpi gGtdtHdr.

(** ** Proofs *)

Lemma wp_wd_edit k f l n w (Q : () -> WD_INFO_TABLE * world D -> Prop) l' :
  at_entry k f l = Some l' -> Q tt (mkWdTable n l', w) -> wp (wd_edit k f) (mkWdTable n l, w) Q.
Proof. intros Hk HQ. unfold wd_edit. eapply wp_edit_at; [|exact HQ]. cbn. by rewrite Hk. Qed.

(** What the tree says of a watchdog: the bases and the sizes of its two frames, its
    interrupt and the flags of the interrupt. *)
Record wd_desc := mkWdDesc {
  w_ctrl : Z; w_ctrl_size : Z; w_refresh : Z; w_refresh_size : Z; w_gsiv : Z; w_flags : Z }.

Definition wd_node_ok (fuel : nat) (dt_ptr x : Z) (d : wd_desc) : Prop :=
  exists v len v' len' flg,
    fdt_getprop_namelen dt_ptr x "reg" 3 = (Some v, len) /\ 0 <= len /\
    cells_value 2 v 0 = Some (w_ctrl d) /\ cells_value 2 v 2 = Some (w_ctrl_size d) /\
    cells_value 2 v 4 = Some (w_refresh d) /\ cells_value 2 v 6 = Some (w_refresh_size d) /\
    has_interrupts fuel dt_ptr x v' len' 3 /\
    wd_interrupt v' 3 = Some (w_gsiv d, flg) /\ wd_flags_of flg = Some (w_flags d).

(** The entry written for node number [k]. *)
Definition wd_written (k : Z) (d : wd_desc) (_ : WD_INFO_BLOCK) : WD_INFO_BLOCK :=
  if k =? 0 then mkWd (w_ctrl d) (w_refresh d) (w_gsiv d) (w_flags d)
  else mkWd (w_ctrl_size d) (w_refresh_size d) (w_gsiv d) (w_flags d).

Definition wd_index (k : nat) : Z := if decide (k = 0%nat) then 0 else 2.

Lemma wp_wd_node fuel dt_ptr compatible x d ds L w
    (Q : ctl (Z * (Z * Z)) () -> WD_INFO_TABLE * world D -> Prop) :
  let k := length ds in
  wd_node_ok fuel dt_ptr x d -> (k < length L)%nat -> Z.of_nat (length L) < 2 ^ 32 ->
  Q (Continue (fdt_node_offset_by_compatible dt_ptr x compatible, (Z.of_nat (S k), 2)))
    (mkWdTable (Z.of_nat (S k)) (filled wd_written 0 (ds ++ [d]) L), w) ->
  wp (wd_node fuel dt_ptr 2 2 compatible x (Z.of_nat k, wd_index k))
    (mkWdTable (Z.of_nat k) (filled wd_written 0 ds L), w) Q.
Proof.
  intros k (v & len & v' & len' & flg & Hp & Hl & Hq1 & Hq2 & Hq3 & Hq4 & Hint & Hg & Hflg) Hroom Hsz HQ.
  unfold wd_node, prop_value. rewrite Hp. cbn [fst snd]. rewrite (proj2 (Z.ltb_ge _ _) Hl). dt_steps.
  eapply wp_eval; [by apply eval_node_interrupts|]. dt_steps. unfold wd_set_num. dt_steps. cbn [num_wd wd_info].
  set (e := wd_written (Z.of_nat k) d (mkWd 0 0 0 0)).
  assert (Hfr : wd_frames 2 2 v (wd_index k) = Some (wd_ctrl_base e, wd_refresh_base e)).
  { unfold wd_frames, cells_next, wd_index, e, wd_written. change (2 =? 2) with true. cbn iota.
    destruct (decide (k = 0%nat)) as [Hk|Hk].
    - rewrite Hk. change (0 + 2 + 2) with 4. rewrite Hq1. cbn [mbind option_bind]. by rewrite Hq3.
    - rewrite (proj2 (Z.eqb_neq _ 0)) by lia. change (2 + 2 + 2) with 6. rewrite Hq2.
      cbn [mbind option_bind]. by rewrite Hq4. }
  assert (Hge : wd_gsiv e = w_gsiv d /\ wd_flags e = w_flags d).
  { unfold e, wd_written. by destruct (_ =? 0). }
  destruct Hge as [Hge Hfe].
  rewrite Hfr. dt_steps. rewrite Hg. dt_steps.
  destruct (lookup_lt_is_Some_2 (filled wd_written 0 ds L) k) as [old Hold]; [by rewrite length_filled|].
  eapply wp_wd_edit; [unfold at_entry; rewrite Nat2Z.id, Hold; reflexivity|].
  rewrite Hflg. dt_step.
  assert (Hk1 : u32 (Z.of_nat k + 1) = Z.of_nat (S k)) by (rewrite u32_id; unfold fits; lia).
  match goal with |- wp _ ?s0 _ => apply (wp_mono _ _ (fun _ s => s = s0)) end.
  { destruct (flg =? IRQ_TYPE_NONE); by dt_steps. }
  intros _ s ->. dt_step. eapply wp_wd_edit.
  { unfold at_entry. rewrite Nat2Z.id, list_lookup_insert_eq by (by rewrite length_filled).
    by rewrite list_insert_insert_eq. }
  dt_step. rewrite Hk1. replace (Z.of_nat k + 1) with (Z.of_nat (S k)) by lia.
  unfold wd_index_after. change (3 - 1) with 2.
  assert (E : at_entry (Z.of_nat k) (fun _ => e) (filled wd_written 0 ds L) =
              Some (filled wd_written 0 (ds ++ [d]) L)).
  { apply at_entry_filled; [done|done|]. intros y. by unfold e, wd_written. }
  unfold at_entry in E. rewrite Nat2Z.id, Hold in E. injection E as E. rewrite <- E in HQ.
  cbn [wd_ctrl_base wd_refresh_base wd_gsiv]. rewrite <- Hge, <- Hfe. by destruct e.
Qed.

Lemma wp_dump_wd_table t w (Q : () -> WD_INFO_TABLE * world D -> Prop) :
  (Z.to_nat (num_wd t) <= length (wd_info t))%nat -> Q tt (t, w) -> wp dt_dump_wd_table (t, w) Q.
Proof.
  intros Hn HQ. unfold dt_dump_wd_table. dt_steps.
  apply (wp_for_each (fun _ s => s = w)); [done| |by intros s ->; dt_steps].
  intros i s Hi ->. destruct (lookup_lt_is_Some_2 (wd_info t) (Z.to_nat i)) as [e He]; [lia|].
  rewrite He. by dt_steps.
Qed.

(** C12: The watchdog table built from a device tree with two-cell addresses and sizes and
    three-cell interrupts has one entry for each watchdog, in order, with its interrupt and
    its flags, and counts them; the other entries and the world are left alone. The first
    watchdog gets the bases of its control and refresh frames, every other watchdog the
    sizes of its frames in their place, because the index into "reg" still stands where the
    interrupt of the previous node left it. *)
Theorem wd_table_from_dt fuel dt_ptr nodes ds n0 L (w : world D) :
  dtb_of_system_table = Some dt_ptr -> dt_ptr <> 0 -> fdt_check_header dt_ptr = 0 ->
  let next o := fdt_node_offset_by_compatible dt_ptr o "arm,sbsa-gwdt" in
  walks next (-1) nodes -> 0 <= next (-1) -> Forall2 (wd_node_ok fuel dt_ptr) nodes ds ->
  (let parent := fdt_parent_offset dt_ptr (next (-1)) in
   fdt_size_cells dt_ptr parent = 2 /\ fdt_address_cells dt_ptr parent = 2) ->
  (length nodes < fuel)%nat -> (length nodes <= length L)%nat -> Z.of_nat (length L) < 2 ^ 32 ->
  wp (build (mkWdTable n0 L) (pal_wd_create_info_table_dt fuel)) w (fun t w' =>
    t = mkWdTable (Z.of_nat (length ds)) (filled wd_written 0 ds L) /\ w' = w).
Proof.
  intros Hdt Hnz Hhdr next Hw Hpos Hds (Hsz & Hac) Hf Hroom Hbig.
  pose proof (Forall2_length _ _ _ Hds) as Hlen.
  apply wp_build. unfold pal_wd_create_info_table_dt, wd_set_num. dt_step. dt_step. dt_step. dt_step.
  eapply wp_eval; [by apply eval_get_dt_ptr|]. rewrite (proj2 (Z.eqb_neq _ _) Hnz).
  cbn [wd_dt_arr length for_]. dt_step. dt_step. change (wd_dt_arr !! Z.to_nat 0) with (Some "arm,sbsa-gwdt"%string).
  dt_step. dt_step. fold (next (-1)). rewrite (proj2 (Z.ltb_ge _ _) Hpos). dt_steps.
  rewrite Hsz. cbn [Z.ltb Z.gtb Z.compare Pos.compare Pos.compare_cont orb]. dt_steps.
  rewrite Hac. cbn [Z.ltb Z.gtb Z.compare Pos.compare Pos.compare_cont orb].
  apply (wp_while_node next nodes (fun i a s =>
    s = (mkWdTable (Z.of_nat i) (filled wd_written 0 (take i ds) L), w) /\
    a = (Z.of_nat i, wd_index i))); [exact Hw|done| | |].
  - split; [|done]. by destruct L.
  - intros i x a s Hx (-> & ->). destruct (Forall2_lookup_l _ _ _ _ _ Hds Hx) as (d & Hd & Hok).
    pose proof (lookup_lt_Some _ _ _ Hd) as Hi.
    assert (Hti : length (take i ds) = i) by (rewrite length_take; lia).
    rewrite <- Hti at 1 2 3. apply (wp_wd_node fuel dt_ptr _ x d); [done|rewrite Hti; lia|done|].
    rewrite Hti. eexists. split; [done|]. by rewrite (take_S_r ds i d Hd).
  - intros a s (-> & ->). dt_steps. unfold pal_wd_platform_override.
    change (PLATFORM_OVERRIDE_WD =? 1) with false. dt_steps. rewrite Hlen, take_ge by lia.
    apply wp_dump_wd_table; [cbn [num_wd wd_info]; rewrite length_filled; lia|]. done.
Qed.
End pal_wd.

(** ** A concrete device tree *)

(** A system timer, a memory-mapped timer with two frames and two watchdogs. *)
Definition timer_tree : list dt_node :=
  [mkDtNode 0 (-1) "" [("#address-cells", cells [2]); ("#size-cells", cells [2]); ("interrupt-parent", cells [1])];
   mkDtNode 10 0 "intc" [("compatible", bytes_of "arm,gic-v3"); ("#interrupt-cells", cells [3]); ("phandle", cells [1])];
   mkDtNode 20 0 "timer" [("compatible", bytes_of "arm,armv8-timer"); ("always-on", []);
     ("interrupts", cells [1; 13; 4; 1; 14; 4; 1; 11; 4; 1; 10; 4])];
   mkDtNode 30 0 "timer" [("compatible", bytes_of "arm,armv7-timer-mem"); ("#address-cells", cells [1]);
     ("#size-cells", cells [1]); ("reg", cells [0; 0x2a810000; 0; 0x10000])];
   mkDtNode 40 30 "frame" [("frame-number", cells [0]); ("reg", cells [0x2a820000; 0x10000]);
     ("interrupts", cells [0; 25; 4; 0; 26; 4])];
   mkDtNode 50 30 "frame" [("frame-number", cells [1]); ("reg", cells [0x2a830000; 0x10000]);
     ("interrupts", cells [0; 60; 4])];
   mkDtNode 60 0 "watchdog" [("compatible", bytes_of "arm,sbsa-gwdt");
     ("reg", cells [0; 0x2a440000; 0; 0x1000; 0; 0x2a450000; 0; 0x2000]); ("interrupts", cells [0; 27; 4])];
   mkDtNode 70 0 "watchdog" [("compatible", bytes_of "arm,sbsa-gwdt");
     ("reg", cells [0; 0x2a460000; 0; 0x1000; 0; 0x2a470000; 0; 0x2000]); ("interrupts", cells [0; 28; 1])]].

#[local] Instance timer_tree_fdt : Fdt machine := tree_fdt timer_tree.

Definition blank_gt : TIMER_INFO_GTBLOCK :=
  let z := replicate 8 0 in mkGt 0 0 0 z z z z z z.
Definition blank_hdr : TIMER_INFO_HDR := mkTimerHdr 0 0 0 0 0 0 0 0 0 0 0 0 0.

Lemma eval_timer_cells (offset : Z) (u : world machine) :
  offset ∈ [20; 40; 50; 60; 70] -> eval (fdt_interrupt_cells 8 0x48000000 offset) u 3 u.
Proof. rewrite !elem_of_cons. intros [-> |[-> |[-> |[-> |[-> |H]]]]]; [by split..|]. by apply elem_of_nil in H. Qed.

Ltac tree_interrupts :=
  split; [reflexivity|]; split; [vm_compute; congruence|]; 
  split; [intros u; apply eval_timer_cells; set_solver|lia].

Lemma timer_table_from_dt_witness :
  wp (build (mkTimerTable blank_hdr [blank_gt]) (pal_timer_create_info_table_dt 8)) (boot ∅ ∅) (fun t _ =>
    t = mkTimerTable (mkTimerHdr 4 4 4 0 29 30 26 4 27 0 2 0 0)
          [mkGt 0x2001 2 0x2a810000 [0; 1; 0; 0; 0; 0; 0; 0] [0x2a820000; 0x2a830000; 0; 0; 0; 0; 0; 0]
             (replicate 8 0) [57; 92; 0; 0; 0; 0; 0; 0] [58; 0; 0; 0; 0; 0; 0; 0] (replicate 8 0)]).
Proof.
  eapply wp_mono; [eapply (timer_table_from_dt 8 0x48000000 20 (cells [1; 13; 4; 1; 14; 4; 1; 11; 4; 1; 10; 4])
    48 13 14 11 10 30 (cells [0; 0x2a810000; 0; 0x10000]) 16 0x2a810000 2 [40; 50]
    [mkFrame 0 0x2a820000 0 57 58 0; mkFrame 1 0x2a830000 0 92 0 0])|].
  all: try on_tree.
  - tree_interrupts.
  - vm_compute. split; congruence.
  - do 2 (constructor; [eexists _, _, _, _, _, _, _, _, _; split; [reflexivity|]; split; [reflexivity|];
      split; [vm_compute; congruence|]; split; [reflexivity|]; split; [tree_interrupts|];
      split; reflexivity|]). constructor.
  - repeat constructor.
  - intros t w' (_ & ->). by vm_compute.
Defined.

(** The second watchdog at 0x2a460000 is recorded at address 0x1000. *)
Lemma wd_table_from_dt_witness :
  wp (build (mkWdTable 0 (replicate 3 (mkWd 0 0 0 0))) (pal_wd_create_info_table_dt 8)) (boot ∅ ∅) (fun t _ =>
    t = mkWdTable 2 [mkWd 0x2a440000 0x2a450000 59 0; mkWd 0x1000 0x2000 60 1; mkWd 0 0 0 0]).
Proof.
  eapply wp_mono; [eapply (wd_table_from_dt 8 0x48000000 [60; 70]
    [mkWdDesc 0x2a440000 0x1000 0x2a450000 0x2000 59 0; mkWdDesc 0x2a460000 0x1000 0x2a470000 0x2000 60 1] 0)|].
  all: try on_tree.
  - do 2 (constructor; [eexists _, _, _, _, _; split; [reflexivity|]; split; [vm_compute; congruence|];
      do 4 (split; [reflexivity|]); split; [tree_interrupts|]; split; reflexivity|]). constructor.
  - by vm_compute.
  - intros t w' (-> & _). by vm_compute.
Defined.
