(* ===== verification/PalGic.v ===== *)
(** * The platform layer: the interrupt controller table

    The table built from the ACPI MADT or from the device tree
    (src/platform/pal_uefi_dt/src/pal_gic.c). *)

From S2P Require Import Prelude Types World Machine Gic Its Fdt PalPe.
#[local] Open Scope c_scope.

Definition gicv2m_frame_dt_arr : list string := ["arm,gic-v2m-frame"].
Definition its_dt_arr : list string := ["arm,gic-v3-its"].

(** ** Field updates *)

Definition gic_with_type (type : Z) (e : GIC_INFO_ENTRY) : GIC_INFO_ENTRY :=
  mkGic type (gic_base e) (gic_entry_id e) (gic_length e) (gic_flags e) (gic_spi_count e) (gic_spi_base e).
Definition gic_with_base (type base : Z) (e : GIC_INFO_ENTRY) : GIC_INFO_ENTRY :=
  mkGic type base (gic_entry_id e) (gic_length e) (gic_flags e) (gic_spi_count e) (gic_spi_base e).
Definition gic_with_range (type base length : Z) (e : GIC_INFO_ENTRY) : GIC_INFO_ENTRY :=
  mkGic type base (gic_entry_id e) length (gic_flags e) (gic_spi_count e) (gic_spi_base e).
Definition gic_with_id (id : Z) (e : GIC_INFO_ENTRY) : GIC_INFO_ENTRY :=
  mkGic (gic_type e) (gic_base e) id (gic_length e) (gic_flags e) (gic_spi_count e) (gic_spi_base e).
Definition gic_with_spis (base count : Z) (e : GIC_INFO_ENTRY) : GIC_INFO_ENTRY :=
  mkGic (gic_type e) (gic_base e) (gic_entry_id e) (gic_length e) (gic_flags e) count base.

Definition hdr_gicd (h : GIC_INFO_HDR) : GIC_INFO_HDR :=
  mkGicHdr (gic_version h) (u32 (num_gicd h + 1)) (num_gicrd h) (num_its h) (num_msi_frame h).
Definition hdr_gicrd (h : GIC_INFO_HDR) : GIC_INFO_HDR :=
  mkGicHdr (gic_version h) (num_gicd h) (u32 (num_gicrd h + 1)) (num_its h) (num_msi_frame h).
Definition hdr_its (h : GIC_INFO_HDR) : GIC_INFO_HDR :=
  mkGicHdr (gic_version h) (num_gicd h) (num_gicrd h) (u32 (num_its h + 1)) (num_msi_frame h).
Definition hdr_msi (h : GIC_INFO_HDR) : GIC_INFO_HDR :=
  mkGicHdr (gic_version h) (num_gicd h) (num_gicrd h) (num_its h) (u32 (num_msi_frame h + 1)).
Definition hdr_version (v : Z) (h : GIC_INFO_HDR) : GIC_INFO_HDR :=
  mkGicHdr v (num_gicd h) (num_gicrd h) (num_its h) (num_msi_frame h).

Section pal_gic.
Context {D : Type} `{Platform D} `{SystemTable D} `{Acpi D} `{Fdt D}.

#[local] Abbreviation B := (Prelude.M (GIC_INFO_TABLE * world D)).

Definition gic_hdr (f : GIC_INFO_HDR -> GIC_INFO_HDR) : B () :=
  edit (fun t => mkGicTable (f (gic_header t)) (gic_info t)).
Definition gic_edit (k : Z) (f : GIC_INFO_ENTRY -> GIC_INFO_ENTRY) : B () :=
  edit_at (fun t => mkGicTable (gic_header t) <$> at_entry k f (gic_info t)).

(** Walks to the terminator; the fuel is the room of the table. *)
Definition dt_dump_gic_table : B () :=
  let* t := table in
  io (bsa_print ACS_PRINT_DEBUG "************GIC TABLE************ \n" 0 ;;
      bsa_print ACS_PRINT_DEBUG " GIC version %d \n" (gic_version (gic_header t)) ;;
      bsa_print ACS_PRINT_DEBUG " GIC num D %d \n" (num_gicd (gic_header t)) ;;
      bsa_print ACS_PRINT_DEBUG " GIC num RD %d \n" (num_gicrd (gic_header t)) ;;
      while_ (S (length (gic_info t))) (fun Index =>
        let* e := need (gic_info t !! Z.to_nat Index) in
        if gic_type e =? 0xFF then ret (Break tt)
        else
          bsa_print ACS_PRINT_DEBUG " GIC TYPE     :%x\n" (gic_type e) ;;
          bsa_print ACS_PRINT_DEBUG "     BASE     :%x\n" (gic_base e) ;;
          bsa_print ACS_PRINT_DEBUG "     LEN      :%x\n" (gic_length e) ;;
          ret (Continue (Index + 1))) 0 ;;
      bsa_print ACS_PRINT_DEBUG "************************************* \n\n" 0).

(** A base and a length read from cell [Index] on, and the index after them. *)
Definition reg_frame (addr_cell size_cell : Z) (v : list Z) (Index : Z) : option (Z * Z * Z) :=
  base ← cells_value addr_cell v Index;
  let Index := cells_next addr_cell Index in
  len ← cells_value size_cell v Index;
  Some (base, len, cells_next size_cell Index).

(** [GicEntry->type = type; ... base ... length ...] *)
Definition gic_add_frame (GicEntry type addr_cell size_cell : Z) (v : list Z) (Index : Z) : B Z :=
  let* '(base, len, Index) := need (reg_frame addr_cell size_cell v Index) in
  gic_edit GicEntry (gic_with_range type base len) ;;
  io (bsa_print ACS_PRINT_DEBUG "GIC base %x \n" base) ;;
  ret Index.

(** One v2m frame node. *)
Definition v2m_frame_node (dt_ptr addr_cell size_cell offset GicEntry : Z) : B (ctl (Z * Z) ()) :=
  io (bsa_print ACS_PRINT_DEBUG " NODE v2m frame offset %x  \n" offset) ;;
  let '(p, prop_len) := fdt_getprop_namelen dt_ptr offset "reg" 3 in
  match prop_value (p, prop_len) with
  | None =>
      io (bsa_print ACS_PRINT_ERR " PROPERTY reg offset %x, Error %d\n" prop_len) ;; ret (Break tt)
  | Some Preg_val =>
      gic_hdr hdr_msi ;;
      let* _ := gic_add_frame GicEntry ENTRY_TYPE_GIC_MSI_FRAME addr_cell size_cell Preg_val 0 in
      let spi name :=
        match prop_value (fdt_getprop_namelen dt_ptr offset name 16) with
        | None => io (bsa_print ACS_PRINT_WARN " PROPERTY arm,msi Error %d\n" 0) ;; ret 0
        | Some v => need (cell v 0)
        end in
      let* base := spi "arm,msi-base-spi" in
      let* count := spi "arm,msi-num-spis" in
      gic_edit GicEntry (gic_with_spis base count) ;;
      ret (Continue (fdt_node_offset_by_compatible dt_ptr offset "arm,gic-v2m-frame", GicEntry + 1))
  end.

(** What follows the CPU interface for a GICv2: the hypervisor interface and the v2m
    frames. [Some GicEntry] is where the table goes on, [None] a return. *)
Definition gic_v2_entries (fuel : nat) (dt_ptr num_gic_interfaces addr_cell size_cell : Z)
    (Preg_val : list Z) (Index GicEntry : Z) : B (option Z) :=
  let* GicEntry :=
    if num_gic_interfaces >? 1 then
      let* _ := gic_add_frame GicEntry ENTRY_TYPE_GICH addr_cell size_cell Preg_val Index in
      ret (GicEntry + 1)
    else ret GicEntry in
  let offset := fdt_node_offset_by_compatible dt_ptr (-1) "arm,gic-v2m-frame" in
  if offset <? 0 then
    io (bsa_print ACS_PRINT_DEBUG " No v2m-frame present\n" 0) ;;
    gic_edit GicEntry (gic_with_type 0xFF) ;;
    ret None
  else
    let parent_offset := fdt_parent_offset dt_ptr offset in
    let size_cell := fdt_size_cells dt_ptr parent_offset in
    io (bsa_print ACS_PRINT_DEBUG " NODE gic size cell %d\n" size_cell) ;;
    if size_cell <? 0 then
      io (bsa_print ACS_PRINT_ERR " Invalid size cell for node gic\n" 0) ;; ret None
    else
    let addr_cell := fdt_address_cells dt_ptr parent_offset in
    io (bsa_print ACS_PRINT_DEBUG " NODE gic addr cell %d\n" addr_cell) ;;
    if addr_cell <? 0 then
      io (bsa_print ACS_PRINT_ERR " Invalid address cell for node gic\n" 0) ;; ret None
    else
      let* r := while_node fuel (v2m_frame_node dt_ptr addr_cell size_cell) offset GicEntry in
      match r with
      | Break _ => ret None
      | Continue GicEntry =>
          let* t := table in
          io (bsa_print ACS_PRINT_DEBUG " Num of v2m frame %x \n" (num_msi_frame (gic_header t))) ;;
          ret (Some GicEntry)
      end.

(** For a GICv3 the ITS nodes are counted; no entry is added for them. *)
Definition gic_v3_its (fuel : nat) (dt_ptr GicEntry : Z) : B (option Z) :=
  let offset := fdt_node_offset_by_compatible dt_ptr (-1) "arm,gic-v3-its" in
  if offset <? 0 then
    io (bsa_print ACS_PRINT_DEBUG " No its present\n" 0) ;;
    gic_edit GicEntry (gic_with_type 0xFF) ;;
    ret None
  else
    while_node fuel (fun offset _ =>
      gic_hdr hdr_its ;;
      ret (Continue (fdt_node_offset_by_compatible dt_ptr offset "arm,gic-v3-its", tt))) offset tt ;;
    let* t := table in
    io (bsa_print ACS_PRINT_DEBUG " Num of its frame %x \n" (num_its (gic_header t))) ;;
    ret (Some GicEntry).

(** The redistributors of a GICv3: how many there are, and the index and the entry after
    them. *)
Definition gic_redistributors (dt_ptr offset addr_cell size_cell : Z) (Preg_val : list Z) (Index : Z)
  : B (Z * Z * Z) :=
  let '(Prdregions_val, prop_len) := fdt_getprop_namelen dt_ptr offset "redistributor-regions" 21 in
  let* num_of_rd :=
    if prop_len <? 0 then
      io (bsa_print ACS_PRINT_DEBUG " Single redistributor regions present \n" 0) ;; ret 1
    else
      let* v := need Prdregions_val in need (cell v 0) in
  io (bsa_print ACS_PRINT_DEBUG " NUM GIC RD %d \n" num_of_rd) ;;
  let* '(Index, GicEntry) := for_acc (Z.to_nat num_of_rd) 0 (fun _ '(Index, GicEntry) =>
    let* Index := gic_add_frame GicEntry ENTRY_TYPE_GICR_GICRD addr_cell size_cell Preg_val Index in
    gic_hdr hdr_gicrd ;;
    ret (Index, GicEntry + 1)) (Index, 1) in
  ret (num_of_rd, Index, GicEntry).

(** The processor interface, when there are frames left: one entry per PE. *)
Definition gic_cpu_interfaces (left addr_cell size_cell : Z) (Preg_val : list Z) (Index GicEntry : Z)
  : B (Z * Z) :=
  if left >? 1 then
    let* '(cpuif_base, cpuif_length, Index) := need (reg_frame addr_cell size_cell Preg_val Index) in
    let* num_of_pe := io pal_pe_get_num in
    for_each (Z.to_nat num_of_pe) 0 (fun i =>
      gic_edit (GicEntry + i) (gic_with_range ENTRY_TYPE_CPUIF cpuif_base cpuif_length) ;;
      io (bsa_print ACS_PRINT_DEBUG "GIC CPUIF base %x \n" cpuif_base)) ;;
    ret (Index, GicEntry + num_of_pe)
  else
    io (bsa_print ACS_PRINT_WARN " GIC CPUIF not present\n" 0) ;;
    ret (Index, GicEntry).

(** [num_of_rd] is set for a GICv3 only; [stack] is what the variable holds otherwise. In C
    reading it is undefined: a statement about a GICv2 that holds for one value of
    [stack] says nothing of the program. *)
Definition pal_gic_create_info_table_dt (fuel : nat) (stack : Z) : B () :=
  let* dt_ptr := io pal_get_dt_ptr in
  if dt_ptr =? 0 then io (bsa_print ACS_PRINT_ERR " dt_ptr is NULL \n" 0)
  else
  gic_edit 0 (gic_with_type 0xFF) ;;
  match gic_node dt_ptr with
  | None => io (bsa_print ACS_PRINT_DEBUG "GIC v2 compatible node not found\n" 0)
  | Some offset =>
    let version := match first_compatible dt_ptr gicv3_dt_arr with Some _ => 3 | None => 2 end in
    gic_hdr (hdr_version version) ;;
    let parent_offset := fdt_parent_offset dt_ptr offset in
    let size_cell := fdt_size_cells dt_ptr parent_offset in
    io (bsa_print ACS_PRINT_DEBUG " NODE gic size cell %d\n" size_cell) ;;
    if size_cell <? 0 then io (bsa_print ACS_PRINT_ERR " Invalid size cell for node gic\n" 0)
    else
    let addr_cell := fdt_address_cells dt_ptr parent_offset in
    io (bsa_print ACS_PRINT_DEBUG " NODE gic addr cell %d\n" addr_cell) ;;
    if addr_cell <? 0 then io (bsa_print ACS_PRINT_ERR " Invalid address cell for node gic\n" 0)
    else
    let '(p, prop_len) := fdt_getprop_namelen dt_ptr offset "reg" 3 in
    match prop_value (p, prop_len) with
    | None => io (bsa_print ACS_PRINT_ERR " PROPERTY reg offset %x, Error %d\n" prop_len)
    | Some Preg_val =>
      let* num_gic_interfaces :=
        if addr_cell + size_cell =? 0 then fault else ret (prop_len / 4 / (addr_cell + size_cell)) in
      io (bsa_print ACS_PRINT_DEBUG " Gic frame count : %d \n" num_gic_interfaces) ;;
      let* Index := gic_add_frame 0 ENTRY_TYPE_GICD addr_cell size_cell Preg_val 0 in
      gic_hdr hdr_gicd ;;
      let* '(num_of_rd, Index, GicEntry) :=
        if version =? 3 then gic_redistributors dt_ptr offset addr_cell size_cell Preg_val Index
        else ret (stack, Index, 1) in
      let* '(Index, GicEntry) :=
        gic_cpu_interfaces (u32 (num_gic_interfaces - num_of_rd)) addr_cell size_cell Preg_val Index GicEntry in
      let num_gic_interfaces := s32 (num_gic_interfaces - (num_of_rd + 1)) in
      io (bsa_print ACS_PRINT_INFO " Number of gic interface %d\n" num_gic_interfaces) ;;
      let* r :=
        if version =? 2 then
          gic_v2_entries fuel dt_ptr num_gic_interfaces addr_cell size_cell Preg_val Index GicEntry
        else gic_v3_its fuel dt_ptr GicEntry in
      match r with
      | Some GicEntry => gic_edit GicEntry (gic_with_type 0xFF)
      | None => ret tt
      end
    end
  end.

(** The table entries that a structure of the MADT makes, each with the counter it moves. *)
Definition gic_writes : Type := list ((GIC_INFO_ENTRY -> GIC_INFO_ENTRY) * (GIC_INFO_HDR -> GIC_INFO_HDR)).

Definition gicd_field (f : string) : Z -> Z := acpi_field ("EFI_ACPI_6_1_GIC_DISTRIBUTOR_STRUCTURE." ++ f)%string.
Definition gicr_field (f : string) : Z -> Z := acpi_field ("EFI_ACPI_6_1_GICR_STRUCTURE." ++ f)%string.
Definition gicits_field (f : string) : Z -> Z := acpi_field ("EFI_ACPI_6_1_GIC_ITS_STRUCTURE." ++ f)%string.
Definition madt_typed (Entry : Z) (c : string) : bool := gicc_field "Type" Entry =? acpi_const c.

Definition madt_cpu (Entry : Z) : gic_writes :=
  (if truthy (gicc_field "PhysicalBaseAddress" Entry)
   then [(gic_with_base ENTRY_TYPE_CPUIF (gicc_field "PhysicalBaseAddress" Entry), id)] else []) ++
  (if truthy (gicc_field "GICRBaseAddress" Entry)
   then [(gic_with_range ENTRY_TYPE_GICC_GICRD (gicc_field "GICRBaseAddress" Entry) 0, hdr_gicrd)] else []).

Definition madt_distributor (Entry : Z) : gic_writes :=
  if madt_typed Entry "EFI_ACPI_6_1_GICD" then
    [(gic_with_base ENTRY_TYPE_GICD (gicd_field "PhysicalBaseAddress" Entry),
      fun h => hdr_gicd (hdr_version (gicd_field "GicVersion" Entry) h))]
  else [].

Definition madt_redistributor (Entry : Z) : gic_writes :=
  if madt_typed Entry "EFI_ACPI_6_1_GICR" then
    [(gic_with_range ENTRY_TYPE_GICR_GICRD (gicr_field "DiscoveryRangeBaseAddress" Entry)
        (gicr_field "DiscoveryRangeLength" Entry), hdr_gicrd)]
  else [].

Definition madt_its (Entry : Z) : gic_writes :=
  if madt_typed Entry "EFI_ACPI_6_1_GIC_ITS" then
    [(fun e => gic_with_id (gicits_field "GicItsId" Entry)
        (gic_with_base ENTRY_TYPE_GICITS (gicits_field "PhysicalBaseAddress" Entry) e), hdr_its)]
  else [].

(** The interrupt controller structures that are recorded. *)
Definition madt_entry (Entry : Z) : gic_writes :=
  (if madt_typed Entry "EFI_ACPI_6_1_GIC" then madt_cpu Entry else []) ++
  madt_distributor Entry ++ madt_redistributor Entry ++ madt_its Entry.

(** Writes such entries from entry [GicEntry] on. *)
Fixpoint gic_add_all (GicEntry : Z) (l : gic_writes) : B Z :=
  match l with
  | [] => ret GicEntry
  | (f, h) :: l =>
      gic_edit GicEntry f ;;
      io (bsa_print ACS_PRINT_INFO "GIC base %x \n" 0) ;;
      gic_hdr h ;;
      gic_add_all (GicEntry + 1) l
  end.

Definition pal_gic_create_info_table (fuel : nat) (stack : Z) : B () :=
  io (modify (fun w => set_g_its (mkItsGlobals (Some 0) (g_gic_its_info (g_its w)) (g_cwriter_ptr (g_its w))
        (g_its_setup_done (g_its w)) (ConfigBase (g_its w))) w)) ;;
  gic_hdr (fun _ => mkGicHdr 0 0 0 0 0) ;;
  let* gMadtHdr := io pal_get_madt_ptr in
  if gMadtHdr =? 0 then
    io (bsa_print ACS_PRINT_DEBUG " MADT not found. Checking DT table \n" 0) ;;
    pal_gic_create_info_table_dt fuel stack ;;
    dt_dump_gic_table
  else
    io (bsa_print ACS_PRINT_INFO " MADT is at %x and length is %x \n" (madt_table_length gMadtHdr)) ;;
    let* GicEntry := madt_walk fuel gMadtHdr (fun Entry GicEntry => gic_add_all GicEntry (madt_entry Entry)) 0 in
    gic_edit GicEntry (gic_with_type 0xFF).

(** ** Proofs *)

Lemma wp_gic_edit k f l h w (Q : () -> GIC_INFO_TABLE * world D -> Prop) l' :
  at_entry k f l = Some l' -> Q tt (mkGicTable h l', w) -> wp (gic_edit k f) (mkGicTable h l, w) Q.
Proof. intros Hk HQ. unfold gic_edit. eapply wp_edit_at; [|exact HQ]. cbn. by rewrite Hk. Qed.

(** The "reg" of a node with two-cell addresses and sizes: a base and a length per frame. *)
Definition frames_of (v : list Z) (fs : list (Z * Z)) : Prop :=
  forall i b l, fs !! i = Some (b, l) ->
    cells_value 2 v (4 * Z.of_nat i) = Some b /\ cells_value 2 v (4 * Z.of_nat i + 2) = Some l.

Lemma reg_frame_of v fs i b l k :
  frames_of v fs -> fs !! i = Some (b, l) -> k = 4 * Z.of_nat i ->
  reg_frame 2 2 v k = Some (b, l, k + 4).
Proof.
  intros Hf Hi ->. destruct (Hf i b l Hi) as [Hb Hl]. unfold reg_frame, cells_next.
  change (2 =? 2) with true. cbn iota. rewrite Hb. cbn [mbind option_bind]. rewrite Hl.
  cbn [mbind option_bind]. do 2 f_equal. lia.
Qed.

(** An entry of a table built from the frames: its type, its base and its length. *)
Definition gic_made (_ : Z) (v : Z * (Z * Z)) (e : GIC_INFO_ENTRY) : GIC_INFO_ENTRY :=
  gic_with_range (fst v) (fst (snd v)) (snd (snd v)) e.

(** Copying frame [i] to the next entry. *)
Lemma wp_add_frame type v fs i f vs L h w (Q : Z -> GIC_INFO_TABLE * world D -> Prop) k g :
  frames_of v fs -> fs !! i = Some f -> k = 4 * Z.of_nat i -> g = Z.of_nat (length vs) ->
  (length vs < length L)%nat ->
  Q (k + 4) (mkGicTable h (filled gic_made 0 (vs ++ [(type, f)]) L), w) ->
  wp (gic_add_frame g type 2 2 v k) (mkGicTable h (filled gic_made 0 vs L), w) Q.
Proof.
  destruct f as [b l]. intros Hf Hi Hk -> Hroom HQ. unfold gic_add_frame.
  rewrite (reg_frame_of v fs i b l k Hf Hi Hk). dt_steps.
  eapply wp_gic_edit; [by apply (at_entry_filled gic_made _ vs (type, (b, l)))|]. by dt_steps.
Qed.

(** The redistributors of a GICv3 without a "redistributor-regions" property. *)
Lemma wp_redistributor dt_ptr gic v fs f vs L h w (Q : Z * Z * Z -> GIC_INFO_TABLE * world D -> Prop) :
  snd (fdt_getprop_namelen dt_ptr gic "redistributor-regions" 21) < 0 ->
  frames_of v fs -> fs !! 1%nat = Some f -> length vs = 1%nat -> num_gicrd h = 0 -> (1 < length L)%nat ->
  Q (1, 8, 2) (mkGicTable (hdr_gicrd h) (filled gic_made 0 (vs ++ [(ENTRY_TYPE_GICR_GICRD, f)]) L), w) ->
  wp (gic_redistributors dt_ptr gic 2 2 v 4) (mkGicTable h (filled gic_made 0 vs L), w) Q.
Proof.
  intros Hrd Hf Hi Hvs Hr Hroom HQ. unfold gic_redistributors.
  destruct (fdt_getprop_namelen dt_ptr gic "redistributor-regions" 21) as [pr lr]. cbn [snd] in Hrd.
  rewrite (proj2 (Z.ltb_lt _ _) Hrd). dt_steps. change (Z.to_nat 1) with 1%nat.
  unfold for_acc. dt_step. cbn [for_]. do 2 (apply wp_bind; cbv beta iota). apply wp_bind; cbv beta iota.
  eapply (wp_add_frame _ v _ 1 f vs); [exact Hf|exact Hi|done|by rewrite Hvs|lia|]. unfold gic_hdr. by dt_steps.
Qed.

(** The entries of a GICv3 with one redistributor region taken from the frames of its node. *)
Definition cpuif_entries (fs : list (Z * Z)) (num_pe : nat) : list (Z * (Z * Z)) :=
  match fs with c :: _ => replicate num_pe (ENTRY_TYPE_CPUIF, c) | [] => [] end.

Definition gic_entries (fs : list (Z * Z)) (num_pe : nat) : list (Z * (Z * Z)) :=
  match fs with
  | d :: r :: fs => [(ENTRY_TYPE_GICD, d); (ENTRY_TYPE_GICR_GICRD, r)] ++ cpuif_entries fs num_pe
  | _ => []
  end.

(** The processor interface, once per PE. *)
Lemma wp_cpu_interfaces left v fs f vs L h w (Q : Z * Z -> GIC_INFO_TABLE * world D -> Prop) n :
  frames_of v fs -> fs !! 2%nat = Some f -> 1 < left -> g_num_pe (g_pal w) = Z.of_nat n ->
  (length vs + n <= length L)%nat ->
  Q (12, Z.of_nat (length vs) + Z.of_nat n)
    (mkGicTable h (filled gic_made 0 (vs ++ replicate n (ENTRY_TYPE_CPUIF, f)) L), w) ->
  wp (gic_cpu_interfaces left 2 2 v 8 (Z.of_nat (length vs))) (mkGicTable h (filled gic_made 0 vs L), w) Q.
Proof.
  destruct f as [b l]. intros Hf Hi Hleft Hn Hroom HQ. unfold gic_cpu_interfaces, pal_pe_get_num.
  rewrite Z.gtb_ltb, (proj2 (Z.ltb_lt _ _) Hleft), (reg_frame_of v fs 2 b l 8 Hf Hi eq_refl).
  change (8 + 4) with 12. dt_steps. rewrite Hn, Nat2Z.id.
  apply (wp_for_each (fun i s => s = (mkGicTable h
    (filled gic_made 0 (vs ++ replicate (Z.to_nat i) (ENTRY_TYPE_CPUIF, (b, l))) L), w))).
  - by rewrite app_nil_r.
  - intros i s Hi' ->. dt_step. eapply wp_gic_edit.
    { apply (at_entry_filled gic_made _ _ (ENTRY_TYPE_CPUIF, (b, l))); [| |done];
        rewrite length_app, length_replicate; lia. }
    dt_steps. replace (Z.to_nat (i + 1)) with (S (Z.to_nat i)) by lia.
    by rewrite replicate_S_end, <- app_assoc.
  - intros s ->. rewrite Z.add_0_l, Nat2Z.id. by dt_steps.
Qed.

(** The whole step: nothing is added when there is no third frame. *)
Lemma wp_cpu_entries v f0 f1 fs vs L h w (Q : Z * Z -> GIC_INFO_TABLE * world D -> Prop) n :
  frames_of v (f0 :: f1 :: fs) -> Z.of_nat (length fs) < 2 ^ 28 -> g_num_pe (g_pal w) = Z.of_nat n ->
  (length (vs ++ cpuif_entries fs n) <= length L)%nat ->
  (forall k, Q (k, Z.of_nat (length (vs ++ cpuif_entries fs n)))
    (mkGicTable h (filled gic_made 0 (vs ++ cpuif_entries fs n) L), w)) ->
  wp (gic_cpu_interfaces (u32 (Z.of_nat (length (f0 :: f1 :: fs)) - 1)) 2 2 v 8 (Z.of_nat (length vs)))
    (mkGicTable h (filled gic_made 0 vs L), w) Q.
Proof.
  intros Hf Hm Hn Hroom HQ. rewrite u32_id by (unfold fits; cbn [length] in *; lia).
  destruct fs as [|f fs]; cbn [cpuif_entries] in *.
  - rewrite app_nil_r in *. unfold gic_cpu_interfaces. change (_ >? 1) with false. by dt_steps.
  - rewrite length_app, length_replicate in Hroom.
    apply (wp_cpu_interfaces _ v (f0 :: f1 :: f :: fs) f vs L h w Q n); [done|done| |done|done|].
    { cbn [length]. lia. }
    specialize (HQ 12). rewrite length_app, length_replicate, Nat2Z.inj_add in HQ. exact HQ.
Qed.

(** ... and the terminator after them. *)
Definition gic_table_of (fs : list (Z * Z)) (num_pe : nat) (L : list GIC_INFO_ENTRY) : option (list GIC_INFO_ENTRY) :=
  at_entry (Z.of_nat (length (gic_entries fs num_pe))) (gic_with_type 0xFF)
    (filled gic_made 0 (gic_entries fs num_pe) L).

(** Counting the ITS nodes, then the terminator. *)
Definition hdr_with_its (n : Z) (h : GIC_INFO_HDR) : GIC_INFO_HDR :=
  mkGicHdr (gic_version h) (num_gicd h) (num_gicrd h) n (num_msi_frame h).

Definition next_its (dt_ptr offset : Z) : Z := fdt_node_offset_by_compatible dt_ptr offset "arm,gic-v3-its".

Lemma wp_its_and_end fuel dt_ptr its g h L L' w (Q : () -> GIC_INFO_TABLE * world D -> Prop) :
  walks (next_its dt_ptr) (-1) its -> (next_its dt_ptr (-1) < 0 <-> its = []) ->
  (length its < fuel)%nat -> num_its h = 0 -> Z.of_nat (length its) < 2 ^ 32 ->
  at_entry g (gic_with_type 0xFF) L = Some L' ->
  Q tt (mkGicTable (hdr_with_its (Z.of_nat (length its)) h) L', w) ->
  wp (gic_v3_its fuel dt_ptr g) (mkGicTable h L, w) (fun r s =>
    wp (match r with Some g => gic_edit g (gic_with_type 0xFF) | None => ret tt end) s Q).
Proof.
  intros Hw Hneg Hf Hn Hbig Hend HQ. unfold gic_v3_its. fold (next_its dt_ptr (-1)).
  destruct (Z.ltb_spec (next_its dt_ptr (-1)) 0) as [Hlt|Hge].
  - rewrite (proj1 Hneg Hlt) in HQ. dt_step. dt_steps. eapply wp_gic_edit; [exact Hend|]. dt_steps.
    destruct h. cbn in *. by rewrite Hn.
  - dt_step.
    apply (wp_while_node (next_its dt_ptr) its (fun i (_ : ()) s =>
      s = (mkGicTable (hdr_with_its (Z.of_nat i) h) L, w)) fuel); [exact Hw|done| | |].
    + unfold hdr_with_its. destruct h. cbn in *. by rewrite Hn.
    + intros i x [] s Hx ->. unfold gic_hdr. dt_steps. eexists. split; [done|].
      pose proof (lookup_lt_Some _ _ _ Hx). unfold hdr_its, hdr_with_its.
      cbn [gic_header gic_info gic_version num_gicd num_gicrd num_its num_msi_frame].
      rewrite u32_id by (unfold fits; lia). do 3 f_equal. lia.
    + intros [] s ->. dt_steps. by eapply wp_gic_edit.
Qed.

(** The terminator always has room. *)
Lemma gic_table_of_is fs n L :
  (length (gic_entries fs n) < length L)%nat -> is_Some (gic_table_of fs n L).
Proof.
  intros Hl. unfold gic_table_of, at_entry. rewrite Nat2Z.id.
  destruct (lookup_lt_is_Some_2 (filled gic_made 0 (gic_entries fs n) L) (length (gic_entries fs n))) as [e ->];
    [by rewrite length_filled|]. by eexists.
Qed.

(** C32: The interrupt controller table built from a device tree with a GICv3 whose node has
    [m] frames of two-cell addresses and sizes and no "redistributor-regions": one
    distributor, one redistributor region and, when there is a third frame, one processor
    interface per PE, all at the third frame; then the terminator. The ITS nodes are
    counted in the header and make no entry. *)
Theorem gic_table_from_dt fuel stack dt_ptr gic v fs its num_pe h L w :
  dtb_of_system_table = Some dt_ptr -> dt_ptr <> 0 -> fdt_check_header dt_ptr = 0 ->
  first_compatible dt_ptr gicv3_dt_arr = Some gic ->
  (let parent := fdt_parent_offset dt_ptr gic in
   fdt_size_cells dt_ptr parent = 2 /\ fdt_address_cells dt_ptr parent = 2) ->
  fdt_getprop_namelen dt_ptr gic "reg" 3 = (Some v, 16 * Z.of_nat (length fs)) ->
  frames_of v fs -> (2 <= length fs)%nat -> Z.of_nat (length fs) < 2 ^ 28 ->
  snd (fdt_getprop_namelen dt_ptr gic "redistributor-regions" 21) < 0 ->
  walks (next_its dt_ptr) (-1) its -> (next_its dt_ptr (-1) < 0 <-> its = []) ->
  (length its < fuel)%nat -> Z.of_nat (length its) < 2 ^ 32 ->
  g_num_pe (g_pal w) = Z.of_nat num_pe -> (length (gic_entries fs num_pe) < length L)%nat ->
  num_gicd h = 0 -> num_gicrd h = 0 -> num_its h = 0 ->
  wp (build (mkGicTable h L) (pal_gic_create_info_table_dt fuel stack)) w (fun t w' => w' = w /\
    Some (gic_info t) = gic_table_of fs num_pe L /\
    gic_header t = mkGicHdr 3 1 1 (Z.of_nat (length its)) (num_msi_frame h)).
Proof.
  intros Hdt Hnz Hhdr Hgic (Hsz & Hac) Hreg Hfs Hm Hm2 Hrd Hits Hneg Hf Hbig Hpe Hroom Hd Hr Hi.
  destruct fs as [|f0 [|f1 fs]]; [cbn in Hm; lia..|].
  destruct L as [|e0 L0]; [cbn in Hroom; lia|].
  change (gic_table_of (f0 :: f1 :: fs) num_pe (e0 :: L0)) with
    (gic_table_of (f0 :: f1 :: fs) num_pe (gic_with_type 0xFF e0 :: L0)).
  change (length (e0 :: L0)) with (length (gic_with_type 0xFF e0 :: L0)) in Hroom.
  set (L1 := gic_with_type 0xFF e0 :: L0) in *.
  destruct (gic_table_of_is (f0 :: f1 :: fs) num_pe L1 Hroom) as [L' HL']. rewrite HL'.
  assert (Hl2 : (2 < length L1)%nat) by (cbn [gic_entries app length] in Hroom; lia).
  apply wp_build. unfold pal_gic_create_info_table_dt. dt_step. dt_step.
  eapply wp_eval; [by apply eval_get_dt_ptr|]. rewrite (proj2 (Z.eqb_neq _ _) Hnz).
  dt_step. eapply wp_gic_edit; [reflexivity|]. fold L1. unfold gic_node. rewrite Hgic. unfold gic_hdr. dt_steps.
  cbn [gic_header gic_info]. rewrite Hsz. change (2 <? 0) with false. dt_steps. rewrite Hac.
  change (2 <? 0) with false. dt_steps. unfold prop_value. rewrite Hreg. cbn [fst snd].
  replace (16 * Z.of_nat (length (f0 :: f1 :: fs)) <? 0) with false by (symmetry; apply Z.ltb_ge; lia).
  change (2 + 2 =? 0) with false. change (2 + 2) with 4. dt_steps.
  replace (16 * Z.of_nat (length (f0 :: f1 :: fs)) / 4 / 4) with (Z.of_nat (length (f0 :: f1 :: fs)))
    by (rewrite Z.div_div, Z.mul_comm by lia; change (4 * 4) with 16; by rewrite Z.div_mul).
  change (<[Z.to_nat 0:=gic_with_type 255 e0]> (e0 :: L0)) with (filled gic_made 0 [] L1).
  eapply (wp_add_frame _ v _ 0 f0 []); [exact Hfs|done|done|done|cbn; lia|]. dt_steps.
  change (3 =? 3) with true. eapply (wp_redistributor dt_ptr gic v _ f1 [_]); [done|exact Hfs|done|done|by cbn|lia|].
  dt_steps. change (3 =? 2) with false. cbn iota.
  cbn [gic_header gic_info app].
  set (two := [(ENTRY_TYPE_GICD, f0); (ENTRY_TYPE_GICR_GICRD, f1)]).
  apply (wp_cpu_entries v f0 f1 fs two L1 _ w _ num_pe); [exact Hfs|cbn [length] in Hm2; lia|exact Hpe| |].
  { subst two. cbn [gic_entries] in Hroom. lia. }
  intros k. dt_steps.
  eapply (wp_its_and_end fuel dt_ptr its); [exact Hits|exact Hneg|exact Hf|by destruct h|exact Hbig| |].
  - exact HL'.
  - destruct h as [hv hd hr hi hm]. cbn in Hd, Hr, Hi. by subst.
Qed.


End pal_gic.

(** Two processors, a GICv3 with a distributor, a redistributor region and a processor
    interface, and two ITS nodes. *)
Definition gic_tree : list dt_node :=
  [mkDtNode 0 (-1) "" [("#address-cells", cells [2]); ("#size-cells", cells [2])];
   mkDtNode 10 0 "intc" [("compatible", bytes_of "arm,gic-v3");
     ("reg", cells [0; 0x8000000; 0; 0x10000; 0; 0x80a0000; 0; 0xf60000; 0; 0x2c000000; 0; 0x2000])];
   mkDtNode 20 10 "its" [("compatible", bytes_of "arm,gic-v3-its"); ("reg", cells [0; 0x8080000; 0; 0x20000])];
   mkDtNode 30 10 "its" [("compatible", bytes_of "arm,gic-v3-its"); ("reg", cells [0; 0x8090000; 0; 0x20000])]].

#[local] Instance gic_tree_fdt : Fdt machine := tree_fdt gic_tree.

Definition blank_gic : GIC_INFO_ENTRY := mkGic 0 0 0 0 0 0 0.
Definition two_pes : world machine := set_g_pal (mkPalGlobals 2 0 0) (boot ∅ ∅).

Lemma gic_table_from_dt_witness :
  wp (build (mkGicTable (mkGicHdr 0 0 0 0 0) (replicate 6 blank_gic)) (pal_gic_create_info_table_dt 8 77)) two_pes
    (fun t _ => t = mkGicTable (mkGicHdr 3 1 1 2 0)
      [mkGic ENTRY_TYPE_GICD 0x8000000 0 0x10000 0 0 0; mkGic ENTRY_TYPE_GICR_GICRD 0x80a0000 0 0xf60000 0 0 0;
       mkGic ENTRY_TYPE_CPUIF 0x2c000000 0 0x2000 0 0 0; mkGic ENTRY_TYPE_CPUIF 0x2c000000 0 0x2000 0 0 0;
       mkGic 0xFF 0 0 0 0 0 0; blank_gic]).
Proof.
  eapply wp_mono; [eapply (gic_table_from_dt 8 77 0x48000000 10
    (cells [0; 0x8000000; 0; 0x10000; 0; 0x80a0000; 0; 0xf60000; 0; 0x2c000000; 0; 0x2000])
    [(0x8000000, 0x10000); (0x80a0000, 0xf60000); (0x2c000000, 0x2000)] [20; 30] 2)|].
  all: try on_tree.
  - split; reflexivity.
  - intros [|[|[|i]]] b l Hi; [injection Hi as <- <-; split; reflexivity..|discriminate].
  - split; [vm_compute|]; congruence.
  - intros [hd tb] w' (_ & Ht & Hh). cbn [gic_header gic_info] in *. subst hd. f_equal. apply (inj Some). by rewrite Ht.
Defined.
