(* ===== verification/PalAcpi.v ===== *)
(** * The platform layer of ACPI systems

    src/platform/pal_uefi/src/, the platform layer built when the firmware describes the
    system with ACPI tables only. Its files pal_misc.c, pal_exerciser.c,
    pal_pcie_enumeration.c, pal_smmu.c and those of src_gic_its/ are the same, byte for
    byte, as those of src/platform/pal_uefi_dt/; here is what differs. The walks over the
    tables are those of the other platform layer, which it takes before it looks for a
    device tree. *)

From S2P Require Import Prelude Types World Machine Pcie Gic Its Fdt PalPe PalGic PalTimer PalPcie PalPeripherals PalIovirt.
#[local] Open Scope c_scope.

(** ** pal_acpi.c *)

(** The driver of the interrupt controller in the firmware is used. *)
Definition pal_bsa_gic_imp : bool := false.

Section pal_acpi.
Context {D : Type} `{Platform D} `{SystemTable D} `{Acpi D}.

#[local] Abbreviation M := (Prelude.M (world D)).

Definition pal_get_madt_ptr : M Z :=
  acpi_lookup ACS_PRINT_ERR "EFI_ACPI_6_1_MULTIPLE_APIC_DESCRIPTION_TABLE_SIGNATURE".
Definition pal_get_gtdt_ptr : M Z :=
  acpi_lookup ACS_PRINT_ERR "EFI_ACPI_6_1_GENERIC_TIMER_DESCRIPTION_TABLE_SIGNATURE".
Definition pal_get_mcfg_ptr : M Z :=
  acpi_lookup ACS_PRINT_ERR "EFI_ACPI_6_1_PCI_EXPRESS_MEMORY_MAPPED_CONFIGURATION_SPACE_BASE_ADDRESS_DESCRIPTION_TABLE_SIGNATURE".
Definition pal_get_spcr_ptr : M Z :=
  acpi_lookup ACS_PRINT_ERR "EFI_ACPI_2_0_SERIAL_PORT_CONSOLE_REDIRECTION_TABLE_SIGNATURE".
Definition pal_get_iort_ptr : M Z := acpi_lookup ACS_PRINT_ERR "EFI_ACPI_6_1_IO_REMAPPING_TABLE_SIGNATURE".

(** ** pal_pe.c *)

(** The maintenance interrupt is copied too. *)
Definition pe_of_gicc (Entry num : Z) (e : PE_INFO_ENTRY) : PE_INFO_ENTRY :=
  pe_with_gmain (gicc_field "VGICMaintenanceInterrupt" Entry) (PalPe.pe_of_gicc Entry num e).

Definition pal_pe_create_info_table (fuel : nat) : Prelude.M (PE_INFO_TABLE * world D) () :=
  let* gMadtHdr := io pal_get_madt_ptr in
  if gMadtHdr =? 0 then io (bsa_print ACS_PRINT_ERR "MADT not found \n" 0)
  else
    io (bsa_print ACS_PRINT_INFO " MADT is at %x and length is %x \n" (madt_table_length gMadtHdr)) ;;
    pe_set_num 0 ;;
    let* '(_, aff) := madt_walk fuel gMadtHdr (pe_madt_entry pe_of_gicc) (0, [0; 0; 0; 0]) in
    pe_set_globals aff ;;
    pe_publish aff.

(** ** pal_gic.c *)

Definition gic_with_msi (id flags count base : Z) (e : GIC_INFO_ENTRY) : GIC_INFO_ENTRY :=
  mkGic (gic_type e) (gic_base e) id (gic_length e) flags count base.

Definition gicmsi_field (f : string) : Z -> Z := acpi_field ("EFI_ACPI_6_1_GIC_MSI_FRAME_STRUCTURE." ++ f)%string.

Definition madt_hypervisor (Entry : Z) : gic_writes :=
  if truthy (gicc_field "GICH" Entry)
  then [(gic_with_range ENTRY_TYPE_GICH (gicc_field "GICH" Entry) 0, id)] else [].

Definition madt_msi_frame (Entry : Z) : gic_writes :=
  if madt_typed Entry "EFI_ACPI_6_1_GIC_MSI_FRAME" then
    [(fun e => gic_with_msi (gicmsi_field "GicMsiFrameId" Entry) (gicmsi_field "Flags" Entry)
        (gicmsi_field "SPICount" Entry) (gicmsi_field "SPIBase" Entry)
        (gic_with_base ENTRY_TYPE_GIC_MSI_FRAME (gicmsi_field "PhysicalBaseAddress" Entry) e), hdr_msi)]
  else [].

Definition madt_entry (Entry : Z) : gic_writes :=
  (if madt_typed Entry "EFI_ACPI_6_1_GIC" then madt_cpu Entry ++ madt_hypervisor Entry else []) ++
  madt_distributor Entry ++ madt_redistributor Entry ++ madt_its Entry ++ madt_msi_frame Entry.

Definition pal_gic_create_info_table (fuel : nat) : Prelude.M (GIC_INFO_TABLE * world D) () :=
  io (modify (fun w => set_g_its (mkItsGlobals (Some 0) (g_gic_its_info (g_its w)) (g_cwriter_ptr (g_its w))
        (g_its_setup_done (g_its w)) (ConfigBase (g_its w))) w)) ;;
  gic_hdr (fun _ => mkGicHdr 0 0 0 0 0) ;;
  let* gMadtHdr := io pal_get_madt_ptr in
  if gMadtHdr =? 0 then io (bsa_print ACS_PRINT_ERR " MADT not found \n" 0)
  else
    io (bsa_print ACS_PRINT_INFO " MADT is at %x and length is %x \n" (madt_table_length gMadtHdr)) ;;
    let* GicEntry := madt_walk fuel gMadtHdr (fun Entry GicEntry => gic_add_all GicEntry (madt_entry Entry)) 0 in
    gic_edit GicEntry (gic_with_type 0xFF).

(** The walk starts at [g_gic_entry] and leaves it where it is. *)
Definition its_walk `{Edk2 D} (fuel : nat) : M () :=
  let* g := gets g_its in
  let* first := need (g_gic_entry g) in
  while_ fuel (fun gic_entry =>
    let* t := gets g_gic_info_table in
    let* t := need t in
    let* e := need (gic_info t !! Z.to_nat gic_entry) in
    if gic_type e =? 0xFF then ret (Break tt)
    else
    let* t := its_info in
    let* t := its_note_entry fuel e t in
    its_set_info (Some t) ;;
    ret (Continue (gic_entry + 1))) first.

Definition pal_gic_its_configure `{Edk2 D} (fuel : nat) : M Z := its_configure (its_walk fuel).

(** ** pal_timer_wd.c *)

Definition pal_timer_create_info_table : Prelude.M (TIMER_INFO_TABLE * world D) () :=
  timer_hdr (hdr_with_num 0) ;;
  let* gGtdtHdr := io pal_get_gtdt_ptr in
  if gGtdtHdr =? 0 then io (bsa_print ACS_PRINT_ERR "GTDT not found \n" 0)
  else pal_timer_from_gtdt gGtdtHdr.

Definition pal_wd_create_info_table : Prelude.M (WD_INFO_TABLE * world D) () :=
  wd_set_num 0 ;;
  let* gGtdtHdr := io pal_get_gtdt_ptr in
  if gGtdtHdr =? 0 then io (bsa_print ACS_PRINT_ERR "GTDT not found \n" 0)
  else pal_wd_create_info_table_acpi gGtdtHdr.

(** ** pal_pcie.c *)

(** The base address of the first allocation structure, whether the table has one or not. *)
Definition pal_pcie_get_mcfg_ecam : M Z :=
  let* gMcfgHdr := pal_get_mcfg_ptr in
  if gMcfgHdr =? 0 then
    bsa_print ACS_PRINT_WARN "ACPI - MCFG Table not found. Setting ECAM Base to 0. \n" 0 ;; ret 0
  else ret (mcfg_field "BaseAddress" (mcfg_first gMcfgHdr)).

Definition pal_pcie_create_info_table (fuel : nat) : Prelude.M (PCIE_INFO_TABLE * world D) () :=
  ecam_set_num 0 ;;
  let* gMcfgHdr := io pal_get_mcfg_ptr in
  if gMcfgHdr =? 0 then io (bsa_print ACS_PRINT_DEBUG "ACPI - MCFG Table not found. \n" 0)
  else ecam_from_mcfg fuel gMcfgHdr.

(** The firmware has numbered the buses. *)
Definition pal_bsa_pcie_enumerate : M Z := ret 0.

(** ** pal_peripherals.c *)

Definition pal_peripheral_create_info_table `{PciIo D} (fuel : nat) : Prelude.M (PERIPHERAL_INFO_TABLE * world D) () :=
  per_set usb_count 0 ;; per_set sata_count 0 ;; per_set uart_count 0 ;;
  let* per_info := pci_controllers fuel USB_CLASSCODE PERIPHERAL_TYPE_USB usb_count "Found a USB controller %4x \n" 0 in
  let* per_info :=
    pci_controllers fuel SATA_CLASSCODE PERIPHERAL_TYPE_SATA sata_count "Found a SATA controller %4x \n" per_info in
  let* spcr := io pal_get_spcr_ptr in
  let* per_info := per_from_spcr spcr per_info in
  let* per_info := per_generic_uart per_info in
  per_edit per_info (per_with_type 0xFF).

(** ** pal_iovirt.c *)

Definition pal_iovirt_create_info_table `{AsciiCopy D} (fuel : nat) : Prelude.M (gmap Z Z * world D) () :=
  clear_counters ;;
  if truthy PLATFORM_OVERRIDE_SMMU_BASE then iovirt_create_override_table
  else
  let* iort := io pal_get_iort_ptr in
  if iort =? 0 then ret tt else iovirt_from_iort fuel iort.
End pal_acpi.
