(* ===== verification/PalMadt.v ===== *)
(** * The platform layer: what is made of the ACPI MADT

    The tables of the processors and of the interrupt controllers, as both platform layers
    build them from the interrupt controller structures of the firmware. *)

From S2P Require Import Prelude Types World Machine Gic Fdt PalPe PalGic PalAcpi.
#[local] Open Scope c_scope.

Section madt.
Context {D : Type} `{Platform D} `{SystemTable D} `{Acpi D}.

(** *** The PEs *)

Definition is_gicc (x : Z) : bool := madt_typed x "EFI_ACPI_6_1_GIC".
Definition gicc_mpidr : Z -> Z := gicc_field "MPIDR".

Definition pe_made (fill : Z -> Z -> PE_INFO_ENTRY -> PE_INFO_ENTRY) (k x : Z) : PE_INFO_ENTRY -> PE_INFO_ENTRY := fill x k.

Lemma wp_pe_madt_entry fill x xs L aff w (Q : Z * list Z -> PE_INFO_TABLE * world D -> Prop) :
  Forall (fun y => is_gicc y = true) xs ->
  (length (List.filter is_gicc (xs ++ [x])) <= length L)%nat -> Z.of_nat (length L) < 2 ^ 32 ->
  (forall d, let ys := List.filter is_gicc (xs ++ [x]) in
    Q (Z.of_nat (length ys), foldl aff_max_update aff (gicc_mpidr <$> List.filter is_gicc [x]))
      (mkPETable (Z.of_nat (length ys)) (filled (pe_made fill) 0 ys L), set_dev d w)) ->
  wp (pe_madt_entry fill x (Z.of_nat (length xs), aff))
    (mkPETable (Z.of_nat (length xs)) (filled (pe_made fill) 0 xs L), w) Q.
Proof.
  intros Hxs. rewrite List.filter_app. replace (List.filter is_gicc xs) with xs.
  2: { symmetry. induction Hxs as [|y ys Hy _ IH]; [done|]. cbn. by rewrite Hy, IH. }
  unfold pe_madt_entry. fold (madt_typed x "EFI_ACPI_6_1_GIC"). fold (is_gicc x). cbn [List.filter].
  destruct (is_gicc x); cbn [fmap list_fmap foldl]; intros Hroom Hsz HQ.
  - rewrite length_app in Hroom. cbn in Hroom. dt_steps. unfold pe_add. dt_steps.
    eapply wp_pe_entry; [by apply (at_entry_filled (pe_made fill) _ xs x); [|lia|]|].
    dt_steps. apply wp_clean. intros d. unfold pe_set_num. dt_steps. cbn [num_of_pe pe_info].
    specialize (HQ d). rewrite length_app in HQ. cbn in HQ. rewrite Nat2Z.inj_add in HQ.
    rewrite u32_id by (unfold fits; lia). apply HQ.
  - dt_steps. specialize (HQ (dev w)). rewrite set_dev_id, app_nil_r in HQ. apply HQ.
Qed.

Lemma filter_idem (l : list Z) : List.filter is_gicc (List.filter is_gicc l) = List.filter is_gicc l.
Proof. induction l as [|x l IH]; cbn; [done|]. destruct (is_gicc x) eqn:E; cbn; [by rewrite E, IH|done]. Qed.

Lemma gicc_prefix l i : (length (List.filter is_gicc (take i l)) <= length (List.filter is_gicc l))%nat.
Proof. rewrite <- (take_drop i l) at 2. rewrite List.filter_app, length_app. lia. Qed.

(** The state of a builder of the PEs once it has visited these structures. *)
Definition pe_walked (fill : Z -> Z -> PE_INFO_ENTRY -> PE_INFO_ENTRY) (L : list PE_INFO_ENTRY) (w : world D)
    (l : list Z) (a : Z * list Z) (s : PE_INFO_TABLE * world D) : Prop :=
  let pes := List.filter is_gicc l in exists d,
    a = (Z.of_nat (length pes), foldl aff_max_update [0; 0; 0; 0] (gicc_mpidr <$> pes)) /\
    s = (mkPETable (Z.of_nat (length pes)) (filled (pe_made fill) 0 pes L), set_dev d w).

Lemma wp_pe_visit fill L w l x a s :
  (length (List.filter is_gicc (l ++ [x])) <= length L)%nat -> Z.of_nat (length L) < 2 ^ 32 ->
  pe_walked fill L w l a s -> wp (pe_madt_entry fill x a) s (pe_walked fill L w (l ++ [x])).
Proof.
  intros Hroom Hsz (d & -> & ->). rewrite List.filter_app in Hroom.
  apply wp_pe_madt_entry; [|by rewrite List.filter_app, filter_idem|done|].
  - apply Forall_forall. intros y Hy%list_elem_of_In. by apply filter_In in Hy as [_ ?].
  - intros d' ys. exists d'. unfold ys. by rewrite !List.filter_app, filter_idem, fmap_app, foldl_app.
Qed.

Lemma pe_walked_none fill L (w : world D) : pe_walked fill L w [] (0, [0; 0; 0; 0]) (mkPETable 0 L, w).
Proof. exists (dev w). rewrite set_dev_id. by destruct L. Qed.

(** What both platform layers do with an MADT. *)
Lemma wp_pe_from_madt fill fuel madt l L n0 (w : world D) (Q : () -> PE_INFO_TABLE * world D -> Prop) :
  let pes := List.filter is_gicc l in
  madt_structures madt l -> (length l <= fuel)%nat -> (length pes <= length L)%nat -> Z.of_nat (length L) < 2 ^ 32 ->
  (forall w', g_num_pe (g_pal w') = Z.of_nat (length pes) ->
     Forall (fun mask => Z.land (gMpidrMax (g_pal w')) mask = greatest mask (gicc_mpidr <$> pes)) aff_masks ->
     Q tt (mkPETable (Z.of_nat (length pes)) (filled (pe_made fill) 0 pes L), w')) ->
  wp (io (bsa_print ACS_PRINT_INFO " MADT is at %x and length is %x \n" (madt_table_length madt)) ;;
      pe_set_num 0 ;;
      let* '(_, aff) := madt_walk fuel madt (pe_madt_entry fill) (0, [0; 0; 0; 0]) in
      pe_set_globals aff ;; pe_publish aff) (mkPETable n0 L, w) Q.
Proof.
  intros pes Hl Hf Hroom Hsz HQ. dt_steps. unfold pe_set_num. dt_steps.
  apply (wp_madt_walk l (fun i => pe_walked fill L w (take i l))); [done|done| | |].
  - apply pe_walked_none.
  - intros i x a s Hx Ha. rewrite (take_S_r l i x Hx). apply wp_pe_visit; [|done|done].
    rewrite <- (take_S_r l i x Hx). pose proof (gicc_prefix l (S i)). unfold pes in Hroom. lia.
  - rewrite take_ge by done. intros a s (d & -> & ->). fold pes. dt_steps. unfold pe_set_globals, pal_modify. dt_steps.
    apply wp_publish. intros w' Hn Hm. apply HQ; [by rewrite Hn|]. rewrite Hm. apply aff_max_fields.
Qed.

(** C34: From an MADT, the table of the PEs has one entry per processor structure, in the
    order of the MADT: its index, affinity and performance interrupt, and on an ACPI system
    its maintenance interrupt, which the other platform layer leaves as it was. The entries
    beyond are not touched; the number of PEs and the greatest value of each affinity field
    are kept in the globals. *)
Theorem pe_table_from_madt `{Fdt D} fuel madt l L n0 (w : world D) :
  acpi_found "EFI_ACPI_6_1_MULTIPLE_APIC_DESCRIPTION_TABLE_SIGNATURE" = madt -> madt <> 0 ->
  madt_structures madt l -> (length l <= fuel)%nat ->
  let pes := List.filter is_gicc l in (length pes <= length L)%nat -> Z.of_nat (length L) < 2 ^ 32 ->
  let built (builder : Prelude.M (PE_INFO_TABLE * world D) ()) (gmain : Z -> Z -> Z) :=
    wp (build (mkPETable n0 L) builder) w (fun t w' =>
      t = mkPETable (Z.of_nat (length pes))
            (filled (fun k x e => mkPE k (pe_attr e) (gicc_field "MPIDR" x)
               (gicc_field "PerformanceInterruptGsiv" x) (gmain x (pe_gmain_gsiv e))) 0 pes L) /\
      g_num_pe (g_pal w') = Z.of_nat (length pes) /\
      Forall (fun mask => Z.land (gMpidrMax (g_pal w')) mask = greatest mask (gicc_mpidr <$> pes)) aff_masks) in
  built (pal_pe_create_info_table fuel) (fun x _ => gicc_field "VGICMaintenanceInterrupt" x) /\
  built (PalPe.pal_pe_create_info_table fuel) (fun _ old => old).
Proof.
  intros Hm Hnz Hl Hf pes Hroom Hsz built. split; apply wp_build.
  - unfold pal_pe_create_info_table. dt_step. dt_step. eapply wp_eval; [apply eval_acpi_lookup|].
    rewrite Hm, (proj2 (Z.eqb_neq _ _) Hnz). by apply (wp_pe_from_madt _ _ _ l).
  - unfold PalPe.pal_pe_create_info_table. dt_step. dt_step. eapply wp_eval; [apply eval_acpi_lookup|].
    rewrite Hm, (proj2 (Z.eqb_neq _ _) Hnz). by apply (wp_pe_from_madt _ _ _ l).
Qed.

Lemma diverges_from_madt fill fuel madt L n0 (w : world D) :
  diverges (madt_walk fuel madt (pe_madt_entry fill) (0, [0; 0; 0; 0])) (mkPETable 0 L, w) ->
  diverges (io (bsa_print ACS_PRINT_INFO " MADT is at %x and length is %x \n" (madt_table_length madt)) ;;
      pe_set_num 0 ;;
      let* '(_, aff) := madt_walk fuel madt (pe_madt_entry fill) (0, [0; 0; 0; 0]) in
      pe_set_globals aff ;; pe_publish aff) (mkPETable n0 L, w).
Proof.
  intros Hd. apply (diverges_bind_eval _ _ _ tt (mkPETable n0 L, w)); [by apply wp_io, wp_bsa_print|].
  apply (diverges_bind_eval _ _ _ tt (mkPETable 0 L, w)); [by apply wp_edit|].
  by apply diverges_bind.
Qed.

(** C36: When a structure of the MADT has length 0 and is not a processor, the builders of the
    PE table of both platform layers visit it for ever: no fuel is enough. *)
Theorem madt_zero_length_hangs `{Fdt D} fuel madt l next L n0 (w : world D) :
  acpi_found "EFI_ACPI_6_1_MULTIPLE_APIC_DESCRIPTION_TABLE_SIGNATURE" = madt -> madt <> 0 ->
  madt_prefix (madt_table_length madt) (madt + madt_header) madt_header l next ->
  madt_length next = 0 -> is_gicc next = false ->
  (length (List.filter is_gicc l) <= length L)%nat -> Z.of_nat (length L) < 2 ^ 32 ->
  diverges (build (mkPETable n0 L) (pal_pe_create_info_table fuel)) w /\
  diverges (build (mkPETable n0 L) (PalPe.pal_pe_create_info_table fuel)) w.
Proof.
  intros Hm Hnz Hp Hz Hg Hroom Hsz.
  assert (Hloop : forall fill, diverges (madt_walk fuel madt (pe_madt_entry fill) (0, [0; 0; 0; 0])) (mkPETable 0 L, w)).
  { intros fill. apply (madt_walk_diverges l (fun i => pe_walked fill L w (take i l)) next); [done|done| | |].
    - apply pe_walked_none.
    - intros i x a s Hx Ha. rewrite (take_S_r l i x Hx). apply wp_pe_visit; [|done|done].
      rewrite <- (take_S_r l i x Hx). pose proof (gicc_prefix l (S i)). lia.
    - rewrite take_ge by done. intros a s Ha. eapply wp_mono; [apply (wp_pe_visit fill L w l); [|done|exact Ha]|].
      + rewrite List.filter_app, length_app. cbn. rewrite Hg. cbn. lia.
      + intros b t (d & -> & ->). exists d. rewrite !List.filter_app. cbn. by rewrite Hg, app_nil_r. }
  split; apply diverges_build.
  - apply (diverges_bind_eval _ _ _ madt (mkPETable n0 L, w)).
    + apply eval_io. rewrite <- Hm. apply eval_acpi_lookup.
    + rewrite (proj2 (Z.eqb_neq _ _) Hnz). by apply diverges_from_madt.
  - apply (diverges_bind_eval _ _ _ madt (mkPETable n0 L, w)).
    + apply eval_io. rewrite <- Hm. apply eval_acpi_lookup.
    + rewrite (proj2 (Z.eqb_neq _ _) Hnz). by apply diverges_from_madt.
Qed.

(** *** The interrupt controller *)

Definition gic_written (_ : Z) (g : (GIC_INFO_ENTRY -> GIC_INFO_ENTRY) * (GIC_INFO_HDR -> GIC_INFO_HDR))
  : GIC_INFO_ENTRY -> GIC_INFO_ENTRY := fst g.
Definition gic_counted (ws : gic_writes) (h : GIC_INFO_HDR) : GIC_INFO_HDR := foldl (fun h g => snd g h) h ws.

Lemma wp_gic_add_all ws vs h L w (Q : Z -> GIC_INFO_TABLE * world D -> Prop) :
  (length (vs ++ ws) <= length L)%nat ->
  Q (Z.of_nat (length (vs ++ ws))) (mkGicTable (gic_counted ws h) (filled gic_written 0 (vs ++ ws) L), w) ->
  wp (gic_add_all (Z.of_nat (length vs)) ws) (mkGicTable h (filled gic_written 0 vs L), w) Q.
Proof.
  revert vs h. induction ws as [|[f g] ws IH]; intros vs h; cbn [gic_add_all].
  - rewrite app_nil_r. intros _ HQ. by dt_steps.
  - replace (vs ++ (f, g) :: ws) with ((vs ++ [(f, g)]) ++ ws) by (by rewrite <- app_assoc).
    intros Hroom HQ. assert (length vs < length L)%nat by (rewrite !length_app in Hroom; cbn in Hroom; lia).
    dt_steps. eapply wp_gic_edit; [by apply (at_entry_filled gic_written f vs (f, g))|].
    dt_steps. unfold gic_hdr. dt_steps. cbn [gic_header gic_info].
    replace (Z.of_nat (length vs) + 1) with (Z.of_nat (length (vs ++ [(f, g)]))) by (rewrite length_app; cbn; lia).
    by apply IH.
Qed.

(** A write of an entry that is not the last, and of the counter of its type. *)
Definition gicrd_type (t : Z) : bool := (t =? ENTRY_TYPE_GICR_GICRD) || (t =? ENTRY_TYPE_GICC_GICRD).
Definition one_more (b : bool) (n : Z) : Z := if b then u32 (n + 1) else n.

Record gic_write_ok (g : (GIC_INFO_ENTRY -> GIC_INFO_ENTRY) * (GIC_INFO_HDR -> GIC_INFO_HDR)) (t : Z) : Prop := {
  gw_type : forall e, gic_type (fst g e) = t;
  gw_last : t <> 0xFF;
  gw_gicd : forall h, num_gicd (snd g h) = one_more (t =? ENTRY_TYPE_GICD) (num_gicd h);
  gw_gicrd : forall h, num_gicrd (snd g h) = one_more (gicrd_type t) (num_gicrd h);
  gw_its : forall h, num_its (snd g h) = one_more (t =? ENTRY_TYPE_GICITS) (num_its h);
  gw_msi : forall h, num_msi_frame (snd g h) = one_more (t =? ENTRY_TYPE_GIC_MSI_FRAME) (num_msi_frame h)
}.

Ltac writes_ok :=
  repeat first [apply Forall_app_2 | apply List.Forall_nil | apply List.Forall_cons; [eexists; split; [intros e; cbn; reflexivity|done|intros h; reflexivity..]|] | case_match].

Lemma madt_entry_ok x : Forall (fun g => exists t, gic_write_ok g t) (madt_entry x).
Proof.
  unfold madt_entry, madt_cpu, madt_hypervisor, madt_distributor, madt_redistributor, madt_its, madt_msi_frame.
  writes_ok.
Qed.
Lemma dt_madt_entry_ok x : Forall (fun g => exists t, gic_write_ok g t) (PalGic.madt_entry x).
Proof.
  unfold PalGic.madt_entry, madt_cpu, madt_distributor, madt_redistributor, madt_its.
  writes_ok.
Qed.

(** How many entries are of a type. *)
Definition count_types (p : Z -> bool) (es : list GIC_INFO_ENTRY) : Z :=
  Z.of_nat (length (List.filter (fun e => p (gic_type e)) es)).

Definition gic_counts (h : GIC_INFO_HDR) (es : list GIC_INFO_ENTRY) : Prop :=
  num_gicd h = count_types (fun t => t =? ENTRY_TYPE_GICD) es /\ num_gicrd h = count_types gicrd_type es /\
  num_its h = count_types (fun t => t =? ENTRY_TYPE_GICITS) es /\
  num_msi_frame h = count_types (fun t => t =? ENTRY_TYPE_GIC_MSI_FRAME) es.

Lemma count_types_app p es es' : count_types p (es ++ es') = count_types p es + count_types p es'.
Proof. unfold count_types. rewrite List.filter_app, length_app. lia. Qed.

Lemma count_types_one p e : count_types p [e] = if p (gic_type e) then 1 else 0.
Proof. unfold count_types. cbn. by destruct (p (gic_type e)). Qed.

Lemma count_types_le p es : count_types p es <= Z.of_nat (length es).
Proof. unfold count_types. pose proof (List.filter_length_le (fun e => p (gic_type e)) es). lia. Qed.

Lemma one_more_count p es e n :
  Z.of_nat (length (es ++ [e])) < 2 ^ 32 -> n = count_types p es ->
  one_more (p (gic_type e)) n = count_types p (es ++ [e]).
Proof.
  intros Hl ->. rewrite count_types_app, count_types_one, length_app in *. unfold one_more.
  pose proof (count_types_le p es). cbn in Hl. destruct (p (gic_type e)); [|lia].
  apply u32_id. unfold fits, count_types in *. lia.
Qed.

(** The entries that such writes make of the entries of a table. *)
Definition gic_entries_of (ws : gic_writes) (L : list GIC_INFO_ENTRY) : list GIC_INFO_ENTRY :=
  zip_with (fun g e => fst g e) ws L.

Lemma gic_counted_counts ws es h L :
  Forall (fun g => exists t, gic_write_ok g t) ws -> Z.of_nat (length es + length ws) < 2 ^ 32 ->
  (length ws <= length L)%nat -> gic_counts h es ->
  gic_counts (gic_counted ws h) (es ++ gic_entries_of ws L).
Proof.
  intros Hws. revert es h L. induction Hws as [|g ws (t & Hg) _ IH]; intros es h L Hsz Hroom Hh.
  - by rewrite app_nil_r.
  - destruct L as [|e L]; [cbn in Hroom; lia|]. cbn [gic_counted foldl gic_entries_of zip_with length] in *.
    replace (es ++ fst g e :: zip_with (fun g e => fst g e) ws L) with ((es ++ [fst g e]) ++ gic_entries_of ws L)
      by (by rewrite <- app_assoc).
    apply IH; [rewrite length_app; cbn; lia|lia|]. destruct Hh as (H1' & H2' & H3' & H4').
    assert (Hl : Z.of_nat (length (es ++ [fst g e])) < 2 ^ 32) by (rewrite length_app; cbn; lia).
    pose proof (gw_type g t Hg e) as Ht. rewrite <- Ht in Hg. unfold gic_counts.
    rewrite (gw_gicd _ _ Hg), (gw_gicrd _ _ Hg), (gw_its _ _ Hg), (gw_msi _ _ Hg).
    repeat split.
    + by apply (one_more_count (fun t => t =? ENTRY_TYPE_GICD)).
    + by apply (one_more_count gicrd_type).
    + by apply (one_more_count (fun t => t =? ENTRY_TYPE_GICITS)).
    + by apply (one_more_count (fun t => t =? ENTRY_TYPE_GIC_MSI_FRAME)).
Qed.

(** The written entries, the terminator and what was there after it. *)
Lemma filled_written ws k L : (length ws <= length L)%nat ->
  filled gic_written k ws L = gic_entries_of ws L ++ drop (length ws) L.
Proof.
  revert k L. induction ws as [|g ws IH]; intros k [|e L] Hl; cbn in *; try done; try lia.
  rewrite IH by lia. done.
Qed.

Lemma length_entries_of ws L : (length ws <= length L)%nat -> length (gic_entries_of ws L) = length ws.
Proof. intros Hl. unfold gic_entries_of. rewrite length_zip_with. lia. Qed.

Lemma entries_terminated ws L : (length ws < length L)%nat ->
  exists x rest, gic_type x = 0xFF /\
    at_entry (Z.of_nat (length ws)) (gic_with_type 0xFF) (filled gic_written 0 ws L) =
      Some ((gic_entries_of ws L ++ [x]) ++ rest).
Proof.
  intros Hl. destruct (lookup_lt_is_Some_2 L _ Hl) as [e He].
  exists (gic_with_type 0xFF e), (drop (S (length ws)) L). split; [done|].
  unfold at_entry. rewrite Nat2Z.id, filled_written by lia.
  pose proof (length_entries_of ws L) as Hes. rewrite (drop_S _ _ _ He).
  rewrite lookup_app_r, Hes, Nat.sub_diag by lia. cbn. f_equal.
  rewrite insert_app_r_alt, Hes, Nat.sub_diag by lia. by rewrite <- app_assoc.
Qed.

Lemma entries_not_last ws L : Forall (fun g => exists t, gic_write_ok g t) ws ->
  forallb (fun e => negb (gic_last e)) (gic_entries_of ws L) = true.
Proof.
  intros Hws. revert L. induction Hws as [|g ws (t & Hg) _ IH]; intros [|e L]; try done.
  cbn. unfold gic_last at 1. rewrite (gw_type g t Hg), (proj2 (Z.eqb_neq _ _) (gw_last g t Hg)). apply IH.
Qed.

Lemma wp_gic_from_madt entries fuel madt l h L (w : world D) (Q : () -> GIC_INFO_TABLE * world D -> Prop) :
  let ws := flat_map entries l in
  madt_structures madt l -> (length l <= fuel)%nat -> (length ws < length L)%nat ->
  (forall L', at_entry (Z.of_nat (length ws)) (gic_with_type 0xFF) (filled gic_written 0 ws L) = Some L' ->
     Q tt (mkGicTable (gic_counted ws h) L', w)) ->
  wp (io (bsa_print ACS_PRINT_INFO " MADT is at %x and length is %x \n" (madt_table_length madt)) ;;
      let* GicEntry := madt_walk fuel madt (fun Entry GicEntry => gic_add_all GicEntry (entries Entry)) 0 in
      gic_edit GicEntry (gic_with_type 0xFF)) (mkGicTable h L, w) Q.
Proof.
  intros ws Hl Hf Hroom HQ. dt_steps.
  apply (wp_madt_walk l (fun i a s => let vs := flat_map entries (take i l) in
    a = Z.of_nat (length vs) /\ s = (mkGicTable (gic_counted vs h) (filled gic_written 0 vs L), w))); [done|done| | |].
  - by destruct L.
  - intros i x a s Hx (-> & ->). rewrite (take_S_r l i x Hx), flat_map_app. cbn [flat_map]. rewrite app_nil_r.
    apply wp_gic_add_all; [|split; [done|]].
    + unfold ws in Hroom. rewrite <- (take_drop_middle l i x Hx), flat_map_app in Hroom. cbn [flat_map] in Hroom.
      rewrite !length_app in Hroom. rewrite length_app. lia.
    + unfold gic_counted. by rewrite foldl_app.
  - rewrite take_ge by done. intros a s (-> & ->). fold ws.
    destruct (entries_terminated ws L Hroom) as (x & rest & _ & Hat).
    eapply wp_gic_edit; [exact Hat|]. by apply HQ.
Qed.

(** The distributor of the table is that of the first structure of a distributor. *)
Lemma find_gicd_writes ws L :
  Forall (fun g => exists t, gic_write_ok g t /\ t <> ENTRY_TYPE_GICD) ws ->
  List.find (fun e => gic_type e =? ENTRY_TYPE_GICD) (gic_entries_of ws L) = None.
Proof.
  intros Hws. revert L. induction Hws as [|g ws (t & Hg & Ht) _ IH]; intros [|e L]; try done.
  cbn. rewrite (gw_type g t Hg), (proj2 (Z.eqb_neq _ _) Ht). apply IH.
Qed.

Lemma entries_of_app ws ws' L :
  gic_entries_of (ws ++ ws') L = gic_entries_of ws L ++ gic_entries_of ws' (drop (length ws) L).
Proof.
  revert L. induction ws as [|g ws IH]; intros [|e L]; cbn; [by rewrite ?drop_0..|by destruct ws'|].
  f_equal. apply IH.
Qed.

Definition no_gicd (ws : gic_writes) : Prop := Forall (fun g => exists t, gic_write_ok g t /\ t <> ENTRY_TYPE_GICD) ws.

Definition gicd_once (entries : Z -> gic_writes) : Prop :=
  forall x, exists pre post, entries x = pre ++ madt_distributor x ++ post /\ no_gicd pre /\ no_gicd post.

Ltac no_gicd_ok :=
  unfold no_gicd, madt_cpu, madt_hypervisor, madt_redistributor, madt_its, madt_msi_frame;
  repeat first [apply Forall_app_2 | apply List.Forall_nil
    | apply List.Forall_cons; [eexists; split; [split; [intros e; cbn; reflexivity|done|intros h; reflexivity..]|done]|]
    | case_match].

Lemma madt_entry_gicd : gicd_once madt_entry.
Proof. intros x. eexists _, _. split; [reflexivity|]. split; no_gicd_ok. Qed.
Lemma dt_madt_entry_gicd : gicd_once PalGic.madt_entry.
Proof. intros x. eexists _, _. split; [reflexivity|]. split; no_gicd_ok. Qed.

Lemma find_in_app {X} (p : X -> bool) l l' :
  List.find p (l ++ l') = match List.find p l with Some x => Some x | None => List.find p l' end.
Proof. induction l as [|x l IH]; cbn; [done|]. by destruct (p x). Qed.

Lemma base_of_gicd entries l L : gicd_once entries -> (length (flat_map entries l) <= length L)%nat ->
  base_of (gic_entries_of (flat_map entries l) L) ENTRY_TYPE_GICD =
  match List.find (fun x => madt_typed x "EFI_ACPI_6_1_GICD") l with
  | Some x => gicd_field "PhysicalBaseAddress" x
  | None => 0
  end.
Proof.
  intros He. unfold base_of. revert L. induction l as [|x l IH]; intros L Hl; [done|].
  cbn [flat_map List.find] in *. destruct (He x) as (pre & post & E & Hpre & Hpost). rewrite E in Hl |- *.
  rewrite !entries_of_app, !find_in_app, find_gicd_writes, (find_gicd_writes post) by done.
  unfold madt_distributor in *. destruct (madt_typed x "EFI_ACPI_6_1_GICD").
  - destruct (drop (length pre) L) as [|e L'] eqn:Ed; [|done]. exfalso.
    apply (f_equal length) in Ed. rewrite length_drop in Ed. rewrite !length_app in Hl. cbn [length] in *. lia.
  - cbn [gic_entries_of zip_with List.find app] in *. rewrite ?drop_drop. apply IH.
    rewrite !length_app in Hl. rewrite length_drop. cbn [app length]. rewrite ?length_app. lia.
Qed.

(** What the validation layer finds in the table. *)
Definition gic_ready (entries : Z -> gic_writes) (l : list Z) (L : list GIC_INFO_ENTRY) (t : GIC_INFO_TABLE)
    (w : world D) : Prop :=
  let es := gic_entries_of (flat_map entries l) L in
  (exists x, gic_table (set_g_gic_info_table (Some t) w) (gic_version (gic_header t)) es x) /\
  gic_counts (gic_header t) es /\
  base_of es ENTRY_TYPE_GICD =
    match List.find (fun x => madt_typed x "EFI_ACPI_6_1_GICD") l with
    | Some x => gicd_field "PhysicalBaseAddress" x
    | None => 0
    end.

Lemma gic_made_ready entries l L L' (w : world D) :
  let ws := flat_map entries l in (length ws < length L)%nat -> Z.of_nat (length L) < 2 ^ 32 ->
  (forall x, Forall (fun g => exists t, gic_write_ok g t) (entries x)) -> gicd_once entries ->
  at_entry (Z.of_nat (length ws)) (gic_with_type 0xFF) (filled gic_written 0 ws L) = Some L' ->
  gic_ready entries l L (mkGicTable (gic_counted ws (mkGicHdr 0 0 0 0 0)) L') w.
Proof.
  intros ws Hroom Hsz Hok Hd HL'.
  assert (Hws : Forall (fun g => exists t, gic_write_ok g t) ws).
  { unfold ws. apply Forall_forall. intros g Hg%list_elem_of_In%in_flat_map. destruct Hg as (x & _ & Hg%list_elem_of_In).
    exact (proj1 (Forall_forall _ _) (Hok x) g Hg). }
  destruct (entries_terminated ws L Hroom) as (x & rest & Hx & Hat). rewrite Hat in HL'. injection HL' as <-.
  split; [|split].
  - eexists x, _, rest. split; [done|]. split; [done|]. split; [done|]. split; [by apply entries_not_last|].
    unfold gic_last. by rewrite Hx.
  - apply (gic_counted_counts ws [] _ L Hws); [cbn; lia|lia|done].
  - apply base_of_gicd; [done|fold ws; lia].
Qed.

(** C35: From an MADT, the table of the interrupt controllers of both platform layers is one
    the validation layer can query: its entries, none of which is taken for the last, then
    the last, and each counter of the header is the number of entries of its type. The
    distributor found in it is the first of the MADT. *)
Theorem gic_table_from_madt `{Fdt D} fuel stack madt l h L (w : world D) :
  acpi_found "EFI_ACPI_6_1_MULTIPLE_APIC_DESCRIPTION_TABLE_SIGNATURE" = madt -> madt <> 0 ->
  madt_structures madt l -> (length l <= fuel)%nat -> Z.of_nat (length L) < 2 ^ 32 ->
  let built (builder : Prelude.M (GIC_INFO_TABLE * world D) ()) (entries : Z -> gic_writes) :=
    let ws := flat_map entries l in (length ws < length L)%nat ->
    wp (build (mkGicTable h L) builder) w (fun t w' =>
      gic_ready entries l L t w' /\ g_gic_entry (g_its w') = Some 0) in
  built (pal_gic_create_info_table fuel) madt_entry /\
  built (PalGic.pal_gic_create_info_table fuel stack) PalGic.madt_entry.
Proof.
  intros Hm Hnz Hl Hf Hsz built.
  split; unfold built; intros Hroom; apply wp_build.
  - unfold pal_gic_create_info_table. dt_steps. unfold gic_hdr. dt_steps. cbn [gic_info].
    eapply wp_eval; [apply eval_acpi_lookup|]. rewrite Hm, (proj2 (Z.eqb_neq _ _) Hnz).
    apply (wp_gic_from_madt _ _ _ l); [done|done|done|]. intros L' HL'. split; [|done].
    by apply gic_made_ready; [..|apply madt_entry_ok|apply madt_entry_gicd|].
  - unfold PalGic.pal_gic_create_info_table. dt_steps. unfold gic_hdr. dt_steps. cbn [gic_info].
    eapply wp_eval; [apply eval_acpi_lookup|]. rewrite Hm, (proj2 (Z.eqb_neq _ _) Hnz).
    apply (wp_gic_from_madt _ _ _ l); [done|done|done|]. intros L' HL'. split; [|done].
    by apply gic_made_ready; [..|apply dt_madt_entry_ok|apply dt_madt_entry_gicd|].
Qed.
End madt.

(** ** ACPI tables in memory

    The memory of the firmware as words by address, and where the fields of the structures
    are (ACPI 6.1). *)

Definition acpi_ram : Type := list (Z * list Z).

Definition ram_words (ws : acpi_ram) : gmap Z Z :=
  list_to_map (mjoin ((fun '(a, l) => imap (fun i v => (a + 4 * Z.of_nat i, v)) l) <$> ws)).
Definition ram_byte (ws : acpi_ram) (a : Z) : Z :=
  Z.land (Z.shiftr (default 0 (ram_words ws !! (4 * (a / 4)))) (8 * (a mod 4))) 0xFF.
Fixpoint ram_load (ws : acpi_ram) (n : nat) (a : Z) : Z :=
  match n with O => 0 | S n => ram_byte ws a + 256 * ram_load ws n (a + 1) end.

Definition acpi_fields : list (string * list (string * (Z * nat))) :=
  [("EFI_ACPI_6_1_ROOT_SYSTEM_DESCRIPTION_POINTER", [("XsdtAddress", (24, 8%nat))]);
   ("EFI_ACPI_DESCRIPTION_HEADER", [("Length", (4, 4%nat))]);
   ("EFI_ACPI_6_1_GIC_STRUCTURE",
     [("Type", (0, 1%nat)); ("Length", (1, 1%nat)); ("PerformanceInterruptGsiv", (20, 4%nat));
      ("PhysicalBaseAddress", (32, 8%nat)); ("GICH", (48, 8%nat)); ("VGICMaintenanceInterrupt", (56, 4%nat));
      ("GICRBaseAddress", (60, 8%nat)); ("MPIDR", (68, 8%nat))]);
   ("EFI_ACPI_6_1_GIC_DISTRIBUTOR_STRUCTURE", [("PhysicalBaseAddress", (8, 8%nat)); ("GicVersion", (20, 1%nat))]);
   ("EFI_ACPI_6_1_GICR_STRUCTURE", [("DiscoveryRangeBaseAddress", (4, 8%nat)); ("DiscoveryRangeLength", (12, 4%nat))]);
   ("EFI_ACPI_6_1_GIC_ITS_STRUCTURE", [("GicItsId", (4, 4%nat)); ("PhysicalBaseAddress", (8, 8%nat))]);
   ("EFI_ACPI_6_1_GENERIC_TIMER_DESCRIPTION_TABLE",
     [("SecurePL1TimerGSIV", (48, 4%nat)); ("SecurePL1TimerFlags", (52, 4%nat));
      ("NonSecurePL1TimerGSIV", (56, 4%nat)); ("NonSecurePL1TimerFlags", (60, 4%nat));
      ("VirtualTimerGSIV", (64, 4%nat)); ("VirtualTimerFlags", (68, 4%nat));
      ("NonSecurePL2TimerGSIV", (72, 4%nat)); ("NonSecurePL2TimerFlags", (76, 4%nat));
      ("PlatformTimerCount", (88, 4%nat)); ("PlatformTimerOffset", (92, 4%nat))]);
   ("EFI_ACPI_6_1_GTDT_GT_BLOCK_STRUCTURE",
     [("Type", (0, 1%nat)); ("Length", (1, 2%nat)); ("CntCtlBase", (4, 8%nat)); ("GTBlockTimerCount", (12, 4%nat));
      ("GTBlockTimerOffset", (16, 4%nat))]);
   ("EFI_ACPI_6_1_GTDT_GT_BLOCK_TIMER_STRUCTURE",
     [("GTFrameNumber", (0, 1%nat)); ("CntBaseX", (4, 8%nat)); ("CntEL0BaseX", (12, 8%nat));
      ("GTxPhysicalTimerGSIV", (20, 4%nat)); ("GTxPhysicalTimerFlags", (24, 4%nat));
      ("GTxVirtualTimerGSIV", (28, 4%nat)); ("GTxVirtualTimerFlags", (32, 4%nat)); ("GTxCommonFlags", (36, 4%nat))]);
   ("EFI_ACPI_6_1_GTDT_SBSA_GENERIC_WATCHDOG_STRUCTURE",
     [("Type", (0, 1%nat)); ("Length", (1, 2%nat)); ("RefreshFramePhysicalAddress", (4, 8%nat));
      ("WatchdogControlFramePhysicalAddress", (12, 8%nat)); ("WatchdogTimerGSIV", (20, 4%nat));
      ("WatchdogTimerFlags", (24, 4%nat))]);
   ("EFI_ACPI_MEMORY_MAPPED_CONFIGURATION_BASE_ADDRESS_TABLE_HEADER.Header", [("Length", (4, 4%nat))]);
   ("EFI_ACPI_MEMORY_MAPPED_ENHANCED_CONFIGURATION_SPACE_BASE_ADDRESS_ALLOCATION_STRUCTURE",
     [("BaseAddress", (0, 8%nat)); ("PciSegmentGroupNumber", (8, 2%nat)); ("StartBusNumber", (10, 1%nat));
      ("EndBusNumber", (11, 1%nat))])].

Definition assoc {X} (d : X) (l : list (string * X)) (s : string) : X :=
  match List.find (fun p => String.eqb (fst p) s) l with Some p => snd p | None => d end.

Definition field_at (name : string) : Z * nat :=
  assoc (0, 0%nat) (mjoin ((fun '(s, l) => prod_map (fun f => s ++ "." ++ f)%string id <$> l) <$> acpi_fields)) name.

Definition acpi_sizes : list (string * Z) :=
  [("EFI_ACPI_DESCRIPTION_HEADER", 36); ("EFI_ACPI_6_1_MULTIPLE_APIC_DESCRIPTION_TABLE_HEADER", 44);
   ("EFI_ACPI_6_1_GTDT_GT_BLOCK_TIMER_STRUCTURE", 40);
   ("EFI_ACPI_MEMORY_MAPPED_CONFIGURATION_BASE_ADDRESS_TABLE_HEADER", 44);
   ("EFI_ACPI_MEMORY_MAPPED_ENHANCED_CONFIGURATION_SPACE_BASE_ADDRESS_ALLOCATION_STRUCTURE", 16)].

Definition acpi_consts : list (string * Z) :=
  [("EFI_ACPI_6_1_MULTIPLE_APIC_DESCRIPTION_TABLE_SIGNATURE", 0x43495041);
   ("EFI_ACPI_6_1_GENERIC_TIMER_DESCRIPTION_TABLE_SIGNATURE", 0x54445447);
   ("EFI_ACPI_6_1_PCI_EXPRESS_MEMORY_MAPPED_CONFIGURATION_SPACE_BASE_ADDRESS_DESCRIPTION_TABLE_SIGNATURE", 0x4746434D);
   ("EFI_ACPI_6_1_GIC", 0xB); ("EFI_ACPI_6_1_GICD", 0xC); ("EFI_ACPI_6_1_GIC_MSI_FRAME", 0xD);
   ("EFI_ACPI_6_1_GICR", 0xE); ("EFI_ACPI_6_1_GIC_ITS", 0xF);
   ("EFI_ACPI_6_1_GTDT_GT_BLOCK", 0); ("EFI_ACPI_6_1_GTDT_SBSA_GENERIC_WATCHDOG", 1)].

Definition ram_acpi (ws : acpi_ram) : Acpi machine := {|
  acpi_load w a := ram_load ws (Z.to_nat w) a;
  acpi_field name a := let '(off, n) := field_at name in ram_load ws n (a + off);
  acpi_sizeof := assoc 0 acpi_sizes;
  acpi_const := assoc (-1) acpi_consts
|}.

(** The root pointer at 0x80, the list of tables at 0x100. *)
Definition ram_tables : SystemTable machine := {|
  gST_ConfigurationTable := [(2, 0x80)];
  gFdtTableGuid := 1; gEfiAcpiTableGuid := 2; gEfiAcpi20TableGuid := 3; CompareGuid := Z.eqb |}.

(** Two processors, a GICv3 distributor, a redistributor region and an ITS. *)
Definition xsdt_words : acpi_ram :=
  [(0x98, [0x100; 0]); (0x100, [0x54445358; 60]); (0x124, [0x200; 0; 0x400; 0; 0x600; 0])].
Definition gicc_words (mpidr : Z) : list Z :=
  [0x500B; 0; 0; 1; 0; 23; 0; 0; 0; 0; 0; 0; 0; 0; 25; 0; 0; mpidr; 0; 0].
Definition madt_words : acpi_ram :=
  xsdt_words ++
  [(0x200, [0x43495041; 264]); (0x22C, gicc_words 0 ++ gicc_words 0x100 ++
    [0x180C; 0; 0x8000000; 0; 0; 3] ++ [0x100E; 0x80A0000; 0; 0xF60000] ++ [0x140F; 7; 0x8080000; 0; 0])].

#[local] Instance madt_tables : SystemTable machine := ram_tables.
#[local] Instance no_dt : Fdt machine := tree_fdt [].

#[local] Instance madt_covers_dec `{Acpi D} T a n l : Decision (madt_covers T a n l).
Proof.
  revert a n. induction l as [|x l IH]; intros a n; cbn [madt_covers]; [right; tauto|].
  destruct (_ <? T); apply _.
Defined.
#[local] Instance madt_prefix_dec `{Acpi D} T a n l next : Decision (madt_prefix T a n l next).
Proof. revert a n. induction l as [|x l IH]; intros a n; cbn [madt_prefix]; apply _. Defined.
#[local] Instance madt_structures_dec `{Acpi D} gMadtHdr l : Decision (madt_structures gMadtHdr l).
Proof. apply madt_covers_dec. Defined.

Section two_cpus.
#[local] Instance madt_acpi : Acpi machine := ram_acpi madt_words.

Definition madt_list : list Z := [0x22C; 0x27C; 0x2CC; 0x2E4; 0x2F4].

Lemma madt_words_structures : madt_structures 0x200 madt_list.
Proof. apply (bool_decide_unpack _). by vm_compute. Qed.

Lemma pe_table_from_madt_witness :
  wp (build (mkPETable 9 (replicate 3 blank_pe)) (pal_pe_create_info_table 5)) (boot ∅ ∅) (fun t _ =>
    t = mkPETable 2 [mkPE 0 0 0 23 25; mkPE 1 0 0x100 23 25; blank_pe]).
Proof.
  destruct (pe_table_from_madt 5 0x200 madt_list (replicate 3 blank_pe) 9 (boot ∅ ∅)) as [W _];
    [by vm_compute|done|exact madt_words_structures|cbn; lia|vm_compute; lia|done|].
  eapply wp_mono; [exact W|]. intros t w' (-> & _). by vm_compute.
Defined.

Definition madt_blank : GIC_INFO_ENTRY := mkGic 0 0 0 0 0 0 0.

Lemma gic_table_from_madt_witness :
  wp (build (mkGicTable (mkGicHdr 9 9 9 9 9) (replicate 4 madt_blank)) (pal_gic_create_info_table 5)) (boot ∅ ∅)
    (fun t w' => (exists x, gic_table (set_g_gic_info_table (Some t) w') (gic_version (gic_header t))
        [gic_of ENTRY_TYPE_GICD 0x8000000; mkGic ENTRY_TYPE_GICR_GICRD 0x80A0000 0 0xF60000 0 0 0;
         mkGic ENTRY_TYPE_GICITS 0x8080000 7 0 0 0 0] x) /\
      num_gicd (gic_header t) = 1 /\ num_gicrd (gic_header t) = 1 /\ num_its (gic_header t) = 1).
Proof.
  destruct (gic_table_from_madt 5 0 0x200 madt_list (mkGicHdr 9 9 9 9 9) (replicate 4 madt_blank) (boot ∅ ∅)) as [W _];
    [by vm_compute|done|exact madt_words_structures|cbn; lia|done|].
  assert (Hn : length (flat_map madt_entry madt_list) = 3%nat) by (by vm_compute).
  eapply wp_mono; [apply W; rewrite Hn; cbn; lia|].
  assert (Hes : gic_entries_of (flat_map madt_entry madt_list) (replicate 4 madt_blank) =
    [gic_of ENTRY_TYPE_GICD 0x8000000; mkGic ENTRY_TYPE_GICR_GICRD 0x80A0000 0 0xF60000 0 0 0;
     mkGic ENTRY_TYPE_GICITS 0x8080000 7 0 0 0 0]) by (by vm_compute).
  intros t w' ((Ht & (C1 & C2 & C3 & _) & _) & _). rewrite Hes in Ht, C1, C2, C3.
  rewrite C1, C2, C3. split; [exact Ht|]. clear. vm_compute. repeat split.
Defined.
End two_cpus.

(** A structure of another type and of length 0 after the first processor. *)
Section zero_length.
#[local] Instance zero_acpi : Acpi machine :=
  ram_acpi (xsdt_words ++ [(0x200, [0x43495041; 264]); (0x22C, gicc_words 0 ++ [0x0010; 0])]).

Lemma madt_zero_length_hangs_witness :
  diverges (build (mkPETable 9 (replicate 3 blank_pe)) (pal_pe_create_info_table 100)) (boot ∅ ∅).
Proof.
  destruct (madt_zero_length_hangs 100 0x200 [0x22C] 0x27C (replicate 3 blank_pe) 9 (boot ∅ ∅)) as [W _].
  - by vm_compute.
  - done.
  - apply (bool_decide_unpack _). by vm_compute.
  - by vm_compute.
  - by vm_compute.
  - apply (bool_decide_unpack _). by vm_compute.
  - done.
  - exact W.
Defined.
End zero_length.
