(* ===== verification/PalGtdt.v ===== *)
(** * The platform layer: what is made of the ACPI GTDT and MCFG

    The tables of the timers, the watchdogs and the configuration spaces, as both platform
    layers build them from the ACPI tables of the firmware. *)

From S2P Require Import Prelude Types World Machine Pcie Fdt PalTimer PalPcie PalAcpi PalMadt.
#[local] Open Scope c_scope.

Section gtdt.
Context {D : Type} `{Platform D} `{SystemTable D} `{Acpi D}.

(** ** Watchdogs *)

Definition is_wd (x : Z) : bool := gtdt_wd_field "Type" x =? acpi_const "EFI_ACPI_6_1_GTDT_SBSA_GENERIC_WATCHDOG".

Definition wd_of_gtdt (x : Z) : WD_INFO_BLOCK :=
  mkWd (gtdt_wd_field "WatchdogControlFramePhysicalAddress" x) (gtdt_wd_field "RefreshFramePhysicalAddress" x)
    (gtdt_wd_field "WatchdogTimerGSIV" x) (gtdt_wd_field "WatchdogTimerFlags" x).

Definition wd_made (_ x : Z) (_ : WD_INFO_BLOCK) : WD_INFO_BLOCK := wd_of_gtdt x.

Lemma wp_gtdt_watchdog x xs L w (Q : Z -> WD_INFO_TABLE * world D -> Prop) :
  let ys := xs ++ List.filter is_wd [x] in
  (length ys <= length L)%nat -> Z.of_nat (length L) < 2 ^ 32 ->
  Q (Z.of_nat (length ys)) (mkWdTable (Z.of_nat (length ys)) (filled wd_made 0 ys L), w) ->
  wp (gtdt_watchdog x (Z.of_nat (length xs))) (mkWdTable (Z.of_nat (length xs)) (filled wd_made 0 xs L), w) Q.
Proof.
  unfold gtdt_watchdog. fold (is_wd x). cbn [List.filter]. destruct (is_wd x).
  - rewrite length_app. cbn [length]. intros Hroom Hsz HQ. dt_steps.
    eapply wp_wd_edit; [by apply (at_entry_filled wd_made _ xs x); [|lia|]|].
    dt_steps. unfold wd_set_num. dt_steps. cbn [num_wd wd_info]. rewrite u32_id by (unfold fits; lia).
    by rewrite Nat2Z.inj_add in HQ.
  - rewrite app_nil_r. intros _ _ HQ. by dt_steps.
Qed.

Lemma filter_take_le (p : Z -> bool) l i : (length (List.filter p (take i l)) <= length (List.filter p l))%nat.
Proof. rewrite <- (take_drop i l) at 2. rewrite List.filter_app, length_app. lia. Qed.

Lemma wp_wds_from_gtdt gtdt l L n0 (w : world D) (Q : () -> WD_INFO_TABLE * world D -> Prop) :
  let wds := List.filter is_wd l in
  gtdt_structures (gtdt_wd_field "Length") gtdt l -> (length wds <= length L)%nat -> Z.of_nat (length L) < 2 ^ 32 ->
  n0 = 0 -> Q tt (mkWdTable (Z.of_nat (length wds)) (filled wd_made 0 wds L), w) ->
  wp (pal_wd_create_info_table_acpi gtdt) (mkWdTable n0 L, w) Q.
Proof.
  intros wds Hl Hroom Hsz -> HQ. unfold pal_wd_create_info_table_acpi. dt_step.
  apply (wp_gtdt_walk l (fun i a s => let ys := List.filter is_wd (take i l) in
    a = Z.of_nat (length ys) /\ s = (mkWdTable (Z.of_nat (length ys)) (filled wd_made 0 ys L), w))); [done| | |].
  - by destruct L.
  - intros i x a s Hx (-> & ->). rewrite (take_S_r l i x Hx), List.filter_app. apply wp_gtdt_watchdog; [|done|done].
    rewrite <- List.filter_app, <- (take_S_r l i x Hx). pose proof (filter_take_le is_wd l (S i)). unfold wds in Hroom. lia.
  - rewrite take_ge by done. intros a s (-> & ->). fold wds. unfold pal_wd_platform_override.
    change (PLATFORM_OVERRIDE_WD =? 1) with false. by dt_steps.
Qed.
(** ** Timers *)

Definition is_gt_block (x : Z) : bool := gt_block_field "Type" x =? acpi_const "EFI_ACPI_6_1_GTDT_GT_BLOCK".
Definition gtdt_count (x : Z) : Z := gt_block_field "GTBlockTimerCount" x.
Definition gtdt_frames (x : Z) : list gt_frame :=
  gtdt_frame (x + gt_block_field "GTBlockTimerOffset" x) <$> seqZ 0 (gtdt_count x).

Definition gt_opened (x : Z) (g : TIMER_INFO_GTBLOCK) : TIMER_INFO_GTBLOCK :=
  gt_with_base (gt_block_field "CntCtlBase" x) (gt_with_type TIMER_TYPE_SYS_TIMER g).
Definition gt_made (_ x : Z) (g : TIMER_INFO_GTBLOCK) : TIMER_INFO_GTBLOCK := gt_filled (gtdt_frames x) (gt_opened x g).

Lemma length_gtdt_frames x : 0 <= gtdt_count x -> Z.of_nat (length (gtdt_frames x)) = gtdt_count x.
Proof. intros Hc. unfold gtdt_frames. rewrite length_fmap, length_seqZ. lia. Qed.

Lemma gt_frame_counted fs f c g : gt_room (S (length fs)) g ->
  gt_with_frame (Z.of_nat (length fs)) f (gt_with_count c (gt_filled fs g)) =
  Some (gt_with_count c (gt_filled (fs ++ [f]) g)).
Proof.
  intros Hr. unfold gt_room in Hr. rewrite !Forall_cons in Hr. destruct Hr as (R1 & R2 & R3 & R4 & R5 & R6 & _).
  unfold gt_with_frame, gt_with_count, gt_filled.
  cbn [gt_frame_num gt_GtCntBase gt_GtCntEl0Base gt_gsiv gt_virt_gsiv gt_flags].
  repeat (rewrite (at_entry_filled _ _ fs f); [|done|lia|done]; cbn [mbind option_bind]). done.
Qed.


Lemma hdr_with_num_twice m n h : hdr_with_num m (hdr_with_num n h) = hdr_with_num m h.
Proof. done. Qed.

(** The timers of block [x], opened as entry [k] of [L]. *)
Lemma wp_block_timers x g k n h L w (Q : () -> TIMER_INFO_TABLE * world D -> Prop) :
  let c := gtdt_count x in
  0 <= c -> gt_room (Z.to_nat c) g -> 0 <= n -> n + c < 2 ^ 32 -> (Z.to_nat k < length L)%nat ->
  Q tt (mkTimerTable (hdr_with_num (n + c) h) (<[Z.to_nat k := gt_filled (gtdt_frames x) g]> L), w) ->
  wp (gtdt_block_timers k (x + gt_block_field "GTBlockTimerOffset" x))
    (mkTimerTable (hdr_with_num n h) (<[Z.to_nat k := gt_with_count c g]> L), w) Q.
Proof.
  intros c Hc Hr Hn Hsz Hk HQ. unfold gtdt_block_timers, gt_at. set (ft := x + _).
  pose proof (length_gtdt_frames x Hc) as Hlen. fold c in Hlen.
  dt_steps. cbn [gt_info]. rewrite list_lookup_insert_eq by done. dt_steps. cbn [gt_timer_count gt_with_count].
  apply (wp_for_each (fun i s => s = (mkTimerTable (hdr_with_num (n + i) h)
    (<[Z.to_nat k := gt_with_count c (gt_filled (take (Z.to_nat i) (gtdt_frames x)) g)]> L), w))).
  - rewrite Z.add_0_r. by destruct g.
  - intros i s Hi ->. assert (Hf : gtdt_frames x !! Z.to_nat i = Some (gtdt_frame ft i)).
    { unfold gtdt_frames. fold c ft. rewrite list_lookup_fmap, lookup_seqZ_lt by lia. cbn. do 2 f_equal. lia. }
    assert (Ht : length (take (Z.to_nat i) (gtdt_frames x)) = Z.to_nat i) by (rewrite length_take; lia).
    dt_steps. eapply wp_gt_entry_opt; [by apply list_lookup_insert_eq| |].
    + replace i with (Z.of_nat (length (take (Z.to_nat i) (gtdt_frames x)))) at 1 by lia.
      apply gt_frame_counted. rewrite Ht. unfold gt_room in *. eapply Forall_impl; [exact Hr|]. cbv beta. intros l Hle. lia.
    + rewrite list_insert_insert_eq. dt_steps. unfold timer_hdr. dt_steps. cbn [timer_header gt_info num_platform_timer hdr_with_num].
      rewrite hdr_with_num_twice, u32_id by (unfold fits; lia). rewrite Z.add_assoc.
      replace (Z.to_nat (i + 1)) with (S (Z.to_nat i)) by lia. by rewrite (take_S_r _ _ _ Hf).
  - intros s ->. rewrite Z.add_0_l, Z2Nat.id, take_ge by lia.
    replace (gt_with_count c (gt_filled (gtdt_frames x) g)) with (gt_filled (gtdt_frames x) g); [exact HQ|].
    unfold gt_with_count, gt_filled. cbn. by rewrite Hlen.
Qed.

(** The frames of all these blocks. *)
Definition gtdt_total (xs : list Z) : Z := foldr (fun x n => gtdt_count x + n) 0 xs.

Lemma gtdt_total_app xs ys : gtdt_total (xs ++ ys) = gtdt_total xs + gtdt_total ys.
Proof. unfold gtdt_total. induction xs as [|x xs IH]; cbn; [done|]. rewrite IH. lia. Qed.

(** The arrays of every entry have room for the timers of these blocks. *)
Definition gtdt_room (gs : list TIMER_INFO_GTBLOCK) (x : Z) : Prop :=
  0 <= gtdt_count x /\ Forall (gt_room (Z.to_nat (gtdt_count x))) gs.

Lemma gtdt_total_nonneg gs xs : Forall (gtdt_room gs) xs -> 0 <= gtdt_total xs.
Proof. unfold gtdt_total. induction 1 as [|x xs [Hx _] _ IH]; cbn; lia. Qed.

Lemma wp_gtdt_block x xs h gs w (Q : Z -> TIMER_INFO_TABLE * world D -> Prop) :
  let ys := xs ++ List.filter is_gt_block [x] in
  Forall (gtdt_room gs) ys -> (length ys <= length gs)%nat -> gtdt_total ys < 2 ^ 32 ->
  Q (Z.of_nat (length ys)) (mkTimerTable (hdr_with_num (gtdt_total ys) h) (filled gt_made 0 ys gs), w) ->
  wp (gtdt_block x (Z.of_nat (length xs)))
    (mkTimerTable (hdr_with_num (gtdt_total xs) h) (filled gt_made 0 xs gs), w) Q.
Proof.
  unfold gtdt_block. fold (is_gt_block x). cbn [List.filter]. destruct (is_gt_block x).
  2: { rewrite app_nil_r. intros _ _ _ HQ. by dt_steps. }
  intros [Hxs [Hx _]%Forall_cons]%Forall_app. destruct Hx as [Hc Hr].
  rewrite length_app, gtdt_total_app. cbn [length gtdt_total foldr]. rewrite Z.add_0_r. intros Hroom Hsz HQ.
  destruct (lookup_lt_is_Some_2 gs (length xs)) as [g Hg]; [lia|].
  assert (Hfg : filled gt_made 0 xs gs !! Z.to_nat (Z.of_nat (length xs)) = Some g)
    by (by rewrite Nat2Z.id, filled_beyond).
  dt_steps. unfold gt_entry. eapply wp_gt_entry_opt; [exact Hfg|reflexivity|]. dt_steps.
  apply (wp_block_timers x (gt_opened x g)); [done| | |done| |].
  - pose proof (proj1 (Forall_forall _ _) Hr g) as Hgr. apply list_elem_of_lookup_2 in Hg. exact (Hgr Hg).
  - by eapply gtdt_total_nonneg.
  - rewrite length_filled. lia.
  - dt_steps. rewrite Nat2Z.inj_add in HQ. cbn [Z.of_nat] in HQ.
    replace (<[Z.to_nat (Z.of_nat (length xs)) := gt_filled (gtdt_frames x) (gt_opened x g)]> (filled gt_made 0 xs gs))
      with (filled gt_made 0 (xs ++ [x]) gs); [exact HQ|].
    pose proof (at_entry_filled gt_made (gt_made 0 x) xs x gs (Z.of_nat (length xs)) eq_refl ltac:(lia) ltac:(done)) as E.
    unfold at_entry in E. rewrite Hfg in E. by injection E.
Qed.

Lemma wp_timer_from_gtdt gtdt l h gs (w : world D) (Q : () -> TIMER_INFO_TABLE * world D -> Prop) :
  let blocks := List.filter is_gt_block l in
  gtdt_structures (gt_block_field "Length") gtdt l -> Forall (gtdt_room gs) blocks ->
  (length blocks <= length gs)%nat -> gtdt_total blocks < 2 ^ 32 ->
  Q tt (mkTimerTable (hdr_with_el2_virt PLATFORM_OVERRIDE_EL2_VIR_TIMER_GSIV (el2_virt_timer_flag h)
          (hdr_with_num (gtdt_total blocks) (gtdt_header gtdt h))) (filled gt_made 0 blocks gs), w) ->
  wp (pal_timer_from_gtdt gtdt) (mkTimerTable (hdr_with_num 0 h) gs, w) Q.
Proof.
  intros blocks Hl Hr Hroom Hsz HQ. unfold pal_timer_from_gtdt. dt_steps. unfold timer_hdr. dt_steps.
  cbn [timer_header gt_info].
  apply (wp_gtdt_walk l (fun i a s => let ys := List.filter is_gt_block (take i l) in
    a = Z.of_nat (length ys) /\
    s = (mkTimerTable (hdr_with_num (gtdt_total ys) (gtdt_header gtdt h)) (filled gt_made 0 ys gs), w))); [done| | |].
  - by destruct gs.
  - intros i x a s Hx (-> & ->). rewrite (take_S_r l i x Hx), List.filter_app.
    assert (E : blocks = (List.filter is_gt_block (take i l) ++ List.filter is_gt_block [x]) ++
      List.filter is_gt_block (drop (S i) l)).
    { rewrite <- !List.filter_app, <- (take_S_r l i x Hx). unfold blocks. by rewrite take_drop. }
    rewrite E in Hr, Hroom, Hsz. apply Forall_app in Hr as [Hr1 Hr2]. rewrite gtdt_total_app in Hsz.
    pose proof (gtdt_total_nonneg _ _ Hr2). rewrite length_app in Hroom.
    apply wp_gtdt_block; [done|lia|lia|done].
  - rewrite take_ge by done. intros a s (-> & ->). fold blocks. unfold pal_timer_platform_override.
    change (truthy PLATFORM_OVERRIDE_PLATFORM_TIMER) with false.
    change (truthy PLATFORM_OVERRIDE_EL2_VIR_TIMER_GSIV) with true. unfold timer_hdr. by dt_steps.
Qed.

(** C37: From a GTDT, the timer and watchdog tables of both platform layers: the interrupts
    and flags of the processor timers; one entry per timer block, in the order of the table,
    with its base and all its frames, which are counted; one entry per watchdog. The EL2
    virtual timer always gets interrupt 28. *)
Theorem timers_from_gtdt `{Fdt D} fuel gtdt l h gs n0 L (w : world D) :
  acpi_found "EFI_ACPI_6_1_GENERIC_TIMER_DESCRIPTION_TABLE_SIGNATURE" = gtdt -> gtdt <> 0 ->
  gtdt_structures (gt_block_field "Length") gtdt l -> gtdt_structures (gtdt_wd_field "Length") gtdt l ->
  let blocks := List.filter is_gt_block l in let wds := List.filter is_wd l in
  Forall (gtdt_room gs) blocks -> (length blocks <= length gs)%nat -> gtdt_total blocks < 2 ^ 32 ->
  (length wds <= length L)%nat -> Z.of_nat (length L) < 2 ^ 32 ->
  Forall (fun builder => wp (build (mkTimerTable h gs) builder) w (fun t w' => w' = w /\
      t = mkTimerTable (hdr_with_el2_virt 28 (el2_virt_timer_flag h)
            (hdr_with_num (gtdt_total blocks) (gtdt_header gtdt h))) (filled gt_made 0 blocks gs)))
    [pal_timer_create_info_table; PalTimer.pal_timer_create_info_table fuel] /\
  Forall (fun builder => wp (build (mkWdTable n0 L) builder) w (fun t w' => w' = w /\
      t = mkWdTable (Z.of_nat (length wds)) (filled wd_made 0 wds L)))
    [pal_wd_create_info_table; PalTimer.pal_wd_create_info_table fuel].
Proof.
  intros Hm Hnz Hl Hl' blocks wds Hr Hroom Hsz Hroom' Hsz'.
  split; repeat apply List.Forall_cons; try apply List.Forall_nil; apply wp_build.
  - unfold pal_timer_create_info_table, timer_hdr. dt_steps. cbn [timer_header gt_info].
    eapply wp_eval; [apply eval_acpi_lookup|]. rewrite Hm, (proj2 (Z.eqb_neq _ _) Hnz). by apply (wp_timer_from_gtdt _ l).
  - unfold PalTimer.pal_timer_create_info_table, timer_hdr. dt_steps. cbn [timer_header gt_info].
    eapply wp_eval; [apply eval_acpi_lookup|]. rewrite Hm, (proj2 (Z.eqb_neq _ _) Hnz). by apply (wp_timer_from_gtdt _ l).
  - unfold pal_wd_create_info_table, wd_set_num. dt_steps. cbn [wd_info].
    eapply wp_eval; [apply eval_acpi_lookup|]. rewrite Hm, (proj2 (Z.eqb_neq _ _) Hnz). by apply (wp_wds_from_gtdt _ l).
  - unfold PalTimer.pal_wd_create_info_table, wd_set_num. dt_steps. cbn [wd_info].
    eapply wp_eval; [apply eval_acpi_lookup|]. rewrite Hm, (proj2 (Z.eqb_neq _ _) Hnz). by apply (wp_wds_from_gtdt _ l).
Qed.

(** ** Configuration spaces *)

Definition mcfg_size : Z := acpi_sizeof mcfg_structure.
(** The structures that are copied: those that start before the end of the table, and at
    least one. *)
Definition mcfg_count (mcfg : Z) : Z := Z.max 1 ((mcfg_length mcfg - mcfg_header + mcfg_size - 1) / mcfg_size).
Definition mcfg_structures (mcfg : Z) : list Z :=
  (fun i => mcfg_first mcfg + i * mcfg_size) <$> seqZ 0 (mcfg_count mcfg).

Definition ecam_copied (_ x : Z) (_ : PCIE_INFO_BLOCK) : PCIE_INFO_BLOCK := ecam_of_mcfg x.

Lemma mcfg_more mcfg k : 0 < mcfg_size -> 0 <= k ->
  (mcfg_header + (k + 1) * mcfg_size <? mcfg_length mcfg) = (k + 1 <? mcfg_count mcfg).
Proof.
  intros Hs Hk. unfold mcfg_count. set (q := _ / mcfg_size).
  pose proof (Z.div_mod (mcfg_length mcfg - mcfg_header + mcfg_size - 1) mcfg_size ltac:(lia)) as E.
  pose proof (Z.mod_pos_bound (mcfg_length mcfg - mcfg_header + mcfg_size - 1) mcfg_size Hs) as B. fold q in E.
  apply eq_true_iff_eq. rewrite !Z.ltb_lt. nia.
Qed.

Lemma wp_mcfg_entries fuel mcfg L n0 (w : world D) (Q : () -> PCIE_INFO_TABLE * world D -> Prop) :
  let n := mcfg_count mcfg in
  0 < mcfg_size -> 0 <= mcfg_header -> mcfg_header + n * mcfg_size < 2 ^ 32 ->
  0 < mcfg_first mcfg -> mcfg_first mcfg + n * mcfg_size < 2 ^ 64 ->
  (Z.to_nat n <= fuel)%nat -> n <= Z.of_nat (length L) -> n0 = 0 ->
  Q tt (mkEcamTable n (filled ecam_copied 0 (mcfg_structures mcfg) L), w) ->
  wp (mcfg_entries fuel mcfg) (mkEcamTable n0 L, w) Q.
Proof.
  intros n Hs Hh Hh2 Hf Hf2 Hfuel Hroom -> HQ. unfold mcfg_entries. fold mcfg_size.
  assert (Hn : 1 <= n) by (unfold n, mcfg_count; lia).
  apply (wp_while (fun a s => exists k, 0 <= k < n /\
      a = (mcfg_first mcfg + k * mcfg_size, mcfg_header + k * mcfg_size, k) /\
      s = (mkEcamTable k (filled ecam_copied 0 (take (Z.to_nat k) (mcfg_structures mcfg)) L), w))
    (fun a _ => Z.to_nat (n - snd a) - 1)%nat).
  - exists 0. split; [lia|]. split; [do 2 f_equal; lia|]. by destruct L.
  - cbn. lia.
  - intros a s (k & Hk & -> & ->). rewrite (proj2 (Z.eqb_neq _ _)) by nia.
    assert (Hx : mcfg_structures mcfg !! Z.to_nat k = Some (mcfg_first mcfg + k * mcfg_size)).
    { unfold mcfg_structures. fold n. rewrite list_lookup_fmap, lookup_seqZ_lt by lia. cbn. do 3 f_equal. lia. }
    assert (Hl : length (mcfg_structures mcfg) = Z.to_nat n) by (unfold mcfg_structures; by rewrite length_fmap, length_seqZ).
    assert (Ht : length (take (Z.to_nat k) (mcfg_structures mcfg)) = Z.to_nat k) by (rewrite length_take; lia).
    dt_steps. unfold ecam_edit. eapply wp_edit_at.
    { cbn. rewrite (at_entry_filled ecam_copied _ (take (Z.to_nat k) (mcfg_structures mcfg)) (mcfg_first mcfg + k * mcfg_size));
        [reflexivity|lia|lia|done]. }
    rewrite <- (take_S_r _ _ _ Hx). dt_steps. unfold ecam_set_num. dt_steps. cbn [ecam_entries ecam_block].
    rewrite !u32_id, u64_id by (unfold fits; nia). rewrite <- !Z.add_assoc, <- Z.mul_succ_l.
    change (Z.succ k) with (k + 1). rewrite (mcfg_more mcfg k) by lia. fold n.
    rewrite (proj2 (Z.eqb_neq _ 0)) by nia. rewrite andb_true_r.
    replace (S (Z.to_nat k)) with (Z.to_nat (k + 1)) by lia.
    destruct (Z.ltb_spec (k + 1) n) as [Hlt|Hge].
    + cbn [snd]. split; [|lia]. exists (k + 1). split; [lia|]. done.
    + rewrite take_ge by lia. by replace (k + 1) with n by lia.
Qed.

(** C38: From an MCFG, both platform layers build the table of its configuration spaces, in
    order, and agree on the base of the first, which one reads in the MCFG again and the
    other in the table. *)
Theorem ecams_from_mcfg `{Fdt D} `{PciIo D} fuel mcfg L n0 (w : world D) :
  acpi_found "EFI_ACPI_6_1_PCI_EXPRESS_MEMORY_MAPPED_CONFIGURATION_SPACE_BASE_ADDRESS_DESCRIPTION_TABLE_SIGNATURE" = mcfg ->
  mcfg <> 0 -> let n := mcfg_count mcfg in
  0 < mcfg_size -> 0 <= mcfg_header -> mcfg_header + n * mcfg_size < 2 ^ 32 ->
  0 < mcfg_first mcfg -> mcfg_first mcfg + n * mcfg_size < 2 ^ 64 ->
  (Z.to_nat n <= fuel)%nat -> n <= Z.of_nat (length L) ->
  Forall (fun builder => wp (build (mkEcamTable n0 L) builder) w (fun t w' => w' = w /\
      t = mkEcamTable n (filled ecam_copied 0 (mcfg_structures mcfg) L) /\
      exists base, eval pal_pcie_get_mcfg_ecam w' base w' /\
        let w1 := set_g_pcie_info_table (Some t) w' in eval Pcie.pal_pcie_get_mcfg_ecam w1 base w1))
    [pal_pcie_create_info_table fuel; PalPcie.pal_pcie_create_info_table fuel].
Proof.
  intros Hm Hnz n Hs Hh Hh2 Hf Hf2 Hfuel Hroom.
  assert (Hbase : let t := mkEcamTable n (filled ecam_copied 0 (mcfg_structures mcfg) L) in
    exists base, eval pal_pcie_get_mcfg_ecam w base w /\
      let w1 := set_g_pcie_info_table (Some t) w in eval Pcie.pal_pcie_get_mcfg_ecam w1 base w1).
  { exists (mcfg_field "BaseAddress" (mcfg_first mcfg)). split.
    - eapply eval_bind; [apply eval_acpi_lookup|]. rewrite Hm, (proj2 (Z.eqb_neq _ _) Hnz). apply eval_ret.
    - eapply eval_bind; [by apply eval_gets|]. cbv beta iota.
      eapply eval_bind with (a := ecam_of_mcfg (mcfg_first mcfg)); [|apply eval_ret].
      apply eval_need. cbn [ecam_block].
      assert (Hx : mcfg_structures mcfg !! 0%nat = Some (mcfg_first mcfg)).
      { unfold mcfg_structures. fold n. rewrite list_lookup_fmap, lookup_seqZ_lt by (unfold n, mcfg_count; lia).
        cbn. f_equal. lia. }
      destruct (lookup_lt_is_Some_2 L 0%nat) as [e He]; [unfold n, mcfg_count in Hroom; lia|].
      by rewrite (filled_lookup ecam_copied 0 _ L 0 _ e Hx He). }
  repeat apply List.Forall_cons; try apply List.Forall_nil; apply wp_build.
  - unfold pal_pcie_create_info_table, ecam_set_num. dt_steps. cbn [ecam_block].
    eapply wp_eval; [apply eval_acpi_lookup|]. rewrite Hm, (proj2 (Z.eqb_neq _ _) Hnz). unfold ecam_from_mcfg.
    by apply wp_mcfg_entries.
  - unfold PalPcie.pal_pcie_create_info_table, ecam_set_num. dt_steps. cbn [ecam_block].
    eapply wp_eval; [apply eval_acpi_lookup|]. rewrite Hm, (proj2 (Z.eqb_neq _ _) Hnz). unfold ecam_from_mcfg.
    by apply wp_mcfg_entries.
Qed.
End gtdt.

(** ** A concrete firmware

    A timer block with one frame, a watchdog, and two configuration spaces. *)
Definition gtdt_words : acpi_ram :=
  xsdt_words ++
  [(0x400, [0x54445447; 184; 0; 0; 0; 0; 0; 0; 0; 0; 0; 0; 29; 2; 30; 2; 27; 2; 26; 2; 0; 0; 2; 96] ++
     [0x003C00; 0x2A810000; 0; 1; 20] ++ [0; 0x2A830000; 0; 0; 0; 57; 2; 0; 0; 0] ++
     [0x001C01; 0x2A450000; 0; 0x2A440000; 0; 92; 1]);
   (0x600, [0x4746434D; 76]); (0x62C, [0x40000000; 0; 0x0F000000; 0; 0x50000000; 1; 0xFF100001; 0])].

#[local] Instance gtdt_tables : SystemTable machine := ram_tables.
#[local] Instance gtdt_acpi : Acpi machine := ram_acpi gtdt_words.
#[local] Instance gtdt_chain_dec `{Acpi D} len a l : Decision (gtdt_chain len a l).
Proof. revert a. induction l as [|x l IH]; intros a; cbn [gtdt_chain]; apply _. Defined.
#[local] Instance gtdt_structures_dec `{Acpi D} len t l : Decision (gtdt_structures len t l).
Proof. unfold gtdt_structures. apply _. Defined.
#[local] Instance gtdt_room_dec `{Acpi D} gs x : Decision (gtdt_room gs x).
Proof. unfold gtdt_room, gt_room. apply _. Defined.
#[local] Instance gtdt_no_dt : Fdt machine := tree_fdt [].

Lemma timers_from_gtdt_witness :
  wp (build (mkTimerTable blank_hdr [blank_gt; blank_gt]) pal_timer_create_info_table) (boot ∅ ∅) (fun t _ =>
    num_platform_timer (timer_header t) = 1 /\ ns_el1_timer_gsiv (timer_header t) = 30 /\
    (gt_GtCntBase <$> gt_info t) = [0x2A830000 :: replicate 7 0; replicate 8 0]) /\
  wp (build (mkWdTable 9 (replicate 2 (mkWd 0 0 0 0))) pal_wd_create_info_table) (boot ∅ ∅) (fun t _ =>
    t = mkWdTable 1 [mkWd 0x2A440000 0x2A450000 92 1; mkWd 0 0 0 0]).
Proof.
  destruct (timers_from_gtdt 1 0x400 [0x460; 0x49C] blank_hdr [blank_gt; blank_gt] 9
    (replicate 2 (mkWd 0 0 0 0)) (boot ∅ ∅)) as [W1 W2].
  - by vm_compute.
  - done.
  - apply (bool_decide_unpack _). vm_compute. exact I.
  - apply (bool_decide_unpack _). vm_compute. exact I.
  - apply (bool_decide_unpack _). vm_compute. exact I.
  - apply (bool_decide_unpack _). vm_compute. exact I.
  - by vm_compute.
  - apply (bool_decide_unpack _). vm_compute. exact I.
  - done.
  - apply Forall_cons in W1 as [W1 _]. apply Forall_cons in W2 as [W2 _]. split.
    + eapply wp_mono; [exact W1|]. intros t w' (_ & ->). clear. vm_compute. repeat split.
    + eapply wp_mono; [exact W2|]. intros t w' (_ & ->). clear. vm_compute. repeat split.
Defined.

Lemma ecams_from_mcfg_witness :
  wp (build (mkEcamTable 9 (replicate 3 (mkEcam 7 7 7 7))) (pal_pcie_create_info_table 2)) (boot ∅ ∅) (fun t _ =>
    t = mkEcamTable 2 [mkEcam 0x40000000 0 0 0xF; mkEcam 0x150000000 1 0x10 0xFF; mkEcam 7 7 7 7]).
Proof.
  pose proof (ecams_from_mcfg (H3 := functions_pci []) 2 0x600 (replicate 3 (mkEcam 7 7 7 7)) 9 (boot ∅ ∅)) as W.
  assert (Hn : mcfg_count 0x600 = 2) by (by vm_compute).
  assert (Hf : mcfg_first 0x600 = 0x62C) by (by vm_compute).
  assert (Hs : mcfg_size = 16) by (by vm_compute).
  assert (Hh : mcfg_header = 44) by (by vm_compute).
  rewrite Hn, Hf, Hs, Hh in W.
  specialize (W ltac:(vm_compute; reflexivity) ltac:(lia) ltac:(lia) ltac:(lia) ltac:(lia) ltac:(lia) ltac:(lia)
    ltac:(lia) ltac:(cbn; lia)). apply Forall_cons in W as [W _].
  eapply wp_mono; [exact W|]. intros t w' (_ & -> & _). clear. vm_compute. reflexivity.
Defined.
