(* ===== verification/PcieDevice.v ===== *)
(** * What the platform layer knows of a PCIe function

    The operations of src/val/src/acs_pcie.c that split a BDF word and hand the four
    fields to the platform layer: legacy interrupts, MSI vectors, peer-to-peer and
    cache capabilities, DMA properties, the root port of a function. *)

From S2P Require Import Prelude Types World Pcie.
#[local] Open Scope c_scope.

(** [PERIPHERAL_IRQ_MAP]: for each of the four pins, the interrupts and their number. *)
Record pin_irqs := mkPin { irq_list : list Z; irq_count : Z }.
Definition PERIPHERAL_IRQ_MAP : Type := list pin_irqs.

(** The platform layer's side, by segment, bus, device and function. Outputs through
    pointers are results, [None] when nothing is written. *)
Class PalPci (D : Type) := {
  pal_get_msi_vectors : Z -> Z -> Z -> Z -> M (world D) (Z * option Z);
  pal_pcie_get_legacy_irq_map : Z -> Z -> Z -> Z -> M (world D) (Z * option PERIPHERAL_IRQ_MAP);
  pal_pcie_is_device_behind_smmu : Z -> Z -> Z -> Z -> M (world D) Z;
  pal_pcie_is_devicedma_64bit : Z -> Z -> Z -> Z -> M (world D) Z;
  pal_pcie_get_root_port_bdf : Z -> Z -> Z -> Z -> M (world D) (Z * (Z * Z * Z * Z));
  pal_pcie_get_device_type : Z -> Z -> Z -> Z -> M (world D) Z;
  pal_pcie_p2p_support : M (world D) Z;
  pal_pcie_dev_p2p_support : Z -> Z -> Z -> Z -> M (world D) Z;
  pal_pcie_is_cache_present : Z -> Z -> Z -> Z -> M (world D) Z;
  pal_pcie_get_rp_transaction_frwd_support : Z -> Z -> Z -> Z -> M (world D) Z;
  pal_pcie_get_bdf_wrapper : Z -> Z -> M (world D) Z;
  pal_pci_bdf_to_dev : Z -> M (world D) Z;
  pal_pcie_io_read_cfg : Z -> Z -> M (world D) (Z * option Z);
  pal_pcie_io_write_cfg : Z -> Z -> Z -> M (world D) ()
}.

(** The operations only the Linux kernel module provides. *)
Class PalPciLinux (D : Type) := {
  pal_pcie_scan_bridge_devices_and_check_memtype : Z -> Z -> Z -> Z -> M (world D) Z;
  pal_pcie_get_pcie_type : Z -> Z -> Z -> Z -> M (world D) Z;
  pal_pcie_get_snoop_bit : Z -> Z -> Z -> Z -> M (world D) Z;
  pal_pcie_get_dma_support : Z -> Z -> Z -> Z -> M (world D) Z;
  pal_pcie_get_dma_coherent : Z -> Z -> Z -> Z -> M (world D) Z;
  pal_pcie_read_ext_cap_word : Z -> Z -> Z -> Z -> Z -> Z -> M (world D) (option Z);
  pal_peripheral_is_pcie : Z -> Z -> Z -> Z -> M (world D) Z
}.

Section device.
Context {D : Type} `{Platform D} `{PalPci D} `{PalPciLinux D}.

#[local] Abbreviation M := (M (world D)).

(** Calling a platform operation on the function a BDF word names. *)
Definition of_bdf {A} (f : Z -> Z -> Z -> Z -> M A) (bdf : Z) : M A :=
  f (PCIE_EXTRACT_BDF_SEG bdf) (PCIE_EXTRACT_BDF_BUS bdf) (PCIE_EXTRACT_BDF_DEV bdf)
    (PCIE_EXTRACT_BDF_FUNC bdf).

Definition val_get_msi_vectors (bdf : Z) : M (Z * option Z) := of_bdf pal_get_msi_vectors bdf.
Definition val_pci_get_legacy_irq_map (bdf : Z) : M (Z * option PERIPHERAL_IRQ_MAP) :=
  of_bdf pal_pcie_get_legacy_irq_map bdf.
Definition val_pcie_is_device_behind_smmu (bdf : Z) : M Z :=
  of_bdf pal_pcie_is_device_behind_smmu bdf.
Definition val_pcie_is_devicedma_64bit (bdf : Z) : M Z := of_bdf pal_pcie_is_devicedma_64bit bdf.
Definition val_pcie_scan_bridge_devices_and_check_memtype (bdf : Z) : M Z :=
  of_bdf pal_pcie_scan_bridge_devices_and_check_memtype bdf.
Definition val_pcie_get_device_type (bdf : Z) : M Z := of_bdf pal_pcie_get_device_type bdf.
Definition val_pcie_p2p_support : M Z := pal_pcie_p2p_support.
Definition val_pcie_dev_p2p_support (bdf : Z) : M Z := of_bdf pal_pcie_dev_p2p_support bdf.
Definition val_pcie_get_pcie_type (bdf : Z) : M Z := of_bdf pal_pcie_get_pcie_type bdf.
Definition val_pcie_get_snoop_bit (bdf : Z) : M Z := of_bdf pal_pcie_get_snoop_bit bdf.
Definition val_pcie_get_dma_support (bdf : Z) : M Z := of_bdf pal_pcie_get_dma_support bdf.
Definition val_pcie_get_dma_coherent (bdf : Z) : M Z := of_bdf pal_pcie_get_dma_coherent bdf.
Definition val_pcie_get_rp_transaction_frwd_support (bdf : Z) : M Z :=
  of_bdf pal_pcie_get_rp_transaction_frwd_support bdf.
Definition val_pcie_is_cache_present (bdf : Z) : M Z := of_bdf pal_pcie_is_cache_present bdf.
Definition val_peripheral_is_pcie (bdf : Z) : M Z := of_bdf pal_peripheral_is_pcie bdf.

(** The status, and the root port when the status is 0. *)
Definition val_pcie_get_root_port_bdf (bdf : Z) : M (Z * Z) :=
  let* ' (status, (seg, bus, dev_, func)) := of_bdf pal_pcie_get_root_port_bdf bdf in
  ret (if truthy status then (status, bdf) else (0, PCIE_CREATE_BDF seg bus dev_ func)).

Definition val_pcie_get_bdf (class_code start_bdf : Z) : M Z :=
  pal_pcie_get_bdf_wrapper class_code start_bdf.
Definition val_pci_bdf_to_dev (bdf : Z) : M Z := pal_pci_bdf_to_dev bdf.
Definition val_pcie_read_ext_cap_word (bdf ext_cap_id offset : Z) : M (option Z) :=
  of_bdf (fun seg bus dev_ func => pal_pcie_read_ext_cap_word seg bus dev_ func ext_cap_id offset)
    bdf.
Definition val_pcie_io_read_cfg (bdf offset : Z) : M (Z * option Z) :=
  pal_pcie_io_read_cfg bdf offset.
Definition val_pcie_io_write_cfg (bdf offset data : Z) : M () :=
  pal_pcie_io_write_cfg bdf offset data.
End device.
