(* ===== verification/TestEntry.v ===== *)
(** * The frame of a test

    What the tests of src/test_pool share. A test is an entry point, called with the
    number of PEs, around a payload: [run_test] is the body of the entry points, which
    differ only in the PEs they run on. Most PCIe payloads go over the functions of
    the BDF table, count the failures and report: [function_test] is that payload
    around the check each of them makes of a function. *)

From S2P Require Import Prelude Types World Status Machine PeInfra TestInfra Pcie PcieTable PcieDiscovery Timer.
#[local] Open Scope c_scope.

(** What the tests ask of the machine beyond the validation layer: whether a load
    takes an exception, and the delay of the boot services. *)
Class TestHardware (D : Type) := {
  load_aborts : Z -> D -> bool * D;
  bs_stall : Z -> D -> D
}.

Section entry.
Context {D : Type} `{Platform D}.

#[local] Abbreviation M := (M (world D)).

(** [val_pe_get_index_mpid(val_pe_get_mpid())] *)
Definition my_index : M Z := let* mpid := val_pe_get_mpid in val_pe_get_index_mpid mpid.

(** The body of an entry point, after it has chosen the number of PEs. *)
Definition run_test (fuel : nat) (test_num : Z) (desc : string) (num_pe : Z) (payload : code D)
  : M Z :=
  let* status := val_initialize_test test_num desc num_pe in
  (when negb (status =? ACS_STATUS_SKIP) then
     val_run_test_payload fuel test_num num_pe payload 0) ;;
  let* status := val_check_for_error test_num num_pe in
  val_report_status 0 (BSA_ACS_END test_num) ;;
  ret status.

(** [num_pe = 1;] before it. *)
Definition run_on_one (fuel : nat) (test_num : Z) (desc : string) (num_pe : Z)
    (payload : code D) : M Z :=
  let num_pe := 1 in run_test fuel test_num desc num_pe payload.

(** The payload functions are all static and all called [payload]. *)
Definition payload_of (test : string) (body : M ()) : code D :=
  Code (symbol (test ++ ".payload")) body.

(** ** Payloads over the functions of the BDF table *)

(** Their locals: two that a failed access leaves as they were, [None] until first
    written, the number of failures, and 1 until a function the rule is about is seen. *)
Record locals := mkLocals {
  reg_value : option Z;
  cap_base : option Z;
  test_fails : Z;
  test_skip : Z
}.

Definition start_locals : locals := mkLocals None None 0 1.

Definition with_reg (v : option Z) (l : locals) : locals :=
  mkLocals v (cap_base l) (test_fails l) (test_skip l).
Definition with_cap (v : option Z) (l : locals) : locals :=
  mkLocals (reg_value l) v (test_fails l) (test_skip l).
(** [test_fails++;] *)
Definition failing (l : locals) : locals :=
  mkLocals (reg_value l) (cap_base l) (u32 (test_fails l + 1)) (test_skip l).
(** [test_skip = 0;] *)
Definition applicable (l : locals) : locals :=
  mkLocals (reg_value l) (cap_base l) (test_fails l) 0.

(** [val_pcie_read_cfg(bdf, offset, &reg_value);] and the value then used. *)
Definition read_reg (l : locals) (bdf offset : Z) : M (Z * locals) :=
  let* x := read_cfg_into (reg_value l) bdf offset in
  let* v := need x in
  ret (v, with_reg x l).

(** [val_pcie_find_capability(bdf, type, id, &cap_base)] *)
Definition find_cap (fuel : nat) (l : locals) (bdf type id : Z) : M (Z * locals) :=
  let* ' (status, offset) := val_pcie_find_capability fuel bdf type id in
  ret (status, match offset with Some _ => with_cap offset l | None => l end).

(** [val_pcie_read_cfg(bdf, cap_base + offset, &reg_value);] *)
Definition read_cap_reg (l : locals) (bdf offset : Z) : M (Z * locals) :=
  let* base := need (cap_base l) in
  read_reg l bdf (u32 (base + offset)).

(** A register of the PCI Express capability, its presence not checked. *)
Definition read_pciecs_reg (fuel : nat) (l : locals) (bdf offset : Z) : M (Z * locals) :=
  let* ' (_, l) := find_cap fuel l bdf PCIE_CAP CID_PCIECS in
  read_cap_reg l bdf offset.

(** [while (n) { n--; body }] and [while (n--) body]. *)
Definition count_down {A R} (n : Z) (body : Z -> A -> M (ctl A R)) (a : A) : M (ctl A R) :=
  for_ (Z.to_nat n) 0 (fun k a => body (n - 1 - k) a) a.

(** *** Accesses of the tests themselves *)

Definition val_time_delay_ms `{TestHardware D} (time_ms : Z) : M () := on_dev (bs_stall time_ms).
Definition ONE_MILLISECOND : Z := 1000.

(** A volatile load while [esr] is the handler of synchronous exceptions. [esr] moves the
    return address to the label after the accesses, so that a load that aborts ends
    them: [None]. *)
Definition load_or_abort `{TestHardware D} (esr : M ()) (width addr : Z) : M (option Z) :=
  let* aborts := from_dev (load_aborts addr) in
  if aborts : bool then esr ;; ret None
  else let* v := from_dev (dev_read width addr) in ret (Some v).

(** The configuration space of a function copied to a buffer, a word at a time, and back. *)
Definition save_cfg (config_space_addr : Z) : M (list Z) :=
  for_acc (Z.to_nat (PCIE_CFG_SIZE / 4)) 0 (fun idx buf =>
    let* v := from_dev (dev_read 4 (u64 (config_space_addr + 4 * idx))) in
    ret (buf ++ [v])) [].
Definition restore_cfg (config_space_addr : Z) (buf : list Z) : M () :=
  for_each (Z.to_nat (PCIE_CFG_SIZE / 4)) 0 (fun idx =>
    let* v := need (buf !! Z.to_nat idx) in
    on_dev (dev_write 4 (u64 (config_space_addr + 4 * idx)) v)).

(** The loop over the table. *)
Definition for_functions {A} (check : pcie_device_attr -> A -> M A) (a : A) : M A :=
  let* t := val_pcie_bdf_table_ptr in
  for_acc (Z.to_nat (bdf_entries t)) 0 (fun tbl_index a =>
    let* e := table_entry t tbl_index in check e a) a.

(** The same for a check that may end the test, its status set: [None]. *)
Definition while_functions {A} (check : pcie_device_attr -> A -> M (option A)) (a : A)
  : M (option A) :=
  let* t := val_pcie_bdf_table_ptr in
  let* r := for_ (Z.to_nat (bdf_entries t)) 0 (fun tbl_index a =>
    let* e := table_entry t tbl_index in
    let* a := check e a in
    ret (match a with Some a => Continue a | None => Break tt end)) a in
  ret (match r with Continue a => Some a | Break _ => None end).

(** The three outcomes, in the order the payloads test them. *)
Definition report_counts (test_num pe_index skip_code : Z) (l : locals) : M () :=
  if test_skip l =? 1 then val_set_status pe_index (RESULT_SKIP test_num skip_code)
  else if truthy (test_fails l) then
    val_set_status pe_index (RESULT_FAIL test_num (test_fails l))
  else val_set_status pe_index (RESULT_PASS test_num 1).

Definition function_test (test_num : Z) (check : pcie_device_attr -> locals -> M locals) : M () :=
  let* pe_index := my_index in
  let* l := for_functions check start_locals in
  report_counts test_num pe_index 1 l.

End entry.
