(* ===== verification/TestRegs.v ===== *)
(** * The table-driven PCIe register tests

    Tests p020 to p029 of src/test_pool/pcie/operating_system: each hands a table of
    bit fields to [val_pcie_register_bitfields_check] and reports what it returns. *)

From S2P Require Import Prelude Types World Status Machine PeInfra TestInfra Pcie PcieTable PcieCheck TestEntry.
#[local] Open Scope c_scope.

(** A mask of port types. *)
Definition ports (l : list Z) : Z := fold_right Z.lor 0 l.

(** Every port type (bsa_acs_pcie.h). *)
Definition PCIe_ALL : Z := ports [iEP_EP; iEP_RP; RP; EP; RCEC; RCiEP].

(** ** The tables (test_os_p0*_data.h) *)

Definition bf_info_table20 : list pcie_cfgreg_bitfield_entry :=
  [mkBf HEADER 0 0 0x04 PCIe_ALL 3 3 0 READ_ONLY
     "CR SCE value mismatch"
     "CR SCE attribute mismatch";
   mkBf HEADER 0 0 0x04 PCIe_ALL 4 4 0 READ_ONLY
     "CR MWI value mismatch"
     "CR MWI attribute mismatch";
   mkBf HEADER 0 0 0x04 PCIe_ALL 5 5 0 READ_ONLY
     "CR VPS cfg value mismatch"
     "CR VPS attribute mismatch";
   mkBf HEADER 0 0 0x04 PCIe_ALL 7 7 0 READ_ONLY
     "CR IDSEL value mismatch"
     "CR IDSEL attribute mismatch";
   mkBf HEADER 0 0 0x04 PCIe_ALL 9 9 0 READ_ONLY
     "CR FBBTE value mismatch"
     "CR FBBTE attribute mismatch";
   mkBf HEADER 0 0 0x04 (ports [iEP_RP; iEP_EP]) 10 10 0 READ_ONLY
     "CR ID value mismatch"
     "CR ID attribute mismatch";
   mkBf HEADER 0 0 0x06 (ports [iEP_RP; iEP_EP]) 3 3 0 READ_ONLY
     "SR IS value mismatch"
     "SR IS attribute mismatch";
   mkBf HEADER 0 0 0x06 PCIe_ALL 4 4 1 READ_ONLY
     "SR CL value mismatch"
     "SR CL attribute mismatch";
   mkBf HEADER 0 0 0x06 PCIe_ALL 5 5 0 READ_ONLY
     "SR 66MHz capable value mismatch"
     "SR 66MHz capable attribute mismatch";
   mkBf HEADER 0 0 0x06 PCIe_ALL 7 7 0 READ_ONLY
     "SR FBBTC value mismatch"
     "SR FBBTC attribute mismatch";
   mkBf HEADER 0 0 0x06 PCIe_ALL 9 10 0 READ_ONLY
     "SR DT value mismatch"
     "SR DT attribute mismatch";
   mkBf HEADER 0 0 0x0D PCIe_ALL 0 7 0 READ_ONLY "LTR value mismatch" "LTR attribute mismatch"].

Definition bf_info_table21 : list pcie_cfgreg_bitfield_entry :=
  [mkBf HEADER 0 0 0x28 (ports [RCiEP; RCEC; iEP_EP]) 0 31 0 READ_ONLY
     "CCP value mismatch"
     "CCP attribute mismatch";
   mkBf HEADER 0 0 0x3E (ports [RCiEP; RCEC; EP; iEP_EP]) 0 7 0 READ_ONLY
     "MinGnt value mismatch"
     "MinGnt attribute mismatch";
   mkBf HEADER 0 0 0x3F (ports [RCiEP; RCEC; EP; iEP_EP]) 0 7 0 RSVDP_RO
     "Max latency value mismatch"
     "Max latency attribute mismatch"].

Definition bf_info_table22 : list pcie_cfgreg_bitfield_entry :=
  [mkBf HEADER 0 0 0x1B (ports [RP; iEP_RP]) 0 7 0 READ_ONLY
     "SLT value mismatch"
     "SLT attribute mismatch";
   mkBf HEADER 0 0 0x1E (ports [RP; iEP_RP]) 5 5 0 READ_ONLY
     "SSR 66Mhz value mismatch"
     "SSR 66Mhz attribute mismatch";
   mkBf HEADER 0 0 0x1E (ports [RP; iEP_RP]) 7 7 0 READ_ONLY
     "SSR FBBTC value mismatch"
     "SSR FBBTC attribute mismatch";
   mkBf HEADER 0 0 0x1E (ports [RP; iEP_RP]) 9 10 0 READ_ONLY
     "SSR DEVSEL value mismatch"
     "SSR DEVSEL attribute mismatch";
   mkBf HEADER 0 0 0x3E (ports [RP; iEP_RP]) 5 5 0 READ_ONLY
     "BCR MAM value mismatch"
     "BCR MAM attribute mismatch";
   mkBf HEADER 0 0 0x3E (ports [RP; iEP_RP]) 7 7 0 READ_ONLY
     "BCR FBBTE value mismatch"
     "BCR FBBTE attribute mismatch";
   mkBf HEADER 0 0 0x3E (ports [RP; iEP_RP]) 8 8 0 READ_ONLY
     "BCR PDT value mismatch"
     "BCR PDT attribute mismatch";
   mkBf HEADER 0 0 0x3E (ports [RP; iEP_RP]) 9 9 0 READ_ONLY
     "BCR SDT value mismatch"
     "BCR SDT attribute mismatch";
   mkBf HEADER 0 0 0x3E (ports [RP; iEP_RP]) 10 10 0 READ_ONLY
     "BCR DTS value mismatch"
     "BCR DTS attribute mismatch";
   mkBf HEADER 0 0 0x3E (ports [RP; iEP_RP]) 11 11 0 READ_ONLY
     "BCR DTSE value mismatch"
     "BCR DTSE attribute mismatch"].

Definition bf_info_table23 : list pcie_cfgreg_bitfield_entry :=
  [mkBf PCIE_CAP 0x10 0 0x02 iEP_RP 8 8 0 HW_INIT "SI value mismatch" "SI attribute mismatch"].

Definition bf_info_table24 : list pcie_cfgreg_bitfield_entry :=
  [mkBf PCIE_CAP 0x10 0 0x04 (ports [RCEC; RCiEP; iEP_EP; iEP_RP]) 3 4 0 READ_ONLY
     "WARNING : PFS value mismatch"
     "WARNING : PFS attribute mismatch";
   mkBf PCIE_CAP 0x10 0 0x04 (ports [RCEC; RCiEP; iEP_EP; iEP_RP]) 5 5 1 READ_ONLY
     "ETFS value mismatch"
     "ETFS attribute mismatch";
   mkBf PCIE_CAP 0x10 0 0x04 (ports [RCEC; RCiEP; iEP_EP; iEP_RP; RP]) 6 8 0 READ_ONLY
     "ELAL value mismatch"
     "ELAL attribute mismatch";
   mkBf PCIE_CAP 0x10 0 0x04 (ports [RCEC; RCiEP; iEP_EP; iEP_RP; RP]) 9 11 0 READ_ONLY
     "ELAL value mismatch"
     "ELAL attribute mismatch";
   mkBf PCIE_CAP 0x10 0 0x04 (ports [RCEC; RCiEP; iEP_EP; iEP_RP]) 15 15 1 READ_ONLY
     "RBER value mismatch"
     "RBER attribute mismatch";
   mkBf PCIE_CAP 0x10 0 0x04 (ports [RCEC; RCiEP; iEP_EP; iEP_RP]) 18 25 0 READ_ONLY
     "CSPLV value mismatch"
     "CSPLV attribute mismatch";
   mkBf PCIE_CAP 0x10 0 0x04 (ports [RCEC; RCiEP; iEP_EP; iEP_RP]) 26 27 0 READ_ONLY
     "CSPLS value mismatch"
     "CSPLS attribute mismatch";
   mkBf PCIE_CAP 0x10 0 0x04 (ports [iEP_RP; RP]) 28 28 0 READ_ONLY
     "FLRC value mismatch"
     "FLRC attribute mismatch"].

Definition bf_info_table25 : list pcie_cfgreg_bitfield_entry :=
  [mkBf PCIE_CAP 0x10 0 0x08 (ports [RCEC; RCiEP; iEP_EP; iEP_RP]) 9 9 0 READ_WRITE
     "WARNING PFE value mismatch"
     "WARNING PFE attribute mismatch";
   mkBf PCIE_CAP 0x10 0 0x08 (ports [RCEC; RCiEP; iEP_EP; iEP_RP]) 10 10 0 STICKY_RW
     "WARNING APPE value mismatch"
     "WARNING APPE attribute mismatch";
   mkBf PCIE_CAP 0x10 0 0x08 RCEC 11 11 0 READ_ONLY
     "ENS value mismatch"
     "ENS attribute mismatch";
   mkBf PCIE_CAP 0x10 0 0x08 (ports [iEP_RP; RP]) 15 15 0 RSVDP_RO
     "IFLR value mismatch"
     "IFLR attribute mismatch"].

Definition bf_info_table26 : list pcie_cfgreg_bitfield_entry :=
  [mkBf PCIE_CAP 0x10 0 0x24 (ports [RCEC; RCiEP; iEP_EP; EP]) 5 5 0 READ_ONLY
     "AFS value mismatch"
     "AFS attribute mismatch";
   mkBf PCIE_CAP 0x10 0 0x24 iEP_RP 5 5 0 READ_ONLY
     "WARNING AFS value mismatch"
     "WARNING AFS attribute mismatch";
   mkBf PCIE_CAP 0x10 0 0x24 (ports [RCEC; RCiEP; iEP_EP]) 6 6 0 READ_ONLY
     "ARS value mismatch"
     "ARS attribute mismatch";
   mkBf PCIE_CAP 0x10 0 0x24 iEP_RP 6 6 0 READ_ONLY
     "WARNING ARS value mismatch"
     "WARNING ARS attribute mismatch";
   mkBf PCIE_CAP 0x10 0 0x24 (ports [RCEC; RCiEP; iEP_EP; EP]) 10 10 0 HW_INIT
     "NREPP value mismatch"
     "NREPP attribute mismatch";
   mkBf PCIE_CAP 0x10 0 0x24 (ports [RCiEP; iEP_EP; EP]) 14 15 0 HW_INIT
     "LSC value mismatch"
     "LSC attribute mismatch";
   mkBf PCIE_CAP 0x10 0 0x24 iEP_RP 16 16 1 HW_INIT
     "TCS value mismatch"
     "TCS attribute mismatch";
   mkBf PCIE_CAP 0x10 0 0x24 (ports [iEP_RP; iEP_EP]) 17 17 1 HW_INIT
     "TRS value mismatch"
     "TRS attribute mismatch";
   mkBf PCIE_CAP 0x10 0 0x24 (ports [iEP_RP; iEP_EP]) 20 20 1 READ_ONLY
     "EFFS value mismatch"
     "EFFS attribute mismatch";
   mkBf PCIE_CAP 0x10 0 0x24 (ports [RCiEP; RCEC]) 20 20 1 READ_ONLY
     "WARNING EFFS value mismatch"
     "WARNING EFFS attribute mismatch";
   mkBf PCIE_CAP 0x10 0 0x24 RCEC 21 21 0 HW_INIT
     "WARNING ETPS value mismatch"
     "WARNING ETPS attribute mismatch";
   mkBf PCIE_CAP 0x10 0 0x24 RCEC 22 23 0 RSVDP_RO
     "WARNING METP value mismatch"
     "WARNING METP attribute mismatch";
   mkBf PCIE_CAP 0x10 0 0x24 iEP_RP 24 25 0 RSVDP_RO
     "EPRS value mismatch"
     "EPRS attribute mismatch";
   mkBf PCIE_CAP 0x10 0 0x24 iEP_EP 24 25 0 RSVDP_RO
     "WARNING EPRS value mismatch"
     "WARNING EPRS attribute mismatch";
   mkBf PCIE_CAP 0x10 0 0x24 iEP_RP 26 26 0 RSVDP_RO
     "EPRIR value mismatch"
     "EPRIR attribute mismatch";
   mkBf PCIE_CAP 0x10 0 0x24 iEP_EP 26 26 0 RSVDP_RO
     "WARNING EPRIR value mismatch"
     "WARNING EPRIR attribute mismatch"].

Definition bf_info_table27 : list pcie_cfgreg_bitfield_entry :=
  [mkBf PCIE_CAP 0x10 0 0x28 (ports [RCEC; RCiEP; iEP_EP]) 5 5 0 READ_ONLY
     "AFI value mismatch"
     "AFI attribute mismatch";
   mkBf PCIE_CAP 0x10 0 0x28 (ports [RCEC; RCiEP; iEP_EP]) 7 7 0 READ_ONLY
     "AEB value mismatch"
     "AEB attribute mismatch";
   mkBf PCIE_CAP 0x10 0 0x28 RCEC 8 8 0 READ_ONLY
     "IRE value mismatch"
     "IRE attribute mismatch";
   mkBf PCIE_CAP 0x10 0 0x28 RCEC 9 9 0 READ_ONLY
     "ICE value mismatch"
     "ICE attribute mismatch";
   mkBf PCIE_CAP 0x10 0 0x28 (ports [RCEC; RCiEP; iEP_RP; iEP_EP]) 11 11 0 RSVDP_RO
     "EPPR value mismatch"
     "EPPR attribute mismatch"].

Definition bf_info_table28 : list pcie_cfgreg_bitfield_entry :=
  [mkBf PCIE_CAP 0x01 0 0 PCIe_ALL 19 19 0 READ_ONLY
     "PME Clock value mismatch"
     "PME Clock attribute mismatch";
   mkBf PCIE_CAP 0x01 0 0 (ports [RCiEP; RCEC; iEP_EP; iEP_RP]) 22 24 0 READ_ONLY
     "Aux Current value mismatch"
     "Aux Current attribute mismatch"].

Definition bf_info_table29 : list pcie_cfgreg_bitfield_entry :=
  [mkBf PCIE_CAP 0x01 0 0x04 (ports [RCiEP; RCEC; iEP_EP; iEP_RP]) 9 12 0 READ_ONLY
     "WARNING Data Select value mismatch"
     "WARNING Data Select attribute mismatch";
   mkBf PCIE_CAP 0x01 0 0x04 (ports [RCiEP; RCEC; iEP_EP; iEP_RP]) 13 14 0 READ_ONLY
     "WARNING Data Scale value mismatch"
     "WARNING Data Scale attribute mismatch"].
(** ** The tests *)

Section regs.
Context {D : Type} `{Platform D} (fuel : nat).

#[local] Abbreviation M := (M (world D)).

Definition register_test (test_num : Z) (bf_info_table : list pcie_cfgreg_bitfield_entry) : M () :=
  let* pe_index := my_index in
  let table_entries := Z.of_nat (length bf_info_table) in
  let* ret_ := val_pcie_register_bitfields_check fuel bf_info_table table_entries in
  if ret_ =? ACS_STATUS_SKIP then val_set_status pe_index (RESULT_SKIP test_num 1)
  else if truthy ret_ then val_set_status pe_index (RESULT_FAIL test_num ret_)
  else val_set_status pe_index (RESULT_PASS test_num 1).

Definition os_p020_payload : M () := register_test (ACS_PCIE_TEST_NUM_BASE + 20) bf_info_table20.
Definition os_p020_entry (num_pe : Z) : M Z :=
  run_on_one fuel (ACS_PCIE_TEST_NUM_BASE + 20)
    "RE_REC_1,RE_REC_2: Check Type 0/1 common config rule" num_pe
    (payload_of "os_p020" os_p020_payload).

Definition os_p021_payload : M () := register_test (ACS_PCIE_TEST_NUM_BASE + 21) bf_info_table21.
Definition os_p021_entry (num_pe : Z) : M Z :=
  run_on_one fuel (ACS_PCIE_TEST_NUM_BASE + 21)
    "RE_REC_1,2: Check Type 0 config header rules       " num_pe
    (payload_of "os_p021" os_p021_payload).

Definition os_p022_payload : M () := register_test (ACS_PCIE_TEST_NUM_BASE + 22) bf_info_table22.
Definition os_p022_entry (num_pe : Z) : M Z :=
  run_on_one fuel (ACS_PCIE_TEST_NUM_BASE + 22)
    "RE_REC_1,2: Check Type 1 config header rules       " num_pe
    (payload_of "os_p022" os_p022_payload).

Definition os_p023_payload : M () := register_test (ACS_PCIE_TEST_NUM_BASE + 23) bf_info_table23.
Definition os_p023_entry (num_pe : Z) : M Z :=
  run_on_one fuel (ACS_PCIE_TEST_NUM_BASE + 23)
    "RE_REC_1,2: Check PCIe capability rules            " num_pe
    (payload_of "os_p023" os_p023_payload).

Definition os_p024_payload : M () := register_test (ACS_PCIE_TEST_NUM_BASE + 24) bf_info_table24.
Definition os_p024_entry (num_pe : Z) : M Z :=
  run_on_one fuel (ACS_PCIE_TEST_NUM_BASE + 24)
    "RE_REC_1,2: Check Device capabilities reg rules    " num_pe
    (payload_of "os_p024" os_p024_payload).

Definition os_p025_payload : M () := register_test (ACS_PCIE_TEST_NUM_BASE + 25) bf_info_table25.
Definition os_p025_entry (num_pe : Z) : M Z :=
  run_on_one fuel (ACS_PCIE_TEST_NUM_BASE + 25)
    "RE_REC_1,2: Check Device Control register rule     " num_pe
    (payload_of "os_p025" os_p025_payload).

Definition os_p026_payload : M () := register_test (ACS_PCIE_TEST_NUM_BASE + 26) bf_info_table26.
Definition os_p026_entry (num_pe : Z) : M Z :=
  run_on_one fuel (ACS_PCIE_TEST_NUM_BASE + 26)
    "RE_REC_1,2: Check Device cap 2 register rules      " num_pe
    (payload_of "os_p026" os_p026_payload).

Definition os_p027_payload : M () := register_test (ACS_PCIE_TEST_NUM_BASE + 27) bf_info_table27.
Definition os_p027_entry (num_pe : Z) : M Z :=
  run_on_one fuel (ACS_PCIE_TEST_NUM_BASE + 27)
    "RE_REC_1,2: Check Device control 2 reg rules       " num_pe
    (payload_of "os_p027" os_p027_payload).

Definition os_p028_payload : M () := register_test (ACS_PCIE_TEST_NUM_BASE + 28) bf_info_table28.
Definition os_p028_entry (num_pe : Z) : M Z :=
  run_on_one fuel (ACS_PCIE_TEST_NUM_BASE + 28)
    "RE_REC_1,2: Check Power management cap rules       " num_pe
    (payload_of "os_p028" os_p028_payload).

Definition os_p029_payload : M () := register_test (ACS_PCIE_TEST_NUM_BASE + 29) bf_info_table29.
Definition os_p029_entry (num_pe : Z) : M Z :=
  run_on_one fuel (ACS_PCIE_TEST_NUM_BASE + 29)
    "RE_REC_1,2: Check Power management/status rule     " num_pe
    (payload_of "os_p029" os_p029_payload).

End regs.

(** ** A field of 32 bits *)

(** The cardbus pointer: all 32 bits of its word. *)
Definition whole_word : pcie_cfgreg_bitfield_entry :=
  mkBf HEADER 0 0 0x28 (ports [RCiEP; RCEC; iEP_EP]) 0 31 0 READ_ONLY
    "CCP value mismatch" "CCP attribute mismatch".

Lemma whole_word_listed : bf_info_table21 !! 0%nat = Some whole_word.
Proof. reflexivity. Qed.

(** A command that never comes back. *)
Definition never {St A} (m : Prelude.M St A) : Prop := forall s a s' o, m s <> Ret a s' o.

Lemma never_fault {St A} : never (fault : Prelude.M St A).
Proof. done. Qed.
Lemma never_bind {St A B} (m : Prelude.M St A) (k : A -> Prelude.M St B) :
  (forall a, never (k a)) -> never (bind m k).
Proof.
  intros Hk s b s' o. unfold bind. destruct (m s) as [a s1 o1| |]; [|done..].
  specialize (Hk a s1). destruct (k a s1) as [b2 s2 o2| |]; [|done..]. by destruct (Hk b2 s2 o2).
Qed.
Lemma never_need {St A B} (k : A -> Prelude.M St B) : never (bind (need None) k).
Proof. done. Qed.

(** C13: The check of that entry has no defined result, on any machine: its mask is computed
    by a shift of a 32-bit one by 32. The test of the type-0 header registers is therefore
    undefined on every system with an integrated endpoint or an event collector. *)
Theorem whole_word_field_undefined `{Platform D} fuel bdf (w : world D) r w' o :
  val_pcie_bitfield_check fuel bdf whole_word w <> Ret r w' o.
Proof.
  revert w r w' o. change (never (val_pcie_bitfield_check fuel bdf whole_word)).
  unfold val_pcie_bitfield_check. cbn [bf_reg_type whole_word Z.eqb HEADER Pos.eqb].
  change (HEADER =? HEADER) with true. unfold bitfield_check_at.
  change (negb (PCIE_SUCCESS =? PCIE_SUCCESS)) with false. cbv iota zeta.
  repeat first [apply never_need|apply never_bind; intros ?].
Qed.
