(* ===== verification/TestPcie.v ===== *)
(** * The PCIe tests

    src/test_pool/pcie/operating_system, but for the table-driven tests of TestRegs:
    each test is its payload and its entry point. A payload that goes over the functions
    of the BDF table is the check it makes of one function. *)

From S2P Require Import Prelude Types World Status Machine PeInfra TestInfra Pcie PcieTable PcieDiscovery PcieDevice Timer Peripherals Iovirt Gic TestEntry.
#[local] Open Scope c_scope.

Section tests.
Context {D : Type} `{Platform D} `{PalPci D} `{PalPciLinux D} `{TestHardware D} (fuel : nat).

#[local] Abbreviation M := (M (world D)).

(** A load through a volatile pointer takes a synchronous exception or not; the store of
    p048 is posted and its errors are not modelled. *)

(** ** ECAM *)

Definition os_p001_payload : M () :=
  let* index := my_index in
  let* num_ecam := val_pcie_get_info PCIE_INFO_NUM_ECAM 0 in
  if num_ecam =? 0 then
    val_print ACS_PRINT_ERR "\n       No ECAMs discovered              " 0 ;;
    val_set_status index (RESULT_SKIP (ACS_PCIE_TEST_NUM_BASE + 1) 1)
  else val_set_status index (RESULT_PASS (ACS_PCIE_TEST_NUM_BASE + 1) 1).

(** One function of an ECAM region, [data] kept from the last access; [inr]: the test ends. *)
Definition os_p002_function (index bdf bus_index dev_index : Z) (data : option Z)
  : M (option Z + ()) :=
  let fails : M (option Z + ()) :=
    val_set_status index (RESULT_FAIL (ACS_PCIE_TEST_NUM_BASE + 2)
                            (Z.lor (Z.shiftl bus_index 8) dev_index)) ;;
    ret (inr tt) in
  let read (offset : Z) (data : option Z) (k : Z -> option Z -> M (option Z + ())) :=
    let* ' (r, v) := val_pcie_read_cfg bdf offset in
    k r (match v with Some _ => v | None => data end) in
  read 0x0 data (fun r data =>
  let* zero := if r =? PCIE_NO_MAPPING then ret true
               else let* v := need data in ret (v =? 0) in
  if zero : bool then
    (let* v := need data in
     val_print ACS_PRINT_ERR "\n      Incorrect data at ECAM Base %4x    " v) ;;
    fails
  else
  read 0xC data (fun r data =>
  if r =? PCIE_NO_MAPPING then
    (let* v := need data in
     val_print ACS_PRINT_ERR "\n      Incorrect PCIe CFG Hdr type %4x    " v) ;;
    fails
  else
  read (PCIE_ECAP_START + 0x100) data (fun r data =>
  if r =? PCIE_NO_MAPPING then
    val_print ACS_PRINT_ERR "\n      PCIe Extended Capability region error for BDF %x" bdf ;;
    fails
  else
  read (PCIE_ECAP_END - 0x100) data (fun r data =>
  if r =? PCIE_NO_MAPPING then
    val_print ACS_PRINT_ERR "\n      PCIe Extended Capability region error for BDF %x" bdf ;;
    fails
  else ret (inl data))))).

(** The three nested loops over a region; [None]: the test has ended. *)
Definition os_p002_region (index segment bus end_bus : Z) (data : option Z)
  : M (option (option Z)) :=
  let stop {A R} (r : ctl A R) : ctl A () := match r with Break _ => Break tt | Continue a => Continue a end in
  let* r := for_ (Z.to_nat (end_bus - bus + 1)) bus (fun bus_index data =>
    let* r := for_ (Z.to_nat PCIE_MAX_DEV) 0 (fun dev_index data =>
      let* r := for_ (Z.to_nat PCIE_MAX_FUNC) 0 (fun func_index data =>
        let bdf := PCIE_CREATE_BDF segment bus_index dev_index func_index in
        let* r := os_p002_function index bdf bus_index dev_index data in
        ret (match r with inl data => Continue data | inr _ => Break tt end)) data in
      ret (stop r)) data in
    ret (stop r)) data in
  ret (match r with Continue data => Some data | Break _ => None end).

Definition os_p002_payload : M () :=
  let test_num := ACS_PCIE_TEST_NUM_BASE + 2 in
  let* index := my_index in
  let* num_ecam := val_pcie_get_info PCIE_INFO_NUM_ECAM 0 in
  if num_ecam =? 0 then
    val_print ACS_PRINT_ERR "\n       No ECAM in MCFG                   " 0 ;;
    val_set_status index (RESULT_SKIP test_num 1)
  else
  let* r := for_ (Z.to_nat num_ecam) 0 (fun k data =>
    let num_ecam := num_ecam - 1 - k in
    let* ecam_base := val_pcie_get_info PCIE_INFO_ECAM num_ecam in
    if ecam_base =? 0 then
      val_print ACS_PRINT_ERR "\n       ECAM Base in MCFG is 0            " 0 ;;
      val_set_status index (RESULT_SKIP test_num 1) ;;
      ret (Break tt)
    else
    let* segment := val_pcie_get_info PCIE_INFO_SEGMENT num_ecam in
    let* bus := val_pcie_get_info PCIE_INFO_START_BUS num_ecam in
    let* end_bus := val_pcie_get_info PCIE_INFO_END_BUS num_ecam in
    let* data := read_cfg_into data (PCIE_CREATE_BDF segment bus 0 0) 0x0 in
    let* v := need data in
    if v =? PCIE_UNKNOWN_RESPONSE then
      val_print ACS_PRINT_ERR "\n      First device in a ECAM space is not a valid device" 0 ;;
      val_set_status index (RESULT_FAIL test_num (u32 (Z.shiftl bus 8))) ;;
      ret (Break tt)
    else
    let* r := os_p002_region index segment bus end_bus data in
    ret (match r with Some data => Continue data | None => Break tt end)) None in
  match r with
  | Break _ => ret tt
  | Continue _ => val_set_status index (RESULT_PASS test_num 1)
  end.

(** The highest entry of a segment: the table is in increasing order. *)
Definition os_p060_get_max_bdf (segment : Z) : M Z :=
  for_functions (fun e max_bdf =>
    ret (if segment =? PCIE_EXTRACT_BDF_SEG (d_bdf e) then d_bdf e else max_bdf)) 0.

(** All the functions of the bus after the last; [true]: the test has ended. *)
Definition os_p060_bus (pe_index ecam_index segment bus_index : Z) : M bool :=
  let test_num := ACS_PCIE_TEST_NUM_BASE + 60 in
  let* r := for_ (Z.to_nat PCIE_MAX_DEV) 0 (fun dev_index _ =>
    let* r := for_ (Z.to_nat PCIE_MAX_FUNC) 0 (fun func_index _ =>
      let bdf := PCIE_CREATE_BDF segment bus_index dev_index func_index in
      let* ecam_base := val_pcie_get_info PCIE_INFO_ECAM ecam_index in
      if ecam_base =? 0 then
        val_print ACS_PRINT_ERR "\n       ECAM Base is zero " 0 ;;
        val_set_status pe_index (RESULT_FAIL test_num 1) ;;
        ret (Break tt)
      else
      let addr := u64 (ecam_base + cfg_addr bus_index dev_index func_index + TYPE01_VIDR) in
      val_print ACS_PRINT_INFO "\n       Calculated config address is %lx" addr ;;
      let* reg_value := pal_mmio_read addr in
      if negb (reg_value =? PCIE_UNKNOWN_RESPONSE) then
        val_print ACS_PRINT_ERR "\n       Failed for BDF: 0x%x" bdf ;;
        val_set_status pe_index (RESULT_FAIL test_num 2) ;;
        ret (Break tt)
      else
        val_set_status pe_index (RESULT_PASS test_num 1) ;;
        ret (Continue tt)) tt in
    ret (match r with Break _ => Break tt | Continue _ => Continue tt end)) tt in
  ret (match r with Break _ => true | Continue _ => false end).

Definition os_p060_payload : M () :=
  let test_num := ACS_PCIE_TEST_NUM_BASE + 60 in
  let* pe_index := my_index in
  let* num_ecam := val_pcie_get_info PCIE_INFO_NUM_ECAM 0 in
  let* _ := for_ (Z.to_nat num_ecam) 0 (fun ecam_index _ =>
    let* end_bus := val_pcie_get_info PCIE_INFO_END_BUS ecam_index in
    let* segment := val_pcie_get_info PCIE_INFO_SEGMENT ecam_index in
    val_set_status pe_index (RESULT_SKIP test_num 1) ;;
    let* bdf := os_p060_get_max_bdf segment in
    let bus_index :=
      if PCIE_EXTRACT_BDF_BUS bdf <? end_bus then PCIE_EXTRACT_BDF_BUS bdf else end_bus in
    val_print ACS_PRINT_INFO "Maximum bus value is 0x%x" bus_index ;;
    let bus_index := bus_index + 1 in
    if 255 <? bus_index then
      val_print ACS_PRINT_ERR "\n Bus index exceeded maximum value" 0 ;;
      ret (Break tt)
    else
      let* ended := os_p060_bus pe_index ecam_index segment bus_index in
      ret (if ended : bool then Break tt else Continue tt)) tt in
  ret tt.

(** ** Registers of every function *)

Definition os_p031_check (e : pcie_device_attr) (l : locals) : M locals :=
  let bdf := d_bdf e in
  let* ' (v, l) := read_reg l bdf TYPE01_CLSR in
  let v := VAL_EXTRACT_BITS v BIST_REG_START BIST_REG_END in
  let l := applicable (with_reg (Some v) l) in
  if (Z.land v BIST_BC_MASK =? 0)
     && (negb (Z.land v BIST_CC_MASK =? 0) || negb (Z.land v BIST_SB_MASK =? 0)) then
    val_print ACS_PRINT_ERR "\n        BDF 0x%x" bdf ;;
    val_print ACS_PRINT_ERR " BIST Reg Value : %d" v ;;
    ret (failing l)
  else ret l.

Definition os_p031_payload : M () := function_test (ACS_PCIE_TEST_NUM_BASE + 31) os_p031_check.

Definition os_p032_check (e : pcie_device_attr) (l : locals) : M locals :=
  let bdf := d_bdf e in
  let* ' (v, l) := read_reg l bdf TYPE01_CPR in
  let cap_ptr_value := Z.land (Z.shiftr v TYPE01_CPR_SHIFT) TYPE01_CPR_MASK in
  let l := applicable l in
  if negb (negb (cap_ptr_value =? 0) && ((0x40 <=? cap_ptr_value) && (cap_ptr_value <=? 0xFC))) then
    val_print ACS_PRINT_ERR "\n        BDF 0x%x" bdf ;;
    val_print ACS_PRINT_ERR " Cap Ptr Value: 0x%x" cap_ptr_value ;;
    ret (failing l)
  else ret l.

Definition os_p032_payload : M () := function_test (ACS_PCIE_TEST_NUM_BASE + 32) os_p032_check.

Definition os_p033_check (e : pcie_device_attr) (l : locals) : M locals :=
  let bdf := d_bdf e in
  let* ' (v, l) := read_pciecs_reg fuel l bdf DCAPR_OFFSET in
  let max_payload_value := Z.land (Z.shiftr v DCAPR_MPSS_SHIFT) DCAPR_MPSS_MASK in
  let l := applicable l in
  if negb ((0 <=? max_payload_value) && (max_payload_value <=? 5)) then
    val_print ACS_PRINT_ERR "\n        BDF 0x%x" bdf ;;
    val_print ACS_PRINT_ERR " Cap Ptr Value: 0x%x" max_payload_value ;;
    ret (failing l)
  else ret l.

Definition os_p033_payload : M () := function_test (ACS_PCIE_TEST_NUM_BASE + 33) os_p033_check.

(** The BARs of one function; a 64-bit BAR takes two. *)
Definition os_p034_bars (bdf max_bar : Z) (l : locals) : M locals :=
  let* r := for_ (Z.to_nat max_bar) 0 (fun _ '(bar_index, l) =>
    if negb (bar_index <? max_bar) then ret (Break l)
    else
    let* ' (v, l) := read_reg l bdf (TYPE01_BAR + bar_index * BAR_BASE_SHIFT) in
    if v =? 0 then ret (Continue (bar_index + 1, l))
    else
    let l := applicable l in
    let addr_type := Z.land (Z.shiftr v BAR_MDT_SHIFT) BAR_MDT_MASK in
    if negb (addr_type =? BITS_32) && negb (addr_type =? BITS_64) then
      val_print ACS_PRINT_ERR "\n        BDF 0x%x " bdf ;;
      val_print ACS_PRINT_ERR " Addr Type: 0x%x" addr_type ;;
      ret (Continue (bar_index + 1, failing l))
    else
    let bar_index := if addr_type =? BITS_64 then bar_index + 1 else bar_index in
    if truthy (Z.land v BAR_MIT_MASK) then
      val_print ACS_PRINT_ERR "\n        BDF 0x%x Not MMIO" 0 ;;
      ret (Continue (bar_index + 1, failing l))
    else ret (Continue (bar_index + 1, l))) (0, l) in
  ret (match r with Break l => l | Continue (_, l) => l end).

Definition os_p034_check (e : pcie_device_attr) (l : locals) : M locals :=
  let bdf := d_bdf e in
  let* dp_type := val_pcie_device_port_type fuel bdf in
  if (dp_type =? RCiEP) || (dp_type =? iEP_EP) then
    let* hdr_type := val_pcie_function_header_type bdf in
    val_print ACS_PRINT_INFO "\n        HDR TYPE 0x%x " hdr_type ;;
    let max_bar :=
      if hdr_type =? TYPE0_HEADER then TYPE0_MAX_BARS
      else if hdr_type =? TYPE1_HEADER then TYPE1_MAX_BARS else 0 in
    val_print ACS_PRINT_INFO "\n        MAX BARS 0x%x " max_bar ;;
    os_p034_bars bdf max_bar l
  else ret l.

Definition os_p034_payload : M () := function_test (ACS_PCIE_TEST_NUM_BASE + 34) os_p034_check.

(** ** Function and secondary bus reset *)

(** What is left set after a reset: a BAR, bus mastering, memory access. *)
Definition os_p035_is_flr_failed (bdf : Z) : M Z :=
  let* ' (check_failed, reg) := for_acc (Z.to_nat TYPE0_MAX_BARS) 0 (fun index '(check_failed, reg) =>
    let* reg := read_cfg_into reg bdf (TYPE01_BAR + index * BAR_BASE_SHIFT) in
    let* v := need reg in
    if negb (Z.shiftr v BAR_BASE_SHIFT =? 0) then
      val_print ACS_PRINT_ERR "\n BAR%d base addr not cleared" 0 ;;
      ret (check_failed + 1, reg)
    else ret (check_failed, reg)) (0, None) in
  let* reg := read_cfg_into reg bdf TYPE01_CR in
  let* v := need reg in
  let* check_failed :=
    if negb (Z.land (Z.shiftr v CR_BME_SHIFT) CR_BME_MASK =? 0) then
      val_print ACS_PRINT_ERR "\n BME is not cleared" 0 ;; ret (check_failed + 1)
    else ret check_failed in
  let* reg := read_cfg_into reg bdf TYPE01_CR in
  let* v := need reg in
  if negb (Z.land (Z.shiftr v CR_MSE_SHIFT) CR_MSE_MASK =? 0) then
    val_print ACS_PRINT_ERR "\n MSE is not cleared" 0 ;; ret (check_failed + 1)
  else ret check_failed.

(** [None]: the test has ended. *)
Definition os_p035_check (pe_index : Z) (e : pcie_device_attr) (l : locals) : M (option locals) :=
  let bdf := d_bdf e in
  let* dp_type := val_pcie_device_port_type fuel bdf in
  if negb ((dp_type =? RCiEP) || (dp_type =? iEP_EP) || (dp_type =? EP)) then ret (Some l)
  else
  let* ' (v, l) := read_pciecs_reg fuel l bdf DCAPR_OFFSET in
  let flr_cap := Z.land (Z.shiftr v DCAPR_FLRC_SHIFT) DCAPR_FLRC_MASK in
  if negb (truthy flr_cap) then ret (Some l)
  else
  let* func_config_space := val_memory_alloc PCIE_CFG_SIZE in
  if func_config_space =? 0 then
    val_print ACS_PRINT_ERR "\n Memory allocation fail" 0 ;;
    val_set_status pe_index (RESULT_FAIL (ACS_PCIE_TEST_NUM_BASE + 35) (test_fails l)) ;;
    ret None
  else
  let* config_space_addr := val_pcie_get_bdf_config_addr bdf in
  val_print ACS_PRINT_INFO "\n    BDF 0x%x " bdf ;;
  val_print ACS_PRINT_INFO "config space addr 0x%x" config_space_addr ;;
  let* saved := save_cfg config_space_addr in
  let* ' (v, l) := read_cap_reg l bdf DCTLR_OFFSET in
  let v := Z.lor v DCTLR_FLR_SET in
  let l := with_reg (Some v) l in
  let* base := need (cap_base l) in
  val_pcie_write_cfg bdf (u32 (base + DCTLR_OFFSET)) v ;;
  val_time_delay_ms (100 * ONE_MILLISECOND) ;;
  let l := applicable l in
  let* ' (v, l) := read_reg l bdf 0 in
  if Z.land v TYPE01_VIDR_MASK =? TYPE01_VIDR_MASK then
    val_print ACS_PRINT_ERR "\n BDF 0x%x not present" bdf ;;
    val_memory_free func_config_space ;;
    ret (Some (failing l))
  else
  let* failed := os_p035_is_flr_failed bdf in
  let l := if truthy failed then failing l else l in
  restore_cfg config_space_addr saved ;;
  val_memory_free func_config_space ;;
  ret (Some l).

Definition os_p035_payload : M () :=
  let* pe_index := my_index in
  let* l := while_functions (os_p035_check pe_index) start_locals in
  match l with
  | None => ret tt
  | Some l => report_counts (ACS_PCIE_TEST_NUM_BASE + 35) pe_index 1 l
  end.

(** The first device of the secondary bus whose function 0 is an i-EP; 0 when none. *)
Definition os_p051_get_iep_bdf_under_rp (rp_bdf : Z) : M Z :=
  let* v := read_cfg_fresh rp_bdf TYPE1_PBN in
  let sec_bus := Z.land (Z.shiftr v SECBN_SHIFT) SECBN_MASK in
  let* r := for_ (Z.to_nat PCIE_MAX_DEV) 0 (fun dev_num reg =>
    let seg := PCIE_EXTRACT_BDF_SEG rp_bdf in
    let dev_bdf := PCIE_CREATE_BDF seg sec_bus dev_num 0 in
    let* reg := read_cfg_into reg dev_bdf TYPE01_VIDR in
    let* v := need reg in
    if v =? PCIE_UNKNOWN_RESPONSE then ret (Continue reg)
    else
      let* dp_type := val_pcie_device_port_type fuel dev_bdf in
      ret (if dp_type =? iEP_EP then Break dev_bdf else Continue reg)) (Some v) in
  ret (match r with Break dev_bdf => dev_bdf | Continue _ => 0 end).

Definition os_p051_is_sbr_failed (bdf : Z) : M Z :=
  let* ' (check_failed, reg) := for_acc (Z.to_nat TYPE0_MAX_BARS) 0 (fun index '(check_failed, reg) =>
    let* reg := read_cfg_into reg bdf (TYPE01_BAR + index * BAR_BASE_SHIFT) in
    let* v := need reg in
    if negb (Z.shiftr v BAR_BASE_SHIFT =? 0) then
      val_print ACS_PRINT_ERR "\n       BAR%d base addr not cleared" index ;;
      ret (check_failed + 1, reg)
    else ret (check_failed, reg)) (0, None) in
  let* reg := read_cfg_into reg bdf TYPE01_CR in
  let* v := need reg in
  if negb (Z.land (Z.shiftr v CR_BME_SHIFT) CR_BME_MASK =? 0)
     || negb (Z.land (Z.shiftr v CR_MSE_SHIFT) CR_MSE_MASK =? 0) then
    val_print ACS_PRINT_ERR "\n       BME/MSE not cleared" 0 ;; ret (check_failed + 1)
  else ret check_failed.

(** [test_skip] is 1 until an i-EP root port is found; [None]: the test has ended. *)
Definition os_p051_check (pe_index : Z) (e : pcie_device_attr) (l : locals) : M (option locals) :=
  let test_num := ACS_PCIE_TEST_NUM_BASE + 51 in
  let bdf := d_bdf e in
  let* dp_type := val_pcie_device_port_type fuel bdf in
  if negb (dp_type =? iEP_RP) then ret (Some l)
  else
  let l := applicable l in
  let* iep_bdf := os_p051_get_iep_bdf_under_rp bdf in
  if iep_bdf =? 0 then
    val_print ACS_PRINT_ERR "\n       Could Not Find iEP_EP under iEP_RP." 0 ;;
    val_set_status pe_index (RESULT_SKIP test_num 1) ;;
    ret None
  else
  let* cfg_space_buf := val_memory_alloc PCIE_CFG_SIZE in
  if cfg_space_buf =? 0 then
    val_print ACS_PRINT_ERR "\n       Memory allocation failed." 0 ;;
    val_set_status pe_index (RESULT_FAIL test_num 2) ;;
    ret None
  else
  let* cfg_space_addr := val_pcie_get_bdf_config_addr iep_bdf in
  val_print ACS_PRINT_INFO "\n       iEP_EP BDF 0x%x : " iep_bdf ;;
  val_print ACS_PRINT_INFO "Config space addr 0x%x" cfg_space_addr ;;
  let* saved := save_cfg cfg_space_addr in
  let* ' (v, l) := read_reg l bdf TYPE01_ILR in
  let v := Z.lor v BRIDGE_CTRL_SBR_SET in
  let l := with_reg (Some v) l in
  val_pcie_write_cfg bdf TYPE01_ILR v ;;
  val_time_delay_ms (100 * ONE_MILLISECOND) ;;
  let* failed := os_p051_is_sbr_failed iep_bdf in
  let l := if truthy failed then failing l else l in
  restore_cfg cfg_space_addr saved ;;
  val_memory_free cfg_space_buf ;;
  ret (Some l).

Definition os_p051_payload : M () :=
  let* pe_index := my_index in
  let* l := while_functions (os_p051_check pe_index) start_locals in
  match l with
  | None => ret tt
  | Some l => report_counts (ACS_PCIE_TEST_NUM_BASE + 51) pe_index 2 l
  end.

(** ** Capabilities and their fields *)

Definition os_p036_check (e : pcie_device_attr) (l : locals) : M locals :=
  let bdf := d_bdf e in
  let* dp_type := val_pcie_device_port_type fuel bdf in
  if negb (dp_type =? iEP_EP) then ret l
  else
  let* ' (status, l) := find_cap fuel l bdf PCIE_ECAP ECID_ARICS in
  if status =? PCIE_CAP_NOT_FOUND then ret l
  else
  let rp_bdf := d_rp_bdf e in
  let* ' (v, l) := read_pciecs_reg fuel l rp_bdf DCAP2R_OFFSET in
  let ari_frwd_support := Z.land (Z.shiftr v DCAP2R_AFS_SHIFT) DCAP2R_AFS_MASK in
  let l := applicable l in
  ret (if negb (truthy ari_frwd_support) then failing l else l).

Definition os_p036_payload : M () := function_test (ACS_PCIE_TEST_NUM_BASE + 36) os_p036_check.

Definition os_p037_check (e : pcie_device_attr) (l : locals) : M locals :=
  let bdf := d_bdf e in
  let* dp_type := val_pcie_device_port_type fuel bdf in
  if negb (dp_type =? iEP_EP) then ret l
  else
  let* ' (v, l) := read_pciecs_reg fuel l bdf DCAP2R_OFFSET in
  let ep_obff_support := Z.land (Z.shiftr v DCAP2R_OBFF_SHIFT) DCAP2R_OBFF_MASK in
  let rp_bdf := d_rp_bdf e in
  let* ' (v, l) := read_pciecs_reg fuel l rp_bdf DCAP2R_OFFSET in
  let rp_obff_support := Z.land (Z.shiftr v DCAP2R_OBFF_SHIFT) DCAP2R_OBFF_MASK in
  let l := applicable l in
  if negb (ep_obff_support =? rp_obff_support) then
    val_print ACS_PRINT_DEBUG "\n    iEP 0x%x" bdf ;;
    val_print ACS_PRINT_DEBUG " OBFF support %d" ep_obff_support ;;
    val_print ACS_PRINT_DEBUG "\n    iRP 0x%x" rp_bdf ;;
    val_print ACS_PRINT_DEBUG " OBFF support %d" rp_obff_support ;;
    ret (failing l)
  else ret l.

Definition os_p037_payload : M () := function_test (ACS_PCIE_TEST_NUM_BASE + 37) os_p037_check.

(** The locals, and whether an i-EP root port was seen. *)
Definition os_p038_check (e : pcie_device_attr) (s : locals * Z) : M (locals * Z) :=
  let '(l, iep_rp_found) := s in
  let bdf := d_bdf e in
  let* dp_type := val_pcie_device_port_type fuel bdf in
  if negb (dp_type =? iEP_RP) then ret (l, iep_rp_found)
  else
  let* frwd := val_pcie_get_rp_transaction_frwd_support bdf in
  if truthy frwd then ret (l, 1)
  else
  let* ' (v, l) := read_pciecs_reg fuel l bdf DCAP2R_OFFSET in
  let ctrs_value := Z.land (Z.shiftr v DCAP2R_CTRS_SHIFT) DCAP2R_CTRS_MASK in
  let ctds_value := Z.land (Z.shiftr v DCAP2R_CTDS_SHIFT) DCAP2R_CTDS_MASK in
  let l := applicable l in
  if negb (ctrs_value =? 0) || negb (ctds_value =? 0) then
    val_print ACS_PRINT_DEBUG "\n    BDF 0x%x" bdf ;;
    val_print ACS_PRINT_DEBUG " ctrs %d" ctrs_value ;;
    val_print ACS_PRINT_DEBUG " ctds %d" ctds_value ;;
    ret (failing l, 1)
  else ret (l, 1).

Definition os_p038_payload : M () :=
  let test_num := ACS_PCIE_TEST_NUM_BASE + 38 in
  let* pe_index := my_index in
  let* ' (l, iep_rp_found) := for_functions os_p038_check (start_locals, 0) in
  if iep_rp_found =? 0 then val_set_status pe_index (RESULT_SKIP test_num 1)
  else report_counts test_num pe_index 1 l.

Definition os_p039_check (e : pcie_device_attr) (l : locals) : M locals :=
  let bdf := d_bdf e in
  let* dp_type := val_pcie_device_port_type fuel bdf in
  if negb (dp_type =? iEP_EP) then ret l
  else
  let* ' (v, l) := read_pciecs_reg fuel l bdf DCAP2R_OFFSET in
  let atomicop_32_cap := Z.land (Z.shiftr v DCAP2R_A32C_SHIFT) DCAP2R_A32C_MASK in
  let atomicop_64_cap := Z.land (Z.shiftr v DCAP2R_A64C_SHIFT) DCAP2R_A64C_MASK in
  let atomicop_128_cap := Z.land (Z.shiftr v DCAP2R_A128C_SHIFT) DCAP2R_A128C_MASK in
  let rp_bdf := d_rp_bdf e in
  let* ' (v, l) := read_pciecs_reg fuel l rp_bdf DCAP2R_OFFSET in
  let rp_routing_cap := Z.land (Z.shiftr v DCAP2R_ARS_SHIFT) DCAP2R_ARS_MASK in
  let rp_requester_cap := val_pcie_get_atomicop_requester_capable rp_bdf in
  let l := applicable l in
  let* l :=
    if (truthy atomicop_32_cap || truthy atomicop_64_cap || truthy atomicop_128_cap)
       && ((rp_routing_cap =? 0) && (rp_requester_cap =? 0)) then
      val_print ACS_PRINT_DEBUG " BDF 0x%x atomicop completer fail" bdf ;; ret (failing l)
    else ret l in
  let ep_requester_cap := val_pcie_get_atomicop_requester_capable bdf in
  if truthy ep_requester_cap && ((rp_routing_cap =? 0) && (rp_requester_cap =? 0)) then
    val_print ACS_PRINT_DEBUG " BDF 0x%x atomicop requester fail" bdf ;; ret (failing l)
  else ret l.

Definition os_p039_payload : M () := function_test (ACS_PCIE_TEST_NUM_BASE + 39) os_p039_check.

Definition os_p041_check (e : pcie_device_attr) (l : locals) : M locals :=
  let bdf := d_bdf e in
  let* dp_type := val_pcie_device_port_type fuel bdf in
  let* host_bridge := val_pcie_is_host_bridge bdf in
  if host_bridge : bool then ret l
  else if (dp_type =? iEP_EP) || (dp_type =? RCiEP) then
    let l := applicable l in
    let* ' (msi, l) := find_cap fuel l bdf PCIE_CAP CID_MSI in
    if negb (msi =? PCIE_CAP_NOT_FOUND) then ret l
    else
      let* ' (msix, l) := find_cap fuel l bdf PCIE_CAP CID_MSIX in
      ret (if msix =? PCIE_CAP_NOT_FOUND then failing l else l)
  else ret l.

Definition os_p041_payload : M () := function_test (ACS_PCIE_TEST_NUM_BASE + 41) os_p041_check.

Definition os_p042_check (e : pcie_device_attr) (l : locals) : M locals :=
  let bdf := d_bdf e in
  let* dp_type := val_pcie_device_port_type fuel bdf in
  if (dp_type =? iEP_EP) || (dp_type =? RCiEP) || (dp_type =? iEP_RP) then
    let l := applicable l in
    let* ' (pmc, l) := find_cap fuel l bdf PCIE_CAP CID_PMC in
    ret (if pmc =? PCIE_CAP_NOT_FOUND then failing l else l)
  else ret l.

Definition os_p042_payload : M () := function_test (ACS_PCIE_TEST_NUM_BASE + 42) os_p042_check.

(** 0 when the first root port above [dsf_bdf] is in the same ECAM region. *)
Definition os_p044_func_ecam_is_rp_ecam (dsf_bdf : Z) : M Z :=
  let dsf_bus := PCIE_EXTRACT_BDF_BUS dsf_bdf in
  let* t := val_pcie_bdf_table_ptr in
  let* r := for_ (Z.to_nat (bdf_entries t)) 0 (fun tbl_index reg =>
    let* e := table_entry t tbl_index in
    let bdf := d_bdf e in
    let* dp_type := val_pcie_device_port_type fuel bdf in
    if (dp_type =? RP) || (dp_type =? iEP_RP) then
      if negb (PCIE_EXTRACT_BDF_SEG bdf =? PCIE_EXTRACT_BDF_SEG dsf_bdf) then ret (Continue reg)
      else
      let* reg := read_cfg_into reg bdf TYPE1_PBN in
      let* v := need reg in
      if (Z.land (Z.shiftr v SECBN_SHIFT) SECBN_MASK <=? dsf_bus)
         && (dsf_bus <=? Z.land (Z.shiftr v SUBBN_SHIFT) SUBBN_MASK) then
        let* ecam_base := val_pcie_get_ecam_base fuel bdf in
        let* dev_ecam_base := val_pcie_get_ecam_base fuel dsf_bdf in
        ret (Break (if ecam_base =? dev_ecam_base then 0 else 1))
      else ret (Continue reg)
    else ret (Continue reg)) None in
  ret (match r with Break x => x | Continue _ => 1 end).

Definition os_p044_check (e : pcie_device_attr) (l : locals) : M locals :=
  let bdf := d_bdf e in
  let* dp_type := val_pcie_device_port_type fuel bdf in
  if (dp_type =? EP) || (dp_type =? iEP_EP) || (dp_type =? UP) || (dp_type =? DP) then
    let l := applicable l in
    let* other := os_p044_func_ecam_is_rp_ecam bdf in
    if truthy other then
      val_print ACS_PRINT_ERR "\n        bdf: 0x%x " bdf ;;
      val_print ACS_PRINT_ERR "dp_type: 0x%x " dp_type ;;
      ret (failing l)
    else ret l
  else ret l.

Definition os_p044_payload : M () := function_test (ACS_PCIE_TEST_NUM_BASE + 44) os_p044_check.

(** ** Interrupts *)

(** The interrupts of the last function asked about stay in the map, [None] before any.
    [None]: the test has ended. *)
Definition os_p050_check (pe_index : Z) (e : pcie_device_attr)
    (s : locals * option PERIPHERAL_IRQ_MAP) : M (option (locals * option PERIPHERAL_IRQ_MAP)) :=
  let test_num := ACS_PCIE_TEST_NUM_BASE + 50 in
  let '(l, intr_map) := s in
  let bdf := d_bdf e in
  let* ' (v, l) := read_reg l bdf TYPE01_ILR in
  let intr_pin := Z.land (Z.shiftr v TYPE01_IPR_SHIFT) TYPE01_IPR_MASK in
  if (intr_pin =? 0) || (4 <? intr_pin) then ret (Some (l, intr_map))
  else
  let* ' (status, m) := val_pci_get_legacy_irq_map bdf in
  let intr_map := match m with Some _ => m | None => intr_map end in
  if negb (truthy status) then
    val_set_status pe_index (RESULT_SKIP test_num 2) ;; ret None
  else
  let l := applicable l in
  let* pins := need intr_map in
  let* pin := need (pins !! Z.to_nat (intr_pin - 1)) in
  let* intr_line := need (irq_list pin !! 0%nat) in
  let* ' (status, trigger_type) := val_gic_get_intr_trigger_type fuel intr_line in
  if truthy status then
    val_set_status pe_index (RESULT_FAIL test_num 3) ;; ret None
  else
  let* trigger_type := need trigger_type in
  if negb (trigger_type =? INTR_TRIGGER_INFO_LEVEL_HIGH) then
    val_set_status pe_index (RESULT_FAIL test_num 4) ;; ret None
  else ret (Some (l, intr_map)).

Definition sizeof_PERIPHERAL_IRQ_MAP : Z := 4 * (0xFFFF * 4 + 4).

Definition os_p050_payload : M () :=
  let test_num := ACS_PCIE_TEST_NUM_BASE + 50 in
  let* pe_index := my_index in
  let* intr_map := val_memory_alloc sizeof_PERIPHERAL_IRQ_MAP in
  if intr_map =? 0 then
    val_print ACS_PRINT_ERR "\n       Memory allocation error" 0 ;;
    val_set_status pe_index (RESULT_FAIL test_num 1)
  else
  let* r := while_functions (os_p050_check pe_index) (start_locals, None) in
  match r with
  | None => ret tt
  | Some (l, _) =>
      if test_skip l =? 1 then val_set_status pe_index (RESULT_SKIP test_num 1)
      else val_set_status pe_index (RESULT_PASS test_num 1)
  end.

(** ** Address translation and peer-to-peer traffic *)

Definition os_p052_check (e : pcie_device_attr) (l : locals) : M locals :=
  let bdf := d_bdf e in
  let* dp_type := val_pcie_device_port_type fuel bdf in
  let* host_bridge := val_pcie_is_host_bridge bdf in
  if host_bridge : bool then ret l
  else if (dp_type =? iEP_EP) || (dp_type =? RCiEP) then
    let* cache := val_pcie_is_cache_present bdf in
    if negb (truthy cache) then ret l
    else
    let l := applicable l in
    let* ' (status, l) := find_cap fuel l bdf PCIE_ECAP ECID_ATS in
    if negb (status =? PCIE_SUCCESS) then
      val_print ACS_PRINT_ERR "\n       ATS Capability Not Present, Bdf : 0x%x" bdf ;;
      ret (failing l)
    else ret l
  else ret l.

Definition os_p052_payload : M () := function_test (ACS_PCIE_TEST_NUM_BASE + 52) os_p052_check.

(** [data = VAL_EXTRACT_BITS(acs_data, bit, bit); if (data == 0) { val_print(...); n++; }] *)
Definition missing_bit (acs_data bit level : Z) (msg : string) (arg n : Z) : M Z :=
  if VAL_EXTRACT_BITS acs_data bit bit =? 0 then val_print level msg arg ;; ret (n + 1)
  else ret n.

(** The five ACS controls a root port must have (p053 and p056). *)
Definition missing_acs_controls (acs_data bdf n : Z) : M Z :=
  let* n := missing_bit acs_data 0 ACS_PRINT_DEBUG
    "\n       Source validation not supported, Bdf : 0x%x" bdf n in
  let* n := missing_bit acs_data 1 ACS_PRINT_DEBUG
    "\n       Translation blocking not supported, Bdf : 0x%x" bdf n in
  let* n := missing_bit acs_data 2 ACS_PRINT_DEBUG
    "\n       P2P request redirect not supported, Bdf : 0x%x" bdf n in
  let* n := missing_bit acs_data 3 ACS_PRINT_DEBUG
    "\n       P2P completion redirect not supported, Bdf : 0x%x" bdf n in
  missing_bit acs_data 4 ACS_PRINT_DEBUG
    "\n       Upstream forwarding not supported, Bdf : 0x%x" bdf n.

(** A test of peer-to-peer rules: skipped when the platform has none. [cap_base] starts
    at 0. *)
Definition p2p_test (test_num : Z) (check : pcie_device_attr -> locals -> M locals) : M () :=
  let* pe_index := my_index in
  let* p2p := val_pcie_p2p_support in
  if truthy p2p then val_set_status pe_index (RESULT_SKIP test_num 1)
  else
  let* l := for_functions check (with_cap (Some 0) start_locals) in
  report_counts test_num pe_index 2 l.

Definition os_p053_check (e : pcie_device_attr) (l : locals) : M locals :=
  let bdf := d_bdf e in
  let* dp_type := val_pcie_device_port_type fuel bdf in
  if negb (dp_type =? RP) then ret l
  else
  let l := applicable l in
  let* ' (status, l) := find_cap fuel l bdf PCIE_ECAP ECID_ACS in
  if negb (status =? PCIE_SUCCESS) then
    val_print ACS_PRINT_ERR "\n       ACS Capability not supported, Bdf : 0x%x" bdf ;;
    ret (failing l)
  else
  let* ' (acs_data, l) := read_cap_reg l bdf ACSCR_OFFSET in
  let* curr_bdf_failed := missing_acs_controls acs_data bdf 0 in
  if 0 <? curr_bdf_failed then
    val_print ACS_PRINT_ERR "\n       ACS Capability Check Failed, Bdf : 0x%x" bdf ;;
    ret (failing l)
  else ret l.

Definition os_p053_payload : M () := p2p_test (ACS_PCIE_TEST_NUM_BASE + 53) os_p053_check.

Definition os_p054_check (e : pcie_device_attr) (l : locals) : M locals :=
  let bdf := d_bdf e in
  let* dp_type := val_pcie_device_port_type fuel bdf in
  if negb (dp_type =? RP) then ret l
  else
  let l := applicable l in
  let* ' (acs, l) := find_cap fuel l bdf PCIE_ECAP ECID_ACS in
  if negb (acs =? PCIE_SUCCESS) then
    val_print ACS_PRINT_ERR "\n       ACS Capability not supported, Bdf : 0x%x" bdf ;;
    ret (failing l)
  else
  let* ' (aer, l) := find_cap fuel l bdf PCIE_ECAP ECID_AER in
  if negb (aer =? PCIE_SUCCESS) then
    val_print ACS_PRINT_DEBUG "\n       AER Capability not supported, Bdf : 0x%x" bdf ;;
    ret (failing l)
  else ret l.

Definition os_p054_payload : M () := p2p_test (ACS_PCIE_TEST_NUM_BASE + 54) os_p054_check.

Definition os_p055_check (e : pcie_device_attr) (l : locals) : M locals :=
  let bdf := d_bdf e in
  let* dp_type := val_pcie_device_port_type fuel bdf in
  if negb (dp_type =? RP) then ret l
  else
  let* p2p := val_pcie_dev_p2p_support bdf in
  if truthy p2p then ret l
  else
  let* ' (ats, l) := find_cap fuel l bdf PCIE_ECAP ECID_ATS in
  if negb (ats =? PCIE_SUCCESS) then ret l
  else
  let l := applicable l in
  val_print ACS_PRINT_DEBUG "\n       For BDF : 0x%x" bdf ;;
  let* ' (acs, l) := find_cap fuel l bdf PCIE_ECAP ECID_ACS in
  if negb (acs =? PCIE_SUCCESS) then
    val_print ACS_PRINT_ERR "\n       ACS Capability not supported, Bdf : 0x%x" bdf ;;
    ret (failing l)
  else
  let* ' (acs_data, l) := read_cap_reg l bdf ACSCR_OFFSET in
  let* missing := missing_bit acs_data 6 ACS_PRINT_ERR
    "\n       Directed Translated P2P not supported, Bdf : 0x%x" bdf 0 in
  ret (if missing =? 0 then l else failing l).

Definition os_p055_payload : M () :=
  let* pe_index := my_index in
  let* l := for_functions os_p055_check (with_cap (Some 0) start_locals) in
  report_counts (ACS_PCIE_TEST_NUM_BASE + 55) pe_index 1 l.

Definition os_p056_check (e : pcie_device_attr) (l : locals) : M locals :=
  let bdf := d_bdf e in
  let* dp_type := val_pcie_device_port_type fuel bdf in
  if negb (dp_type =? iEP_EP) then ret l
  else
  let* p2p := val_pcie_dev_p2p_support bdf in
  if truthy p2p then ret l
  else
  let l := applicable l in
  let* ' (status, iep_rp_bdf) := val_pcie_get_rootport fuel bdf in
  if truthy status then
    val_print ACS_PRINT_ERR "\n       Root Port Not found for iEP_EP 0x%x" bdf ;;
    ret (failing l)
  else
  let* ' (acs, l) := find_cap fuel l iep_rp_bdf PCIE_ECAP ECID_ACS in
  if negb (acs =? PCIE_SUCCESS) then
    val_print ACS_PRINT_ERR "\n       ACS Capability not supported, Bdf : 0x%x" iep_rp_bdf ;;
    ret (failing l)
  else
  let* ' (acs_data, l) := read_cap_reg l iep_rp_bdf ACSCR_OFFSET in
  let* curr_bdf_failed := missing_acs_controls acs_data iep_rp_bdf 0 in
  let* ' (aer, l) := find_cap fuel l iep_rp_bdf PCIE_ECAP ECID_AER in
  let* curr_bdf_failed :=
    if negb (aer =? PCIE_SUCCESS) then
      val_print ACS_PRINT_DEBUG "\n       AER Capability not supported, Bdf : 0x%x" iep_rp_bdf ;;
      ret (curr_bdf_failed + 1)
    else ret curr_bdf_failed in
  if 0 <? curr_bdf_failed then
    val_print ACS_PRINT_ERR "\n       ACS Capability Check Failed, Bdf : 0x%x" iep_rp_bdf ;;
    ret (failing l)
  else ret l.

Definition os_p056_payload : M () := p2p_test (ACS_PCIE_TEST_NUM_BASE + 56) os_p056_check.

(** The second search leaves the offset of the AER capability in [cap_base]. *)
Definition os_p057_check (e : pcie_device_attr) (l : locals) : M locals :=
  let bdf := d_bdf e in
  let* dp_type := val_pcie_device_port_type fuel bdf in
  if negb ((dp_type =? RCiEP) || (dp_type =? iEP_EP)) then ret l
  else
  let* mf := val_pcie_multifunction_support bdf in
  if truthy mf then ret l
  else
  let* p2p := val_pcie_dev_p2p_support bdf in
  if truthy p2p then ret l
  else
  let l := applicable l in
  let* ' (acs, l) := find_cap fuel l bdf PCIE_ECAP ECID_ACS in
  if negb (acs =? PCIE_SUCCESS) then
    val_print ACS_PRINT_ERR "\n       ACS Capability not supported, Bdf : 0x%x" bdf ;;
    ret (failing l)
  else
  let* ' (aer, l) := find_cap fuel l bdf PCIE_ECAP ECID_AER in
  let* curr_bdf_failed :=
    if negb (aer =? PCIE_SUCCESS) then
      val_print ACS_PRINT_DEBUG "\n       AER Capability not supported, Bdf : 0x%x" bdf ;; ret 1
    else ret 0 in
  let* ' (acs_data, l) := read_cap_reg l bdf ACSCR_OFFSET in
  let* flag := missing_bit acs_data 2 ACS_PRINT_DEBUG
    "\n       Request Redirect P2P not supported" 0 0 in
  let* flag := missing_bit acs_data 3 ACS_PRINT_DEBUG
    "\n       Completion Redirect P2P not supported" 0 flag in
  let* flag := missing_bit acs_data 6 ACS_PRINT_DEBUG
    "\n       Direct Translated P2P not supported" 0 flag in
  let* curr_bdf_failed :=
    if 0 <? flag then
      val_print ACS_PRINT_ERR "\n       P2P not supported for bdf: %d" bdf ;;
      ret (curr_bdf_failed + 1)
    else ret curr_bdf_failed in
  if 0 <? curr_bdf_failed then
    val_print ACS_PRINT_ERR "\n       ACS Capability Check Failed, Bdf : 0x%x" bdf ;;
    ret (failing l)
  else ret l.

Definition os_p057_payload : M () :=
  let* pe_index := my_index in
  let* l := for_functions os_p057_check (with_cap (Some 0) start_locals) in
  report_counts (ACS_PCIE_TEST_NUM_BASE + 57) pe_index 1 l.

(** ** Root complex integrated functions *)

Definition os_p058_check (e : pcie_device_attr) (l : locals) : M locals :=
  let bdf := d_bdf e in
  let* dp_type := val_pcie_device_port_type fuel bdf in
  if negb ((dp_type =? RCiEP) || (dp_type =? RCEC)) then ret l
  else
  let l := applicable l in
  let* hdr_type := val_pcie_function_header_type bdf in
  if negb (hdr_type =? TYPE0_HEADER) then
    val_print ACS_PRINT_ERR "\n         Invalid HDR TYPE 0x%x" hdr_type ;;
    val_print ACS_PRINT_ERR " Bdf : 0x%x" bdf ;;
    ret (failing l)
  else
  let* link_cap_sup := val_pcie_link_cap_support fuel bdf in
  if negb (link_cap_sup =? 0) then
    val_print ACS_PRINT_ERR "\n         Invalid Link Capabilities 0x%x" link_cap_sup ;;
    val_print ACS_PRINT_ERR " Bdf : 0x%x" bdf ;;
    ret (failing l)
  else ret l.

Definition os_p058_payload : M () := function_test (ACS_PCIE_TEST_NUM_BASE + 58) os_p058_check.

(** A function that fails both conditions counts twice. *)
Definition os_p059_check (e : pcie_device_attr) (l : locals) : M locals :=
  let bdf := d_bdf e in
  let* dp_type := val_pcie_device_port_type fuel bdf in
  if negb (dp_type =? RCEC) then ret l
  else
  let l := applicable l in
  let* ' (v, l) := read_reg l bdf TYPE01_RIDR in
  let* l :=
    if negb (RCEC_BASE_CLASS =? Z.land (Z.shiftr v CC_BASE_SHIFT) CC_BASE_MASK)
       || negb (RCEC_SUB_CLASS =? Z.land (Z.shiftr v CC_SUB_SHIFT) CC_SUB_MASK)
       || negb (RCEC_PGMING_IF =? Z.land (Z.shiftr v CC_PGM_IF_SHIFT) CC_PGM_IF_MASK) then
      val_print ACS_PRINT_ERR "        Class code mismatch for bdf: 0x%x\n" bdf ;;
      val_print ACS_PRINT_ERR "        dp_type: 0x%x\n" dp_type ;;
      val_print ACS_PRINT_ERR "        CCR: 0x%x\n" v ;;
      ret (failing l)
    else ret l in
  let* ' (status, l) := find_cap fuel l bdf PCIE_ECAP ECID_RCECEA in
  ret (if negb (status =? PCIE_SUCCESS) then failing l else l).

Definition os_p059_payload : M () := function_test (ACS_PCIE_TEST_NUM_BASE + 59) os_p059_check.

(** ** Vendor specific data *)

Definition PCIE_CAP_ID_END : Z := 0x15.
Definition PCIE_ECAP_ID_END : Z := 0x29.

(** One chain of capabilities: where the next is, and what identifies one. *)
Definition os_p061_chain (bdf : Z) (next id : Z -> Z) (id_end : Z) (msg : string) (start : Z)
    (s : option Z * Z) : M (option Z * Z) :=
  while_ fuel (fun '(next_cap, (reg, err)) =>
    if truthy next_cap then
      let* reg := read_cfg_into reg bdf next_cap in
      let* v := need reg in
      let* err :=
        if id_end <? id v then val_print ACS_PRINT_ERR msg (id v) ;; ret 1 else ret err in
      ret (Continue (next v, (reg, err)))
    else ret (Break (reg, err))) (start, s).

Definition os_p061_check_pcie_cfg_space (bdf : Z) : M Z :=
  let* reg := read_cfg_into None bdf TYPE01_CPR in
  let* v := need reg in
  let next_cap := Z.shiftl (VAL_EXTRACT_BITS v 2 7) 2 in
  let* s := os_p061_chain bdf (fun v => VAL_EXTRACT_BITS v 7 15) (fun v => VAL_EXTRACT_BITS v 0 7)
    PCIE_CAP_ID_END "\n       Invalid Cap ID: 0x%x found in regular cfg space" next_cap
    (reg, 0) in
  let* s := os_p061_chain bdf (fun v => VAL_EXTRACT_BITS v 20 31) (fun v => VAL_EXTRACT_BITS v 0 15)
    PCIE_ECAP_ID_END "\n       Invalid Cap ID: 0x%x found in extended cfg space"
    PCIE_ECAP_START s in
  ret (snd s).

Definition os_p061_payload : M () :=
  let test_num := ACS_PCIE_TEST_NUM_BASE + 61 in
  let* pe_index := my_index in
  let* r := while_functions (fun e tbl_index =>
    let bdf := d_bdf e in
    let tbl_index := tbl_index + 1 in
    let* dp_type := val_pcie_device_port_type fuel bdf in
    if dp_type =? RP then
      let* err := os_p061_check_pcie_cfg_space bdf in
      if truthy err then
        val_print ACS_PRINT_ERR "\n       Invalid PCIe capability found on dev: %d" tbl_index ;;
        val_set_status pe_index (RESULT_FAIL test_num 2) ;;
        ret None
      else ret (Some tbl_index)
    else ret (Some tbl_index)) 0 in
  match r with
  | None => ret tt
  | Some _ => val_set_status pe_index (RESULT_PASS test_num 1)
  end.

(** ** Writing base address registers *)

Definition BAR_REG (bar_reg_value : Z) : Z := Z.land (Z.shiftr bar_reg_value 2) 1.

Definition p062_TEST_DATA_1 : Z := 0xDEADDAED.
Definition p062_TEST_DATA_2 : Z := 0xABABABAB.

(** One BAR: the offset of the next, whether the register did not move, and the locals:
    [bar], [bar_1] and [reg] are [bar_value], [bar_value_1] and [bar_reg_value]. *)
Definition os_p062_bar (bdf offset bar : Z) (bar_1 reg : option Z)
  : M (Z * bool * (option Z * option Z * option Z)) :=
  if BAR_REG bar =? BAR_64_BIT then
    val_print ACS_PRINT_INFO "The BAR supports 64-bit address capability \n" 0 ;;
    let* bar_1 := read_cfg_into bar_1 bdf (offset + 4) in
    let* _ := need bar_1 in
    let* reg := read_cfg_into reg bdf offset in
    let* base_lower := need reg in
    let* reg := read_cfg_into reg bdf (offset + 4) in
    let* base_upper := need reg in
    let bar_orig := Z.lor (Z.shiftl base_upper 32) base_lower in
    val_pcie_write_cfg bdf offset p062_TEST_DATA_1 ;;
    val_pcie_write_cfg bdf (offset + 4) p062_TEST_DATA_2 ;;
    let* reg := read_cfg_into reg bdf offset in
    let* low := need reg in
    let* reg := read_cfg_into reg bdf (offset + 4) in
    let* high := need reg in
    let bar_new := Z.lor (Z.shiftl high 32) low in
    (when bar_orig =? bar_new then
       val_print ACS_PRINT_TEST "Read write to BAR reg not supported bdf %x\n" bdf) ;;
    val_pcie_write_cfg bdf (offset + 4) base_upper ;;
    val_pcie_write_cfg bdf offset base_lower ;;
    ret (offset + 8, bar_orig =? bar_new, (Some low, bar_1, reg))
  else
    val_print ACS_PRINT_INFO "The BAR supports 32-bit address capability\n" 0 ;;
    let* reg := read_cfg_into reg bdf offset in
    let* bar_orig := need reg in
    val_pcie_write_cfg bdf offset p062_TEST_DATA_1 ;;
    let* reg := read_cfg_into reg bdf offset in
    let* bar_new := need reg in
    (when bar_orig =? bar_new then
       val_print ACS_PRINT_TEST "Read write to BAR reg not supported bdf %x\n" bdf) ;;
    val_pcie_write_cfg bdf offset bar_orig ;;
    ret (offset + 4, bar_orig =? bar_new, (Some bar, bar_1, reg)).

(** What survives from one BAR to the next, whichever function it is of. *)
Record p062_state := mkP062 {
  p062_bar : option Z; p062_bar_1 : option Z; p062_reg : option Z; p062_fail_cnt : Z }.

Definition os_p062_bars (bdf : Z) (s : p062_state) : M p062_state :=
  while_ fuel (fun '(offset, s) =>
    if offset <=? TYPE1_BAR_MAX_OFFSET then
      let* bar := read_cfg_into (p062_bar s) bdf offset in
      let* v := need bar in
      val_print ACS_PRINT_DEBUG "\n The BAR value of bdf %x" bdf ;;
      val_print ACS_PRINT_DEBUG " is %x " v ;;
      if v =? 0 then
        ret (Continue (offset + 4, mkP062 bar (p062_bar_1 s) (p062_reg s) (p062_fail_cnt s)))
      else
        let* ' (offset, stuck, (bar, bar_1, reg)) :=
          os_p062_bar bdf offset v (p062_bar_1 s) (p062_reg s) in
        let fail_cnt := if stuck : bool then u32 (p062_fail_cnt s + 1) else p062_fail_cnt s in
        ret (Continue (offset, mkP062 bar bar_1 reg fail_cnt))
    else ret (Break s)) (BAR0_OFFSET, s).

(** The status is set inside the loop, after each function. *)
Definition os_p062_check (pe_index : Z) (e : pcie_device_attr) (a : p062_state * Z)
  : M (p062_state * Z) :=
  let test_num := ACS_PCIE_TEST_NUM_BASE + 62 in
  let '(s, test_skip) := a in
  let bdf := d_bdf e in
  let* dp_type := val_pcie_device_port_type fuel bdf in
  let* ' (s, test_skip) :=
    if dp_type =? RCiEP then let* s := os_p062_bars bdf s in ret (s, 0) else ret (s, test_skip) in
  (if test_skip =? 1 then val_set_status pe_index (RESULT_SKIP test_num 1)
   else if truthy (p062_fail_cnt s) then
     val_set_status pe_index (RESULT_FAIL test_num (p062_fail_cnt s))
   else val_set_status pe_index (RESULT_PASS test_num 1)) ;;
  ret (s, test_skip).

Definition os_p062_payload : M () :=
  let* pe_index := my_index in
  let* _ := for_functions (os_p062_check pe_index) (mkP062 None None None 0, 1) in
  ret tt.

(** ** Accesses that may abort *)

(** The handler of p030: an abort is the expected answer. *)
Definition os_p030_esr (interrupt_type branch_to_test : Z) : M () :=
  let* pe_index := my_index in
  val_pe_update_elr branch_to_test ;;
  val_print ACS_PRINT_INFO "\n       Received exception of type: %d" interrupt_type ;;
  val_set_status pe_index (RESULT_PASS (ACS_PCIE_TEST_NUM_BASE + 30) 1).

(** [bar_base] is written as two words: each keeps its value when not written. *)
Definition os_p030_check (pe_index : Z) (e : pcie_device_attr)
    (s : locals * (option Z * option Z)) : M (locals * (option Z * option Z)) :=
  let '(l, (lo, hi)) := s in
  let bdf := d_bdf e in
  let* hdr := val_pcie_function_header_type bdf in
  let* target :=
    if hdr =? TYPE1_HEADER then
      let* ' (status, dsf_bdf) := val_pcie_get_downstream_function bdf in
      ret (if negb (truthy status) then dsf_bdf else bdf)
    else ret bdf in
  let* ' (lo', hi') := val_pcie_get_mmio_bar fuel target in
  let lo := match lo' with Some _ => lo' | None => lo end in
  let hi := match hi' with Some _ => hi' | None => hi end in
  let* low := need lo in
  let* high := need hi in
  let bar_base := Z.lor (Z.shiftl high 32) low in
  if bar_base =? 0 then ret (l, (lo, hi))
  else
  val_pcie_disable_eru fuel bdf ;;
  val_pcie_clear_urd fuel bdf ;;
  val_pcie_disable_msa bdf ;;
  val_set_status pe_index (RESULT_FAIL (ACS_PCIE_TEST_NUM_BASE + 30) 2) ;;
  let l := applicable l in
  let* loaded := load_or_abort
    (os_p030_esr EXCEPT_AARCH64_SYNCHRONOUS_EXCEPTIONS (symbol "os_p030.exception_return"))
    8 bar_base in
  let bar_data := match loaded with Some v => u32 v | None => 0 end in
  let* urd := val_pcie_is_urd fuel bdf in
  let* rejected :=
    if truthy urd then
      let* status := val_get_status pe_index in
      ret (IS_TEST_PASS status || (bar_data =? PCIE_UNKNOWN_RESPONSE))
    else ret false in
  let* l :=
    if rejected : bool then val_pcie_clear_urd fuel bdf ;; ret l
    else
      val_print ACS_PRINT_ERR "\n      BDF %x MSE functionality failure" bdf ;;
      ret (failing l) in
  val_pcie_enable_msa bdf ;;
  ret (l, (lo, hi)).

Definition os_p030_payload : M () :=
  let* pe_index := my_index in
  let* _ := val_pe_install_esr EXCEPT_AARCH64_SYNCHRONOUS_EXCEPTIONS (symbol "os_p030.esr") in
  let* _ := val_pe_install_esr EXCEPT_AARCH64_SERROR (symbol "os_p030.esr") in
  let* ' (l, _) := for_functions (os_p030_check pe_index) (start_locals, (None, None)) in
  report_counts (ACS_PCIE_TEST_NUM_BASE + 30) pe_index 1 l.

Definition os_p048_esr (interrupt_type branch_to_test : Z) : M () :=
  let* pe_index := my_index in
  val_pe_update_elr branch_to_test ;;
  val_print ACS_PRINT_INFO "\n       Received exception of type: %d" interrupt_type ;;
  val_set_status pe_index (RESULT_FAIL (ACS_PCIE_TEST_NUM_BASE + 48) 1).

Definition p048_KNOWN_DATA : Z := 0xABABABAB.
Definition p048_MEM_OFFSET_10 : Z := 0x10.

(** [read_value] and [old_value], kept across functions: when the first load aborts, they
    are compared as they were. [None]: the test has ended. *)
Definition os_p048_check (pe_index : Z) (e : pcie_device_attr)
    (s : option Z * option Z * Z) : M (option (option Z * option Z * Z)) :=
  let test_num := ACS_PCIE_TEST_NUM_BASE + 48 in
  let '(read_value, old_value, test_skip) := s in
  let bdf := d_bdf e in
  let* dp_type := val_pcie_device_port_type fuel bdf in
  if negb ((dp_type =? RP) || (dp_type =? iEP_RP)) then ret (Some s)
  else
  val_pcie_clear_urd fuel bdf ;;
  let* read_value := read_cfg_into read_value bdf TYPE1_NP_MEM in
  let* v := need read_value in
  if v =? 0 then ret (Some (read_value, old_value, test_skip))
  else
  let mem_base := u32 (Z.shiftl (Z.land v MEM_BA_MASK) MEM_BA_SHIFT) in
  let mem_lim := Z.lor (Z.land v MEM_LIM_MASK) MEM_LIM_LOWER_BITS in
  if mem_lim <? mem_base then ret (Some (read_value, old_value, test_skip))
  else
  let esr := os_p048_esr EXCEPT_AARCH64_SYNCHRONOUS_EXCEPTIONS (symbol "os_p048.exception_return") in
  let addr := mem_base + p048_MEM_OFFSET_10 in
  let* first := load_or_abort esr 4 addr in
  let* ' (read_value, old_value) :=
    match first with
    | None => ret (read_value, old_value)
    | Some old =>
        on_dev (dev_write 4 addr p048_KNOWN_DATA) ;;
        let* back := load_or_abort esr 4 addr in
        ret (match back with Some _ => back | None => read_value end, Some old)
    end in
  let* status := val_get_status pe_index in
  if IS_TEST_FAIL status then
    val_print ACS_PRINT_ERR "\n       Failed. Exception on Memory Access For Bdf : 0x%x" bdf ;;
    val_pcie_clear_urd fuel bdf ;;
    ret None
  else
  let* urd := val_pcie_is_urd fuel bdf in
  let* lost :=
    if truthy urd then ret true
    else
      let* old := need old_value in
      let* v := need read_value in
      ret (negb (old =? v) && (v =? PCIE_UNKNOWN_RESPONSE)) in
  if lost : bool then
    val_set_status pe_index (RESULT_FAIL test_num 2) ;;
    val_pcie_clear_urd fuel bdf ;;
    ret None
  else ret (Some (read_value, old_value, 0)).

Definition os_p048_payload : M () :=
  let test_num := ACS_PCIE_TEST_NUM_BASE + 48 in
  let* pe_index := my_index in
  let* _ := val_pe_install_esr EXCEPT_AARCH64_SYNCHRONOUS_EXCEPTIONS (symbol "os_p048.esr") in
  let* _ := val_pe_install_esr EXCEPT_AARCH64_SERROR (symbol "os_p048.esr") in
  for_functions (fun e _ =>
    val_pcie_enable_bme (d_bdf e) ;;
    val_pcie_enable_msa (d_bdf e)) tt ;;
  let* r := while_functions (os_p048_check pe_index) (None, None, 1) in
  match r with
  | None => ret tt
  | Some (_, _, test_skip) =>
      if test_skip =? 1 then val_set_status pe_index (RESULT_SKIP test_num 1)
      else val_set_status pe_index (RESULT_PASS test_num 1)
  end.

(** ** The tests of the Linux build *)

Definition PER_FLAG_MSI_ENABLED : Z := 0x2.

Definition os_p007_payload : M () :=
  let test_num := ACS_PCIE_TEST_NUM_BASE + 7 in
  let* count := val_peripheral_get_info fuel NUM_ALL 0 in
  let* index := my_index in
  if negb (truthy count) then val_set_status index (RESULT_SKIP test_num 1)
  else
  let* r := for_ (Z.to_nat count) 0 (fun k _ =>
    let count := count - 1 - k in
    let* dev_bdf := val_peripheral_get_info fuel ANY_BDF count in
    let* pcie := val_peripheral_is_pcie dev_bdf in
    if negb (truthy pcie) then ret (Continue tt)
    else
    let* dev_type := val_pcie_get_device_type dev_bdf in
    if negb (truthy dev_type) || (1 <? dev_type) then ret (Continue tt)
    else
    let* data := val_peripheral_get_info fuel ANY_FLAGS count in
    if Z.land data PER_FLAG_MSI_ENABLED =? 0 then
      val_print ACS_PRINT_ERR "\n       MSI should be enabled for a PCIe device " 0 ;;
      val_set_status index (RESULT_FAIL test_num 1) ;;
      ret (Break tt)
    else ret (Continue tt)) tt in
  match r with
  | Break _ => ret tt
  | Continue _ => val_set_status index (RESULT_PASS test_num 1)
  end.

Definition p011_INNER_SHAREABLE : Z := 1.

Definition os_p011_payload : M () :=
  let test_num := ACS_PCIE_TEST_NUM_BASE + 11 in
  let* index := my_index in
  let* num_pcie_rc := val_iovirt_get_pcie_rc_info NUM_PCIE_RC 0 in
  if negb (truthy num_pcie_rc) then
    val_print ACS_PRINT_WARN "\n       Skip because no PCIe RC detected  " 0 ;;
    val_set_status index (RESULT_SKIP test_num 1)
  else
  let* _ := for_ (Z.to_nat num_pcie_rc) 0 (fun k _ =>
    let num_pcie_rc := num_pcie_rc - 1 - k in
    let* mem_attr := val_iovirt_get_pcie_rc_info RC_MEM_ATTRIBUTE num_pcie_rc in
    if mem_attr =? p011_INNER_SHAREABLE then
      val_set_status index (RESULT_PASS test_num 1) ;;
      ret (Continue tt)
    else
      val_print ACS_PRINT_ERR "\n    Failed mem attribute check for PCIe RC %d" num_pcie_rc ;;
      val_set_status index (RESULT_FAIL test_num 1) ;;
      ret (Break tt)) tt in
  ret tt.

(** Two pins share an interrupt: every pair of entries is compared until one matches. The
    status, and [test_skip]. *)
Definition os_p012_compare (irq_map : PERIPHERAL_IRQ_MAP) (current_irq_pin next_irq_pin : Z)
    (s : Z * Z) : M (Z * Z) :=
  let pin_name (pin : Z) := 65 + pin in
  let* cur := need (irq_map !! Z.to_nat current_irq_pin) in
  let* nxt := need (irq_map !! Z.to_nat next_irq_pin) in
  for_acc (Z.to_nat (irq_count cur)) 0 (fun ccnt s =>
    for_acc (Z.to_nat (irq_count nxt)) 0 (fun ncnt '(status, test_skip) =>
      if negb (status =? 0) then ret (status, test_skip)
      else
      let* a := need (irq_list cur !! Z.to_nat ccnt) in
      let* b := need (irq_list nxt !! Z.to_nat ncnt) in
      if a =? b then
        val_print ACS_PRINT_ERR "\n       Legacy interrupt %c routing" (pin_name current_irq_pin) ;;
        val_print ACS_PRINT_ERR "\n       is the same as %c routing" (pin_name next_irq_pin) ;;
        ret (7, 0)
      else ret (status, 0)) s) s.

Definition LEGACY_PCI_IRQ_CNT : Z := 4.

(** The pairs of pins from [(current, next)] on: the outer loop ends with
    [current_irq_pin] at 4, or at the first clash. The pins are never set back. *)
Definition os_p012_pairs (irq_map : PERIPHERAL_IRQ_MAP) (s : Z * Z * (Z * Z)) : M (Z * Z * (Z * Z)) :=
  while_ fuel (fun '(current, next, (status, test_skip)) =>
    if (current <? LEGACY_PCI_IRQ_CNT) && (status =? 0) then
      let* ' (_, (status, test_skip)) :=
        while_ fuel (fun '(next, (status, test_skip)) =>
          if (next <? LEGACY_PCI_IRQ_CNT) && (status =? 0) then
            let* s := os_p012_compare irq_map current next (status, test_skip) in
            ret (Continue (next + 1, s))
          else ret (Break (next, (status, test_skip)))) (next, (status, test_skip)) in
      ret (Continue (current + 1, current + 2, (status, test_skip)))
    else ret (Break (current, next, (status, test_skip)))) s.

Definition os_p012_status_message (status : Z) : option (Z * string) :=
  if status =? 0 then None
  else if status =? 1 then Some (ACS_PRINT_WARN, "\n       Unable to access PCI bridge device")
  else if status =? 2 then Some (ACS_PRINT_WARN, "\n       Unable to fetch _PRT ACPI handle")
  else if status =? 3 then Some (ACS_PRINT_WARN, "\n       Unable to access _PRT ACPI object")
  else if status =? 4 then Some (ACS_PRINT_WARN, "\n       Interrupt hard-wire error")
  else if status =? 5 then Some (ACS_PRINT_ERR, "\n       Legacy interrupt out of range")
  else if status =? 6 then
    Some (ACS_PRINT_ERR, "\n       Maximum number of interrupts has been reached")
  else Some (ACS_PRINT_ERR, "\n       Unknown error").

Record p012_state := mkP012 {
  p012_map : option PERIPHERAL_IRQ_MAP; p012_current : Z; p012_next : Z; p012_status : Z;
  p012_skip : Z }.

(** One peripheral, [count] already counted down. *)
Definition os_p012_peripheral (count : Z) (s : p012_state) : M p012_state :=
  let '(mkP012 m current next status test_skip) := s in
  let* gsiv := val_peripheral_get_info fuel ANY_GSIV count in
  let* ' (m, status, again) :=
    if truthy gsiv then
      let* dev_bdf := val_peripheral_get_info fuel ANY_BDF count in
      let* ' (status, written) := val_pci_get_legacy_irq_map (u32 dev_bdf) in
      let status := u8 status in
      let m := match written with Some _ => written | None => m end in
      (match os_p012_status_message status with
       | Some (level, msg) => val_print level msg 0
       | None => ret tt
       end) ;;
      ret (if (2 <=? status) && (status <=? 4) then (m, 0, true) else (m, status, false))
    else ret (m, status, false) in
  if again : bool then ret (mkP012 m current next status test_skip)
  else if status =? 0 then
    let* ' (current, next, (status, test_skip)) :=
      if current <? LEGACY_PCI_IRQ_CNT then
        let* irq_map := need m in os_p012_pairs irq_map (current, next, (status, test_skip))
      else ret (current, next, (status, test_skip)) in
    ret (mkP012 m current next status test_skip)
  else ret (mkP012 m current next status test_skip).

Definition os_p012_payload : M () :=
  let test_num := ACS_PCIE_TEST_NUM_BASE + 12 in
  let* index := my_index in
  let* count := val_peripheral_get_info fuel NUM_ALL 0 in
  let count := u32 count in
  if negb (truthy count) then val_set_status index (RESULT_SKIP test_num 1)
  else
  let* irq_map := val_memory_alloc sizeof_PERIPHERAL_IRQ_MAP in
  if irq_map =? 0 then
    val_print ACS_PRINT_ERR "\n       Memory allocation error" 0 ;;
    val_set_status index (RESULT_FAIL test_num 1)
  else
  let* r := for_ (Z.to_nat count) 0 (fun k s =>
    if negb (p012_status s =? 0) then ret (Break s)
    else
      let* s := os_p012_peripheral (count - 1 - k) s in
      ret (Continue s)) (mkP012 None 0 1 0 1) in
  let s := match r with Break s | Continue s => s end in
  val_memory_free irq_map ;;
  if truthy (p012_skip s) then val_set_status index (RESULT_SKIP test_num 2)
  else if p012_status s =? 0 then val_set_status index (RESULT_PASS test_num 1)
  else val_set_status index (RESULT_FAIL test_num (p012_status s)).

Definition os_p016_payload : M () :=
  let test_num := ACS_PCIE_TEST_NUM_BASE + 16 in
  let* index := my_index in
  let* count := val_peripheral_get_info fuel NUM_ALL 0 in
  if negb (truthy count) then val_set_status index (RESULT_SKIP test_num 3)
  else
  let* r := for_ (Z.to_nat count) 0 (fun k '(bar_data, status) =>
    let* dev_bdf := val_peripheral_get_info fuel ANY_BDF (count - 1 - k) in
    let* dev_type := val_pcie_get_device_type dev_bdf in
    if negb (dev_type =? 3) then ret (Continue (bar_data, status))
    else
    let* bar_data := read_cfg_into bar_data dev_bdf 0x10 in
    let* bar := need bar_data in
    if bar =? 0 then ret (Continue (bar_data, status))
    else if negb (VAL_EXTRACT_BITS bar 3 3 =? 0) then ret (Continue (bar_data, status))
    else if negb (VAL_EXTRACT_BITS bar 1 2 =? 0) then
      val_print ACS_PRINT_ERR "\n       NP type-1 pcie is not 32-bit mem type" 0 ;;
      val_set_status index (RESULT_FAIL test_num 1) ;;
      ret (Break 2)
    else
    let* r := val_pcie_scan_bridge_devices_and_check_memtype dev_bdf in
    if truthy r then
      val_print ACS_PRINT_ERR
        "\n       NP type-1 pcie bridge end deviceis not 32-bit mem type" 0 ;;
      val_set_status index (RESULT_FAIL test_num 1) ;;
      ret (Break 2)
    else ret (Continue (bar_data, 1))) (None, 0) in
  let status := match r with Break s => s | Continue (_, s) => s end in
  if status =? 0 then val_set_status index (RESULT_SKIP test_num 3)
  else when status =? 1 then val_set_status index (RESULT_PASS test_num 1).

(** ** The entry points *)

Definition os_p001_entry (num_pe : Z) : M Z :=
  run_on_one fuel (ACS_PCIE_TEST_NUM_BASE + 1)
    "PCI_IN_01: Check ECAM Presence                     " num_pe
    (payload_of "os_p001" os_p001_payload).

Definition os_p002_entry (num_pe : Z) : M Z :=
  run_on_one fuel (ACS_PCIE_TEST_NUM_BASE + 2)
    "PCI_IN_02: PE - ECAM Region accessiblity check     " num_pe
    (payload_of "os_p002" os_p002_payload).

Definition os_p007_entry (num_pe : Z) : M Z :=
  run_on_one fuel (ACS_PCIE_TEST_NUM_BASE + 7)
    "PCI_MSI_01: Check MSI support for PCIe dev         " num_pe
    (payload_of "os_p007" os_p007_payload).

Definition os_p011_entry (num_pe : Z) : M Z :=
  run_on_one fuel (ACS_PCIE_TEST_NUM_BASE + 11)
    "PCI_IC_02: PCIe RC, PE - Same Inn SH Dom.          " num_pe
    (payload_of "os_p011" os_p011_payload).

Definition os_p012_entry (num_pe : Z) : M Z :=
  run_on_one fuel (ACS_PCIE_TEST_NUM_BASE + 12)
    "PCI_LI_01: PCI legacy intr SPI ID unique           " num_pe
    (payload_of "os_p012" os_p012_payload).

Definition os_p016_entry (num_pe : Z) : M Z :=
  run_on_one fuel (ACS_PCIE_TEST_NUM_BASE + 16)
    "PCI_MM_04: NP type-1 PCIe supp 32-bit only         " num_pe
    (payload_of "os_p016" os_p016_payload).

Definition os_p030_entry (num_pe : Z) : M Z :=
  run_on_one fuel (ACS_PCIE_TEST_NUM_BASE + 30)
    "RE_REC_1,2: Check Cmd Reg memory space enable      " num_pe
    (payload_of "os_p030" os_p030_payload).

Definition os_p031_entry (num_pe : Z) : M Z :=
  run_on_one fuel (ACS_PCIE_TEST_NUM_BASE + 31)
    "RE_REC_1,2: Check Type0/1 BIST Register rule       " num_pe
    (payload_of "os_p031" os_p031_payload).

Definition os_p032_entry (num_pe : Z) : M Z :=
  run_on_one fuel (ACS_PCIE_TEST_NUM_BASE + 32)
    "RE_REC_1,2: Check HDR CapPtr Register rule         " num_pe
    (payload_of "os_p032" os_p032_payload).

Definition os_p033_entry (num_pe : Z) : M Z :=
  run_on_one fuel (ACS_PCIE_TEST_NUM_BASE + 33)
    "RE_REC_1,2: Check Max payload size supported       " num_pe
    (payload_of "os_p033" os_p033_payload).

Definition os_p034_entry (num_pe : Z) : M Z :=
  run_on_one fuel (ACS_PCIE_TEST_NUM_BASE + 34)
    "RE_BAR_3,IE_BAR_3: Check BAR mem space & Type rule " num_pe
    (payload_of "os_p034" os_p034_payload).

Definition os_p035_entry (num_pe : Z) : M Z :=
  run_on_one fuel (ACS_PCIE_TEST_NUM_BASE + 35)
    "RE_RST_1,IE_RST_1: Check Function level reset rule " num_pe
    (payload_of "os_p035" os_p035_payload).

Definition os_p036_entry (num_pe : Z) : M Z :=
  run_on_one fuel (ACS_PCIE_TEST_NUM_BASE + 36)
    "IE_REG_2: Check ARI forwarding support rule        " num_pe
    (payload_of "os_p036" os_p036_payload).

Definition os_p037_entry (num_pe : Z) : M Z :=
  run_on_one fuel (ACS_PCIE_TEST_NUM_BASE + 37)
    "IE_REG_2: Check OBFF supported rule                " num_pe
    (payload_of "os_p037" os_p037_payload).

Definition os_p038_entry (num_pe : Z) : M Z :=
  run_on_one fuel (ACS_PCIE_TEST_NUM_BASE + 38)
    "IE_REG_2: Check CTRS and CTDS rule                 " num_pe
    (payload_of "os_p038" os_p038_payload).

Definition os_p039_entry (num_pe : Z) : M Z :=
  run_on_one fuel (ACS_PCIE_TEST_NUM_BASE + 39)
    "IE_REG_2: Check i-EP atomicop rule                 " num_pe
    (payload_of "os_p039" os_p039_payload).

Definition os_p041_entry (num_pe : Z) : M Z :=
  run_on_one fuel (ACS_PCIE_TEST_NUM_BASE + 41)
    "RE_INT_1,IE_INT_1:Check MSI and MSI-X support rule " num_pe
    (payload_of "os_p041" os_p041_payload).

Definition os_p042_entry (num_pe : Z) : M Z :=
  run_on_one fuel (ACS_PCIE_TEST_NUM_BASE + 42)
    "RE_PWR_1,IE_PWR_1:Check Power Management rules     " num_pe
    (payload_of "os_p042" os_p042_payload).

Definition os_p044_entry (num_pe : Z) : M Z :=
  run_on_one fuel (ACS_PCIE_TEST_NUM_BASE + 44)
    "PCI_IN_04: All EP/Sw under RP in same ECAM Region  " num_pe
    (payload_of "os_p044" os_p044_payload).

Definition os_p048_entry (num_pe : Z) : M Z :=
  run_on_one fuel (ACS_PCIE_TEST_NUM_BASE + 48)
    "PCI_IN_13: PHB, RP must recognize Txn from upstream" num_pe
    (payload_of "os_p048" os_p048_payload).

Definition os_p050_entry (num_pe : Z) : M Z :=
  run_on_one fuel (ACS_PCIE_TEST_NUM_BASE + 50)
    "PCI_LI_03: Legacy SPI are programme as lvl-sensitiv" num_pe
    (payload_of "os_p050" os_p050_payload).

Definition os_p051_entry (num_pe : Z) : M Z :=
  run_on_one fuel (ACS_PCIE_TEST_NUM_BASE + 51)
    "IE_RST_2: Check Sec Bus Reset For iEP_RP           " num_pe
    (payload_of "os_p051" os_p051_payload).

Definition os_p052_entry (num_pe : Z) : M Z :=
  run_on_one fuel (ACS_PCIE_TEST_NUM_BASE + 52)
    "RE_SMU_2,IE_SMU_1: Check ATS Support Rule          " num_pe
    (payload_of "os_p052" os_p052_payload).

Definition os_p053_entry (num_pe : Z) : M Z :=
  run_on_one fuel (ACS_PCIE_TEST_NUM_BASE + 53)
    "PCI_PP_03: RP must suport ACS if P2P Txn are allow " num_pe
    (payload_of "os_p053" os_p053_payload).

Definition os_p054_entry (num_pe : Z) : M Z :=
  run_on_one fuel (ACS_PCIE_TEST_NUM_BASE + 54)
    "RB_PCI_PP_05: Check RP Adv Error Report            " num_pe
    (payload_of "os_p054" os_p054_payload).

Definition os_p055_entry (num_pe : Z) : M Z :=
  run_on_one fuel (ACS_PCIE_TEST_NUM_BASE + 55)
    "RB_PCI_PP_05: Check Direct Transl P2P Supp         " num_pe
    (payload_of "os_p055" os_p055_payload).

Definition os_p056_entry (num_pe : Z) : M Z :=
  run_on_one fuel (ACS_PCIE_TEST_NUM_BASE + 56)
    "IE_ACS_2 :Check iEP-RootPort P2P Support           " num_pe
    (payload_of "os_p056" os_p056_payload).

Definition os_p057_entry (num_pe : Z) : M Z :=
  run_on_one fuel (ACS_PCIE_TEST_NUM_BASE + 57)
    "RE_ACS_1 & 2,IE_ACS_1: Check RCiEP, iEP_EP P2P Supp" num_pe
    (payload_of "os_p057" os_p057_payload).

Definition os_p058_entry (num_pe : Z) : M Z :=
  run_on_one fuel (ACS_PCIE_TEST_NUM_BASE + 58)
    "RE_PCI_1: Check RCiEP Hdr type & link Cap          " num_pe
    (payload_of "os_p058" os_p058_payload).

Definition os_p059_entry (num_pe : Z) : M Z :=
  run_on_one fuel (ACS_PCIE_TEST_NUM_BASE + 59)
    "RE_PCI_2: Check RCEC Class code and Ext Cap        " num_pe
    (payload_of "os_p059" os_p059_payload).

Definition os_p060_entry (num_pe : Z) : M Z :=
  run_on_one fuel (ACS_PCIE_TEST_NUM_BASE + 60)
    "PCI_IN_16: Check all 1's for out of range          " num_pe
    (payload_of "os_p060" os_p060_payload).

Definition os_p061_entry (num_pe : Z) : M Z :=
  run_on_one fuel (ACS_PCIE_TEST_NUM_BASE + 61)
    "PCI_IN_20: Vendor specific data are PCIe compliant " num_pe
    (payload_of "os_p061" os_p061_payload).

Definition os_p062_entry (num_pe : Z) : M Z :=
  run_on_one fuel (ACS_PCIE_TEST_NUM_BASE + 62)
    "RE_BAR_1: Read and write to RCiEP BAR reg          " num_pe
    (payload_of "os_p062" os_p062_payload).

End tests.
