(* ===== verification/TestVerdict.v ===== *)
(** * The verdict of a test on one PE

    What an entry point returns and counts, from what its payload reports: [run_test] for
    a test on the running PE alone, then the tests over the functions of the BDF table,
    each against the rule it enforces. *)

From S2P Require Import Prelude Types World Status Machine PeInfra TestInfra Pcie PcieTable PcieDiscovery Timer TestEntry.
#[local] Open Scope c_scope.

(** What of the device no test frame touches: the part [conf] is left alone by reading
    system registers, by cache maintenance and by the other PEs, and it includes the
    affinity of the running PE. *)
Class Quiet {D : Type} `{Platform D} {X : Type} (conf : D -> X) (mpidr : X -> Z) : Prop := {
  quiet_mpidr : forall d, fst (read_sysreg "ArmReadMpidr" d) = mpidr (conf d);
  quiet_sysreg : forall r d, conf (snd (read_sysreg r d)) = conf d;
  quiet_cache : forall a k d, conf (cache_op a k d) = conf d;
  quiet_pes : forall mem d, conf (snd (other_pes mem d)) = conf d
}.

Section single.
Context {D : Type} `{Platform D} {X : Type} (conf : D -> X) (mpidr : X -> Z) `{Q : !Quiet conf mpidr}.

#[local] Abbreviation M := (M (world D)).

(** The number of the PE with this affinity register. *)
Definition pe_slot (t : PE_INFO_TABLE) (v : Z) : Z :=
  match List.find (fun e => pe_mpidr e =? Z.land v MPIDR_AFF_MASK)
          (take (Z.to_nat (num_of_pe t)) (pe_info t)) with
  | Some e => pe_num e
  | None => 0
  end.

(** The suite is set up and [me] is the slot of the running PE. *)
Record running (base : Z) (mem : list VAL_SHARED_MEM_t) (me : nat) (w : world D) : Prop := {
  running_ready : suite_ready base mem w;
  running_me : forall t, g_pe_info_table w = Some t ->
    pe_slot t (mpidr (conf (dev w))) = Z.of_nat me;
  running_slot : (me < length mem)%nat
}.

(** The world once a test has begun, the device and the statuses aside. *)
Definition begun (w : world D) : world D :=
  set_g_bsa_tests_total (u32 (g_bsa_tests_total w + 1))
    (set_g_esr_handler (<[0%nat := symbol "val_pe_default_esr"]> (g_esr_handler w)) w).

Definition in_test (w : world D) (base : Z) (d : D) (mem : list VAL_SHARED_MEM_t) : world D :=
  set_dev d (set_gSharedMemory (Some (base, mem)) w).

Lemma running_index base mem me w : running base mem me w ->
  exists t, g_pe_info_table w = Some t /\ (Z.to_nat (num_of_pe t) <= length (pe_info t))%nat /\
    pe_slot t (mpidr (conf (dev w))) = Z.of_nat me.
Proof.
  intros [Hr Hme _]. destruct (ready_table _ _ _ Hr) as (t & Ht & Hwf & _ & _).
  exists t. pose proof (pe_wf_count t Hwf). split; [done|]. split; [lia|]. by apply Hme.
Qed.

Lemma eval_own_slot base mem me w d :
  running base mem me w ->
  eval (val_pe_get_index_mpid (Z.land (fst (read_sysreg "ArmReadMpidr" (dev w))) MPIDR_AFF_MASK))
    (set_dev d w) (Z.of_nat me) (set_dev d w).
Proof.
  intros Hrun. destruct (running_index _ _ _ _ Hrun) as (t & Ht & Hn & <-).
  rewrite (quiet_mpidr (dev w)). by apply (eval_val_pe_get_index_mpid t).
Qed.

Lemma wp_my_slot base mem me w (R : Z -> world D -> Prop) :
  running base mem me w ->
  (forall d, conf d = conf (dev w) -> R (Z.of_nat me) (set_dev d w)) -> wp my_index w R.
Proof.
  intros Hrun HR. unfold my_index, val_pe_get_mpid. wp_steps. apply wp_from_dev. wp_steps.
  eapply wp_eval; [by eapply eval_own_slot|]. apply HR, quiet_sysreg.
Qed.

Lemma wp_own_index base mem me w {A} (k : Z -> M A) (R : A -> world D -> Prop) :
  running base mem me w ->
  (forall d, conf d = conf (dev w) -> wp (k (Z.of_nat me)) (set_dev d w) R) ->
  wp (let* mpid := val_pe_get_mpid in let* i := val_pe_get_index_mpid mpid in k i) w R.
Proof.
  intros Hrun Hk. unfold val_pe_get_mpid. wp_steps. apply wp_from_dev. wp_steps.
  eapply wp_eval; [by eapply eval_own_slot|]. apply Hk, quiet_sysreg.
Qed.

(** The frame holds in every world the test goes through. *)
Lemma running_begun base mem me w d mem' :
  running base mem me w -> conf d = conf (dev w) -> length mem' = length mem ->
  running base mem' me (in_test (begun w) base d mem').
Proof.
  intros [[Ht Hm Hs He] Hme Hl] Hd Hlen. split; [split|..]; cbn.
  - destruct Ht as (t & ?). exists t. by rewrite Hlen.
  - done.
  - done.
  - by rewrite length_insert.
  - intros t Ht'. rewrite Hd. by apply Hme.
  - by rewrite Hlen.
Qed.

Definition skipped (test_num : Z) (w : world D) : bool :=
  existsb (fun x => x =? test_num) (g_skip_test_num w).

(** Setting the status of the first PE only. *)
Lemma wp_first_status st base mem w (R : () -> world D -> Prop) :
  gSharedMemory w = Some (base, mem) -> (0 < length mem)%nat ->
  (forall d mem', conf d = conf (dev w) -> length mem' = length mem ->
     R tt (set_dev d (set_gSharedMemory (Some (base, mem')) w))) ->
  wp (for_each (Z.to_nat 1) 0 (fun i => val_set_status i st)) w R.
Proof.
  intros Hm Hl HR. destruct (lookup_lt_is_Some_2 mem 0) as [m Hlk]; [done|].
  unfold for_each. change (Z.to_nat 1) with 1%nat. cbn [for_]. do 3 wp_step.
  eapply (wp_val_set_status base mem 0); [done|done|]. wp_steps. apply HR.
  - by rewrite quiet_cache.
  - by rewrite length_insert.
Qed.

(** Starting a test on one PE: the first slot is made pending, whichever PE runs. *)
Lemma wp_initialize_one test_num desc base mem me w (R : Z -> world D -> Prop) :
  running base mem me w ->
  (forall d mem', conf d = conf (dev w) -> length mem' = length mem ->
     (skipped test_num w = true -> status_at mem' me = RESULT_SKIP test_num 0) ->
     R (if skipped test_num w then ACS_STATUS_SKIP else ACS_STATUS_PASS)
       (in_test (begun w) base d mem')) ->
  wp (val_initialize_test test_num desc 1) w R.
Proof.
  intros Hrun HR. pose proof (running_ready _ _ _ _ Hrun) as Hr.
  pose proof (running_slot _ _ _ _ Hrun) as Hme.
  unfold val_initialize_test. eapply wp_own_index; [done|]. intros d Hd.
  run. apply wp_val_report_status. io_step. apply wp_install_esr; [apply Hr|]. run.
  apply wp_first_status with (base := base) (mem := mem); [apply Hr|lia|]. intros d1 mem1 Hd1 Hl1.
  wp_step. eapply wp_eval; [apply eval_user_skips, Hr|]. wsimpl. fold (skipped test_num w).
  assert (Hd' : conf d1 = conf (dev w)) by (rewrite Hd1; exact Hd).
  destruct (skipped test_num w).
  - destruct (lookup_lt_is_Some_2 mem1 me) as [m Hm]; [lia|].
    run. eapply wp_val_set_status; [reflexivity|exact Hm|]. wp_step.
    eapply (HR _ (<[me := mkShared (sh_data0 m) (sh_data1 m) (RESULT_SKIP test_num 0)]> mem1)).
    + by rewrite quiet_cache.
    + by rewrite length_insert.
    + intros _. unfold status_at. rewrite list_lookup_insert_eq by lia. apply u32_id, fits_u32.
  - run. by apply HR.
Qed.

(** Judging the running PE by the status in its slot. *)
Lemma wp_check_one `{!ReportOnce} test_num base mem me w (R : Z -> world D -> Prop) :
  running base mem me w -> reported mem me ->
  (forall w', counted (verdict_of (status_at mem me)) w w' ->
     R (verdict_of (status_at mem me)) w') ->
  wp (val_check_for_error test_num 1) w R.
Proof.
  intros Hrun Hrep HR. pose proof (running_slot _ _ _ _ Hrun) as Hl.
  unfold val_check_for_error. eapply wp_own_index; [done|]. intros d Hd.
  cbn iota beta delta [Z.eqb Pos.eqb]. apply wp_bind.
  apply (wp_get_status_others (by_slots later) w base mem);
    [split; [apply (running_ready _ _ _ _ Hrun)|apply only_pes_dev]|done|].
  intros mem' w' Hlat [Hm' Ho]. apply wp_bind, wp_val_report_status, wp_verdict.
  assert (E : status_at mem' me = status_at mem me) by (by apply (later_status mem mem' me)).
  rewrite E. apply HR. eapply counted_from; [exact Ho|apply counted_refl].
Qed.

(** A test on one PE whose payload leaves a status in the slot of that PE: the verdict is
    that of the status, or SKIP when the user asked for it, and it is counted. *)
Lemma wp_run_one `{!ReportOnce} fuel test_num desc num_pe addr body v base mem me w :
  running base mem me w -> fits 16 test_num ->
  (skipped test_num w = false -> forall d mem1, conf d = conf (dev w) ->
     length mem1 = length mem ->
     wp body (in_test (begun w) base d mem1) (fun _ w' => exists d2 mem2,
       w' = in_test (begun w) base d2 mem2 /\ conf d2 = conf (dev w) /\
       length mem2 = length mem /\ reported mem2 me /\ verdict_of (status_at mem2 me) = v)) ->
  wp (run_on_one fuel test_num desc num_pe (Code addr body)) w (fun r w' =>
    r = (if skipped test_num w then ACS_STATUS_SKIP else v) /\
    counted r (begun w) w').
Proof.
  intros Hrun Hn Hbody. unfold run_on_one, run_test. cbv zeta. wp_step.
  eapply wp_initialize_one; [done|]. intros d mem1 Hd Hl1 Hsk. wp_step.
  apply (wp_mono _ _ (fun _ w1 => exists d2 mem2,
    w1 = in_test (begun w) base d2 mem2 /\ conf d2 = conf (dev w) /\ length mem2 = length mem /\
    reported mem2 me /\
    verdict_of (status_at mem2 me) = if skipped test_num w then ACS_STATUS_SKIP else v)).
  - destruct (skipped test_num w) eqn:E; cbn [negb].
    + change (ACS_STATUS_SKIP =? ACS_STATUS_SKIP) with true. cbn [negb]. wp_step.
      exists d, mem1. unfold reported, verdict_of, IS_TEST_PASS, IS_TEST_SKIP, IS_RESULT_PENDING.
      by rewrite (Hsk eq_refl), state_RESULT_SKIP.
    + change (ACS_STATUS_PASS =? ACS_STATUS_SKIP) with false. cbn [negb].
      unfold val_run_test_payload.
      eapply (wp_own_index base mem1 me); [by apply (running_begun base mem)|].
      intros d1 Hd1. wp_step. eapply wp_mono; [apply (Hbody eq_refl d1 mem1); [by rewrite Hd1|done]|].
      intros u w' Hw'. change (1 =? 1) with true. by apply wp_ret.
  - intros _ w1 (d2 & mem2 & -> & Hd2 & Hl2 & Hrep & Hs). wp_step.
    eapply (wp_check_one test_num base mem2 me); [by apply (running_begun base mem)|done|].
    intros w2 Hc. rewrite Hs in *. wp_step. apply wp_val_report_status. wp_step.
    split; [done|]. eapply counted_from; [|exact Hc]. eexists _, _. reflexivity.
Qed.

(** ** Tests over the functions of the table *)

(** What a rule says of a function: [None] when it is not about it, else how often the
    function breaks it. *)
Definition violations (score : pcie_device_attr -> option Z) (devs : list pcie_device_attr) : Z :=
  foldr (fun e n => default 0 (score e) + n) 0 devs.

Definition concerns (score : pcie_device_attr -> option Z) (devs : list pcie_device_attr) : bool :=
  existsb (fun e => if score e is Some _ then true else false) devs.

Definition outcome_of (score : pcie_device_attr -> option Z) (devs : list pcie_device_attr) : Z :=
  if negb (concerns score devs) then ACS_STATUS_SKIP
  else if violations score devs =? 0 then ACS_STATUS_PASS else ACS_STATUS_FAIL.

Lemma violations_snoc score devs e :
  violations score (devs ++ [e]) = violations score devs + default 0 (score e).
Proof. unfold violations. induction devs as [|x devs IH]; cbn; [lia|]. rewrite IH. lia. Qed.

Lemma concerns_snoc score devs e :
  concerns score (devs ++ [e]) = concerns score devs || if score e is Some _ then true else false.
Proof. unfold concerns. rewrite existsb_app. cbn. by rewrite orb_false_r. Qed.

(** The check leaves the world as it is and counts what the rule says. *)
Definition counts (check : pcie_device_attr -> locals -> M locals)
    (score : pcie_device_attr -> option Z) (e : pcie_device_attr) (w : world D) : Prop :=
  forall l, fits 32 (test_fails l) -> wp (check e l) w (fun l' w' => w' = w /\
    test_fails l' = u32 (test_fails l + default 0 (score e)) /\
    test_skip l' = if score e is Some _ then 0 else test_skip l).

Lemma wp_for_functions check score devs w (R : locals -> world D -> Prop) :
  g_pcie_bdf_table w = Some (mkBdfTable (Z.of_nat (length devs)) devs) ->
  (forall e, e ∈ devs -> counts check score e w) ->
  (forall l, test_fails l = u32 (violations score devs) ->
     test_skip l = (if concerns score devs then 0 else 1) -> R l w) ->
  wp (for_functions check start_locals) w R.
Proof.
  intros Ht Hc HR. unfold for_functions, val_pcie_bdf_table_ptr, bdf_table. wp_step.
  wp_steps. rewrite Ht. wp_steps. cbn [bdf_entries]. rewrite Nat2Z.id.
  apply (wp_for_acc (fun i l s => s = w /\
    test_fails l = u32 (violations score (take (Z.to_nat i) devs)) /\
    test_skip l = if concerns score (take (Z.to_nat i) devs) then 0 else 1)).
  - by rewrite take_0.
  - intros i l s Hi (-> & Hf & Hs). rewrite Z.add_0_l in Hi.
    destruct (lookup_lt_is_Some_2 devs (Z.to_nat i)) as [e He]; [lia|].
    unfold table_entry. cbn [bdf_device]. wp_step. eapply wp_eval; [by apply eval_need|].
    eapply wp_mono; [apply Hc; [by eapply list_elem_of_lookup_2|rewrite Hf; apply fits_u32]|].
    intros l' s' (-> & Hf' & Hs'). split; [done|].
    replace (Z.to_nat (i + 1)) with (S (Z.to_nat i)) by lia.
    rewrite (take_S_r _ _ e) by done. rewrite violations_snoc, concerns_snoc, Hf', Hs', Hf, Hs.
    split; [unfold u32; by rewrite Zplus_mod_idemp_l|].
    by destruct (score e), (concerns score (take (Z.to_nat i) devs)).
  - intros l s (-> & Hf & Hs). rewrite Z.add_0_l, Nat2Z.id, take_ge in Hf, Hs by done. by apply HR.
Qed.

Lemma wp_report_counts score devs test_num skip_code l base mem me w (R : () -> world D -> Prop) :
  running base mem me w -> fits 16 test_num -> fits 12 skip_code ->
  violations score devs < 2 ^ 12 -> 0 <= violations score devs ->
  test_fails l = u32 (violations score devs) ->
  test_skip l = (if concerns score devs then 0 else 1) ->
  (forall d mem', conf d = conf (dev w) -> length mem' = length mem -> reported mem' me ->
     verdict_of (status_at mem' me) = outcome_of score devs -> R tt (in_test w base d mem')) ->
  wp (report_counts test_num (Z.of_nat me) skip_code l) w R.
Proof.
  intros Hrun Hn Hk Hv Hv0 Hf Hs HR. rewrite u32_id in Hf by (unfold fits; lia).
  destruct (lookup_lt_is_Some_2 mem me (running_slot _ _ _ _ Hrun)) as [m Hm].
  assert (Hset : forall st, fits 32 st -> IS_RESULT_PENDING st = false ->
    verdict_of st = outcome_of score devs -> wp (val_set_status (Z.of_nat me) st) w R).
  { intros st H32 Hp Hver.
    eapply wp_val_set_status; [apply (running_ready _ _ _ _ Hrun)|exact Hm|].
    assert (E : status_at (<[me := mkShared (sh_data0 m) (sh_data1 m) st]> mem) me = st).
    { unfold status_at. rewrite list_lookup_insert_eq by apply (running_slot _ _ _ _ Hrun).
      by apply u32_id. }
    eapply (HR _ (<[me := mkShared (sh_data0 m) (sh_data1 m) st]> mem)); unfold reported; rewrite ?E.
    - apply quiet_cache.
    - by rewrite length_insert.
    - done.
    - done. }
  unfold report_counts. rewrite Hs, Hf. unfold outcome_of in Hset.
  unfold verdict_of, IS_TEST_PASS, IS_TEST_SKIP, IS_RESULT_PENDING in Hset.
  destruct (concerns score devs); cbn [negb Z.eqb Pos.eqb] in *.
  - unfold truthy. destruct (Z.eqb_spec (violations score devs) 0) as [E|E]; cbn [negb].
    + apply Hset; [apply fits_u32|..]; by rewrite state_RESULT_PASS.
    + apply Hset; [apply fits_u32|..]; rewrite state_RESULT_FAIL; try done; unfold fits; lia.
  - apply Hset; [apply fits_u32|..]; by rewrite state_RESULT_SKIP.
Qed.

Lemma violations_nonneg score devs :
  (forall e n, e ∈ devs -> score e = Some n -> 0 <= n) -> 0 <= violations score devs.
Proof.
  unfold violations. induction devs as [|e devs IH]; intros Hs; cbn; [lia|].
  assert (0 <= default 0 (score e)).
  { destruct (score e) as [n|] eqn:E; [|done]. apply (Hs e n); [apply list_elem_of_here|done]. }
  enough (0 <= foldr (fun e n => default 0 (score e) + n) 0 devs) by lia.
  apply IH. intros x n Hx. apply Hs. by apply list_elem_of_further.
Qed.

Lemma violations_le score devs k :
  (forall e n, e ∈ devs -> score e = Some n -> 0 <= n <= k) -> 0 <= k ->
  violations score devs <= k * Z.of_nat (length devs).
Proof.
  unfold violations. intros Hs Hk. induction devs as [|e devs IH]; cbn [foldr length]; [lia|].
  assert (default 0 (score e) <= k).
  { destruct (score e) as [n|] eqn:E; [|done]. apply (Hs e n); [apply list_elem_of_here|done]. }
  assert (foldr (fun e n => default 0 (score e) + n) 0 devs <= k * Z.of_nat (length devs)); [|lia].
  apply IH. intros x n Hx. apply Hs. by apply list_elem_of_further.
Qed.

(** The test of a rule over the whole table. *)
Lemma wp_function_test `{!ReportOnce} fuel test_num desc num_pe addr check score devs base mem me w :
  running base mem me w -> fits 16 test_num ->
  g_pcie_bdf_table w = Some (mkBdfTable (Z.of_nat (length devs)) devs) ->
  (forall e n, e ∈ devs -> score e = Some n -> 0 <= n) -> violations score devs < 2 ^ 12 ->
  (forall d mem1 e, conf d = conf (dev w) -> e ∈ devs ->
     counts check score e (in_test (begun w) base d mem1)) ->
  wp (run_on_one fuel test_num desc num_pe (Code addr (function_test test_num check))) w
    (fun r w' => r = (if skipped test_num w then ACS_STATUS_SKIP else outcome_of score devs) /\
       counted r (begun w) w').
Proof.
  intros Hrun Hn Ht Hpos Hmax Hc. pose proof (violations_nonneg score devs Hpos) as Hv.
  apply (wp_run_one fuel test_num desc num_pe addr _ (outcome_of score devs) base mem me); [done..|].
  intros _ d mem1 Hd Hl. unfold function_test. wp_step.
  eapply wp_my_slot; [by apply (running_begun base mem)|]. intros d1 Hd1. wp_step.
  apply (wp_for_functions check score devs); [done| |].
  - intros e He. apply (Hc d1 mem1); [by rewrite Hd1|done].
  - intros l Hf Hs.
    apply (wp_report_counts score devs test_num 1 l base mem1 me); try done.
    + apply (running_begun base mem); [done|by rewrite Hd1|done].
    + intros d2 mem2 Hd2 Hl2 Hrep Hver. exists d2, mem2. split; [done|].
      split; [by rewrite Hd2; cbn; rewrite Hd1|]. split; [congruence|done].
Qed.
End single.

(** ** Payloads that read registers and report *)

(** The system registers of the running PE, as functions of what the frame leaves alone. *)
Class Registers {D : Type} `{Platform D} {X : Type} (conf : D -> X) (reg : X -> string -> Z) : Prop := {
  #[global] registers_quiet :: Quiet conf (fun x => reg x "ArmReadMpidr");
  registers_read : forall r d, fst (read_sysreg r d) = reg (conf d) r
}.

Section reading.
Context {D : Type} `{Platform D} {X : Type} (conf : D -> X) (reg : X -> string -> Z) `{R : !Registers conf reg}.

#[local] Abbreviation M := (M (world D)).

(** From [w], whatever the rest of the device does, [m] returns [a] and only moves the
    device. *)
Definition reads {A} (m : M A) (w : world D) (a : A) : Prop :=
  forall d Q, conf d = conf (dev w) ->
    (forall d', conf d' = conf (dev w) -> Q a (set_dev d' w)) -> wp m (set_dev d w) Q.

(** A status that has been reported, and the verdict it stands for. *)
Definition stands_for (st v : Z) : Prop :=
  fits 32 st /\ IS_RESULT_PENDING st = false /\ verdict_of st = v.

(** From [w], [m] leaves in slot [me] a status that stands for [v]. *)
Definition sets (base : Z) (mem : list VAL_SHARED_MEM_t) (me : nat) (m : M ()) (w : world D) (v : Z) : Prop :=
  forall d Q, conf d = conf (dev w) ->
    (forall d' mem', conf d' = conf (dev w) -> length mem' = length mem -> reported mem' me ->
       verdict_of (status_at mem' me) = v -> Q tt (in_test w base d' mem')) ->
    wp m (set_dev d w) Q.

Lemma reads_ret {A} (a : A) w : reads (ret a) w a.
Proof. intros d Q Hd HQ. wp_step. by apply HQ. Qed.

Lemma reads_bind {A B} (m : M A) (k : A -> M B) w a b :
  reads m w a -> reads (k a) w b -> reads (bind m k) w b.
Proof. intros Hm Hk d Q Hd HQ. apply wp_bind, Hm; [done|]. intros d' Hd'. by apply Hk. Qed.

Lemma reads_if {A} (b : bool) (m1 m2 : M A) w a1 a2 :
  reads m1 w a1 -> reads m2 w a2 -> reads (if b then m1 else m2) w (if b then a1 else a2).
Proof. by destruct b. Qed.

(** [val_pe_reg_read] of one of the registers it knows. *)
Lemma reads_reg id name w :
  val_pe_reg_read (D:=D) id = from_dev (read_sysreg name) ->
  reads (val_pe_reg_read id) w (reg (conf (dev w)) name).
Proof.
  intros -> d Q Hd HQ. apply wp_from_dev. cbn [dev set_dev].
  rewrite registers_read, Hd. apply (HQ (snd (read_sysreg name d))).
  by rewrite quiet_sysreg.
Qed.

Lemma reads_my_index base mem me w :
  running conf (fun x => reg x "ArmReadMpidr") base mem me w -> reads my_index w (Z.of_nat me).
Proof.
  intros Hrun d Q Hd HQ.
  apply (wp_my_slot conf (fun x => reg x "ArmReadMpidr") base mem me).
  - destruct Hrun as [[Ht Hm Hs He] Hme Hl]. split; [by split|..]; [|done].
    intros t Ht'. cbn [dev set_dev]. rewrite Hd. by apply Hme.
  - intros d' Hd'. cbn in *. apply (HQ d'). congruence.
Qed.

Lemma reads_for_acc {A} n i0 (f : Z -> A -> M A) (g : Z -> A -> A) a w :
  (forall i a, i0 <= i < i0 + Z.of_nat n -> reads (f i a) w (g i a)) ->
  reads (for_acc n i0 f a) w (fold_left (fun a i => g (i0 + Z.of_nat i) a) (seq 0 n) a).
Proof.
  intros Hf d Q Hd HQ.
  apply (wp_for_acc (fun i a' s => exists d', s = set_dev d' w /\ conf d' = conf (dev w) /\
    a' = fold_left (fun a k => g (i0 + Z.of_nat k) a) (seq 0 (Z.to_nat (i - i0))) a)).
  - exists d. rewrite Z.sub_diag. done.
  - intros i a' s Hi (d' & -> & Hd' & ->). apply Hf; [lia|done|]. intros d2 Hd2.
    exists d2. split; [done|]. split; [done|].
    replace (Z.to_nat (i + 1 - i0)) with (S (Z.to_nat (i - i0))) by lia.
    rewrite seq_S, fold_left_app. cbn. do 2 f_equal. lia.
  - intros a' s (d' & -> & Hd' & ->). rewrite Z.add_simpl_l, Nat2Z.id. by apply HQ.
Qed.

Lemma stands_pass n k : fits 16 n -> fits 12 k -> stands_for (RESULT_PASS n k) ACS_STATUS_PASS.
Proof.
  intros. unfold stands_for, IS_RESULT_PENDING, verdict_of, IS_TEST_PASS.
  rewrite state_RESULT_PASS by done. split; [apply fits_u32|done].
Qed.
Lemma stands_fail n k : fits 16 n -> fits 12 k -> stands_for (RESULT_FAIL n k) ACS_STATUS_FAIL.
Proof.
  intros. unfold stands_for, IS_RESULT_PENDING, verdict_of, IS_TEST_PASS, IS_TEST_SKIP.
  rewrite state_RESULT_FAIL by done. split; [apply fits_u32|done].
Qed.
Lemma stands_skip n k : fits 16 n -> fits 12 k -> stands_for (RESULT_SKIP n k) ACS_STATUS_SKIP.
Proof.
  intros. unfold stands_for, IS_RESULT_PENDING, verdict_of, IS_TEST_PASS, IS_TEST_SKIP.
  rewrite state_RESULT_SKIP by done. split; [apply fits_u32|done].
Qed.
Lemma stands_if (b : bool) s1 s2 v1 v2 :
  stands_for s1 v1 -> stands_for s2 v2 -> stands_for (if b then s1 else s2) (if b then v1 else v2).
Proof. by destruct b. Qed.

Section sets.
Context (base : Z) (mem : list VAL_SHARED_MEM_t) (me : nat).

Lemma sets_bind {A} (m : M A) (k : A -> M ()) w a v :
  reads m w a -> sets base mem me (k a) w v -> sets base mem me (bind m k) w v.
Proof. intros Hm Hk d Q Hd HQ. apply wp_bind, Hm; [done|]. intros d' Hd'. by apply Hk. Qed.

Lemma sets_if (b : bool) m1 m2 w v1 v2 :
  sets base mem me m1 w v1 -> sets base mem me m2 w v2 ->
  sets base mem me (if b then m1 else m2) w (if b then v1 else v2).
Proof. by destruct b. Qed.

Lemma sets_status st w v :
  running conf (fun x => reg x "ArmReadMpidr") base mem me w -> stands_for st v ->
  sets base mem me (val_set_status (Z.of_nat me) st) w v.
Proof.
  intros Hrun (H32 & Hp & Hv) d Q Hd HQ.
  destruct (lookup_lt_is_Some_2 mem me (running_slot _ _ _ _ _ _ Hrun)) as [m Hm].
  eapply wp_val_set_status; [apply (running_ready _ _ _ _ _ _ Hrun)|exact Hm|].
  assert (E : status_at (<[me := mkShared (sh_data0 m) (sh_data1 m) st]> mem) me = st).
  { unfold status_at. rewrite list_lookup_insert_eq by apply (running_slot _ _ _ _ _ _ Hrun).
    by apply u32_id. }
  eapply (HQ _ (<[me := mkShared (sh_data0 m) (sh_data1 m) st]> mem)); unfold reported; rewrite ?E.
  - by rewrite quiet_cache.
  - by rewrite length_insert.
  - done.
  - done.
Qed.
End sets.

(** The verdict on one PE of a test whose payload only reads and reports. *)
Lemma wp_reading_test `{!ReportOnce} fuel test_num desc addr body v base mem me w :
  running conf (fun x => reg x "ArmReadMpidr") base mem me w -> fits 16 test_num ->
  (forall d mem', conf d = conf (dev w) -> length mem' = length mem ->
     running conf (fun x => reg x "ArmReadMpidr") base mem' me (in_test (begun w) base d mem') ->
     sets base mem' me body (in_test (begun w) base d mem') v) ->
  wp (run_test fuel test_num desc 1 (Code addr body)) w (fun r w' =>
    r = (if skipped test_num w then ACS_STATUS_SKIP else v) /\ counted r (begun w) w').
Proof.
  intros Hrun Hn Hb.
  apply (wp_run_one conf (fun x => reg x "ArmReadMpidr") fuel test_num desc 1 addr body v base mem me); [done..|].
  intros _ d mem1 Hd Hl.
  apply (Hb d mem1 Hd Hl (running_begun _ _ _ _ _ _ _ _ Hrun Hd Hl) d); [done|].
  intros d' mem' Hd' Hl' Hrep Hv. exists d', mem'. split; [done|]. split; [cbn in Hd'; congruence|].
  split; [congruence|done].
Qed.
End reading.

(** The executable machine: its memory and its system registers. *)
#[export] Instance machine_quiet :
  Quiet (fun d : machine => (mach_mem d, mach_regs d))
    (fun c => default 0 (snd c !! "ArmReadMpidr")).
Proof. by split. Qed.

#[export] Instance machine_registers :
  Registers (fun d : machine => (mach_mem d, mach_regs d)) (fun c r => default 0 (snd c !! r)).
Proof. split; [apply machine_quiet|done]. Qed.
