(* ===== verification/TestRules.v ===== *)
(** * The rules the PCIe function tests enforce

    For the tests of TestPcie that read registers of each function: the rule, as a
    predicate on the configuration space of a function, and the proof that the check of
    the test counts exactly its violations. *)

From S2P Require Import Prelude Types World Status Machine PeInfra TestInfra Pcie PcieTable PcieDiscovery PcieDevice Timer TestEntry TestPcie TestVerdict.
#[local] Open Scope c_scope.

Section rules.
Context {D : Type} `{Platform D} (fuel : nat).

(** [cfg bdf off] is the register at [off] of a function, [caps] and [ecaps] the offsets
    of its PCI and PCIe extended capabilities. *)
Context (cfg : Z -> Z -> Z) (caps ecaps : Z -> list Z).

#[local] Abbreviation M := (M (world D)).
#[local] Abbreviation port := (port_type cfg caps).

(** A function of the BDF table: readable, its capability lists well formed. *)
Record mapped (w : world D) (bdf : Z) : Prop := {
  mapped_fn : function_ok cfg caps fuel w bdf;
  mapped_listed : listed cfg caps bdf = true;
  mapped_ecaps :
    cap_chain (cap_next PCIE_ECAP (cfg bdf)) (cap_start PCIE_ECAP (cfg bdf)) (ecaps bdf);
  mapped_ecaps_fuel : (length (ecaps bdf) < fuel)%nat
}.

(** ** What the rules say *)

Definition bits (v shift width : Z) : Z := v / 2 ^ shift mod 2 ^ width.

Definition pci_cap (bdf id : Z) : option Z :=
  List.find (fun off => cap_id PCIE_CAP (cfg bdf) off =? id) (caps bdf).
Definition ext_cap (bdf id : Z) : option Z :=
  List.find (fun off => cap_id PCIE_ECAP (cfg bdf) off =? id) (ecaps bdf).

Definition has (o : option Z) : bool := if o is Some _ then true else false.

(** A register of the PCI Express capability. *)
Definition express_reg (bdf off : Z) : Z := cfg bdf (default 0 (express cfg caps bdf) + off).

(** Broken once when [b], not at all otherwise. *)
Definition broken (b : bool) : option Z := Some (of_bool b).

(** A function that cannot test itself reports neither a running test nor a result. The
    comment of the test gives the result four bits; its mask has three. *)
Definition rule_p031 (e : pcie_device_attr) : option Z :=
  let bist := bits (cfg (d_bdf e) TYPE01_CLSR) 24 8 in
  broken ((bits bist 7 1 =? 0) && (negb (bits bist 0 3 =? 0) || negb (bits bist 6 1 =? 0))).

(** The capabilities pointer points past the header, into the first 256 bytes. *)
Definition rule_p032 (e : pcie_device_attr) : option Z :=
  let p := bits (cfg (d_bdf e) TYPE01_CPR) 0 8 in broken (negb ((0x40 <=? p) && (p <=? 0xFC))).

(** The largest payload is an encoded one. *)
Definition rule_p033 (e : pcie_device_attr) : option Z :=
  broken (5 <? bits (express_reg (d_bdf e) DCAPR_OFFSET) 0 3).

(** The root port of an i-EP with ARI forwards it. *)
Definition rule_p036 (e : pcie_device_attr) : option Z :=
  if (port (d_bdf e) =? iEP_EP) && has (ext_cap (d_bdf e) ECID_ARICS) then
    broken (bits (express_reg (d_rp_bdf e) DCAP2R_OFFSET) 5 1 =? 0)
  else None.

(** An i-EP and its root port support the same OBFF mechanism. *)
Definition rule_p037 (e : pcie_device_attr) : option Z :=
  if port (d_bdf e) =? iEP_EP then
    broken (negb (bits (express_reg (d_bdf e) DCAP2R_OFFSET) 18 2 =?
                  bits (express_reg (d_rp_bdf e) DCAP2R_OFFSET) 18 2))
  else None.

(** An i-EP that completes atomic operations is under a root port that routes them. The
    comments of the test also accept a root port that requests them, and ask the same of an
    i-EP that requests them; the stub that says who does answers 0 for every function. *)
Definition rule_p039 (e : pcie_device_attr) : option Z :=
  if port (d_bdf e) =? iEP_EP then
    broken (negb (bits (express_reg (d_bdf e) DCAP2R_OFFSET) 7 3 =? 0) &&
            (bits (express_reg (d_rp_bdf e) DCAP2R_OFFSET) 6 1 =? 0))
  else None.

(** An endpoint signals interrupts by message. *)
Definition rule_p041 (e : pcie_device_attr) : option Z :=
  if (port (d_bdf e) =? iEP_EP) || (port (d_bdf e) =? RCiEP) then
    broken (negb (has (pci_cap (d_bdf e) CID_MSI)) && negb (has (pci_cap (d_bdf e) CID_MSIX)))
  else None.

(** It has power management. *)
Definition rule_p042 (e : pcie_device_attr) : option Z :=
  if (port (d_bdf e) =? iEP_EP) || (port (d_bdf e) =? RCiEP) || (port (d_bdf e) =? iEP_RP) then
    broken (negb (has (pci_cap (d_bdf e) CID_PMC)))
  else None.

(** An event collector has its class code, and its extended capability. *)
Definition rule_p059 (e : pcie_device_attr) : option Z :=
  if port (d_bdf e) =? RCEC then
    Some (of_bool (negb (bits (cfg (d_bdf e) TYPE01_RIDR) 8 24 =? 0x080700)) +
          of_bool (negb (has (ext_cap (d_bdf e) ECID_RCECEA))))
  else None.

(** ** Reading a mapped function *)

Lemma mapped_space w bdf : mapped w bdf -> cfg_space w bdf (cfg bdf).
Proof.
  intros [[Hs _] _ _ _]. specialize (Hs (g_pcie_bdf_table w)).
  replace (set_g_pcie_bdf_table (g_pcie_bdf_table w) w) with w in Hs by (by destruct w). done.
Qed.

Lemma mapped_caps w bdf : mapped w bdf ->
  cfg bdf TYPE01_CPR <> PCIE_UNKNOWN_RESPONSE /\
  cap_chain (cap_next PCIE_CAP (cfg bdf)) (cap_start PCIE_CAP (cfg bdf)) (caps bdf) /\
  (length (caps bdf) < fuel)%nat.
Proof.
  intros [[_ Hc] Hl _ _]. apply Hc. unfold listed in Hl. rewrite !andb_true_iff in Hl. apply Hl.
Qed.

Lemma eval_read_reg w bdf off l :
  mapped w bdf -> 0 <= off < 4096 ->
  eval (read_reg l bdf off) w (cfg bdf off, with_reg (Some (cfg bdf off)) l) w.
Proof.
  intros Hm Ho. unfold read_reg.
  eapply eval_bind; [by apply (eval_read_cfg_into (cfg bdf)); [apply mapped_space|]|].
  eapply eval_bind; [by apply eval_need|]. apply eval_ret.
Qed.

(** A search leaves the offset it found, if any. *)
Definition found_cap (o : option Z) (l : locals) : locals :=
  match o with Some _ => with_cap o l | None => l end.

Lemma eval_find_cap w bdf id l :
  mapped w bdf ->
  eval (find_cap fuel l bdf PCIE_CAP id) w
    (if has (pci_cap bdf id) then PCIE_SUCCESS else PCIE_CAP_NOT_FOUND,
     found_cap (pci_cap bdf id) l) w.
Proof.
  intros Hm. destruct (mapped_caps w bdf Hm) as (Hu & Hc & Hf). unfold find_cap.
  eapply eval_bind; [apply (eval_find_capability fuel bdf PCIE_CAP id (cfg bdf) (caps bdf)); auto|].
  - by apply mapped_space.
  - unfold pci_cap. by destruct (List.find _ _); apply eval_ret.
Qed.

Lemma eval_find_ecap w bdf id l :
  mapped w bdf ->
  eval (find_cap fuel l bdf PCIE_ECAP id) w
    (if has (ext_cap bdf id) then PCIE_SUCCESS else PCIE_CAP_NOT_FOUND,
     found_cap (ext_cap bdf id) l) w.
Proof.
  intros Hm. destruct (mapped_caps w bdf Hm) as (Hu & _). unfold find_cap.
  eapply eval_bind; [apply (eval_find_capability fuel bdf PCIE_ECAP id (cfg bdf) (ecaps bdf)); auto|].
  - by apply mapped_space.
  - apply Hm.
  - apply Hm.
  - unfold ext_cap. by destruct (List.find _ _); apply eval_ret.
Qed.

Lemma eval_port w bdf :
  mapped w bdf -> eval (val_pcie_device_port_type fuel bdf) w (port bdf) w.
Proof.
  intros [Hf Hl _ _]. pose proof (eval_port_type cfg caps fuel w bdf (g_pcie_bdf_table w) Hf Hl) as He.
  by replace (set_g_pcie_bdf_table (g_pcie_bdf_table w) w) with w in He by (by destruct w).
Qed.

(** The capability is in the first 256 bytes. *)
Lemma express_low w bdf : mapped w bdf ->
  exists c, express cfg caps bdf = Some c /\ 0 <= c < 256.
Proof.
  intros Hm. pose proof (mapped_listed w bdf Hm) as Hl. unfold listed in Hl.
  destruct (express cfg caps bdf) as [c|] eqn:E; [|by rewrite andb_false_r in Hl].
  exists c. split; [done|]. destruct (mapped_caps w bdf Hm) as (_ & Hc & _).
  apply List.find_some in E as [Hin _]. apply list_elem_of_In in Hin.
  assert (Hr : Forall (fun off => 0 <= off < 256) (caps bdf)).
  { assert (Hs : 0 <= cap_start PCIE_CAP (cfg bdf) < 256) by (unfold cap_start; cbn; divmod).
    revert Hs. clear Hin. induction Hc as [|off l Hoff Hc IH]; intros Hs; constructor; [done|].
    apply IH. unfold cap_next. cbn. divmod. }
  rewrite Forall_forall in Hr. by apply Hr.
Qed.

Lemma eval_read_pciecs w bdf off l :
  mapped w bdf -> 0 <= off < 256 ->
  eval (read_pciecs_reg fuel l bdf off) w (express_reg bdf off,
    with_reg (Some (express_reg bdf off)) (with_cap (express cfg caps bdf) l)) w.
Proof.
  intros Hm Ho. destruct (express_low w bdf Hm) as (c & Hc & Hr).
  unfold read_pciecs_reg. eapply eval_bind; [by apply eval_find_cap|].
  change (pci_cap bdf CID_PCIECS) with (express cfg caps bdf). unfold express_reg.
  rewrite Hc. cbn [found_cap default from_option id]. unfold read_cap_reg.
  eapply eval_bind; [by apply eval_need|]. cbv beta.
  rewrite u32_id by (unfold fits; pow2; lia). apply eval_read_reg; [done|lia].
Qed.

Lemma eval_not_bridge w bdf : mapped w bdf -> eval (val_pcie_is_host_bridge bdf) w false w.
Proof.
  intros Hm. pose proof (mapped_listed w bdf Hm) as Hl. unfold listed in Hl.
  pose proof (eval_host_bridge cfg caps fuel w bdf (g_pcie_bdf_table w) (mapped_fn w bdf Hm)) as He.
  replace (set_g_pcie_bdf_table (g_pcie_bdf_table w) w) with w in He by (by destruct w).
  by destruct (host_bridge cfg bdf); [rewrite andb_false_r in Hl|].
Qed.

(** ** The checks count the violations *)

Lemma field_bits v s m n : m = Z.ones n -> 0 <= n -> 0 <= s -> Z.land (Z.shiftr v s) m = bits v s n.
Proof. intros -> Hn Hs. rewrite Z.land_ones, Z.shiftr_div_pow2 by done. done. Qed.

Lemma extract_bits v a b : 0 <= a <= b -> VAL_EXTRACT_BITS v a b = bits v a (b - a + 1).
Proof.
  intros Hab. unfold VAL_EXTRACT_BITS. apply field_bits; [|lia|lia].
  by rewrite Z.ones_equiv, Z.shiftl_mul_pow2, Z.mul_1_l, <- Z.sub_1_r by lia.
Qed.

Lemma land_bits_zero v s n m :
  m = Z.shiftl (Z.ones n) s -> 0 <= n -> 0 <= s -> (Z.land v m =? 0) = (bits v s n =? 0).
Proof.
  intros -> Hn Hs. rewrite land_shiftl_r, (field_bits v s (Z.ones n) n), Z.shiftl_mul_pow2 by done.
  apply eq_true_iff_eq. rewrite !Z.eqb_eq, Z.mul_eq_0. pose proof (Z.pow_pos_nonneg 2 s). lia.
Qed.

Lemma land_bits_truthy v s n m :
  m = Z.shiftl (Z.ones n) s -> 0 <= n -> 0 <= s -> truthy (Z.land v m) = negb (bits v s n =? 0).
Proof. intros. unfold truthy. by rewrite (land_bits_zero v s n). Qed.

(** What a check must leave behind, for a score. *)
Definition settled (w : world D) (l : locals) (s : option Z) (l' : locals) (w' : world D) : Prop :=
  w' = w /\ test_fails l' = u32 (test_fails l + default 0 s) /\
  test_skip l' = if s is Some _ then 0 else test_skip l.

(** The two ends of a check: a violation reported, or none. *)
Lemma wp_broken (b b' : bool) w l (yes no : M locals) :
  b = b' -> fits 32 (test_fails l) ->
  wp yes w (fun l' w' => w' = w /\ test_fails l' = u32 (test_fails l + 1) /\ test_skip l' = 0) ->
  wp no w (fun l' w' => w' = w /\ test_fails l' = test_fails l /\ test_skip l' = 0) ->
  wp (if b then yes else no) w (settled w l (broken b')).
Proof.
  intros -> Hf Hy Hn. destruct b'.
  - exact Hy.
  - eapply wp_mono; [exact Hn|]. intros l' w' (-> & Hl & Hs). split; [done|]. split; [|done].
    rewrite Hl. cbn. by rewrite Z.add_0_r, u32_id.
Qed.

Lemma settled_none w l l' : fits 32 (test_fails l) ->
  test_fails l' = test_fails l -> test_skip l' = test_skip l -> settled w l None l' w.
Proof. intros Hf Hl Hs. split; [done|]. rewrite Hl, Hs. cbn. by rewrite Z.add_0_r, u32_id. Qed.
Lemma counts_p031 w e : mapped w (d_bdf e) -> counts os_p031_check rule_p031 e w.
Proof.
  intros Hm l Hf. unfold os_p031_check. wp_step. eapply wp_eval; [by apply eval_read_reg|].
  cbv beta iota zeta. rewrite extract_bits by done. apply wp_broken; [|done|run; done|run; done].
  unfold BIST_REG_START, BIST_REG_END.
  change (31 - 24 + 1) with 8. set (v := bits _ 24 8).
  by rewrite (land_bits_zero v 7 1), (land_bits_zero v 0 3), (land_bits_zero v 6 1).
Qed.

Lemma counts_p032 w e : mapped w (d_bdf e) -> counts os_p032_check rule_p032 e w.
Proof.
  intros Hm l Hf. unfold os_p032_check. wp_step. eapply wp_eval; [by apply eval_read_reg|].
  cbv beta iota zeta. rewrite (field_bits _ _ _ 8) by done. apply wp_broken; [|done|run; done|run; done].
  unfold TYPE01_CPR_SHIFT. set (p := bits _ 0 8).
  by destruct (Z.eqb_spec p 0) as [->|].
Qed.

Lemma counts_p033 w e : mapped w (d_bdf e) -> counts (os_p033_check fuel) rule_p033 e w.
Proof.
  intros Hm l Hf. unfold os_p033_check. wp_step. eapply wp_eval; [by apply eval_read_pciecs|].
  cbv beta iota zeta. rewrite (field_bits _ _ _ 3) by done. apply wp_broken; [|done|run; done|run; done].
  unfold DCAPR_MPSS_SHIFT. set (v := bits _ 0 3).
  assert (0 <= v) by (subst v; unfold bits; divmod).
  destruct (Z.leb_spec 0 v); [|lia]. cbn [andb]. by rewrite Z.leb_antisym, negb_involutive.
Qed.
Lemma truthy_bits v s n m :
  m = Z.ones n -> 0 <= n -> 0 <= s -> truthy (Z.land (Z.shiftr v s) m) = negb (bits v s n =? 0).
Proof. intros. unfold truthy. by rewrite (field_bits v s m n). Qed.

(** A function the rule is not about. *)
Ltac not_concerned := apply wp_ret; apply settled_none; done.

Lemma counts_p036 w e :
  mapped w (d_bdf e) -> (port (d_bdf e) = iEP_EP -> mapped w (d_rp_bdf e)) ->
  counts (os_p036_check fuel) rule_p036 e w.
Proof.
  intros Hm Hr l Hf. unfold os_p036_check. wp_step. eapply wp_eval; [by apply eval_port|]. cbv beta.
  fold (settled w l (rule_p036 e)). unfold rule_p036.
  destruct (Z.eqb_spec (port (d_bdf e)) iEP_EP) as [E|E]; cbn [negb andb]; [specialize (Hr E)|not_concerned].
  wp_step. eapply wp_eval; [by apply eval_find_ecap|]. cbv beta iota.
  destruct (ext_cap (d_bdf e) ECID_ARICS) as [c|]; cbn [has found_cap]; [|not_concerned].
  cbn [Z.eqb PCIE_SUCCESS PCIE_CAP_NOT_FOUND].
  wp_step. eapply wp_eval; [by apply eval_read_pciecs|]. cbv beta iota zeta. wp_step.
  rewrite (truthy_bits _ _ 1), negb_involutive by done. unfold DCAP2R_AFS_SHIFT.
  destruct (bits _ 5 1 =? 0); (split; [done|]); [done|]. cbn. by rewrite Z.add_0_r, u32_id.
Qed.

Lemma counts_p037 w e :
  mapped w (d_bdf e) -> (port (d_bdf e) = iEP_EP -> mapped w (d_rp_bdf e)) ->
  counts (os_p037_check fuel) rule_p037 e w.
Proof.
  intros Hm Hr l Hf. unfold os_p037_check. wp_step. eapply wp_eval; [by apply eval_port|]. cbv beta.
  fold (settled w l (rule_p037 e)). unfold rule_p037.
  destruct (Z.eqb_spec (port (d_bdf e)) iEP_EP) as [E|E]; cbn [negb]; [specialize (Hr E)|not_concerned].
  wp_step. eapply wp_eval; [by apply eval_read_pciecs|]. cbv beta iota zeta.
  wp_step. eapply wp_eval; [by apply eval_read_pciecs|]. cbv beta iota zeta.
  rewrite !(field_bits _ _ _ 2) by done. by apply wp_broken; [|done|run; done|run; done].
Qed.

Lemma bits_three v : 
  truthy (Z.land (Z.shiftr v 7) 1) || truthy (Z.land (Z.shiftr v 8) 1)
  || truthy (Z.land (Z.shiftr v 9) 1) = negb (bits v 7 3 =? 0).
Proof.
  rewrite !(truthy_bits _ _ 1) by done. apply eq_true_iff_eq.
  rewrite !orb_true_iff, !negb_true_iff, !Z.eqb_neq. unfold bits. divmod.
Qed.

Lemma counts_p039 w e :
  mapped w (d_bdf e) -> (port (d_bdf e) = iEP_EP -> mapped w (d_rp_bdf e)) ->
  counts (os_p039_check fuel) rule_p039 e w.
Proof.
  intros Hm Hr l Hf. unfold os_p039_check. wp_step. eapply wp_eval; [by apply eval_port|]. cbv beta.
  fold (settled w l (rule_p039 e)). unfold rule_p039.
  destruct (Z.eqb_spec (port (d_bdf e)) iEP_EP) as [E|E]; cbn [negb]; [specialize (Hr E)|not_concerned].
  wp_step. eapply wp_eval; [by apply eval_read_pciecs|]. cbv beta iota zeta.
  wp_step. eapply wp_eval; [by apply eval_read_pciecs|]. cbv beta iota zeta.
  unfold val_pcie_get_atomicop_requester_capable, DCAP2R_A32C_SHIFT, DCAP2R_A64C_SHIFT,
    DCAP2R_A128C_SHIFT, DCAP2R_A32C_MASK, DCAP2R_A64C_MASK, DCAP2R_A128C_MASK.
  rewrite bits_three. rewrite !(field_bits _ _ _ 1) by done.
  change (0 =? 0) with true. change (truthy 0) with false. rewrite andb_true_r. wp_step.
  apply (wp_broken _ _ w l); [done|done|run; done|run; done].
Qed.

Lemma counts_p041 w e : mapped w (d_bdf e) -> counts (os_p041_check fuel) rule_p041 e w.
Proof.
  intros Hm l Hf. unfold os_p041_check. wp_step. eapply wp_eval; [by apply eval_port|]. cbv beta.
  cbv beta. wp_step. eapply wp_eval; [by apply eval_not_bridge|]. cbv beta iota.
  fold (settled w l (rule_p041 e)). unfold rule_p041.
  destruct ((port (d_bdf e) =? iEP_EP) || (port (d_bdf e) =? RCiEP)); [|not_concerned].
  cbv zeta. wp_step. eapply wp_eval; [by apply eval_find_cap|]. cbv beta iota.
  destruct (pci_cap (d_bdf e) CID_MSI); cbn [has negb Z.eqb PCIE_SUCCESS PCIE_CAP_NOT_FOUND Pos.eqb andb].
  - wp_step. split; [done|]. cbn. by rewrite Z.add_0_r, u32_id.
  - wp_step. eapply wp_eval; [by apply eval_find_cap|]. cbv beta iota.
    destruct (pci_cap (d_bdf e) CID_MSIX); cbn [has negb Z.eqb PCIE_SUCCESS PCIE_CAP_NOT_FOUND Pos.eqb];
      wp_step; (split; [done|]); [|done]. cbn. by rewrite Z.add_0_r, u32_id.
Qed.

Lemma counts_p042 w e : mapped w (d_bdf e) -> counts (os_p042_check fuel) rule_p042 e w.
Proof.
  intros Hm l Hf. unfold os_p042_check. wp_step. eapply wp_eval; [by apply eval_port|]. cbv beta.
  fold (settled w l (rule_p042 e)). unfold rule_p042.
  destruct ((port (d_bdf e) =? iEP_EP) || (port (d_bdf e) =? RCiEP) || (port (d_bdf e) =? iEP_RP));
    [|not_concerned].
  cbv zeta. wp_step. eapply wp_eval; [by apply eval_find_cap|]. cbv beta iota.
  destruct (pci_cap (d_bdf e) CID_PMC); cbn [has negb Z.eqb PCIE_SUCCESS PCIE_CAP_NOT_FOUND Pos.eqb];
    wp_step; (split; [done|]); [|done]. cbn. by rewrite Z.add_0_r, u32_id.
Qed.

Lemma rcec_class v :
  negb (RCEC_BASE_CLASS =? Z.land (Z.shiftr v CC_BASE_SHIFT) CC_BASE_MASK)
  || negb (RCEC_SUB_CLASS =? Z.land (Z.shiftr v CC_SUB_SHIFT) CC_SUB_MASK)
  || negb (RCEC_PGMING_IF =? Z.land (Z.shiftr v CC_PGM_IF_SHIFT) CC_PGM_IF_MASK) =
  negb (bits v 8 24 =? 0x080700).
Proof.
  rewrite !(field_bits _ _ _ 8) by done.
  unfold RCEC_BASE_CLASS, RCEC_SUB_CLASS, RCEC_PGMING_IF, CC_BASE_SHIFT, CC_SUB_SHIFT, CC_PGM_IF_SHIFT.
  apply eq_true_iff_eq. rewrite !orb_true_iff, !negb_true_iff, !Z.eqb_neq. unfold bits. divmod.
Qed.

Lemma counts_p059 w e : mapped w (d_bdf e) -> counts (os_p059_check fuel) rule_p059 e w.
Proof.
  intros Hm l Hf. unfold os_p059_check. wp_step. eapply wp_eval; [by apply eval_port|]. cbv beta.
  fold (settled w l (rule_p059 e)). unfold rule_p059.
  destruct (port (d_bdf e) =? RCEC); cbn [negb]; [|not_concerned].
  cbv zeta. wp_step. eapply wp_eval; [by apply eval_read_reg|]. cbv beta iota.
  rewrite rcec_class. set (b := negb (bits _ 8 24 =? _)).
  apply wp_bind, (wp_mono _ _ (fun l1 w1 => w1 = w /\ test_skip l1 = 0 /\
    test_fails l1 = u32 (test_fails l + of_bool b))).
  { destruct b; run; cbn; rewrite ?Z.add_0_r, ?u32_id by done; done. }
  intros l1 w1 (-> & Hs1 & Hf1). wp_step. eapply wp_eval; [by apply eval_find_ecap|].
  cbv beta iota. apply wp_ret.
  destruct l1 as [v c f k]. cbn in Hs1, Hf1. subst f k.
  destruct (ext_cap (d_bdf e) ECID_RCECEA); (split; [done|]); cbn; rewrite ?Z.add_0_r; [done|].
  split; [|done]. unfold u32. by rewrite Zplus_mod_idemp_l, <- Z.add_assoc.
Qed.

(** ** The tests *)

(** Each test of a rule: its entry point, its number and its rule. *)
#[local] Abbreviation N n := (ACS_PCIE_TEST_NUM_BASE + n).

Definition rule_tests : list ((Z -> M Z) * Z * (pcie_device_attr -> option Z)) := [
  (os_p031_entry fuel, N 31, rule_p031);
  (os_p032_entry fuel, N 32, rule_p032);
  (os_p033_entry fuel, N 33, rule_p033);
  (os_p036_entry fuel, N 36, rule_p036);
  (os_p037_entry fuel, N 37, rule_p037);
  (os_p039_entry fuel, N 39, rule_p039);
  (os_p041_entry fuel, N 41, rule_p041);
  (os_p042_entry fuel, N 42, rule_p042);
  (os_p059_entry fuel, N 59, rule_p059)
].

(** The functions the checks read: those of the table and the root ports above its i-EPs. *)
Definition readable (w : world D) (devs : list pcie_device_attr) : Prop :=
  forall e, e ∈ devs -> mapped w (d_bdf e) /\
    (port (d_bdf e) = iEP_EP -> mapped w (d_rp_bdf e)).

Lemma rule_score entry n rule e k :
  (entry, n, rule) ∈ rule_tests -> rule e = Some k -> 0 <= k <= 2.
Proof.
  intros Hin. unfold rule_tests in Hin.
  repeat (apply elem_of_cons in Hin as [[= -> -> ->]|Hin]);
    [..|by apply not_elem_of_nil in Hin];
    unfold rule_p031, rule_p032, rule_p033, rule_p036, rule_p037, rule_p039, rule_p041, rule_p042,
      rule_p059, broken; repeat case_match; intros [= <-]; unfold of_bool; repeat case_match; lia.
Qed.
End rules.

(** ** Their verdicts *)

Section verdicts.
Context {D : Type} `{Platform D} `{!ReportOnce} {X : Type} (conf : D -> X) (mpidr : X -> Z) `{!Quiet conf mpidr}.
Context (fuel : nat) (cfg : Z -> Z -> Z) (caps ecaps : Z -> list Z).

(** C2: The verdict of a PCIe compliance test is that of its rule. For each of the nine
    register tests listed, run with any number of PEs on a table of fewer than 2048
    functions whose configuration space can be read: it returns, with SKIP when the
    user asked for it or when no function is one the rule is about, PASS when no function
    breaks the rule and FAIL otherwise; and that verdict, no other, is counted. The rules
    are those of the code, which are weaker than its comments say in two tests: bit 3 of the
    completion code is not looked at ([rule_p031]), and nothing is asked of a requester of
    atomic operations ([rule_p039]). *)
Theorem function_rules_verdict base mem me w devs entry test_num rule num_pe :
  (entry, test_num, rule) ∈ rule_tests fuel cfg caps ecaps ->
  running conf mpidr base mem me w ->
  g_pcie_bdf_table w = Some (mkBdfTable (Z.of_nat (length devs)) devs) ->
  Z.of_nat (length devs) < 2048 ->
  (forall d mem', conf d = conf (dev w) ->
     readable fuel cfg caps ecaps (in_test (begun w) base d mem') devs) ->
  wp (entry num_pe) w (fun r w' =>
    r = (if skipped test_num w then ACS_STATUS_SKIP else outcome_of rule devs) /\
    counted r (begun w) w').
Proof.
  intros Hin Hrun Ht Hl Hread.
  assert (Hscore : forall e k, e ∈ devs -> rule e = Some k -> 0 <= k <= 2).
  { intros e k _ He. by eapply rule_score. }
  assert (Hv : violations rule devs < 2 ^ 12) by (pose proof (violations_le rule devs 2 Hscore ltac:(lia)); lia).
  assert (Hpos : forall e k, e ∈ devs -> rule e = Some k -> 0 <= k) by (intros e k He Hk; by apply (Hscore e k)).
  clear Hscore. unfold rule_tests in Hin.
  repeat (apply elem_of_cons in Hin as [[= -> -> ->]|Hin]);
    [..|by apply not_elem_of_nil in Hin];
    (eapply (wp_function_test conf mpidr); [exact Hrun|done|exact Ht|exact Hpos|exact Hv|]);
    intros d mem' e Hd He; destruct (Hread d mem' Hd e He) as [Hm Hrp].
  - by eapply counts_p031.
  - by eapply counts_p032.
  - by eapply counts_p033.
  - by eapply counts_p036.
  - by eapply counts_p037.
  - by eapply counts_p039.
  - by eapply counts_p041.
  - by eapply counts_p042.
  - by eapply counts_p059.
Qed.
End verdicts.

(** A root port and, below it, an integrated endpoint that has the PCI Express capability
    alone; the second of two PEs runs the test. *)
Definition endpoint_mem : gmap Z Z := <[0x40100040 := 0x900010]> (small_tree None).
Definition endpoint_devs : list pcie_device_attr :=
  [mkDev 0x000100 0x000100; mkDev 0x010000 0x000100].

Definition endpoint_world : world machine :=
  set_g_pcie_bdf_table (Some (mkBdfTable 2 endpoint_devs))
    (set_g_pcie_info_table (Some one_ecam)
      (with_dev (Machine endpoint_mem {["ArmReadMpidr" := 0x80000100]} 0 []) on_two_pes)).

Lemma endpoint_running :
  running (fun d : machine => (mach_mem d, mach_regs d))
    (fun c => default 0 (snd c !! "ArmReadMpidr")) 0x1000 two_slots 1 endpoint_world.
Proof.
  split; [split|..]; try done; [|intros t [= <-]; reflexivity|cbn; lia].
  exists two_pes. split; [done|]. split; [apply two_pes_wf|done].
Qed.

Lemma chain_one nxt start off : start = off -> off <> 0 -> nxt off = 0 -> cap_chain nxt start [off].
Proof. intros -> Ho Hn. apply chain_link; [done|]. rewrite Hn. apply chain_end. Qed.

Lemma endpoint_mapped (w : world machine) bus dv :
  g_pcie_info_table w = Some one_ecam -> mach_mem (dev w) = endpoint_mem ->
  (bus, dv) = (0, 1) \/ (bus, dv) = (1, 0) ->
  mapped 2 (tree_cfg endpoint_mem) (fun _ => [0x40]) (fun _ => [0x100]) w (PCIE_CREATE_BDF 0 bus dv 0).
Proof.
  intros Ht Hm Hb.
  assert (Hs : forall tbl, cfg_space (set_g_pcie_bdf_table tbl w) (PCIE_CREATE_BDF 0 bus dv 0)
    (tree_cfg endpoint_mem (PCIE_CREATE_BDF 0 bus dv 0))).
  { intros tbl. rewrite tree_cfg_create; [|destruct Hb as [[= -> ->]|[= -> ->]]; unfold PCIE_MAX_DEV, PCIE_MAX_FUNC; lia..].
    apply on_pcie_cfg_space; try done; destruct Hb as [[= -> ->]|[= -> ->]]; unfold PCIE_MAX_DEV, PCIE_MAX_FUNC; lia. }
  split.
  - split; [exact Hs|]. intros _. destruct Hb as [[= -> ->]|[= -> ->]];
      (split; [by vm_compute|]; split; [|cbn; lia]); by apply chain_one.
  - by destruct Hb as [[= -> ->]|[= -> ->]]; vm_compute.
  - by destruct Hb as [[= -> ->]|[= -> ->]]; apply chain_one.
  - cbn; lia.
Qed.

Lemma function_rules_verdict_witness :
  wp (os_p041_entry 2 8) endpoint_world (fun r w' =>
    r = ACS_STATUS_FAIL /\ counted ACS_STATUS_FAIL (begun endpoint_world) w').
Proof.
  eapply wp_mono.
  - apply (function_rules_verdict (fun d : machine => (mach_mem d, mach_regs d))
      (fun c => default 0 (snd c !! "ArmReadMpidr")) 2 (tree_cfg endpoint_mem) (fun _ => [0x40])
      (fun _ => [0x100]) 0x1000 two_slots 1 endpoint_world endpoint_devs
      (os_p041_entry 2) (ACS_PCIE_TEST_NUM_BASE + 41)
      (rule_p041 (tree_cfg endpoint_mem) (fun _ => [0x40]))).
    + do 6 right. left.
    + exact endpoint_running.
    + reflexivity.
    + cbn. lia.
    + intros d mem' Hd e He. injection Hd as Hm _.
      apply elem_of_cons in He as [->|He]; [|apply list_elem_of_singleton in He as ->];
        (split; [|discriminate]); [apply (endpoint_mapped _ 0 1)|apply (endpoint_mapped _ 1 0)]; auto.
  - intros r w' [-> Hc]. split; [|exact Hc]. vm_compute. reflexivity.
Defined.
