(* ===== verification/TestIrq.v ===== *)
(** * Tests that wait for interrupts

    What the tests of src/test_pool that install a handler and wait for it share: the
    static variables a payload and its handler both use, the interrupts the PE takes while
    it waits, and the loop that waits for the handler to set the status of the test. *)

From S2P Require Import Prelude Types World Status Machine PeInfra TestInfra Timer Gic GicInt TestEntry.
#[local] Open Scope c_scope.

(** What interrupts the program before its next instruction, the type of an exception of the
    vector table of bsa_exception.c, and sleeping until something does. *)
Class Interrupts (D : Type) := {
  next_exception : D -> option Z * D;
  wait_for_interrupt : D -> D
}.

Section irq.
Context {D : Type} `{Platform D}.

#[local] Abbreviation M := (M (world D)).

(** A static variable, by test and name, or an element of a static array: 0 until it is
    written, but for those whose declaration says otherwise. *)
Definition static_elt (name : string) (i : Z) : M Z :=
  let* s := gets statics in ret (default 0 (s !! (name, i))).
Definition set_static_elt (name : string) (i v : Z) : M () :=
  modify (fun w => set_statics (<[(name, i) := v]> (statics w)) w).
Definition static_var (name : string) : M Z := static_elt name 0.
Definition set_static (name : string) (v : Z) : M () := set_static_elt name 0 v.
Definition static_init (name : string) (v : Z) : M Z :=
  let* s := gets statics in ret (default v (s !! (name, 0))).

Context `{Handlers D} `{Interrupts D} (fuel : nat).

Definition take_exception : M () :=
  let* e := from_dev next_exception in
  match e with
  | Some exception_type => common_exception_handler fuel exception_type ;; ret tt
  | None => ret tt
  end.

(** [while ((--timeout > 0) && go) ;] with the interrupts taken on the way: what is left of
    the counter, of 32 bits. *)
Definition poll (go : M bool) (timeout : Z) : M Z :=
  while_ fuel (fun timeout =>
    take_exception ;;
    let timeout := u32 (timeout - 1) in
    if 0 <? timeout then
      let* b := go in ret (if b : bool then Continue timeout else Break timeout)
    else ret (Break timeout)) timeout.

(** [while ((--timeout > 0) && (IS_RESULT_PENDING(val_get_status(index)))) ;] *)
Definition await_status (index timeout : Z) : M Z :=
  poll (let* s := val_get_status index in ret (IS_RESULT_PENDING s)) timeout.

(** [while ((timeout > 0) && (IS_RESULT_PENDING(val_get_status(index)))) timeout--;] *)
Definition await_status_after (index timeout : Z) : M Z :=
  while_ fuel (fun timeout =>
    take_exception ;;
    if 0 <? timeout then
      let* s := val_get_status index in
      ret (if IS_RESULT_PENDING s then Continue (u32 (timeout - 1)) else Break timeout)
    else ret (Break timeout)) timeout.

Definition BSA_POWER_SEM_B : Z := 1.

(** [ArmCallWFI] returns when an interrupt wakes the PE, which takes it first. *)
Definition val_power_enter_semantic (semantic : Z) : M Z :=
  (when semantic =? BSA_POWER_SEM_B then (on_dev wait_for_interrupt ;; take_exception)) ;;
  ret 0.

End irq.
