(* ===== verification/TestPe.v ===== *)
(** * The PE tests

    src/test_pool/pe: the payload and the entry point of each test, and for those that only
    read identification registers, that the verdict is that of the rule. *)

From S2P Require Import Prelude Types World Status Machine PeInfra TestInfra Timer Gic Its GicInt TestEntry TestIrq TestVerdict.
#[local] Open Scope c_scope.

Section tests.
Context {D : Type} `{Platform D} `{Handlers D} `{Interrupts D} `{Edk2 D} `{EfiInterrupts D} (fuel : nat).

#[local] Abbreviation M := (M (world D)).

(** ** c001: the identification registers of the PEs agree *)

Definition NUM_OF_REGISTERS : Z := 32.
Definition RAS : Z := 1.
Definition SPE : Z := 2.
Definition LOR : Z := 3.
Definition AA32 : Z := 4.
Definition MASK_AA64MMFR0 : Z := 0xF.
Definition MASK_MIDR : Z := 0x00F0FFFF.
Definition MASK_MPIDR : Z := 0xFF3FFFFFFF.
Definition MASK_CTR : Z := 0xC000.
Definition MASK_CCSIDR : Z := 0xFFFFFF8.
Definition MASK_PMCR : Z := 0xFFFF.
Definition MAX_CACHE_LEVEL : Z := 7.

Record reg_details := mkReg {
  reg_name : Z;
  reg_mask : Z;
  reg_desc : string;
  dependency : Z
}.

Definition reg_list : list reg_details := [
  mkReg CCSIDR_EL1       MASK_CCSIDR    "CCSIDR_EL1"       0x0;
  mkReg ID_AA64PFR0_EL1  0x0            "ID_AA64PFR0_EL1"  0x0;
  mkReg ID_AA64PFR1_EL1  0x0            "ID_AA64PFR1_EL1"  0x0;
  mkReg ID_AA64DFR0_EL1  0x0            "ID_AA64DFR0_EL1"  0x0;
  mkReg ID_AA64DFR1_EL1  0x0            "ID_AA64DFR1_EL1"  0x0;
  mkReg ID_AA64MMFR0_EL1 MASK_AA64MMFR0 "ID_AA64MMFR0_EL1" 0x0;
  mkReg ID_AA64MMFR1_EL1 0x0            "ID_AA64MMFR1_EL1" 0x0;
  mkReg CTR_EL0          MASK_CTR       "CTR_EL0"          0x0;
  mkReg ID_AA64ISAR0_EL1 0x0            "ID_AA64ISAR0_EL1" 0x0;
  mkReg ID_AA64ISAR1_EL1 0x0            "ID_AA64ISAR1_EL1" 0x0;
  mkReg MPIDR_EL1        MASK_MPIDR     "MPIDR_EL1"        0x0;
  mkReg MIDR_EL1         MASK_MIDR      "MIDR_EL1"         0x0;
  mkReg ID_DFR0_EL1      0x0            "ID_DFR0_EL1"      AA32;
  mkReg ID_ISAR0_EL1     0x0            "ID_ISAR0_EL1"     AA32;
  mkReg ID_ISAR1_EL1     0x0            "ID_ISAR1_EL1"     AA32;
  mkReg ID_ISAR2_EL1     0x0            "ID_ISAR2_EL1"     AA32;
  mkReg ID_ISAR3_EL1     0x0            "ID_ISAR3_EL1"     AA32;
  mkReg ID_ISAR4_EL1     0x0            "ID_ISAR4_EL1"     AA32;
  mkReg ID_ISAR5_EL1     0x0            "ID_ISAR5_EL1"     AA32;
  mkReg ID_MMFR0_EL1     0x0            "ID_MMFR0_EL1"     AA32;
  mkReg ID_MMFR1_EL1     0x0            "ID_MMFR1_EL1"     AA32;
  mkReg ID_MMFR2_EL1     0x0            "ID_MMFR2_EL1"     AA32;
  mkReg ID_MMFR3_EL1     0x0            "ID_MMFR3_EL1"     AA32;
  mkReg ID_MMFR4_EL1     0x0            "ID_MMFR4_EL1"     AA32;
  mkReg ID_PFR0_EL1      0x0            "ID_PFR0_EL1"      AA32;
  mkReg ID_PFR1_EL1      0x0            "ID_PFR1_EL1"      AA32;
  mkReg MVFR0_EL1        0x0            "MVFR0_EL1"        AA32;
  mkReg MVFR1_EL1        0x0            "MVFR1_EL1"        AA32;
  mkReg MVFR2_EL1        0x0            "MVFR2_EL1"        AA32;
  mkReg PMCEID0_EL0      0x0            "PMCEID0_EL0"      0x0;
  mkReg PMCEID1_EL0      0x0            "PMCEID1_EL0"      0x0;
  mkReg PMCR_EL0         MASK_PMCR      "PMCR_EL0"         0x0;
  mkReg PMBIDR_EL1       0x0            "PMBIDR_EL1"       SPE;
  mkReg PMSIDR_EL1       0x0            "PMSIDR_EL1"       SPE;
  mkReg ERRIDR_EL1       0x0            "ERRIDR_EL1"       RAS;
  mkReg ERR0FR_EL1       0x0            "ERR0FR_EL1"       RAS;
  mkReg ERR1FR_EL1       0x0            "ERR1FR_EL1"       RAS;
  mkReg ERR2FR_EL1       0x0            "ERR2FR_EL1"       RAS;
  mkReg ERR3FR_EL1       0x0            "ERR3FR_EL1"       RAS;
  mkReg LORID_EL1        0x0            "LORID_EL1"        LOR
].

Definition return_reg_value (reg dependency : Z) : M Z :=
  let read_if (b : bool) : M Z := if b then val_pe_reg_read reg else ret 0 in
  if dependency =? 0 then val_pe_reg_read reg
  else if dependency =? RAS then
    let* temp := val_pe_reg_read ID_AA64PFR0_EL1 in
    read_if (Z.land (Z.shiftr temp 28) 0xf =? 1)
  else if dependency =? SPE then
    let* temp := val_pe_reg_read ID_AA64DFR0_EL1 in
    read_if (Z.land (Z.shiftr temp 32) 0xf =? 1)
  else if dependency =? LOR then
    let* temp := val_pe_reg_read ID_AA64MMFR1_EL1 in
    read_if (Z.land (Z.shiftr temp 16) 0xf =? 1)
  else if dependency =? AA32 then
    let* temp := val_pe_reg_read ID_AA64PFR0_EL1 in
    read_if (Z.land temp 1 =? 0)
  else
    val_print ACS_PRINT_ERR "\n Unknown dependency = %d " dependency ;;
    ret 0x0.

(** The value of entry [i], and a value with the bits of the mask of that entry cleared. *)
Definition reg_value_of (i : Z) : M Z :=
  let* e := need (reg_list !! Z.to_nat i) in return_reg_value (reg_name e) (dependency e).
Definition unmasked (i v : Z) : M Z :=
  let* e := need (reg_list !! Z.to_nat i) in ret (Z.land v (not64 (reg_mask e))).

(** The caches that CLIDR reports, selected one by one. *)
Definition for_caches (k : Z -> M (option ())) : M (option ()) :=
  let* r := for_ (Z.to_nat MAX_CACHE_LEVEL) 0 (fun i _ =>
    let* clidr := val_pe_reg_read CLIDR_EL1 in
    if truthy (Z.land clidr (Z.shiftl 0x7 (i * 3))) then
      val_pe_reg_write CSSELR_EL1 (Z.shiftl i 1) ;;
      let* r := k i in
      ret (match r with Some _ => Continue tt | None => Break tt end)
    else ret (Continue tt)) tt in
  ret (match r with Continue _ => Some tt | Break _ => None end).

(** A register of this PE against the one of the PE that started the test: [None] ends. *)
Definition compare_reg (index entry expected data1 : Z) : M (option ()) :=
  let* v := reg_value_of entry in
  let* v := unmasked entry v in
  let* e := unmasked entry expected in
  if negb (v =? e) then
    val_set_test_data index v data1 ;;
    val_set_status index (RESULT_FAIL (ACS_PE_TEST_NUM_BASE + 1) 1) ;;
    ret None
  else ret (Some tt).

(** What the other PEs run. *)
Definition id_regs_check : M () :=
  let* index := my_index in
  let* r := for_caches (fun i =>
    let* expected := static_elt "cache_list" i in compare_reg index 0 expected 0) in
  match r with
  | None => ret tt
  | Some _ =>
      let* r := for_ (Z.to_nat (NUM_OF_REGISTERS - 1)) 1 (fun i _ =>
        let* expected := static_elt "rd_data_array" i in
        let* r := compare_reg index i expected i in
        ret (match r with Some _ => Continue tt | None => Break tt end)) tt in
      match r with
      | Break _ => ret tt
      | Continue _ => val_set_status index (RESULT_PASS (ACS_PE_TEST_NUM_BASE + 1) 1)
      end
  end.

(** [while ((--timeout) && (IS_RESULT_PENDING(val_get_status(i)))) ;] *)
Definition os_c001_wait (i : Z) : M Z :=
  while_ fuel (fun timeout =>
    let timeout := u32 (timeout - 1) in
    if truthy timeout then
      let* s := val_get_status i in
      ret (if IS_RESULT_PENDING s then Continue timeout else Break timeout)
    else ret (Break timeout)) TIMEOUT_LARGE.

(** The registers of one other PE; [None]: the payload returns. *)
Definition os_c001_check_pe (i : Z) : M (option ()) :=
  val_execute_on_pe fuel i (symbol "id_regs_check") 0 ;;
  let* timeout := os_c001_wait i in
  if timeout =? 0 then
    val_print ACS_PRINT_ERR "\n       **Timed out** for PE index = %d" i ;;
    val_set_status i (RESULT_FAIL (ACS_PE_TEST_NUM_BASE + 1) 2) ;;
    ret None
  else
  let* s := val_get_status i in
  if IS_TEST_FAIL s then
    let* r := val_get_test_data i in
    let '(debug_data, array_index) := default (0, 0) r in
    val_print ACS_PRINT_ERR "\n       Reg compare failed for PE index=%d for Register: " i ;;
    let* e := need (reg_list !! Z.to_nat array_index) in
    val_print ACS_PRINT_ERR (reg_desc e) 0 ;;
    let* v := if array_index <? NUM_OF_REGISTERS then static_elt "rd_data_array" array_index
              else fault in
    val_print ACS_PRINT_ERR "\n       Current PE value = 0x%llx" (Z.land v (not64 (reg_mask e))) ;;
    val_print ACS_PRINT_ERR "         Other PE value = 0x%llx" debug_data ;;
    ret None
  else ret (Some tt).

Definition os_c001_payload (num_pe : Z) : M () :=
  let* my_index := my_index in
  if num_pe =? 1 then
    val_print ACS_PRINT_WARN "\n       Skipping as num of PE is 1        " 0 ;;
    val_set_status my_index (RESULT_SKIP (ACS_PE_TEST_NUM_BASE + 1) 1)
  else
  for_caches (fun i =>
    let* v := reg_value_of 0 in
    set_static_elt "cache_list" i v ;;
    val_data_cache_ops_by_va (u64 (symbol "cache_list" + 8 * i)) CLEAN_AND_INVALIDATE ;;
    val_print ACS_PRINT_INFO "\n      cache size read is %x " v ;;
    ret (Some tt)) ;;
  for_each (Z.to_nat (NUM_OF_REGISTERS - 1)) 1 (fun i =>
    let* v := reg_value_of i in
    set_static_elt "rd_data_array" i v ;;
    val_data_cache_ops_by_va (u64 (symbol "rd_data_array" + 8 * i)) CLEAN_AND_INVALIDATE) ;;
  for_ (Z.to_nat num_pe) 0 (fun i _ =>
    if negb (i =? my_index) then
      let* r := os_c001_check_pe i in
      ret (match r with Some _ => Continue tt | None => Break tt end)
    else ret (Continue tt)) tt ;;
  ret tt.

(** The statuses of all PEs are made pending, and [num_pe] of them judged. *)
Definition os_c001_entry (num_pe : Z) : M Z :=
  let test_num := ACS_PE_TEST_NUM_BASE + 1 in
  let* n := val_pe_get_num in
  let* status := val_initialize_test test_num "B_PE_01:  Check Arch symmetry across PE    " n in
  (when negb (status =? ACS_STATUS_SKIP) then os_c001_payload num_pe) ;;
  let* status := val_check_for_error test_num num_pe in
  val_report_status 0 (BSA_ACS_END test_num) ;;
  ret status.

(** ** The others *)

Definition os_c002_payload : M () :=
  let* index := my_index in
  let* num_of_pe := val_pe_get_num in
  let* gic_version := val_gic_get_info fuel GIC_INFO_VERSION in
  if (gic_version =? 2) && (num_of_pe <=? 8)
     || (3 <=? gic_version) && (num_of_pe <=? Z.shiftl 2 27)
  then val_set_status index (RESULT_PASS (ACS_PE_TEST_NUM_BASE + 2) 1)
  else
    val_print ACS_PRINT_DEBUG "\n       Number of PE is %d" num_of_pe ;;
    val_print ACS_PRINT_DEBUG "\n       Gic version is %d" gic_version ;;
    val_set_status index (RESULT_FAIL (ACS_PE_TEST_NUM_BASE + 2) 1).

Definition os_c002_entry (num_pe : Z) : M Z :=
  run_on_one fuel (ACS_PE_TEST_NUM_BASE + 2) "B_PE_02:  Check for number of PE           " num_pe
    (payload_of "os_c002" os_c002_payload).

Definition os_c003_payload : M () :=
  let* index := my_index in
  let* data := val_pe_reg_read ID_AA64PFR0_EL1 in
  let data := Z.shiftr (Z.land data 0xF00000) 20 in
  val_set_status index
    (if (data =? 0x0) || (data =? 0x1) then RESULT_PASS (ACS_PE_TEST_NUM_BASE + 3) 1 else RESULT_FAIL (ACS_PE_TEST_NUM_BASE + 3) 1).

Definition os_c003_entry (num_pe : Z) : M Z :=
  run_test fuel (ACS_PE_TEST_NUM_BASE + 3) "B_PE_03:  Check for AdvSIMD and FP support " num_pe
    (payload_of "os_c003" os_c003_payload).

Definition os_c004_payload : M () :=
  let* index := my_index in
  let* data := val_pe_reg_read ID_AA64MMFR0_EL1 in
  val_set_status index
    (if VAL_EXTRACT_BITS data 28 31 =? 0
     then RESULT_PASS (ACS_PE_TEST_NUM_BASE + 4) 1 else RESULT_FAIL (ACS_PE_TEST_NUM_BASE + 4) 1).

Definition os_c004_entry (num_pe : Z) : M Z :=
  run_test fuel (ACS_PE_TEST_NUM_BASE + 4) "B_PE_04:  Check PE 4KB Granule Support     " num_pe
    (payload_of "os_c004" os_c004_payload).

Definition os_c005_payload : M () :=
  let* index := my_index in
  let* pfr0 := val_pe_reg_read ID_AA64PFR0_EL1 in
  let a32_support :=
    if Z.land pfr0 0xf000 =? 0x2000 then 1 else if Z.land pfr0 0xf00 =? 0x200 then 1
    else if Z.land pfr0 0xf0 =? 0x20 then 1 else if Z.land pfr0 0xf =? 0x2 then 1 else 0 in
  if a32_support =? 0 then val_set_status index (RESULT_SKIP (ACS_PE_TEST_NUM_BASE + 5) 1)
  else
  let* data := val_pe_reg_read ID_MMFR0_EL1 in
  val_set_status index
    (if (Z.land (Z.shiftr data 28) 0xF =? 1) && (Z.land (Z.shiftr data 12) 0xF =? 1)
     then RESULT_PASS (ACS_PE_TEST_NUM_BASE + 5) 1 else RESULT_FAIL (ACS_PE_TEST_NUM_BASE + 5) 1).

Definition os_c005_entry (num_pe : Z) : M Z :=
  run_test fuel (ACS_PE_TEST_NUM_BASE + 5) "B_PE_05:  Check HW Coherence support       " num_pe
    (payload_of "os_c005" os_c005_payload).

Definition os_c006_payload : M () :=
  let* index := my_index in
  let* data := val_pe_reg_read ID_AA64ISAR0_EL1 in
  val_set_status index
    (if truthy (Z.land (Z.shiftr data 4) 0xF) && truthy (Z.land (Z.shiftr data 8) 0xF)
        && truthy (Z.land (Z.shiftr data 12) 0xF)
     then RESULT_PASS (ACS_PE_TEST_NUM_BASE + 6) 1 else RESULT_FAIL (ACS_PE_TEST_NUM_BASE + 6) 1).

Definition os_c006_entry (num_pe : Z) : M Z :=
  run_test fuel (ACS_PE_TEST_NUM_BASE + 6) "B_PE_06:  Check Cryptographic extensions   " num_pe
    (payload_of "os_c006" os_c006_payload).

Definition os_c007_payload : M () :=
  let* index := my_index in
  let* el := val_pe_reg_read CurrentEL in
  let* data :=
    if el =? AARCH64_EL2 then val_pe_reg_read SCTLR_EL2
    else
      let* el := val_pe_reg_read CurrentEL in
      if el =? AARCH64_EL1 then val_pe_reg_read SCTLR_EL1 else ret 0 in
  val_set_status index
    (if Z.land (Z.shiftr data 25) 1 =? 0 then RESULT_PASS (ACS_PE_TEST_NUM_BASE + 7) 2 else RESULT_FAIL (ACS_PE_TEST_NUM_BASE + 7) 2).

Definition os_c007_entry (num_pe : Z) : M Z :=
  run_test fuel (ACS_PE_TEST_NUM_BASE + 7) "B_PE_07:  Check Little Endian support      " num_pe
    (payload_of "os_c007" os_c007_payload).

Definition os_c008_payload : M () :=
  let* index := my_index in
  let* data := val_pe_reg_read ID_AA64PFR0_EL1 in
  val_set_status index
    (if truthy (Z.land data 0x3) && truthy (Z.land data 0x30)
     then RESULT_PASS (ACS_PE_TEST_NUM_BASE + 8) 1 else RESULT_FAIL (ACS_PE_TEST_NUM_BASE + 8) 1).

Definition os_c008_entry (num_pe : Z) : M Z :=
  run_test fuel (ACS_PE_TEST_NUM_BASE + 8) "B_PE_08:  Check EL1 and EL0 implementation " num_pe
    (payload_of "os_c008" os_c008_payload).

Definition os_c009_payload : M () :=
  let* index := my_index in
  let* v := val_pe_reg_read ID_AA64DFR0_EL1 in
  let data := VAL_EXTRACT_BITS v 8 11 in
  if negb (data =? 0x0) && negb (data =? 0xF) then
    let* v := val_pe_reg_read PMCR_EL0 in
    let data := VAL_EXTRACT_BITS v 11 15 in
    val_set_status index (if 3 <? data then RESULT_PASS (ACS_PE_TEST_NUM_BASE + 9) 1 else RESULT_FAIL (ACS_PE_TEST_NUM_BASE + 9) 1)
  else val_set_status index (RESULT_FAIL (ACS_PE_TEST_NUM_BASE + 9) 2).

Definition os_c009_entry (num_pe : Z) : M Z :=
  run_test fuel (ACS_PE_TEST_NUM_BASE + 9) "B_PE_09:  Check for PMU and PMU counters   " num_pe
    (payload_of "os_c009" os_c009_payload).

(** The interrupt of the PMU. A synchronous exception would end the payload after [esr]; the
    registers written exist where the PMU does, and no such exception is modelled. *)
Definition os_c010_esr : M () :=
  let* index := my_index in
  let* branch_to_test := static_var "os_c010.branch_to_test" in
  val_pe_update_elr branch_to_test ;;
  val_print ACS_PRINT_ERR "\n       Error : Received Sync Exception " 0 ;;
  val_set_status index (RESULT_FAIL (ACS_PE_TEST_NUM_BASE + 10) 1).

Definition os_c010_set_pmu_overflow : M () :=
  val_pe_reg_write PMINTENCLR_EL1 0xFFFFFFFF ;;
  val_pe_reg_write PMOVSCLR_EL0 0xFFFFFFFF ;;
  let* pmcr := val_pe_reg_read PMCR_EL0 in
  val_pe_reg_write PMCR_EL0 (Z.lor pmcr 0x1) ;;
  val_pe_reg_write PMINTENSET_EL1 0x1 ;;
  val_pe_reg_write PMOVSSET_EL0 0x1.

Definition os_c010_isr : M () :=
  let* index := my_index in
  val_pe_reg_write PMOVSCLR_EL0 0x1 ;;
  val_print ACS_PRINT_INFO "\n Received PMUIRQ " 0 ;;
  val_set_status index (RESULT_PASS (ACS_PE_TEST_NUM_BASE + 10) 1) ;;
  let* int_id := static_var "os_c010.int_id" in
  val_gic_end_of_interrupt int_id ;;
  ret tt.

Definition os_c010_payload : M () :=
  let test_num := ACS_PE_TEST_NUM_BASE + 10 in
  let* index := my_index in
  let* v := val_pe_reg_read ID_AA64DFR0_EL1 in
  let data := VAL_EXTRACT_BITS v 8 11 in
  if (data =? 0x0) || (data =? 0xF) then val_set_status index (RESULT_SKIP test_num 1)
  else
  val_pe_install_esr EXCEPT_AARCH64_SYNCHRONOUS_EXCEPTIONS (symbol "os_c010.esr") ;;
  val_pe_install_esr EXCEPT_AARCH64_SERROR (symbol "os_c010.esr") ;;
  let* gsiv := val_pe_get_pmu_gsiv index in
  set_static "os_c010.int_id" gsiv ;;
  let* int_id := static_var "os_c010.int_id" in
  let* failed := val_gic_install_isr fuel int_id (symbol "os_c010.isr") in
  if truthy failed then
    val_print ACS_PRINT_ERR "\n       GIC Install Handler Failed..." 0 ;;
    val_set_status index (RESULT_FAIL test_num 1)
  else
  set_static "os_c010.branch_to_test" (symbol "os_c010.exception_taken") ;;
  os_c010_set_pmu_overflow ;;
  let* timeout := await_status fuel index 0x100000 in
  when timeout =? 0 then
    (val_print ACS_PRINT_ERR "\n       Interrupt not recieved within timeout" 0 ;;
     val_set_status index (RESULT_FAIL test_num 2)).

Definition os_c010_entry (num_pe : Z) : M Z :=
  let num_pe := 1 in
  let test_num := ACS_PE_TEST_NUM_BASE + 10 in
  let* n := val_pe_get_num in
  let* status := val_initialize_test test_num "B_PE_10:  Check PMU Overflow signal        " n in
  (when negb (status =? ACS_STATUS_SKIP) then
     val_run_test_payload fuel test_num num_pe (payload_of "os_c010" os_c010_payload) 0) ;;
  let* status := val_check_for_error test_num num_pe in
  val_report_status 0 (BSA_ACS_END test_num) ;;
  ret status.

(** The loop over the breakpoint control registers, one more than the field says: what each
    type of breakpoint, its lowest bit dropped, adds to the counters. *)
Definition count_breakpoints {A} (breakpointcount : Z) (count : Z -> A -> A) (a : A) : M A :=
  for_acc (Z.to_nat (breakpointcount + 1)) 0 (fun i a =>
    let* data := val_pe_reg_read (i + DBGBCR0_EL1) in
    ret (count (Z.land (Z.shiftr (VAL_EXTRACT_BITS data 20 23) 1) 0x7) a)) a.

Definition os_c011_payload : M () :=
  let* pe_index := my_index in
  let* data := val_pe_reg_read ID_AA64DFR0_EL1 in
  let breakpointcount := VAL_EXTRACT_BITS data 12 15 in
  if breakpointcount <? 5 then val_set_status pe_index (RESULT_FAIL (ACS_PE_TEST_NUM_BASE + 11) 1)
  else
  let* ' (addr_breakpoint, contextid_breakpoint, vmid_breakpoint) :=
    count_breakpoints breakpointcount (fun bt '(a, c, v) =>
      let a := if bt =? 0x00 then a + 1 else a in
      let c := if (bt =? 0x01) || (bt =? 0x03) || (bt =? 0x06) || (bt =? 0x07)
               then c + 1 else c in
      let v := if bt =? 0x4 then v + 1 else v in
      if bt =? 0x5 then (a, c + 1, v + 1) else (a, c, v)) (0, 0, 0) in
  val_set_status pe_index
    (if (2 <=? addr_breakpoint) || (2 <=? contextid_breakpoint) || (2 <=? vmid_breakpoint)
     then RESULT_PASS (ACS_PE_TEST_NUM_BASE + 11) 1 else RESULT_FAIL (ACS_PE_TEST_NUM_BASE + 11) 2).

Definition os_c011_entry (num_pe : Z) : M Z :=
  run_test fuel (ACS_PE_TEST_NUM_BASE + 11) "B_PE_11:  Check num of Breakpoints & type  " num_pe
    (payload_of "os_c011" os_c011_payload).

Definition os_c012_payload : M () :=
  let* index := my_index in
  let* data := val_pe_reg_read ID_AA64DFR0_EL1 in
  val_set_status index
    (if 2 <? Z.land (Z.shiftr data 20) 0xF
     then RESULT_PASS (ACS_PE_TEST_NUM_BASE + 12) 1 else RESULT_FAIL (ACS_PE_TEST_NUM_BASE + 12) 1).

Definition os_c012_entry (num_pe : Z) : M Z :=
  run_test fuel (ACS_PE_TEST_NUM_BASE + 12) "B_PE_12:  Check Synchronous Watchpoints    " num_pe
    (payload_of "os_c012" os_c012_payload).

Definition os_c013_payload : M () :=
  let* index := my_index in
  let* data := val_pe_reg_read ID_AA64ISAR0_EL1 in
  val_set_status index
    (if truthy (Z.land (Z.shiftr data 16) 0xF)
     then RESULT_PASS (ACS_PE_TEST_NUM_BASE + 13) 1 else RESULT_FAIL (ACS_PE_TEST_NUM_BASE + 13) 1).

Definition os_c013_entry (num_pe : Z) : M Z :=
  run_test fuel (ACS_PE_TEST_NUM_BASE + 13) "B_PE_13:  Check CRC32 instruction support  " num_pe
    (payload_of "os_c013" os_c013_payload).

Definition os_c014_check_pauth_algorithm (index data : Z) : M () :=
  if (VAL_EXTRACT_BITS data 4 7 =? 0) && (VAL_EXTRACT_BITS data 24 27 =? 0) then
    val_set_status index
      (if negb (VAL_EXTRACT_BITS data 8 11 =? 0) && negb (VAL_EXTRACT_BITS data 28 31 =? 0)
       then RESULT_PASS (ACS_PE_TEST_NUM_BASE + 14) 1 else RESULT_FAIL (ACS_PE_TEST_NUM_BASE + 14) 1)
  else val_set_status index (RESULT_PASS (ACS_PE_TEST_NUM_BASE + 14) 1).

Definition os_c014_payload : M () :=
  let* data := val_pe_reg_read ID_AA64ISAR1_EL1 in
  let* index := my_index in
  if (VAL_EXTRACT_BITS data 4 7 =? 0) && (VAL_EXTRACT_BITS data 8 11 =? 0)
     && (VAL_EXTRACT_BITS data 24 27 =? 0) && (VAL_EXTRACT_BITS data 28 31 =? 0)
  then val_set_status index (RESULT_SKIP (ACS_PE_TEST_NUM_BASE + 14) 1)
  else os_c014_check_pauth_algorithm index data.

Definition os_c014_entry (num_pe : Z) : M Z :=
  run_test fuel (ACS_PE_TEST_NUM_BASE + 14) "B_PE_15:  Check PAuth if implementation    " num_pe
    (payload_of "os_c014" os_c014_payload).

Definition os_c015_payload : M () :=
  let* index := my_index in
  let* v := val_pe_reg_read ID_AA64PFR0_EL1 in
  let data := VAL_EXTRACT_BITS v 32 35 in
  if data =? 0 then val_set_status index (RESULT_SKIP (ACS_PE_TEST_NUM_BASE + 15) 1)
  else
  let* v := val_pe_reg_read ID_AA64DFR0_EL1 in
  let data := VAL_EXTRACT_BITS v 32 35 in
  val_set_status index
    (if data =? 0 then RESULT_SKIP (ACS_PE_TEST_NUM_BASE + 15) 2
     else if negb (data =? 2) then RESULT_FAIL (ACS_PE_TEST_NUM_BASE + 15) 1 else RESULT_PASS (ACS_PE_TEST_NUM_BASE + 15) 1).

Definition os_c015_entry (num_pe : Z) : M Z :=
  run_test fuel (ACS_PE_TEST_NUM_BASE + 15) "B_PE_17:  Check SPE if implemented         " num_pe
    (payload_of "os_c015" os_c015_payload).

Definition os_c016_payload : M () :=
  let* index := my_index in
  let* v := val_pe_reg_read ID_AA64PFR0_EL1 in
  let data_csv2 := VAL_EXTRACT_BITS v 56 59 in
  let* v := val_pe_reg_read ID_AA64PFR0_EL1 in
  let data_csv3 := VAL_EXTRACT_BITS v 60 63 in
  val_set_status index
    (if negb (data_csv2 =? 2) then RESULT_FAIL (ACS_PE_TEST_NUM_BASE + 16) 1
     else if negb (data_csv3 =? 1) then RESULT_FAIL (ACS_PE_TEST_NUM_BASE + 16) 2 else RESULT_PASS (ACS_PE_TEST_NUM_BASE + 16) 1).

Definition os_c016_entry (num_pe : Z) : M Z :=
  run_test fuel (ACS_PE_TEST_NUM_BASE + 16) "B_SEC_01: Check Speculation Restriction    " num_pe
    (payload_of "os_c016" os_c016_payload).

Definition os_c017_payload : M () :=
  let* index := my_index in
  let* v := val_pe_reg_read ID_AA64PFR1_EL1 in
  let data := VAL_EXTRACT_BITS v 4 7 in
  val_set_status index
    (if negb (data =? 2) then RESULT_FAIL (ACS_PE_TEST_NUM_BASE + 17) 1 else RESULT_PASS (ACS_PE_TEST_NUM_BASE + 17) 1).

Definition os_c017_entry (num_pe : Z) : M Z :=
  run_test fuel (ACS_PE_TEST_NUM_BASE + 17) "B_SEC_02: Check Speculative Str Bypass Safe" num_pe
    (payload_of "os_c017" os_c017_payload).

Definition os_c018_payload : M () :=
  let* index := my_index in
  let* v := val_pe_reg_read ID_AA64PFR1_EL1 in
  let data := VAL_EXTRACT_BITS v 4 7 in
  val_set_status index
    (if data =? 0 then RESULT_FAIL (ACS_PE_TEST_NUM_BASE + 18) 1 else RESULT_PASS (ACS_PE_TEST_NUM_BASE + 18) 1).

Definition os_c018_entry (num_pe : Z) : M Z :=
  run_test fuel (ACS_PE_TEST_NUM_BASE + 18) "B_SEC_03: Check PEs Impl CSDB,SSBB,PSSBB   " num_pe
    (payload_of "os_c018" os_c018_payload).

Definition os_c019_payload : M () :=
  let* index := my_index in
  let* v := val_pe_reg_read ID_AA64ISAR1_EL1 in
  let data := VAL_EXTRACT_BITS v 36 39 in
  val_set_status index
    (if negb (data =? 1) then RESULT_FAIL (ACS_PE_TEST_NUM_BASE + 19) 1 else RESULT_PASS (ACS_PE_TEST_NUM_BASE + 19) 1).

Definition os_c019_entry (num_pe : Z) : M Z :=
  run_test fuel (ACS_PE_TEST_NUM_BASE + 19) "B_SEC_04: Check PEs Implement SB Barrier   " num_pe
    (payload_of "os_c019" os_c019_payload).

Definition os_c020_payload : M () :=
  let* index := my_index in
  let* v := val_pe_reg_read ID_AA64ISAR1_EL1 in
  let data := VAL_EXTRACT_BITS v 40 43 in
  val_set_status index
    (if negb (data =? 1) then RESULT_FAIL (ACS_PE_TEST_NUM_BASE + 20) 1 else RESULT_PASS (ACS_PE_TEST_NUM_BASE + 20) 1).

Definition os_c020_entry (num_pe : Z) : M Z :=
  run_test fuel (ACS_PE_TEST_NUM_BASE + 20) "B_SEC_05: Check PE Impl CFP,DVP,CPP RCTX   " num_pe
    (payload_of "os_c020" os_c020_payload).

Definition hyp_c001_payload : M () :=
  let* index := my_index in
  let* data := val_pe_reg_read ID_AA64PFR0_EL1 in
  val_set_status index
    (if truthy (Z.land data 0x0F00)
     then RESULT_PASS (ACS_PE_HYP_TEST_NUM_BASE + 1) 1 else RESULT_FAIL (ACS_PE_HYP_TEST_NUM_BASE + 1) 1).

Definition hyp_c001_entry (num_pe : Z) : M Z :=
  run_test fuel (ACS_PE_HYP_TEST_NUM_BASE + 1) "B_PE_18: Check EL2 implementation          " num_pe
    (payload_of "hyp_c001" hyp_c001_payload).

Definition hyp_c002_payload : M () :=
  let* index := my_index in
  let* data := val_pe_reg_read ID_AA64MMFR0_EL1 in
  val_set_status index
    (if negb (VAL_EXTRACT_BITS data 40 43 =? 0x1)
     then RESULT_PASS (ACS_PE_HYP_TEST_NUM_BASE + 2) 1 else RESULT_FAIL (ACS_PE_HYP_TEST_NUM_BASE + 2) 1).

Definition hyp_c002_entry (num_pe : Z) : M Z :=
  run_test fuel (ACS_PE_HYP_TEST_NUM_BASE + 2) "B_PE_19: Check Stage 2 4KB Granule Support " num_pe
    (payload_of "hyp_c002" hyp_c002_payload).

Definition hyp_c003_payload : M () :=
  let* index := my_index in
  let* data := val_pe_reg_read ID_AA64MMFR0_EL1 in
  let Gran4_2 := u8 (VAL_EXTRACT_BITS data 40 43) in
  let Gran4 := u8 (VAL_EXTRACT_BITS data 28 31) in
  let Gran16_2 := u8 (VAL_EXTRACT_BITS data 32 35) in
  let Gran16 := u8 (VAL_EXTRACT_BITS data 20 23) in
  let Gran64_2 := u8 (VAL_EXTRACT_BITS data 36 39) in
  let Gran64 := u8 (VAL_EXTRACT_BITS data 24 27) in
  val_set_status index
    (if (Gran4_2 =? 0x1) && negb (Gran4 =? 0xF) then RESULT_FAIL (ACS_PE_HYP_TEST_NUM_BASE + 3) 1
     else if (Gran4_2 =? 0x2) && negb (Gran4 =? 0x0) then RESULT_FAIL (ACS_PE_HYP_TEST_NUM_BASE + 3) 2
     else if (Gran4_2 =? 0x3) && negb (Gran4 =? 0x1) then RESULT_FAIL (ACS_PE_HYP_TEST_NUM_BASE + 3) 3
     else if (Gran16_2 =? 0x1) && negb (Gran16 =? 0x0) then RESULT_FAIL (ACS_PE_HYP_TEST_NUM_BASE + 3) 4
     else if (Gran16_2 =? 0x2) && negb (Gran16 =? 0x1) then RESULT_FAIL (ACS_PE_HYP_TEST_NUM_BASE + 3) 5
     else if (Gran16_2 =? 0x3) && negb (Gran16 =? 0x2) then RESULT_FAIL (ACS_PE_HYP_TEST_NUM_BASE + 3) 6
     else if (Gran64_2 =? 0x1) && negb (Gran64 =? 0xF) then RESULT_FAIL (ACS_PE_HYP_TEST_NUM_BASE + 3) 7
     else if (Gran64_2 =? 0x2) && negb (Gran64 =? 0x0) then RESULT_FAIL (ACS_PE_HYP_TEST_NUM_BASE + 3) 8
     else RESULT_PASS (ACS_PE_HYP_TEST_NUM_BASE + 3) 1).

Definition hyp_c003_entry (num_pe : Z) : M Z :=
  run_test fuel (ACS_PE_HYP_TEST_NUM_BASE + 3) "B_PE_20: Check Stage2, Stage1 Granule match" num_pe
    (payload_of "hyp_c003" hyp_c003_payload).

Definition hyp_c004_payload : M () :=
  let* index := my_index in
  let* data := val_pe_reg_read PMCR_EL0 in
  val_set_status index
    (if 1 <? Z.shiftr (Z.land data 0x0F800) 11
     then RESULT_PASS (ACS_PE_HYP_TEST_NUM_BASE + 4) 1 else RESULT_FAIL (ACS_PE_HYP_TEST_NUM_BASE + 4) 1).

Definition hyp_c004_entry (num_pe : Z) : M Z :=
  run_test fuel (ACS_PE_HYP_TEST_NUM_BASE + 4) "B_PE_21:  Check for PMU counters           " num_pe
    (payload_of "hyp_c004" hyp_c004_payload).

Definition hyp_c005_payload : M () :=
  let* pe_index := my_index in
  let* data := val_pe_reg_read ID_AA64DFR0_EL1 in
  let breakpointcount := VAL_EXTRACT_BITS data 12 15 in
  let* vmid_breakpoint := count_breakpoints breakpointcount (fun bt vmid_breakpoint =>
    if (bt =? 0x4) || (bt =? 0x5) then vmid_breakpoint + 1 else vmid_breakpoint) 0 in
  val_set_status pe_index
    (if 1 <? vmid_breakpoint then RESULT_PASS (ACS_PE_HYP_TEST_NUM_BASE + 5) 1 else RESULT_FAIL (ACS_PE_HYP_TEST_NUM_BASE + 5) 1).

Definition hyp_c005_entry (num_pe : Z) : M Z :=
  run_test fuel (ACS_PE_HYP_TEST_NUM_BASE + 5) "B_PE_22:  Check VMID breakpoint number     " num_pe
    (payload_of "hyp_c005" hyp_c005_payload).

Definition ps_c001_payload : M () :=
  let* index := my_index in
  let* data := val_pe_reg_read ID_AA64PFR0_EL1 in
  val_set_status index
    (if truthy (Z.land data 0xF000)
     then RESULT_PASS (ACS_PE_PS_TEST_NUM_BASE + 1) 1 else RESULT_FAIL (ACS_PE_PS_TEST_NUM_BASE + 1) 1).

Definition ps_c001_entry (num_pe : Z) : M Z :=
  run_test fuel (ACS_PE_PS_TEST_NUM_BASE + 1) "B_PE_23, B_PE_24: Check EL3 implementation " num_pe
    (payload_of "ps_c001" ps_c001_payload).

End tests.

(** ** What the rules say *)

Section rules.
Context {D : Type} `{Platform D} `{Handlers D} `{Interrupts D} `{Edk2 D} `{EfiInterrupts D} (fuel : nat).

(** A test in which the PEs only read their identification registers: what the rule makes of
    their values, [r] by accessor. *)
Section registers.
Context (r : string -> Z).

Definition id_field (hi lo v : Z) : Z := (v / 2 ^ lo) mod 2 ^ (hi - lo + 1).

Definition holds_if (b : bool) : Z := if b then ACS_STATUS_PASS else ACS_STATUS_FAIL.
Definition unless_absent (absent : bool) (v : Z) : Z := if absent then ACS_STATUS_SKIP else v.

Definition pfr0 hi lo : Z := id_field hi lo (r "ArmReadIdPfr0").
Definition pfr1 hi lo : Z := id_field hi lo (r "ArmReadIdPfr1").
Definition dfr0 hi lo : Z := id_field hi lo (r "AA64ReadIdDfr0").
Definition isar0 hi lo : Z := id_field hi lo (r "AA64ReadIsar0").
Definition isar1 hi lo : Z := id_field hi lo (r "AA64ReadIsar1").
Definition mmfr0 hi lo : Z := id_field hi lo (r "AA64ReadMmfr0").

(** AdvSIMD is implemented. *)
Definition rule_c003 : Z := holds_if (pfr0 23 20 <=? 1).
(** 4 KB granules at stage 1. *)
Definition rule_c004 : Z := holds_if (mmfr0 31 28 =? 0).
(** Where an exception level has AArch32, hardware coherency. *)
Definition rule_c005 : Z :=
  unless_absent (negb (existsb (fun el => pfr0 (el + 3) el =? 2) [12; 8; 4; 0]))
    (holds_if ((id_field 31 28 (r "ArmReadMmfr0") =? 1) && (id_field 15 12 (r "ArmReadMmfr0") =? 1))).
(** AES, SHA1 and SHA2. *)
Definition rule_c006 : Z := holds_if (forallb (fun s => negb (isar0 (s + 3) s =? 0)) [4; 8; 12]).
(** The current exception level is little-endian. *)
Definition rule_c007 : Z :=
  let el := r "AA64ReadCurrentEL" in
  holds_if (if el =? AARCH64_EL2 then id_field 25 25 (r "AA64ReadSctlr2") =? 0
            else if el =? AARCH64_EL1 then id_field 25 25 (r "AA64ReadSctlr1") =? 0 else true).
(** EL0 and EL1. *)
Definition rule_c008 : Z := holds_if (negb (pfr0 1 0 =? 0) && negb (pfr0 5 4 =? 0)).
(** A PMU with more than three counters. *)
Definition rule_c009 : Z :=
  holds_if (negb (dfr0 11 8 =? 0) && negb (dfr0 11 8 =? 15) && (3 <? id_field 15 11 (r "AA64ReadPmcr"))).

(** The types of the breakpoints, their lowest bit dropped. *)
Definition breakpoint_control (i : nat) : string :=
  nth i ["AA64ReadDbgbcr0El1"; "AA64ReadDbgbcr1El1"; "AA64ReadDbgbcr2El1"; "AA64ReadDbgbcr3El1";
         "AA64ReadDbgbcr4El1"; "AA64ReadDbgbcr5El1"; "AA64ReadDbgbcr6El1"; "AA64ReadDbgbcr7El1";
         "AA64ReadDbgbcr8El1"; "AA64ReadDbgbcr9El1"; "AA64ReadDbgbcr10El1"; "AA64ReadDbgbcr11El1";
         "AA64ReadDbgbcr12El1"; "AA64ReadDbgbcr13El1"; "AA64ReadDbgbcr14El1"; "AA64ReadDbgbcr15El1"]
    EmptyString.
Definition breakpoints : list Z :=
  map (fun i => id_field 23 21 (r (breakpoint_control i))) (seq 0 (Z.to_nat (dfr0 15 12 + 1))).
Definition breakpoints_of (types : list Z) : Z :=
  Z.of_nat (length (List.filter (fun bt => bool_decide (bt ∈ types)) breakpoints)).

(** Six breakpoints or more, of which two compare addresses, contexts or VMIDs. *)
Definition rule_c011 : Z :=
  holds_if ((5 <=? dfr0 15 12) &&
    ((2 <=? breakpoints_of [0]) || (2 <=? breakpoints_of [1; 3; 5; 6; 7]) || (2 <=? breakpoints_of [4; 5]))).
(** Four watchpoints or more. *)
Definition rule_c012 : Z := holds_if (2 <? dfr0 23 20).
(** CRC32. *)
Definition rule_c013 : Z := holds_if (negb (isar0 19 16 =? 0)).
(** Pointer authentication, where there is some, with a standard algorithm. *)
Definition rule_c014 : Z :=
  unless_absent (forallb (fun s => isar1 (s + 3) s =? 0) [4; 8; 24; 28])
    (holds_if (negb (isar1 7 4 =? 0) || negb (isar1 27 24 =? 0) ||
               negb (isar1 11 8 =? 0) && negb (isar1 31 28 =? 0))).
(** Statistical profiling, where there is SVE. *)
Definition rule_c015 : Z :=
  unless_absent ((pfr0 35 32 =? 0) || (dfr0 35 32 =? 0)) (holds_if (dfr0 35 32 =? 2)).
(** CSV2 and CSV3. *)
Definition rule_c016 : Z := holds_if ((pfr0 59 56 =? 2) && (pfr0 63 60 =? 1)).
(** SSBS, its barriers, SB, and the prediction restrictions. *)
Definition rule_c017 : Z := holds_if (pfr1 7 4 =? 2).
Definition rule_c018 : Z := holds_if (negb (pfr1 7 4 =? 0)).
Definition rule_c019 : Z := holds_if (isar1 39 36 =? 1).
Definition rule_c020 : Z := holds_if (isar1 43 40 =? 1).
(** EL2, and 4 KB granules at stage 2. *)
Definition rule_hyp_c001 : Z := holds_if (negb (pfr0 11 8 =? 0)).
Definition rule_hyp_c002 : Z := holds_if (negb (mmfr0 43 40 =? 1)).
(** A stage 2 field of each granule size that asks for a value of stage 1 finds it there. *)
Definition granules_agree (stage2 stage1 : Z) (asks : list (Z * Z)) : bool :=
  forallb (fun p => negb (stage2 =? fst p) || (stage1 =? snd p)) asks.
Definition rule_hyp_c003 : Z :=
  holds_if (granules_agree (mmfr0 43 40) (mmfr0 31 28) [(1, 15); (2, 0); (3, 1)] &&
            granules_agree (mmfr0 35 32) (mmfr0 23 20) [(1, 0); (2, 1); (3, 2)] &&
            granules_agree (mmfr0 39 36) (mmfr0 27 24) [(1, 15); (2, 0)]).
(** Two PMU counters or more. *)
Definition rule_hyp_c004 : Z := holds_if (1 <? id_field 15 11 (r "AA64ReadPmcr")).
(** Two breakpoints or more that compare VMIDs. *)
Definition rule_hyp_c005 : Z := holds_if (2 <=? breakpoints_of [4; 5]).
(** EL3. *)
Definition rule_ps_c001 : Z := holds_if (negb (pfr0 15 12 =? 0)).
End registers.

Definition register_tests : list ((Z -> M (world D) Z) * Z * ((string -> Z) -> Z)) :=
  let os n := ACS_PE_TEST_NUM_BASE + n in
  let hyp n := ACS_PE_HYP_TEST_NUM_BASE + n in [
  (os_c003_entry fuel, os 3, rule_c003);
  (os_c004_entry fuel, os 4, rule_c004);
  (os_c005_entry fuel, os 5, rule_c005);
  (os_c006_entry fuel, os 6, rule_c006);
  (os_c007_entry fuel, os 7, rule_c007);
  (os_c008_entry fuel, os 8, rule_c008);
  (os_c009_entry fuel, os 9, rule_c009);
  (os_c011_entry fuel, os 11, rule_c011);
  (os_c012_entry fuel, os 12, rule_c012);
  (os_c013_entry fuel, os 13, rule_c013);
  (os_c014_entry fuel, os 14, rule_c014);
  (os_c015_entry fuel, os 15, rule_c015);
  (os_c016_entry fuel, os 16, rule_c016);
  (os_c017_entry fuel, os 17, rule_c017);
  (os_c018_entry fuel, os 18, rule_c018);
  (os_c019_entry fuel, os 19, rule_c019);
  (os_c020_entry fuel, os 20, rule_c020);
  (hyp_c001_entry fuel, hyp 1, rule_hyp_c001);
  (hyp_c002_entry fuel, hyp 2, rule_hyp_c002);
  (hyp_c003_entry fuel, hyp 3, rule_hyp_c003);
  (hyp_c004_entry fuel, hyp 4, rule_hyp_c004);
  (hyp_c005_entry fuel, hyp 5, rule_hyp_c005);
  (ps_c001_entry fuel, ACS_PE_PS_TEST_NUM_BASE + 1, rule_ps_c001)
].
End rules.

(** *** Fields, as the tests extract them and as the rules state them *)

Lemma mask_field n s v : 0 <= n -> 0 <= s ->
  Z.land v (Z.shiftl (Z.ones n) s) = Z.shiftl (id_field (s + n - 1) s v) s.
Proof.
  intros. unfold id_field. replace (s + n - 1 - s + 1) with n by lia.
  rewrite <- Z.shiftr_div_pow2, <- Z.land_ones, Z.shiftl_land by lia.
  apply Z.bits_inj'. intros i Hi. rewrite !Z.land_spec.
  destruct (Z.leb_spec s i); rewrite !Z.shiftl_spec by lia.
  - rewrite Z.shiftr_spec by lia. do 2 f_equal. lia.
  - by rewrite !(Z.testbit_neg_r _ (i - s)), !andb_false_r by lia.
Qed.

Lemma extract_id_field v lo hi : 0 <= lo <= hi -> VAL_EXTRACT_BITS v lo hi = id_field hi lo v.
Proof.
  intros. unfold VAL_EXTRACT_BITS, id_field. rewrite Z.sub_1_r. fold (Z.ones (hi - lo + 1)).
  by rewrite Z.land_ones, Z.shiftr_div_pow2 by lia.
Qed.

Lemma shifted_field n s hi v m : 0 <= n -> 0 <= s -> hi = s + n - 1 -> m = Z.ones n ->
  Z.land (Z.shiftr v s) m = id_field hi s v.
Proof.
  intros Hn Hs -> ->. rewrite Z.land_ones, Z.shiftr_div_pow2 by lia. unfold id_field.
  do 3 f_equal. lia.
Qed.

Lemma masked_field n s hi v m : 0 <= n -> 0 <= s -> hi = s + n - 1 -> m = Z.shiftl (Z.ones n) s ->
  Z.shiftr (Z.land v m) s = id_field hi s v.
Proof. intros Hn Hs -> ->. rewrite mask_field by done. by rewrite Z.shiftr_shiftl_l, Z.sub_diag, Z.shiftl_0_r by lia. Qed.

Lemma mask_is n s hi v m c k :
  0 <= n -> 0 <= s -> hi = s + n - 1 -> m = Z.shiftl (Z.ones n) s -> c = Z.shiftl k s ->
  (Z.land v m =? c) = (id_field hi s v =? k).
Proof.
  intros Hn Hs -> -> ->. rewrite mask_field, !Z.shiftl_mul_pow2 by done.
  pose proof (Z.pow_pos_nonneg 2 s). destruct (Z.eqb_spec (id_field (s + n - 1) s v) k) as [->|N].
  - apply Z.eqb_refl.
  - apply Z.eqb_neq. intros E. apply N. nia.
Qed.

Lemma id_field_range hi lo v : 0 <= hi - lo + 1 -> 0 <= id_field hi lo v < 2 ^ (hi - lo + 1).
Proof. intros. unfold id_field. apply Z.mod_pos_bound. lia. Qed.

Lemma any_of n s hi v m : 0 <= n -> 0 <= s -> hi = s + n - 1 -> m = Z.shiftl (Z.ones n) s ->
  truthy (Z.land v m) = negb (id_field hi s v =? 0).
Proof.
  intros. unfold truthy. f_equal. apply (mask_is n); [done..|]. by rewrite Z.shiftl_0_l.
Qed.

Lemma breakpoint_type v : Z.land (Z.shiftr (VAL_EXTRACT_BITS v 20 23) 1) 0x7 = id_field 23 21 v.
Proof.
  rewrite extract_id_field, (shifted_field 3 1 3) by done. unfold id_field.
  replace (v / 2 ^ 21) with (v / 2 ^ 20 / 2 ^ 1) by (by rewrite Z.div_div).
  set (q := v / 2 ^ 20). change (2 ^ (23 - 20 + 1)) with 16. change (2 ^ 1) with 2.
  change (2 ^ (23 - 21 + 1)) with 8. change (2 ^ (3 - 1 + 1)) with 8. divmod.
Qed.

(** *** Chains of conditions as one condition *)

Lemma holds_not (c : bool) : (if c then ACS_STATUS_FAIL else ACS_STATUS_PASS) = holds_if (negb c).
Proof. by destruct c. Qed.
Lemma holds_and (c b : bool) : (if c then holds_if b else ACS_STATUS_FAIL) = holds_if (c && b).
Proof. by destruct c. Qed.
Lemma holds_unless (c b : bool) : (if c then ACS_STATUS_FAIL else holds_if b) = holds_if (negb c && b).
Proof. by destruct c. Qed.
Lemma holds_or (c b : bool) : (if c then holds_if b else ACS_STATUS_PASS) = holds_if (negb c || b).
Proof. by destruct c. Qed.
Lemma absent_or a b v : unless_absent a (unless_absent b v) = unless_absent (a || b) v.
Proof. by destruct a. Qed.
Lemma u8_id_field hi lo v : hi - lo = 3 -> u8 (id_field hi lo v) = id_field hi lo v.
Proof.
  intros E. pose proof (id_field_range hi lo v) as Hr. rewrite E in Hr. apply u8_id. unfold fits.
  change (2 ^ (3 + 1)) with 16 in Hr. lia.
Qed.

(** The two sides are conditions on the same fields. *)
Ltac one_condition := repeat lazymatch goal with
  | |- context [if ?c then ACS_STATUS_PASS else ACS_STATUS_FAIL] =>
      change (if c then ACS_STATUS_PASS else ACS_STATUS_FAIL) with (holds_if c)
  | |- context [if ?c then ACS_STATUS_FAIL else ACS_STATUS_PASS] => rewrite (holds_not c)
  | |- context [if ?c then holds_if ?b else ACS_STATUS_FAIL] => rewrite (holds_and c b)
  | |- context [if ?c then holds_if ?b else ACS_STATUS_PASS] => rewrite (holds_or c b)
  | |- context [if ?c then ACS_STATUS_FAIL else holds_if ?b] => rewrite (holds_unless c b)
  | |- context [if ?c then ACS_STATUS_SKIP else ?v] =>
      change (if c then ACS_STATUS_SKIP else v) with (unless_absent c v)
  | |- context [unless_absent ?a (unless_absent ?b ?v)] => rewrite (absent_or a b v)
  end.
Ltac same_condition :=
  one_condition; rewrite ?u8_id_field by done;
  repeat first [apply (f_equal2 unless_absent)|apply (f_equal holds_if)];
  rewrite ?negb_andb, ?negb_involutive, ?andb_true_r, ?andb_assoc; first [reflexivity|lia].
Ltac open_rule := cbv beta delta [
    rule_c003 rule_c004 rule_c005 rule_c006 rule_c007 rule_c008 rule_c009 rule_c011 rule_c012
    rule_c013 rule_c014 rule_c015 rule_c016 rule_c017 rule_c018 rule_c019 rule_c020 rule_hyp_c001
    rule_hyp_c002 rule_hyp_c003 rule_hyp_c004 rule_hyp_c005 rule_ps_c001
    granules_agree pfr0 pfr1 dfr0 isar0 isar1 mmfr0 ];
  cbn [existsb forallb fst snd Z.add Pos.add Pos.succ].

Section verdicts.
Context {D : Type} `{Platform D} `{Handlers D} `{Interrupts D} `{Edk2 D} `{EfiInterrupts D} `{!ReportOnce}.
Context {X : Type} (conf : D -> X) (reg : X -> string -> Z) `{R : !Registers conf reg} (fuel : nat).

#[local] Abbreviation regs w := (reg (conf (dev w))).

Lemma reads_breakpoint i w : 0 <= i < 16 ->
  reads conf (val_pe_reg_read (i + DBGBCR0_EL1)) w (regs w (breakpoint_control (Z.to_nat i))).
Proof.
  intros Hi. apply (reads_reg conf reg). unfold DBGBCR0_EL1.
  assert (exists k, (k < 16)%nat /\ i = Z.of_nat k) as (k & Hk & ->) by (exists (Z.to_nat i); lia).
  rewrite Nat2Z.id. do 16 (destruct k as [|k]; [reflexivity|]). lia.
Qed.

Lemma fold_left_mapped {A B C} (f : A -> B -> A) (g : C -> B) l a :
  fold_left f (map g l) a = fold_left (fun a x => f a (g x)) l a.
Proof. revert a. induction l; intros; cbn; auto. Qed.

Lemma fold_left_pointwise {A B} (f g : A -> B -> A) l a :
  (forall a x, f a x = g a x) -> fold_left f l a = fold_left g l a.
Proof. intros E. revert a. induction l; intros; cbn; [done|]. by rewrite E. Qed.

Lemma reads_count_breakpoints {A} (count : Z -> A -> A) a w :
  reads conf (count_breakpoints (dfr0 (regs w) 15 12) count a) w
    (fold_left (fun a bt => count bt a) (breakpoints (regs w)) a).
Proof.
  pose proof (id_field_range 15 12 (regs w "AA64ReadIdDfr0") ltac:(lia)) as Hr. fold (dfr0 (regs w) 15 12) in Hr.
  unfold breakpoints. rewrite fold_left_mapped. unfold count_breakpoints.
  rewrite (fold_left_pointwise _ (fun a i =>
    (fun i a => count (id_field 23 21 (regs w (breakpoint_control (Z.to_nat i)))) a) (0 + Z.of_nat i) a))
    by (intros; by rewrite Z.add_0_l, Nat2Z.id).
  apply (reads_for_acc conf _ _ _
    (fun i a => count (id_field 23 21 (regs w (breakpoint_control (Z.to_nat i)))) a)).
  intros i b Hi. eapply reads_bind; [apply reads_breakpoint; lia|]. rewrite breakpoint_type. apply reads_ret.
Qed.

Lemma sets_for base mem me (m : M (world D) ()) w v v' :
  sets conf base mem me m w v -> v = v' -> sets conf base mem me m w v'.
Proof. by intros ? <-. Qed.

Lemma elem_of_eqb (bt : Z) x : bool_decide (bt ∈ x) = existsb (Z.eqb bt) x.
Proof.
  apply eq_true_iff_eq. rewrite bool_decide_eq_true, existsb_exists. setoid_rewrite Z.eqb_eq.
  rewrite list_elem_of_In. split; [eauto|]. by intros (? & ? & ->).
Qed.

Lemma tally_breakpoints r a c v :
  fold_left (fun acv bt => let '(a, c, v) := acv in
      if bt =? 5 then
        (if bt =? 0 then a + 1 else a,
         (if (bt =? 1) || (bt =? 3) || (bt =? 6) || (bt =? 7) then c + 1 else c) + 1,
         (if bt =? 4 then v + 1 else v) + 1)
      else
        (if bt =? 0 then a + 1 else a,
         if (bt =? 1) || (bt =? 3) || (bt =? 6) || (bt =? 7) then c + 1 else c,
         if bt =? 4 then v + 1 else v)) (breakpoints r) (a, c, v) =
  (a + breakpoints_of r [0], c + breakpoints_of r [1; 3; 5; 6; 7], v + breakpoints_of r [4; 5]).
Proof.
  unfold breakpoints_of. revert a c v. induction (breakpoints r) as [|bt l IH]; intros a c v; cbn [fold_left List.filter].
  - apply (f_equal2 pair); [apply (f_equal2 pair)|]; cbn; lia.
  - rewrite !elem_of_eqb. cbn [existsb].
    destruct (Z.eqb_spec bt 0), (Z.eqb_spec bt 1), (Z.eqb_spec bt 3), (Z.eqb_spec bt 4), (Z.eqb_spec bt 5),
      (Z.eqb_spec bt 6), (Z.eqb_spec bt 7); try lia; cbn [orb length]; rewrite IH;
      (apply (f_equal2 pair); [apply (f_equal2 pair)|]; lia).
Qed.

Lemma tally_vmid r v :
  fold_left (fun v bt => if (bt =? 0x4) || (bt =? 0x5) then v + 1 else v) (breakpoints r) v =
  v + breakpoints_of r [4; 5].
Proof.
  unfold breakpoints_of. revert v. induction (breakpoints r) as [|bt l IH]; intros v; cbn [fold_left List.filter].
  - cbn. lia.
  - rewrite elem_of_eqb. cbn [existsb].
    destruct (Z.eqb_spec bt 4), (Z.eqb_spec bt 5); try lia; cbn [orb length]; rewrite IH; lia.
Qed.

Ltac read_value := first
  [ apply reads_ret
  | eapply (reads_reg conf reg); reflexivity
  | eapply (reads_my_index conf reg); eassumption
  | rewrite extract_id_field by done; apply reads_count_breakpoints
  | eapply reads_bind; [read_value|read_value]
  | apply reads_if; [read_value|read_value] ].
Ltac reported_status := repeat apply stands_if;
  first [apply stands_pass|apply stands_fail|apply stands_skip]; (split; [by vm_compute|by vm_compute]).
Ltac open_payload := cbv beta delta [
    os_c001_check_pe os_c003_payload os_c004_payload os_c005_payload os_c006_payload
    os_c007_payload os_c008_payload os_c009_payload os_c011_payload os_c012_payload
    os_c013_payload os_c014_check_pauth_algorithm os_c014_payload os_c015_payload
    os_c016_payload os_c017_payload os_c018_payload os_c019_payload os_c020_payload
    hyp_c001_payload hyp_c002_payload hyp_c003_payload hyp_c004_payload
    hyp_c005_payload ps_c001_payload ].
Ltac report := cbv zeta beta; rewrite ?tally_breakpoints, ?tally_vmid; cbv iota beta; lazymatch goal with
  | |- sets _ _ _ _ (bind _ _) _ _ => eapply sets_bind; [read_value|report]
  | |- sets _ _ _ _ (if _ then _ else _) _ _ => apply sets_if; [report|report]
  | |- sets _ _ _ _ (val_set_status _ _) _ _ => eapply (sets_status conf reg); [eassumption|reported_status]
  end.

Ltac by_rule := open_rule; same_condition.

(** C3: The verdict of a PE compliance test is that of its rule. Each of the 23 tests
    listed, run on one PE of a suite that is set up, returns SKIP when the user asked for
    it and otherwise what its rule, stated on the fields of the identification registers,
    says of the values they have; and that verdict, no other, is counted. *)
Theorem register_rules_verdict base mem me w entry test_num rule :
  (entry, test_num, rule) ∈ register_tests fuel ->
  running conf (fun x => reg x "ArmReadMpidr") base mem me w ->
  wp (entry 1) w (fun r w' =>
    r = (if skipped test_num w then ACS_STATUS_SKIP else rule (regs w)) /\ counted r (begun w) w').
Proof.
  intros Hin Hrun. unfold register_tests in Hin. cbv zeta in Hin.
  repeat (apply elem_of_cons in Hin as [[= -> -> ->]|Hin]);
    [..|by apply not_elem_of_nil in Hin];
    (eapply (wp_reading_test conf reg); [exact Hrun|done|]; intros d mem' Hd Hl Hrun';
     eapply sets_for; [open_payload; report|];
     cbn [dev in_test set_dev]; rewrite ?Hd; clear).
  all: rewrite ?extract_id_field by done.
  all: try by_rule.
  - rewrite (masked_field 4 20 23) by done. pose proof (id_field_range 23 20 (regs w "ArmReadIdPfr0") ltac:(lia)).
    by_rule.
  - rewrite (shifted_field 4 28 31), (shifted_field 4 12 15), (mask_is 4 12 15 _ _ _ 2),
      (mask_is 4 8 11 _ _ _ 2), (mask_is 4 4 7 _ _ _ 2), (mask_is 4 0 3 _ _ _ 2) by done.
    open_rule. do 4 destruct (_ =? 2); by_rule.
  - rewrite (shifted_field 4 4 7), (shifted_field 4 8 11), (shifted_field 4 12 15) by done.
    unfold truthy. by_rule.
  - rewrite (shifted_field 1 25 25) by done. open_rule.
    destruct (_ =? AARCH64_EL2); [done|]. by destruct (_ =? AARCH64_EL1).
  - rewrite (any_of 2 0 1), (any_of 2 4 5) by done. by_rule.
  - rewrite (shifted_field 4 20 23) by done. by_rule.
  - rewrite (shifted_field 4 16 19) by done. unfold truthy. by_rule.
  - rewrite (any_of 4 8 11) by done. by_rule.
  - rewrite (masked_field 5 11 15) by done. by_rule.
  - rewrite (any_of 4 12 15) by done. by_rule.
Qed.
End verdicts.

(** The second of two PEs, which has EL0 to EL3 in AArch64 and AdvSIMD. *)
Definition identified_world : world machine :=
  with_dev (Machine ∅ {["ArmReadMpidr" := 0x80000100; "ArmReadIdPfr0" := 0x1111]} 0 []) on_two_pes.

Lemma identified_running :
  running (fun d : machine => (mach_mem d, mach_regs d)) (fun c => default 0 (snd c !! "ArmReadMpidr"))
    0x1000 two_slots 1 identified_world.
Proof.
  split; [split|..]; try done; [|intros t [= <-]; reflexivity|cbn; lia].
  exists two_pes. split; [done|]. split; [apply two_pes_wf|done].
Qed.

Lemma register_rules_verdict_witness :
  wp (hyp_c001_entry 2 1) identified_world (fun r w' =>
    r = ACS_STATUS_PASS /\ counted ACS_STATUS_PASS (begun identified_world) w').
Proof.
  eapply wp_mono.
  - apply (register_rules_verdict (fun d : machine => (mach_mem d, mach_regs d))
      (fun c r => default 0 (snd c !! r)) 2 0x1000 two_slots 1 identified_world (hyp_c001_entry 2)
      (ACS_PE_HYP_TEST_NUM_BASE + 1) rule_hyp_c001).
    + do 17 right. left.
    + exact identified_running.
  - intros r w' [-> Hc]. split; [|exact Hc]. vm_compute. reflexivity.
Defined.
