(* ===== verification/TestSmmu.v ===== *)
(** * The SMMU tests

    src/test_pool/smmu: the payload and the entry point of each test. All go over the SMMUs
    of the table from the last to the first and end at the first that breaks the rule. *)

From S2P Require Import Prelude Types World Status Machine PeInfra TestInfra Pcie Timer Iovirt SmmuReg SmmuQueue SmmuTables Smmu TestEntry.
#[local] Open Scope c_scope.

(** ** bsa_acs_smmu.h *)

Definition SMMUv2_IDR0 : Z := 0x20.
Definition SMMUv2_IDR2 : Z := 0x28.
Definition SMMUv3_IDR0 : Z := 0x00.
Definition SMMUv3_IDR3 : Z := 0x0C.
Definition SMMUv3_IDR5 : Z := 0x14.
Definition SMMUv3_AIDR : Z := 0x1C.
Definition SMMUv3_MPAMIDR : Z := 0x130.

Section tests.
Context {D : Type} `{Platform D} (fuel : nat).

#[local] Abbreviation M := (M (world D)).

(** [while (num_smmu--)]: the check says whether to go on; when it does not, it has set the
    status and the payload returns. *)
Definition for_smmus (num_smmu : Z) (check : Z -> M bool) : M bool :=
  let* r := count_down num_smmu (fun num_smmu _ =>
    let* go := check num_smmu in
    ret (if go : bool then Continue tt else Break tt)) tt in
  ret (match r with Continue _ => true | Break _ => false end).

Definition stop (m : M ()) : M bool := m ;; ret false.
Definition go_on : M bool := ret true.

(** No SMMU: the test is skipped; otherwise the loop, and a pass after it. *)
Definition smmu_test (index skip pass : Z) (message : string) (check : Z -> M bool) : M () :=
  let* n := val_smmu_get_info SMMU_NUM_CTRL 0 in
  let num_smmu := u32 n in
  if num_smmu =? 0 then
    val_print ACS_PRINT_ERR message 0 ;;
    val_set_status index skip
  else
  let* go := for_smmus num_smmu check in
  when (go : bool) then val_set_status index pass.

Definition no_smmu : string := "\n       No SMMU Controllers are discovered                  ".
Definition no_smmu_hyp : string := "\n       No SMMU Controllers are discovered ".

Definition arch_major (num_smmu : Z) : M Z := val_smmu_get_info SMMU_CTRL_ARCH_MAJOR_REV num_smmu.

(** [VAL_EXTRACT_BITS(val_smmu_read_cfg(offset, num_smmu), start, end)] *)
Definition smmu_field (offset num_smmu start end_ : Z) : M Z :=
  let* data := val_smmu_read_cfg offset num_smmu in ret (VAL_EXTRACT_BITS data start end_).

(** [VAL_EXTRACT_BITS(val_pe_reg_read(reg), start, end)] *)
Definition pe_field (reg start end_ : Z) : M Z :=
  let* data := val_pe_reg_read reg in ret (VAL_EXTRACT_BITS data start end_).

(** ** Operating system *)

Definition os_i001_payload : M () :=
  let N := ACS_SMMU_TEST_NUM_BASE + 1 in
  let* index := my_index in
  let* n := val_smmu_get_info SMMU_NUM_CTRL 0 in
  let num_smmu := u32 n in
  if num_smmu =? 0 then
    val_print ACS_PRINT_ERR no_smmu 0 ;;
    val_set_status index (RESULT_SKIP N 1)
  else
  let* ' (smmuv2_flag, smmuv3_flag) :=
    for_acc (Z.to_nat num_smmu) 0 (fun k '(smmuv2_flag, smmuv3_flag) =>
      let* rev := arch_major (num_smmu - 1 - k) in
      ret (if rev =? 2 then (1, smmuv3_flag) else (smmuv2_flag, 1))) (0, 0) in
  if truthy smmuv2_flag && truthy smmuv3_flag then
    val_print ACS_PRINT_ERR "\n       ALL SMMUs are not of the same Architecture version \n" 0 ;;
    val_set_status index (RESULT_FAIL N 1)
  else val_set_status index (RESULT_PASS N 1).

(** A granule size the PE supports and the SMMU does not. *)
Definition os_i002_granule (index num_smmu code : Z) (pe_supports : bool) (is_smmu : Z)
    (message : string) (k : M bool) : M bool :=
  if pe_supports && negb (is_smmu =? 1) then
    stop (val_set_status index (RESULT_FAIL (ACS_SMMU_TEST_NUM_BASE + 2) code) ;;
          val_print ACS_PRINT_ERR message num_smmu)
  else k.

Definition os_i002_payload : M () :=
  let N := ACS_SMMU_TEST_NUM_BASE + 2 in
  let* index := my_index in
  let* n := val_smmu_get_info SMMU_NUM_CTRL 0 in
  let num_smmu := u32 n in
  if num_smmu =? 0 then
    val_print ACS_PRINT_ERR no_smmu 0 ;;
    val_set_status index (RESULT_SKIP N 1)
  else
  let* mmfr0 := val_pe_reg_read ID_AA64MMFR0_EL1 in
  let pe_has end_ start v := VAL_EXTRACT_BITS mmfr0 start end_ =? v in
  let* go := for_smmus num_smmu (fun num_smmu =>
    let* rev := arch_major num_smmu in
    let* ' (is_smmu_4k, is_smmu_16k, is_smmu_64k) :=
      if rev =? 2 then
        let* idr := val_smmu_read_cfg SMMUv2_IDR2 num_smmu in
        ret (VAL_EXTRACT_BITS idr 12 12, VAL_EXTRACT_BITS idr 13 13, VAL_EXTRACT_BITS idr 14 14)
      else
        let* idr := val_smmu_read_cfg SMMUv3_IDR5 num_smmu in
        ret (VAL_EXTRACT_BITS idr 4 4, VAL_EXTRACT_BITS idr 5 5, VAL_EXTRACT_BITS idr 6 6) in
    os_i002_granule index num_smmu 1 (pe_has 31 28 0x0 || pe_has 43 40 0x2) is_smmu_4k
      "\n       PE supports 4kB granules, but SMMU %x does not"
    (os_i002_granule index num_smmu 2 (pe_has 23 20 0x1 || pe_has 35 32 0x2) is_smmu_16k
      "\n       PE supports 16kB granules, but SMMU %x does not"
    (os_i002_granule index num_smmu 3 (pe_has 27 24 0x0 || pe_has 39 36 0x2) is_smmu_64k
      "\n       PE supports 64kB granules, but SMMU %x does not" go_on))) in
  when (go : bool) then val_set_status index (RESULT_PASS N 1).

Definition os_i003_payload : M () :=
  let N := ACS_SMMU_TEST_NUM_BASE + 3 in
  let* index := my_index in
  let* data_va_range := pe_field ID_AA64MMFR2_EL1 16 19 in
  if data_va_range =? 0 then
    val_print ACS_PRINT_WARN "\n       Large VA Not Supported by PE                        " 0 ;;
    val_set_status index (RESULT_SKIP N 1)
  else
  smmu_test index (RESULT_SKIP N 2) (RESULT_PASS N 1) no_smmu (fun num_smmu =>
    let* rev := arch_major num_smmu in
    if rev =? 2 then
      stop (val_print ACS_PRINT_WARN "\n       Large VA Not Supported in SMMUv2" 0 ;;
            val_set_status index (RESULT_FAIL N 1))
    else
    let* data_vax := smmu_field SMMUv3_IDR5 num_smmu 10 11 in
    if (data_va_range =? 1) && negb (data_vax =? 1) then
      stop (val_print ACS_PRINT_ERR "\n       Large VA Not Supported in SMMU %x" num_smmu ;;
            val_set_status index (RESULT_FAIL N 2))
    else go_on).

Definition os_i004_payload : M () :=
  let N := ACS_SMMU_TEST_NUM_BASE + 4 in
  let* index := my_index in
  let* data_pe_tlb := pe_field ID_AA64ISAR0_EL1 56 59 in
  if negb (data_pe_tlb =? 0x2) then
    val_print ACS_PRINT_WARN "\n       TLB Range Invalid Not Supported For PE              " 0 ;;
    val_set_status index (RESULT_SKIP N 1)
  else
  smmu_test index (RESULT_SKIP N 2) (RESULT_PASS N 1) no_smmu (fun num_smmu =>
    let* rev := arch_major num_smmu in
    if rev <? 3 then
      stop (val_print ACS_PRINT_WARN "\n       Not valid for SMMUv2 or older version               " 0 ;;
            val_set_status index (RESULT_SKIP N 3))
    else
    let* data_ril := smmu_field SMMUv3_IDR3 num_smmu 10 10 in
    if (data_pe_tlb =? 0x2) && negb (data_ril =? 0x1) then
      stop (val_print ACS_PRINT_ERR "\n       Range Invalidation not supported for SMMU %x" num_smmu ;;
            val_set_status index (RESULT_FAIL N 1))
    else go_on).

Definition os_i005_payload : M () :=
  let N := ACS_SMMU_TEST_NUM_BASE + 5 in
  let* index := my_index in
  let* data_pa_range := pe_field ID_AA64MMFR0_EL1 0 3 in
  if negb (data_pa_range =? 0x6) then
    val_print ACS_PRINT_WARN "\n       Large PA Not Supported by PE                        " 0 ;;
    val_set_status index (RESULT_SKIP N 1)
  else
  smmu_test index (RESULT_SKIP N 2) (RESULT_PASS N 1) no_smmu (fun num_smmu =>
    let* rev := arch_major num_smmu in
    if rev =? 2 then
      stop (val_print ACS_PRINT_WARN "\n       Large PA Not Supported in SMMUv2" 0 ;;
            val_set_status index (RESULT_FAIL N 1))
    else
    let* data_oas := smmu_field SMMUv3_IDR5 num_smmu 0 2 in
    if (data_pa_range =? 0x6) && negb (data_oas =? 0x6) then
      stop (val_print ACS_PRINT_WARN "\n       Large PA Not Supported in SMMU %x" num_smmu ;;
            val_set_status index (RESULT_FAIL N 2))
    else go_on).

(** Tests i006 and hyp_i002 differ in the stage whose translation needs a revision of 3.2
    when the PE has secure EL2: its bits in the two identification registers. *)
Definition revision_check (N index s_el2 bit_v2 bit_v3 num_smmu : Z) : M bool :=
  let fail message arg :=
    stop (val_print ACS_PRINT_ERR message arg ;; val_set_status index (RESULT_FAIL N 4)) in
  let* rev := arch_major num_smmu in
  let smmu_rev := u32 rev in
  let at_least_v2 : M bool :=
    if smmu_rev <? 2 then fail "\n       SMMU revision must be at least v2  " 0 else go_on in
  if truthy s_el2 then
    if smmu_rev =? 2 then
      let* stage := smmu_field SMMUv2_IDR0 num_smmu bit_v2 bit_v2 in
      if truthy stage then fail "\n       SMMUv2 detected: revision must be v3.2 or higher  " 0
      else at_least_v2
    else if smmu_rev =? 3 then
      let* minor := smmu_field SMMUv3_AIDR num_smmu 0 3 in
      let* stage := smmu_field SMMUv3_IDR0 num_smmu bit_v3 bit_v3 in
      if (minor <? 2) && truthy stage then
        fail "\n       SMMUv3.%d detected: revision must be v3.2 or higher  " minor
      else at_least_v2
    else at_least_v2
  else at_least_v2.

Definition os_i006_payload : M () :=
  let N := ACS_SMMU_TEST_NUM_BASE + 6 in
  let* index := my_index in
  let* s_el2 := pe_field ID_AA64PFR0_EL1 36 39 in
  smmu_test index (RESULT_SKIP N 3) (RESULT_PASS N 1) no_smmu (revision_check N index s_el2 30 1).

(** Tests that need PCIe first. *)
Definition when_pcie (index skip : Z) (message : string) (k : M ()) : M () :=
  let* data := val_pcie_get_info PCIE_INFO_NUM_ECAM 0 in
  if data =? 0 then
    val_print ACS_PRINT_WARN message 0 ;;
    val_set_status index skip
  else k.

Definition os_i007_payload : M () :=
  let N := ACS_SMMU_TEST_NUM_BASE + 7 in
  let* index := my_index in
  let* pe_asid := pe_field ID_AA64MMFR0_EL1 4 7 in
  when_pcie index (RESULT_SKIP N 2) "\n       PCIe Subsystem not discovered                       "
  (smmu_test index (RESULT_SKIP N 3) (RESULT_PASS N 1) no_smmu (fun num_smmu =>
    let* rev := arch_major num_smmu in
    if rev =? 2 then
      stop (val_print ACS_PRINT_WARN "\n       Not valid for SMMU v2                               " 0 ;;
            val_set_status index (RESULT_SKIP N 4))
    else
    let* s1p := smmu_field SMMUv3_IDR0 num_smmu 1 1 in
    let* asid := smmu_field SMMUv3_IDR0 num_smmu 12 12 in
    if truthy s1p && negb (truthy asid) && truthy pe_asid then
      stop (val_set_status index (RESULT_FAIL N 1) ;;
            val_print ACS_PRINT_ERR "\n       16 bit ASID not supported for SMMU %x" num_smmu)
    else go_on)).

(** At another exception level the endianness is not read: [None]. *)
Definition os_i008_pe_endian : M (option Z) :=
  let* el := val_pe_reg_read CurrentEL in
  if el =? AARCH64_EL2 then let* v := pe_field SCTLR_EL2 25 25 in ret (Some v)
  else
  let* el := val_pe_reg_read CurrentEL in
  if el =? AARCH64_EL1 then let* v := pe_field SCTLR_EL1 25 25 in ret (Some v) else ret None.

Definition os_i008_payload : M () :=
  let N := ACS_SMMU_TEST_NUM_BASE + 8 in
  let* index := my_index in
  when_pcie index (RESULT_SKIP N 2) "\n       PCIe Subsystem not discovered                       "
  (let* n := val_smmu_get_info SMMU_NUM_CTRL 0 in
   let num_smmu := u32 n in
   if num_smmu =? 0 then
     val_print ACS_PRINT_ERR no_smmu 0 ;;
     val_set_status index (RESULT_SKIP N 3)
   else
   let* data_pe_endian := os_i008_pe_endian in
   let* go := for_smmus num_smmu (fun num_smmu =>
     let* rev := arch_major num_smmu in
     if rev =? 2 then
       stop (val_print ACS_PRINT_WARN "\n       Not valid for SMMU v2           " 0 ;;
             val_set_status index (RESULT_SKIP N 4))
     else
     let* data := smmu_field SMMUv3_IDR0 num_smmu 21 22 in
     let* endian := need data_pe_endian in
     if (endian =? 1) && ((data =? 1) || (data =? 2)) then
       stop (val_set_status index (RESULT_FAIL N 1) ;;
             val_print ACS_PRINT_ERR "\n       PE supports big endian, but SMMU %x does not" num_smmu)
     else if (endian =? 0) && ((data =? 1) || (data =? 3)) then
       stop (val_set_status index (RESULT_FAIL N 2) ;;
             val_print ACS_PRINT_ERR "\n       PE supports little endian, but SMMU %x does not" num_smmu)
     else go_on) in
   when (go : bool) then val_set_status index (RESULT_PASS N 1)).

Definition os_i009_check (index num_smmu : Z) : M bool :=
  let N := ACS_SMMU_TEST_NUM_BASE + 9 in
  let* rev := arch_major num_smmu in
  if u32 rev <? 3 then
    stop (val_print ACS_PRINT_WARN "\n       SMMU revision v2 or lower detected  " 0 ;;
          val_set_status index (RESULT_SKIP N 4))
  else
  let* minor := smmu_field SMMUv3_AIDR num_smmu 0 3 in
  if 2 <=? minor then
    let* mpam := smmu_field SMMUv3_IDR3 num_smmu 7 7 in
    let* max_id := smmu_field SMMUv3_MPAMIDR num_smmu 0 15 in
    if negb (truthy mpam && truthy max_id) then
      stop (val_print ACS_PRINT_ERR "\n       SMMU without MPAM support detected  " 0 ;;
            val_set_status index (RESULT_FAIL N 4))
    else go_on
  else
    stop (val_print ACS_PRINT_WARN "\n       SMMU revision v3.0/3.1 detected  " 0 ;;
          val_set_status index (RESULT_SKIP N 4)).

Definition os_i009_payload : M () :=
  let N := ACS_SMMU_TEST_NUM_BASE + 9 in
  let* index := my_index in
  let* pe_mpam := pe_field ID_AA64PFR0_EL1 40 43 in
  let* frac := pe_field ID_AA64PFR1_EL1 16 19 in
  let* n := val_smmu_get_info SMMU_NUM_CTRL 0 in
  let num_smmu := u32 n in
  if num_smmu =? 0 then
    val_print ACS_PRINT_ERR no_smmu 0 ;;
    val_set_status index (RESULT_SKIP N 3)
  else if negb (truthy pe_mpam || truthy frac) then
    val_print ACS_PRINT_ERR "\n       No MPAM controlled resources present                " 0 ;;
    val_set_status index (RESULT_SKIP N 3)
  else
  let* go := for_smmus num_smmu (os_i009_check index) in
  when (go : bool) then val_set_status index (RESULT_PASS N 1).

(** ** Hypervisor *)

Definition hyp_i001_payload : M () :=
  let N := ACS_SMMU_HYP_TEST_NUM_BASE + 1 in
  let* index := my_index in
  smmu_test index (RESULT_SKIP N 1) (RESULT_PASS N 1) no_smmu_hyp (fun num_smmu =>
    let fail := stop (val_print ACS_PRINT_ERR "\n\t Stage 2 Translation not supported " 0 ;;
                      val_set_status index (RESULT_FAIL N 1)) in
    let* rev := arch_major num_smmu in
    if rev =? 2 then
      val_print ACS_PRINT_INFO "\n\t Detected SMMUv2 " 0 ;;
      let* s2 := smmu_field SMMUv2_IDR0 num_smmu 29 29 in
      if s2 =? 0 then fail else go_on
    else
      val_print ACS_PRINT_INFO "\n\t Detected SMMUv3 " 0 ;;
      let* s2 := smmu_field SMMUv3_IDR0 num_smmu 0 0 in
      if s2 =? 0 then fail else go_on).

Definition hyp_i002_payload : M () :=
  let N := ACS_SMMU_HYP_TEST_NUM_BASE + 2 in
  let* index := my_index in
  let* s_el2 := pe_field ID_AA64PFR0_EL1 36 39 in
  smmu_test index (RESULT_SKIP N 3) (RESULT_PASS N 1) no_smmu_hyp (revision_check N index s_el2 29 0).

Definition hyp_i003_payload : M () :=
  let N := ACS_SMMU_HYP_TEST_NUM_BASE + 3 in
  let* index := my_index in
  smmu_test index (RESULT_SKIP N 3) (RESULT_PASS N 0) no_smmu_hyp (fun num_smmu =>
    let* rev := arch_major num_smmu in
    if rev =? 3 then
      stop (val_print ACS_PRINT_WARN "\n       Not valid for SMMU v3             " 0 ;;
            val_set_status index (RESULT_SKIP N 2))
    else
    let* unique := val_iovirt_check_unique_ctx_intid num_smmu in
    if negb (truthy unique) then
      stop (val_set_status index (RESULT_FAIL N 1) ;;
            val_print ACS_PRINT_ERR
              "\n       Unique interrupt ID per context bank check failed for SMMU %x" 0)
    else go_on).

Definition hyp_i004_payload : M () :=
  let N := ACS_SMMU_HYP_TEST_NUM_BASE + 4 in
  let* index := my_index in
  when_pcie index (RESULT_SKIP N 1) "\n       PCIe Subsystem not  discovered   "
  (smmu_test index (RESULT_SKIP N 1) (RESULT_PASS N 1) no_smmu_hyp (fun num_smmu =>
    let* rev := arch_major num_smmu in
    if rev =? 2 then
      stop (val_print ACS_PRINT_WARN "\n       Not valid for SMMU v2           " 0 ;;
            val_set_status index (RESULT_SKIP N 1))
    else
    let* coherent := smmu_field SMMUv3_IDR0 num_smmu 4 4 in
    if coherent =? 0 then
      stop (val_print ACS_PRINT_ERR "\n\t IO-Coherent access not supported  " 0 ;;
            val_set_status index (RESULT_FAIL N 3))
    else go_on)).

Definition hyp_i005_payload : M () :=
  let N := ACS_SMMU_HYP_TEST_NUM_BASE + 5 in
  let* index := my_index in
  let* pe_vmid := pe_field ID_AA64MMFR1_EL1 4 7 in
  smmu_test index (RESULT_SKIP N 3) (RESULT_PASS N 1) no_smmu_hyp (fun num_smmu =>
    let* rev := arch_major num_smmu in
    if rev =? 2 then
      stop (val_print ACS_PRINT_WARN "\n       Not valid for SMMU v2           " 0 ;;
            val_set_status index (RESULT_SKIP N 4))
    else
    let* data := smmu_field SMMUv3_IDR0 num_smmu 18 18 in
    if negb (truthy data) && truthy pe_vmid then
      stop (val_set_status index (RESULT_FAIL N 1) ;;
            val_print ACS_PRINT_ERR "\n       16 bit VMID not supported for SMMU %x" num_smmu)
    else go_on).

(** ** The entry points *)

Definition os_i001_entry (num_pe : Z) : M Z :=
  run_on_one fuel (ACS_SMMU_TEST_NUM_BASE + 1) "B_SMMU_01: All SMMUs have same Arch Revision        " num_pe
    (payload_of "os_i001" os_i001_payload).

Definition os_i002_entry (num_pe : Z) : M Z :=
  run_on_one fuel (ACS_SMMU_TEST_NUM_BASE + 2) "B_SMMU_02: Check SMMU Granule Support               " num_pe
    (payload_of "os_i002" os_i002_payload).

Definition os_i003_entry (num_pe : Z) : M Z :=
  run_on_one fuel (ACS_SMMU_TEST_NUM_BASE + 3) "B_SMMU_03: Check Large Virtual Addr Support         " num_pe
    (payload_of "os_i003" os_i003_payload).

Definition os_i004_entry (num_pe : Z) : M Z :=
  run_on_one fuel (ACS_SMMU_TEST_NUM_BASE + 4) "B_SMMU_04,B_SMMU_05: Check TLB Range Invalidation   " num_pe
    (payload_of "os_i004" os_i004_payload).

Definition os_i005_entry (num_pe : Z) : M Z :=
  run_on_one fuel (ACS_SMMU_TEST_NUM_BASE + 5) "B_SMMU_06: Check Large Physical Addr Support        " num_pe
    (payload_of "os_i005" os_i005_payload).

Definition os_i006_entry (num_pe : Z) : M Z :=
  run_on_one fuel (ACS_SMMU_TEST_NUM_BASE + 6) "B_SMMU_08,B_SMMU_09: SMMU revision and S-EL2 support" num_pe
    (payload_of "os_i006" os_i006_payload).

Definition os_i007_entry (num_pe : Z) : M Z :=
  run_on_one fuel (ACS_SMMU_TEST_NUM_BASE + 7) "B_SMMU_13: Check SMMU 16 Bit ASID Support           " num_pe
    (payload_of "os_i007" os_i007_payload).

Definition os_i008_entry (num_pe : Z) : M Z :=
  run_on_one fuel (ACS_SMMU_TEST_NUM_BASE + 8) "B_SMMU_14: Check SMMU Endianess Support             " num_pe
    (payload_of "os_i008" os_i008_payload).

Definition os_i009_entry (num_pe : Z) : M Z :=
  run_on_one fuel (ACS_SMMU_TEST_NUM_BASE + 9) "B_SMMU_11,B_SMMU_22: Check system for MPAM support  " num_pe
    (payload_of "os_i009" os_i009_payload).

Definition hyp_i001_entry (num_pe : Z) : M Z :=
  run_on_one fuel (ACS_SMMU_HYP_TEST_NUM_BASE + 1) "B_SMMU_16,B_SMMU_17: Check Stage2 SMMU functionality" num_pe
    (payload_of "hyp_i001" hyp_i001_payload).

Definition hyp_i002_entry (num_pe : Z) : M Z :=
  run_on_one fuel (ACS_SMMU_HYP_TEST_NUM_BASE + 2) "B_SMMU_18,B_SMMU_20: SMMU Revision,S-EL2 support Hyp" num_pe
    (payload_of "hyp_i002" hyp_i002_payload).

Definition hyp_i003_entry (num_pe : Z) : M Z :=
  run_on_one fuel (ACS_SMMU_HYP_TEST_NUM_BASE + 3) "B_SMMU_19: SMMUv2 unique intr per ctxt bank         " num_pe
    (payload_of "hyp_i003" hyp_i003_payload).

Definition hyp_i004_entry (num_pe : Z) : M Z :=
  run_on_one fuel (ACS_SMMU_HYP_TEST_NUM_BASE + 4) "B_SMMU_21,SMMU_01: SMMUv3 Integration compliance Chk" num_pe
    (payload_of "hyp_i004" hyp_i004_payload).

Definition hyp_i005_entry (num_pe : Z) : M Z :=
  run_on_one fuel (ACS_SMMU_HYP_TEST_NUM_BASE + 5) "B_SMMU_23: Check SMMU 16 Bit VMID Support           " num_pe
    (payload_of "hyp_i005" hyp_i005_payload).
End tests.
