(* ===== verification/TestTimer.v ===== *)
(** * The timer, watchdog and wake-up tests

    src/test_pool/timer, src/test_pool/watchdog and src/test_pool/power_wakeup: payloads,
    handlers and entry points. Test u002 is not among them: nothing calls it. *)

From S2P Require Import Prelude Types World Status Machine PeInfra TestInfra Timer Gic Its GicInt TestEntry TestIrq.
#[local] Open Scope c_scope.

Section tests.
Context {D : Type} `{Platform D} `{Handlers D} `{Interrupts D} `{Edk2 D} `{EfiInterrupts D} (fuel : nat).

#[local] Abbreviation M := (M (world D)).
#[local] Abbreviation timer_info := (val_timer_get_info fuel).

(** Warn and set the status: the payload returns. *)
Definition report_with (level : Z) (message : string) (data index status : Z) : M () :=
  val_print level message data ;;
  val_set_status index status.

(** ** Timers *)

Definition os_t001_payload : M () :=
  let N := ACS_TIMER_TEST_NUM_BASE + 1 in
  let* index := my_index in
  let* freq := timer_info TIMER_INFO_CNTFREQ 0 in
  let counter_freq := u32 freq in
  if 10 * 1000 * 1000 <? counter_freq then val_set_status index (RESULT_PASS N 1)
  else report_with ACS_PRINT_ERR "\n      Counter frequency is %x     " counter_freq index (RESULT_FAIL N 1).

(** The three PE timers are always on, looked at in this order. *)
Definition always_on : M bool :=
  let flag type : M bool :=
    let* v := timer_info type 0 in ret (truthy (Z.land v BSA_TIMER_FLAG_ALWAYS_ON)) in
  let* phy1 := flag TIMER_INFO_PHY_EL1_FLAGS in
  if phy1 then
    let* phy2 := flag TIMER_INFO_PHY_EL2_FLAGS in
    if phy2 then flag TIMER_INFO_VIR_EL1_FLAGS else ret false
  else ret false.

Definition os_t002_payload : M () :=
  let N := ACS_TIMER_TEST_NUM_BASE + 2 in
  let* index := my_index in
  let* n := timer_info TIMER_INFO_NUM_PLATFORM_TIMERS 0 in
  if n =? 0 then
    (let* v := timer_info TIMER_INFO_PHY_EL1_FLAGS 0 in
     val_print ACS_PRINT_INFO "\n Physical EL1 timer flag = %x" v) ;;
    (let* v := timer_info TIMER_INFO_PHY_EL2_FLAGS 0 in
     val_print ACS_PRINT_INFO "\n Physical EL2 timer flag = %x" v) ;;
    (let* v := timer_info TIMER_INFO_VIR_EL1_FLAGS 0 in
     val_print ACS_PRINT_INFO "\n Virtual EL1 timer flag  = %x" v) ;;
    let* on := always_on in
    if on then val_set_status index (RESULT_PASS N 1)
    else
      report_with ACS_PRINT_ERR
        "\n       PE Timers are not always-on \n&       No system wake up timer" 0 index (RESULT_FAIL N 1)
  else val_set_status index (RESULT_PASS N 2).

(** The frame of one non-secure system timer; [Break]: the payload returns. *)
Definition os_t003_frame (index cnt_base_n : Z) : M (ctl () ()) :=
  let N := ACS_TIMER_TEST_NUM_BASE + 3 in
  let ends (m : M ()) : M (ctl () ()) := m ;; ret (Break tt) in
  let fails message data code :=
    ends (report_with ACS_PRINT_ERR message data index (RESULT_FAIL N code)) in
  let* data := val_mmio_read (u64 (cnt_base_n + CNTPCT)) in
  val_mmio_write (u64 (cnt_base_n + CNTPCT)) (u32 (data - 0xA000)) ;;
  let* again := val_mmio_read (u64 (cnt_base_n + CNTPCT)) in
  if again <? data then
    ends (val_set_status index (RESULT_FAIL N 0x4) ;;
          val_print ACS_PRINT_ERR "\n      CNTBaseN offset 0 should be read-only " 0)
  else
  val_mmio_write (u64 (cnt_base_n + CNTP_CTL)) 0x3 ;;
  let* ctl := val_mmio_read (u64 (cnt_base_n + CNTP_CTL)) in
  if negb (0x3 =? Z.land ctl 0x3) then
    ends (val_print ACS_PRINT_ERR "\n       Read-write check failed for CNTBaseN.CNTP_CTL, expected value %x " 0x3 ;;
          (let* v := val_mmio_read (u64 (cnt_base_n + CNTP_CTL)) in
           val_print ACS_PRINT_ERR "\n       Read value %x " v) ;;
          val_set_status index (RESULT_FAIL N 0x5) ;;
          val_mmio_write (u64 (cnt_base_n + CNTP_CTL)) 0x0)
  else
  val_mmio_write (u64 (cnt_base_n + CNTP_CTL)) 0x0 ;;
  let data := 0xFF00FF00 in
  val_mmio_write (u64 (cnt_base_n + CNTP_CVAL_LOW)) data ;;
  let* v := val_mmio_read (u64 (cnt_base_n + CNTP_CVAL_LOW)) in
  if negb (data =? v) then
    fails "\n       Read-write check failed for CNTBaseN.CNTP_CVAL[31:0], expected value %x " data 0x6
  else
  let data := 0x00FF00FF in
  val_mmio_write (u64 (cnt_base_n + CNTP_CVAL_HIGH)) data ;;
  let* v := val_mmio_read (u64 (cnt_base_n + CNTP_CVAL_HIGH)) in
  if negb (data =? v) then
    fails "\n       Read-write check failed for CNTBaseN.CNTP_CVAL[63:32], expected value %x " data 0x7
  else
  val_set_status index (RESULT_PASS N 1) ;;
  ret (Continue tt).

Definition os_t003_timer (index timer_num : Z) : M (ctl () ()) :=
  let N := ACS_TIMER_TEST_NUM_BASE + 3 in
  let ends (m : M ()) : M (ctl () ()) := m ;; ret (Break tt) in
  let* cnt_ctl_base := timer_info TIMER_INFO_SYS_CNTL_BASE timer_num in
  let* cnt_base_n := timer_info TIMER_INFO_SYS_CNT_BASE_N timer_num in
  if cnt_ctl_base =? 0 then
    ends (report_with ACS_PRINT_WARN "\n       CNTCTL BASE is zero             " 0 index (RESULT_SKIP N 0x2))
  else
  let* status := val_timer_skip_if_cntbase_access_not_allowed fuel timer_num in
  if status =? ACS_STATUS_SKIP then
    ends (report_with ACS_PRINT_WARN
            "\n       Security doesn't allow access to timer registers      " 0 index (RESULT_SKIP N 2))
  else
  let* data := val_mmio_read (u64 (cnt_ctl_base + CNTTIDR)) in
  val_mmio_write (u64 (cnt_ctl_base + CNTTIDR)) 0xFFFFFFFF ;;
  let* v := val_mmio_read (u64 (cnt_ctl_base + CNTTIDR)) in
  if negb (data =? v) then
    ends (report_with ACS_PRINT_ERR
            "\n       Read-write check failed for CNTCTLBase.CNTTIDR, expected value %x " data index (RESULT_FAIL N 0x2))
  else if cnt_base_n =? 0 then
    ends (report_with ACS_PRINT_WARN "\n      CNT_BASE_N is zero                 " 0 index (RESULT_SKIP N 0x3))
  else os_t003_frame index cnt_base_n.

(** [while (timer_num) { timer_num--; ... }] over the system timers that are not secure, which
    it counts; [None]: the payload has returned. *)
Definition for_ns_timers (timer_num : Z) (body : Z -> M (ctl () ())) : M (option Z) :=
  let* r := count_down timer_num (fun timer_num ns_timer =>
    let* secure := timer_info TIMER_INFO_IS_PLATFORM_TIMER_SECURE timer_num in
    if truthy secure then ret (Continue ns_timer)
    else
    let* r := body timer_num in
    ret (match r with Continue _ => Continue (ns_timer + 1) | Break _ => Break tt end)) 0 in
  ret (match r with Continue n => Some n | Break _ => None end).

(** The frame of t003 and t004: skipped without timers, or without non-secure ones. *)
Definition timer_test (index none_skip secure_skip : Z) (body : Z -> M (ctl () ())) : M () :=
  let* timer_num := timer_info TIMER_INFO_NUM_PLATFORM_TIMERS 0 in
  if timer_num =? 0 then
    report_with ACS_PRINT_WARN "\n       No System timers are defined      " 0 index none_skip
  else
  let* ns_timer := for_ns_timers timer_num body in
  match ns_timer with
  | None => ret tt
  | Some ns_timer =>
      when ns_timer =? 0 then
        report_with ACS_PRINT_WARN "\n       No non-secure systimer implemented" 0 index secure_skip
  end.

Definition os_t003_payload : M () :=
  let N := ACS_TIMER_TEST_NUM_BASE + 3 in
  let* index := my_index in
  timer_test index (RESULT_SKIP N 0x1) (RESULT_SKIP N 2) (os_t003_timer index).

Definition os_t004_isr : M () :=
  let* index := my_index in
  val_print ACS_PRINT_INFO "\n       Received interrupt   " 0 ;;
  let* cnt_base_n := static_var "os_t004.cnt_base_n" in
  val_timer_disable_system_timer cnt_base_n ;;
  val_set_status index (RESULT_PASS (ACS_TIMER_TEST_NUM_BASE + 4) 1) ;;
  let* intid := static_var "os_t004.intid" in
  val_gic_end_of_interrupt intid ;;
  ret tt.

Definition os_t004_timer (index timer_num : Z) : M (ctl () ()) :=
  let N := ACS_TIMER_TEST_NUM_BASE + 4 in
  let ends (m : M ()) : M (ctl () ()) := m ;; ret (Break tt) in
  val_set_status index (RESULT_PENDING N) ;;
  let* status := val_timer_skip_if_cntbase_access_not_allowed fuel timer_num in
  if status =? ACS_STATUS_SKIP then
    ends (report_with ACS_PRINT_WARN
            "\n       Security doesn't allow access to timer registers      " 0 index (RESULT_SKIP N 2))
  else
  let* base := timer_info TIMER_INFO_SYS_CNT_BASE_N timer_num in
  set_static "os_t004.cnt_base_n" base ;;
  let* cnt_base_n := static_var "os_t004.cnt_base_n" in
  if cnt_base_n =? 0 then
    ends (report_with ACS_PRINT_WARN "\n      CNT_BASE_N is zero                 " 0 index (RESULT_SKIP N 3))
  else
  let* id := timer_info TIMER_INFO_SYS_INTID timer_num in
  set_static "os_t004.intid" (u32 id) ;;
  let* intid := static_var "os_t004.intid" in
  let* failed := val_gic_install_isr fuel intid (symbol "os_t004.isr") in
  if truthy failed then
    ends (report_with ACS_PRINT_ERR "\n       GIC Install Handler Failed..." 0 index (RESULT_FAIL N 1))
  else
  let* cnt_base_n := static_var "os_t004.cnt_base_n" in
  val_timer_set_system_timer cnt_base_n 1000 ;;
  let* timeout := await_status fuel index TIMEOUT_LARGE in
  if timeout =? 0 then
    let* intid := static_var "os_t004.intid" in
    ends (report_with ACS_PRINT_ERR "\n       Sys timer interrupt not received on %d   " intid index (RESULT_FAIL N 2))
  else ret (Continue tt).

Definition os_t004_payload : M () :=
  let N := ACS_TIMER_TEST_NUM_BASE + 4 in
  let* index := my_index in
  timer_test index (RESULT_SKIP N 1) (RESULT_SKIP N 5) (os_t004_timer index).

Definition os_t005_payload : M () :=
  let N := ACS_TIMER_TEST_NUM_BASE + 5 in
  let* index := my_index in
  let* on := always_on in
  val_set_status index (if on : bool then RESULT_PASS N 1 else RESULT_SKIP N 1).

(** ** Watchdogs *)

(** [do { wd_num--; ... } while (wd_num);] over the watchdogs that are not secure. *)
Definition for_ns_watchdogs (wd_num : Z) (body : Z -> M (ctl () ())) : M (option Z) :=
  let* r := count_down wd_num (fun wd_num ns_wdg =>
    let* secure := val_wd_get_info wd_num WD_INFO_ISSECURE in
    if truthy secure then ret (Continue ns_wdg)
    else
    let* r := body wd_num in
    ret (match r with Continue _ => Continue (ns_wdg + 1) | Break _ => Break tt end)) 0 in
  ret (match r with Continue n => Some n | Break _ => None end).

Definition os_w001_watchdog (index wd_num : Z) : M (ctl () ()) :=
  let N := ACS_WD_TEST_NUM_BASE + 1 in
  let fails code : M (ctl () ()) := val_set_status index (RESULT_FAIL N code) ;; ret (Break tt) in
  let* refresh_base := val_wd_get_info wd_num WD_INFO_REFRESH_BASE in
  val_print ACS_PRINT_INFO "\n      Watchdog Refresh base is %x " refresh_base ;;
  let* ctrl_base := val_wd_get_info wd_num WD_INFO_CTRL_BASE in
  val_print ACS_PRINT_INFO "\n      Watchdog CTRL base is  %x      " ctrl_base ;;
  let* data := val_mmio_read ctrl_base in
  if truthy (Z.shiftr data WD_CSR_RSRV_SHIFT) then fails 1
  else
  let* data := val_mmio_read refresh_base in
  if truthy data then fails 2
  else
  let* data := val_mmio_read (u64 (ctrl_base + WD_OR_UPPER_WORD_OFFSET)) in
  if truthy (Z.shiftr data WD_OR_RSRV_SHIFT) then fails 3
  else ret (Continue tt).

Definition os_w001_payload : M () :=
  let N := ACS_WD_TEST_NUM_BASE + 1 in
  let* wd_num := val_wd_get_info 0 WD_INFO_COUNT in
  let* index := my_index in
  val_print ACS_PRINT_DEBUG "\n       Found %d watchdogs in table " wd_num ;;
  if wd_num =? 0 then
    report_with ACS_PRINT_WARN "\n       No Watchdogs reported          %d  " wd_num index (RESULT_SKIP N 1)
  else
  let* ns_wdg := for_ns_watchdogs wd_num (os_w001_watchdog index) in
  match ns_wdg with
  | None => ret tt
  | Some ns_wdg =>
      if ns_wdg =? 0 then
        report_with ACS_PRINT_WARN "\n       No non-secure Watchdogs reported" 0 index (RESULT_SKIP N 3)
      else val_set_status index (RESULT_PASS N 1)
  end.

Definition os_w002_isr : M () :=
  let* index := my_index in
  let* wd_num := static_var "os_w002.wd_num" in
  val_wd_set_ws0 fuel wd_num 0 ;;
  val_print ACS_PRINT_DEBUG "\n       Received WS0 interrupt            " 0 ;;
  val_set_status index (RESULT_PASS (ACS_WD_TEST_NUM_BASE + 2) 1) ;;
  let* int_id := static_var "os_w002.int_id" in
  val_gic_end_of_interrupt int_id ;;
  ret tt.

Definition os_w002_watchdog (index wd_num : Z) : M (ctl () ()) :=
  let N := ACS_WD_TEST_NUM_BASE + 2 in
  let ends (m : M ()) : M (ctl () ()) := m ;; ret (Break tt) in
  let* freq := timer_info TIMER_INFO_CNTFREQ 0 in
  let timeout := u32 (freq * 2) in
  val_set_status index (RESULT_PENDING N) ;;
  let* gsiv := val_wd_get_info wd_num WD_INFO_GSIV in
  set_static "os_w002.int_id" (u32 gsiv) ;;
  let* int_id := static_var "os_w002.int_id" in
  val_print ACS_PRINT_DEBUG "\n       WS0 Interrupt id  %d        " int_id ;;
  let* failed := val_gic_install_isr fuel int_id (symbol "os_w002.isr") in
  if truthy failed then
    ends (report_with ACS_PRINT_ERR "\n       GIC Install Handler Failed..." 0 index (RESULT_FAIL N 1))
  else
  let* edge := val_wd_get_info wd_num WD_INFO_IS_EDGE in
  val_gic_set_intr_trigger int_id
    (if truthy edge then INTR_TRIGGER_INFO_EDGE_RISING else INTR_TRIGGER_INFO_LEVEL_HIGH) ;;
  let* status := val_wd_set_ws0 fuel wd_num 1 in
  if truthy status then
    ends (report_with ACS_PRINT_ERR "\n       Setting watchdof timeout failed" 0 index (RESULT_FAIL N 2))
  else
  let* timeout := await_status fuel index timeout in
  if timeout =? 0 then
    ends (report_with ACS_PRINT_ERR "\n       WS0 Interrupt not received on %d   " int_id index (RESULT_FAIL N 2))
  else ret (Continue tt).

Definition os_w002_payload : M () :=
  let N := ACS_WD_TEST_NUM_BASE + 2 in
  let* index := my_index in
  let* count := val_wd_get_info 0 WD_INFO_COUNT in
  set_static "os_w002.wd_num" count ;;
  if count =? 0 then
    report_with ACS_PRINT_WARN "\n       No Watchdogs reported          %d  " count index (RESULT_SKIP N 1)
  else
  let* r := count_down count (fun wd_num ns_wdg =>
    set_static "os_w002.wd_num" wd_num ;;
    let* secure := val_wd_get_info wd_num WD_INFO_ISSECURE in
    if truthy secure then ret (Continue ns_wdg)
    else
    let* r := os_w002_watchdog index wd_num in
    ret (match r with Continue _ => Continue (ns_wdg + 1) | Break _ => Break tt end)) 0 in
  match r with
  | Break _ => ret tt
  | Continue ns_wdg =>
      when ns_wdg =? 0 then
        report_with ACS_PRINT_WARN "\n       No non-secure Watchdogs reported" 0 index (RESULT_SKIP N 3)
  end.

(** The entry points of the watchdog tests do not look at what starting the test returns:
    the payload runs even when the user asked to skip the test. *)
Definition run_watchdog_test (test_num : Z) (desc : string) (payload : code D) : M Z :=
  let num_pe := 1 in
  val_initialize_test test_num desc num_pe ;;
  val_run_test_payload fuel test_num num_pe payload 0 ;;
  let* error_flag := val_check_for_error test_num num_pe in
  let status := if error_flag =? 0 then ACS_STATUS_PASS else ACS_STATUS_FAIL in
  val_report_status 0 (BSA_ACS_END test_num) ;;
  ret status.

Definition os_w001_entry (num_pe : Z) : M Z :=
  run_watchdog_test (ACS_WD_TEST_NUM_BASE + 1) "B_WD_01,B_WD_02: NS Watchdog Access         "
    (payload_of "os_w001" os_w001_payload).

Definition os_w002_entry (num_pe : Z) : M Z :=
  run_watchdog_test (ACS_WD_TEST_NUM_BASE + 2) "B_WD_03: Check Watchdog WS0 interrupt       "
    (payload_of "os_w002" os_w002_payload).

(** ** Wake-up: five tests in one file, [intid] and [timer_num] shared between them *)

Definition TEST_NUM1 : Z := ACS_WAKEUP_TEST_NUM_BASE + 1.
Definition TEST_NUM2 : Z := ACS_WAKEUP_TEST_NUM_BASE + 2.
Definition TEST_NUM3 : Z := ACS_WAKEUP_TEST_NUM_BASE + 3.
Definition TEST_NUM4 : Z := ACS_WAKEUP_TEST_NUM_BASE + 4.
Definition TEST_NUM5 : Z := ACS_WAKEUP_TEST_NUM_BASE + 5.

(** The end of each handler: report, and end the interrupt whose number is looked up again. *)
Definition finish_isr (index level : Z) (message : string) (status : Z) (id : M Z) : M () :=
  val_print level message 0 ;;
  val_set_status index status ;;
  let* v := id in
  set_static "os_u001.intid" (u32 v) ;;
  let* intid := static_var "os_u001.intid" in
  val_gic_end_of_interrupt intid ;;
  ret tt.

Definition os_u001_isr1 : M () :=
  let* index := my_index in
  let* timer_num := static_var "timer_num" in
  val_wd_set_ws0 fuel timer_num 0 ;;
  finish_isr index ACS_PRINT_INFO "       Received WS0 interrupt          \n" (RESULT_PASS TEST_NUM1 1)
    (let* timer_num := static_var "timer_num" in val_wd_get_info timer_num WD_INFO_GSIV).

Definition os_u001_isr2 : M () :=
  let* index := my_index in
  let* timer_num := static_var "timer_num" in
  let* cnt_base_n := timer_info TIMER_INFO_SYS_CNT_BASE_N timer_num in
  val_timer_disable_system_timer cnt_base_n ;;
  finish_isr index ACS_PRINT_INFO "       Received Sys timer interrupt   \n" (RESULT_PASS TEST_NUM2 1)
    (let* timer_num := static_var "timer_num" in timer_info TIMER_INFO_SYS_INTID timer_num).

(** Whatever the test, it is the third that is reported failed. *)
Definition os_u001_isr_failsafe : M () :=
  let* index := my_index in
  val_timer_set_phy_el1 0 ;;
  finish_isr index ACS_PRINT_ERR "       Received Failsafe interrupt      \n" (RESULT_FAIL TEST_NUM3 1)
    (timer_info TIMER_INFO_PHY_EL1_INTID 0).

Definition os_u001_isr3 : M () :=
  let* index := my_index in
  val_timer_set_phy_el1 0 ;;
  finish_isr index ACS_PRINT_INFO "       Received EL1 PHY interrupt       \n" (RESULT_PASS TEST_NUM3 1)
    (timer_info TIMER_INFO_PHY_EL1_INTID 0).

Definition os_u001_isr4 : M () :=
  let* index := my_index in
  val_timer_set_vir_el1 0 ;;
  finish_isr index ACS_PRINT_INFO "       Received EL1 VIRT interrupt      \n" (RESULT_PASS TEST_NUM4 1)
    (timer_info TIMER_INFO_VIR_EL1_INTID 0).

Definition os_u001_isr5 : M () :=
  let* index := my_index in
  val_timer_set_phy_el2 0 ;;
  finish_isr index ACS_PRINT_INFO "       Received EL2 Physical interrupt  \n" (RESULT_PASS TEST_NUM5 1)
    (timer_info TIMER_INFO_PHY_EL2_INTID 0).

Definition wakeup_set_failsafe : M () :=
  let* v := timer_info TIMER_INFO_PHY_EL1_INTID 0 in
  set_static "os_u001.intid" (u32 v) ;;
  let* intid := static_var "os_u001.intid" in
  val_gic_install_isr fuel intid (symbol "os_u001.isr_failsafe") ;;
  val_timer_set_phy_el1 (u64 (TIMEOUT_LARGE * 10)).

Definition wakeup_clear_failsafe : M () := val_timer_set_phy_el1 0.

(** [intid = id; val_gic_install_isr(intid, isr)] *)
Definition install_for (id : Z) (isr : string) : M Z :=
  set_static "os_u001.intid" (u32 id) ;;
  let* intid := static_var "os_u001.intid" in
  val_gic_install_isr fuel intid (symbol isr).

(** [while (timer_num--)]: the variable is all ones when the loop ends. *)
Definition while_timer_num {A} (body : Z -> A -> M (ctl A ())) (a : A) : M (option A) :=
  let* n := static_var "timer_num" in
  let* r := count_down n (fun timer_num a => set_static "timer_num" timer_num ;; body timer_num a) a in
  match r with
  | Continue a => set_static "timer_num" (u64 (-1)) ;; ret (Some a)
  | Break _ => ret None
  end.

Definition os_u001_watchdog (index timer_num : Z) : M (ctl () ()) :=
  let* gsiv := val_wd_get_info timer_num WD_INFO_GSIV in
  let* status := install_for gsiv "os_u001.isr1" in
  if status =? 0 then
    wakeup_set_failsafe ;;
    let* status := val_wd_set_ws0 fuel timer_num 1 in
    if truthy status then
      report_with ACS_PRINT_ERR "\n       Setting watchdog timeout failed" 0 index (RESULT_FAIL TEST_NUM1 2) ;;
      ret (Break tt)
    else
    val_power_enter_semantic fuel BSA_POWER_SEM_B ;;
    wakeup_clear_failsafe ;;
    ret (Continue tt)
  else
    report_with ACS_PRINT_WARN "\n       GIC Install Handler Failed..." 0 index (RESULT_FAIL TEST_NUM1 1) ;;
    ret (Continue tt).

Definition os_u001_payload1 : M () :=
  let* index := my_index in
  let* n := val_wd_get_info 0 WD_INFO_COUNT in
  set_static "timer_num" n ;;
  if n =? 0 then
    report_with ACS_PRINT_DEBUG "       No watchdog implemented           \n" 0 index (RESULT_SKIP TEST_NUM1 1)
  else
  let* ns_wdg := while_timer_num (fun timer_num ns_wdg =>
    let* secure := val_wd_get_info timer_num WD_INFO_ISSECURE in
    if truthy secure then ret (Continue ns_wdg)
    else
    let* r := os_u001_watchdog index timer_num in
    ret (match r with Continue _ => Continue (ns_wdg + 1) | Break _ => Break tt end)) 0 in
  match ns_wdg with
  | None => ret tt
  | Some ns_wdg =>
      when ns_wdg =? 0 then
        report_with ACS_PRINT_WARN "       No non-secure watchdog implemented   \n" 0 index (RESULT_SKIP TEST_NUM1 2)
  end.

Definition os_u001_systimer (index timer_num : Z) : M (ctl () ()) :=
  let ends (m : M ()) : M (ctl () ()) := m ;; ret (Break tt) in
  let* status := val_timer_skip_if_cntbase_access_not_allowed fuel timer_num in
  if status =? ACS_STATUS_SKIP then
    ends (report_with ACS_PRINT_DEBUG "       Timer cntbase can't accessed\n" 0 index (RESULT_SKIP TEST_NUM2 3))
  else
  let* cnt_base_n := timer_info TIMER_INFO_SYS_CNT_BASE_N timer_num in
  if cnt_base_n =? 0 then
    ends (report_with ACS_PRINT_DEBUG "       Timer cntbase is invalid\n" 0 index (RESULT_SKIP TEST_NUM2 4))
  else
  let* id := timer_info TIMER_INFO_SYS_INTID timer_num in
  let* status := install_for id "os_u001.isr2" in
  if status =? 0 then
    wakeup_set_failsafe ;;
    val_timer_set_system_timer cnt_base_n TIMEOUT_SMALL ;;
    val_power_enter_semantic fuel BSA_POWER_SEM_B ;;
    wakeup_clear_failsafe ;;
    ret (Continue tt)
  else
    ends (report_with ACS_PRINT_WARN "\n       GIC Install Handler Failed..." 0 index (RESULT_FAIL TEST_NUM2 1)).

Definition os_u001_payload2 : M () :=
  let* index := my_index in
  let* n := timer_info TIMER_INFO_NUM_PLATFORM_TIMERS 0 in
  set_static "timer_num" n ;;
  if n =? 0 then
    report_with ACS_PRINT_WARN "       No system timers implemented      \n" 0 index (RESULT_SKIP TEST_NUM2 1)
  else
  let* ns_timer := while_timer_num (fun timer_num ns_timer =>
    let* secure := timer_info TIMER_INFO_IS_PLATFORM_TIMER_SECURE timer_num in
    if truthy secure then ret (Continue ns_timer)
    else
    let* r := os_u001_systimer index timer_num in
    ret (match r with Continue _ => Continue (ns_timer + 1) | Break _ => Break tt end)) 0 in
  match ns_timer with
  | None => ret tt
  | Some ns_timer =>
      when ns_timer =? 0 then
        report_with ACS_PRINT_WARN "       No non-secure systimer implemented   \n" 0 index (RESULT_SKIP TEST_NUM2 3)
  end.

(** A PE timer as the wake-up event; the status is a failure until a handler changes it. *)
Definition wake_from_pe_timer (test_num type : Z) (isr : string) (sleep : M ()) : M () :=
  let* index := my_index in
  val_set_status index (RESULT_FAIL test_num 1) ;;
  let* id := timer_info type 0 in
  let* failed := install_for id isr in
  if truthy failed then
    report_with ACS_PRINT_WARN "\n       GIC Install Handler Failed..." 0 index (RESULT_FAIL test_num 2)
  else sleep.

Definition sleep_b : M () := val_power_enter_semantic fuel BSA_POWER_SEM_B ;; ret tt.

Definition os_u001_payload3 : M () :=
  wake_from_pe_timer TEST_NUM3 TIMER_INFO_PHY_EL1_INTID "os_u001.isr3"
    (val_timer_set_phy_el1 TIMEOUT_SMALL ;; sleep_b).

Definition os_u001_payload4 : M () :=
  wake_from_pe_timer TEST_NUM4 TIMER_INFO_VIR_EL1_INTID "os_u001.isr4"
    (wakeup_set_failsafe ;; val_timer_set_vir_el1 TIMEOUT_SMALL ;; sleep_b ;; wakeup_clear_failsafe).

Definition os_u001_payload5 : M () :=
  wake_from_pe_timer TEST_NUM5 TIMER_INFO_PHY_EL2_INTID "os_u001.isr5"
    (wakeup_set_failsafe ;; val_timer_set_phy_el2 TIMEOUT_SMALL ;; sleep_b ;; wakeup_clear_failsafe).

Definition TEST_RULES : string :=
  "B_WAK_01,B_WAK_03,B_WAK_04,B_WAK_05,B_WAK_06,B_WAK_07,B_WAK_10,B_WAK_11 \n".

(** One of the five; the lines of the rules come before all but the first. *)
Definition wakeup_test (test_num : Z) (desc payload : string) (body : M ()) : M Z :=
  let* status_test := val_initialize_test test_num desc 1 in
  (when negb (status_test =? ACS_STATUS_SKIP) then
     val_run_test_payload fuel test_num 1 (payload_of payload body) 0) ;;
  val_check_for_error test_num 1.

Definition os_u001_entry (num_pe : Z) : M Z :=
  val_print ACS_PRINT_TEST "       TEST Wakeup from Power Semantic B  \n" 0 ;;
  val_print ACS_PRINT_DEBUG TEST_RULES 0 ;;
  let* status := wakeup_test TEST_NUM1 "Wake from Watchdog WS0 Interrupt  " "os_u001.1" os_u001_payload1 in
  val_print ACS_PRINT_DEBUG TEST_RULES 0 ;;
  let* r := wakeup_test TEST_NUM2 "Wake from System Timer Interrupt  " "os_u001.2" os_u001_payload2 in
  let status := Z.lor status r in
  val_print ACS_PRINT_DEBUG TEST_RULES 0 ;;
  let* r := wakeup_test TEST_NUM3 "Wake from EL0 PHY Timer Interrupt " "os_u001.3" os_u001_payload3 in
  let status := Z.lor status r in
  val_print ACS_PRINT_DEBUG TEST_RULES 0 ;;
  let* r := wakeup_test TEST_NUM4 "Wake from EL0 VIRT Timer Interrupt" "os_u001.4" os_u001_payload4 in
  let status := Z.lor status r in
  let* el := val_pe_reg_read CurrentEL in
  let* status :=
    if el =? AARCH64_EL2 then
      val_print ACS_PRINT_DEBUG TEST_RULES 0 ;;
      let* r := wakeup_test TEST_NUM5 "Wake from EL2 PHY Timer Interrupt " "os_u001.5" os_u001_payload5 in
      ret (Z.lor status r)
    else ret status in
  val_report_status 0 (BSA_ACS_END TEST_NUM1) ;;
  ret status.

(** ** The entry points of the timer tests *)

Definition os_t001_entry (num_pe : Z) : M Z :=
  run_on_one fuel (ACS_TIMER_TEST_NUM_BASE + 1) "B_TIME_01,B_TIME_02: Check Counter Frequency  " num_pe
    (payload_of "os_t001" os_t001_payload).

Definition os_t002_entry (num_pe : Z) : M Z :=
  run_on_one fuel (ACS_TIMER_TEST_NUM_BASE + 2) "B_TIME_06: SYS Timer if PE Timer not ON       " num_pe
    (payload_of "os_t002" os_t002_payload).

Definition os_t003_entry (num_pe : Z) : M Z :=
  run_on_one fuel (ACS_TIMER_TEST_NUM_BASE + 3) "B_TIME_07,B_TIME_10: Memory mapped timer check" num_pe
    (payload_of "os_t003" os_t003_payload).

Definition os_t004_entry (num_pe : Z) : M Z :=
  run_on_one fuel (ACS_TIMER_TEST_NUM_BASE + 4) "B_TIME_08: Generate Mem Mapped SYS Timer Intr " num_pe
    (payload_of "os_t004" os_t004_payload).

Definition os_t005_entry (num_pe : Z) : M Z :=
  run_on_one fuel (ACS_TIMER_TEST_NUM_BASE + 5) "B_TIME_09: Check always ON PE timer           " num_pe
    (payload_of "os_t005" os_t005_payload).
End tests.
