(* ===== verification/TestGic.v ===== *)
(** * The GIC and GICv2m tests

    src/test_pool/gic and src/test_pool/gic_v2m: payloads, handlers and entry points. *)

From S2P Require Import Prelude Types World Status Machine PeInfra TestInfra Pcie Timer Gic Its GicInt TestEntry TestIrq.
#[local] Open Scope c_scope.

Section tests.
Context {D : Type} `{Platform D} `{Handlers D} `{Interrupts D} `{Edk2 D} `{EfiInterrupts D} (fuel : nat).

#[local] Abbreviation M := (M (world D)).
#[local] Abbreviation gic_info := (val_gic_get_info fuel).

(** ** Operating system *)

Definition os_g001_payload : M () :=
  let N := ACS_GIC_TEST_NUM_BASE + 1 in
  let* index := my_index in
  let* gic_version := gic_info GIC_INFO_VERSION in
  val_print ACS_PRINT_INFO "\n       Received GIC version = %4d      " gic_version ;;
  if gic_version <? 2 then
    val_print ACS_PRINT_ERR "\n       GIC version is %x                 " gic_version ;;
    val_set_status index (RESULT_FAIL N 1)
  else val_set_status index (RESULT_PASS N 1).

Definition os_g002_payload : M () :=
  let N := ACS_GIC_TEST_NUM_BASE + 2 in
  let* index := my_index in
  let* n := val_pcie_get_info PCIE_INFO_NUM_ECAM 0 in
  let num_ecam := u32 n in
  let* gic_version := gic_info GIC_INFO_VERSION in
  let* num_msi_frame := gic_info GIC_INFO_NUM_MSI_FRAME in
  val_print ACS_PRINT_INFO "\n       Received GIC version = %4d      " gic_version ;;
  if gic_version <? 3 then
    if (0 <? num_ecam) && (num_msi_frame =? 0) then
      val_print ACS_PRINT_ERR "\n       GICv2 with PCIe : Invalid Configuration" 0 ;;
      val_set_status index (RESULT_FAIL N 1)
    else val_set_status index (RESULT_PASS N 1)
  else val_set_status index (RESULT_SKIP N 1).

Definition os_g003_payload : M () :=
  let N := ACS_GIC_TEST_NUM_BASE + 3 in
  let* index := my_index in
  let* n := val_pcie_get_info PCIE_INFO_NUM_ECAM 0 in
  let num_ecam := u32 n in
  let* gic_ver := gic_info GIC_INFO_VERSION in
  if negb (num_ecam =? 0) && (3 <=? gic_ver) then
    let* data := gic_info GIC_INFO_NUM_ITS in
    if data =? 0 then
      val_print ACS_PRINT_ERR "\n       GICv3 and PCIe : ITS Not Present" 0 ;;
      val_set_status index (RESULT_FAIL N 1)
    else
    let* v := gicd_read fuel GICD_TYPER in
    let data := VAL_EXTRACT_BITS v 17 17 in
    if data =? 0 then
      val_print ACS_PRINT_ERR "\n       GICv3 and PCIe : LPI Not Supported" 0 ;;
      val_set_status index (RESULT_FAIL N 2)
    else val_set_status index (RESULT_PASS N 1)
  else val_set_status index (RESULT_SKIP N 1).

Definition os_g004_payload : M () :=
  let N := ACS_GIC_TEST_NUM_BASE + 4 in
  let* index := my_index in
  let* gic_version := gic_info GIC_INFO_VERSION in
  if gic_version <? 3 then val_set_status index (RESULT_SKIP N 1)
  else
  let* data := gic_info GIC_INFO_SEC_STATES in
  val_set_status index (if negb (data =? 0) then RESULT_FAIL N 1 else RESULT_PASS N 1).

(** The register that enables the SGIs, written back with its low bits set, of the redistributor or of the
    distributor as its read and its write say. *)
Definition os_g005_sgis (index type : Z) (read : M Z) (write : Z -> M ()) (message : string) : M () :=
  let N := ACS_GIC_TEST_NUM_BASE + 5 in
  let* v := read in
  let data := Z.lor v 0xFFFF in
  write data ;;
  let* v := gic_info type in
  let data := VAL_EXTRACT_BITS v 0 7 in
  if data =? 0xFF then val_set_status index (RESULT_PASS N 1)
  else
    val_print ACS_PRINT_DEBUG message data ;;
    val_print ACS_PRINT_ERR "\n      INTID 0 - 7 not implemented as non-secure SGIs" 0 ;;
    val_set_status index (RESULT_FAIL N 1).

(** The address of the register in the frame of the redistributor. *)
Definition gicr_isenabler : M Z :=
  let* ' (base, _) := val_get_gicr_base fuel in ret (u64 (base + RD_FRAME_SIZE + GICR_ISENABLER)).

Definition os_g005_payload : M () :=
  let N := ACS_GIC_TEST_NUM_BASE + 5 in
  let* are_ns := gic_info GIC_INFO_AFFINITY_NS in
  let* index := my_index in
  let* enable_grp1ns :=
    if truthy are_ns then
      let* v := gic_info GIC_INFO_ENABLE_GROUP1NS in ret (Z.shiftr (Z.land v 0x2) 1)
    else let* v := gic_info GIC_INFO_ENABLE_GROUP1NS in ret (Z.land v 0x1) in
  if enable_grp1ns =? 0 then
    val_print ACS_PRINT_ERR "\n      Non-secure SGIs not forwarded" 0 ;;
    val_set_status index (RESULT_FAIL N 1)
  else if truthy are_ns then
    os_g005_sgis index GIC_INFO_SGI_NON_SECURE
      (let* a := gicr_isenabler in val_mmio_read a)
      (fun data => let* a := gicr_isenabler in val_mmio_write a data)
      "\n      GICR_ISENABLER0: %X\n "
  else
    os_g005_sgis index GIC_INFO_SGI_NON_SECURE_LEGACY
      (gicd_read fuel GICD_ISENABLER) (gicd_write fuel GICD_ISENABLER)
      "\n      GICD_IENABLER<n>: %X\n ".

(** The handlers set the status of the PE in slot 0, whichever took the interrupt. *)
Definition os_g006_isr (stop : M ()) : M () :=
  stop ;;
  val_print ACS_PRINT_INFO "\n       Received interrupt   " 0 ;;
  val_set_status 0 (RESULT_PASS (ACS_GIC_TEST_NUM_BASE + 6) 1) ;;
  let* intid := static_var "os_g006.intid" in
  val_gic_end_of_interrupt intid ;;
  ret tt.

Definition os_g006_isr_phy : M () := os_g006_isr (val_timer_set_phy_el1 0).
Definition os_g006_isr_vir : M () := os_g006_isr (val_timer_set_vir_el1 0).

(** One timer: what is left of the counter, [None] when the payload has returned. *)
Definition os_g006_timer (index type : Z) (isr : string) (start : M ()) (unmapped missing : string)
    (timeout : Z) : M (option Z) :=
  let* id := val_timer_get_info fuel type 0 in
  set_static "os_g006.intid" (u32 id) ;;
  let* intid := static_var "os_g006.intid" in
  (when (intid <? 16) || (31 <? intid) then val_print ACS_PRINT_WARN unmapped intid) ;;
  val_gic_install_isr fuel intid (symbol isr) ;;
  start ;;
  let* timeout := await_status fuel index timeout in
  if timeout =? 0 then
    let* intid := static_var "os_g006.intid" in
    val_print ACS_PRINT_ERR missing intid ;;
    val_set_status index (RESULT_FAIL (ACS_GIC_TEST_NUM_BASE + 6) 1) ;;
    ret None
  else ret (Some timeout).

Definition os_g006_payload : M () :=
  let* index := my_index in
  let* r := os_g006_timer index TIMER_INFO_PHY_EL1_INTID "os_g006.isr_phy" (val_timer_set_phy_el1 100)
    "\n       EL0-Phy timer not mapped to PPI recommended range, INTID: %d   "
    "\n       EL0-Phy timer interrupt not received on INTID: %d   " TIMEOUT_LARGE in
  match r with
  | None => ret tt
  | Some timeout =>
      val_set_status 0 (RESULT_PENDING (ACS_GIC_TEST_NUM_BASE + 6)) ;;
      os_g006_timer index TIMER_INFO_VIR_EL1_INTID "os_g006.isr_vir" (val_timer_set_vir_el1 100)
        "\n       EL0-Virtual timer not mapped to PPI recommended range, INTID: %d   "
        "\n       EL0-Virtual timer interrupt not received on INTID: %d   " timeout ;;
      ret tt
  end.

(** ** Hypervisor *)

Definition hyp_g001_isr (stop : M ()) (message : string) : M () :=
  let* index := my_index in
  stop ;;
  val_print ACS_PRINT_INFO message 0 ;;
  val_set_status index (RESULT_PASS (ACS_GIC_HYP_TEST_NUM_BASE + 1) 1) ;;
  let* intid := static_var "hyp_g001.intid" in
  val_gic_end_of_interrupt intid ;;
  ret tt.

Definition hyp_g001_isr_vir : M () := hyp_g001_isr (val_timer_set_vir_el2 0) "\n       Received interrupt    ".
Definition hyp_g001_isr_phy : M () := hyp_g001_isr (val_timer_set_phy_el2 0) "\n       Received interrupt     ".

Definition hyp_g001_isr_mnt : M () :=
  let* index := my_index in
  let* v := val_gic_reg_read fuel ICH_HCR_EL2 in
  let data := Z.land (u32 v) (not32 0x7) in
  val_gic_reg_write fuel ICH_HCR_EL2 data ;;
  val_set_status index (RESULT_PASS (ACS_GIC_HYP_TEST_NUM_BASE + 1) 1) ;;
  val_print ACS_PRINT_INFO "\n       Received GIC maintenance interrupt " 0 ;;
  let* intid := static_var "hyp_g001.intid" in
  val_gic_end_of_interrupt intid ;;
  ret tt.

(** The virtual timer of EL2, where there is one. Its timeout is not the end of the test,
    and the counter goes on from where it is, 0 included. [None]: the payload returns. *)
Definition hyp_g001_virtual (index timeout : Z) : M (option Z) :=
  let N := ACS_GIC_HYP_TEST_NUM_BASE + 1 in
  let* v := val_pe_reg_read ID_AA64MMFR1_EL1 in
  let data := u32 v in
  if truthy (Z.land (Z.shiftr data 8) 0xF) then
    let* id := val_timer_get_info fuel TIMER_INFO_VIR_EL2_INTID 0 in
    set_static "hyp_g001.intid" (u32 id) ;;
    let* intid := static_var "hyp_g001.intid" in
    if (15 <? intid) && (intid <? 32) then
      let* failed := val_gic_install_isr fuel intid (symbol "hyp_g001.isr_vir") in
      if truthy failed then
        val_print ACS_PRINT_ERR "\n       GIC Install Handler Failed..." 0 ;;
        val_set_status index (RESULT_FAIL N 2) ;;
        ret None
      else
      val_timer_set_vir_el2 100 ;;
      let* timeout := await_status fuel index timeout in
      (when timeout =? 0 then
         (let* intid := static_var "hyp_g001.intid" in
          val_print ACS_PRINT_ERR "\n       EL2-Virtual timer interrupt not received on INTID: %d   " intid ;;
          val_set_status index (RESULT_FAIL N 3))) ;;
      ret (Some timeout)
    else
      val_print ACS_PRINT_WARN "\n       EL2-Virtual timer not mapped to PPI base range, INTID: %d   " intid ;;
      ret (Some timeout)
  else
    val_print ACS_PRINT_WARN "\n       v8.1 VHE not supported on this PE " 0 ;;
    ret (Some timeout).

Definition hyp_g001_physical (index timeout : Z) : M (option Z) :=
  let N := ACS_GIC_HYP_TEST_NUM_BASE + 1 in
  val_set_status index (RESULT_PENDING N) ;;
  let* id := val_timer_get_info fuel TIMER_INFO_PHY_EL2_INTID 0 in
  set_static "hyp_g001.intid" (u32 id) ;;
  let* intid := static_var "hyp_g001.intid" in
  if (intid <? 16) || (31 <? intid) then
    val_print ACS_PRINT_WARN "\n       EL2-Phy timer not mapped to PPI base range, INTID: %d   " intid ;;
    val_set_status index (RESULT_SKIP N 3) ;;
    ret None
  else
  let* failed := val_gic_install_isr fuel intid (symbol "hyp_g001.isr_phy") in
  if truthy failed then
    val_print ACS_PRINT_ERR "\n       GIC Install Handler Failed..." 0 ;;
    val_set_status index (RESULT_FAIL N 4) ;;
    ret None
  else
  val_timer_set_phy_el2 100 ;;
  let* timeout := await_status fuel index timeout in
  (when timeout =? 0 then
     (let* intid := static_var "hyp_g001.intid" in
      val_print ACS_PRINT_ERR "\n       EL2-Phy timer interrupt not received on INTID: %d   " intid ;;
      val_set_status index (RESULT_FAIL N 5))) ;;
  ret (Some timeout).

Definition hyp_g001_maintenance (index timeout : Z) : M () :=
  let N := ACS_GIC_HYP_TEST_NUM_BASE + 1 in
  val_set_status index (RESULT_PENDING N) ;;
  let* gsiv := val_pe_get_gmain_gsiv index in
  set_static "hyp_g001.intid" gsiv ;;
  let* intid := static_var "hyp_g001.intid" in
  if (intid <? 16) || (31 <? intid) then
    val_print ACS_PRINT_WARN "\n       GIC Maintenance interrupt not mapped to PPI base range, INTID: %d   " intid ;;
    val_set_status index (RESULT_SKIP N 5)
  else
  let* failed := val_gic_install_isr fuel intid (symbol "hyp_g001.isr_mnt") in
  if truthy failed then
    val_print ACS_PRINT_ERR "\n       GIC Install Handler Failed..." 0 ;;
    val_set_status index (RESULT_FAIL N 6)
  else
  let* v := val_gic_reg_read fuel ICH_HCR_EL2 in
  val_gic_reg_write fuel ICH_HCR_EL2 (Z.lor (u32 v) 0x7) ;;
  let* timeout := await_status fuel index timeout in
  when timeout =? 0 then
    (val_print ACS_PRINT_ERR "\n       Interrupt not received within timeout" 0 ;;
     val_set_status index (RESULT_FAIL N 7)).

Definition hyp_g001_payload : M () :=
  let N := ACS_GIC_HYP_TEST_NUM_BASE + 1 in
  let* index := my_index in
  let* el := val_pe_reg_read CurrentEL in
  if el =? AARCH64_EL1 then
    val_print ACS_PRINT_WARN "\n       Skipping. Test accesses EL2 Registers       " 0 ;;
    val_set_status index (RESULT_SKIP N 1)
  else
  val_set_status index (RESULT_PENDING N) ;;
  let* r := hyp_g001_virtual index TIMEOUT_LARGE in
  match r with
  | None => ret tt
  | Some timeout =>
      let* r := hyp_g001_physical index timeout in
      match r with
      | None => ret tt
      | Some timeout => hyp_g001_maintenance index timeout
      end
  end.

(** ** GICv2m *)

(** The payloads end at once without a frame; otherwise they go over the frames. *)
Definition when_frames (index skip : Z) (k : Z -> M ()) : M () :=
  let* msi_frame := gic_info GIC_INFO_NUM_MSI_FRAME in
  if msi_frame =? 0 then
    val_print ACS_PRINT_DEBUG "\n       No MSI frame, Skipping               " 0 ;;
    val_set_status index skip
  else k msi_frame.

(** The interrupts of a frame: [Break] when the payload returns. *)
Definition os_v001_frame (index instance : Z) (a : Z * Z) : M (ctl (Z * Z) ()) :=
  let* spi_base := val_gic_v2m_get_info V2M_MSI_SPI_BASE instance in
  let* num_spi := val_gic_v2m_get_info V2M_MSI_SPI_NUM instance in
  for_ (Z.to_nat (u32 (spi_base + num_spi) - spi_base)) spi_base (fun spi_id '(fail_cnt, test_skip) =>
    let* ' (status, trigger_type) := val_gic_get_intr_trigger_type fuel spi_id in
    if truthy status then
      val_set_status index (RESULT_FAIL (ACS_GIC_V2M_TEST_NUM_BASE + 1) 1) ;;
      ret (Break tt)
    else
    let* trigger_type := need trigger_type in
    if negb (trigger_type =? INTR_TRIGGER_INFO_EDGE_RISING) then
      val_print ACS_PRINT_DEBUG "\n       Error : SPI ID 0x%x Level Triggered " spi_id ;;
      ret (Continue (u32 (fail_cnt + 1), 0))
    else ret (Continue (fail_cnt, 0))) a.

Definition os_v001_payload : M () :=
  let N := ACS_GIC_V2M_TEST_NUM_BASE + 1 in
  let* index := my_index in
  when_frames index (RESULT_SKIP N 1) (fun msi_frame =>
    let* r := for_ (Z.to_nat msi_frame) 0 (os_v001_frame index) (0, 1) in
    match r with
    | Break _ => ret tt
    | Continue (fail_cnt, test_skip) =>
        if truthy test_skip then
          val_print ACS_PRINT_WARN "\n       No SPI Information Found. Skipping   " 0 ;;
          val_set_status index (RESULT_SKIP N 2)
        else if truthy fail_cnt then
          val_print ACS_PRINT_ERR "\n       SPI Trigger Type Check Failed" 0 ;;
          val_set_status index (RESULT_FAIL N 2)
        else val_set_status index (RESULT_PASS N 1)
    end).

(** [fail_cnt++] and a message. *)
Definition v2m_failed (b : bool) (message : string) (instance fail_cnt : Z) : M Z :=
  if b then val_print ACS_PRINT_DEBUG message instance ;; ret (u32 (fail_cnt + 1)) else ret fail_cnt.

(** A read-only register: all its bits are inverted and it is read again. *)
Definition v2m_changes (addr : Z) : M bool :=
  let* data := val_mmio_read addr in
  val_mmio_write addr (Z.lxor data 0xFFFFFFFF) ;;
  let* new_data := val_mmio_read addr in
  ret (negb (data =? new_data)).

Definition os_v002_frame (instance fail_cnt : Z) : M Z :=
  let* frame_base := val_gic_v2m_get_info V2M_MSI_FRAME_BASE instance in
  let* typer := v2m_changes (u64 (frame_base + GICv2m_MSI_TYPER)) in
  let* fail_cnt := v2m_failed typer "\n       MSI_TYPER RO Check Failed for instance %d" instance fail_cnt in
  let* min_spi_id := val_gic_v2m_get_info V2M_MSI_SPI_BASE instance in
  let* num_spi := val_gic_v2m_get_info V2M_MSI_SPI_NUM instance in
  let* fail_cnt := v2m_failed ((min_spi_id <? 32) || (1020 <? u32 (min_spi_id + num_spi)))
                     "\n       SPI ID Check Failed for instance %d" instance fail_cnt in
  let* iidr := v2m_changes (u64 (frame_base + GICv2m_MSI_IIDR)) in
  v2m_failed iidr "\n       MSI_IIDR RO Check Failed for instance %d" instance fail_cnt.

Definition os_v002_payload : M () :=
  let N := ACS_GIC_V2M_TEST_NUM_BASE + 2 in
  let* index := my_index in
  when_frames index (RESULT_SKIP N 1) (fun msi_frame =>
    let* fail_cnt := for_acc (Z.to_nat msi_frame) 0 os_v002_frame 0 in
    if truthy fail_cnt then
      val_print ACS_PRINT_ERR "\n       MSI_TYPER Register Check Failed" 0 ;;
      val_set_status index (RESULT_FAIL N 1)
    else val_set_status index (RESULT_PASS N 1)).

(** The handlers of v003 and v004. *)
Definition v2m_isr (test : string) (test_num : Z) : M () :=
  let* index := my_index in
  val_print ACS_PRINT_INFO "\n Received SPI " 0 ;;
  val_set_status index (RESULT_PASS test_num 1) ;;
  let* int_id := static_var (test ++ ".int_id") in
  val_gic_end_of_interrupt int_id ;;
  ret tt.

Definition os_v003_isr : M () := v2m_isr "os_v003" (ACS_GIC_V2M_TEST_NUM_BASE + 3).
Definition os_v004_isr : M () := v2m_isr "os_v004" (ACS_GIC_V2M_TEST_NUM_BASE + 4).

(** Their frame: the last interrupt of each frame gets the handler, then the two parts, which
    share the counter; [None] of a part is the end of the payload. *)
Definition v2m_frames (test : string) (test_num : Z) (parts : Z -> Z -> Z -> Z -> M (option Z)) : M () :=
  let* index := my_index in
  when_frames index (RESULT_SKIP test_num 1) (fun msi_frame =>
    for_ (Z.to_nat msi_frame) 0 (fun instance timeout =>
      let* frame_base := val_gic_v2m_get_info V2M_MSI_FRAME_BASE instance in
      let* min_spi_id := val_gic_v2m_get_info V2M_MSI_SPI_BASE instance in
      let* num_spi := val_gic_v2m_get_info V2M_MSI_SPI_NUM instance in
      let int_id := u32 (min_spi_id + num_spi - 1) in
      set_static (test ++ ".int_id") int_id ;;
      let* failed := val_gic_install_isr fuel int_id (symbol (test ++ ".isr")) in
      if truthy failed then
        val_print ACS_PRINT_ERR "\n       GIC Install Handler Failed..." 0 ;;
        val_set_status index (RESULT_FAIL test_num 1) ;;
        ret (Break tt)
      else
      let* r := parts index frame_base int_id timeout in
      ret (match r with Some timeout => Continue timeout | None => Break tt end)) TIMEOUT_MEDIUM ;;
    ret tt).

(** The counter must not have run out. *)
Definition v2m_received (index fail timeout : Z) : M (option Z) :=
  if timeout =? 0 then
    val_print ACS_PRINT_ERR "\n       Interrupt not received within timeout" 0 ;;
    val_set_status index fail ;;
    ret None
  else ret (Some timeout).

Definition os_v003_parts (index frame_base int_id timeout : Z) : M (option Z) :=
  let N := ACS_GIC_V2M_TEST_NUM_BASE + 3 in
  val_mmio_write (u64 (frame_base + GICv2m_MSI_SETSPI)) int_id ;;
  let* timeout := await_status_after fuel index timeout in
  let* r := v2m_received index (RESULT_FAIL N 2) timeout in
  match r with
  | None => ret None
  | Some timeout =>
      val_mmio_write16 (u64 (frame_base + GICv2m_MSI_SETSPI)) int_id ;;
      let* timeout := await_status_after fuel index timeout in
      v2m_received index (RESULT_FAIL N 3) timeout
  end.

Definition os_v003_payload : M () := v2m_frames "os_v003" (ACS_GIC_V2M_TEST_NUM_BASE + 3) os_v003_parts.

(** The first part waits until the counter is 0, which is then that of the second. *)
Definition os_v004_parts (index frame_base int_id timeout : Z) : M (option Z) :=
  let N := ACS_GIC_V2M_TEST_NUM_BASE + 4 in
  let reg_offset := int_id / 32 in
  let reg_shift := int_id mod 32 in
  gicd_write fuel (GICD_ISPENDR + u32 (4 * reg_offset)) (u32 (Z.shiftl 1 reg_shift)) ;;
  let* timeout := await_status_after fuel index timeout in
  if negb (timeout =? 0) then
    val_print ACS_PRINT_ERR "\n       Interrupt generated by GICD registers" 0 ;;
    val_set_status index (RESULT_FAIL N 2) ;;
    ret None
  else
  val_mmio_write (u64 (frame_base + GICv2m_MSI_SETSPI)) int_id ;;
  let* timeout := await_status_after fuel index timeout in
  v2m_received index (RESULT_FAIL N 3) timeout.

Definition os_v004_payload : M () := v2m_frames "os_v004" (ACS_GIC_V2M_TEST_NUM_BASE + 4) os_v004_parts.

(** ** The entry points *)

Definition os_g001_entry (num_pe : Z) : M Z :=
  run_on_one fuel (ACS_GIC_TEST_NUM_BASE + 1) "B_GIC_01: Check GIC version                 " num_pe
    (payload_of "os_g001" os_g001_payload).

Definition os_g002_entry (num_pe : Z) : M Z :=
  run_on_one fuel (ACS_GIC_TEST_NUM_BASE + 2) "B_GIC_02: Check GICv2 Valid Configuration   " num_pe
    (payload_of "os_g002" os_g002_payload).

Definition os_g003_entry (num_pe : Z) : M Z :=
  run_on_one fuel (ACS_GIC_TEST_NUM_BASE + 3) "B_GIC_03: If PCIe, GICv3 then ITS, LPI      " num_pe
    (payload_of "os_g003" os_g003_payload).

Definition os_g004_entry (num_pe : Z) : M Z :=
  run_on_one fuel (ACS_GIC_TEST_NUM_BASE + 4) "B_GIC_04: Check GICv3 Security States       " num_pe
    (payload_of "os_g004" os_g004_payload).

Definition os_g005_entry (num_pe : Z) : M Z :=
  run_on_one fuel (ACS_GIC_TEST_NUM_BASE + 5) "B_GIC_05: Non-secure SGIs are implemented   " num_pe
    (payload_of "os_g005" os_g005_payload).

Definition os_g006_entry (num_pe : Z) : M Z :=
  run_on_one fuel (ACS_GIC_TEST_NUM_BASE + 6) "B_PPI_01: Check PPI Assignments for OS      " num_pe
    (payload_of "os_g006" os_g006_payload).

Definition hyp_g001_entry (num_pe : Z) : M Z :=
  run_on_one fuel (ACS_GIC_HYP_TEST_NUM_BASE + 1) "B_PPI_02: Check PPI Assignments Hypervisor  " num_pe
    (payload_of "hyp_g001" hyp_g001_payload).

Definition os_v001_entry (num_pe : Z) : M Z :=
  run_on_one fuel (ACS_GIC_V2M_TEST_NUM_BASE + 1) "Check MSI SPI are Edge Triggered            " num_pe
    (payload_of "os_v001" os_v001_payload).

Definition os_v002_entry (num_pe : Z) : M Z :=
  run_on_one fuel (ACS_GIC_V2M_TEST_NUM_BASE + 2) "Check GICv2m MSI Frame Register             " num_pe
    (payload_of "os_v002" os_v002_payload).

Definition os_v003_entry (num_pe : Z) : M Z :=
  run_on_one fuel (ACS_GIC_V2M_TEST_NUM_BASE + 3) "Check GICv2m MSI to SPI Generation          " num_pe
    (payload_of "os_v003" os_v003_payload).

Definition os_v004_entry (num_pe : Z) : M Z :=
  run_on_one fuel (ACS_GIC_V2M_TEST_NUM_BASE + 4) "Check GICv2m SPI allocated to MSI Control   " num_pe
    (payload_of "os_v004" os_v004_payload).
End tests.
