(* ===== verification/TestMemory.v ===== *)
(** * The memory map tests

    src/test_pool/memory_map: payloads, handlers and entry points; and what of acs_memory.c
    only forwards to the platform layer. *)

From S2P Require Import Prelude Types World Status Machine PeInfra TestInfra Pcie PcieDevice Memory Peripherals Timer TestEntry TestIrq.
#[local] Open Scope c_scope.

(** The platform layer's side of acs_memory.c; the address is written only on success. *)
Class PalMemory (D : Type) := {
  pal_memory_get_unpopulated_addr : Z -> M (world D) (Z * option Z);
  pal_memory_ioremap : Z -> Z -> Z -> M (world D) Z
}.

(** Whether a store takes an exception. *)
Class StoreHardware (D : Type) := { store_aborts : Z -> D -> bool * D }.

Section tests.
Context {D : Type} `{Platform D} `{PalMemory D} `{TestHardware D} `{StoreHardware D} `{PalPci D} (fuel : nat).

#[local] Abbreviation M := (M (world D)).

Definition val_memory_get_unpopulated_addr (instance : Z) : M (Z * option Z) :=
  pal_memory_get_unpopulated_addr instance.
Definition val_memory_ioremap (addr size attr : Z) : M Z := pal_memory_ioremap addr size attr.

(** A volatile store; one that aborts runs the handler, which resumes the program at the
    label in its static variable: [false]. *)
Definition store_or_abort (esr : M ()) (width addr v : Z) : M bool :=
  let* aborts := from_dev (store_aborts addr) in
  if aborts : bool then esr ;; ret false
  else on_dev (dev_write width addr v) ;; ret true.

(** The frame of m001 and m002: every PE is made pending, one runs, and a skip is a failure. *)
Definition memory_test (test_num : Z) (desc : string) (payload : code D) : M Z :=
  let num_pe := 1 in
  let* n := val_pe_get_num in
  let* status := val_initialize_test test_num desc n in
  (when negb (status =? ACS_STATUS_SKIP) then val_run_test_payload fuel test_num num_pe payload 0) ;;
  let* error_flag := val_check_for_error test_num num_pe in
  let status := if error_flag =? 0 then ACS_STATUS_PASS else ACS_STATUS_FAIL in
  val_report_status 0 (BSA_ACS_END test_num) ;;
  ret status.

(** ** m001: an access to memory that is not there *)

Definition m001_LOOP_VAR : Z := 3.

Definition os_m001_esr : M () :=
  let* index := my_index in
  let* branch_to_test := static_var "os_m001.branch_to_test" in
  val_pe_update_elr branch_to_test ;;
  val_print ACS_PRINT_INFO "\n       Received DAbort Exception " 0 ;;
  val_set_status index (RESULT_PASS (ACS_MEMORY_MAP_TEST_BASE + 1) 1).

(** One address; [Break]: the payload returns. *)
Definition os_m001_address (index instance : Z) : M (ctl () ()) :=
  let N := ACS_MEMORY_MAP_TEST_BASE + 1 in
  let* ' (status, addr) := val_memory_get_unpopulated_addr instance in
  if status =? PCIE_NO_MAPPING then
    val_print ACS_PRINT_INFO "\n      All instances of unpopulated memory were obtained" 0 ;;
    ret (Break tt)
  else if truthy status then
    val_print ACS_PRINT_ERR "\n      Error in obtaining unpopulated memory for instance 0x%d" instance ;;
    ret (Break tt)
  else
  let* addr := need addr in
  let* ' (type, _) := val_memory_get_info fuel addr in
  if type =? MEM_TYPE_NOT_POPULATED then
    val_set_status index (RESULT_FAIL N 1) ;;
    set_static "os_m001.branch_to_test" (symbol "os_m001.exception_taken") ;;
    store_or_abort os_m001_esr 8 addr 0x100 ;;
    let* s := val_get_status index in
    if IS_TEST_FAIL s then
      val_print ACS_PRINT_ERR "\n      Memory access check fails at address = 0x%llx " addr ;;
      ret (Break tt)
    else ret (Continue tt)
  else ret (Continue tt).

Definition os_m001_payload : M () :=
  let* index := my_index in
  val_pe_install_esr EXCEPT_AARCH64_SYNCHRONOUS_EXCEPTIONS (symbol "os_m001.esr") ;;
  val_pe_install_esr EXCEPT_AARCH64_SERROR (symbol "os_m001.esr") ;;
  val_set_status index (RESULT_SKIP (ACS_MEMORY_MAP_TEST_BASE + 1) 1) ;;
  for_ (Z.to_nat m001_LOOP_VAR) 0 (fun instance _ => os_m001_address index instance) tt ;;
  ret tt.

Definition os_m001_entry (num_pe : Z) : M Z :=
  memory_test (ACS_MEMORY_MAP_TEST_BASE + 1) "B_MEM_02: Memory Access to Un-Populated addr"
    (payload_of "os_m001" os_m001_payload).

(** ** m002: accesses to device and normal memory answer *)

Definition os_m002_esr : M () :=
  let* branch_to_test := static_var "os_m002.branch_to_test" in
  val_pe_update_elr branch_to_test ;;
  val_print ACS_PRINT_DEBUG "\n       Received DAbort Exception " 0.

(** 64 bits are read into a variable of 32 and written back, then the delay, which leaves all
    ones in the counter; an access that aborts goes to the end of it. *)
Definition os_m002_access (addr : Z) : M () :=
  let* v := load_or_abort os_m002_esr 8 addr in
  match v with
  | None => ret tt
  | Some v =>
      let original_value := u32 v in
      let* stored := store_or_abort os_m002_esr 8 addr original_value in
      when (stored : bool) then set_static "timeout" (u32 (-1))
  end.

(** The addresses of one type of memory: whether all three were there. The counters are
    global, and initialised once. *)
Definition os_m002_region (index type pass : Z) (message : string) : M bool :=
  let* loop_var := static_init "loop_var" m001_LOOP_VAR in
  let* r := for_ (Z.to_nat loop_var) 0 (fun _ _ =>
    set_static "timeout" TIMEOUT_SMALL ;;
    let* instance := static_var "instance" in
    let* ' (addr, _) := val_memory_get_addr fuel type instance in
    if addr =? 0 then val_print ACS_PRINT_DEBUG message instance ;; ret (Break tt)
    else
    os_m002_access addr ;;
    val_set_status index pass ;;
    (let* v := static_init "loop_var" m001_LOOP_VAR in set_static "loop_var" (u32 (v - 1))) ;;
    (let* v := static_var "instance" in set_static "instance" (u32 (v + 1))) ;;
    ret (Continue tt)) tt in
  ret (match r with Continue _ => true | Break _ => false end).

Definition os_m002_payload : M () :=
  let N := ACS_MEMORY_MAP_TEST_BASE + 2 in
  let* index := my_index in
  val_pe_install_esr EXCEPT_AARCH64_SYNCHRONOUS_EXCEPTIONS (symbol "os_m002.esr") ;;
  val_pe_install_esr EXCEPT_AARCH64_SERROR (symbol "os_m002.esr") ;;
  val_set_status index (RESULT_SKIP N 1) ;;
  set_static "os_m002.branch_to_test" (symbol "os_m002.exception_taken_d") ;;
  os_m002_region index MEMORY_TYPE_DEVICE (RESULT_PASS N 1)
    "\n      Error in obtaining device memory for instance %d" ;;
  set_static "loop_var" m001_LOOP_VAR ;;
  set_static "instance" 0 ;;
  set_static "os_m002.branch_to_test" (symbol "os_m002.exception_taken_n") ;;
  os_m002_region index MEMORY_TYPE_NORMAL (RESULT_PASS N 2)
    "\n      Error in obtaining normal memory for instance %d" ;;
  ret tt.

Definition os_m002_entry (num_pe : Z) : M Z :=
  memory_test (ACS_MEMORY_MAP_TEST_BASE + 2) "B_MEM_01: Mem Access Response in finite time"
    (payload_of "os_m002" os_m002_payload).

(** ** m003: the PE can address all of memory *)

Definition check_number_of_bits (index data : Z) : M Z :=
  let data := Z.land data 0xF in
  if data =? 0 then ret (2 ^ 32)
  else if data =? 0x1 then ret (2 ^ 36)
  else if data =? 0x2 then ret (2 ^ 40)
  else if data =? 0x3 then ret (2 ^ 42)
  else if data =? 0x4 then ret (2 ^ 44)
  else if data =? 0x5 then ret (2 ^ 48)
  else if data =? 0x6 then ret (2 ^ 52)
  else val_set_status index (RESULT_FAIL (ACS_MEMORY_MAP_TEST_BASE + 3) 1) ;; ret 0.

Definition os_m003_payload : M () :=
  let N := ACS_MEMORY_MAP_TEST_BASE + 3 in
  let* index := my_index in
  let* data := val_pe_reg_read ID_AA64MMFR0_EL1 in
  let* value := check_number_of_bits index data in
  let* addr := val_get_max_memory fuel in
  val_set_status index (if addr <? value then RESULT_PASS N 1 else RESULT_FAIL N 2).

Definition os_m003_entry (num_pe : Z) : M Z :=
  let num_pe := 1 in
  let test_num := ACS_MEMORY_MAP_TEST_BASE + 3 in
  let* n := val_pe_get_num in
  let* status := val_initialize_test test_num "B_MEM_05: PE must access all NS addr space  " n in
  (when negb (status =? ACS_STATUS_SKIP) then
     val_run_test_payload fuel test_num num_pe (payload_of "os_m003" os_m003_payload) 0) ;;
  let* status := val_check_for_error test_num num_pe in
  val_report_status 0 (BSA_ACS_END test_num) ;;
  ret status.

(** ** m004: devices address 64 bits or sit behind an SMMU (Linux only) *)

Definition os_m004_device (index count : Z) : M (ctl () ()) :=
  let* bdf := val_peripheral_get_info fuel ANY_BDF count in
  let dev_bdf := u32 bdf in
  let* dev_type := val_pcie_get_device_type dev_bdf in
  if (dev_type =? 0) || (1 <? dev_type) then ret (Continue tt)
  else
  let* data := val_pcie_is_devicedma_64bit dev_bdf in
  if negb (data =? 0) then ret (Continue tt)
  else
  let* behind := val_pcie_is_device_behind_smmu dev_bdf in
  if truthy behind then ret (Continue tt)
  else
  val_print ACS_PRINT_ERR "\n       WARNING:The device with bdf=0x%x" dev_bdf ;;
  val_print ACS_PRINT_ERR "\n       doesn't support 64 bit addressing and is not" 0 ;;
  val_print ACS_PRINT_ERR "\n       behind SMMU. Please install driver for this" 0 ;;
  val_print ACS_PRINT_ERR "\n       device and test again. If driver is already" 0 ;;
  val_print ACS_PRINT_ERR "\n       installed, this test has failed." 0 ;;
  val_print ACS_PRINT_ERR "\n       The device is of type = %d" dev_type ;;
  val_set_status index (RESULT_FAIL (ACS_MEMORY_MAP_TEST_BASE + 4) 1) ;;
  ret (Break tt).

Definition os_m004_payload : M () :=
  let N := ACS_MEMORY_MAP_TEST_BASE + 4 in
  let* index := my_index in
  let* n := val_peripheral_get_info fuel NUM_ALL 0 in
  let count := u32 n in
  if count =? 0 then
    val_print ACS_PRINT_WARN "\n       Skip as No peripherals detected   " 0 ;;
    val_set_status index (RESULT_SKIP N 1)
  else
  let* r := count_down count (fun count _ => os_m004_device index count) tt in
  match r with
  | Break _ => ret tt
  | Continue _ => val_set_status index (RESULT_PASS N 1)
  end.

Definition os_m004_entry (num_pe : Z) : M Z :=
  run_on_one fuel (ACS_MEMORY_MAP_TEST_BASE + 4) "B_MEM_03,B_MEM_04,B_MEM_06: Addressability  " num_pe
    (payload_of "os_m004" os_m004_payload).
End tests.
