(* ===== verification/TestPeripheral.v ===== *)
(** * The peripheral tests

    src/test_pool/peripherals: payloads, handlers and entry points; printing to the UART
    (acs_test_infra.c, pal_misc.c) and the operations of acs_dma.c on DMA memory. *)

From Stdlib Require Import Ascii.
From S2P Require Import Prelude Types World Status Machine PeInfra TestInfra Pcie PcieDevice Memory Peripherals Timer Gic Its GicInt TestEntry TestIrq TestMemory.
#[local] Open Scope c_scope.

Definition WIDTH_BIT8 : Z := 0x1.
Definition WIDTH_BIT16 : Z := 0x2.
Definition WIDTH_BIT32 : Z := 0x4.
Definition BSA_UARTDR : Z := 0x0.
Definition BSA_UARTFR : Z := 0x18.
Definition BSA_UARTIMSC : Z := 0x38.
Definition BSA_UARTRIS : Z := 0x3C.
Definition BSA_UARTMIS : Z := 0x40.
Definition DMA_COHERENT : Z := 0x1.
Definition DMA_NOT_COHERENT : Z := 0x2.

Definition MEM_NORMAL_WB_IN_OUT (attr : Z) : bool :=
  (Z.land attr 0xcc =? 0xcc) || (5 <=? Z.land attr 0x7) && (5 <=? Z.land (Z.shiftr attr 4) 0x7).
Definition MEM_NORMAL_NC_IN_OUT (attr : Z) : bool := attr =? 0x44.
Definition MEM_DEVICE (attr : Z) : bool := Z.land attr 0xf0 =? 0.
Definition MEM_SH_INNER (sh : Z) : bool := sh =? 0x3.

(** Memory for DMA: the address of the buffer and its attributes are written through
    pointers, [None] when they are not. *)
Class PalDmaMemory (D : Type) := {
  pal_dma_mem_alloc : Z -> Z -> Z -> M (world D) (Z * option Z);
  pal_dma_mem_get_attrs : Z -> M (world D) (Z * option (Z * Z))
}.

Section tests.
Context {D : Type} `{Platform D} `{Handlers D} `{Interrupts D} `{Edk2 D} `{EfiInterrupts D}.
Context `{TestHardware D} `{StoreHardware D} `{PalPci D} `{PalDmaMemory D} (fuel : nat).

#[local] Abbreviation M := (M (world D)).

(** ** d001, d002: the interface of the USB and SATA controllers *)

(** The controllers from the last to the first: the class code read from the configuration
    space, where a failed read leaves the variable as it was, and when it is wrong again
    through the platform layer. [None]: the payload has returned. *)
Definition os_d001_controllers (index N bdf_type count : Z) (wrong : Z -> bool)
    (warn recheck unread bad : string) (bad_arg : Z -> Z) : M (option Z) :=
  let fails message arg code : M (ctl Z ()) :=
    val_print ACS_PRINT_ERR message arg ;; val_set_status index (RESULT_FAIL N code) ;; ret (Break tt) in
  let class v := Z.land (Z.shiftr v 8) 0xFF in
  let* r := count_down count (fun k interface =>
    let* b := val_peripheral_get_info fuel bdf_type k in
    let bdf := u32 b in
    let* ' (st, v) := val_pcie_read_cfg bdf 0x8 in
    let interface := class (default interface v) in
    if (st =? PCIE_NO_MAPPING) || wrong interface then
      val_print ACS_PRINT_WARN warn interface ;;
      val_print ACS_PRINT_WARN recheck 0 ;;
      let* ' (st, v) := val_pcie_io_read_cfg bdf 0x8 in
      if st =? PCIE_NO_MAPPING then fails unread 0 2
      else
      let interface := class (default interface v) in
      if wrong interface then fails bad (bad_arg interface) 1
      else ret (Continue interface)
    else ret (Continue interface)) 0 in
  ret (match r with Continue v => Some v | Break _ => None end).

Definition os_d001_payload : M () :=
  let N := ACS_PER_TEST_NUM_BASE + 1 in
  let* count := val_peripheral_get_info fuel NUM_USB 0 in
  let* index := my_index in
  if count =? 0 then val_set_status index (RESULT_SKIP N 1)
  else
  let* r := os_d001_controllers index N USB_BDF count (fun i => (i <? 0x20) || (i =? 0xFF))
    "\n       WARN: USB CTRL ECAM access failed 0x%x  "
    "\n       Re-checking USB CTRL using PciIo protocol       "
    "\n       Reading device class code using PciIo protocol failed "
    "\n       Detected USB CTRL not EHCI/XHCI 0x%x  " (fun i => i) in
  match r with Some _ => val_set_status index (RESULT_PASS N 1) | None => ret tt end.

Definition os_d002_payload : M () :=
  let N := ACS_PER_TEST_NUM_BASE + 2 in
  let* n := val_peripheral_get_info fuel NUM_SATA 0 in
  let count := u32 n in
  let* index := my_index in
  if count =? 0 then val_set_status index (RESULT_SKIP N 1)
  else
  let* r := os_d001_controllers index N SATA_BDF count (fun i => negb (i =? 0x01))
    "       WARN: SATA CTRL ECAM access failed %x \n"
    "       Re-checking SATA CTRL using PciIo protocol\n"
    "       Reading device class code using PciIo protocol failed\n"
    " Detected SATA CTRL not AHCI\n" (fun _ => 0) in
  match r with Some _ => val_set_status index (RESULT_PASS N 1) | None => ret tt end.

Definition os_d001_entry (num_pe : Z) : M Z :=
  run_on_one fuel (ACS_PER_TEST_NUM_BASE + 1) "B_PER_01,B_PER_02: USB CTRL Interface (PCIe)" num_pe
    (payload_of "os_d001" os_d001_payload).

Definition os_d002_entry (num_pe : Z) : M Z :=
  run_on_one fuel (ACS_PER_TEST_NUM_BASE + 2) "B_PER_03: Check SATA CTRL Interface via PCIe" num_pe
    (payload_of "os_d002" os_d002_payload).

(** ** Printing to the UART *)

(** The digits of a number, the lowest first. *)
Fixpoint raw_digits (n : nat) (base data : Z) : list Z :=
  match n with
  | O => []
  | S n => if data =? 0 then [] else data mod base :: raw_digits n base (data / base)
  end.

Definition raw_digit (j : Z) : Z := j + (if 9 <? j then 55 else 48).

(** The digits go to a buffer of 16 and are sent from the last; the loop that sends them
    ends only after it has read the element before the first. *)
Definition raw_number (addr base data : Z) : M () :=
  match raw_digits 64 base data with
  | [] => on_dev (dev_write 1 addr 48)
  | l =>
      if Nat.leb (length l) 16 then
        for_each (length l) 0 (fun k =>
          let* j := need (rev l !! Z.to_nat k) in on_dev (dev_write 1 addr (raw_digit j))) ;;
        fault
      else fault
  end.

Fixpoint pal_print_raw (addr : Z) (s : string) (data : Z) : M () :=
  match s with
  | EmptyString => ret tt
  | String "%"%char EmptyString => fault
  | String "%"%char (String c rest) =>
      (if Ascii.eqb c "d"%char then raw_number addr 10 data
       else if Ascii.eqb c "x"%char || Ascii.eqb c "X"%char then raw_number addr 16 data
       else on_dev (dev_write 1 addr 48)) ;;
      pal_print_raw addr rest data
  | String c rest =>
      on_dev (dev_write 1 addr (Z.of_N (Ascii.N_of_ascii c))) ;;
      pal_print_raw addr rest data
  end.

Definition val_print_raw (level : Z) (s : string) (data : Z) : M () :=
  let* print_level := gets g_print_level in
  when print_level <=? level then
    let* uart_address := val_peripheral_get_info fuel UART_BASE0 0 in
    pal_print_raw uart_address s data.

(** ** d003: the registers and the interrupt of the UARTs *)

Definition os_d003_esr : M () :=
  let* index := my_index in
  let* branch_to_test := static_var "os_d003.branch_to_test" in
  val_pe_update_elr branch_to_test ;;
  val_print ACS_PRINT_ERR "\n       Error : Received Sync Exception " 0 ;;
  val_set_status index (RESULT_FAIL (ACS_PER_TEST_NUM_BASE + 3) 1).

(** After an access that aborts the payload is at its end: [None]. *)
Definition unless_aborted {A B} (m : M (option A)) (k : A -> M (option B)) : M (option B) :=
  let* r := m in match r with Some a => k a | None => ret None end.

#[local] Notation "'let?' x := m 'in' k" := (unless_aborted m (fun x => k))
  (at level 10, x name, m at level 200, k at level 200) : c_scope.

Definition uart_reg_read (offset width_mask : Z) : M (option Z) :=
  let* base := static_var "l_uart_base" in
  let at_width n := load_or_abort os_d003_esr n (u64 (base + offset)) in
  if truthy (Z.land width_mask WIDTH_BIT8) then at_width 1
  else if truthy (Z.land width_mask WIDTH_BIT16) then at_width 2
  else if truthy (Z.land width_mask WIDTH_BIT32) then at_width 4
  else ret (Some 0).

Definition uart_reg_write (offset width_mask data : Z) : M (option ()) :=
  let* base := static_var "l_uart_base" in
  let at_width bit n v : M (option ()) :=
    if truthy (Z.land width_mask bit) then
      let* stored := store_or_abort os_d003_esr n (u64 (base + offset)) v in
      ret (if stored : bool then Some tt else None)
    else ret (Some tt) in
  let? _ := at_width WIDTH_BIT8 1 (u8 data) in
  let? _ := at_width WIDTH_BIT16 2 (u16 data) in
  at_width WIDTH_BIT32 4 (u32 data).

(** The mask register changed outside the payload of the first test: the label an access that
    aborts goes to is then in a function that has returned. *)
Definition uart_set_mask (f : Z -> Z) : M () :=
  let* r :=
    (let? data := uart_reg_read BSA_UARTIMSC WIDTH_BIT32 in
     uart_reg_write BSA_UARTIMSC WIDTH_BIT32 (f data)) in
  need r.

Definition uart_enable_txintr : M () := uart_set_mask (fun data => Z.lor data (Z.shiftl 1 5)).
Definition uart_disable_txintr : M () :=
  uart_set_mask (fun data => Z.land data (not32 (Z.shiftl 1 5))).

(** The status is that of a pass of the first test. *)
Definition os_d003_isr : M () :=
  let* index := my_index in
  uart_disable_txintr ;;
  val_print ACS_PRINT_DEBUG "\n      Received interrupt      " 0 ;;
  val_set_status index (RESULT_PASS (ACS_PER_TEST_NUM_BASE + 3) 0x01) ;;
  let* int_id := static_var "os_d003.int_id" in
  val_gic_end_of_interrupt int_id ;;
  ret tt.

Definition validate_register_readonly (offset width : Z) : M (option Z) :=
  let* index := my_index in
  let at_width bit (k : M (option Z)) : M (option Z) :=
    if truthy (Z.land width bit) then
      let? data := uart_reg_read offset bit in
      let? _ := uart_reg_write offset bit 0xF in
      let? again := uart_reg_read offset bit in
      if negb (data =? again) then
        val_set_status index (RESULT_FAIL (ACS_PER_TEST_NUM_BASE + 3) offset) ;;
        ret (Some ACS_STATUS_ERR)
      else k
    else k in
  at_width WIDTH_BIT8 (at_width WIDTH_BIT16 (at_width WIDTH_BIT32 (ret (Some ACS_STATUS_PASS)))).

(** One UART: whether to go on with the next; [None] after an exception. *)
Definition os_d003_uart (index k : Z) : M (option bool) :=
  let N := ACS_PER_TEST_NUM_BASE + 3 in
  let* base := val_peripheral_get_info fuel UART_BASE0 k in
  set_static "l_uart_base" base ;;
  if base =? 0 then val_set_status index (RESULT_SKIP N 2) ;; ret (Some false)
  else
  let? bad := validate_register_readonly BSA_UARTFR (Z.lor WIDTH_BIT8 (Z.lor WIDTH_BIT16 WIDTH_BIT32)) in
  if truthy bad then ret (Some false)
  else
  let? bad := validate_register_readonly BSA_UARTRIS (Z.lor WIDTH_BIT16 WIDTH_BIT32) in
  if truthy bad then ret (Some false)
  else
  let? bad := validate_register_readonly BSA_UARTMIS (Z.lor WIDTH_BIT16 WIDTH_BIT32) in
  if truthy bad then ret (Some false)
  else
  let? data := uart_reg_read BSA_UARTDR WIDTH_BIT32 in
  let? _ := uart_reg_write BSA_UARTDR WIDTH_BIT32 (Z.lor data 0x0F00) in
  let data := Z.land (Z.shiftr data 8) 0x0F in
  let? again := uart_reg_read BSA_UARTDR WIDTH_BIT32 in
  if negb (data =? Z.land (Z.shiftr again 8) 0x0F) then
    val_print ACS_PRINT_ERR "\n     UARTDR Bits 11:8 are not Read Only" 0 ;;
    val_set_status index (RESULT_FAIL N BSA_UARTDR) ;;
    ret (Some false)
  else
  val_set_status index (RESULT_PASS N 1) ;;
  ret (Some true).

Definition os_d003_payload : M () :=
  let N := ACS_PER_TEST_NUM_BASE + 3 in
  let* n := val_peripheral_get_info fuel NUM_UART 0 in
  let count := u32 n in
  let* index := my_index in
  val_pe_install_esr EXCEPT_AARCH64_SYNCHRONOUS_EXCEPTIONS (symbol "os_d003.esr") ;;
  val_pe_install_esr EXCEPT_AARCH64_SERROR (symbol "os_d003.esr") ;;
  set_static "os_d003.branch_to_test" (symbol "os_d003.exception_taken") ;;
  if count =? 0 then
    val_print ACS_PRINT_WARN "\n        No UART defined by Platform      " 0 ;;
    val_set_status index (RESULT_SKIP N 1)
  else
  count_down count (fun k _ =>
    let* r := os_d003_uart index k in
    ret (match r with Some true => Continue tt | _ => Break tt end)) tt ;;
  ret tt.

(** The counter goes on from one UART to the next. *)
Definition os_d003_interrupt (index k timeout : Z) : M (ctl Z ()) :=
  let N := ACS_PER_TEST_NUM_BASE + 4 in
  let fails message arg code : M (ctl Z ()) :=
    val_print ACS_PRINT_ERR message arg ;; val_set_status index (RESULT_FAIL N code) ;; ret (Break tt) in
  let* gsiv := val_peripheral_get_info fuel UART_GSIV k in
  set_static "os_d003.int_id" (u32 gsiv) ;;
  let* int_id := static_var "os_d003.int_id" in
  if negb (int_id =? 0) then
    val_set_status index (RESULT_PENDING N) ;;
    let* failed := val_gic_install_isr fuel int_id (symbol "os_d003.isr") in
    if truthy failed then fails "\n       GIC Install Handler Failed..." 0 1
    else
    uart_enable_txintr ;;
    let* print_level := gets g_print_level in
    val_print_raw print_level "\nTest Message    " 0 ;;
    let* timeout := await_status fuel index timeout in
    if timeout =? 0 then
      let* int_id := static_var "os_d003.int_id" in
      fails "\n     Did not receive UART interrupt on %d  " int_id 2
    else ret (Continue timeout)
  else val_set_status index (RESULT_SKIP N 3) ;; ret (Continue timeout).

Definition os_d003_payload1 : M () :=
  let* n := val_peripheral_get_info fuel NUM_UART 0 in
  let count := u32 n in
  let* index := my_index in
  if count =? 0 then val_set_status index (RESULT_SKIP (ACS_PER_TEST_NUM_BASE + 4) 1)
  else count_down count (os_d003_interrupt index) TIMEOUT_MEDIUM ;; ret tt.

Definition os_d003_entry (num_pe : Z) : M Z :=
  let num_pe := 1 in
  let test_num := ACS_PER_TEST_NUM_BASE + 3 in
  let test_num2 := ACS_PER_TEST_NUM_BASE + 4 in
  let* status := val_initialize_test test_num "B_PER_05: Check BSA UART register offsets   " num_pe in
  (when negb (status =? ACS_STATUS_SKIP) then
     val_run_test_payload fuel test_num num_pe (payload_of "os_d003" os_d003_payload) 0) ;;
  let* status := val_check_for_error test_num num_pe in
  let* status :=
    if status =? 0 then
      let* n := val_pe_get_num in
      let* status := val_initialize_test test_num2 "B_PER_06: Check GENERIC UART Interrupt      " n in
      (when negb (status =? ACS_STATUS_SKIP) then
         val_run_test_payload fuel test_num2 num_pe (payload_of "os_d003.1" os_d003_payload1) 0) ;;
      val_check_for_error test_num2 num_pe
    else ret status in
  val_report_status 0 (BSA_ACS_END test_num) ;;
  ret status.

(** ** d004: the attributes of DMA memory (Linux only) *)

Definition val_dma_mem_alloc (size dev_index flags : Z) : M (Z * option Z) :=
  let* ap := val_dma_get_info DMA_PORT_INFO dev_index in
  pal_dma_mem_alloc size ap flags.

Definition val_dma_mem_get_attrs (buf : Z) : M (Z * option (Z * Z)) := pal_dma_mem_get_attrs buf.

(** The locals that pointers are given to, and [status]. *)
Record d004_state := mkD004 { d004_buffer : option Z; d004_attrs : option (Z * Z); d004_status : Z }.

Definition os_d004_controller (index dev : Z) (s : d004_state) : M d004_state :=
  let N := ACS_PER_TEST_NUM_BASE + 5 in
  let* coherent := val_dma_get_info DMA_HOST_COHERENT dev in
  let* ' (_, buffer) :=
    val_dma_mem_alloc 512 dev (if truthy coherent then DMA_COHERENT else DMA_NOT_COHERENT) in
  let buffer := match buffer with Some _ => buffer | None => d004_buffer s end in
  let* buf := need buffer in
  let* ' (r, attrs) := val_dma_mem_get_attrs buf in
  let attrs := match attrs with Some _ => attrs | None => d004_attrs s end in
  if truthy r then
    val_print ACS_PRINT_ERR "\n     DMA controller %d: Failed to get memory attributes\n" dev ;;
    ret (mkD004 buffer attrs 1)
  else
  let* ' (attr, sh) := need attrs in
  let good := MEM_NORMAL_WB_IN_OUT attr && MEM_SH_INNER sh in
  if truthy coherent then
    if negb good then
      val_print ACS_PRINT_INFO
        "\n    DMA controler %d: IO Coherent DMA memory should be inner/outer writeback, inner shareable\n" dev ;;
      val_set_status index (RESULT_FAIL N 1) ;;
      ret (mkD004 buffer attrs 1)
    else ret (mkD004 buffer attrs (d004_status s))
  else
    if negb (good || MEM_NORMAL_NC_IN_OUT attr || MEM_DEVICE attr) then
      val_print ACS_PRINT_INFO
        "\n     DMA controler %d: DMA memory should be inner/outer writeback inner shareable, inner/outer non-cacheable, or device type\n" dev ;;
      val_set_status index (RESULT_FAIL N 2) ;;
      ret (mkD004 buffer attrs 1)
    else ret (mkD004 buffer attrs (d004_status s)).

Definition os_d004_payload : M () :=
  let N := ACS_PER_TEST_NUM_BASE + 5 in
  let* index := my_index in
  let* n := val_dma_get_info DMA_NUM_CTRL 0 in
  let target_dev_index := u32 n in
  if target_dev_index =? 0 then
    val_print ACS_PRINT_TEST "\n       No DMA controllers detected...    " 0 ;;
    val_set_status index (RESULT_SKIP N 3)
  else
  let* s := for_acc (Z.to_nat target_dev_index) 0 (fun k =>
    os_d004_controller index (target_dev_index - 1 - k)) (mkD004 None None 0) in
  when d004_status s =? 0 then val_set_status index (RESULT_PASS N 0).

Definition os_d004_entry (num_pe : Z) : M Z :=
  run_on_one fuel (ACS_PER_TEST_NUM_BASE + 5) "B_PER_09,B_PER_10: Memory Attribute of DMA  " num_pe
    (payload_of "os_d004" os_d004_payload).
End tests.
