(* ===== verification/App.v ===== *)
(** * The UEFI application

    src/uefi_app/BsaAcsMain.c: the command line, the tables, the groups of tests in order and
    the totals. The shell library of EDK2 is a class; strings are lists of [CHAR16] codes. *)

From S2P Require Import Prelude Types World Status Machine PeInfra TestInfra Pcie PcieTable PcieDiscovery PcieEnum Memory Timer Peripherals Gic Its GicInt Iovirt SmmuReg SmmuQueue SmmuTables Smmu.
#[local] Open Scope c_scope.

(** The shell: parsing a command line gives a package of its options or an error and the
    option it is about; a file is opened with a status and a handle. *)
Class Shell (D P : Type) := {
  ShellCommandLineParse : D -> (Z * Z + P) * D;
  ShellCommandLineGetFlag : P -> string -> bool;
  ShellCommandLineGetValue : P -> string -> option (list Z);
  StrDecimalToUintn : list Z -> Z;
  ShellOpenFileByName : list Z -> D -> (Z * Z) * D;
  ShellCloseFile : Z -> D -> D;
  HandleLoadedImage : D -> option (Z * Z) * D
}.

Definition BSA_ACS_MAJOR_VER : Z := 0.
Definition BSA_ACS_MINOR_VER : Z := 5.
Definition G_PRINT_LEVEL : Z := ACS_PRINT_TEST.
Definition PE_INFO_TBL_SZ : Z := 8192.
Definition GIC_INFO_TBL_SZ : Z := 8192.
Definition TIMER_INFO_TBL_SZ : Z := 1024.
Definition WD_INFO_TBL_SZ : Z := 512.
Definition MEM_INFO_TBL_SZ : Z := 4096.
Definition IOVIRT_INFO_TBL_SZ : Z := 32768.
Definition PERIPHERAL_INFO_TBL_SZ : Z := 1024.
Definition PCIE_INFO_TBL_SZ : Z := 512.
Definition SHELL_INVALID_PARAMETER : Z := 2.

Section app.
Context {D P : Type} `{Platform D} `{Shell D P}.

#[local] Abbreviation M := (M (world D)).

(** [Print] of the shell shows its line whatever the level; of its values the event keeps the
    first. *)
Definition Print (fmt : string) (data : Z) : M () := emit (Event fmt data).

(** ** The command line *)

(** [g_skip_test_num[j] = v;] in an array of 9. *)
Definition set_skip (j v : Z) : M () :=
  let* l := gets g_skip_test_num in
  let* _ := need (l !! Z.to_nat j) in
  modify (set_g_skip_test_num (<[Z.to_nat j := u32 v]> l)).

(** The value of -skip, a comma-separated list, a character at a time: [j] is the index of
    the last number. *)
Definition skip_step (arg : list Z) (i j : Z) : M Z :=
  set_skip 0 (StrDecimalToUintn arg) ;;
  let* c := need (arg !! Z.to_nat i) in
  if c =? 44 then
    let j := u32 (j + 1) in
    set_skip j (StrDecimalToUintn (drop (Z.to_nat (i + 1)) arg)) ;;
    ret j
  else ret j.

Definition parse_skip (arg : list Z) : M () :=
  for_acc (length arg) 0 (skip_step arg) 0 ;; ret tt.

Definition parse_verbosity (arg : option (list Z)) : M () :=
  match arg with
  | None => modify (set_g_print_level G_PRINT_LEVEL)
  | Some arg =>
      let level := u32 (StrDecimalToUintn arg) in
      modify (set_g_print_level (if 5 <? level then G_PRINT_LEVEL else level))
  end.

Definition parse_views (p : P) : M () :=
  let flag := ShellCommandLineGetFlag p in
  when flag "-os" || flag "-hyp" || flag "-ps" then
    modify (set_g_sw_view [of_bool (flag "-os"); of_bool (flag "-hyp"); of_bool (flag "-ps")]).

(** The log file; a handle of 0 is no file. *)
Definition open_log (arg : option (list Z)) : M Z :=
  match arg with
  | None => ret 0
  | Some name =>
      let* ' (Status, handle) := from_dev (ShellOpenFileByName name) in
      if EFI_ERROR Status then Print "Failed to open log file %s\n" 0 ;; ret 0
      else ret handle
  end.

Definition HelpMsg : M () :=
  Print "\nUsage: Bsa.efi [-v <n>] | [-f <filename>] | [-skip <n>]\nOptions:\n-v      Verbosity of the Prints\n        1 shows all prints, 5 shows Errors\n-f      Name of the log file to record the test results in\n-skip   Test(s) to be skipped\n        Refer to section 4 of BSA_ACS_User_Guide\n        To skip a module, use Model_ID as mentioned in user guide\n        To skip a particular test within a module, use the exact testcase number\n-os     Enable the execution of operating system tests\n-hyp    Enable the execution of hypervisor tests\n-ps     Enable the execution of platform security tests\n" 0.

Context `{PalTables D} `{PalExerciser D} `{TestPool D} `{Edk2 D} (fuel : nat).

(** ** The tables: a status, and the block of the table, 0 when there is none *)

Definition create_table (size : Z) (create : M Z) : M (Z * Z) :=
  let* heap0 := gets heap in
  let* r := from_dev (bs_allocate_pool size heap0) in
  match r with
  | inl Status => Print "Allocate Pool failed %x \n" Status ;; ret (u32 Status, 0)
  | inr p =>
      modify (fun w => set_heap (<[p := size]> (heap w)) w) ;;
      let* Status := create in ret (u32 Status, p)
  end.

Definition createPeInfoTable : M (Z * Z) := create_table PE_INFO_TBL_SZ (val_pe_create_info_table true).
Definition createGicInfoTable : M (Z * Z) :=
  create_table GIC_INFO_TBL_SZ (val_gic_create_info_table fuel true).
Definition configureGicIts : M Z := val_gic_its_configure fuel.
Definition createTimerInfoTable : M (Z * Z) :=
  create_table TIMER_INFO_TBL_SZ (val_timer_create_info_table true ;; ret 0).
Definition createWatchdogInfoTable : M (Z * Z) :=
  create_table WD_INFO_TBL_SZ (val_wd_create_info_table true ;; ret 0).

(** Without the first table the second is not made. *)
Definition createPcieVirtInfoTable : M (Z * Z) :=
  let* ' (Status, pcie) := create_table PCIE_INFO_TBL_SZ (val_pcie_create_info_table fuel true ;; ret 0) in
  if pcie =? 0 then ret (0, 0)
  else
  let* ' (Status, iovirt) :=
    create_table IOVIRT_INFO_TBL_SZ (val_iovirt_create_info_table fuel true ;; ret 0) in
  ret (pcie, iovirt).

Definition createPeripheralInfoTable : M (Z * Z) :=
  let* ' (Status, per) :=
    create_table PERIPHERAL_INFO_TBL_SZ (val_peripheral_create_info_table fuel ;; ret 0) in
  if per =? 0 then ret (0, 0)
  else
  let* ' (Status, mem) := create_table MEM_INFO_TBL_SZ (val_memory_create_info_table ;; ret 0) in
  ret (per, mem).

(** In the order of the calls; the memory table is not among them. *)
Definition freeBsaAcsMem (pe gic timer wd pcie iovirt per : Z) : M () :=
  pal_mem_free pe ;;
  val_gic_free_info_table gic ;;
  pal_mem_free timer ;;
  pal_mem_free wd ;;
  pal_mem_free pcie ;;
  val_iovirt_free_info_table fuel iovirt ;;
  pal_mem_free per ;;
  val_free_shared_mem.

Definition FlushImage : M () :=
  let* r := from_dev HandleLoadedImage in
  match r with
  | None => ret tt
  | Some (ImageBase, ImageSize) => val_pe_cache_clean_range fuel ImageBase ImageSize
  end.

(** ** The groups of tests *)

(** [Print(title); Status |= group(val_pe_get_num(), g_sw_view);] *)
Definition run_group (title : string) (group : Z -> list Z -> M Z) (Status : Z) : M Z :=
  Print title 0 ;;
  let* num_pe := val_pe_get_num in
  let* view := gets g_sw_view in
  let* r := group num_pe view in
  ret (Z.lor Status r).

Definition run_all_groups : M Z :=
  let* Status := run_group "\n      ***  Starting PE tests ***  " val_pe_execute_tests 0 in
  run_group "\n      ***  Starting Memory Map tests ***  " val_memory_execute_tests 0 ;;
  configureGicIts ;;
  let* Status := run_group "\n      ***  Starting GIC tests ***  " (val_gic_execute_tests fuel) Status in
  let* Status := run_group "\n      *** Starting System MMU tests ***  " val_smmu_execute_tests Status in
  let* Status := run_group "\n      *** Starting Timer tests ***  " val_timer_execute_tests Status in
  let* Status :=
    run_group "\n      *** Starting Power and Wakeup semantic tests ***  " val_wakeup_execute_tests Status in
  let* Status := run_group "\n      *** Starting Peripheral tests ***  " val_peripheral_execute_tests Status in
  let* watchdogs := val_wd_get_info 0 WD_INFO_COUNT in
  let* Status :=
    if truthy watchdogs then
      run_group "\n      *** Starting Watchdog tests ***  " val_wd_execute_tests Status
    else ret Status in
  let* Status := run_group "\n      *** Starting PCIe tests ***  " val_pcie_execute_tests Status in
  Print "\n      *** Starting PCIe Exerciser tests ***  " 0 ;;
  let* view := gets g_sw_view in
  let* r := val_exerciser_execute_tests fuel view in
  ret (Z.lor Status r).

(** From the label an unexpected exception resumes at. *)
Definition print_test_status : M () :=
  val_print ACS_PRINT_TEST "\n     ------------------------------------------------------- \n" 0 ;;
  (let* n := gets g_bsa_tests_total in val_print ACS_PRINT_TEST "     Total Tests run  = %4d;" n) ;;
  (let* n := gets g_bsa_tests_pass in val_print ACS_PRINT_TEST "  Tests Passed  = %4d" n) ;;
  (let* n := gets g_bsa_tests_fail in val_print ACS_PRINT_TEST "  Tests Failed = %4d\n" n) ;;
  val_print ACS_PRINT_TEST "     --------------------------------------------------------- \n" 0.

(** The tables, the tests and the totals: the value the application returns. *)
Definition run_suite (log : Z) : M Z :=
  modify (set_g_bsa_tests_total 0) ;;
  modify (set_g_bsa_tests_pass 0) ;;
  modify (set_g_bsa_tests_fail 0) ;;
  Print "\n\n BSA Architecture Compliance Suite \n" 0 ;;
  Print "    Version %d.%d  \n" BSA_ACS_MAJOR_VER ;;
  (let* level := gets g_print_level in Print "\n Starting tests with Print level is %2d\n\n" level) ;;
  Print " Creating Platform Information Tables \n" 0 ;;
  let* ' (Status, pe) := createPeInfoTable in
  if truthy Status then ret Status
  else
  let* ' (Status, gic) := createGicInfoTable in
  if truthy Status then ret Status
  else
  let* sp := from_dev (read_sysreg "AA64ReadSp") in
  val_pe_context_save sp (symbol "print_test_status") ;;
  val_pe_initialize_default_exception_handler (symbol "val_pe_default_esr") ;;
  let* ' (_, timer) := createTimerInfoTable in
  let* ' (_, wd) := createWatchdogInfoTable in
  let* ' (pcie, iovirt) := createPcieVirtInfoTable in
  let* ' (per, _) := createPeripheralInfoTable in
  val_allocate_shared_mem ;;
  FlushImage ;;
  run_all_groups ;;
  print_test_status ;;
  freeBsaAcsMem pe gic timer wd pcie iovirt per ;;
  (when truthy log then on_dev (ShellCloseFile log)) ;;
  Print "\n      *** BSA tests complete. Reset the system. *** \n\n" 0 ;;
  let* sp := gets g_stack_pointer in
  on_dev (write_sysreg "AA64WriteSp" sp) ;;
  val_pe_context_restore sp ;;
  ret 0.

(** A flag with a value always has one: the parser refuses it otherwise. *)
Definition ShellAppMain : M Z :=
  let* r := from_dev ShellCommandLineParse in
  match r with
  | inl (Status, ProbParam) =>
      Print "Shell command line parse error %x\n" Status ;;
      Print "Unrecognized option %s passed\n" ProbParam ;;
      HelpMsg ;;
      ret SHELL_INVALID_PARAMETER
  | inr p =>
      let flag := ShellCommandLineGetFlag p in
      let value := ShellCommandLineGetValue p in
      (when flag "-skip" then let* arg := need (value "-skip") in parse_skip arg) ;;
      parse_verbosity (value "-v") ;;
      parse_views p ;;
      let* log := open_log (value "-f") in
      if flag "-help" || flag "-h" then HelpMsg ;; ret 0
      else run_suite log
  end.
End app.

(** ** What -skip does *)

(** A decimal number as its characters; an element of the array holds 32 bits. *)
Definition digit (c : Z) : Prop := 48 <= c <= 57.
Definition digits_value (ds : list Z) : Z := fold_left (fun v c => 10 * v + (c - 48)) ds 0.
Definition number (ds : list Z) : Prop := ds <> [] /\ Forall digit ds /\ digits_value ds < 2 ^ 32.

(** [n1,n2,...]. *)
Fixpoint comma_list (numbers : list (list Z)) : list Z :=
  match numbers with
  | [] => []
  | [ds] => ds
  | ds :: numbers => ds ++ 44 :: comma_list numbers
  end.

(** What EDK2 documents of [StrDecimalToUintn]: it reads the digits up to the first
    character that is not one. *)
Class ShellLaws (D P : Type) `{Shell D P} : Prop := {
  StrDecimalToUintn_digits : forall ds rest, number ds -> (forall c, head rest = Some c -> ~ digit c) ->
    StrDecimalToUintn (ds ++ rest) = digits_value ds
}.

Section skip.
Context {D P : Type} `{Platform D} `{Shell D P}.

(** The numbers that follow the commas. *)
Fixpoint after_commas (s : list Z) : list Z :=
  match s with
  | [] => []
  | c :: s => if c =? 44 then u32 (StrDecimalToUintn s) :: after_commas s else after_commas s
  end.

Lemma for_acc_step {St A} n i (body : Z -> A -> Prelude.M St A) a s :
  for_acc (S n) i body a s = bind (body i a) (for_acc n (i + 1) body) s.
Proof.
  unfold for_acc, bind. cbn [for_]. unfold bind. destruct (body i a s) as [a' s' o| |]; [|done..].
  cbn. destruct (for_ n (i + 1) _ a' s') as [[a2|[]] s2 o2| |]; [|done..]. cbn. by rewrite !app_nil_r.
Qed.

Lemma set_skip_spec j v (w : world D) :
  set_skip j v w =
    if bool_decide (Z.to_nat j < length (g_skip_test_num w))%nat
    then Ret () (set_g_skip_test_num (<[Z.to_nat j := u32 v]> (g_skip_test_num w)) w) [] else Fault.
Proof.
  unfold set_skip, bind, gets, bind, get, need, modify. cbn.
  case_bool_decide as Hj.
  - destruct (lookup_lt_is_Some_2 _ _ Hj) as [x ->]. reflexivity.
  - by rewrite (lookup_ge_None_2 _ _) by lia.
Qed.

Lemma set_skip_twice l l' (w : world D) :
  set_g_skip_test_num l (set_g_skip_test_num l' w) = set_g_skip_test_num l w.
Proof. reflexivity. Qed.

Lemma take_insert_drop {A} (l r : list A) k v n : (k < length l)%nat ->
  take (S k) (<[k := v]> l) ++ r ++ drop (S k + n) (<[k := v]> l) =
  take k l ++ (v :: r) ++ drop (k + S n) l.
Proof.
  intros Hk. rewrite (take_S_r _ _ v) by (by apply list_lookup_insert_eq).
  rewrite take_insert_ge, drop_insert_lt by lia. rewrite <- app_assoc. cbn.
  by replace (k + S n)%nat with (S (k + n)) by lia.
Qed.

(** From any place in the argument, the first number being in its slot. *)
Lemma scan_commas arg suffix pre j l (w : world D) :
  arg = pre ++ suffix -> l !! 0%nat = Some (u32 (StrDecimalToUintn arg)) -> (j < length l)%nat ->
  Z.of_nat (length l) < 2 ^ 32 ->
  for_acc (length suffix) (Z.of_nat (length pre)) (skip_step arg) (Z.of_nat j) (set_g_skip_test_num l w) =
    let more := after_commas suffix in
    if bool_decide (S j + length more <= length l)%nat
    then Ret (Z.of_nat (j + length more))
           (set_g_skip_test_num (take (S j) l ++ more ++ drop (S j + length more) l) w) []
    else Fault.
Proof.
  intros E. revert suffix pre j l E. intros suffix.
  induction suffix as [|c s IH]; intros pre j l E Hl0 Hj Hl.
  - cbn. rewrite bool_decide_true by lia. by rewrite !Nat.add_0_r, take_drop.
  - assert (Epre : Z.of_nat (length pre) + 1 = Z.of_nat (length (pre ++ [c])))
      by (rewrite length_app; cbn; lia).
    assert (Es : arg = (pre ++ [c]) ++ s) by (by rewrite E, <- app_assoc).
    cbn [length]. rewrite for_acc_step. unfold bind at 1. unfold skip_step at 1. unfold bind at 1.
    rewrite set_skip_spec. wsimpl. rewrite bool_decide_true by (cbn; lia). cbn [Z.to_nat].
    rewrite list_insert_id by done. rewrite Nat2Z.id. rewrite E at 1. rewrite list_lookup_middle by done.
    unfold bind at 1; cbn [need ret]. rewrite Epre, Nat2Z.id. cbn [after_commas].
    destruct (c =? 44) eqn:Ec.
    + rewrite Es at 1. rewrite drop_app_length. unfold bind. rewrite set_skip_spec. wsimpl.
      rewrite u32_id by (unfold fits; lia).
      replace (Z.to_nat (Z.of_nat j + 1)) with (S j) by lia.
      destruct (decide (S j < length l)%nat) as [Hj'|Hj'].
      * rewrite (bool_decide_true (S j < length l)%nat) by done. cbn [ret app].
        replace (Z.of_nat j + 1) with (Z.of_nat (S j)) by lia.
        rewrite !set_skip_twice.
        rewrite IH; [|done|by rewrite list_lookup_insert_ne by lia|by rewrite length_insert..].
        cbn zeta. rewrite length_insert, take_insert_drop by done. cbn [length].
        rewrite (bool_decide_ext _ (S j + S (length (after_commas s)) <= length l)%nat) by lia.
        case_bool_decide; [|done]. f_equal. lia.
      * rewrite (bool_decide_false (S j < length l)%nat) by done.
        cbn zeta. cbn [length]. by rewrite bool_decide_false by lia.
    + unfold bind. cbn [ret]. rewrite set_skip_twice, IH by done. cbn zeta. by case_bool_decide.
Qed.
(** All of it, for an argument that is not empty. *)
Lemma parse_skip_spec arg (w : world D) :
  arg <> [] -> (0 < length (g_skip_test_num w))%nat -> Z.of_nat (length (g_skip_test_num w)) < 2 ^ 32 ->
  parse_skip arg w =
    let l := u32 (StrDecimalToUintn arg) :: after_commas arg in
    if bool_decide (length l <= length (g_skip_test_num w))%nat
    then Ret () (set_g_skip_test_num (l ++ drop (length l) (g_skip_test_num w)) w) [] else Fault.
Proof.
  intros Hne Hpos Hlen. set (l0 := g_skip_test_num w) in *. set (v := u32 (StrDecimalToUintn arg)).
  unfold parse_skip, bind at 1.
  assert (Hfirst : for_acc (length arg) 0 (skip_step arg) 0 w =
    for_acc (length arg) (Z.of_nat (length (@nil Z))) (skip_step arg) (Z.of_nat 0)
      (set_g_skip_test_num (<[0%nat := v]> l0) w)).
  { assert (Hs : forall i j, skip_step arg i j w =
      skip_step arg i j (set_g_skip_test_num (<[0%nat := v]> l0) w)).
    { intros i j. unfold skip_step, bind. rewrite !(set_skip_spec 0). wsimpl.
      change (Z.to_nat 0) with 0%nat. fold l0 v.
      rewrite length_insert. rewrite (bool_decide_true (0 < length l0)%nat) by exact Hpos. rewrite list_insert_insert_eq, set_skip_twice. reflexivity. }
    destruct arg as [|c s]; [done|]. cbn [length]. rewrite !for_acc_step.
    unfold bind. by rewrite Hs. }
  rewrite Hfirst, (scan_commas arg arg [] 0).
  - cbn zeta. rewrite length_insert. cbn [length]. change (1 + ?n)%nat with (S n).
    destruct (decide (S (length (after_commas arg)) <= length l0)%nat) as [Hfit|Hfit];
      [rewrite !bool_decide_true by done|by rewrite !bool_decide_false by done].
    destruct l0 as [|x l0]; [cbn in *; lia|]. done.
  - done.
  - apply list_lookup_insert_eq. lia.
  - rewrite length_insert. lia.
  - by rewrite length_insert.
Qed.

(** *** A list of decimal numbers *)

Context `{!ShellLaws D P}.

Lemma number_no_comma ds : number ds -> 44 ∉ ds.
Proof. intros (_ & Hd & _) Hin. rewrite Forall_forall in Hd. destruct (Hd _ Hin). lia. Qed.

Lemma after_commas_none ds s : 44 ∉ ds -> after_commas (ds ++ s) = after_commas s.
Proof.
  induction ds as [|c ds IH]; intros Hin; [done|]. cbn. apply not_elem_of_cons in Hin as [Hc Hin].
  rewrite (proj2 (Z.eqb_neq c 44)) by congruence. auto.
Qed.

Lemma first_of_list ds numbers : number ds ->
  StrDecimalToUintn (comma_list (ds :: numbers)) = digits_value ds.
Proof.
  intros Hn. destruct numbers as [|d numbers]; cbn [comma_list].
  - pose proof (StrDecimalToUintn_digits ds [] Hn) as E. rewrite app_nil_r in E. by apply E.
  - apply StrDecimalToUintn_digits; [done|]. intros c [= <-]. unfold digit. lia.
Qed.

Lemma digits_value_nonneg ds : Forall digit ds -> 0 <= digits_value ds.
Proof.
  intros Hd. unfold digits_value. enough (Hall : forall v, 0 <= v ->
    0 <= fold_left (fun v c => 10 * v + (c - 48)) ds v) by (by apply Hall).
  induction Hd as [|c ds Hc Hd IH]; intros v Hv; cbn; [done|]. apply IH. unfold digit in Hc. lia.
Qed.

Lemma number_u32 ds : number ds -> u32 (digits_value ds) = digits_value ds.
Proof.
  intros (_ & Hd & Hv). apply u32_id. unfold fits. pose proof (digits_value_nonneg ds Hd). lia.
Qed.

Lemma after_commas_list ds numbers : Forall number (ds :: numbers) ->
  after_commas (comma_list (ds :: numbers)) = map digits_value numbers.
Proof.
  revert ds. induction numbers as [|d numbers IH]; intros ds Hn; apply Forall_cons in Hn as [Hds Hn].
  - pose proof (after_commas_none ds [] (number_no_comma ds Hds)) as E. by rewrite app_nil_r in E.
  - change (comma_list (ds :: d :: numbers)) with (ds ++ 44 :: comma_list (d :: numbers)).
    rewrite after_commas_none by (by apply number_no_comma). cbn [after_commas Z.eqb Pos.eqb].
    pose proof (Forall_inv Hn). rewrite first_of_list, number_u32 by done. cbn [map].
    by rewrite IH.
Qed.

(** C40: the option -skip skips what it lists. In an application that has just started,
    a list of at most nine decimal numbers below 2^32 separated by commas makes the user skip exactly the
    tests and groups of tests with those numbers (10000, which fills the array, aside) and
    changes nothing else; a longer list is written past the end of the array. A larger number
    is cut to 32 bits, and so may skip a test it does not name. *)
Theorem skip_option_exact numbers (w : world D) :
  numbers <> [] -> Forall number numbers -> g_skip_test_num w = replicate 9 10000 ->
  ((length numbers <= 9)%nat ->
     wp (parse_skip (comma_list numbers)) w (fun _ w' =>
       w' = set_g_skip_test_num (g_skip_test_num w') w /\
       forall n, n <> 10000 ->
         eval (user_skips n) w' (existsb (fun ds => digits_value ds =? n) numbers) w')) /\
  ((9 < length numbers)%nat -> parse_skip (comma_list numbers) w = Fault).
Proof.
  intros Hne Hn Hw. destruct numbers as [|ds numbers]; [done|]. clear Hne.
  assert (Hds : number ds) by (by apply Forall_inv in Hn).
  assert (Hcl : comma_list (ds :: numbers) <> []).
  { destruct Hds as (Hds & _). destruct ds; [done|]. by destruct numbers. }
  assert (Hspec := parse_skip_spec (comma_list (ds :: numbers)) w Hcl).
  rewrite Hw, first_of_list, number_u32, after_commas_list in Hspec by done.
  cbn zeta in Hspec. rewrite <- (map_cons digits_value ds numbers) in Hspec.
  rewrite length_map, length_replicate in Hspec. specialize (Hspec ltac:(lia) ltac:(done)).
  split; intros Hlen.
  - unfold wp. rewrite Hspec, bool_decide_true by done. cbn beta iota. split; [done|]. intros n Hn10.
    assert (He : forall l, existsb (fun x => x =? n) (map digits_value l) =
                           existsb (fun ds => digits_value ds =? n) l)
      by (intros l; induction l as [|d l IH]; cbn; [done|by rewrite IH]).
    set (w1 := set_g_skip_test_num _ w).
    replace (existsb _ _) with (existsb (fun x => x =? n) (g_skip_test_num w1)); [apply eval_user_skips|].
    + change (Z.to_nat MAX_TEST_SKIP_NUM) with 9%nat. cbn.
      rewrite length_app, length_map, length_drop. cbn in *. lia.
    + cbn [w1 g_skip_test_num set_g_skip_test_num]. rewrite existsb_app, He, drop_replicate.
      replace (existsb _ (replicate _ _)) with false; [by rewrite orb_false_r|]. symmetry.
      generalize (9 - length (ds :: numbers))%nat as k. intros k. induction k as [|k IH]; [done|].
      cbn [replicate existsb]. rewrite IH. by rewrite (proj2 (Z.eqb_neq 10000 n)) by congruence.
  - rewrite Hspec. by rewrite bool_decide_false by lia.
Qed.
End skip.

(** A shell on the machine of the witnesses: a package is a list of options with values. *)
Definition decimal (s : list Z) : Z :=
  (fix go v s := match s with
     | c :: s => if (48 <=? c) && (c <=? 57) then go (10 * v + (c - 48)) s else v
     | [] => v
     end) 0 s.

#[export] Instance machine_shell : Shell machine (list (string * list Z)) := {
  ShellCommandLineParse d := (inr [("-skip", [52; 44; 50; 49; 51])], d);
  ShellCommandLineGetFlag p s := existsb (fun o => String.eqb (fst o) s) p;
  ShellCommandLineGetValue p s := option_map snd (List.find (fun o => String.eqb (fst o) s) p);
  StrDecimalToUintn := decimal;
  ShellOpenFileByName _ d := ((0, 1), d);
  ShellCloseFile _ d := d;
  HandleLoadedImage d := (None, d)
}.

#[export] Instance machine_shell_laws : ShellLaws machine (list (string * list Z)).
Proof.
  split. intros ds rest (_ & Hd & _) Hrest. cbn [StrDecimalToUintn machine_shell].
  unfold decimal, digits_value. generalize 0 as v. induction Hd as [|c ds Hc Hd IH]; intros v.
  - cbn [app fold_left]. destruct rest as [|c rest]; [done|]. specialize (Hrest c eq_refl).
    unfold digit in Hrest. by replace ((48 <=? c) && (c <=? 57)) with false by lia.
  - cbn [app fold_left]. unfold digit in Hc. replace ((48 <=? c) && (c <=? 57)) with true by lia. apply IH.
Qed.

(** [-skip 4,213] on a command line. *)
Lemma skip_option_exact_witness :
  wp (parse_skip (comma_list [[52]; [50; 49; 51]])) (boot ∅ ∅) (fun _ w' =>
    eval (user_skips 213) w' true w' /\ eval (user_skips 5) w' false w').
Proof.
  eapply wp_mono.
  - apply (skip_option_exact [[52]; [50; 49; 51]] (boot ∅ ∅)).
    + discriminate.
    + repeat constructor; unfold digit; try discriminate; lia.
    + reflexivity.
    + cbn. lia.
  - intros [] w' [_ Hs]. split; [exact (Hs 213 ltac:(lia))|exact (Hs 5 ltac:(lia))].
Defined.
